(* ===== verification/_CoqProject ===== *)
-Q . S2P
Prelude.v
PyDate.v
PyFloat.v
FloatFacts.v
PyValue.v
Calendar.v
CalendarFacts.v
MarketClock.v
Readiness.v
Pacing.v
PacingFacts.v
Canonical.v
CanonicalFacts.v
PyDecimal.v
PriceBars.v
PriceBarFacts.v
TargetStop.v
Outcomes.v
OutcomeFacts.v
OutcomeLedger.v
WinnerExamples.v
WorkScope.v
Signals.v
ScoreWarnings.v
CombinedDecision.v
CombinedFacts.v
CombinedRun.v
CombinedExamples.v
FloatRange.v
RankingRules.v
RankingEngine.v
RankingFacts.v
RankingRun.v
RankingExamples.v
MarketRegime.v
SectorRotation.v
SectorFacts.v
MarketExamples.v
TemporalValidity.v
TemporalFacts.v
TemporalExamples.v
CsvImport.v
CsvFacts.v
UploadRun.v
UploadFacts.v
UploadExamples.v
Fundamentals.v
FundamentalFacts.v
FundamentalExamples.v
PipelineOutcome.v
Eligibility.v
Adapters.v
AdapterFacts.v
Confidence.v
Lifecycle.v
LifecycleFacts.v
LifecycleExamples.v
Tables.v
Queues.v
Redaction.v
PipelineStates.v
JobRows.v
JobLease.v
JobQueue.v
SemanticAuthority.v
SemanticFacts.v
PipelineDependencies.v
DependencyFacts.v
PipelineAudit.v
JobRecovery.v
JobInvariant.v
JobFacts.v
JobRefinement.v
JobGuarantees.v
JobExamples.v
DependencyExamples.v
SignalChanges.v
SignalChangeFacts.v
Alerts.v
AlertFacts.v
