(* ===== verification/Prelude.v ===== *)
(** * SwingLens: a verification development

    SwingLens ([src/app]) ranks stocks for swing trading.  A durable queue of
    background jobs drives a pipeline of calculation stages; the market clock decides
    which trading session a calculation belongs to; the setup lifecycle engine turns
    the calculated signals of a ticker into a state (DISCOVERED ... FAILED) and a
    recommendation (ACTIONABLE, WATCH_ONLY, ...); what changed between two snapshots of a
    ticker is recorded and may raise alerts.  Work is admitted under semantic
    identities (scope, refresh cycle, acquisition plan) that are fingerprints of
    canonical evidence, and requests to the broker are paced.  Companies come from
    uploaded tables; their fundamentals are scored, the fundamental and technical scores are
    combined into decisions, and every ranking profile ranks the companies; the regime of the
    market and the rotation of sectors say what may be traded; fetched price bars are cached
    with their revisions, and the outcomes of earlier predictions mature from them, under a
    ledger that says which predictions were decided in time.  This library models those parts
    and the services they share, and proves what makes them correct.

    ** Conventions

    Python functions are Rocq functions with the names of the source.  A function that
    can raise returns [result]; a handler that writes to the database or to a worker's
    copy of a row is a computation of the monad [ST] over that store, which keeps the
    writes made before an exception.  Numbers of Python are [Z]; floats are IEEE
    binary64 numbers, executable ([PyFloat]); JSON columns and signal values are
    dynamic values ([PyValue]); dates and instants are integers ([PyDate]).  What the
    program takes from outside its sources, and a few services that are not modelled,
    are operations of classes ([JobRows.Collaborators], [JobInvariant.PipelineRollups],
    [PipelineDependencies.DependencyCollaborators], [Readiness.CanonicalEvidence],
    [Canonical.JsonText], [WorkScope.UnicodeText], [Signals.PyText], [Pacing.Clock],
    [Pacing.Retry.FloatPower], [PriceBars.BarText], [Outcomes.OutcomeAuthority],
    [CombinedDecision.CombinedAuthority], [UploadRun.UploadServices],
    [RankingEngine.RankingAuthority], [RankingRun.RankingServices], [SignalChanges.ChangeText],
    [Alerts.AlertAuthority]) or section variables (the
    New York wall clock [ny_wall] and [ny_utc], the wall clock of a database session
    [session_utc], the text substitution [redact_text], the digest of a configuration
    [json_digest]); the files of examples instantiate them.

    ** Shared layers

    - [Prelude]: exceptions, the error and state monads, stable sorting, invariants of
      stateful operations with the tactics [preserve] and [use_preserves].
    - [PyDate], [PyFloat], [PyValue]: the parts of the language and its library that
      the program uses: the proleptic calendar, floats with their order theory,
      dictionaries, strings, numerals and ISO timestamps.  [FloatFacts] has what the
      pacing needs of float subtraction and the order of numbers, [FloatRange] that
      conversions give numbers and that a clamped score stays in its range when it is rounded; [PyDecimal] is the decimal arithmetic of 28 digits, with the monotonicity
      of its rounding.

    ** Market calendar and clock

    - [Calendar] is [services/us_market_calendar.py]; [CalendarFacts] bounds the gap
      between trading days and proves that each search of the calendar
      terminates and returns the day it should, for the years 2 to 9998.
    - [MarketClock] is [services/market_clock_service.py]: cutoffs, session distances
      and the session of a timestamp.

    ** Pacing

    - [Pacing] has the restart budget of the supervisor ([supervisor_restart.py]), the
      sliding windows and the broker budget ([ib_market_intelligence/request_budget.py]),
      the historical-data limiter ([ib_rate_limiter.py]) and retry with back-off
      ([ib_market_intelligence/resilience.py]).  [PacingFacts] proves that a window never
      exceeds its limit, that the budget stays consistent, that a wait ends and sleeps
      exactly what was asked, that retries are bounded and a crash loop is detected.

    ** Canonical evidence and semantic identities

    - [Canonical] is [canonical_evidence.py]; [CanonicalFacts] proves that
      canonicalization is idempotent, that the shortcut for plain JSON and the
      incremental writer agree with it, and that fingerprints ignore order; it
      discharges the interface that [Readiness] is proved against.
    - [WorkScope] is [work_scope_identity.py] and [SemanticAuthority] is
      [scope_refresh_adoption.py]; [WorkScope] and [SemanticFacts] prove that
      admission can be replayed, ignores the order of its arguments and only adds
      records, that an owner is bound once, that continuations of a scope come to an end
      and that required children are accounted for.

    ** Setup lifecycle ([services/setup_lifecycle])

    - [Readiness] is [producer_readiness.py] and the policies of
      [technical_consumer_eligibility.py] and [contextual_consumer_eligibility.py];
      [Eligibility] reads the recorded permissions of a snapshot.  Proved: the payload
      round trip, the technical gate from the policy to the recorded decision, and the
      scope and idempotence of the contextual permissions.
    - [Signals] and [Adapters] are [family_adapters.py] and the five adapters;
      [AdapterFacts] shows that their evidence is consistent and that the primary
      family is the first of the ranked candidates.
    - [Confidence] is [confidence_service.py]; [Lifecycle] is [lifecycle_engine.py] and
      [actionability_policy.py].  [LifecycleFacts] proves: no look-ahead in histories,
      terminal states are absorbing along every trace, state changes are justified by
      evidence, confirmation needs persistence, ready setups are sticky, a technical
      block is final, and a setup is actionable exactly when every gate passes.
      [LifecycleExamples] runs the engine with the shipped configuration.

    ** Signal changes and alerts ([services/setup_lifecycle])

    - [SignalChanges] is [signal_registry.py], [change_detector.py], the native check of
      [change_authority.py] and the change ledger of [repository.py].  [SignalChangeFacts]
      proves that a loaded registry is well formed, that equal signals are silent, that only
      a close-authoritative trigger that came on is actionable, that a repeated detection
      finds every event of the first one again and writes nothing, and that the ledger keeps
      one row per key; it has two days of one ticker.
    - [Alerts] is [alert_service.py] with the decision evidence of [decision_evidence.py] and
      the native checks of [decision_mutation_authority.py].  [AlertFacts] proves that a raised
      alert respects the cooldown of its rule, that its event never raises it again, that the
      service and the authority agree, that every match is counted once, and that the check
      for reconstructed snapshots never holds; it has the built-in rule for degraded data.

    ** Prices and outcomes

    - [PriceBars] is [bar_cache_service.cache_bars] and
      [price_series_version_service.py].  [PriceBarFacts] proves the invariant of the
      cache and its revision ledger, that a series gets a new version exactly when one of
      its bars changed, and that fetching the same bars again changes nothing.
    - [TargetStop] has the outcome rows of [models/tables.py] and
      [winner_probability/target_stop_service.py], with the theorem that its scan finds
      the first bar that reaches the target or the stop; [Outcomes] is
      [trading_session_service.py], the session and basis functions of
      [market_data_obligation_service.py] and the processing of one outcome in
      [outcome_service.py] and [outcome_revision_service.py].
    - [OutcomeFacts] proves that the metrics of a calculation are consistent and that it
      uses a complete horizon; [OutcomeLedger] that the revisions of outcomes and targets
      form a ledger in which one row per execution is current, that matured rows are
      complete, that nothing matures before its horizon is over, and what a recheck with
      missing bars does to a matured row.  [WinnerExamples] matures an outcome.

    ** Uploads and combined decisions

    - [CsvImport] is [csv_loader.py] with the strict reader of Python's [csv] as a state
      machine, [column_mapper.py] and [validation_service.py]; [UploadRun] is
      [numeric_parser.py] and [upload_service.create_upload_run].  [CsvFacts] proves that
      a written table loads back whatever its cells contain, the shape of loaded rows,
      that every failure is a load error and that the mapping ignores the order of sets;
      [UploadFacts] that an upload is stored whole or not at all, and what a row without
      a ticker does.  [UploadExamples] has runs.
    - [ScoreWarnings] is [earnings_risk_service.py], [warning_flag_service.py],
      [confidence_service.py] and [cockpit_sorting.py]; [CombinedDecision] is
      [combined_decision.py].  [CombinedFacts] proves the bounds of the score, the windows
      of the earnings gate and the gates an entry recommendation passes; [CombinedRun]
      that a refresh ranks a run in cockpit order, replaces its results and keeps the
      tables consistent through exceptions.  [CombinedExamples] has the configured
      weights and a score that its evidence does not reconstruct.

    ** Fundamental scores

    - [Fundamentals] is, in three modules, [fundamental_components_v2.py], ten scores of the
      cells of a row (Components); the validation of the configuration (FundConfig) and the
      score in [fundamental_ranker_v2.py], with [fundamental_coverage_service.py] and
      [fundamental_warning_service.py] (Fundamental).
    - [FundamentalFacts] proves that under a configuration that loads every row is scored,
      with every score between 0 and 10, and that risk flags decide the label before the
      score does; it has the stored columns of [upload_service.py] and the scoring service that
      [UploadRun] asks for, with the theorem that an accepted upload is scored row by row.
      [FundamentalExamples] has the shipped configuration.

    ** Ranking profiles

    - [RankingRules] is [ranking_profile_config.py], [ranking_profile_components.py],
      [ranking_profile_penalties.py] and [ranking_profile_gates.py]; [RankingEngine] is
      [ranking_profile_engine.py]; [RankingRun] is [ranking_profile_service.py], the rankings
      of a run and their storage.
    - [RankingFacts] proves that loaded profiles are well formed, that an entry passes every
      gate and that the ranking of a run is complete and ordered; [RankingRun] that a
      refresh keeps one ranking per profile and ticker and writes all of them.
      [RankingExamples] has a shipped profile and a ranking that outlives its row.

    ** Market regime and sector rotation

    - [MarketRegime] is [market_regime.py] and [market_regime_policy.py]; proved: when the
      gate of a classification closes, and that the policy of every classification exists and
      is bounded.
    - [SectorRotation] is [sector_rotation_config.py], [sector_taxonomy.py],
      [sector_rotation_policy.py] and the ranking of [sector_rotation_service.py].
      [SectorFacts] proves that every sector gets a decision under the configuration's
      conditions, what the policy on missing ETF scores does, that the ranking is a permutation
      in the order of its key, and that sector names settle on canonical ones.  [MarketExamples] has the shipped configurations.

    ** Temporal validity of predictions ([winner_probability])

    - [TemporalValidity] is [temporal_integrity.py], [temporal_validation_service.py],
      [temporal_eligibility.py] and [training_eligibility.py], with the round trip of the stored
      training decision.
    - [TemporalFacts] proves the invariant of the ledger over all sequences of operations,
      that certification is positive and comes first, that a quarantine decides, that an
      eligible prediction was decided in time, and that the SQL predicate agrees with the
      Python one in a New York session; [TemporalExamples] what it does in other sessions.

    ** Background jobs and pipelines

    - [Tables] has the rows of [models/tables.py] that the queue reads, and the store.
    - [Queues] is [services/background_queue.py],
      [pipeline_stage_registry.py] and [pipeline_execution_authority.py]; [Redaction] is
      [redaction.py]; [PipelineStates] is [pipeline_state_machine.py].
    - [services/background_job_service.py] is split: [JobRows] computes on one row
      (unique indexes, lease events, attempts, failure classification); [JobLease] is
      what a worker does with the job it holds; [JobQueue] enqueues, claims, records
      progress and cancels; [JobRecovery] is the watchdog, the requeueing of stalled
      jobs, the reconciliation of a lost worker and the recovery of expired leases.
    - [PipelineOutcome] is [pipeline_outcome.py]; [PipelineDependencies] is
      [pipeline_dependency_service.py] and the cancellation of [pipeline_service.py];
      [PipelineAudit] is [pipeline_invariant_service.py].  [DependencyFacts] proves the
      invariant of the dependency table over all sequences of operations, that links are
      written once, that a child is enqueued once and that a lost root fails its
      pipeline; [PipelineAudit] what the audit reports and what a cancellation overlooks;
      [DependencyExamples] runs a dependency from its preparation to the continuation.
    - [JobInvariant] defines the queue invariant and proves it of every operation;
      [JobFacts] has the invariant of all interleavings, fencing of stale holders,
      correctness of claims and idempotence of enqueues; [JobGuarantees] the accounting
      of failures, the safety of the watchdog, and that no recovery revives a cancelled
      job; [JobRefinement] an abstract lease protocol that the queue refines;
      [JobExamples] has the theorems on progress and stalls and concrete runs.

    Concurrency is modelled by interleaving: every operation is one transaction on the
    store; the rows that other transactions have locked ([SKIP LOCKED]) are a parameter
    of the operations that skip them, the store seen by the look-ups of an enqueue may
    differ from the one it inserts into, and the watchdog's observation may be older
    than the row it locks.

    ** Fuel

    The loops of the calendar carry fuel: a search for a trading day looks at four days
    (any four consecutive days hold a trading day, [CalendarFacts]), the search for
    a market open at one day more, a weekday search at seven days, and a count of
    sessions takes at most one step per day of its interval.  The incremental writer of
    canonical evidence takes the depth of the evidence; a guarded wait takes one step per
    quarter of a second and two more, enough below 2^51 seconds; a request budget reads
    the clock once per step, and the number of readings is an argument.  The loops over the
    sessions of an outcome take one step per day of their interval; the batches of a
    refresh and the scan for currency symbols take at most one step per element.
    [OutOfFuel] is
    no exception of the program and the correctness theorems show that it is never
    returned, or hold for every number of readings.  All other recursion is structural.

    ** Not modelled

    Database and network I/O, metrics and logging, and the web application, whose routes
    call the services of this library; the certification runtime and configuration delivery
    (their scopes are operations of [Collaborators]); the branches for schemas that predate
    a migration; the indicators computed over price series with numerical libraries, and the
    training of models.  Of the outcomes, the selection of due rows and the market-data
    obligations; of an upload, the decoding of bytes and the names of files.  Of the setup
    lifecycle, the rows of episodes and the selection of canonical snapshots, which store
    the decisions modelled here; of changes and alerts, what pins an event to retained
    source artifacts.  Of the pipelines, their creation and the executor: a sequence of
    calls into the other services over the database. *)
From Stdlib Require Import ZArith Lia String Ascii List Bool.
From stdpp Require Import base gmap list sorting strings.

Declare Scope py_scope.
Delimit Scope py_scope with py.
#[global] Open Scope Z_scope.

(** ** Python exceptions and the error monad

    A Python call either returns a value or raises an exception, which is
    recorded by its class name and its message.  [OutOfFuel] is the one value
    that is no exception of the program: a fuelled loop that has not finished
    yields it, and the totality theorems show that it never does. *)
Inductive exn :=
  | Exn (cls : string) (msg : string)
  | OutOfFuel.

Inductive result (A : Type) :=
  | Ok (a : A)
  | Raise (e : exn).
Arguments Ok {A} a.
Arguments Raise {A} e.

#[export] Instance exn_eq_dec : EqDecision exn.
Proof. solve_decision. Defined.
#[export] Instance result_eq_dec `{EqDecision A} : EqDecision (result A).
Proof. solve_decision. Defined.

#[export] Instance result_ret : MRet result := fun A a => Ok a.
#[export] Instance result_bind : MBind result := fun A B f m =>
  match m with Ok a => f a | Raise e => Raise e end.
#[export] Instance result_fmap : FMap result := fun A B f m =>
  match m with Ok a => Ok (f a) | Raise e => Raise e end.

Definition raise {A} (cls msg : string) : result A := Raise (Exn cls msg).
Definition ValueError {A} (msg : string) : result A := raise "ValueError" msg.

Definition is_ok {A} (r : result A) : bool :=
  match r with Ok _ => true | Raise _ => false end.

Lemma Ok_inj {A} (a b : A) : Ok a = Ok b -> a = b.
Proof. congruence. Qed.

Lemma result_bind_Ok {A B} (m : result A) (f : A -> result B) b :
  m ≫= f = Ok b <-> exists a, m = Ok a /\ f a = Ok b.
Proof. destruct m; simpl; naive_solver. Qed.

(** Inversion of a computation that returned: [unbind E as x H] names the value of its first
    step and the equation that step satisfies. *)
Tactic Notation "unbind" hyp(E) "as" ident(x) ident(H) := apply result_bind_Ok in E as (x & H & E).
Tactic Notation "unbind" hyp(E) :=
  let ignored := fresh "ignored" in apply result_bind_Ok in E as (ignored & _ & E).

(** ** State and exceptions

    A handler runs against a store: it returns a value or raises, and the store
    keeps the changes made so far either way. *)
Definition ST (S A : Type) : Type := S -> result A * S.

Definition st_ret {S A} (a : A) : ST S A := fun s => (Ok a, s).
Definition st_raise {S A} (cls msg : string) : ST S A := fun s => (raise cls msg, s).
Definition st_bind {S A B} (m : ST S A) (f : A -> ST S B) : ST S B := fun s =>
  match m s with
  | (Ok a, s) => f a s
  | (Raise e, s) => (Raise e, s)
  end.
Definition st_get {S} : ST S S := fun s => (Ok s, s).
Definition st_modify {S} (f : S -> S) : ST S unit := fun s => (Ok tt, f s).
Definition st_lift {S A} (r : result A) : ST S A := fun s => (r, s).

Declare Scope st_scope.
Delimit Scope st_scope with st.
Notation "'let!' x := m 'in' k" := (st_bind m (fun x => k))
  (at level 10, x name, m at level 100, k at level 200) : st_scope.
Notation "'do!' m 'in' k" := (st_bind m (fun _ => k))
  (at level 10, m at level 100, k at level 200) : st_scope.

Lemma st_bind_Ok {S A B} (m : ST S A) (f : A -> ST S B) s b s' :
  st_bind m f s = (Ok b, s') <-> exists a s1, m s = (Ok a, s1) /\ f a s1 = (Ok b, s').
Proof. unfold st_bind. destruct (m s) as [[] ?]; naive_solver. Qed.

Lemma st_bind_Raise {S A B} (m : ST S A) (f : A -> ST S B) s e s' :
  st_bind m f s = (Raise e, s') <->
  m s = (Raise e, s') \/ exists a s1, m s = (Ok a, s1) /\ f a s1 = (Raise e, s').
Proof. unfold st_bind. destruct (m s) as [[] ?]; naive_solver. Qed.

Lemma st_lift_Ok {S A} (r : result A) (s : S) a s' : st_lift r s = (Ok a, s') -> r = Ok a /\ s' = s.
Proof. unfold st_lift. intros E. by simplify_eq. Qed.

(** [for x in xs: body(x)]. *)
Fixpoint st_for {S A} (xs : list A) (body : A -> ST S unit) : ST S unit :=
  match xs with
  | [] => st_ret tt
  | x :: xs => st_bind (body x) (fun _ => st_for xs body)
  end.

(** A loop that carries an accumulator. *)
Fixpoint st_fold {S A B} (xs : list A) (acc : B) (body : B -> A -> ST S B) : ST S B :=
  match xs with
  | [] => st_ret acc
  | x :: xs => st_bind (body acc x) (fun acc => st_fold xs acc body)
  end.

(** An invariant of the store that every iteration keeps is kept by the loop. *)
Lemma st_fold_invariant {S A B} (I : S -> Prop) (xs : list A) (body : B -> A -> ST S B) :
  (forall acc x s r s', In x xs -> I s -> body acc x s = (r, s') -> I s') ->
  forall acc s r s', I s -> st_fold xs acc body s = (r, s') -> I s'.
Proof.
  induction xs as [|x xs IH]; intros Hb acc s r s' Hs H; simpl in H.
  - unfold st_ret in H. by simplify_eq.
  - unfold st_bind in H. destruct (body acc x s) as [[acc'|e] s1] eqn:E.
    + eapply IH; [|eapply (Hb acc x s); eauto; by left|exact H].
      intros; eapply (Hb _ x0); eauto. by right.
    + simplify_eq. eapply Hb; eauto. by left.
Qed.

(** ** Stable sorting

    [sorted(xs, key=...)] and [ORDER BY], for a boolean comparison. *)
Fixpoint insert_by {A} (leb : A -> A -> bool) (x : A) (l : list A) : list A :=
  match l with
  | [] => [x]
  | y :: l' => if leb x y then x :: l else y :: insert_by leb x l'
  end.
Definition sort_by {A} (leb : A -> A -> bool) (l : list A) : list A :=
  foldr (insert_by leb) [] l.

Lemma insert_by_Permutation {A} (leb : A -> A -> bool) x l : insert_by leb x l ≡ₚ x :: l.
Proof.
  induction l as [|y l IH]; simpl; [done|]. destruct (leb x y); [done|].
  rewrite IH. constructor.
Qed.

Lemma sort_by_Permutation {A} (leb : A -> A -> bool) l : sort_by leb l ≡ₚ l.
Proof. induction l as [|x l IH]; simpl; [done|]. by rewrite insert_by_Permutation, IH. Qed.

Lemma sort_by_In {A} (leb : A -> A -> bool) l x : In x (sort_by leb l) <-> In x l.
Proof. by rewrite <- !list_elem_of_In, sort_by_Permutation. Qed.

(** The comparison has to be a total preorder only on the elements that occur. *)
Section SortByOn.
Context {A : Type} (leb : A -> A -> bool) (P : A -> Prop).
Context (leb_total : forall x y, P x -> P y -> leb x y = false -> leb y x = true)
        (leb_trans : forall x y z, P x -> P y -> P z ->
           leb x y = true -> leb y z = true -> leb x z = true).

Lemma insert_by_sorted_on x l :
  P x -> Forall P l -> StronglySorted (fun a b => leb a b = true) l ->
  StronglySorted (fun a b => leb a b = true) (insert_by leb x l).
Proof.
  intros Hx. induction l as [|y l IH]; intros HP H; simpl; [repeat constructor|].
  apply StronglySorted_inv in H as [Hl Hy]. apply Forall_cons in HP as [HPy HPl].
  destruct (leb x y) eqn:E.
  - constructor; [by constructor|]. constructor; [done|].
    rewrite Forall_forall in *. intros z Hz. apply (leb_trans x y z); auto.
  - constructor; [auto|]. rewrite insert_by_Permutation. constructor; auto.
Qed.

(** The result of a sort is in order; in particular its head is a least element. *)
Lemma sort_by_sorted_on l :
  Forall P l -> StronglySorted (fun a b => leb a b = true) (sort_by leb l).
Proof.
  induction 1 as [|x l Hx Hl IH]; simpl; [constructor|]. apply insert_by_sorted_on; [done| |done].
  fold (sort_by leb l). by rewrite sort_by_Permutation.
Qed.
End SortByOn.

Section SortBy.
Context {A : Type} (leb : A -> A -> bool).
Context (leb_total : forall x y, leb x y = false -> leb y x = true)
        (leb_trans : forall x y z, leb x y = true -> leb y z = true -> leb x z = true).

Lemma sort_by_sorted l : StronglySorted (fun a b => leb a b = true) (sort_by leb l).
Proof. apply (sort_by_sorted_on leb (fun _ => True)); eauto. by apply Forall_true. Qed.

Lemma sort_by_head l x rest :
  sort_by leb l = x :: rest -> In x l /\ forall y, In y l -> leb x y = true \/ x = y.
Proof.
  intros H. pose proof (sort_by_sorted l) as Hs. rewrite H in Hs.
  apply StronglySorted_inv in Hs as [_ Hx]. rewrite Forall_forall in Hx.
  split.
  - apply (sort_by_In leb). rewrite H. by left.
  - intros y Hy. apply (sort_by_In leb) in Hy. rewrite H in Hy. destruct Hy as [->|Hy]; [by right|].
    left. apply Hx. by apply list_elem_of_In.
Qed.
End SortBy.

(** Sorting an ordered list changes nothing. *)
Lemma sort_by_id {A} (leb : A -> A -> bool) l :
  StronglySorted (fun a b => leb a b = true) l -> sort_by leb l = l.
Proof.
  induction 1 as [|x l Hl IH Hx]; simpl; [done|]. rewrite IH. clear IH Hl.
  destruct l as [|y l]; simpl; [done|]. apply Forall_cons in Hx as [-> _]. done.
Qed.

Lemma remove_dups_id `{EqDecision A} (l : list A) : NoDup l -> remove_dups l = l.
Proof.
  induction 1 as [|x l Hx Hl IH]; simpl; [done|]. destruct (decide_rel _ x l); [done|]. by rewrite IH.
Qed.

Lemma ascii_compare_trans_lt a b c :
  Ascii.compare a b = Lt -> Ascii.compare b c = Lt -> Ascii.compare a c = Lt.
Proof. unfold Ascii.compare. rewrite !N.compare_lt_iff. lia. Qed.

(** The order of strings is transitive. *)
Lemma string_leb_trans s t u :
  String.leb s t = true -> String.leb t u = true -> String.leb s u = true.
Proof.
  unfold String.leb. revert t u.
  induction s as [|a s IH]; intros [|b t] [|c u]; simpl; try done.
  specialize (IH t u).
  destruct (Ascii.compare a b) eqn:E1; destruct (Ascii.compare b c) eqn:E2; try done; intros H1 H2.
  - apply Ascii.compare_eq_iff in E1 as ->. rewrite E2. auto.
  - apply Ascii.compare_eq_iff in E1 as ->. by rewrite E2.
  - apply Ascii.compare_eq_iff in E2 as ->. by rewrite E1.
  - by rewrite (ascii_compare_trans_lt _ _ _ E1 E2).
Qed.
Lemma string_leb_total s t : String.leb s t = false -> String.leb t s = true.
Proof. destruct (String.leb_total s t); congruence. Qed.

(** ** Invariants of stateful operations

    [preserves I m]: whatever [m] returns or raises, it leaves a store that
    satisfies [I] when it started in one. *)
Definition preserves {S A} (I : S -> Prop) (m : ST S A) : Prop :=
  forall s r s', I s -> m s = (r, s') -> I s'.

Section Preserves.
Context {S : Type} (I : S -> Prop).

Lemma preserves_ret {A} (a : A) : preserves I (st_ret a).
Proof. intros s r s' Hs H. unfold st_ret in H. by simplify_eq. Qed.
Lemma preserves_raise {A} cls msg : preserves I (st_raise (A:=A) cls msg).
Proof. intros s r s' Hs H. unfold st_raise in H. by simplify_eq. Qed.
Lemma preserves_lift {A} (x : result A) : preserves I (st_lift x).
Proof. intros s r s' Hs H. unfold st_lift in H. by simplify_eq. Qed.
Lemma preserves_modify f : (forall s, I s -> I (f s)) -> preserves I (st_modify f).
Proof. intros Hf s r s' Hs H. unfold st_modify in H. simplify_eq. auto. Qed.
Lemma preserves_bind {A B} (m : ST S A) (f : A -> ST S B) :
  preserves I m -> (forall a, preserves I (f a)) -> preserves I (st_bind m f).
Proof.
  intros Hm Hf s r s' Hs H. unfold st_bind in H. destruct (m s) as [[a|e] s1] eqn:E.
  - eapply Hf; [|exact H]. eapply Hm; eauto.
  - simplify_eq. eapply Hm; eauto.
Qed.
Lemma preserves_get {B} (f : S -> ST S B) :
  (forall s, I s -> preserves I (f s)) -> preserves I (st_bind st_get f).
Proof. intros Hf s r s' Hs H. unfold st_bind, st_get in H. eapply Hf; eauto. Qed.
Lemma preserves_fold {A B} (xs : list A) (acc : B) (body : B -> A -> ST S B) :
  (forall acc x, In x xs -> preserves I (body acc x)) -> preserves I (st_fold xs acc body).
Proof.
  intros Hb s r s' Hs H. eapply (st_fold_invariant I); [|exact Hs|exact H].
  intros acc' x s1 r1 s2 Hx Hs1 H1. eapply Hb; eauto.
Qed.
Lemma preserves_for {A} (xs : list A) (body : A -> ST S unit) :
  (forall x, In x xs -> preserves I (body x)) -> preserves I (st_for xs body).
Proof.
  induction xs as [|x xs IH]; simpl; intros Hb; [apply preserves_ret|].
  apply preserves_bind; auto.
Qed.
End Preserves.

Create HintDb preserve.
#[export] Hint Resolve preserves_ret preserves_raise preserves_lift : preserve.
#[export] Hint Resolve preserves_bind preserves_get preserves_fold : preserve.

(** Walks through the structure of an operation; what is left is the
    preservation by the primitive writes. *)
Ltac preserve_step :=
  match goal with
  | |- preserves _ (st_ret _) => apply preserves_ret
  | |- preserves _ (st_raise _ _) => apply preserves_raise
  | |- preserves _ (st_lift _) => apply preserves_lift
  | |- preserves _ (st_bind st_get _) => apply preserves_get; intros ? ?
  | |- preserves _ (st_bind _ _) => apply preserves_bind; [|intros ?]
  | |- preserves _ (st_fold _ _ _) => apply preserves_fold; intros ? ? ?
  | |- preserves _ (st_for _ _) => apply preserves_for; intros ? ?
  | |- preserves _ (if ?b then _ else _) => destruct b eqn:?
  | |- preserves _ (match ?x with _ => _ end) => destruct x eqn:?
  end.
Ltac preserve := repeat (cbv beta zeta; preserve_step).

(** Reduces [I s'], for a run [H : m s = (r, s')] from a state [E : I s], to the
    preservation of [I] by [m]. *)
Ltac use_preserves I E H :=
  match type of H with
  | ?m ?s = (?r, ?s') =>
      let P := fresh in cut (preserves I m); [intros P; exact (P s r s' E H)|clear E H]
  end.
