(* ===== verification/PyDate.v ===== *)
(** * Python's [datetime.date] and [datetime.datetime]

    A [date] is its proleptic Gregorian ordinal (0001-01-01 is 1), as in
    [date.toordinal]; the constructor [date(y, m, d)], the attributes [year],
    [month], [day], [weekday()] and the addition of a [timedelta] are the ones
    of the standard library.  A wall-clock [datetime] is a number of
    microseconds on the same axis: [day * 86_400_000_000 + microsecond of the
    day].  The range check of Python (years 1 to 9999) is [date_in_range]. *)
From S2P Require Import Prelude.
From Stdlib Require Import ZArith Lia String Ascii List Bool.
From stdpp Require Import base list strings.
Local Open Scope Z_scope.

Abbreviation date := Z (only parsing).
Abbreviation datetime := Z (only parsing).

(** ** The calendar arithmetic of CPython's [_pydatetime] *)

Definition is_leap (year : Z) : bool :=
  (year mod 4 =? 0) && (negb (year mod 100 =? 0) || (year mod 400 =? 0)).

Definition days_before_year (year : Z) : Z :=
  let y := year - 1 in y * 365 + y / 4 - y / 100 + y / 400.

Definition days_in_month (year month : Z) : Z :=
  if (month =? 2) then (if is_leap year then 29 else 28)
  else if (month =? 4) || (month =? 6) || (month =? 9) || (month =? 11) then 30
  else 31.

(** Days of a common year that precede the first of the month. *)
Definition common_days_before_month (month : Z) : Z :=
  match month with
  | 1 => 0 | 2 => 31 | 3 => 59 | 4 => 90 | 5 => 120 | 6 => 151 | 7 => 181
  | 8 => 212 | 9 => 243 | 10 => 273 | 11 => 304 | 12 => 334 | _ => 0
  end.

Definition days_before_month (year month : Z) : Z :=
  common_days_before_month month + (if (2 <? month) && is_leap year then 1 else 0).

(** [date(year, month, day)]. *)
Definition mk_date (year month day : Z) : date :=
  days_before_year year + days_before_month year month + day.

Definition valid_ymd (year month day : Z) : Prop :=
  1 <= month <= 12 /\ 1 <= day <= days_in_month year month.

(** The month and day that [ord2ymd] finds in a year of the given kind. *)
Definition month_day (leapyear : bool) (n : Z) : Z * Z :=
  let month := Z.shiftr (n + 50) 5 in
  let preceding := common_days_before_month month
                   + (if (2 <? month) && leapyear then 1 else 0) in
  let '(month, preceding) :=
    if n <? preceding then
      let month := month - 1 in
      (month, preceding - (days_in_month 1 month
                           + (if (month =? 2) && leapyear then 1 else 0)))
    else (month, preceding) in
  (month, n - preceding + 1).

(** [_ord2ymd]: year, month and day of an ordinal. *)
Definition ord2ymd (n : date) : Z * Z * Z :=
  let n := n - 1 in
  let n400 := n / 146097 in let n := n mod 146097 in
  let n100 := n / 36524 in let n := n mod 36524 in
  let n4 := n / 1461 in let n := n mod 1461 in
  let n1 := n / 365 in let n := n mod 365 in
  let year := n400 * 400 + 1 + n100 * 100 + n4 * 4 + n1 in
  if (n1 =? 4) || (n100 =? 4) then (year - 1, 12, 31)
  else
    let leapyear := (n1 =? 3) && (negb (n4 =? 24) || (n100 =? 3)) in
    let '(month, day) := month_day leapyear n in
    (year, month, day).

Definition date_year (d : date) : Z := let '(y, _, _) := ord2ymd d in y.
Definition date_month (d : date) : Z := let '(_, m, _) := ord2ymd d in m.
Definition date_day (d : date) : Z := let '(_, _, d) := ord2ymd d in d.

(** Monday is 0. *)
Definition weekday (d : date) : Z := (d + 6) mod 7.

Definition date_in_range (d : date) : Prop := 1 <= date_year d <= 9999.

(** ** Wall-clock datetimes *)

Definition us_per_second : Z := 1000000.
Definition us_per_day : Z := 86400 * us_per_second.
Definition minutes (n : Z) : Z := n * 60 * us_per_second.
Definition seconds (n : Z) : Z := n * us_per_second.

(** [datetime.combine(day, time(hour, minute))]. *)
Definition dt_combine (day : date) (hour minute : Z) : datetime :=
  day * us_per_day + minutes (hour * 60 + minute).

Definition dt_date (t : datetime) : date := t / us_per_day.

(** ** Lemmas on the calendar arithmetic *)

(** Splits the nested quotients of [ord2ymd] into bounded variables. *)
Lemma ord2ymd_parts (d : date) :
  exists a b c e r,
    d - 1 = 146097 * a + 36524 * b + 1461 * c + 365 * e + r /\
    0 <= b <= 4 /\ 0 <= c <= 24 /\ 0 <= e <= 4 /\ 0 <= r < 365 /\
    (b = 4 -> c = 0 /\ e = 0 /\ r = 0) /\ (e = 4 -> r = 0 /\ b <> 4 /\ (c = 24 -> b = 3)) /\
    (d - 1) / 146097 = a /\ (d - 1) mod 146097 / 36524 = b /\
    (d - 1) mod 146097 mod 36524 / 1461 = c /\
    (d - 1) mod 146097 mod 36524 mod 1461 / 365 = e /\
    (d - 1) mod 146097 mod 36524 mod 1461 mod 365 = r.
Proof.
  pose proof (Z.div_mod (d - 1) 146097 ltac:(lia)).
  pose proof (Z.mod_pos_bound (d - 1) 146097 ltac:(lia)).
  set (n1 := (d - 1) mod 146097) in *.
  pose proof (Z.div_mod n1 36524 ltac:(lia)).
  pose proof (Z.mod_pos_bound n1 36524 ltac:(lia)).
  set (n2 := n1 mod 36524) in *.
  pose proof (Z.div_mod n2 1461 ltac:(lia)).
  pose proof (Z.mod_pos_bound n2 1461 ltac:(lia)).
  set (n3 := n2 mod 1461) in *.
  pose proof (Z.div_mod n3 365 ltac:(lia)).
  pose proof (Z.mod_pos_bound n3 365 ltac:(lia)).
  exists ((d - 1) / 146097), (n1 / 36524), (n2 / 1461), (n3 / 365), (n3 mod 365).
  repeat split; lia.
Qed.

Lemma days_before_year_parts a b c e :
  0 <= b <= 3 -> 0 <= c <= 24 -> 0 <= e <= 3 ->
  days_before_year (400 * a + 1 + 100 * b + 4 * c + e) =
  146097 * a + 36524 * b + 1461 * c + 365 * e.
Proof.
  intros. unfold days_before_year.
  replace (400 * a + 1 + 100 * b + 4 * c + e - 1) with (400 * a + 100 * b + 4 * c + e) by lia.
  rewrite <- (Z.div_unique (400 * a + 100 * b + 4 * c + e) 4 (100 * a + 25 * b + c) e) by lia.
  rewrite <- (Z.div_unique (400 * a + 100 * b + 4 * c + e) 100 (4 * a + b) (4 * c + e)) by lia.
  rewrite <- (Z.div_unique (400 * a + 100 * b + 4 * c + e) 400 a (100 * b + 4 * c + e)) by lia.
  lia.
Qed.
Lemma days_before_year_step y :
  days_before_year (y + 1) = days_before_year y + (if is_leap y then 366 else 365).
Proof.
  unfold days_before_year, is_leap. replace (y + 1 - 1) with y by lia.
  destruct (Z.eqb_spec (y mod 4) 0), (Z.eqb_spec (y mod 100) 0), (Z.eqb_spec (y mod 400) 0);
    simpl; Z.div_mod_to_equations; lia.
Qed.
Lemma date_year_bounds (d : date) :
  days_before_year (date_year d) < d <= days_before_year (date_year d + 1).
Proof.
  destruct (ord2ymd_parts d) as (a&b&c&e&r&Hd&Hb&Hc&He&Hr&Hb4&He4&E1&E2&E3&E4&E5).
  assert (date_year d = if (e =? 4) || (b =? 4) then a * 400 + 1 + b * 100 + c * 4 + e - 1
          else a * 400 + 1 + b * 100 + c * 4 + e) as ->.
  { unfold date_year, ord2ymd. rewrite E5, E4, E3, E2, E1.
    destruct ((e =? 4) || (b =? 4)); [reflexivity|].
    repeat case_match; simplify_eq; reflexivity. }
  rewrite !days_before_year_step.
  destruct (Z.eqb_spec e 4) as [->|]; [|destruct (Z.eqb_spec b 4) as [->|]]; simpl.
  - replace (a * 400 + 1 + b * 100 + c * 4 + 4 - 1) with (400 * a + 1 + 100 * b + 4 * c + 3) by lia.
    rewrite days_before_year_parts by lia.
    assert (is_leap (400 * a + 1 + 100 * b + 4 * c + 3) = true) as ->; [|lia].
    unfold is_leap. Z.div_mod_to_equations. lia.
  - destruct Hb4 as (->&->&->); [done|].
    replace (a * 400 + 1 + 4 * 100 + 0 * 4 + 0 - 1) with (400 * a + 1 + 100 * 3 + 4 * 24 + 3) by lia.
    rewrite days_before_year_parts by lia.
    assert (is_leap (400 * a + 1 + 100 * 3 + 4 * 24 + 3) = true) as ->; [|lia].
    unfold is_leap. Z.div_mod_to_equations. lia.
  - replace (a * 400 + 1 + b * 100 + c * 4 + e) with (400 * a + 1 + 100 * b + 4 * c + e) by lia.
    rewrite days_before_year_parts by lia.
    destruct (is_leap _); lia.
Qed.

Lemma days_before_year_mono y y' : y < y' -> days_before_year y < days_before_year y'.
Proof.
  intros H. replace y' with (y + 1 + Z.of_nat (Z.to_nat (y' - y - 1))) by lia.
  induction (Z.to_nat (y' - y - 1)) as [|k IH].
  - rewrite Z.add_0_r, days_before_year_step. destruct (is_leap y); lia.
  - rewrite Nat2Z.inj_succ. replace (y + 1 + Z.succ (Z.of_nat k)) with (y + 1 + Z.of_nat k + 1) by lia.
    rewrite days_before_year_step. destruct (is_leap _); lia.
Qed.

Lemma date_year_unique (d : date) y :
  days_before_year y < d <= days_before_year (y + 1) -> date_year d = y.
Proof.
  intros H. pose proof (date_year_bounds d) as H'.
  destruct (Z.lt_trichotomy (date_year d) y) as [Hlt|[?|Hgt]]; [|done|].
  - destruct (Z.eq_dec (date_year d + 1) y) as [<-|]; [lia|].
    pose proof (days_before_year_mono (date_year d + 1) y). lia.
  - destruct (Z.eq_dec (y + 1) (date_year d)) as [Heq|]; [rewrite <- Heq in H'; lia|].
    pose proof (days_before_year_mono (y + 1) (date_year d)). lia.
Qed.

Definition month_day_ok (leap : bool) (n : Z) : bool :=
  let '(m, d) := month_day leap n in
  let dim := days_in_month 1 m + (if (m =? 2) && leap then 1 else 0) in
  let dbm := common_days_before_month m + (if (2 <? m) && leap then 1 else 0) in
  (1 <=? m) && (m <=? 12) && (1 <=? d) && (d <=? dim) && (dbm + d - 1 =? n).

Lemma month_day_correct leap n : 0 <= n < 365 -> month_day_ok leap n = true.
Proof.
  intros Hn.
  assert (forallb (fun i => month_day_ok leap (Z.of_nat i)) (List.seq 0 365) = true) as Hall
    by (destruct leap; vm_compute; reflexivity).
  rewrite forallb_forall in Hall. specialize (Hall (Z.to_nat n)).
  rewrite Z2Nat.id in Hall by lia. apply Hall, in_seq. lia.
Qed.

Lemma days_in_month_leap y m :
  days_in_month y m = days_in_month 1 m + (if (m =? 2) && is_leap y then 1 else 0).
Proof.
  unfold days_in_month. change (is_leap 1) with false.
  destruct (m =? 2), (is_leap y); simpl; lia.
Qed.

Theorem ord2ymd_correct (d : date) :
  let '(y, m, dd) := ord2ymd d in valid_ymd y m dd /\ mk_date y m dd = d.
Proof.
  pose proof (date_year_bounds d) as Hy.
  destruct (ord2ymd_parts d) as (a&b&c&e&r&Hd&Hb&Hc&He&Hr&Hb4&He4&E1&E2&E3&E4&E5).
  unfold date_year, ord2ymd in *. rewrite E5, E4, E3, E2, E1 in *.
  destruct ((e =? 4) || (b =? 4)) eqn:Hlast.
  - assert (is_leap (a * 400 + 1 + b * 100 + c * 4 + e - 1) = true) as Hleap.
    { unfold is_leap. Z.div_mod_to_equations. lia. }
    rewrite days_before_year_step, Hleap in Hy.
    unfold valid_ymd, mk_date, days_before_month. rewrite Hleap. simpl. unfold days_in_month. simpl.
    split; [lia|].
    assert (e = 4 \/ b = 4) as [->| ->] by lia.
    + destruct He4 as (->&?&?); [done|].
      replace (a * 400 + 1 + b * 100 + c * 4 + 4 - 1) with (400 * a + 1 + 100 * b + 4 * c + 3) by lia.
      rewrite days_before_year_parts by lia. lia.
    + destruct Hb4 as (->&->&->); [done|].
      replace (a * 400 + 1 + 4 * 100 + 0 * 4 + 0 - 1) with (400 * a + 1 + 100 * 3 + 4 * 24 + 3) by lia.
      rewrite days_before_year_parts by lia. lia.
  - set (y := a * 400 + 1 + b * 100 + c * 4 + e) in *.
    assert ((e =? 3) && (negb (c =? 24) || (b =? 3)) = is_leap y) as ->.
    { unfold is_leap, y. Z.div_mod_to_equations. lia. }
    pose proof (month_day_correct (is_leap y) r Hr) as Hok.
    unfold month_day_ok in Hok. destruct (month_day (is_leap y) r) as [m dd].
    unfold valid_ymd, mk_date, days_before_month. rewrite days_in_month_leap.
    rewrite !andb_true_iff in Hok.
    assert (days_before_year y = 146097 * a + 36524 * b + 1461 * c + 365 * e) as ->.
    { unfold y. rewrite <- days_before_year_parts by lia. f_equal. lia. }
    lia.
Qed.

Lemma month_cases m :
  1 <= m <= 12 -> In m [1; 2; 3; 4; 5; 6; 7; 8; 9; 10; 11; 12].
Proof. simpl. lia. Qed.

(** Case analysis on a month known to be in range. *)
Ltac month_cases H :=
  apply month_cases in H; simpl in H;
  repeat match type of H with _ \/ _ => destruct H as [<-|H] end; [..|done].

Lemma date_year_mk_date y m d : valid_ymd y m d -> date_year (mk_date y m d) = y.
Proof.
  intros [Hm Hd]. apply date_year_unique. rewrite days_before_year_step.
  rewrite days_in_month_leap in Hd. unfold mk_date, days_before_month.
  month_cases Hm; simpl in *; destruct (is_leap y); simpl in *;
    unfold days_in_month in Hd; simpl in Hd; lia.
Qed.

(** [date(y, m, d)] and the attributes of a date are mutually inverse. *)
Theorem ord2ymd_mk_date y m d : valid_ymd y m d -> ord2ymd (mk_date y m d) = (y, m, d).
Proof.
  intros Hv. pose proof (ord2ymd_correct (mk_date y m d)) as Hc.
  pose proof (date_year_mk_date y m d Hv) as Hy. unfold date_year in Hy.
  destruct (ord2ymd (mk_date y m d)) as [[y' m'] d'] eqn:E. subst y'. clear E.
  destruct Hc as [[Hm' Hd'] Hc], Hv as [Hm Hd].
  unfold mk_date, days_before_month in Hc. rewrite days_in_month_leap in *.
  enough (m = m') as -> by (f_equal; lia).
  unfold days_in_month in *.
  month_cases Hm; month_cases Hm'; try reflexivity; simpl in *;
    destruct (is_leap y); simpl in *; lia.
Qed.
