(* ===== verification/PyFloat.v ===== *)
(** * Python floats

    A Python [float] is an IEEE 754 binary64 number.  The model is the
    executable specification [spec_float] of the standard library at precision
    53 and maximal exponent 1024, so that every arithmetic operation rounds as
    the program's does; comparisons with a NaN are false, as in Python.  The
    second half of the file is the order theory the components use: the
    comparison of floats is a lexicographic comparison of integer triples. *)
From Stdlib Require Import ZArith Lia Bool List String.
From Stdlib Require Import Floats.SpecFloat.
From stdpp Require Import base list.
From S2P Require Import Prelude.
Local Open Scope string_scope.
Local Open Scope list_scope.
Local Open Scope Z_scope.

Abbreviation float := spec_float (only parsing).

Definition prec : Z := 53.
Definition emax : Z := 1024.

#[export] Instance spec_float_eq_dec : EqDecision spec_float.
Proof. solve_decision. Defined.

(** ** Operations *)

Definition fadd : float -> float -> float := SFadd prec emax.
Definition fsub : float -> float -> float := SFsub prec emax.
Definition fmul : float -> float -> float := SFmul prec emax.
Definition fdiv : float -> float -> float := SFdiv prec emax.
Definition fopp : float -> float := SFopp.
Definition fabs : float -> float := SFabs.
Definition flt : float -> float -> bool := SFltb.
Definition fle : float -> float -> bool := SFleb.
Definition feq : float -> float -> bool := SFeqb.
Definition fgt (x y : float) : bool := flt y x.
Definition fge (x y : float) : bool := fle y x.

Definition is_nan (x : float) : bool := match x with S754_nan => true | _ => false end.

(** [float(n)] for an integer, correctly rounded. *)
Definition float_of_Z (n : Z) : float := binary_normalize prec emax n 0 false.

(** The float nearest to the rational [num / den]: the value of a decimal
    literal, of [int / int] and of [float(Decimal)]. *)
Definition float_ratio (num : Z) (den : positive) : float :=
  match num with
  | Z0 => S754_zero false
  | Zpos n => fdiv (S754_finite false n 0) (S754_finite false den 0)
  | Zneg n => fdiv (S754_finite true n 0) (S754_finite false den 0)
  end.

Definition f0 : float := S754_zero false.
Definition f1 : float := float_of_Z 1.
Definition f_half : float := float_ratio 1 2.

(** [max(a, b)] and [min(a, b)] of Python keep the first argument unless the
    second one is strictly larger (smaller). *)
Definition fmax (a b : float) : float := if fgt b a then b else a.
Definition fmin (a b : float) : float := if flt b a then b else a.

(** [max(lo, min(hi, x))]. *)
Definition fclamp (lo hi x : float) : float := fmax lo (fmin hi x).

(** [sum(xs)] of floats, as Python computes it since version 3.12: Neumaier's
    compensated summation, started at [0 + x] by the first element; the empty sum
    is zero. *)
Definition is_finite (x : float) : bool :=
  match x with S754_zero _ | S754_finite _ _ _ => true | _ => false end.
Fixpoint fsum_from (total c : float) (xs : list float) : float :=
  match xs with
  | [] => if negb (feq c f0) && is_finite c then fadd total c else total
  | x :: xs =>
      let t := fadd total x in
      let c := if fge (fabs total) (fabs x) then fadd c (fadd (fsub total t) x)
               else fadd c (fadd (fsub x t) total) in
      fsum_from t c xs
  end.
Definition fsum (xs : list float) : float :=
  match xs with [] => f0 | x :: xs => fsum_from (fadd f0 x) f0 xs end.

(** Exact value of a finite float times [scale], as a fraction with a positive
    denominator. *)
Definition scaled_fraction (m : positive) (e scale : Z) : Z * Z :=
  match e with
  | Zneg k => (Zpos m * scale, 2 ^ Zpos k)
  | _ => (Zpos m * 2 ^ e * scale, 1)
  end.

(** Nearest integer of a non-negative fraction, ties to even. *)
Definition round_half_even (num den : Z) : Z :=
  let q := num / den in
  let r := num mod den in
  match Z.compare (2 * r) den with
  | Lt => q
  | Gt => q + 1
  | Eq => if Z.even q then q else q + 1
  end.

(** [round(x)]: an integer, or an exception on infinities and NaN. *)
Definition py_round (x : float) : result Z :=
  match x with
  | S754_zero _ => Ok 0
  | S754_finite s m e =>
      let '(n, d) := scaled_fraction m e 1 in
      let q := round_half_even n d in
      Ok (if s then - q else q)
  | S754_infinity _ => raise "OverflowError" "cannot convert float infinity to integer"
  | S754_nan => raise "ValueError" "cannot convert float NaN to integer"
  end.

(** [round(x, digits)] for [digits >= 0]: a float, rounded on the exact value. *)
Definition py_round_digits (digits : Z) (x : float) : float :=
  match x with
  | S754_finite s m e =>
      let '(n, d) := scaled_fraction m e (10 ^ digits) in
      match round_half_even n d with
      | Zpos q => let r := float_ratio (Zpos q) (Z.to_pos (10 ^ digits)) in
                  if s then fopp r else r
      | _ => S754_zero s
      end
  | _ => x
  end.

(** [int(x)]: truncation towards zero. *)
Definition int_of_float (x : float) : result Z :=
  match x with
  | S754_zero _ => Ok 0
  | S754_finite s m e =>
      let '(n, d) := scaled_fraction m e 1 in
      Ok (if s then - (n / d) else n / d)
  | S754_infinity _ => raise "OverflowError" "cannot convert float infinity to integer"
  | S754_nan => raise "ValueError" "cannot convert float NaN to integer"
  end.

Example literal_2_675 : py_round_digits 2 (float_ratio 2675 1000) = float_ratio 267 100.
Proof. vm_compute. reflexivity. Qed.
Example round_half : map py_round [float_ratio 5 2; float_ratio 7 2; float_ratio (-5) 2] = [Ok 2; Ok 4; Ok (-2)].
Proof. vm_compute. reflexivity. Qed.
Example add_tenths : fadd (float_ratio 1 10) (float_ratio 2 10) = S754_finite false 5404319552844596 (-54)
  /\ float_ratio 3 10 = S754_finite false 5404319552844595 (-54).
Proof. vm_compute. auto. Qed.

Example sum_tenths : fsum (repeat (float_ratio 1 10) 10) = f1.
Proof. vm_compute. reflexivity. Qed.

(** ** Order *)

(** A triple whose lexicographic order is the order of the floats. *)
Definition fkey (x : float) : option (Z * Z * Z) :=
  match x with
  | S754_nan => None
  | S754_infinity true => Some (-2, 0, 0)
  | S754_infinity false => Some (2, 0, 0)
  | S754_zero _ => Some (0, 0, 0)
  | S754_finite true m e => Some (-1, -e, Zneg m)
  | S754_finite false m e => Some (1, e, Zpos m)
  end.

Definition key_lt (a b : Z * Z * Z) : Prop :=
  let '(a1, a2, a3) := a in let '(b1, b2, b3) := b in
  a1 < b1 \/ (a1 = b1 /\ (a2 < b2 \/ (a2 = b2 /\ a3 < b3))).

Lemma SFcompare_key x y :
  match fkey x, fkey y with
  | Some a, Some b =>
      match SFcompare x y with
      | Some Lt => key_lt a b
      | Some Eq => a = b
      | Some Gt => key_lt b a
      | None => False
      end
  | _, _ => SFcompare x y = None
  end.
Proof.
  destruct x as [s|s| |s m e], y as [s'|s'| |s' m' e'];
    try destruct s; try destruct s'; simpl; try done; try lia;
    destruct (Z.compare_spec e e') as [->|?|?]; simpl; try lia;
    change (Pos.compare_cont Eq m m') with (Pos.compare m m');
    destruct (Pos.compare_spec m m') as [->|?|?]; simpl; try done; lia.
Qed.

Lemma flt_key x y : flt x y = true <->
  exists a b, fkey x = Some a /\ fkey y = Some b /\ key_lt a b.
Proof.
  pose proof (SFcompare_key x y) as H. unfold flt, SFltb.
  destruct (fkey x) as [[[a1 a2] a3]|], (fkey y) as [[[b1 b2] b3]|]; try (rewrite H; naive_solver).
  destruct (SFcompare x y) as [[]|]; simpl in *; split; try done.
  - intros (?&?&?&?&?). simplify_eq. simpl in *. lia.
  - eauto 10.
  - intros (?&?&?&?&?). simplify_eq. simpl in *. lia.
Qed.

Lemma fle_key x y : fle x y = true <->
  exists a b, fkey x = Some a /\ fkey y = Some b /\ (a = b \/ key_lt a b).
Proof.
  pose proof (SFcompare_key x y) as H. unfold fle, SFleb.
  destruct (fkey x) as [[[a1 a2] a3]|], (fkey y) as [[[b1 b2] b3]|]; try (rewrite H; naive_solver).
  destruct (SFcompare x y) as [[]|]; simpl in *; split; try done.
  - eauto 10.
  - eauto 10.
  - intros (?&?&?&?&[?|?]); simplify_eq; simpl in *; lia.
Qed.

Lemma fkey_nan x : fkey x = None <-> is_nan x = true.
Proof. destruct x as [s|s| |s m e]; simpl; try done; destruct s; done. Qed.

Lemma flt_fle x y : flt x y = true -> fle x y = true.
Proof. rewrite flt_key, fle_key. naive_solver. Qed.

Lemma fle_refl x : is_nan x = false -> fle x x = true.
Proof.
  intros H. rewrite fle_key. destruct (fkey x) as [a|] eqn:E; [eauto 10|].
  apply fkey_nan in E. congruence.
Qed.

Lemma fle_trans x y z : fle x y = true -> fle y z = true -> fle x z = true.
Proof.
  rewrite !fle_key. intros (a&b&Ha&Hb&H1) (b'&c&Hb'&Hc&H2).
  rewrite Hb in Hb'. injection Hb' as <-. exists a, c. split_and!; try done.
  destruct a as [[??]?], b as [[??]?], c as [[??]?], H1 as [H1|H1], H2 as [H2|H2];
    simplify_eq; simpl in *; auto; right; lia.
Qed.

Lemma fle_total x y : is_nan x = false -> is_nan y = false -> fle x y = true \/ flt y x = true.
Proof.
  intros Hx Hy. rewrite fle_key, flt_key.
  destruct (fkey x) as [[[a1 a2] a3]|] eqn:Ex; [|apply fkey_nan in Ex; congruence].
  destruct (fkey y) as [[[b1 b2] b3]|] eqn:Ey; [|apply fkey_nan in Ey; congruence].
  assert ((a1, a2, a3) = (b1, b2, b3) \/ key_lt (a1, a2, a3) (b1, b2, b3)
          \/ key_lt (b1, b2, b3) (a1, a2, a3)) as [H|[H|H]]; [|eauto 10..].
  simpl. destruct (decide (a1 = b1)), (decide (a2 = b2)), (decide (a3 = b3)); subst; auto; lia.
Qed.

Lemma flt_not_fle x y : flt x y = true -> fle y x = false.
Proof.
  intros H. destruct (fle y x) eqn:E; [|done].
  apply flt_key in H as (a&b&Ha&Hb&H). apply fle_key in E as (b'&a'&Hb'&Ha'&H').
  rewrite Ha in Ha'. rewrite Hb in Hb'. injection Ha' as <-. injection Hb' as <-.
  destruct a as [[??]?], b as [[??]?], H' as [?|H']; simplify_eq; simpl in *; lia.
Qed.

Lemma flt_nan_l x y : flt x y = true -> is_nan x = false.
Proof. destruct x; done. Qed.
Lemma flt_nan_r x y : flt x y = true -> is_nan y = false.
Proof. destruct y; [done..| |done]. by destruct x. Qed.

Lemma fle_nan_l x y : fle x y = true -> is_nan x = false.
Proof. destruct x; done. Qed.
Lemma fle_nan_r x y : fle x y = true -> is_nan y = false.
Proof. destruct y; [done..| |done]. by destruct x. Qed.

(** The result of a clamp lies between its bounds, for every argument, NaN and
    infinities included. *)
Lemma fclamp_bounds lo hi x :
  fle lo hi = true -> fle lo (fclamp lo hi x) = true /\ fle (fclamp lo hi x) hi = true.
Proof.
  intros H.
  assert (is_nan lo = false /\ is_nan hi = false) as [Hlo Hhi].
  { apply fle_key in H as (a&b&Ha&Hb&_).
    split; apply not_true_is_false; rewrite <- fkey_nan; congruence. }
  unfold fclamp, fmax, fmin, fgt.
  destruct (flt x hi) eqn:E1; destruct (flt lo _) eqn:E2; auto using flt_fle, fle_refl.
Qed.

Create HintDb pyfloat.
#[export] Hint Resolve flt_fle fle_refl fle_trans : pyfloat.
