(* ===== verification/FloatFacts.v ===== *)
(** * Subtraction of floats

    Two facts about binary64 that time arithmetic relies on: the difference of two
    floats is a float in normal form, and it is positive when the operands are in
    order, because rounding and gradual underflow never lose a whole difference. *)
From Stdlib Require Import ZArith Lia Bool List String.
From Stdlib Require Import Floats.SpecFloat.
From stdpp Require Import base list.
From S2P Require Import Prelude PyFloat.
Local Open Scope Z_scope.

(** A number as the hardware holds it: 53 significant bits, or the least exponent. *)
Definition fvalid (x : float) : bool := valid_binary prec emax x.

Definition digits (p : positive) : Z := Zpos (digits2_pos p).

Lemma digits_spec p : 1 <= digits p /\ 2 ^ (digits p - 1) <= Zpos p < 2 ^ digits p.
Proof.
  unfold digits. induction p as [p IH|p IH|]; [| |done]; cbn [digits2_pos]; rewrite Pos2Z.inj_succ;
    destruct IH as [H1 IH]; split; try lia;
    replace (Z.succ (Zpos (digits2_pos p)) - 1) with (Z.succ (Zpos (digits2_pos p) - 1)) by lia;
    rewrite !Z.pow_succ_r by lia; lia.
Qed.

Lemma digits_unique p k : 2 ^ (k - 1) <= Zpos p < 2 ^ k -> 1 <= k -> digits p = k.
Proof.
  intros [Hl Hu] Hk. destruct (digits_spec p) as [H1 [H2 H3]].
  assert (2 ^ (k - 1) < 2 ^ digits p) by lia. assert (2 ^ (digits p - 1) < 2 ^ k) by lia.
  apply Z.pow_lt_mono_r_iff in H, H0; lia.
Qed.

Lemma fexp_spec d e : SpecFloat.fexp prec emax (d + e) = Z.max (d + e - 53) (-1074).
Proof. reflexivity. Qed.

Lemma bounded_spec m e :
  bounded prec emax m e = true
  <-> digits m <= 53 /\ -1074 <= e <= 971 /\ (e = -1074 \/ digits m = 53).
Proof.
  unfold bounded, canonical_mantissa. fold (digits m). rewrite fexp_spec, andb_true_iff, Z.eqb_eq, Z.leb_le.
  change (emax - prec) with 971. lia.
Qed.

(** ** Rounding *)

Lemma shr_1_m r : 0 <= shr_m r -> shr_m (shr_1 r) = shr_m r / 2 /\ 0 <= shr_m (shr_1 r).
Proof.
  destruct r as [m r s]. cbn [shr_m]. intros Hm.
  destruct m as [|[p|p|]|p]; [done| | | |lia]; cbn [shr_1 shr_m].
  - split; [|lia]. apply (Z.div_unique _ _ _ 1); lia.
  - split; [|lia]. apply (Z.div_unique _ _ _ 0); lia.
  - done.
Qed.

Lemma iter_shr_m p : forall r, 0 <= shr_m r ->
  shr_m (SpecFloat.iter_pos shr_1 p r) = shr_m r / 2 ^ Zpos p /\ 0 <= shr_m (SpecFloat.iter_pos shr_1 p r).
Proof.
  induction p as [p IH|p IH|]; intros r Hr; cbn [SpecFloat.iter_pos].
  - destruct (shr_1_m r Hr) as [E0 H0]. destruct (IH _ H0) as [E1 H1], (IH _ H1) as [E2 H2].
    split; [|done]. rewrite E2, E1, E0, !Z.div_div by lia. f_equal.
    rewrite (Pos2Z.inj_xI p), Z.pow_add_r, Z.pow_twice_r by lia. ring.
  - destruct (IH _ Hr) as [E1 H1], (IH _ H1) as [E2 H2].
    split; [|done]. rewrite E2, E1, !Z.div_div by lia. f_equal.
    rewrite (Pos2Z.inj_xO p), Z.pow_twice_r by lia. ring.
  - change (2 ^ 1) with 2. by apply shr_1_m.
Qed.

Lemma div_digits m d n : 2 ^ (d - 1) <= m < 2 ^ d -> 0 <= n < d ->
  2 ^ (d - n - 1) <= m / 2 ^ n < 2 ^ (d - n).
Proof.
  intros [H1 H2] Hn. split.
  - apply Z.div_le_lower_bound; [lia|]. rewrite <- Z.pow_add_r by lia. by replace (n + (d - n - 1)) with (d - 1) by lia.
  - apply Z.div_lt_upper_bound; [lia|]. rewrite <- Z.pow_add_r by lia. by replace (n + (d - n)) with d by lia.
Qed.

(** One right shift to the exponent that [fexp] asks for. *)
Lemma shr_fexp_spec p e :
  -1074 <= e ->
  let n := Z.max 0 (SpecFloat.fexp prec emax (digits p + e) - e) in
  exists mrs, shr_fexp prec emax (Zpos p) e loc_Exact = (mrs, e + n) /\ shr_m mrs = Zpos p / 2 ^ n.
Proof.
  intros He n. unfold shr_fexp. cbn [Zdigits2]. fold (digits p). subst n.
  destruct (SpecFloat.fexp prec emax (digits p + e) - e) as [|k|k] eqn:E; cbn [shr].
  - eexists. split; [f_equal; lia|]. by rewrite Z.div_1_r.
  - eexists. split; [f_equal; lia|]. replace (Z.max 0 (Zpos k)) with (Zpos k) by lia. by apply iter_shr_m.
  - eexists. split; [f_equal; lia|]. by rewrite Z.div_1_r.
Qed.

Lemma round_nearest_even_cases m l : round_nearest_even m l = m \/ round_nearest_even m l = m + 1.
Proof. destruct l as [|[]]; cbn; auto. destruct (Z.even m); auto. Qed.

(** Rounding a positive mantissa gives an infinity or a non-zero number in normal form. *)
Definition rounded (s : bool) (x : float) : Prop :=
  x = S754_infinity s \/ exists m e, x = S754_finite s m e /\ bounded prec emax m e = true.

Lemma round_up_digits m d l : 2 ^ (d - 1) <= m < 2 ^ d -> 1 <= d ->
  exists q, round_nearest_even m l = Zpos q /\ (digits q = d \/ (digits q = d + 1 /\ Zpos q = 2 ^ d)).
Proof.
  intros Hm Hd. assert (0 < 2 ^ (d - 1)) by lia.
  assert (Hex : exists q, round_nearest_even m l = Zpos q /\ (Zpos q = m \/ Zpos q = m + 1)).
  { exists (Z.to_pos (round_nearest_even m l)). destruct (round_nearest_even_cases m l) as [E|E]; rewrite E, Z2Pos.id; lia. }
  destruct Hex as (q & Hq & Hcase). exists q. split; [done|].
  destruct (decide (Zpos q < 2 ^ d)); [left; apply digits_unique; lia|]. right.
  assert (Zpos q = 2 ^ d) as E by lia. split; [|done]. apply digits_unique; [|lia].
  replace (d + 1 - 1) with d by lia. rewrite Z.pow_add_r by lia. lia.
Qed.

Lemma round_aux_rounded s p e :
  -1074 <= e <= SpecFloat.fexp prec emax (digits p + e) ->
  rounded s (binary_round_aux prec emax s (Zpos p) e loc_Exact).
Proof.
  intros [He Hfe]. unfold binary_round_aux.
  destruct (shr_fexp_spec p e He) as (mrs & -> & Hm). destruct (digits_spec p) as [Hd Hp].
  rewrite fexp_spec in Hfe, Hm |- *.
  set (n := Z.max 0 (Z.max (digits p + e - 53) (-1074) - e)) in *.
  assert (Hn : 0 <= n < digits p) by lia. pose proof (div_digits _ _ _ Hp Hn) as Hm'.
  rewrite <- Hm in Hm'. set (d := digits p - n) in *.
  destruct (round_up_digits _ _ (loc_of_shr_record mrs) Hm' ltac:(lia)) as (q & -> & Hq).
  assert (He' : -1074 <= e + n) by lia.
  destruct (shr_fexp_spec q (e + n) He') as (mrs' & -> & Hm''). rewrite fexp_spec in Hm'' |- *.
  destruct (digits_spec q) as [Hdq Hq'].
  destruct (decide (digits q <= 53)) as [Hle|Hgt].
  - replace (Z.max 0 (Z.max (digits q + (e + n) - 53) (-1074) - (e + n))) with 0 in * by lia.
    rewrite Z.div_1_r in Hm''. rewrite Hm''.
    destruct (Z.leb_spec (e + n + 0) (emax - prec)) as [Hb|Hb]; [|by left]. right. eexists _, _. split; [done|].
    change (emax - prec) with 971 in Hb. apply bounded_spec. lia.
  - assert (digits q = 54 /\ Zpos q = 2 ^ 53) as [E1 E2].
    { assert (d = 53) by lia. destruct Hq as [?|[??]]; [lia|]. split; [lia|]. congruence. }
    rewrite E1 in *.
    replace (Z.max 0 (Z.max (54 + (e + n) - 53) (-1074) - (e + n))) with 1 in * by lia.
    rewrite E2 in Hm''. change (2 ^ 53 / 2 ^ 1) with 4503599627370496 in Hm''. rewrite Hm''.
    destruct (Z.leb_spec (e + n + 1) (emax - prec)) as [Hb|Hb]; [|by left]. right. eexists _, _. split; [done|].
    change (emax - prec) with 971 in Hb. apply bounded_spec.
    replace (digits 4503599627370496) with 53 by reflexivity. lia.
Qed.

Lemma pos_iter_xO m k : Zpos (Pos.iter xO m k) = Zpos m * 2 ^ Zpos k.
Proof.
  induction k as [|k IH] using Pos.peano_ind; [change (Zpos m~0 = Zpos m * 2); lia|].
  rewrite Pos.iter_succ, Pos2Z.inj_xO, IH, Pos2Z.inj_succ, Z.pow_succ_r by lia. lia.
Qed.

Lemma digits_shift m k : digits (Pos.iter xO m k) = digits m + Zpos k.
Proof.
  destruct (digits_spec m) as [H1 H2]. apply digits_unique; [|lia]. rewrite pos_iter_xO.
  replace (digits m + Zpos k - 1) with (digits m - 1 + Zpos k) by lia.
  rewrite !Z.pow_add_r by lia. nia.
Qed.

Lemma round_rounded s m e : -1074 <= e -> rounded s (binary_round prec emax s m e).
Proof.
  intros He. unfold binary_round, shl_align. fold (digits m).
  destruct (SpecFloat.fexp prec emax (digits m + e) - e) as [|k|k] eqn:E;
    rewrite ?fexp_spec in E; apply round_aux_rounded; rewrite ?digits_shift, ?fexp_spec; lia.
Qed.

Lemma rounded_valid s x : rounded s x -> fvalid x = true.
Proof. by intros [->|(m & e & -> & H)]. Qed.
Lemma rounded_pos x : rounded false x -> flt f0 x = true.
Proof. by intros [->|(m & e & -> & H)]. Qed.

Lemma normalize_valid m e : -1074 <= e -> fvalid (binary_normalize prec emax m e false) = true.
Proof.
  intros He. destruct m; [done|..]; eapply rounded_valid; cbn [binary_normalize]; by apply round_rounded.
Qed.
Lemma normalize_pos m e : -1074 <= e -> 0 < m -> flt f0 (binary_normalize prec emax m e false) = true.
Proof. intros He Hm. destruct m; try lia. apply rounded_pos. cbn [binary_normalize]. by apply round_rounded. Qed.

(** ** Differences *)

Lemma align_value m e e' : e' <= e -> Zpos (fst (shl_align m e e')) = Zpos m * 2 ^ (e - e').
Proof.
  intros He. unfold shl_align. destruct (e' - e) as [|k|k] eqn:E; cbn [fst]; [|lia|].
  - replace (e - e') with 0 by lia. lia.
  - rewrite pos_iter_xO. by replace (e - e') with (Zpos k) by lia.
Qed.

(** The difference of two floats is a float in normal form. *)
Lemma fsub_valid x y : fvalid x = true -> fvalid y = true -> fvalid (fsub x y) = true.
Proof.
  intros Hx Hy. destruct x as [s|s| |s m e], y as [s'|s'| |s' m' e']; cbn in *; try done;
    try (by destruct s, s').
  apply normalize_valid. apply bounded_spec in Hx, Hy. lia.
Qed.

(** The order of two numbers in normal form, on a common exponent. *)
Lemma bounded_lt m e m' e' :
  bounded prec emax m e = true -> bounded prec emax m' e' = true ->
  e < e' \/ (e = e' /\ Zpos m < Zpos m') ->
  Zpos m * 2 ^ (e - Z.min e e') < Zpos m' * 2 ^ (e' - Z.min e e').
Proof.
  rewrite !bounded_spec. intros Hb Hb' [He|[-> Hm]]; [|nia].
  replace (e - Z.min e e') with 0 by lia. replace (Z.min e e') with e by lia.
  destruct (digits_spec m) as [_ Hd], (digits_spec m') as [_ Hd'].
  assert (digits m' = 53) as E by lia. rewrite E in Hd'.
  assert (2 ^ digits m <= 2 ^ 53) by (apply Z.pow_le_mono_r; lia).
  assert (2 ^ 1 <= 2 ^ (e' - e)) by (apply Z.pow_le_mono_r; lia).
  change (2 ^ (53 - 1)) with 4503599627370496 in Hd'. change (2 ^ 53) with 9007199254740992 in *. nia.
Qed.

(** A difference of ordered operands is positive. *)
Lemma fsub_pos x y :
  fvalid x = true -> fvalid y = true -> flt x y = true -> flt f0 (fsub y x) = true.
Proof.
  intros Hx Hy Hlt. destruct x as [s|s| |s m e], y as [s'|s'| |s' m' e']; try done;
    try (by destruct s); try (by destruct s'); try (by destruct s, s').
  cbn [fvalid valid_binary] in Hx, Hy. pose proof (proj1 (bounded_spec _ _) Hx) as Bx.
  pose proof (proj1 (bounded_spec _ _) Hy) as By.
  apply normalize_pos; [lia|]. rewrite !align_value by lia.
  assert (Pm : 0 < 2 ^ (e' - Z.min e' e)) by lia. assert (Pm' : 0 < 2 ^ (e - Z.min e' e)) by lia.
  apply flt_key in Hlt as (a & b & Ha & Hb & Hab). destruct s, s'; cbn in Ha, Hb; simplify_eq; cbn in Hab |- *.
  - pose proof (bounded_lt m' e' m e Hy Hx ltac:(lia)). lia.
  - nia.
  - lia.
  - pose proof (bounded_lt m e m' e' Hx Hy ltac:(lia)). rewrite Z.min_comm in H. lia.
Qed.

Lemma fsub_not_nan x y :
  fvalid x = true -> fvalid y = true -> is_finite x = true -> is_finite y = true ->
  is_nan (fsub x y) = false.
Proof.
  intros Hx Hy Fx Fy. destruct x as [s|s| |s m e], y as [s'|s'| |s' m' e']; try done; try (by destruct s, s').
  apply bounded_spec in Hx, Hy. cbn [fsub SFsub].
  match goal with |- context [binary_normalize _ _ ?d ?k _] =>
    assert (Hk : -1074 <= k) by lia; destruct d as [|p|p] end; [done|..]; cbn [binary_normalize];
    match goal with |- is_nan (binary_round _ _ ?s ?p ?k) = false =>
      destruct (round_rounded s p k Hk) as [E|(m0 & e0 & E & _)]; unfold fsub, SFsub; rewrite E; done end.
Qed.

(** What is not positive was not in order. *)
Lemma fsub_le_0 x y :
  fvalid x = true -> fvalid y = true -> is_nan x = false -> is_nan y = false ->
  flt f0 (fsub y x) = false -> fle y x = true.
Proof.
  intros Hx Hy Nx Ny H. destruct (fle_total y x Ny Nx) as [?|Hlt]; [done|].
  rewrite (fsub_pos x y Hx Hy Hlt) in H. done.
Qed.

(** ** Exact differences *)

(** The value of a finite float, in units of the least one. *)
Definition fval (x : float) : Z :=
  match x with
  | S754_finite s m e => cond_Zopp s (Zpos m * 2 ^ (e + 1074))
  | _ => 0
  end.

Lemma iter_shr_exact p : forall M,
  0 < M -> SpecFloat.iter_pos shr_1 p (Build_shr_record (M * 2 ^ Zpos p) false false)
           = Build_shr_record M false false.
Proof.
  assert (H1 : forall M, 0 < M -> shr_1 (Build_shr_record (M * 2) false false) = Build_shr_record M false false).
  { intros [|M|M] HM; try lia. by replace (Zpos M * 2) with (Zpos M~0) by lia. }
  induction p as [p IH|p IH|]; intros M HM; cbn [SpecFloat.iter_pos].
  - replace (M * 2 ^ Zpos p~1) with (M * 2 ^ Zpos p * 2 ^ Zpos p * 2)
      by (replace (Zpos p~1) with (Zpos p + Zpos p + 1) by lia; rewrite !Z.pow_add_r by lia; lia).
    rewrite H1, IH by lia. by apply IH.
  - replace (M * 2 ^ Zpos p~0) with (M * 2 ^ Zpos p * 2 ^ Zpos p)
      by (replace (Zpos p~0) with (Zpos p + Zpos p) by lia; rewrite !Z.pow_add_r by lia; lia).
    rewrite IH by lia. by apply IH.
  - by apply H1.
Qed.

Lemma shr_fexp_exact q n e :
  0 <= n -> n = SpecFloat.fexp prec emax (digits q + n + e) - e ->
  shr_fexp prec emax (Zpos q * 2 ^ n) e loc_Exact = (Build_shr_record (Zpos q) false false, e + n).
Proof.
  intros Hn En. destruct n as [|n|n]; [| |lia].
  - unfold shr_fexp. rewrite Z.mul_1_r. cbn [Zdigits2]. fold (digits q).
    replace (digits q + 0 + e) with (digits q + e) in En by lia. rewrite <- En. cbn. f_equal. lia.
  - rewrite <- pos_iter_xO. unfold shr_fexp. cbn [Zdigits2]. fold (digits (Pos.iter xO q n)).
    rewrite digits_shift, <- En. cbn [shr shr_record_of_loc]. rewrite pos_iter_xO.
    by rewrite iter_shr_exact.
Qed.

(** A mantissa already at its exponent rounds to itself. *)
Lemma round_aux_settled s q e :
  SpecFloat.fexp prec emax (digits q + e) = e -> e <= 971 ->
  binary_round_aux prec emax s (Zpos q) e loc_Exact = S754_finite s q e.
Proof.
  intros He Hb. pose proof (shr_fexp_exact q 0 e ltac:(lia) ltac:(rewrite Z.add_0_r; lia)) as H.
  rewrite Z.mul_1_r, Z.add_0_r in H.
  unfold binary_round_aux. rewrite H. cbn [shr_m loc_of_shr_record round_nearest_even]. rewrite H.
  cbn [shr_m]. change (emax - prec) with 971. by rewrite (proj2 (Z.leb_le e 971) Hb).
Qed.

(** A number with at most 53 significant bits is represented exactly. *)
Lemma round_exact s D q k e :
  Zpos D = Zpos q * 2 ^ k -> 0 <= k -> digits q <= 53 -> -1074 <= e -> digits q + k + e <= 1024 ->
  exists m' e', binary_round prec emax s D e = S754_finite s m' e'
    /\ bounded prec emax m' e' = true /\ Zpos m' * 2 ^ (e' + 1074) = Zpos D * 2 ^ (e + 1074).
Proof.
  intros HD Hk Hq He Hmax.
  assert (Hd : digits D = digits q + k).
  { destruct (digits_spec q) as [H1 H2]. apply digits_unique; [|lia]. rewrite HD.
    replace (digits q + k - 1) with (digits q - 1 + k) by lia. rewrite !Z.pow_add_r by lia. nia. }
  cut (exists m' e', binary_round prec emax s D e = S754_finite s m' e'
         /\ Zpos m' * 2 ^ (e' + 1074) = Zpos D * 2 ^ (e + 1074)).
  { intros (m' & e' & E & Hv). exists m', e'. split_and!; [done| |done].
    destruct (round_rounded s D e He) as [E'|(m0 & e0 & E' & Hb)]; rewrite E in E'; simplify_eq. done. }
  unfold binary_round, shl_align. fold (digits D). rewrite Hd.
  pose proof (fexp_spec (digits q + k) e) as Hf.
  set (f := SpecFloat.fexp prec emax (digits q + k + e)) in *.
  destruct (decide (f < e)) as [Hlt|Hge].
  - destruct (f - e) as [|j|j] eqn:Ej; try lia. exists (Pos.iter xO D j), f. split.
    + apply round_aux_settled; [|lia]. rewrite digits_shift, Hd.
      replace (digits q + k + Zpos j + f) with (digits q + k + e) by lia. done.
    + rewrite pos_iter_xO, <- Z.mul_assoc, <- Z.pow_add_r by lia. do 2 f_equal. lia.
  - set (n := f - e) in *. assert (Hn : 0 <= n <= k) by lia.
    assert (E0 : exists q', Zpos q' = Zpos q * 2 ^ (k - n) /\ digits q' = digits q + k - n).
    { assert (0 < 2 ^ (k - n)) by lia. exists (Z.to_pos (Zpos q * 2 ^ (k - n))). split; [lia|].
      destruct (digits_spec q) as [H1 H2]. apply digits_unique; [|lia]. rewrite Z2Pos.id by lia.
      replace (digits q + k - n - 1) with (digits q - 1 + (k - n)) by lia.
      replace (digits q + k - n) with (digits q + (k - n)) by lia. rewrite !Z.pow_add_r by lia. nia. }
    destruct E0 as (q' & E1 & E2).
    assert (ED : Zpos D = Zpos q' * 2 ^ n).
    { rewrite HD, E1, <- Z.mul_assoc, <- Z.pow_add_r by lia. do 2 f_equal. lia. }
    exists q', (e + n). split.
    + replace (match n with Zneg d => (Pos.iter xO D d, f) | _ => (D, e) end) with (D, e)
        by (destruct n; done || lia).
      pose proof (shr_fexp_exact q' n e ltac:(lia)
        ltac:(replace (digits q' + n + e) with (digits q + k + e) by lia; fold f; lia)) as H1.
      pose proof (shr_fexp_exact q' 0 (e + n) ltac:(lia)
        ltac:(replace (digits q' + 0 + (e + n)) with (digits q + k + e) by lia; fold f; lia)) as H2.
      rewrite Z.mul_1_r, Z.add_0_r in H2. unfold binary_round_aux. rewrite ED, H1.
      cbn [shr_m loc_of_shr_record round_nearest_even]. rewrite H2. cbn [shr_m].
      change (emax - prec) with 971. by rewrite (proj2 (Z.leb_le (e + n) 971) ltac:(lia)).
    + rewrite ED, <- Z.mul_assoc, <- Z.pow_add_r by lia. do 2 f_equal. lia.
Qed.

Lemma flt_finite m e m' e' :
  flt (S754_finite false m e) (S754_finite false m' e') = true
  <-> e < e' \/ (e = e' /\ Zpos m < Zpos m').
Proof.
  rewrite flt_key. split.
  - intros (a & b & [= <-] & [= <-] & H). cbn in H. lia.
  - intros H. exists (1, e, Zpos m), (1, e', Zpos m'). split_and!; [done|done|]. cbn. lia.
Qed.

(** ** Counting down in quarters *)

Lemma quarter_value : float_ratio 1 4 = S754_finite false 4503599627370496 (-54).
Proof. vm_compute. reflexivity. Qed.

Definition two51 : float := float_of_Z (2 ^ 51).
Lemma two51_value : two51 = S754_finite false 4503599627370496 (-1).
Proof. vm_compute. reflexivity. Qed.

Lemma below_two51 m e :
  bounded prec emax m e = true -> flt (S754_finite false m e) two51 = true -> e <= -2.
Proof.
  intros Hb. rewrite two51_value. apply bounded_spec in Hb. rewrite flt_key.
  intros (a & b & [= <-] & [= <-] & H). cbn in H.
  destruct (decide (e <= -2)); [done|]. destruct (digits_spec m) as [_ Hm].
  assert (digits m = 53) as E by lia. rewrite E in Hm. change (2 ^ (53 - 1)) with 4503599627370496 in Hm. lia.
Qed.

(** Taking a quarter from a larger number below 2^51 is exact. *)
Lemma fsub_quarter m e :
  bounded prec emax m e = true -> e <= -2 -> flt (float_ratio 1 4) (S754_finite false m e) = true ->
  exists m' e', fsub (S754_finite false m e) (float_ratio 1 4) = S754_finite false m' e'
    /\ bounded prec emax m' e' = true
    /\ Zpos m' * 2 ^ (e' + 1074) = Zpos m * 2 ^ (e + 1074) - 2 ^ 1072.
Proof.
  rewrite quarter_value. intros Hb He Hlt. pose proof (proj1 (bounded_spec _ _) Hb) as Hb'.
  apply flt_key in Hlt as (a & b & [= <-] & [= <-] & Hlt). cbn in Hlt.
  assert (He' : -54 <= e) by lia. set (q := Zpos m - 2 ^ (-2 - e)).
  assert (Hpow : 2 ^ (-2 - e) * 2 ^ (e + 54) = 4503599627370496).
  { rewrite <- Z.pow_add_r by lia. by replace (-2 - e + (e + 54)) with 52 by lia. }
  assert (Hq : 0 < q).
  { subst q. destruct (decide (e = -54)) as [->|]; [change (2 ^ (-2 - -54)) with 4503599627370496; lia|].
    assert (digits m = 53) as E by lia. destruct (digits_spec m) as [_ Hm]. rewrite E in Hm.
    assert (2 ^ (-2 - e) < 2 ^ 52) by (apply Z.pow_lt_mono_r; lia). change (53 - 1) with 52 in Hm. lia. }
  assert (Hdq : digits (Z.to_pos q) <= 53).
  { destruct (digits_spec (Z.to_pos q)) as [_ H1], (digits_spec m) as [_ H2]. rewrite Z2Pos.id in H1 by lia.
    assert (2 ^ (digits (Z.to_pos q) - 1) < 2 ^ digits m) by lia. apply Z.pow_lt_mono_r_iff in H; lia. }
  assert (HD : Zpos m * 2 ^ (e + 54) - 4503599627370496 = q * 2 ^ (e + 54)).
  { subst q. rewrite Z.mul_sub_distr_r, Hpow. done. }
  assert (0 < 2 ^ (e + 54)) by lia.
  destruct (round_exact false (Z.to_pos (q * 2 ^ (e + 54))) (Z.to_pos q) (e + 54) (-54)) as (m' & e' & E & Hbd & Hv);
    [rewrite !Z2Pos.id by lia; done|lia|lia|lia|lia|].
  exists m', e'. split_and!; [|done|].
  - unfold fsub, SFsub. replace (Z.min e (-54)) with (-54) by lia. cbn [cond_Zopp].
    rewrite !align_value by lia. replace (e - -54) with (e + 54) by lia.
    change (4503599627370496 * 2 ^ (-54 - -54)) with 4503599627370496.
    rewrite HD. destruct (q * 2 ^ (e + 54)) as [|D|D] eqn:ED; try lia. exact E.
  - rewrite Hv, Z2Pos.id by lia. rewrite <- HD, Z.mul_sub_distr_r, <- Z.mul_assoc, <- Z.pow_add_r by lia.
    do 3 f_equal. lia.
Qed.

Lemma fsub_self s m e : fsub (S754_finite s m e) (S754_finite s m e) = f0.
Proof. unfold fsub, SFsub. by rewrite Z.sub_diag. Qed.

(** ** Comparison of numbers *)

Lemma feq_spec x y : is_nan x = false -> is_nan y = false ->
  (feq x y = true <-> fkey x = fkey y).
Proof.
  intros Hx Hy. pose proof (SFcompare_key x y) as H. unfold feq, SFeqb.
  destruct (fkey x) as [[[a1 a2] a3]|] eqn:Ex; [|apply fkey_nan in Ex; congruence].
  destruct (fkey y) as [[[b1 b2] b3]|] eqn:Ey; [|apply fkey_nan in Ey; congruence].
  destruct (SFcompare x y) as [[]|]; simpl in H; split; intros; simplify_eq; try done; lia.
Qed.

Lemma flt_trichotomy x y : is_nan x = false -> is_nan y = false ->
  (feq x y = true /\ flt x y = false /\ flt y x = false) \/
  (feq x y = false /\ flt x y = true /\ flt y x = false) \/
  (feq x y = false /\ flt x y = false /\ flt y x = true).
Proof.
  intros Hx Hy.
  assert (forall a b, flt a b = true -> flt b a = false) as asym.
  { intros a b Hab. destruct (flt b a) eqn:E; [|done]. apply flt_fle in E.
    apply flt_not_fle in Hab. congruence. }
  destruct (flt x y) eqn:E1.
  { right. left. split; [|auto]. destruct (feq x y) eqn:E; [|done]. apply feq_spec in E; [|done..].
    apply flt_key in E1 as (a & b & Ha & Hb & L). rewrite Ha, Hb in E. injection E as ->.
    destruct b as [[??]?]. simpl in L. lia. }
  destruct (flt y x) eqn:E2.
  { right. right. split; [|auto]. destruct (feq x y) eqn:E; [|done]. apply feq_spec in E; [|done..].
    apply flt_key in E2 as (a & b & Ha & Hb & L). rewrite Ha, Hb in E. injection E as ->.
    destruct a as [[??]?]. simpl in L. lia. }
  left. split; [|auto]. destruct (fle_total x y Hx Hy) as [L|]; [|congruence].
  apply fle_key in L as (a & b & Ha & Hb & [->|L]).
  - apply feq_spec; congruence.
  - assert (flt x y = true) by (apply flt_key; eauto). congruence.
Qed.

Lemma flt_trans x y z : flt x y = true -> flt y z = true -> flt x z = true.
Proof.
  rewrite !flt_key. intros (a & b & Ha & Hb & L) (b' & c & Hb' & Hc & L').
  rewrite Hb in Hb'. injection Hb' as <-. exists a, c. split_and!; try done.
  destruct a as [[??]?], b as [[??]?], c as [[??]?]. simpl in *. lia.
Qed.
