(* ===== verification/PyValue.v ===== *)
(** * Python values: dynamic data, dictionaries, strings and ISO timestamps

    The JSON columns of the database and the [Any]-typed signal values are
    dynamic Python values.  A dictionary is the list of its items in insertion
    order with distinct keys; assignment keeps the position of an existing key.
    Strings are byte strings and the case mappings are those of ASCII. *)
From Stdlib Require Import ZArith Lia Bool List String Ascii.
From Stdlib Require Import Floats.SpecFloat.
From stdpp Require Import base list strings.
From S2P Require Import Prelude PyDate PyFloat.
Local Open Scope string_scope.
Local Open Scope list_scope.
Local Open Scope Z_scope.

(** [VDecimal c e] is the decimal number [c * 10 ^ e]. *)
Inductive pyval :=
  | VNone
  | VBool (b : bool)
  | VInt (n : Z)
  | VFloat (x : float)
  | VDecimal (coef : Z) (exp : Z)
  | VStr (s : string)
  | VList (l : list pyval)
  | VDict (d : list (string * pyval)).

Abbreviation dict := (list (string * pyval)) (only parsing).

(** ** Dictionaries *)

Fixpoint dict_find {V} (k : string) (d : list (string * V)) : option V :=
  match d with
  | [] => None
  | (k', v) :: d => if String.eqb k k' then Some v else dict_find k d
  end.

(** [d.get(k)]. *)
Definition dget (d : dict) (k : string) : pyval :=
  match dict_find k d with Some v => v | None => VNone end.

(** [d[k] = v]. *)
Fixpoint dict_set {V} (k : string) (v : V) (d : list (string * V)) : list (string * V) :=
  match d with
  | [] => [(k, v)]
  | (k', v') :: d => if String.eqb k k' then (k', v) :: d else (k', v') :: dict_set k v d
  end.

(** [d.pop(k, default)] as the remaining dictionary. *)
Definition dict_remove {V} (k : string) (d : list (string * V)) : list (string * V) :=
  List.filter (fun kv => negb (String.eqb k kv.1)) d.

(** [{**d, **e}] and [d.update(e)]. *)
Definition dict_update {V} (d e : list (string * V)) : list (string * V) :=
  fold_left (fun acc kv => dict_set kv.1 kv.2 acc) e d.

(** The dictionary inside a value, [{}] when it is absent. *)
Definition as_dict (v : pyval) : dict := match v with VDict d => d | _ => [] end.
Definition as_list (v : pyval) : list pyval := match v with VList l => l | _ => [] end.

Lemma dict_find_set_eq {V} k (v : V) d : dict_find k (dict_set k v d) = Some v.
Proof.
  induction d as [|[k' v'] d IH]; simpl; [by rewrite String.eqb_refl|].
  destruct (String.eqb_spec k k') as [->|]; simpl; [by rewrite String.eqb_refl|].
  by destruct (String.eqb_spec k k').
Qed.

Lemma dict_find_set_ne {V} k k' (v : V) d :
  k <> k' -> dict_find k (dict_set k' v d) = dict_find k d.
Proof.
  intros Hne. induction d as [|[k0 v0] d IH]; simpl.
  - by destruct (String.eqb_spec k k').
  - destruct (String.eqb_spec k' k0) as [->|]; simpl; destruct (String.eqb_spec k k0); congruence.
Qed.

Lemma dict_find_set {V} k k' (v : V) d :
  dict_find k (dict_set k' v d) = if String.eqb k k' then Some v else dict_find k d.
Proof. destruct (String.eqb_spec k k') as [->|]; [apply dict_find_set_eq|by apply dict_find_set_ne]. Qed.
Lemma dict_find_In {V} k (v : V) d : dict_find k d = Some v -> In (k, v) d.
Proof.
  induction d as [|[k' v'] d IH]; simpl; [done|]. destruct (String.eqb_spec k k') as [->|].
  - intros [= ->]. by left.
  - intros H. right. by apply IH.
Qed.

Lemma dict_find_remove_eq {V} k (d : list (string * V)) : dict_find k (dict_remove k d) = None.
Proof.
  induction d as [|[k' v'] d IH]; simpl; [done|].
  destruct (String.eqb_spec k k') as [->|]; simpl; [done|]. by destruct (String.eqb_spec k k').
Qed.

Lemma dict_find_remove_ne {V} k k' (d : list (string * V)) :
  k <> k' -> dict_find k (dict_remove k' d) = dict_find k d.
Proof.
  intros Hne. induction d as [|[k0 v0] d IH]; simpl; [done|].
  destruct (String.eqb_spec k' k0) as [->|]; simpl; destruct (String.eqb_spec k k0); congruence.
Qed.

Lemma dget_set_eq k v d : dget (dict_set k v d) k = v.
Proof. unfold dget. by rewrite dict_find_set_eq. Qed.
Lemma dget_set_ne k k' v d : k <> k' -> dget (dict_set k' v d) k = dget d k.
Proof. intros. unfold dget. by rewrite dict_find_set_ne. Qed.
Lemma dget_remove_eq k d : dget (dict_remove k d) k = VNone.
Proof. unfold dget. by rewrite dict_find_remove_eq. Qed.
Lemma dget_remove_ne k k' d : k <> k' -> dget (dict_remove k' d) k = dget d k.
Proof. intros. unfold dget. by rewrite dict_find_remove_ne. Qed.

Lemma dict_set_id {V} k (v : V) d : dict_find k d = Some v -> dict_set k v d = d.
Proof.
  induction d as [|[k' v'] d IH]; simpl; [done|].
  destruct (String.eqb_spec k k') as [->|]; [by intros [= ->]|]. intros H. by rewrite IH.
Qed.

(** Evaluates lookups of literal keys in updated dictionaries. *)
Ltac dict_simpl :=
  repeat first [ rewrite dget_set_eq | rewrite dget_remove_eq
               | rewrite dget_set_ne by done | rewrite dget_remove_ne by done ].

(** ** Truth and conversions *)

Definition truthy (v : pyval) : bool :=
  match v with
  | VNone => false
  | VBool b => b
  | VInt n => negb (n =? 0)
  | VFloat x => match x with S754_zero _ => false | _ => true end
  | VDecimal c _ => negb (c =? 0)
  | VStr s => negb (String.eqb s "")
  | VList l => match l with [] => false | _ => true end
  | VDict d => match d with [] => false | _ => true end
  end.

Definition is_none (v : pyval) : bool := match v with VNone => true | _ => false end.

(** [x or y]. *)
Definition py_or (x y : pyval) : pyval := if truthy x then x else y.

Definition of_opt {A} (f : A -> pyval) (o : option A) : pyval :=
  match o with Some a => f a | None => VNone end.

(** The exact value of a finite number, as a fraction with a positive denominator. *)
Definition num_of (v : pyval) : option (Z * Z) :=
  match v with
  | VBool b => Some (if b then 1 else 0, 1)
  | VInt n => Some (n, 1)
  | VDecimal c e => Some (if 0 <=? e then (c * 10 ^ e, 1) else (c, 10 ^ (- e)))
  | VFloat (S754_zero _) => Some (0, 1)
  | VFloat (S754_finite s m e) =>
      let '(n, d) := scaled_fraction m e 1 in Some (if s then - n else n, d)
  | _ => None
  end.

(** [a == b]: numbers compare by value, whatever their types; dictionaries compare
    as maps. *)
Fixpoint py_eq (a b : pyval) : bool :=
  match a, b with
  | VNone, VNone => true
  | VStr s, VStr t => String.eqb s t
  | VList l, VList m =>
      (fix go (l m : list pyval) : bool :=
         match l, m with
         | [], [] => true
         | x :: l, y :: m => py_eq x y && go l m
         | _, _ => false
         end) l m
  | VDict d, VDict e =>
      (length d =? length e)%nat &&
      (fix go (d : list (string * pyval)) : bool :=
         match d with
         | [] => true
         | (k, v) :: d => match dict_find k e with Some w => py_eq v w | None => false end && go d
         end) d
  | _, _ =>
      match num_of a, num_of b with
      | Some (n, d), Some (n', d') => n * d' =? n' * d
      | None, None => match a, b with VFloat x, VFloat y => feq x y | _, _ => false end
      | _, _ => false
      end
  end.

(** ** Strings *)

Definition lower_ascii (c : ascii) : ascii :=
  let n := nat_of_ascii c in
  if (65 <=? n)%nat && (n <=? 90)%nat then ascii_of_nat (n + 32) else c.
Definition upper_ascii (c : ascii) : ascii :=
  let n := nat_of_ascii c in
  if (97 <=? n)%nat && (n <=? 122)%nat then ascii_of_nat (n - 32) else c.

Fixpoint string_map (f : ascii -> ascii) (s : string) : string :=
  match s with
  | EmptyString => EmptyString
  | String c s => String (f c) (string_map f s)
  end.

(** [s.casefold()] and [s.upper()]. *)
Definition casefold : string -> string := string_map lower_ascii.
Definition upper : string -> string := string_map upper_ascii.

Lemma upper_idem s : upper (upper s) = upper s.
Proof.
  unfold upper. induction s as [|c s IH]; simpl; [done|]. rewrite IH. f_equal.
  destruct c as [[] [] [] [] [] [] [] []]; reflexivity.
Qed.

(** The white space of [str.strip]: tab to carriage return, the separators 28
    to 31 and the space. *)
Definition is_space (c : ascii) : bool :=
  let n := nat_of_ascii c in
  ((9 <=? n) && (n <=? 13) || (28 <=? n) && (n <=? 32))%nat%bool.

Fixpoint lstrip (s : string) : string :=
  match s with
  | String c s' => if is_space c then lstrip s' else s
  | EmptyString => EmptyString
  end.
Fixpoint rstrip (s : string) : string :=
  match s with
  | EmptyString => EmptyString
  | String c s' =>
      match rstrip s' with
      | EmptyString => if is_space c then EmptyString else String c EmptyString
      | s'' => String c s''
      end
  end.
Definition strip (s : string) : string := rstrip (lstrip s).

(** [needle in haystack] and [s.startswith(p)]. *)
Definition startswith (s p : string) : bool := String.prefix p s.
Fixpoint contains (haystack needle : string) : bool :=
  startswith haystack needle ||
  match haystack with
  | EmptyString => false
  | String _ h => contains h needle
  end.

Definition smem (s : string) (l : list string) : bool := existsb (String.eqb s) l.

Lemma smem_In s l : smem s l = true <-> In s l.
Proof.
  unfold smem. rewrite existsb_exists. split.
  - intros (x & Hin & ->%String.eqb_eq). done.
  - intros Hin. exists s. by rewrite String.eqb_refl.
Qed.

(** [dict.fromkeys(...)] on strings: the first occurrence of each. *)
Fixpoint dedup (seen l : list string) : list string :=
  match l with
  | [] => []
  | x :: l => if smem x seen then dedup seen l else x :: dedup (x :: seen) l
  end.
Definition unique (l : list string) : list string := dedup [] l.

Lemma dedup_In seen l x : In x (dedup seen l) <-> In x l /\ ~ In x seen.
Proof.
  revert seen. induction l as [|y l IH]; intros seen; simpl; [tauto|].
  destruct (smem y seen) eqn:E.
  - apply smem_In in E. rewrite IH. split; [tauto|]. intros [[->|?] ?]; tauto.
  - assert (~ In y seen) by (rewrite <- smem_In; congruence). simpl. rewrite IH. simpl.
    split; [naive_solver|]. intros [[->|Hx] Hn]; [by left|].
    destruct (decide (y = x)) as [->|]; [by left|]. right. naive_solver.
Qed.

Lemma unique_In l x : In x (unique l) <-> In x l.
Proof. unfold unique. rewrite dedup_In. simpl. tauto. Qed.

Lemma dedup_NoDup seen l : List.NoDup (dedup seen l).
Proof.
  revert seen. induction l as [|y l IH]; intros seen; simpl; [constructor|].
  destruct (smem y seen); [done|]. constructor; [|done]. rewrite dedup_In. simpl. tauto.
Qed.

(** ** Decimal numerals *)

Definition digit (d : Z) : ascii := ascii_of_nat (48 + Z.to_nat d).

#[global] Arguments digit : simpl never.

(** [f"{n:0{width}d}"] for [0 <= n < 10 ^ width]. *)
Fixpoint pad (width : nat) (n : Z) : string :=
  match width with
  | O => ""
  | S w => pad w (n / 10) ++ String (digit (n mod 10)) ""
  end%string.

Definition digit_value (c : ascii) : option Z :=
  let n := Z.of_nat (nat_of_ascii c) in
  if (48 <=? n) && (n <=? 57) then Some (n - 48) else None.

(** Reads exactly [width] digits. *)
Fixpoint read_digits (width : nat) (acc : Z) (s : string) : option (Z * string) :=
  match width with
  | O => Some (acc, s)
  | S w => match s with
           | String c s => d ← digit_value c; read_digits w (acc * 10 + d) s
           | EmptyString => None
           end
  end.

(** [str(n)]. *)
Fixpoint nat_digits (fuel : nat) (n : Z) : string :=
  match fuel with
  | O => ""
  | S fuel => if n <? 10 then String (digit n) ""
              else (nat_digits fuel (n / 10) ++ String (digit (n mod 10)) "")%string
  end.
Definition str_of_Z (n : Z) : string :=
  let digits := nat_digits (S (Z.to_nat (Z.log2 (Z.abs n)))) (Z.abs n) in
  if n <? 0 then String "-" digits else digits.

(** [int(s)] of a string: an optional sign and at least one digit, between white
    space; [None] stands for the [ValueError]. *)
Definition parse_int (s : string) : option Z :=
  let digits s :=
    if (0 <? String.length s)%nat then fst <$> read_digits (String.length s) 0 s else None in
  match strip s with
  | String "-" s => Z.opp <$> digits s
  | String "+" s => digits s
  | s => digits s
  end.

(** [int(v)]; [None] stands for the [TypeError] or [ValueError]. *)
Definition py_int (v : pyval) : option Z :=
  match v with
  | VInt n => Some n
  | VBool b => Some (if b then 1 else 0)
  | VStr s => parse_int s
  | VFloat x => match int_of_float x with Ok n => Some n | Raise _ => None end
  | VDecimal c e => Some (if 0 <=? e then c * 10 ^ e else Z.quot c (10 ^ (- e)))
  | VNone | VList _ | VDict _ => None
  end.

(** [int(v or 0)] of a counter, which is an integer when it is present. *)
Definition int_or_0 (v : pyval) : Z := match py_int (py_or v (VInt 0)) with Some n => n | None => 0 end.

Lemma digit_value_digit d : 0 <= d < 10 -> digit_value (digit d) = Some d.
Proof.
  intros Hd. assert (In d [0;1;2;3;4;5;6;7;8;9]) as Hin by (simpl; lia).
  simpl in Hin. repeat destruct Hin as [<-|Hin]; try reflexivity. done.
Qed.

Lemma append_cons c (s t : string) : (String c s ++ t)%string = String c (s ++ t)%string.
Proof. reflexivity. Qed.
Lemma append_nil (t : string) : ("" ++ t)%string = t.
Proof. reflexivity. Qed.

Lemma app_string_assoc (a b c : string) : ((a ++ b) ++ c)%string = (a ++ (b ++ c))%string.
Proof. induction a as [|x a IH]; [done|]. exact (f_equal (String x) IH). Qed.

Lemma read_digits_pad w n acc rest :
  0 <= n < 10 ^ Z.of_nat w ->
  read_digits w acc (pad w n ++ rest)%string = Some (acc * 10 ^ Z.of_nat w + n, rest).
Proof.
  assert (forall w s acc k rest, read_digits w acc s = Some (k, "") ->
            read_digits w acc (s ++ rest)%string = Some (k, rest)) as Happ.
  { clear. intros w. induction w as [|w IH]; intros s acc k rest H; simpl in *.
    - injection H as -> ->. done.
    - destruct s as [|c s]; [done|]. rewrite append_cons.
      destruct (digit_value c); simpl in *; [by apply IH|done]. }
  assert (forall w s acc k d, read_digits w acc s = Some (k, "") -> 0 <= d < 10 ->
            read_digits (S w) acc (s ++ String (digit d) "")%string = Some (k * 10 + d, "")) as Hsnoc.
  { clear. intros w. induction w as [|w IH]; intros s acc k d H Hd.
    - simpl in H. injection H as -> ->. rewrite append_nil. cbn [read_digits].
      rewrite digit_value_digit by done. done.
    - destruct s as [|c s]; [done|]. rewrite append_cons. cbn [read_digits] in *.
      destruct (digit_value c); simpl in *; [|done]. by apply IH. }
  intros Hn. apply Happ. revert n acc Hn. induction w as [|w IH]; intros n acc Hn.
  - simpl in *. do 2 f_equal. lia.
  - cbn [pad]. rewrite (Hsnoc _ _ _ (acc * 10 ^ Z.of_nat w + n / 10)).
    + rewrite Nat2Z.inj_succ, Z.pow_succ_r by lia. do 2 f_equal.
      pose proof (Z.div_mod n 10). lia.
    + apply IH. rewrite Nat2Z.inj_succ, Z.pow_succ_r in Hn by lia.
      split; [apply Z.div_pos; lia|]. apply Z.div_lt_upper_bound; lia.
    + apply Z.mod_pos_bound. lia.
Qed.

(** ** ISO timestamps

    [date.isoformat()], [datetime.isoformat()] of a UTC datetime, and
    [datetime.fromisoformat] on the strings of that form. *)

Definition date_isoformat (d : date) : string :=
  let '(y, m, dd) := ord2ymd d in
  (pad 4 y ++ ("-" ++ (pad 2 m ++ ("-" ++ pad 2 dd))))%string.

Definition dt_isoformat (t : datetime) : string :=
  let '(y, m, d) := ord2ymd (t / us_per_day) in
  let us := t mod us_per_day in
  let secs := us / us_per_second in
  let ff := us mod us_per_second in
  (pad 4 y ++ String "-" (pad 2 m ++ String "-" (pad 2 d ++ String "T"
    (pad 2 (secs / 3600) ++ String ":" (pad 2 (secs / 60 mod 60) ++ String ":"
      (pad 2 (secs mod 60) ++
        (if (ff =? 0)%Z then "+00:00" else String "." (pad 6 ff ++ "+00:00"))))))))%string.

Definition expect (c : ascii) (s : string) : option string :=
  match s with
  | String c' s => if Ascii.eqb c c' then Some s else None
  | EmptyString => None
  end.

Definition fromisoformat (s : string) : option datetime :=
  '(y, s) ← read_digits 4 0 s; s ← expect "-" s;
  '(m, s) ← read_digits 2 0 s; s ← expect "-" s;
  '(d, s) ← read_digits 2 0 s; s ← expect "T" s;
  '(hh, s) ← read_digits 2 0 s; s ← expect ":" s;
  '(mm, s) ← read_digits 2 0 s; s ← expect ":" s;
  '(ss, s) ← read_digits 2 0 s;
  '(ff, s) ← match expect "." s with
             | Some s => read_digits 6 0 s
             | None => Some (0, s)
             end;
  if String.eqb s "+00:00" &&
     ((1 <=? y) && (1 <=? m) && (m <=? 12) && (1 <=? d) && (d <=? days_in_month y m) &&
      (hh <? 24) && (mm <? 60) && (ss <? 60))
  then Some (mk_date y m d * us_per_day + ((hh * 60 + mm) * 60 + ss) * us_per_second + ff)
  else None.

Lemma expect_cons c s : expect c (String c s) = Some s.
Proof. unfold expect. by rewrite Ascii.eqb_refl. Qed.

(** Reads one zero-padded field and the separator after it. *)
Ltac read_field :=
  rewrite read_digits_pad by
    (unfold us_per_second in *;
     match goal with
     | |- _ <= _ < ?p => let p' := eval vm_compute in p in change p with p'
     end; lia);
  rewrite Z.mul_0_l, Z.add_0_l; cbn [mbind option_bind];
  try (rewrite expect_cons; cbn [mbind option_bind]).

Lemma fromisoformat_isoformat t :
  date_in_range (dt_date t) -> fromisoformat (dt_isoformat t) = Some t.
Proof.
  intros Hr. unfold date_in_range, date_year, dt_date in Hr.
  pose proof (ord2ymd_correct (t / us_per_day)) as Hd. unfold dt_isoformat.
  destruct (ord2ymd (t / us_per_day)) as [[y m] d]. destruct Hd as [[Hm Hdd] Hd].
  assert (0 < us_per_day) as Hpos by (unfold us_per_day, us_per_second; lia).
  pose proof (Z.div_mod t us_per_day ltac:(lia)) as Ht.
  pose proof (Z.mod_pos_bound t us_per_day Hpos) as Hu. rewrite <- Hd in Ht.
  set (u := t mod us_per_day) in *. clearbody u.
  assert (days_in_month y m <= 31) by (unfold days_in_month; repeat case_match; lia).
  pose proof (Z.div_mod u us_per_second ltac:(unfold us_per_second; lia)) as Hs.
  pose proof (Z.mod_pos_bound u us_per_second ltac:(unfold us_per_second; lia)) as Hf.
  set (ff := u mod us_per_second) in *. set (s := u / us_per_second) in *. clearbody s ff.
  assert (0 <= s < 86400) as Hsec by (unfold us_per_day, us_per_second in *; lia).
  assert (0 <= s / 3600 < 24) by (Z.div_mod_to_equations; lia).
  assert (0 <= s / 60 mod 60 < 60) by (apply Z.mod_pos_bound; lia).
  assert (0 <= s mod 60 < 60) by (apply Z.mod_pos_bound; lia).
  assert (s = (s / 3600 * 60 + s / 60 mod 60) * 60 + s mod 60) as Hsplit
    by (Z.div_mod_to_equations; lia).
  set (hh := s / 3600) in *. set (mm := s / 60 mod 60) in *. set (ss := s mod 60) in *.
  clearbody hh mm ss. unfold fromisoformat.
  do 6 read_field.
  destruct (Z.eqb_spec ff 0) as [E|E].
  - change (expect "." "+00:00") with (@None string).
    cbn [mbind option_bind]. rewrite String.eqb_refl.
    match goal with |- (if ?c then _ else _) = _ => assert (c = true) as -> by lia end.
    f_equal. lia.
  - rewrite expect_cons. read_field. rewrite String.eqb_refl.
    match goal with |- (if ?c then _ else _) = _ => assert (c = true) as -> by lia end.
    f_equal. lia.
Qed.

Example iso_example : dt_isoformat (dt_combine (mk_date 2025 1 9) 14 5 + 7) = "2025-01-09T14:05:00.000007+00:00".
Proof. vm_compute. reflexivity. Qed.
