(* ===== verification/CalendarFacts.v ===== *)
(** * The trading calendar: where the holidays lie

    Every full-day holiday of a year lies in a window of its own, and the
    windows are at least five days apart, across the turn of the year too.  The second part proves the searches of the calendar correct. *)
From Stdlib Require Import ZArith Lia String Ascii List Bool.
From stdpp Require Import base list strings.
From S2P Require Import Prelude PyDate Calendar.
Local Open Scope string_scope.
Local Open Scope list_scope.
Local Open Scope Z_scope.

Lemma weekday_range d : 0 <= weekday d < 7.
Proof. unfold weekday. apply Z.mod_pos_bound. lia. Qed.

Lemma weekday_add d k : weekday (d + k) = (weekday d + k) mod 7.
Proof. unfold weekday. Z.div_mod_to_equations. lia. Qed.

(** Seven steps reach every weekday. *)
Lemma seek_weekday_up fuel wd c :
  0 <= wd < 7 -> (wd - weekday c) mod 7 < Z.of_nat fuel ->
  seek_weekday fuel 1 wd c = c + (wd - weekday c) mod 7.
Proof.
  revert c. induction fuel as [|fuel IH]; intros c Hwd Hf; simpl.
  - pose proof (Z.mod_pos_bound (wd - weekday c) 7). lia.
  - pose proof (weekday_range c). destruct (Z.eqb_spec (weekday c) wd) as [->|Hne].
    + rewrite Z.sub_diag, Z.mod_0_l; lia.
    + assert ((wd - weekday (c + 1)) mod 7 = (wd - weekday c) mod 7 - 1) as Hs.
      { rewrite weekday_add. Z.div_mod_to_equations. lia. }
      rewrite IH; lia.
Qed.

Lemma seek_weekday_down fuel wd c :
  0 <= wd < 7 -> (weekday c - wd) mod 7 < Z.of_nat fuel ->
  seek_weekday fuel (-1) wd c = c - (weekday c - wd) mod 7.
Proof.
  revert c. induction fuel as [|fuel IH]; intros c Hwd Hf; simpl.
  - pose proof (Z.mod_pos_bound (weekday c - wd) 7). lia.
  - pose proof (weekday_range c). destruct (Z.eqb_spec (weekday c) wd) as [->|Hne].
    + rewrite Z.sub_diag, Z.mod_0_l; lia.
    + assert ((weekday (c + -1) - wd) mod 7 = (weekday c - wd) mod 7 - 1) as Hs.
      { rewrite weekday_add. Z.div_mod_to_equations. lia. }
      rewrite IH; lia.
Qed.

Lemma nth_weekday_bounds year month wd n :
  0 <= wd < 7 ->
  weekday (_nth_weekday year month wd n) = wd /\
  mk_date year month 1 + 7 * (n - 1) <= _nth_weekday year month wd n
    <= mk_date year month 1 + 7 * (n - 1) + 6.
Proof.
  intros Hwd. unfold _nth_weekday. rewrite seek_weekday_up by
    (pose proof (Z.mod_pos_bound (wd - weekday (mk_date year month 1)) 7); lia).
  set (c := mk_date year month 1).
  pose proof (Z.mod_pos_bound (wd - weekday c) 7). split; [|lia].
  rewrite !weekday_add. pose proof (weekday_range c). Z.div_mod_to_equations. lia.
Qed.

Lemma last_weekday_bounds year month wd :
  0 <= wd < 7 ->
  weekday (_last_weekday year month wd) = wd /\
  mk_date year (month + 1) 1 - 7 <= _last_weekday year month wd < mk_date year (month + 1) 1.
Proof.
  intros Hwd. unfold _last_weekday. rewrite seek_weekday_down by
    (pose proof (Z.mod_pos_bound (weekday (mk_date year (month + 1) 1 - 1) - wd) 7); lia).
  set (c := mk_date year (month + 1) 1 - 1).
  pose proof (Z.mod_pos_bound (weekday c - wd) 7). split; [|lia].
  unfold Z.sub at 1. rewrite weekday_add. pose proof (weekday_range c).
  Z.div_mod_to_equations. lia.
Qed.

Lemma observed_bounds d : d - 1 <= _observed d <= d + 1.
Proof. unfold _observed. repeat case_match; lia. Qed.

(** Offset of the first of a month from the last day of the previous year. *)
Lemma mk_date_offset y m d :
  mk_date y m d = days_before_year y + days_before_month y m + d.
Proof. reflexivity. Qed.

Definition leap_day (y : Z) : Z := if is_leap y then 1 else 0.

Lemma leap_day_range y : 0 <= leap_day y <= 1.
Proof. unfold leap_day. case_match; lia. Qed.

Lemma days_before_year_succ y : days_before_year (y + 1) = days_before_year y + 365 + leap_day y.
Proof. rewrite days_before_year_step. unfold leap_day. case_match; lia. Qed.

Lemma days_before_year_leap y :
  days_before_year y + leap_day y = 365 * (y - 1) + y / 4 - y / 100 + y / 400.
Proof.
  unfold leap_day, is_leap, days_before_year.
  destruct (Z.eqb_spec (y mod 4) 0), (Z.eqb_spec (y mod 100) 0), (Z.eqb_spec (y mod 400) 0);
    simpl; Z.div_mod_to_equations; lia.
Qed.

Lemma easter_offset y :
  exists t, 0 <= t <= 35 /\ _easter_date y = days_before_year y + 59 + leap_day y + 22 + t /\
    (t - (32 + 2 * (y / 100 mod 4) + 2 * (y mod 100 / 4) - y mod 100 mod 4)) mod 7 = 0.
Proof.
  unfold _easter_date.
  set (a := y mod 19). set (h := (_ + 15) mod 30). set (w := (_ - _ - _) mod 7).
  set (corr := (a + 11 * h + 22 * w) / 451).
  assert (0 <= a < 19) by (apply Z.mod_pos_bound; lia).
  assert (0 <= h < 30) by (apply Z.mod_pos_bound; lia).
  assert (0 <= w < 7) by (apply Z.mod_pos_bound; lia).
  assert (corr = 0 \/ corr = 1) by (unfold corr; Z.div_mod_to_equations; lia).
  assert (451 * corr <= a + 11 * h + 22 * w) by (unfold corr; Z.div_mod_to_equations; lia).
  exists (h + w - 7 * corr). split; [lia|]. split.
  2: { unfold w. Z.div_mod_to_equations. lia. }
  set (t := h + w - 7 * corr) in *. assert (0 <= t <= 35) by lia.
  unfold mk_date, days_before_month. fold (leap_day y).
  pose proof (Z.div_mod (t + 114) 31 ltac:(lia)). pose proof (Z.mod_pos_bound (t + 114) 31 ltac:(lia)).
  assert ((t + 114) / 31 = 3 \/ (t + 114) / 31 = 4) as [E|E] by lia; rewrite E in *; simpl;
    unfold leap_day; destruct (is_leap y); lia.
Qed.

(** Each full-day holiday of a year is one of twelve dates ... *)
Lemma holiday_slot y v h :
  In h (_nyse_holidays y v) ->
  let J := days_before_year y in let L := leap_day y in
  h = _observed (mk_date y 1 1) \/ (h = mk_date 2025 1 9 /\ y = 2025) \/
  h = _nth_weekday y 1 0 3 \/ h = _nth_weekday y 2 0 3 \/ h = _easter_date y - 2 \/
  h = _last_weekday y 5 0 \/ h = _observed (mk_date y 6 19) \/ h = _observed (mk_date y 7 4) \/
  h = _nth_weekday y 9 0 1 \/ h = _nth_weekday y 11 3 4 \/ h = _observed (mk_date y 12 25) \/
  (h = _observed (mk_date (y + 1) 1 1) /\ h = J + 365 + L).
Proof.
  intros Hin J L. unfold _nyse_holidays in Hin.
  assert (In h [_observed (mk_date y 1 1); _nth_weekday y 1 0 3; _nth_weekday y 2 0 3;
      _easter_date y - 2; _last_weekday y 5 0; _observed (mk_date y 7 4);
      _nth_weekday y 9 0 1; _nth_weekday y 11 3 4; _observed (mk_date y 12 25);
      _observed (mk_date y 6 19)] \/
     In h (List.filter (fun observed => date_year observed =? y)
      (map _observed [mk_date (y - 1) 1 1; mk_date (y - 1) 12 25; mk_date (y + 1) 1 1])) \/
     In h (List.filter (fun day => date_year day =? y) _EXCEPTIONAL_CLOSURES)) as Hin'.
  { assert (forall A B C D E : list date,
      (forall x, In x A -> In x E) -> (forall x, In x B -> In x E) ->
      forall b b' : bool, In h (let X := (if b then A ++ B else A) ++ C in if b' then X ++ D else X) ->
      In h E \/ In h C \/ In h D) as Hgen.
    { intros A B C D E HA HB b b'. specialize (HA h). specialize (HB h).
      destruct b, b'; cbv zeta; rewrite !in_app_iff; tauto. }
    refine (Hgen _ _ _ _ _ _ _ _ _ Hin); intros x; cbn [In]; tauto. }
  clear Hin. destruct Hin' as [H|[H|H]].
  - cbn [In] in H. repeat destruct H as [<-|H]; tauto.
  - apply filter_In in H as [H Hy]. apply Z.eqb_eq in Hy.
    pose proof (date_year_bounds h) as Hb. rewrite Hy in Hb.
    pose proof (days_before_year_succ y) as Hs. unfold J, L in *. clear J L.
    pose proof (days_before_year_succ (y - 1)) as Hp. replace (y - 1 + 1) with y in Hp by lia.
    pose proof (leap_day_range (y - 1)).
    cbn [In map] in H. destruct H as [<-|[<-|[<-|[]]]]; [exfalso..|].
    + pose proof (observed_bounds (mk_date (y - 1) 1 1)) as Ho. set (o := _observed _) in *.
      unfold mk_date, days_before_month in Ho. simpl in Ho. lia.
    + pose proof (observed_bounds (mk_date (y - 1) 12 25)) as Ho. set (o := _observed _) in *.
      unfold mk_date, days_before_month in Ho. simpl in Ho. fold (leap_day (y - 1)) in Ho. lia.
    + do 11 right. split; [done|].
      pose proof (observed_bounds (mk_date (y + 1) 1 1)) as Ho. set (o := _observed _) in *.
      unfold mk_date, days_before_month in Ho. simpl in Ho. lia.
  - apply filter_In in H as [[<-|[]] Hy]. apply Z.eqb_eq in Hy.
    change (date_year (mk_date 2025 1 9)) with 2025 in Hy. auto.
Qed.

(** Positions of the holidays in their windows. *)
Lemma holiday_positions y :
  let J := days_before_year y in let L := leap_day y in
  0 <= L <= 1 /\
  J <= _observed (mk_date y 1 1) <= J + 2 /\
  J + 15 <= _nth_weekday y 1 0 3 <= J + 21 /\
  J + 46 <= _nth_weekday y 2 0 3 <= J + 52 /\
  J + 79 + L <= _easter_date y - 2 <= J + 114 + L /\
  J + 145 + L <= _last_weekday y 5 0 <= J + 151 + L /\
  J + 169 + L <= _observed (mk_date y 6 19) <= J + 171 + L /\
  J + 184 + L <= _observed (mk_date y 7 4) <= J + 186 + L /\
  J + 244 + L <= _nth_weekday y 9 0 1 <= J + 250 + L /\
  J + 326 + L <= _nth_weekday y 11 3 4 <= J + 332 + L /\
  J + 358 + L <= _observed (mk_date y 12 25) <= J + 360 + L /\
  (y = 2025 -> mk_date 2025 1 9 = J + 9).
Proof.
  cbv zeta. pose proof (leap_day_range y).
  pose proof (observed_bounds (mk_date y 1 1)) as H1.
  pose proof (proj2 (nth_weekday_bounds y 1 0 3 ltac:(lia))) as H2.
  pose proof (proj2 (nth_weekday_bounds y 2 0 3 ltac:(lia))) as H3.
  destruct (easter_offset y) as (t & Ht & H4 & _).
  pose proof (proj2 (last_weekday_bounds y 5 0 ltac:(lia))) as H5.
  pose proof (observed_bounds (mk_date y 6 19)) as H6.
  pose proof (observed_bounds (mk_date y 7 4)) as H7.
  pose proof (proj2 (nth_weekday_bounds y 9 0 1 ltac:(lia))) as H8.
  pose proof (proj2 (nth_weekday_bounds y 11 3 4 ltac:(lia))) as H9.
  pose proof (observed_bounds (mk_date y 12 25)) as H10.
  change (5 + 1) with 6 in H5.
  repeat match goal with |- context [_observed ?d] => set (_observed d) in * end.
  repeat match goal with |- context [_nth_weekday ?a ?b ?c ?d] => set (_nth_weekday a b c d) in * end.
  repeat match goal with |- context [_last_weekday ?a ?b ?c] => set (_last_weekday a b c) in * end.
  repeat match goal with x := _ : Z |- _ => clearbody x end.
  unfold mk_date, days_before_month in H1, H2, H3, H5, H6, H7, H8, H9, H10.
  cbn -[Z.add Z.sub Z.mul] in H1, H2, H3, H5, H6, H7, H8, H9, H10.
  change (if is_leap y then 1 else 0) with (leap_day y) in *.
  repeat match goal with |- _ /\ _ => split end; try lia. intros ->. reflexivity.
Qed.

Lemma holidays_spread y v v' h h' :
  In h (_nyse_holidays y v) ->
  In h' (_nyse_holidays y v') \/ In h' (_nyse_holidays (y + 1) v') ->
  h = h' \/ 5 <= Z.abs (h - h').
Proof.
  intros H1 H2. apply holiday_slot in H1.
  pose proof (holiday_positions y) as P1. pose proof (holiday_positions (y + 1)) as P2.
  pose proof (days_before_year_succ y) as HJ. rewrite HJ in P2.
  cbv zeta in *.
  destruct H2 as [H2|H2]; apply holiday_slot in H2; cbv zeta in *.
  - clear P2.
    destruct_or? H1; destruct_or? H2; destruct_and?; subst; (left; reflexivity) || (right; lia).
  - destruct_or? H1; destruct_or? H2; destruct_and?; subst; (left; reflexivity) || (right; lia).
Qed.

(** * The trading calendar: its theorems

    Holidays are at least five days apart, hence any four consecutive days hold
    a trading day; from this the searches of [Calendar] are total and return the
    nearest session, and the session counts agree with the set of trading days
    they range over. *)
From Stdlib Require Import ZArith Lia String Ascii List Bool.
From stdpp Require Import base list strings.
From S2P Require Import Prelude PyDate Calendar.
Local Open Scope string_scope.
Local Open Scope list_scope.
Local Open Scope Z_scope.

#[local] Arguments is_us_trading_day : simpl never.
#[local] Arguments us_trading_sessions_between : simpl never.

(** ** Trading days as a predicate *)

Definition trading (v : string) (d : date) : bool :=
  (weekday d <? 5) && negb (mem d (_nyse_holidays (date_year d) v)).

Lemma is_us_trading_day_ok v d :
  supported_version v = true -> is_us_trading_day v d = Ok (trading v d).
Proof. intros H. unfold is_us_trading_day. by rewrite H. Qed.

Lemma is_us_trading_day_unsupported v d :
  supported_version v = false ->
  is_us_trading_day v d = ValueError "unsupported US equity calendar version".
Proof. intros H. unfold is_us_trading_day. by rewrite H. Qed.

Lemma mem_In d l : mem d l = true <-> In d l.
Proof.
  unfold mem. rewrite existsb_exists. split.
  - intros (x & Hin & ->%Z.eqb_eq). done.
  - intros Hin. exists d. by rewrite Z.eqb_refl.
Qed.

Lemma closed_weekday_holiday v d :
  weekday d < 5 -> trading v d = false -> In d (_nyse_holidays (date_year d) v).
Proof.
  unfold trading. intros Hw Ht. apply mem_In.
  destruct (mem d _); [done|]. simpl in Ht. lia.
Qed.

Lemma date_year_near d k :
  0 <= k <= 300 -> date_year (d + k) = date_year d \/ date_year (d + k) = date_year d + 1.
Proof.
  intros Hk. pose proof (date_year_bounds d) as H.
  destruct (Z.le_gt_cases (d + k) (days_before_year (date_year d + 1))).
  - left. apply date_year_unique. lia.
  - right. apply date_year_unique. rewrite (days_before_year_succ (date_year d + 1)).
    pose proof (leap_day_range (date_year d + 1)). lia.
Qed.

(** Two weekdays less than five days apart are never both closed. *)
Lemma no_adjacent_holidays v d k :
  0 < k < 5 -> weekday d < 5 -> weekday (d + k) < 5 ->
  trading v d = true \/ trading v (d + k) = true.
Proof.
  intros Hk Hw Hw'.
  destruct (trading v d) eqn:E1; [by left|]. destruct (trading v (d + k)) eqn:E2; [by right|].
  apply closed_weekday_holiday in E1, E2; [|done..].
  destruct (date_year_near d k ltac:(lia)) as [E|E]; rewrite E in E2;
    [pose proof (holidays_spread _ _ _ _ _ E1 (or_introl E2))
    |pose proof (holidays_spread _ _ _ _ _ E1 (or_intror E2))]; lia.
Qed.

(** Any four consecutive days hold a trading day. *)
Lemma trading_within_four v d : exists k, 0 <= k < 4 /\ trading v (d + k) = true.
Proof.
  pose proof (weekday_range d).
  assert (exists i j, 0 <= i < j /\ j < 4 /\ weekday (d + i) < 5 /\ weekday (d + j) < 5)
    as (i & j & Hij & Hj & Hi5 & Hj5).
  { assert (weekday d <= 2 \/ weekday d = 3 \/ weekday d = 4 \/ weekday d = 5 \/ weekday d = 6)
      as [?|[E|[E|[E|E]]]] by lia.
    - exists 0, 1. rewrite !weekday_add. Z.div_mod_to_equations. lia.
    - exists 0, 1. rewrite !weekday_add, E. vm_compute. repeat split; congruence.
    - exists 0, 3. rewrite !weekday_add, E. vm_compute. repeat split; congruence.
    - exists 2, 3. rewrite !weekday_add, E. vm_compute. repeat split; congruence.
    - exists 1, 2. rewrite !weekday_add, E. vm_compute. repeat split; congruence. }
  destruct (no_adjacent_holidays v (d + i) (j - i)) as [Ht|Ht]; [lia|done|..].
  - by replace (d + i + (j - i)) with (d + j) by lia.
  - exists i. split; [lia|done].
  - exists j. replace (d + i + (j - i)) with (d + j) in Ht by lia. split; [lia|done].
Qed.

Lemma trading_within_four_back v d : exists k, 0 <= k < 4 /\ trading v (d - k) = true.
Proof.
  destruct (trading_within_four v (d - 3)) as (k & Hk & Ht).
  exists (3 - k). replace (d - (3 - k)) with (d - 3 + k) by lia. split; [lia|done].
Qed.

(** ** The searches *)

(** [r] is the first trading day at or after [c]. *)
Definition first_session_from (v : string) (c r : date) : Prop :=
  c <= r /\ trading v r = true /\ forall x, c <= x < r -> trading v x = false.

(** [r] is the last trading day at or before [c]. *)
Definition last_session_to (v : string) (c r : date) : Prop :=
  r <= c /\ trading v r = true /\ forall x, r < x <= c -> trading v x = false.

Lemma seek_up_spec v fuel c k :
  supported_version v = true -> 0 <= k < Z.of_nat fuel -> trading v (c + k) = true ->
  exists r, seek_trading_day fuel 1 v c = Ok r /\ first_session_from v c r /\ r <= c + k.
Proof.
  intros Hv. revert c k. induction fuel as [|fuel IH]; intros c k Hk Ht; [lia|]. simpl.
  rewrite is_us_trading_day_ok by done. simpl. destruct (trading v c) eqn:E.
  - exists c. split; [done|]. split; [|lia]. split; [lia|]. split; [done|lia].
  - assert (k <> 0) by (intros ->; rewrite Z.add_0_r in Ht; congruence).
    destruct (IH (c + 1) (k - 1)) as (r & -> & (Hr & Hrt & Hmin) & Hle); [lia|..].
    { by replace (c + 1 + (k - 1)) with (c + k) by lia. }
    exists r. split; [done|]. split; [|lia]. split; [lia|]. split; [done|].
    intros x Hx. destruct (Z.eq_dec x c) as [->|]; [done|]. apply Hmin. lia.
Qed.

Lemma seek_down_spec v fuel c k :
  supported_version v = true -> 0 <= k < Z.of_nat fuel -> trading v (c - k) = true ->
  exists r, seek_trading_day fuel (-1) v c = Ok r /\ last_session_to v c r /\ c - k <= r.
Proof.
  intros Hv. revert c k. induction fuel as [|fuel IH]; intros c k Hk Ht; [lia|]. simpl.
  rewrite is_us_trading_day_ok by done. simpl. destruct (trading v c) eqn:E.
  - exists c. split; [done|]. split; [|lia]. split; [lia|]. split; [done|lia].
  - assert (k <> 0) by (intros ->; rewrite Z.sub_0_r in Ht; congruence).
    destruct (IH (c + -1) (k - 1)) as (r & -> & (Hr & Hrt & Hmin) & Hle); [lia|..].
    { by replace (c + -1 - (k - 1)) with (c - k) by lia. }
    exists r. split; [done|]. split; [|lia]. split; [lia|]. split; [done|].
    intros x Hx. destruct (Z.eq_dec x c) as [->|]; [done|]. apply Hmin. lia.
Qed.

Lemma next_spec v d :
  supported_version v = true ->
  exists r, next_us_trading_day v d = Ok r /\ first_session_from v (d + 1) r /\ r <= d + 4.
Proof.
  intros Hv. destruct (trading_within_four v (d + 1)) as (k & Hk & Ht).
  destruct (seek_up_spec v seek_fuel (d + 1) k Hv ltac:(unfold seek_fuel; lia) Ht) as (r & Hr & Hs & ?).
  exists r. split; [done|]. split; [done|lia].
Qed.

Lemma prev_spec v d :
  supported_version v = true ->
  exists r, previous_us_trading_day v d = Ok r /\ last_session_to v (d - 1) r /\ d - 4 <= r.
Proof.
  intros Hv. destruct (trading_within_four_back v (d - 1)) as (k & Hk & Ht).
  destruct (seek_down_spec v seek_fuel (d - 1) k Hv ltac:(unfold seek_fuel; lia) Ht) as (r & Hr & Hs & ?).
  exists r. split; [done|]. split; [done|lia].
Qed.

(** ** Counting sessions *)

(** The days of [(a, b]] and the number of sessions among them. *)
Definition days_between (a b : date) : list date :=
  map (fun i => a + 1 + Z.of_nat i) (List.seq 0 (Z.to_nat (b - a))).

Definition sessions_in (v : string) (a b : date) : Z :=
  Z.of_nat (length (List.filter (trading v) (days_between a b))).

Lemma days_between_In a b x : In x (days_between a b) <-> a < x <= b.
Proof.
  unfold days_between. rewrite in_map_iff. split.
  - intros (i & <- & Hi%in_seq). lia.
  - intros Hx. exists (Z.to_nat (x - a - 1)). rewrite in_seq. lia.
Qed.

Lemma days_between_split a m b :
  a <= m <= b -> days_between a b = days_between a m ++ days_between m b.
Proof.
  intros H. unfold days_between.
  replace (Z.to_nat (b - a)) with (Z.to_nat (m - a) + Z.to_nat (b - m))%nat by lia.
  rewrite seq_app, map_app. f_equal. simpl.
  apply List.nth_ext with (d := 0) (d' := 0); rewrite !length_map, !length_seq; [done|].
  intros n Hn. rewrite !(nth_indep _ 0 (a + 1 + Z.of_nat 0)) by (rewrite length_map, length_seq; lia).
  rewrite (map_nth (fun i => a + 1 + Z.of_nat i)), seq_nth by lia.
  rewrite (nth_indep _ (a + 1 + Z.of_nat 0) (m + 1 + Z.of_nat 0)) by (rewrite length_map, length_seq; lia).
  rewrite (map_nth (fun i => m + 1 + Z.of_nat i)), seq_nth by lia. lia.
Qed.

Lemma sessions_in_split v a m b :
  a <= m <= b -> sessions_in v a b = sessions_in v a m + sessions_in v m b.
Proof.
  intros H. unfold sessions_in. rewrite (days_between_split a m b), List.filter_app, length_app by done.
  lia.
Qed.

Lemma sessions_in_none v a b :
  (forall x, a < x <= b -> trading v x = false) -> sessions_in v a b = 0.
Proof.
  intros H. unfold sessions_in.
  destruct (List.filter _ _) as [|x l] eqn:E; [done|].
  assert (In x (List.filter (trading v) (days_between a b))) as [Hx Ht]%filter_In
    by (rewrite E; by left).
  rewrite H in Ht; [done|]. by apply days_between_In.
Qed.

Lemma sessions_in_first v a r :
  first_session_from v (a + 1) r -> sessions_in v a r = 1.
Proof.
  intros (Hr & Ht & Hmin). rewrite (sessions_in_split v a (r - 1) r) by lia.
  rewrite (sessions_in_none v a (r - 1)) by (intros; apply Hmin; lia).
  unfold sessions_in, days_between. replace (Z.to_nat (r - (r - 1))) with 1%nat by lia.
  cbn [List.seq map List.filter]. replace (r - 1 + 1 + Z.of_nat 0) with r by lia.
  rewrite Ht. reflexivity.
Qed.

Lemma sessions_in_last v r d :
  trading v d = true -> last_session_to v (d - 1) r -> sessions_in v r d = 1.
Proof.
  intros Hd (Hr & Ht & Hmin). apply sessions_in_first.
  split; [lia|]. split; [done|]. intros; apply Hmin; lia.
Qed.

Lemma count_sessions_correct v fuel e c n :
  supported_version v = true -> c <= e -> e - c < Z.of_nat fuel ->
  count_sessions fuel v e c n = Ok (n + sessions_in v c e).
Proof.
  intros Hv. revert c n. induction fuel as [|fuel IH]; intros c n Hce Hf; [lia|]. simpl.
  destruct (next_spec v c Hv) as (r & -> & Hs & _). simpl. destruct Hs as (Hr & Ht & Hmin).
  destruct (Z.ltb_spec e r).
  - rewrite sessions_in_none; [f_equal; lia|]. intros; apply Hmin; lia.
  - rewrite IH by lia. rewrite (sessions_in_split v c r e) by lia.
    rewrite (sessions_in_first v c r) by done. f_equal. lia.
Qed.

Lemma sessions_between_ok v a b :
  supported_version v = true -> us_trading_sessions_between v a b = Ok (sessions_in v a b).
Proof.
  intros Hv. unfold us_trading_sessions_between. destruct (Z.leb_spec b a).
  - rewrite sessions_in_none by lia. done.
  - rewrite count_sessions_correct by (try done; lia). done.
Qed.

(** ** Session schedules *)

Definition close_hour (v : string) (d : date) : Z :=
  match _nyse_early_closes (date_year d) v with
  | Ok early => if mem d early then 13 else 16
  | Raise _ => 16
  end.

Definition session_of (v : string) (d : date) : USMarketSession :=
  {| session := d; open_at := dt_combine d 9 30; close_at := dt_combine d (close_hour v d) 0 |}.

Lemma early_closes_ok v y :
  supported_version v = true -> exists l, _nyse_early_closes y v = Ok l.
Proof.
  intros Hv. unfold _nyse_early_closes.
  match goal with |- exists l, foldr _ _ ?c = Ok l => generalize c end.
  intros days. induction days as [|x days [l IH]]; cbn [foldr]; [eauto|].
  rewrite IH. simpl. rewrite is_us_trading_day_ok by done. simpl. eauto.
Qed.

Lemma us_market_session_ok v d :
  supported_version v = true ->
  us_market_session v d = Ok (if trading v d then Some (session_of v d) else None).
Proof.
  intros Hv. unfold us_market_session. rewrite is_us_trading_day_ok by done. simpl.
  destruct (trading v d); [|done]. simpl. unfold session_of, close_hour.
  destruct (early_closes_ok v (date_year d) Hv) as (l & ->). simpl.
  by destruct (mem d l).
Qed.

Lemma close_hour_cases v d : close_hour v d = 13 \/ close_hour v d = 16.
Proof. unfold close_hour. repeat case_match; auto. Qed.

(** Wall-clock position of a schedule inside its day. *)
Lemma dt_combine_in_day d h m t :
  0 <= h * 60 + m < 1440 -> dt_combine d h m <= t \/ t < dt_combine d h m ->
  d * us_per_day <= dt_combine d h m < (d + 1) * us_per_day.
Proof. unfold dt_combine, minutes, us_per_day, us_per_second. lia. Qed.

Lemma dt_date_bounds t : dt_date t * us_per_day <= t < (dt_date t + 1) * us_per_day.
Proof.
  unfold dt_date. assert (0 < us_per_day) by (unfold us_per_day, us_per_second; lia).
  pose proof (Z.mul_div_le t us_per_day). pose proof (Z.mul_succ_div_gt t us_per_day). lia.
Qed.

(** The daily bar of session [d] is complete at wall-clock time [t]. *)
Definition bar_ready (v : string) (d : date) (t : datetime) : Prop :=
  trading v d = true /\ close_at (session_of v d) + minutes 15 <= t.

Ltac wall_clock v d :=
  pose proof (close_hour_cases v d);
  unfold session_of, dt_combine, minutes, us_per_day, us_per_second in *;
  simpl close_at in *; simpl open_at in *.

Lemma bar_ready_past v d t : trading v d = true -> d < dt_date t -> bar_ready v d t.
Proof.
  intros Ht Hd. split; [done|]. pose proof (dt_date_bounds t).
  assert ((d + 1) * us_per_day <= dt_date t * us_per_day) by
    (apply Z.mul_le_mono_nonneg_r; unfold us_per_day, us_per_second; lia).
  wall_clock v d. lia.
Qed.

Lemma bar_ready_future v d t : dt_date t < d -> ~ bar_ready v d t.
Proof.
  intros Hd [_ Hc]. pose proof (dt_date_bounds t).
  assert ((dt_date t + 1) * us_per_day <= d * us_per_day) by
    (apply Z.mul_le_mono_nonneg_r; unfold us_per_day, us_per_second; lia).
  wall_clock v d. lia.
Qed.

Lemma iterate_next_spec v n d :
  supported_version v = true ->
  exists r, iterate_days n (next_us_trading_day v) d = Ok r /\ d <= r /\
    sessions_in v d r = Z.of_nat n /\ (trading v d = true \/ (0 < n)%nat -> trading v r = true).
Proof.
  intros Hv. revert d. induction n as [|n IH]; intros d; simpl.
  - exists d. rewrite sessions_in_none by lia. intuition lia.
  - destruct (next_spec v d Hv) as (c & -> & Hc & _). simpl.
    destruct (IH c) as (r & -> & Hle & Hcount & Htr). exists r. split; [done|].
    pose proof Hc as (Hc1 & Hc2 & _).
    split; [lia|]. split; [|tauto].
    rewrite (sessions_in_split v d c r), (sessions_in_first v d c), Hcount by (done || lia). lia.
Qed.

Lemma iterate_prev_spec v n d :
  supported_version v = true -> trading v d = true ->
  exists r, iterate_days n (_previous_us_trading_day v) d = Ok r /\ r <= d /\
    sessions_in v r d = Z.of_nat n /\ trading v r = true.
Proof.
  intros Hv. revert d. induction n as [|n IH]; intros d Hd; simpl.
  - exists d. rewrite sessions_in_none by lia. intuition lia.
  - destruct (prev_spec v d Hv) as (c & Hp & Hc & _). unfold previous_us_trading_day in Hp.
    rewrite Hp. simpl. pose proof Hc as (Hc1 & Hc2 & _).
    destruct (IH c Hc2) as (r & -> & Hle & Hcount & Htr). exists r. split; [done|].
    split; [lia|]. split; [|done].
    rewrite (sessions_in_split v r c d), (sessions_in_last v c d), Hcount by (done || lia). lia.
Qed.

Lemma seek_open_spec v fuel local c k :
  supported_version v = true -> 0 <= k < Z.of_nat fuel ->
  trading v (c + k) = true -> local < open_at (session_of v (c + k)) ->
  exists d, seek_open fuel v local c = Ok (session_of v d) /\ c <= d /\ trading v d = true /\
    local < open_at (session_of v d) /\
    forall x, c <= x < d -> trading v x = true -> open_at (session_of v x) <= local.
Proof.
  intros Hv. revert c k. induction fuel as [|fuel IH]; intros c k Hk Ht Ho; [lia|].
  cbn [seek_open]. rewrite us_market_session_ok by done. cbn [mbind result_bind].
  destruct (trading v c && (local <? open_at (session_of v c))) eqn:E.
  - apply andb_true_iff in E as [E1 E2]. rewrite E1, E2. exists c.
    apply Z.ltb_lt in E2. split; [done|]. split; [lia|]. split; [done|]. split; [done|]. lia.
  - assert (k <> 0) as Hk0.
    { intros ->. rewrite Z.add_0_r in Ht, Ho. apply Z.ltb_lt in Ho. by rewrite Ht, Ho in E. }
    destruct (IH (c + 1) (k - 1)) as (d & Hd & Hcd & Htd & Hod & Hmin);
      [lia|by replace (c + 1 + (k - 1)) with (c + k) by lia..|].
    exists d. split.
    { destruct (trading v c); [|done]. cbn [andb] in E. by rewrite E. }
    split; [lia|]. split; [done|]. split; [done|].
    intros x Hx Htx. destruct (Z.eq_dec x c) as [->|]; [|apply Hmin; [lia|done]].
    rewrite Htx in E. apply Z.ltb_ge in E. done.
Qed.

(** ** The properties *)

(** C39: for a supported calendar version, [next_us_trading_day] terminates and
    returns the first trading day strictly after the given day, at most four
    days later. *)
Theorem next_us_trading_day_correct v d :
  supported_version v = true ->
  exists r, next_us_trading_day v d = Ok r /\ is_us_trading_day v r = Ok true /\
    d < r <= d + 4 /\ forall x, d < x < r -> is_us_trading_day v x = Ok false.
Proof.
  intros Hv. destruct (next_spec v d Hv) as (r & Hr & (H1 & H2 & H3) & H4).
  exists r. rewrite is_us_trading_day_ok, H2 by done. split_and!; try done; try lia.
  intros x Hx. rewrite is_us_trading_day_ok, H3 by (done || lia). done.
Qed.

Lemma next_us_trading_day_correct_witness :
  exists r, next_us_trading_day CALENDAR_VERSION (mk_date 2025 1 8) = Ok r /\
    is_us_trading_day CALENDAR_VERSION r = Ok true /\
    mk_date 2025 1 8 < r <= mk_date 2025 1 8 + 4 /\
    forall x, mk_date 2025 1 8 < x < r -> is_us_trading_day CALENDAR_VERSION x = Ok false.
Proof. apply (next_us_trading_day_correct CALENDAR_VERSION). reflexivity. Defined.

(** On trading days the successor and the predecessor session are inverse
    to each other. *)
Theorem trading_day_neighbours v d :
  supported_version v = true -> is_us_trading_day v d = Ok true ->
  (exists n, next_us_trading_day v d = Ok n /\ previous_us_trading_day v n = Ok d) /\
  (exists p, previous_us_trading_day v d = Ok p /\ next_us_trading_day v p = Ok d).
Proof.
  intros Hv Hd. rewrite is_us_trading_day_ok in Hd by done. injection Hd as Hd. split.
  - destruct (next_spec v d Hv) as (n & Hn & (H1 & H2 & H3) & _). exists n. split; [done|].
    destruct (prev_spec v n Hv) as (p & Hp & (P1 & P2 & P3) & _). rewrite Hp. f_equal.
    destruct (Z.lt_trichotomy p d) as [?|[?|?]]; [|done|].
    + rewrite P3 in Hd; [done|lia].
    + rewrite H3 in P2; [done|lia].
  - destruct (prev_spec v d Hv) as (p & Hp & (P1 & P2 & P3) & _). exists p. split; [done|].
    destruct (next_spec v p Hv) as (n & Hn & (H1 & H2 & H3) & _). rewrite Hn. f_equal.
    destruct (Z.lt_trichotomy n d) as [?|[?|?]]; [|done|].
    + rewrite P3 in H2; [done|lia].
    + rewrite H3 in Hd; [done|lia].
Qed.

Lemma trading_day_neighbours_witness :
  (exists n, next_us_trading_day CALENDAR_VERSION (mk_date 2025 7 3) = Ok n /\
     previous_us_trading_day CALENDAR_VERSION n = Ok (mk_date 2025 7 3)) /\
  (exists p, previous_us_trading_day CALENDAR_VERSION (mk_date 2025 7 3) = Ok p /\
     next_us_trading_day CALENDAR_VERSION p = Ok (mk_date 2025 7 3)).
Proof. apply (trading_day_neighbours CALENDAR_VERSION); vm_compute; reflexivity. Defined.

(** [us_trading_sessions_between] is the number of trading days in the
    half-open interval from the start (exclusive) to the end (inclusive). *)
Theorem us_trading_sessions_between_counts v a b :
  supported_version v = true ->
  us_trading_sessions_between v a b =
    Ok (Z.of_nat (length (List.filter
          (fun d => match is_us_trading_day v d with Ok t => t | Raise _ => false end)
          (days_between a b)))).
Proof.
  intros Hv. rewrite sessions_between_ok by done. unfold sessions_in. do 3 f_equal.
  apply List.filter_ext. intros d. by rewrite is_us_trading_day_ok.
Qed.

Lemma us_trading_sessions_between_counts_witness :
  us_trading_sessions_between CALENDAR_VERSION (mk_date 2024 12 31) (mk_date 2025 1 10) =
    Ok (Z.of_nat (length (List.filter
          (fun d => match is_us_trading_day CALENDAR_VERSION d with
                    | Ok t => t | Raise _ => false end)
          (days_between (mk_date 2024 12 31) (mk_date 2025 1 10))))).
Proof. apply us_trading_sessions_between_counts. reflexivity. Defined.

(** The outcome session [horizon] of an entry day is a trading day that lies
    [horizon - 1] sessions after the entry; a non-positive horizon or an entry
    on a closed day is rejected. *)
Theorem nth_us_trading_day_from_entry_correct v entry h :
  supported_version v = true ->
  match nth_us_trading_day_from_entry v entry h with
  | Ok r => 0 < h /\ is_us_trading_day v entry = Ok true /\ is_us_trading_day v r = Ok true /\
            entry <= r /\ us_trading_sessions_between v entry r = Ok (h - 1)
  | Raise (Exn cls _) => cls = "ValueError" /\ (h <= 0 \/ is_us_trading_day v entry = Ok false)
  | Raise OutOfFuel => False
  end.
Proof.
  intros Hv. unfold nth_us_trading_day_from_entry. destruct (Z.leb_spec h 0).
  { simpl. auto. }
  rewrite is_us_trading_day_ok by done. simpl. destruct (trading v entry) eqn:E; [|simpl; auto].
  destruct (iterate_next_spec v (Z.to_nat (h - 1)) entry Hv) as (r & -> & Hle & Hc & Ht).
  cbn [negb]. rewrite is_us_trading_day_ok, sessions_between_ok, Ht, Hc by auto.
  split_and!; try done; try lia. f_equal. lia.
Qed.

Lemma nth_us_trading_day_from_entry_correct_witness :
  match nth_us_trading_day_from_entry CALENDAR_VERSION (mk_date 2025 1 8) 5 with
  | Ok r => 0 < 5 /\ is_us_trading_day CALENDAR_VERSION (mk_date 2025 1 8) = Ok true /\
            is_us_trading_day CALENDAR_VERSION r = Ok true /\ mk_date 2025 1 8 <= r /\
            us_trading_sessions_between CALENDAR_VERSION (mk_date 2025 1 8) r = Ok (5 - 1)
  | Raise (Exn cls _) => cls = "ValueError" /\
      (5 <= 0 \/ is_us_trading_day CALENDAR_VERSION (mk_date 2025 1 8) = Ok false)
  | Raise OutOfFuel => False
  end.
Proof. apply (nth_us_trading_day_from_entry_correct CALENDAR_VERSION). reflexivity. Defined.

(** Moving back [n] sessions from a trading day lands on the trading day from
    which exactly [n] sessions lead to it (a negative count moves nowhere). *)
Theorem subtract_us_trading_sessions_correct v d n :
  supported_version v = true -> is_us_trading_day v d = Ok true ->
  exists r, subtract_us_trading_sessions v d n = Ok r /\ r <= d /\
    is_us_trading_day v r = Ok true /\ us_trading_sessions_between v r d = Ok (Z.max 0 n).
Proof.
  intros Hv Hd. rewrite is_us_trading_day_ok in Hd by done. injection Hd as Hd.
  destruct (iterate_prev_spec v (Z.to_nat (Z.max 0 n)) d Hv Hd) as (r & Hr & Hle & Hc & Ht).
  exists r. unfold subtract_us_trading_sessions.
  rewrite is_us_trading_day_ok, sessions_between_ok, Ht, Hc by done.
  split_and!; try done. f_equal. lia.
Qed.

Lemma subtract_us_trading_sessions_correct_witness :
  exists r, subtract_us_trading_sessions CALENDAR_VERSION (mk_date 2025 1 13) 3 = Ok r /\
    r <= mk_date 2025 1 13 /\ is_us_trading_day CALENDAR_VERSION r = Ok true /\
    us_trading_sessions_between CALENDAR_VERSION r (mk_date 2025 1 13) = Ok (Z.max 0 3).
Proof. apply (subtract_us_trading_sessions_correct CALENDAR_VERSION); reflexivity. Defined.

(** [latest_completed_us_trading_day] returns the most recent session whose
    daily bar is complete, that is whose close lies at least fifteen minutes in
    the past: every later session is not complete yet. *)
Theorem latest_completed_us_trading_day_correct ny_wall now_utc v now :
  supported_version v = true ->
  exists d, latest_completed_us_trading_day ny_wall now_utc v now = Ok d /\
    bar_ready v d (_ny_datetime ny_wall now_utc now) /\
    forall x, bar_ready v x (_ny_datetime ny_wall now_utc now) -> x <= d.
Proof.
  intros Hv. unfold latest_completed_us_trading_day.
  set (t := _ny_datetime ny_wall now_utc now). clearbody t.
  rewrite us_market_session_ok by done. simpl.
  destruct (prev_spec v (dt_date t) Hv) as (p & Hp & (P1 & P2 & P3) & _).
  unfold previous_us_trading_day in Hp.
  assert (forall x, bar_ready v x t -> x <= dt_date t) as Hfut.
  { intros x Hx. destruct (Z.le_gt_cases x (dt_date t)); [done|].
    by destruct (bar_ready_future v x t). }
  assert (~ bar_ready v (dt_date t) t -> forall x, bar_ready v x t -> x <= p) as Hback.
  { intros Hno x Hx. specialize (Hfut x Hx). destruct (Z.eq_dec x (dt_date t)) as [->|]; [done|].
    destruct (Z.le_gt_cases x p); [done|]. destruct Hx as [Hx _]. rewrite P3 in Hx; [done|lia]. }
  assert (bar_ready v p t) by (apply bar_ready_past; [done|lia]).
  destruct (trading v (dt_date t)) eqn:E.
  - destruct (Z.leb_spec (close_at (session_of v (dt_date t)) + _DAILY_BAR_READY_DELAY) t) as [Hc|Hc].
    + exists (dt_date t). split; [done|]. split; [split; [done|exact Hc]|done].
    + exists p. split; [done|]. split; [done|]. apply Hback. intros [_ ?].
      unfold _DAILY_BAR_READY_DELAY in Hc. lia.
  - exists p. split; [done|]. split; [done|]. apply Hback. intros [? _]. congruence.
Qed.

Lemma latest_completed_us_trading_day_correct_witness :
  let wall := dt_combine (mk_date 2025 7 3) 13 14 in
  exists d, latest_completed_us_trading_day (fun t => t - minutes 240) 0 CALENDAR_VERSION
              (Some (Naive wall)) = Ok d /\
    bar_ready CALENDAR_VERSION d (_ny_datetime (fun t => t - minutes 240) 0 (Some (Naive wall))) /\
    forall x, bar_ready CALENDAR_VERSION x
      (_ny_datetime (fun t => t - minutes 240) 0 (Some (Naive wall))) -> x <= d.
Proof. apply latest_completed_us_trading_day_correct. reflexivity. Defined.

(** [first_us_market_open_after] returns the earliest session whose opening
    lies strictly after the decision time; a naive timestamp is rejected. *)
Theorem first_us_market_open_after_correct ny_wall v decision_at :
  supported_version v = true ->
  match decision_at with
  | Naive _ => first_us_market_open_after ny_wall v decision_at =
                 ValueError "decision_at must be timezone-aware"
  | Aware utc =>
      exists d, first_us_market_open_after ny_wall v decision_at = Ok (session_of v d) /\
        trading v d = true /\ ny_wall utc < open_at (session_of v d) /\
        forall x, trading v x = true -> ny_wall utc < open_at (session_of v x) -> d <= x
  end.
Proof.
  intros Hv. destruct decision_at as [w|utc]; [done|]. unfold first_us_market_open_after.
  set (t := ny_wall utc). clearbody t.
  destruct (trading_within_four v (dt_date t + 1)) as (k & Hk & Ht).
  pose proof (dt_date_bounds t) as Hb.
  assert (forall x, dt_date t < x -> t < open_at (session_of v x)) as Hafter.
  { intros x Hx. assert ((dt_date t + 1) * us_per_day <= x * us_per_day) by
      (apply Z.mul_le_mono_nonneg_r; unfold us_per_day, us_per_second; lia).
    wall_clock v x. lia. }
  destruct (seek_open_spec v (1 + seek_fuel) t (dt_date t) (k + 1) Hv) as (d & Hd & Hle & Htd & Ho & Hm).
  - unfold seek_fuel. lia.
  - by replace (dt_date t + (k + 1)) with (dt_date t + 1 + k) by lia.
  - apply Hafter. lia.
  - exists d. split_and!; try done. intros x Hx Hox.
    destruct (Z.le_gt_cases d x); [done|].
    destruct (Z.le_gt_cases (dt_date t) x).
    + specialize (Hm x ltac:(lia) Hx). lia.
    + assert ((x + 1) * us_per_day <= dt_date t * us_per_day) by
        (apply Z.mul_le_mono_nonneg_r; unfold us_per_day, us_per_second; lia).
      wall_clock v x. lia.
Qed.

Lemma first_us_market_open_after_correct_witness :
  match Aware (dt_combine (mk_date 2025 1 8) 20 0) with
  | Naive _ => first_us_market_open_after (fun t => t - minutes 300) CALENDAR_VERSION
                 (Aware (dt_combine (mk_date 2025 1 8) 20 0)) =
                 ValueError "decision_at must be timezone-aware"
  | Aware utc =>
      exists d, first_us_market_open_after (fun t => t - minutes 300) CALENDAR_VERSION
                  (Aware (dt_combine (mk_date 2025 1 8) 20 0)) = Ok (session_of CALENDAR_VERSION d) /\
        trading CALENDAR_VERSION d = true /\
        utc - minutes 300 < open_at (session_of CALENDAR_VERSION d) /\
        forall x, trading CALENDAR_VERSION x = true ->
          utc - minutes 300 < open_at (session_of CALENDAR_VERSION x) -> d <= x
  end.
Proof.
  apply (first_us_market_open_after_correct (fun t => t - minutes 300) CALENDAR_VERSION
           (Aware (dt_combine (mk_date 2025 1 8) 20 0))).
  reflexivity.
Defined.

(** [_easter_date] always falls on a Sunday between 22 March and 26 April,
    hence the market holiday derived from it is a Friday. *)
Theorem easter_is_sunday y :
  weekday (_easter_date y) = 6 /\ weekday (_easter_date y - 2) = 4 /\
  mk_date y 3 22 <= _easter_date y <= mk_date y 4 26.
Proof.
  destruct (easter_offset y) as (t & Ht & E & Hmod).
  assert (weekday (_easter_date y) = 6) as Hw.
  { rewrite E. pose proof (days_before_year_leap y). unfold weekday.
    replace (days_before_year y + 59 + leap_day y + 22 + t + 6)
      with (days_before_year y + leap_day y + 87 + t) by lia.
    rewrite H. clear E H Ht. set (q := (y / 100)) in *. Z.div_mod_to_equations. lia. }
  split; [done|]. split.
  - unfold Z.sub. by rewrite weekday_add, Hw.
  - rewrite E. unfold mk_date, days_before_month, leap_day. simpl.
    destruct (is_leap y); lia.
Qed.
