(* ===== verification/MarketClock.v ===== *)
(** * The market clock: [app/services/market_clock_service.py]

    Calculation cutoffs frozen with their calendar version, signed session
    distances and the attribution of a timestamp to a session.  Like the
    calendar, the clock takes the New York wall clock of an instant from the
    time-zone database ([ny_wall]), and the instant of a wall clock ([ny_utc]). *)
From Stdlib Require Import ZArith Lia List String Bool.
From stdpp Require Import base list strings.
From S2P Require Import Prelude PyDate Calendar CalendarFacts.
Local Open Scope string_scope.
Local Open Scope list_scope.
Local Open Scope Z_scope.

Definition EXCHANGE_TIMEZONE : string := "America/New_York".
Definition BAR_READINESS_VERSION : string := "daily-close-plus-15m-v1".

Inductive SessionTimestampPolicy :=
  | LATEST_COMPLETED_DAILY_SESSION
  | EVENT_EFFECTIVE_SESSION
  | NEXT_MARKET_OPEN_AFTER_EVENT
  | COOLDOWN_SESSION_OF_TIMESTAMP
  | TRADING_WEEK_CONFIRMATION.

(** Instants are UTC microseconds once the constructor has converted them. *)
Record MarketCalculationCutoff := mkCutoff {
  cutoff_at : datetime;
  exchange_timezone : string;
  latest_completed_session : date;
  daily_bar_ready_at : option datetime;
  calendar_version : string;
  bar_readiness_version : string;
  cutoff_reason : string;
  context_id : option Z;
}.

(** [MarketCalculationCutoff(...)] with its [__post_init__] checks; a naive
    timestamp is refused. *)
Definition make_cutoff (at_ : pydatetime) (zone : string) (completed : date)
    (ready : option pydatetime) (version readiness reason : string) (context : option Z)
  : result MarketCalculationCutoff :=
  match at_ with
  | Naive _ => ValueError "cutoff_at must be timezone-aware"
  | Aware at_ =>
      ready ← match ready with
              | None => mret None
              | Some (Naive _) => ValueError "daily_bar_ready_at must be timezone-aware"
              | Some (Aware t) => mret (Some t)
              end;
      if negb (String.eqb zone EXCHANGE_TIMEZONE) then
        ValueError ("unsupported exchange timezone: " ++ zone)
      else
        valid ← (if supported_version version then is_us_trading_day version completed else mret true);
        if negb (valid : bool) then
          ValueError "latest_completed_session must be a valid US exchange session"
        else mret (mkCutoff at_ zone completed ready version readiness reason context)
  end.

Definition with_context_id (c : MarketCalculationCutoff) (context : Z) : result MarketCalculationCutoff :=
  make_cutoff (Aware (cutoff_at c)) (exchange_timezone c) (latest_completed_session c)
    (Aware <$> daily_bar_ready_at c) (calendar_version c) (bar_readiness_version c)
    (cutoff_reason c) (Some context).

(** [MarketClockService(calendar_version=...)]: the clock is its version. *)
Definition make_clock (version : string) : result string :=
  if supported_version version then mret version
  else ValueError "unsupported US equity calendar version".

Definition _session_on_or_after (version : string) (day : date) : result date :=
  seek_trading_day seek_fuel 1 version day.

Definition trading_session_distance (version : string) (older newer : date) : result Z :=
  if older =? newer then mret 0
  else if older <? newer then us_trading_sessions_between version older newer
  else n ← us_trading_sessions_between version newer older; mret (- n).

Definition last_us_trading_session_of_week (version : string) (value : date) : result date :=
  seek_trading_day seek_fuel (-1) version (value + (4 - weekday value)).

Section Clock.
Context (ny_wall : datetime -> datetime) (ny_utc : datetime -> datetime).

Definition cutoff_for (version : string) (at_ : pydatetime) (reason : string)
  : result MarketCalculationCutoff :=
  match at_ with
  | Naive _ => ValueError "cutoff_at must be timezone-aware"
  | Aware _ =>
      completed ← latest_completed_us_trading_day ny_wall 0 version (Some at_);
      schedule ← us_market_session version completed;
      match schedule with
      | None => raise "RuntimeError" "shared calendar returned a non-session cutoff"
      | Some schedule =>
          make_cutoff at_ EXCHANGE_TIMEZONE completed
            (Some (Aware (ny_utc (close_at schedule + minutes 15)))) version BAR_READINESS_VERSION
            reason None
      end
  end.

Definition canonical_session_for_timestamp (version : string) (timestamp : pydatetime)
    (policy : SessionTimestampPolicy) : result date :=
  match timestamp with
  | Naive _ => ValueError "timestamp must be timezone-aware"
  | Aware utc =>
      match policy with
      | LATEST_COMPLETED_DAILY_SESSION | TRADING_WEEK_CONFIRMATION =>
          latest_completed_us_trading_day ny_wall 0 version (Some timestamp)
      | _ =>
          let local := ny_wall utc in
          schedule ← us_market_session version (dt_date local);
          match policy with
          | NEXT_MARKET_OPEN_AFTER_EVENT =>
              match schedule with
              | Some s => if local <? open_at s then mret (session s)
                          else next_us_trading_day version (dt_date local)
              | None => next_us_trading_day version (dt_date local)
              end
          | _ =>
              match schedule with
              | None => _session_on_or_after version (dt_date local)
              | Some s => if close_at s <? local then next_us_trading_day version (dt_date local)
                          else mret (session s)
              end
          end
      end
  end.

Definition clock_for_cutoff (cutoff : MarketCalculationCutoff) : result string :=
  clock ← make_clock (calendar_version cutoff);
  expected ← cutoff_for clock (Aware (cutoff_at cutoff)) (cutoff_reason cutoff);
  if negb (latest_completed_session cutoff =? latest_completed_session expected)
     || negb (bool_decide (daily_bar_ready_at cutoff = daily_bar_ready_at expected))
     || negb (String.eqb (bar_readiness_version cutoff) (bar_readiness_version expected))
  then ValueError "MARKET_CUTOFF_CALENDAR_MISMATCH"
  else mret clock.

Definition require_current_execution_calendar (cutoff : MarketCalculationCutoff) : result unit :=
  _ ← clock_for_cutoff cutoff;
  if negb (String.eqb (calendar_version cutoff) CALENDAR_VERSION) then
    ValueError "LEGACY_CALENDAR_EXECUTION_NOT_SUPPORTED"
  else mret tt.

(** ** Properties *)

Lemma latest_completed_trading now v p :
  supported_version v = true ->
  exists d, latest_completed_us_trading_day ny_wall now v p = Ok d /\ trading v d = true.
Proof.
  intros Hv. unfold latest_completed_us_trading_day. cbv zeta.
  set (t := _ny_datetime _ _ _). rewrite us_market_session_ok by done. cbn [mbind result_bind].
  destruct (trading v (dt_date t)) eqn:E.
  - destruct (_ <=? t).
    + exists (dt_date t). by split.
    + destruct (prev_spec v (dt_date t) Hv) as (r & Hr & (_ & Ht & _) & _). eauto.
  - destruct (prev_spec v (dt_date t) Hv) as (r & Hr & (_ & Ht & _) & _). eauto.
Qed.

(** A frozen cutoff validates itself.  With a supported calendar version
    every aware instant has a cutoff, whose session is a trading day of that
    version; the cutoff passes [clock_for_cutoff], which returns a clock of the
    same version, and keeps passing it after its context id has been attached;
    and the fence of the shared executors admits it exactly when its calendar is
    the current one. *)
Theorem cutoff_roundtrip v utc reason context :
  supported_version v = true ->
  exists c c', cutoff_for v (Aware utc) reason = Ok c /\
    cutoff_at c = utc /\ calendar_version c = v /\
    trading v (latest_completed_session c) = true /\
    clock_for_cutoff c = Ok v /\
    with_context_id c context = Ok c' /\ context_id c' = Some context /\ clock_for_cutoff c' = Ok v /\
    (is_ok (require_current_execution_calendar c) = true <-> v = CALENDAR_VERSION).
Proof.
  intros Hv. destruct (latest_completed_trading 0 v (Some (Aware utc)) Hv) as (d & Hd & Ht).
  set (c := mkCutoff utc EXCHANGE_TIMEZONE d (Some (ny_utc (close_at (session_of v d) + minutes 15)))
              v BAR_READINESS_VERSION reason None).
  assert (forall o, cutoff_for v (Aware utc) reason = Ok c /\
    make_cutoff (Aware utc) EXCHANGE_TIMEZONE d
      (Some (Aware (ny_utc (close_at (session_of v d) + minutes 15)))) v BAR_READINESS_VERSION reason o
    = Ok (mkCutoff utc EXCHANGE_TIMEZONE d (Some (ny_utc (close_at (session_of v d) + minutes 15)))
        v BAR_READINESS_VERSION reason o)) as Hc.
  { intros o. unfold cutoff_for. rewrite Hd. cbn [mbind result_bind].
    rewrite us_market_session_ok, Ht by done. cbn [mbind result_bind].
    unfold make_cutoff. cbn [mbind result_bind mret result_ret]. rewrite Hv, is_us_trading_day_ok, Ht by done.
    by split. }
  set (c' := mkCutoff utc EXCHANGE_TIMEZONE d (Some (ny_utc (close_at (session_of v d) + minutes 15)))
              v BAR_READINESS_VERSION reason (Some context)).
  assert (forall x, cutoff_at x = utc -> calendar_version x = v -> cutoff_reason x = reason ->
    latest_completed_session x = d -> daily_bar_ready_at x = daily_bar_ready_at c ->
    bar_readiness_version x = BAR_READINESS_VERSION -> clock_for_cutoff x = Ok v) as Hclock.
  { intros x E1 E2 E3 E4 E5 E6. unfold clock_for_cutoff, make_clock. rewrite E1, E2, E3, E4, E5, E6, Hv.
    cbn [mbind result_bind mret result_ret]. rewrite (proj1 (Hc None)). cbn [mbind result_bind].
    cbn [latest_completed_session bar_readiness_version]. rewrite Z.eqb_refl, String.eqb_refl.
    by rewrite bool_decide_true. }
  exists c, c'. split_and!; try done; [apply (Hc None)|by apply Hclock|apply (Hc (Some context))|by apply Hclock|].
  unfold require_current_execution_calendar. rewrite (Hclock c) by done. cbn [mbind result_bind].
  cbn [calendar_version c]. destruct (String.eqb_spec v CALENDAR_VERSION); cbn; split; done.
Qed.

(** The signed distance as one formula. *)
Lemma distance_ok v a b :
  supported_version v = true ->
  trading_session_distance v a b = Ok (sessions_in v a b - sessions_in v b a).
Proof.
  intros Hv. unfold trading_session_distance.
  assert (forall x y, y <= x -> sessions_in v x y = 0) as Hz by (intros; apply sessions_in_none; lia).
  destruct (Z.eqb_spec a b) as [->|Hne]; [rewrite (Hz b b) by lia; done|].
  destruct (Z.ltb_spec a b).
  - rewrite sessions_between_ok, (Hz b a) by (done || lia). f_equal. lia.
  - rewrite sessions_between_ok by done. cbn [mbind result_bind mret result_ret].
    rewrite (Hz a b) by lia. f_equal.
Qed.

(** Session distances form a signed measure: for a supported calendar every
    distance exists, it is antisymmetric, and distances add up along any chain of
    dates, whatever their order. *)
Theorem session_distance_additive v a b c :
  supported_version v = true ->
  exists x y, trading_session_distance v a b = Ok x /\ trading_session_distance v b c = Ok y /\
    trading_session_distance v a c = Ok (x + y) /\ trading_session_distance v b a = Ok (- x).
Proof.
  intros Hv. exists (sessions_in v a b - sessions_in v b a), (sessions_in v b c - sessions_in v c b).
  rewrite !distance_ok by done. split_and!; try done; f_equal; [|lia].
  assert (forall x y, y <= x -> sessions_in v x y = 0) as Hz by (intros; apply sessions_in_none; lia).
  assert (forall x y z, x <= y <= z -> sessions_in v x z = sessions_in v x y + sessions_in v y z) as Hs
    by (intros; by apply sessions_in_split).
  destruct (Z.le_ge_cases a b), (Z.le_ge_cases b c), (Z.le_ge_cases a c);
    try pose proof (Hz a b ltac:(lia)); try pose proof (Hz b a ltac:(lia));
    try pose proof (Hz b c ltac:(lia)); try pose proof (Hz c b ltac:(lia));
    try pose proof (Hz a c ltac:(lia)); try pose proof (Hz c a ltac:(lia));
    try pose proof (Hs a b c ltac:(lia)); try pose proof (Hs c b a ltac:(lia));
    try pose proof (Hs a c b ltac:(lia)); try pose proof (Hs b c a ltac:(lia));
    try pose proof (Hs b a c ltac:(lia)); try pose proof (Hs c a b ltac:(lia)); lia.
Qed.

Lemma on_or_after_spec v day :
  supported_version v = true ->
  exists r, _session_on_or_after v day = Ok r /\ first_session_from v day r.
Proof.
  intros Hv. destruct (trading_within_four v day) as (k & Hk & Ht).
  destruct (seek_up_spec v seek_fuel day k Hv ltac:(unfold seek_fuel; lia) Ht) as (r & Hr & Hs & _).
  eauto.
Qed.

(** Attribution of timestamps.  With a supported calendar every aware
    timestamp is attributed to a trading session under every policy.  Under the
    effective-session policies it is the earliest session that has not closed
    before the local time (a session that is closing at that very moment still
    counts); under the next-open policy it is the earliest session whose opening
    is strictly after the local time. *)
Theorem canonical_session_correct v utc policy :
  supported_version v = true ->
  exists d, canonical_session_for_timestamp v (Aware utc) policy = Ok d /\ trading v d = true /\
    let local := ny_wall utc in
    match policy with
    | LATEST_COMPLETED_DAILY_SESSION | TRADING_WEEK_CONFIRMATION => True
    | NEXT_MARKET_OPEN_AFTER_EVENT =>
        local < open_at (session_of v d) /\
        forall x, trading v x = true -> local < open_at (session_of v x) -> d <= x
    | EVENT_EFFECTIVE_SESSION | COOLDOWN_SESSION_OF_TIMESTAMP =>
        local <= close_at (session_of v d) /\
        forall x, trading v x = true -> local <= close_at (session_of v x) -> d <= x
    end.
Proof.
  intros Hv. cbv zeta. unfold canonical_session_for_timestamp. cbv zeta.
  set (local := ny_wall utc). pose proof (dt_date_bounds local) as Hb.
  set (today := dt_date local) in *.
  assert (forall d, d < today -> close_at (session_of v d) < local) as Hpast.
  { intros d Hd. assert ((d + 1) * us_per_day <= today * us_per_day) by
      (apply Z.mul_le_mono_nonneg_r; unfold us_per_day, us_per_second; lia).
    wall_clock v d. lia. }
  assert (forall d, open_at (session_of v d) <= close_at (session_of v d)) as Hoc.
  { intros d. wall_clock v d. lia. }
  assert (forall d, today < d -> local < open_at (session_of v d)) as Hfuture.
  { intros d Hd. assert ((today + 1) * us_per_day <= d * us_per_day) by
      (apply Z.mul_le_mono_nonneg_r; unfold us_per_day, us_per_second; lia).
    wall_clock v d. lia. }
  assert (forall r, first_session_from v (today + 1) r ->
    (forall x, trading v x = true -> today < x -> r <= x)) as Hmin.
  { intros r (_ & _ & Hr) x Hx Hlt. destruct (Z.le_gt_cases r x); [done|].
    rewrite (Hr x) in Hx by lia. done. }
  destruct (next_spec v today Hv) as (r & Hr & Hs & _). pose proof Hs as (Hr1 & Hrt & _).
  destruct policy; try (destruct (latest_completed_trading 0 v (Some (Aware utc)) Hv) as (d & -> & Ht); eauto; done);
    rewrite us_market_session_ok by done; cbn [mbind result_bind]; destruct (trading v today) eqn:Et.
  2,6: destruct (on_or_after_spec v today Hv) as (q & -> & (Hq & Hqt & Hqm));
    assert (today < q) as Hlt by (destruct (Z.eq_dec q today); [congruence|lia]);
    exists q; split_and!; [done|done|pose proof (Hfuture q Hlt); pose proof (Hoc q); lia|];
    intros x Hx Hlx; destruct (Z.le_gt_cases q x); [done|];
    (destruct (Z.le_gt_cases today x); [rewrite (Hqm x) in Hx by lia; done|]);
    pose proof (Hpast x ltac:(lia)); lia.
  1,4: destruct (Z.ltb_spec (close_at (session_of v today)) local) as [Hc|Hc];
    [exists r; split_and!; [done|done|pose proof (Hfuture r ltac:(lia)); pose proof (Hoc r); lia|];
     intros x Hx Hlx; apply (Hmin r Hs); [done|];
     destruct (Z.eq_dec x today); [subst; lia|]; destruct (Z.lt_ge_cases today x); [done|];
     pose proof (Hpast x ltac:(lia)); lia
    |exists today; split_and!; [done|done|done|];
     intros x Hx Hlx; destruct (Z.le_gt_cases today x); [done|]; pose proof (Hpast x ltac:(lia)); lia].
  - destruct (Z.ltb_spec local (open_at (session_of v today))) as [Ho|Ho].
    + exists today. split_and!; [done|done|done|]. intros x Hx Hlx.
      destruct (Z.le_gt_cases today x); [done|]. pose proof (Hpast x ltac:(lia)). pose proof (Hoc x). lia.
    + exists r. split_and!; [done|done|apply Hfuture; lia|]. intros x Hx Hlx.
      apply (Hmin r Hs); [done|]. destruct (Z.eq_dec x today); [subst; lia|].
      destruct (Z.lt_ge_cases today x); [done|]. pose proof (Hpast x ltac:(lia)). pose proof (Hoc x). lia.
  - exists r. split_and!; [done|done|apply Hfuture; lia|]. intros x Hx Hlx.
    apply (Hmin r Hs); [done|]. destruct (Z.eq_dec x today); [congruence|].
    destruct (Z.lt_ge_cases today x); [done|]. pose proof (Hpast x ltac:(lia)). pose proof (Hoc x). lia.
Qed.
End Clock.

Lemma cutoff_roundtrip_witness :
  exists c c', cutoff_for (fun t => t - minutes 300) (fun t => t + minutes 300) CALENDAR_VERSION
      (Aware (dt_combine (mk_date 2025 1 9) 22 0)) "scan" = Ok c /\
    cutoff_at c = dt_combine (mk_date 2025 1 9) 22 0 /\ calendar_version c = CALENDAR_VERSION /\
    trading CALENDAR_VERSION (latest_completed_session c) = true /\
    clock_for_cutoff (fun t => t - minutes 300) (fun t => t + minutes 300) c = Ok CALENDAR_VERSION /\
    with_context_id c 7 = Ok c' /\ context_id c' = Some 7 /\
    clock_for_cutoff (fun t => t - minutes 300) (fun t => t + minutes 300) c' = Ok CALENDAR_VERSION /\
    (is_ok (require_current_execution_calendar (fun t => t - minutes 300) (fun t => t + minutes 300) c)
       = true <-> CALENDAR_VERSION = CALENDAR_VERSION).
Proof. apply cutoff_roundtrip. reflexivity. Defined.

Lemma session_distance_additive_witness :
  exists x y, trading_session_distance CALENDAR_VERSION (mk_date 2025 1 10) (mk_date 2025 1 8) = Ok x /\
    trading_session_distance CALENDAR_VERSION (mk_date 2025 1 8) (mk_date 2025 1 15) = Ok y /\
    trading_session_distance CALENDAR_VERSION (mk_date 2025 1 10) (mk_date 2025 1 15) = Ok (x + y) /\
    trading_session_distance CALENDAR_VERSION (mk_date 2025 1 8) (mk_date 2025 1 10) = Ok (- x).
Proof. apply session_distance_additive. reflexivity. Defined.

Lemma canonical_session_correct_witness :
  exists d, canonical_session_for_timestamp (fun t => t - minutes 300) CALENDAR_VERSION
      (Aware (dt_combine (mk_date 2025 1 9) 22 0)) EVENT_EFFECTIVE_SESSION = Ok d /\
    trading CALENDAR_VERSION d = true.
Proof.
  destruct (canonical_session_correct (fun t => t - minutes 300) CALENDAR_VERSION
    (dt_combine (mk_date 2025 1 9) 22 0) EVENT_EFFECTIVE_SESSION eq_refl) as (d & Hd & Ht & _).
  exists d. exact (conj Hd Ht).
Defined.
