(* ===== verification/Readiness.v ===== *)
(** * Producer readiness and consumer eligibility

    [app/services/producer_readiness.py] (the readiness envelope of a producer,
    its payload, the eligibility decision of a consumer) and the policies of
    [technical_consumer_eligibility.py] and [contextual_consumer_eligibility.py].

    The class [CanonicalEvidence] holds what these modules take from elsewhere:
    [canonical] is [json.loads(CanonicalEvidenceSerializer.dumps(v))],
    [fingerprint_of] is [CanonicalEvidenceSerializer.fingerprint], and
    [validate_delivered_readiness_policy] and [evaluate_research] are the
    configuration delivery check and the version 2 research policy. *)
From Stdlib Require Import ZArith Lia List String Ascii Bool.
From stdpp Require Import base list strings.
From S2P Require Import Prelude PyDate PyFloat PyValue.
Local Open Scope string_scope.
Local Open Scope list_scope.
Local Open Scope Z_scope.

Module Readiness.

Inductive ReadinessStatus :=
  | READY | DEGRADED | INSUFFICIENT_EVIDENCE | STALE | ERROR | UNKNOWN | LEGACY_UNKNOWN.
Inductive ReadinessReason :=
  | SIGNALS_UNAVAILABLE | LEGACY_READINESS_UNKNOWN | PRODUCER_WARNING | LOW_NATIVE_CONFIDENCE
  | INSUFFICIENT_NATIVE_CONFIDENCE | TECH_INSUFFICIENT_HISTORY | TECH_ERROR
  | FUNDAMENTAL_MISSING_DATA | COMBINED_INCOMPLETE | RANKING_INCOMPLETE | REGIME_STALE_INPUT
  | REGIME_INSUFFICIENT_PRIMARY | REGIME_INSUFFICIENT_RISK_PROXY | SECTOR_INCOMPLETE_CONTEXT
  | CERI_INSUFFICIENT_AVAILABLE_WEIGHT | CERI_STALE_SOURCE | IBMI_UNAVAILABLE | IBMI_ERROR
  | IBMI_STALE_SOURCE | SETUP_STALE_SOURCE | SETUP_NEAR_STALE_SOURCE
  | INSUFFICIENT_NATIVE_DATA_QUALITY | LOW_NATIVE_DATA_QUALITY | LIFECYCLE_OBSERVATION_GAP.
Inductive ConsumerEligibilityStatus := ELIGIBLE | INELIGIBLE | POLICY_UNDECIDED.
Inductive EligibilityReason :=
  | POLICY_NOT_IMPLEMENTED | PRODUCER_READINESS_UNKNOWN | PRODUCER_READINESS_BLOCKED
  | PRODUCER_READINESS_VERSION_UNSUPPORTED | DEGRADED_POLICY_UNDECIDED
  | CERTIFIED_STRATEGY_RESTRICTION_ONLY.

#[global] Instance ReadinessStatus_eq_dec : EqDecision ReadinessStatus.
Proof. solve_decision. Defined.
#[global] Instance ReadinessReason_eq_dec : EqDecision ReadinessReason.
Proof. solve_decision. Defined.
#[global] Instance ConsumerEligibilityStatus_eq_dec : EqDecision ConsumerEligibilityStatus.
Proof. solve_decision. Defined.
#[global] Instance EligibilityReason_eq_dec : EqDecision EligibilityReason.
Proof. solve_decision. Defined.

(** ** Enumerations

    A string enumeration lists its members with their values; calling the class
    looks a value up and raises [ValueError] when there is none. *)
Definition members (A : Type) : Type := list (A * string).

Definition status_members : members ReadinessStatus :=
  [(READY, "READY"); (DEGRADED, "DEGRADED"); (INSUFFICIENT_EVIDENCE, "INSUFFICIENT_EVIDENCE");
   (STALE, "STALE"); (ERROR, "ERROR"); (UNKNOWN, "UNKNOWN"); (LEGACY_UNKNOWN, "LEGACY_UNKNOWN")].
Definition reason_members : members ReadinessReason :=
  [(SIGNALS_UNAVAILABLE, "SIGNALS_UNAVAILABLE");
   (LEGACY_READINESS_UNKNOWN, "LEGACY_READINESS_UNKNOWN"); (PRODUCER_WARNING, "PRODUCER_WARNING");
   (LOW_NATIVE_CONFIDENCE, "LOW_NATIVE_CONFIDENCE");
   (INSUFFICIENT_NATIVE_CONFIDENCE, "INSUFFICIENT_NATIVE_CONFIDENCE");
   (TECH_INSUFFICIENT_HISTORY, "TECH_INSUFFICIENT_HISTORY"); (TECH_ERROR, "TECH_ERROR");
   (FUNDAMENTAL_MISSING_DATA, "FUNDAMENTAL_MISSING_DATA");
   (COMBINED_INCOMPLETE, "COMBINED_INCOMPLETE"); (RANKING_INCOMPLETE, "RANKING_INCOMPLETE");
   (REGIME_STALE_INPUT, "REGIME_STALE_INPUT");
   (REGIME_INSUFFICIENT_PRIMARY, "REGIME_INSUFFICIENT_PRIMARY");
   (REGIME_INSUFFICIENT_RISK_PROXY, "REGIME_INSUFFICIENT_RISK_PROXY");
   (SECTOR_INCOMPLETE_CONTEXT, "SECTOR_INCOMPLETE_CONTEXT");
   (CERI_INSUFFICIENT_AVAILABLE_WEIGHT, "CERI_INSUFFICIENT_AVAILABLE_WEIGHT");
   (CERI_STALE_SOURCE, "CERI_STALE_SOURCE"); (IBMI_UNAVAILABLE, "IBMI_UNAVAILABLE");
   (IBMI_ERROR, "IBMI_ERROR"); (IBMI_STALE_SOURCE, "IBMI_STALE_SOURCE");
   (SETUP_STALE_SOURCE, "SETUP_STALE_SOURCE"); (SETUP_NEAR_STALE_SOURCE, "SETUP_NEAR_STALE_SOURCE");
   (INSUFFICIENT_NATIVE_DATA_QUALITY, "INSUFFICIENT_NATIVE_DATA_QUALITY");
   (LOW_NATIVE_DATA_QUALITY, "LOW_NATIVE_DATA_QUALITY");
   (LIFECYCLE_OBSERVATION_GAP, "LIFECYCLE_OBSERVATION_GAP")].
Definition eligibility_members : members ConsumerEligibilityStatus :=
  [(ELIGIBLE, "ELIGIBLE"); (INELIGIBLE, "INELIGIBLE"); (POLICY_UNDECIDED, "POLICY_UNDECIDED")].
Definition eligibility_reason_members : members EligibilityReason :=
  [(POLICY_NOT_IMPLEMENTED, "POLICY_NOT_IMPLEMENTED");
   (PRODUCER_READINESS_UNKNOWN, "PRODUCER_READINESS_UNKNOWN");
   (PRODUCER_READINESS_BLOCKED, "PRODUCER_READINESS_BLOCKED");
   (PRODUCER_READINESS_VERSION_UNSUPPORTED, "PRODUCER_READINESS_VERSION_UNSUPPORTED");
   (DEGRADED_POLICY_UNDECIDED, "DEGRADED_POLICY_UNDECIDED");
   (CERTIFIED_STRATEGY_RESTRICTION_ONLY, "CERTIFIED_STRATEGY_RESTRICTION_ONLY")].

Section Enum.
Context {A : Type} `{EqA : EqDecision A} (M : members A).
(** [member.value]. *)
Definition enum_value (a : A) : string :=
  match List.find (fun p => bool_decide (p.1 = a)) M with Some p => p.2 | None => "" end.
(** [Enum(value)]. *)
Definition enum_of_string (s : string) : result A :=
  match List.find (fun p => String.eqb p.2 s) M with
  | Some p => Ok p.1
  | None => ValueError "not a valid member"
  end.
Definition enum_of (v : pyval) : result A :=
  match v with VStr s => enum_of_string s | _ => ValueError "not a valid member" end.

Fixpoint enum_list (l : list pyval) : result (list A) :=
  match l with
  | [] => mret []
  | v :: l => a ← enum_of v; rest ← enum_list l; mret (a :: rest)
  end.
(** [tuple(Enum(r) for r in values)]: a string iterates over its characters, a
    dictionary over its keys. *)
Definition enum_tuple (v : pyval) : result (list A) :=
  match v with
  | VList l => enum_list l
  | VDict d => enum_list (map (fun kv => VStr kv.1) d)
  | VStr "" => mret []
  | VStr _ => ValueError "not a valid member"
  | _ => raise "TypeError" "object is not iterable"
  end.

(** [tuple(sorted(set(reasons), key=lambda r: r.value))]. *)
Definition normalize_reasons (l : list A) : list A :=
  sort_by (fun a b => String.leb (enum_value a) (enum_value b)) (remove_dups l).
End Enum.

(** ** The readiness envelope *)

(** Fields that the constructor does not check are dynamic values. *)
Record ProducerReadinessEnvelope := mkEnvelope {
  producer : pyval;
  status : ReadinessStatus;
  calculation_identity_fingerprint : pyval;
  blocking_reasons : list ReadinessReason;
  warning_reasons : list ReadinessReason;
  native_confidence : dict;
  native_coverage : dict;
  native_freshness : dict;
  native_signals : dict;
  calculation_versions : dict;
  evaluated_at : pyval;
  business_anchor : pyval;
  readiness_policy_version : pyval;
  evidence_id : pyval;
}.

(** [ProducerReadinessEnvelope.__post_init__]. *)
Definition make_envelope (e : ProducerReadinessEnvelope) : result ProducerReadinessEnvelope :=
  if negb (bool_decide (status e ∈ [UNKNOWN; LEGACY_UNKNOWN]))
     && negb (truthy (calculation_identity_fingerprint e))
  then ValueError "supported readiness must bind to Calculation Identity"
  else
    let blocking := normalize_reasons reason_members (blocking_reasons e) in
    let warning := normalize_reasons reason_members (warning_reasons e) in
    if negb (bool_decide (blocking = [])) && bool_decide (status e ∈ [READY; DEGRADED])
    then ValueError "blocking readiness reasons cannot certify ready/degraded output"
    else mret (mkEnvelope (producer e) (status e) (calculation_identity_fingerprint e) blocking
      warning (native_confidence e) (native_coverage e) (native_freshness e) (native_signals e)
      (calculation_versions e) (evaluated_at e) (business_anchor e) (readiness_policy_version e)
      (evidence_id e)).

Definition reasons_value {A} `{EqDecision A} (M : members A) (l : list A) : pyval :=
  VList (map (fun r => VStr (enum_value M r)) l).

Definition canonical_payload (e : ProducerReadinessEnvelope) : dict :=
  [("producer", producer e); ("status", VStr (enum_value status_members (status e)));
   ("calculation_identity_fingerprint", calculation_identity_fingerprint e);
   ("blocking_reasons", reasons_value reason_members (blocking_reasons e));
   ("warning_reasons", reasons_value reason_members (warning_reasons e));
   ("native_confidence", VDict (native_confidence e));
   ("native_coverage", VDict (native_coverage e));
   ("native_freshness", VDict (native_freshness e));
   ("native_signals", VDict (native_signals e));
   ("calculation_versions", VDict (calculation_versions e));
   ("evaluated_at", evaluated_at e); ("business_anchor", business_anchor e);
   ("readiness_policy_version", readiness_policy_version e)].

Definition to_dto (e : ProducerReadinessEnvelope) : dict :=
  canonical_payload e ++ [("evidence_id", evidence_id e)].

(** ** The eligibility decision *)

(** A decision as a policy builds it; the dynamic fields are the ones read back
    from a recorded decision unchecked. *)
Record ConsumerEligibilityDecision := mkDecision {
  consumer : pyval;
  decision_status : ConsumerEligibilityStatus;
  reasons : list EligibilityReason;
  policy_version : pyval;
  producer_readiness_fingerprint : pyval;
  producer_evidence_id : pyval;
  justification : dict;
}.

(** [ConsumerEligibilityDecision.__post_init__]: its arguments are typed. *)
Definition make_decision (consumer : pyval) (status : ConsumerEligibilityStatus)
    (reasons : list EligibilityReason) (policy_version fingerprint evidence : pyval)
    (justification : dict) : ConsumerEligibilityDecision :=
  mkDecision consumer status (normalize_reasons eligibility_reason_members reasons) policy_version
    fingerprint evidence justification.

Definition decision_dto (d : ConsumerEligibilityDecision) : dict :=
  [("consumer", consumer d); ("status", VStr (enum_value eligibility_members (decision_status d)));
   ("reasons", reasons_value eligibility_reason_members (reasons d));
   ("policy_version", policy_version d);
   ("producer_readiness_fingerprint", producer_readiness_fingerprint d);
   ("producer_evidence_id", producer_evidence_id d)]
  ++ match justification d with [] => [] | j => [("justification", VDict j)] end.

(** [d[k]]. *)
Definition item (d : dict) (k : string) : result pyval :=
  match dict_find k d with Some v => Ok v | None => raise "KeyError" k end.

(** The mapping behind [v["key"]] or [v.get("key")]. *)
Definition as_mapping (v : pyval) : result dict :=
  match v with VDict d => Ok d | _ => raise "TypeError" "not a mapping" end.

Class CanonicalEvidence := {
  canonical : pyval -> result pyval;
  fingerprint_of : dict -> string;
  validate_delivered_readiness_policy : string -> string -> result unit;
  evaluate_research : string -> string -> ProducerReadinessEnvelope -> option dict ->
    result ConsumerEligibilityDecision;
}.

Section Envelopes.
Context `{Evidence : CanonicalEvidence}.

(** [NativeReadinessMetrics.freeze] and its [__post_init__], as the payload. *)
Definition freeze (v : pyval) : result dict :=
  c ← canonical v;
  match c with
  | VDict d => c ← canonical (VDict d); as_mapping c
  | _ => raise "TypeError" "native metrics require a named metric object"
  end.

Definition fingerprint (e : ProducerReadinessEnvelope) : string := fingerprint_of (canonical_payload e).

Definition envelope_fields : list string :=
  ["producer"; "status"; "calculation_identity_fingerprint"; "blocking_reasons"; "warning_reasons";
   "native_confidence"; "native_coverage"; "native_freshness"; "native_signals";
   "calculation_versions"; "evaluated_at"; "business_anchor"; "readiness_policy_version";
   "evidence_id"].

(** A keyword argument with a default, and one without. *)
Definition kwarg (d : dict) (k : string) (default : pyval) : pyval :=
  match dict_find k d with Some v => v | None => default end.
Definition required_kwarg (d : dict) (k : string) : result pyval :=
  match dict_find k d with
  | Some v => Ok v
  | None => raise "TypeError" "missing required argument"
  end.

Definition from_payload (payload : pyval) : result ProducerReadinessEnvelope :=
  values ← as_mapping payload;
  status ← item values "status" ≫= enum_of status_members;
  blocking ← item values "blocking_reasons" ≫= enum_tuple reason_members;
  warning ← item values "warning_reasons" ≫= enum_tuple reason_members;
  confidence ← item values "native_confidence" ≫= freeze;
  coverage ← item values "native_coverage" ≫= freeze;
  freshness ← item values "native_freshness" ≫= freeze;
  signals ← item values "native_signals" ≫= freeze;
  versions ← item values "calculation_versions" ≫= freeze;
  if existsb (fun kv => negb (smem kv.1 envelope_fields)) values
  then raise "TypeError" "unexpected keyword argument"
  else
    producer ← required_kwarg values "producer";
    identity ← required_kwarg values "calculation_identity_fingerprint";
    make_envelope (mkEnvelope producer status identity blocking warning confidence coverage
      freshness signals versions (kwarg values "evaluated_at" VNone)
      (kwarg values "business_anchor" VNone)
      (kwarg values "readiness_policy_version" (VStr "producer-readiness-v1"))
      (kwarg values "evidence_id" VNone)).

(** ** Policies *)

Definition blocked_readiness (e : ProducerReadinessEnvelope) : bool :=
  negb (bool_decide (blocking_reasons e = []))
  || bool_decide (status e ∈ [INSUFFICIENT_EVIDENCE; ERROR; STALE]).

Definition is_str (v : pyval) (s : string) : bool :=
  match v with VStr s' => String.eqb s' s | _ => false end.

(** [consumer in {None, self.consumer}]. *)
Definition consumer_allowed (requested : option string) (own : string) : bool :=
  match requested with None => true | Some c => String.eqb c own end.

Definition config_given (config : option dict) : bool :=
  match config with Some (_ :: _) => true | _ => false end.

Definition endswith (s suffix : string) : bool :=
  let n := String.length s in
  let k := String.length suffix in
  (k <=? n)%nat && String.eqb (String.substring (n - k) k s) suffix.

(** [TechnicalConsumerPolicy.evaluate] of the policy [(own, version)]. *)
Definition technical_evaluate (own version : string) (readiness : ProducerReadinessEnvelope)
    (requested : option string) (config : option dict) : result ConsumerEligibilityDecision :=
  _ ← validate_delivered_readiness_policy own version;
  if negb (is_str (producer readiness) "TECHNICAL") || negb (consumer_allowed requested own)
  then ValueError "Technical eligibility policy producer/consumer mismatch"
  else if config_given config && endswith version "-v1"
  then ValueError "Technical eligibility v1 has no configurable overrides"
  else if smem version ["technical-to-combined-v2"; "technical-to-ranking-v2"]
  then evaluate_research own version readiness config
  else
    let '(status, reasons) :=
      if blocked_readiness readiness then (INELIGIBLE, [PRODUCER_READINESS_BLOCKED])
      else match status readiness with
           | READY => (ELIGIBLE, [])
           | DEGRADED => (POLICY_UNDECIDED, [DEGRADED_POLICY_UNDECIDED])
           | _ => (POLICY_UNDECIDED, [PRODUCER_READINESS_UNKNOWN])
           end in
    mret (make_decision (VStr own) status reasons (VStr version) (VStr (fingerprint readiness))
            (evidence_id readiness) []).

Record ContextualConsumerPolicy := mkContextual {
  policy_producer : string;
  policy_consumer : string;
  policy_name : string;
  required_readiness_version : option string;
}.

(** [ContextualConsumerPolicy.evaluate]. *)
Definition contextual_evaluate (p : ContextualConsumerPolicy) (readiness : ProducerReadinessEnvelope)
    (requested : option string) (config : option dict) : result ConsumerEligibilityDecision :=
  _ ← validate_delivered_readiness_policy (policy_consumer p) (policy_name p);
  if negb (is_str (producer readiness) (policy_producer p))
     || negb (consumer_allowed requested (policy_consumer p))
  then ValueError "Contextual eligibility producer/consumer mismatch"
  else if config_given config
  then ValueError "Contextual eligibility v1 has no configurable overrides"
  else
    let '(status, reasons) :=
      if blocked_readiness readiness then (INELIGIBLE, [PRODUCER_READINESS_BLOCKED])
      else match status readiness with
           | READY =>
               match required_readiness_version p with
               | Some v =>
                   if is_str (readiness_policy_version readiness) v then (ELIGIBLE, [])
                   else (POLICY_UNDECIDED, [PRODUCER_READINESS_VERSION_UNSUPPORTED])
               | None => (ELIGIBLE, [])
               end
           | DEGRADED => (POLICY_UNDECIDED, [DEGRADED_POLICY_UNDECIDED])
           | _ => (POLICY_UNDECIDED, [PRODUCER_READINESS_UNKNOWN])
           end in
    mret (make_decision (VStr (policy_consumer p)) status reasons (VStr (policy_name p))
            (VStr (fingerprint readiness)) (evidence_id readiness) []).

Definition REGIME_TO_SETUP : ContextualConsumerPolicy :=
  mkContextual "REGIME" "SETUP" "regime-to-setup-v2" (Some "regime-readiness-v2").
Definition SECTOR_TO_SETUP : ContextualConsumerPolicy :=
  mkContextual "SECTOR" "SETUP" "sector-to-setup-v2" (Some "sector-readiness-v2").
Definition FUNDAMENTAL_TO_SETUP : ContextualConsumerPolicy :=
  mkContextual "FUNDAMENTAL" "SETUP" "fundamental-to-setup-v1" None.
Definition COMBINED_TO_SETUP : ContextualConsumerPolicy :=
  mkContextual "COMBINED" "SETUP" "combined-to-setup-v2" (Some "combined-readiness-v2").

(** ** Facts *)

Definition values_distinct {A} (M : members A) : Prop := NoDup (map snd M).

(** Reading the value of a member gives the member back. *)
Lemma enum_roundtrip {A} `{EqDecision A} (M : members A) a :
  values_distinct M -> a ∈ map fst M -> enum_of M (VStr (enum_value M a)) = Ok a.
Proof.
  unfold values_distinct, enum_value. simpl. unfold enum_of_string.
  induction M as [|[b s] M IH]; intros Hnd Ha; [by apply not_elem_of_nil in Ha|].
  cbn [map fst snd] in Hnd, Ha. apply NoDup_cons in Hnd as [Hs Hnd].
  cbn [List.find fst snd]. destruct (bool_decide_reflect (b = a)) as [->|Hne]; cbn [snd].
  { by rewrite String.eqb_refl. }
  apply elem_of_cons in Ha as [->|Ha]; [done|]. specialize (IH Hnd Ha).
  destruct (List.find (fun p => bool_decide (p.1 = a)) M) as [[b' s']|] eqn:E; cbn [snd] in *.
  - apply List.find_some in E as [Hin _]. destruct (String.eqb_spec s s') as [->|]; [|done].
    exfalso. apply Hs. apply list_elem_of_In, in_map_iff. by exists (b', s').
  - apply list_elem_of_In, in_map_iff in Ha as ([b' s'] & Hb & Hin). simpl in Hb. subst b'.
    apply (List.find_none _ _ E) in Hin. simpl in Hin. by rewrite bool_decide_eq_true_2 in Hin.
Qed.

Lemma enum_list_roundtrip {A} `{EqDecision A} (M : members A) l :
  values_distinct M -> (forall a, a ∈ map fst M) ->
  enum_list M (map (fun r => VStr (enum_value M r)) l) = Ok l.
Proof.
  intros Hd Hall. induction l as [|a l IH]; [done|]. cbn [map enum_list].
  rewrite (enum_roundtrip M a Hd (Hall a)). cbn [mbind result_bind]. by rewrite IH.
Qed.

Lemma normalize_idempotent {A} `{EqDecision A} (M : members A) (l : list A) :
  normalize_reasons M (normalize_reasons M l) = normalize_reasons M l.
Proof.
  unfold normalize_reasons at 1. rewrite remove_dups_id.
  - apply sort_by_id. unfold normalize_reasons. apply sort_by_sorted.
    + intros x y. apply string_leb_total.
    + intros x y z. apply string_leb_trans.
  - unfold normalize_reasons. rewrite sort_by_Permutation. apply NoDup_remove_dups.
Qed.

Lemma status_distinct : values_distinct status_members.
Proof. apply (bool_decide_unpack _). by vm_compute. Qed.
Lemma reason_distinct : values_distinct reason_members.
Proof. apply (bool_decide_unpack _). by vm_compute. Qed.
Lemma eligibility_distinct : values_distinct eligibility_members.
Proof. apply (bool_decide_unpack _). by vm_compute. Qed.
Lemma eligibility_reason_distinct : values_distinct eligibility_reason_members.
Proof. apply (bool_decide_unpack _). by vm_compute. Qed.
Ltac all_members := intros a; destruct a; apply (bool_decide_unpack _); by vm_compute.
Lemma status_complete a : a ∈ map fst status_members.
Proof. revert a; all_members. Qed.
Lemma reason_complete a : a ∈ map fst reason_members.
Proof. revert a; all_members. Qed.
Lemma eligibility_complete a : a ∈ map fst eligibility_members.
Proof. revert a; all_members. Qed.
Lemma eligibility_reason_complete a : a ∈ map fst eligibility_reason_members.
Proof. revert a; all_members. Qed.

(** Metrics that came out of [freeze]. *)
Definition frozen_metrics (e : ProducerReadinessEnvelope) : Prop :=
  Forall (fun m => exists v, freeze v = Ok m)
    [native_confidence e; native_coverage e; native_freshness e; native_signals e;
     calculation_versions e].

(** What the serializer documents: a canonical value is its own canonical form. *)
Definition canonical_idempotent : Prop := forall v c, canonical v = Ok c -> canonical c = Ok c.

Lemma freeze_frozen : canonical_idempotent ->
  forall v m, freeze v = Ok m -> freeze (VDict m) = Ok m.
Proof.
  intros Hc v m H. unfold freeze in H. apply result_bind_Ok in H as (c & Hv & H).
  destruct c; try done. apply result_bind_Ok in H as (c' & Hd & H).
  destruct c'; try done. simpl in H. apply Ok_inj in H. subst.
  unfold freeze. apply Hc in Hd. rewrite Hd. cbn. by rewrite Hd.
Qed.

Lemma make_envelope_normal a e : make_envelope a = Ok e -> make_envelope e = Ok e.
Proof.
  intros H. unfold make_envelope in H. cbv zeta in H.
  match type of H with (if ?b then _ else _) = _ => destruct b eqn:E1; [done|] end.
  match type of H with (if ?b then _ else _) = _ => destruct b eqn:E2; [done|] end.
  apply Ok_inj in H. subst e. unfold make_envelope. cbv zeta.
  cbn [status blocking_reasons warning_reasons calculation_identity_fingerprint].
  rewrite E1, !normalize_idempotent, E2. done.
Qed.

Lemma from_payload_to_dto e :
  canonical_idempotent -> frozen_metrics e -> make_envelope e = Ok e ->
  from_payload (VDict (to_dto e)) = Ok e.
Proof.
  intros Hc Hm He. unfold frozen_metrics in Hm. rewrite !Forall_cons in Hm.
  destruct Hm as ((? & H1) & (? & H2) & (? & H3) & (? & H4) & (? & H5) & _).
  apply (freeze_frozen Hc) in H1, H2, H3, H4, H5.
  unfold from_payload, item, required_kwarg, kwarg. cbn -[freeze make_envelope enum_value enum_of enum_tuple smem].
  rewrite (enum_roundtrip _ _ status_distinct (status_complete _)). cbn -[freeze make_envelope enum_value smem].
  rewrite (enum_list_roundtrip _ _ reason_distinct reason_complete). cbn -[freeze make_envelope enum_value smem].
  rewrite (enum_list_roundtrip _ _ reason_distinct reason_complete). cbn -[freeze make_envelope enum_value smem].
  rewrite H1. cbn -[freeze make_envelope enum_value smem]. rewrite H2. cbn -[freeze make_envelope enum_value smem].
  rewrite H3. cbn -[freeze make_envelope enum_value smem]. rewrite H4. cbn -[freeze make_envelope enum_value smem].
  rewrite H5. cbn -[freeze make_envelope enum_value]. by destruct e.
Qed.

(** The readiness payload round-trips: for every envelope that the constructor
    produced from frozen metrics, writing it with [to_dto] and reading it with
    [from_payload] gives the same envelope, hence the same fingerprint. *)
Theorem readiness_roundtrip args e :
  canonical_idempotent -> make_envelope args = Ok e -> frozen_metrics e ->
  from_payload (VDict (to_dto e)) = Ok e.
Proof. intros Hc H Hm. apply from_payload_to_dto; eauto using make_envelope_normal. Qed.

(** The technical policy of version 1 fails closed: it declares a consumer
    eligible exactly for a technical producer that is READY (such an envelope has no
    blocking reason), asked by the consumer itself and without overrides; every
    decision carries the fingerprint and the evidence id of the envelope. *)
Lemma technical_policy_fail_closed args e own version requested config d :
  make_envelope args = Ok e -> endswith version "-v1" = true ->
  technical_evaluate own version e requested config = Ok d ->
  (decision_status d = ELIGIBLE <-> status e = READY)
  /\ is_str (producer e) "TECHNICAL" = true /\ consumer_allowed requested own = true
  /\ config_given config = false
  /\ producer_readiness_fingerprint d = VStr (fingerprint e)
  /\ producer_evidence_id d = evidence_id e
  /\ consumer d = VStr own /\ justification d = []
  /\ normalize_reasons eligibility_reason_members (reasons d) = reasons d.
Proof.
  intros He Hv H. apply make_envelope_normal in He. unfold technical_evaluate in H.
  apply result_bind_Ok in H as ([] & _ & H).
  destruct (is_str _ _) eqn:Ep; [|done]. destruct (consumer_allowed _ _) eqn:Ec; [|done].
  cbn [negb orb] in H. rewrite Hv, andb_true_r in H. destruct (config_given config) eqn:Eg; [done|].
  assert (smem version ["technical-to-combined-v2"; "technical-to-ranking-v2"] = false) as Hs.
  { apply not_true_is_false. rewrite smem_In. intros [<-|[<-|[]]]; discriminate Hv. }
  rewrite Hs in H.
  assert (blocked_readiness e = true -> status e <> READY) as Hb.
  { intros Hb Hr. unfold blocked_readiness in Hb. rewrite Hr in Hb. simpl in Hb.
    rewrite orb_false_r in Hb. unfold make_envelope in He. cbv zeta in He. rewrite Hr in He.
    match type of He with (if ?b then _ else _) = _ => destruct b eqn:E1; [done|] end.
    match type of He with (if ?b then _ else _) = _ => destruct b eqn:E2; [done|] end.
    apply andb_false_iff in E2 as [E2|E2]; [|by vm_compute in E2].
    apply negb_false_iff, bool_decide_eq_true in E2.
    apply (f_equal (fun r => match r with Ok e => blocking_reasons e | _ => [] end)) in He.
    simpl in He. rewrite E2 in He. rewrite <- He in Hb. done. }
  destruct (blocked_readiness e) eqn:Eb; [|destruct (status e) eqn:Es];
    apply Ok_inj in H; subst d; simpl; (split; [|auto 10 using normalize_idempotent]);
    split; intros; congruence || (exfalso; by apply Hb).
Qed.

End Envelopes.
End Readiness.
