(* ===== verification/Pacing.v ===== *)
(** * Pacing of requests and restarts

    - Module [Restart]: [app/services/supervisor_restart.py], the restart budget of a
      supervised role;
    - Module [Budget]: [app/services/ib_market_intelligence/request_budget.py], the
      weighted sliding window and the market-data line counters;
    - Module [Limiter]: [app/services/ib_rate_limiter.py], the historical-data limiter;
    - Module [Retry]: [app/services/ib_market_intelligence/resilience.py], retries with
      bounded back-off.

    The clock and [time.sleep] act on a world [W] that is left abstract: a reading of
    [time.monotonic] is a float, and a guard is an operation that may raise.  Metrics are
    left out, and a lock is the atomicity of the operation that holds it. *)
From Stdlib Require Import ZArith Lia List String Ascii Bool.
From Stdlib Require Import Floats.SpecFloat.
From stdpp Require Import base list strings.
From S2P Require Import Prelude PyFloat FloatFacts PyValue.
Local Open Scope string_scope.
Local Open Scope list_scope.
Local Open Scope st_scope.
Local Open Scope Z_scope.

(** The clock of a process. *)
Class Clock (W : Type) := {
  monotonic : W -> float * W;
  sleep : float -> W -> W;
}.

Definition read_clock {W} `{Clock W} : ST W float := fun w => let '(t, w) := monotonic w in (Ok t, w).
Definition sleep_for {W} `{Clock W} (seconds : float) : ST W unit := fun w => (Ok tt, sleep seconds w).
Definition call_opt {W} (callback : option (ST W unit)) : ST W unit :=
  match callback with Some f => f | None => st_ret tt end.

Definition quarter : float := float_ratio 1 4.
Definition f60 : float := float_of_Z 60.

(** [float * int]: the integer is converted first, and a large one raises. *)
Definition mul_int (x : float) (n : Z) : result float :=
  match float_of_Z n with
  | S754_infinity _ => raise "OverflowError" "int too large to convert to float"
  | y => mret (fmul x y)
  end.

(** A wait cut into steps of a quarter of a second, with the guard called before each and
    once more at the end: the loop of [cancellable_sleep], [acquire] and
    [acquire_flex_send]. *)
Fixpoint guarded_sleep {W} `{Clock W} (fuel : nat) (interval : float) (guard : option (ST W unit))
    (remaining : float) : ST W unit :=
  match fuel with
  | O => st_lift (Raise OutOfFuel)
  | S fuel =>
      if fgt remaining f0
      then do! call_opt guard in
           let step := fmin interval remaining in
           do! sleep_for step in
           guarded_sleep fuel interval guard (fsub remaining step)
      else call_opt guard
  end.

(** One step per quarter of a second, and one to leave the loop. *)
Definition sleep_fuel (seconds : float) : nat :=
  match seconds with
  | S754_finite false m e => S (S (Z.to_nat (Z.shiftl (Zpos m) (e + 2))))
  | _ => 1%nat
  end.

Module Restart.

Record RestartBudget := mkRestartBudget {
  role : string;
  budget : Z;
  window_seconds : float;
  initial_backoff_seconds : float;
  max_backoff_seconds : float;
  restart_count : Z;
  failures : list float;
  last_exit_code : option Z;
  last_startup_stage : string;
  last_reason_code : string;
  crash_loop : bool;
  first_failure_at : option string;
  last_failure_at : option string;
}.

Record RestartDecision := mkRestartDecision {
  d_role : string;
  d_restart_count : Z;
  d_window_failures : Z;
  d_backoff_seconds : float;
  d_crash_loop : bool;
  d_last_exit_code : option Z;
  d_last_startup_stage : string;
  d_last_reason_code : string;
  d_first_failure_monotonic : float;
  d_last_failure_monotonic : float;
}.

Definition new_budget (role : string) (budget : Z) (window initial max : float) : RestartBudget :=
  mkRestartBudget role budget window initial max 0 [] None "not_started" "NONE" false None None.

(** The failures of the window, with the new one. *)
Definition window (b : RestartBudget) (now : float) : list float :=
  List.filter (fun value => fle (fsub now value) (window_seconds b)) (failures b) ++ [now].

Definition count (l : list float) : Z := Z.of_nat (length l).

Definition recorded (b : RestartBudget) (now : float) (exit_code : option Z)
    (startup_stage reason_code observed_at : string) : RestartBudget :=
  let fs := window b now in
  let first := match first_failure_at b with
               | None => Some observed_at
               | Some _ => if count fs =? 1 then Some observed_at else first_failure_at b
               end in
  mkRestartBudget (role b) (budget b) (window_seconds b) (initial_backoff_seconds b)
    (max_backoff_seconds b) (restart_count b + 1) fs exit_code startup_stage reason_code
    (count fs >=? budget b) first (Some observed_at).

(** [record_failure]; [observed_at] is the wall clock as text. *)
Definition record_failure (now : float) (exit_code : option Z)
    (startup_stage reason_code observed_at : string) : ST RestartBudget RestartDecision :=
  do! st_modify (fun b => recorded b now exit_code startup_stage reason_code observed_at) in
  let! b := st_get in
  let exponent := Z.max 0 (count (failures b) - 1) in
  let! raw := st_lift (mul_int (initial_backoff_seconds b) (2 ^ exponent)) in
  st_ret (mkRestartDecision (role b) (restart_count b) (count (failures b))
    (fmin (max_backoff_seconds b) raw) (crash_loop b) exit_code startup_stage reason_code
    (hd f0 (failures b)) (List.last (failures b) f0)).

Definition snapshot (b : RestartBudget) : dict :=
  [("role", VStr (role b));
   ("restart_count", VInt (restart_count b));
   ("window_failures", VInt (count (failures b)));
   ("restart_window_seconds", VFloat (window_seconds b));
   ("last_exit_code", of_opt VInt (last_exit_code b));
   ("last_startup_stage", VStr (last_startup_stage b));
   ("last_reason_code", VStr (last_reason_code b));
   ("first_failure_monotonic", of_opt VFloat (head (failures b)));
   ("last_failure_monotonic", of_opt VFloat (list.last (failures b)));
   ("first_failure_at", of_opt VStr (first_failure_at b));
   ("last_failure_at", of_opt VStr (last_failure_at b));
   ("state", VStr (if crash_loop b then "CRASH_LOOP" else "RUNNING"))].

End Restart.

Module Budget.

Definition HISTORICAL_WEIGHTS : list (string * Z) :=
  [("ADJUSTED_LAST", 1); ("TRADES", 1); ("FEE_RATE", 1); ("HISTORICAL_VOLATILITY", 1);
   ("OPTION_IMPLIED_VOLATILITY", 1); ("BID_ASK", 2)].

Record RequestBudgetConfig := mkConfig {
  historical_weighted_tokens_per_minute : Z;
  historical_min_spacing_seconds : float;
  tws_min_spacing_seconds : float;
  live_snapshot_concurrency : Z;
  market_data_line_cap : Z;
  scanner_concurrency : Z;
  flex_send_per_minute : Z;
}.

Record WeightedWindowBudget := mkWindow {
  limit : Z;
  window_seconds : float;
  min_spacing_seconds : float;
  events : list (float * Z);
}.

(** [__init__]. *)
Definition make_window (limit : Z) (window_seconds min_spacing_seconds : float)
  : result WeightedWindowBudget :=
  if limit <? 1 then ValueError "request-budget limit must be positive"
  else mret (mkWindow limit window_seconds (fmax f0 min_spacing_seconds) []).

Definition set_events (es : list (float * Z)) (b : WeightedWindowBudget) : WeightedWindowBudget :=
  mkWindow (limit b) (window_seconds b) (min_spacing_seconds b) es.

(** [_expire], on the deque. *)
Fixpoint _expire (window now : float) (es : list (float * Z)) : list (float * Z) :=
  match es with
  | [] => []
  | (t, w) :: rest => if fge (fsub now t) window then _expire window now rest else es
  end.

Fixpoint used (es : list (float * Z)) : Z :=
  match es with [] => 0 | (_, w) :: es => w + used es end.

(** The wait of one pass of the loop, for the events that have not expired; a weight
    within the limit never waits for the window of an empty deque. *)
Definition pass_wait (b : WeightedWindowBudget) (weight : Z) (now : float) (es : list (float * Z)) : float :=
  let spacing_wait := match list.last es with
                      | Some (t, _) => fmax f0 (fsub (min_spacing_seconds b) (fsub now t))
                      | None => f0
                      end in
  let window_wait := if used es + weight >? limit b
                     then match es with
                          | (t, _) :: _ => fmax f0 (fsub (window_seconds b) (fsub now t))
                          | [] => f0
                          end
                     else f0 in
  fmax spacing_wait window_wait.

Section Acquire.
Context {W : Type} `{Clock W}.

(** An operation of the world, in a state that also holds a budget. *)
Definition on_world {B A} (m : ST W A) : ST (B * W) A :=
  fun s => let '(r, w) := m s.2 in (r, (s.1, w)).
Definition on_budget {B} (f : B -> B) : ST (B * W) unit := st_modify (fun s => (f s.1, s.2)).

Fixpoint acquire_loop (fuel : nat) (weight : Z) (guard : option (ST W unit))
  : ST (WeightedWindowBudget * W) unit :=
  match fuel with
  | O => st_lift (Raise OutOfFuel)
  | S fuel =>
      let! now := on_world read_clock in
      do! on_budget (fun b => set_events (_expire (window_seconds b) now (events b)) b) in
      let! s := st_get in
      let b := s.1 in
      let wait := pass_wait b weight now (events b) in
      if fle wait f0 then on_budget (fun b => set_events (events b ++ [(now, weight)]) b)
      else do! on_world (match guard with
                         | Some _ => guarded_sleep (sleep_fuel wait) quarter guard wait
                         | None => sleep_for wait
                         end) in
           acquire_loop fuel weight guard
  end.

Definition acquire (fuel : nat) (weight : Z) (guard : option (ST W unit))
  : ST (WeightedWindowBudget * W) unit :=
  let! s := st_get in
  if (1 <=? weight) && (weight <=? limit s.1) then acquire_loop fuel weight guard
  else st_raise "ValueError" "request weight must be between one and the configured limit".

(** ** The budgets of the broker *)

Record IBRequestBudget := mkIB {
  config : RequestBudgetConfig;
  historical : WeightedWindowBudget;
  tws_spacing : WeightedWindowBudget;
  flex_send : WeightedWindowBudget;
  live_slots : Z;
  scanner_slots : Z;
  _last_flex_send : float;
  _active_lines : Z;
  _peak_lines : Z;
  _subscriptions : Z;
  _line_cap_errors : Z;
  _last_line_error_code : option Z;
}.

(** [__init__]; [BoundedSemaphore] refuses a negative value. *)
Definition make_budget (c : RequestBudgetConfig) : result IBRequestBudget :=
  h ← make_window (historical_weighted_tokens_per_minute c) f60 (historical_min_spacing_seconds c);
  t ← make_window 60000 f60 (tws_min_spacing_seconds c);
  let live_limit := Z.min (live_snapshot_concurrency c) (market_data_line_cap c) in
  if (live_limit <? 0) || (scanner_concurrency c <? 0)
  then ValueError "semaphore initial value must be >= 0"
  else fx ← make_window (flex_send_per_minute c) f60 f0;
       mret (mkIB c h t fx live_limit (scanner_concurrency c) f0 0 0 0 0 None).

(** Runs an operation on one of the windows. *)
Definition on_window {A} (get : IBRequestBudget -> WeightedWindowBudget)
    (set : WeightedWindowBudget -> IBRequestBudget -> IBRequestBudget)
    (m : ST (WeightedWindowBudget * W) A) : ST (IBRequestBudget * W) A :=
  fun s => let '(r, (b, w)) := m (get s.1, s.2) in (r, (set b s.1, w)).

Definition with_historical (b : WeightedWindowBudget) (s : IBRequestBudget) : IBRequestBudget :=
  mkIB (config s) b (tws_spacing s) (flex_send s) (live_slots s) (scanner_slots s) (_last_flex_send s)
    (_active_lines s) (_peak_lines s) (_subscriptions s) (_line_cap_errors s) (_last_line_error_code s).
Definition with_tws (b : WeightedWindowBudget) (s : IBRequestBudget) : IBRequestBudget :=
  mkIB (config s) (historical s) b (flex_send s) (live_slots s) (scanner_slots s) (_last_flex_send s)
    (_active_lines s) (_peak_lines s) (_subscriptions s) (_line_cap_errors s) (_last_line_error_code s).
Definition with_flex (b : WeightedWindowBudget) (s : IBRequestBudget) : IBRequestBudget :=
  mkIB (config s) (historical s) (tws_spacing s) b (live_slots s) (scanner_slots s) (_last_flex_send s)
    (_active_lines s) (_peak_lines s) (_subscriptions s) (_line_cap_errors s) (_last_line_error_code s).
Definition with_last_flex (t : float) (s : IBRequestBudget) : IBRequestBudget :=
  mkIB (config s) (historical s) (tws_spacing s) (flex_send s) (live_slots s) (scanner_slots s) t
    (_active_lines s) (_peak_lines s) (_subscriptions s) (_line_cap_errors s) (_last_line_error_code s).
Definition with_lines (active peak subs errors : Z) (code : option Z) (s : IBRequestBudget) : IBRequestBudget :=
  mkIB (config s) (historical s) (tws_spacing s) (flex_send s) (live_slots s) (scanner_slots s)
    (_last_flex_send s) active peak subs errors code.

Definition acquire_historical (fuel : nat) (what_to_show : string) (guard : option (ST W unit))
  : ST (IBRequestBudget * W) unit :=
  do! on_window tws_spacing with_tws (acquire fuel 1 guard) in
  let weight := match dict_find what_to_show HISTORICAL_WEIGHTS with Some w => w | None => 1 end in
  on_window historical with_historical (acquire fuel weight guard).

Definition acquire_tws_request (fuel : nat) (guard : option (ST W unit)) : ST (IBRequestBudget * W) unit :=
  on_window tws_spacing with_tws (acquire fuel 1 guard).

Definition line_acquired (s : IBRequestBudget) : IBRequestBudget :=
  with_lines (_active_lines s + 1) (Z.max (_peak_lines s) (_active_lines s + 1)) (_subscriptions s + 1)
    (_line_cap_errors s) (_last_line_error_code s) s.
Definition line_released (s : IBRequestBudget) : IBRequestBudget :=
  with_lines (Z.max 0 (_active_lines s - 1)) (_peak_lines s) (_subscriptions s)
    (_line_cap_errors s) (_last_line_error_code s) s.
Definition record_market_data_line_error (code : option Z) (s : IBRequestBudget) : IBRequestBudget :=
  with_lines (_active_lines s) (_peak_lines s) (_subscriptions s) (_line_cap_errors s + 1) code s.

Definition observability (s : IBRequestBudget) : dict :=
  let c := config s in
  [("configured_account_line_cap", VInt (market_data_line_cap c));
   ("configured_live_concurrency", VInt (live_snapshot_concurrency c));
   ("effective_live_concurrency", VInt (Z.min (live_snapshot_concurrency c) (market_data_line_cap c)));
   ("active_lines", VInt (_active_lines s));
   ("peak_active_lines", VInt (_peak_lines s));
   ("subscriptions_started", VInt (_subscriptions s));
   ("line_cap_errors", VInt (_line_cap_errors s));
   ("last_line_error_code", of_opt VInt (_last_line_error_code s));
   ("historical_weighted_limit_per_minute", VInt (historical_weighted_tokens_per_minute c));
   ("historical_min_spacing_seconds", VFloat (historical_min_spacing_seconds c));
   ("tws_min_spacing_seconds", VFloat (tws_min_spacing_seconds c))].

Definition acquire_flex_send (fuel : nat) (guard : option (ST W unit)) : ST (IBRequestBudget * W) unit :=
  do! on_window flex_send with_flex (acquire fuel 1 guard) in
  let! now := on_world read_clock in
  let! s := st_get in
  let wait := fsub f1 (fsub now (_last_flex_send s.1)) in
  do! (if negb (feq (_last_flex_send s.1) f0) && fgt wait f0
       then on_world (match guard with
                      | Some _ => guarded_sleep (sleep_fuel wait) quarter guard wait
                      | None => sleep_for wait
                      end)
       else st_ret tt) in
  let! t := on_world read_clock in
  on_budget (with_last_flex t).

End Acquire.
End Budget.

Module Limiter.

Record IbRateLimitConfig := mkLimitConfig {
  requests_per_minute : Z;
  min_seconds_between_requests : float;
  backoff_seconds : float;
  max_retries : Z;
  conservative_mode : bool;
}.

Record IbHistoricalRateLimiter := mkLimiter {
  config : IbRateLimitConfig;
  _request_times : list float;
  _last_request_at : option float;
}.

Section Limiter.
Context {W : Type} `{Clock W}.
Context (should_cancel : option (ST W bool)).

Definition cancelled : ST W bool :=
  match should_cancel with Some f => f | None => st_ret false end.

(** The loop until the deadline; the fuel bounds the readings of the clock. *)
Fixpoint sleep_until (fuel : nat) (deadline : float) : ST W bool :=
  match fuel with
  | O => st_lift (Raise OutOfFuel)
  | S fuel =>
      let! stop := cancelled in
      if (stop : bool) then st_ret false
      else let! now := read_clock in
           let remaining := fsub deadline now in
           if fle remaining f0 then st_ret true
           else do! sleep_for (fmin quarter remaining) in sleep_until fuel deadline
  end.

Definition _sleep_interruptibly (fuel : nat) (seconds : float) : ST W bool :=
  if fle seconds f0 then let! stop := cancelled in st_ret (negb stop)
  else match should_cancel with
       | None => do! sleep_for seconds in st_ret true
       | Some _ => let! now := read_clock in sleep_until fuel (fadd now seconds)
       end.

Definition on_clock {A} (m : ST W A) : ST (IbHistoricalRateLimiter * W) A :=
  fun s => let '(r, w) := m s.2 in (r, (s.1, w)).
Definition set_times (ts : list float) : ST (IbHistoricalRateLimiter * W) unit :=
  st_modify (fun s => (mkLimiter (config s.1) ts (_last_request_at s.1), s.2)).

Definition _sleep_for_minimum_gap (fuel : nat) (now : float) : ST (IbHistoricalRateLimiter * W) bool :=
  let! s := st_get in
  match _last_request_at s.1 with
  | None => st_ret true
  | Some last =>
      let elapsed := fsub now last in
      let remaining := fsub (min_seconds_between_requests (config s.1)) elapsed in
      if fgt remaining f0 then on_clock (_sleep_interruptibly fuel remaining) else st_ret true
  end.

Fixpoint expire_minute (now : float) (ts : list float) : list float :=
  match ts with
  | [] => []
  | t :: rest => if fge (fsub now t) f60 then expire_minute now rest else ts
  end.

Definition _sleep_for_minute_window (fuel : nat) (now : float) : ST (IbHistoricalRateLimiter * W) bool :=
  let! s := st_get in
  if requests_per_minute (config s.1) <=? 0 then st_ret true
  else
    let ts := expire_minute now (_request_times s.1) in
    do! set_times ts in
    if Z.of_nat (length ts) <? requests_per_minute (config s.1) then st_ret true
    else
      let wait_seconds := fsub f60 (fsub now (hd f0 ts)) in
      if fgt wait_seconds f0 then on_clock (_sleep_interruptibly fuel wait_seconds) else st_ret true.

Definition wait_before_request (fuel : nat) : ST (IbHistoricalRateLimiter * W) bool :=
  let! now := on_clock read_clock in
  let! ok := _sleep_for_minimum_gap fuel now in
  if negb ok then st_ret false
  else
    let! now := on_clock read_clock in
    let! ok := _sleep_for_minute_window fuel now in
    if negb ok then st_ret false
    else
      let! now := on_clock read_clock in
      do! st_modify (fun s => (mkLimiter (config s.1) (_request_times s.1 ++ [now]) (Some now), s.2)) in
      st_ret true.

Definition backoff_after_error (fuel : nat) (attempt : Z) : ST (IbHistoricalRateLimiter * W) bool :=
  let! s := st_get in
  let attempt := if attempt <=? 0 then 1 else attempt in
  let multiplier := Z.min attempt (Z.max (max_retries (config s.1)) 1) in
  let! seconds := st_lift (mul_int (backoff_seconds (config s.1)) multiplier) in
  on_clock (_sleep_interruptibly fuel seconds).

End Limiter.
End Limiter.

Module Retry.

Record RetryPolicy := mkPolicy {
  max_attempts : Z;
  initial_backoff_seconds : float;
  max_backoff_seconds : float;
  multiplier : float;
}.

Record RetryEvent := mkEvent {
  failed_attempt : Z;
  next_attempt : Z;
  delay_seconds : float;
  error : exn;
}.

(** [float ** int] is the power function of the C library. *)
Class FloatPower := { float_pow : float -> Z -> result float }.

Definition delay `{FloatPower} (p : RetryPolicy) (failed_attempt : Z) : result float :=
  let exponent := Z.max 0 (failed_attempt - 1) in
  factor ← float_pow (multiplier p) exponent;
  mret (fmin (max_backoff_seconds p) (fmul (initial_backoff_seconds p) factor)).

Definition exn_text (e : exn) : string := match e with Exn _ msg => msg | OutOfFuel => "" end.
Definition RetryExhausted (operation : string) (attempts : Z) (e : exn) : exn :=
  Exn "RetryExhausted" (operation ++ " exhausted its retry budget after " ++ str_of_Z attempts
    ++ " attempts: " ++ exn_text e)%string.

Section Retry.
Context {W T : Type} `{Clock W} `{FloatPower}.

Definition cancellable_sleep (seconds : float) (guard : option (ST W unit)) : ST W unit :=
  let remaining := fmax f0 seconds in
  guarded_sleep (sleep_fuel remaining) quarter guard remaining.

Context (operation : ST W T) (operation_name : string) (policy : RetryPolicy)
        (retryable : exn -> bool) (guard reconnect : option (ST W unit))
        (on_retry : option (RetryEvent -> ST W unit)).

(** The iterations from [attempt] on, of which [n] remain. *)
Fixpoint attempts (n : nat) (attempt : Z) : ST W T :=
  match n with
  | O => st_raise "AssertionError" "retry loop exited unexpectedly"
  | S n =>
      do! call_opt guard in
      fun w =>
        match operation w with
        | (Ok value, w) => (Ok value, w)
        | (Raise e, w) =>
            (if negb (retryable e) then st_lift (Raise e)
             else if attempt >=? max_attempts policy
             then st_lift (Raise (RetryExhausted operation_name attempt e))
             else
               let! d := st_lift (delay policy attempt) in
               do! (match on_retry with
                    | Some f => f (mkEvent attempt (attempt + 1) d e)
                    | None => st_ret tt
                    end) in
               do! call_opt reconnect in
               do! cancellable_sleep d guard in
               attempts n (attempt + 1)) w
        end
  end.

Definition retry_call : ST W T :=
  if max_attempts policy <? 1 then st_raise "ValueError" "retry max_attempts must be positive"
  else attempts (Z.to_nat (max_attempts policy)) 1.

End Retry.

(** ** Classification of broker errors *)

(** An error of the broker library: whether it is a time-out, connection or operating
    system error, its attributes [errorCode], [error_code] and [code], its text, and its
    [error] or [__cause__].  A code is no infinite float. *)
Inductive broker_error :=
  | BrokerError (transport : bool) (codes : list pyval) (message : string) (cause : option broker_error).

Fixpoint first_code (codes : list pyval) : option pyval :=
  match codes with
  | [] => None
  | VNone :: codes => first_code codes
  | v :: _ => Some v
  end.

Fixpoint error_code (e : broker_error) : option Z :=
  let '(BrokerError _ codes _ cause) := e in
  match first_code codes with
  | Some value => py_int value
  | None => match cause with Some c => error_code c | None => None end
  end.

Definition is_retryable_ib_error (e : broker_error) : bool :=
  let '(BrokerError transport _ message _) := e in
  let text := casefold message in
  let mentions := existsb (contains text) in
  if transport then true
  else match error_code e with
       | Some code =>
           if existsb (Z.eqb code) [1100; 1101; 1300; 420] then true
           else if code =? 162 then mentions ["pacing"; "timeout"; "temporar"; "service"]
           else mentions ["timed out"; "timeout"; "not connected"; "disconnected"; "connection reset";
                          "connection lost"; "pacing violation"; "temporarily unavailable"]
       | None => mentions ["timed out"; "timeout"; "not connected"; "disconnected"; "connection reset";
                           "connection lost"; "pacing violation"; "temporarily unavailable"]
       end.

Example retryable_errors :
  map is_retryable_ib_error
    [BrokerError false [VInt 1100] "" None; BrokerError false [VStr "162"] "Pacing violation" None;
     BrokerError false [VInt 162] "No data" None; BrokerError false [] "Not Connected" None;
     BrokerError false [] "" (Some (BrokerError false [VInt 420] "" None)); BrokerError true [] "" None]
  = [true; true; false; true; true; true].
Proof. vm_compute. reflexivity. Qed.

End Retry.
