(* ===== verification/PacingFacts.v ===== *)
(** * Guarantees of the pacing components

    The guarded wait is a finite sequence of sleeps that adds up to the requested time;
    the sliding window never grants more than its limit nor two requests closer than its
    spacing; the restart budget trips after as many failures in one window; the retry loop
    calls its operation a bounded number of times; the line counters stay consistent. *)
From Stdlib Require Import ZArith Lia List String Ascii Bool.
From Stdlib Require Import Floats.SpecFloat.
From stdpp Require Import base list strings relations.
From S2P Require Import Prelude PyFloat FloatFacts PyValue Pacing.
Local Open Scope string_scope.
Local Open Scope list_scope.
Local Open Scope st_scope.
Local Open Scope Z_scope.

(** ** The guarded wait *)

Section GuardedSleep.
Context {W : Type} `{Clock W}.

(** What the loop does: the guard before every sleep and once more at the end. *)
Definition scheduled (guard : option (ST W unit)) (steps : list float) : ST W unit :=
  do! st_for steps (fun step => do! call_opt guard in sleep_for step) in call_opt guard.

Definition total (steps : list float) : Z := fold_right (fun s n => fval s + n) 0 steps.

Definition short_step (step : float) : Prop := flt f0 step = true /\ fle step quarter = true.

Lemma st_bind_assoc {S A B C} (m : ST S A) (f : A -> ST S B) (g : B -> ST S C) s :
  st_bind (st_bind m f) g s = st_bind m (fun a => st_bind (f a) g) s.
Proof. unfold st_bind. by destruct (m s) as [[] ?]. Qed.
Lemma st_bind_ext {S A B} (m : ST S A) (f g : A -> ST S B) s :
  (forall a s', f a s' = g a s') -> st_bind m f s = st_bind m g s.
Proof. intros E. unfold st_bind. by destruct (m s) as [[] ?]. Qed.

Lemma scheduled_cons guard step steps w :
  scheduled guard (step :: steps) w
  = (do! call_opt guard in do! sleep_for step in scheduled guard steps) w.
Proof.
  unfold scheduled. cbn [st_for]. rewrite !st_bind_assoc. apply st_bind_ext. intros _ w1.
  by rewrite ?st_bind_assoc.
Qed.

Lemma finite_eq m e m' e' :
  flt (S754_finite false m' e') (S754_finite false m e) = false ->
  flt (S754_finite false m e) (S754_finite false m' e') = false ->
  S754_finite false m e = S754_finite false m' e'.
Proof.
  rewrite <- !not_true_iff_false, !flt_finite. intros H1 H2.
  assert (e = e') as -> by lia. assert (m = m') as -> by lia. done.
Qed.

Lemma guarded_sleep_zero fuel guard w :
  (0 < fuel)%nat -> guarded_sleep fuel quarter guard f0 w = scheduled guard [] w.
Proof. destruct fuel; [lia|done]. Qed.

Lemma sleep_loop_schedule guard fuel : forall m e,
  bounded prec emax m e = true -> e <= -2 ->
  fval (S754_finite false m e) < (Z.of_nat fuel - 1) * 2 ^ 1072 ->
  exists steps,
    (forall w, guarded_sleep fuel quarter guard (S754_finite false m e) w = scheduled guard steps w)
    /\ Forall short_step steps /\ total steps = fval (S754_finite false m e).
Proof.
  induction fuel as [|fuel IH]; intros m e Hb He Hf.
  { cbn [fval cond_Zopp] in Hf. assert (0 < 2 ^ (e + 1074)) by (apply bounded_spec in Hb; lia). nia. }
  set (r := S754_finite false m e) in *.
  assert (Hpos : 0 < fval r) by (cbn; apply bounded_spec in Hb; assert (0 < 2 ^ (e + 1074)) by lia; nia).
  assert (Hstep : forall w, guarded_sleep (S fuel) quarter guard r w
            = (do! call_opt guard in do! sleep_for (fmin quarter r) in
               guarded_sleep fuel quarter guard (fsub r (fmin quarter r))) w) by done.
  assert (Hfuel : (0 < fuel)%nat).
  { destruct fuel; [|lia]. change (Z.of_nat 1 - 1) with 0 in Hf. lia. }
  destruct (flt quarter r) eqn:Eq.
  - destruct (fsub_quarter m e Hb He Eq) as (m' & e' & E & Hb' & Hv).
    assert (Hmin : fmin quarter r = quarter).
    { unfold fmin. destruct (flt r quarter) eqn:E'; [|done]. apply flt_not_fle in Eq.
      by rewrite (flt_fle _ _ E') in Eq. }
    rewrite Hmin in Hstep. change (fsub r quarter = S754_finite false m' e') in E. rewrite E in Hstep.
    assert (Hval : fval (S754_finite false m' e') = fval r - 2 ^ 1072) by exact Hv.
    assert (He' : e' <= -2).
    { assert (e' <= e); [|lia]. destruct (decide (e' <= e)); [done|]. exfalso.
      apply bounded_spec in Hb as Hb1, Hb' as Hb2. destruct (digits_spec m) as [_ D1], (digits_spec m') as [_ D2].
      assert (digits m' = 53) as E1 by lia. rewrite E1 in D2.
      assert (2 ^ digits m <= 2 ^ 53) by (apply Z.pow_le_mono_r; lia).
      assert (2 ^ (e + 1074 + 1) <= 2 ^ (e' + 1074)) by (apply Z.pow_le_mono_r; lia).
      rewrite Z.pow_add_r in H1 by (lia). change (2 ^ 1) with 2 in H1. assert (0 < 2 ^ (e + 1074)) by lia.
      assert (0 < 2 ^ 1072) by lia. change (2 ^ (53 - 1)) with 4503599627370496 in D2. change (2 ^ 53) with 9007199254740992 in *.
      generalize dependent (2 ^ 1072). intros. nia. }
    destruct (IH m' e' Hb' He') as (steps & Hw & Hs & Ht).
    { rewrite Hval. replace (Z.of_nat (S fuel) - 1) with (Z.of_nat fuel - 1 + 1) in Hf by lia.
      rewrite Z.mul_add_distr_r in Hf. lia. }
    exists (quarter :: steps). split_and!.
    + intros w. rewrite Hstep, scheduled_cons. apply st_bind_ext. intros _ w1. apply st_bind_ext. by intros _ w2.
    + constructor; [done|done].
    + cbn [total fold_right]. fold (total steps). rewrite Ht, Hval.
      replace (fval quarter) with (2 ^ 1072) by (unfold quarter; rewrite quarter_value; reflexivity). lia.
  - exists [r]. split_and!.
    + intros w. rewrite Hstep, scheduled_cons. apply st_bind_ext. intros _ w1.
      assert (Hmin : fsub r (fmin quarter r) = f0 /\ fmin quarter r = r).
      { unfold fmin. destruct (flt r quarter) eqn:E'; [split; [apply fsub_self|done]|].
        assert (r = quarter) as ->; [|split; [|done]; unfold quarter; rewrite quarter_value; apply fsub_self].
        unfold quarter in *. rewrite quarter_value in *. by apply finite_eq. }
      destruct Hmin as [-> ->]. apply st_bind_ext. intros _ w2. by apply guarded_sleep_zero.
    + constructor; [|constructor]. split; [done|].
      destruct (fle_total r quarter) as [?|?]; [done|done|done|congruence].
    + cbn [total fold_right]. lia.
Qed.

Lemma sleep_fuel_enough m e :
  bounded prec emax m e = true -> e <= -2 ->
  fval (S754_finite false m e) < (Z.of_nat (sleep_fuel (S754_finite false m e)) - 1) * 2 ^ 1072.
Proof.
  intros Hb He. apply bounded_spec in Hb. cbn [sleep_fuel fval cond_Zopp]. set (k := - (e + 2)).
  rewrite <- (Z.opp_involutive (e + 2)). fold k. rewrite Z.shiftl_opp_r, Z.shiftr_div_pow2 by lia.
  pose proof (Z.div_pos (Zpos m) (2 ^ k) ltac:(lia) ltac:(lia)) as Hd.
  rewrite !Nat2Z.inj_succ, Z2Nat.id by lia.
  replace (2 ^ 1072) with (2 ^ k * 2 ^ (e + 1074)) by (rewrite <- Z.pow_add_r by lia; f_equal; lia).
  assert (0 < 2 ^ (e + 1074)) by lia. pose proof (Z.mul_succ_div_gt (Zpos m) (2 ^ k) ltac:(lia)).
  rewrite Z.mul_assoc. apply Z.mul_lt_mono_pos_r; [done|]. lia.
Qed.

(** A cancellable wait ends, calls its guard at least every quarter of a second, and
    sleeps exactly the requested time: below 2^51 seconds the loop is a finite sequence of
    sleeps of at most a quarter of a second each, with the guard before every one and
    after the last, and the sleeps add up to the request without a rounding error. *)
Theorem cancellable_sleep_schedule seconds guard :
  fvalid seconds = true -> is_finite seconds = true -> flt seconds two51 = true ->
  exists steps,
    (forall w, Retry.cancellable_sleep seconds guard w = scheduled guard steps w)
    /\ Forall short_step steps
    /\ total steps = Z.max 0 (fval seconds).
Proof.
  intros Hv Hf Hlt. unfold Retry.cancellable_sleep, fmax, fgt.
  destruct seconds as [s|s| |[] m e]; try done.
  - exists []. split_and!; [|done|done]. intros w. exact (guarded_sleep_zero 1 guard w ltac:(lia)).
  - exists []. split_and!; [intros w; exact (guarded_sleep_zero 1 guard w ltac:(lia))|done|].
    cbn [fval cond_Zopp total fold_right]. assert (0 <= 2 ^ (e + 1074)) by lia. nia.
  - destruct (sleep_loop_schedule guard _ m e Hv (below_two51 m e Hv Hlt)
                (sleep_fuel_enough m e Hv (below_two51 m e Hv Hlt))) as (steps & H1 & H2 & H3).
    exists steps. split_and!; [exact H1|done|]. rewrite H3. cbn [fval cond_Zopp].
    assert (0 <= 2 ^ (e + 1074)) by lia. nia.
Qed.

(** A wait always ends when its guard never raises. *)
Lemma scheduled_ok guard steps w :
  (forall w, (call_opt guard w).1 = Ok tt) -> exists w', scheduled guard steps w = (Ok tt, w').
Proof.
  intros Hg. revert w. induction steps as [|step steps IH]; intros w.
  - unfold scheduled. cbn. specialize (Hg w). destruct (call_opt guard w) as [r w']. cbn in Hg. subst r. by exists w'.
  - rewrite scheduled_cons. unfold st_bind at 1. specialize (Hg w).
    destruct (call_opt guard w) as [r w1]. cbn in Hg. subst r. cbn. apply IH.
Qed.
End GuardedSleep.

(** ** The sliding window *)

Section Window.
Import Budget.
Context {W : Type} `{Clock W}.

(** What [time.monotonic] promises: a finite number. *)
Context (clock_finite : forall w, is_finite (monotonic w).1 = true /\ fvalid (monotonic w).1 = true).

Definition instant (t : float) : Prop := is_finite t = true /\ fvalid t = true.

Record window_ok (b : WeightedWindowBudget) : Prop := {
  ok_window : fvalid (window_seconds b) = true /\ is_nan (window_seconds b) = false;
  ok_spacing : fvalid (min_spacing_seconds b) = true /\ is_nan (min_spacing_seconds b) = false;
  ok_events : Forall (fun e => instant e.1) (events b);
  ok_limit : used (events b) <= limit b;
}.

Lemma fmax_not_positive x y :
  is_nan x = false -> is_nan y = false -> fle (fmax x y) f0 = true -> flt f0 x = false /\ flt f0 y = false.
Proof.
  intros Nx Ny Hm. assert (Hn : forall z, fle z f0 = true -> flt f0 z = false).
  { intros z Hz. apply not_true_iff_false. intros E. apply flt_not_fle in E. congruence. }
  unfold fmax, fgt in Hm. destruct (flt x y) eqn:E.
  - split; apply Hn; [|done]. eapply fle_trans; [by apply flt_fle|done].
  - destruct (fle_total y x Ny Nx) as [Hyx|?]; [|congruence]. split; apply Hn; [done|]. by eapply fle_trans.
Qed.

Lemma fmax_zero x : flt f0 (fmax f0 x) = flt f0 x /\ is_nan (fmax f0 x) = false.
Proof.
  unfold fmax, fgt. destruct (flt f0 x) eqn:E; [|done]. split; [done|]. by eapply flt_nan_r.
Qed.

Lemma expire_split window now es :
  exists dropped, es = dropped ++ _expire window now es
    /\ Forall (fun e => fle window (fsub now e.1) = true) dropped
    /\ forall t w rest, _expire window now es = (t, w) :: rest -> fle window (fsub now t) = false.
Proof.
  induction es as [|[t w] es IH]; [by exists []|]. cbn [_expire]. unfold fge.
  destruct (fle window (fsub now t)) eqn:E.
  - destruct IH as (d & E1 & E2 & E3). exists ((t, w) :: d). cbn. rewrite <- E1. split_and!; [done| |done].
    by constructor.
  - exists []. split_and!; [done|done|]. by intros ? ? ? [= <- <- <-].
Qed.

Lemma instant_sub now t : instant now -> instant t ->
  fvalid (fsub now t) = true /\ is_nan (fsub now t) = false.
Proof. intros [] []. split; [by apply fsub_valid|by apply fsub_not_nan]. Qed.

(** A pass that does not wait has room in the window, and keeps the spacing. *)
Lemma pass_admits b weight now es :
  window_ok b -> instant now -> Forall (fun e => instant e.1) es ->
  (forall t w rest, es = (t, w) :: rest -> fle (window_seconds b) (fsub now t) = false) ->
  weight <= limit b -> fle (pass_wait b weight now es) f0 = true ->
  used es + weight <= limit b
  /\ forall t w, list.last es = Some (t, w) -> fle (min_spacing_seconds b) (fsub now t) = true.
Proof.
  intros Hb Hnow Hes Hhead Hw Hwait. unfold pass_wait in Hwait.
  destruct (ok_window b Hb) as [Vw Nw], (ok_spacing b Hb) as [Vs Ns].
  apply fmax_not_positive in Hwait as [Hs Hwin].
  - split.
    + destruct es as [|[t w] es]; [cbn; lia|]. rewrite Z.gtb_ltb in Hwin.
      destruct (Z.ltb_spec (limit b) (used ((t, w) :: es) + weight)); [|lia]. exfalso.
      rewrite (proj1 (fmax_zero _)) in Hwin. apply Forall_cons in Hes as [Ht _].
      destruct (instant_sub now t Hnow Ht) as [V N].
      apply fsub_le_0 in Hwin; [|done..]. rewrite (Hhead t w es eq_refl) in Hwin. done.
    + intros t w Hl. rewrite Hl, (proj1 (fmax_zero _)) in Hs.
      assert (Ht : instant t) by (rewrite Forall_forall in Hes; by apply (Hes (t, w)), last_Some_elem_of).
      destruct (instant_sub now t Hnow Ht) as [V N]. by apply fsub_le_0 in Hs.
  - destruct (list.last es) as [[]|]; [apply fmax_zero|done].
  - destruct (_ >? _); [|done]. destruct es as [|[]]; [done|apply fmax_zero].
Qed.

Lemma used_app es es' : used (es ++ es') = used es + used es'.
Proof. induction es as [|[t w] es IH]; cbn; lia. Qed.

(** What an acquisition did to the deque: it dropped events of a full window ago from the
    front and, when it returned, appended itself, spaced from the last one kept. *)
Definition granted (b b' : WeightedWindowBudget) (weight : Z) : Prop :=
  exists dropped kept now,
    events b = dropped ++ kept /\ events b' = kept ++ [(now, weight)]
    /\ Forall (fun e => exists seen, fle (window_seconds b) (fsub seen e.1) = true) dropped
    /\ forall t w, list.last kept = Some (t, w) -> fle (min_spacing_seconds b) (fsub now t) = true.

Definition same_terms (b b' : WeightedWindowBudget) : Prop :=
  limit b' = limit b /\ window_seconds b' = window_seconds b
  /\ min_spacing_seconds b' = min_spacing_seconds b.

Lemma window_ok_events b es :
  window_ok b -> Forall (fun e => instant e.1) es -> used es <= limit b -> window_ok (set_events es b).
Proof. intros []. by constructor. Qed.

Lemma acquire_loop_grants weight guard fuel : forall b w r b' w',
  window_ok b -> Forall (fun e => 1 <= e.2) (events b) -> 1 <= weight <= limit b ->
  acquire_loop fuel weight guard (b, w) = (r, (b', w')) ->
  window_ok b' /\ same_terms b b' /\ Forall (fun e => 1 <= e.2) (events b')
  /\ (r = Ok tt -> granted b b' weight).
Proof.
  induction fuel as [|fuel IH]; intros b w r b' w' Hb Hpos Hw E; cbn [acquire_loop] in E.
  { unfold st_lift in E. by simplify_eq. }
  unfold st_bind, on_world, read_clock, on_budget, st_modify, st_get in E. cbn [fst snd] in E.
  pose proof (clock_finite w) as Hnow. destruct (monotonic w) as [now w1]. cbn [fst snd] in E, Hnow.
  destruct (expire_split (window_seconds b) now (events b)) as (dropped & Hd & Hdrop & Hhead).
  set (es := _expire (window_seconds b) now (events b)) in *.
  assert (Hin : instant now) by exact Hnow.
  assert (Hes : Forall (fun e => instant e.1) es).
  { pose proof (ok_events b Hb) as He. rewrite Hd in He. by apply Forall_app in He as []. }
  assert (Hpos' : Forall (fun e => 1 <= e.2) dropped /\ Forall (fun e => 1 <= e.2) es).
  { rewrite Hd in Hpos. by apply Forall_app in Hpos. }
  assert (Hused : used es <= limit b).
  { pose proof (ok_limit b Hb) as Hl. rewrite Hd, used_app in Hl.
    assert (0 <= used dropped); [|lia]. destruct Hpos' as [Hp _]. clear -Hp.
    induction Hp as [|[t v] l Hv _ IHl]; cbn in *; lia. }
  assert (Hb1 : window_ok (set_events es b)) by (by apply window_ok_events).
  change (events (set_events es b)) with es in E.
  destruct (fle (pass_wait (set_events es b) weight now es) f0) eqn:Ew.
  - simplify_eq.
    destruct (pass_admits (set_events es b) weight now es Hb1 Hin Hes Hhead (proj2 Hw) Ew) as [Hroom Hspace].
    split_and!; [|done| |].
    + apply (window_ok_events (set_events es b)); [done| |rewrite used_app; cbn in *; lia].
      apply Forall_app. split; [done|]. by constructor.
    + cbn. apply Forall_app. split; [by destruct Hpos'|]. constructor; [cbn; lia|constructor].
    + intros _. exists dropped, es, now. split_and!; [done|done| |done].
      eapply Forall_impl; [exact Hdrop|]. intros e He. by exists now.
  - match type of E with context [match ?m with (_, _) => _ end] => destruct m as [[[]|e] [b1 w2]] eqn:Es end.
    + assert (b1 = set_events es b) as ->.
      { clear -Es. destruct guard; cbn in Es; repeat case_match; by simplify_eq. }
      destruct (IH _ _ _ _ _ Hb1 (proj2 Hpos') Hw E) as (G1 & G2 & G3 & G4).
      split_and!; [done|done|done|]. intros Hr. destruct (G4 Hr) as (dr & kept & t & K1 & K2 & K3 & K4).
      exists (dropped ++ dr), kept, t. cbn in K1. split_and!; [by rewrite Hd, <- app_assoc, <- K1|done| |done].
      apply Forall_app. split; [|done]. eapply Forall_impl; [exact Hdrop|]. intros e He. by exists now.
    + simplify_eq. assert (b' = set_events es b) as ->.
      { clear -Es. destruct guard; cbn in Es; repeat case_match; by simplify_eq. }
      split_and!; [done|done|by destruct Hpos'|done].
Qed.

Definition healthy (b : WeightedWindowBudget) : Prop :=
  window_ok b /\ Forall (fun e => 1 <= e.2) (events b).

Lemma acquire_grants fuel weight guard b w r b' w' :
  healthy b -> acquire fuel weight guard (b, w) = (r, (b', w')) ->
  healthy b' /\ same_terms b b' /\ (r = Ok tt -> 1 <= weight <= limit b /\ granted b b' weight).
Proof.
  intros [Hb Hp] E. unfold acquire, st_bind, st_get in E. cbn [fst] in E.
  destruct ((1 <=? weight) && (weight <=? limit b)) eqn:Hw.
  - apply andb_true_iff in Hw as [H1%Z.leb_le H2%Z.leb_le].
    destruct (acquire_loop_grants weight guard fuel b w r b' w' Hb Hp ltac:(lia) E) as (G1 & G2 & G3 & G4).
    by split_and!; [split| |intros Hr; split; [lia|apply G4]].
  - unfold st_raise in E. by simplify_eq.
Qed.

Lemma make_window_healthy limit window spacing b :
  fvalid window = true -> is_nan window = false -> fvalid spacing = true ->
  make_window limit window spacing = Ok b -> healthy b.
Proof.
  intros Vw Nw Vs E. unfold make_window in E. destruct (Z.ltb_spec limit 1); [done|]. apply Ok_inj in E as <-.
  split; [|by constructor]. constructor; cbn; [done| |by constructor|lia].
  split; [|apply fmax_zero]. unfold fmax. by destruct (fgt spacing f0).
Qed.

(** C37: The sliding window keeps its promise: after every acquisition, whatever the clock
    reads and whether it returns or its guard raises, the weights of the events
    still inside the window add up to at most the limit; an acquisition that
    returns is at least the minimum spacing after the last event kept, and only
    events seen a full window old have been dropped. *)
Theorem acquire_respects_window fuel weight guard b w r b' w' :
  healthy b -> acquire fuel weight guard (b, w) = (r, (b', w')) ->
  healthy b' /\ used (events b') <= limit b /\ same_terms b b'
  /\ (r = Ok tt -> granted b b' weight).
Proof.
  intros Hb E. destruct (acquire_grants _ _ _ _ _ _ _ _ Hb E) as (G1 & G2 & G3).
  split_and!; [done| |done|by intros Hr; apply G3].
  destruct G1 as [G1 _], G2 as [Hl _]. rewrite <- Hl. apply ok_limit, G1.
Qed.

(** The window never starves a request: when everything granted before is a full
    window old at the first reading of the clock, an admissible request is granted in the
    first pass, without waiting. *)
Theorem acquire_idle_immediate fuel weight guard b w :
  let '(now, w') := monotonic w in
  1 <= weight <= limit b -> Forall (fun e => fle (window_seconds b) (fsub now e.1) = true) (events b) ->
  acquire (S fuel) weight guard (b, w) = (Ok tt, (set_events [(now, weight)] b, w')).
Proof.
  destruct (monotonic w) as [now w'] eqn:Ec. intros Hw Hall.
  unfold acquire, st_bind, st_get. cbn [fst].
  rewrite (proj2 (andb_true_iff _ _) (conj (proj2 (Z.leb_le 1 weight) (proj1 Hw)) (proj2 (Z.leb_le _ _) (proj2 Hw)))).
  cbn [acquire_loop]. unfold st_bind, on_world, read_clock, on_budget, st_modify, st_get. cbn [fst snd].
  rewrite Ec. assert (E : _expire (window_seconds b) now (events b) = []).
  { induction Hall as [|[t v] l Ht _ IHl]; [done|]. cbn in *. unfold fge. by rewrite Ht. }
  cbn [fst snd]. rewrite E. cbn [set_events events limit].
  assert (Ewait : forall b', fle (pass_wait b' weight now []) f0 = true).
  { intros b'. unfold pass_wait. cbn [list.last used]. by destruct (_ >? _). }
  by rewrite Ewait.
Qed.

(** ** The budgets of the broker *)

Record broker_ok (s : IBRequestBudget) : Prop := {
  ok_historical : healthy (historical s);
  ok_tws : healthy (tws_spacing s);
  ok_flex : healthy (flex_send s);
  ok_lines : 0 <= _active_lines s <= _peak_lines s;
  ok_peak : _peak_lines s <= _subscriptions s;
  ok_slots : 0 <= live_slots s <= market_data_line_cap (config s);
}.

(** One call on the shared budget object. *)
Inductive broker_step : IBRequestBudget -> IBRequestBudget -> Prop :=
  | step_historical fuel what guard s w r s' w' :
      acquire_historical fuel what guard (s, w) = (r, (s', w')) -> broker_step s s'
  | step_tws fuel guard s w r s' w' :
      acquire_tws_request fuel guard (s, w) = (r, (s', w')) -> broker_step s s'
  | step_flex fuel guard s w r s' w' :
      acquire_flex_send fuel guard (s, w) = (r, (s', w')) -> broker_step s s'
  | step_line s : broker_step s (line_acquired s)
  | step_release s : broker_step s (line_released s)
  | step_error code s : broker_step s (record_market_data_line_error code s).

Lemma on_window_preserves {A} get set (m : ST (WeightedWindowBudget * W) A) :
  preserves (fun s => healthy s.1) m ->
  (forall s, broker_ok s -> healthy (get s)) ->
  (forall b s, healthy b -> broker_ok s -> broker_ok (set b s)) ->
  preserves (fun s => broker_ok s.1) (on_window get set m).
Proof.
  intros Hm Hget Hset [s w] r [s' w'] Hs E. unfold on_window in E. cbn [fst snd] in *.
  destruct (m (get s, w)) as [r1 [b1 w1]] eqn:Em. simplify_eq. apply Hset; [|done].
  exact (Hm (get s, w) _ (b1, w') (Hget s Hs) Em).
Qed.

Lemma acquire_preserves fuel weight guard : preserves (fun s => healthy s.1) (acquire fuel weight guard).
Proof. intros [b w] r [b' w'] Hb E. by destruct (acquire_grants _ _ _ _ _ _ _ _ Hb E). Qed.
Lemma on_world_preserves {A} (m : ST W A) : preserves (fun s => broker_ok s.1) (on_world m).
Proof. intros [s w] r [s' w'] Hs E. unfold on_world in E. cbn in *. destruct (m w). by simplify_eq. Qed.

Lemma with_tws_ok b s : healthy b -> broker_ok s -> broker_ok (with_tws b s).
Proof. intros ? []. by constructor. Qed.
Lemma with_historical_ok b s : healthy b -> broker_ok s -> broker_ok (with_historical b s).
Proof. intros ? []. by constructor. Qed.
Lemma with_flex_ok b s : healthy b -> broker_ok s -> broker_ok (with_flex b s).
Proof. intros ? []. by constructor. Qed.

Lemma tws_preserves fuel guard :
  preserves (fun s => broker_ok s.1) (acquire_tws_request fuel guard).
Proof.
  apply on_window_preserves; [apply acquire_preserves|apply ok_tws|apply with_tws_ok].
Qed.
Lemma historical_preserves fuel what guard :
  preserves (fun s => broker_ok s.1) (acquire_historical fuel what guard).
Proof.
  apply preserves_bind; [apply tws_preserves|intros _].
  apply on_window_preserves; [apply acquire_preserves|apply ok_historical|apply with_historical_ok].
Qed.
Lemma flex_preserves fuel guard : preserves (fun s => broker_ok s.1) (acquire_flex_send fuel guard).
Proof.
  unfold acquire_flex_send. apply preserves_bind.
  { apply on_window_preserves; [apply acquire_preserves|apply ok_flex|apply with_flex_ok]. }
  intros _. apply preserves_bind; [apply on_world_preserves|intros now]. apply preserves_get. intros s _.
  apply preserves_bind; [|intros _; apply preserves_bind; [apply on_world_preserves|intros t]].
  - destruct (_ && _); [apply on_world_preserves|apply preserves_ret].
  - apply preserves_modify. intros [s1 w] []. by constructor.
Qed.

(** The state of the broker budget is consistent after any sequence of calls: the three
    windows never exceed their limits, the live slots stay within the account's
    line cap, and the line counters satisfy 0 <= active <= peak <= subscriptions,
    a release without an acquisition included. *)
Theorem broker_budget_invariant config s0 s :
  fvalid (historical_min_spacing_seconds config) = true ->
  fvalid (tws_min_spacing_seconds config) = true ->
  make_budget config = Ok s0 -> rtc broker_step s0 s -> broker_ok s.
Proof.
  intros V1 V2 E Hr. assert (H0 : broker_ok s0).
  { unfold make_budget in E. apply result_bind_Ok in E as (h & Eh & E). apply result_bind_Ok in E as (t & Et & E).
    destruct (_ || _) eqn:Eb; [done|]. apply result_bind_Ok in E as (fx & Ef & E). apply Ok_inj in E as <-.
    apply orb_false_iff in Eb as [B1%Z.ltb_ge B2%Z.ltb_ge].
    pose proof (make_window_healthy _ f60 _ h eq_refl eq_refl V1 Eh).
    pose proof (make_window_healthy _ f60 _ t eq_refl eq_refl V2 Et).
    pose proof (make_window_healthy _ f60 f0 fx eq_refl eq_refl eq_refl Ef).
    constructor; cbn; (done || lia). }
  revert H0. clear E. induction Hr as [|s1 s2 s3 Hstep _ IH]; [done|]. intros Hs. apply IH. clear IH.
  destruct Hstep as [? ? ? ? w r s' w' E|? ? ? w r s' w' E|? ? ? w r s' w' E|s|s|c s].
  - exact (historical_preserves _ _ _ (s, w) _ (s', w') Hs E).
  - exact (tws_preserves _ _ (s, w) _ (s', w') Hs E).
  - exact (flex_preserves _ _ (s, w) _ (s', w') Hs E).
  - destruct Hs. constructor; cbn in *; try done; lia.
  - destruct Hs. constructor; cbn in *; try done; lia.
  - destruct Hs. by constructor.
Qed.

End Window.

(** ** The restart budget *)

Section RestartBudget.
Import Restart.

Lemma power_of_two_finite k : 0 <= k < 1024 ->
  match float_of_Z (2 ^ k) with S754_infinity _ => False | _ => True end.
Proof.
  intros Hk. assert (H : forallb (fun n => match float_of_Z (2 ^ Z.of_nat n) with S754_infinity _ => false | _ => true end)
                           (seq 0 1024) = true) by (vm_compute; reflexivity).
  rewrite forallb_forall in H. specialize (H (Z.to_nat k)). rewrite Z2Nat.id in H by lia.
  destruct (float_of_Z (2 ^ k)); try done. discriminate H. apply in_seq. lia.
Qed.

Lemma fmin_le x y : is_nan x = false -> fle (fmin x y) x = true.
Proof. intros Nx. unfold fmin. destruct (flt y x) eqn:E; [by apply flt_fle|by apply fle_refl]. Qed.

(** A recorded failure counts exactly the failures of the window: the budget keeps the
    earlier failures that are at most a window old and the new one, declares a
    crash loop exactly when they reach the budget, and answers with these counts and
    a back-off that never exceeds its maximum; it raises only on the conversion of
    2^1024, past 1024 failures in one window. *)
Theorem record_failure_correct now exit_code stage reason at_text b r b' :
  is_nan (max_backoff_seconds b) = false ->
  record_failure now exit_code stage reason at_text b = (r, b') ->
  failures b' = List.filter (fun t => fle (fsub now t) (window_seconds b)) (failures b) ++ [now]
  /\ restart_count b' = restart_count b + 1
  /\ (crash_loop b' = true <-> budget b <= count (failures b'))
  /\ match r with
     | Ok d => d_window_failures d = count (failures b') /\ d_crash_loop d = crash_loop b'
               /\ d_last_failure_monotonic d = now
               /\ fle (d_backoff_seconds d) (max_backoff_seconds b) = true
     | Raise e => e = Exn "OverflowError" "int too large to convert to float" /\ 1024 < count (failures b')
     end.
Proof.
  intros Nm E. unfold record_failure, st_bind, st_modify, st_get, st_lift in E.
  set (b1 := recorded b now exit_code stage reason at_text) in *.
  assert (Hb : b' = b1 /\ match r with
     | Ok d => d_window_failures d = count (failures b1) /\ d_crash_loop d = crash_loop b1
               /\ d_last_failure_monotonic d = now
               /\ fle (d_backoff_seconds d) (max_backoff_seconds b) = true
     | Raise e => e = Exn "OverflowError" "int too large to convert to float" /\ 1024 < count (failures b1)
     end).
  { pose proof (power_of_two_finite (Z.max 0 (count (failures b1) - 1))) as Hp. unfold mul_int in E.
    assert (Hl : List.last (failures b1) f0 = now) by (subst b1; cbn; apply last_last).
    destruct (float_of_Z (2 ^ Z.max 0 (count (failures b1) - 1))); unfold st_ret in E; cbn [mret result_ret raise] in E; injection E as <- <-;
      (split; [done|]); try (split_and!; [done|done|done|by apply fmin_le]).
    split; [done|]. destruct (decide (1024 < count (failures b1))); [done|]. exfalso. apply Hp. lia. }
  destruct Hb as [-> Hr]. split_and!; [done|done| |done].
  subst b1. cbn. rewrite Z.geb_le. done.
Qed.

(** Failures recorded one after another, whatever their other data. *)
Fixpoint record_all (entries : list (float * (option Z * string * string * string))) (b : RestartBudget) : RestartBudget :=
  match entries with
  | [] => b
  | (now, (exit_code, stage, reason, at_text)) :: entries =>
      record_all entries (record_failure now exit_code stage reason at_text b).2
  end.

Lemma record_failure_state now exit_code stage reason at_text b :
  (record_failure now exit_code stage reason at_text b).2 = recorded b now exit_code stage reason at_text.
Proof.
  unfold record_failure, st_bind, st_modify, st_get, st_lift. destruct (mul_int _ _); done.
Qed.

Lemma record_all_recent entries : forall b recent,
  (exists old, failures b = old ++ recent) ->
  (forall t u, t ∈ recent ++ entries.*1 -> u ∈ entries.*1 -> fle (fsub u t) (window_seconds b) = true) ->
  exists old, failures (record_all entries b) = old ++ recent ++ entries.*1
    /\ budget (record_all entries b) = budget b
    /\ (entries <> [] -> crash_loop (record_all entries b) = (count (failures (record_all entries b)) >=? budget b)).
Proof.
  induction entries as [|[now [[[ec st] rs] ts]] entries IH]; intros b recent [old Hold] Hw; cbn [record_all].
  - exists old. cbn. rewrite app_nil_r. done.
  - rewrite record_failure_state. set (b1 := recorded b now ec st rs ts).
    destruct (IH b1 (recent ++ [now])) as (old' & H1 & H2 & H3).
    + exists (List.filter (fun v => fle (fsub now v) (window_seconds b)) old). subst b1. cbn.
      unfold window. rewrite Hold, List.filter_app, <- app_assoc. f_equal. f_equal.
      apply forallb_filter_id, forallb_forall. intros v Hv. apply Hw; [|cbn; by left].
      apply elem_of_app. left. by apply list_elem_of_In.
    + intros t u Ht Hu. apply Hw; [|cbn; by right]. cbn. rewrite <- app_assoc in Ht. done.
    + exists old'. rewrite <- app_assoc in H1. split_and!; [done|done|]. intros _.
      destruct entries; [subst b1; done|]. by apply H3.
Qed.

(** A role that keeps failing is stopped: [budget] failures recorded within one window
    of each other set [crash_loop], whatever happened before. *)
Theorem crash_loop_reached entries b :
  entries <> [] -> budget b <= Z.of_nat (length entries) ->
  (forall t u, t ∈ entries.*1 -> u ∈ entries.*1 -> fle (fsub u t) (window_seconds b) = true) ->
  crash_loop (record_all entries b) = true.
Proof.
  intros Hne Hb Hw. destruct (record_all_recent entries b []) as (old & H1 & H2 & H3);
    [by exists (failures b); rewrite app_nil_r|done|].
  rewrite (H3 Hne), H1. unfold count. rewrite !length_app, length_fmap. apply Z.geb_le. lia.
Qed.

End RestartBudget.

(** ** Retries *)

Section Retries.
Import Retry.
Context {W T : Type} `{Clock W} `{FloatPower}.
Context (operation : ST W T) (operation_name : string) (policy : RetryPolicy)
        (retryable : exn -> bool) (guard reconnect : option (ST W unit))
        (on_retry : option (RetryEvent -> ST W unit)).

(** A count of the calls of [operation], which nothing else touches. *)
Context (calls : W -> Z).
Definition quiet {A} (m : ST W A) : Prop := forall w, calls (m w).2 = calls w.
Context (operation_counts : forall w, calls (operation w).2 = calls w + 1)
        (guard_quiet : quiet (call_opt guard)) (reconnect_quiet : quiet (call_opt reconnect))
        (on_retry_quiet : forall f event, on_retry = Some f -> quiet (f event))
        (sleep_quiet : forall s, quiet (sleep_for s)).

Lemma quiet_bind {A B} (m : ST W A) (f : A -> ST W B) :
  quiet m -> (forall a, quiet (f a)) -> quiet (st_bind m f).
Proof.
  intros Hm Hf w. unfold st_bind. specialize (Hm w). destruct (m w) as [[a|e] w1]; cbn in *; [|done].
  by rewrite Hf.
Qed.
Lemma quiet_ret {A} (r : result A) : quiet (st_lift r).
Proof. done. Qed.

Lemma guarded_sleep_quiet fuel interval r : quiet (guarded_sleep fuel interval guard r).
Proof.
  revert r. induction fuel as [|fuel IH]; intros r; cbn [guarded_sleep]; [apply quiet_ret|].
  destruct (fgt r f0); [|done]. apply quiet_bind; [done|intros _]. apply quiet_bind; [done|intros _; apply IH].
Qed.

Lemma attempts_bounded n : forall attempt w r w',
  attempts operation operation_name policy retryable guard reconnect on_retry n attempt w = (r, w') ->
  calls w <= calls w' <= calls w + Z.of_nat n.
Proof.
  induction n as [|n IH]; intros attempt w r w' E; cbn [attempts] in E.
  { unfold st_raise in E. simplify_eq. lia. }
  unfold st_bind at 1 in E.
  pose proof (guard_quiet w) as Hg. destruct (call_opt guard w) as [[[]|e] w1]; cbn [snd] in Hg; [|simplify_eq; lia].
  pose proof (operation_counts w1) as Ho.
  destruct (operation w1) as [[v|e] w2]; cbn [snd] in Ho; [simplify_eq; lia|].
  destruct (negb (retryable e)); [unfold st_lift in E; simplify_eq; lia|].
  destruct (attempt >=? max_attempts policy); [unfold st_lift in E; simplify_eq; lia|].
  unfold st_bind at 1, st_lift in E. destruct (delay policy attempt) as [d|e']; [|simplify_eq; lia].
  unfold st_bind at 1 in E.
  set (m1 := match on_retry with Some f => f (mkEvent attempt (attempt + 1) d e) | None => st_ret () end) in *.
  assert (Q1 : quiet m1) by (subst m1; destruct on_retry as [f|] eqn:Ef; [by apply (on_retry_quiet f)|done]).
  specialize (Q1 w2). destruct (m1 w2) as [[[]|e1] w3]; cbn [snd] in Q1; [|simplify_eq; lia].
  unfold st_bind at 1 in E. pose proof (reconnect_quiet w3) as Q2.
  destruct (call_opt reconnect w3) as [[[]|e2] w4]; cbn [snd] in Q2; [|simplify_eq; lia].
  unfold st_bind at 1, cancellable_sleep in E.
  pose proof (guarded_sleep_quiet (sleep_fuel (fmax f0 d)) quarter (fmax f0 d) w4) as Q3.
  destruct (guarded_sleep _ _ _ _ w4) as [[[]|e3] w5]; cbn [snd] in Q3; [|simplify_eq; lia].
  apply IH in E. lia.
Qed.

(** The retry loop is bounded: whatever the operation, the guard, the reconnection
    and the classifier do, [retry_call] calls the operation at most [max_attempts] times,
    and not at all when that is not positive. *)
Theorem retry_call_bounded w r w' :
  retry_call operation operation_name policy retryable guard reconnect on_retry w = (r, w') ->
  calls w <= calls w' <= calls w + Z.max 0 (max_attempts policy).
Proof.
  unfold retry_call. destruct (Z.ltb_spec (max_attempts policy) 1).
  - intros [= <- <-]. lia.
  - intros E. apply attempts_bounded in E. lia.
Qed.

(** The callbacks return, and every delay is a short wait. *)
Context (guard_ok : forall w, (call_opt guard w).1 = Ok tt)
        (reconnect_ok : forall w, (call_opt reconnect w).1 = Ok tt)
        (on_retry_ok : forall f event w, on_retry = Some f -> (f event w).1 = Ok tt)
        (delays : forall n, exists d, delay policy n = Ok d
           /\ fvalid d = true /\ is_finite d = true /\ flt d two51 = true).

Lemma call_ok {A} (m : ST W A) (a : A) w :
  (m w).1 = Ok a -> m w = (Ok a, (m w).2).
Proof. destruct (m w) as [r w1]. cbn. by intros ->. Qed.

Lemma attempts_exhausted e n : forall attempt w,
  (forall w, (operation w).1 = Raise e) -> retryable e = true ->
  (0 < n)%nat -> attempt + Z.of_nat n = max_attempts policy + 1 ->
  exists w', attempts operation operation_name policy retryable guard reconnect on_retry n attempt w
             = (Raise (RetryExhausted operation_name (max_attempts policy) e), w')
    /\ calls w' = calls w + Z.of_nat n.
Proof.
  induction n as [|n IH]; intros attempt w Hop He Hn Hsum; [lia|]. cbn [attempts]. unfold st_bind at 1.
  rewrite (call_ok _ _ _ (guard_ok w)). pose proof (guard_quiet w) as Hg. set (w1 := (call_opt guard w).2) in *.
  pose proof (Hop w1) as E. pose proof (operation_counts w1) as Ho.
  destruct (operation w1) as [r w2]. cbn [fst snd] in E, Ho. subst r. rewrite He. cbn [negb].
  destruct n as [|n].
  - replace (attempt >=? max_attempts policy) with true by (symmetry; apply Z.geb_le; lia).
    replace (max_attempts policy) with attempt by lia. exists w2. split; [done|]. lia.
  - rewrite Z.geb_leb, (proj2 (Z.leb_gt _ _)) by lia.
    destruct (delays attempt) as (d & Hd & Vd & Fd & Ld). rewrite Hd.
    unfold st_bind at 1, st_lift. unfold st_bind at 1.
    match goal with |- context [match on_retry with Some f => f ?ev | None => ?k end] => set (m1 := match on_retry with Some f => f ev | None => k end) end.
    assert (Q1 : calls (m1 w2).2 = calls w2 /\ (m1 w2).1 = Ok tt).
    { subst m1. destruct on_retry as [f|] eqn:Ef; [|done]. split; [by apply (on_retry_quiet f)|by apply on_retry_ok]. }
    destruct Q1 as [Q1 O1]. rewrite (call_ok _ _ _ O1). set (w3 := (m1 w2).2) in *.
    unfold st_bind at 1. rewrite (call_ok _ _ _ (reconnect_ok w3)). pose proof (reconnect_quiet w3) as Q2.
    set (w4 := (call_opt reconnect w3).2) in *. unfold st_bind at 1.
    destruct (cancellable_sleep_schedule d guard Vd Fd Ld) as (steps & Hs & _).
    destruct (scheduled_ok guard steps w4 guard_ok) as (w5 & E5).
    pose proof (guarded_sleep_quiet (sleep_fuel (fmax f0 d)) quarter (fmax f0 d) w4) as Q3.
    change (guarded_sleep _ _ _ _ w4) with (cancellable_sleep d guard w4) in Q3.
    rewrite Hs, E5 in Q3. rewrite Hs, E5. cbn [snd] in Q3.
    destruct (IH (attempt + 1) w5 Hop He ltac:(lia) ltac:(lia)) as (w' & H1 & H2).
    exists w'. split; [exact H1|]. lia.
Qed.

(** An operation that keeps failing is retried exactly [max_attempts] times: when the
    callbacks return and the delays are short waits, a persistent retryable error
    ends in [RetryExhausted] with the number of attempts, after that many calls of
    the operation. *)
Theorem retry_call_exhausts e w :
  (forall w, (operation w).1 = Raise e) -> retryable e = true -> 1 <= max_attempts policy ->
  exists w', retry_call operation operation_name policy retryable guard reconnect on_retry w
             = (Raise (RetryExhausted operation_name (max_attempts policy) e), w')
    /\ calls w' = calls w + max_attempts policy.
Proof.
  intros Hop He Hm. unfold retry_call. rewrite (proj2 (Z.ltb_ge _ _) Hm).
  destruct (attempts_exhausted e (Z.to_nat (max_attempts policy)) 1 w Hop He ltac:(lia) ltac:(lia)) as (w' & E & Hc).
  exists w'. split; [exact E|]. lia.
Qed.

End Retries.

(** ** The historical-data limiter *)

Section HistoricalLimiter.
Import Limiter.
Context {W : Type} `{Clock W} (should_cancel : option (ST W bool)).

Lemma expire_minute_suffix now ts :
  exists dropped, ts = dropped ++ expire_minute now ts
    /\ Forall (fun t => fle f60 (fsub now t) = true) dropped.
Proof.
  induction ts as [|t ts IH]; [by exists []|]. cbn [expire_minute]. unfold fge.
  destruct (fle f60 (fsub now t)) eqn:E; [|by exists []].
  destruct IH as (d & E1 & E2). exists (t :: d). cbn. rewrite <- E1. split; [done|]. by constructor.
Qed.

(** Waiting does not record anything: it leaves the configuration and the last request, and
    drops only requests seen a minute old. *)
Definition waited (s s' : IbHistoricalRateLimiter * W) : Prop :=
  config s'.1 = config s.1 /\ _last_request_at s'.1 = _last_request_at s.1
  /\ exists dropped, _request_times s.1 = dropped ++ _request_times s'.1
       /\ Forall (fun t => exists seen, fle f60 (fsub seen t) = true) dropped.

Lemma waited_refl s w : waited s (s.1, w).
Proof. split_and!; [done|done|]. by exists []. Qed.
Lemma waited_trans s1 s2 s3 : waited s1 s2 -> waited s2 s3 -> waited s1 s3.
Proof.
  intros (C1 & L1 & d1 & E1 & F1) (C2 & L2 & d2 & E2 & F2). split_and!; [congruence|congruence|].
  exists (d1 ++ d2). split; [by rewrite E1, E2, app_assoc|]. by apply Forall_app.
Qed.
Lemma on_clock_waited {A} (m : ST W A) s r s' : on_clock m s = (r, s') -> waited s s'.
Proof. unfold on_clock. destruct (m s.2) as [r1 w1]. intros [= <- <-]. apply waited_refl. Qed.

Lemma minimum_gap_waited fuel now s r s' :
  _sleep_for_minimum_gap should_cancel fuel now s = (r, s') -> waited s s'.
Proof.
  unfold _sleep_for_minimum_gap, st_bind, st_get. destruct s as [l w]. cbn [fst].
  destruct (_last_request_at l); [|intros [= <- <-]; apply (waited_refl (l, w))].
  destruct (fgt _ _); [apply on_clock_waited|intros [= <- <-]; apply (waited_refl (l, w))].
Qed.
Lemma minute_window_waited fuel now s r s' :
  _sleep_for_minute_window should_cancel fuel now s = (r, s') -> waited s s'.
Proof.
  unfold _sleep_for_minute_window, st_bind, st_get, set_times, st_modify. destruct s as [l w]. cbn [fst snd].
  destruct (_ <=? 0); [intros [= <- <-]; apply (waited_refl (l, w))|].
  assert (H1 : waited (l, w) (mkLimiter (config l) (expire_minute now (_request_times l)) (_last_request_at l), w)).
  { destruct (expire_minute_suffix now (_request_times l)) as (d & E1 & E2). split_and!; [done|done|].
    exists d. split; [done|]. eapply Forall_impl; [exact E2|]. by exists now. }
  destruct (_ <? _); [intros [= <- <-]; exact H1|].
  destruct (fgt _ _); [|intros [= <- <-]; exact H1]. intros E. eapply waited_trans; [exact H1|by apply on_clock_waited in E].
Qed.

(** A request is recorded exactly when it is granted: [wait_before_request] that returns
    [True] appends one reading of the clock and makes it the last request; a
    cancelled or failed wait records nothing, and requests are only forgotten once
    they are a minute old. *)
Theorem limiter_records_grants fuel s r s' :
  wait_before_request should_cancel fuel s = (r, s') ->
  exists mid, waited s mid /\
  match r with
  | Ok true => exists now, _request_times s'.1 = _request_times mid.1 ++ [now]
                           /\ _last_request_at s'.1 = Some now
  | _ => s'.1 = mid.1
  end.
Proof.
  unfold wait_before_request. unfold st_bind at 1. intros E.
  destruct (on_clock read_clock s) as [[t|e] s1] eqn:E1; [|simplify_eq; eauto using on_clock_waited].
  apply on_clock_waited in E1. unfold st_bind at 1 in E.
  destruct (_sleep_for_minimum_gap should_cancel fuel t s1) as [[ok|e] s2] eqn:E2;
    apply minimum_gap_waited in E2; pose proof (waited_trans _ _ _ E1 E2) as W2; [|simplify_eq; eauto].
  destruct ok; cbn [negb] in E; [|unfold st_ret in E; simplify_eq; eauto].
  unfold st_bind at 1 in E. destruct (on_clock read_clock s2) as [[t'|e] s3] eqn:E3;
    apply on_clock_waited in E3; pose proof (waited_trans _ _ _ W2 E3) as W3; [|simplify_eq; eauto].
  unfold st_bind at 1 in E. destruct (_sleep_for_minute_window should_cancel fuel t' s3) as [[ok|e] s4] eqn:E4;
    apply minute_window_waited in E4; pose proof (waited_trans _ _ _ W3 E4) as W4; [|simplify_eq; eauto].
  destruct ok; cbn [negb] in E; [|unfold st_ret in E; simplify_eq; eauto].
  unfold st_bind at 1 in E. destruct (on_clock read_clock s4) as [[now|e] s5] eqn:E5;
    apply on_clock_waited in E5; pose proof (waited_trans _ _ _ W4 E5) as W5; [|simplify_eq; eauto].
  unfold st_bind, st_modify, st_ret in E. simplify_eq. exists s5. split; [done|]. by exists now.
Qed.

End HistoricalLimiter.

(** ** Witnesses *)

(** A clock that stands still between sleeps, and a count of calls. *)
Definition world : Type := float * Z.
#[local] Instance world_clock : Clock world := {
  monotonic := fun w => (w.1, w);
  sleep := fun s w => (fadd w.1 s, w.2);
}.
Definition seconds (n : Z) : float := float_of_Z n.
Definition start : world := (seconds 1000, 0).

Lemma cancellable_sleep_schedule_witness :
  exists steps, (forall w, Retry.cancellable_sleep (float_ratio 6 10) None w = scheduled None steps w)
    /\ Forall short_step steps /\ total steps = Z.max 0 (fval (float_ratio 6 10)).
Proof.
  apply (cancellable_sleep_schedule (float_ratio 6 10) None); vm_compute; reflexivity.
Defined.

(** A clock that always reads the same finite instant, advanced by sleeping. *)
#[local] Instance still_clock : Clock unit := {
  monotonic := fun w => (seconds 1000, w);
  sleep := fun _ w => w;
}.
Definition busy : Budget.WeightedWindowBudget :=
  Budget.mkWindow 5 (seconds 60) (seconds 3) [(seconds 900, 3); (seconds 990, 2)].

Definition busier : Budget.WeightedWindowBudget :=
  Budget.mkWindow 5 (seconds 60) (seconds 3) [(seconds 990, 2); (seconds 1000, 3)].

Lemma still_finite : forall w : unit, is_finite (monotonic w).1 = true /\ fvalid (monotonic w).1 = true.
Proof. intros w. vm_compute. split; reflexivity. Defined.

Lemma busy_healthy : healthy busy.
Proof.
  split; [constructor|]; cbn -[Z.le]; try (split; vm_compute; reflexivity); try lia;
    repeat (apply Forall_cons; split; [vm_compute; first [lia|split; reflexivity|done]|]); by apply Forall_nil.
Defined.

Lemma acquire_respects_window_witness :
  Budget.acquire 1 3 None (busy, tt) = (Ok tt, (busier, tt))
  /\ Budget.used (Budget.events busier) <= Budget.limit busy /\ granted busy busier 3.
Proof.
  assert (E : Budget.acquire 1 3 None (busy, tt) = (Ok tt, (busier, tt))) by (vm_compute; reflexivity).
  destruct (acquire_respects_window still_finite 1 3 None busy tt (Ok tt) busier tt busy_healthy E)
    as (_ & H1 & _ & H2).
  split; [exact E|]. split; [exact H1|]. exact (H2 eq_refl).
Defined.

Definition shipped_budget : Budget.RequestBudgetConfig :=
  Budget.mkConfig 15 (seconds 3) (float_ratio 1 4) 10 100 10 10.
Definition fresh_budget : Budget.IBRequestBudget :=
  match Budget.make_budget shipped_budget with
  | Ok s => s
  | Raise _ => Budget.mkIB shipped_budget busy busy busy 0 0 f0 0 0 0 0 None
  end.

Lemma broker_budget_invariant_witness :
  broker_ok (Budget.line_released (Budget.line_released (Budget.line_acquired fresh_budget))).
Proof.
  apply (broker_budget_invariant still_finite shipped_budget fresh_budget);
    try (vm_compute; reflexivity).
  eapply rtc_l; [apply step_line|]. eapply rtc_l; [apply step_release|]. eapply rtc_l; [apply step_release|].
  apply rtc_refl.
Defined.

Definition failing (n : Z) : float * (option Z * string * string * string) :=
  (seconds n, (Some 1, "boot", "EXIT", "t")).
Lemma crash_loop_reached_witness :
  Restart.crash_loop (record_all [failing 10; failing 20; failing 30]
    (Restart.new_budget "worker" 3 (seconds 60) (seconds 1) (seconds 30))) = true.
Proof.
  apply crash_loop_reached; [discriminate|cbn; lia|].
  cbn [fmap list_fmap failing fst]. intros t u Ht Hu.
  repeat (apply elem_of_cons in Ht as [->|Ht]; [|try (apply not_elem_of_nil in Ht; destruct Ht)]);
  repeat (apply elem_of_cons in Hu as [->|Hu]; [vm_compute; reflexivity|]);
  apply not_elem_of_nil in Hu; destruct Hu.
Defined.

#[local] Instance unit_power : Retry.FloatPower := { Retry.float_pow := fun _ _ => mret f1 }.
Definition timeout : exn := Exn "TimeoutError" "timed out".
Definition failing_call : ST world unit := fun w => (Raise timeout, (w.1, w.2 + 1)).
Definition three_attempts : Retry.RetryPolicy := Retry.mkPolicy 3 (seconds 1) (seconds 30) (seconds 2).

Lemma retry_call_exhausts_witness :
  exists w', Retry.retry_call failing_call "bars" three_attempts (fun _ => true) None None None start
             = (Raise (Retry.RetryExhausted "bars" 3 timeout), w') /\ w'.2 = 0 + 3.
Proof.
  apply (retry_call_exhausts failing_call "bars" three_attempts (fun _ => true) None None None (fun w => w.2)).
  - intros w. reflexivity.
  - intros w. reflexivity.
  - intros w. reflexivity.
  - intros f event Hf. discriminate Hf.
  - intros s w. reflexivity.
  - intros w. reflexivity.
  - intros w. reflexivity.
  - intros f event w Hf. discriminate Hf.
  - intros n. exists f1. vm_compute. repeat split.
  - intros w. reflexivity.
  - reflexivity.
  - cbn. lia.
Defined.
