(* ===== verification/Canonical.v ===== *)
(** * Canonical evidence: [app/services/canonical_evidence.py]

    The canonical JSON form of evidence, the check that lets plain JSON skip the
    canonicalization, and the incremental writer.  Evidence is a tree of Python
    values; [str(key)] of a mapping key is part of the tree.  The text of a float
    ([float.__repr__]) and SHA-256 are operations of the class [JsonText].  The
    identity-keyed caches of the writer ([precomputed], [fragments]) and its
    telemetry are not modelled, and error messages leave out the path. *)
From Stdlib Require Import ZArith Lia List String Ascii Bool.
From Stdlib Require Import Floats.SpecFloat.
From stdpp Require Import base list sorting strings.
From S2P Require Import Prelude PyDate PyFloat PyValue Readiness.
Local Open Scope string_scope.
Local Open Scope list_scope.
Local Open Scope Z_scope.

(** [EMapping true] is a [dict] whose keys are strings; [EMapping false] any other
    mapping.  [EDatetime None] is a naive datetime, [Some] the UTC instant of an aware
    one; a time carries no offset, an unknown one, or one in seconds; [EDecimal None]
    is not finite; [EOther] is a value of an unsupported type. *)
Inductive evidence :=
  | ENone
  | EBool (b : bool)
  | EInt (n : Z)
  | EStr (s : string)
  | EDatetime (utc : option datetime)
  | EDate (d : date)
  | ETime (us : Z) (offset : option (option Z))
  | ETimezone (offset : Z)
  | EZone (key : option string)
  | EUuid (s : string)
  | EEnum (value : evidence)
  | EDecimal (value : option (Z * Z))
  | EFloat (x : float)
  | EBytes (s : string)
  | EMapping (plain : bool) (items : list (string * evidence))
  | EList (l : list evidence)
  | ETuple (l : list evidence)
  | ESet (l : list evidence)
  | EOther (kind : string).

Class JsonText := {
  float_repr : float -> string;
  sha256 : string -> string;
}.

(** ** Text of scalars *)

(** [HH:MM:SS.ffffff] of the microsecond of a day. *)
Definition iso_time_part (us : Z) : string :=
  let secs := us / us_per_second in
  (pad 2 (secs / 3600) ++ String ":" (pad 2 (secs / 60 mod 60) ++ String ":"
    (pad 2 (secs mod 60) ++ String "." (pad 6 (us mod us_per_second)))))%string.

(** [value.astimezone(UTC).isoformat(timespec="microseconds").replace("+00:00", "Z")]. *)
Definition datetime_text (utc : datetime) : string :=
  (date_isoformat (utc / us_per_day) ++ String "T" (iso_time_part (utc mod us_per_day) ++ "Z"))%string.

(** [+HH:MM], with the seconds when there are any. *)
Definition offset_text (total_seconds : Z) : string :=
  let sign := if 0 <=? total_seconds then "+"%char else "-"%char in
  let n := Z.abs total_seconds in
  String sign (pad 2 (n / 3600) ++ String ":" (pad 2 (n mod 3600 / 60) ++
    (if (n mod 60 =? 0)%Z then "" else String ":" (pad 2 (n mod 60)))))%string.

Definition _timezone_text (offset : Z) : string := ("UTC" ++ offset_text offset)%string.

(** [Decimal.normalize] in the default context: 28 significant digits, half even,
    and no trailing zeros. *)
Fixpoint digit_count (fuel : nat) (n : Z) : Z :=
  match fuel with
  | O => 0
  | S fuel => if n <? 10 then 1 else 1 + digit_count fuel (n / 10)
  end.
Fixpoint strip_zeros (fuel : nat) (c e : Z) : Z * Z :=
  match fuel with
  | O => (c, e)
  | S fuel => if (c mod 10 =? 0) && negb (c =? 0) then strip_zeros fuel (c / 10) (e + 1) else (c, e)
  end.
Definition decimal_normalize (c e : Z) : Z * Z :=
  let fuel := S (Z.to_nat (Z.log2 (Z.abs c))) in
  let extra := Z.max 0 (digit_count fuel (Z.abs c) - 28) in
  let m := if extra =? 0 then Z.abs c else round_half_even (Z.abs c) (10 ^ extra) in
  let '(m, e) := strip_zeros fuel m (e + extra) in
  (if c <? 0 then - m else m, e).

(** [format(value, "f")]. *)
Definition fixed_point (c e : Z) : string :=
  let sign := if c <? 0 then "-" else "" in
  let digits := str_of_Z (Z.abs c) in
  if 0 <=? e then (sign ++ str_of_Z (Z.abs c * 10 ^ e))%string
  else
    let scale := 10 ^ (- e) in
    (sign ++ str_of_Z (Z.abs c / scale) ++ String "." (pad (Z.to_nat (- e)) (Z.abs c mod scale)))%string.

Definition decimal_text (c e : Z) : string :=
  let '(c, e) := decimal_normalize c e in if c =? 0 then "0" else fixed_point c e.

(** [base64.b64encode]. *)
Definition base64_char (n : Z) : ascii :=
  if n <? 26 then ascii_of_nat (Z.to_nat (65 + n))
  else if n <? 52 then ascii_of_nat (Z.to_nat (71 + n))
  else if n <? 62 then ascii_of_nat (Z.to_nat (n - 4))
  else if n =? 62 then "+"%char else "/"%char.
Definition byte (c : ascii) : Z := Z.of_nat (nat_of_ascii c).
Fixpoint b64encode (s : string) : string :=
  match s with
  | String a (String b (String c rest)) =>
      let n := byte a * 65536 + byte b * 256 + byte c in
      String (base64_char (n / 262144)) (String (base64_char (n / 4096 mod 64))
        (String (base64_char (n / 64 mod 64)) (String (base64_char (n mod 64)) (b64encode rest))))
  | String a (String b EmptyString) =>
      let n := byte a * 65536 + byte b * 256 in
      String (base64_char (n / 262144)) (String (base64_char (n / 4096 mod 64))
        (String (base64_char (n / 64 mod 64)) "="))
  | String a EmptyString =>
      let n := byte a * 65536 in
      String (base64_char (n / 262144)) (String (base64_char (n / 4096 mod 64)) "==")
  | EmptyString => ""
  end.

Example decimal_texts :
  [decimal_text 1500 (-2); decimal_text (-5) (-3); decimal_text 12 3; decimal_text 0 5]
  = ["15"; "-0.005"; "12000"; "0"].
Proof. vm_compute. reflexivity. Qed.
Example base64_text : map b64encode ["Man"; "Ma"; "M"] = ["TWFu"; "TWE="; "TQ=="].
Proof. vm_compute. reflexivity. Qed.

(** [_is_unordered_field]. *)
Definition _is_unordered_field (field_name : option string) : bool :=
  match field_name with
  | None => false
  | Some name =>
      let normalized := casefold name in
      String.eqb normalized "reason_codes"
      || Readiness.endswith normalized "_reason_codes"
      || Readiness.endswith normalized "_reason_codes_json"
  end.

(** ** JSON text *)

Definition hex_char (n : Z) : ascii :=
  if n <? 10 then ascii_of_nat (Z.to_nat (48 + n)) else ascii_of_nat (Z.to_nat (87 + n)).

(** The escape of one character, with [ensure_ascii=False]. *)
Definition escape_char (c : ascii) : string :=
  match nat_of_ascii c with
  | 34%nat => String "\" (String c "")
  | 92%nat => String "\" (String c "")
  | 8%nat => "\b" | 9%nat => "\t" | 10%nat => "\n" | 12%nat => "\f" | 13%nat => "\r"
  | n => if (n <? 32)%nat
         then ("\u00" ++ String (hex_char (Z.of_nat n / 16)) (String (hex_char (Z.of_nat n mod 16)) ""))%string
         else String c ""
  end.
Fixpoint escape (s : string) : string :=
  match s with
  | EmptyString => ""
  | String c s => (escape_char c ++ escape s)%string
  end.
Definition quote : ascii := ascii_of_nat 34.
Definition json_string (s : string) : string := String quote (escape s ++ String quote "")%string.

Definition key_leb {V} (a b : string * V) : bool := String.leb a.1 b.1.

Definition bracket (open close : string) (parts : list string) : string :=
  (open ++ String.concat "," parts ++ close)%string.

Definition slen (s : string) : Z := Z.of_nat (String.length s).

Section Json.
Context `{JT : JsonText}.

(** [json.dumps(value, sort_keys=True, separators=(",", ":"), ensure_ascii=False,
    allow_nan=False)] of a JSON value; the values that [canonicalize] returns have no
    decimals and finite floats. *)
Fixpoint json_text (v : pyval) : string :=
  match v with
  | VNone => "null"
  | VBool b => if b then "true" else "false"
  | VInt n => str_of_Z n
  | VFloat x => float_repr x
  | VDecimal _ _ => ""
  | VStr s => json_string s
  | VList l => bracket "[" "]" (map json_text l)
  | VDict d =>
      bracket "{" "}" (map (fun kt => (json_string kt.1 ++ String ":" kt.2)%string)
        (sort_by key_leb (map (fun kv => (kv.1, json_text kv.2)) d)))
  end.

Definition text_leb (a b : pyval) : bool := String.leb (json_text a) (json_text b).

(** [normalized.sort(key=cls._sort_key)] and [dict(sorted(items))]. *)
Definition sort_values (l : list pyval) : list pyval := sort_by text_leb l.
Definition sort_items (d : dict) : dict := sort_by key_leb d.

(** ** Canonicalization *)

Definition time_text (us : Z) (offset : option (option Z)) : result string :=
  match offset with
  | None => mret (iso_time_part us)
  | Some None => ValueError "evidence time has an invalid timezone"
  | Some (Some o) => mret (iso_time_part us ++ offset_text o)%string
  end.

Fixpoint canonicalize (field_name : option string) (value : evidence) : result pyval :=
  match value with
  | ENone => mret VNone
  | EBool b => mret (VBool b)
  | EInt n => mret (VInt n)
  | EStr s => mret (VStr s)
  | EDatetime None => ValueError "evidence timestamp must be timezone-aware"
  | EDatetime (Some utc) => mret (VStr (datetime_text utc))
  | EDate d => mret (VStr (date_isoformat d))
  | ETime us offset => t ← time_text us offset; mret (VStr t)
  | ETimezone offset => mret (VStr (_timezone_text offset))
  | EZone (Some key) => if String.eqb key "" then raise "TypeError" "unsupported evidence timezone"
                        else mret (VStr key)
  | EZone None => raise "TypeError" "unsupported evidence timezone"
  | EUuid s => mret (VStr (casefold s))
  | EEnum v => canonicalize field_name v
  | EDecimal None => ValueError "evidence decimal must be finite"
  | EDecimal (Some (c, e)) => mret (VStr (decimal_text c e))
  | EFloat x => if is_finite x then mret (VFloat (if feq x f0 then f0 else x))
                else ValueError "evidence float must be finite"
  | EBytes s => mret (VDict [("$bytes_base64", VStr (b64encode s))])
  | EMapping _ items =>
      d ← (fix go (seen : list string) (items : list (string * evidence)) : result dict :=
             match items with
             | [] => mret []
             | (key, item) :: items =>
                 if smem key seen then ValueError "evidence mapping has colliding key"
                 else c ← canonicalize (Some key) item;
                      rest ← go (key :: seen) items;
                      mret ((key, c) :: rest)
             end) [] items;
      mret (VDict (sort_items d))
  | EList l | ETuple l =>
      cs ← (fix go (l : list evidence) : result (list pyval) :=
              match l with
              | [] => mret []
              | x :: l => c ← canonicalize None x; rest ← go l; mret (c :: rest)
              end) l;
      mret (VList (if _is_unordered_field field_name then sort_values cs else cs))
  | ESet l =>
      cs ← (fix go (l : list evidence) : result (list pyval) :=
              match l with
              | [] => mret []
              | x :: l => c ← canonicalize None x; rest ← go l; mret (c :: rest)
              end) l;
      mret (VList (sort_values cs))
  | EOther _ => raise "TypeError" "unsupported evidence value"
  end.

(** The two inner loops, by name. *)
Fixpoint canonical_items (seen : list string) (items : list (string * evidence)) : result dict :=
  match items with
  | [] => mret []
  | (key, item) :: items =>
      if smem key seen then ValueError "evidence mapping has colliding key"
      else c ← canonicalize (Some key) item; rest ← canonical_items (key :: seen) items;
           mret ((key, c) :: rest)
  end.
Fixpoint canonical_list (l : list evidence) : result (list pyval) :=
  match l with
  | [] => mret []
  | x :: l => c ← canonicalize None x; rest ← canonical_list l; mret (c :: rest)
  end.

(** ** The shortcut for plain JSON *)

(** [all(left <= right for left, right in zip(keys, keys[1:]))]. *)
Fixpoint ascending (l : list string) : bool :=
  match l with
  | x :: ((y :: _) as l') => String.leb x y && ascending l'
  | _ => true
  end.

(** The JSON value of evidence that is JSON already; [_already_canonical_json] has
    checked that it is. *)
Fixpoint as_json (value : evidence) : pyval :=
  match value with
  | EBool b => VBool b
  | EInt n => VInt n
  | EStr s => VStr s
  | EFloat x => VFloat x
  | EMapping _ items => VDict (map (fun kv => (kv.1, as_json kv.2)) items)
  | EList l => VList (map as_json l)
  | _ => VNone
  end.

Fixpoint _already_canonical_json (field_name : option string) (value : evidence) : bool :=
  match value with
  | ENone | EBool _ | EInt _ | EStr _ => true
  | EFloat x => is_finite x && negb (match x with S754_zero true => true | _ => false end)
  | EMapping plain items =>
      plain && forallb (fun kv => _already_canonical_json (Some kv.1) kv.2) items
  | EList l =>
      forallb (_already_canonical_json None) l
      && (negb (_is_unordered_field field_name) || ascending (map (fun v => json_text (as_json v)) l))
  | _ => false
  end.

Definition dumps (value : evidence) : result string :=
  if _already_canonical_json None value then mret (json_text (as_json value))
  else c ← canonicalize None value; mret (json_text c).

Definition fingerprint (value : evidence) : result string := s ← dumps value; mret (sha256 s).

(** ** The incremental writer *)

(** A canonical value, seen as evidence again. *)
Fixpoint embed (v : pyval) : evidence :=
  match v with
  | VNone => ENone
  | VBool b => EBool b
  | VInt n => EInt n
  | VFloat x => EFloat x
  | VDecimal c e => EDecimal (Some (c, e))
  | VStr s => EStr s
  | VList l => EList (map embed l)
  | VDict d => EMapping true (map (fun kv => (kv.1, embed kv.2)) d)
  end.

Fixpoint collides (seen : list string) (items : list (string * evidence)) : bool :=
  match items with
  | [] => false
  | (key, _) :: items => smem key seen || collides (key :: seen) items
  end.

(** The chunks between separators. *)
Fixpoint separated (groups : list (list string)) : list string :=
  match groups with
  | [] => []
  | [g] => g
  | g :: groups => g ++ "," :: separated groups
  end.

(** [_iter_bytes], as the list of the chunks it yields.  The recursion is on the
    depth of the value: the elements of an unordered sequence are written from their
    canonical values. *)
Fixpoint iter_bytes (fuel : nat) (field_name : option string) (value : evidence)
  : result (list string) :=
  match fuel with
  | O => Raise OutOfFuel
  | S fuel =>
      let stream_all :=
        fix go (l : list evidence) : result (list (list string)) :=
          match l with
          | [] => mret []
          | x :: l => g ← iter_bytes fuel None x; rest ← go l; mret (g :: rest)
          end in
      let stream_items :=
        fix go (items : list (string * evidence)) : result (list (list string)) :=
          match items with
          | [] => mret []
          | (key, item) :: items =>
              g ← iter_bytes fuel (Some key) item; rest ← go items;
              mret ((json_string key :: ":" :: g) :: rest)
          end in
      let stream_sequence (unordered : bool) (l : list evidence) : result (list string) :=
        values ← (if unordered then cs ← canonical_list l; mret (map embed (sort_values cs))
                  else mret l);
        groups ← stream_all values;
        mret ("[" :: separated groups ++ ["]"]) in
      match value with
      | EMapping _ items =>
          if collides [] items then ValueError "evidence mapping has colliding key"
          else groups ← stream_items (sort_by key_leb items);
               mret ("{" :: separated groups ++ ["}"])
      | EList l | ETuple l => stream_sequence (_is_unordered_field field_name) l
      | ESet l => stream_sequence true l
      | _ => c ← canonicalize field_name value; mret [json_text c]
      end
  end.

(** How deep the canonical form of a value can be: bytes become a mapping. *)
Fixpoint depth (value : evidence) : nat :=
  match value with
  | EEnum v => S (depth v)
  | EMapping _ items => S (fold_right (fun kv n => Nat.max (depth kv.2) n) 0%nat items)
  | EList l | ETuple l | ESet l => S (fold_right (fun v n => Nat.max (depth v) n) 0%nat l)
  | EBytes _ => 2%nat
  | _ => 1%nat
  end.

(** [b"".join(cls.iter_bytes(value))]. *)
Definition streaming_bytes (value : evidence) : result string :=
  chunks ← iter_bytes (depth value) None value; mret (String.concat "" chunks).

(** The buffer of [fingerprint_streaming]: the blocks handed to the hash, for the bytes
    pending and the chunks to come. *)
Fixpoint hash_blocks (buffer_size : Z) (pending : string) (chunks : list string) : list string :=
  let flush := if String.eqb pending "" then [] else [pending] in
  match chunks with
  | [] => flush
  | chunk :: chunks =>
      if slen chunk >=? buffer_size then flush ++ chunk :: hash_blocks buffer_size "" chunks
      else if slen pending + slen chunk >? buffer_size
      then pending :: hash_blocks buffer_size chunk chunks
      else hash_blocks buffer_size (pending ++ chunk)%string chunks
  end.

(** Hashing block by block is hashing their concatenation. *)
Definition fingerprint_streaming (buffer_size : Z) (value : evidence) : result string :=
  if buffer_size <? 1 then ValueError "canonical streaming buffer_size must be positive"
  else chunks ← iter_bytes (depth value) None value;
       mret (sha256 (String.concat "" (hash_blocks buffer_size "" chunks))).

End Json.
