(* ===== verification/CanonicalFacts.v ===== *)
(** * Canonical evidence: one text per content

    [outcome f v] is the canonical text of a value, or [None] when the serializer
    refuses it.  Its equations per container carry the proofs that the shortcut for
    plain JSON and the incremental writer produce that text, that a canonical value is
    its own canonical form, and that the text ignores the order of mappings, sets
    and unordered fields.  The serializer then discharges the assumption that the
    readiness envelopes make of it. *)
From Stdlib Require Import ZArith Lia List String Ascii Bool Sorted.
From Stdlib Require Import Floats.SpecFloat.
From stdpp Require Import base list sorting strings.
From S2P Require Import Prelude PyDate PyFloat PyValue Readiness Canonical.
Local Open Scope string_scope.
Local Open Scope list_scope.
Local Open Scope Z_scope.

(** ** Sorting lemmas *)

Lemma sort_by_map {A B} (f : A -> B) (lebA : A -> A -> bool) (lebB : B -> B -> bool) l :
  (forall x y, lebB (f x) (f y) = lebA x y) -> sort_by lebB (map f l) = map f (sort_by lebA l).
Proof.
  intros Hf. induction l as [|x l IH]; simpl; [done|].
  change (insert_by lebB (f x) (sort_by lebB (map f l)) = map f (insert_by lebA x (sort_by lebA l))).
  rewrite IH. generalize (sort_by lebA l) as m. intros m. clear -Hf.
  induction m as [|y m IH]; simpl; [done|]. rewrite Hf. destruct (lebA x y); simpl; [done|].
  by rewrite IH.
Qed.

(** Sorting gives one result per bag, when equivalent elements are equal. *)
Lemma sort_by_unique {A} (leb : A -> A -> bool) l m :
  (forall x y, leb x y = false -> leb y x = true) ->
  (forall x y z, leb x y = true -> leb y z = true -> leb x z = true) ->
  (forall x y, x ∈ l -> y ∈ l -> leb x y = true -> leb y x = true -> x = y) ->
  l ≡ₚ m -> sort_by leb l = sort_by leb m.
Proof.
  intros Htot Htr Hanti Hp.
  apply (StronglySorted_unique_strong (fun a b => leb a b = true)).
  - intros x y Hx Hy. rewrite sort_by_Permutation in Hx, Hy. apply Hanti; [done|by rewrite Hp].
  - by apply sort_by_sorted.
  - by apply sort_by_sorted.
  - by rewrite !sort_by_Permutation.
Qed.

Lemma sort_strings_unique l m :
  l ≡ₚ m -> sort_by String.leb l = sort_by String.leb m.
Proof.
  apply sort_by_unique; [apply string_leb_total|apply string_leb_trans|].
  intros x y _ _. apply String.leb_antisym.
Qed.

Lemma key_leb_total {V} (a b : string * V) : key_leb a b = false -> key_leb b a = true.
Proof. apply string_leb_total. Qed.
Lemma key_leb_trans {V} (a b c : string * V) :
  key_leb a b = true -> key_leb b c = true -> key_leb a c = true.
Proof. apply string_leb_trans. Qed.

Lemma NoDup_keys_inj {V} (l : list (string * V)) x y :
  NoDup l.*1 -> x ∈ l -> y ∈ l -> x.1 = y.1 -> x = y.
Proof.
  intros Hnd Hx Hy. induction l as [|z l IH]; [by apply not_elem_of_nil in Hx|].
  apply NoDup_cons in Hnd as [Hz Hnd]. apply elem_of_cons in Hx as [->|Hx], Hy as [->|Hy]; auto.
  - intros Hk. destruct Hz. rewrite Hk. by apply list_elem_of_fmap_2.
  - intros Hk. destruct Hz. rewrite <- Hk. by apply list_elem_of_fmap_2.
Qed.

Lemma sort_keys_unique {V} (l m : list (string * V)) :
  NoDup l.*1 -> l ≡ₚ m -> sort_by key_leb l = sort_by key_leb m.
Proof.
  intros Hnd. apply sort_by_unique; [apply key_leb_total|apply key_leb_trans|].
  intros x y Hx Hy H1 H2. apply (NoDup_keys_inj l); auto. by apply String.leb_antisym.
Qed.

Lemma sort_idempotent {A} (leb : A -> A -> bool) l :
  (forall x y, leb x y = false -> leb y x = true) ->
  (forall x y z, leb x y = true -> leb y z = true -> leb x z = true) ->
  sort_by leb (sort_by leb l) = sort_by leb l.
Proof. intros. apply sort_by_id. by apply sort_by_sorted. Qed.

Lemma mapM_Permutation {A B} (f : A -> option B) l m :
  l ≡ₚ m ->
  match mapM f l, mapM f m with
  | Some a, Some b => a ≡ₚ b
  | None, None => True
  | _, _ => False
  end.
Proof.
  induction 1 as [|x l m _ IH|x y l|l m n _ IH1 _ IH2]; simpl; [done| | |].
  - destruct (f x); simpl; [|done].
    destruct (mapM f l), (mapM f m); simpl; try done. by constructor.
  - destruct (f x), (f y); simpl; try done; destruct (mapM f l); simpl; try done. constructor.
  - destruct (mapM f l), (mapM f m), (mapM f n); try done. by rewrite IH1.
Qed.

Section CanonicalText.
Context `{JT : JsonText}.

(** ** Induction on depth *)

Lemma depth_member l v : In v l -> (depth v < depth (EList l))%nat.
Proof.
  simpl. induction l as [|w l IH]; simpl; [done|]. intros [->|H]; [lia|]. apply IH in H. lia.
Qed.
Lemma depth_item p items k v : In (k, v) items -> (depth v < depth (EMapping p items))%nat.
Proof.
  simpl. induction items as [|[k' w] items IH]; simpl; [done|].
  intros [[= -> ->]|H]; [lia|]. apply IH in H. lia.
Qed.
Lemma depth_list_le l n :
  (forall v, In v l -> (depth v <= n)%nat) -> (depth (EList l) <= S n)%nat.
Proof.
  intros H. simpl. induction l as [|w l IH]; simpl; [lia|].
  pose proof (H w (or_introl eq_refl)). enough (fold_right (fun v n => Nat.max (depth v) n) 0%nat l <= n)%nat by lia.
  apply le_S_n, IH. intros v Hv. apply H. by right.
Qed.
Lemma depth_mapping_le p items n :
  (forall k v, In (k, v) items -> (depth v <= n)%nat) -> (depth (EMapping p items) <= S n)%nat.
Proof.
  intros H. simpl. induction items as [|[k w] items IH]; simpl; [lia|].
  pose proof (H k w (or_introl eq_refl)).
  enough (fold_right (fun kv n => Nat.max (depth kv.2) n) 0%nat items <= n)%nat by lia.
  apply le_S_n, IH. intros k' v Hv. apply (H k'). by right.
Qed.
Lemma depth_pos v : (0 < depth v)%nat.
Proof. induction v; simpl; lia. Qed.

Lemma evidence_depth_ind (P : evidence -> Prop) :
  (forall v, (forall w, (depth w < depth v)%nat -> P w) -> P v) -> forall v, P v.
Proof. intros H. by apply (well_founded_ind (Wf_nat.well_founded_ltof _ depth)). Qed.

(** ** Equations *)

Lemma canonicalize_mapping f p items :
  canonicalize f (EMapping p items)
  = (d ← canonical_items [] items; mret (VDict (sort_items d))).
Proof. reflexivity. Qed.
Lemma canonicalize_list f l :
  canonicalize f (EList l)
  = (cs ← canonical_list l; mret (VList (if _is_unordered_field f then sort_values cs else cs))).
Proof. reflexivity. Qed.
Lemma canonicalize_tuple f l : canonicalize f (ETuple l) = canonicalize f (EList l).
Proof. reflexivity. Qed.
Lemma canonicalize_set f l :
  canonicalize f (ESet l) = (cs ← canonical_list l; mret (VList (sort_values cs))).
Proof. reflexivity. Qed.

Definition text_of (r : result pyval) : option string :=
  match r with Ok c => Some (json_text c) | Raise _ => None end.
Definition outcome (f : option string) (v : evidence) : option string := text_of (canonicalize f v).

Definition entry_text (kt : string * string) : string := (json_string kt.1 ++ String ":" kt.2)%string.
Definition item_outcome (kv : string * evidence) : option (string * string) :=
  t ← outcome (Some kv.1) kv.2; Some (kv.1, t).

Definition dict_text (kts : list (string * string)) : string :=
  bracket "{" "}" (map entry_text (sort_by key_leb kts)).
Definition list_text (unordered : bool) (ts : list string) : string :=
  bracket "[" "]" (if unordered then sort_by String.leb ts else ts).

Lemma json_text_dict d : json_text (VDict d) = dict_text (map (fun kv => (kv.1, json_text kv.2)) d).
Proof. reflexivity. Qed.
Lemma json_text_list l : json_text (VList l) = list_text false (map json_text l).
Proof. reflexivity. Qed.
Lemma json_text_sorted_list cs :
  json_text (VList (sort_values cs)) = list_text true (map json_text cs).
Proof.
  rewrite json_text_list. unfold sort_values, list_text. by rewrite (sort_by_map json_text text_leb).
Qed.

Lemma canonical_list_text l :
  mapM (outcome None) l
  = match canonical_list l with Ok cs => Some (map json_text cs) | Raise _ => None end.
Proof.
  induction l as [|v l IH]; simpl; [done|]. rewrite IH. unfold outcome.
  destruct (canonicalize None v) as [c|]; simpl; [|done]. by destruct (canonical_list l).
Qed.


Lemma canonical_items_text seen items :
  match canonical_items seen items with
  | Ok d => collides seen items = false
            /\ mapM item_outcome items = Some (map (fun kv => (kv.1, json_text kv.2)) d)
            /\ d.*1 = items.*1
  | Raise _ => collides seen items = true \/ mapM item_outcome items = None
  end.
Proof.
  revert seen. induction items as [|[k v] items IH]; intros seen; [done|].
  cbn [canonical_items collides]. change (mapM item_outcome ((k, v) :: items)) with
    (kt ← item_outcome (k, v); kts ← mapM item_outcome items; Some (kt :: kts)).
  change (item_outcome (k, v)) with (t ← text_of (canonicalize (Some k) v); Some (k, t)).
  destruct (smem k seen); cbn [orb]; [by left|]. specialize (IH (k :: seen)).
  destruct (canonicalize (Some k) v) as [c|]; [|by right]. cbn.
  destruct (canonical_items (k :: seen) items) as [d|]; cbn.
  - destruct IH as (H1 & H2 & H3). rewrite H2. cbn. unfold fmap in *. by rewrite H3.
  - destruct IH as [H|H]; [by left|right]. by rewrite H.
Qed.

Lemma collides_NoDup seen items :
  collides seen items = false <-> NoDup items.*1 /\ (forall k, k ∈ items.*1 -> ~ In k seen).
Proof.
  revert seen. induction items as [|[k v] items IH]; intros seen; cbn [collides fmap list_fmap fst].
  - split; [|done]. intros _. split; [constructor|]. intros k Hk. by apply not_elem_of_nil in Hk.
  - rewrite orb_false_iff, IH, NoDup_cons.
    rewrite <- not_true_iff_false, smem_In. setoid_rewrite elem_of_cons. split.
    + intros (Hk & Hnd & H). split_and!; [|done|].
      * intros Hin. apply (H _ Hin). by left.
      * intros k' [->|Hin]; [done|]. intros Hs. apply (H _ Hin). by right.
    + intros ((Hk & Hnd) & H). split_and!; [by apply H; left|done|].
      intros k' Hin [->|Hs]; [done|]. by apply (H k'); [right|].
Qed.

(** The text of a container is a function of the texts of its members. *)
Lemma outcome_mapping f p items :
  outcome f (EMapping p items)
  = if collides [] items then None else dict_text <$> mapM item_outcome items.
Proof.
  unfold outcome. rewrite canonicalize_mapping. pose proof (canonical_items_text [] items) as H.
  destruct (canonical_items [] items) as [d|]; cbn [mbind result_bind text_of mret result_ret].
  - destruct H as (H1 & H2 & H3). rewrite H1, H2. cbn [fmap option_fmap option_map].
    rewrite json_text_dict. unfold dict_text, sort_items. f_equal. f_equal. f_equal.
    rewrite <- (sort_by_map (fun kv : string * pyval => (kv.1, json_text kv.2)) key_leb key_leb) by done.
    apply sort_idempotent; [apply key_leb_total|apply key_leb_trans].
  - destruct H as [H|H]; rewrite H; [done|]. by destruct (collides [] items).
Qed.
Lemma outcome_list f l :
  outcome f (EList l) = list_text (_is_unordered_field f) <$> mapM (outcome None) l.
Proof.
  unfold outcome at 1. rewrite canonicalize_list, canonical_list_text.
  destruct (canonical_list l) as [cs|]; [|done].
  cbn [mbind result_bind text_of mret result_ret fmap option_fmap option_map].
  destruct (_is_unordered_field f); [by rewrite json_text_sorted_list|done].
Qed.
Lemma outcome_tuple f l : outcome f (ETuple l) = outcome f (EList l).
Proof. reflexivity. Qed.
Lemma outcome_set f l : outcome f (ESet l) = list_text true <$> mapM (outcome None) l.
Proof.
  unfold outcome at 1. rewrite canonicalize_set, canonical_list_text.
  destruct (canonical_list l) as [cs|]; [|done].
  cbn [mbind result_bind text_of mret result_ret fmap option_fmap option_map]. by rewrite json_text_sorted_list.
Qed.
Lemma outcome_enum f v : outcome f (EEnum v) = outcome f v.
Proof. reflexivity. Qed.

(** ** A canonical value is its own canonical form *)

Lemma canonical_list_Ok l cs :
  canonical_list l = Ok cs <-> Forall2 (fun v c => canonicalize None v = Ok c) l cs.
Proof.
  revert cs. induction l as [|v l IH]; intros cs; cbn [canonical_list].
  - split; [intros H; apply Ok_inj in H as <-; constructor|]. by intros H%Forall2_nil_inv_l; subst.
  - split.
    + intros H. apply result_bind_Ok in H as (c & Hc & H). apply result_bind_Ok in H as (r & Hr & H).
      apply Ok_inj in H as <-. constructor; [done|]. by apply IH.
    + intros H. apply Forall2_cons_inv_l in H as (c & r & Hc & Hr & ->). rewrite Hc. cbn.
      apply IH in Hr. by rewrite Hr.
Qed.

Definition item_canonical (kv : string * evidence) (kc : string * pyval) : Prop :=
  kv.1 = kc.1 /\ canonicalize (Some kv.1) kv.2 = Ok kc.2.

Lemma canonical_items_Ok seen items d :
  canonical_items seen items = Ok d
  <-> collides seen items = false /\ Forall2 item_canonical items d.
Proof.
  revert seen d. induction items as [|[k v] items IH]; intros seen d; cbn [canonical_items collides].
  - split; [intros H; apply Ok_inj in H as <-; by split|]. by intros [_ H%Forall2_nil_inv_l]; subst.
  - destruct (smem k seen); cbn [orb]; [split; [done|by intros [? _]]|]. split.
    + intros H. apply result_bind_Ok in H as (c & Hc & H). apply result_bind_Ok in H as (r & Hr & H).
      apply Ok_inj in H as <-. apply IH in Hr as [Hco Hr]. split; [done|]. by constructor.
    + intros [Hco H]. apply Forall2_cons_inv_l in H as ([k' c] & r & [Hk Hc] & Hr & ->).
      cbn in Hk, Hc. subst k'. rewrite Hc. cbn. rewrite (proj2 (IH (k :: seen) r)); done.
Qed.

Lemma text_leb_total a b : text_leb a b = false -> text_leb b a = true.
Proof. apply string_leb_total. Qed.
Lemma text_leb_trans a b c : text_leb a b = true -> text_leb b c = true -> text_leb a c = true.
Proof. apply string_leb_trans. Qed.
Lemma sort_values_idempotent cs : sort_values (sort_values cs) = sort_values cs.
Proof. apply sort_idempotent; [apply text_leb_total|apply text_leb_trans]. Qed.
Lemma sort_items_idempotent d : sort_items (sort_items d) = sort_items d.
Proof. apply sort_idempotent; [apply key_leb_total|apply key_leb_trans]. Qed.

(** The canonical value [c] of some evidence no deeper than [n] reads back as itself. *)
Definition settled (n : nat) (f : option string) (c : pyval) : Prop :=
  canonicalize f (embed c) = Ok c /\ (depth (embed c) <= n)%nat.

Lemma settled_list n f cs :
  Forall (settled n None) cs -> (_is_unordered_field f = true -> sort_values cs = cs) ->
  settled (S n) f (VList cs).
Proof.
  intros Hcs Hs. split.
  - cbn [embed]. rewrite canonicalize_list. rewrite (proj2 (canonical_list_Ok _ cs)).
    + cbn. destruct (_is_unordered_field f); [|done]. by rewrite Hs.
    + rewrite Forall2_fmap_l. apply Forall_Forall2_diag. by eapply Forall_impl; [done|intros ? []].
  - apply depth_list_le. intros v Hv. apply in_map_iff in Hv as (c & <- & Hc).
    rewrite Forall_forall in Hcs. by apply Hcs, list_elem_of_In.
Qed.

Lemma settled_dict n f d :
  Forall (fun kc => settled n (Some kc.1) kc.2) d -> NoDup d.*1 -> sort_items d = d ->
  settled (S n) f (VDict d).
Proof.
  intros Hd Hnd Hs. split.
  - cbn [embed]. rewrite canonicalize_mapping. rewrite (proj2 (canonical_items_Ok _ _ d)).
    + cbn. by rewrite Hs.
    + split.
      * apply collides_NoDup. rewrite <- list_fmap_compose. split; [done|]. by intros ? _ [].
      * rewrite Forall2_fmap_l. apply Forall_Forall2_diag. eapply Forall_impl; [done|].
        intros [k c] [H _]. by split.
  - apply depth_mapping_le. intros k v Hv. apply in_map_iff in Hv as ([k' c] & [= -> <-] & Hc).
    rewrite Forall_forall in Hd. by apply (Hd (k, c)), list_elem_of_In.
Qed.

Lemma members_settled l cs n :
  (forall v f c, In v l -> canonicalize f v = Ok c -> settled n f c) ->
  canonical_list l = Ok cs -> Forall (settled n None) cs.
Proof.
  intros IH H. apply canonical_list_Ok in H. induction H as [|v c l cs Hc _ IHl]; constructor.
  - apply (IH v); [by left|done].
  - apply IHl. intros w f c' Hw. apply IH. by right.
Qed.

Lemma items_settled items d n :
  (forall k v f c, In (k, v) items -> canonicalize f v = Ok c -> settled n f c) ->
  Forall2 item_canonical items d ->
  Forall (fun kc => settled n (Some kc.1) kc.2) d /\ d.*1 = items.*1.
Proof.
  intros IH H. induction H as [|[k v] [k' c] items d [Hk Hc] _ IHd]; [by split|].
  cbn in Hk, Hc. subst k'. destruct IHd as [H1 H2]; [intros; eapply IH; eauto; by right|].
  split; [|cbn; by f_equal]. constructor; [|done]. apply (IH k v); [by left|done].
Qed.

Lemma canonicalize_settled v :
  forall f c, canonicalize f v = Ok c -> settled (depth v) f c.
Proof.
  induction v as [v IH] using evidence_depth_ind. intros f c H.
  assert (Hlist : forall l, depth v = depth (EList l) -> forall cs, canonical_list l = Ok cs ->
            Forall (settled (pred (depth v)) None) cs).
  { intros l Hl cs. apply members_settled. intros w f' c' Hw Hc'. rewrite Hl.
    apply depth_member in Hw. destruct (IH w ltac:(lia) _ _ Hc') as [H1 H2]. split; [done|lia]. }
  destruct v;
    try (cbn in H; repeat case_match; simplify_eq; try discriminate H; apply Ok_inj in H as <-;
         (split; [done|cbn; lia])).
  - cbn in H. apply result_bind_Ok in H as (t & _ & H). apply Ok_inj in H as <-. by split; [|cbn; lia].
  - cbn [depth]. destruct (IH v ltac:(cbn; lia) _ _ H) as [H1 H2]. split; [done|lia].
  - cbn in H. destruct (is_finite x) eqn:E; [|done]. apply Ok_inj in H as <-.
    split; [|cbn; lia]. cbn. destruct (feq x f0) eqn:E0; [done|]. by rewrite E, E0.
  - rewrite canonicalize_mapping in H. apply result_bind_Ok in H as (d & Hd & H). apply Ok_inj in H as <-.
    apply canonical_items_Ok in Hd as [Hco Hd]. apply collides_NoDup in Hco as [Hnd _].
    apply (items_settled _ _ (pred (depth (EMapping plain items)))) in Hd as [Hd Hk].
    + apply settled_dict; unfold sort_items;
        [by rewrite sort_by_Permutation|by rewrite sort_by_Permutation, Hk|apply sort_items_idempotent].
    + intros k w f' c' Hw Hc'. apply (depth_item plain) in Hw.
      destruct (IH w Hw _ _ Hc') as [H1 H2]. split; [done|lia].
  - rewrite canonicalize_list in H. apply result_bind_Ok in H as (cs & Hcs & H). apply Ok_inj in H as <-.
    apply (Hlist l eq_refl) in Hcs. apply settled_list; destruct (_is_unordered_field f); try done.
    + unfold sort_values. by rewrite sort_by_Permutation.
    + intros _. apply sort_values_idempotent.
  - rewrite canonicalize_tuple, canonicalize_list in H.
    apply result_bind_Ok in H as (cs & Hcs & H). apply Ok_inj in H as <-.
    apply (Hlist l eq_refl) in Hcs. apply settled_list; destruct (_is_unordered_field f); try done.
    + unfold sort_values. by rewrite sort_by_Permutation.
    + intros _. apply sort_values_idempotent.
  - rewrite canonicalize_set in H. apply result_bind_Ok in H as (cs & Hcs & H). apply Ok_inj in H as <-.
    apply (Hlist l eq_refl) in Hcs. apply settled_list.
    + unfold sort_values. by rewrite sort_by_Permutation.
    + intros _. apply sort_values_idempotent.
Qed.

(** ** Order does not matter *)

Lemma collides_Permutation items items' :
  items ≡ₚ items' -> collides [] items = collides [] items'.
Proof.
  intros Hp. assert (Hi : forall b, collides [] items = b <-> collides [] items' = b).
  { assert (Hf : collides [] items = false <-> collides [] items' = false).
    { rewrite !collides_NoDup, Hp. by setoid_rewrite Hp. }
    intros []; [|done]. by rewrite <- !not_false_iff_true, Hf. }
  symmetry. by apply Hi.
Qed.

Lemma mapM_item_keys items kts : mapM item_outcome items = Some kts -> kts.*1 = items.*1.
Proof.
  intros H%mapM_Some_1. induction H as [|[k v] kt items kts Hk _ IH]; [done|].
  cbn. rewrite IH. f_equal. unfold item_outcome in Hk. cbn in Hk.
  destruct (outcome (Some k) v); cbn in Hk; by simplify_eq.
Qed.

Lemma outcome_mapping_Permutation f p q items items' :
  items ≡ₚ items' -> outcome f (EMapping p items) = outcome f (EMapping q items').
Proof.
  intros Hp. rewrite !outcome_mapping, <- (collides_Permutation _ _ Hp).
  destruct (collides [] items) eqn:Ec; [done|]. apply collides_NoDup in Ec as [Hnd _].
  pose proof (mapM_Permutation item_outcome _ _ Hp) as Hm.
  destruct (mapM item_outcome items) as [kts|] eqn:E, (mapM item_outcome items') as [kts'|]; try done.
  cbn. unfold dict_text. rewrite (sort_keys_unique _ _ ltac:(by rewrite (mapM_item_keys _ _ E)) Hm). done.
Qed.

Lemma list_text_Permutation l l' :
  l ≡ₚ l' -> list_text true <$> mapM (outcome None) l = list_text true <$> mapM (outcome None) l'.
Proof.
  intros Hp. pose proof (mapM_Permutation (outcome None) _ _ Hp) as Hm.
  destruct (mapM (outcome None) l), (mapM (outcome None) l'); try done.
  cbn. unfold list_text. do 2 f_equal. by apply sort_strings_unique.
Qed.

(** Two values with the same content: mappings, sets and unordered fields up to order,
    tuples as lists, enumeration members as their values, members replaced one by
    one by values with the same content. *)
Inductive same_content : option string -> evidence -> evidence -> Prop :=
  | same_refl f v : same_content f v v
  | same_sym f v w : same_content f v w -> same_content f w v
  | same_trans f u v w : same_content f u v -> same_content f v w -> same_content f u w
  | same_enum f v : same_content f (EEnum v) v
  | same_tuple f l : same_content f (ETuple l) (EList l)
  | same_set f l l' : l ≡ₚ l' -> same_content f (ESet l) (ESet l')
  | same_unordered f l l' :
      _is_unordered_field f = true -> l ≡ₚ l' -> same_content f (EList l) (EList l')
  | same_frozen f l : _is_unordered_field f = true -> same_content f (ESet l) (EList l)
  | same_mapping f p q items items' :
      items ≡ₚ items' -> same_content f (EMapping p items) (EMapping q items')
  | same_member f l m v w :
      same_content None v w -> same_content f (EList (l ++ v :: m)) (EList (l ++ w :: m))
  | same_set_member f l m v w :
      same_content None v w -> same_content f (ESet (l ++ v :: m)) (ESet (l ++ w :: m))
  | same_item f p l m k v w :
      same_content (Some k) v w ->
      same_content f (EMapping p (l ++ (k, v) :: m)) (EMapping p (l ++ (k, w) :: m)).

Lemma collides_replace seen l m k v w :
  collides seen (l ++ (k, v) :: m) = collides seen (l ++ (k, w) :: m).
Proof. revert seen. induction l as [|[k' x] l IH]; intros seen; cbn; [done|]. by rewrite IH. Qed.

Lemma mapM_replace {A B} (g : A -> option B) l m v w :
  g v = g w -> mapM g (l ++ v :: m) = mapM g (l ++ w :: m).
Proof. intros E. induction l as [|x l IH]; cbn; [by rewrite E|]. by rewrite IH. Qed.

Lemma same_content_outcome f v w : same_content f v w -> outcome f v = outcome f w.
Proof.
  induction 1 as [f v|f v w _ IH|f u v w _ IH1 _ IH2|f v|f l|f l l' Hp|f l l' Hu Hp|f l Hu
                 |f p q items items' Hp|f l m v w _ IH|f l m v w _ IH|f p l m k v w _ IH];
    try congruence.
  - done.
  - done.
  - rewrite !outcome_set. by apply list_text_Permutation.
  - rewrite !outcome_list, Hu. by apply list_text_Permutation.
  - by rewrite outcome_list, outcome_set, Hu.
  - by apply outcome_mapping_Permutation.
  - by rewrite !outcome_list, (mapM_replace _ _ _ _ _ IH).
  - by rewrite !outcome_set, (mapM_replace _ _ _ _ _ IH).
  - rewrite !outcome_mapping, (collides_replace _ _ _ _ v w), (mapM_replace _ _ _ (k, v) (k, w)); [done|].
    unfold item_outcome. cbn. by rewrite IH.
Qed.

(** ** The shortcut for plain JSON *)

(** What a Python [dict] guarantees: its keys are distinct. *)
Fixpoint well_keyed (v : evidence) : bool :=
  match v with
  | EMapping plain items =>
      (negb plain || negb (collides [] items)) && forallb (fun kv => well_keyed kv.2) items
  | EList l | ETuple l | ESet l => forallb well_keyed l
  | EEnum v => well_keyed v
  | _ => true
  end.

Lemma ascending_sorted l : ascending l = true -> sort_by String.leb l = l.
Proof.
  intros H. apply sort_by_id. apply Sorted_StronglySorted.
  { intros x y z. apply string_leb_trans. }
  induction l as [|x l IH]; [constructor|]. destruct l as [|y l]; [by repeat constructor|].
  cbn [ascending] in H. apply andb_true_iff in H as [H1 H2]. constructor; [by apply IH|by constructor].
Qed.

Lemma already_canonical_outcome v :
  forall f, _already_canonical_json f v = true -> well_keyed v = true ->
  outcome f v = Some (json_text (as_json v)).
Proof.
  induction v as [v IH] using evidence_depth_ind. intros f Ha Hw.
  destruct v; try done.
  - cbn in Ha. apply andb_true_iff in Ha as [Hf Hz]. unfold outcome. cbn. rewrite Hf. cbn.
    by destruct x as [[]|[]| |[]].
  - cbn [_already_canonical_json well_keyed] in Ha, Hw. rewrite andb_true_iff in Ha, Hw.
    destruct Ha as [-> Ha], Hw as [Hc Hw]. cbn in Hc. rewrite forallb_forall in Ha, Hw.
    rewrite outcome_mapping. destruct (collides [] items); [done|].
    rewrite (mapM_Some_2 _ _ (map (fun kv => (kv.1, json_text (as_json kv.2))) items)).
    + cbn [as_json]. rewrite json_text_dict. cbn. by rewrite map_map.
    + rewrite Forall2_fmap_r. apply Forall_Forall2_diag, Forall_forall.
      intros [k v] Hin%list_elem_of_In. unfold item_outcome. cbn.
      rewrite (IH v); [done|by apply (depth_item true) in Hin|by apply (Ha _ Hin)|by apply (Hw _ Hin)].
  - cbn [_already_canonical_json well_keyed] in Ha, Hw. rewrite andb_true_iff in Ha.
    destruct Ha as [Ha Hs]. rewrite forallb_forall in Ha, Hw. rewrite outcome_list.
    rewrite (mapM_Some_2 _ _ (map (fun v => json_text (as_json v)) l)).
    + cbn [as_json]. rewrite json_text_list, map_map. cbn. f_equal. unfold list_text. f_equal.
      destruct (_is_unordered_field f); [|done]. by apply ascending_sorted.
    + rewrite Forall2_fmap_r. apply Forall_Forall2_diag, Forall_forall.
      intros v Hin%list_elem_of_In. rewrite (IH v); [done|by apply depth_member|by apply Ha|by apply Hw].
Qed.

(** ** The incremental writer *)

Lemma string_app_nil_r (s : string) : (s ++ "")%string = s.
Proof. induction s as [|c s IH]; [done|]. by rewrite append_cons, IH. Qed.
Lemma concat_nil_cons x l : String.concat "" (x :: l) = (x ++ String.concat "" l)%string.
Proof. destruct l; cbn; [|done]. by rewrite string_app_nil_r. Qed.
Lemma concat_nil_app l m :
  String.concat "" (l ++ m) = (String.concat "" l ++ String.concat "" m)%string.
Proof.
  induction l as [|x l IH]; [done|]. rewrite <- app_comm_cons, !concat_nil_cons, IH.
  by rewrite app_string_assoc.
Qed.
Lemma concat_separated groups :
  String.concat "" (separated groups) = String.concat "," (map (String.concat "") groups).
Proof.
  induction groups as [|g groups IH]; [done|]. destruct groups as [|h groups]; [done|].
  change (separated (g :: h :: groups)) with (g ++ "," :: separated (h :: groups)).
  rewrite concat_nil_app, concat_nil_cons, IH. done.
Qed.
Lemma concat_enclosed open close groups :
  String.concat "" (open :: separated groups ++ [close])
  = bracket open close (map (String.concat "") groups).
Proof. by rewrite concat_nil_cons, concat_nil_app, concat_separated. Qed.

(** The loops over the members, by name. *)
Definition stream_all (fuel : nat) :=
  fix go (l : list evidence) : result (list (list string)) :=
    match l with
    | [] => mret []
    | x :: l => g ← iter_bytes fuel None x; rest ← go l; mret (g :: rest)
    end.
Definition stream_items (fuel : nat) :=
  fix go (items : list (string * evidence)) : result (list (list string)) :=
    match items with
    | [] => mret []
    | (key, item) :: items =>
        g ← iter_bytes fuel (Some key) item; rest ← go items;
        mret ((json_string key :: ":" :: g) :: rest)
    end.

(** A writer agrees with an expected text: it yields that text, or raises an exception of
    the program where there is none. *)
Definition agrees {A} (text : A -> string) (r : result A) (expected : option string) : Prop :=
  match r with
  | Ok chunks => expected = Some (text chunks)
  | Raise e => e <> OutOfFuel /\ expected = None
  end.

Lemma stream_all_agrees fuel l :
  (forall v, In v l -> agrees (String.concat "") (iter_bytes fuel None v) (outcome None v)) ->
  match stream_all fuel l with
  | Ok groups => mapM (outcome None) l = Some (map (String.concat "") groups)
  | Raise e => e <> OutOfFuel /\ mapM (outcome None) l = None
  end.
Proof.
  induction l as [|v l IH]; intros H; [done|]. pose proof (H v (or_introl eq_refl)) as Hv.
  cbn [stream_all]. unfold agrees in Hv. destruct (iter_bytes fuel None v) as [g|e]; cbn.
  - rewrite Hv. cbn. specialize (IH (fun w Hw => H w (or_intror Hw))).
    fold (stream_all fuel l). destruct (stream_all fuel l) as [gs|e]; cbn; [by rewrite IH|].
    destruct IH as [He IH]. by rewrite IH.
  - destruct Hv as [He Hv]. by rewrite Hv.
Qed.

Lemma stream_items_agrees fuel items :
  (forall k v, In (k, v) items ->
     agrees (String.concat "") (iter_bytes fuel (Some k) v) (outcome (Some k) v)) ->
  match stream_items fuel items with
  | Ok groups => map entry_text <$> mapM item_outcome items = Some (map (String.concat "") groups)
  | Raise e => e <> OutOfFuel /\ mapM item_outcome items = None
  end.
Proof.
  induction items as [|[k v] items IH]; intros H; [done|].
  pose proof (H k v (or_introl eq_refl)) as Hv. cbn [stream_items].
  change (mapM item_outcome ((k, v) :: items)) with
    (kt ← item_outcome (k, v); kts ← mapM item_outcome items; Some (kt :: kts)).
  change (item_outcome (k, v)) with (t ← outcome (Some k) v; Some (k, t)).
  unfold agrees in Hv. destruct (iter_bytes fuel (Some k) v) as [g|e]; cbn [mbind result_bind].
  - rewrite Hv. cbn [mbind option_bind]. specialize (IH (fun k' w Hw => H k' w (or_intror Hw))).
    fold (stream_items fuel items). destruct (stream_items fuel items) as [gs|e]; cbn [mbind result_bind].
    + destruct (mapM item_outcome items) as [kts|]; [|done]. injection IH as IH.
      change (Some (entry_text (k, String.concat "" g) :: map entry_text kts)
        = Some (String.concat "" (json_string k :: ":" :: g) :: map (String.concat "") gs)).
      by rewrite !concat_nil_cons, IH.
    + destruct IH as [He IH]. by rewrite IH.
  - destruct Hv as [He Hv]. by rewrite Hv.
Qed.

Lemma time_text_no_fuel us o : time_text us o <> Raise OutOfFuel.
Proof. by destruct o as [[]|]. Qed.

Lemma result_bind_no_fuel {A B} (r : result A) (k : A -> result B) :
  r <> Raise OutOfFuel -> (forall a, r = Ok a -> k a <> Raise OutOfFuel) ->
  (a ← r; k a) <> Raise OutOfFuel.
Proof. intros Hr Hk. destruct r as [a|e]; cbn; [by apply Hk|congruence]. Qed.

Lemma canonical_list_no_fuel l :
  (forall v f, In v l -> canonicalize f v <> Raise OutOfFuel) -> canonical_list l <> Raise OutOfFuel.
Proof.
  induction l as [|v l IH]; intros H; [done|]. cbn [canonical_list].
  apply result_bind_no_fuel; [apply H; by left|]. intros c _.
  apply result_bind_no_fuel; [|done]. apply IH. intros w f Hw. apply H. by right.
Qed.
Lemma canonical_items_no_fuel seen items :
  (forall k v f, In (k, v) items -> canonicalize f v <> Raise OutOfFuel) ->
  canonical_items seen items <> Raise OutOfFuel.
Proof.
  revert seen. induction items as [|[k v] items IH]; intros seen H; [done|]. cbn [canonical_items].
  destruct (smem k seen); [done|]. apply result_bind_no_fuel; [eapply H; by left|]. intros c _.
  apply result_bind_no_fuel; [|done]. apply IH. intros k' w f Hw. eapply H. by right.
Qed.

Lemma canonicalize_no_fuel v : forall f, canonicalize f v <> Raise OutOfFuel.
Proof.
  induction v as [v IH] using evidence_depth_ind. intros f.
  assert (Hlist : forall l, depth v = depth (EList l) -> canonical_list l <> Raise OutOfFuel).
  { intros l Hl. apply canonical_list_no_fuel. intros w f' Hw. apply IH. rewrite Hl. by apply depth_member. }
  destruct v; try (cbn; repeat case_match; done).
  - cbn [canonicalize]. apply result_bind_no_fuel; [apply time_text_no_fuel|done].
  - cbn [canonicalize]. apply IH. cbn. lia.
  - rewrite canonicalize_mapping. apply result_bind_no_fuel; [|done].
    apply canonical_items_no_fuel. intros k w f' Hw. apply IH. by apply (depth_item plain) in Hw.
  - rewrite canonicalize_list. apply result_bind_no_fuel; [by apply Hlist|done].
  - rewrite canonicalize_tuple, canonicalize_list. apply result_bind_no_fuel; [by apply Hlist|done].
  - rewrite canonicalize_set. apply result_bind_no_fuel; [by apply Hlist|done].
Qed.

(** The canonical text of a sequence of canonical values is the sequence of their texts. *)
Lemma mapM_settled n cs : Forall (settled n None) cs ->
  mapM (outcome None) (map embed cs) = Some (map json_text cs).
Proof.
  intros H. apply mapM_Some_2. rewrite Forall2_fmap. apply Forall_Forall2_diag.
  eapply Forall_impl; [done|]. intros c [Hc _]. unfold outcome. by rewrite Hc.
Qed.

Lemma sorted_same_keys {V W} (m : list (string * V)) (n : list (string * W)) :
  n.*1 = m.*1 -> StronglySorted (fun a b => key_leb a b = true) m ->
  StronglySorted (fun a b => key_leb a b = true) n.
Proof.
  intros E Hs. revert n E. induction Hs as [|x m Hm IHm Hx]; intros [|y n] E; try done; [constructor|].
  cbn in E. injection E as E1 E2. constructor; [by apply IHm|]. rewrite Forall_forall in Hx.
  apply Forall_forall. intros z Hz. unfold key_leb. rewrite E1.
  assert (Hz' : z.1 ∈ m.*1) by (rewrite <- E2; by apply list_elem_of_fmap_2).
  apply list_elem_of_fmap in Hz' as (w & -> & Hw). by apply Hx.
Qed.

Section Levels.
Context (fuel : nat).
Context (IH : forall f v, (depth v <= fuel)%nat ->
           agrees (String.concat "") (iter_bytes fuel f v) (outcome f v)).

Lemma ordered_agrees f l :
  (depth (EList l) <= S fuel)%nat -> _is_unordered_field f = false ->
  agrees (String.concat "") (groups ← stream_all fuel l; mret ("[" :: separated groups ++ ["]"]))
    (outcome f (EList l)).
Proof.
  intros Hd Hf. rewrite outcome_list, Hf. pose proof (stream_all_agrees fuel l) as H.
  destruct (stream_all fuel l) as [groups|e]; cbn [mbind result_bind agrees mret result_ret].
  - rewrite concat_enclosed, H; [done|]. intros v Hv. apply IH. apply depth_member in Hv. lia.
  - destruct H as [He H]; [|by rewrite H]. intros v Hv. apply IH. apply depth_member in Hv. lia.
Qed.

Lemma unordered_agrees l :
  (depth (EList l) <= S fuel)%nat ->
  agrees (String.concat "")
    (values ← (cs ← canonical_list l; mret (map embed (sort_values cs)));
     groups ← stream_all fuel values; mret ("[" :: separated groups ++ ["]"]))
    (list_text true <$> mapM (outcome None) l).
Proof.
  intros Hd. rewrite canonical_list_text.
  destruct (canonical_list l) as [cs|e] eqn:E; cbn [mbind result_bind mret result_ret].
  - assert (Hcs : Forall (settled fuel None) (sort_values cs)).
    { unfold sort_values. rewrite sort_by_Permutation. revert E. apply members_settled.
      intros v f c Hv Hc. destruct (canonicalize_settled _ _ _ Hc) as [H1 H2].
      apply depth_member in Hv. split; [done|lia]. }
    pose proof (stream_all_agrees fuel (map embed (sort_values cs))) as H.
    rewrite (mapM_settled _ _ Hcs) in H.
    assert (Hall : forall v, In v (map embed (sort_values cs)) ->
              agrees (String.concat "") (iter_bytes fuel None v) (outcome None v)).
    { intros v Hv. apply IH. apply in_map_iff in Hv as (c & <- & Hc).
      rewrite Forall_forall in Hcs. by apply Hcs, list_elem_of_In. }
    specialize (H Hall).
    destruct (stream_all fuel _) as [groups|e]; cbn [mbind result_bind mret result_ret agrees];
      [|by destruct H].
    injection H as H. rewrite concat_enclosed, <- H. cbn [fmap option_fmap option_map].
    by rewrite <- json_text_sorted_list.
  - split; [|done]. intros ->. revert E. apply canonical_list_no_fuel. intros. apply canonicalize_no_fuel.
Qed.

Lemma mapping_agrees f p items :
  (depth (EMapping p items) <= S fuel)%nat ->
  agrees (String.concat "")
    (if collides [] items then ValueError "evidence mapping has colliding key"
     else groups ← stream_items fuel (sort_by key_leb items); mret ("{" :: separated groups ++ ["}"]))
    (outcome f (EMapping p items)).
Proof.
  intros Hd. pose proof (sort_by_Permutation key_leb items) as Hp.
  rewrite <- (outcome_mapping_Permutation f p p _ _ Hp), outcome_mapping, (collides_Permutation _ _ Hp).
  destruct (collides [] items); [done|].
  pose proof (stream_items_agrees fuel (sort_by key_leb items)) as H.
  assert (Hall : forall k v, In (k, v) (sort_by key_leb items) ->
            agrees (String.concat "") (iter_bytes fuel (Some k) v) (outcome (Some k) v)).
  { intros k v Hv. apply IH. apply sort_by_In, (depth_item p) in Hv. lia. }
  specialize (H Hall).
  destruct (stream_items fuel _) as [groups|e]; cbn [mbind result_bind mret result_ret agrees].
  - destruct (mapM item_outcome _) as [kts|] eqn:E; [|done]. injection H as H.
    rewrite concat_enclosed, <- H. cbn. unfold dict_text. do 3 f_equal.
    apply sort_by_id, (sorted_same_keys (sort_by key_leb items)); [by apply mapM_item_keys|].
    apply sort_by_sorted; [apply key_leb_total|apply key_leb_trans].
  - destruct H as [He H]. by rewrite H.
Qed.
End Levels.

Lemma iter_bytes_agrees fuel : forall f v, (depth v <= fuel)%nat ->
  agrees (String.concat "") (iter_bytes fuel f v) (outcome f v).
Proof.
  induction fuel as [|fuel IH]; intros f v Hd; [pose proof (depth_pos v); lia|].
  assert (Hleaf : agrees (String.concat "") (c ← canonicalize f v; mret [json_text c]) (outcome f v)).
  { unfold outcome. pose proof (canonicalize_no_fuel v f) as Hf.
    destruct (canonicalize f v); cbn; [done|]. split; [congruence|done]. }
  destruct v; try exact Hleaf.
  - exact (mapping_agrees fuel IH f plain items Hd).
  - destruct (_is_unordered_field f) eqn:E.
    + rewrite outcome_list, E. cbn [iter_bytes]. rewrite E. exact (unordered_agrees fuel IH l Hd).
    + cbn [iter_bytes]. rewrite E. exact (ordered_agrees fuel IH f l Hd E).
  - rewrite outcome_tuple. destruct (_is_unordered_field f) eqn:E.
    + rewrite outcome_list, E. cbn [iter_bytes]. rewrite E. exact (unordered_agrees fuel IH l Hd).
    + cbn [iter_bytes]. rewrite E. exact (ordered_agrees fuel IH f l Hd E).
  - rewrite outcome_set. exact (unordered_agrees fuel IH l Hd).
Qed.

(** ** The buffer of the streamed hash *)

Lemma hash_blocks_concat n pending chunks :
  String.concat "" (hash_blocks n pending chunks) = (pending ++ String.concat "" chunks)%string.
Proof.
  revert pending. induction chunks as [|c chunks IH]; intros pending; cbn [hash_blocks].
  - destruct (String.eqb_spec pending "") as [->|]; [done|]. cbn. by rewrite string_app_nil_r.
  - rewrite concat_nil_cons. destruct (slen c >=? n).
    + rewrite concat_nil_app, concat_nil_cons, IH, append_nil.
      destruct (String.eqb_spec pending "") as [->|]; [done|]. done.
    + destruct (slen pending + slen c >? n).
      * by rewrite concat_nil_cons, IH.
      * by rewrite IH, app_string_assoc.
Qed.

Lemma slen_app s t : slen (s ++ t)%string = slen s + slen t.
Proof.
  unfold slen. induction s as [|c s IH]; [done|]. rewrite append_cons. cbn [String.length]. lia.
Qed.

(** No block is larger than the buffer, unless it is one chunk. *)
Lemma hash_blocks_bounded n pending chunks :
  slen pending <= n -> Forall (fun b => slen b <= n \/ In b chunks) (hash_blocks n pending chunks).
Proof.
  revert pending. induction chunks as [|c chunks IH]; intros pending Hp; cbn [hash_blocks].
  - destruct (String.eqb pending ""); [constructor|]. constructor; [by left|constructor].
  - assert (Hweak : forall p, slen p <= n ->
              Forall (fun b => slen b <= n \/ In b (c :: chunks)) (hash_blocks n p chunks)).
    { intros p Hle. eapply Forall_impl; [by apply IH|]. intros b [?|?]; [by left|right; by right]. }
    destruct (Z.geb_spec (slen c) n).
    + apply Forall_app. split.
      * destruct (String.eqb pending ""); [constructor|]. constructor; [by left|constructor].
      * constructor; [right; by left|]. apply Hweak. cbn in *. unfold slen in *. cbn. lia.
    + rewrite Z.gtb_ltb. destruct (Z.ltb_spec n (slen pending + slen c)).
      * constructor; [by left|]. apply Hweak. lia.
      * apply Hweak. rewrite slen_app. lia.
Qed.

(** ** What the serializer guarantees *)

(** A canonical value is a fixed point: canonicalizing what [canonicalize] returned,
    for the same field, gives it back unchanged. *)
Theorem canonicalize_idempotent f v c :
  canonicalize f v = Ok c -> canonicalize f (embed c) = Ok c.
Proof. intros H. by destruct (canonicalize_settled _ _ _ H). Qed.

(** The shortcut of [dumps] for plain JSON is unobservable: on evidence whose
    dictionaries have distinct keys, [dumps] always returns the JSON text of the
    canonical value, and raises exactly what [canonicalize] raises. *)
Theorem dumps_shortcut v :
  well_keyed v = true -> dumps v = (c ← canonicalize None v; mret (json_text c)).
Proof.
  intros Hw. unfold dumps. destruct (_already_canonical_json None v) eqn:E; [|done].
  pose proof (already_canonical_outcome v None E Hw) as H. unfold outcome in H.
  destruct (canonicalize None v); [|done]. cbn in H |- *. by injection H as ->.
Qed.

Lemma dumps_outcome v :
  well_keyed v = true -> outcome None v = match dumps v with Ok s => Some s | Raise _ => None end.
Proof.
  intros Hw. unfold dumps, outcome. destruct (_already_canonical_json None v) eqn:E.
  - by apply (already_canonical_outcome v None).
  - by destruct (canonicalize None v).
Qed.

(** C30: The incremental writer emits exactly the canonical document: where [dumps]
    returns a text, the joined chunks are that text; where it raises, the writer raises an
    exception of the program too (it never runs out of fuel). *)
Theorem streaming_equals_dumps v :
  well_keyed v = true ->
  match dumps v with
  | Ok s => streaming_bytes v = Ok s
  | Raise _ => exists e, streaming_bytes v = Raise e /\ e <> OutOfFuel
  end.
Proof.
  intros Hw. pose proof (iter_bytes_agrees (depth v) None v (le_n _)) as H.
  rewrite (dumps_outcome v Hw) in H. unfold streaming_bytes.
  destruct (iter_bytes (depth v) None v) as [chunks|e]; cbn in H |- *.
  - destruct (dumps v); [|done]. by injection H as ->.
  - destruct H as [He H]. destruct (dumps v); [done|]. by exists e.
Qed.

(** The streamed fingerprint is the fingerprint, for every positive buffer size: the
    blocks handed to the hash are the document, in order, and none is larger than
    the buffer unless it is a single chunk. *)
Theorem streamed_fingerprint n v :
  well_keyed v = true -> 1 <= n ->
  match fingerprint v with
  | Ok h => fingerprint_streaming n v = Ok h
  | Raise _ => exists e, fingerprint_streaming n v = Raise e /\ e <> OutOfFuel
  end
  /\ forall chunks, iter_bytes (depth v) None v = Ok chunks ->
       Forall (fun b => slen b <= n \/ In b chunks) (hash_blocks n "" chunks).
Proof.
  intros Hw Hn. split.
  - unfold fingerprint, fingerprint_streaming. rewrite (proj2 (Z.ltb_ge n 1) Hn).
    pose proof (iter_bytes_agrees (depth v) None v (le_n _)) as H. rewrite (dumps_outcome v Hw) in H.
    destruct (iter_bytes (depth v) None v) as [chunks|e]; cbn in H |- *.
    + rewrite hash_blocks_concat, append_nil. destruct (dumps v); [|done]. by injection H as ->.
    + destruct H as [He H]. destruct (dumps v); [done|]. by exists e.
  - intros chunks _. apply hash_blocks_bounded. cbn. unfold slen. cbn. lia.
Qed.

(** The fingerprint of evidence is a function of its content: the order of mappings,
    sets and reason-code fields, tuples against lists and enumeration members
    against their values make no difference to it, at any depth; one value is
    refused exactly when the other is. *)
Theorem fingerprint_ignores_order v w :
  same_content None v w -> well_keyed v = true -> well_keyed w = true ->
  match fingerprint v with
  | Ok h => fingerprint w = Ok h
  | Raise _ => exists e, fingerprint w = Raise e
  end.
Proof.
  intros H Hv Hw. apply same_content_outcome in H. rewrite (dumps_outcome v Hv), (dumps_outcome w Hw) in H.
  unfold fingerprint. destruct (dumps v), (dumps w); try done; cbn.
  - by injection H as ->.
  - eauto.
Qed.

(** ** The readiness envelopes, with this serializer *)

Context (validate : string -> string -> result unit)
        (research : string -> string -> Readiness.ProducerReadinessEnvelope -> option dict ->
           result Readiness.ConsumerEligibilityDecision).

(** [canonicalize_evidence_value] and [canonical_evidence_fingerprint], as the readiness
    contracts call them. *)
#[local] Instance serializer : Readiness.CanonicalEvidence := {
  Readiness.canonical := fun v => canonicalize None (embed v);
  Readiness.fingerprint_of := fun d =>
    match fingerprint (embed (VDict d)) with Ok h => h | Raise _ => "" end;
  Readiness.validate_delivered_readiness_policy := validate;
  Readiness.evaluate_research := research;
}.

(** C31: Readiness payloads round-trip with the real serializer: the assumption that the
    envelopes make of it is a theorem of [canonicalize], so for every envelope
    built from frozen metrics [from_payload (to_dto e)] is [e]. *)
Theorem readiness_roundtrip_serialized args e :
  Readiness.make_envelope args = Ok e -> Readiness.frozen_metrics e ->
  Readiness.from_payload (VDict (Readiness.to_dto e)) = Ok e.
Proof.
  intros H Hm. apply (Readiness.readiness_roundtrip args); [|done|done].
  intros v c Hc. exact (proj1 (canonicalize_settled _ _ _ Hc)).
Qed.

End CanonicalText.

(** ** Witnesses *)

(** A concrete text for floats, and the identity in the place of the hash. *)
#[local] Instance plain_text : JsonText := {
  float_repr := fun x =>
    match num_of (VFloat x) with
    | Some (n, d) => (str_of_Z n ++ "/" ++ str_of_Z d)%string
    | None => ""
    end;
  sha256 := fun s => s;
}.

Definition sample : evidence :=
  EMapping true [("b", ETuple [EInt 2; EBytes "Ma"]);
                 ("reason_codes", EList [EStr "z"; EStr "a"]);
                 ("a", ESet [EDecimal (Some (150, -1)); EStr "12"])].
Definition shuffled : evidence :=
  EMapping true [("a", ESet [EStr "12"; EDecimal (Some (150, -1))]);
                 ("b", EList [EInt 2; EBytes "Ma"]);
                 ("reason_codes", EList [EStr "a"; EStr "z"])].
Definition sample_value : pyval :=
  VDict [("a", VList [VStr "12"; VStr "15"]);
         ("b", VList [VInt 2; VDict [("$bytes_base64", VStr "TWE=")]]);
         ("reason_codes", VList [VStr "a"; VStr "z"])].

Example sample_canonical : canonicalize None sample = Ok sample_value.
Proof. vm_compute. reflexivity. Qed.
Example sample_refused :
  dumps (EList [EDatetime None]) = ValueError "evidence timestamp must be timezone-aware"
  /\ dumps (EFloat S754_nan) = ValueError "evidence float must be finite"
  /\ dumps (EMapping false [("1", EInt 1); ("1", EInt 2)])
     = ValueError "evidence mapping has colliding key".
Proof. vm_compute. done. Qed.

Lemma canonicalize_idempotent_witness :
  canonicalize None sample = Ok sample_value
  /\ canonicalize None (embed sample_value) = Ok sample_value.
Proof.
  assert (H : canonicalize None sample = Ok sample_value) by (vm_compute; reflexivity).
  split; [exact H|]. exact (canonicalize_idempotent None sample sample_value H).
Defined.

Definition plain_sample : evidence :=
  EMapping true [("x", EList [EInt 1; EStr "q"]); ("reason_codes", EList [EStr "a"; EStr "b"])].

Lemma dumps_shortcut_witness :
  _already_canonical_json None plain_sample = true
  /\ dumps plain_sample = (c ← canonicalize None plain_sample; mret (json_text c)).
Proof.
  split; [vm_compute; reflexivity|]. apply (dumps_shortcut plain_sample). vm_compute; reflexivity.
Defined.

Lemma streaming_equals_dumps_witness :
  exists s, dumps sample = Ok s /\ streaming_bytes sample = Ok s.
Proof.
  assert (Hw : well_keyed sample = true) by (vm_compute; reflexivity).
  pose proof (streaming_equals_dumps sample Hw) as H.
  destruct (dumps sample) as [s|e] eqn:E; [exists s; split; [reflexivity|exact H]|].
  vm_compute in E. discriminate E.
Defined.

Lemma streamed_fingerprint_witness :
  exists h, fingerprint sample = Ok h /\ fingerprint_streaming 8 sample = Ok h.
Proof.
  assert (Hw : well_keyed sample = true) by (vm_compute; reflexivity).
  pose proof (streamed_fingerprint 8 sample Hw ltac:(lia)) as [H _].
  destruct (fingerprint sample) as [h|e] eqn:E; [exists h; split; [reflexivity|exact H]|].
  vm_compute in E. discriminate E.
Defined.

Lemma sample_same : same_content None sample shuffled.
Proof.
  apply same_trans with (EMapping true [("b", EList [EInt 2; EBytes "Ma"]);
    ("reason_codes", EList [EStr "z"; EStr "a"]);
    ("a", ESet [EDecimal (Some (150, -1)); EStr "12"])]).
  { apply (same_item None true [] _ "b"), same_tuple. }
  apply same_trans with (EMapping true [("b", EList [EInt 2; EBytes "Ma"]);
    ("reason_codes", EList [EStr "a"; EStr "z"]);
    ("a", ESet [EDecimal (Some (150, -1)); EStr "12"])]).
  { apply (same_item None true [_] _ "reason_codes"), same_unordered; [done|]. constructor. }
  apply same_trans with (EMapping true [("b", EList [EInt 2; EBytes "Ma"]);
    ("reason_codes", EList [EStr "a"; EStr "z"]);
    ("a", ESet [EStr "12"; EDecimal (Some (150, -1))])]).
  { apply (same_item None true [_; _] _ "a"), same_set. constructor. }
  apply same_mapping. solve_Permutation.
Qed.

Lemma fingerprint_ignores_order_witness :
  exists h, fingerprint sample = Ok h /\ fingerprint shuffled = Ok h.
Proof.
  pose proof (fingerprint_ignores_order sample shuffled sample_same
    ltac:(vm_compute; reflexivity) ltac:(vm_compute; reflexivity)) as H.
  destruct (fingerprint sample) as [h|e] eqn:E; [exists h; split; [reflexivity|exact H]|].
  vm_compute in E. discriminate E.
Defined.

(** An envelope whose metrics went through the serializer. *)
Definition sample_policies : string -> string -> result unit := fun _ _ => mret ().
Definition sample_research (_ _ : string) (_ : Readiness.ProducerReadinessEnvelope) (_ : option dict)
  : result Readiness.ConsumerEligibilityDecision := ValueError "no research policy".
Definition sample_args : Readiness.ProducerReadinessEnvelope :=
  Readiness.mkEnvelope (VStr "TECHNICAL") Readiness.READY (VStr "identity") []
    [Readiness.PRODUCER_WARNING; Readiness.LOW_NATIVE_CONFIDENCE; Readiness.PRODUCER_WARNING]
    [("a", VInt 1); ("reason_codes", VList [VStr "p"; VStr "q"])] [] [] [] [] VNone VNone
    (VStr "producer-readiness-v1") (VInt 7).
Definition sample_envelope : Readiness.ProducerReadinessEnvelope :=
  match Readiness.make_envelope sample_args with Ok e => e | Raise _ => sample_args end.

Lemma readiness_roundtrip_serialized_witness :
  Readiness.from_payload (Evidence := serializer sample_policies sample_research)
    (VDict (Readiness.to_dto sample_envelope)) = Ok sample_envelope.
Proof.
  apply (readiness_roundtrip_serialized sample_policies sample_research sample_args).
  - vm_compute. reflexivity.
  - unfold Readiness.frozen_metrics.
    apply Forall_cons; split; [exists (VDict (Readiness.native_confidence sample_args)); vm_compute; reflexivity|].
    repeat (apply Forall_cons; split; [exists (VDict []); vm_compute; reflexivity|]). apply Forall_nil. exact I.
Defined.
