(* ===== verification/PyDecimal.v ===== *)
(** * Python's [decimal.Decimal]

    Finite decimal numbers and the operations of the default context: 28 significant
    digits, rounding half to even.  Every operation is the exact result, as a rational
    number, rounded once; this is how the General Decimal Arithmetic specification
    defines them.  Only the value of a number is modelled: signed zeros, trailing
    zeros, NaN and infinities are not, and exponents are not bounded. *)
From Stdlib Require Import ZArith QArith Qabs Qround Qpower Lia Lqa List Bool String.
From stdpp Require Import base list strings.
From S2P Require Import Prelude PyDate PyFloat PyValue Canonical.
Local Open Scope Z_scope.

(** [Dec c e] is the number [c * 10 ^ e]. *)
Record decimal := Dec { coef : Z; dexp : Z }.

#[export] Instance decimal_eq_dec : EqDecision decimal.
Proof. solve_decision. Defined.

(** ** Values *)

Definition ten : Q := 10 # 1.
Definition dval (d : decimal) : Q := (inject_Z (coef d) * ten ^ dexp d)%Q.

(** The integer nearest to a rational, ties to even. *)
Definition round_Q (q : Q) : Z := round_half_even (Qnum q) (Zpos (Qden q)).

(** The number of decimal digits of a positive integer. *)
Definition digits (n : Z) : Z := digit_count (S (Z.to_nat (Z.log2 n))) n.

Definition prec : Z := 28.

(** The exponent that leaves 28 digits before the point. *)
Definition scale_of (q : Q) : Z :=
  let e := digits (Z.abs (Qnum q)) - digits (Zpos (Qden q)) - prec in
  if Qle_bool (ten ^ (e + prec)) (Qabs q) then e + 1 else e.

(** The rounding of the context. *)
Definition context_round (q : Q) : decimal :=
  if Qnum q =? 0 then Dec 0 0
  else let e := scale_of q in Dec (round_Q (q * ten ^ (- e))) e.

(** ** Operations *)

Definition of_int (n : Z) : decimal := Dec n 0.
Definition dadd (a b : decimal) : decimal := context_round (dval a + dval b).
Definition dsub (a b : decimal) : decimal := context_round (dval a - dval b).
Definition dmul (a b : decimal) : decimal := context_round (dval a * dval b).
Definition ddiv (a b : decimal) : result decimal :=
  if coef b =? 0 then
    if coef a =? 0 then raise "InvalidOperation" "DivisionUndefined"
    else raise "DivisionByZero" ""
  else Ok (context_round (dval a / dval b)).

(** [a.quantize(Decimal(10) ** e)]: an error when the result needs more digits than the
    context has. *)
Definition quantize (e : Z) (a : decimal) : result decimal :=
  let c := round_Q (dval a * ten ^ (- e)) in
  if 10 ^ prec <=? Z.abs c then raise "InvalidOperation" "" else Ok (Dec c e).

Definition dle (a b : decimal) : bool := Qle_bool (dval a) (dval b).
Definition dlt (a b : decimal) : bool := negb (dle b a).
Definition deq (a b : decimal) : bool := Qeq_bool (dval a) (dval b).

(** [min(a, b)] and [max(a, b)] keep the first argument unless the second is better. *)
Definition dmin (a b : decimal) : decimal := if dlt b a then b else a.
Definition dmax (a b : decimal) : decimal := if dlt a b then b else a.

Declare Scope dec_scope.
Delimit Scope dec_scope with dec.
Notation "a <=? b" := (dle a b) (at level 70) : dec_scope.
Notation "a <? b" := (dlt a b) (at level 70) : dec_scope.
Notation "a ≼ b" := (dval a <= dval b)%Q (at level 70).

(** ** Order *)

Lemma dle_spec a b : dle a b = true <-> a ≼ b.
Proof. apply Qle_bool_iff. Qed.

Lemma dlt_spec a b : dlt a b = true <-> (dval a < dval b)%Q.
Proof.
  unfold dlt. rewrite negb_true_iff. split.
  - intros H. apply Qnot_le_lt. intros C. apply dle_spec in C. congruence.
  - intros H. destruct (dle b a) eqn:E; [|done]. apply dle_spec in E. lra.
Qed.

Lemma dlt_false a b : dlt a b = false <-> b ≼ a.
Proof. unfold dlt. rewrite negb_false_iff. apply dle_spec. Qed.

Lemma dle_false a b : dle a b = false <-> (dval b < dval a)%Q.
Proof. rewrite <- dlt_spec. unfold dlt. by destruct (dle a b). Qed.

(** ** Rounding to integers *)

Lemma round_half_even_spec n d : 0 < d ->
  let k := round_half_even n d in
  2 * Z.abs (n - k * d) <= d /\ (2 * Z.abs (n - k * d) = d -> Z.even k = true).
Proof.
  intros Hd. cbv zeta. unfold round_half_even.
  pose proof (Z.div_mod n d ltac:(lia)) as Hn. pose proof (Z.mod_pos_bound n d Hd) as Hr.
  set (q := n / d) in *. set (r := n mod d) in *.
  assert (E0 : n - q * d = r) by lia.
  assert (E1 : n - (q + 1) * d = r - d) by lia.
  destruct (Z.compare_spec (2 * r) d) as [E|E|E].
  - destruct (Z.even q) eqn:Ev; rewrite ?E0, ?E1; split; try lia; intros _; [done|].
    by rewrite Z.even_add, Ev.
  - rewrite E0. lia.
  - rewrite E1. lia.
Qed.

Lemma round_half_even_mono n1 d1 n2 d2 : 0 < d1 -> 0 < d2 -> n1 * d2 <= n2 * d1 ->
  round_half_even n1 d1 <= round_half_even n2 d2.
Proof.
  intros H1 H2 Hle.
  pose proof (round_half_even_spec n1 d1 H1) as [B1 T1].
  pose proof (round_half_even_spec n2 d2 H2) as [B2 T2].
  set (k1 := round_half_even n1 d1) in *. set (k2 := round_half_even n2 d2) in *.
  destruct (Z_le_gt_dec k1 k2) as [|Hgt]; [done|exfalso].
  assert (L1 : (2 * k1 - 1) * d1 <= 2 * n1) by lia.
  assert (L2 : 2 * n2 <= (2 * k2 + 1) * d2) by lia.
  assert (M1 : (2 * k1 - 1) * d1 * d2 <= 2 * n1 * d2) by nia.
  assert (M2 : 2 * n2 * d1 <= (2 * k2 + 1) * d2 * d1) by nia.
  assert (Hd : 0 < d1 * d2) by nia.
  assert (k1 = k2 + 1) as E by nia.
  assert (2 * n1 = (2 * k1 - 1) * d1) as E1 by nia.
  assert (2 * n2 = (2 * k2 + 1) * d2) as E2 by nia.
  assert (Z.even k1 = true) by (apply T1; lia).
  assert (Z.even k2 = true) by (apply T2; lia).
  subst k1. rewrite E, Z.even_add in *. by destruct (Z.even k2).
Qed.

Lemma round_Q_mono p q : (p <= q)%Q -> round_Q p <= round_Q q.
Proof. unfold Qle, round_Q. intros H. by apply round_half_even_mono. Qed.

#[export] Instance round_Q_proper : Proper (Qeq ==> eq) round_Q.
Proof. intros p q H. apply Z.le_antisymm; apply round_Q_mono; rewrite H; apply Qle_refl. Qed.

Lemma round_Q_int z : round_Q (inject_Z z) = z.
Proof.
  unfold round_Q. pose proof (round_half_even_spec z 1 ltac:(lia)) as [B _]. simpl in *. lia.
Qed.

Lemma round_Q_upper q z : (q <= inject_Z z)%Q -> round_Q q <= z.
Proof. intros H. apply round_Q_mono in H. by rewrite round_Q_int in H. Qed.

Lemma round_Q_lower q z : (inject_Z z <= q)%Q -> z <= round_Q q.
Proof. intros H. apply round_Q_mono in H. by rewrite round_Q_int in H. Qed.

(** ** The scale of a number *)

Lemma ten_pos e : (0 < ten ^ e)%Q.
Proof. by apply Qpower_0_lt. Qed.

Lemma ten_plus a b : (ten ^ (a + b) == ten ^ a * ten ^ b)%Q.
Proof. by apply Qpower_plus. Qed.

Lemma ten_inv e : (ten ^ e * ten ^ (- e) == 1)%Q.
Proof. rewrite <- ten_plus. by rewrite Z.add_opp_diag_r. Qed.

Lemma ten_le a b : a <= b -> (ten ^ a <= ten ^ b)%Q.
Proof. intros. by apply Qpower_le_compat_l. Qed.

Lemma ten_int e : 0 <= e -> (ten ^ e == inject_Z (10 ^ e))%Q.
Proof. intros. symmetry. by apply (Zpower_Qpower 10). Qed.

Lemma digit_count_spec fuel n : 0 < n -> n < 10 ^ Z.of_nat fuel ->
  let k := digit_count fuel n in 1 <= k /\ 10 ^ (k - 1) <= n < 10 ^ k.
Proof.
  revert n. induction fuel as [|fuel IH]; intros n Hn Hf; simpl digit_count.
  { simpl in Hf. lia. }
  destruct (n <? 10) eqn:E; [apply Z.ltb_lt in E|apply Z.ltb_ge in E].
  { cbv zeta. simpl. lia. }
  rewrite Nat2Z.inj_succ, Z.pow_succ_r in Hf by lia.
  assert (Hlt : n / 10 < 10 ^ Z.of_nat fuel) by (apply Z.div_lt_upper_bound; lia).
  assert (Hpos : 0 < n / 10) by (apply Z.div_str_pos; lia).
  specialize (IH _ Hpos Hlt). cbv zeta in *. destruct IH as [K [L U]].
  set (k := digit_count fuel (n / 10)) in *.
  pose proof (Z.div_mod n 10 ltac:(lia)). pose proof (Z.mod_pos_bound n 10 ltac:(lia)).
  replace (1 + k - 1) with (Z.succ (k - 1)) by lia. replace (1 + k) with (Z.succ k) by lia.
  rewrite !Z.pow_succ_r by lia. lia.
Qed.

Lemma decimal_digits_spec n : 0 < n -> 10 ^ (digits n - 1) <= n < 10 ^ digits n.
Proof.
  intros Hn. unfold digits. apply digit_count_spec; [done|].
  pose proof (Z.log2_spec n Hn) as [_ H]. pose proof (Z.log2_nonneg n).
  rewrite Nat2Z.inj_succ, Z2Nat.id by done.
  eapply Z.lt_le_trans; [exact H|]. apply Z.pow_le_mono_l. lia.
Qed.

Lemma digits_pos n : 0 < n -> 1 <= digits n.
Proof.
  intros Hn. destruct (Z_lt_le_dec (digits n) 1) as [H|]; [|done].
  pose proof (decimal_digits_spec n Hn) as [_ U].
  destruct (Z.eq_dec (digits n) 0) as [E|E].
  - rewrite E in U. simpl in U. lia.
  - rewrite Z.pow_neg_r in U by lia. lia.
Qed.

(** A positive rational lies between the powers of ten that its digits give. *)
Lemma digits_ratio n d : 0 < n ->
  (ten ^ (digits n - digits (Zpos d) - 1) < n # d < ten ^ (digits n - digits (Zpos d) + 1))%Q.
Proof.
  intros Hn. pose proof (decimal_digits_spec n Hn) as [NL NU].
  pose proof (digits_pos n Hn). pose proof (digits_pos (Zpos d) eq_refl).
  pose proof (decimal_digits_spec (Zpos d) eq_refl) as [DL DU].
  set (a := digits n) in *. set (b := digits (Zpos d)) in *.
  assert (Q : (n # d == inject_Z n / inject_Z (Zpos d))%Q) by apply Qmake_Qdiv.
  assert (Hd : (0 < inject_Z (Zpos d))%Q) by done.
  rewrite Q. split.
  - apply Qlt_shift_div_l; [done|].
    apply Qlt_le_trans with (ten ^ (a - b - 1) * ten ^ b)%Q.
    + apply Qmult_lt_l; [apply ten_pos|]. rewrite ten_int by lia. by rewrite <- Zlt_Qlt.
    + rewrite <- ten_plus. replace (a - b - 1 + b) with (a - 1) by lia.
      rewrite ten_int by lia. by rewrite <- Zle_Qle.
  - apply Qlt_shift_div_r; [done|].
    apply Qlt_le_trans with (ten ^ (a - b + 1) * ten ^ (b - 1))%Q.
    + rewrite <- ten_plus. replace (a - b + 1 + (b - 1)) with a by lia.
      rewrite ten_int by lia. by rewrite <- Zlt_Qlt.
    + apply Qmult_le_l; [apply ten_pos|]. rewrite ten_int by lia. by rewrite <- Zle_Qle.
Qed.

Lemma scale_of_spec q : (0 < q)%Q ->
  (ten ^ (scale_of q + 27) <= q < ten ^ (scale_of q + 28))%Q.
Proof.
  intros Hq. destruct q as [n d]. unfold scale_of. simpl Qnum; simpl Qden.
  assert (Hn : 0 < n) by (unfold Qlt in Hq; simpl in Hq; lia).
  rewrite (Z.abs_eq n), (Qabs_pos (n # d)) by (lia || by apply Qlt_le_weak).
  pose proof (digits_ratio n d Hn) as [L U].
  set (e := digits n - digits (Zpos d) - prec).
  replace (digits n - digits (Zpos d) - 1) with (e + 27) in L by (unfold e, prec; lia).
  replace (digits n - digits (Zpos d) + 1) with (e + 1 + 28) in U by (unfold e, prec; lia).
  destruct (Qle_bool (ten ^ (e + prec)) (n # d)) eqn:E.
  - apply Qle_bool_iff in E. replace (e + 1 + 27) with (e + prec) by (unfold prec; lia). lra.
  - assert ((n # d < ten ^ (e + prec))%Q).
    { apply Qnot_le_lt. intros C. apply Qle_bool_iff in C. congruence. }
    replace (e + 28) with (e + prec) by (unfold prec; lia). lra.
Qed.

(** ** The rounding of the context is monotone, odd and exact on 28 digits *)

Lemma round_half_even_unique n d k : 0 < d -> 2 * Z.abs (n - k * d) <= d ->
  (2 * Z.abs (n - k * d) = d -> Z.even k = true) -> round_half_even n d = k.
Proof.
  intros Hd B T. pose proof (round_half_even_spec n d Hd) as [B' T'].
  set (k' := round_half_even n d) in *.
  assert (Z.abs (k' - k) * d <= d) by nia.
  assert (k' = k \/ k' = k + 1 \/ k' = k - 1) as [?|[E|E]] by nia; [done|..]; exfalso;
    assert (Z.even k = true) as Ev by (apply T; nia);
    assert (Z.even k' = true) as Ev' by (apply T'; nia);
    rewrite E, ?Z.even_add, ?Z.even_sub, Ev in Ev'; done.
Qed.

Lemma round_Q_opp q : round_Q (- q) = - round_Q q.
Proof.
  unfold round_Q. simpl Qnum; simpl Qden.
  pose proof (round_half_even_spec (Qnum q) (Zpos (Qden q)) eq_refl) as [B T].
  set (k := round_half_even _ _) in *. set (d := Zpos (Qden q)) in *.
  assert (E : - Qnum q - - k * d = - (Qnum q - k * d)) by lia.
  apply round_half_even_unique; [done|..]; rewrite E, Z.abs_opp; [done|].
  intros H. rewrite Z.even_opp. by apply T.
Qed.

Lemma scale_of_opp q : scale_of (- q) = scale_of q.
Proof. unfold scale_of. simpl Qnum; simpl Qden. by rewrite Z.abs_opp, Qabs_opp. Qed.

#[local] Instance Qle_bool_proper : Proper (Qeq ==> Qeq ==> eq) Qle_bool.
Proof.
  intros a b H c d H'. apply eq_true_iff_eq. rewrite !Qle_bool_iff. by rewrite H, H'.
Qed.

Lemma context_round_opp q : (dval (context_round (- q)) == - dval (context_round q))%Q.
Proof.
  unfold context_round. simpl Qnum. rewrite scale_of_opp.
  destruct (Z.eqb_spec (Qnum q) 0) as [E|E].
  { rewrite E. reflexivity. }
  replace (- Qnum q =? 0) with false by (symmetry; apply Z.eqb_neq; lia).
  unfold dval; simpl coef; simpl dexp.
  assert (H : (- q * ten ^ (- scale_of q) == - (q * ten ^ (- scale_of q)))%Q) by ring.
  rewrite H, round_Q_opp, inject_Z_opp. ring.
Qed.

Lemma round_Q_shift q e : (q * ten ^ (- e) * ten ^ e == q)%Q.
Proof. rewrite <- Qmult_assoc, (Qmult_comm (ten ^ _)), ten_inv. apply Qmult_1_r. Qed.

Lemma Qnum_pos q : (0 < q)%Q -> (Qnum q =? 0) = false.
Proof. destruct q as [n d]. unfold Qlt. simpl. intros. apply Z.eqb_neq. lia. Qed.

Lemma context_round_pos q : (0 < q)%Q ->
  (ten ^ (scale_of q + 27) <= dval (context_round q) <= ten ^ (scale_of q + 28))%Q.
Proof.
  intros Hq. pose proof (scale_of_spec q Hq) as [L U].
  unfold context_round. rewrite (Qnum_pos q Hq). unfold dval; simpl coef; simpl dexp.
  set (e := scale_of q) in *. pose proof (ten_pos e) as He. pose proof (ten_pos (- e)) as He'.
  rewrite (Z.add_comm e 27), (Z.add_comm e 28), !ten_plus in *.
  assert (I : forall x, (x * ten ^ e * ten ^ (- e) == x)%Q).
  { intros x. rewrite <- Qmult_assoc, ten_inv. apply Qmult_1_r. }
  pose proof (ten_int 27 ltac:(lia)) as E27. pose proof (ten_int 28 ltac:(lia)) as E28.
  split; apply Qmult_le_compat_r; try lra.
  - rewrite E27, <- Zle_Qle. apply round_Q_lower. rewrite <- E27, <- (I (ten ^ 27)%Q).
    apply Qmult_le_compat_r; lra.
  - rewrite E28, <- Zle_Qle. apply round_Q_upper. rewrite <- E28, <- (I (ten ^ 28)%Q).
    apply Qmult_le_compat_r; lra.
Qed.

Lemma context_round_mono_pos p q : (0 < p)%Q -> (p <= q)%Q ->
  context_round p ≼ context_round q.
Proof.
  intros Hp Hpq. assert (Hq : (0 < q)%Q) by lra.
  pose proof (scale_of_spec p Hp) as [Lp _]. pose proof (scale_of_spec q Hq) as [_ Uq].
  destruct (Z.lt_trichotomy (scale_of p) (scale_of q)) as [E|[E|E]].
  - pose proof (context_round_pos p Hp) as [_ U]. pose proof (context_round_pos q Hq) as [L _].
    pose proof (ten_le (scale_of p + 28) (scale_of q + 27) ltac:(lia)). lra.
  - unfold context_round. rewrite (Qnum_pos p Hp), (Qnum_pos q Hq), E.
    unfold dval; simpl coef; simpl dexp. pose proof (ten_pos (scale_of q)).
    pose proof (ten_pos (- scale_of q)).
    apply Qmult_le_compat_r; [|lra]. rewrite <- Zle_Qle. apply round_Q_mono.
    apply Qmult_le_compat_r; lra.
  - pose proof (ten_le (scale_of q + 28) (scale_of p + 27) ltac:(lia)). lra.
Qed.

Lemma context_round_zero q : (q == 0)%Q -> context_round q = Dec 0 0.
Proof.
  intros H. unfold context_round. unfold Qeq in H. simpl in H.
  replace (Qnum q =? 0) with true; [done|]. symmetry. apply Z.eqb_eq. lia.
Qed.

Lemma context_round_nonneg q : (0 <= q)%Q -> (0 <= dval (context_round q))%Q.
Proof.
  intros H. destruct (Qlt_le_dec 0 q) as [Hp|Hn].
  - pose proof (context_round_pos q Hp) as [L _]. pose proof (ten_pos (scale_of q + 27)). lra.
  - rewrite context_round_zero by lra. by vm_compute.
Qed.

(** Rounding to 28 digits keeps the order of any two numbers. *)
Lemma context_round_mono p q : (p <= q)%Q -> context_round p ≼ context_round q.
Proof.
  intros H. destruct (Qlt_le_dec 0 p) as [Hp|Hp]; [by apply context_round_mono_pos|].
  destruct (Qlt_le_dec q 0) as [Hq|Hq].
  - pose proof (context_round_mono_pos (- q) (- p) ltac:(lra) ltac:(lra)) as M.
    rewrite !context_round_opp in M. lra.
  - pose proof (context_round_nonneg q Hq). pose proof (context_round_nonneg (- p) ltac:(lra)) as N.
    rewrite context_round_opp in N. lra.
Qed.

#[export] Instance context_round_proper :
  Proper (Qeq ==> (fun a b => dval a == dval b)%Q) context_round.
Proof. intros p q H. apply Qle_antisym; apply context_round_mono; lra. Qed.

(** A number of at most 28 digits is not changed. *)
Lemma context_round_exact c e : Z.abs c < 10 ^ 28 ->
  (dval (context_round (dval (Dec c e))) == dval (Dec c e))%Q.
Proof.
  assert (P : forall c, 0 < c < 10 ^ 28 ->
    (dval (context_round (dval (Dec c e))) == dval (Dec c e))%Q).
  { clear c. intros c Hc. set (q := dval (Dec c e)).
    assert (Hq : (0 < q)%Q).
    { unfold q, dval; simpl. rewrite <- (Qmult_0_l (ten ^ e)).
      apply Qmult_lt_compat_r; [apply ten_pos|]. change 0%Q with (inject_Z 0).
      rewrite <- Zlt_Qlt. lia. }
    pose proof (scale_of_spec q Hq) as [L _]. set (s := scale_of q) in *.
    assert (Hs : s <= e).
    { assert (H : (ten ^ (s + 27) < ten ^ (e + 28))%Q).
      { eapply Qle_lt_trans; [exact L|]. unfold q, dval; simpl coef; simpl dexp.
        rewrite (Z.add_comm e 28), ten_plus. apply Qmult_lt_compat_r; [apply ten_pos|].
        rewrite ten_int by lia. rewrite <- Zlt_Qlt. lia. }
      apply Qpower_lt_compat_l_inv in H; [lia|done]. }
    unfold context_round. rewrite (Qnum_pos q Hq). fold s.
    assert (E : (q * ten ^ (- s) == inject_Z (c * 10 ^ (e - s)))%Q).
    { unfold q, dval; simpl coef; simpl dexp. rewrite inject_Z_mult, <- ten_int by lia.
      rewrite <- Qmult_assoc, <- ten_plus. reflexivity. }
    transitivity (q * ten ^ (- s) * ten ^ s)%Q; [|apply round_Q_shift].
    change (inject_Z (round_Q (q * ten ^ (- s))) * ten ^ s == q * ten ^ (- s) * ten ^ s)%Q.
    rewrite (round_Q_proper _ _ E), round_Q_int. apply Qmult_comp; [|reflexivity]. by symmetry. }
  intros Hc. destruct (Z.lt_trichotomy c 0) as [H|[->|H]].
  - assert (E : (dval (Dec c e) == - dval (Dec (- c) e))%Q).
    { unfold dval; simpl. rewrite inject_Z_opp. ring. }
    pose proof (P (- c) ltac:(lia)) as Pc.
    rewrite (context_round_proper _ _ E), context_round_opp, Pc, E. reflexivity.
  - by rewrite context_round_zero by (unfold dval; simpl; ring).
  - apply P. lia.
Qed.

(** ** The operations keep the order *)

Lemma dsub_mono a a' b : a ≼ a' -> dsub a b ≼ dsub a' b.
Proof. intros H. apply context_round_mono. lra. Qed.

Lemma dmul_mono a a' b : (0 <= dval b)%Q -> a ≼ a' -> dmul a b ≼ dmul a' b.
Proof. intros Hb H. apply context_round_mono. by apply Qmult_le_compat_r. Qed.

Lemma dadd_mono_r a b b' : b ≼ b' -> dadd a b ≼ dadd a b'.
Proof. intros H. apply context_round_mono. lra. Qed.

Lemma dsub_anti a b b' : b ≼ b' -> dsub a b' ≼ dsub a b.
Proof. intros H. apply context_round_mono. lra. Qed.

Lemma dmul_mono_r a b b' : (0 <= dval a)%Q -> b ≼ b' -> dmul a b ≼ dmul a b'.
Proof.
  intros Ha H. apply context_round_mono. rewrite !(Qmult_comm (dval a)).
  by apply Qmult_le_compat_r.
Qed.

Lemma coef_pos a : (0 < dval a)%Q -> (coef a =? 0) = false.
Proof.
  intros H. apply Z.eqb_neq. intros E. unfold dval in H. rewrite E in H.
  rewrite Qmult_0_l in H. by apply Qlt_irrefl in H.
Qed.

Lemma ddiv_mono a a' b : (0 < dval b)%Q -> a ≼ a' ->
  exists q q', ddiv a b = Ok q /\ ddiv a' b = Ok q' /\ q ≼ q'.
Proof.
  intros Hb H. unfold ddiv. rewrite (coef_pos b Hb). eexists _, _. do 2 (split; [reflexivity|]).
  apply context_round_mono. apply Qmult_le_compat_r; [done|]. apply Qlt_le_weak.
  by apply Qinv_lt_0_compat.
Qed.

Lemma quantize_mono e a a' q q' : a ≼ a' ->
  quantize e a = Ok q -> quantize e a' = Ok q' -> q ≼ q'.
Proof.
  unfold quantize. cbv zeta. intros H E E'. repeat case_match; try discriminate.
  apply Ok_inj in E, E'. subst q q'.
  unfold dval; simpl coef; simpl dexp. pose proof (ten_pos e). pose proof (ten_pos (- e)).
  apply Qmult_le_compat_r; [|lra]. rewrite <- Zle_Qle. apply round_Q_mono.
  apply Qmult_le_compat_r; [exact H|]. apply Qlt_le_weak, ten_pos.
Qed.

Lemma quantize_dexp e a q : quantize e a = Ok q -> dexp q = e.
Proof. unfold quantize. intros. by case_match; simplify_eq/=. Qed.

(** A quantized number is within half a unit of its last place. *)
Lemma quantize_nearest e a q : quantize e a = Ok q ->
  (Qabs (dval a - dval q) <= (1 # 2) * ten ^ e)%Q.
Proof.
  unfold quantize. cbv zeta. intros E. case_match; [discriminate|]. apply Ok_inj in E. subst q.
  change (dval (Dec ?c e)) with (inject_Z c * ten ^ e)%Q.
  set (x := (dval a * ten ^ (- e))%Q).
  assert (N : (Qabs (x - inject_Z (round_Q x)) <= 1 # 2)%Q).
  { pose proof (round_half_even_spec (Qnum x) (Zpos (Qden x)) eq_refl) as [B _].
    unfold round_Q. set (k := round_half_even _ _) in *. destruct x as [n d]. simpl in *.
    unfold Qabs, Qle, Qminus, Qplus. simpl. rewrite ?Pos.mul_1_r. lia. }
  assert (E : (dval a - inject_Z (round_Q x) * ten ^ e == (x - inject_Z (round_Q x)) * ten ^ e)%Q).
  { rewrite <- (round_Q_shift (dval a) e) at 1. fold x. ring. }
  rewrite E, Qabs_Qmult, (Qabs_pos (ten ^ e)) by (pose proof (ten_pos e); lra).
  apply Qmult_le_compat_r; [done|]. pose proof (ten_pos e). lra.
Qed.

Lemma quantize_zero e a : (dval a == 0)%Q -> quantize e a = Ok (Dec 0 e).
Proof.
  intros H. unfold quantize. assert (E : (dval a * ten ^ (- e) == inject_Z 0)%Q).
  { rewrite H. ring. }
  by rewrite (round_Q_proper _ _ E), round_Q_int.
Qed.
