(* ===== verification/PriceBars.v ===== *)
(** * The price bar cache: [app/services/bar_cache_service.py] and
    [app/services/price_series_version_service.py]

    Daily bars fetched from the broker are written to [price_bars].  A bar that is
    already stored with the same contents (by hash) is only marked as seen; one with
    other contents is revised in place, and the previous contents go to the ledger
    [price_bar_revisions].  [price_series_versions] counts the changes of each series.

    The tables are the store [PriceDb].  [existing] is read once, before the loop, so it
    does not know the rows that the same call adds: a second bar with the key of such a
    row violates the unique constraint of [price_bars].  The row objects of [existing]
    are the stored rows, so a row revised by one bar is seen revised by the next.  The
    hash function and the text of floats ([Decimal(str(x))]) are operations of a class;
    the metrics published after the commit are not modelled. *)
From Stdlib Require Import ZArith Lia List String Ascii Bool.
From stdpp Require Import base gmap list strings.
From S2P Require Import Prelude PyDate PyFloat PyValue Canonical PyDecimal.
Local Open Scope string_scope.
Local Open Scope list_scope.
Local Open Scope Z_scope.
Local Open Scope st_scope.

Class BarText := {
  (** [Decimal(str(x))] of a finite float. *)
  decimal_of_float : float -> decimal;
  md5 : string -> string;
}.

(** ** Rows *)

(** [ib_data_fetcher.HistoricalBar]. *)
Module HBar.
Record HistoricalBar := mk {
  ticker : string;
  bar_date : date;
  timeframe : string;
  open : option float;
  high : option float;
  low : option float;
  close : option float;
  volume : option float;
  source : string;
  what_to_show : string;
  adjustment_type : option string;
}.
End HBar.
Abbreviation HistoricalBar := HBar.HistoricalBar.

(** [tables.PriceBar]. *)
Module Bar.
Record PriceBar := mk {
  id : Z;
  ticker : string;
  bar_date : date;
  timeframe : string;
  open : option decimal;
  high : option decimal;
  low : option decimal;
  close : option decimal;
  volume : option decimal;
  source : string;
  what_to_show : string;
  adjustment_type : option string;
  first_fetch_run_id : option Z;
  first_fetch_item_id : option Z;
  created_at : datetime;
  first_seen_at : datetime;
  last_seen_at : datetime;
  revised_at : option datetime;
  revision_count : Z;
  data_hash : option string;
}.
End Bar.
Abbreviation PriceBar := Bar.PriceBar.

(** [tables.PriceBarRevision]; the JSON columns hold texts. *)
Module Revision.
Record PriceBarRevision := mk {
  price_bar_id : Z;
  ticker : string;
  bar_date : date;
  timeframe : string;
  what_to_show : string;
  revision_number : Z;
  previous_data_hash : string;
  new_data_hash : string;
  previous_values_json : list (string * option string);
  new_values_json : list (string * option string);
  source : string;
  adjustment_type : option string;
  fetch_run_id : option Z;
  fetch_item_id : option Z;
  observed_at : datetime;
}.
End Revision.
Abbreviation PriceBarRevision := Revision.PriceBarRevision.

(** [tables.PriceSeriesVersion], but for its key and its creation time. *)
Module Series.
Record PriceSeriesVersion := mk {
  series_version : Z;
  bar_count : Z;
  first_bar_date : option date;
  latest_bar_date : option date;
  last_changed_at : datetime;
}.
End Series.
Abbreviation PriceSeriesVersion := Series.PriceSeriesVersion.

Abbreviation SeriesIdentity := (string * string * string)%type (only parsing).
Abbreviation BarKey := (string * date * string * string)%type (only parsing).

(** [server_now] is the clock of the database, the default of [created_at]. *)
Record PriceDb := mkPriceDb {
  price_bars : gmap Z PriceBar;
  price_bar_revisions : list PriceBarRevision;
  price_series_versions : gmap SeriesIdentity PriceSeriesVersion;
  next_bar_id : Z;
  server_now : datetime;
}.

Definition put_bar (row : PriceBar) (db : PriceDb) : PriceDb :=
  mkPriceDb (<[Bar.id row := row]> (price_bars db)) (price_bar_revisions db)
    (price_series_versions db) (next_bar_id db) (server_now db).

Definition add_revision (row : PriceBarRevision) (db : PriceDb) : PriceDb :=
  mkPriceDb (price_bars db) (price_bar_revisions db ++ [row])
    (price_series_versions db) (next_bar_id db) (server_now db).

Definition put_series (key : SeriesIdentity) (row : PriceSeriesVersion) (db : PriceDb) : PriceDb :=
  mkPriceDb (price_bars db) (price_bar_revisions db)
    (<[key := row]> (price_series_versions db)) (next_bar_id db) (server_now db).

Definition bar_rows (db : PriceDb) : list PriceBar := map snd (map_to_list (price_bars db)).

(** The columns of the unique constraint of [price_bars]. *)
Definition stored_key (row : PriceBar) : BarKey :=
  (Bar.ticker row, Bar.bar_date row, Bar.timeframe row, Bar.what_to_show row).

(** [INSERT]: the identifier is the next of the sequence, a taken key is an error. *)
Definition insert_bar (row : Z -> PriceBar) (db : PriceDb) : result unit * PriceDb :=
  let new := row (next_bar_id db) in
  if existsb (fun r => bool_decide (stored_key r = stored_key new)) (bar_rows db)
  then (raise "IntegrityError" "uq_price_bars_ticker_date_timeframe_what_to_show", db)
  else (Ok tt,
        mkPriceDb (<[next_bar_id db := new]> (price_bars db)) (price_bar_revisions db)
          (price_series_versions db) (next_bar_id db + 1) (server_now db)).

(** ** Contents and hashes *)

Section Cache.
Context `{BarText}.

Definition _decimal_or_none (value : option float) : option decimal :=
  decimal_of_float <$> value.

(** [format(Decimal(str(value)).normalize(), "f")]. *)
Definition normalized_text (d : decimal) : string := decimal_text (coef d) (dexp d).

Definition _json_decimal (value : option decimal) : option string := normalized_text <$> value.

Definition _hash_decimal (value : option decimal) : string :=
  match value with None => "" | Some d => normalized_text d end.

Definition or_empty (s : option string) : string := match s with Some s => s | None => "" end.

Definition _hash_bar_values (open_value high_value low_value close_value volume_value : option decimal)
    (source what_to_show : string) (adjustment_type : option string) : string :=
  md5 (String.concat "|"
         [_hash_decimal open_value; _hash_decimal high_value; _hash_decimal low_value;
          _hash_decimal close_value; _hash_decimal volume_value; source; what_to_show;
          or_empty adjustment_type]).

Definition bar_data_hash (bar : HistoricalBar) : string :=
  _hash_bar_values (_decimal_or_none (HBar.open bar)) (_decimal_or_none (HBar.high bar))
    (_decimal_or_none (HBar.low bar)) (_decimal_or_none (HBar.close bar))
    (_decimal_or_none (HBar.volume bar)) (HBar.source bar) (HBar.what_to_show bar)
    (HBar.adjustment_type bar).

Definition price_bar_data_hash (row : PriceBar) : string :=
  _hash_bar_values (Bar.open row) (Bar.high row) (Bar.low row) (Bar.close row) (Bar.volume row)
    (Bar.source row) (Bar.what_to_show row) (Bar.adjustment_type row).

Definition _price_bar_values (row : PriceBar) : list (string * option string) :=
  [("open", _json_decimal (Bar.open row)); ("high", _json_decimal (Bar.high row));
   ("low", _json_decimal (Bar.low row)); ("close", _json_decimal (Bar.close row));
   ("volume", _json_decimal (Bar.volume row)); ("source", Some (Bar.source row));
   ("what_to_show", Some (Bar.what_to_show row)); ("adjustment_type", Bar.adjustment_type row)].

Definition _historical_bar_values (bar : HistoricalBar) : list (string * option string) :=
  [("open", _json_decimal (_decimal_or_none (HBar.open bar)));
   ("high", _json_decimal (_decimal_or_none (HBar.high bar)));
   ("low", _json_decimal (_decimal_or_none (HBar.low bar)));
   ("close", _json_decimal (_decimal_or_none (HBar.close bar)));
   ("volume", _json_decimal (_decimal_or_none (HBar.volume bar)));
   ("source", Some (HBar.source bar)); ("what_to_show", Some (HBar.what_to_show bar));
   ("adjustment_type", HBar.adjustment_type bar)].

Definition _bar_key (ticker : string) (bar_date : date) (timeframe what_to_show : string) : BarKey :=
  (upper ticker, bar_date, timeframe, what_to_show).

Definition hbar_key (bar : HistoricalBar) : BarKey :=
  _bar_key (HBar.ticker bar) (HBar.bar_date bar) (HBar.timeframe bar) (HBar.what_to_show bar).

Definition row_key (row : PriceBar) : BarKey :=
  _bar_key (Bar.ticker row) (Bar.bar_date row) (Bar.timeframe row) (Bar.what_to_show row).

(** The stored rows of the keys of the batch; a row object is its identifier. *)
Definition _existing_bars_by_key (db : PriceDb) (bars : list HistoricalBar) : list (BarKey * Z) :=
  let keys := map hbar_key bars in
  map (fun row => (row_key row, Bar.id row))
    (List.filter (fun row => bool_decide (stored_key row ∈ keys)) (bar_rows db)).

(** [existing.get(key)]: in a dictionary comprehension the last row of a key stays. *)
Definition existing_get (existing : list (BarKey * Z)) (key : BarKey) : option Z :=
  foldl (fun found '(k, i) => if bool_decide (k = key) then Some i else found) None existing.

Definition _to_price_bar (bar : HistoricalBar) (data_hash : string) (now created_at : datetime)
    (fetch_run_id fetch_item_id : option Z) (id : Z) : PriceBar :=
  Bar.mk id (upper (HBar.ticker bar)) (HBar.bar_date bar) (HBar.timeframe bar)
    (_decimal_or_none (HBar.open bar)) (_decimal_or_none (HBar.high bar))
    (_decimal_or_none (HBar.low bar)) (_decimal_or_none (HBar.close bar))
    (_decimal_or_none (HBar.volume bar)) (HBar.source bar) (HBar.what_to_show bar)
    (HBar.adjustment_type bar) fetch_run_id fetch_item_id created_at now now None 0
    (Some data_hash).

Definition _to_price_bar_revision (current : PriceBar) (bar : HistoricalBar) (revision_number : Z)
    (previous_data_hash new_data_hash : string) (observed_at : datetime)
    (fetch_run_id fetch_item_id : option Z) : PriceBarRevision :=
  Revision.mk (Bar.id current) (upper (Bar.ticker current)) (Bar.bar_date current)
    (Bar.timeframe current) (Bar.what_to_show current) revision_number previous_data_hash
    new_data_hash (_price_bar_values current) (_historical_bar_values bar) (HBar.source bar)
    (HBar.adjustment_type bar) fetch_run_id fetch_item_id observed_at.

(** The assignments to an unchanged and to a revised row. *)
Definition seen_again (row : PriceBar) (new_hash : string) (now : datetime) : PriceBar :=
  Bar.mk (Bar.id row) (Bar.ticker row) (Bar.bar_date row) (Bar.timeframe row) (Bar.open row)
    (Bar.high row) (Bar.low row) (Bar.close row) (Bar.volume row) (Bar.source row)
    (Bar.what_to_show row) (Bar.adjustment_type row) (Bar.first_fetch_run_id row)
    (Bar.first_fetch_item_id row) (Bar.created_at row) (Bar.first_seen_at row) now
    (Bar.revised_at row) (Bar.revision_count row)
    (match Bar.data_hash row with None => Some new_hash | h => h end).

Definition revised_bar (row : PriceBar) (bar : HistoricalBar) (revision_number : Z) (new_hash : string)
    (now : datetime) : PriceBar :=
  Bar.mk (Bar.id row) (Bar.ticker row) (Bar.bar_date row) (Bar.timeframe row)
    (_decimal_or_none (HBar.open bar)) (_decimal_or_none (HBar.high bar))
    (_decimal_or_none (HBar.low bar)) (_decimal_or_none (HBar.close bar))
    (_decimal_or_none (HBar.volume bar)) (HBar.source bar) (Bar.what_to_show row)
    (HBar.adjustment_type bar) (Bar.first_fetch_run_id row) (Bar.first_fetch_item_id row)
    (Bar.created_at row) (Bar.first_seen_at row) now (Some now) revision_number (Some new_hash).

(** [current.data_hash or price_bar_data_hash(current)]. *)
Definition current_hash (row : PriceBar) : string :=
  match Bar.data_hash row with
  | Some h => if String.eqb h "" then price_bar_data_hash row else h
  | None => price_bar_data_hash row
  end.

Record BarUpsertSummary := mkBarUpsertSummary {
  inserted : Z;
  updated : Z;
  revised_count : Z;
  unchanged : Z;
}.

Definition hbar_series (bar : HistoricalBar) : SeriesIdentity :=
  (upper (HBar.ticker bar), HBar.timeframe bar, HBar.what_to_show bar).

(** ** The loop of [cache_bars] *)

Definition cache_bar (existing : list (BarKey * Z)) (now : datetime)
    (fetch_run_id fetch_item_id : option Z)
    (acc : BarUpsertSummary * list SeriesIdentity) (bar : HistoricalBar)
    : ST PriceDb (BarUpsertSummary * list SeriesIdentity) :=
  let '(mkBarUpsertSummary inserted updated revised_n unchanged, changed_series) := acc in
  let key := hbar_key bar in
  let new_hash := bar_data_hash bar in
  let! db := st_get in
  match existing_get existing key ≫= (fun i => price_bars db !! i) with
  | None =>
      do! insert_bar (_to_price_bar bar new_hash now (server_now db) fetch_run_id fetch_item_id) in
      st_ret (mkBarUpsertSummary (inserted + 1) updated revised_n unchanged,
              hbar_series bar :: changed_series)
  | Some current =>
      if String.eqb (current_hash current) new_hash then
        do! st_modify (put_bar (seen_again current new_hash now)) in
        st_ret (mkBarUpsertSummary inserted updated revised_n (unchanged + 1), changed_series)
      else
        let revision_number := Bar.revision_count current + 1 in
        do! st_modify (add_revision (_to_price_bar_revision current bar revision_number
              (current_hash current) new_hash now fetch_run_id fetch_item_id)) in
        do! st_modify (put_bar (revised_bar current bar revision_number new_hash now)) in
        st_ret (mkBarUpsertSummary inserted (updated + 1) (revised_n + 1) unchanged,
                hbar_series bar :: changed_series)
  end.

(** ** Series versions *)

Definition identity_leb (a b : SeriesIdentity) : bool :=
  let '(a1, a2, a3) := a in let '(b1, b2, b3) := b in
  if String.eqb a1 b1 then
    if String.eqb a2 b2 then String.leb a3 b3 else String.leb a2 b2
  else String.leb a1 b1.

Definition row_series (row : PriceBar) : SeriesIdentity :=
  (Bar.ticker row, Bar.timeframe row, Bar.what_to_show row).

Definition series_rows (identity : SeriesIdentity) (db : PriceDb) : list PriceBar :=
  List.filter (fun row => bool_decide (row_series row = identity)) (bar_rows db).

Definition min_date (l : list date) : option date :=
  match l with [] => None | d :: l => Some (foldl Z.min d l) end.
Definition max_date (l : list date) : option date :=
  match l with [] => None | d :: l => Some (foldl Z.max d l) end.

Definition advance_series (changed_at : datetime) (advanced : Z) (identity : SeriesIdentity)
    : ST PriceDb Z :=
  let! db := st_get in
  let price_bars := series_rows identity db in
  if negb (0 <? length price_bars)%nat then st_ret advanced
  else
    let dates := map Bar.bar_date price_bars in
    let version := match price_series_versions db !! identity with
                   | None => 1
                   | Some series => Series.series_version series + 1
                   end in
    do! st_modify (put_series identity
          (Series.mk version (Z.of_nat (length price_bars)) (min_date dates) (max_date dates)
             changed_at)) in
    st_ret (advanced + 1).

Definition maintain_price_series_versions (bars : list HistoricalBar)
    (changed_keys : list SeriesIdentity) (now : datetime) : ST PriceDb Z :=
  let identities := List.filter (fun i => bool_decide (i ∈ changed_keys)) (map hbar_series bars) in
  st_fold (sort_by identity_leb (remove_dups identities)) 0 (advance_series now).

Definition cache_bars (maintenance_enabled : bool) (now : datetime) (bars : list HistoricalBar)
    (fetch_run_id fetch_item_id : option Z) : ST PriceDb BarUpsertSummary :=
  if negb (0 <? length bars)%nat then st_ret (mkBarUpsertSummary 0 0 0 0)
  else
    let! db := st_get in
    let existing := _existing_bars_by_key db bars in
    let! acc := st_fold bars (mkBarUpsertSummary 0 0 0 0, [])
                  (cache_bar existing now fetch_run_id fetch_item_id) in
    let '(summary, changed_series) := acc in
    do! (if maintenance_enabled then maintain_price_series_versions bars changed_series now
         else st_ret 0) in
    st_ret summary.

(** [load_series_versions]: the version of each kind of data of a ticker. *)
Definition load_series_versions (ticker timeframe what_to_show : string) (db : PriceDb) : option Z :=
  Series.series_version <$> price_series_versions db !! (upper ticker, timeframe, what_to_show).

End Cache.
