(* ===== verification/PriceBarFacts.v ===== *)
(** * The price bar cache: invariant, idempotence and series versions

    [wf] is the invariant of the three tables: natural keys are unique, the stored hash of
    a row is the hash of its contents, and the revisions of a row are numbered without
    gaps, form a chain of hashes, and end in the contents the row has now.  Winner
    outcomes refuse prices for which this does not hold ([outcome_authority.py],
    [price_manifest]). *)
From Stdlib Require Import ZArith Lia List String Ascii Bool.
From stdpp Require Import base gmap list strings.
From S2P Require Import Prelude PyDate PyFloat PyValue Canonical PyDecimal PriceBars.
Local Open Scope string_scope.
Local Open Scope list_scope.
Local Open Scope Z_scope.

(** A property of the accumulator and the store that every iteration keeps. *)
Lemma st_fold_ok {S A B} (I : list A -> B -> S -> Prop) (body : B -> A -> ST S B) :
  (forall done acc x s acc' s', I done acc s -> body acc x s = (Ok acc', s') ->
     I (done ++ [x]) acc' s') ->
  forall xs done acc s acc' s', I done acc s -> st_fold xs acc body s = (Ok acc', s') ->
     I (done ++ xs) acc' s'.
Proof.
  intros Hb xs. induction xs as [|x xs IH]; intros done acc s acc' s' Hs H; simpl in H.
  - unfold st_ret in H. simplify_eq. by rewrite app_nil_r.
  - apply st_bind_Ok in H as (acc1 & s1 & H1 & H2).
    rewrite (app_assoc done [x] xs : done ++ x :: xs = _). eauto.
Qed.

Section Facts.
Context `{BarText}.

(** ** Tables *)

Lemma bar_rows_In db b : In b (bar_rows db) <-> exists i, price_bars db !! i = Some b.
Proof.
  unfold bar_rows. rewrite in_map_iff. split.
  - intros ([i b'] & <- & Hin). exists i. by apply list_elem_of_In, elem_of_map_to_list in Hin.
  - intros [i Hi]. exists (i, b). split; [done|]. by apply list_elem_of_In, elem_of_map_to_list.
Qed.

Definition revisions_of (i : Z) (db : PriceDb) : list PriceBarRevision :=
  filter (fun r => Revision.price_bar_id r = i) (price_bar_revisions db).

(** The revisions of a row: numbered from one, each starting from what the one before
    left, the last one ending in the contents of the row. *)
Record ledger_ok (b : PriceBar) (revs : list PriceBarRevision) : Prop := {
  ledger_numbers : Revision.revision_number <$> revs = seqZ 1 (Bar.revision_count b);
  ledger_count : 0 <= Bar.revision_count b;
  ledger_chain : forall k r r', revs !! k = Some r -> revs !! S k = Some r' ->
    Revision.previous_data_hash r' = Revision.new_data_hash r /\
    Revision.previous_values_json r' = Revision.new_values_json r;
  ledger_last : forall r, last revs = Some r ->
    Revision.new_data_hash r = price_bar_data_hash b /\
    Revision.new_values_json r = _price_bar_values b /\
    (Revision.ticker r, Revision.bar_date r, Revision.timeframe r, Revision.what_to_show r)
      = stored_key b;
}.

Record wf (db : PriceDb) : Prop := {
  wf_ids : forall i b, price_bars db !! i = Some b -> Bar.id b = i /\ i < next_bar_id db;
  wf_keys : forall i j b c, price_bars db !! i = Some b -> price_bars db !! j = Some c ->
    stored_key b = stored_key c -> i = j;
  wf_upper : forall i b, price_bars db !! i = Some b -> upper (Bar.ticker b) = Bar.ticker b;
  wf_hash : forall i b h, price_bars db !! i = Some b -> Bar.data_hash b = Some h ->
    h = price_bar_data_hash b;
  wf_ledger : forall i b, price_bars db !! i = Some b -> ledger_ok b (revisions_of i db);
  wf_orphans : forall r, r ∈ price_bar_revisions db ->
    is_Some (price_bars db !! Revision.price_bar_id r);
}.

Lemma current_hash_wf db i b : wf db -> price_bars db !! i = Some b ->
  current_hash b = price_bar_data_hash b.
Proof.
  intros W Hb. unfold current_hash. destruct (Bar.data_hash b) as [h|] eqn:E; [|done].
  destruct (String.eqb h ""); [done|]. by eapply (wf_hash db W).
Qed.

Lemma row_key_stored db i b : wf db -> price_bars db !! i = Some b -> row_key b = stored_key b.
Proof. intros W Hb. unfold row_key, _bar_key, stored_key. by rewrite (wf_upper db W i b). Qed.

(** ** The three writes of the loop *)

Lemma revisions_of_app i db db' extra :
  price_bar_revisions db' = price_bar_revisions db ++ extra ->
  revisions_of i db' =
  revisions_of i db ++ filter (fun r => Revision.price_bar_id r = i) extra.
Proof. intros E. unfold revisions_of. by rewrite E, filter_app. Qed.

(** Writing a row under its identifier and its key keeps the invariant when the ledger
    of the row is right. *)
Lemma wf_replace db db' i b row extra : wf db -> price_bars db !! i = Some b ->
  price_bars db' = <[i := row]> (price_bars db) ->
  price_bar_revisions db' = price_bar_revisions db ++ extra ->
  next_bar_id db' = next_bar_id db ->
  Bar.id row = i -> stored_key row = stored_key b ->
  (forall h, Bar.data_hash row = Some h -> h = price_bar_data_hash row) ->
  (forall r, r ∈ extra -> Revision.price_bar_id r = i) ->
  ledger_ok row (revisions_of i db ++ extra) ->
  wf db'.
Proof.
  intros W Hb Eb Er En Hid Hkey Hhash Hextra Hledger.
  assert (L : forall j c, price_bars db' !! j = Some c ->
    (j = i /\ c = row) \/ (j <> i /\ price_bars db !! j = Some c)).
  { intros j c. rewrite Eb, lookup_insert_Some. naive_solver. }
  assert (K : forall j c, price_bars db' !! j = Some c ->
    exists c', price_bars db !! j = Some c' /\ stored_key c' = stored_key c).
  { intros j c Hc. apply L in Hc as [[-> ->]|[_ Hc]]; eauto. }
  assert (X : forall j, filter (fun r => Revision.price_bar_id r = j) extra =
                        if decide (j = i) then extra else []).
  { intros j. clear Er Hledger. induction extra as [|r extra IH]; [by case_decide|].
    rewrite filter_cons, IH, (Hextra r) by (by left || intros; apply Hextra; by right).
    repeat case_decide; congruence. }
  split.
  - intros j c Hc. rewrite En. destruct (L j c Hc) as [[-> ->]|[_ Hc']].
    + split; [done|]. by apply (wf_ids db W i b).
    + by apply (wf_ids db W).
  - intros j k c d Hc Hd E. apply K in Hc as (c' & Hc & Ec), Hd as (d' & Hd & Ed).
    apply (wf_keys db W j k c' d' Hc Hd). by rewrite Ec, Ed.
  - intros j c Hc. apply K in Hc as (c' & Hc & Ec). pose proof (wf_upper db W j c' Hc) as U.
    unfold stored_key in Ec. injection Ec as Et _ _ _. by rewrite <- Et.
  - intros j c h Hc. destruct (L j c Hc) as [[-> ->]|[_ Hc']]; [apply Hhash|].
    by apply (wf_hash db W j).
  - intros j c Hc. rewrite (revisions_of_app j db db' extra Er), X.
    destruct (L j c Hc) as [[-> ->]|[Hj Hc']].
    + by rewrite decide_True.
    + rewrite decide_False by done. rewrite app_nil_r. by apply (wf_ledger db W).
  - intros r Hr. rewrite Er in Hr. rewrite Eb. apply lookup_insert_is_Some'.
    apply elem_of_app in Hr as [Hr|Hr]; [right; by apply (wf_orphans db W)|left].
    symmetry. by apply Hextra.
Qed.

Lemma wf_seen db i b h now : wf db -> price_bars db !! i = Some b ->
  h = price_bar_data_hash b -> wf (put_bar (seen_again b h now) db).
Proof.
  intros W Hb Hh. pose proof (wf_ids db W i b Hb) as [Hi _].
  apply (wf_replace db _ i b (seen_again b h now) [] W Hb); simpl; try reflexivity.
  - by rewrite Hi.
  - by rewrite app_nil_r.
  - done.
  - intros h'. destruct (Bar.data_hash b) eqn:E; intros; simplify_eq; [|done].
    exact (wf_hash db W _ b _ Hb E).
  - intros r Hr. by apply elem_of_nil in Hr.
  - rewrite app_nil_r. destruct (wf_ledger db W i b Hb). by split.
Qed.

Lemma ledger_ok_snoc b row revs r : ledger_ok b revs ->
  Bar.revision_count row = Bar.revision_count b + 1 ->
  Revision.revision_number r = Bar.revision_count row ->
  Revision.previous_data_hash r = price_bar_data_hash b ->
  Revision.previous_values_json r = _price_bar_values b ->
  Revision.new_data_hash r = price_bar_data_hash row ->
  Revision.new_values_json r = _price_bar_values row ->
  (Revision.ticker r, Revision.bar_date r, Revision.timeframe r, Revision.what_to_show r)
    = stored_key row ->
  ledger_ok row (revs ++ [r]).
Proof.
  intros [N C Ch La] Ec En Ep Ev Eh Ej Ek. split.
  - rewrite fmap_app, N, Ec. simpl. rewrite En, Ec, seqZ_app by lia.
    f_equal. rewrite seqZ_cons by lia. f_equal. lia.
  - lia.
  - intros k x y Hx Hy. apply lookup_app_Some in Hy as [Hy|[Hl Hy]].
    + rewrite lookup_app_l in Hx by (apply lookup_lt_Some in Hy; lia). eauto.
    + apply list_lookup_singleton_Some in Hy as [Hk <-].
      rewrite lookup_app_l in Hx by lia.
      destruct (La x) as (L1 & L2 & _).
      { rewrite last_lookup. by replace (Nat.pred (length revs)) with k by lia. }
      by rewrite Ep, Ev, L1, L2.
  - intros x Hx. rewrite last_snoc in Hx. by simplify_eq.
Qed.

Lemma wf_revised db i b bar now run item : wf db -> price_bars db !! i = Some b ->
  stored_key b = hbar_key bar ->
  let n := Bar.revision_count b + 1 in
  wf (put_bar (revised_bar b bar n (bar_data_hash bar) now)
        (add_revision (_to_price_bar_revision b bar n (current_hash b) (bar_data_hash bar) now run item)
           db)).
Proof.
  intros W Hb Hk n. pose proof (wf_ids db W i b Hb) as [Hi _].
  assert (Hw : Bar.what_to_show b = HBar.what_to_show bar) by (by injection Hk).
  assert (Hh : price_bar_data_hash (revised_bar b bar n (bar_data_hash bar) now) = bar_data_hash bar).
  { unfold bar_data_hash, price_bar_data_hash. simpl. by rewrite Hw. }
  eapply (wf_replace db _ i b (revised_bar b bar n (bar_data_hash bar) now) [_] W Hb); simpl;
    try reflexivity.
  - by rewrite Hi.
  - done.
  - intros h E. injection E as <-. by symmetry.
  - intros r Hr. apply list_elem_of_singleton in Hr as ->. done.
  - eapply ledger_ok_snoc; [by apply (wf_ledger db W)|..]; try done; simpl.
    + by apply (current_hash_wf db i).
    + unfold _historical_bar_values, _price_bar_values. simpl. by rewrite Hw.
    + unfold stored_key. simpl. by rewrite (wf_upper db W i b Hb).
Qed.

Lemma wf_insert db bar now run item db' : wf db ->
  insert_bar (_to_price_bar bar (bar_data_hash bar) now (server_now db) run item) db = (Ok tt, db') ->
  wf db'.
Proof.
  intros W E. unfold insert_bar in E. case_match eqn:U; [done|]. injection E as <-.
  set (i := next_bar_id db) in *. set (row := _to_price_bar _ _ _ _ _ _ _) in *.
  assert (Hfresh : price_bars db !! i = None).
  { destruct (price_bars db !! i) as [b|] eqn:Hb; [|done].
    apply (wf_ids db W) in Hb as [_ ?]. unfold i in *. lia. }
  assert (Hkey : forall j b, price_bars db !! j = Some b -> stored_key b <> stored_key row).
  { intros j b Hb C. apply not_true_iff_false in U. apply U. apply existsb_exists.
    exists b. split; [apply bar_rows_In; eauto|by apply bool_decide_eq_true]. }
  assert (L : forall j c, <[i := row]> (price_bars db) !! j = Some c ->
    (j = i /\ c = row) \/ (j <> i /\ price_bars db !! j = Some c)).
  { intros j c. rewrite lookup_insert_Some. naive_solver. }
  split; simpl.
  - intros j c Hc. apply L in Hc as [[-> ->]|[_ Hc]]; [unfold i; simpl; lia|].
    apply (wf_ids db W) in Hc. unfold i. lia.
  - intros j k c d Hc Hd Ek.
    apply L in Hc as [[-> ->]|[_ Hc]], Hd as [[-> ->]|[_ Hd]]; try done.
    + by destruct (Hkey _ _ Hd).
    + by destruct (Hkey _ _ Hc).
    + by apply (wf_keys db W j k c d).
  - intros j c Hc. apply L in Hc as [[-> ->]|[_ Hc]]; [apply upper_idem|].
    by apply (wf_upper db W j).
  - intros j c h Hc Eh. apply L in Hc as [[-> ->]|[_ Hc]]; [by injection Eh as <-|].
    by apply (wf_hash db W j).
  - intros j c Hc. apply L in Hc as [[-> ->]|[_ Hc]]; [|by apply (wf_ledger db W)].
    assert (E : revisions_of i db = []).
    { apply elem_of_nil_inv. intros r Hr. apply list_elem_of_filter in Hr as [Hr1 Hr2].
      apply (wf_orphans db W) in Hr2 as [c Hc]. congruence. }
    change (ledger_ok row (revisions_of i db)). rewrite E. by split.
  - intros r Hr. apply lookup_insert_is_Some'. right. by apply (wf_orphans db W).
Qed.

(** ** The rows read before the loop *)

Lemma existing_get_In ex key i : existing_get ex key = Some i -> (key, i) ∈ ex.
Proof.
  unfold existing_get. enough (G : forall found,
    foldl (fun found '(k, i) => if bool_decide (k = key) then Some i else found) found ex = Some i ->
    found = Some i \/ (key, i) ∈ ex) by (intros E; destruct (G None E); done).
  induction ex as [|[k j] ex IH]; intros found E; simpl in *; [by left|].
  apply IH in E as [E|E]; [|right; by right].
  case_bool_decide; simplify_eq; [right; by left|by left].
Qed.

Lemma existing_get_total ex key i : (key, i) ∈ ex -> is_Some (existing_get ex key).
Proof.
  unfold existing_get. enough (G : forall found,
    ((key, i) ∈ ex \/ is_Some found) ->
    is_Some (foldl (fun found '(k, i) => if bool_decide (k = key) then Some i else found) found ex))
    by (intros; apply G; by left).
  induction ex as [|[k j] ex IH]; intros found E; simpl in *.
  { destruct E as [E|E]; [by apply elem_of_nil in E|done]. }
  apply IH. rewrite elem_of_cons in E. case_bool_decide; naive_solver.
Qed.

(** The row objects found before the loop are rows with these keys. *)
Definition existing_ok (ex : list (BarKey * Z)) (db : PriceDb) : Prop :=
  forall k i, (k, i) ∈ ex -> exists b, price_bars db !! i = Some b /\ stored_key b = k.

Lemma existing_In db bars k i : wf db -> (k, i) ∈ _existing_bars_by_key db bars <->
  k ∈ map hbar_key bars /\ exists b, price_bars db !! i = Some b /\ stored_key b = k.
Proof.
  intros W. unfold _existing_bars_by_key. rewrite list_elem_of_In, in_map_iff. split.
  - intros (b & E & Hb). apply filter_In in Hb as [Hb Hk]. apply bool_decide_eq_true in Hk.
    apply bar_rows_In in Hb as [j Hj]. pose proof (wf_ids db W j b Hj) as [Hi _].
    rewrite (row_key_stored db j b W Hj) in E. injection E as <- <-. rewrite Hi. eauto.
  - intros (Hk & b & Hb & <-). exists b. pose proof (wf_ids db W i b Hb) as [Hi _].
    rewrite (row_key_stored db i b W Hb), Hi. split; [done|]. apply filter_In.
    split; [apply bar_rows_In; eauto|by apply bool_decide_eq_true].
Qed.

Lemma existing_ok_init db bars : wf db -> existing_ok (_existing_bars_by_key db bars) db.
Proof. intros W k i Hi. by apply existing_In in Hi as [_ ?]. Qed.

(** ** What the handling of one bar does *)

(** What a row records, apart from when it was last seen and its hash. *)
Definition content (b : PriceBar) : PriceBar :=
  Bar.mk (Bar.id b) (Bar.ticker b) (Bar.bar_date b) (Bar.timeframe b) (Bar.open b) (Bar.high b)
    (Bar.low b) (Bar.close b) (Bar.volume b) (Bar.source b) (Bar.what_to_show b)
    (Bar.adjustment_type b) (Bar.first_fetch_run_id b) (Bar.first_fetch_item_id b)
    (Bar.created_at b) (Bar.first_seen_at b) 0 (Bar.revised_at b) (Bar.revision_count b) None.

(** The rows of a series record the same. *)
Definition series_same (identity : SeriesIdentity) (db db' : PriceDb) : Prop :=
  forall i c,
    (exists b, price_bars db !! i = Some b /\ row_series b = identity /\ content b = c) <->
    (exists b, price_bars db' !! i = Some b /\ row_series b = identity /\ content b = c).

#[global] Instance series_same_equivalence identity : Equivalence (series_same identity).
Proof.
  split; unfold series_same.
  - by intros db i c.
  - intros db db' H1 i c. by rewrite H1.
  - intros db db' db'' H1 H2 i c. by rewrite H1, H2.
Qed.

Record bar_effect (bar : HistoricalBar) (db db' : PriceDb) (changed : bool) : Prop := {
  effect_wf : wf db';
  effect_versions : price_series_versions db' = price_series_versions db;
  effect_keep : forall i b, price_bars db !! i = Some b ->
    exists b', price_bars db' !! i = Some b' /\ stored_key b' = stored_key b;
  effect_here : exists i b, price_bars db' !! i = Some b /\ stored_key b = hbar_key bar /\
    price_bar_data_hash b = bar_data_hash bar;
  effect_other : forall i b, stored_key b <> hbar_key bar ->
    price_bars db' !! i = Some b <-> price_bars db !! i = Some b;
  effect_same : changed = false ->
    (forall identity, series_same identity db db') /\
    price_bar_revisions db' = price_bar_revisions db;
}.

(** A row written under its identifier and key changes no other row. *)
Lemma put_effect bar db db' i b row : price_bars db !! i = Some b -> stored_key b = hbar_key bar ->
  price_bars db' = <[i := row]> (price_bars db) -> stored_key row = stored_key b ->
  (forall j c, price_bars db !! j = Some c ->
     exists c', price_bars db' !! j = Some c' /\ stored_key c' = stored_key c) /\
  (forall j c, stored_key c <> hbar_key bar ->
     price_bars db' !! j = Some c <-> price_bars db !! j = Some c).
Proof.
  intros Hb Hk Eb Er. rewrite Eb. split; intros j c.
  - intros Hc. destruct (decide (i = j)) as [->|Hj].
    + rewrite lookup_insert_eq. exists row. split; [done|]. rewrite Hb in Hc. by injection Hc as ->.
    + rewrite lookup_insert_ne by done. eauto.
  - intros Hc. destruct (decide (i = j)) as [->|Hj].
    + rewrite lookup_insert_eq. rewrite Hb.
      split; intros E; injection E as <-; destruct Hc; by rewrite ?Er, Hk.
    + by rewrite lookup_insert_ne.
Qed.

Lemma seen_effect bar db i b now : wf db -> price_bars db !! i = Some b ->
  stored_key b = hbar_key bar -> current_hash b = bar_data_hash bar ->
  bar_effect bar db (put_bar (seen_again b (bar_data_hash bar) now) db) false.
Proof.
  intros W Hb Hk Hh. pose proof (wf_ids db W i b Hb) as [Hi _].
  pose proof (current_hash_wf db i b W Hb) as Hc. set (row := seen_again _ _ _).
  assert (Eb : price_bars (put_bar row db) = <[i := row]> (price_bars db)).
  { unfold put_bar; simpl. by rewrite Hi. }
  destruct (put_effect bar db _ i b row Hb Hk Eb eq_refl) as [K O].
  split; [|done|done| |done|].
  - apply (wf_seen db i); congruence.
  - exists i, row. rewrite Eb, lookup_insert_eq. split; [done|]. split; [done|].
    rewrite <- Hh, Hc. done.
  - intros _. split; [|done]. intros identity j c. rewrite Eb.
    destruct (decide (i = j)) as [->|Hj]; [|by rewrite lookup_insert_ne].
    rewrite lookup_insert_eq. split; intros (x & Hx & Hs & <-).
    + simplify_eq. by exists row.
    + simplify_eq. exists b. done.
Qed.

Lemma revised_effect bar db i b now run item : wf db -> price_bars db !! i = Some b ->
  stored_key b = hbar_key bar ->
  bar_effect bar db
    (put_bar (revised_bar b bar (Bar.revision_count b + 1) (bar_data_hash bar) now)
       (add_revision (_to_price_bar_revision b bar (Bar.revision_count b + 1) (current_hash b)
                        (bar_data_hash bar) now run item) db)) true.
Proof.
  intros W Hb Hk. pose proof (wf_ids db W i b Hb) as [Hi _].
  set (row := revised_bar _ _ _ _ _). set (db' := put_bar _ _).
  assert (Eb : price_bars db' = <[i := row]> (price_bars db)).
  { unfold db', put_bar; simpl. by rewrite Hi. }
  destruct (put_effect bar db _ i b row Hb Hk Eb eq_refl) as [K O].
  split; [|done|done| |done|done].
  - by apply (wf_revised db i).
  - exists i, row. rewrite Eb, lookup_insert_eq. split; [done|]. split; [done|].
    unfold price_bar_data_hash, bar_data_hash. simpl. by injection Hk as _ _ _ ->.
Qed.

Lemma insert_effect bar db db' now run item : wf db ->
  insert_bar (_to_price_bar bar (bar_data_hash bar) now (server_now db) run item) db = (Ok tt, db') ->
  bar_effect bar db db' true.
Proof.
  intros W E. pose proof (wf_insert db bar now run item db' W E) as W'.
  unfold insert_bar in E. case_match eqn:U; [done|]. injection E as <-.
  set (i := next_bar_id db) in *. set (row := _to_price_bar _ _ _ _ _ _ _) in *.
  assert (Hfresh : price_bars db !! i = None).
  { destruct (price_bars db !! i) as [b|] eqn:Hb; [|done].
    apply (wf_ids db W) in Hb as [_ ?]. unfold i in *. lia. }
  split; simpl; try done.
  - intros j b Hb. exists b. split; [|done]. rewrite lookup_insert_ne; [done|congruence].
  - exists i, row. by rewrite lookup_insert_eq.
  - intros j b Hb. destruct (decide (i = j)) as [<-|Hj].
    + rewrite lookup_insert_eq, Hfresh. split; [|done]. intros E. by injection E as <-.
    + by rewrite lookup_insert_ne.
Qed.

Definition handled (s : BarUpsertSummary) : Z := inserted s + updated s + unchanged s.

Lemma cache_bar_effect ex now run item s ch bar db s' ch' db' : wf db -> existing_ok ex db ->
  cache_bar ex now run item (s, ch) bar db = (Ok (s', ch'), db') ->
  exists changed, bar_effect bar db db' changed /\
    ch' = (if changed then hbar_series bar :: ch else ch) /\
    handled s' = handled s + 1.
Proof.
  intros W Hex E. unfold cache_bar in E. destruct s as [n u r k].
  change (st_bind st_get ?f db) with (f db db) in E. cbv beta in E.
  destruct (existing_get ex (hbar_key bar)) as [i|] eqn:Eg; simpl in E.
  - apply existing_get_In in Eg. destruct (Hex _ _ Eg) as (b & Hb & Hk). rewrite Hb in E.
    destruct (String.eqb_spec (current_hash b) (bar_data_hash bar)) as [Hh|Hh].
    + injection E as <- <- <-. exists false. split; [by apply (seen_effect bar db i)|].
      unfold handled; simpl. split; [done|lia].
    + injection E as <- <- <-. exists true. split; [by apply (revised_effect bar db i)|].
      unfold handled; simpl. split; [done|lia].
  - apply st_bind_Ok in E as ([] & db1 & Ei & E). injection E as <- <- <-.
    exists true. split; [by eapply insert_effect|]. unfold handled; simpl. split; [done|lia].
Qed.

(** The series of a row is a part of its key. *)
Lemma key_series b bar : stored_key b = hbar_key bar -> row_series b = hbar_series bar.
Proof. unfold stored_key, hbar_key, _bar_key, row_series, hbar_series. congruence. Qed.

Lemma effect_other_series bar db db' changed identity : bar_effect bar db db' changed ->
  identity <> hbar_series bar -> series_same identity db db'.
Proof.
  intros Ef Hne i c. split; intros (b & Hb & Hs & <-); exists b; split; try done;
    apply (effect_other _ _ _ _ Ef); try done;
    intros C; apply key_series in C; congruence.
Qed.

(** A row with the key and the contents of a bar. *)
Definition is_stored (bar : HistoricalBar) (db : PriceDb) : Prop :=
  exists i b, price_bars db !! i = Some b /\ stored_key b = hbar_key bar /\
    price_bar_data_hash b = bar_data_hash bar.

(** The state of the loop after the bars [done]. *)
Record cached (ex : list (BarKey * Z)) (db0 : PriceDb) (bars : list HistoricalBar)
    (acc : BarUpsertSummary * list SeriesIdentity) (db : PriceDb) : Prop := {
  cached_wf : wf db;
  cached_existing : existing_ok ex db;
  cached_versions : price_series_versions db = price_series_versions db0;
  cached_same : forall identity, identity ∉ acc.2 -> series_same identity db0 db;
  cached_changed : forall identity, identity ∈ acc.2 ->
    identity ∈ map hbar_series bars /\
    exists i b, price_bars db !! i = Some b /\ row_series b = identity;
  cached_count : handled acc.1 = Z.of_nat (length bars);
  cached_stored : NoDup (map hbar_key bars) -> forall bar, bar ∈ bars -> is_stored bar db;
}.

Lemma cached_step ex db0 bars acc db now run item bar acc' db' :
  cached ex db0 bars acc db -> cache_bar ex now run item acc bar db = (Ok acc', db') ->
  cached ex db0 (bars ++ [bar]) acc' db'.
Proof.
  intros C E. destruct acc as [s ch], acc' as [s' ch'].
  pose proof (cached_existing _ _ _ _ _ C) as Hex.
  destruct (cache_bar_effect _ _ _ _ _ _ _ _ _ _ _ (cached_wf _ _ _ _ _ C) Hex E)
    as (changed & Ef & -> & Hs).
  split; simpl in *.
  - apply Ef.
  - intros k i Hi. destruct (Hex k i Hi) as (b & Hb & <-).
    by apply (effect_keep _ _ _ _ Ef).
  - rewrite (effect_versions _ _ _ _ Ef). apply C.
  - intros identity Hi. transitivity db.
    + apply (cached_same _ _ _ _ _ C). simpl. destruct changed; set_solver.
    + destruct changed; [|by apply (effect_same _ _ _ _ Ef)].
      apply (effect_other_series bar _ _ true); [done|set_solver].
  - intros identity Hi. rewrite map_app, elem_of_app.
    assert (D : identity = hbar_series bar /\ changed = true \/ identity ∈ ch)
      by (destruct changed; set_solver).
    destruct D as [[-> _]|D].
    + split; [right; simpl; by left|]. destruct (effect_here _ _ _ _ Ef) as (i & b & Hb & Hk & _).
      exists i, b. by rewrite (key_series b bar).
    + destruct (cached_changed _ _ _ _ _ C identity D) as [Hin (i & b & Hb & <-)].
      split; [by left|]. destruct (effect_keep _ _ _ _ Ef i b Hb) as (b' & Hb' & Hk).
      exists i, b'. split; [done|]. unfold stored_key, row_series in *. congruence.
  - rewrite Hs, length_app. pose proof (cached_count _ _ _ _ _ C). simpl in *. lia.
  - rewrite map_app. intros ND x Hx. apply NoDup_app in ND as (ND & Hdisj & _).
    apply elem_of_app in Hx as [Hx|Hx].
    + destruct (cached_stored _ _ _ _ _ C ND x Hx) as (i & b & Hb & Hk & Hh).
      exists i, b. split; [|done]. apply (effect_other _ _ _ _ Ef); [|done].
      rewrite Hk. intros Ek. apply (Hdisj (hbar_key x)).
      * apply list_elem_of_In, in_map, list_elem_of_In, Hx.
      * simpl. rewrite Ek. by left.
    + apply list_elem_of_singleton in Hx as ->. apply Ef.
Qed.

Lemma cached_init db bars : wf db ->
  cached (_existing_bars_by_key db bars) db [] (mkBarUpsertSummary 0 0 0 0, []) db.
Proof.
  intros W. split; simpl; try done.
  - by apply existing_ok_init.
  - intros identity Hi. by apply elem_of_nil in Hi.
  - intros _ bar Hb. by apply elem_of_nil in Hb.
Qed.

Lemma cache_loop db bars now run item acc db' : wf db ->
  st_fold bars (mkBarUpsertSummary 0 0 0 0, [])
    (cache_bar (_existing_bars_by_key db bars) now run item) db = (Ok acc, db') ->
  cached (_existing_bars_by_key db bars) db bars acc db'.
Proof.
  intros W E.
  refine (st_fold_ok (cached (_existing_bars_by_key db bars) db) _ _ bars [] _ db acc db' _ E).
  - intros. by eapply cached_step.
  - by apply cached_init.
Qed.

(** ** Series versions *)

Definition next_version (db : PriceDb) (identity : SeriesIdentity) : Z :=
  match price_series_versions db !! identity with
  | None => 1
  | Some series => Series.series_version series + 1
  end.

(** The row of a series that has just advanced. *)
Definition series_summary (db : PriceDb) (identity : SeriesIdentity) (version : Z)
    (changed_at : datetime) : PriceSeriesVersion :=
  let rows := series_rows identity db in
  Series.mk version (Z.of_nat (length rows)) (min_date (map Bar.bar_date rows))
    (max_date (map Bar.bar_date rows)) changed_at.

(** Bars, revisions and the sequence are not touched. *)
Definition same_bars (db db' : PriceDb) : Prop :=
  price_bars db' = price_bars db /\ price_bar_revisions db' = price_bar_revisions db /\
  next_bar_id db' = next_bar_id db.

Lemma wf_same_bars db db' : same_bars db db' -> wf db -> wf db'.
Proof.
  intros (E1 & E2 & E3) W. destruct W.
  split; rewrite ?E1, ?E2, ?E3; unfold revisions_of in *; rewrite ?E2; done.
Qed.

Lemma series_same_bars identity db db' : same_bars db db' -> series_same identity db db'.
Proof. intros (E & _) i c. by rewrite E. Qed.

Lemma series_rows_In identity db b : In b (series_rows identity db) <->
  exists i, price_bars db !! i = Some b /\ row_series b = identity.
Proof.
  unfold series_rows. rewrite filter_In, bar_rows_In, bool_decide_eq_true. naive_solver.
Qed.

Lemma advance_one now n identity db : exists n' db',
  advance_series now n identity db = (Ok n', db') /\ same_bars db db' /\
  (forall i, i <> identity ->
     price_series_versions db' !! i = price_series_versions db !! i) /\
  (series_rows identity db <> [] -> price_series_versions db' !! identity =
     Some (series_summary db identity (next_version db identity) now)).
Proof.
  unfold advance_series. change (st_bind st_get ?f db) with (f db db). cbv beta.
  destruct (series_rows identity db) as [|b rows] eqn:E; simpl.
  - eexists _, _. split; [reflexivity|]. done.
  - eexists _, _. split; [reflexivity|]. split; [done|]. simpl. split.
    + intros i Hi. by rewrite lookup_insert_ne.
    + intros _. rewrite lookup_insert_eq. unfold series_summary. by rewrite E.
Qed.

Lemma same_bars_rows identity db db' : same_bars db db' ->
  series_rows identity db' = series_rows identity db.
Proof. intros (E & _). unfold series_rows, bar_rows. by rewrite E. Qed.

Lemma advance_all now l : NoDup l -> forall n db, exists n' db',
  st_fold l n (advance_series now) db = (Ok n', db') /\ same_bars db db' /\
  (forall i, i ∉ l -> price_series_versions db' !! i = price_series_versions db !! i) /\
  (forall i, i ∈ l -> series_rows i db <> [] -> price_series_versions db' !! i =
     Some (series_summary db i (next_version db i) now)).
Proof.
  induction 1 as [|x l Hx ND IH]; intros n db; simpl.
  { eexists _, _. split; [reflexivity|]. split; [done|]. split; [done|].
    intros i Hi. by apply elem_of_nil in Hi. }
  destruct (advance_one now n x db) as (n1 & db1 & E1 & S1 & O1 & A1).
  destruct (IH n1 db1) as (n2 & db2 & E2 & S2 & O2 & A2).
  exists n2, db2. unfold st_bind. rewrite E1. split; [done|]. split.
  { unfold same_bars in *. intuition congruence. }
  split.
  - intros i Hi. rewrite O2, O1 by set_solver. done.
  - intros i Hi Hrows. apply elem_of_cons in Hi as [->|Hi].
    + rewrite O2 by done. by apply A1.
    + rewrite A2; [|done|by rewrite (same_bars_rows i db db1)].
      assert (i <> x) by set_solver. unfold series_summary, next_version.
      by rewrite (same_bars_rows i db db1), O1.
Qed.

Lemma maintain_ok bars changed now db : exists n db',
  maintain_price_series_versions bars changed now db = (Ok n, db') /\ same_bars db db' /\
  (forall i, i ∉ changed -> price_series_versions db' !! i = price_series_versions db !! i) /\
  (forall i, i ∈ changed -> i ∈ map hbar_series bars -> series_rows i db <> [] ->
     price_series_versions db' !! i = Some (series_summary db i (next_version db i) now)).
Proof.
  unfold maintain_price_series_versions. set (l := sort_by _ _).
  assert (Hl : forall i, i ∈ l <-> i ∈ changed /\ i ∈ map hbar_series bars).
  { intros i. unfold l. rewrite (sort_by_Permutation identity_leb), elem_of_remove_dups,
      (list_elem_of_In _ i), filter_In, bool_decide_eq_true, <- list_elem_of_In. tauto. }
  assert (ND : NoDup l).
  { unfold l. rewrite (sort_by_Permutation identity_leb). apply NoDup_remove_dups. }
  destruct (advance_all now l ND 0 db) as (n & db' & E & S & O & A).
  exists n, db'. split; [done|]. split; [done|]. split.
  - intros i Hi. apply O. rewrite Hl. tauto.
  - intros i Hi Hb. apply A. by apply Hl.
Qed.

(** A call that returns, in two phases: the loop, then the series versions. *)
Lemma cache_bars_phases m now bars run item db s db' :
  cache_bars m now bars run item db = (Ok s, db') ->
  (bars = [] /\ s = mkBarUpsertSummary 0 0 0 0 /\ db' = db) \/
  exists ch db1,
    st_fold bars (mkBarUpsertSummary 0 0 0 0, [])
      (cache_bar (_existing_bars_by_key db bars) now run item) db = (Ok (s, ch), db1) /\
    if m then exists n, maintain_price_series_versions bars ch now db1 = (Ok n, db')
    else db' = db1.
Proof.
  unfold cache_bars. destruct bars as [|bar bars']; simpl length; cbn [negb Nat.ltb Nat.leb].
  { intros E. injection E as <- <-. by left. }
  intros E. right. apply st_bind_Ok in E as (d0 & d1 & E0 & E). injection E0 as <- <-.
  apply st_bind_Ok in E as ([s1 ch] & db1 & E1 & E). exists ch, db1.
  apply st_bind_Ok in E as (n & db2 & E2 & E). unfold st_ret in E. injection E as <- <-.
  split; [done|]. destruct m; [by exists n|]. by injection E2 as _ <-.
Qed.

(** ** A second run over the same bars *)

Lemma content_key b c : content b = content c ->
  stored_key b = stored_key c /\ price_bar_data_hash b = price_bar_data_hash c.
Proof.
  intros E. change (stored_key (content b) = stored_key (content c) /\
    price_bar_data_hash (content b) = price_bar_data_hash (content c)). by rewrite E.
Qed.

Lemma is_stored_same bar db db' : (forall identity, series_same identity db db') ->
  is_stored bar db -> is_stored bar db'.
Proof.
  intros S (i & b & Hb & Hk & Hh).
  destruct (proj1 (S (row_series b) i (content b))) as (c & Hc & _ & E); [by exists b|].
  apply content_key in E as [E1 E2]. exists i, c. by rewrite E1, E2.
Qed.

Definition add_unchanged (n : Z) (s : BarUpsertSummary) : BarUpsertSummary :=
  mkBarUpsertSummary (inserted s) (updated s) (revised_count s) (unchanged s + n).

Lemma cache_bar_idle ex now run item s ch bar db : wf db -> existing_ok ex db ->
  is_Some (existing_get ex (hbar_key bar)) -> is_stored bar db ->
  exists db', cache_bar ex now run item (s, ch) bar db = (Ok (add_unchanged 1 s, ch), db') /\
    bar_effect bar db db' false.
Proof.
  intros W Hex [i Hi] (j & c & Hc & Hkc & Hh). pose proof (existing_get_In _ _ _ Hi) as Hin.
  destruct (Hex _ _ Hin) as (b & Hb & Hk).
  assert (j = i) as -> by (apply (wf_keys db W j i c b); congruence).
  assert (c = b) as -> by congruence.
  pose proof (current_hash_wf db i b W Hb) as Hcur. rewrite Hh in Hcur.
  eexists. split; [|by apply (seen_effect bar db i b now)].
  destruct s as [n u r k]. unfold cache_bar. change (st_bind st_get ?f db) with (f db db).
  cbv beta. rewrite Hi. simpl. rewrite Hb, Hcur, String.eqb_refl. done.
Qed.

Lemma cache_loop_idle ex now run item l : forall s ch db, wf db -> existing_ok ex db ->
  (forall bar, bar ∈ l -> is_Some (existing_get ex (hbar_key bar)) /\ is_stored bar db) ->
  exists db', st_fold l (s, ch) (cache_bar ex now run item) db
                = (Ok (add_unchanged (Z.of_nat (length l)) s, ch), db') /\
    (forall identity, series_same identity db db') /\
    price_bar_revisions db' = price_bar_revisions db /\
    price_series_versions db' = price_series_versions db.
Proof.
  induction l as [|bar l IH]; intros s ch db W Hex Hl; cbn [st_fold].
  { exists db. destruct s. unfold add_unchanged, st_ret; simpl. rewrite Z.add_0_r. done. }
  destruct (Hl bar) as [Hg Hs]; [by left|].
  destruct (cache_bar_idle ex now run item s ch bar db W Hex Hg Hs) as (db1 & E1 & Ef).
  destruct (effect_same _ _ _ _ Ef eq_refl) as [S1 R1].
  destruct (IH (add_unchanged 1 s) ch db1) as (db2 & E2 & S2 & R2 & V2).
  - apply Ef.
  - intros k i Hi. destruct (Hex k i Hi) as (b & Hb & <-). by apply (effect_keep _ _ _ _ Ef).
  - intros x Hx. destruct (Hl x) as [Hgx Hsx]; [by right|]. split; [done|].
    by apply (is_stored_same x db db1).
  - exists db2. unfold st_bind. rewrite E1, E2. split.
    { do 3 f_equal. unfold add_unchanged; cbn [length inserted updated revised_count unchanged].
      f_equal. lia. }
    split; [intros; by transitivity db1|]. split; [congruence|].
    rewrite V2. apply Ef.
Qed.

Lemma maintain_nothing bars now db : maintain_price_series_versions bars [] now db = (Ok 0, db).
Proof.
  unfold maintain_price_series_versions.
  assert (E : List.filter (fun i => bool_decide (i ∈ ([] : list SeriesIdentity)))
                (map hbar_series bars) = []) by (by induction (map hbar_series bars)).
  by rewrite E.
Qed.

Lemma cache_bar_wf ex now run item acc bar db r db' : wf db /\ existing_ok ex db ->
  cache_bar ex now run item acc bar db = (r, db') -> wf db' /\ existing_ok ex db'.
Proof.
  intros [W Hex] E. destruct r as [[s' ch']|e], acc as [s ch].
  - destruct (cache_bar_effect _ _ _ _ _ _ _ _ _ _ _ W Hex E) as (changed & Ef & _).
    split; [apply Ef|]. intros k i Hi. destruct (Hex k i Hi) as (b & Hb & <-).
    by apply (effect_keep _ _ _ _ Ef).
  - unfold cache_bar in E. destruct s. change (st_bind st_get ?f db) with (f db db) in E.
    cbv beta in E. case_match; [by case_match|].
    apply st_bind_Raise in E as [E|(a & s1 & _ & E)]; [|done].
    unfold insert_bar in E. case_match; [|done]. by injection E as _ <-.
Qed.

(** ** Theorems *)

(** C32: The cache keeps its invariant: whatever bars are written, keys stay unique, the
    stored hash of every row is the hash of its contents, and the revisions of a row are
    numbered without gaps, chained, and end in its present contents; a call that returns
    has counted every bar once. *)
Theorem bar_cache_invariant m now bars run item db r db' : wf db ->
  cache_bars m now bars run item db = (r, db') ->
  wf db' /\ (forall s, r = Ok s -> handled s = Z.of_nat (length bars)).
Proof.
  intros W E. split.
  - unfold cache_bars in E. case_match; [by injection E as _ <-|].
    change (st_bind st_get ?f db) with (f db db) in E. cbv beta zeta in E.
    set (ex := _existing_bars_by_key db bars) in *. unfold st_bind at 1 in E.
    destruct (st_fold bars _ _ db) as [r1 db1] eqn:E1.
    assert (W1 : wf db1 /\ existing_ok ex db1).
    { refine (st_fold_invariant (fun d => wf d /\ existing_ok ex d) bars _ _ _ db r1 db1 _ E1).
      - intros. by eapply cache_bar_wf.
      - split; [done|by apply existing_ok_init]. }
    destruct r1 as [[s ch]|e]; [|injection E as _ <-; apply W1].
    destruct m; [|injection E as _ <-; apply W1].
    destruct (maintain_ok bars ch now db1) as (n & db2 & E2 & S & _).
    unfold st_bind in E. rewrite E2 in E. injection E as _ <-. by apply (wf_same_bars db1), W1.
  - intros s ->. apply cache_bars_phases in E as [(-> & -> & _)|(ch & db1 & E & _)]; [done|].
    by apply cache_loop in E as C; [apply (cached_count _ _ _ _ _ C)|].
Qed.

(** A series version tells a consumer whether the series changed: after a call every
    series either records what it recorded before, under the same version row, or its
    version row has advanced by one and describes the rows now stored. *)
Theorem series_version_detects_change now bars run item db s db' identity : wf db ->
  cache_bars true now bars run item db = (Ok s, db') ->
  (series_same identity db db' /\
   price_series_versions db' !! identity = price_series_versions db !! identity) \/
  price_series_versions db' !! identity =
    Some (series_summary db' identity (next_version db identity) now).
Proof.
  intros W E. apply cache_bars_phases in E as [(_ & _ & ->)|(ch & db1 & E & n & Em)]; [by left|].
  apply cache_loop in E as C; [|done].
  destruct (maintain_ok bars ch now db1) as (n' & db2 & E2 & S & O & A).
  rewrite E2 in Em. injection Em as _ <-.
  pose proof (cached_versions _ _ _ _ _ C) as V.
  destruct (decide (identity ∈ ch)) as [Hc|Hc]; [right|left].
  - destruct (cached_changed _ _ _ _ _ C identity Hc) as (Hin & i & b & Hb & Hs).
    rewrite (A identity Hc Hin).
    + unfold series_summary, next_version. by rewrite (same_bars_rows identity db1 db2 S), V.
    + intros Hnil. assert (In b (series_rows identity db1)) as Hb'
        by (apply series_rows_In; by exists i). by rewrite Hnil in Hb'.
  - split; [|by rewrite O, V].
    transitivity db1; [by apply (cached_same _ _ _ _ _ C)|by apply series_same_bars].
Qed.

(** Writing the same bars again changes nothing: every bar is counted as unchanged, the
    rows record what they recorded, no revision is added and no version advances. *)
Theorem refetch_is_idle m now bars run item now' run' item' db s db1 : wf db ->
  NoDup (map hbar_key bars) ->
  cache_bars m now bars run item db = (Ok s, db1) ->
  exists db2,
    cache_bars m now' bars run' item' db1
      = (Ok (mkBarUpsertSummary 0 0 0 (Z.of_nat (length bars))), db2) /\
    (forall identity, series_same identity db1 db2) /\
    price_bar_revisions db2 = price_bar_revisions db1 /\
    price_series_versions db2 = price_series_versions db1.
Proof.
  intros W ND E. apply cache_bars_phases in E as [(-> & _ & _)|(ch & db0 & E & Em)]; [by exists db1|].
  apply cache_loop in E as C; [|done].
  assert (S : same_bars db0 db1).
  { destruct m; [|by subst]. destruct Em as [n Em].
    destruct (maintain_ok bars ch now db0) as (n' & d & E2 & S & _). by rewrite E2 in Em; simplify_eq. }
  assert (W1 : wf db1) by (apply (wf_same_bars db0); [done|apply C]).
  assert (St : forall bar, bar ∈ bars -> is_stored bar db1).
  { intros bar Hb. apply (is_stored_same bar db0); [|by apply (cached_stored _ _ _ _ _ C)].
    intros identity. by apply series_same_bars. }
  destruct (cache_loop_idle (_existing_bars_by_key db1 bars) now' run' item' bars
              (mkBarUpsertSummary 0 0 0 0) [] db1) as (db2 & E2 & S2 & R2 & V2).
  - done.
  - by apply existing_ok_init.
  - intros bar Hb. split; [|by apply St]. destruct (St bar Hb) as (i & b & Hrow & Hk & _).
    apply (existing_get_total _ _ i). apply existing_In; [done|]. split; [|by exists b].
    by apply list_elem_of_In, in_map, list_elem_of_In.
  - exists db2. split; [|done]. unfold cache_bars. destruct bars as [|bar bars'].
    { unfold st_fold, st_ret in E2. by injection E2 as <-. }
    change (negb (0 <? length (bar :: bars'))%nat) with false. cbv iota.
    change (st_bind st_get ?f db1) with (f db1 db1). cbv beta zeta.
    unfold st_bind. rewrite E2. destruct m; [by rewrite maintain_nothing|done].
Qed.

End Facts.
