(* ===== verification/TargetStop.v ===== *)
(** * Rows of the winner outcome tables: [app/models/tables.py]

    Forward outcomes, target and stop outcomes, their definitions and the columns of a
    prediction that outcome maturation reads or writes, one record per table with a setter
    per column.  [NUMERIC] columns are decimals, JSON columns are dictionaries, timestamps
    are UTC microseconds.  The second part is the scan of a target-stop pair. *)
From Stdlib Require Import ZArith List String.
From stdpp Require Import base gmap list strings.
From S2P Require Import Prelude PyDate PyFloat PyValue Canonical PyDecimal.
Local Open Scope string_scope.
Local Open Scope list_scope.
Local Open Scope Z_scope.

(** [OutcomeStatus]. *)
Inductive OutcomeStatus := OUTCOME_PENDING | OUTCOME_MATURED | OUTCOME_EXCLUDED | OUTCOME_REVISED.

(** [EntryDataStatus]. *)
Inductive EntryDataStatus :=
  | ENTRY_NOT_DUE | ENTRY_PENDING | ENTRY_AVAILABLE | ENTRY_MISSING | ENTRY_INVALID.

(** [FirstEvent]. *)
Inductive FirstEvent := TARGET_FIRST | STOP_FIRST | SAME_BAR_CONFLICT | NEITHER | UNKNOWN.

#[export] Instance OutcomeStatus_eq_dec : EqDecision OutcomeStatus.
Proof. solve_decision. Defined.
#[export] Instance EntryDataStatus_eq_dec : EqDecision EntryDataStatus.
Proof. solve_decision. Defined.
#[export] Instance FirstEvent_eq_dec : EqDecision FirstEvent.
Proof. solve_decision. Defined.

(** [EntryModel]. *)
Definition NEXT_OPEN : string := "NEXT_OPEN".
Definition SIGNAL_CLOSE_DIAGNOSTIC : string := "SIGNAL_CLOSE_DIAGNOSTIC".

(** A row of [winner_forward_outcomes]. *)
Module Fwd.

Record WinnerForwardOutcome := mk {
  id : Z;
  prediction_id : Z;
  entry_model : string;
  horizon_sessions : Z;
  entry_session : option date;
  due_session : option date;
  status : OutcomeStatus;
  revision : Z;
  is_current_revision : bool;
  entry_price : option decimal;
  exit_price : option decimal;
  close_return_pct : option decimal;
  spy_return_pct : option decimal;
  excess_spy_return_pct : option decimal;
  sector_return_pct : option decimal;
  excess_sector_return_pct : option decimal;
  mfe_pct : option decimal;
  mae_pct : option decimal;
  sessions_to_mfe : option Z;
  sessions_to_mae : option Z;
  positive_return : option bool;
  beat_spy : option bool;
  beat_sector : option bool;
  source_bar_lineage_hash : option string;
  source_revision_cutoff_at : option datetime;
  matured_at : option datetime;
  superseded_at : option datetime;
  pending_reason_code : option string;
  last_attempted_at : option datetime;
  retry_not_before_at : option datetime;
  metadata_json : dict;
}.

Definition set_id (v : Z) (r : WinnerForwardOutcome) : WinnerForwardOutcome :=
    let 'mk _ x1 x2 x3 x4 x5 x6 x7 x8 x9 x10 x11 x12 x13 x14 x15 x16 x17 x18 x19 x20 x21 x22
    x23 x24 x25 x26 x27 x28 x29 x30 := r in
    mk v x1 x2 x3 x4 x5 x6 x7 x8 x9 x10 x11 x12 x13 x14 x15 x16 x17 x18 x19 x20 x21 x22 x23 x24
    x25 x26 x27 x28 x29 x30.
Definition set_prediction_id (v : Z) (r : WinnerForwardOutcome) : WinnerForwardOutcome :=
    let 'mk x0 _ x2 x3 x4 x5 x6 x7 x8 x9 x10 x11 x12 x13 x14 x15 x16 x17 x18 x19 x20 x21 x22
    x23 x24 x25 x26 x27 x28 x29 x30 := r in
    mk x0 v x2 x3 x4 x5 x6 x7 x8 x9 x10 x11 x12 x13 x14 x15 x16 x17 x18 x19 x20 x21 x22 x23 x24
    x25 x26 x27 x28 x29 x30.
Definition set_entry_model (v : string) (r : WinnerForwardOutcome) : WinnerForwardOutcome :=
    let 'mk x0 x1 _ x3 x4 x5 x6 x7 x8 x9 x10 x11 x12 x13 x14 x15 x16 x17 x18 x19 x20 x21 x22
    x23 x24 x25 x26 x27 x28 x29 x30 := r in
    mk x0 x1 v x3 x4 x5 x6 x7 x8 x9 x10 x11 x12 x13 x14 x15 x16 x17 x18 x19 x20 x21 x22 x23 x24
    x25 x26 x27 x28 x29 x30.
Definition set_horizon_sessions (v : Z) (r : WinnerForwardOutcome) : WinnerForwardOutcome :=
    let 'mk x0 x1 x2 _ x4 x5 x6 x7 x8 x9 x10 x11 x12 x13 x14 x15 x16 x17 x18 x19 x20 x21 x22
    x23 x24 x25 x26 x27 x28 x29 x30 := r in
    mk x0 x1 x2 v x4 x5 x6 x7 x8 x9 x10 x11 x12 x13 x14 x15 x16 x17 x18 x19 x20 x21 x22 x23 x24
    x25 x26 x27 x28 x29 x30.
Definition set_entry_session (v : option date) (r : WinnerForwardOutcome) : WinnerForwardOutcome :=
    let 'mk x0 x1 x2 x3 _ x5 x6 x7 x8 x9 x10 x11 x12 x13 x14 x15 x16 x17 x18 x19 x20 x21 x22
    x23 x24 x25 x26 x27 x28 x29 x30 := r in
    mk x0 x1 x2 x3 v x5 x6 x7 x8 x9 x10 x11 x12 x13 x14 x15 x16 x17 x18 x19 x20 x21 x22 x23 x24
    x25 x26 x27 x28 x29 x30.
Definition set_due_session (v : option date) (r : WinnerForwardOutcome) : WinnerForwardOutcome :=
    let 'mk x0 x1 x2 x3 x4 _ x6 x7 x8 x9 x10 x11 x12 x13 x14 x15 x16 x17 x18 x19 x20 x21 x22
    x23 x24 x25 x26 x27 x28 x29 x30 := r in
    mk x0 x1 x2 x3 x4 v x6 x7 x8 x9 x10 x11 x12 x13 x14 x15 x16 x17 x18 x19 x20 x21 x22 x23 x24
    x25 x26 x27 x28 x29 x30.
Definition set_status (v : OutcomeStatus) (r : WinnerForwardOutcome) : WinnerForwardOutcome :=
    let 'mk x0 x1 x2 x3 x4 x5 _ x7 x8 x9 x10 x11 x12 x13 x14 x15 x16 x17 x18 x19 x20 x21 x22
    x23 x24 x25 x26 x27 x28 x29 x30 := r in
    mk x0 x1 x2 x3 x4 x5 v x7 x8 x9 x10 x11 x12 x13 x14 x15 x16 x17 x18 x19 x20 x21 x22 x23 x24
    x25 x26 x27 x28 x29 x30.
Definition set_revision (v : Z) (r : WinnerForwardOutcome) : WinnerForwardOutcome :=
    let 'mk x0 x1 x2 x3 x4 x5 x6 _ x8 x9 x10 x11 x12 x13 x14 x15 x16 x17 x18 x19 x20 x21 x22
    x23 x24 x25 x26 x27 x28 x29 x30 := r in
    mk x0 x1 x2 x3 x4 x5 x6 v x8 x9 x10 x11 x12 x13 x14 x15 x16 x17 x18 x19 x20 x21 x22 x23 x24
    x25 x26 x27 x28 x29 x30.
Definition set_is_current_revision (v : bool) (r : WinnerForwardOutcome) : WinnerForwardOutcome :=
    let 'mk x0 x1 x2 x3 x4 x5 x6 x7 _ x9 x10 x11 x12 x13 x14 x15 x16 x17 x18 x19 x20 x21 x22
    x23 x24 x25 x26 x27 x28 x29 x30 := r in
    mk x0 x1 x2 x3 x4 x5 x6 x7 v x9 x10 x11 x12 x13 x14 x15 x16 x17 x18 x19 x20 x21 x22 x23 x24
    x25 x26 x27 x28 x29 x30.
Definition set_entry_price (v : option decimal) (r : WinnerForwardOutcome) : WinnerForwardOutcome :=
    let 'mk x0 x1 x2 x3 x4 x5 x6 x7 x8 _ x10 x11 x12 x13 x14 x15 x16 x17 x18 x19 x20 x21 x22
    x23 x24 x25 x26 x27 x28 x29 x30 := r in
    mk x0 x1 x2 x3 x4 x5 x6 x7 x8 v x10 x11 x12 x13 x14 x15 x16 x17 x18 x19 x20 x21 x22 x23 x24
    x25 x26 x27 x28 x29 x30.
Definition set_exit_price (v : option decimal) (r : WinnerForwardOutcome) : WinnerForwardOutcome :=
    let 'mk x0 x1 x2 x3 x4 x5 x6 x7 x8 x9 _ x11 x12 x13 x14 x15 x16 x17 x18 x19 x20 x21 x22 x23
    x24 x25 x26 x27 x28 x29 x30 := r in
    mk x0 x1 x2 x3 x4 x5 x6 x7 x8 x9 v x11 x12 x13 x14 x15 x16 x17 x18 x19 x20 x21 x22 x23 x24
    x25 x26 x27 x28 x29 x30.
Definition set_close_return_pct (v : option decimal) (r : WinnerForwardOutcome) : WinnerForwardOutcome :=
    let 'mk x0 x1 x2 x3 x4 x5 x6 x7 x8 x9 x10 _ x12 x13 x14 x15 x16 x17 x18 x19 x20 x21 x22 x23
    x24 x25 x26 x27 x28 x29 x30 := r in
    mk x0 x1 x2 x3 x4 x5 x6 x7 x8 x9 x10 v x12 x13 x14 x15 x16 x17 x18 x19 x20 x21 x22 x23 x24
    x25 x26 x27 x28 x29 x30.
Definition set_spy_return_pct (v : option decimal) (r : WinnerForwardOutcome) : WinnerForwardOutcome :=
    let 'mk x0 x1 x2 x3 x4 x5 x6 x7 x8 x9 x10 x11 _ x13 x14 x15 x16 x17 x18 x19 x20 x21 x22 x23
    x24 x25 x26 x27 x28 x29 x30 := r in
    mk x0 x1 x2 x3 x4 x5 x6 x7 x8 x9 x10 x11 v x13 x14 x15 x16 x17 x18 x19 x20 x21 x22 x23 x24
    x25 x26 x27 x28 x29 x30.
Definition set_excess_spy_return_pct (v : option decimal) (r : WinnerForwardOutcome) : WinnerForwardOutcome :=
    let 'mk x0 x1 x2 x3 x4 x5 x6 x7 x8 x9 x10 x11 x12 _ x14 x15 x16 x17 x18 x19 x20 x21 x22 x23
    x24 x25 x26 x27 x28 x29 x30 := r in
    mk x0 x1 x2 x3 x4 x5 x6 x7 x8 x9 x10 x11 x12 v x14 x15 x16 x17 x18 x19 x20 x21 x22 x23 x24
    x25 x26 x27 x28 x29 x30.
Definition set_sector_return_pct (v : option decimal) (r : WinnerForwardOutcome) : WinnerForwardOutcome :=
    let 'mk x0 x1 x2 x3 x4 x5 x6 x7 x8 x9 x10 x11 x12 x13 _ x15 x16 x17 x18 x19 x20 x21 x22 x23
    x24 x25 x26 x27 x28 x29 x30 := r in
    mk x0 x1 x2 x3 x4 x5 x6 x7 x8 x9 x10 x11 x12 x13 v x15 x16 x17 x18 x19 x20 x21 x22 x23 x24
    x25 x26 x27 x28 x29 x30.
Definition set_excess_sector_return_pct (v : option decimal) (r : WinnerForwardOutcome) : WinnerForwardOutcome :=
    let 'mk x0 x1 x2 x3 x4 x5 x6 x7 x8 x9 x10 x11 x12 x13 x14 _ x16 x17 x18 x19 x20 x21 x22 x23
    x24 x25 x26 x27 x28 x29 x30 := r in
    mk x0 x1 x2 x3 x4 x5 x6 x7 x8 x9 x10 x11 x12 x13 x14 v x16 x17 x18 x19 x20 x21 x22 x23 x24
    x25 x26 x27 x28 x29 x30.
Definition set_mfe_pct (v : option decimal) (r : WinnerForwardOutcome) : WinnerForwardOutcome :=
    let 'mk x0 x1 x2 x3 x4 x5 x6 x7 x8 x9 x10 x11 x12 x13 x14 x15 _ x17 x18 x19 x20 x21 x22 x23
    x24 x25 x26 x27 x28 x29 x30 := r in
    mk x0 x1 x2 x3 x4 x5 x6 x7 x8 x9 x10 x11 x12 x13 x14 x15 v x17 x18 x19 x20 x21 x22 x23 x24
    x25 x26 x27 x28 x29 x30.
Definition set_mae_pct (v : option decimal) (r : WinnerForwardOutcome) : WinnerForwardOutcome :=
    let 'mk x0 x1 x2 x3 x4 x5 x6 x7 x8 x9 x10 x11 x12 x13 x14 x15 x16 _ x18 x19 x20 x21 x22 x23
    x24 x25 x26 x27 x28 x29 x30 := r in
    mk x0 x1 x2 x3 x4 x5 x6 x7 x8 x9 x10 x11 x12 x13 x14 x15 x16 v x18 x19 x20 x21 x22 x23 x24
    x25 x26 x27 x28 x29 x30.
Definition set_sessions_to_mfe (v : option Z) (r : WinnerForwardOutcome) : WinnerForwardOutcome :=
    let 'mk x0 x1 x2 x3 x4 x5 x6 x7 x8 x9 x10 x11 x12 x13 x14 x15 x16 x17 _ x19 x20 x21 x22 x23
    x24 x25 x26 x27 x28 x29 x30 := r in
    mk x0 x1 x2 x3 x4 x5 x6 x7 x8 x9 x10 x11 x12 x13 x14 x15 x16 x17 v x19 x20 x21 x22 x23 x24
    x25 x26 x27 x28 x29 x30.
Definition set_sessions_to_mae (v : option Z) (r : WinnerForwardOutcome) : WinnerForwardOutcome :=
    let 'mk x0 x1 x2 x3 x4 x5 x6 x7 x8 x9 x10 x11 x12 x13 x14 x15 x16 x17 x18 _ x20 x21 x22 x23
    x24 x25 x26 x27 x28 x29 x30 := r in
    mk x0 x1 x2 x3 x4 x5 x6 x7 x8 x9 x10 x11 x12 x13 x14 x15 x16 x17 x18 v x20 x21 x22 x23 x24
    x25 x26 x27 x28 x29 x30.
Definition set_positive_return (v : option bool) (r : WinnerForwardOutcome) : WinnerForwardOutcome :=
    let 'mk x0 x1 x2 x3 x4 x5 x6 x7 x8 x9 x10 x11 x12 x13 x14 x15 x16 x17 x18 x19 _ x21 x22 x23
    x24 x25 x26 x27 x28 x29 x30 := r in
    mk x0 x1 x2 x3 x4 x5 x6 x7 x8 x9 x10 x11 x12 x13 x14 x15 x16 x17 x18 x19 v x21 x22 x23 x24
    x25 x26 x27 x28 x29 x30.
Definition set_beat_spy (v : option bool) (r : WinnerForwardOutcome) : WinnerForwardOutcome :=
    let 'mk x0 x1 x2 x3 x4 x5 x6 x7 x8 x9 x10 x11 x12 x13 x14 x15 x16 x17 x18 x19 x20 _ x22 x23
    x24 x25 x26 x27 x28 x29 x30 := r in
    mk x0 x1 x2 x3 x4 x5 x6 x7 x8 x9 x10 x11 x12 x13 x14 x15 x16 x17 x18 x19 x20 v x22 x23 x24
    x25 x26 x27 x28 x29 x30.
Definition set_beat_sector (v : option bool) (r : WinnerForwardOutcome) : WinnerForwardOutcome :=
    let 'mk x0 x1 x2 x3 x4 x5 x6 x7 x8 x9 x10 x11 x12 x13 x14 x15 x16 x17 x18 x19 x20 x21 _ x23
    x24 x25 x26 x27 x28 x29 x30 := r in
    mk x0 x1 x2 x3 x4 x5 x6 x7 x8 x9 x10 x11 x12 x13 x14 x15 x16 x17 x18 x19 x20 x21 v x23 x24
    x25 x26 x27 x28 x29 x30.
Definition set_source_bar_lineage_hash (v : option string) (r : WinnerForwardOutcome) : WinnerForwardOutcome :=
    let 'mk x0 x1 x2 x3 x4 x5 x6 x7 x8 x9 x10 x11 x12 x13 x14 x15 x16 x17 x18 x19 x20 x21 x22 _
    x24 x25 x26 x27 x28 x29 x30 := r in
    mk x0 x1 x2 x3 x4 x5 x6 x7 x8 x9 x10 x11 x12 x13 x14 x15 x16 x17 x18 x19 x20 x21 x22 v x24
    x25 x26 x27 x28 x29 x30.
Definition set_source_revision_cutoff_at (v : option datetime) (r : WinnerForwardOutcome) : WinnerForwardOutcome :=
    let 'mk x0 x1 x2 x3 x4 x5 x6 x7 x8 x9 x10 x11 x12 x13 x14 x15 x16 x17 x18 x19 x20 x21 x22
    x23 _ x25 x26 x27 x28 x29 x30 := r in
    mk x0 x1 x2 x3 x4 x5 x6 x7 x8 x9 x10 x11 x12 x13 x14 x15 x16 x17 x18 x19 x20 x21 x22 x23 v
    x25 x26 x27 x28 x29 x30.
Definition set_matured_at (v : option datetime) (r : WinnerForwardOutcome) : WinnerForwardOutcome :=
    let 'mk x0 x1 x2 x3 x4 x5 x6 x7 x8 x9 x10 x11 x12 x13 x14 x15 x16 x17 x18 x19 x20 x21 x22
    x23 x24 _ x26 x27 x28 x29 x30 := r in
    mk x0 x1 x2 x3 x4 x5 x6 x7 x8 x9 x10 x11 x12 x13 x14 x15 x16 x17 x18 x19 x20 x21 x22 x23
    x24 v x26 x27 x28 x29 x30.
Definition set_superseded_at (v : option datetime) (r : WinnerForwardOutcome) : WinnerForwardOutcome :=
    let 'mk x0 x1 x2 x3 x4 x5 x6 x7 x8 x9 x10 x11 x12 x13 x14 x15 x16 x17 x18 x19 x20 x21 x22
    x23 x24 x25 _ x27 x28 x29 x30 := r in
    mk x0 x1 x2 x3 x4 x5 x6 x7 x8 x9 x10 x11 x12 x13 x14 x15 x16 x17 x18 x19 x20 x21 x22 x23
    x24 x25 v x27 x28 x29 x30.
Definition set_pending_reason_code (v : option string) (r : WinnerForwardOutcome) : WinnerForwardOutcome :=
    let 'mk x0 x1 x2 x3 x4 x5 x6 x7 x8 x9 x10 x11 x12 x13 x14 x15 x16 x17 x18 x19 x20 x21 x22
    x23 x24 x25 x26 _ x28 x29 x30 := r in
    mk x0 x1 x2 x3 x4 x5 x6 x7 x8 x9 x10 x11 x12 x13 x14 x15 x16 x17 x18 x19 x20 x21 x22 x23
    x24 x25 x26 v x28 x29 x30.
Definition set_last_attempted_at (v : option datetime) (r : WinnerForwardOutcome) : WinnerForwardOutcome :=
    let 'mk x0 x1 x2 x3 x4 x5 x6 x7 x8 x9 x10 x11 x12 x13 x14 x15 x16 x17 x18 x19 x20 x21 x22
    x23 x24 x25 x26 x27 _ x29 x30 := r in
    mk x0 x1 x2 x3 x4 x5 x6 x7 x8 x9 x10 x11 x12 x13 x14 x15 x16 x17 x18 x19 x20 x21 x22 x23
    x24 x25 x26 x27 v x29 x30.
Definition set_retry_not_before_at (v : option datetime) (r : WinnerForwardOutcome) : WinnerForwardOutcome :=
    let 'mk x0 x1 x2 x3 x4 x5 x6 x7 x8 x9 x10 x11 x12 x13 x14 x15 x16 x17 x18 x19 x20 x21 x22
    x23 x24 x25 x26 x27 x28 _ x30 := r in
    mk x0 x1 x2 x3 x4 x5 x6 x7 x8 x9 x10 x11 x12 x13 x14 x15 x16 x17 x18 x19 x20 x21 x22 x23
    x24 x25 x26 x27 x28 v x30.
Definition set_metadata_json (v : dict) (r : WinnerForwardOutcome) : WinnerForwardOutcome :=
    let 'mk x0 x1 x2 x3 x4 x5 x6 x7 x8 x9 x10 x11 x12 x13 x14 x15 x16 x17 x18 x19 x20 x21 x22
    x23 x24 x25 x26 x27 x28 x29 _ := r in
    mk x0 x1 x2 x3 x4 x5 x6 x7 x8 x9 x10 x11 x12 x13 x14 x15 x16 x17 x18 x19 x20 x21 x22 x23
    x24 x25 x26 x27 x28 x29 v.

End Fwd.
Abbreviation WinnerForwardOutcome := Fwd.WinnerForwardOutcome.

(** A row of [winner_target_stop_outcomes]. *)
Module Tgt.

Record WinnerTargetStopOutcome := mk {
  id : Z;
  prediction_id : Z;
  outcome_definition_id : Z;
  forward_outcome_id : option Z;
  entry_model : string;
  horizon_sessions : Z;
  status : OutcomeStatus;
  revision : Z;
  is_current_revision : bool;
  target_pct : decimal;
  stop_pct : decimal;
  target_hit : option bool;
  stop_hit : option bool;
  first_event : option FirstEvent;
  event_session : option date;
  same_bar_conflict : bool;
  primary_winner : option bool;
  optimistic_winner : option bool;
  conservative_winner : option bool;
  source_bar_lineage_hash : option string;
  evaluated_at : option datetime;
  superseded_at : option datetime;
  metadata_json : dict;
}.

Definition set_id (v : Z) (r : WinnerTargetStopOutcome) : WinnerTargetStopOutcome :=
    let 'mk _ x1 x2 x3 x4 x5 x6 x7 x8 x9 x10 x11 x12 x13 x14 x15 x16 x17 x18 x19 x20 x21 x22 :=
    r in
    mk v x1 x2 x3 x4 x5 x6 x7 x8 x9 x10 x11 x12 x13 x14 x15 x16 x17 x18 x19 x20 x21 x22.
Definition set_prediction_id (v : Z) (r : WinnerTargetStopOutcome) : WinnerTargetStopOutcome :=
    let 'mk x0 _ x2 x3 x4 x5 x6 x7 x8 x9 x10 x11 x12 x13 x14 x15 x16 x17 x18 x19 x20 x21 x22 :=
    r in
    mk x0 v x2 x3 x4 x5 x6 x7 x8 x9 x10 x11 x12 x13 x14 x15 x16 x17 x18 x19 x20 x21 x22.
Definition set_outcome_definition_id (v : Z) (r : WinnerTargetStopOutcome) : WinnerTargetStopOutcome :=
    let 'mk x0 x1 _ x3 x4 x5 x6 x7 x8 x9 x10 x11 x12 x13 x14 x15 x16 x17 x18 x19 x20 x21 x22 :=
    r in
    mk x0 x1 v x3 x4 x5 x6 x7 x8 x9 x10 x11 x12 x13 x14 x15 x16 x17 x18 x19 x20 x21 x22.
Definition set_forward_outcome_id (v : option Z) (r : WinnerTargetStopOutcome) : WinnerTargetStopOutcome :=
    let 'mk x0 x1 x2 _ x4 x5 x6 x7 x8 x9 x10 x11 x12 x13 x14 x15 x16 x17 x18 x19 x20 x21 x22 :=
    r in
    mk x0 x1 x2 v x4 x5 x6 x7 x8 x9 x10 x11 x12 x13 x14 x15 x16 x17 x18 x19 x20 x21 x22.
Definition set_entry_model (v : string) (r : WinnerTargetStopOutcome) : WinnerTargetStopOutcome :=
    let 'mk x0 x1 x2 x3 _ x5 x6 x7 x8 x9 x10 x11 x12 x13 x14 x15 x16 x17 x18 x19 x20 x21 x22 :=
    r in
    mk x0 x1 x2 x3 v x5 x6 x7 x8 x9 x10 x11 x12 x13 x14 x15 x16 x17 x18 x19 x20 x21 x22.
Definition set_horizon_sessions (v : Z) (r : WinnerTargetStopOutcome) : WinnerTargetStopOutcome :=
    let 'mk x0 x1 x2 x3 x4 _ x6 x7 x8 x9 x10 x11 x12 x13 x14 x15 x16 x17 x18 x19 x20 x21 x22 :=
    r in
    mk x0 x1 x2 x3 x4 v x6 x7 x8 x9 x10 x11 x12 x13 x14 x15 x16 x17 x18 x19 x20 x21 x22.
Definition set_status (v : OutcomeStatus) (r : WinnerTargetStopOutcome) : WinnerTargetStopOutcome :=
    let 'mk x0 x1 x2 x3 x4 x5 _ x7 x8 x9 x10 x11 x12 x13 x14 x15 x16 x17 x18 x19 x20 x21 x22 :=
    r in
    mk x0 x1 x2 x3 x4 x5 v x7 x8 x9 x10 x11 x12 x13 x14 x15 x16 x17 x18 x19 x20 x21 x22.
Definition set_revision (v : Z) (r : WinnerTargetStopOutcome) : WinnerTargetStopOutcome :=
    let 'mk x0 x1 x2 x3 x4 x5 x6 _ x8 x9 x10 x11 x12 x13 x14 x15 x16 x17 x18 x19 x20 x21 x22 :=
    r in
    mk x0 x1 x2 x3 x4 x5 x6 v x8 x9 x10 x11 x12 x13 x14 x15 x16 x17 x18 x19 x20 x21 x22.
Definition set_is_current_revision (v : bool) (r : WinnerTargetStopOutcome) : WinnerTargetStopOutcome :=
    let 'mk x0 x1 x2 x3 x4 x5 x6 x7 _ x9 x10 x11 x12 x13 x14 x15 x16 x17 x18 x19 x20 x21 x22 :=
    r in
    mk x0 x1 x2 x3 x4 x5 x6 x7 v x9 x10 x11 x12 x13 x14 x15 x16 x17 x18 x19 x20 x21 x22.
Definition set_target_pct (v : decimal) (r : WinnerTargetStopOutcome) : WinnerTargetStopOutcome :=
    let 'mk x0 x1 x2 x3 x4 x5 x6 x7 x8 _ x10 x11 x12 x13 x14 x15 x16 x17 x18 x19 x20 x21 x22 :=
    r in
    mk x0 x1 x2 x3 x4 x5 x6 x7 x8 v x10 x11 x12 x13 x14 x15 x16 x17 x18 x19 x20 x21 x22.
Definition set_stop_pct (v : decimal) (r : WinnerTargetStopOutcome) : WinnerTargetStopOutcome :=
    let 'mk x0 x1 x2 x3 x4 x5 x6 x7 x8 x9 _ x11 x12 x13 x14 x15 x16 x17 x18 x19 x20 x21 x22 :=
    r in
    mk x0 x1 x2 x3 x4 x5 x6 x7 x8 x9 v x11 x12 x13 x14 x15 x16 x17 x18 x19 x20 x21 x22.
Definition set_target_hit (v : option bool) (r : WinnerTargetStopOutcome) : WinnerTargetStopOutcome :=
    let 'mk x0 x1 x2 x3 x4 x5 x6 x7 x8 x9 x10 _ x12 x13 x14 x15 x16 x17 x18 x19 x20 x21 x22 :=
    r in
    mk x0 x1 x2 x3 x4 x5 x6 x7 x8 x9 x10 v x12 x13 x14 x15 x16 x17 x18 x19 x20 x21 x22.
Definition set_stop_hit (v : option bool) (r : WinnerTargetStopOutcome) : WinnerTargetStopOutcome :=
    let 'mk x0 x1 x2 x3 x4 x5 x6 x7 x8 x9 x10 x11 _ x13 x14 x15 x16 x17 x18 x19 x20 x21 x22 :=
    r in
    mk x0 x1 x2 x3 x4 x5 x6 x7 x8 x9 x10 x11 v x13 x14 x15 x16 x17 x18 x19 x20 x21 x22.
Definition set_first_event (v : option FirstEvent) (r : WinnerTargetStopOutcome) : WinnerTargetStopOutcome :=
    let 'mk x0 x1 x2 x3 x4 x5 x6 x7 x8 x9 x10 x11 x12 _ x14 x15 x16 x17 x18 x19 x20 x21 x22 :=
    r in
    mk x0 x1 x2 x3 x4 x5 x6 x7 x8 x9 x10 x11 x12 v x14 x15 x16 x17 x18 x19 x20 x21 x22.
Definition set_event_session (v : option date) (r : WinnerTargetStopOutcome) : WinnerTargetStopOutcome :=
    let 'mk x0 x1 x2 x3 x4 x5 x6 x7 x8 x9 x10 x11 x12 x13 _ x15 x16 x17 x18 x19 x20 x21 x22 :=
    r in
    mk x0 x1 x2 x3 x4 x5 x6 x7 x8 x9 x10 x11 x12 x13 v x15 x16 x17 x18 x19 x20 x21 x22.
Definition set_same_bar_conflict (v : bool) (r : WinnerTargetStopOutcome) : WinnerTargetStopOutcome :=
    let 'mk x0 x1 x2 x3 x4 x5 x6 x7 x8 x9 x10 x11 x12 x13 x14 _ x16 x17 x18 x19 x20 x21 x22 :=
    r in
    mk x0 x1 x2 x3 x4 x5 x6 x7 x8 x9 x10 x11 x12 x13 x14 v x16 x17 x18 x19 x20 x21 x22.
Definition set_primary_winner (v : option bool) (r : WinnerTargetStopOutcome) : WinnerTargetStopOutcome :=
    let 'mk x0 x1 x2 x3 x4 x5 x6 x7 x8 x9 x10 x11 x12 x13 x14 x15 _ x17 x18 x19 x20 x21 x22 :=
    r in
    mk x0 x1 x2 x3 x4 x5 x6 x7 x8 x9 x10 x11 x12 x13 x14 x15 v x17 x18 x19 x20 x21 x22.
Definition set_optimistic_winner (v : option bool) (r : WinnerTargetStopOutcome) : WinnerTargetStopOutcome :=
    let 'mk x0 x1 x2 x3 x4 x5 x6 x7 x8 x9 x10 x11 x12 x13 x14 x15 x16 _ x18 x19 x20 x21 x22 :=
    r in
    mk x0 x1 x2 x3 x4 x5 x6 x7 x8 x9 x10 x11 x12 x13 x14 x15 x16 v x18 x19 x20 x21 x22.
Definition set_conservative_winner (v : option bool) (r : WinnerTargetStopOutcome) : WinnerTargetStopOutcome :=
    let 'mk x0 x1 x2 x3 x4 x5 x6 x7 x8 x9 x10 x11 x12 x13 x14 x15 x16 x17 _ x19 x20 x21 x22 :=
    r in
    mk x0 x1 x2 x3 x4 x5 x6 x7 x8 x9 x10 x11 x12 x13 x14 x15 x16 x17 v x19 x20 x21 x22.
Definition set_source_bar_lineage_hash (v : option string) (r : WinnerTargetStopOutcome) : WinnerTargetStopOutcome :=
    let 'mk x0 x1 x2 x3 x4 x5 x6 x7 x8 x9 x10 x11 x12 x13 x14 x15 x16 x17 x18 _ x20 x21 x22 :=
    r in
    mk x0 x1 x2 x3 x4 x5 x6 x7 x8 x9 x10 x11 x12 x13 x14 x15 x16 x17 x18 v x20 x21 x22.
Definition set_evaluated_at (v : option datetime) (r : WinnerTargetStopOutcome) : WinnerTargetStopOutcome :=
    let 'mk x0 x1 x2 x3 x4 x5 x6 x7 x8 x9 x10 x11 x12 x13 x14 x15 x16 x17 x18 x19 _ x21 x22 :=
    r in
    mk x0 x1 x2 x3 x4 x5 x6 x7 x8 x9 x10 x11 x12 x13 x14 x15 x16 x17 x18 x19 v x21 x22.
Definition set_superseded_at (v : option datetime) (r : WinnerTargetStopOutcome) : WinnerTargetStopOutcome :=
    let 'mk x0 x1 x2 x3 x4 x5 x6 x7 x8 x9 x10 x11 x12 x13 x14 x15 x16 x17 x18 x19 x20 _ x22 :=
    r in
    mk x0 x1 x2 x3 x4 x5 x6 x7 x8 x9 x10 x11 x12 x13 x14 x15 x16 x17 x18 x19 x20 v x22.
Definition set_metadata_json (v : dict) (r : WinnerTargetStopOutcome) : WinnerTargetStopOutcome :=
    let 'mk x0 x1 x2 x3 x4 x5 x6 x7 x8 x9 x10 x11 x12 x13 x14 x15 x16 x17 x18 x19 x20 x21 _ :=
    r in
    mk x0 x1 x2 x3 x4 x5 x6 x7 x8 x9 x10 x11 x12 x13 x14 x15 x16 x17 x18 x19 x20 x21 v.

End Tgt.
Abbreviation WinnerTargetStopOutcome := Tgt.WinnerTargetStopOutcome.

(** The columns of [winner_prediction_snapshots] that maturation uses. *)
Module Pred.

Record WinnerPredictionSnapshot := mk {
  id : Z;
  ticker : string;
  entry_data_status : EntryDataStatus;
  lineage_json : dict;
  feature_json : dict;
}.

Definition set_id (v : Z) (r : WinnerPredictionSnapshot) : WinnerPredictionSnapshot :=
    let 'mk _ x1 x2 x3 x4 := r in
    mk v x1 x2 x3 x4.
Definition set_ticker (v : string) (r : WinnerPredictionSnapshot) : WinnerPredictionSnapshot :=
    let 'mk x0 _ x2 x3 x4 := r in
    mk x0 v x2 x3 x4.
Definition set_entry_data_status (v : EntryDataStatus) (r : WinnerPredictionSnapshot) : WinnerPredictionSnapshot :=
    let 'mk x0 x1 _ x3 x4 := r in
    mk x0 x1 v x3 x4.
Definition set_lineage_json (v : dict) (r : WinnerPredictionSnapshot) : WinnerPredictionSnapshot :=
    let 'mk x0 x1 x2 _ x4 := r in
    mk x0 x1 x2 v x4.
Definition set_feature_json (v : dict) (r : WinnerPredictionSnapshot) : WinnerPredictionSnapshot :=
    let 'mk x0 x1 x2 x3 _ := r in
    mk x0 x1 x2 x3 v.

End Pred.
Abbreviation WinnerPredictionSnapshot := Pred.WinnerPredictionSnapshot.

(** The columns of [winner_outcome_definitions] that maturation uses. *)
Module Def.

Record WinnerOutcomeDefinition := mk {
  id : Z;
  definition_id : string;
  entry_model : string;
  horizon_sessions : Z;
  target_pct : option decimal;
  stop_pct : option decimal;
  same_bar_conflict_policy : option string;
  calculation_version : string;
}.

Definition set_id (v : Z) (r : WinnerOutcomeDefinition) : WinnerOutcomeDefinition :=
    let 'mk _ x1 x2 x3 x4 x5 x6 x7 := r in
    mk v x1 x2 x3 x4 x5 x6 x7.
Definition set_definition_id (v : string) (r : WinnerOutcomeDefinition) : WinnerOutcomeDefinition :=
    let 'mk x0 _ x2 x3 x4 x5 x6 x7 := r in
    mk x0 v x2 x3 x4 x5 x6 x7.
Definition set_entry_model (v : string) (r : WinnerOutcomeDefinition) : WinnerOutcomeDefinition :=
    let 'mk x0 x1 _ x3 x4 x5 x6 x7 := r in
    mk x0 x1 v x3 x4 x5 x6 x7.
Definition set_horizon_sessions (v : Z) (r : WinnerOutcomeDefinition) : WinnerOutcomeDefinition :=
    let 'mk x0 x1 x2 _ x4 x5 x6 x7 := r in
    mk x0 x1 x2 v x4 x5 x6 x7.
Definition set_target_pct (v : option decimal) (r : WinnerOutcomeDefinition) : WinnerOutcomeDefinition :=
    let 'mk x0 x1 x2 x3 _ x5 x6 x7 := r in
    mk x0 x1 x2 x3 v x5 x6 x7.
Definition set_stop_pct (v : option decimal) (r : WinnerOutcomeDefinition) : WinnerOutcomeDefinition :=
    let 'mk x0 x1 x2 x3 x4 _ x6 x7 := r in
    mk x0 x1 x2 x3 x4 v x6 x7.
Definition set_same_bar_conflict_policy (v : option string) (r : WinnerOutcomeDefinition) : WinnerOutcomeDefinition :=
    let 'mk x0 x1 x2 x3 x4 x5 _ x7 := r in
    mk x0 x1 x2 x3 x4 x5 v x7.
Definition set_calculation_version (v : string) (r : WinnerOutcomeDefinition) : WinnerOutcomeDefinition :=
    let 'mk x0 x1 x2 x3 x4 x5 x6 _ := r in
    mk x0 x1 x2 x3 x4 x5 x6 v.

End Def.
Abbreviation WinnerOutcomeDefinition := Def.WinnerOutcomeDefinition.

(** * Target and stop evaluation: [winner_probability/target_stop_service.py]

    Which of two price levels is reached first over the bars of a horizon.  [sorted] is
    stable sorting by date; [Decimal(str(None))] raises [InvalidOperation].  The theorems
    relate the loop to a reference definition on the first bar that reaches a level. *)
From Stdlib Require Import ZArith QArith Lqa Lia List String Bool Permutation Sorted.
From stdpp Require Import base list strings.
From S2P Require Import Prelude PyDate PyFloat PyValue Canonical PyDecimal PriceBars.
Local Open Scope string_scope.
Local Open Scope list_scope.
Local Open Scope Z_scope.

Record TargetStopEvaluation := mkTargetStopEvaluation {
  target_hit : bool;
  stop_hit : bool;
  first_event : FirstEvent;
  event_session : option date;
  same_bar_conflict : bool;
  primary_winner : bool;
  optimistic_winner : bool;
  conservative_winner : bool;
}.

Definition SAME_BAR_CONSERVATIVE_STOP_FIRST : string := "CONSERVATIVE_STOP_FIRST".

(** [Decimal(str(value))] of a price column. *)
Definition price (value : option decimal) : result decimal :=
  match value with Some d => Ok d | None => raise "InvalidOperation" "ConversionSyntax" end.

Definition by_date (a b : PriceBar) : bool := Bar.bar_date a <=? Bar.bar_date b.

(** The levels: [entry * (1 + target / 100)] and [entry * (1 - stop / 100)]. *)
Definition target_level (entry_price target_pct : decimal) : result decimal :=
  t ← ddiv target_pct (of_int 100);
  mret (dmul entry_price (dadd (of_int 1) t)).
Definition stop_level (entry_price stop_pct : decimal) : result decimal :=
  s ← ddiv stop_pct (of_int 100);
  mret (dmul entry_price (dsub (of_int 1) s)).

(** The loop over the bars in date order. *)
Fixpoint scan_bars (target_price stop_price : decimal) (policy : string)
    (target_hit_any stop_hit_any : bool) (bars : list PriceBar) : result TargetStopEvaluation :=
  match bars with
  | [] => mret (mkTargetStopEvaluation target_hit_any stop_hit_any NEITHER None false
                  false false false)
  | bar :: bars =>
      high ← price (Bar.high bar);
      low ← price (Bar.low bar);
      let target_hit := dle target_price high in
      let stop_hit := dle low stop_price in
      let target_hit_any := target_hit_any || target_hit in
      let stop_hit_any := stop_hit_any || stop_hit in
      if target_hit && stop_hit then
        let conservative := false in
        let optimistic := true in
        mret (mkTargetStopEvaluation true true SAME_BAR_CONFLICT (Some (Bar.bar_date bar)) true
                (if String.eqb policy SAME_BAR_CONSERVATIVE_STOP_FIRST then conservative
                 else optimistic)
                optimistic conservative)
      else if target_hit then
        mret (mkTargetStopEvaluation true stop_hit_any TARGET_FIRST (Some (Bar.bar_date bar)) false
                true true true)
      else if stop_hit then
        mret (mkTargetStopEvaluation target_hit_any true STOP_FIRST (Some (Bar.bar_date bar)) false
                false false false)
      else scan_bars target_price stop_price policy target_hit_any stop_hit_any bars
  end.

Definition evaluate (bars : list PriceBar) (entry_price target_pct stop_pct : decimal)
    (same_bar_conflict_policy : string) : result TargetStopEvaluation :=
  target_price ← target_level entry_price target_pct;
  stop_price ← stop_level entry_price stop_pct;
  scan_bars target_price stop_price same_bar_conflict_policy false false (sort_by by_date bars).

(** ** Reference definition *)

(** Every bar has the prices that are compared. *)
Definition priced (bar : PriceBar) : Prop := is_Some (Bar.high bar) /\ is_Some (Bar.low bar).

Definition reaches_target (target_price : decimal) (bar : PriceBar) : bool :=
  match Bar.high bar with Some h => dle target_price h | None => false end.
Definition reaches_stop (stop_price : decimal) (bar : PriceBar) : bool :=
  match Bar.low bar with Some l => dle l stop_price | None => false end.

(** The classification of the first bar that reaches a level. *)
Definition classify (target_price stop_price : decimal) (policy : string)
    (first : option PriceBar) : TargetStopEvaluation :=
  match first with
  | None => mkTargetStopEvaluation false false NEITHER None false false false false
  | Some bar =>
      let t := reaches_target target_price bar in
      let s := reaches_stop stop_price bar in
      mkTargetStopEvaluation t s
        (if t && s then SAME_BAR_CONFLICT else if t then TARGET_FIRST else STOP_FIRST)
        (Some (Bar.bar_date bar)) (t && s)
        (t && (negb s || negb (String.eqb policy SAME_BAR_CONSERVATIVE_STOP_FIRST)))
        t (t && negb s)
  end.

Definition first_reaching (target_price stop_price : decimal) (bars : list PriceBar)
    : option PriceBar :=
  List.find (fun b => reaches_target target_price b || reaches_stop stop_price b) bars.

(** ** The loop computes the reference *)

Lemma scan_bars_spec tp sp policy bars : Forall priced bars ->
  scan_bars tp sp policy false false bars =
  Ok (classify tp sp policy (first_reaching tp sp bars)).
Proof.
  induction 1 as [|bar bars [[h Hh] [l Hl]] _ IH]; [done|].
  unfold first_reaching in *. cbn [scan_bars List.find].
  unfold reaches_target at 1, reaches_stop at 1, price. rewrite Hh, Hl. cbn -[dle].
  destruct (dle tp h) eqn:Et, (dle l sp) eqn:Es; cbn -[dle]; [..|apply IH];
    unfold reaches_target, reaches_stop; rewrite Hh, Hl, Et, Es; cbn; try done.
Qed.

Lemma levels_ok entry t s : exists tp sp,
  target_level entry t = Ok tp /\ stop_level entry s = Ok sp.
Proof. eexists _, _. done. Qed.

Lemma sort_priced bars : Forall priced bars -> Forall priced (sort_by by_date bars).
Proof. by rewrite (sort_by_Permutation by_date bars). Qed.

(** ** Sorting by date *)

Lemma by_date_total a b : by_date a b = false -> by_date b a = true.
Proof. unfold by_date. rewrite Z.leb_gt, Z.leb_le. lia. Qed.
Lemma by_date_trans a b c : by_date a b = true -> by_date b c = true -> by_date a c = true.
Proof. unfold by_date. rewrite !Z.leb_le. lia. Qed.

(** Bars of distinct dates have one order. *)
Lemma sort_by_date_unique bars bars' : NoDup (map Bar.bar_date bars) -> bars ≡ₚ bars' ->
  sort_by by_date bars = sort_by by_date bars'.
Proof.
  intros ND P.
  assert (S : forall l, StronglySorted (fun a b => by_date a b = true) (sort_by by_date l)).
  { intros l. apply sort_by_sorted; [apply by_date_total|apply by_date_trans]. }
  assert (P' : sort_by by_date bars ≡ₚ sort_by by_date bars').
  { by rewrite !sort_by_Permutation. }
  assert (ND' : NoDup (map Bar.bar_date (sort_by by_date bars))).
  { by rewrite (sort_by_Permutation by_date bars). }
  revert P' ND'. generalize (S bars) (S bars').
  generalize (sort_by by_date bars) (sort_by by_date bars'). clear.
  induction l as [|x l IH]; intros l' Sl Sl' P ND.
  { by apply Permutation_nil in P. }
  destruct l' as [|y l']; [symmetry in P; by apply Permutation_nil in P|].
  assert (x = y) as ->.
  { inversion_clear Sl as [|? ? _ Fx]. inversion_clear Sl' as [|? ? _ Fy].
    assert (Hy : y ∈ x :: l) by (rewrite P; by left).
    assert (Hx : x ∈ y :: l') by (rewrite <- P; by left).
    apply elem_of_cons in Hy as [->|Hy]; [done|]. apply elem_of_cons in Hx as [->|Hx]; [done|].
    rewrite List.Forall_forall in Fx, Fy. apply list_elem_of_In in Hx, Hy.
    pose proof (Fx y Hy) as D1. pose proof (Fy x Hx) as D2. unfold by_date in *.
    simpl in ND. apply NoDup_cons in ND as [ND _]. destruct ND.
    apply list_elem_of_In. apply in_map_iff. exists y. split; [lia|done]. }
  f_equal. apply IH.
  - by inversion Sl.
  - by inversion Sl'.
  - by apply Permutation_cons_inv in P.
  - simpl in ND. by apply NoDup_cons in ND as [_ ?].
Qed.

(** ** Winners *)

Lemma first_reaching_cons tp sp b l :
  first_reaching tp sp (b :: l) =
  if reaches_target tp b || reaches_stop sp b then Some b else first_reaching tp sp l.
Proof. done. Qed.

(** A conservative win: the target is reached before the stop, on an earlier bar. *)
Lemma conservative_iff tp sp policy l :
  conservative_winner (classify tp sp policy (first_reaching tp sp l)) = true <->
  exists k b, l !! k = Some b /\ reaches_target tp b = true /\
    forall j c, (j <= k)%nat -> l !! j = Some c -> reaches_stop sp c = false.
Proof.
  induction l as [|b l IH]; [split; [done|by intros (k & b & ? & _)]|].
  rewrite first_reaching_cons.
  destruct (reaches_target tp b) eqn:Et, (reaches_stop sp b) eqn:Es; simpl orb; cbv iota.
  - unfold classify. rewrite Et, Es. split; [done|]. intros (k & c & _ & _ & Hn).
    by rewrite (Hn 0%nat b ltac:(lia) eq_refl) in Es.
  - unfold classify. rewrite Et, Es. split; [|done]. intros _. exists 0%nat, b.
    split_and!; try done. intros j c Hj Hc. assert (j = 0)%nat as -> by lia. by simplify_eq/=.
  - unfold classify. rewrite Et, Es. split; [done|]. intros (k & c & _ & _ & Hn).
    by rewrite (Hn 0%nat b ltac:(lia) eq_refl) in Es.
  - rewrite IH. split.
    + intros (k & c & Hc & Ht & Hn). exists (S k), c. split_and!; try done.
      intros [|j] d Hj Hd; [by simplify_eq/=|]. apply (Hn j); [lia|done].
    + intros ([|k] & c & Hc & Ht & Hn); simplify_eq/=; [congruence|].
      exists k, c. split_and!; try done. intros j d Hj Hd. apply (Hn (S j)); [lia|done].
Qed.

(** An optimistic win: the target is reached, and the stop on no earlier bar. *)
Lemma optimistic_iff tp sp policy l :
  optimistic_winner (classify tp sp policy (first_reaching tp sp l)) = true <->
  exists k b, l !! k = Some b /\ reaches_target tp b = true /\
    forall j c, (j < k)%nat -> l !! j = Some c -> reaches_stop sp c = false.
Proof.
  induction l as [|b l IH]; [split; [done|by intros (k & b & ? & _)]|].
  rewrite first_reaching_cons. destruct (reaches_target tp b) eqn:Et; simpl orb; cbv iota.
  { unfold classify. rewrite Et. split; [|done]. intros _. exists 0%nat, b.
    split_and!; try done. intros; lia. }
  destruct (reaches_stop sp b) eqn:Es.
  - unfold classify. rewrite Et, Es. split; [done|].
    intros ([|k] & c & Hc & Ht & Hn); simplify_eq/=; [congruence|].
    by rewrite (Hn 0%nat b ltac:(lia) eq_refl) in Es.
  - rewrite IH. split.
    + intros (k & c & Hc & Ht & Hn). exists (S k), c. split_and!; try done.
      intros [|j] d Hj Hd; [by simplify_eq/=|]. apply (Hn j); [lia|done].
    + intros ([|k] & c & Hc & Ht & Hn); simplify_eq/=; [congruence|].
      exists k, c. split_and!; try done. intros j d Hj Hd. apply (Hn (S j)); [lia|done].
Qed.

Lemma reaches_target_mono tp tp' b : tp' ≼ tp ->
  reaches_target tp b = true -> reaches_target tp' b = true.
Proof.
  unfold reaches_target. destruct (Bar.high b); [|done]. rewrite !dle_spec. intros. lra.
Qed.

Lemma reaches_stop_mono sp sp' b : sp' ≼ sp ->
  reaches_stop sp b = false -> reaches_stop sp' b = false.
Proof.
  unfold reaches_stop. destruct (Bar.low b); [|done]. rewrite !dle_false. intros. lra.
Qed.

Lemma hundred_pos : (0 < dval (of_int 100))%Q.
Proof. reflexivity. Qed.

Lemma levels_mono entry t s t' s' tp sp tp' sp' : (0 <= dval entry)%Q -> t' ≼ t -> s ≼ s' ->
  target_level entry t = Ok tp -> stop_level entry s = Ok sp ->
  target_level entry t' = Ok tp' -> stop_level entry s' = Ok sp' ->
  tp' ≼ tp /\ sp' ≼ sp.
Proof.
  intros He Ht Hs E1 E2 E3 E4. unfold target_level, stop_level in *.
  destruct (ddiv_mono t' t (of_int 100) hundred_pos Ht) as (q' & q & Q' & Q & Hq).
  destruct (ddiv_mono s s' (of_int 100) hundred_pos Hs) as (r & r' & R & R' & Hr).
  rewrite Q in E1. rewrite R in E2. rewrite Q' in E3. rewrite R' in E4.
  apply Ok_inj in E1, E2, E3, E4. subst tp sp tp' sp'. split; apply dmul_mono_r; try done.
  - by apply dadd_mono_r.
  - by apply dsub_anti.
Qed.

Lemma evaluate_spec bars entry t s policy tp sp : Forall priced bars ->
  target_level entry t = Ok tp -> stop_level entry s = Ok sp ->
  evaluate bars entry t s policy =
  Ok (classify tp sp policy (first_reaching tp sp (sort_by by_date bars))).
Proof.
  intros Hp Et Es. unfold evaluate. rewrite Et, Es. simpl. by apply scan_bars_spec, sort_priced.
Qed.

(** ** Theorems *)

(** C33: The evaluation is that of the first bar, in the order of dates, that reaches the
    target or the stop: it decides the event and its session, and the conservative, the
    primary and the optimistic verdict, each of which implies the next. *)
Theorem first_event_correct bars entry t s policy : Forall priced bars ->
  exists tp sp ev,
    target_level entry t = Ok tp /\ stop_level entry s = Ok sp /\
    evaluate bars entry t s policy = Ok ev /\
    ev = classify tp sp policy (first_reaching tp sp (sort_by by_date bars)) /\
    (conservative_winner ev = true -> primary_winner ev = true) /\
    (primary_winner ev = true -> optimistic_winner ev = true).
Proof.
  intros Hp. destruct (levels_ok entry t s) as (tp & sp & Et & Es). exists tp, sp.
  eexists. split; [done|]. split; [done|]. split; [by apply evaluate_spec|]. split; [done|].
  destruct (first_reaching tp sp _) as [b|]; simpl; [|done].
  destruct (reaches_target tp b), (reaches_stop sp b); simpl; by split.
Qed.

(** The order in which the bars of a horizon are delivered is irrelevant. *)
Theorem evaluation_ignores_order bars bars' entry t s policy : NoDup (map Bar.bar_date bars) ->
  bars ≡ₚ bars' -> evaluate bars entry t s policy = evaluate bars' entry t s policy.
Proof. intros ND P. unfold evaluate. by rewrite (sort_by_date_unique bars bars' ND P). Qed.

(** With a lower target and a wider stop a prediction that won still wins, although both
    levels are computed in rounded decimal arithmetic. *)
Theorem easier_terms_keep_wins bars entry t s t' s' policy ev ev' : Forall priced bars ->
  (0 <= dval entry)%Q -> t' ≼ t -> s ≼ s' ->
  evaluate bars entry t s policy = Ok ev -> evaluate bars entry t' s' policy = Ok ev' ->
  (conservative_winner ev = true -> conservative_winner ev' = true) /\
  (optimistic_winner ev = true -> optimistic_winner ev' = true).
Proof.
  intros Hp He Ht Hs E E'.
  destruct (levels_ok entry t s) as (tp & sp & Et & Es).
  destruct (levels_ok entry t' s') as (tp' & sp' & Et' & Es').
  destruct (levels_mono entry t s t' s' tp sp tp' sp') as [Mt Ms]; try done.
  rewrite (evaluate_spec _ _ _ _ _ tp sp) in E by done. injection E as <-.
  rewrite (evaluate_spec _ _ _ _ _ tp' sp') in E' by done. injection E' as <-.
  rewrite !conservative_iff, !optimistic_iff.
  split; intros (k & b & Hb & Hr & Hn); exists k, b; (split; [done|]);
    (split; [by apply (reaches_target_mono tp)|]); intros; eapply (reaches_stop_mono sp); eauto.
Qed.
