(* ===== verification/Outcomes.v ===== *)
(** * Sessions of an outcome: [winner_probability/trading_session_service.py] and the
    price dependencies of [winner_probability/market_data_obligation_service.py]

    The sessions an outcome needs, the choice of a complete price basis, the grouping of
    missing sessions into requests and the lag of the local bars.  The loops that walk
    from session to session have fuel; the lemmas show that it is enough.  The second part
    is the processing of one outcome. *)
From Stdlib Require Import ZArith Lia List String Bool Sorted.
From stdpp Require Import base gmap list strings.
From S2P Require Import Prelude PyDate PyFloat PyValue Calendar CalendarFacts Canonical PyDecimal.
From S2P Require Import PriceBars TargetStop.
Local Open Scope string_scope.
Local Open Scope list_scope.
Local Open Scope Z_scope.

(** ** [trading_session_service.py] *)

Definition next_regular_session (day : date) : result date :=
  next_us_trading_day CALENDAR_VERSION day.

Definition horizon_due_session (entry_session : date) (horizon_sessions : Z) : result date :=
  nth_us_trading_day_from_entry CALENDAR_VERSION entry_session horizon_sessions.

Section Clock.
Variable ny_wall : datetime -> datetime.
Variable now_utc : datetime.

Definition latest_completed_session (now : option pydatetime) : result date :=
  latest_completed_us_trading_day ny_wall now_utc CALENDAR_VERSION now.

Definition is_horizon_complete (due_session : option date) (now : option pydatetime) : result bool :=
  match due_session with
  | None => mret false
  | Some due => completed ← latest_completed_session now; mret (due <=? completed)
  end.

Definition require_completed_horizon (due_session : option date) (now : option pydatetime)
    : result unit :=
  complete ← is_horizon_complete due_session now;
  if (complete : bool) then mret tt else raise "TradingSessionError" "horizon is not complete".

End Clock.

(** ** Price dependencies *)

Definition SUPPORTED_BASES : list string := ["ADJUSTED_LAST"; "TRADES"].

(** [while len(result) < horizon_sessions: result.append(next(result[-1]))]. *)
Fixpoint more_sessions (n : nat) (last : date) : result (list date) :=
  match n with
  | O => mret []
  | S n => d ← next_regular_session last; rest ← more_sessions n d; mret (d :: rest)
  end.

Definition required_outcome_sessions (entry_session : date) (horizon_sessions : Z)
    : result (list date) :=
  if horizon_sessions <? 1 then ValueError "horizon_sessions must be positive"
  else rest ← more_sessions (Z.to_nat (horizon_sessions - 1)) entry_session;
       mret (entry_session :: rest).

(** [by_date[session]]: the last row of a date stays in a dictionary comprehension. *)
Definition row_of_date (rows : list PriceBar) (session : date) : option PriceBar :=
  List.find (fun row => Bar.bar_date row =? session) (rev rows).

Definition basis_rows (rows : list PriceBar) (required : list date) (basis : string)
    : list PriceBar :=
  List.filter (fun row => String.eqb (Bar.what_to_show row) basis && mem (Bar.bar_date row) required)
    rows.

Definition complete_basis_for_rows (rows : list PriceBar) (required : list date)
    : option string * list PriceBar :=
  foldr (fun basis otherwise =>
           match mapM (row_of_date (basis_rows rows required basis)) required with
           | Some selected => (Some basis, selected)
           | None => otherwise
           end)
        (None, []) SUPPORTED_BASES.

(** [_contiguous_session_groups]; the groups under construction are kept in reverse. *)
Fixpoint group_sessions (group : list date) (sessions : list date) : result (list (list date)) :=
  match sessions with
  | [] => mret [rev group]
  | session :: sessions =>
      match group with
      | [] => group_sessions [session] sessions
      | last :: _ =>
          expected ← next_regular_session last;
          if session =? expected then group_sessions (session :: group) sessions
          else rest ← group_sessions [session] sessions; mret (rev group :: rest)
      end
  end.

Definition _contiguous_session_groups (sessions : list date) : result (list (list date)) :=
  match sessions with
  | [] => mret []
  | session :: sessions => group_sessions [session] sessions
  end.

Record GlobalDailyBarLag := mkGlobalDailyBarLag {
  latest_completed : date;
  latest_local_session : option date;
  lag_sessions : Z;
  degraded : bool;
}.

(** [while cursor < latest_completed_session]. *)
Fixpoint count_lag (fuel : nat) (latest_completed_session cursor : date) (lag : Z) : result Z :=
  match fuel with
  | O => Raise OutOfFuel
  | S fuel =>
      if cursor <? latest_completed_session then
        cursor ← next_regular_session cursor;
        count_lag fuel latest_completed_session cursor
          (if cursor <=? latest_completed_session then lag + 1 else lag)
      else mret lag
  end.

(** [latest] is the greatest stored date of a daily bar. *)
Definition global_daily_bar_lag (latest : option date) (latest_completed_session : date)
    : result GlobalDailyBarLag :=
  lag ← match latest with
        | None => mret 1
        | Some cursor => count_lag (S (Z.to_nat (latest_completed_session - cursor)))
                           latest_completed_session cursor 0
        end;
  mret (mkGlobalDailyBarLag latest_completed_session latest lag
          (match latest with None => true | Some d => d <? latest_completed_session end)).

(** ** The sessions from the entry on *)

(** Consecutive sessions. *)
Inductive consecutive : list date -> Prop :=
  | consecutive_one d : consecutive [d]
  | consecutive_cons d e l : next_regular_session d = Ok e -> consecutive (e :: l) ->
      consecutive (d :: e :: l).

Lemma next_regular_session_ok d : exists r, next_regular_session d = Ok r /\ d < r /\
  trading CALENDAR_VERSION r = true /\ forall x, d < x < r -> trading CALENDAR_VERSION x = false.
Proof.
  unfold next_regular_session.
  destruct (next_spec CALENDAR_VERSION d eq_refl) as (r & E & (H1 & H2 & H3) & _).
  exists r. split; [done|]. split; [lia|]. split; [done|]. intros x Hx. apply H3. lia.
Qed.

Lemma last_default {A} (l : list A) x d e : List.last (x :: l) d = List.last (x :: l) e.
Proof. revert x. induction l as [|y l IH]; intros x; [done|]. apply (IH y). Qed.

Lemma last_cons_default {A} (l : list A) x d : List.last (x :: l) d = List.last l x.
Proof. destruct l as [|y l]; [done|]. apply (last_default l y). Qed.

Lemma more_sessions_ok n d : exists l, more_sessions n d = Ok l /\ length l = n /\
  consecutive (d :: l) /\ iterate_days n next_regular_session d = Ok (List.last l d).
Proof.
  revert d. induction n as [|n IH]; intros d; simpl.
  { exists []. split_and!; try done. constructor. }
  destruct (next_regular_session_ok d) as (r & E & _). rewrite E. simpl.
  destruct (IH r) as (l & El & Hl & Hc & Hi). rewrite El. simpl.
  exists (r :: l). split; [done|]. split; [simpl; lia|]. split; [by constructor|].
  rewrite Hi. f_equal. symmetry. apply last_cons_default.
Qed.

Lemma consecutive_sorted l : consecutive l -> StronglySorted Z.lt l.
Proof.
  induction 1 as [d|d e l E _ IH]; [by repeat constructor|].
  destruct (next_regular_session_ok d) as (r & Er & Hr & _). rewrite E in Er. simplify_eq.
  constructor; [done|]. inversion_clear IH as [|? ? S F]. constructor; [done|].
  eapply Forall_impl; [exact F|]. intros; simpl in *; lia.
Qed.

(** [required_outcome_sessions] ends on the due session of the outcome. *)
Lemma required_ends_due entry h : 1 <= h -> trading CALENDAR_VERSION entry = true ->
  exists l, required_outcome_sessions entry h = Ok (entry :: l) /\
    Z.of_nat (length (entry :: l)) = h /\ consecutive (entry :: l) /\
    horizon_due_session entry h = Ok (List.last l entry).
Proof.
  intros Hh Ht. unfold required_outcome_sessions. rewrite (proj2 (Z.ltb_ge h 1)) by lia.
  destruct (more_sessions_ok (Z.to_nat (h - 1)) entry) as (l & El & Hl & Hc & Hi).
  exists l. rewrite El. split; [done|]. split; [simpl; lia|]. split; [done|].
  unfold horizon_due_session, nth_us_trading_day_from_entry.
  rewrite (proj2 (Z.leb_gt h 0)) by lia. rewrite is_us_trading_day_ok by done. simpl.
  rewrite Ht. exact Hi.
Qed.

(** ** The choice of a basis *)

Lemma row_of_date_Some rows d row : row_of_date rows d = Some row ->
  In row rows /\ Bar.bar_date row = d.
Proof.
  unfold row_of_date. intros H. apply find_some in H as [H E].
  apply in_rev in H. split; [done|lia].
Qed.

Lemma row_of_date_None rows d row : row_of_date rows d = None -> In row rows ->
  Bar.bar_date row <> d.
Proof.
  unfold row_of_date. intros H Hin. apply in_rev in Hin.
  apply (find_none _ _ H) in Hin. lia.
Qed.

Lemma basis_rows_In rows required basis row : In row (basis_rows rows required basis) <->
  In row rows /\ Bar.what_to_show row = basis /\ In (Bar.bar_date row) required.
Proof.
  unfold basis_rows. rewrite filter_In, andb_true_iff, String.eqb_eq, mem_In. tauto.
Qed.

(** The selected rows are one row per required session, all of one basis; nothing is
    selected only when each basis lacks a session. *)
Lemma complete_basis_spec rows required :
  match complete_basis_for_rows rows required with
  | (Some basis, selected) =>
      In basis SUPPORTED_BASES /\ map Bar.bar_date selected = required /\
      Forall (fun row => In row rows /\ Bar.what_to_show row = basis) selected
  | (None, selected) =>
      selected = [] /\ forall basis, In basis SUPPORTED_BASES ->
        exists d, In d required /\
          forall row, In row rows -> Bar.what_to_show row = basis -> Bar.bar_date row <> d
  end.
Proof.
  unfold complete_basis_for_rows.
  assert (H : forall bases, match
      foldr (fun basis otherwise =>
               match mapM (row_of_date (basis_rows rows required basis)) required with
               | Some selected => (Some basis, selected) | None => otherwise end) (None, []) bases
    with
    | (Some basis, selected) =>
      In basis bases /\ map Bar.bar_date selected = required /\
      Forall (fun row => In row rows /\ Bar.what_to_show row = basis) selected
    | (None, selected) =>
      selected = [] /\ forall basis, In basis bases ->
        exists d, In d required /\
          forall row, In row rows -> Bar.what_to_show row = basis -> Bar.bar_date row <> d
    end); [|apply (H SUPPORTED_BASES)].
  induction bases as [|basis bases IH]; [done|]. simpl.
  destruct (mapM _ required) as [selected|] eqn:E.
  - split; [by left|]. apply mapM_Some in E. clear IH.
    assert (G : map Bar.bar_date selected = required /\
      Forall (fun row => In row (basis_rows rows required basis)) selected).
    { revert E. generalize (basis_rows rows required basis). intros pool E.
      induction E as [|d row ds rs Hd _ [IH1 IH2]]; [done|].
      apply row_of_date_Some in Hd as [Hin <-]. simpl. rewrite IH1. by split; [|constructor]. }
    destruct G as [G1 G2]. split; [done|]. eapply Forall_impl; [exact G2|].
    intros row Hr. by apply basis_rows_In in Hr as (? & ? & _).
  - destruct (foldr _ _ bases) as [[b|] sel].
    + destruct IH as (? & ? & ?). split; [by right|done].
    + destruct IH as [-> IH]. split; [done|]. intros b [<-|Hb]; [|by apply IH].
      apply mapM_None in E. apply List.Exists_exists in E as (d & Hd & Hn).
      exists d. split; [done|]. intros row Hr Hb C.
      apply (row_of_date_None _ _ row Hn); [|done]. apply basis_rows_In. by subst.
Qed.

(** ** Grouping missing sessions *)

(** No group could be joined to the next one. *)
Fixpoint separated_groups (groups : list (list date)) : Prop :=
  match groups with
  | g :: ((h :: _) :: _) as rest =>
      (forall e, next_regular_session (List.last g 0) = Ok e -> e <> h) /\ separated_groups rest
  | _ => True
  end.

Lemma consecutive_snoc l d e : consecutive (l ++ [d]) -> next_regular_session d = Ok e ->
  consecutive (l ++ [d; e]).
Proof.
  induction l as [|x l IH]; simpl; intros H E.
  - constructor; [done|constructor].
  - destruct l as [|y l]; simpl in *.
    + inversion_clear H. constructor; [done|]. constructor; [done|constructor].
    + inversion_clear H. constructor; [done|]. by apply IH.
Qed.

Lemma group_sessions_ok sessions : forall last group,
  consecutive (rev (last :: group)) ->
  exists g rest, group_sessions (last :: group) sessions = Ok (g :: rest) /\
    List.concat (g :: rest) = rev (last :: group) ++ sessions /\
    Forall consecutive (g :: rest) /\ separated_groups (g :: rest) /\
    exists h t t', g = h :: t /\ rev (last :: group) = h :: t'.
Proof.
  assert (H : forall (last : date) group, exists h t, rev (last :: group) = h :: t).
  { intros last group. simpl. destruct (rev group) as [|h t]; simpl; eauto. }
  induction sessions as [|s sessions IH]; intros last group Hc; cbn [group_sessions].
  { destruct (H last group) as (h & t & E). rewrite E in *. eexists _, [].
    split; [reflexivity|]. simpl. rewrite !app_nil_r. split; [done|].
    split; [by constructor|]. split; [done|]. by exists h, t, t. }
  destruct (next_regular_session_ok last) as (e & E & _). rewrite E. cbn [mbind result_bind].
  destruct (Z.eqb_spec s e) as [->|Hs].
  - destruct (IH e (last :: group)) as (g & rest & Eg & Ec & Fc & Sg & h & t & t' & -> & Er).
    { simpl. rewrite <- app_assoc. by apply consecutive_snoc. }
    exists (h :: t), rest. split; [done|]. split.
    { rewrite Ec. simpl. by rewrite <- !app_assoc. }
    split; [done|]. split; [done|]. destruct (H last group) as (h' & u & R).
    exists h', t, u. split; [|done]. change (rev (e :: last :: group)) with (rev (last :: group) ++ [e]) in Er.
    rewrite R in Er. simpl in Er. by injection Er as <- _.
  - destruct (IH s [] ltac:(constructor)) as (g & rest & Eg & Ec & Fc & Sg & h & t & t' & -> & Er).
    rewrite Eg. cbn [mbind result_bind mret result_ret]. eexists _, _. split; [reflexivity|].
    simpl in Er. injection Er as Hs' _. split.
    { simpl in Ec |- *. by rewrite Ec. }
    split; [by constructor|]. split.
    { split; [|done]. change (rev (last :: group)) with (rev group ++ [last]).
      rewrite last_last. intros e' E'. rewrite E in E'. congruence. }
    destruct (H last group) as (h' & u & R). exists h', u, u. by rewrite R.
Qed.

(** Missing sessions are requested in runs of consecutive sessions: the groups hold the
    sessions in their order, each group is a run, and no two adjacent groups could be one. *)
Theorem contiguous_groups_correct sessions :
  exists groups, _contiguous_session_groups sessions = Ok groups /\
    List.concat groups = sessions /\ Forall consecutive groups /\ separated_groups groups.
Proof.
  destruct sessions as [|s sessions]; [by exists []|].
  destruct (group_sessions_ok sessions s [] ltac:(constructor)) as (g & rest & E & Ec & Fc & Sg & _).
  by exists (g :: rest).
Qed.

(** ** The lag of the local bars *)

Lemma count_lag_ok completed fuel : forall cursor lag,
  0 < Z.of_nat fuel -> completed - cursor < Z.of_nat fuel ->
  count_lag fuel completed cursor lag = Ok (lag + sessions_in CALENDAR_VERSION cursor completed).
Proof.
  induction fuel as [|fuel IH]; intros cursor lag Hp Hf; cbn [count_lag]; [lia|].
  destruct (Z.ltb_spec cursor completed) as [Hlt|Hge].
  - destruct (next_spec CALENDAR_VERSION cursor eq_refl) as (r & E & F & _).
    unfold next_regular_session. rewrite E. cbn [mbind result_bind]. pose proof F as (F1 & F2 & F3).
    rewrite IH by lia. f_equal. destruct (Z.leb_spec r completed) as [Hr|Hr].
    + rewrite (sessions_in_split CALENDAR_VERSION cursor r completed) by lia.
      rewrite (sessions_in_first CALENDAR_VERSION cursor r) by done. lia.
    + rewrite (sessions_in_none CALENDAR_VERSION r completed) by lia.
      rewrite (sessions_in_none CALENDAR_VERSION cursor completed); [done|].
      intros x Hx. apply F3. lia.
  - rewrite sessions_in_none by (intros; lia). by rewrite Z.add_0_r.
Qed.

(** The reported lag is the number of sessions between the latest local bar and the
    latest completed session, and the report is degraded exactly when there is one. *)
Theorem daily_bar_lag_correct latest completed : trading CALENDAR_VERSION completed = true ->
  exists report, global_daily_bar_lag latest completed = Ok report /\
    (forall d, latest = Some d ->
       lag_sessions report = sessions_in CALENDAR_VERSION d completed) /\
    (degraded report = true <-> 0 < lag_sessions report).
Proof.
  intros Ht. unfold global_daily_bar_lag. destruct latest as [d|].
  - rewrite count_lag_ok by lia. cbn [mbind result_bind mret result_ret].
    eexists. split; [reflexivity|]. cbn [lag_sessions degraded]. split.
    { intros x Hx. by simplify_eq. }
    rewrite Z.ltb_lt, Z.add_0_l. split.
    + intros Hd. rewrite (sessions_in_split CALENDAR_VERSION d (completed - 1) completed) by lia.
      rewrite (sessions_in_first CALENDAR_VERSION (completed - 1) completed).
      * unfold sessions_in. lia.
      * split; [lia|]. split; [done|]. intros; lia.
    + intros Hs. destruct (Z_lt_le_dec d completed) as [|Hge]; [done|].
      rewrite sessions_in_none in Hs by (intros; lia). lia.
  - eexists. split; [reflexivity|]. simpl. by split.
Qed.

(** * Outcome maturation: [winner_probability/outcome_service.py] and
    [winner_probability/outcome_revision_service.py]

    When the horizon of a prediction is complete, its forward outcome is calculated from
    the daily bars of the horizon (return, excursions, benchmark returns) and written to
    the outcome row; the target and stop outcomes of the same prediction, entry model and
    horizon follow.  When the bars of a matured outcome change, the row is superseded by a
    new revision.

    The store [OutcomeDb] holds the rows; a row object is its identifier.  A handler is a
    computation of [ST] over the store.  The services that decide whether a writer may act
    ([outcome_authority.py]), the frozen configuration of a prediction
    ([decision_effective_configuration.py]) and the proof that is sealed into a row are
    operations of the class [OutcomeAuthority]: a check may raise but writes nothing. *)
From Stdlib Require Import ZArith Lia List String Ascii Bool.
From stdpp Require Import base gmap list strings.
From S2P Require Import Prelude PyDate PyFloat PyValue Calendar Canonical PyDecimal PriceBars.
From S2P Require Import TargetStop.
Local Open Scope string_scope.
Local Open Scope list_scope.
Local Open Scope Z_scope.
Local Open Scope st_scope.

(** ** The store *)

Record OutcomeDb := mkOutcomeDb {
  prices : PriceDb;
  predictions : gmap Z WinnerPredictionSnapshot;
  forwards : gmap Z WinnerForwardOutcome;
  targets : gmap Z WinnerTargetStopOutcome;
  definitions : gmap Z WinnerOutcomeDefinition;
  next_forward_id : Z;
  next_target_id : Z;
}.

Definition set_predictions v (db : OutcomeDb) : OutcomeDb :=
  mkOutcomeDb (prices db) v (forwards db) (targets db) (definitions db) (next_forward_id db)
    (next_target_id db).
Definition set_forwards v (db : OutcomeDb) : OutcomeDb :=
  mkOutcomeDb (prices db) (predictions db) v (targets db) (definitions db) (next_forward_id db)
    (next_target_id db).
Definition set_targets v (db : OutcomeDb) : OutcomeDb :=
  mkOutcomeDb (prices db) (predictions db) (forwards db) v (definitions db) (next_forward_id db)
    (next_target_id db).

(** Assignments to the attributes of a row. *)
Definition update_forward (i : Z) (f : WinnerForwardOutcome -> WinnerForwardOutcome)
    : ST OutcomeDb unit :=
  st_modify (fun db => set_forwards (alter f i (forwards db)) db).
Definition update_target (i : Z) (f : WinnerTargetStopOutcome -> WinnerTargetStopOutcome)
    : ST OutcomeDb unit :=
  st_modify (fun db => set_targets (alter f i (targets db)) db).
Definition update_prediction (i : Z) (f : WinnerPredictionSnapshot -> WinnerPredictionSnapshot)
    : ST OutcomeDb unit :=
  st_modify (fun db => set_predictions (alter f i (predictions db)) db).

(** [db.get(WinnerForwardOutcome, i)] of a row that the caller holds. *)
Definition get_forward (i : Z) : ST OutcomeDb WinnerForwardOutcome := fun db =>
  match forwards db !! i with
  | Some row => (Ok row, db)
  | None => (raise "ObjectDeletedError" "", db)
  end.
Definition get_target (i : Z) : ST OutcomeDb WinnerTargetStopOutcome := fun db =>
  match targets db !! i with
  | Some row => (Ok row, db)
  | None => (raise "ObjectDeletedError" "", db)
  end.

(** ** What is not modelled *)

(** A rule of [outcome_definitions] in a frozen configuration. *)
Record OutcomeRule := mkOutcomeRule {
  rule_id : string;
  rule_entry_model : string;
  rule_horizon_sessions : Z;
  rule_target_pct : decimal;
  rule_stop_pct : decimal;
  rule_policy : string;
}.

(** The parts of a frozen outcome configuration that maturation reads. *)
Record RetainedOutcome := mkRetainedOutcome {
  ret_entry_models : list string;
  ret_horizons : list Z;
  ret_definitions : list OutcomeRule;
  ret_calculation_version : string;
  ret_reference_policy : option dict;
}.

Class OutcomeAuthority := {
  (** [_retained_outcome_configuration]: none for a legacy prediction. *)
  _retained_outcome_configuration : WinnerPredictionSnapshot -> result (option RetainedOutcome);
  (** [lock_decision_scope], [refresh_exact_predecessor] and [forward_authority]. *)
  forward_authority : OutcomeDb -> Z -> datetime -> result unit;
  validate_retained_outcome : OutcomeDb -> WinnerTargetStopOutcome -> result unit;
  (** The value of the sealed proof of a row. *)
  forward_proof : OutcomeDb -> WinnerForwardOutcome -> pyval;
  target_proof : OutcomeDb -> WinnerTargetStopOutcome -> pyval;
  (** [config.get("sector_etf_proxies", {}).get(sector)] of the current configuration. *)
  sector_etf_proxies : string -> option string;
  (** [sha256(json.dumps(v, sort_keys=True, separators=(",", ":"))).hexdigest()]. *)
  json_digest : pyval -> string;
}.

Definition BENCHMARK_TICKER : string := "SPY".

Section Outcomes.
Context `{BarText} `{OutcomeAuthority}.
Variable ny_wall : datetime -> datetime.

(** ** Calculations on bars *)

(** [while cursor <= end] of [_has_required_sessions]. *)
Fixpoint sessions_available (fuel : nat) (available : list date) (end_ cursor : date)
    : result bool :=
  match fuel with
  | O => Raise OutOfFuel
  | S fuel =>
      if cursor <=? end_ then
        if negb (mem cursor available) then mret false
        else if cursor =? end_ then mret true
        else cursor ← next_regular_session cursor; sessions_available fuel available end_ cursor
      else mret true
  end.

Definition _has_required_sessions (bars : list PriceBar) (start end_ : option date) : result bool :=
  match start, end_ with
  | Some start, Some end_ =>
      sessions_available (S (Z.to_nat (end_ - start + 1))) (map Bar.bar_date bars) end_ start
  | _, _ => mret false
  end.

Definition row_error (row : PriceBar) : option string :=
  match Bar.open row, Bar.high row, Bar.low row, Bar.close row with
  | Some open_price, Some high, Some low, Some close =>
      if dlt (dmin open_price close) low || dlt high (dmax open_price close) || dlt high low
      then Some "invalid_ohlc" else None
  | _, _, _, _ => Some "missing_ohlc"
  end.

Definition _validate_bars (bars : list PriceBar) : option string :=
  let adjustment_basis :=
    remove_dups (map (fun row => (Bar.what_to_show row, or_empty (Bar.adjustment_type row))) bars) in
  if (1 <? length adjustment_basis)%nat then Some "adjustment_mismatch"
  else foldr (fun row otherwise =>
                match row_error row with Some e => Some e | None => otherwise end) None bars.

Definition _bar_by_date (bars : list PriceBar) (bar_date : option date) : option PriceBar :=
  List.find (fun row => bool_decide (Some (Bar.bar_date row) = bar_date)) bars.

Definition _entry_price (entry_model : string) (entry_bar : PriceBar) : option decimal :=
  if String.eqb entry_model SIGNAL_CLOSE_DIAGNOSTIC then Bar.close entry_bar
  else Bar.open entry_bar.

(** [(x - entry) / entry * 100], before it is quantized. *)
Definition change_pct (x entry_price : decimal) : result decimal :=
  q ← ddiv (dsub x entry_price) entry_price;
  mret (dmul q (of_int 100)).

Definition _return_pct (exit_price entry_price : decimal) : result decimal :=
  p ← change_pct exit_price entry_price; quantize (-6) p.

Definition excursions (bars : list PriceBar) (entry_price : decimal)
    (field : PriceBar -> option decimal) : result (list (decimal * Z)) :=
  mapM (fun '(i, row) => x ← price (field row); p ← change_pct x entry_price; mret (p, i))
    (zip (seqZ 1 (Z.of_nat (length bars))) (sort_by by_date bars)).

(** [max(values, key=...)] and [min(values, key=...)] keep the first of equals. *)
Definition best (better : decimal -> decimal -> bool) (values : list (decimal * Z))
    : result (decimal * Z) :=
  match values with
  | [] => ValueError "arg is an empty sequence"
  | v :: vs => mret (foldl (fun b x => if better x.1 b.1 then x else b) v vs)
  end.

Definition _max_excursion (bars : list PriceBar) (entry_price : decimal)
    (field : PriceBar -> option decimal) : result (decimal * Z) :=
  values ← excursions bars entry_price field;
  v ← best (fun a b => dlt b a) values;
  value ← quantize (-6) v.1;
  mret (value, v.2).

Definition _min_excursion (bars : list PriceBar) (entry_price : decimal)
    (field : PriceBar -> option decimal) : result (decimal * Z) :=
  values ← excursions bars entry_price field;
  v ← best (fun a b => dlt a b) values;
  value ← quantize (-6) v.1;
  mret (value, v.2).

(** ** Lineage *)

Definition lineage_leb (a b : PriceBar) : bool :=
  if String.eqb (Bar.ticker a) (Bar.ticker b) then
    if Bar.bar_date a =? Bar.bar_date b then String.leb (Bar.what_to_show a) (Bar.what_to_show b)
    else Bar.bar_date a <=? Bar.bar_date b
  else String.leb (Bar.ticker a) (Bar.ticker b).

Definition lineage_entry (row : PriceBar) : pyval :=
  VDict [("ticker", VStr (upper (Bar.ticker row)));
         ("bar_date", VStr (date_isoformat (Bar.bar_date row)));
         ("what_to_show", VStr (Bar.what_to_show row));
         ("timeframe", VStr (Bar.timeframe row));
         ("data_hash", VStr (current_hash row));
         ("revision_count", VInt (Bar.revision_count row))].

Definition max_time (a : option datetime) (b : datetime) : option datetime :=
  match a with None => Some b | Some a => Some (Z.max a b) end.

Definition _source_lineage (bars : list PriceBar) : string * option datetime :=
  let payload := map lineage_entry (sort_by lineage_leb bars) in
  let times := flat_map (fun row =>
                 match Bar.revised_at row with None => [] | Some t => [t] end
                 ++ [Bar.last_seen_at row; Bar.created_at row]) bars in
  (json_digest (VList payload), foldl max_time None times).

(** ** References of a prediction *)

Definition str_or_none (v : pyval) : option string := match v with VStr s => Some s | _ => None end.

(** [_retained_outcome_reference]: the benchmark and the sector proxy. *)
Definition _retained_outcome_reference (prediction : WinnerPredictionSnapshot)
    : result (option (string * option string)) :=
  config ← _retained_outcome_configuration prediction;
  match config with
  | None => mret None
  | Some config =>
      match dget (Pred.lineage_json prediction) "outcome_reference_policy" with
      | VDict retained =>
          if negb (py_eq (dget retained "version") (VStr "winner-outcome-reference-v1"))
             || negb (truthy (dget retained "benchmark_ticker"))
             || bool_decide (dict_find "sector_proxy" retained = None)
          then ValueError "MISSING_WINNER_OUTCOME_REFERENCE_CONFIGURATION"
          else
            match ret_reference_policy config with
            | Some frozen =>
                if py_eq (VDict retained) (VDict frozen) then
                  mret (Some (or_empty (str_or_none (dget retained "benchmark_ticker")),
                              str_or_none (dget retained "sector_proxy")))
                else ValueError "WINNER_OUTCOME_REFERENCE_CONFIGURATION_MISMATCH"
            | None =>
                mret (Some (or_empty (str_or_none (dget retained "benchmark_ticker")),
                            str_or_none (dget retained "sector_proxy")))
            end
      | _ => ValueError "MISSING_WINNER_OUTCOME_REFERENCE_CONFIGURATION"
      end
  end.

Definition _benchmark_for_prediction (prediction : WinnerPredictionSnapshot) : result string :=
  retained ← _retained_outcome_reference prediction;
  mret (match retained with Some (benchmark, _) => benchmark | None => BENCHMARK_TICKER end).

Definition _prediction_sector (prediction : WinnerPredictionSnapshot) : option string :=
  let features := Pred.feature_json prediction in
  str_or_none (py_or (dget features "canonical_sector")
                 (py_or (dget features "raw_sector") VNone)).

Definition _sector_proxy (sector : option string) : option string :=
  match sector with
  | None => None
  | Some sector =>
      if String.eqb sector "" then None
      else match sector_etf_proxies sector with
           | None => None
           | Some proxy => if String.eqb proxy "" then None else Some (upper proxy)
           end
  end.

Definition _sector_proxy_for_prediction (prediction : WinnerPredictionSnapshot)
    : result (option string) :=
  retained ← _retained_outcome_reference prediction;
  mret (match retained with
        | Some (_, proxy) => proxy
        | None => _sector_proxy (_prediction_sector prediction)
        end).

(** ** The rows a calculation works on *)

Record OutcomeBatchContext := mkOutcomeBatchContext {
  ctx_bars_by_ticker : list (string * list PriceBar);
  ctx_bars_by_outcome : list PriceBar;
  ctx_target_stops : list Z;
}.

(** [ORDER BY ticker, bar_date, id] and [ORDER BY id]. *)
Definition bar_order (a b : PriceBar) : bool :=
  if String.eqb (Bar.ticker a) (Bar.ticker b) then
    if Bar.bar_date a =? Bar.bar_date b then Bar.id a <=? Bar.id b
    else Bar.bar_date a <=? Bar.bar_date b
  else String.leb (Bar.ticker a) (Bar.ticker b).

Definition target_rows (db : OutcomeDb) : list WinnerTargetStopOutcome :=
  sort_by (fun a b => Tgt.id a <=? Tgt.id b) (map snd (map_to_list (targets db))).

Definition _validate_target_stop_link (target_stop : WinnerTargetStopOutcome)
    (definition : WinnerOutcomeDefinition) (forward : WinnerForwardOutcome) : result unit :=
  if negb (String.eqb (Def.entry_model definition) (Tgt.entry_model target_stop))
     || negb (Def.horizon_sessions definition =? Tgt.horizon_sessions target_stop)
  then raise "TargetStopForwardMismatch" "definition semantics"
  else if negb (Tgt.prediction_id target_stop =? Fwd.prediction_id forward)
     || negb (String.eqb (Tgt.entry_model target_stop) (Fwd.entry_model forward))
     || negb (Tgt.horizon_sessions target_stop =? Fwd.horizon_sessions forward)
  then raise "TargetStopForwardMismatch" "forward semantics"
  else match Tgt.forward_outcome_id target_stop with
       | Some linked =>
           if linked =? Fwd.id forward then mret tt
           else raise "TargetStopForwardMismatch" "forward link"
       | None => mret tt
       end.

(** The current target and stop outcomes of the execution (prediction, entry model,
    horizon) of a forward outcome, each with its definition, checked one by one. *)
Definition load_target_stops (db : OutcomeDb) (outcome : WinnerForwardOutcome) : result (list Z) :=
  foldr (fun row acc =>
           match definitions db !! Tgt.outcome_definition_id row with
           | Some definition =>
               if (Tgt.prediction_id row =? Fwd.prediction_id outcome)
                  && Tgt.is_current_revision row
                  && String.eqb (Tgt.entry_model row) (Fwd.entry_model outcome)
                  && (Tgt.horizon_sessions row =? Fwd.horizon_sessions outcome)
               then _ ← _validate_target_stop_link row definition outcome;
                    rest ← acc; mret (Tgt.id row :: rest)
               else acc
           | None => acc
           end) (Ok []) (target_rows db).

(** The query for the daily bars of some tickers between two dates, in order. *)
Definition daily_bars (db : OutcomeDb) (symbols : list string) (start end_ : date)
    : list PriceBar :=
  sort_by bar_order
    (List.filter (fun row => smem (Bar.ticker row) symbols && String.eqb (Bar.timeframe row) "1 day"
                       && smem (Bar.what_to_show row) SUPPORTED_BASES
                       && (start <=? Bar.bar_date row) && (Bar.bar_date row <=? end_))
       (bar_rows (prices db))).

Definition by_basis (rows : list PriceBar) (ticker basis : string) : list PriceBar :=
  List.filter (fun row => String.eqb (upper (Bar.ticker row)) ticker
                     && String.eqb (Bar.what_to_show row) basis) rows.

Definition or_else {A} (l l' : list A) : list A := match l with [] => l' | _ => l end.

(** [load_batch_context(db, [outcome])], the batch of [process_forward_outcome]. *)
Definition load_batch_context (db : OutcomeDb) (outcome : WinnerForwardOutcome)
    : result OutcomeBatchContext :=
  target_stops ← load_target_stops db outcome;
  match predictions db !! Fwd.prediction_id outcome with
  | None => mret (mkOutcomeBatchContext [] [] target_stops)
  | Some prediction =>
      benchmark ← _benchmark_for_prediction prediction;
      proxy ← _sector_proxy_for_prediction prediction;
      let ticker := upper (Pred.ticker prediction) in
      let symbols := unique (benchmark :: ticker ::
        match proxy with Some p => if String.eqb p "" then [] else [p] | None => [] end) in
      match Fwd.entry_session outcome, Fwd.due_session outcome with
      | Some entry, Some due =>
          let raw_bars := daily_bars db symbols entry due in
          let bars_by_ticker :=
            map (fun symbol => (symbol, or_else (by_basis raw_bars symbol "ADJUSTED_LAST")
                                          (by_basis raw_bars symbol "TRADES"))) symbols in
          required ← required_outcome_sessions entry (Fwd.horizon_sessions outcome);
          let candidates := by_basis raw_bars ticker "ADJUSTED_LAST"
                            ++ by_basis raw_bars ticker "TRADES" in
          let '(_, selected) := complete_basis_for_rows candidates required in
          mret (mkOutcomeBatchContext bars_by_ticker selected target_stops)
      | _, _ => mret (mkOutcomeBatchContext [] [] target_stops)
      end
  end.

(** ** The forward calculation *)

(** The dictionary [values] of a calculation. *)
Record ForwardValues := mkForwardValues {
  v_entry_price : decimal;
  v_exit_price : decimal;
  v_close_return_pct : decimal;
  v_spy_return_pct : option decimal;
  v_excess_spy_return_pct : option decimal;
  v_sector_return_pct : option decimal;
  v_excess_sector_return_pct : option decimal;
  v_mfe_pct : decimal;
  v_mae_pct : decimal;
  v_sessions_to_mfe : Z;
  v_sessions_to_mae : Z;
  v_positive_return : bool;
  v_beat_spy : option bool;
  v_beat_sector : option bool;
  v_source_bar_lineage_hash : string;
  v_source_revision_cutoff_at : option datetime;
  v_matured_at : datetime;
  v_metadata_json : dict;
}.

Record ForwardCalculation := mkForwardCalculation {
  values : ForwardValues;
  ticker_bars : list PriceBar;
  lineage_bars : list PriceBar;
  warnings : list string;
}.

Definition _mark_pending (reason : string) (now : datetime) (o : WinnerForwardOutcome)
    : WinnerForwardOutcome :=
  Fwd.set_metadata_json (dict_set "pending_reason" (VStr reason) (Fwd.metadata_json o))
    (Fwd.set_retry_not_before_at (Some (now + minutes 15))
       (Fwd.set_last_attempted_at (Some now)
          (Fwd.set_pending_reason_code (Some reason) (Fwd.set_status OUTCOME_PENDING o)))).

Definition _mark_excluded (reason : string) (o : WinnerForwardOutcome) : WinnerForwardOutcome :=
  Fwd.set_metadata_json (dict_set "exclusion_reason" (VStr reason) (Fwd.metadata_json o))
    (Fwd.set_retry_not_before_at None
       (Fwd.set_pending_reason_code None (Fwd.set_status OUTCOME_EXCLUDED o))).

Definition _bars_in_range (bars : list PriceBar) (start_date end_date : date) : list PriceBar :=
  List.filter (fun row => (start_date <=? Bar.bar_date row) && (Bar.bar_date row <=? end_date)) bars.

(** [_comparison_return]: the return of a benchmark, with the lists it extends. *)
Definition _comparison_return (context : OutcomeBatchContext) (ticker : string)
    (outcome : WinnerForwardOutcome) (entry due : date) (lineage : list PriceBar)
    (warnings : list string) : result (option decimal * list PriceBar * list string) :=
  let lower := casefold ticker in
  let bars := _bars_in_range
                (match dict_find (upper ticker) (ctx_bars_by_ticker context) with
                 | Some bars => bars | None => [] end) entry due in
  complete ← _has_required_sessions bars (Some entry) (Some due);
  if negb (0 <? length bars)%nat || negb complete then
    mret (None, lineage, warnings ++ [("missing_" ++ lower ++ "_benchmark_data")%string])
  else match _validate_bars bars with
  | Some _ => mret (None, lineage, warnings ++ [("invalid_" ++ lower ++ "_benchmark_data")%string])
  | None =>
      match _bar_by_date bars (Some entry), _bar_by_date bars (Some due) with
      | Some entry_bar, Some due_bar =>
          match _entry_price (Fwd.entry_model outcome) entry_bar with
          | Some entry_price =>
              if dle entry_price (of_int 0) then
                mret (None, lineage, warnings ++ [("invalid_" ++ lower ++ "_entry_price")%string])
              else
                exit_price ← price (Bar.close due_bar);
                r ← _return_pct exit_price entry_price;
                mret (Some r, lineage ++ bars, warnings)
          | None => mret (None, lineage, warnings ++ [("invalid_" ++ lower ++ "_entry_price")%string])
          end
      | _, _ => mret (None, lineage, warnings ++ [("missing_" ++ lower ++ "_benchmark_data")%string])
      end
  end.

Definition _sector_return (context : OutcomeBatchContext) (prediction : WinnerPredictionSnapshot)
    (outcome : WinnerForwardOutcome) (entry due : date) (lineage : list PriceBar)
    (warnings : list string) : result (option decimal * list PriceBar * list string) :=
  proxy ← _sector_proxy_for_prediction prediction;
  match proxy with
  | Some proxy =>
      if String.eqb proxy "" then mret (None, lineage, warnings ++ ["missing_sector_proxy"])
      else _comparison_return context proxy outcome entry due lineage warnings
  | None => mret (None, lineage, warnings ++ ["missing_sector_proxy"])
  end.

(** The calculation proper, once the entry price is known to be positive. *)
Definition forward_values (context : OutcomeBatchContext) (prediction : WinnerPredictionSnapshot)
    (outcome : WinnerForwardOutcome) (entry due : date) (bars : list PriceBar) (due_bar : PriceBar)
    (entry_price : decimal) (now : datetime) : result ForwardCalculation :=
  exit_price ← price (Bar.close due_bar);
  close_return ← _return_pct exit_price entry_price;
  mfe ← _max_excursion bars entry_price Bar.high;
  mae ← _min_excursion bars entry_price Bar.low;
  benchmark ← _benchmark_for_prediction prediction;
  spy ← _comparison_return context benchmark outcome entry due bars [];
  let '(spy_return, lineage, warnings) := spy in
  sector ← _sector_return context prediction outcome entry due lineage warnings;
  let '(sector_return, lineage, warnings) := sector in
  let '(lineage_hash, source_cutoff) := _source_lineage lineage in
  let semantics := if truthy (dget (Pred.lineage_json prediction) "outcome_effective_configuration")
                   then "FROZEN_PREDICTION_OUTCOME_RULES"
                   else "LEGACY_UNKNOWN_CURRENT_RULES_REFERENCE" in
  mret (mkForwardCalculation
    (mkForwardValues entry_price exit_price close_return spy_return
       (dsub close_return <$> spy_return) sector_return (dsub close_return <$> sector_return)
       mfe.1 mae.1 mfe.2 mae.2 (dlt (of_int 0) close_return)
       ((fun r => dlt r close_return) <$> spy_return)
       ((fun r => dlt r close_return) <$> sector_return)
       lineage_hash source_cutoff now
       (dict_update (Fwd.metadata_json outcome)
          [("warnings", VList (map VStr warnings)); ("calculation_phase", VStr "phase_5");
           ("configuration_semantics", VStr semantics)]))
    bars lineage warnings).

Definition pend (i : Z) (reason : string) (now : datetime) : ST OutcomeDb (option ForwardCalculation) :=
  do! update_forward i (_mark_pending reason now) in st_ret None.

Definition entry_status (i : Z) (status : EntryDataStatus) : ST OutcomeDb unit :=
  update_prediction i (Pred.set_entry_data_status status).

Definition _calculate_forward (prediction : WinnerPredictionSnapshot) (i : Z) (now : datetime)
    (context : OutcomeBatchContext) : ST OutcomeDb (option ForwardCalculation) :=
  let pid := Pred.id prediction in
  let! outcome := get_forward i in
  let! retained := st_lift (_retained_outcome_configuration prediction) in
  let mismatch := match retained with
    | Some native => negb (smem (Fwd.entry_model outcome) (ret_entry_models native))
                     || negb (existsb (Z.eqb (Fwd.horizon_sessions outcome)) (ret_horizons native))
    | None => false
    end in
  if mismatch then st_raise "ValueError" "WINNER_FORWARD_OUTCOME_CONFIGURATION_MISMATCH"
  else match Fwd.entry_session outcome, Fwd.due_session outcome with
  | Some entry, Some due =>
      let bars := ctx_bars_by_outcome context in
      match _bar_by_date bars (Some entry) with
      | None => do! entry_status pid ENTRY_MISSING in pend i "missing_entry_bar" now
      | Some entry_bar =>
          let! complete := st_lift (_has_required_sessions bars (Some entry) (Some due)) in
          if negb complete then pend i "missing_horizon_bar" now
          else match _validate_bars bars with
          | Some error =>
              do! entry_status pid ENTRY_INVALID in
              do! update_forward i (_mark_excluded error) in st_ret None
          | None =>
              match _bar_by_date bars (Some due) with
              | None => pend i "missing_due_bar" now
              | Some due_bar =>
                  match _entry_price (Fwd.entry_model outcome) entry_bar with
                  | Some entry_price =>
                      if dle entry_price (of_int 0) then
                        do! entry_status pid ENTRY_INVALID in
                        do! update_forward i (_mark_excluded "invalid_entry_price") in st_ret None
                      else
                        do! entry_status pid ENTRY_AVAILABLE in
                        do! update_forward i (fun o => Fwd.set_retry_not_before_at None
                                                         (Fwd.set_pending_reason_code None o)) in
                        let! calculation := st_lift (forward_values context prediction outcome
                                              entry due bars due_bar entry_price now) in
                        st_ret (Some calculation)
                  | None =>
                      do! entry_status pid ENTRY_INVALID in
                      do! update_forward i (_mark_excluded "invalid_entry_price") in st_ret None
                  end
              end
          end
      end
  | _, _ => pend i "unresolved_entry_or_due_session" now
  end.

(** ** Revisions: [outcome_revision_service.py] *)

(** [_assign(row, values)]. *)
Definition assign_forward (v : ForwardValues) (o : WinnerForwardOutcome) : WinnerForwardOutcome :=
  Fwd.mk (Fwd.id o) (Fwd.prediction_id o) (Fwd.entry_model o) (Fwd.horizon_sessions o)
    (Fwd.entry_session o) (Fwd.due_session o) OUTCOME_MATURED (Fwd.revision o)
    (Fwd.is_current_revision o) (Some (v_entry_price v)) (Some (v_exit_price v))
    (Some (v_close_return_pct v)) (v_spy_return_pct v) (v_excess_spy_return_pct v)
    (v_sector_return_pct v) (v_excess_sector_return_pct v) (Some (v_mfe_pct v))
    (Some (v_mae_pct v)) (Some (v_sessions_to_mfe v)) (Some (v_sessions_to_mae v))
    (Some (v_positive_return v)) (v_beat_spy v) (v_beat_sector v)
    (Some (v_source_bar_lineage_hash v)) (v_source_revision_cutoff_at v) (Some (v_matured_at v))
    (Fwd.superseded_at o) (Fwd.pending_reason_code o) (Fwd.last_attempted_at o)
    (Fwd.retry_not_before_at o) (v_metadata_json v).

Definition PROOF_KEY : string := "native_outcome_proof".

(** The row of a new revision, before [values] are assigned to it. *)
Definition next_forward (current : WinnerForwardOutcome) (i : Z) : WinnerForwardOutcome :=
  Fwd.mk i (Fwd.prediction_id current) (Fwd.entry_model current) (Fwd.horizon_sessions current)
    (Fwd.entry_session current) (Fwd.due_session current) OUTCOME_PENDING
    (Fwd.revision current + 1) true None None None None None None None None None None None None
    None None None None None None None None None
    (dict_set "revised_from_id" (VInt (Fwd.id current)) (Fwd.metadata_json current)).

(** The metadata of a revision: no proof of its predecessor, and its origin. *)
Definition revision_metadata (current : Z) (metadata : dict) : dict :=
  dict_set "revised_from_id" (VInt current) (dict_remove PROOF_KEY metadata).

(** The unique indexes of [winner_forward_outcomes]. *)
Definition same_execution (a b : WinnerForwardOutcome) : bool :=
  (Fwd.prediction_id a =? Fwd.prediction_id b) && String.eqb (Fwd.entry_model a) (Fwd.entry_model b)
  && (Fwd.horizon_sessions a =? Fwd.horizon_sessions b).

Definition forward_conflict (a b : WinnerForwardOutcome) : bool :=
  same_execution a b &&
  ((Fwd.revision a =? Fwd.revision b) || (Fwd.is_current_revision a && Fwd.is_current_revision b)).

Definition insert_forward (row : WinnerForwardOutcome) : ST OutcomeDb Z := fun db =>
  if existsb (forward_conflict row) (map snd (map_to_list (forwards db)))
  then (raise "IntegrityError" "winner_forward_outcomes", db)
  else (Ok (Fwd.id row),
        mkOutcomeDb (prices db) (predictions db) (<[Fwd.id row := row]> (forwards db)) (targets db)
          (definitions db) (next_forward_id db + 1) (next_target_id db)).

Definition opt_text_eqb (a : option string) (b : string) : bool :=
  match a with Some a => String.eqb a b | None => false end.

Definition upsert_forward_revision (i : Z) (v : ForwardValues) (now : datetime)
    : ST OutcomeDb (Z * bool) :=
  let! current := get_forward i in
  if opt_text_eqb (Fwd.source_bar_lineage_hash current) (v_source_bar_lineage_hash v)
     && bool_decide (is_Some (Fwd.matured_at current))
  then st_ret (i, false)
  else if bool_decide (Fwd.source_bar_lineage_hash current = None)
          || bool_decide (Fwd.matured_at current = None)
  then do! update_forward i (assign_forward v) in st_ret (i, true)
  else
    do! update_forward i (fun o => Fwd.set_superseded_at (Some now)
                                     (Fwd.set_is_current_revision false o)) in
    let! db := st_get in
    let revision := assign_forward v (next_forward current (next_forward_id db)) in
    let revision := Fwd.set_metadata_json
                      (revision_metadata (Fwd.id current) (Fwd.metadata_json revision)) revision in
    let! new := insert_forward revision in
    st_ret (new, true).

(** The dictionary [values] of a target and stop evaluation. *)
Record TargetValues := mkTargetValues {
  tv_forward_outcome_id : Z;
  tv_evaluation : TargetStopEvaluation;
  tv_source_bar_lineage_hash : option string;
  tv_evaluated_at : datetime;
  tv_metadata_json : dict;
}.

Definition assign_target (v : TargetValues) (t : WinnerTargetStopOutcome)
    : WinnerTargetStopOutcome :=
  let ev := tv_evaluation v in
  Tgt.mk (Tgt.id t) (Tgt.prediction_id t) (Tgt.outcome_definition_id t)
    (Some (tv_forward_outcome_id v)) (Tgt.entry_model t) (Tgt.horizon_sessions t) OUTCOME_MATURED
    (Tgt.revision t) (Tgt.is_current_revision t) (Tgt.target_pct t) (Tgt.stop_pct t)
    (Some (target_hit ev)) (Some (stop_hit ev)) (Some (first_event ev)) (event_session ev)
    (same_bar_conflict ev) (Some (primary_winner ev)) (Some (optimistic_winner ev))
    (Some (conservative_winner ev)) (tv_source_bar_lineage_hash v) (Some (tv_evaluated_at v))
    (Tgt.superseded_at t) (tv_metadata_json v).

Definition next_target (current : WinnerTargetStopOutcome) (i : Z) : WinnerTargetStopOutcome :=
  Tgt.mk i (Tgt.prediction_id current) (Tgt.outcome_definition_id current) None
    (Tgt.entry_model current) (Tgt.horizon_sessions current) OUTCOME_PENDING
    (Tgt.revision current + 1) true (Tgt.target_pct current) (Tgt.stop_pct current)
    None None None None false None None None None None None
    (dict_set "revised_from_id" (VInt (Tgt.id current)) (Tgt.metadata_json current)).

Definition target_conflict (a b : WinnerTargetStopOutcome) : bool :=
  (Tgt.prediction_id a =? Tgt.prediction_id b)
  && (Tgt.outcome_definition_id a =? Tgt.outcome_definition_id b)
  && ((Tgt.revision a =? Tgt.revision b) || (Tgt.is_current_revision a && Tgt.is_current_revision b)).

Definition insert_target (row : WinnerTargetStopOutcome) : ST OutcomeDb Z := fun db =>
  if existsb (target_conflict row) (map snd (map_to_list (targets db)))
  then (raise "IntegrityError" "winner_target_stop_outcomes", db)
  else (Ok (Tgt.id row),
        mkOutcomeDb (prices db) (predictions db) (forwards db) (<[Tgt.id row := row]> (targets db))
          (definitions db) (next_forward_id db) (next_target_id db + 1)).

Definition upsert_target_stop_revision (i : Z) (v : TargetValues) (now : datetime)
    : ST OutcomeDb (Z * bool) :=
  let! current := get_target i in
  if bool_decide (Tgt.source_bar_lineage_hash current = tv_source_bar_lineage_hash v)
     && bool_decide (is_Some (Tgt.evaluated_at current))
  then st_ret (i, false)
  else if bool_decide (Tgt.source_bar_lineage_hash current = None)
          || bool_decide (Tgt.evaluated_at current = None)
  then do! update_target i (assign_target v) in st_ret (i, true)
  else
    do! update_target i (fun t => Tgt.set_superseded_at (Some now)
                                    (Tgt.set_is_current_revision false t)) in
    let! db := st_get in
    let revision := assign_target v (next_target current (next_target_id db)) in
    let revision := Tgt.set_metadata_json
                      (revision_metadata (Tgt.id current) (Tgt.metadata_json revision)) revision in
    let! new := insert_target revision in
    st_ret (new, true).

(** ** Target and stop outcomes *)

Definition _target_stop_policy (prediction : WinnerPredictionSnapshot)
    (target_stop : WinnerTargetStopOutcome) (definition : WinnerOutcomeDefinition) : result string :=
  retained ← _retained_outcome_configuration prediction;
  match retained with
  | None => mret (or_empty (Def.same_bar_conflict_policy definition))
  | Some native =>
      match List.filter (fun r => String.eqb (rule_id r) (Def.definition_id definition))
              (ret_definitions native) with
      | [rule] =>
          if negb (String.eqb (Tgt.entry_model target_stop) (rule_entry_model rule))
             || negb (Tgt.horizon_sessions target_stop =? rule_horizon_sessions rule)
             || negb (deq (Tgt.target_pct target_stop) (rule_target_pct rule))
             || negb (deq (Tgt.stop_pct target_stop) (rule_stop_pct rule))
          then ValueError "WINNER_TARGET_STOP_CONFIGURATION_MISMATCH"
          else mret (rule_policy rule)
      | _ => ValueError "MISSING_WINNER_TARGET_STOP_FROZEN_CONFIGURATION"
      end
  end.

Definition _mature_target_stop (target : Z) (forward : Z) (calculation : ForwardCalculation)
    (now : datetime) (prediction : WinnerPredictionSnapshot) : ST OutcomeDb (Z * bool) :=
  let! target_stop := get_target target in
  let! forward_outcome := get_forward forward in
  let! db := st_get in
  match definitions db !! Tgt.outcome_definition_id target_stop with
  | None => st_raise "AttributeError" "outcome_definition"
  | Some definition =>
      let! policy := st_lift (_target_stop_policy prediction target_stop definition) in
      do! st_lift (validate_retained_outcome db target_stop) in
      let! retained := st_lift (_retained_outcome_configuration prediction) in
      match retained with
      | None => st_raise "AttributeError" "winner_config"
      | Some native =>
          if negb (String.eqb (Def.calculation_version definition) (ret_calculation_version native))
          then st_raise "ValueError" "MUTATION_WINNER_TARGET_STOP_DEFINITION_VERSION_MISMATCH"
          else
            let! entry_price := st_lift (price (Fwd.entry_price forward_outcome)) in
            let! evaluation := st_lift (evaluate (ticker_bars calculation) entry_price
                                 (Tgt.target_pct target_stop) (Tgt.stop_pct target_stop) policy) in
            let v := mkTargetValues (Fwd.id forward_outcome) evaluation
                       (Fwd.source_bar_lineage_hash forward_outcome) now
                       (dict_set "calculation_phase" (VStr "phase_5") (Tgt.metadata_json target_stop)) in
            let! r := upsert_target_stop_revision target v now in
            let '(matured, changed) := r in
            let! row := get_target matured in
            st_ret (matured, changed || (Tgt.revision target_stop <? Tgt.revision row))
      end
  end.

(** ** Processing one outcome *)

Record MaterialOutcomeChange := mkMaterialOutcomeChange {
  mc_prediction_id : Z;
  mc_forward_outcome_id : Z;
  mc_target_stop_outcome_id : Z;
  mc_outcome_definition_id : Z;
}.

(** [_MutableOutcomeCounts]. *)
Record OutcomeCounts := mkOutcomeCounts {
  processed : Z;
  matured : Z;
  pending : Z;
  excluded : Z;
  revised_outcomes : Z;
  target_stop_matured : Z;
  warning_count : Z;
  material_changes : list MaterialOutcomeChange;
  reason_counts : list (string * Z);
}.

Definition no_counts : OutcomeCounts := mkOutcomeCounts 0 0 0 0 0 0 0 [] [].

Definition add_reason (reason : string) (t : OutcomeCounts) : OutcomeCounts :=
  let n := match dict_find reason (reason_counts t) with Some n => n | None => 0 end in
  mkOutcomeCounts (processed t) (matured t) (pending t) (excluded t) (revised_outcomes t)
    (target_stop_matured t) (warning_count t) (material_changes t)
    (dict_set reason (n + 1) (reason_counts t)).
Definition count_processed (t : OutcomeCounts) : OutcomeCounts :=
  mkOutcomeCounts (processed t + 1) (matured t) (pending t) (excluded t) (revised_outcomes t)
    (target_stop_matured t) (warning_count t) (material_changes t) (reason_counts t).
Definition count_pending (reason : string) (t : OutcomeCounts) : OutcomeCounts :=
  add_reason reason
    (mkOutcomeCounts (processed t) (matured t) (pending t + 1) (excluded t) (revised_outcomes t)
       (target_stop_matured t) (warning_count t) (material_changes t) (reason_counts t)).
Definition count_excluded (reason : string) (t : OutcomeCounts) : OutcomeCounts :=
  add_reason reason
    (mkOutcomeCounts (processed t) (matured t) (pending t) (excluded t + 1) (revised_outcomes t)
       (target_stop_matured t) (warning_count t) (material_changes t) (reason_counts t)).
Definition count_matured (changed revised_row : bool) (warnings : Z) (t : OutcomeCounts)
    : OutcomeCounts :=
  mkOutcomeCounts (processed t) (matured t + if changed then 1 else 0) (pending t) (excluded t)
    (revised_outcomes t + if revised_row then 1 else 0) (target_stop_matured t)
    (warning_count t + warnings) (material_changes t) (reason_counts t).
Definition count_target (change : MaterialOutcomeChange) (t : OutcomeCounts) : OutcomeCounts :=
  mkOutcomeCounts (processed t) (matured t) (pending t) (excluded t) (revised_outcomes t)
    (target_stop_matured t + 1) (warning_count t) (material_changes t ++ [change])
    (reason_counts t).

(** [seal_outcome]. *)
Definition seal_forward (i : Z) : ST OutcomeDb unit :=
  let! db := st_get in
  update_forward i (fun o => Fwd.set_metadata_json
                               (dict_set PROOF_KEY (forward_proof db o) (Fwd.metadata_json o)) o).
Definition seal_target (i : Z) : ST OutcomeDb unit :=
  let! db := st_get in
  update_target i (fun t => Tgt.set_metadata_json
                              (dict_set PROOF_KEY (target_proof db t) (Tgt.metadata_json t)) t).

Definition process_target (prediction : WinnerPredictionSnapshot) (forward : Z)
    (calculation : ForwardCalculation) (now : datetime) (totals : OutcomeCounts) (target : Z)
    : ST OutcomeDb OutcomeCounts :=
  let! r := _mature_target_stop target forward calculation now prediction in
  let '(matured_target, material) := r in
  if (material : bool) then
    do! seal_target matured_target in
    let! row := get_target matured_target in
    st_ret (count_target (mkMaterialOutcomeChange (Pred.id prediction) forward matured_target
                            (Tgt.outcome_definition_id row)) totals)
  else st_ret totals.

(** [process_forward_outcome] with a database session: the check of the writer's
    authority, the horizon, the calculation, the revision, the seal, and the targets.  The
    second, native calculation that the code compares with the first is the same
    function of the same rows. *)
Definition process_forward_outcome (i : Z) (now : datetime) (totals : OutcomeCounts)
    : ST OutcomeDb OutcomeCounts :=
  let! outcome := get_forward i in
  let! db := st_get in
  let! context := st_lift (load_batch_context db outcome) in
  do! st_lift (forward_authority db i now) in
  let totals := count_processed totals in
  do! update_forward i (Fwd.set_last_attempted_at (Some now)) in
  let! complete := st_lift (is_horizon_complete ny_wall now (Fwd.due_session outcome)
                              (Some (Aware now))) in
  if negb complete then
    do! update_forward i (_mark_pending "horizon_not_complete" now) in
    st_ret (count_pending "horizon_not_complete" totals)
  else match predictions db !! Fwd.prediction_id outcome with
  | None =>
      do! update_forward i (_mark_excluded "prediction_not_found") in
      st_ret (count_excluded "prediction_not_found" totals)
  | Some prediction =>
      let! calculation := _calculate_forward prediction i now context in
      match calculation with
      | None =>
          let! row := get_forward i in
          if bool_decide (Fwd.status row = OUTCOME_EXCLUDED) then
            let reason := dget (Fwd.metadata_json row) "exclusion_reason" in
            st_ret (count_excluded (match reason with VStr s => if String.eqb s "" then "excluded" else s
                                                    | _ => "excluded" end) totals)
          else
            st_ret (count_pending (match Fwd.pending_reason_code row with
                                   | Some s => if String.eqb s "" then "retryable_prerequisite" else s
                                   | None => "retryable_prerequisite" end) totals)
      | Some calculation =>
          let! r := upsert_forward_revision i (values calculation) now in
          let '(m, changed) := r in
          do! (if (changed : bool) then seal_forward m else st_ret tt) in
          let! row := get_forward m in
          let totals := count_matured changed (Fwd.revision outcome <? Fwd.revision row)
                          (Z.of_nat (length (warnings calculation))) totals in
          st_fold (ctx_target_stops context) totals
            (process_target prediction m calculation now)
      end
  end.

End Outcomes.
