(* ===== verification/OutcomeFacts.v ===== *)
(** * Outcome maturation: the arithmetic of an outcome

    Bounds and order of the numbers a forward calculation writes, the sessions it uses,
    and the horizon gate. *)
From Stdlib Require Import ZArith QArith Lqa Lia List String Ascii Bool Sorted.
From stdpp Require Import base gmap list strings.
From S2P Require Import Prelude PyDate PyFloat PyValue Calendar CalendarFacts Canonical PyDecimal.
From S2P Require Import PriceBars TargetStop Outcomes.
Local Open Scope string_scope.
Local Open Scope list_scope.
Local Open Scope Z_scope.

(** ** Valid bars *)

(** The prices of a bar are present and lie between its low and its high. *)
Definition coherent (row : PriceBar) : Prop :=
  exists o h l c, Bar.open row = Some o /\ Bar.high row = Some h /\ Bar.low row = Some l /\
    Bar.close row = Some c /\ l ≼ o /\ o ≼ h /\ l ≼ c /\ c ≼ h.

Lemma dmin_le a b : dmin a b ≼ a /\ dmin a b ≼ b.
Proof.
  unfold dmin. destruct (dlt b a) eqn:E; [apply dlt_spec in E|apply dlt_false in E]; split; lra.
Qed.

Lemma dmax_ge a b : a ≼ dmax a b /\ b ≼ dmax a b.
Proof.
  unfold dmax. destruct (dlt a b) eqn:E; [apply dlt_spec in E|apply dlt_false in E]; split; lra.
Qed.

Lemma row_error_None row : row_error row = None -> coherent row.
Proof.
  unfold row_error, coherent. intros E.
  destruct (Bar.open row) as [o|], (Bar.high row) as [h|], (Bar.low row) as [l|],
    (Bar.close row) as [c|]; try done.
  destruct (dlt (dmin o c) l || dlt h (dmax o c) || dlt h l) eqn:D; [done|].
  apply orb_false_iff in D as [D D3]. apply orb_false_iff in D as [D1 D2].
  apply dlt_false in D1, D2, D3. destruct (dmin_le o c), (dmax_ge o c).
  exists o, h, l, c. split_and!; try done; lra.
Qed.

Lemma validate_bars_None bars : _validate_bars bars = None -> Forall coherent bars.
Proof.
  unfold _validate_bars. case_match; [done|]. clear.
  induction bars as [|row bars IH]; simpl; intros E; [constructor|].
  destruct (row_error row) eqn:R; [done|]. constructor; [by apply row_error_None|by apply IH].
Qed.

Lemma bar_by_date_Some bars d row : _bar_by_date bars (Some d) = Some row ->
  In row bars /\ Bar.bar_date row = d.
Proof.
  unfold _bar_by_date. intros E. apply find_some in E as [H E].
  apply bool_decide_eq_true in E. split; [done|]. by simplify_eq.
Qed.

Lemma entry_price_coherent model row p : coherent row -> _entry_price model row = Some p ->
  exists h l, Bar.high row = Some h /\ Bar.low row = Some l /\ l ≼ p /\ p ≼ h.
Proof.
  unfold _entry_price. intros (o & h & l & c & Ho & Hh & Hl & Hc & ? & ? & ? & ?) E.
  exists h, l. split; [done|]. split; [done|]. destruct (String.eqb _ _); simplify_eq; by split.
Qed.

(** ** Returns and excursions *)

Lemma change_pct_mono x x' entry : (0 < dval entry)%Q -> x ≼ x' ->
  exists p p', change_pct x entry = Ok p /\ change_pct x' entry = Ok p' /\ p ≼ p'.
Proof.
  intros He Hx. unfold change_pct.
  destruct (ddiv_mono (dsub x entry) (dsub x' entry) entry He) as (q & q' & E & E' & Hq).
  { by apply dsub_mono. }
  rewrite E, E'. simpl. eexists _, _. do 2 (split; [reflexivity|]).
  apply dmul_mono; [|done]. by vm_compute.
Qed.

Lemma change_pct_self entry : (0 < dval entry)%Q ->
  exists p, change_pct entry entry = Ok p /\ (dval p == 0)%Q.
Proof.
  intros He. unfold change_pct, ddiv. rewrite (coef_pos entry He). simpl.
  eexists. split; [reflexivity|].
  assert (Hs : dsub entry entry = Dec 0 0) by (apply context_round_zero; lra).
  rewrite Hs. assert (Hq : context_round (dval (Dec 0 0) / dval entry) = Dec 0 0).
  { apply context_round_zero. change (dval (Dec 0 0)) with 0%Q. apply Qmult_0_l. }
  rewrite Hq. by vm_compute.
Qed.

(** The value chosen by [max] or [min] is one of the values and no other is better. *)
Lemma best_spec better values v :
  (forall a b c, better a b = false -> better b c = false -> better a c = false) ->
  (forall a b, better a b = true -> better b a = false) ->
  best better values = Ok v -> In v values /\ forall x, In x values -> better x.1 v.1 = false.
Proof.
  intros Ht Ha E. destruct values as [|w ws]; [done|]. simpl in E. apply Ok_inj in E. subst v.
  assert (Hr : forall a, better a a = false).
  { intros a. destruct (better a a) eqn:E; [|done]. by rewrite (Ha _ _ E) in E. }
  enough (G : forall (l : list (decimal * Z)) (w : decimal * Z), let v := foldl (fun b x => if better x.1 b.1 then x else b) w l in
    (v = w \/ In v l) /\ better w.1 v.1 = false /\ forall x, In x l -> better x.1 v.1 = false).
  { destruct (G ws w) as ([E|Hin] & Hw & Hl); (split; [simpl; auto|]);
      intros x [<-|Hx]; auto. }
  clear w ws. induction l as [|x l IH]; intros w; simpl.
  { split; [by left|]. by split. }
  destruct (better x.1 w.1) eqn:B.
  - destruct (IH x) as (Hin & Hx & Hl). split; [destruct Hin as [->|]; auto|]. split.
    + by eapply Ht; [apply Ha|].
    + intros y [<-|Hy]; auto.
  - destruct (IH w) as (Hin & Hw & Hl). split; [destruct Hin as [->|]; auto|]. split; [done|].
    intros y [<-|Hy]; auto. by eapply Ht.
Qed.

Lemma mapM_result_Ok {A B} (f : A -> result B) l k : mapM f l = Ok k <-> Forall2 (fun x y => f x = Ok y) l k.
Proof.
  revert k. induction l as [|x l IH]; intros k; simpl.
  - split; [intros E; apply Ok_inj in E; subst; constructor|by inversion_clear 1].
  - split.
    + intros E. apply result_bind_Ok in E as (y & Ey & E). apply result_bind_Ok in E as (ys & Es & E).
      apply Ok_inj in E. subst k. constructor; [done|]. by apply IH.
    + inversion_clear 1 as [|? y ? ys Ey Es]. rewrite Ey. simpl. apply IH in Es. by rewrite Es.
Qed.

Lemma excursions_spec bars entry field vals : excursions bars entry field = Ok vals ->
  (forall row x, In row bars -> field row = Some x ->
     exists p i, change_pct x entry = Ok p /\ In (p, i) vals) /\
  (forall v, In v vals -> 1 <= v.2 <= Z.of_nat (length bars)).
Proof.
  unfold excursions. intros E. apply mapM_result_Ok in E.
  set (n := Z.of_nat (length bars)) in *. set (rows := sort_by by_date bars) in *.
  assert (Hlen : length (seqZ 1 n) = length rows).
  { unfold rows, n. rewrite length_seqZ, (Permutation_length (sort_by_Permutation by_date bars)). lia. }
  split.
  - intros row x Hrow Hx.
    assert (Hin : row ∈ rows).
    { unfold rows. rewrite (sort_by_Permutation by_date bars). by apply list_elem_of_In. }
    apply list_elem_of_lookup in Hin as [k Hk].
    assert (exists i, seqZ 1 n !! k = Some i) as [i Hi].
    { apply lookup_lt_is_Some_2. rewrite Hlen. by eapply lookup_lt_Some. }
    assert (Hz : zip (seqZ 1 n) rows !! k = Some (i, row)) by (by rewrite lookup_zip_with, Hi; simpl; rewrite Hk).
    destruct (Forall2_lookup_l _ _ _ _ _ E Hz) as (v & Hv & Ev). simpl in Ev.
    rewrite Hx in Ev. simpl in Ev. apply result_bind_Ok in Ev as (p & Ep & Ev).
    apply Ok_inj in Ev. subst v. exists p, i. split; [done|].
    apply list_elem_of_In. by eapply list_elem_of_lookup_2.
  - intros v Hv. apply list_elem_of_In, list_elem_of_lookup in Hv as [k Hk].
    destruct (Forall2_lookup_r _ _ _ _ _ E Hk) as ([i row] & Hz & Ev).
    apply result_bind_Ok in Ev as (x & _ & Ev). apply result_bind_Ok in Ev as (p & _ & Ev).
    apply Ok_inj in Ev. subst v. simpl.
    apply list_elem_of_lookup_2, elem_of_zip_l, elem_of_seqZ in Hz. lia.
Qed.

Lemma dlt_trans_false a b c : dlt b a = false -> dlt c b = false -> dlt c a = false.
Proof. rewrite !dlt_false. intros. lra. Qed.

Lemma dlt_asym a b : dlt a b = true -> dlt b a = false.
Proof. rewrite dlt_spec, dlt_false. intros. lra. Qed.

(** No return to a price at or below a high of the horizon exceeds the maximum excursion. *)
Lemma max_excursion_spec bars entry v row h x r : (0 < dval entry)%Q ->
  _max_excursion bars entry Bar.high = Ok v -> In row bars -> Bar.high row = Some h ->
  x ≼ h -> _return_pct x entry = Ok r -> r ≼ v.1 /\ 1 <= v.2 <= Z.of_nat (length bars).
Proof.
  intros He Ev Hrow Hh Hx Er. unfold _max_excursion in Ev.
  apply result_bind_Ok in Ev as (vals & Evals & Ev). apply result_bind_Ok in Ev as (w & Ew & Ev).
  apply result_bind_Ok in Ev as (q & Eq & Ev). apply Ok_inj in Ev. subst v. simpl.
  destruct (excursions_spec bars entry Bar.high vals Evals) as [Hin Hrange].
  apply best_spec in Ew as [Hw Hbest];
    [|intros; eapply dlt_trans_false; eauto|intros; by apply dlt_asym].
  split; [|by apply Hrange]. destruct (Hin row h Hrow Hh) as (p' & i & Ep' & Hp').
  destruct (change_pct_mono x h entry He Hx) as (p & p2 & Ep & Ep2 & Hp).
  rewrite Ep' in Ep2. apply Ok_inj in Ep2. subst p2.
  pose proof (Hbest _ Hp') as Hb. simpl in Hb. apply dlt_false in Hb.
  unfold _return_pct in Er. rewrite Ep in Er. simpl in Er.
  apply (quantize_mono (-6) p w.1); [lra|done|done].
Qed.

Lemma min_excursion_spec bars entry v row l x r : (0 < dval entry)%Q ->
  _min_excursion bars entry Bar.low = Ok v -> In row bars -> Bar.low row = Some l ->
  l ≼ x -> _return_pct x entry = Ok r -> v.1 ≼ r /\ 1 <= v.2 <= Z.of_nat (length bars).
Proof.
  intros He Ev Hrow Hh Hx Er. unfold _min_excursion in Ev.
  apply result_bind_Ok in Ev as (vals & Evals & Ev). apply result_bind_Ok in Ev as (w & Ew & Ev).
  apply result_bind_Ok in Ev as (q & Eq & Ev). apply Ok_inj in Ev. subst v. simpl.
  destruct (excursions_spec bars entry Bar.low vals Evals) as [Hin Hrange].
  apply best_spec in Ew as [Hw Hbest];
    [|intros ? ? ? A B; exact (dlt_trans_false _ _ _ B A)|intros; by apply dlt_asym].
  split; [|by apply Hrange]. destruct (Hin row l Hrow Hh) as (p' & i & Ep' & Hp').
  destruct (change_pct_mono l x entry He Hx) as (p2 & p & Ep2 & Ep & Hp).
  rewrite Ep' in Ep2. apply Ok_inj in Ep2. subst p2.
  pose proof (Hbest _ Hp') as Hb. simpl in Hb. apply dlt_false in Hb.
  unfold _return_pct in Er. rewrite Ep in Er. simpl in Er.
  apply (quantize_mono (-6) w.1 p); [lra|done|done].
Qed.

Lemma return_pct_self entry : (0 < dval entry)%Q -> _return_pct entry entry = Ok (Dec 0 (-6)).
Proof.
  intros He. unfold _return_pct. destruct (change_pct_self entry He) as (p & -> & Hp). simpl.
  by apply quantize_zero.
Qed.

Lemma dval_zero e : (dval (Dec 0 e) == 0)%Q.
Proof. unfold dval. simpl. ring. Qed.

Section Facts.
Context `{BarText} `{OutcomeAuthority}.

(** ** What a calculation that succeeds has checked *)

Record calculated (db : OutcomeDb) (prediction : WinnerPredictionSnapshot) (i : Z) (now : datetime)
    (context : OutcomeBatchContext) (calc : ForwardCalculation) (outcome : WinnerForwardOutcome)
    (entry due : date) (entry_bar due_bar : PriceBar) (entry_price : decimal) : Prop := {
  calc_row : forwards db !! i = Some outcome;
  calc_entry : Fwd.entry_session outcome = Some entry;
  calc_due : Fwd.due_session outcome = Some due;
  calc_entry_bar : _bar_by_date (ctx_bars_by_outcome context) (Some entry) = Some entry_bar;
  calc_due_bar : _bar_by_date (ctx_bars_by_outcome context) (Some due) = Some due_bar;
  calc_complete : _has_required_sessions (ctx_bars_by_outcome context) (Some entry) (Some due)
                    = Ok true;
  calc_valid : _validate_bars (ctx_bars_by_outcome context) = None;
  calc_price : _entry_price (Fwd.entry_model outcome) entry_bar = Some entry_price;
  calc_positive : (0 < dval entry_price)%Q;
  calc_values : forward_values context prediction outcome entry due (ctx_bars_by_outcome context)
                  due_bar entry_price now = Ok calc;
}.

(** The writes of a calculation that succeeds. *)
Definition calculation_writes (prediction : WinnerPredictionSnapshot) (i : Z) (db : OutcomeDb)
    : OutcomeDb :=
  set_forwards (alter (fun o => Fwd.set_retry_not_before_at None
                                  (Fwd.set_pending_reason_code None o)) i (forwards db))
    (set_predictions (alter (Pred.set_entry_data_status ENTRY_AVAILABLE) (Pred.id prediction)
                        (predictions db)) db).

Lemma get_forward_Ok i db o db' : get_forward i db = (Ok o, db') -> db' = db /\ forwards db !! i = Some o.
Proof. unfold get_forward. case_match; intros E; simplify_eq. done. Qed.

Lemma calculate_forward_Some prediction i now context db calc db' :
  _calculate_forward prediction i now context db = (Ok (Some calc), db') ->
  db' = calculation_writes prediction i db /\
  exists outcome entry due entry_bar due_bar entry_price,
    calculated db prediction i now context calc outcome entry due entry_bar due_bar entry_price.
Proof.
  unfold _calculate_forward. intros E.
  apply st_bind_Ok in E as (outcome & d1 & E1 & E). apply get_forward_Ok in E1 as [-> Hrow].
  apply st_bind_Ok in E as (retained & d2 & E2 & E). apply st_lift_Ok in E2 as [_ ->].
  cbv zeta in E. case_match; [done|].
  destruct (Fwd.entry_session outcome) as [entry|] eqn:Hen; [|done].
  destruct (Fwd.due_session outcome) as [due|] eqn:Hdu; [|done].
  destruct (_bar_by_date _ (Some entry)) as [entry_bar|] eqn:Heb; [|done].
  apply st_bind_Ok in E as (complete & d3 & E3 & E). apply st_lift_Ok in E3 as [Hc ->].
  destruct complete; cbn [negb] in E; [|done].
  destruct (_validate_bars _) eqn:Hv; [done|].
  destruct (_bar_by_date _ (Some due)) as [due_bar|] eqn:Hdb; [|done].
  destruct (_entry_price _ entry_bar) as [entry_price|] eqn:Hp; [|done].
  destruct (dle entry_price (of_int 0)) eqn:Hz; [done|].
  apply st_bind_Ok in E as ([] & d4 & E4 & E). apply st_bind_Ok in E as ([] & d5 & E5 & E).
  apply st_bind_Ok in E as (calc' & d6 & E6 & E). apply st_lift_Ok in E6 as [E6 ->].
  unfold st_ret in E. injection E as <- <-. injection E4 as <-. injection E5 as <-.
  split; [done|]. exists outcome, entry, due, entry_bar, due_bar, entry_price.
  apply dle_false in Hz. by split.
Qed.

Lemma forward_values_inv context prediction outcome entry due bars due_bar entry_price now calc :
  forward_values context prediction outcome entry due bars due_bar entry_price now = Ok calc ->
  exists exit mfe mae,
    Bar.close due_bar = Some exit /\
    _return_pct exit entry_price = Ok (v_close_return_pct (values calc)) /\
    _max_excursion bars entry_price Bar.high = Ok mfe /\
    _min_excursion bars entry_price Bar.low = Ok mae /\
    v_entry_price (values calc) = entry_price /\ v_exit_price (values calc) = exit /\
    v_mfe_pct (values calc) = mfe.1 /\ v_sessions_to_mfe (values calc) = mfe.2 /\
    v_mae_pct (values calc) = mae.1 /\ v_sessions_to_mae (values calc) = mae.2 /\
    v_positive_return (values calc) = dlt (of_int 0) (v_close_return_pct (values calc)) /\
    ticker_bars calc = bars /\ v_matured_at (values calc) = now.
Proof.
  unfold forward_values. intros E.
  apply result_bind_Ok in E as (exit & E1 & E). apply result_bind_Ok in E as (r & E2 & E).
  apply result_bind_Ok in E as (mfe & E3 & E). apply result_bind_Ok in E as (mae & E4 & E).
  apply result_bind_Ok in E as (b & _ & E). apply result_bind_Ok in E as ([[spy l1] w1] & _ & E).
  apply result_bind_Ok in E as ([[sec l2] w2] & _ & E).
  destruct (_source_lineage l2) as [hash cutoff]. apply Ok_inj in E. subst calc.
  exists exit, mfe, mae. unfold price in E1. destruct (Bar.close due_bar); [|done].
  apply Ok_inj in E1. subst. split_and!; done.
Qed.

(** ** The numbers of an outcome *)

(** C34: A calculated outcome is coherent: the return at the close lies between the adverse and
    the favourable excursion, the excursions enclose the entry price, and each is reached
    within the horizon.  Every number is computed in decimal arithmetic with 28 digits and
    then quantized, and the order survives both roundings. *)
Theorem forward_metrics_consistent prediction i now context db calc db' :
  _calculate_forward prediction i now context db = (Ok (Some calc), db') ->
  let v := values calc in
  v_mae_pct v ≼ v_close_return_pct v /\ v_close_return_pct v ≼ v_mfe_pct v /\
  (dval (v_mae_pct v) <= 0 <= dval (v_mfe_pct v))%Q /\
  (0 < dval (v_entry_price v))%Q /\
  1 <= v_sessions_to_mfe v <= Z.of_nat (length (ticker_bars calc)) /\
  1 <= v_sessions_to_mae v <= Z.of_nat (length (ticker_bars calc)) /\
  (v_positive_return v = true <-> (0 < dval (v_close_return_pct v))%Q).
Proof.
  intros E. cbv zeta. apply calculate_forward_Some in E as [_ (o & en & du & eb & db_ & p & C)].
  destruct C. apply validate_bars_None in calc_valid0 as HV. rewrite List.Forall_forall in HV.
  apply bar_by_date_Some in calc_entry_bar0 as [Heb _], calc_due_bar0 as [Hdb _].
  apply forward_values_inv in calc_values0 as
    (exit & mfe & mae & Hx & Hr & Hmfe & Hmae & Ep & Ex & -> & -> & -> & -> & Epos & -> & _).
  destruct (HV _ Hdb) as (op & h & l & c & _ & Hh & Hl & Hc & _ & _ & Hlc & Hch).
  assert (c = exit) as -> by congruence.
  destruct (entry_price_coherent _ _ _ (HV _ Heb) calc_price0) as (h' & l' & Hh' & Hl' & Hlp & Hph).
  pose proof (return_pct_self p calc_positive0) as Hself.
  destruct (max_excursion_spec _ p mfe _ _ _ _ calc_positive0 Hmfe Hdb Hh Hch Hr) as [M1 M2].
  destruct (min_excursion_spec _ p mae _ _ _ _ calc_positive0 Hmae Hdb Hl Hlc Hr) as [N1 N2].
  destruct (max_excursion_spec _ p mfe _ _ _ _ calc_positive0 Hmfe Heb Hh' Hph Hself) as [M3 _].
  destruct (min_excursion_spec _ p mae _ _ _ _ calc_positive0 Hmae Heb Hl' Hlp Hself) as [N3 _].
  rewrite dval_zero in M3, N3. rewrite Ep, Epos. split_and!; try done; try lra; try lia.
  rewrite dlt_spec. unfold of_int. by rewrite dval_zero.
Qed.

(** ** The sessions of a horizon *)

Lemma sessions_available_spec av end_ fuel : forall cursor,
  0 < Z.of_nat fuel -> end_ - cursor + 1 < Z.of_nat fuel ->
  exists b, sessions_available fuel av end_ cursor = Ok b /\
    (b = true <-> forall d, cursor <= d <= end_ ->
       d = cursor \/ trading CALENDAR_VERSION d = true -> In d av).
Proof.
  induction fuel as [|fuel IH]; intros cursor Hp Hf; cbn [sessions_available]; [lia|].
  destruct (Z.leb_spec cursor end_) as [Hle|Hgt].
  2:{ exists true. split; [done|]. split; [|done]. intros _ d Hd. lia. }
  destruct (mem cursor av) eqn:Hm; cbn [negb].
  2:{ exists false. split; [done|]. split; [done|]. intros A.
      apply not_true_iff_false in Hm. destruct Hm. apply mem_In, A; [lia|by left]. }
  apply mem_In in Hm. destruct (Z.eqb_spec cursor end_) as [->|Hne].
  { exists true. split; [done|]. split; [|done]. intros _ d Hd _. by replace d with end_ by lia. }
  destruct (next_regular_session_ok cursor) as (r & -> & Hr & Htr & Hgap). cbn [mbind result_bind].
  destruct (IH r) as (b & -> & Hb); [lia..|]. exists b. split; [done|]. rewrite Hb. split.
  - intros A d Hd [->|Ht]; [done|]. destruct (Z.eq_dec d cursor) as [->|]; [done|].
    apply A; [|by right]. destruct (Z_lt_le_dec d r); [|lia].
    rewrite Hgap in Ht by lia. done.
  - intros A d Hd [->|Ht]; apply A; try lia; by right.
Qed.

(** The loop of [_has_required_sessions] ends and answers whether the start and every
    session up to the end have a bar. *)
Lemma has_required_sessions_spec bars start end_ :
  exists b, _has_required_sessions bars (Some start) (Some end_) = Ok b /\
    (b = true <-> forall d, start <= d <= end_ ->
       d = start \/ trading CALENDAR_VERSION d = true -> In d (map Bar.bar_date bars)).
Proof. unfold _has_required_sessions. apply sessions_available_spec; lia. Qed.

Lemma consecutive_covers l : consecutive l -> forall d0 x, hd_error l = Some d0 ->
  d0 <= x <= List.last l d0 -> x = d0 \/ trading CALENDAR_VERSION x = true -> In x l.
Proof.
  induction 1 as [d|d e l E Hc IH]; intros d0 x Hd Hx Ht; simpl in Hd; injection Hd as <-.
  { simpl in *. lia. }
  destruct (Z.eq_dec x d) as [->|Hne]; [by left|right]. destruct Ht as [->|Ht]; [done|].
  destruct (next_regular_session_ok d) as (r & Er & Hr & Htr & Hgap). rewrite E in Er.
  apply Ok_inj in Er. subst r. rewrite last_cons_default in Hx.
  apply (IH e); [done| |by right]. split.
  - destruct (Z_lt_le_dec x e); [|done]. rewrite Hgap in Ht by lia. done.
  - rewrite last_cons_default. rewrite last_cons_default in Hx. lia.
Qed.

Lemma consecutive_bounds l d0 x : consecutive (d0 :: l) -> In x (d0 :: l) ->
  d0 <= x <= List.last l d0.
Proof.
  intros Hc. revert d0 x Hc. induction l as [|e l IH]; intros d0 x Hc Hin.
  - destruct Hin as [<-|[]]. simpl. lia.
  - inversion_clear Hc as [|? ? ? E Hc']. destruct (next_regular_session_ok d0) as (r & Er & Hr & _).
    rewrite E in Er. apply Ok_inj in Er. subst r. rewrite last_cons_default.
    destruct Hin as [<-|Hin].
    + pose proof (IH e e Hc' ltac:(by left)). lia.
    + pose proof (IH e x Hc' Hin). lia.
Qed.

Lemma last_In {A} (l : list A) d : In (List.last l d) (d :: l).
Proof.
  revert d. induction l as [|x l IH]; intros d; [by left|]. rewrite last_cons_default. right. apply IH.
Qed.

(** ** The bars of a batch *)

(** One bar per session of the horizon, all of one basis, all of one ticker. *)
Definition whole_horizon (ticker : string) (sessions : list date) (bars : list PriceBar) : Prop :=
  map Bar.bar_date bars = sessions /\
  exists basis, In basis SUPPORTED_BASES /\
    Forall (fun row => Bar.what_to_show row = basis /\ upper (Bar.ticker row) = ticker) bars.

Lemma by_basis_In rows ticker basis row : In row (by_basis rows ticker basis) <->
  In row rows /\ upper (Bar.ticker row) = ticker /\ Bar.what_to_show row = basis.
Proof. unfold by_basis. rewrite filter_In, andb_true_iff, !String.eqb_eq. tauto. Qed.

Lemma load_batch_bars db outcome context : load_batch_context db outcome = Ok context ->
  ctx_bars_by_outcome context = [] \/
  exists prediction entry due sessions,
    predictions db !! Fwd.prediction_id outcome = Some prediction /\
    Fwd.entry_session outcome = Some entry /\ Fwd.due_session outcome = Some due /\
    required_outcome_sessions entry (Fwd.horizon_sessions outcome) = Ok sessions /\
    whole_horizon (upper (Pred.ticker prediction)) sessions (ctx_bars_by_outcome context) /\
    Forall (fun row => Bar.bar_date row <= due) (ctx_bars_by_outcome context).
Proof.
  unfold load_batch_context. intros E. apply result_bind_Ok in E as (stops & _ & E).
  destruct (predictions db !! _) as [prediction|] eqn:Hp; [|apply Ok_inj in E; subst; by left].
  apply result_bind_Ok in E as (b & _ & E). apply result_bind_Ok in E as (px & _ & E).
  cbv zeta in E. destruct (Fwd.entry_session outcome) as [entry|] eqn:Hen;
    [|apply Ok_inj in E; subst; by left].
  destruct (Fwd.due_session outcome) as [due|] eqn:Hdu; [|apply Ok_inj in E; subst; by left].
  apply result_bind_Ok in E as (sessions & Hs & E).
  set (raw := daily_bars db _ entry due) in E.
  set (ticker := upper (Pred.ticker prediction)) in *. set (cands := _ ++ _) in E.
  pose proof (complete_basis_spec cands sessions) as Spec.
  destruct (complete_basis_for_rows cands sessions) as [[basis|] selected];
    apply Ok_inj in E; subst context; simpl.
  2:{ left. by destruct Spec as [-> _]. }
  right. destruct Spec as (Hb & Hd & Hf). exists prediction, entry, due, sessions.
  assert (Hc : forall row, In row cands -> upper (Bar.ticker row) = ticker /\ Bar.bar_date row <= due).
  { intros row Hr. unfold cands in Hr. rewrite in_app_iff, !by_basis_In in Hr.
    assert (In row raw /\ upper (Bar.ticker row) = ticker) as [Hraw ?] by tauto.
    split; [done|]. unfold raw, daily_bars in Hraw. apply sort_by_In, filter_In in Hraw as [_ Hraw].
    rewrite !andb_true_iff in Hraw. lia. }
  split_and!; try done.
  - split; [done|]. exists basis. split; [done|]. eapply Forall_impl; [exact Hf|].
    intros row [Hin Hw]. split; [done|]. by apply Hc.
  - eapply Forall_impl; [exact Hf|]. intros row [Hin _]. by apply Hc.
Qed.

(** An outcome is calculated from a complete horizon or not at all: when the entry is a
    trading day and the due session is the last one of the horizon, a calculation over
    the rows that [process_forward_outcome] loads has one bar per session from the entry
    to the due session, all of one price basis, and none after the due session. *)
Theorem calculation_uses_whole_horizon prediction i now context db calc db' outcome entry due :
  forwards db !! i = Some outcome ->
  Fwd.entry_session outcome = Some entry -> Fwd.due_session outcome = Some due ->
  trading CALENDAR_VERSION entry = true ->
  horizon_due_session entry (Fwd.horizon_sessions outcome) = Ok due ->
  load_batch_context db outcome = Ok context ->
  _calculate_forward prediction i now context db = (Ok (Some calc), db') ->
  exists ticker rest, whole_horizon ticker (entry :: rest) (ticker_bars calc) /\
    consecutive (entry :: rest) /\ List.last rest entry = due /\
    Z.of_nat (length (ticker_bars calc)) = Fwd.horizon_sessions outcome.
Proof.
  intros Hrow Hen Hdu Ht Hdue Hctx E.
  apply calculate_forward_Some in E as [_ (o & en & du & eb & dbar & p & C)]. destruct C.
  apply forward_values_inv in calc_values0 as (x & mfe & mae & T).
  destruct T as (_ & _ & _ & _ & _ & _ & _ & _ & _ & _ & _ & Hbars & _). rewrite Hbars.
  destruct (load_batch_bars db outcome context Hctx) as
    [Hnil|(pr & en' & du' & sessions & _ & Hen' & _ & Hs & Hw & _)].
  { by rewrite Hnil in calc_entry_bar0. }
  assert (en' = entry) as -> by congruence.
  assert (Hh : 1 <= Fwd.horizon_sessions outcome).
  { unfold required_outcome_sessions in Hs. destruct (Z.ltb_spec (Fwd.horizon_sessions outcome) 1); [done|lia]. }
  destruct (required_ends_due entry _ Hh Ht) as (l & El & Hlen & Hc & Hd).
  rewrite Hs in El. apply Ok_inj in El. subst sessions. rewrite Hdue in Hd. apply Ok_inj in Hd.
  exists (upper (Pred.ticker pr)), l. split; [done|]. split; [done|]. split; [done|].
  destruct Hw as [Hm _]. by rewrite <- Hlen, <- Hm, length_map.
Qed.

(** In such a batch the checks for missing sessions and for a missing due bar cannot fail
    once the entry bar is there: incomplete prices always leave the outcome pending with
    the reason [missing_entry_bar]. *)
Theorem incomplete_horizon_reason context db outcome entry due entry_bar :
  Fwd.entry_session outcome = Some entry -> Fwd.due_session outcome = Some due ->
  trading CALENDAR_VERSION entry = true ->
  horizon_due_session entry (Fwd.horizon_sessions outcome) = Ok due ->
  load_batch_context db outcome = Ok context ->
  _bar_by_date (ctx_bars_by_outcome context) (Some entry) = Some entry_bar ->
  _has_required_sessions (ctx_bars_by_outcome context) (Some entry) (Some due) = Ok true /\
  exists due_bar, _bar_by_date (ctx_bars_by_outcome context) (Some due) = Some due_bar.
Proof.
  intros Hen Hdu Ht Hdue Hctx Heb.
  destruct (load_batch_bars db outcome context Hctx) as
    [Hnil|(pr & en' & du' & sessions & _ & Hen' & _ & Hs & [Hm _] & _)].
  { by rewrite Hnil in Heb. }
  assert (en' = entry) as -> by congruence.
  assert (Hh : 1 <= Fwd.horizon_sessions outcome).
  { unfold required_outcome_sessions in Hs. destruct (Z.ltb_spec (Fwd.horizon_sessions outcome) 1); [done|lia]. }
  destruct (required_ends_due entry _ Hh Ht) as (l & El & Hlen & Hc & Hd).
  rewrite Hs in El. apply Ok_inj in El. rewrite El in Hm. rewrite Hdue in Hd. apply Ok_inj in Hd.
  split.
  - destruct (has_required_sessions_spec (ctx_bars_by_outcome context) entry due) as (b & -> & Hb).
    f_equal. apply Hb. intros d Hd' Htr. rewrite Hm.
    apply (consecutive_covers _ Hc entry); [done| |done]. rewrite last_cons_default. lia.
  - assert (Hin : In due (map Bar.bar_date (ctx_bars_by_outcome context))).
    { rewrite Hm, Hd. apply last_In. }
    apply in_map_iff in Hin as (row & Hr & Hrow). unfold _bar_by_date.
    destruct (List.find _ _) as [due_bar|] eqn:F; [by exists due_bar|].
    apply (find_none _ _ F) in Hrow. apply bool_decide_eq_false in Hrow. congruence.
Qed.

End Facts.
