(* ===== verification/OutcomeLedger.v ===== *)
(** * Outcome maturation: revisions

    The rows of an outcome table form a ledger: per key at most one current row, which has
    the highest revision, and superseded rows carry the time at which they were replaced.
    The class [Revisioned] states what both outcome tables share; [ledger] and its lemmas
    are proved once and used for the forward and for the target and stop outcomes. *)
From Stdlib Require Import ZArith Lia List String Ascii Bool.
From stdpp Require Import base gmap list strings.
From S2P Require Import Prelude PyDate PyFloat PyValue Calendar CalendarFacts Canonical PyDecimal.
From S2P Require Import PriceBars TargetStop Outcomes OutcomeFacts.
Local Open Scope string_scope.
Local Open Scope list_scope.
Local Open Scope Z_scope.
Local Open Scope st_scope.

(** ** Revisioned rows *)

Class Revisioned (R K : Type) := {
  row_id : R -> Z;
  execution : R -> K;
  row_revision : R -> Z;
  is_current : R -> bool;
  replaced_at : R -> option datetime;
}.

#[export] Instance forward_revisioned : Revisioned WinnerForwardOutcome (Z * string * Z) := {
  row_id := Fwd.id;
  execution o := (Fwd.prediction_id o, Fwd.entry_model o, Fwd.horizon_sessions o);
  row_revision := Fwd.revision;
  is_current := Fwd.is_current_revision;
  replaced_at := Fwd.superseded_at;
}.

#[export] Instance target_revisioned : Revisioned WinnerTargetStopOutcome (Z * Z) := {
  row_id := Tgt.id;
  execution t := (Tgt.prediction_id t, Tgt.outcome_definition_id t);
  row_revision := Tgt.revision;
  is_current := Tgt.is_current_revision;
  replaced_at := Tgt.superseded_at;
}.

Section Ledger.
Context {R K : Type} `{Revisioned R K}.

Record ledger (m : gmap Z R) (next : Z) : Prop := {
  ledger_ids : forall i r, m !! i = Some r -> row_id r = i /\ i < next;
  ledger_revisions : forall i j a b, m !! i = Some a -> m !! j = Some b ->
    execution a = execution b -> row_revision a = row_revision b -> i = j;
  ledger_current : forall i j a b, m !! i = Some a -> m !! j = Some b ->
    execution a = execution b -> is_current a = true -> is_current b = true -> i = j;
  ledger_latest : forall i j a b, m !! i = Some a -> m !! j = Some b ->
    execution a = execution b -> is_current b = true -> row_revision a <= row_revision b;
  ledger_exists : forall i a, m !! i = Some a ->
    exists j b, m !! j = Some b /\ execution b = execution a /\ is_current b = true;
  ledger_replaced : forall i a, m !! i = Some a -> is_current a = false -> is_Some (replaced_at a);
}.

(** What an assignment may not touch. *)
Definition same_header (a b : R) : Prop :=
  row_id a = row_id b /\ execution a = execution b /\ row_revision a = row_revision b /\
  is_current a = is_current b /\ (is_Some (replaced_at a) -> is_Some (replaced_at b)).

Lemma ledger_alter m next i f : (forall r, m !! i = Some r -> same_header r (f r)) ->
  ledger m next -> ledger (alter f i m) next.
Proof.
  intros Hf L.
  assert (B : forall j b, alter f i m !! j = Some b ->
    exists a, m !! j = Some a /\ same_header a b).
  { intros j b Hb. destruct (decide (i = j)) as [->|Hij].
    - rewrite lookup_alter_eq in Hb. destruct (m !! j) as [a|] eqn:E; [|done].
      injection Hb as <-. exists a. split; [done|by apply Hf].
    - rewrite lookup_alter_ne in Hb by done. exists b. split; [done|]. by repeat split. }
  assert (F : forall j a, m !! j = Some a ->
    exists b, alter f i m !! j = Some b /\ same_header a b).
  { intros j a Ha. destruct (decide (i = j)) as [->|Hij].
    - exists (f a). rewrite lookup_alter_eq, Ha. split; [done|by apply Hf].
    - exists a. rewrite lookup_alter_ne by done. split; [done|]. by repeat split. }
  split.
  - intros j b Hb. apply B in Hb as (a & Ha & S1 & _). rewrite <- S1. by apply (ledger_ids m next L).
  - intros j k b c Hb Hc. apply B in Hb as (b' & Hb & _ & S1 & S2 & _), Hc as (c' & Hc & _ & T1 & T2 & _).
    rewrite <- S1, <- T1, <- S2, <- T2. by apply (ledger_revisions m next L).
  - intros j k b c Hb Hc. apply B in Hb as (b' & Hb & _ & S1 & _ & S2 & _), Hc as (c' & Hc & _ & T1 & _ & T2 & _).
    rewrite <- S1, <- T1, <- S2, <- T2. by apply (ledger_current m next L).
  - intros j k b c Hb Hc. apply B in Hb as (b' & Hb & _ & S1 & S2 & _), Hc as (c' & Hc & _ & T1 & T2 & T3 & _).
    rewrite <- S1, <- T1, <- S2, <- T2, <- T3. by apply (ledger_latest m next L j k).
  - intros j b Hb. apply B in Hb as (a & Ha & _ & S1 & _).
    destruct (ledger_exists m next L j a Ha) as (k & c & Hc & Ek & Cc).
    apply F in Hc as (c' & Hc & _ & T1 & _ & T2 & _). exists k, c'. split; [done|].
    by rewrite <- T1, <- T2, <- S1.
  - intros j b Hb. apply B in Hb as (a & Ha & _ & _ & _ & S1 & S2). rewrite <- S1.
    intros C. apply S2. by apply (ledger_replaced m next L j).
Qed.

(** A row is replaced by its successor. *)
Lemma ledger_replace m next i a a' new : ledger m next -> m !! i = Some a -> is_current a = true ->
  row_id a' = row_id a -> execution a' = execution a -> row_revision a' = row_revision a ->
  is_current a' = false -> is_Some (replaced_at a') ->
  row_id new = next -> execution new = execution a -> row_revision new = row_revision a + 1 ->
  is_current new = true ->
  ledger (<[next := new]> (<[i := a']> m)) (next + 1).
Proof.
  intros L Ha Hcur I1 I2 I3 I4 I5 N1 N2 N3 N4.
  pose proof (ledger_ids m next L i a Ha) as [Hid Hlt].
  assert (B : forall j b, <[next := new]> (<[i := a']> m) !! j = Some b ->
    (j = next /\ b = new) \/ (j = i /\ b = a') \/ (j <> i /\ j <> next /\ m !! j = Some b)).
  { intros j b. rewrite !lookup_insert_Some. naive_solver. }
  assert (Max : forall j b, m !! j = Some b -> execution b = execution a -> row_revision b <= row_revision a).
  { intros j b Hb E. by apply (ledger_latest m next L j i b a). }
  assert (One : forall j b, m !! j = Some b -> execution b = execution a -> is_current b = true -> j = i).
  { intros j b Hb E C. by apply (ledger_current m next L j i b a). }
  split.
  - intros j b Hb. apply B in Hb as [[-> ->]|[[-> ->]|(_ & _ & Hb)]]; [lia|lia|].
    apply (ledger_ids m next L) in Hb. lia.
  - intros j k b c Hb Hc. apply B in Hb as [[-> ->]|[[-> ->]|(J1 & J2 & Hb)]], Hc as [[-> ->]|[[-> ->]|(K1 & K2 & Hc)]];
      intros E1 E2; try done.
    + exfalso. lia.
    + assert (row_revision c <= row_revision a) by (apply (Max k c Hc); congruence). lia.
    + exfalso. lia.
    + eapply (ledger_revisions m next L i k a c); [done|done|congruence|lia].
    + assert (row_revision b <= row_revision a) by (apply (Max j b Hb); congruence). lia.
    + eapply (ledger_revisions m next L j i b a); [done|done|congruence|lia].
    + by apply (ledger_revisions m next L j k b c).
  - intros j k b c Hb Hc. apply B in Hb as [[-> ->]|[[-> ->]|(J1 & J2 & Hb)]], Hc as [[-> ->]|[[-> ->]|(K1 & K2 & Hc)]];
      intros E1 C1 C2; try done; try congruence.
    + destruct K1. apply (One k c Hc); congruence.
    + destruct J1. apply (One j b Hb); congruence.
    + by apply (ledger_current m next L j k b c).
  - intros j k b c Hb Hc. apply B in Hb as [[-> ->]|[[-> ->]|(J1 & J2 & Hb)]], Hc as [[-> ->]|[[-> ->]|(K1 & K2 & Hc)]];
      intros E1 C1; try congruence; try lia.
    + destruct K1. apply (One k c Hc); congruence.
    + rewrite I3. apply (ledger_latest m next L i k a c); congruence.
    + assert (row_revision b <= row_revision a) by (apply (Max j b Hb); congruence). lia.
    + by apply (ledger_latest m next L j k b c).
  - intros j b Hb.
    assert (Hnew : <[next := new]> (<[i := a']> m) !! next = Some new) by apply lookup_insert_eq.
    apply B in Hb as [[-> ->]|[[-> ->]|(J1 & J2 & Hb)]]; [by exists next, new|by exists next, new; rewrite I2|].
    destruct (ledger_exists m next L j b Hb) as (k & c & Hc & Ek & Cc).
    destruct (decide (k = i)) as [->|Hk].
    + exists next, new. split; [done|]. split; [congruence|done].
    + exists k, c. split; [|done]. rewrite !lookup_insert_ne; [done|done|].
      apply (ledger_ids m next L) in Hc as [_ ?]. lia.
  - intros j b Hb C. apply B in Hb as [[-> ->]|[[-> ->]|(_ & _ & Hb)]]; [congruence|done|].
    by apply (ledger_replaced m next L j).
Qed.

(** The successor of a current row conflicts with no other row. *)
Lemma successor_free m next i a a' new : ledger m next -> m !! i = Some a -> is_current a = true ->
  row_revision a' = row_revision a -> is_current a' = false ->
  execution new = execution a -> row_revision new = row_revision a + 1 ->
  forall j b, <[i := a']> m !! j = Some b -> execution new = execution b ->
    row_revision new <> row_revision b /\ is_current b = false.
Proof.
  intros L Ha Hcur I3 I4 N2 N3 j b Hb E. apply lookup_insert_Some in Hb as [[<- <-]|[Hij Hb]].
  { split; [lia|done]. }
  pose proof (ledger_latest m next L j i b a Hb Ha ltac:(congruence) Hcur). split; [lia|].
  destruct (is_current b) eqn:C; [|done].
  destruct Hij. symmetry. apply (ledger_current m next L j i b a); congruence.
Qed.

(** The condition of the unique indexes. *)
Definition key_conflict (a b : R) : Prop :=
  execution a = execution b /\
  (row_revision a = row_revision b \/ is_current a = true /\ is_current b = true).

Lemma alter_as_insert (m : gmap Z R) i a f : m !! i = Some a -> alter f i m = <[i := f a]> m.
Proof.
  intros Ha. apply map_eq. intros j. destruct (decide (i = j)) as [<-|Hij].
  - by rewrite lookup_alter_eq, lookup_insert_eq, Ha.
  - by rewrite lookup_alter_ne, lookup_insert_ne.
Qed.

(** Superseding a row [a] (as [a']) and inserting [new]: no conflict when [a] is current;
    otherwise the current row of its key refuses the insertion. *)
Lemma ledger_revise m next i a a' new : ledger m next -> m !! i = Some a ->
  row_id a' = row_id a -> execution a' = execution a -> row_revision a' = row_revision a ->
  is_current a' = false -> is_Some (replaced_at a') ->
  row_id new = next -> execution new = execution a -> row_revision new = row_revision a + 1 ->
  is_current new = true ->
  (is_current a = true /\ (forall j b, <[i := a']> m !! j = Some b -> ~ key_conflict new b) /\
   ledger (<[next := new]> (<[i := a']> m)) (next + 1)) \/
  (is_current a = false /\ (exists j b, <[i := a']> m !! j = Some b /\ key_conflict new b) /\
   ledger (<[i := a']> m) next).
Proof.
  intros L Ha I1 I2 I3 I4 I5 N1 N2 N3 N4. destruct (is_current a) eqn:Hcur; [left|right]; (split; [done|]).
  - split; [|by apply (ledger_replace m next i a)]. intros j b Hb [E C].
    destruct (successor_free m next i a a' new L Ha Hcur I3 I4 N2 N3 j b Hb E) as [D1 D2].
    destruct C as [C|[_ C]]; congruence.
  - split.
    + destruct (ledger_exists m next L i a Ha) as (j & b & Hb & E & C).
      exists j, b. split; [|split; [congruence|by right]].
      rewrite lookup_insert_ne; [done|]. intros ->. congruence.
    + rewrite <- (alter_as_insert m i a (fun _ => a') Ha). apply ledger_alter; [|done].
      intros r Hr. assert (r = a) as -> by congruence. repeat split; congruence.
Qed.

(** ** A table that has grown from an earlier one

    The ledger is right, the sequence has not gone back, and no row that was superseded in
    the earlier table has changed. *)
Record grown (m0 : gmap Z R) (next0 : Z) (m : gmap Z R) (next : Z) : Prop := {
  grown_ledger : ledger m next;
  grown_next : next0 <= next;
  grown_history : forall j r, m0 !! j = Some r -> is_current r = false -> m !! j = Some r;
}.

(** A row of the earlier table that is current, or a row it does not have. *)
Definition open_row (m0 : gmap Z R) (j : Z) : Prop :=
  forall r, m0 !! j = Some r -> is_current r = true.

Lemma grown_refl m next : ledger m next -> grown m next m next.
Proof. intros L. split; [done|lia|done]. Qed.

Lemma grown_alter m0 next0 m next i f : open_row m0 i -> (forall r, same_header r (f r)) ->
  grown m0 next0 m next -> grown m0 next0 (alter f i m) next.
Proof.
  intros Hopen Hf [L N Hist]. split; [apply ledger_alter; [intros; apply Hf|done]|done|].
  intros j r Hr Hc. rewrite lookup_alter_ne; [by apply Hist|].
  intros ->. apply Hopen in Hr. congruence.
Qed.

Lemma grown_revise m0 next0 m next i a a' new : grown m0 next0 m next -> open_row m0 i ->
  m !! i = Some a ->
  row_id a' = row_id a -> execution a' = execution a -> row_revision a' = row_revision a ->
  is_current a' = false -> is_Some (replaced_at a') ->
  row_id new = next -> execution new = execution a -> row_revision new = row_revision a + 1 ->
  is_current new = true ->
  (is_current a = true /\ (forall j b, <[i := a']> m !! j = Some b -> ~ key_conflict new b) /\
   grown m0 next0 (<[next := new]> (<[i := a']> m)) (next + 1) /\ open_row m0 next) \/
  (is_current a = false /\ (exists j b, <[i := a']> m !! j = Some b /\ key_conflict new b) /\
   grown m0 next0 (<[i := a']> m) next).
Proof.
  intros [L N Hist] Hopen Ha I1 I2 I3 I4 I5 N1 N2 N3 N4.
  assert (Hi : forall j r, m0 !! j = Some r -> is_current r = false -> i <> j /\ j < next).
  { intros j r Hr Hc. split; [intros ->; apply Hopen in Hr; congruence|].
    apply (Hist j r Hr) in Hc. by apply (ledger_ids m next L j r). }
  destruct (ledger_revise m next i a a' new L Ha) as [(Hcur & Hfree & L')|(Hcur & Hc & L')];
    try done; [left|right]; (split; [done|]); (split; [done|]).
  - split; [split; [done|lia|]|].
    + intros j r Hr Hc. destruct (Hi j r Hr Hc). rewrite !lookup_insert_ne by lia. by apply Hist.
    + intros r Hr. destruct (is_current r) eqn:Hc; [done|]. destruct (Hi next r Hr Hc). lia.
  - split; [done|done|]. intros j r Hr Hcr. destruct (Hi j r Hr Hcr).
    rewrite lookup_insert_ne by done. by apply Hist.
Qed.

End Ledger.

(** ** Operations that keep an invariant, with a fact about what they return *)

Lemma preserves_bind_post {S A B} (I : S -> Prop) (Q : A -> Prop) (m : ST S A) (f : A -> ST S B) :
  preserves I m -> (forall s a s', I s -> m s = (Ok a, s') -> Q a) ->
  (forall a, Q a -> preserves I (f a)) -> preserves I (st_bind m f).
Proof.
  intros Hm HQ Hf s r s' Hs E. unfold st_bind in E. destruct (m s) as [[a|e] s1] eqn:E1.
  - eapply Hf; [eapply HQ; eauto|eapply Hm; eauto|exact E].
  - simplify_eq. eapply Hm; eauto.
Qed.

(** ** The two ledgers of the store *)

Definition grows (db0 db : OutcomeDb) : Prop :=
  grown (forwards db0) (next_forward_id db0) (forwards db) (next_forward_id db) /\
  grown (targets db0) (next_target_id db0) (targets db) (next_target_id db).

Lemma update_forward_grows db0 j f : open_row (forwards db0) j -> (forall o, same_header o (f o)) ->
  preserves (grows db0) (update_forward j f).
Proof.
  intros Hopen Hf. apply preserves_modify. intros db [F T]. split; [by apply grown_alter|done].
Qed.

Lemma update_target_grows db0 j f : open_row (targets db0) j -> (forall t, same_header t (f t)) ->
  preserves (grows db0) (update_target j f).
Proof.
  intros Hopen Hf. apply preserves_modify. intros db [F T]. split; [done|by apply grown_alter].
Qed.

Lemma update_prediction_grows db0 j f : preserves (grows db0) (update_prediction j f).
Proof. by apply preserves_modify. Qed.

Lemma get_forward_grows db0 j : preserves (grows db0) (get_forward j).
Proof. intros db r db' G E. unfold get_forward in E. case_match; by injection E as _ <-. Qed.

Lemma get_target_grows db0 j : preserves (grows db0) (get_target j).
Proof. intros db r db' G E. unfold get_target in E. case_match; by injection E as _ <-. Qed.

Ltac header := intros []; by repeat split.

(** ** The revision service *)

Lemma forward_conflict_spec a b : forward_conflict a b = true <-> key_conflict a b.
Proof.
  unfold forward_conflict, same_execution, key_conflict. simpl.
  rewrite !andb_true_iff, orb_true_iff, andb_true_iff, !Z.eqb_eq, String.eqb_eq.
  split; [intros [[[-> ->] ->] ?]; done|]. intros [E ?]. injection E as -> -> ->. done.
Qed.

Lemma target_conflict_spec a b : target_conflict a b = true <-> key_conflict a b.
Proof.
  unfold target_conflict, key_conflict. simpl.
  rewrite !andb_true_iff, orb_true_iff, andb_true_iff, !Z.eqb_eq.
  split; [intros [[-> ->] ?]; done|]. intros [E ?]. injection E as -> ->. done.
Qed.

Lemma rows_In {R} (m : gmap Z R) r : In r (map snd (map_to_list m)) <-> exists i, m !! i = Some r.
Proof.
  rewrite in_map_iff. split.
  - intros ([i x] & <- & Hin). exists i. by apply list_elem_of_In, elem_of_map_to_list in Hin.
  - intros [i Hi]. exists (i, r). split; [done|]. by apply list_elem_of_In, elem_of_map_to_list.
Qed.

(** The state after superseding row [i]. *)
Definition supersede_forward (i : Z) (now : datetime) (db : OutcomeDb) : OutcomeDb :=
  set_forwards (alter (fun o => Fwd.set_superseded_at (Some now) (Fwd.set_is_current_revision false o))
                  i (forwards db)) db.

Lemma insert_forward_cases row db :
  (insert_forward row db = (Ok (Fwd.id row), mkOutcomeDb (prices db) (predictions db)
      (<[Fwd.id row := row]> (forwards db)) (targets db) (definitions db)
      (next_forward_id db + 1) (next_target_id db)) /\
   forall j b, forwards db !! j = Some b -> ~ key_conflict row b) \/
  ((exists e, insert_forward row db = (Raise e, db)) /\
   exists j b, forwards db !! j = Some b /\ key_conflict row b).
Proof.
  unfold insert_forward. destruct (existsb _ _) eqn:E; [right|left]; (split; [eauto|]).
  - apply existsb_exists in E as (b & Hb & C). apply rows_In in Hb as [j Hj].
    exists j, b. split; [done|]. by apply forward_conflict_spec.
  - intros j b Hb C. apply not_true_iff_false in E. apply E. apply existsb_exists.
    exists b. split; [apply rows_In; eauto|by apply forward_conflict_spec].
Qed.

Lemma insert_target_cases row db :
  (insert_target row db = (Ok (Tgt.id row), mkOutcomeDb (prices db) (predictions db) (forwards db)
      (<[Tgt.id row := row]> (targets db)) (definitions db) (next_forward_id db)
      (next_target_id db + 1)) /\
   forall j b, targets db !! j = Some b -> ~ key_conflict row b) \/
  ((exists e, insert_target row db = (Raise e, db)) /\
   exists j b, targets db !! j = Some b /\ key_conflict row b).
Proof.
  unfold insert_target. destruct (existsb _ _) eqn:E; [right|left]; (split; [eauto|]).
  - apply existsb_exists in E as (b & Hb & C). apply rows_In in Hb as [j Hj].
    exists j, b. split; [done|]. by apply target_conflict_spec.
  - intros j b Hb C. apply not_true_iff_false in E. apply E. apply existsb_exists.
    exists b. split; [apply rows_In; eauto|by apply target_conflict_spec].
Qed.

Section Service.
Context `{BarText} `{OutcomeAuthority}.

(** [upsert_forward_revision] keeps the ledger; on a current row it returns the row that
    is current afterwards. *)
Lemma upsert_forward_spec db0 db i v now : grows db0 db -> open_row (forwards db0) i ->
  exists r db', upsert_forward_revision i v now db = (r, db') /\ grows db0 db' /\
    (forall m changed, r = Ok (m, changed) -> open_row (forwards db0) m) /\
    (forall o, forwards db !! i = Some o -> Fwd.is_current_revision o = true ->
       exists m changed o', r = Ok (m, changed) /\ forwards db' !! m = Some o' /\
         Fwd.is_current_revision o' = true /\ execution o' = execution o /\
         Fwd.source_bar_lineage_hash o' = Some (v_source_bar_lineage_hash v)).
Proof.
  intros G Hopen. unfold upsert_forward_revision, st_bind, get_forward.
  destruct (forwards db !! i) as [o|] eqn:Ho.
  2:{ eexists _, db. split; [reflexivity|]. split_and!; naive_solver. }
  destruct (opt_text_eqb _ _ && _) eqn:C1.
  { eexists _, db. split; [reflexivity|]. split; [done|]. split; [naive_solver|].
    intros o1 Ho1 Hc. injection Ho1 as <-. exists i, false, o. split_and!; try done.
    apply andb_true_iff in C1 as [C1 _]. unfold opt_text_eqb in C1.
    destruct (Fwd.source_bar_lineage_hash o); [|done]. by apply String.eqb_eq in C1 as ->. }
  destruct (bool_decide _ || bool_decide _) eqn:C2.
  { eexists _, _. split; [reflexivity|]. split.
    { eapply (update_forward_grows db0 i (assign_forward v)); [done|header|exact G|reflexivity]. }
    split; [naive_solver|]. intros o1 Ho1 Hc. injection Ho1 as <-.
    exists i, true, (assign_forward v o). split; [done|]. cbn [forwards set_forwards].
    rewrite lookup_alter_eq, Ho. by destruct o. }
  cbn [update_forward st_modify st_get]. fold (supersede_forward i now db).
  set (o' := Fwd.set_superseded_at (Some now) (Fwd.set_is_current_revision false o)).
  set (new := Fwd.set_metadata_json _ _). destruct G as [GF GT].
  assert (Es : forwards (supersede_forward i now db) = <[i := o']> (forwards db)).
  { unfold supersede_forward; simpl. by rewrite (alter_as_insert _ i o _ Ho). }
  destruct (grown_revise _ _ _ _ i o o' new GF Hopen Ho)
    as [(Hcur & Hfree & GF' & Hn)|(Hcur & (j & b & Hb & Hc) & GF')]; try (by destruct o); try done.
  - destruct (insert_forward_cases new (supersede_forward i now db)) as [[Ei _]|[_ (j & b & Hb & Hc)]].
    2:{ rewrite Es in Hb. by destruct (Hfree j b Hb). }
    rewrite Ei, Es. eexists _, _. split; [reflexivity|]. split; [done|]. split.
    { intros m changed E. by injection E as <- <-. }
    intros o1 Ho1 _. injection Ho1 as <-. eexists _, _, new. split; [reflexivity|].
    cbn [forwards]. rewrite lookup_insert_eq. by destruct o.
  - destruct (insert_forward_cases new (supersede_forward i now db)) as [[_ Hno]|[[e Ei] _]].
    { destruct (Hno j b); [|done]. by rewrite Es. }
    rewrite Ei. eexists _, _. split; [reflexivity|]. split.
    { split; [by rewrite Es|done]. }
    split; [done|]. intros o1 Ho1 Hc1. injection Ho1 as <-. simpl in Hcur. congruence.
Qed.

Definition supersede_target (i : Z) (now : datetime) (db : OutcomeDb) : OutcomeDb :=
  set_targets (alter (fun t => Tgt.set_superseded_at (Some now) (Tgt.set_is_current_revision false t))
                 i (targets db)) db.

Lemma upsert_target_spec db0 db i v now : grows db0 db -> open_row (targets db0) i ->
  exists r db', upsert_target_stop_revision i v now db = (r, db') /\ grows db0 db' /\
    (forall m changed, r = Ok (m, changed) -> open_row (targets db0) m).
Proof.
  intros G Hopen. unfold upsert_target_stop_revision, st_bind, get_target.
  destruct (targets db !! i) as [t|] eqn:Ht.
  2:{ eexists _, db. split; [reflexivity|]. split_and!; naive_solver. }
  destruct (bool_decide _ && _).
  { eexists _, db. split; [reflexivity|]. split_and!; naive_solver. }
  destruct (bool_decide _ || bool_decide _).
  { eexists _, _. split; [reflexivity|]. split; [|naive_solver].
    eapply (update_target_grows db0 i (assign_target v)); [done|header|exact G|reflexivity]. }
  cbn [update_target st_modify st_get]. fold (supersede_target i now db).
  set (t' := Tgt.set_superseded_at (Some now) (Tgt.set_is_current_revision false t)).
  set (new := Tgt.set_metadata_json _ _). destruct G as [GF GT].
  assert (Es : targets (supersede_target i now db) = <[i := t']> (targets db)).
  { unfold supersede_target; simpl. by rewrite (alter_as_insert _ i t _ Ht). }
  destruct (grown_revise _ _ _ _ i t t' new GT Hopen Ht)
    as [(Hcur & Hfree & GT' & Hn)|(Hcur & (j & b & Hb & Hc) & GT')]; try (by destruct t); try done.
  - destruct (insert_target_cases new (supersede_target i now db)) as [[Ei _]|[_ (j & b & Hb & Hc)]].
    2:{ rewrite Es in Hb. by destruct (Hfree j b Hb). }
    rewrite Ei, Es. eexists _, _. split; [reflexivity|]. split; [done|].
    intros m changed E. by injection E as <- <-.
  - destruct (insert_target_cases new (supersede_target i now db)) as [[_ Hno]|[[e Ei] _]].
    { destruct (Hno j b); [|done]. by rewrite Es. }
    rewrite Ei. eexists _, _. split; [reflexivity|]. split; [|done]. split; [done|by rewrite Es].
Qed.

(** ** The handlers *)

Lemma calculate_forward_grows db0 prediction i now context : open_row (forwards db0) i ->
  preserves (grows db0) (_calculate_forward prediction i now context).
Proof.
  intros Hopen. unfold _calculate_forward, pend, entry_status. preserve;
    auto using get_forward_grows, update_prediction_grows;
    (apply update_forward_grows; [done|header]).
Qed.

Lemma upsert_target_grows db0 i v now : open_row (targets db0) i ->
  preserves (grows db0) (upsert_target_stop_revision i v now).
Proof.
  intros Hopen db r db' G E. destruct (upsert_target_spec db0 db i v now G Hopen) as (r' & d & E' & G' & _).
  congruence.
Qed.

Lemma upsert_target_open db0 db i v now m changed db' : grows db0 db -> open_row (targets db0) i ->
  upsert_target_stop_revision i v now db = (Ok (m, changed), db') -> open_row (targets db0) m.
Proof.
  intros G Hopen E. destruct (upsert_target_spec db0 db i v now G Hopen) as (r & d & E' & _ & Ho).
  rewrite E in E'. injection E' as <- _. by eapply Ho.
Qed.

Lemma mature_target_grows db0 target forward calculation now prediction :
  open_row (targets db0) target ->
  preserves (grows db0) (_mature_target_stop target forward calculation now prediction).
Proof.
  intros Hopen. unfold _mature_target_stop. preserve;
    auto using get_forward_grows, get_target_grows, upsert_target_grows.
Qed.

(** The row that [_mature_target_stop] returns may be written. *)
Lemma mature_target_open db0 target forward calculation now prediction db m changed db' :
  open_row (targets db0) target -> grows db0 db ->
  _mature_target_stop target forward calculation now prediction db = (Ok (m, changed), db') ->
  open_row (targets db0) m.
Proof.
  intros Hopen G E. unfold _mature_target_stop in E.
  apply st_bind_Ok in E as (t & d1 & E1 & E).
  pose proof (get_target_grows db0 target _ _ _ G E1) as G1.
  apply st_bind_Ok in E as (o & d2 & E2 & E). pose proof (get_forward_grows db0 _ _ _ _ G1 E2) as G2.
  apply st_bind_Ok in E as (d & d3 & E3 & E). injection E3 as <- <-.
  destruct (definitions d2 !! _) as [definition|]; [|done].
  apply st_bind_Ok in E as (p & d4 & E4 & E). apply st_lift_Ok in E4 as [_ ->].
  apply st_bind_Ok in E as ([] & d5 & E5 & E). apply st_lift_Ok in E5 as [_ ->].
  apply st_bind_Ok in E as (native & d6 & E6 & E). apply st_lift_Ok in E6 as [_ ->].
  destruct native; [|done]. case_match; [done|].
  apply st_bind_Ok in E as (ep & d7 & E7 & E). apply st_lift_Ok in E7 as [_ ->].
  apply st_bind_Ok in E as (ev & d8 & E8 & E). apply st_lift_Ok in E8 as [_ ->].
  apply st_bind_Ok in E as ([m' ch] & d9 & E9 & E).
  apply st_bind_Ok in E as (row & d10 & E10 & E). unfold st_ret in E. injection E as <- _ _.
  by eapply upsert_target_open.
Qed.

Lemma process_target_grows db0 prediction forward calculation now totals target :
  open_row (targets db0) target ->
  preserves (grows db0) (process_target prediction forward calculation now totals target).
Proof.
  intros Hopen. unfold process_target.
  apply (preserves_bind_post _ (fun r => open_row (targets db0) r.1)).
  - by apply mature_target_grows.
  - intros s [m ch] s' G E. by eapply mature_target_open.
  - intros [m ch] Hm. simpl in Hm. preserve; auto using get_target_grows.
    unfold seal_target. preserve. apply update_target_grows; [done|header].
Qed.

Lemma load_target_stops_open db outcome l : ledger (targets db) (next_target_id db) ->
  load_target_stops db outcome = Ok l -> forall t, In t l -> open_row (targets db) t.
Proof.
  intros L. unfold load_target_stops.
  assert (Hrows : forall row, In row (target_rows db) -> targets db !! Tgt.id row = Some row).
  { intros row Hr. unfold target_rows in Hr. apply sort_by_In, rows_In in Hr as [i Hi].
    pose proof (ledger_ids _ _ L i row Hi) as [E _]. simpl in E. by rewrite E. }
  revert l. induction (target_rows db) as [|row rows IH]; intros l E t Ht; simpl in E.
  { apply Ok_inj in E. by subst. }
  assert (IH' : forall l, _ -> forall t, _ -> _) by (apply IH; intros; apply Hrows; by right). clear IH.
  destruct (definitions db !! _) as [def|]; [|by eapply IH'].
  destruct (_ && Tgt.is_current_revision row && _ && _) eqn:C; [|by eapply IH'].
  apply result_bind_Ok in E as ([] & _ & E). apply result_bind_Ok in E as (rest & Er & E).
  apply Ok_inj in E. subst l. destruct Ht as [<-|Ht]; [|by eapply IH'].
  intros r Hr. rewrite (Hrows row ltac:(by left)) in Hr. injection Hr as <-.
  rewrite !andb_true_iff in C. simpl. tauto.
Qed.

Lemma batch_targets_open db outcome context : ledger (targets db) (next_target_id db) ->
  load_batch_context db outcome = Ok context ->
  forall t, In t (ctx_target_stops context) -> open_row (targets db) t.
Proof.
  intros L E. unfold load_batch_context in E. apply result_bind_Ok in E as (l & El & E).
  assert (ctx_target_stops context = l) as ->; [|by eapply load_target_stops_open].
  destruct (predictions db !! _) as [p|]; [|by apply Ok_inj in E; subst].
  apply result_bind_Ok in E as (b & _ & E). apply result_bind_Ok in E as (px & _ & E).
  cbv zeta in E. destruct (Fwd.entry_session outcome), (Fwd.due_session outcome);
    try (by apply Ok_inj in E; subst).
  apply result_bind_Ok in E as (sessions & _ & E).
  destruct (complete_basis_for_rows _ _). by apply Ok_inj in E; subst.
Qed.

Section Process.
Variable ny_wall : datetime -> datetime.

(** [forward_authority] refuses a row that is not the current revision. *)
Hypothesis authority_current : forall db i now, forward_authority db i now = Ok tt ->
  exists o, forwards db !! i = Some o /\ Fwd.is_current_revision o = true.

(** C12: Maturation keeps both ledgers, whether it returns or raises: per execution there is
    exactly one current row, it has the highest revision, and rows that were superseded
    before are not changed any more. *)
Theorem maturation_keeps_ledgers i now totals db r db' :
  ledger (forwards db) (next_forward_id db) -> ledger (targets db) (next_target_id db) ->
  process_forward_outcome ny_wall i now totals db = (r, db') ->
  ledger (forwards db') (next_forward_id db') /\ ledger (targets db') (next_target_id db') /\
  (forall j o, forwards db !! j = Some o -> Fwd.is_current_revision o = false ->
     forwards db' !! j = Some o) /\
  (forall j t, targets db !! j = Some t -> Tgt.is_current_revision t = false ->
     targets db' !! j = Some t).
Proof.
  intros LF LT E. enough (G : grows db db').
  { destruct G as [[? _ ?] [? _ ?]]. split_and!; auto. }
  assert (G0 : grows db db) by (split; by apply grown_refl).
  unfold process_forward_outcome, st_bind at 1 in E. unfold get_forward at 1 in E.
  destruct (forwards db !! i) as [outcome|] eqn:Hi; [|by injection E as _ <-].
  change (st_bind st_get ?f db) with (f db db) in E. cbv beta in E.
  unfold st_bind at 1 in E. unfold st_lift at 1 in E.
  destruct (load_batch_context db outcome) as [context|e] eqn:Hctx; [|by injection E as _ <-].
  unfold st_bind at 1 in E. unfold st_lift at 1 in E.
  destruct (forward_authority db i now) as [[]|e] eqn:Ha; [|by injection E as _ <-].
  assert (Hopen : open_row (forwards db) i).
  { intros o Ho. destruct (authority_current db i now Ha) as (o' & Ho' & Hc). simpl. congruence. }
  pose proof (batch_targets_open db outcome context LT Hctx) as Ht.
  cbv zeta in E. use_preserves (grows db) G0 E.
  assert (Hup : forall f, (forall o, same_header o (f o)) ->
    preserves (grows db) (update_forward i f)).
  { intros. by apply update_forward_grows. }
  apply preserves_bind; [apply Hup; header|]. intros _.
  apply preserves_bind; [apply preserves_lift|]. intros complete.
  destruct (negb complete); [apply preserves_bind; [apply Hup; header|intros; apply preserves_ret]|].
  destruct (predictions db !! _) as [prediction|];
    [|apply preserves_bind; [apply Hup; header|intros; apply preserves_ret]].
  apply preserves_bind; [by apply calculate_forward_grows|]. intros [calculation|].
  2:{ preserve. apply get_forward_grows. }
  apply (preserves_bind_post _ (fun r => open_row (forwards db) r.1)).
  - intros d x d' G Eu. destruct (upsert_forward_spec db d i (values calculation) now G Hopen)
      as (x' & d2 & E' & G' & _). congruence.
  - intros d [m ch] d' G Eu. destruct (upsert_forward_spec db d i (values calculation) now G Hopen)
      as (x' & d2 & E' & _ & Ho & _). rewrite Eu in E'. injection E' as <- _. by eapply Ho.
  - intros [m ch] Hm. simpl in Hm. preserve; auto using get_forward_grows, process_target_grows.
    unfold seal_forward. preserve. apply update_forward_grows; [done|header].
Qed.

(** ** Matured rows are complete *)

(** The columns that every matured row has. *)
Definition complete_forward (o : WinnerForwardOutcome) : Prop :=
  Fwd.status o = OUTCOME_MATURED ->
  is_Some (Fwd.entry_price o) /\ is_Some (Fwd.exit_price o) /\ is_Some (Fwd.close_return_pct o) /\
  is_Some (Fwd.mfe_pct o) /\ is_Some (Fwd.mae_pct o) /\ is_Some (Fwd.sessions_to_mfe o) /\
  is_Some (Fwd.sessions_to_mae o) /\ is_Some (Fwd.positive_return o) /\
  is_Some (Fwd.source_bar_lineage_hash o) /\ is_Some (Fwd.matured_at o).

Definition complete_target (t : WinnerTargetStopOutcome) : Prop :=
  Tgt.status t = OUTCOME_MATURED ->
  is_Some (Tgt.forward_outcome_id t) /\ is_Some (Tgt.target_hit t) /\ is_Some (Tgt.stop_hit t) /\
  is_Some (Tgt.first_event t) /\ is_Some (Tgt.primary_winner t) /\
  is_Some (Tgt.optimistic_winner t) /\ is_Some (Tgt.conservative_winner t) /\
  is_Some (Tgt.evaluated_at t).

Definition complete_rows (db : OutcomeDb) : Prop :=
  map_Forall (fun _ => complete_forward) (forwards db) /\
  map_Forall (fun _ => complete_target) (targets db).

Lemma map_Forall_alter {R} (P : R -> Prop) (m : gmap Z R) i f : (forall r, P r -> P (f r)) ->
  map_Forall (fun _ => P) m -> map_Forall (fun _ => P) (alter f i m).
Proof.
  intros Hf M j r. destruct (decide (i = j)) as [<-|Hij].
  - rewrite lookup_alter_eq. destruct (m !! i) as [x|] eqn:E; [|done].
    intros Hr. injection Hr as <-. by apply Hf, (M i).
  - rewrite lookup_alter_ne by done. apply M.
Qed.

Lemma update_forward_complete i f : (forall o, complete_forward o -> complete_forward (f o)) ->
  preserves complete_rows (update_forward i f).
Proof.
  intros Hf. apply preserves_modify. intros db [F T]. split; [|done]. by apply map_Forall_alter.
Qed.

Lemma update_target_complete i f : (forall t, complete_target t -> complete_target (f t)) ->
  preserves complete_rows (update_target i f).
Proof.
  intros Hf. apply preserves_modify. intros db [F T]. split; [done|]. by apply map_Forall_alter.
Qed.

Lemma update_prediction_complete i f : preserves complete_rows (update_prediction i f).
Proof. by apply preserves_modify. Qed.

Lemma get_forward_complete i : preserves complete_rows (get_forward i).
Proof. intros db r db' G E. unfold get_forward in E. case_match; by injection E as _ <-. Qed.

Lemma get_target_complete i : preserves complete_rows (get_target i).
Proof. intros db r db' G E. unfold get_target in E. case_match; by injection E as _ <-. Qed.

Lemma insert_forward_complete row : complete_forward row ->
  preserves complete_rows (insert_forward row).
Proof.
  intros Hr db r db' [F T] E. unfold insert_forward in E. case_match; injection E as _ <-; [done|].
  split; [|done]. by apply map_Forall_insert_2.
Qed.

Lemma insert_target_complete row : complete_target row ->
  preserves complete_rows (insert_target row).
Proof.
  intros Hr db r db' [F T] E. unfold insert_target in E. case_match; injection E as _ <-; [done|].
  split; [done|]. by apply map_Forall_insert_2.
Qed.

Ltac columns := intros []; unfold complete_forward, complete_target; cbn; naive_solver eauto.

Lemma upsert_forward_complete i v now : preserves complete_rows (upsert_forward_revision i v now).
Proof.
  unfold upsert_forward_revision. preserve; auto using get_forward_complete.
  - apply update_forward_complete. columns.
  - apply update_forward_complete. columns.
  - apply insert_forward_complete. unfold complete_forward. cbn. naive_solver eauto.
Qed.

Lemma upsert_target_complete i v now : preserves complete_rows (upsert_target_stop_revision i v now).
Proof.
  unfold upsert_target_stop_revision. preserve; auto using get_target_complete.
  - apply update_target_complete. columns.
  - apply update_target_complete. columns.
  - apply insert_target_complete. unfold complete_target. cbn. naive_solver eauto.
Qed.

(** Every row that maturation leaves as matured has all the columns of a matured row:
    prices, returns, excursions and lineage of a forward outcome, the flags, the event
    and the verdicts of a target and stop outcome. *)
Theorem matured_rows_complete i now totals db r db' : complete_rows db ->
  process_forward_outcome ny_wall i now totals db = (r, db') -> complete_rows db'.
Proof.
  intros C E. use_preserves complete_rows C E.
  unfold process_forward_outcome, _calculate_forward, pend, entry_status, process_target,
    _mature_target_stop, seal_forward, seal_target.
  preserve; auto using get_forward_complete, get_target_complete, upsert_forward_complete,
    upsert_target_complete, update_prediction_complete;
    first [apply update_forward_complete | apply update_target_complete]; columns.
Qed.

(** ** The horizon gate *)

(** Nothing matures before its horizon is over: a call that counts a matured outcome has
    found the due session among the sessions completed at that time. *)
Theorem no_early_maturation i now totals db totals' db' outcome :
  forwards db !! i = Some outcome ->
  process_forward_outcome ny_wall i now totals db = (Ok totals', db') ->
  matured totals' <> matured totals ->
  exists due completed, Fwd.due_session outcome = Some due /\
    latest_completed_session ny_wall now (Some (Aware now)) = Ok completed /\ due <= completed.
Proof.
  intros Hi E Hm. unfold process_forward_outcome in E.
  apply st_bind_Ok in E as (o & d1 & E1 & E). apply get_forward_Ok in E1 as [-> Ho].
  assert (o = outcome) as -> by congruence.
  apply st_bind_Ok in E as (d & d2 & E2 & E). injection E2 as <- <-.
  apply st_bind_Ok in E as (context & d3 & E3 & E). apply st_lift_Ok in E3 as [_ ->].
  apply st_bind_Ok in E as ([] & d4 & E4 & E). apply st_lift_Ok in E4 as [_ ->].
  apply st_bind_Ok in E as ([] & d5 & E5 & E).
  apply st_bind_Ok in E as (complete & d6 & E6 & E). apply st_lift_Ok in E6 as [Hc ->].
  destruct complete; cbn [negb] in E.
  - unfold is_horizon_complete in Hc. destruct (Fwd.due_session outcome) as [due|]; [|done].
    apply result_bind_Ok in Hc as (completed & Ec & Hc). apply Ok_inj in Hc.
    exists due, completed. split; [done|]. split; [done|]. lia.
  - apply st_bind_Ok in E as ([] & d7 & _ & E). unfold st_ret in E. injection E as <- _.
    by destruct totals.
Qed.

(** ** A recheck without bars *)

(** When the bars of a matured outcome are missing at a recheck, the row goes back to
    pending; it keeps its maturation time and its lineage, and so, once the same bars are
    back, [upsert_forward_revision] takes it for unchanged and never matures it again. *)
Theorem recheck_strands_matured_row prediction i now context db o h t entry due :
  forwards db !! i = Some o -> Fwd.status o = OUTCOME_MATURED ->
  Fwd.source_bar_lineage_hash o = Some h -> Fwd.matured_at o = Some t ->
  Fwd.entry_session o = Some entry -> Fwd.due_session o = Some due ->
  _retained_outcome_configuration prediction = Ok None -> ctx_bars_by_outcome context = [] ->
  exists db1 o1,
    _calculate_forward prediction i now context db = (Ok None, db1) /\
    forwards db1 !! i = Some o1 /\ Fwd.status o1 = OUTCOME_PENDING /\
    forall v now', v_source_bar_lineage_hash v = h ->
      upsert_forward_revision i v now' db1 = (Ok (i, false), db1).
Proof.
  intros Hi Hs Hh Ht Hen Hdu Hret Hbars. unfold _calculate_forward, st_bind, get_forward.
  rewrite Hi. unfold st_lift. rewrite Hret, Hen, Hdu, Hbars. cbn -[_mark_pending].
  eexists _, (_mark_pending "missing_entry_bar" now o). split; [reflexivity|].
  cbn -[_mark_pending]. rewrite lookup_alter_eq, Hi. split; [done|]. split; [by destruct o|].
  intros v now' Hv. unfold upsert_forward_revision, st_bind, get_forward. cbn -[_mark_pending].
  rewrite lookup_alter_eq, Hi. cbn -[_mark_pending].
  replace (Fwd.source_bar_lineage_hash (_mark_pending "missing_entry_bar" now o)) with (Some h)
    by (by destruct o).
  replace (Fwd.matured_at (_mark_pending "missing_entry_bar" now o)) with (Some t)
    by (by destruct o).
  cbn. rewrite Hv, String.eqb_refl. done.
Qed.

End Process.
End Service.
