(* ===== verification/WinnerExamples.v ===== *)
(** * Examples of price caching and outcome maturation

    Concrete instances of the parameters and runs of the handlers on small stores; the
    theorems of [PriceBarFacts], [TargetStop], [Outcomes], [OutcomeFacts] and
    [OutcomeLedger] are applied to them. *)
From Stdlib Require Import ZArith QArith List String Ascii Bool Floats.SpecFloat.
From stdpp Require Import base gmap list strings.
From S2P Require Import Prelude PyDate PyFloat PyValue Calendar CalendarFacts Canonical PyDecimal.
From S2P Require Import PriceBars PriceBarFacts TargetStop Outcomes OutcomeFacts OutcomeLedger.
Local Open Scope string_scope.
Local Open Scope list_scope.
Local Open Scope Z_scope.

(** The exact value of a float, and the identity for the hash. *)
Definition exact_decimal (x : float) : decimal :=
  match x with
  | S754_finite s m e =>
      let n := if s then Zneg m else Zpos m in
      if 0 <=? e then Dec (n * 2 ^ e) 0 else Dec (n * 5 ^ (- e)) e
  | _ => Dec 0 0
  end.

#[export] Instance example_text : BarText := {| decimal_of_float := exact_decimal; md5 := fun s => s |}.

(** Legacy predictions, and the one check of the authority that the theorems need. *)
#[export] Instance example_authority : OutcomeAuthority := {|
  _retained_outcome_configuration := fun _ => Ok None;
  forward_authority := fun db i _ =>
    match forwards db !! i with
    | Some o => if Fwd.is_current_revision o then Ok tt
                else ValueError "MUTATION_WINNER_OUTCOME_CAPTURE_CONTRACT_MISMATCH"
    | None => ValueError "MUTATION_WINNER_OUTCOME_CAPTURE_CONTRACT_MISMATCH"
    end;
  validate_retained_outcome := fun _ _ => Ok tt;
  forward_proof := fun _ _ => VStr "proof";
  target_proof := fun _ _ => VStr "proof";
  sector_etf_proxies := fun _ => None;
  json_digest := fun v => json_text (JT := {| float_repr := fun _ => ""; sha256 := fun s => s |}) v;
|}.

Definition monday : date := mk_date 2026 8 3.
Definition tuesday : date := mk_date 2026 8 4.

Definition fetched (d : date) (o h l c : Z) : HistoricalBar :=
  HBar.mk "abc" d "1 day" (Some (float_of_Z o)) (Some (float_of_Z h)) (Some (float_of_Z l))
    (Some (float_of_Z c)) (Some (float_of_Z 1000)) "IB" "ADJUSTED_LAST" (Some "ADJUSTED").

Definition batch : list HistoricalBar := [fetched monday 100 104 99 103; fetched tuesday 103 106 97 98].

Definition no_bars : PriceDb := mkPriceDb ∅ [] ∅ 1 0.

Lemma no_bars_wf : wf no_bars.
Proof.
  split; intros *; unfold no_bars; simpl; rewrite ?lookup_empty; try done.
  intros Hr. by apply elem_of_nil in Hr.
Defined.

Definition stored : PriceDb := (cache_bars true 10 batch None None no_bars).2.
Definition summary_of_batch : BarUpsertSummary := mkBarUpsertSummary 2 0 0 0.

Lemma batch_stored : cache_bars true 10 batch None None no_bars = (Ok summary_of_batch, stored).
Proof. reflexivity. Qed.

(** ** The price cache *)

Lemma bar_cache_invariant_witness :
  wf no_bars /\ wf stored /\ handled summary_of_batch = Z.of_nat (length batch).
Proof.
  split; [exact no_bars_wf|].
  destruct (bar_cache_invariant true 10 batch None None no_bars _ _ no_bars_wf batch_stored) as [W H].
  split; [exact W|]. exact (H summary_of_batch eq_refl).
Defined.

Lemma series_version_detects_change_witness :
  let identity := ("ABC", "1 day", "ADJUSTED_LAST") in
  (series_same identity no_bars stored /\
   price_series_versions stored !! identity = price_series_versions no_bars !! identity) \/
  price_series_versions stored !! identity =
    Some (series_summary stored identity (next_version no_bars identity) 10).
Proof.
  exact (series_version_detects_change 10 batch None None no_bars summary_of_batch stored _
           no_bars_wf batch_stored).
Defined.

Lemma refetch_is_idle_witness :
  exists db2,
    cache_bars true 30 batch None None stored = (Ok (mkBarUpsertSummary 0 0 0 2), db2) /\
    (forall identity, series_same identity stored db2) /\
    price_bar_revisions db2 = price_bar_revisions stored /\
    price_series_versions db2 = price_series_versions stored.
Proof.
  apply (refetch_is_idle true 10 batch None None 30 None None no_bars summary_of_batch stored).
  - exact no_bars_wf.
  - apply (bool_decide_unpack _). vm_compute. exact I.
  - exact batch_stored.
Defined.

(** ** Targets and stops *)

Definition stored_bars : list PriceBar := bar_rows stored.

Lemma first_event_correct_witness :
  exists tp sp ev,
    target_level (of_int 100) (of_int 5) = Ok tp /\ stop_level (of_int 100) (of_int 2) = Ok sp /\
    evaluate stored_bars (of_int 100) (of_int 5) (of_int 2) SAME_BAR_CONSERVATIVE_STOP_FIRST = Ok ev /\
    ev = classify tp sp SAME_BAR_CONSERVATIVE_STOP_FIRST
           (first_reaching tp sp (sort_by by_date stored_bars)) /\
    (conservative_winner ev = true -> primary_winner ev = true) /\
    (primary_winner ev = true -> optimistic_winner ev = true).
Proof.
  apply first_event_correct. unfold stored_bars. vm_compute.
  repeat constructor; eexists; reflexivity.
Defined.

Lemma easier_terms_keep_wins_witness :
  let won := mkTargetStopEvaluation true false TARGET_FIRST (Some monday) false true true true in
  evaluate stored_bars (of_int 100) (of_int 4) (of_int 2) "" = Ok won /\
  conservative_winner won = true /\ optimistic_winner won = true.
Proof.
  split; [reflexivity|].
  assert (E : evaluate stored_bars (of_int 100) (of_int 4) (of_int 2) "" =
    Ok (mkTargetStopEvaluation true false TARGET_FIRST (Some monday) false true true true))
    by reflexivity.
  assert (E' : evaluate stored_bars (of_int 100) (of_int 3) (of_int 3) "" =
    Ok (mkTargetStopEvaluation true false TARGET_FIRST (Some monday) false true true true))
    by reflexivity.
  edestruct (easier_terms_keep_wins stored_bars (of_int 100) (of_int 4) (of_int 2) (of_int 3)
              (of_int 3) "") as [C O]; [ | | | |exact E|exact E'|].
  - unfold stored_bars. vm_compute. repeat constructor; eexists; reflexivity.
  - vm_compute. discriminate.
  - vm_compute. discriminate.
  - vm_compute. discriminate.
  - split; [apply C|apply O]; reflexivity.
Defined.

(** ** Maturation *)

Definition outcome : WinnerForwardOutcome :=
  Fwd.mk 1 7 NEXT_OPEN 2 (Some monday) (Some tuesday) OUTCOME_PENDING 1 true
    None None None None None None None None None None None None None None None None None None None
    None None [].

Definition prediction : WinnerPredictionSnapshot := Pred.mk 7 "abc" ENTRY_PENDING [] [].

Definition definition : WinnerOutcomeDefinition :=
  Def.mk 3 "T5_S2" NEXT_OPEN 2 (Some (of_int 5)) (Some (of_int 2))
    (Some SAME_BAR_CONSERVATIVE_STOP_FIRST) "v1".

Definition store : OutcomeDb :=
  mkOutcomeDb stored {[7 := prediction]} {[1 := outcome]} ∅ {[3 := definition]} 2 1.

(** Wednesday noon, UTC; New York is four hours behind. *)
Definition wednesday_noon : datetime := dt_combine (mk_date 2026 8 5) 12 0.
Definition new_york (t : datetime) : datetime := t - minutes 240.

Definition example_context : OutcomeBatchContext :=
  match load_batch_context store outcome with
  | Ok c => c | Raise _ => mkOutcomeBatchContext [] [] [] end.

Definition calculated : result (option ForwardCalculation) * OutcomeDb :=
  _calculate_forward prediction 1 wednesday_noon example_context store.

Definition processed : result OutcomeCounts * OutcomeDb :=
  process_forward_outcome new_york 1 wednesday_noon no_counts store.

Lemma forward_metrics_consistent_witness :
  match calculated.1 with
  | Ok (Some c) =>
      v_mae_pct (values c) ≼ v_close_return_pct (values c) /\
      v_close_return_pct (values c) ≼ v_mfe_pct (values c) /\
      v_close_return_pct (values c) = Dec (-2000000) (-6)
  | _ => False
  end.
Proof.
  unfold calculated.
  destruct (_calculate_forward prediction 1 wednesday_noon example_context store)
    as [[[c|]|e] db'] eqn:E; [|vm_compute in E; discriminate..].
  destruct (forward_metrics_consistent _ _ _ _ _ _ _ E) as (A & B & _).
  split; [exact A|]. split; [exact B|]. vm_compute in E. injection E as <- _. reflexivity.
Defined.

Lemma calculation_uses_whole_horizon_witness :
  match calculated.1 with
  | Ok (Some c) => Z.of_nat (length (ticker_bars c)) = 2 /\
      exists ticker rest, whole_horizon ticker (monday :: rest) (ticker_bars c) /\
        consecutive (monday :: rest) /\ List.last rest monday = tuesday
  | _ => False
  end.
Proof.
  unfold calculated.
  destruct (_calculate_forward prediction 1 wednesday_noon example_context store)
    as [[[c|]|e] db'] eqn:E; [|vm_compute in E; discriminate..].
  destruct (calculation_uses_whole_horizon prediction 1 wednesday_noon example_context store c db'
              outcome monday tuesday) as (ticker & rest & A & B & C & D);
    [reflexivity|reflexivity|reflexivity|reflexivity|reflexivity|reflexivity|exact E|].
  split; [exact D|]. exists ticker, rest. auto.
Defined.

Lemma store_ledgers : ledger (forwards store) (next_forward_id store) /\
  ledger (targets store) (next_target_id store).
Proof.
  split; [|unfold store; simpl; split; intros i *; rewrite lookup_empty; done].
  assert (Hone : forall i o, forwards store !! i = Some o -> i = 1 /\ o = outcome).
  { intros i o Ho. unfold store in Ho. simpl in Ho. apply lookup_singleton_Some in Ho as [<- <-]. done. }
  split.
  - intros i o Ho. apply Hone in Ho as [-> ->]. done.
  - intros i j a b Ha Hb _ _. apply Hone in Ha as [-> _], Hb as [-> _]. done.
  - intros i j a b Ha Hb _ _ _. apply Hone in Ha as [-> _], Hb as [-> _]. done.
  - intros i j a b Ha Hb _ _. apply Hone in Ha as [_ ->], Hb as [_ ->]. done.
  - intros i a Ha. exists i, a. apply Hone in Ha as [-> ->]. done.
  - intros i a Ha. apply Hone in Ha as [-> ->]. done.
Qed.

Lemma maturation_keeps_ledgers_witness :
  ledger (forwards processed.2) (next_forward_id processed.2) /\
  matured (match processed.1 with Ok t => t | Raise _ => no_counts end) = 1.
Proof.
  split; [|vm_compute; reflexivity].
  refine (proj1 (maturation_keeps_ledgers new_york _ 1 wednesday_noon no_counts store
           processed.1 processed.2 (proj1 store_ledgers) (proj2 store_ledgers) _)).
  - intros db i now Ha. simpl in Ha. destruct (forwards db !! i) as [o|]; [|discriminate].
    exists o. split; [reflexivity|]. destruct (Fwd.is_current_revision o); [reflexivity|discriminate].
  - unfold processed. destruct (process_forward_outcome _ _ _ _ _). reflexivity.
Defined.

Lemma matured_rows_complete_witness : complete_rows processed.2.
Proof.
  apply (matured_rows_complete new_york 1 wednesday_noon no_counts store processed.1).
  - split; intros i o Ho; unfold store in Ho; simpl in Ho; [|by rewrite lookup_empty in Ho].
    apply lookup_singleton_Some in Ho as [_ <-]. intros Hm. discriminate Hm.
  - unfold processed. destruct (process_forward_outcome _ _ _ _ _). reflexivity.
Defined.

Lemma no_early_maturation_witness :
  exists completed, latest_completed_session new_york wednesday_noon (Some (Aware wednesday_noon)) =
    Ok completed /\ tuesday <= completed.
Proof.
  destruct (process_forward_outcome new_york 1 wednesday_noon no_counts store) as [[t|e] db'] eqn:E;
    [|vm_compute in E; discriminate].
  destruct (no_early_maturation new_york 1 wednesday_noon no_counts store t db' outcome)
    as (due & completed & Hd & Hc & Hle); [reflexivity|exact E| |].
  - vm_compute in E. injection E as <- _. discriminate.
  - injection Hd as <-. exists completed. auto.
Defined.

(** The matured row, and its recheck while the bars are missing. *)
Definition matured_row : WinnerForwardOutcome :=
  match forwards processed.2 !! 1 with Some o => o | None => outcome end.

Lemma recheck_strands_matured_row_witness :
  Fwd.status matured_row = OUTCOME_MATURED /\
  exists db1 o1,
    _calculate_forward prediction 1 wednesday_noon (mkOutcomeBatchContext [] [] []) processed.2 =
      (Ok None, db1) /\
    forwards db1 !! 1 = Some o1 /\ Fwd.status o1 = OUTCOME_PENDING.
Proof.
  split; [vm_compute; reflexivity|].
  destruct (recheck_strands_matured_row prediction 1 wednesday_noon (mkOutcomeBatchContext [] [] [])
              processed.2 matured_row
              (match Fwd.source_bar_lineage_hash matured_row with Some h => h | None => "" end)
              wednesday_noon monday tuesday) as (db1 & o1 & A & B & C & _);
    [vm_compute; reflexivity..|].
  exists db1, o1. auto.
Defined.

Lemma daily_bar_lag_correct_witness :
  exists report, global_daily_bar_lag (Some monday) (mk_date 2026 8 5) = Ok report /\
    lag_sessions report = sessions_in CALENDAR_VERSION monday (mk_date 2026 8 5).
Proof.
  destruct (daily_bar_lag_correct (Some monday) (mk_date 2026 8 5)) as (report & A & B & _);
    [reflexivity|].
  exists report. split; [exact A|]. apply B. reflexivity.
Defined.

Lemma evaluation_ignores_order_witness :
  evaluate stored_bars (of_int 100) (of_int 5) (of_int 2) "" =
  evaluate (rev stored_bars) (of_int 100) (of_int 5) (of_int 2) "".
Proof.
  apply evaluation_ignores_order.
  - apply (bool_decide_unpack _). vm_compute. exact I.
  - apply Permutation_rev.
Defined.
