(* ===== verification/WorkScope.v ===== *)
(** * Semantic work identities: [app/services/work_scope_identity.py]

    The scope of a unit of work (its frozen membership), the refresh cycle it belongs
    to and the acquisition plan it follows are immutable values, identified by the
    fingerprint of their canonical form, and persisted once.  A constructor
    ([__post_init__]) normalizes and validates its arguments: here the constructor is
    a function from the raw arguments, given as the same record, to a result.

    Unicode normalization is the operation of the class [UnicodeText]; the texts are
    ASCII otherwise (case, white space and length are those of the prelude of Python
    values).  The [created_at] columns of the records, which the module never reads,
    are left out.  The second part has the theorems. *)
From Stdlib Require Import ZArith Lia List String Ascii Bool.
From stdpp Require Import base gmap list sorting strings.
From S2P Require Import Prelude PyDate PyFloat PyValue Readiness Canonical.
Local Open Scope string_scope.
Local Open Scope list_scope.
Local Open Scope Z_scope.
Local Open Scope st_scope.

Class UnicodeText := { nfkc : string -> string }.

Definition WORK_SCOPE_SCHEMA_VERSION : string := "work-scope-v1".
Definition MEMBERSHIP_SCHEMA_VERSION : string := "work-scope-membership-v1".
Definition REFRESH_CYCLE_SCHEMA_VERSION : string := "refresh-cycle-v1".
Definition ACQUISITION_PLAN_SCHEMA_VERSION : string := "acquisition-plan-v1".

Inductive ScopeMembershipPolicy := FROZEN | DECLARED_DYNAMIC.
Inductive ContinuationDecision :=
  COMPLETE | ENQUEUE_REMAINDER | STOP_ZERO_PROGRESS | SCHEDULE_DYNAMIC_REEVALUATION.
Inductive ParentCompletionStatus := PARENT_IN_PROGRESS | PARENT_COMPLETE | PARENT_FAILED | PARENT_CANCELLED.
Inductive ChildWorkStatus := CHILD_PLANNED | CHILD_CREATED | CHILD_COMPLETED | CHILD_FAILED | CHILD_CANCELLED.
Inductive AcquisitionPlanRevisionReason :=
  PROVIDER_LIMITATION | MISSING_SOURCE | NEWLY_DISCOVERED_SOURCE | EXPLICIT_OPERATOR_REPLAN | POLICY_CHANGE.

#[export] Instance child_status_eq_dec : EqDecision ChildWorkStatus.
Proof. solve_decision. Defined.

Definition policy_value (p : ScopeMembershipPolicy) : string :=
  match p with FROZEN => "FROZEN" | DECLARED_DYNAMIC => "DECLARED_DYNAMIC" end.
Definition child_value (s : ChildWorkStatus) : string :=
  match s with
  | CHILD_PLANNED => "PLANNED" | CHILD_CREATED => "CREATED" | CHILD_COMPLETED => "COMPLETED"
  | CHILD_FAILED => "FAILED" | CHILD_CANCELLED => "CANCELLED"
  end.
Definition reason_value (r : AcquisitionPlanRevisionReason) : string :=
  match r with
  | PROVIDER_LIMITATION => "PROVIDER_LIMITATION" | MISSING_SOURCE => "MISSING_SOURCE"
  | NEWLY_DISCOVERED_SOURCE => "NEWLY_DISCOVERED_SOURCE"
  | EXPLICIT_OPERATOR_REPLAN => "EXPLICIT_OPERATOR_REPLAN" | POLICY_CHANGE => "POLICY_CHANGE"
  end.

(** A [date | datetime]; a datetime is naive or an instant. *)
Inductive moment := Day (d : date) | Instant (utc : option datetime).
Definition moment_evidence (m : moment) : evidence :=
  match m with Day d => EDate d | Instant t => EDatetime t end.
Definition naive (m : moment) : bool := match m with Instant None => true | _ => false end.
Definition opt_evidence {A} (f : A -> evidence) (o : option A) : evidence :=
  match o with Some a => f a | None => ENone end.

Section WorkScope.
Context `{Text : JsonText} `{Unicode : UnicodeText}.

(** ** Identifiers *)

Fixpoint has_control (s : string) : bool :=
  match s with
  | EmptyString => false
  | String c s => (byte c <? 32) || has_control s
  end.

Definition _identifier (value field : string) (maximum : Z) : result string :=
  let normalized := strip (nfkc value) in
  if String.eqb normalized "" || (maximum <? slen normalized) || has_control normalized
  then ValueError (field ++ " is not a valid identifier")%string
  else mret normalized.

Definition hex_digit (c : ascii) : bool :=
  ((48 <=? byte c) && (byte c <=? 57)) || ((97 <=? byte c) && (byte c <=? 102)).
Fixpoint all_hex (s : string) : bool :=
  match s with EmptyString => true | String c s => hex_digit c && all_hex s end.
Definition is_digest (s : string) : bool := (slen s =? 64) && all_hex s.

Definition _digest (value : option string) (field : string) : result (option string) :=
  match value with
  | None => mret None
  | Some s => if is_digest s then mret (Some s)
              else ValueError (field ++ " must be a lowercase SHA-256 digest")%string
  end.

(** ** Members *)

Record ScopeMember := mkMember { subject_type : string; subject_id : string }.
#[export] Instance member_eq_dec : EqDecision ScopeMember.
Proof. solve_decision. Defined.

Inductive raw_id := IdText (s : string) | IdInt (n : Z) | IdOther.

Definition scope_member (raw_type : string) (id : raw_id) : result ScopeMember :=
  t ← _identifier raw_type "subject_type" 64;
  let t := upper t in
  i ← match id with
      | IdInt n => mret (str_of_Z n)
      | IdText s => _identifier s "subject_id" 512
      | IdOther => raise "TypeError" "subject_id must be text or an integer"
      end;
  mret (mkMember t (if smem t ["TICKER"; "SYMBOL"] then upper i else i)).

Definition member_key (m : ScopeMember) : string := (subject_type m ++ ":" ++ subject_id m)%string.
Definition member_evidence (m : ScopeMember) : evidence :=
  EMapping true [("subject_type", EStr (subject_type m)); ("subject_id", EStr (subject_id m))].

(** The order of the dataclass. *)
Definition member_leb (a b : ScopeMember) : bool :=
  if String.eqb (subject_type a) (subject_type b) then String.leb (subject_id a) (subject_id b)
  else String.leb (subject_type a) (subject_type b).

(** [len(keys) != len(set(keys))]. *)
Definition has_duplicates (keys : list string) : bool :=
  negb (length keys =? length (unique keys))%nat.

Definition canonical_members (members : list ScopeMember) : result (list ScopeMember) :=
  let ordered := sort_by member_leb members in
  if has_duplicates (map member_key ordered)
  then ValueError "scope membership contains a duplicate normalized subject"
  else mret ordered.

Definition membership_fingerprint (members : list ScopeMember) : result string :=
  ordered ← canonical_members members;
  Canonical.fingerprint (EMapping true
    [("schema_version", EStr MEMBERSHIP_SCHEMA_VERSION);
     ("members", EList (map member_evidence ordered))]).

Record DynamicMembershipPolicy := mkDynamic {
  policy_id : string;
  policy_version : string;
  evaluation_rule : string;
}.

Definition dynamic_policy_new (p : DynamicMembershipPolicy) : result DynamicMembershipPolicy :=
  a ← _identifier (policy_id p) "policy_id" 512;
  b ← _identifier (policy_version p) "policy_version" 512;
  c ← _identifier (evaluation_rule p) "evaluation_rule" 512;
  mret (mkDynamic a b c).
Definition dynamic_evidence (p : DynamicMembershipPolicy) : evidence :=
  EMapping true [("policy_id", EStr (policy_id p)); ("policy_version", EStr (policy_version p));
                 ("evaluation_rule", EStr (evaluation_rule p))].

(** [_digest(getattr(self, field), field)] over several fields. *)
Fixpoint check_digests (fields : list (string * option string)) : result unit :=
  match fields with
  | [] => mret tt
  | (field, value) :: fields => _ ← _digest value field; check_digests fields
  end.

(** ** Work scopes *)

Inductive IdentityState := KNOWN | UNKNOWN | LEGACY_UNKNOWN | NOT_APPLICABLE.
Record WorkScopeIdentity := mkScopeIdentity {
  wi_state : IdentityState;
  wi_value : option string;
}.

Definition scope_identity_new (state : IdentityState) (value : option string) : result WorkScopeIdentity :=
  match state with
  | KNOWN => _ ← _digest value "work scope identity"; mret (mkScopeIdentity state value)
  | _ => match value with
         | None => mret (mkScopeIdentity state value)
         | Some _ => ValueError "unknown work scope identity cannot carry a value"
         end
  end.
Definition known (value : string) : result WorkScopeIdentity := scope_identity_new KNOWN (Some value).
Definition legacy_unknown : result WorkScopeIdentity := scope_identity_new LEGACY_UNKNOWN None.
Definition require_known (i : WorkScopeIdentity) : result string :=
  match wi_state i, wi_value i with
  | KNOWN, Some v => mret v
  | _, _ => ValueError "LEGACY_UNKNOWN work scope is not certified scope evidence"
  end.

(** The scope definition is evidence before the constructor and canonical after it. *)
Record WorkScopeSnapshot := mkScope {
  scope_kind : string;
  subject_kind : string;
  definition_version : string;
  scope_definition : evidence;
  selection_policy_identity : string;
  membership_policy : ScopeMembershipPolicy;
  members : list ScopeMember;
  selected_at : option datetime;
  scope_cutoff : option moment;
  scope_calculation : option string;
  scope_configuration : option string;
  parent_scope_id : option string;
  scope_plan_id : option string;
  dynamic_policy : option DynamicMembershipPolicy;
}.

Definition scope_new (s : WorkScopeSnapshot) : result WorkScopeSnapshot :=
  kind ← _identifier (scope_kind s) "scope_kind" 160;
  subject ← _identifier (subject_kind s) "subject_kind" 160;
  version ← _identifier (definition_version s) "definition_version" 160;
  policy ← _identifier (selection_policy_identity s) "selection_policy_identity" 160;
  _ ← match selected_at s with
      | None => ValueError "selected_at must be timezone-aware"
      | Some _ => mret tt
      end;
  _ ← match membership_policy s, dynamic_policy s with
      | DECLARED_DYNAMIC, None => ValueError "declared dynamic scope requires a frozen dynamic policy"
      | FROZEN, Some _ => ValueError "frozen scope cannot carry a dynamic membership policy"
      | _, _ => mret tt
      end;
  _ ← check_digests [("calculation_identity", scope_calculation s);
                     ("configuration_identity", scope_configuration s);
                     ("parent_scope_id", parent_scope_id s); ("acquisition_plan_id", scope_plan_id s)];
  ms ← canonical_members (members s);
  definition ← canonicalize None (scope_definition s);
  mret (mkScope kind subject version (embed definition) policy (membership_policy s) ms (selected_at s)
          (scope_cutoff s) (scope_calculation s) (scope_configuration s) (parent_scope_id s)
          (scope_plan_id s) (dynamic_policy s)).

Definition scope_payload (s : WorkScopeSnapshot) (fp : string) : list (string * evidence) :=
  [("schema_version", EStr WORK_SCOPE_SCHEMA_VERSION);
   ("scope_kind", EStr (scope_kind s));
   ("subject_kind", EStr (subject_kind s));
   ("definition_version", EStr (definition_version s));
   ("scope_definition", scope_definition s);
   ("selection_policy_identity", EStr (selection_policy_identity s));
   ("membership_policy", EStr (policy_value (membership_policy s)));
   ("membership_fingerprint", EStr fp);
   ("members", EList (map member_evidence (members s)));
   ("selected_at", EDatetime (selected_at s));
   ("business_cutoff", opt_evidence moment_evidence (scope_cutoff s));
   ("calculation_identity", opt_evidence EStr (scope_calculation s));
   ("configuration_identity", opt_evidence EStr (scope_configuration s));
   ("parent_scope_id", opt_evidence EStr (parent_scope_id s));
   ("acquisition_plan_id", opt_evidence EStr (scope_plan_id s));
   ("dynamic_policy", opt_evidence dynamic_evidence (dynamic_policy s))].

Definition scope_semantic_payload (s : WorkScopeSnapshot) : result (list (string * evidence)) :=
  fp ← membership_fingerprint (members s);
  mret (scope_payload s fp).

Definition scope_identity (s : WorkScopeSnapshot) : result WorkScopeIdentity :=
  payload ← scope_semantic_payload s;
  fp ← Canonical.fingerprint (EMapping true payload);
  known fp.

Definition scope_as_dict (s : WorkScopeSnapshot) : result pyval :=
  payload ← scope_semantic_payload s;
  identity ← scope_identity s;
  scope_id ← require_known identity;
  canonicalize None (EMapping true (payload ++ [("scope_id", EStr scope_id)])).

(** ** Refresh cycles *)

Record RefreshCycleIdentity := mkRefresh {
  refresh_kind : string;
  refresh_scope_id : string;
  observation_cycle_key : string;
  business_observation_cutoff : moment;
  refresh_reason : string;
  effective_configuration_identity : option string;
  provider_source_policy_identity : option string;
  refresh_calculation : option string;
  prior_refresh_id : option string;
}.

Definition refresh_new (r : RefreshCycleIdentity) : result RefreshCycleIdentity :=
  kind ← _identifier (refresh_kind r) "refresh_kind" 512;
  key ← _identifier (observation_cycle_key r) "observation_cycle_key" 512;
  reason ← _identifier (refresh_reason r) "refresh_reason" 512;
  _ ← check_digests [("scope_id", Some (refresh_scope_id r));
                     ("effective_configuration_identity", effective_configuration_identity r);
                     ("provider_source_policy_identity", provider_source_policy_identity r);
                     ("calculation_identity", refresh_calculation r);
                     ("prior_refresh_id", prior_refresh_id r)];
  if naive (business_observation_cutoff r)
  then ValueError "business_observation_cutoff datetime must be timezone-aware"
  else mret (mkRefresh kind (refresh_scope_id r) key (business_observation_cutoff r) reason
               (effective_configuration_identity r) (provider_source_policy_identity r)
               (refresh_calculation r) (prior_refresh_id r)).

Definition refresh_payload (r : RefreshCycleIdentity) : list (string * evidence) :=
  [("schema_version", EStr REFRESH_CYCLE_SCHEMA_VERSION);
   ("refresh_kind", EStr (refresh_kind r));
   ("scope_id", EStr (refresh_scope_id r));
   ("observation_cycle_key", EStr (observation_cycle_key r));
   ("business_observation_cutoff", moment_evidence (business_observation_cutoff r));
   ("refresh_reason", EStr (refresh_reason r));
   ("effective_configuration_identity", opt_evidence EStr (effective_configuration_identity r));
   ("provider_source_policy_identity", opt_evidence EStr (provider_source_policy_identity r));
   ("calculation_identity", opt_evidence EStr (refresh_calculation r));
   ("prior_refresh_id", opt_evidence EStr (prior_refresh_id r))].

Definition refresh_value (r : RefreshCycleIdentity) : result string :=
  Canonical.fingerprint (EMapping true (refresh_payload r)).

Definition refresh_as_dict (r : RefreshCycleIdentity) : result pyval :=
  v ← refresh_value r;
  canonicalize None (EMapping true (refresh_payload r ++ [("refresh_cycle_id", EStr v)])).

Definition retry (r : RefreshCycleIdentity) : RefreshCycleIdentity := r.

Definition next_refresh (r : RefreshCycleIdentity) (key : string) (cutoff : moment) (reason : string)
    (scope_id : option string) : result RefreshCycleIdentity :=
  v ← refresh_value r;
  let scope := match scope_id with
               | Some s => if String.eqb s "" then refresh_scope_id r else s
               | None => refresh_scope_id r
               end in
  candidate ← refresh_new (mkRefresh (refresh_kind r) scope key cutoff reason
                (effective_configuration_identity r) (provider_source_policy_identity r)
                (refresh_calculation r) (Some v));
  v' ← refresh_value candidate;
  if String.eqb v' v then ValueError "new refresh must receive a distinct semantic identity"
  else mret candidate.

(** ** Acquisition plans *)

Record AcquisitionRequirement := mkRequirement { observation_type : string; required : bool }.

Definition requirement_new (r : AcquisitionRequirement) : result AcquisitionRequirement :=
  t ← _identifier (observation_type r) "observation_type" 160;
  mret (mkRequirement t (required r)).
Definition requirement_evidence (r : AcquisitionRequirement) : evidence :=
  EMapping true [("observation_type", EStr (observation_type r)); ("required", EBool (required r))].
Definition requirement_leb (a b : AcquisitionRequirement) : bool :=
  if String.eqb (observation_type a) (observation_type b) then implb (required a) (required b)
  else String.leb (observation_type a) (observation_type b).

Record AcquisitionPlanSnapshot := mkPlan {
  plan_kind : string;
  plan_version : string;
  revision_key : string;
  subjects : list ScopeMember;
  provider_source_class : string;
  request_type : string;
  plan_cutoff : moment;
  window_start : option moment;
  window_end : option moment;
  plan_configuration : option string;
  policy_identity : string;
  requirements : list AcquisitionRequirement;
  previous_plan_id : option string;
  revision_reason : option AcquisitionPlanRevisionReason;
}.

Definition check_aware (name : string) (m : option moment) : result unit :=
  match m with
  | Some m => if naive m then ValueError (name ++ " datetime must be timezone-aware")%string else mret tt
  | None => mret tt
  end.

Definition check_window (first last : option moment) : result unit :=
  match first, last with
  | Some a, Some b =>
      x ← dumps (moment_evidence a);
      y ← dumps (moment_evidence b);
      if negb (String.leb x y) then ValueError "acquisition temporal window is reversed" else mret tt
  | _, _ => mret tt
  end.

Definition plan_new (p : AcquisitionPlanSnapshot) : result AcquisitionPlanSnapshot :=
  kind ← _identifier (plan_kind p) "plan_kind" 160;
  version ← _identifier (plan_version p) "plan_version" 160;
  key ← _identifier (revision_key p) "revision_key" 160;
  source ← _identifier (provider_source_class p) "provider_source_class" 160;
  request ← _identifier (request_type p) "request_type" 160;
  policy ← _identifier (policy_identity p) "policy_identity" 160;
  ms ← canonical_members (subjects p);
  let rs := sort_by requirement_leb (requirements p) in
  _ ← (if has_duplicates (map observation_type rs)
       then ValueError "acquisition requirements cannot repeat observation types" else mret tt);
  _ ← check_digests [("configuration_identity", plan_configuration p);
                     ("previous_plan_id", previous_plan_id p)];
  _ ← match previous_plan_id p, revision_reason p with
      | None, None | Some _, Some _ => mret tt
      | _, _ => ValueError "plan revision requires both predecessor and revision reason"
      end;
  _ ← check_aware "business_cutoff" (Some (plan_cutoff p));
  _ ← check_aware "window_start" (window_start p);
  _ ← check_aware "window_end" (window_end p);
  _ ← check_window (window_start p) (window_end p);
  mret (mkPlan kind version key ms source request (plan_cutoff p) (window_start p) (window_end p)
          (plan_configuration p) policy rs (previous_plan_id p) (revision_reason p)).

Definition plan_payload (p : AcquisitionPlanSnapshot) : list (string * evidence) :=
  [("schema_version", EStr ACQUISITION_PLAN_SCHEMA_VERSION);
   ("plan_kind", EStr (plan_kind p));
   ("plan_version", EStr (plan_version p));
   ("revision_key", EStr (revision_key p));
   ("subjects", EList (map member_evidence (subjects p)));
   ("provider_source_class", EStr (provider_source_class p));
   ("request_type", EStr (request_type p));
   ("business_cutoff", moment_evidence (plan_cutoff p));
   ("window_start", opt_evidence moment_evidence (window_start p));
   ("window_end", opt_evidence moment_evidence (window_end p));
   ("configuration_identity", opt_evidence EStr (plan_configuration p));
   ("policy_identity", EStr (policy_identity p));
   ("requirements", EList (map requirement_evidence (requirements p)));
   ("previous_plan_id", opt_evidence EStr (previous_plan_id p));
   ("revision_reason", opt_evidence (fun r => EStr (reason_value r)) (revision_reason p))].

(** [AcquisitionPlanIdentity(value).value]: the digest is checked. *)
Definition plan_identity (p : AcquisitionPlanSnapshot) : result string :=
  fp ← Canonical.fingerprint (EMapping true (plan_payload p));
  _ ← _digest (Some fp) "acquisition plan identity";
  mret fp.

Definition plan_as_dict (p : AcquisitionPlanSnapshot) : result pyval :=
  i ← plan_identity p;
  canonicalize None (EMapping true (plan_payload p ++ [("plan_id", EStr i)])).

(** [changes] are the further fields that [replace] sets. *)
Definition revised (p : AcquisitionPlanSnapshot) (key : string) (reason : AcquisitionPlanRevisionReason)
    (changes : AcquisitionPlanSnapshot -> AcquisitionPlanSnapshot) : result AcquisitionPlanSnapshot :=
  i ← plan_identity p;
  let p' := changes p in
  q ← plan_new (mkPlan (plan_kind p') (plan_version p') key (subjects p') (provider_source_class p')
         (request_type p') (plan_cutoff p') (window_start p') (window_end p') (plan_configuration p')
         (policy_identity p') (requirements p') (Some i) (Some reason));
  j ← plan_identity q;
  if String.eqb j i then ValueError "replanning must create a new acquisition plan identity" else mret q.

(** ** Continuations *)

Record ScopeContinuationState := mkContinuation {
  scope : WorkScopeSnapshot;
  completed_members : list ScopeMember;
}.

Definition continuation_new (s : WorkScopeSnapshot) (completed : list ScopeMember)
  : result ScopeContinuationState :=
  completed ← canonical_members completed;
  let scope_keys := map member_key (members s) in
  if existsb (fun m => negb (smem (member_key m) scope_keys)) completed
  then ValueError "completed membership must be a subset of the scope snapshot"
  else mret (mkContinuation s completed).

Definition remaining_members (c : ScopeContinuationState) : list ScopeMember :=
  let completed := map member_key (completed_members c) in
  List.filter (fun m => negb (smem (member_key m) completed)) (members (scope c)).

Definition decision (c : ScopeContinuationState) (processed_members : Z) (reason : option string)
  : result ContinuationDecision :=
  if processed_members <? 0 then ValueError "processed_members cannot be negative"
  else match remaining_members c with
       | _ :: _ => mret (if processed_members =? 0 then STOP_ZERO_PROGRESS else ENQUEUE_REMAINDER)
       | [] =>
           match membership_policy (scope c), reason with
           | DECLARED_DYNAMIC, Some r =>
               if String.eqb r "" then mret COMPLETE
               else _ ← _identifier r "dynamic_reevaluation_reason" 512;
                    mret SCHEDULE_DYNAMIC_REEVALUATION
           | _, _ => mret COMPLETE
           end
       end.

(** ** Parents and children *)

Definition child_leb (a b : string * ChildWorkStatus) : bool :=
  if String.eqb a.1 b.1 then String.leb (child_value a.2) (child_value b.2) else String.leb a.1 b.1.

Fixpoint child_targets (children : list (string * ChildWorkStatus))
  : result (list (string * ChildWorkStatus)) :=
  match children with
  | [] => mret []
  | (key, status) :: children =>
      k ← _identifier key "child target" 160;
      rest ← child_targets children;
      mret ((k, status) :: rest)
  end.

Definition accounting_new (children : list (string * ChildWorkStatus))
  : result (list (string * ChildWorkStatus)) :=
  targets ← child_targets children;
  let normalized := sort_by child_leb targets in
  if has_duplicates normalized.*1 then ValueError "child targets must be unique" else mret normalized.

Definition count_if {A} (p : A -> bool) (l : list A) : Z := Z.of_nat (length (List.filter p l)).

Record ChildCounts := mkCounts {
  planned : Z; created : Z; completed : Z; failed : Z; cancelled : Z; remaining : Z;
}.
Definition counts (children : list (string * ChildWorkStatus)) : ChildCounts :=
  mkCounts (Z.of_nat (length children))
    (count_if (fun c => bool_decide (c.2 <> CHILD_PLANNED)) children)
    (count_if (fun c => bool_decide (c.2 = CHILD_COMPLETED)) children)
    (count_if (fun c => bool_decide (c.2 = CHILD_FAILED)) children)
    (count_if (fun c => bool_decide (c.2 = CHILD_CANCELLED)) children)
    (count_if (fun c => bool_decide (c.2 ∈ [CHILD_PLANNED; CHILD_CREATED])) children).

Definition completion_status (children : list (string * ChildWorkStatus)) : ParentCompletionStatus :=
  let statuses := children.*2 in
  if bool_decide (CHILD_FAILED ∈ statuses) then PARENT_FAILED
  else if bool_decide (CHILD_CANCELLED ∈ statuses) then PARENT_CANCELLED
  else if forallb (fun s => bool_decide (s = CHILD_COMPLETED)) statuses then PARENT_COMPLETE
  else PARENT_IN_PROGRESS.

(** ** The identity store *)

Record PlanRecord := mkPlanRecord {
  pr_kind : string; pr_version : string; pr_previous : option string;
  pr_reason : option string; pr_payload : pyval;
}.
Record ScopeRecord := mkScopeRecord {
  sr_kind : string; sr_subject_kind : string; sr_policy : string; sr_fingerprint : string;
  sr_parent : option string; sr_plan : option string; sr_payload : pyval;
}.
Record MemberRow := mkMemberRow {
  mr_scope_id : string; mr_member : ScopeMember; mr_ordinal : Z; mr_fingerprint : string;
}.
Record RefreshRecord := mkRefreshRecord {
  rr_kind : string; rr_scope_id : string; rr_prior : option string; rr_key : string; rr_payload : pyval;
}.

(** The rows of a table with several unique keys are a list in order of insertion. *)
Record ScopeStore := mkStore {
  plan_records : gmap string PlanRecord;
  scope_records : gmap string ScopeRecord;
  member_rows : list MemberRow;
  refresh_records : gmap string RefreshRecord;
}.

Definition integrity_error {A} : ST ScopeStore A := st_raise "IntegrityError" "constraint violated".

(** A foreign key that may be null. *)
Definition references {V} (rows : gmap string V) (key : option string) : bool :=
  match key with Some k => bool_decide (is_Some (rows !! k)) | None => true end.

(** The [CheckConstraint]s [previous <> id] of the records. *)
Definition not_self (id : string) (parent : option string) : bool :=
  match parent with Some k => negb (String.eqb k id) | None => true end.

Definition insert_plan (id : string) (r : PlanRecord) : ST ScopeStore unit := fun st =>
  if negb (not_self id (pr_previous r)) then integrity_error st
  else if bool_decide (is_Some (plan_records st !! id)) then (Ok tt, st)
  else if negb (references (plan_records st) (pr_previous r)) then integrity_error st
  else (Ok tt, mkStore (<[id := r]> (plan_records st)) (scope_records st) (member_rows st)
                 (refresh_records st)).

Definition insert_scope (id : string) (r : ScopeRecord) : ST ScopeStore unit := fun st =>
  if negb (not_self id (sr_parent r)) then integrity_error st
  else if bool_decide (is_Some (scope_records st !! id)) then (Ok tt, st)
  else if negb (references (scope_records st) (sr_parent r)
                && references (plan_records st) (sr_plan r)) then integrity_error st
  else (Ok tt, mkStore (plan_records st) (<[id := r]> (scope_records st)) (member_rows st)
                 (refresh_records st)).

(** The primary key and [uq_work_scope_member_ordinal]. *)
Definition member_conflict (a b : MemberRow) : bool :=
  String.eqb (mr_scope_id a) (mr_scope_id b)
  && (bool_decide (mr_member a = mr_member b) || (mr_ordinal a =? mr_ordinal b)).

(** The rows are inserted one by one; [persist_scope] has the scope record. *)
Definition insert_member (rows : list MemberRow) (r : MemberRow) : list MemberRow :=
  if existsb (member_conflict r) rows then rows else rows ++ [r].
Definition insert_members (new : list MemberRow) : ST ScopeStore unit := fun st =>
  (Ok tt, mkStore (plan_records st) (scope_records st) (foldl insert_member (member_rows st) new)
            (refresh_records st)).

Definition refresh_conflict (r : RefreshRecord) (x : RefreshRecord) : bool :=
  String.eqb (rr_scope_id r) (rr_scope_id x) && String.eqb (rr_kind r) (rr_kind x)
  && String.eqb (rr_key r) (rr_key x).

Definition insert_refresh (id : string) (r : RefreshRecord) : ST ScopeStore unit := fun st =>
  if negb (not_self id (rr_prior r)) then integrity_error st
  else if bool_decide (is_Some (refresh_records st !! id))
          || existsb (refresh_conflict r) (map snd (map_to_list (refresh_records st))) then (Ok tt, st)
  else if negb (bool_decide (is_Some (scope_records st !! rr_scope_id r))
                && references (refresh_records st) (rr_prior r)) then integrity_error st
  else (Ok tt, mkStore (plan_records st) (scope_records st) (member_rows st)
                 (<[id := r]> (refresh_records st))).

Definition persist_acquisition_plan (plan : AcquisitionPlanSnapshot) : ST ScopeStore string :=
  let! payload := st_lift (plan_as_dict plan) in
  let! plan_id := st_lift (plan_identity plan) in
  do! insert_plan plan_id (mkPlanRecord (plan_kind plan) (plan_version plan) (previous_plan_id plan)
        (reason_value <$> revision_reason plan) payload) in
  let! st := st_get in
  match plan_records st !! plan_id with
  | Some retained => if py_eq (pr_payload retained) payload then st_ret plan_id
                     else st_raise "ValueError" "ACQUISITION_PLAN_IDENTITY_COLLISION"
  | None => st_raise "ValueError" "ACQUISITION_PLAN_IDENTITY_COLLISION"
  end.

(** [enumerate(scope.members)]. *)
Fixpoint numbered (i : Z) (scope_id fp : string) (ms : list ScopeMember) : list MemberRow :=
  match ms with
  | [] => []
  | m :: ms => mkMemberRow scope_id m i fp :: numbered (i + 1) scope_id fp ms
  end.

(** The rows of a scope by [ordinal], as raw columns. *)
Definition scope_rows (scope_id : string) (rows : list MemberRow) : list MemberRow :=
  sort_by (fun a b => mr_ordinal a <=? mr_ordinal b)
    (List.filter (fun r => String.eqb (mr_scope_id r) scope_id) rows).

(** [ScopeMember(row.subject_type, row.subject_id)] of every row. *)
Fixpoint read_members (rows : list MemberRow) : result (list ScopeMember) :=
  match rows with
  | [] => mret []
  | r :: rows =>
      m ← scope_member (subject_type (mr_member r)) (IdText (subject_id (mr_member r)));
      rest ← read_members rows;
      mret (m :: rest)
  end.

Definition retained_scope_members (st : ScopeStore) (scope_id : string) : result (list ScopeMember) :=
  read_members (scope_rows scope_id (member_rows st)).

(** The rows of the scope that [persist_scope] writes, when it has members. *)
Definition write_members (ms : list ScopeMember) (scope_id fp : string) : ST ScopeStore unit :=
  match ms with
  | [] => st_ret tt
  | ms => insert_members (numbered 0 scope_id fp ms)
  end.

Definition persist_scope (s : WorkScopeSnapshot) : ST ScopeStore string :=
  let! identity := st_lift (scope_identity s) in
  let! scope_id := st_lift (require_known identity) in
  let! payload := st_lift (scope_as_dict s) in
  let! fp := st_lift (membership_fingerprint (members s)) in
  do! insert_scope scope_id (mkScopeRecord (scope_kind s) (subject_kind s)
        (policy_value (membership_policy s)) fp (parent_scope_id s) (scope_plan_id s) payload) in
  do! write_members (members s) scope_id fp in
  let! st := st_get in
  let! retained_members := st_lift (retained_scope_members st scope_id) in
  let mismatch := st_raise "ValueError" "WORK_SCOPE_IDENTITY_COLLISION_OR_MEMBERSHIP_MISMATCH" in
  match scope_records st !! scope_id with
  | None => mismatch
  | Some retained =>
      if negb (py_eq (sr_payload retained) payload)
         || negb (bool_decide (retained_members = members s)) then mismatch
      else
        let! fp' := st_lift (membership_fingerprint retained_members) in
        if negb (String.eqb fp' fp) then mismatch else st_ret scope_id
  end.

Definition persist_refresh_cycle (r : RefreshCycleIdentity) : ST ScopeStore string :=
  let! payload := st_lift (refresh_as_dict r) in
  let! v := st_lift (refresh_value r) in
  do! insert_refresh v (mkRefreshRecord (refresh_kind r) (refresh_scope_id r) (prior_refresh_id r)
        (observation_cycle_key r) payload) in
  let! st := st_get in
  match refresh_records st !! v with
  | Some retained => if py_eq (rr_payload retained) payload then st_ret v
                     else st_raise "ValueError" "REFRESH_CYCLE_IDENTITY_COLLISION"
  | None => st_raise "ValueError" "REFRESH_CYCLE_IDENTITY_COLLISION"
  end.

End WorkScope.

(** * What the semantic work identities guarantee

    Admission can be replayed and only adds records; it does not depend on the order in
    which members and requirements are listed; the members that remain and those that
    are completed make up the scope; the child counts add up. *)
From Stdlib Require Import ZArith Lia List String Ascii Bool.
From stdpp Require Import base gmap list sorting strings.
From S2P Require Import Prelude PyDate PyFloat PyValue Readiness Canonical CanonicalFacts.
Local Open Scope string_scope.
Local Open Scope list_scope.
Local Open Scope Z_scope.
Local Open Scope st_scope.

(** ** Lexicographic orders *)

Section Lexicographic.
Context {A : Type} (key : A -> string) (leb2 : A -> A -> bool).
Context (total2 : forall x y, leb2 x y = false -> leb2 y x = true)
        (trans2 : forall x y z, leb2 x y = true -> leb2 y z = true -> leb2 x z = true).

Definition lex_leb (a b : A) : bool :=
  if String.eqb (key a) (key b) then leb2 a b else String.leb (key a) (key b).

Lemma lex_total a b : lex_leb a b = false -> lex_leb b a = true.
Proof.
  unfold lex_leb. rewrite (String.eqb_sym (key b)). destruct (String.eqb _ _); [apply total2|].
  apply string_leb_total.
Qed.

Lemma lex_trans a b c : lex_leb a b = true -> lex_leb b c = true -> lex_leb a c = true.
Proof.
  unfold lex_leb.
  destruct (String.eqb_spec (key a) (key b)) as [Hab|Hab], (String.eqb_spec (key b) (key c)) as [Hbc|Hbc];
    intros H1 H2.
  - rewrite Hab, Hbc, String.eqb_refl. eauto.
  - rewrite Hab. destruct (String.eqb_spec (key b) (key c)); [done|]. done.
  - rewrite <- Hbc. destruct (String.eqb_spec (key a) (key b)); [done|]. done.
  - destruct (String.eqb_spec (key a) (key c)) as [Hac|Hac]; [|by eapply string_leb_trans].
    rewrite Hac in H1. destruct Hbc. by apply String.leb_antisym.
Qed.

Lemma lex_antisym a b :
  (key a = key b -> leb2 a b = true -> leb2 b a = true -> a = b) ->
  lex_leb a b = true -> lex_leb b a = true -> a = b.
Proof.
  intros H2. unfold lex_leb. rewrite (String.eqb_sym (key b)).
  destruct (String.eqb_spec (key a) (key b)) as [E|E]; [auto|].
  intros Ha Hb. destruct E. by apply String.leb_antisym.
Qed.
End Lexicographic.

(** One sorted list per bag of members. *)
Lemma members_sort_unique l m : l ≡ₚ m -> sort_by member_leb l = sort_by member_leb m.
Proof.
  apply (sort_by_unique (lex_leb subject_type (fun a b => String.leb (subject_id a) (subject_id b)))).
  - apply lex_total. intros x y. apply string_leb_total.
  - apply lex_trans. intros x y z. apply string_leb_trans.
  - intros [t i] [t' i'] _ _. apply lex_antisym. simpl. intros ->. intros H1 H2.
    by rewrite (String.leb_antisym _ _ H1 H2).
Qed.

Lemma requirements_sort_unique l m : l ≡ₚ m -> sort_by requirement_leb l = sort_by requirement_leb m.
Proof.
  apply (sort_by_unique (lex_leb observation_type (fun a b => implb (required a) (required b)))).
  - apply lex_total. intros x y. by destruct (required x), (required y).
  - apply lex_trans. intros x y z. by destruct (required x), (required y), (required z).
  - intros [t r] [t' r'] _ _. apply lex_antisym. simpl. intros ->. by destruct r, r'.
Qed.

(** ** Duplicates *)

Lemma dedup_all l : forall seen, (forall x, In x l -> ~ In x seen) ->
  length (dedup seen l) = length l <-> List.NoDup l.
Proof.
  assert (Hle : forall l seen, (length (dedup seen l) <= length l)%nat).
  { intros l0. induction l0 as [|x l0 IH]; intros seen; simpl; [lia|].
    destruct (smem x seen); simpl; [specialize (IH seen)|specialize (IH (x :: seen))]; lia. }
  induction l as [|x l IH]; intros seen Hs; simpl; [split; [constructor|done]|].
  destruct (smem x seen) eqn:E.
  { apply smem_In in E. by destruct (Hs x (or_introl eq_refl)). }
  simpl. split.
  - intros [= Hlen]. assert (~ In x l) as Hx.
    { intros Hin. clear IH. apply List.in_split in Hin as (l1 & l2 & ->).
      enough (length (dedup (x :: seen) (l1 ++ x :: l2)) < length (l1 ++ x :: l2))%nat by lia.
      clear Hlen Hs E. assert (In x (x :: seen)) as Hin by by left. revert Hin.
      generalize (x :: seen) as sn. induction l1 as [|y l1 IHl]; intros sn Hin; simpl.
      - apply smem_In in Hin. rewrite Hin. specialize (Hle l2 sn). lia.
      - destruct (smem y sn); simpl; [specialize (IHl sn Hin)|specialize (IHl (y :: sn) (or_intror Hin))]; lia. }
    constructor; [done|]. apply (IH (x :: seen)); [|done].
    intros y Hy [<-|Hy']; [done|]. by apply (Hs y); [right|].
  - intros Hnd. inversion Hnd; subst. f_equal. apply IH; [|done].
    intros y Hy [<-|Hy']; [done|]. by apply (Hs y); [right|].
Qed.

Lemma has_duplicates_spec keys : has_duplicates keys = false <-> List.NoDup keys.
Proof.
  unfold has_duplicates, unique. rewrite negb_false_iff, Nat.eqb_eq, <- (dedup_all keys []); [|by intros ? _ []].
  split; congruence.
Qed.

Lemma canonical_members_Ok l ms :
  canonical_members l = Ok ms -> ms = sort_by member_leb l /\ List.NoDup (map member_key ms).
Proof.
  unfold canonical_members. destruct (has_duplicates _) eqn:E; [done|].
  intros H. apply Ok_inj in H as <-. split; [done|]. by apply has_duplicates_spec.
Qed.

Lemma canonical_members_order l m : l ≡ₚ m -> canonical_members l = canonical_members m.
Proof. intros Hp. unfold canonical_members. by rewrite (members_sort_unique l m Hp). Qed.

Section Facts.
Context `{Text : JsonText} `{Unicode : UnicodeText}.

Lemma scope_new_members raw s :
  scope_new raw = Ok s ->
  members s = sort_by member_leb (members raw) /\ List.NoDup (map member_key (members s)).
Proof.
  unfold scope_new. intros H. repeat (apply result_bind_Ok in H as (? & ? & H)). apply Ok_inj in H as <-.
  simpl. match goal with E : canonical_members _ = Ok _ |- _ => apply canonical_members_Ok in E as [-> ?] end.
  done.
Qed.

(** ** Continuations *)

Lemma filter_partition {A} (p : A -> bool) l :
  List.filter (fun x => negb (p x)) l ++ List.filter p l ≡ₚ l.
Proof.
  induction l as [|x l IH]; simpl; [done|]. destruct (p x); simpl; [|by rewrite IH].
  by rewrite <- Permutation_middle, IH.
Qed.

Lemma filter_keys (keys : list string) l :
  List.NoDup (map member_key l) -> List.NoDup keys ->
  (forall k, In k keys -> In k (map member_key l)) ->
  map member_key (List.filter (fun m => smem (member_key m) keys) l) ≡ₚ keys.
Proof.
  intros Hl Hk Hsub. apply NoDup_Permutation_bis.
  - clear Hsub. induction l as [|x l IH]; simpl; [constructor|]. inversion Hl; subst.
    destruct (smem _ _); simpl; [|auto]. constructor; [|auto].
    rewrite ?list_elem_of_In, in_map_iff. intros (y & Hy & Hin). apply filter_In in Hin as [Hin _].
    destruct H1. rewrite <- Hy. by apply in_map.
  - rewrite length_map. transitivity (length (map member_key (List.filter (fun m => smem (member_key m) keys) l)));
      [|by rewrite length_map].
    apply NoDup_incl_length; [done|]. intros k Hin. specialize (Hsub k Hin). apply in_map_iff in Hsub as (m & <- & Hm).
    apply in_map, filter_In. split; [done|]. by apply smem_In.
  - intros k Hin. apply in_map_iff in Hin as (m & <- & Hm).
    apply filter_In in Hm as [_ Hm]. by apply smem_In.
Qed.

Lemma continuation_new_Ok s completed c :
  continuation_new s completed = Ok c ->
  scope c = s /\ completed_members c = sort_by member_leb completed /\
  List.NoDup (map member_key (completed_members c)) /\
  (forall k, In k (map member_key (completed_members c)) -> In k (map member_key (members s))).
Proof.
  unfold continuation_new. intros H. apply result_bind_Ok in H as (ms & Hms & H).
  apply canonical_members_Ok in Hms as [-> Hnd]. destruct (existsb _ _) eqn:E; [done|].
  apply Ok_inj in H as <-. split_and!; try done. simpl. intros k Hk. apply in_map_iff in Hk as (m & <- & Hm).
  destruct (smem (member_key m) (map member_key (members s))) eqn:Ek; [by apply smem_In|].
  assert (existsb (fun m => negb (smem (member_key m) (map member_key (members s))))
            (sort_by member_leb completed) = true) as Hx; [|congruence].
  apply existsb_exists. exists m. by rewrite Ek.
Qed.

(** The members that remain and the completed ones make up the scope, by subject. *)
Lemma continuation_partition raw s completed c :
  scope_new raw = Ok s -> continuation_new s completed = Ok c ->
  map member_key (remaining_members c) ++ map member_key (completed_members c) ≡ₚ map member_key (members s).
Proof.
  intros Hs Hc. apply scope_new_members in Hs as [_ Hnd].
  apply continuation_new_Ok in Hc as (<- & _ & Hndc & Hsub). unfold remaining_members.
  etransitivity; [apply Permutation_app_head; symmetry; by apply (filter_keys _ (members (scope c)))|].
  rewrite <- map_app. apply Permutation_map, filter_partition.
Qed.

(** A run of continuations: every attempt completes at least one more member. *)
Inductive continued : ScopeContinuationState -> nat -> ScopeContinuationState -> Prop :=
  | continued_done c : continued c 0 c
  | continued_next c newly c1 n c2 :
      newly <> [] -> continuation_new (scope c) (completed_members c ++ newly) = Ok c1 ->
      continued c1 n c2 -> continued c (S n) c2.

Lemma partition_length raw s completed c :
  scope_new raw = Ok s -> continuation_new s completed = Ok c ->
  (length (remaining_members c) + length completed = length (members s))%nat.
Proof.
  intros Hs Hc. pose proof (continuation_partition _ _ _ _ Hs Hc) as Hp.
  apply Permutation_length in Hp. rewrite length_app, !length_map in Hp.
  apply continuation_new_Ok in Hc as (_ & E & _). rewrite E, sort_by_Permutation in Hp. done.
Qed.

(** C38: The continuations of a frozen scope come to an end: after [n] attempts, each of which
    completed at least one more member, what remains has shrunk by at least [n], so that no
    more than one continuation per remaining member is enqueued; remaining and completed
    members together are the members of the scope, and the decision after an attempt that
    processed something is to stop exactly when every member of the scope is completed. *)
Theorem continuations_are_bounded raw s completed c n c' processed :
  scope_new raw = Ok s -> membership_policy s = FROZEN ->
  continuation_new s completed = Ok c -> continued c n c' -> 0 < processed ->
  (n + length (remaining_members c') <= length (remaining_members c))%nat /\
  map member_key (remaining_members c') ++ map member_key (completed_members c')
    ≡ₚ map member_key (members s) /\
  decision c' processed None =
    Ok (if bool_decide (map member_key (completed_members c') ≡ₚ map member_key (members s))
        then COMPLETE else ENQUEUE_REMAINDER).
Proof.
  intros Hs Hf Hc Hat Hpos. revert completed Hc.
  induction Hat as [c|c newly c1 n c2 Hne Hc1 Hat IH]; intros completed Hc.
  - split; [lia|]. pose proof (continuation_partition _ _ _ _ Hs Hc) as Hp. split; [done|].
    pose proof (continuation_new_Ok _ _ _ Hc) as (Hsc & _).
    unfold decision. destruct (Z.ltb_spec processed 0); [lia|]. rewrite Hsc, Hf.
    destruct (remaining_members c) as [|m ms]; cbn [map app] in Hp.
    + by rewrite bool_decide_true.
    + destruct (Z.eqb_spec processed 0); [lia|]. rewrite bool_decide_false; [done|].
      intros Hp'. apply Permutation_length in Hp, Hp'. simpl in Hp. rewrite length_app in Hp. lia.
  - pose proof (continuation_new_Ok _ _ _ Hc) as (Hsc & Hcm & _). rewrite Hsc in Hc1.
    destruct (IH _ Hc1) as (Hn & Hrest). split; [|done].
    pose proof (partition_length _ _ _ _ Hs Hc) as H1. pose proof (partition_length _ _ _ _ Hs Hc1) as H2.
    rewrite length_app, Hcm, sort_by_Permutation in H2. destruct newly; [done|]. simpl in H2. lia.
Qed.

(** ** The identity store *)

(** What an [Ok] run tells about the three inserts. *)
Lemma insert_plan_Ok id r st u st' :
  insert_plan id r st = (Ok u, st') ->
  not_self id (pr_previous r) = true /\ is_Some (plan_records st' !! id) /\
  plan_records st ⊆ plan_records st' /\ scope_records st' = scope_records st /\
  member_rows st' = member_rows st /\ refresh_records st' = refresh_records st.
Proof.
  unfold insert_plan, integrity_error, st_raise, raise. destruct (not_self _ _); simpl; [|done].
  case_bool_decide as Hs; simpl; [intros; by simplify_eq|].
  destruct (references _ _); simpl; [|done]. intros; simplify_eq; simpl. rewrite lookup_insert_eq.
  split_and!; eauto. apply insert_subseteq. by apply eq_None_not_Some.
Qed.

Lemma insert_plan_again id r st :
  not_self id (pr_previous r) = true -> is_Some (plan_records st !! id) -> insert_plan id r st = (Ok tt, st).
Proof. intros H1 H2. unfold insert_plan. by rewrite H1, bool_decide_true. Qed.

Lemma insert_scope_Ok id r st u st' :
  insert_scope id r st = (Ok u, st') ->
  not_self id (sr_parent r) = true /\ is_Some (scope_records st' !! id) /\
  scope_records st ⊆ scope_records st' /\ plan_records st' = plan_records st /\
  member_rows st' = member_rows st /\ refresh_records st' = refresh_records st.
Proof.
  unfold insert_scope, integrity_error, st_raise, raise. destruct (not_self _ _); simpl; [|done].
  case_bool_decide as Hs; simpl; [intros; by simplify_eq|].
  destruct (_ && _); simpl; [|done]. intros; simplify_eq; simpl. rewrite lookup_insert_eq.
  split_and!; eauto. apply insert_subseteq. by apply eq_None_not_Some.
Qed.

Lemma insert_scope_again id r st :
  not_self id (sr_parent r) = true -> is_Some (scope_records st !! id) -> insert_scope id r st = (Ok tt, st).
Proof. intros H1 H2. unfold insert_scope. by rewrite H1, bool_decide_true. Qed.

Lemma insert_refresh_Ok id r st u st' :
  insert_refresh id r st = (Ok u, st') ->
  not_self id (rr_prior r) = true /\
  refresh_records st ⊆ refresh_records st' /\ plan_records st' = plan_records st /\
  member_rows st' = member_rows st /\ scope_records st' = scope_records st.
Proof.
  unfold insert_refresh, integrity_error, st_raise, raise. destruct (not_self _ _); simpl; [|done].
  destruct (_ || _) eqn:Hs; simpl; [intros; by simplify_eq|].
  destruct (negb _); simpl; [done|]. intros; simplify_eq; simpl.
  split_and!; eauto. apply orb_false_iff in Hs as [Hs _]. apply bool_decide_eq_false in Hs.
  apply insert_subseteq. by apply eq_None_not_Some.
Qed.

Lemma insert_refresh_again id r st :
  not_self id (rr_prior r) = true -> is_Some (refresh_records st !! id) ->
  insert_refresh id r st = (Ok tt, st).
Proof. intros H1 H2. unfold insert_refresh. by rewrite H1, bool_decide_true. Qed.

(** Inserting member rows adds rows, and inserting the same ones again none. *)
Lemma insert_members_grow new rows : rows `prefix_of` foldl insert_member rows new.
Proof.
  revert rows. induction new as [|r new IH]; intros rows; simpl; [done|].
  etrans; [|apply IH]. unfold insert_member. destruct (existsb _ _); [done|]. by apply prefix_app_r.
Qed.

Lemma member_conflict_refl r : member_conflict r r = true.
Proof. unfold member_conflict. by rewrite String.eqb_refl, bool_decide_true. Qed.

Lemma insert_members_conflict new rows :
  Forall (fun r => existsb (member_conflict r) (foldl insert_member rows new) = true) new.
Proof.
  revert rows. induction new as [|r new IH]; intros rows; simpl; [done|]. constructor; [|apply IH].
  apply existsb_exists. assert (exists x, In x (insert_member rows r) /\ member_conflict r x = true) as (x & Hx & Hc).
  { unfold insert_member. destruct (existsb _ _) eqn:E; [by apply existsb_exists|].
    exists r. split; [|apply member_conflict_refl]. apply in_or_app. right. by left. }
  exists x. split; [|done]. destruct (insert_members_grow new (insert_member rows r)) as [k ->].
  apply in_or_app. by left.
Qed.

Lemma insert_members_again new rows :
  Forall (fun r => existsb (member_conflict r) rows = true) new -> foldl insert_member rows new = rows.
Proof.
  induction 1 as [|r new Hr _ IH]; simpl; [done|]. unfold insert_member at 2. by rewrite Hr.
Qed.

(** A persisted plan is found again by every later call. *)
Lemma persist_plan_replay p st i st' :
  persist_acquisition_plan p st = (Ok i, st') ->
  plan_records st ⊆ plan_records st' /\ scope_records st' = scope_records st /\
  member_rows st' = member_rows st /\ refresh_records st' = refresh_records st /\
  forall st2, plan_records st' ⊆ plan_records st2 -> persist_acquisition_plan p st2 = (Ok i, st2).
Proof.
  unfold persist_acquisition_plan at 1. intros H.
  apply st_bind_Ok in H as (payload & s1 & Hp & H). apply st_bind_Ok in H as (id & s2 & Hi & H).
  apply st_bind_Ok in H as (u & s3 & Hins & H). unfold st_lift in Hp, Hi. simplify_eq.
  change (st_bind st_get ?f s3) with (f s3 s3) in H. cbv beta in H.
  apply insert_plan_Ok in Hins as (Hself & _ & Hsub & Hsc & Hm & Hr).
  destruct (plan_records s3 !! id) as [r|] eqn:Hl; [|done]. destruct (py_eq _ _) eqn:He; [|done].
  unfold st_ret in H. simplify_eq. split_and!; try done. intros st2 Hsub2.
  unfold persist_acquisition_plan. rewrite H0, H1. unfold st_bind at 1 2 3, st_lift.
  rewrite insert_plan_again; [|done|]; [|exists r; by eapply lookup_weaken].
  change (st_bind st_get ?f st2) with (f st2 st2). cbv beta.
  by rewrite (lookup_weaken _ _ _ _ Hl Hsub2), He.
Qed.

Lemma persist_refresh_replay r st i st' :
  persist_refresh_cycle r st = (Ok i, st') ->
  refresh_records st ⊆ refresh_records st' /\ scope_records st' = scope_records st /\
  member_rows st' = member_rows st /\ plan_records st' = plan_records st /\
  forall st2, refresh_records st' ⊆ refresh_records st2 -> persist_refresh_cycle r st2 = (Ok i, st2).
Proof.
  unfold persist_refresh_cycle at 1. intros H.
  apply st_bind_Ok in H as (payload & s1 & Hp & H). apply st_bind_Ok in H as (id & s2 & Hi & H).
  apply st_bind_Ok in H as (u & s3 & Hins & H). unfold st_lift in Hp, Hi.
  injection Hp as Hp <-. injection Hi as Hi <-.
  change (st_bind st_get ?f s3) with (f s3 s3) in H. cbv beta in H.
  apply insert_refresh_Ok in Hins as (Hself & Hsub & Hpl & Hm & Hsc).
  destruct (refresh_records s3 !! id) as [x|] eqn:Hl; [|done]. destruct (py_eq _ _) eqn:He; [|done].
  unfold st_ret in H. simplify_eq. split_and!; try done. intros st2 Hsub2.
  unfold persist_refresh_cycle. rewrite Hp, Hi. unfold st_bind at 1 2 3, st_lift.
  rewrite insert_refresh_again; [|done|]; [|exists x; by eapply lookup_weaken].
  change (st_bind st_get ?f st2) with (f st2 st2). cbv beta.
  by rewrite (lookup_weaken _ _ _ _ Hl Hsub2), He.
Qed.

Lemma write_members_Ok ms id fp st :
  exists st', write_members ms id fp st = (Ok tt, st') /\
    plan_records st' = plan_records st /\ scope_records st' = scope_records st /\
    refresh_records st' = refresh_records st /\ member_rows st `prefix_of` member_rows st' /\
    forall st2, member_rows st2 = member_rows st' -> write_members ms id fp st2 = (Ok tt, st2).
Proof.
  destruct ms as [|m ms]; cbn [write_members]; [by exists st|].
  unfold insert_members. eexists. split; [done|]. simpl. split_and!; try done.
  - apply (insert_members_grow (numbered 0 id fp (m :: ms))).
  - intros st2 Hrows.
    change (insert_member (member_rows st2) _) with
      (foldl insert_member (member_rows st2) [mkMemberRow id m 0 fp]).
    rewrite <- foldl_app. change (_ ++ _) with (numbered 0 id fp (m :: ms)).
    rewrite insert_members_again; [by destruct st2|]. rewrite Hrows.
    apply (insert_members_conflict (numbered 0 id fp (m :: ms))).
Qed.

Lemma persist_scope_replay s st i st' :
  persist_scope s st = (Ok i, st') ->
  scope_records st ⊆ scope_records st' /\ member_rows st `prefix_of` member_rows st' /\
  refresh_records st' = refresh_records st /\ plan_records st' = plan_records st /\
  retained_scope_members st' i = Ok (members s) /\
  forall st2, scope_records st' ⊆ scope_records st2 -> member_rows st2 = member_rows st' ->
    persist_scope s st2 = (Ok i, st2).
Proof.
  unfold persist_scope at 1. intros H.
  apply st_bind_Ok in H as (identity & s1 & Hid & H). apply st_bind_Ok in H as (id & s2 & Hk & H).
  apply st_bind_Ok in H as (payload & s3 & Hp & H). apply st_bind_Ok in H as (fp & s4 & Hfp & H).
  apply st_bind_Ok in H as (u & s5 & Hins & H). unfold st_lift in Hid, Hk, Hp, Hfp.
  injection Hid as Hid <-. injection Hk as Hk <-. injection Hp as Hp <-. injection Hfp as Hfp <-.
  apply insert_scope_Ok in Hins as (Hself & Hex & Hsub & Hpl & Hm & Hr).
  destruct (write_members_Ok (members s) id fp s5) as (s6 & Hw & Hpl6 & Hsc6 & Hr6 & Hm6 & Hagain).
  unfold st_bind at 1 in H. rewrite Hw in H.
  change (st_bind st_get ?f s6) with (f s6 s6) in H. cbv beta in H.
  apply st_bind_Ok in H as (ms & s7 & Hms & H). unfold st_lift in Hms. injection Hms as Hms <-.
  destruct (scope_records s6 !! id) as [x|] eqn:Hl; [|done].
  destruct (negb _ || negb _) eqn:Hc; [done|].
  apply st_bind_Ok in H as (fp' & s8 & Hfp' & H). unfold st_lift in Hfp'. injection Hfp' as Hfp' <-.
  destruct (negb (String.eqb fp' fp)) eqn:Hf; [done|]. unfold st_ret in H. simplify_eq.
  assert (ms = members s) as ->.
  { apply orb_false_iff in Hc as [_ Hc]. apply negb_false_iff, bool_decide_eq_true in Hc. done. }
  rewrite Hpl6, Hr6, Hsc6. split_and!; try done; [by rewrite <- Hm|].
  intros st2 Hsub2 Hrows.
  unfold persist_scope. rewrite Hid, Hp, Hfp. unfold st_bind at 1, st_lift at 1.
  rewrite Hk. unfold st_bind at 1 2 3 4, st_lift at 1 2 3.
  rewrite insert_scope_again; [|done|]; [|exists x; by eapply lookup_weaken; [exact Hl|rewrite Hsc6]].
  unfold st_bind at 1. rewrite (Hagain st2 Hrows).
  change (st_bind st_get ?f st2) with (f st2 st2). cbv beta.
  unfold retained_scope_members in Hms |- *. rewrite Hrows, Hms. unfold st_bind at 1, st_lift at 1.
  rewrite <- Hsc6 in Hsub2. rewrite (lookup_weaken _ _ _ _ Hl Hsub2), Hc, Hfp'.
  unfold st_bind, st_lift. by rewrite Hf.
Qed.

(** ** Order of the arguments *)

Lemma plan_new_order k v key ms ms' src req cut a b conf pol rs rs' prev reason :
  ms ≡ₚ ms' -> rs ≡ₚ rs' ->
  plan_new (mkPlan k v key ms src req cut a b conf pol rs prev reason) =
  plan_new (mkPlan k v key ms' src req cut a b conf pol rs' prev reason).
Proof.
  intros Hm Hr. unfold plan_new. cbn [subjects requirements].
  by rewrite (canonical_members_order _ _ Hm), (requirements_sort_unique _ _ Hr).
Qed.

Lemma scope_new_order k sk v def pol mp ms ms' sel cut calc conf par plan dyn :
  ms ≡ₚ ms' ->
  scope_new (mkScope k sk v def pol mp ms sel cut calc conf par plan dyn) =
  scope_new (mkScope k sk v def pol mp ms' sel cut calc conf par plan dyn).
Proof. intros Hm. unfold scope_new. cbn [members]. by rewrite (canonical_members_order _ _ Hm). Qed.

End Facts.

(** ** Counting *)

Lemma count_if_cons {A} (p : A -> bool) x l : count_if p (x :: l) = (if p x then 1 else 0) + count_if p l.
Proof. unfold count_if. simpl. destruct (p x); simpl; lia. Qed.

Lemma count_if_nonneg {A} (p : A -> bool) l : 0 <= count_if p l.
Proof. unfold count_if. lia. Qed.

Lemma count_if_zero {A} (p : A -> bool) l : count_if p l = 0 <-> forall x, In x l -> p x = false.
Proof.
  induction l as [|x l IH]; [done|]. rewrite count_if_cons. pose proof (count_if_nonneg p l).
  destruct (p x) eqn:E.
  - split; [lia|]. intros H0. specialize (H0 x (or_introl eq_refl)). congruence.
  - rewrite Z.add_0_l, IH. simpl. naive_solver.
Qed.

Lemma count_if_le {A} (p : A -> bool) l : count_if p l <= Z.of_nat (length l).
Proof. induction l as [|x l IH]; [done|]. rewrite count_if_cons. simpl length. destruct (p x); lia. Qed.

Lemma count_if_member {A} `{EqDecision B} (f : A -> B) b l :
  bool_decide (b ∈ f <$> l) = (0 <? count_if (fun x => bool_decide (f x = b)) l).
Proof.
  induction l as [|x l IH]; [done|]. rewrite count_if_cons. pose proof (count_if_nonneg (fun x => bool_decide (f x = b)) l).
  destruct (decide (f x = b)) as [E|E].
  - rewrite !bool_decide_true; [symmetry; apply Z.ltb_lt; lia|done|]. rewrite fmap_cons, E. apply elem_of_cons. by left.
  - rewrite (bool_decide_false (f x = b)) by done. rewrite Z.add_0_l, <- IH. apply bool_decide_ext.
    rewrite fmap_cons, elem_of_cons. naive_solver.
Qed.

Lemma count_if_all {A} (p : A -> bool) l : forallb p l = (count_if p l =? Z.of_nat (length l)).
Proof.
  induction l as [|x l IH]; [done|]. rewrite count_if_cons. simpl. rewrite IH. pose proof (count_if_le p l).
  destruct (p x); simpl; [apply Bool.eq_iff_eq_true; rewrite !Z.eqb_eq; lia|].
  symmetry. apply Z.eqb_neq. lia.
Qed.

(** The counts of a parent add up, and its status follows from them: it has failed when a
    child failed, was cancelled when none failed and one was cancelled, and is complete when
    all of its children are. *)
Theorem accounting_adds_up children :
  let c := counts children in
  planned c = completed c + failed c + cancelled c + remaining c /\
  created c <= planned c /\
  completion_status children =
    if 0 <? failed c then PARENT_FAILED
    else if 0 <? cancelled c then PARENT_CANCELLED
    else if completed c =? planned c then PARENT_COMPLETE else PARENT_IN_PROGRESS.
Proof.
  cbv zeta. unfold counts, completion_status. cbn [planned created completed failed cancelled remaining].
  split_and!.
  - induction children as [|[k s] l IH]; [done|]. rewrite !count_if_cons. cbn [length snd].
    rewrite Nat2Z.inj_succ, IH. destruct s; simpl; lia.
  - apply count_if_le.
  - rewrite !count_if_member. assert (forallb (fun s => bool_decide (s = CHILD_COMPLETED)) children.*2 =
      forallb (fun c => bool_decide (c.2 = CHILD_COMPLETED)) children) as ->.
    { induction children as [|x l IH]; [done|]. rewrite fmap_cons. simpl. by rewrite IH. }
    by rewrite count_if_all.
Qed.

(** Two different subjects with the same key are refused as a duplicate: the key joins the
    type and the id with a colon that either may contain. *)
Example member_keys_collide :
  mkMember "INDEX:US" "SPX" <> mkMember "INDEX" "US:SPX" /\
  canonical_members [mkMember "INDEX:US" "SPX"; mkMember "INDEX" "US:SPX"]
    = ValueError "scope membership contains a duplicate normalized subject".
Proof. split; [discriminate|]. vm_compute. reflexivity. Qed.
