(* ===== verification/Signals.v ===== *)
(** * Setup lifecycle: signals and family evidence

    [app/services/setup_lifecycle/enums.py], [dtos.py] and the signal helpers of
    [family_adapters.py].  Signals are dynamic values; numbers are IEEE doubles.

    The class [PyText] holds what the lifecycle takes from the interpreter: the
    text of the values that are neither strings nor integers, and the iteration
    order of a set of strings, which Python does not fix. *)
From Stdlib Require Import ZArith Lia List String Ascii Bool.
From stdpp Require Import base list strings.
From S2P Require Import Prelude PyDate PyFloat PyValue.
Local Open Scope string_scope.
Local Open Scope list_scope.
Local Open Scope Z_scope.

Inductive LifecycleState :=
  | DISCOVERED | DEVELOPING | TIGHTENING | READY | TRIGGERED | CONFIRMED | EXTENDED | FAILED | EXPIRED.
Inductive SetupFamily := BREAKOUT | PULLBACK | VCP | CONTINUATION | GENERIC.
Inductive Actionability := ACTIONABLE | WATCH_ONLY | BLOCKED | LOW_CONFIDENCE.
Inductive ConfidenceLabel := CONF_HIGH | CONF_NORMAL | CONF_LOW | CONF_INSUFFICIENT.
Inductive DataQualityLabel := DQ_HIGH | DQ_NORMAL | DQ_LOW | DQ_INSUFFICIENT.

#[export] Instance LifecycleState_eq_dec : EqDecision LifecycleState.
Proof. solve_decision. Defined.
#[export] Instance SetupFamily_eq_dec : EqDecision SetupFamily.
Proof. solve_decision. Defined.
#[export] Instance Actionability_eq_dec : EqDecision Actionability.
Proof. solve_decision. Defined.
#[export] Instance DataQualityLabel_eq_dec : EqDecision DataQualityLabel.
Proof. solve_decision. Defined.

Definition state_value (s : LifecycleState) : string :=
  match s with
  | DISCOVERED => "DISCOVERED" | DEVELOPING => "DEVELOPING" | TIGHTENING => "TIGHTENING"
  | READY => "READY" | TRIGGERED => "TRIGGERED" | CONFIRMED => "CONFIRMED"
  | EXTENDED => "EXTENDED" | FAILED => "FAILED" | EXPIRED => "EXPIRED"
  end.

(** The columns of [SignalValue] that the lifecycle reads. *)
Record SignalValue := mkSignal { raw_value : pyval; normalized_value : pyval }.

Record NormalizedSnapshot := mkSnapshot {
  ticker : string;
  timeframe : string;
  data_as_of_date : date;
  signals : list (string * SignalValue);
  data_quality_label : DataQualityLabel;
  required_feature_coverage : option float;
  freshness_status : option string;
  warning_flags : list string;
  source_ids : list (string * option Z);
  source_lineage : dict;
  engine_version : option string;
  config_version : option string;
  schema_version : option string;
  config_hash : option string;
  source_data_hash : option string;
}.

Record FamilyEvidence := mkEvidence {
  setup_family : SetupFamily;
  phase_code : string;
  evidence_score : float;
  confidence_score : Z;
  trackable : bool;
  ready : bool;
  triggered : bool;
  confirmed : bool;
  extended : bool;
  hard_failure : bool;
  reason_codes : list string;
  evidence : dict;
  agreement_components : list (string * float);
}.

(** ** Configuration

    The fields of [config.py] that the lifecycle reads; the sections [families],
    [episodes], [confidence] and [actionability] are flattened into one record. *)

Record FamilyPolicyConfig := mkPolicy {
  enabled : bool;
  tracking_score_min : float;
  ready_score_min : float;
  max_age_sessions : Z;
  parameters : dict;
}.

Record SetupLifecycleConfig := mkConfig {
  policies : SetupFamily -> FamilyPolicyConfig;
  precedence : list SetupFamily;
  history_window_sessions : Z;
  observation_gap_sessions : Z;
  high_min : Z;
  normal_min : Z;
  low_min : Z;
  weights : list (string * float);
  agreement_weights : list (string * float);
  freshness_and_lineage_weights : list (string * float);
  minimum_actionable_confidence : Z;
}.

(** ** Numbers *)

Fixpoint scan_digits (acc count : Z) (s : string) : Z * Z * string :=
  match s with
  | String c s' => match digit_value c with
                   | Some d => scan_digits (10 * acc + d) (count + 1) s'
                   | None => (acc, count, s)
                   end
  | EmptyString => (acc, count, s)
  end.

(** The float nearest to [c * 10 ^ e]. *)
Definition float_of_decimal (c e : Z) : float :=
  if 0 <=? e then float_of_Z (c * 10 ^ e) else float_ratio c (Z.to_pos (10 ^ (- e))).

(** [float(s)]: sign, digits with an optional point, exponent; [inf] and [nan]. *)
Definition parse_exponent (s : string) : option Z :=
  match s with
  | EmptyString => Some 0
  | String c s =>
      if Ascii.eqb c "e" || Ascii.eqb c "E" then
        let '(sign, s) := match s with
                          | String "-" s => (-1, s)
                          | String "+" s => (1, s)
                          | s => (1, s)
                          end in
        let '(n, k, rest) := scan_digits 0 0 s in
        if (0 <? k) && String.eqb rest "" then Some (sign * n) else None
      else None
  end.
Definition parse_unsigned_float (s : string) : option float :=
  let word := casefold s in
  if smem word ["inf"; "infinity"] then Some (SpecFloat.S754_infinity false)
  else if String.eqb word "nan" then Some SpecFloat.S754_nan
  else
    let '(whole, k1, rest) := scan_digits 0 0 s in
    let '(c, k2, rest) := match rest with
                          | String "." rest => scan_digits whole 0 rest
                          | _ => (whole, 0, rest)
                          end in
    if 0 <? k1 + k2 then (fun e => float_of_decimal c (e - k2)) <$> parse_exponent rest else None.
Definition parse_float (s : string) : option float :=
  match strip s with
  | String "-" s => fopp <$> parse_unsigned_float s
  | String "+" s => parse_unsigned_float s
  | s => parse_unsigned_float s
  end.

(** [float(v)]; [None] stands for the [TypeError] or [ValueError].  An integer beyond
    the range of floats, on which Python raises [OverflowError], gives an infinity. *)
Definition py_float (v : pyval) : option float :=
  match v with
  | VBool b => Some (if b then f1 else f0)
  | VInt n => Some (float_of_Z n)
  | VFloat x => Some x
  | VDecimal c e => Some (float_of_decimal c e)
  | VStr s => parse_float s
  | VNone | VList _ | VDict _ => None
  end.

(** [_number]. *)
Definition _number (value : pyval) : option float :=
  match value with VNone => None | v => py_float v end.

Example parse_floats :
  map parse_float [" -2.50 "; "1e3"; ".5"; "abc"; "1."]
  = [Some (float_ratio (-5) 2); Some (float_of_Z 1000); Some f_half; None; Some f1].
Proof. vm_compute. reflexivity. Qed.

(** ** Signals *)

Class PyText := {
  str_other : pyval -> string;
  set_order : list string -> list string;
}.

Section Signals.
Context `{Text : PyText}.

Definition signal_value (snapshot : NormalizedSnapshot) (key : string) (default : pyval) : pyval :=
  match dict_find key (signals snapshot) with
  | Some signal => match normalized_value signal with VNone => raw_value signal | v => v end
  | None => default
  end.

Definition signal_bool (snapshot : NormalizedSnapshot) (key : string) : bool :=
  match signal_value snapshot key VNone with
  | VBool b => b
  | VStr s => smem (casefold (strip s)) ["true"; "1"; "yes"]
  | v => truthy v
  end.

Definition signal_optional_number (snapshot : NormalizedSnapshot) (key : string) : option float :=
  _number (signal_value snapshot key VNone).

Definition signal_number (snapshot : NormalizedSnapshot) (key : string) (default : float) : float :=
  match signal_optional_number snapshot key with Some x => x | None => default end.

(** [str(v)]. *)
Definition py_str (v : pyval) : string :=
  match v with
  | VStr s => s
  | VInt n => str_of_Z n
  | VBool b => if b then "True" else "False"
  | VNone => "None"
  | v => str_other v
  end.

Definition signal_text (snapshot : NormalizedSnapshot) (key : string) : string :=
  strip (py_str (py_or (signal_value snapshot key VNone) (VStr ""))).

Fixpoint split_on_comma (s : string) : list string :=
  match s with
  | EmptyString => [""]
  | String c s =>
      if Ascii.eqb c "," then "" :: split_on_comma s
      else match split_on_comma s with
           | [] => [String c ""]
           | w :: ws => String c w :: ws
           end
  end.

(** The elements of the set, each once. *)
Definition flag_set (items : list string) : list string :=
  unique (map (fun s => casefold (strip s))
    (List.filter (fun s => negb (String.eqb (strip s) "")) items)).

Definition feature_flags (snapshot : NormalizedSnapshot) : list string :=
  match signal_value snapshot "feature_flags" (VList []) with
  | VStr s => flag_set (split_on_comma s)
  | VList l => flag_set (map py_str l)
  | VDict d => flag_set (map fst d)
  | _ => []
  end.

(** [" ".join(feature_flags(snapshot))] takes the set in its iteration order. *)
Definition haystack (snapshot : NormalizedSnapshot) : string :=
  casefold (String.concat " "
    [signal_text snapshot "classification"; signal_text snapshot "stage";
     String.concat " " (set_order (feature_flags snapshot))]).

Definition classification_contains (snapshot : NormalizedSnapshot) (tokens : list string) : bool :=
  existsb (fun token => contains (haystack snapshot) (casefold token)) tokens.

(** [for item in reversed((..., snapshot)): if not p(item): break; count += 1]. *)
Fixpoint count_while {A} (p : A -> bool) (l : list A) : Z :=
  match l with
  | [] => 0
  | x :: l => if p x then 1 + count_while p l else 0
  end.

Definition consecutive_family_condition_sessions (snapshot : NormalizedSnapshot)
    (history : list NormalizedSnapshot) (predicate : NormalizedSnapshot -> bool) : Z :=
  count_while predicate (List.rev (history ++ [snapshot])).

Definition consecutive_true_sessions (snapshot : NormalizedSnapshot)
    (history : list NormalizedSnapshot) (key : string) : Z :=
  count_while (fun item => signal_bool item key) (List.rev (history ++ [snapshot])).

Fixpoint pairs {A} (l : list A) : list (A * A) :=
  match l with
  | x :: ((y :: _) as l') => (x, y) :: pairs l'
  | _ => []
  end.

Fixpoint keep_some {A} (l : list (option A)) : list A :=
  match l with
  | [] => []
  | Some x :: l => x :: keep_some l
  | None :: l => keep_some l
  end.

(** With the default of two observations. *)
Definition numeric_history_is_improving (snapshot : NormalizedSnapshot)
    (history : list NormalizedSnapshot) (key : string) (lower_is_better : bool) : bool :=
  let values := keep_some (map (fun item => signal_optional_number item key) (history ++ [snapshot])) in
  if (length values <? 2)%nat then false
  else
    let recent := drop (length values - 2) values in
    if lower_is_better then
      forallb (fun '(previous, current) => fle current previous) (pairs recent)
      && existsb (fun '(previous, current) => flt current previous) (pairs recent)
    else
      forallb (fun '(previous, current) => fge current previous) (pairs recent)
      && existsb (fun '(previous, current) => fgt current previous) (pairs recent).

(** The two thresholds shared by the agreement scores. *)
Definition agreement_of_score (score : float) : float :=
  if fge score (float_ratio 11 2) then f1 else if fge score (float_of_Z 4) then f_half else f0.

Definition trend_agreement (snapshot : NormalizedSnapshot) : float :=
  let score := match signal_optional_number snapshot "trend_score" with
               | Some s => Some s
               | None => signal_optional_number snapshot "technical_score"
               end in
  match score with None => f_half | Some s => agreement_of_score s end.

Definition relative_strength_agreement (snapshot : NormalizedSnapshot) : float :=
  let values := keep_some (map (signal_optional_number snapshot) ["relative_strength"; "leadership_score"]) in
  match values with
  | [] => f_half
  | v :: vs => agreement_of_score (fold_left fmax vs v)
  end.

Definition classification_agreement (snapshot : NormalizedSnapshot) (family_tokens : list string)
  : float :=
  if String.eqb (signal_text snapshot "classification") "" && String.eqb (signal_text snapshot "stage") ""
     && bool_decide (feature_flags snapshot = [])
  then f_half
  else if classification_contains snapshot family_tokens then f1 else f0.

Definition derived_atr_from_trigger (snapshot : NormalizedSnapshot) : option float :=
  close ← signal_optional_number snapshot "close_price";
  trigger ← signal_optional_number snapshot "trigger_price";
  atr ← signal_optional_number snapshot "atr_value";
  if fle atr f0 then None else Some (fdiv (fsub close trigger) atr).

(** [float(policy_parameter(...))] and [int(policy_parameter(...))]. *)
Definition policy_parameter (config : SetupLifecycleConfig) (family : SetupFamily) (key : string)
    (default : pyval) : pyval :=
  match dict_find key (parameters (policies config family)) with Some v => v | None => default end.
Definition policy_float config family key default : result float :=
  match py_float (policy_parameter config family key default) with
  | Some x => Ok x
  | None => ValueError "could not convert string to float"
  end.
Definition policy_int config family key default : result Z :=
  match py_int (policy_parameter config family key default) with
  | Some n => Ok n
  | None => ValueError "invalid literal for int() with base 10"
  end.

Definition clamp100 (n : Z) : Z := Z.max 0 (Z.min 100 n).

(** [max(0, min(100, round(score * 10)))]. *)
Definition confidence_of_ten (score : float) : result Z :=
  n ← py_round (fmul score (float_of_Z 10)); mret (clamp100 n).

Definition _confidence_from_score (score : float) : result Z :=
  if fle score (float_of_Z 10) then confidence_of_ten score
  else n ← py_round score; mret (clamp100 n).

Definition opt_float (o : option float) : pyval := of_opt VFloat o.

End Signals.
