(* ===== verification/ScoreWarnings.v ===== *)
(** * Earnings risk and warning flags: [earnings_risk_service.py],
    [warning_flag_service.py], [confidence_service.py] and [cockpit_sorting.py]

    What the combined decision adds to the two scores of a company: the gate around its
    next earnings date, the flags of its fundamental and technical rows, and the key by
    which the cockpit sorts the results.  Configuration and JSON columns are Python values;
    a wrong type raises as in the program. *)
From Stdlib Require Import ZArith Lia List String Bool Sorted Permutation.
From stdpp Require Import base list strings.
From S2P Require Import Prelude PyDate PyFloat PyValue Canonical CanonicalFacts PyDecimal Signals.
Local Open Scope string_scope.
Local Open Scope list_scope.
Local Open Scope Z_scope.

(** ** Access to configuration *)

(** [d[k]]. *)
Definition dict_item (d : dict) (k : string) : result pyval :=
  match dict_find k d with Some v => Ok v | None => raise "KeyError" k end.

(** [float(v)] and [int(v)]. *)
Definition to_float (v : pyval) : result float :=
  match v with
  | VNone | VList _ | VDict _ => raise "TypeError" "float() argument must be a string or a real number"
  | v => match py_float v with
         | Some x => Ok x
         | None => ValueError "could not convert string to float"
         end
  end.
Definition to_int (v : pyval) : result Z :=
  match v with
  | VNone | VList _ | VDict _ => raise "TypeError" "int() argument must be a string or a real number"
  | VFloat x => int_of_float x
  | v => match py_int v with
         | Some n => Ok n
         | None => ValueError "invalid literal for int() with base 10"
         end
  end.
Definition float_item (d : dict) (k : string) : result float := v ← dict_item d k; to_float v.
Definition int_item (d : dict) (k : string) : result Z := v ← dict_item d k; to_int v.

(** [v.get(k)] on a value that should be a mapping. *)
Definition get_item (v : pyval) (k : string) : result pyval :=
  match v with
  | VDict d => Ok (dget d k)
  | _ => raise "AttributeError" "object has no attribute 'get'"
  end.

(** ** [earnings_risk_service.py] *)

Definition DEFAULT_PENALTIES : dict :=
  [("blocked", VFloat (float_of_Z 3)); ("high", VFloat (float_of_Z 2));
   ("medium", VFloat (float_of_Z 1)); ("unknown", VFloat (float_ratio 3 10));
   ("clear", VFloat f0)].

Definition DEFAULT_EARNINGS_RISK_GATE_CONFIG : dict :=
  [("enabled", VBool true); ("block_if_within_days", VInt 2);
   ("high_risk_if_within_days", VInt 5); ("medium_risk_if_within_days", VInt 10);
   ("missing_date_policy", VStr "warn"); ("apply_to_combined_score", VBool true);
   ("block_new_entries", VBool true); ("penalties", VDict DEFAULT_PENALTIES)].

Record EarningsRiskResult := mkEarningsRiskResult {
  er_upcoming_earnings_date : option date;
  er_days_until_earnings : option Z;
  er_risk_level : string;
  er_penalty : float;
  er_warning_flags : list string;
  er_decision_blocked : bool;
  er_message : string;
}.

Definition merge_gate_item (merged : dict) (kv : string * pyval) : dict :=
  let '(key, value) := kv in
  match String.eqb key "penalties", value with
  | true, VDict update =>
      dict_set "penalties" (VDict (dict_update (as_dict (dget merged "penalties")) update)) merged
  | _, _ => dict_set key value merged
  end.

Definition _merged_config (config : pyval) : result dict :=
  if negb (truthy config) then Ok DEFAULT_EARNINGS_RISK_GATE_CONFIG
  else match config with
  | VDict d => Ok (fold_left merge_gate_item d DEFAULT_EARNINGS_RISK_GATE_CONFIG)
  | _ => raise "AttributeError" "object has no attribute 'items'"
  end.

Definition _penalty (gate : dict) (risk_level : string) : result float :=
  apply ← dict_item gate "apply_to_combined_score";
  if negb (truthy apply) then Ok f0
  else penalties ← dict_item gate "penalties";
       match penalties with
       | VDict d => match dict_find risk_level d with Some v => to_float v | None => Ok f0 end
       | _ => raise "AttributeError" "object has no attribute 'get'"
       end.

(** A result without a penalty, and one with the penalty of its level. *)
Definition _result (upcoming : option date) (days : option Z) (risk_level message : string)
    : EarningsRiskResult :=
  mkEarningsRiskResult upcoming days risk_level f0 [] false message.
Definition flagged_risk (gate : dict) (upcoming : option date) (days : option Z)
    (risk_level flag : string) (blocked : bool) (message : string) : result EarningsRiskResult :=
  penalty ← _penalty gate risk_level;
  mret (mkEarningsRiskResult upcoming days risk_level penalty [flag] blocked message).

Definition _unknown_result (raw_value_present : bool) (gate : dict) : result EarningsRiskResult :=
  policy ← dict_item gate "missing_date_policy";
  if negb (py_eq policy (VStr "warn")) then
    mret (_result None None "unknown" "earnings date unavailable")
  else
    flagged_risk gate None None "unknown"
      (if raw_value_present then "earnings_date_unparseable" else "earnings_date_missing") false
      (if raw_value_present then "earnings date unparseable" else "earnings date missing").

Definition calculate_earnings_risk (upcoming_earnings_date : option date) (raw_value_present : bool)
    (today : date) (config : pyval) : result EarningsRiskResult :=
  gate ← _merged_config config;
  enabled ← dict_item gate "enabled";
  if negb (truthy enabled) then
    mret (_result upcoming_earnings_date ((fun d => d - today) <$> upcoming_earnings_date) "clear"
            "earnings gate disabled")
  else match upcoming_earnings_date with
  | None => _unknown_result raw_value_present gate
  | Some upcoming =>
      let days := upcoming - today in
      let result := flagged_risk gate (Some upcoming) (Some days) in
      if days <? 0 then
        mret (_result (Some upcoming) (Some days) "clear" "earnings already passed")
      else
        block ← int_item gate "block_if_within_days";
        if days <=? block then
          result "blocked" "earnings_blocked" true "earnings within blocked window"
        else
          high ← int_item gate "high_risk_if_within_days";
          if days <=? high then
            result "high" "earnings_high_risk" false "earnings within high-risk window"
          else
            medium ← int_item gate "medium_risk_if_within_days";
            if days <=? medium then
              result "medium" "earnings_medium_risk" false "earnings within medium-risk window"
            else mret (_result (Some upcoming) (Some days) "clear" "no near earnings risk")
  end.

(** ** Score rows *)

(** The columns of [tables.FundamentalScore] and [tables.TechnicalScore] that the decision
    and its flags read; [ts_warning_flags_json] and the values inside the dictionaries have
    any JSON type. *)
Record FundamentalScore := mkFundamentalScore {
  fs_id : Z;
  fs_run_id : Z;
  fs_ticker : string;
  fs_evidence_id : option Z;
  fs_fundamental_score : option decimal;
  fs_fundamental_label : option string;
  fs_trap_flags_json : option dict;
  fs_v2_warning_flags_json : option dict;
}.

Record TechnicalScore := mkTechnicalScore {
  ts_id : Z;
  ts_run_id : Z;
  ts_ticker : string;
  ts_evidence_id : option Z;
  ts_dual_score : option decimal;
  ts_classification : option string;
  ts_risk_score : option decimal;
  ts_technical_confidence : option string;
  ts_missing_data_json : option dict;
  ts_insufficient_data : bool;
  ts_warning_flags_json : pyval;
  ts_debug_json : option dict;
}.

(** [x or {}] of an optional column. *)
Definition or_empty_dict (d : option dict) : dict := match d with Some d => d | None => [] end.

(** ** [warning_flag_service.py] *)

Section Flags.
Context `{Text : PyText}.

Definition FUNDAMENTAL_TRAP_FLAG_MAP : list (string * string) :=
  [("negative free cash flow", "negative_free_cash_flow"); ("high leverage", "high_leverage");
   ("weak liquidity", "weak_liquidity"); ("extreme valuation", "extreme_valuation");
   ("share dilution", "share_dilution")].

Definition _truthy (value : pyval) : bool := truthy value.

Definition _reason_mentions (missing_data : dict) (token : string) : bool :=
  match dget missing_data "reason" with
  | VStr reason => contains (casefold reason) token
  | _ => false
  end.

Definition _trap_flags (trap_flags_json : option dict) : list string :=
  match dget (or_empty_dict trap_flags_json) "flags" with
  | VList raw_flags => map py_str raw_flags
  | _ => []
  end.

Definition _technical_v4_warning_flags (warning_flags_json : pyval) : list string :=
  match warning_flags_json with
  | VList l => List.filter (fun flag => negb (String.eqb (strip flag) "")) (map py_str l)
  | _ => []
  end.

Definition trap_flag (flag : string) : list string :=
  let normalized := casefold (strip flag) in
  match dict_find normalized FUNDAMENTAL_TRAP_FLAG_MAP with
  | Some name => [name]
  | None => if contains normalized "_" then [normalized] else []
  end.

Definition label_is (label : option string) (name : string) : bool :=
  match label with Some l => String.eqb l name | None => false end.

(** A set of flags is a list; [warning_flags_for_row] removes the repetitions. *)
Definition _fundamental_warning_flags (fundamental : FundamentalScore) : list string :=
  let label := fs_fundamental_label fundamental in
  (if label_is label "Value trap risk" then ["value_trap_risk"] else []) ++
  (if label_is label "Growth trap risk" then ["growth_trap_risk"] else []) ++
  (if label_is label "Quality risk" then ["quality_risk"] else []) ++
  concat (map trap_flag (_trap_flags (fs_trap_flags_json fundamental) ++
                         _trap_flags (fs_v2_warning_flags_json fundamental))).

Definition _technical_warning_flags (technical : TechnicalScore) : list string :=
  let confidence := casefold (match ts_technical_confidence technical with Some c => c | None => "" end) in
  let missing_data := or_empty_dict (ts_missing_data_json technical) in
  _technical_v4_warning_flags (ts_warning_flags_json technical) ++
  (if String.eqb confidence "error" then ["technical_error"; "low_technical_confidence"]
   else if String.eqb confidence "low" then ["low_technical_confidence"] else []) ++
  (if ts_insufficient_data technical || _truthy (dget missing_data "insufficient_history")
   then ["insufficient_history"; "low_technical_confidence"] else []) ++
  (if _truthy (dget missing_data "missing_market_data") || _reason_mentions missing_data "market"
   then ["missing_market_data"] else []) ++
  (if _truthy (dget missing_data "missing_benchmark_data") || _reason_mentions missing_data "benchmark"
   then ["missing_benchmark_data"] else []) ++
  (match dget (or_empty_dict (ts_debug_json technical)) "derived" with
   | VDict derived => if truthy (dget derived "liquidity_warning") then ["liquidity_warning"] else []
   | _ => []
   end).

Definition warning_flags_for_row (fundamental : option FundamentalScore)
    (technical : option TechnicalScore) : list string :=
  let flags :=
    match fundamental with
    | None => ["missing_fundamental"; "incomplete_data"]
    | Some f => _fundamental_warning_flags f
    end ++
    match technical with
    | None => ["missing_technical"; "incomplete_data"]
    | Some t => _technical_warning_flags t
    end in
  let flags := if smem "missing_fundamental" flags || smem "missing_technical" flags
               then flags ++ ["incomplete_data"] else flags in
  sort_by String.leb (unique flags).

(** ** [confidence_service.py] *)

Inductive MissingSeverity := SEVERITY_NONE | SEVERITY_LOW | SEVERITY_MEDIUM | SEVERITY_HIGH
  | SEVERITY_CRITICAL.

(** The argument is a set: a list without repetitions. *)
Definition fundamental_missing_severity (missing_fields : list string) : MissingSeverity :=
  let count := Z.of_nat (length missing_fields) in
  if count =? 0 then SEVERITY_NONE
  else if smem "fcf_ttm" missing_fields || smem "market_cap" missing_fields then SEVERITY_CRITICAL
  else if 6 <=? count then SEVERITY_HIGH
  else if 3 <=? count then SEVERITY_MEDIUM
  else SEVERITY_LOW.

Definition technical_confidence_from_score (score : option TechnicalScore) : string :=
  match score with
  | None => "missing_price_data"
  | Some score =>
      let confidence := ts_technical_confidence score in
      if label_is confidence "error" then "error"
      else
        let missing_data := or_empty_dict (ts_missing_data_json score) in
        if truthy (dget missing_data "missing_market_data") then "missing_market_data"
        else if truthy (dget missing_data "missing_benchmark_data") then "missing_benchmark_data"
        else if ts_insufficient_data score || truthy (dget missing_data "insufficient_history")
        then "insufficient_history"
        else match confidence with
             | Some c => if String.eqb c "" then "normal" else c
             | None => "normal"
             end
  end.

Record WarningFlags := mkWarningFlags {
  wf_flags : list string;
  wf_is_complete : bool;
  wf_has_warning : bool;
  wf_has_fundamental : bool;
  wf_has_technical : bool;
  wf_sort_bucket : Z;
}.

Definition _sort_bucket (decision : string) (is_complete : bool) : Z :=
  if negb is_complete then 50
  else if String.eqb decision "Strong candidate" then 10
  else if String.eqb decision "Candidate" then 20
  else if String.eqb decision "Watchlist" then 30
  else if String.eqb decision "Blocked by earnings gate" then 40
  else if String.eqb decision "Avoid" then 40
  else 60.

Definition nonempty {A} (l : list A) : bool := match l with [] => false | _ => true end.
Definition has {A} (o : option A) : bool := match o with Some _ => true | None => false end.

Definition build_combined_warning_flags (fundamental : option FundamentalScore)
    (technical : option TechnicalScore) (decision : string) : WarningFlags :=
  let flags := warning_flags_for_row fundamental technical in
  let has_fundamental := match fundamental with Some f => has (fs_fundamental_score f) | None => false end in
  let has_technical := match technical with Some t => has (ts_dual_score t) | None => false end in
  let is_complete := has_fundamental && has_technical in
  mkWarningFlags flags is_complete (nonempty flags) has_fundamental has_technical
    (_sort_bucket decision is_complete).

End Flags.

(** ** [cockpit_sorting.py] *)

(** The key of a decision: the bucket, the negated score, the ticker. *)
Definition cockpit_sort_key (sort_bucket : option Z) (final_score : float) (ticker : string)
    : Z * float * string :=
  (match sort_bucket with Some b => b | None => 999 end,
   fopp (match final_score with SpecFloat.S754_zero _ => f0 | x => x end), ticker).

(** [a <= b] on keys, as Python compares tuples: the first components that differ decide. *)
Definition cockpit_leb (a b : Z * float * string) : bool :=
  let '(b1, s1, t1) := a in
  let '(b2, s2, t2) := b in
  if negb (b1 =? b2) then b1 <? b2
  else if negb (feq s1 s2) then flt s1 s2
  else String.leb t1 t2.
