(* ===== verification/CombinedDecision.v ===== *)
(** * The combined decision: [combined_decision.py]

    One decision per company of a run, from its admitted fundamental and technical
    scores: the weighted score and its penalties, the earnings gate, the decision label,
    the position size and the evidence; then the ranking of a run and its persistence in
    batches.  The admission of a source row, the identity checks and the evidence store
    belong to other components: they are the class [CombinedAuthority]. *)
From Stdlib Require Import ZArith Lia List String Bool Sorted.
From stdpp Require Import base gmap list strings.
From S2P Require Import Prelude PyDate PyFloat PyValue Canonical PyDecimal PriceBars Signals.
From S2P Require Import ScoreWarnings.
Local Open Scope string_scope.
Local Open Scope list_scope.
Local Open Scope Z_scope.
Local Open Scope st_scope.

(** ** Constants *)

Definition DANGER_CLASSIFICATIONS : list string :=
  ["Distribution risk"; "Blowoff top"; "Failed breakout"; "Climax reversal risk";
   "Late-stage extension"].
Definition BUYABLE_CLASSIFICATIONS : list string :=
  ["Prime clean pullback"; "Clean bull pullback"; "Fresh breakout";
   "Volatility contraction setup"; "Tight base breakout"; "RS leader pullback"].
Definition DECISION_ORDER : list (string * Z) :=
  [("Avoid", 1); ("Watchlist", 2); ("Candidate", 3); ("Strong candidate", 4)].
Definition FUNDAMENTAL_RISK_LABEL_CAPS : list (string * string) :=
  [("Growth trap risk", "Candidate"); ("Quality risk", "Candidate")].
Definition EARNINGS_DATE_RAW_KEYS : list string :=
  ["upcoming earnings date"; "earnings date"; "next earnings date"; "earnings";
   "upcoming_earnings_date"; "earnings_date"; "next_earnings_date"].
(** [earnings_date_parser.MISSING_EARNINGS_DATE_VALUES], in UTF-8. *)
Definition MISSING_EARNINGS_DATE_VALUES : list string :=
  [""; "-"; "--"; "—"; "â€”"; "n/a"; "na"; "none"; "null"].
Definition COMBINED_DECISION_CALCULATION_VERSION : string := "combined-decision-1.0.0".

(** ** Data *)

Record RawCompanyRow := mkRawCompanyRow {
  rc_id : Z;
  rc_run_id : Z;
  rc_row_number : Z;
  rc_ticker : string;
  rc_company_name : option string;
  rc_sector : option string;
  rc_upcoming_earnings_date : option date;
  rc_raw_json : dict;
}.

Record CombinedDecision := mkCombinedDecision {
  cd_ticker : string;
  cd_company_name : option string;
  cd_sector : option string;
  cd_final_score : float;
  cd_fundamental_score : option float;
  cd_fundamental_label : option string;
  cd_technical_classification : option string;
  cd_dual_score : option float;
  cd_combined_decision : string;
  cd_position_size_hint : string;
  cd_earnings : EarningsRiskResult;
  cd_notes : string;
  cd_warning_flags : list string;
  cd_is_complete : bool;
  cd_has_warning : bool;
  cd_has_fundamental : bool;
  cd_has_technical : bool;
  cd_sort_bucket : Z;
  cd_debug_evidence : dict;
}.

(** A row of [combined_results]; the columns that copy a field of the decision are
    [cr_decision]. *)
Record CombinedResult := mkCombinedResult {
  cr_run_id : Z;
  cr_ticker : string;
  cr_evidence_id : option Z;
  cr_final_rank : Z;
  cr_final_score : option decimal;
  cr_fundamental_score : option decimal;
  cr_dual_score : option decimal;
  cr_decision : CombinedDecision;
  cr_calculation_version : string;
  cr_config_hash : pyval;
  cr_debug_json : dict;
}.

Definition set_evidence_id (e : option Z) (r : CombinedResult) : CombinedResult :=
  mkCombinedResult (cr_run_id r) (cr_ticker r) e (cr_final_rank r) (cr_final_score r)
    (cr_fundamental_score r) (cr_dual_score r) (cr_decision r) (cr_calculation_version r)
    (cr_config_hash r) (cr_debug_json r).

(** What the identity checks of the sources of one result yield: the session of the
    calculation, and the payload of the output identity. *)
Record SourceIdentity := mkSourceIdentity {
  si_as_of_session : date;
  si_payload : pyval;
}.

(** The tables: results, source scores, and the links of predictions to results. *)
Record PredictionLink := mkPredictionLink {
  pl_run_id : Z;
  pl_combined_result_id : option Z;
}.

Record CombinedDb := mkCombinedDb {
  raw_company_rows : list RawCompanyRow;
  fundamental_scores : list FundamentalScore;
  technical_scores : list TechnicalScore;
  combined_results : gmap Z CombinedResult;
  prediction_links : gmap Z PredictionLink;
  next_result_id : Z;
}.

Definition set_results (m : gmap Z CombinedResult) (links : gmap Z PredictionLink) (next : Z)
    (db : CombinedDb) : CombinedDb :=
  mkCombinedDb (raw_company_rows db) (fundamental_scores db) (technical_scores db) m links next.

Class CombinedAuthority := {
  (** [technical_decision_input] under the policy of the configuration, and
      [contextual_decision_input] under [FUNDAMENTAL_TO_COMBINED]: the admitted frozen row,
      if any, and the permission. *)
  technical_decision_input : dict -> option TechnicalScore -> result (option TechnicalScore * dict);
  contextual_decision_input : option FundamentalScore -> result (option FundamentalScore * dict);
  (** [_stable_hash]: SHA-256 of the sorted JSON text. *)
  _stable_hash : dict -> string;
  (** The identities of the two sources, their raw source, their compatibility and the
      pipeline context. *)
  validate_sources : Z -> RawCompanyRow -> FundamentalScore -> TechnicalScore -> result SourceIdentity;
  (** [CalculationIdentityCompatibilityValidator.compare] under the pipeline policy. *)
  compatible_context : SourceIdentity -> SourceIdentity -> bool;
  (** [build_combined_result_identity], bound to the configuration, and
      [embed_calculation_identity]. *)
  output_identity : SourceIdentity -> list SourceIdentity -> result pyval;
  embed_calculation_identity : dict -> pyval -> dict;
  declare_core_evidence_mutation : CombinedResult -> result unit;
  (** [persist_core_evidence_batch] and [record_fundamental_admission] for one result. *)
  persist_core_evidence : Z -> CombinedResult -> result Z;
  record_fundamental_admission : CombinedResult -> result unit;
}.

(** ** Scores *)

Definition _float_or_none (value : option decimal) : option float :=
  (fun d => float_of_decimal (coef d) (dexp d)) <$> value.

(** [max(0.0, min(10.0, round(value, 4)))]. *)
Definition _clamp (value : float) : float :=
  fclamp f0 (float_of_Z 10) (py_round_digits 4 value).

Definition _weighted_available_score (fundamental_score dual_score : option float)
    (fundamental_weight dual_weight : float) : float :=
  let '(total, weight) := (f0, f0) in
  let '(total, weight) :=
    match fundamental_score with
    | Some s => (fadd total (fmul s fundamental_weight), fadd weight fundamental_weight)
    | None => (total, weight)
    end in
  let '(total, weight) :=
    match dual_score with
    | Some s => (fadd total (fmul s dual_weight), fadd weight dual_weight)
    | None => (total, weight)
    end in
  if truthy (VFloat weight) then fdiv total weight else f0.

Definition in_labels (label : option string) (names : list string) : bool :=
  match label with Some l => smem l names | None => false end.

Definition _cap_decision_for_fundamental_label (decision : string) (fundamental_label : option string)
    : string :=
  match dict_find (match fundamental_label with Some l => l | None => "None" end)
          FUNDAMENTAL_RISK_LABEL_CAPS with
  | None => decision
  | Some max_decision =>
      let order name := match dict_find name DECISION_ORDER with Some n => n | None => 0 end in
      if order decision <=? order max_decision then decision else max_decision
  end.

Definition _decision_label (final_score : float) (labels : dict)
    (has_fundamental has_technical : bool) (technical_classification fundamental_label : option string)
    : result string :=
  if negb has_fundamental || negb has_technical then Ok "Incomplete data"
  else if in_labels technical_classification DANGER_CLASSIFICATIONS then Ok "Avoid"
  else if label_is fundamental_label "Value trap risk" then Ok "Avoid"
  else
    strong ← float_item labels "strong_candidate_min_score";
    decision ← (if fge final_score strong then Ok "Strong candidate"
                else
                  candidate ← float_item labels "candidate_min_score";
                  if fge final_score candidate then Ok "Candidate"
                  else
                    watch ← float_item labels "watch_min_score";
                    Ok (if fge final_score watch then "Watchlist" else "Avoid"));
    Ok (_cap_decision_for_fundamental_label decision fundamental_label).

Definition _position_size_hint (decision : string) (technical_classification : option string)
    (technical : option TechnicalScore) : string :=
  let risk_score := _float_or_none (technical ≫= ts_risk_score) in
  if String.eqb decision "Blocked by earnings gate" then "No new entry"
  else if String.eqb decision "Incomplete data" then "Wait"
  else if String.eqb decision "Avoid" then "Avoid"
  else if String.eqb decision "Strong candidate"
          && in_labels technical_classification BUYABLE_CLASSIFICATIONS
          && match risk_score with None => true | Some r => fle r (float_ratio 35 10) end
  then "Full starter"
  else if smem decision ["Strong candidate"; "Candidate"] then "Half starter"
  else "Small probe".

Definition _merge_warning_flags (existing extra : list string) : list string :=
  fold_left (fun flags flag => if smem flag flags then flags else flags ++ [flag]) extra existing.

(** [bool(derived and derived.get("liquidity_warning"))]. *)
Definition _liquidity_warning (debug_json : option dict) : result bool :=
  let derived := dget (or_empty_dict debug_json) "derived" in
  if truthy derived then v ← get_item derived "liquidity_warning"; Ok (truthy v) else Ok false.

(** ** Penalties *)

(** The running score, [penalty_breakdown] and [notes]. *)
Record Tally := mkTally {
  t_score : float;
  t_breakdown : list (string * float);
  t_notes : list string;
}.

Definition penalize (penalties : dict) (name key note : string) (t : Tally) : result Tally :=
  penalty ← float_item penalties name;
  mret (mkTally (fsub (t_score t) penalty) (dict_set key penalty (t_breakdown t))
          (t_notes t ++ [note])).

Definition penalize_if (cond : bool) (penalties : dict) (name key note : string) (t : Tally)
    : result Tally :=
  if cond then penalize penalties name key note t else Ok t.

(** The penalties of missing data, of the classification, of the label and of liquidity. *)
Definition score_penalties (penalties : dict) (fundamental_score dual_score : option float)
    (technical_classification fundamental_label : option string) (technical : option TechnicalScore)
    (t : Tally) : result Tally :=
  t ← penalize_if (negb (has fundamental_score)) penalties "missing_data" "missing_fundamental"
        "fundamental missing" t;
  t ← penalize_if (negb (has dual_score)) penalties "missing_data" "missing_technical"
        "technical missing" t;
  t ← (if in_labels technical_classification DANGER_CLASSIFICATIONS then
         penalize penalties "danger_classification" "danger_classification"
           (casefold (match technical_classification with Some c => c | None => "" end)) t
       else penalize_if (label_is technical_classification "Overheated momentum") penalties
              "overheated_momentum" "overheated_momentum" "overheated" t);
  t ← (if label_is fundamental_label "Value trap risk" then
         penalize penalties "value_trap_risk" "value_trap_risk" "value trap" t
       else if label_is fundamental_label "Growth trap risk" then
         penalize penalties "growth_trap_risk" "growth_trap_risk" "growth trap" t
       else penalize_if (label_is fundamental_label "Quality risk") penalties
              "quality_risk" "quality_risk" "quality risk" t);
  illiquid ← match technical with Some row => _liquidity_warning (ts_debug_json row) | None => Ok false end;
  penalize_if illiquid penalties "liquidity_warning" "liquidity_warning" "liquidity warning" t.

(** [final_score -= earnings_risk.penalty] and what follows it. *)
Definition earnings_penalty (risk : EarningsRiskResult) (t : Tally) : Tally :=
  let level := if String.eqb (er_risk_level risk) "" then "unknown" else er_risk_level risk in
  mkTally (fsub (t_score t) (er_penalty risk))
    (if truthy (VFloat (er_penalty risk)) then
       dict_set ("earnings_" ++ level)%string (er_penalty risk) (t_breakdown t)
     else t_breakdown t)
    (if nonempty (er_warning_flags risk) then t_notes t ++ [er_message risk] else t_notes t).

(** [dict] of a configuration section. *)
Definition section (config : dict) (name : string) : result dict :=
  v ← dict_item config name;
  match v with VDict d => Ok d | _ => raise "TypeError" "object is not subscriptable" end.

Definition opt_str (o : option string) : pyval := of_opt VStr o.
Definition breakdown_dict (l : list (string * float)) : dict :=
  map (fun kv => (kv.1, VFloat (py_round_digits 6 kv.2))) l.

Section Combined.
Context `{Text : PyText} `{BarText} `{CombinedAuthority}.

Definition _raw_earnings_value_present (raw_json : dict) : bool :=
  match List.find (fun kv => smem (casefold (strip kv.1)) EARNINGS_DATE_RAW_KEYS) raw_json with
  | None => false
  | Some (_, VNone) => false
  | Some (_, value) => negb (smem (casefold (strip (py_str value))) MISSING_EARNINGS_DATE_VALUES)
  end.

Definition _calculate_row_earnings_risk (row : RawCompanyRow) (config : dict) (today : date)
    : result EarningsRiskResult :=
  let gate_config := match dget config "earnings_risk_gate" with
                     | VNone => VDict [("enabled", VBool false)]
                     | v => v
                     end in
  calculate_earnings_risk (rc_upcoming_earnings_date row)
    (_raw_earnings_value_present (rc_raw_json row)) today gate_config.

(** [config.get("earnings_risk_gate", {}).get("block_new_entries", True)]. *)
Definition block_new_entries (config : dict) : result bool :=
  match dict_find "earnings_risk_gate" config with
  | None => Ok true
  | Some (VDict gate) =>
      Ok (match dict_find "block_new_entries" gate with Some v => truthy v | None => true end)
  | Some _ => raise "AttributeError" "object has no attribute 'get'"
  end.

(** [research_only]. *)
Definition research_only (permission : dict) : result bool :=
  decision ← dict_item permission "decision";
  reasons ← (match decision with
             | VDict d => dict_item d "reasons"
             | _ => raise "TypeError" "object is not subscriptable"
             end);
  match reasons with
  | VList l => Ok (existsb (py_eq (VStr "CERTIFIED_STRATEGY_RESTRICTION_ONLY")) l)
  | _ => raise "TypeError" "argument is not iterable"
  end.

Definition _combined_debug_evidence (row : RawCompanyRow) (fundamental : option FundamentalScore)
    (technical : option TechnicalScore) (config : dict) (weighted_score_before_penalties : float)
    (penalty_breakdown : list (string * float)) (earnings_risk : EarningsRiskResult)
    (final_score : float) (decision position_size : string) (warning_flags : list string)
    (sort_bucket : Z) : dict :=
  [("calculation_version", VStr COMBINED_DECISION_CALCULATION_VERSION);
   ("config_hash", VStr (_stable_hash config));
   ("config_snapshot", VDict config);
   ("source_ids", VDict
      [("raw_row_id", VInt (rc_id row));
       ("fundamental_score_id", of_opt VInt (fs_id <$> fundamental));
       ("technical_score_id", of_opt VInt (ts_id <$> technical))]);
   ("input_scores", VDict
      [("fundamental_score", of_opt VFloat (_float_or_none (fundamental ≫= fs_fundamental_score)));
       ("dual_score", of_opt VFloat (_float_or_none (technical ≫= ts_dual_score)));
       ("technical_classification", opt_str (technical ≫= ts_classification));
       ("fundamental_label", opt_str (fundamental ≫= fs_fundamental_label))]);
   ("weights", VDict (as_dict (dget config "combined_score")));
   ("label_thresholds", VDict (as_dict (dget config "labels")));
   ("weighted_score_before_penalties", VFloat (py_round_digits 6 weighted_score_before_penalties));
   ("penalty_breakdown", VDict (breakdown_dict penalty_breakdown));
   ("earnings", VDict
      [("upcoming_earnings_date",
        of_opt (fun d => VStr (date_isoformat d)) (er_upcoming_earnings_date earnings_risk));
       ("days_until_earnings", of_opt VInt (er_days_until_earnings earnings_risk));
       ("risk_level", VStr (er_risk_level earnings_risk));
       ("warning_flags", VList (map VStr (er_warning_flags earnings_risk)));
       ("decision_blocked", VBool (er_decision_blocked earnings_risk));
       ("penalty", VFloat (er_penalty earnings_risk))]);
   ("final_score", VFloat final_score);
   ("combined_decision", VStr decision);
   ("position_size_hint", VStr position_size);
   ("warning_flags", VList (map VStr warning_flags));
   ("sort_bucket", VInt sort_bucket)].

(** The ceiling of a row that is admitted for research only. *)
Definition research_ceiling (config : dict) (decision : string) : result string :=
  match dget config "technical_research_decision_ceiling" with
  | VNone =>
      Ok (if smem decision ["Avoid"; "Blocked by earnings gate"] then decision else "Watchlist")
  | VStr "preserve-stricter-v1" =>
      Ok (if smem decision ["Strong candidate"; "Candidate"] then "Watchlist" else decision)
  | _ => ValueError "TECHNICAL_RESEARCH_DECISION_CEILING_UNSUPPORTED"
  end.

Definition combine_row_decision (row : RawCompanyRow) (fundamental : option FundamentalScore)
    (technical : option TechnicalScore) (config : dict) (today : date) : result CombinedDecision :=
  weights ← section config "combined_score";
  penalties ← section config "penalties";
  labels ← section config "labels";
  let diagnostic_technical := technical in
  '(technical, eligibility) ← technical_decision_input config technical;
  '(fundamental, fundamental_permission) ← contextual_decision_input fundamental;
  let fundamental_score := _float_or_none (fundamental ≫= fs_fundamental_score) in
  let dual_score := _float_or_none (technical ≫= ts_dual_score) in
  let technical_classification := technical ≫= ts_classification in
  let fundamental_label := fundamental ≫= fs_fundamental_label in
  fundamental_weight ← float_item weights "fundamental_score";
  dual_weight ← float_item weights "dual_score";
  let weighted :=
    _weighted_available_score fundamental_score dual_score fundamental_weight dual_weight in
  t ← score_penalties penalties fundamental_score dual_score technical_classification
        fundamental_label technical (mkTally weighted [] []);
  earnings_risk ← _calculate_row_earnings_risk row config today;
  let t := earnings_penalty earnings_risk t in
  let final_score := _clamp (t_score t) in
  decision ← _decision_label final_score labels (has fundamental_score) (has dual_score)
               technical_classification fundamental_label;
  blocked ← (if er_decision_blocked earnings_risk then block_new_entries config else Ok false);
  let decision := if blocked : bool then "Blocked by earnings gate" else decision in
  let position_size := _position_size_hint decision technical_classification technical in
  research ← research_only eligibility;
  decision' ← (if research : bool then research_ceiling config decision else Ok decision);
  let position_size := if research : bool then "No new entry" else position_size in
  let warnings := build_combined_warning_flags fundamental technical decision' in
  let warning_flags := _merge_warning_flags (wf_flags warnings) (er_warning_flags earnings_risk) in
  let warning_flags :=
    match technical, diagnostic_technical with
    | None, Some _ =>
        _merge_warning_flags warning_flags (warning_flags_for_row fundamental diagnostic_technical)
    | _, _ => warning_flags
    end in
  mret (mkCombinedDecision (upper (rc_ticker row)) (rc_company_name row) (rc_sector row)
          final_score fundamental_score fundamental_label technical_classification dual_score
          decision' position_size earnings_risk
          (match t_notes t with [] => "aligned" | notes => String.concat ", " notes end)
          warning_flags (wf_is_complete warnings) (nonempty warning_flags)
          (wf_has_fundamental warnings) (wf_has_technical warnings) (wf_sort_bucket warnings)
          (dict_update
             [("contextual_consumer_eligibility", VDict [("fundamental", VDict fundamental_permission)])]
             (_combined_debug_evidence row fundamental technical config weighted (t_breakdown t)
                earnings_risk final_score decision' position_size warning_flags
                (wf_sort_bucket warnings) ++
              [("technical_consumer_eligibility", VDict eligibility);
               ("diagnostic_technical_score_id", of_opt VInt (ts_id <$> diagnostic_technical))]))).

Definition reconstruct_combined_score_from_debug (debug_json : dict) : result float :=
  score ← float_item debug_json "weighted_score_before_penalties";
  let penalties := match py_or (dget debug_json "penalty_breakdown") (VDict []) with
                   | VDict d => Ok d
                   | _ => raise "AttributeError" "object has no attribute 'values'"
                   end in
  penalties ← penalties;
  amounts ← foldr (fun kv rest => x ← to_float kv.2; xs ← rest; Ok (x :: xs)) (Ok []) penalties;
  Ok (_clamp (fsub score (fsum amounts))).

(** ** A run *)

Definition _to_decimal (value : option float) : option decimal :=
  (fun x => decimal_of_float (py_round_digits 4 x)) <$> value.

Definition _to_model (run_id final_rank : Z) (decision : CombinedDecision) (identity : pyval)
    : CombinedResult :=
  mkCombinedResult run_id (cd_ticker decision) None final_rank
    (_to_decimal (Some (cd_final_score decision))) (_to_decimal (cd_fundamental_score decision))
    (_to_decimal (cd_dual_score decision)) decision COMBINED_DECISION_CALCULATION_VERSION
    (dget (cd_debug_evidence decision) "config_hash")
    (embed_calculation_identity (cd_debug_evidence decision) identity).

(** [_unique_rows]: the first row of a ticker; [seen] are the tickers before. *)
Fixpoint unique_rows (seen : list string) (rows : list RawCompanyRow) : list RawCompanyRow :=
  match rows with
  | [] => []
  | row :: rows =>
      let ticker := upper (rc_ticker row) in
      if smem ticker seen then unique_rows seen rows else row :: unique_rows (ticker :: seen) rows
  end.
Definition _unique_rows (rows : list RawCompanyRow) : list RawCompanyRow := unique_rows [] rows.

Definition _rows_for_run (db : CombinedDb) (run_id : Z) : list RawCompanyRow :=
  sort_by (fun a b => rc_row_number a <=? rc_row_number b)
    (List.filter (fun r => rc_run_id r =? run_id) (raw_company_rows db)).

(** The source rows pinned by [source_evidence], by ticker; every pin has to resolve. *)
Definition pinned {A} (run_id_of : A -> Z) (ticker_of : A -> string) (evidence_of : A -> option Z)
    (role : string) (run_id : Z) (pins : list (string * option Z)) (rows : list A)
    : result (list (string * A)) :=
  let expected := fold_left (fun d kv => dict_set (upper kv.1) kv.2 d) pins [] in
  let wanted := keep_some (map snd expected) in
  let sources := List.filter (fun a => (run_id_of a =? run_id)
                   && match evidence_of a with Some e => existsb (Z.eqb e) wanted | None => false end) rows in
  let target := fold_left (fun d a => dict_set (upper (ticker_of a)) a d) sources [] in
  if existsb (fun kv => match dict_find kv.1 target with
                        | None => true
                        | Some a => negb (bool_decide (evidence_of a = kv.2))
                        end) expected
  then ValueError ("COMBINED_EXACT_SOURCE_ADDRESS_REQUIRED: " ++ role)
  else Ok target.

(** [source_evidence]: per ticker the evidence of its two sources. *)
Definition pins_of (role : string) (source_evidence : list (string * list (string * Z)))
    : list (string * option Z) :=
  map (fun kv => (kv.1, dict_find role kv.2)) source_evidence.

Record ValidatedRow := mkValidatedRow {
  vr_row : RawCompanyRow;
  vr_fundamental : FundamentalScore;
  vr_technical : TechnicalScore;
  vr_identity : SourceIdentity;
}.

Definition map_result {A B} (f : A -> result B) : list A -> result (list B) :=
  fix go l := match l with [] => Ok [] | x :: l => y ← f x; ys ← go l; Ok (y :: ys) end.

Lemma map_result_Forall2 {A B} (f : A -> result B) l : forall l', map_result f l = Ok l' ->
  Forall2 (fun x y => f x = Ok y) l l'.
Proof.
  induction l as [|x l IH]; intros l' E; simpl in E; [apply Ok_inj in E; subst; constructor|].
  apply result_bind_Ok in E as (y & Hy & E). apply result_bind_Ok in E as (ys & Hys & E).
  apply Ok_inj in E. subst. constructor; auto.
Qed.

Definition validate_row (run_id : Z) (fundamentals : list (string * FundamentalScore))
    (technicals : list (string * TechnicalScore)) (row : RawCompanyRow) : result ValidatedRow :=
  let ticker := upper (rc_ticker row) in
  match dict_find ticker fundamentals, dict_find ticker technicals with
  | Some f, Some t => i ← validate_sources run_id row f t; Ok (mkValidatedRow row f t i)
  | _, _ => ValueError "CALCULATION_IDENTITY_REJECTED"
  end.

Definition _require_single_combined_context (validated : list ValidatedRow) : result unit :=
  match validated with
  | [] => Ok tt
  | first :: rest =>
      if forallb (fun v => compatible_context (vr_identity first) (vr_identity v)) rest then Ok tt
      else ValueError "CALCULATION_IDENTITY_REJECTED"
  end.

(** The decision of one company and its identity. *)
Definition decide_row (config : dict) (cohort : list SourceIdentity) (v : ValidatedRow)
    : result (CombinedDecision * pyval) :=
  decision ← combine_row_decision (vr_row v) (Some (vr_fundamental v)) (Some (vr_technical v)) config
               (si_as_of_session (vr_identity v));
  identity ← output_identity (vr_identity v) cohort;
  Ok (decision, identity).

Definition decision_key (d : CombinedDecision) : Z * float * string :=
  cockpit_sort_key (Some (cd_sort_bucket d)) (cd_final_score d) (cd_ticker d).
Definition decision_leb (a b : CombinedDecision * pyval) : bool :=
  cockpit_leb (decision_key a.1) (decision_key b.1).

(** [enumerate(decisions, start)] into rows. *)
Fixpoint ranked (run_id rank : Z) (ds : list (CombinedDecision * pyval)) : list CombinedResult :=
  match ds with
  | [] => []
  | (d, i) :: ds => _to_model run_id rank d i :: ranked run_id (rank + 1) ds
  end.

(** ** Persistence *)

(** Deleting results: the links to them become null, as the update and the foreign key do. *)
Definition delete_results (doomed : Z -> CombinedResult -> bool) (db : CombinedDb) : CombinedDb :=
  let gone i := match combined_results db !! i with Some r => doomed i r | None => false end in
  set_results (filter (fun ir => doomed ir.1 ir.2 = false) (combined_results db))
    ((fun l => match pl_combined_result_id l with
               | Some i => if gone i then mkPredictionLink (pl_run_id l) None else l
               | None => l
               end) <$> prediction_links db)
    (next_result_id db) db.

(** [db.add] and flush, with the unique constraint on run and ticker. *)
Definition insert_result (r : CombinedResult) : ST CombinedDb Z := fun db =>
  if bool_decide (map_Forall (fun _ r' => ~ (cr_run_id r' = cr_run_id r /\ cr_ticker r' = cr_ticker r))
                    (combined_results db))
  then (Ok (next_result_id db),
        set_results (<[next_result_id db := r]> (combined_results db)) (prediction_links db)
          (next_result_id db + 1) db)
  else (raise "IntegrityError" "uq_combined_results_run_ticker", db).

Definition attach_evidence (i : Z) (r : CombinedResult) : ST CombinedDb unit :=
  let! e := st_lift (persist_core_evidence i r) in
  st_modify (fun db => set_results (alter (set_evidence_id (Some e)) i (combined_results db))
                         (prediction_links db) (next_result_id db) db).

(** A transaction: an exception restores the store at its start. *)
Definition transaction {A} (m : ST CombinedDb A) : ST CombinedDb A := fun db =>
  match m db with
  | (Ok a, db') => (Ok a, db')
  | (Raise e, _) => (Raise e, db)
  end.

Definition _persist_combined_batch (run_id : Z) (results : list CombinedResult)
    (desired_tickers : list string) (remove_stale : bool) : ST CombinedDb unit :=
  transaction (
    let batch_tickers := map (fun r => upper (cr_ticker r)) results in
    do! st_modify (delete_results (fun _ r =>
          (cr_run_id r =? run_id) &&
          (smem (cr_ticker r) batch_tickers ||
           (remove_stale && negb (smem (cr_ticker r) desired_tickers))))) in
    let! ids := st_fold results [] (fun ids r => let! i := insert_result r in st_ret (ids ++ [i])) in
    do! st_for (combine ids results) (fun ir => attach_evidence ir.1 ir.2) in
    st_for results (fun r => st_lift (record_fundamental_admission r))).

(** [range(0, total, 10)]. *)
Fixpoint batches_of {A} (fuel : nat) (l : list A) : list (list A) :=
  match fuel, l with
  | S fuel, _ :: _ => take 10 l :: batches_of fuel (drop 10 l)
  | _, _ => []
  end.

Definition persist_results (run_id : Z) (results : list CombinedResult) : ST CombinedDb unit :=
  let desired_tickers := map (fun r => upper (cr_ticker r)) results in
  match batches_of (length results) results with
  | [] => _persist_combined_batch run_id [] [] true
  | first :: rest =>
      do! _persist_combined_batch run_id first desired_tickers true in
      st_for rest (fun batch => _persist_combined_batch run_id batch desired_tickers false)
  end.

(** [refresh_combined_results] with a session: every batch is committed by the checkpoint
    that follows it, as the pipeline executor's checkpoint does. *)
Definition refresh_combined_results (run_id : Z) (config : dict)
    (source_evidence : list (string * list (string * Z))) : ST CombinedDb (list CombinedResult) :=
  let! db := st_get in
  let rows := _rows_for_run db run_id in
  let! fundamentals := st_lift (pinned fs_run_id fs_ticker fs_evidence_id "fundamental" run_id
                                  (pins_of "fundamental" source_evidence) (fundamental_scores db)) in
  let! technicals := st_lift (pinned ts_run_id ts_ticker ts_evidence_id "technical" run_id
                                (pins_of "technical" source_evidence) (technical_scores db)) in
  let! validated := st_lift (map_result (validate_row run_id fundamentals technicals)
                               (_unique_rows rows)) in
  do! st_lift (_require_single_combined_context validated) in
  let cohort := map vr_identity validated in
  let! decisions := st_lift (map_result (decide_row config cohort) validated) in
  let results := ranked run_id 1 (sort_by decision_leb decisions) in
  do! st_for results (fun r => st_lift (declare_core_evidence_mutation r)) in
  do! persist_results run_id results in
  st_ret results.

End Combined.
