(* ===== verification/CombinedFacts.v ===== *)
(** * The combined decision: theorems

    The bounds of the score, what an entry recommendation requires, the windows of the
    earnings gate, the order of the ranking, and the integrity of the results of a run. *)
From Stdlib Require Import ZArith Lia List String Bool Sorted Permutation.
From stdpp Require Import base gmap list strings.
From S2P Require Import Prelude PyDate PyFloat FloatFacts PyValue Canonical CanonicalFacts PyDecimal PriceBars.
From S2P Require Import Signals ScoreWarnings CombinedDecision.
Local Open Scope string_scope.
Local Open Scope list_scope.
Local Open Scope Z_scope.

(** ** The order of the cockpit *)

(** A key whose score is a number. *)
Definition proper_key (k : Z * float * string) : Prop := is_nan k.1.2 = false.

Lemma cockpit_leb_total a b : proper_key a -> proper_key b ->
  cockpit_leb a b = false -> cockpit_leb b a = true.
Proof.
  destruct a as [[b1 s1] t1], b as [[b2 s2] t2]. unfold proper_key. simpl. intros Ha Hb.
  destruct (Z.eqb_spec b1 b2) as [->|Hne]; cbn [negb].
  - rewrite Z.eqb_refl. cbn [negb].
    destruct (flt_trichotomy s1 s2 Ha Hb) as [(E & ? & ?)|[(E & L & ?)|(E & ? & L)]].
    + assert (E' : feq s2 s1 = true) by (apply feq_spec; [done..|]; symmetry; by apply feq_spec).
      rewrite E, E'. cbn [negb]. apply string_leb_total.
    + rewrite E, L. done.
    + assert (E' : feq s2 s1 = false).
      { destruct (feq s2 s1) eqn:E'; [|done]. apply feq_spec in E'; [|done..].
        assert (feq s1 s2 = true) by (by apply feq_spec). congruence. }
      rewrite E, E'. done.
  - destruct (Z.eqb_spec b2 b1); [lia|]. cbn [negb]. lia.
Qed.

Lemma cockpit_leb_trans a b c : proper_key a -> proper_key b -> proper_key c ->
  cockpit_leb a b = true -> cockpit_leb b c = true -> cockpit_leb a c = true.
Proof.
  destruct a as [[b1 s1] t1], b as [[b2 s2] t2], c as [[b3 s3] t3]. unfold proper_key. simpl.
  intros Ha Hb Hc.
  destruct (Z.eqb_spec b1 b2) as [->|H12], (Z.eqb_spec b2 b3) as [->|H23]; rewrite ?Z.eqb_refl; cbn [negb];
    [|done|destruct (Z.eqb_spec b1 b3); cbn [negb]; [lia|done]|destruct (Z.eqb_spec b1 b3); cbn [negb]; lia].
  destruct (feq s1 s2) eqn:E12; cbn [negb].
  - apply feq_spec in E12; [|done..]. intros L1. destruct (feq s2 s3) eqn:E23; cbn [negb].
    + apply feq_spec in E23; [|done..]. intros L2.
      assert (feq s1 s3 = true) as -> by (apply feq_spec; congruence). cbn [negb].
      by eapply string_leb_trans.
    + intros L2. assert (feq s1 s3 = false) as ->.
      { destruct (feq s1 s3) eqn:E; [|done]. apply feq_spec in E; [|done..].
        assert (feq s2 s3 = true) by (apply feq_spec; congruence). congruence. }
      cbn [negb]. rewrite flt_key in L2 |- *. by rewrite E12.
  - intros L1. destruct (feq s2 s3) eqn:E23; cbn [negb].
    + apply feq_spec in E23; [|done..]. intros L2. assert (feq s1 s3 = false) as ->.
      { destruct (feq s1 s3) eqn:E; [|done]. apply feq_spec in E; [|done..].
        assert (feq s1 s2 = true) by (apply feq_spec; congruence). congruence. }
      cbn [negb]. rewrite flt_key in L1 |- *. by rewrite <- E23.
    + intros L2. pose proof (flt_trans _ _ _ L1 L2) as L. 
      destruct (flt_trichotomy s1 s3 Ha Hc) as [(? & ? & ?)|[(-> & ? & ?)|(? & ? & ?)]];
        [congruence|done|congruence].
Qed.

(** ** The earnings gate *)

(** The windows of an enabled gate: an upcoming date blocks entries within the blocked
    window, is a high or medium risk within the next two windows, and clear otherwise,
    which costs nothing and raises no flag. *)
Theorem earnings_gate_windows upcoming raw_present today config gate enabled block high medium r :
  _merged_config config = Ok gate -> dict_item gate "enabled" = Ok enabled -> truthy enabled = true ->
  int_item gate "block_if_within_days" = Ok block ->
  int_item gate "high_risk_if_within_days" = Ok high ->
  int_item gate "medium_risk_if_within_days" = Ok medium ->
  calculate_earnings_risk (Some upcoming) raw_present today config = Ok r ->
  let days := upcoming - today in
  er_days_until_earnings r = Some days /\
  (er_decision_blocked r = true <-> 0 <= days <= block) /\
  (er_risk_level r = "high" <-> 0 <= days <= high /\ block < days) /\
  (er_risk_level r = "medium" <-> 0 <= days <= medium /\ block < days /\ high < days) /\
  (er_risk_level r = "clear" -> er_penalty r = f0 /\ er_warning_flags r = []).
Proof.
  intros Hg He Ht Hb Hh Hm E days. unfold calculate_earnings_risk in E. rewrite Hg in E.
  cbn [mbind result_bind] in E. rewrite He in E. cbn [mbind result_bind] in E. rewrite Ht in E.
  cbn [negb] in E. cbv zeta in E. fold days in E. rewrite Hb in E. cbn [mbind result_bind] in E.
  rewrite Hh in E. cbn [mbind result_bind] in E. rewrite Hm in E. cbn [mbind result_bind] in E.
  unfold flagged_risk in E.
  destruct (Z.ltb_spec days 0); [|destruct (Z.leb_spec days block);
    [|destruct (Z.leb_spec days high); [|destruct (Z.leb_spec days medium)]]];
    try (apply result_bind_Ok in E as (p & _ & E)); apply Ok_inj in E; subst r; cbn;
    split_and!; try done; split; intros; try done; lia.
Qed.

(** ** Decisions *)

Section Decision.
Context `{Text : PyText} `{CA : CombinedAuthority}.

(** The steps of a decision, by name. *)
Record decided (row : RawCompanyRow) (f : option FundamentalScore) (t : option TechnicalScore)
    (config : dict) (today : date) (d : CombinedDecision)
    (f' : option FundamentalScore) (t' : option TechnicalScore) (permission labels : dict)
    (tally : Tally) (risk : EarningsRiskResult) (label : string) (blocked research : bool)
    : Prop := {
  d_labels : section config "labels" = Ok labels;
  d_technical : technical_decision_input config t = Ok (t', permission);
  d_fundamental : exists p, contextual_decision_input f = Ok (f', p);
  d_risk : _calculate_row_earnings_risk row config today = Ok risk;
  d_label : _decision_label (cd_final_score d) labels (has (cd_fundamental_score d))
              (has (cd_dual_score d)) (cd_technical_classification d) (cd_fundamental_label d) = Ok label;
  d_blocked : (if er_decision_blocked risk then block_new_entries config else Ok false) = Ok blocked;
  d_research : research_only permission = Ok research;
  d_score : cd_final_score d = _clamp (t_score tally);
  d_scores : cd_fundamental_score d = _float_or_none (f' ≫= fs_fundamental_score) /\
    cd_dual_score d = _float_or_none (t' ≫= ts_dual_score) /\
    cd_technical_classification d = t' ≫= ts_classification /\
    cd_fundamental_label d = f' ≫= fs_fundamental_label;
  d_decision : (if research then research_ceiling config (if blocked then "Blocked by earnings gate" else label)
    else Ok (if blocked then "Blocked by earnings gate" else label)) = Ok (cd_combined_decision d);
  d_size : cd_position_size_hint d = if research then "No new entry" else
    _position_size_hint (if blocked then "Blocked by earnings gate" else label)
      (cd_technical_classification d) t';
  d_ticker : cd_ticker d = upper (rc_ticker row);
  d_bucket : cd_sort_bucket d = _sort_bucket (cd_combined_decision d) (cd_is_complete d) /\
    cd_is_complete d = has (f' ≫= fs_fundamental_score) && has (t' ≫= ts_dual_score);
}.

Lemma combine_decided row f t config today d : combine_row_decision row f t config today = Ok d ->
  exists f' t' permission labels tally risk label blocked research,
    decided row f t config today d f' t' permission labels tally risk label blocked research.
Proof.
  unfold combine_row_decision. intros E.
  apply result_bind_Ok in E as (weights & _ & E). apply result_bind_Ok in E as (pens & _ & E).
  apply result_bind_Ok in E as (labels & Hl & E).
  apply result_bind_Ok in E as ([t' elig] & Ht & E).
  apply result_bind_Ok in E as ([f' perm] & Hf & E).
  apply result_bind_Ok in E as (fw & _ & E). apply result_bind_Ok in E as (dw & _ & E).
  cbv zeta in E.
  apply result_bind_Ok in E as (tally & Htally & E). apply result_bind_Ok in E as (risk & Hr & E).
  apply result_bind_Ok in E as (label & Hlabel & E). apply result_bind_Ok in E as (blocked & Hb & E).
  apply result_bind_Ok in E as (research & Hres & E). apply result_bind_Ok in E as (decision & Hd & E).
  apply Ok_inj in E. subst d.
  exists f', t', elig, labels, (earnings_penalty risk tally), risk, label, blocked, research.
  split; simpl; eauto. destruct f'; destruct t'; split; reflexivity.
Qed.

(** The final score is between 0 and 10 whatever the scores, the weights and the penalties
    are: rounding and clamping also absorb infinities and NaN. *)
Theorem final_score_bounded row f t config today d :
  combine_row_decision row f t config today = Ok d ->
  fle f0 (cd_final_score d) = true /\ fle (cd_final_score d) (float_of_Z 10) = true.
Proof.
  intros E. apply combine_decided in E as (f' & t' & p & l & tally & r & lb & b & re & D).
  rewrite (d_score _ _ _ _ _ _ _ _ _ _ _ _ _ _ _ D). by apply fclamp_bounds.
Qed.



End Decision.
