(* ===== verification/CombinedRun.v ===== *)
(** * The combined results of a run: theorems

    [refresh_combined_results] ranks the decisions of a run in the order of the cockpit
    and replaces the stored results of the run by them, batch by batch.  The integrity of
    the tables survives an exception at any point. *)
From Stdlib Require Import ZArith Lia List String Bool Sorted Permutation.
From stdpp Require Import base gmap list strings.
From S2P Require Import Prelude PyDate PyFloat FloatFacts PyValue Canonical CanonicalFacts PyDecimal.
From S2P Require Import PriceBars Signals ScoreWarnings CombinedDecision CombinedFacts.
Local Open Scope string_scope.
Local Open Scope list_scope.
Local Open Scope Z_scope.
Local Open Scope st_scope.

(** ** Integrity *)

(** Identifiers are below the sequence, a run has one result per ticker, and a link of a
    prediction leads to a result. *)
Record combined_ok (db : CombinedDb) : Prop := {
  ok_ids : forall i r, combined_results db !! i = Some r -> i < next_result_id db;
  ok_unique : forall i j a b, combined_results db !! i = Some a -> combined_results db !! j = Some b ->
    cr_run_id a = cr_run_id b -> cr_ticker a = cr_ticker b -> i = j;
  ok_links : forall p l i, prediction_links db !! p = Some l -> pl_combined_result_id l = Some i ->
    is_Some (combined_results db !! i);
}.

Lemma delete_lookup doomed db i r :
  combined_results (delete_results doomed db) !! i = Some r <->
  combined_results db !! i = Some r /\ doomed i r = false.
Proof. simpl. by rewrite map_lookup_filter_Some. Qed.

Lemma delete_ok doomed db : combined_ok db -> combined_ok (delete_results doomed db).
Proof.
  intros [I U L]. split.
  - intros i r Hi. apply delete_lookup in Hi as [Hi _]. by eapply I.
  - intros i j a b Ha Hb. apply delete_lookup in Ha as [Ha _], Hb as [Hb _]. by eapply U.
  - intros p l i Hp Hl. simpl in Hp. rewrite lookup_fmap in Hp.
    destruct (prediction_links db !! p) as [l0|] eqn:E; [|done]. simpl in Hp. injection Hp as <-.
    destruct (pl_combined_result_id l0) as [j|] eqn:Ej; [|by rewrite Ej in Hl].
    destruct (combined_results db !! j) as [r|] eqn:Er.
    + destruct (doomed j r) eqn:Ed; [done|]. rewrite Ej in Hl. injection Hl as <-. exists r.
      by apply delete_lookup.
    + rewrite Ej in Hl. injection Hl as <-. destruct (L p l0 j E Ej) as [? ?]. congruence.
Qed.

Lemma insert_result_ok r : preserves combined_ok (insert_result r).
Proof.
  intros db x db' [I U L] E. unfold insert_result in E. case_bool_decide as Hfree; injection E as _ <-;
    [|by split].
  split; simpl.
  - intros i r' Hi. destruct (decide (i = next_result_id db)) as [->|Hne]; [lia|].
    rewrite lookup_insert_ne in Hi by done. apply I in Hi. lia.
  - intros i j a b Ha Hb Hr Ht.
    destruct (decide (i = next_result_id db)) as [->|Hi], (decide (j = next_result_id db)) as [->|Hj];
      [done| | |].
    + rewrite lookup_insert_eq in Ha. rewrite lookup_insert_ne in Hb by done. injection Ha as <-.
      destruct (Hfree j b Hb). auto.
    + rewrite lookup_insert_eq in Hb. rewrite lookup_insert_ne in Ha by done. injection Hb as <-.
      destruct (Hfree i a Ha). auto.
    + rewrite lookup_insert_ne in Ha, Hb by done. by eapply U.
  - intros p l i Hp Hl. destruct (L p l i Hp Hl) as [r' Hr'].
    destruct (decide (i = next_result_id db)) as [->|Hi]; [exists r; by rewrite lookup_insert_eq|].
    exists r'. by rewrite lookup_insert_ne.
Qed.

Lemma alter_evidence_lookup e i db j r :
  alter (set_evidence_id e) i (combined_results db) !! j = Some r ->
  exists r0, combined_results db !! j = Some r0 /\ cr_run_id r = cr_run_id r0 /\
    cr_ticker r = cr_ticker r0.
Proof.
  destruct (decide (i = j)) as [->|Hne].
  - rewrite lookup_alter_eq. destruct (combined_results db !! j) as [r0|]; [|done].
    intros E. injection E as <-. by exists r0.
  - rewrite lookup_alter_ne by done. eauto.
Qed.

Section Run.
Context `{Text : PyText} `{BT : BarText} `{CA : CombinedAuthority}.

Lemma attach_evidence_ok i r : preserves combined_ok (attach_evidence i r).
Proof.
  unfold attach_evidence. preserve. apply preserves_modify. intros db [I U L]. split; simpl.
  - intros j r' Hj. apply alter_evidence_lookup in Hj as (r0 & Hj & _). by eapply I.
  - intros j k x y Hx Hy Hr Ht. apply alter_evidence_lookup in Hx as (x0 & Hx & Rx & Tx).
    apply alter_evidence_lookup in Hy as (y0 & Hy & Ry & Ty). eapply (U j k x0 y0); congruence.
  - intros p l j Hp Hl. apply lookup_alter_is_Some. by eapply L.
Qed.

Lemma transaction_ok {A} (m : ST CombinedDb A) :
  preserves combined_ok m -> preserves combined_ok (transaction m).
Proof.
  intros Hm db x db' Hok E. unfold transaction in E. destruct (m db) as [[a|e] db1] eqn:Em;
    injection E as _ <-; [by eapply Hm|done].
Qed.

Lemma persist_batch_ok run_id results desired remove_stale :
  preserves combined_ok (_persist_combined_batch run_id results desired remove_stale).
Proof.
  apply transaction_ok. cbv zeta. apply preserves_bind.
  { apply preserves_modify. apply delete_ok. }
  intros _. preserve; auto using insert_result_ok, attach_evidence_ok.
Qed.

Lemma persist_results_ok run_id results : preserves combined_ok (persist_results run_id results).
Proof.
  unfold persist_results. preserve; apply persist_batch_ok.
Qed.

(** Whatever a refresh returns or raises, at whatever point, it leaves tables with one
    result per run and ticker and no link to a deleted result. *)
Theorem refresh_keeps_integrity run_id config source_evidence db r db' :
  combined_ok db -> refresh_combined_results run_id config source_evidence db = (r, db') ->
  combined_ok db'.
Proof.
  intros Hok E. use_preserves combined_ok Hok E. unfold refresh_combined_results. preserve.
  apply persist_results_ok.
Qed.

(** ** One batch *)

Lemma insert_result_Ok r db i db' : insert_result r db = (Ok i, db') ->
  i = next_result_id db /\
  db' = set_results (<[i := r]> (combined_results db)) (prediction_links db) (i + 1) db.
Proof. unfold insert_result. case_bool_decide; [|done]. intros E. injection E as <- <-. done. Qed.

Lemma insert_fold results : forall ids db ids' db',
  st_fold results ids (fun ids r => let! i := insert_result r in st_ret (ids ++ [i])) db = (Ok ids', db') ->
  ids' = ids ++ seqZ (next_result_id db) (Z.of_nat (length results)) /\
  next_result_id db' = next_result_id db + Z.of_nat (length results) /\
  (forall i, i < next_result_id db -> combined_results db' !! i = combined_results db !! i) /\
  (forall k r, results !! k = Some r ->
     combined_results db' !! (next_result_id db + Z.of_nat k) = Some r).
Proof.
  induction results as [|r results IH]; intros ids db ids' db' E; simpl in E.
  { injection E as <- <-. rewrite app_nil_r. split_and!; try done. simpl. lia. }
  apply st_bind_Ok in E as (ids1 & db1 & E1 & E). apply st_bind_Ok in E1 as (i & db0 & E0 & E1).
  injection E1 as <- <-. apply insert_result_Ok in E0 as [-> ->].
  apply IH in E as (-> & Hn & Hold & Hnew). simpl in *. split_and!.
  - rewrite <- app_assoc. f_equal. rewrite (seqZ_cons (next_result_id db)) by lia.
    by replace (Z.pred (Z.of_nat (S (length results)))) with (Z.of_nat (length results)) by lia.
  - lia.
  - intros i Hi. rewrite Hold by lia. by rewrite lookup_insert_ne by lia.
  - intros [|k] r' Hk; simpl in Hk.
    + injection Hk as <-. rewrite Z.add_0_r, Hold by lia. apply lookup_insert_eq.
    + apply Hnew in Hk. rewrite <- Hk. f_equal. lia.
Qed.

Lemma attach_for l : forall db db', NoDup (map fst l) ->
  st_for l (fun ir => attach_evidence ir.1 ir.2) db = (Ok tt, db') ->
  next_result_id db' = next_result_id db /\
  (forall i, i ∉ map fst l -> combined_results db' !! i = combined_results db !! i) /\
  (forall i r, i ∈ map fst l -> combined_results db !! i = Some r ->
     exists e, combined_results db' !! i = Some (set_evidence_id (Some e) r)).
Proof.
  induction l as [|[i r] l IH]; intros db db' ND E; simpl in E.
  { injection E as <-. split_and!; try done. intros i r Hi. by apply elem_of_nil in Hi. }
  apply st_bind_Ok in E as ([] & db1 & E1 & E). apply st_bind_Ok in E1 as (e & db0 & E0 & E1).
  apply st_lift_Ok in E0 as [_ ->]. injection E1 as <-. simpl in ND. apply NoDup_cons in ND as [Hi ND].
  apply IH in E as (Hn & Hout & Hin); [|done]. simpl in *. split_and!; [done| |].
  - intros j Hj. apply not_elem_of_cons in Hj as [Hj Hj']. rewrite Hout by done.
    by rewrite lookup_alter_ne by done.
  - intros j r' Hj Hr. apply elem_of_cons in Hj as [->|Hj].
    + exists e. rewrite Hout by done. by rewrite lookup_alter_eq, Hr.
    + apply Hin; [done|]. rewrite lookup_alter_ne; [done|]. intros ->. done.
Qed.

(** What a batch removes. *)
Definition removed (run_id : Z) (results : list CombinedResult) (desired : list string)
    (remove_stale : bool) (r : CombinedResult) : bool :=
  (cr_run_id r =? run_id) &&
  (smem (cr_ticker r) (map (fun r => upper (cr_ticker r)) results) ||
   (remove_stale && negb (smem (cr_ticker r) desired))).

Lemma persist_batch_spec run_id results desired remove_stale db db' :
  _persist_combined_batch run_id results desired remove_stale db = (Ok tt, db') ->
  (forall i r, i < next_result_id db -> combined_results db' !! i = Some r <->
     combined_results db !! i = Some r /\ removed run_id results desired remove_stale r = false) /\
  (forall k r, results !! k = Some r -> exists e,
     combined_results db' !! (next_result_id db + Z.of_nat k) = Some (set_evidence_id (Some e) r)) /\
  next_result_id db' = next_result_id db + Z.of_nat (length results).
Proof.
  unfold _persist_combined_batch, transaction.
  match goal with |- (match ?m db with _ => _ end) = _ -> _ => destruct (m db) as [[[]|?] d] eqn:E end;
    [|done]. intros Hd. injection Hd as <-. cbv zeta in E.
  apply st_bind_Ok in E as ([] & d1 & E1 & E). injection E1 as <-.
  apply st_bind_Ok in E as (ids & d2 & E2 & E). apply st_bind_Ok in E as ([] & d3 & E3 & E).
  assert (d3 = d) as ->.
  { clear -E. revert d3 E. induction results as [|r l IH]; intros d3 E; simpl in E; [by injection E|].
    apply st_bind_Ok in E as ([] & d4 & E4 & E). apply st_lift_Ok in E4 as [_ ->]. auto. }
  apply insert_fold in E2 as (Hids & Hn & Hold & Hnew). simpl in Hids, Hn, Hold, Hnew.
  assert (Hfst : map fst (combine ids results) = ids).
  { subst ids. apply fst_zip. rewrite length_seqZ. lia. }
  apply attach_for in E3 as (Hn' & Hout & Hin);
    [|rewrite Hfst, Hids; apply NoDup_seqZ].
  rewrite Hfst, Hids in Hout, Hin. split_and!.
  - intros i r Hi. rewrite Hout, Hold by (try done; rewrite elem_of_seqZ; lia).
    apply (delete_lookup (fun _ => removed run_id results desired remove_stale)).
  - intros k r Hk. apply Hin; [|by apply Hnew]. apply elem_of_seqZ.
    apply lookup_lt_Some in Hk. lia.
  - congruence.
Qed.

(** ** All batches *)

Lemma batches_concat {A} fuel : forall l : list A, (length l <= fuel)%nat ->
  concat (batches_of fuel l) = l.
Proof.
  induction fuel as [|fuel IH]; intros [|x l] H; simpl in *; [done|lia|done|].
  rewrite IH by (rewrite length_drop; lia). f_equal. apply take_drop.
Qed.

(** Results that may be persisted: of one run, with upper-case tickers. *)
Definition of_run (run_id : Z) (r : CombinedResult) : Prop :=
  cr_run_id r = run_id /\ upper (cr_ticker r) = cr_ticker r.

Lemma of_run_tickers run_id l : Forall (of_run run_id) l ->
  map (fun r => upper (cr_ticker r)) l = map cr_ticker l.
Proof. induction 1 as [|r l [_ Hr] _ IH]; simpl; [done|]. by rewrite Hr, IH. Qed.

(** The state of a refresh after some batches [done]. *)
Record progress (run_id : Z) (desired : list string) (done : list CombinedResult)
    (db0 db : CombinedDb) : Prop := {
  pr_ok : combined_ok db;
  pr_desired : forall i r, combined_results db !! i = Some r -> cr_run_id r = run_id ->
    In (cr_ticker r) desired;
  pr_done : forall r, In r done -> exists i e,
    combined_results db !! i = Some (set_evidence_id (Some e) r);
  pr_others : forall i r, cr_run_id r <> run_id ->
    combined_results db !! i = Some r <-> combined_results db0 !! i = Some r;
}.

Lemma persist_batch_others run_id results desired remove_stale db db' i r :
  Forall (of_run run_id) results -> combined_ok db ->
  _persist_combined_batch run_id results desired remove_stale db = (Ok tt, db') ->
  cr_run_id r <> run_id ->
  combined_results db' !! i = Some r <-> combined_results db !! i = Some r.
Proof.
  intros HF Hok E Hr. pose proof (persist_batch_ok _ _ _ _ _ _ _ Hok E) as Hok'.
  apply persist_batch_spec in E as (Hold & Hnew & Hn).
  destruct (Z.lt_ge_cases i (next_result_id db)) as [Hi|Hi].
  - rewrite Hold by done. unfold removed. destruct (Z.eqb_spec (cr_run_id r) run_id); naive_solver.
  - split; intros Hx.
    + pose proof (ok_ids _ Hok' _ _ Hx) as Hlt. rewrite Hn in Hlt.
      destruct (lookup_lt_is_Some_2 results (Z.to_nat (i - next_result_id db))) as [r0 Hr0]; [lia|].
      destruct (Hnew _ _ Hr0) as [e He]. rewrite Z2Nat.id, Zplus_minus, Hx in He by lia.
      injection He as ->. rewrite Forall_lookup in HF. destruct (HF _ _ Hr0). simpl in Hr. congruence.
    + apply (ok_ids _ Hok) in Hx. lia.
Qed.

Lemma progress_step run_id desired done batch remove_stale db0 db db' :
  Forall (of_run run_id) batch -> incl (map cr_ticker batch) desired ->
  (forall t, In t (map cr_ticker done) -> ~ In t (map cr_ticker batch)) ->
  (remove_stale = true /\ done = [] /\ db = db0 /\ combined_ok db0 \/
   progress run_id desired done db0 db) ->
  Forall (fun r => In (cr_ticker r) desired /\ cr_run_id r = run_id) done ->
  _persist_combined_batch run_id batch desired remove_stale db = (Ok tt, db') ->
  progress run_id desired (done ++ batch) db0 db'.
Proof.
  intros HF Hincl Hdis Hst Hdone E.
  assert (Hok : combined_ok db) by (destruct Hst as [(_ & _ & -> & ?)|[]]; done).
  pose proof (persist_batch_ok _ _ _ _ _ _ _ Hok E) as Hok'.
  pose proof (fun i r => persist_batch_others _ _ _ _ _ _ i r HF Hok E) as Hoth.
  apply persist_batch_spec in E as (Hold & Hnew & Hn). split; [done| | |].
  - intros i r Hi Hr. destruct (Z.lt_ge_cases i (next_result_id db)) as [Hlt|Hge].
    + apply Hold in Hi as [Hi Hrem]; [|done]. destruct Hst as [(-> & _ & _ & _)|P];
        [|by eapply (pr_desired _ _ _ _ _ P)].
      unfold removed in Hrem. rewrite Hr, Z.eqb_refl in Hrem. simpl in Hrem.
      apply orb_false_iff in Hrem as [_ Hrem]. apply negb_false_iff in Hrem. by apply smem_In.
    + pose proof (ok_ids _ Hok' _ _ Hi) as Hlt. rewrite Hn in Hlt.
      destruct (lookup_lt_is_Some_2 batch (Z.to_nat (i - next_result_id db))) as [r0 Hr0]; [lia|].
      destruct (Hnew _ _ Hr0) as [e He]. rewrite Z2Nat.id, Zplus_minus, Hi in He by lia.
      injection He as ->. apply Hincl. simpl. apply in_map. apply list_elem_of_In.
      by eapply list_elem_of_lookup_2.
  - intros r Hr. apply in_app_or in Hr as [Hr|Hr].
    + destruct Hst as [(_ & -> & _)|P]; [done|].
      destruct (pr_done _ _ _ _ _ P r Hr) as (i & e & Hi). exists i, e.
      apply Hold; [by eapply ok_ids|]. split; [done|].
      rewrite List.Forall_forall in Hdone. destruct (Hdone r Hr) as [Hd Hrun].
      unfold removed. simpl. rewrite Hrun, Z.eqb_refl. simpl.
      rewrite (of_run_tickers run_id) by done. apply orb_false_iff. split.
      * apply not_true_iff_false. rewrite smem_In. apply Hdis. by apply in_map.
      * apply smem_In in Hd. rewrite Hd. by destruct remove_stale.
    + apply list_elem_of_In, list_elem_of_lookup in Hr as [k Hk].
      destruct (Hnew _ _ Hk) as [e He]. eauto.
  - intros i r Hr. rewrite Hoth by done. destruct Hst as [(_ & _ & -> & _)|P]; [done|].
    by apply (pr_others _ _ _ _ _ P).
Qed.

Lemma progress_all run_id desired bs : forall done db0 db db',
  Forall (of_run run_id) (done ++ concat bs) -> NoDup (map cr_ticker (done ++ concat bs)) ->
  incl (map cr_ticker (done ++ concat bs)) desired ->
  progress run_id desired done db0 db ->
  st_for bs (fun batch => _persist_combined_batch run_id batch desired false) db = (Ok tt, db') ->
  progress run_id desired (done ++ concat bs) db0 db'.
Proof.
  induction bs as [|b bs IH]; intros done db0 db db' HF ND Hincl P E; simpl in *.
  { injection E as <-. by rewrite app_nil_r. }
  apply st_bind_Ok in E as ([] & db1 & E1 & E). rewrite app_assoc in *.
  apply IH with (db := db1); try done. apply Forall_app in HF as [HF _].
  apply Forall_app in HF as [HFd HFb]. rewrite map_app in ND. apply NoDup_app in ND as (ND & _ & _).
  rewrite map_app in ND. apply NoDup_app in ND as (_ & Hdis & _).
  assert (Hd : incl (map cr_ticker done) desired /\ incl (map cr_ticker b) desired).
  { rewrite !map_app in Hincl. split; intros t Ht; apply Hincl; rewrite !in_app_iff; auto. }
  eapply (progress_step run_id desired done b false db0 db); try done.
  - apply Hd.
  - intros t Ht Ht'. apply (Hdis t); by apply list_elem_of_In.
  - by right.
  - rewrite List.Forall_forall in HFd |- *. intros r Hr.
    split; [apply (proj1 Hd), in_map; exact Hr|]. by apply HFd.
Qed.

Lemma persist_results_spec run_id results db db' :
  combined_ok db -> Forall (of_run run_id) results -> NoDup (map cr_ticker results) ->
  persist_results run_id results db = (Ok tt, db') ->
  progress run_id (map cr_ticker results) results db db'.
Proof.
  intros Hok HF ND E. unfold persist_results in E. cbv zeta in E.
  rewrite (of_run_tickers run_id) in E by done.
  pose proof (batches_concat (length results) results ltac:(lia)) as Hb.
  destruct (batches_of (length results) results) as [|first rest]; simpl in Hb.
  - subst results. apply (progress_step run_id [] [] [] true db db db'); first [done|by left|by intros ?].
  - apply st_bind_Ok in E as ([] & db1 & E1 & E). subst results.
    eapply (progress_all run_id _ rest first db db1); [done|done|by intros t|..|done].
    apply Forall_app in HF as [HF1 _].
    eapply (progress_step run_id _ [] first true db db); try done.
    + intros t Ht. rewrite map_app. apply in_or_app. by left.
    + by left.
Qed.

(** ** The ranking *)

Lemma unique_rows_spec rows :
  NoDup (map (fun r => upper (rc_ticker r)) (_unique_rows rows)) /\
  (forall t, In t (map (fun r => upper (rc_ticker r)) (_unique_rows rows)) <->
             In t (map (fun r => upper (rc_ticker r)) rows)).
Proof.
  unfold _unique_rows.
  enough (G : forall seen, NoDup (map (fun r => upper (rc_ticker r)) (unique_rows seen rows)) /\
    (forall t, In t (map (fun r => upper (rc_ticker r)) (unique_rows seen rows)) <->
               In t (map (fun r => upper (rc_ticker r)) rows) /\ ~ In t seen)).
  { destruct (G []) as [ND I]. split; [done|]. intros t. rewrite I. simpl. tauto. }
  induction rows as [|row rows IH]; intros seen; simpl; [split; [constructor|tauto]|].
  destruct (smem (upper (rc_ticker row)) seen) eqn:Hs.
  - destruct (IH seen) as [ND I]. split; [done|]. intros t. rewrite I. apply smem_In in Hs.
    split; [tauto|]. intros [[<-|Ht] Hn]; tauto.
  - destruct (IH (upper (rc_ticker row) :: seen)) as [ND I].
    assert (~ In (upper (rc_ticker row)) seen) by (rewrite <- smem_In; congruence).
    simpl. split.
    + constructor; [|done]. rewrite list_elem_of_In, I. simpl. tauto.
    + intros t. rewrite I. simpl.
      destruct (decide (upper (rc_ticker row) = t)) as [<-|]; tauto.
Qed.

(** The decisions of the validated rows. *)
Lemma decisions_spec run_id config fundamentals technicals cohort rows validated decisions :
  map_result (validate_row run_id fundamentals technicals) rows = Ok validated ->
  map_result (decide_row config cohort) validated = Ok decisions ->
  map (fun di => cd_ticker di.1) decisions = map (fun r => upper (rc_ticker r)) rows /\
  Forall (fun di : CombinedDecision * pyval => proper_key (decision_key di.1)) decisions.
Proof.
  intros Hv Hd. apply map_result_Forall2 in Hv, Hd. revert decisions Hd.
  induction Hv as [|row v rows validated Hrow _ IH]; intros decisions Hd;
    inversion_clear Hd as [|? [d i] ? ds Hd1 Hds]; simpl; [done|].
  destruct (IH ds Hds) as [IH1 IH2]. unfold validate_row in Hrow.
  destruct (dict_find _ fundamentals) as [f|]; [|done]. destruct (dict_find _ technicals) as [t|]; [|done].
  apply result_bind_Ok in Hrow as (si & _ & Hrow). apply Ok_inj in Hrow. subst v.
  unfold decide_row in Hd1. simpl in Hd1. apply result_bind_Ok in Hd1 as (d' & Hd' & E).
  apply result_bind_Ok in E as (i' & _ & E). apply Ok_inj in E. injection E as -> ->.
  apply combine_decided in Hd' as (f' & t' & p & l & tally & r & lb & b & re & D).
  destruct D as [_ _ _ _ _ _ _ Hscore _ _ _ Hticker _]. split; [by rewrite Hticker, IH1|]. constructor; [|done]. unfold proper_key, decision_key. simpl.
  assert (Hb : fle f0 (cd_final_score d) = true) by (rewrite Hscore; by apply fclamp_bounds).
  apply fle_nan_r in Hb. by destruct (cd_final_score d).
Qed.

Lemma ranked_spec run_id ds : forall rank,
  map cr_final_rank (ranked run_id rank ds) = seqZ rank (Z.of_nat (length ds)) /\
  map cr_decision (ranked run_id rank ds) = map fst ds /\
  map cr_ticker (ranked run_id rank ds) = map (fun di => cd_ticker di.1) ds /\
  Forall (fun r => cr_run_id r = run_id) (ranked run_id rank ds).
Proof.
  induction ds as [|[d i] ds IH]; intros rank; simpl; [done|].
  destruct (IH (rank + 1)) as (-> & -> & -> & HF). rewrite (seqZ_cons rank) by lia.
  replace (Z.pred (Z.of_nat (S (length ds)))) with (Z.of_nat (length ds)) by lia.
  split_and!; try done. by constructor.
Qed.

Lemma sorted_map {A B} (f : A -> B) (R : B -> B -> Prop) l :
  StronglySorted (fun a b => R (f a) (f b)) l -> StronglySorted R (map f l).
Proof.
  induction 1 as [|x l Hl IH Hx]; simpl; constructor; [done|]. by rewrite Forall_fmap.
Qed.
Lemma sorted_map_inv {A B} (f : A -> B) (R : B -> B -> Prop) l :
  StronglySorted R (map f l) -> StronglySorted (fun a b => R (f a) (f b)) l.
Proof.
  induction l as [|x l IH]; simpl; intros H; [constructor|].
  apply StronglySorted_inv in H as [H1 H2]. constructor; [auto|]. by rewrite Forall_fmap in H2.
Qed.

(** What a successful refresh computes and persists. *)
Lemma refresh_inv run_id config source_evidence db results db' :
  refresh_combined_results run_id config source_evidence db = (Ok results, db') ->
  exists decisions, results = ranked run_id 1 (sort_by decision_leb decisions) /\
    Forall (fun di : CombinedDecision * pyval => proper_key (decision_key di.1)) decisions /\
    map (fun di => cd_ticker di.1) decisions =
      map (fun r => upper (rc_ticker r)) (_unique_rows (_rows_for_run db run_id)) /\
    persist_results run_id results db = (Ok tt, db').
Proof.
  unfold refresh_combined_results. intros E.
  change (st_bind st_get ?f db) with (f db db) in E. cbv beta zeta in E.
  apply st_bind_Ok in E as (fs & d1 & E1 & E). apply st_lift_Ok in E1 as [_ ->].
  apply st_bind_Ok in E as (ts & d1 & E1 & E). apply st_lift_Ok in E1 as [_ ->].
  apply st_bind_Ok in E as (vs & d1 & E1 & E). apply st_lift_Ok in E1 as [Hv ->].
  apply st_bind_Ok in E as ([] & d1 & E1 & E). apply st_lift_Ok in E1 as [_ ->].
  apply st_bind_Ok in E as (ds & d1 & E1 & E). apply st_lift_Ok in E1 as [Hd ->].
  apply st_bind_Ok in E as ([] & d1 & E1 & E).
  assert (d1 = db) as ->.
  { revert E1. generalize (ranked run_id 1 (sort_by decision_leb ds)) at 1. intros l.
    induction l as [|r l IH]; simpl; intros E1; [by injection E1|].
    apply st_bind_Ok in E1 as ([] & d4 & E4 & E1). apply st_lift_Ok in E4 as [_ ->]. auto. }
  apply st_bind_Ok in E as ([] & d2 & E2 & E). injection E as <- <-.
  destruct (decisions_spec _ _ _ _ _ _ _ _ Hv Hd). exists ds. auto.
Qed.

(** The results of a refresh are ranked 1, 2, 3, ... in the order of the cockpit (bucket,
    descending score, ticker), and there is exactly one for every ticker among the rows of
    the run. *)
Theorem refresh_ranks_cockpit_order run_id config source_evidence db results db' :
  refresh_combined_results run_id config source_evidence db = (Ok results, db') ->
  map cr_final_rank results = seqZ 1 (Z.of_nat (length results)) /\
  StronglySorted (fun a b => cockpit_leb (decision_key (cr_decision a)) (decision_key (cr_decision b)) = true)
    results /\
  NoDup (map cr_ticker results) /\
  (forall ticker, In ticker (map cr_ticker results) <->
     exists row, In row (raw_company_rows db) /\ rc_run_id row = run_id /\
       ticker = upper (rc_ticker row)).
Proof.
  intros E. apply refresh_inv in E as (ds & -> & HP & Ht & _).
  destruct (ranked_spec run_id (sort_by decision_leb ds) 1) as (Hr & Hd & Hk & _).
  destruct (unique_rows_spec (_rows_for_run db run_id)) as [ND Hin].
  assert (Hperm : map (fun di : CombinedDecision * pyval => cd_ticker di.1) (sort_by decision_leb ds) ≡ₚ
                  map (fun r => upper (rc_ticker r)) (_unique_rows (_rows_for_run db run_id))).
  { rewrite <- Ht. apply Permutation_map, sort_by_Permutation. }
  split_and!.
  - rewrite Hr. f_equal. rewrite <- (length_map fst (sort_by decision_leb ds)), <- Hd, length_map. done.
  - apply (sorted_map_inv cr_decision (fun a b => cockpit_leb (decision_key a) (decision_key b) = true)).
    rewrite Hd. apply sorted_map.
    apply (sort_by_sorted_on decision_leb (fun di => proper_key (decision_key di.1))); [| |done].
    + intros x y. apply cockpit_leb_total.
    + intros x y z. apply cockpit_leb_trans.
  - by rewrite Hk, Hperm.
  - intros ticker. rewrite Hk. rewrite <- list_elem_of_In, Hperm, list_elem_of_In, Hin.
    rewrite in_map_iff. unfold _rows_for_run. split.
    + intros (row & <- & Hrow). rewrite sort_by_In, filter_In in Hrow. exists row.
      destruct Hrow as [? ?]. split_and!; [done|lia|done].
    + intros (row & H1 & H2 & ->). exists row. split; [done|].
      rewrite sort_by_In, filter_In. split; [done|lia].
Qed.

(** C13: A refresh that returns has replaced the results of its run: the stored results of the
    run are the returned ones, each with its evidence attached, and the results of other
    runs are as before. *)
Theorem refresh_replaces_run run_id config source_evidence db results db' :
  combined_ok db ->
  refresh_combined_results run_id config source_evidence db = (Ok results, db') ->
  (forall r, In r results -> exists i e,
     combined_results db' !! i = Some (set_evidence_id (Some e) r)) /\
  (forall i r, combined_results db' !! i = Some r -> cr_run_id r = run_id ->
     exists r0 e, In r0 results /\ r = set_evidence_id (Some e) r0) /\
  (forall i r, cr_run_id r <> run_id ->
     combined_results db' !! i = Some r <-> combined_results db !! i = Some r).
Proof.
  intros Hok E. apply refresh_inv in E as (ds & -> & _ & Ht & E).
  destruct (ranked_spec run_id (sort_by decision_leb ds) 1) as (_ & _ & Hk & HF).
  set (results := ranked _ _ _) in *.
  destruct (unique_rows_spec (_rows_for_run db run_id)) as [ND _]. rewrite <- Ht in ND.
  assert (Hup : Forall (of_run run_id) results).
  { apply List.Forall_forall. intros r Hr. split; [by rewrite List.Forall_forall in HF; apply HF|].
    assert (Hin : In (cr_ticker r) (map (fun di : CombinedDecision * pyval => cd_ticker di.1) ds)).
    { apply list_elem_of_In. rewrite <- (Permutation_map _ (sort_by_Permutation decision_leb ds)).
      rewrite <- Hk. apply list_elem_of_In. by apply in_map. }
    rewrite Ht, in_map_iff in Hin. destruct Hin as (row & <- & _). apply upper_idem. }
  assert (ND' : NoDup (map cr_ticker results)).
  { rewrite Hk. by rewrite (Permutation_map _ (sort_by_Permutation decision_leb ds)). }
  destruct (persist_results_spec run_id results db db' Hok Hup ND' E) as [Hok' Hdes Hdone Hoth].
  split_and!; [done| |done].
  intros i r Hi Hr. pose proof (Hdes i r Hi Hr) as Hin. apply in_map_iff in Hin as (r0 & Hr0 & Hin).
  destruct (Hdone r0 Hin) as (j & e & Hj). exists r0, e. split; [done|].
  assert (i = j) as ->.
  { eapply (ok_unique _ Hok' i j); [done|done| |]; simpl; [|done].
    rewrite List.Forall_forall in Hup. by destruct (Hup r0 Hin) as [-> _]. }
  congruence.
Qed.

End Run.
