(* ===== verification/CombinedExamples.v ===== *)
(** * Examples of combined decisions

    An authority that admits every row, the configuration of [config/scoring_weights.yaml],
    and small runs; the theorems of [CombinedFacts] and [CombinedRun] are applied to
    them. *)
From Stdlib Require Import ZArith Lia List String Bool Sorted.
From stdpp Require Import base gmap list strings.
From S2P Require Import Prelude PyDate PyFloat PyValue Calendar Canonical PyDecimal PriceBars Signals.
From S2P Require Import ScoreWarnings CombinedDecision CombinedFacts CombinedRun.
Local Open Scope string_scope.
Local Open Scope list_scope.
Local Open Scope Z_scope.

#[local] Instance plain_text : PyText := {| str_other := fun _ => ""; set_order := fun l => l |}.
#[local] Instance no_decimals : BarText := {| decimal_of_float := fun _ => Dec 0 0; md5 := fun s => s |}.

Definition permission (reasons : list string) : dict :=
  [("decision", VDict [("reasons", VList (map VStr reasons))])].

(** Every row is admitted; a row whose confidence is "research" for research only. *)
#[local] Instance admitting : CombinedAuthority := {|
  technical_decision_input := fun _ t =>
    Ok (t, permission (if label_is (t ≫= ts_technical_confidence) "research"
                       then ["CERTIFIED_STRATEGY_RESTRICTION_ONLY"] else []));
  contextual_decision_input := fun f => Ok (f, permission []);
  _stable_hash := fun _ => "hash";
  validate_sources := fun _ _ _ _ => Ok (mkSourceIdentity (mk_date 2026 7 7) VNone);
  compatible_context := fun _ _ => true;
  output_identity := fun _ _ => Ok VNone;
  embed_calculation_identity := fun d i => dict_set "calculation_identity" i d;
  declare_core_evidence_mutation := fun _ => Ok tt;
  persist_core_evidence := fun i _ => Ok (1000 + i);
  record_fundamental_admission := fun _ => Ok tt;
|}.

Definition tenths (n : Z) : pyval := VFloat (float_ratio n 10).

(** [config/scoring_weights.yaml]. *)
Definition scoring_config : dict :=
  [("combined_score", VDict [("fundamental_score", VFloat (float_ratio 55 100));
                             ("dual_score", VFloat (float_ratio 45 100))]);
   ("penalties", VDict [("danger_classification", tenths 30); ("overheated_momentum", tenths 15);
      ("value_trap_risk", tenths 20); ("growth_trap_risk", tenths 15); ("quality_risk", tenths 15);
      ("missing_data", tenths 10); ("liquidity_warning", tenths 10)]);
   ("labels", VDict [("strong_candidate_min_score", tenths 80); ("candidate_min_score", tenths 68);
      ("watch_min_score", tenths 55)]);
   ("earnings_risk_gate", VDict [("enabled", VBool true); ("missing_date_policy", VStr "warn")])].

Definition company (n : Z) (ticker : string) (earnings : option date) : RawCompanyRow :=
  mkRawCompanyRow n 1 n ticker None None earnings [].
Definition fundamentals_of (n : Z) (ticker : string) (score : Z) : FundamentalScore :=
  mkFundamentalScore n 1 ticker (Some n) (Some (Dec score (-3))) (Some "Clean compounder") None None.
Definition technicals_of (n : Z) (ticker : string) (score : Z) (classification : string)
    : TechnicalScore :=
  mkTechnicalScore n 1 ticker (Some n) (Some (Dec score (-3))) (Some classification)
    (Some (Dec 25 (-1))) (Some "high") None false (VList []) None.

Definition today : date := mk_date 2026 7 7.
Definition far : option date := Some (mk_date 2026 9 1).

Definition decide_example (earnings : option date) (score dual : Z) (classification : string)
    : result CombinedDecision :=
  combine_row_decision (company 1 "msft" earnings) (Some (fundamentals_of 1 "msft" score))
    (Some (technicals_of 1 "msft" dual classification)) scoring_config today.

(** Outcomes of the decision: label, size, whether the score is the expected one. *)
Definition brief (r : result CombinedDecision) : option (string * string * float * list string) :=
  match r with
  | Ok d => Some (cd_combined_decision d, cd_position_size_hint d, cd_final_score d, cd_warning_flags d)
  | Raise _ => None
  end.

Example strong_setup :
  brief (decide_example far 8800 8600 "Prime clean pullback") =
  Some ("Strong candidate", "Full starter", float_ratio 871 100, []).
Proof. vm_compute. reflexivity. Qed.
Example failed_breakout :
  brief (decide_example far 9000 8500 "Failed breakout") =
  Some ("Avoid", "Avoid", float_ratio 5775 1000, []).
Proof. vm_compute. reflexivity. Qed.
Example blocked_by_earnings :
  brief (decide_example (Some (mk_date 2026 7 9)) 9000 9000 "Fresh breakout") =
  Some ("Blocked by earnings gate", "No new entry", float_of_Z 6, ["earnings_blocked"]).
Proof. vm_compute. reflexivity. Qed.

Lemma final_score_bounded_witness :
  match decide_example far 8800 8600 "Prime clean pullback" with
  | Ok d => fle f0 (cd_final_score d) = true /\ fle (cd_final_score d) (float_of_Z 10) = true
  | Raise _ => False
  end.
Proof.
  destruct (decide_example far 8800 8600 "Prime clean pullback") as [d|e] eqn:E.
  - exact (final_score_bounded _ _ _ _ _ d E).
  - vm_compute in E. discriminate.
Defined.


Lemma earnings_gate_windows_witness :
  match calculate_earnings_risk (Some (today + 2)) true today (VDict []) with
  | Ok r => er_decision_blocked r = true
  | Raise _ => False
  end.
Proof.
  destruct (calculate_earnings_risk (Some (today + 2)) true today (VDict [])) as [r|e] eqn:E.
  - apply (earnings_gate_windows (today + 2) true today (VDict []) DEFAULT_EARNINGS_RISK_GATE_CONFIG
             (VBool true) 2 5 10 r); [vm_compute; reflexivity..|exact E|lia].
  - vm_compute in E. discriminate.
Defined.

(** ** The evidence of a score *)

(** The evidence of a decision is said to reconstruct its score: it keeps the weighted
    score and the penalties rounded to six digits.  For scores with three digits the
    reconstruction differs from the stored score in the fourth digit, without any
    penalty. *)
Theorem score_not_reconstructible :
  match decide_example far 4754 5273 "Fresh breakout" with
  | Ok d => cd_final_score d = float_ratio 49876 10000 /\
      reconstruct_combined_score_from_debug (cd_debug_evidence d) = Ok (float_ratio 49875 10000)
  | Raise _ => False
  end.
Proof. vm_compute. split; reflexivity. Qed.

(** ** A run *)

Definition stale_result : CombinedResult :=
  mkCombinedResult 1 "OLD" (Some 7) 1 None None None
    (match decide_example far 8800 8600 "" with Ok d => d | Raise _ =>
       mkCombinedDecision "" None None f0 None None None None "" "" (_result None None "" "") "" []
         false false false false 0 [] end)
    "" VNone [].

Definition run_db : CombinedDb :=
  mkCombinedDb [company 1 "aaa" far; company 2 "bbb" far; company 3 "AAA" far]
    [fundamentals_of 11 "aaa" 7000; fundamentals_of 12 "bbb" 9000]
    [technicals_of 11 "aaa" 7000 "Fresh breakout"; technicals_of 12 "bbb" 9000 "Fresh breakout"]
    {[5 := stale_result]} {[1 := mkPredictionLink 1 (Some 5)]} 6.

Definition pins : list (string * list (string * Z)) :=
  [("aaa", [("fundamental", 11); ("technical", 11)]);
   ("bbb", [("fundamental", 12); ("technical", 12)])].

Definition refreshed : result (list CombinedResult) * CombinedDb :=
  refresh_combined_results 1 scoring_config pins run_db.

Example refreshed_ranks :
  match refreshed.1 with
  | Ok rs => map (fun r => (cr_ticker r, cr_final_rank r)) rs = [("BBB", 1); ("AAA", 2)]
  | Raise _ => False
  end /\
  map (fun ir => (ir.1, cr_ticker ir.2, cr_evidence_id ir.2)) (map_to_list (combined_results refreshed.2)) =
    [(7, "AAA", Some 1007); (6, "BBB", Some 1006)] /\
  prediction_links refreshed.2 !! 1 = Some (mkPredictionLink 1 None).
Proof. vm_compute. auto. Qed.

Lemma run_db_ok : combined_ok run_db.
Proof.
  split; cbn [run_db combined_results prediction_links next_result_id].
  - intros i r Hi. apply lookup_singleton_Some in Hi as [<- _]. reflexivity.
  - intros i j a b Ha Hb _ _. apply lookup_singleton_Some in Ha as [<- _].
    apply lookup_singleton_Some in Hb as [<- _]. reflexivity.
  - intros p l i Hp Hl. apply lookup_singleton_Some in Hp as [_ <-]. injection Hl as <-.
    exists stale_result. apply lookup_singleton_eq.
Qed.

Lemma refresh_keeps_integrity_witness : combined_ok refreshed.2.
Proof.
  apply (refresh_keeps_integrity 1 scoring_config pins run_db refreshed.1 refreshed.2 run_db_ok).
  unfold refreshed. destruct (refresh_combined_results _ _ _ _). reflexivity.
Defined.

Lemma refresh_ranks_cockpit_order_witness :
  match refreshed.1 with
  | Ok results => map cr_final_rank results = seqZ 1 (Z.of_nat (length results)) /\
      NoDup (map cr_ticker results)
  | Raise _ => False
  end.
Proof.
  unfold refreshed. destruct (refresh_combined_results 1 scoring_config pins run_db) as [[rs|e] db'] eqn:E.
  - destruct (refresh_ranks_cockpit_order _ _ _ _ _ _ E) as (A & _ & B & _). exact (conj A B).
  - vm_compute in E. discriminate.
Defined.

Lemma refresh_replaces_run_witness :
  match refreshed.1 with
  | Ok results => forall r, In r results -> exists i e,
      combined_results refreshed.2 !! i = Some (set_evidence_id (Some e) r)
  | Raise _ => False
  end.
Proof.
  unfold refreshed. destruct (refresh_combined_results 1 scoring_config pins run_db) as [[rs|e] db'] eqn:E.
  - exact (proj1 (refresh_replaces_run _ _ _ _ _ _ run_db_ok E)).
  - vm_compute in E. discriminate.
Defined.
