(* ===== verification/FloatRange.v ===== *)
(** * Floats that are numbers

    A conversion from an integer, a fraction or a decimal is never a NaN: rounding keeps a
    non-negative mantissa non-negative.  On numbers, equality is an equivalence that the
    order respects.  The second part is about clamped scores: rounding keeps them in their
    range. *)
From Stdlib Require Import ZArith Lia Bool List String.
From Stdlib Require Import Floats.SpecFloat.
From stdpp Require Import base list.
From S2P Require Import Prelude PyFloat FloatFacts PyValue Signals.
Local Open Scope Z_scope.

Lemma shr_fexp_nonneg m e l : 0 <= m -> 0 <= shr_m (shr_fexp prec emax m e l).1.
Proof.
  intros Hm. unfold shr_fexp.
  assert (H : 0 <= shr_m (shr_record_of_loc m l)) by (destruct l as [|[]]; done).
  destruct (_ - e) as [|p|p]; cbn [shr fst]; [done| |done]. by apply iter_shr_m.
Qed.

Lemma round_aux_number s m e l : 0 <= m -> is_nan (binary_round_aux prec emax s m e l) = false.
Proof.
  intros Hm. unfold binary_round_aux.
  pose proof (shr_fexp_nonneg m e l Hm) as H1. destruct (shr_fexp prec emax m e l) as [mrs e']. cbn [fst] in H1.
  assert (H2 : 0 <= round_nearest_even (shr_m mrs) (loc_of_shr_record mrs)).
  { destruct (round_nearest_even_cases (shr_m mrs) (loc_of_shr_record mrs)); lia. }
  pose proof (shr_fexp_nonneg _ e' loc_Exact H2) as H3.
  destruct (shr_fexp prec emax _ e' loc_Exact) as [mrs' e'']. cbn [fst] in H3.
  destruct (shr_m mrs') as [|p|p]; [done| |lia]. by destruct (e'' <=? emax - prec).
Qed.

Lemma float_of_Z_number n : is_nan (float_of_Z n) = false.
Proof.
  unfold float_of_Z, binary_normalize, binary_round.
  destruct n as [|p|p]; [done| |]; destruct (shl_align _ _ _); by apply round_aux_number.
Qed.

Lemma fdiv_finite_number s m e s' m' e' : is_nan (fdiv (S754_finite s m e) (S754_finite s' m' e')) = false.
Proof.
  unfold fdiv, SFdiv, SFdiv_core_binary. set (num := match _ with Z0 => _ | _ => _ end).
  assert (H : 0 <= num).
  { unfold num. destruct (_ - _) as [|p|p]; [lia| |lia]. apply Z.shiftl_nonneg. lia. }
  pose proof (Z.div_pos num (Zpos m') H ltac:(lia)) as Hq. unfold Z.div in Hq.
  destruct (Z.div_eucl num (Zpos m')) as [q r]. by apply round_aux_number.
Qed.

Lemma float_ratio_number n d : is_nan (float_ratio n d) = false.
Proof. destruct n; [done| |]; apply fdiv_finite_number. Qed.

Lemma float_of_decimal_number c e : is_nan (float_of_decimal c e) = false.
Proof.
  unfold float_of_decimal. destruct (0 <=? e); [apply float_of_Z_number|apply float_ratio_number].
Qed.

Lemma fopp_number x : is_nan (fopp x) = is_nan x.
Proof. by destruct x. Qed.

(** [a] and [b] are equal as keys when neither is less. *)
Lemma feq_sym x y : is_nan x = false -> is_nan y = false -> feq x y = feq y x.
Proof.
  intros Hx Hy. destruct (feq x y) eqn:E.
  - apply feq_spec in E; [|done..]. symmetry. by apply feq_spec.
  - destruct (feq y x) eqn:E'; [|done]. apply feq_spec in E'; [|done..].
    assert (feq x y = true) by (by apply feq_spec). congruence.
Qed.

Lemma feq_flt_l x y z : is_nan x = false -> is_nan y = false -> feq x y = true -> flt y z = flt x z.
Proof.
  intros Hx Hy E. apply feq_spec in E; [|done..]. apply eq_bool_prop_intro.
  split; intros H; apply Is_true_true in H; apply Is_true_true; rewrite flt_key in *; by rewrite ?E, <- ?E in *.
Qed.
Lemma feq_flt_r x y z : is_nan y = false -> is_nan z = false -> feq y z = true -> flt x y = flt x z.
Proof.
  intros Hx Hy E. apply feq_spec in E; [|done..]. apply eq_bool_prop_intro.
  split; intros H; apply Is_true_true in H; apply Is_true_true; rewrite flt_key in *; by rewrite ?E, <- ?E in *.
Qed.
Lemma feq_trans x y z : is_nan x = false -> is_nan y = false -> is_nan z = false ->
  feq x y = true -> feq y z = feq x z.
Proof.
  intros Hx Hy Hz E. apply feq_spec in E; [|done..].
  apply eq_bool_prop_intro. split; intros H; apply Is_true_true in H; apply Is_true_true;
    apply feq_spec in H; try done; apply feq_spec; congruence.
Qed.

(** * Clamped and rounded scores

    [round(max(0.0, min(10.0, x)), 4)]: the rounding to four decimals of a float between zero
    and ten is again between zero and ten.  A float is slim when its mantissa has at most 53
    bits; every result of an arithmetic operation is. *)
From Stdlib Require Import ZArith Lia Bool List.
From Stdlib Require Import Floats.SpecFloat.
From stdpp Require Import base list.
From S2P Require Import Prelude PyFloat FloatFacts.
Local Open Scope Z_scope.

(** ** The mantissa of a result *)

Lemma shr_fexp_m m e l : 0 <= m ->
  let n := Z.max 0 (SpecFloat.fexp prec emax (Zdigits2 m + e) - e) in
  shr_m (shr_fexp prec emax m e l).1 = m / 2 ^ n /\ (shr_fexp prec emax m e l).2 = e + n.
Proof.
  intros Hm n. unfold shr_fexp. subst n.
  assert (Hr : shr_m (shr_record_of_loc m l) = m) by (by destruct l as [|[]]).
  destruct (SpecFloat.fexp prec emax (Zdigits2 m + e) - e) as [|k|k] eqn:E; cbn [shr fst snd].
  - rewrite Hr, Z.div_1_r. split; [done|lia].
  - replace (Z.max 0 (Zpos k)) with (Zpos k) by lia. split; [|lia].
    destruct (iter_shr_m k (shr_record_of_loc m l)) as [H _]; [by rewrite Hr|]. by rewrite H, Hr.
  - rewrite Hr, Z.div_1_r. split; [done|lia].
Qed.

Lemma digits2_spec m : 0 < m -> 2 ^ (Zdigits2 m - 1) <= m < 2 ^ Zdigits2 m /\ 1 <= Zdigits2 m.
Proof. destruct m as [|p|p]; [done| |lia]. intros _. pose proof (digits_spec p). unfold digits in *. simpl. tauto. Qed.

Definition slim (x : float) : Prop :=
  match x with S754_finite _ m _ => Zpos m < 2 ^ 53 | _ => True end.

(** One shift leaves at most 53 bits. *)
Lemma shifted_slim m e l : 0 <= m -> shr_m (shr_fexp prec emax m e l).1 < 2 ^ 53.
Proof.
  intros Hm. destruct (shr_fexp_m m e l Hm) as [-> _]. rewrite fexp_spec.
  set (n := Z.max 0 (Z.max (Zdigits2 m + e - 53) (-1074) - e)).
  destruct (decide (m = 0)) as [->|H0]; [by rewrite Z.div_0_l by (apply Z.pow_nonzero; lia)|].
  destruct (digits2_spec m ltac:(lia)) as [Hd _]. apply Z.div_lt_upper_bound; [lia|].
  rewrite <- Z.pow_add_r by lia. eapply Z.lt_le_trans; [apply Hd|]. apply Z.pow_le_mono_r; lia.
Qed.

Lemma round_aux_slim s m e l : 0 <= m -> slim (binary_round_aux prec emax s m e l).
Proof.
  intros Hm. unfold binary_round_aux.
  pose proof (shr_fexp_nonneg m e l Hm) as H1. destruct (shr_fexp prec emax m e l) as [mrs e']. cbn [fst] in H1.
  assert (H2 : 0 <= round_nearest_even (shr_m mrs) (loc_of_shr_record mrs)).
  { destruct (round_nearest_even_cases (shr_m mrs) (loc_of_shr_record mrs)); lia. }
  pose proof (shifted_slim _ e' loc_Exact H2) as H3.
  destruct (shr_fexp prec emax _ e' loc_Exact) as [mrs' e'']. cbn [fst] in H3.
  destruct (shr_m mrs') as [|p|p]; [done| |done]. by destruct (e'' <=? emax - prec).
Qed.

Lemma normalize_slim m e s : slim (binary_normalize prec emax m e s).
Proof.
  unfold binary_normalize, binary_round. destruct m as [|p|p]; [done| |]; destruct (shl_align _ _ _);
    by apply round_aux_slim.
Qed.

Lemma fmul_slim x y : slim (fmul x y).
Proof.
  unfold fmul. destruct x as [| | |s m e], y as [| | |s' m' e']; try done. cbn [SFmul]. by apply round_aux_slim.
Qed.
Lemma fdiv_slim x y : slim (fdiv x y).
Proof.
  unfold fdiv. destruct x as [| | |s m e], y as [| | |s' m' e']; try done. unfold SFdiv, SFdiv_core_binary.
  set (num := match _ with Z0 => _ | _ => _ end).
  assert (H : 0 <= num).
  { unfold num. destruct (_ - _) as [|p|p]; [lia| |lia]. apply Z.shiftl_nonneg. lia. }
  pose proof (Z.div_pos num (Zpos m') H ltac:(lia)) as Hq. unfold Z.div in Hq.
  destruct (Z.div_eucl num (Zpos m')) as [q r]. by apply round_aux_slim.
Qed.
Lemma fadd_slim x y : slim x -> slim y -> slim (fadd x y).
Proof.
  intros Hx Hy. unfold fadd. destruct x as [s|s| |s m e], y as [s'|s'| |s' m' e']; try done; cbn [SFadd];
    first [by destruct s, s' | apply normalize_slim].
Qed.
Lemma fsub_slim x y : slim x -> slim y -> slim (fsub x y).
Proof.
  intros Hx Hy. unfold fsub. destruct x as [s|s| |s m e], y as [s'|s'| |s' m' e']; try done; cbn [SFsub];
    first [by destruct s, s' | apply normalize_slim].
Qed.
(** A finite summand other than zero suffices. *)
Lemma fadd_slim_l s m e y : Zpos m < 2 ^ 53 -> slim (fadd (S754_finite s m e) y).
Proof. intros Hm. destruct y as [| | |s' m' e']; try done. apply normalize_slim. Qed.

Lemma float_ratio_slim n d : slim (float_ratio n d).
Proof. destruct n; [done| |]; apply fdiv_slim. Qed.
Lemma fopp_slim x : slim (fopp x) <-> slim x.
Proof. by destruct x. Qed.
Lemma float_of_Z_slim n : slim (float_of_Z n).
Proof. apply normalize_slim. Qed.
Lemma round_digits_slim k x : slim (py_round_digits k x).
Proof.
  destruct x as [| | |s m e]; try done. unfold py_round_digits. destruct (scaled_fraction m e (10 ^ k)) as [n d].
  destruct (round_half_even n d); [done| |done]. destruct s; rewrite ?fopp_slim; apply float_ratio_slim.
Qed.
Lemma fmax_slim x y : slim x -> slim y -> slim (fmax x y).
Proof. unfold fmax. by destruct (fgt y x). Qed.
Lemma fmin_slim x y : slim x -> slim y -> slim (fmin x y).
Proof. unfold fmin. by destruct (flt y x). Qed.

Create HintDb slim.
#[export] Hint Resolve fmul_slim fdiv_slim fadd_slim fsub_slim float_ratio_slim float_of_Z_slim round_digits_slim
  fmax_slim fmin_slim : slim.

(** ** Rounding below ten *)

Abbreviation ten := (float_of_Z 10).
Lemma ten_value : ten = S754_finite false 5629499534213120 (-49).
Proof. vm_compute. reflexivity. Qed.

Lemma fle_finite m e m' e' : fle (S754_finite false m e) (S754_finite false m' e') = true
  <-> e < e' \/ (e = e' /\ Zpos m <= Zpos m').
Proof.
  rewrite fle_key. split.
  - intros (a & b & [= <-] & [= <-] & [[= -> ->]|H]); [lia|]. cbn in H. lia.
  - intros H. exists (1, e, Zpos m), (1, e', Zpos m'). split_and!; [done|done|].
    destruct (decide (e = e' /\ m = m')) as [[-> ->]|]; [by left|]. right. cbn. destruct H as [|[-> H]]; [lia|].
    right. split; [done|]. right. split; [done|]. apply Z.le_neq. split; [done|]. intros [= ->]. tauto.
Qed.

(** A slim float at most ten has a value at most ten, in units of its exponent. *)
Lemma below_ten m e : Zpos m < 2 ^ 53 -> fle (S754_finite false m e) ten = true ->
  e <= -49 /\ Zpos m <= 10 * 2 ^ (- e).
Proof.
  intros Hm. rewrite ten_value, fle_finite. intros [H|[-> H]]; [|by split].
  assert (2 ^ 50 <= 2 ^ (- e)) by (apply Z.pow_le_mono_r; lia).
  change (2 ^ 53) with (8 * 2 ^ 50) in Hm. lia.
Qed.

Lemma round_half_even_le num den B : 0 <= num -> 0 < den -> num <= B * den -> round_half_even num den <= B.
Proof.
  intros Hn Hd H. unfold round_half_even. assert (num / den <= B) by (apply Z.div_le_upper_bound; lia).
  pose proof (Z.div_mod num den ltac:(lia)) as E. pose proof (Z.mod_pos_bound num den Hd).
  destruct (decide (num / den = B)) as [HB|HB].
  - assert (num mod den = 0) as -> by nia. rewrite Z.mul_0_r.
    destruct (Z.compare_spec 0 den) as [|_|]; lia.
  - destruct (Z.compare _ _); [destruct (Z.even _)|..]; lia.
Qed.

(** Rounding a mantissa of a value below ten stays at most ten. *)
Lemma round_aux_ten m e l : 0 < m -> e <= SpecFloat.fexp prec emax (Zdigits2 m + e) -> -1074 <= e <= -49 ->
  m < 10 * 2 ^ (- e) ->
  fle f0 (binary_round_aux prec emax false m e l) = true /\ fle (binary_round_aux prec emax false m e l) ten = true.
Proof.
  intros Hm Hf He Hb. unfold binary_round_aux. rewrite fexp_spec in Hf.
  assert (Hd : Zdigits2 m + e <= 4).
  { destruct (digits2_spec m Hm) as [[H1 _] _]. assert (2 ^ (Zdigits2 m - 1) < 2 ^ (4 - e)).
    { replace (4 - e) with (4 + - e) by lia. rewrite Z.pow_add_r by lia. change (2 ^ 4) with 16. lia. }
    apply Z.pow_lt_mono_r_iff in H; lia. }
  destruct (shr_fexp_m m e l ltac:(lia)) as [H1 H2]. rewrite fexp_spec in H1, H2.
  set (n := Z.max 0 (Z.max (Zdigits2 m + e - 53) (-1074) - e)) in *.
  destruct (shr_fexp prec emax m e l) as [mrs e1]. cbn [fst snd] in H1, H2. subst e1.
  assert (Hn : e + n <= -49) by lia.
  assert (H3 : shr_m mrs < 10 * 2 ^ (- (e + n))).
  { rewrite H1. apply Z.div_lt_upper_bound; [lia|].
    replace (2 ^ n * (10 * 2 ^ (- (e + n)))) with (10 * (2 ^ n * 2 ^ (- (e + n)))) by ring.
    rewrite <- Z.pow_add_r by lia. by replace (n + - (e + n)) with (- e) by lia. }
  assert (H0 : 0 <= shr_m mrs) by (rewrite H1; apply Z.div_pos; lia).
  set (q := round_nearest_even (shr_m mrs) (loc_of_shr_record mrs)).
  assert (Hq : 0 <= q <= 10 * 2 ^ (- (e + n)))
    by (subst q; destruct (round_nearest_even_cases (shr_m mrs) (loc_of_shr_record mrs)); lia).
  destruct (shr_fexp_m q (e + n) loc_Exact ltac:(lia)) as [H4 H5]. rewrite fexp_spec in H4, H5.
  set (k := Z.max 0 (Z.max (Zdigits2 q + (e + n) - 53) (-1074) - (e + n))) in *.
  destruct (shr_fexp prec emax q (e + n) loc_Exact) as [mrs' e2]. cbn [fst snd] in H4, H5. subst e2.
  destruct (decide (q = 0)) as [Hz|Hz].
  { rewrite H4, Hz, Z.div_0_l by (apply Z.pow_nonzero; lia). rewrite ten_value. done. }
  assert (Hdq : Zdigits2 q + (e + n) <= 4).
  { destruct (digits2_spec q ltac:(lia)) as [[H6 _] _]. assert (2 ^ (Zdigits2 q - 1) < 2 ^ (4 - (e + n))).
    { replace (4 - (e + n)) with (4 + - (e + n)) by lia. rewrite Z.pow_add_r by lia. change (2 ^ 4) with 16. lia. }
    apply Z.pow_lt_mono_r_iff in H; lia. }
  assert (Hk : e + n + k <= -49) by lia.
  assert (Hr : shr_m mrs' <= 10 * 2 ^ (- (e + n + k))).
  { rewrite H4. apply Z.div_le_upper_bound; [lia|].
    replace (2 ^ k * (10 * 2 ^ (- (e + n + k)))) with (10 * (2 ^ k * 2 ^ (- (e + n + k)))) by ring.
    rewrite <- Z.pow_add_r by lia. replace (k + - (e + n + k)) with (- (e + n)) by lia. lia. }
  assert (Hr0 : 0 <= shr_m mrs') by (rewrite H4; apply Z.div_pos; lia).
  destruct (shr_m mrs') as [|p|p]; [by rewrite ten_value| |lia].
  destruct (Z.leb_spec (e + n + k) (emax - prec)) as [_|H]; [|change (emax - prec) with 971 in H; lia].
  split; [done|]. rewrite ten_value. apply fle_finite.
  destruct (decide (e + n + k = -49)) as [E|]; [right|left; lia]. split; [done|]. rewrite E in Hr. lia.
Qed.

(** [q / 10000] for [q] up to a hundred thousand. *)
Lemma ratio_ten q : 0 < Zpos q <= 100000 ->
  fle f0 (float_ratio (Zpos q) 10000) = true /\ fle (float_ratio (Zpos q) 10000) ten = true.
Proof.
  intros Hq. destruct (decide (Zpos q = 100000)) as [E|]; [injection E as ->; by vm_compute|].
  destruct (digits_spec q) as [Hd1 Hd].
  assert (Hd17 : digits q <= 17).
  { assert (2 ^ (digits q - 1) < 2 ^ 17) by (change (2 ^ 17) with 131072; lia).
    apply Z.pow_lt_mono_r_iff in H; lia. }
  unfold float_ratio, fdiv, SFdiv, SFdiv_core_binary. fold (digits q).
  cbn [Zdigits2]. fold (digits q). change (Zpos (digits2_pos 10000)) with 14.
  replace (SpecFloat.fexp prec emax (digits q + 0 - (14 + 0))) with (digits q - 67)
    by (unfold SpecFloat.fexp; change (SpecFloat.emin prec emax) with (-1074); change prec with 53; lia).
  replace (Z.min (digits q - 67) (0 - 0)) with (digits q - 67) by lia.
  replace (0 - 0 - (digits q - 67)) with (67 - digits q) by lia.
  destruct (67 - digits q) as [|s|s] eqn:Es; [lia| |lia].
  rewrite Z.shiftl_mul_pow2 by lia. change (Bool.eqb false false) with true.
  assert (E2 : 2 ^ 66 <= Zpos q * 2 ^ Zpos s < 2 ^ 67).
  { rewrite <- Es. assert (0 < 2 ^ (67 - digits q)) by lia.
    split; [replace 66 with (digits q - 1 + (67 - digits q)) by lia
           |apply Z.lt_le_trans with (2 ^ (digits q + (67 - digits q))); [|by apply Z.pow_le_mono_r; lia]];
      rewrite Z.pow_add_r by lia; nia. }
  pose proof (Z.div_eucl_eq (Zpos q * 2 ^ Zpos s) 10000 ltac:(lia)) as Ed.
  pose proof (Z.mod_pos_bound (Zpos q * 2 ^ Zpos s) 10000 ltac:(lia)) as Hm. unfold Z.modulo in Hm.
  destruct (Z.div_eucl (Zpos q * 2 ^ Zpos s) 10000) as [Q r].
  change (2 ^ 66) with 73786976294838206464 in E2. change (2 ^ 67) with 147573952589676412928 in E2.
  assert (HQ : 2 ^ 52 < Q) by (change (2 ^ 52) with 4503599627370496; lia).
  destruct (digits2_spec Q ltac:(lia)) as [HQd HQ1].
  assert (53 <= Zdigits2 Q).
  { assert (2 ^ 52 < 2 ^ Zdigits2 Q) by lia. apply Z.pow_lt_mono_r_iff in H; lia. }
  apply round_aux_ten; [lia|rewrite fexp_spec; lia|lia|].
  replace (- (digits q - 67)) with (Zpos s) by lia.
  assert (0 < 2 ^ Zpos s) by lia. nia.
Qed.

(** [round(max(0.0, min(10.0, x)), 4)]. *)
Definition score_clamp (x : float) : float := py_round_digits 4 (fmax f0 (fmin ten x)).

Lemma round4_ten x : slim x -> fle f0 x = true -> fle x ten = true ->
  fle f0 (py_round_digits 4 x) = true /\ fle (py_round_digits 4 x) ten = true.
Proof.
  intros Hs H0 H1. destruct x as [s|s| |s m e]; [by destruct s|done|done|].
  destruct s; [done|]. destruct (below_ten m e Hs H1) as [He Hm].
  unfold py_round_digits. change (10 ^ 4) with 10000. destruct e as [|e|e]; [lia|lia|]. unfold scaled_fraction.
  assert (Hle : round_half_even (Zpos m * 10000) (2 ^ Zpos e) <= 100000).
  { change (- Zneg e) with (Zpos e) in Hm. apply round_half_even_le; lia. }
  destruct (round_half_even _ _) as [|q|q]; [done| |done]. apply (ratio_ten q). lia.
Qed.

(** Between zero and ten whatever is clamped, NaN and infinities included. *)
Lemma score_clamp_bounds x : slim x -> fle f0 (score_clamp x) = true /\ fle (score_clamp x) ten = true.
Proof.
  intros Hs. destruct (fclamp_bounds f0 ten x ltac:(by vm_compute)) as [H0 H1].
  apply round4_ten; [|exact H0|exact H1]. apply fmax_slim; [done|]. apply fmin_slim; [apply float_of_Z_slim|done].
Qed.
