(* ===== verification/RankingRules.v ===== *)
(** * Ranking profiles: configuration ([ranking_profile_config.py])

    A ranking profile weighs the technical components and the fundamental score of a
    company, and says which penalties, thresholds and gates apply.  The profiles are the
    mapping [profiles] of a YAML document: its parser, its validation and the look-up by
    name.  The document is the value [yaml.safe_load] returns; the provenance of the values,
    which the loader attaches for the configuration audit, is not part of a profile.  Two parts
    follow: the technical components, and the penalties and gates. *)
From Stdlib Require Import ZArith Lia List String Bool.
From stdpp Require Import base list strings.
From S2P Require Import Prelude PyFloat PyValue Signals ScoreWarnings.
Local Open Scope string_scope.
Local Open Scope list_scope.
Local Open Scope Z_scope.

Definition SUPPORTED_TECHNICAL_COMPONENTS : list string :=
  ["momentum_strength"; "momentum_health"; "momentum_danger"; "trend_quality"; "setup_quality";
   "breakout_quality"; "vcp_quality"; "box_tightness"; "breakout_or_vcp_quality"; "pullback_health";
   "relative_strength"; "relative_strength_acceleration"; "volume_expansion"; "trend_repair";
   "risk_control"; "market_regime_alignment"].

Definition RankingProfileConfigError {A} (msg : string) : result A :=
  raise "RankingProfileConfigError" msg.

(** ** Data *)

Record MissingDataPolicy := mkMissingDataPolicy {
  rescale_available : bool;
  missing_penalty : float;
}.

Record RankingThresholds := mkRankingThresholds {
  strong_candidate_min_score : float;
  candidate_min_score : float;
  watch_min_score : float;
}.

Record TradeabilityOverlayConfig := mkTradeabilityOverlayConfig {
  overlay_enabled : bool;
  poor_penalty : float;
  very_poor_penalty : float;
  maximum_penalty : float;
  minimum_dollar_volume : option float;
}.

Record RankingProfileConfig := mkRankingProfileConfig {
  rp_name : string;
  rp_enabled : bool;
  rp_label : string;
  rp_description : string;
  technical_weight : float;
  fundamental_weight : float;
  technical_components : list (string * float);
  missing_data_policy : MissingDataPolicy;
  thresholds : RankingThresholds;
  rp_penalties : list (string * float);
  rp_gates : dict;
  tradeability_overlay : TradeabilityOverlayConfig;
}.

(** ** Fields *)

(** [raw.get(key, default)]. *)
Definition get_or (raw : dict) (key : string) (default : pyval) : pyval :=
  match dict_find key raw with Some v => v | None => default end.

Definition _required_mapping (profile_name : string) (raw : dict) (field : string) : result dict :=
  match dget raw field with
  | VDict [] => RankingProfileConfigError (profile_name ++ ": " ++ field ++ " must not be empty")
  | VDict d => Ok d
  | _ => RankingProfileConfigError (profile_name ++ ": " ++ field ++ " must be a mapping")
  end.

Definition _optional_mapping (raw : dict) (field : string) : dict := as_dict (dget raw field).

Definition _required_text (profile_name : string) (raw : dict) (field : string) : result string :=
  match dget raw field with
  | VStr value =>
      if String.eqb (strip value) "" then
        RankingProfileConfigError (profile_name ++ ": " ++ field ++ " is required")
      else Ok (strip value)
  | _ => RankingProfileConfigError (profile_name ++ ": " ++ field ++ " is required")
  end.

Definition _float (profile_name : string) (value : pyval) (field : string) : result float :=
  match py_float value with
  | Some x => Ok x
  | None => RankingProfileConfigError (profile_name ++ ": " ++ field ++ " must be numeric")
  end.

Definition _required_float (profile_name : string) (raw : dict) (error_field key : string)
    : result float :=
  match dict_find key raw with
  | None => RankingProfileConfigError (profile_name ++ ": " ++ error_field ++ " is required")
  | Some value => _float profile_name value error_field
  end.

(** The numbers of a mapping, under their keys. *)
Fixpoint float_items (profile_name field : string) (d : dict) : result (list (string * float)) :=
  match d with
  | [] => Ok []
  | (key, value) :: d =>
      x ← _float profile_name value (field ++ "." ++ key)%string;
      xs ← float_items profile_name field d;
      Ok ((key, x) :: xs)
  end.

(** ** [_parse_profile] *)

Definition parse_missing_data_policy (name : string) (raw : dict) : result MissingDataPolicy :=
  penalty ← _float name (get_or raw "penalty" (VFloat f1)) "missing_data_policy.penalty";
  Ok (mkMissingDataPolicy (truthy (get_or raw "rescale_available" (VBool true))) penalty).

Definition parse_thresholds (name : string) (raw : dict) : result RankingThresholds :=
  strong ← _float name (get_or raw "strong_candidate_min_score" (VFloat (float_of_Z 8)))
             "thresholds.strong_candidate_min_score";
  candidate ← _float name (get_or raw "candidate_min_score" (VFloat (float_ratio 68 10)))
                "thresholds.candidate_min_score";
  watch ← _float name (get_or raw "watch_min_score" (VFloat (float_ratio 55 10)))
            "thresholds.watch_min_score";
  Ok (mkRankingThresholds strong candidate watch).

Definition parse_overlay (name : string) (raw : dict) : result TradeabilityOverlayConfig :=
  poor ← _float name (get_or raw "poor_penalty" (VFloat f0)) "tradeability_overlay.poor_penalty";
  very_poor ← _float name (get_or raw "very_poor_penalty" (VFloat f0))
                "tradeability_overlay.very_poor_penalty";
  maximum ← _float name (get_or raw "maximum_penalty" (VFloat f0))
              "tradeability_overlay.maximum_penalty";
  volume ← match dget raw "minimum_dollar_volume" with
           | VNone => Ok None
           | v => x ← _float name v "tradeability_overlay.minimum_dollar_volume"; Ok (Some x)
           end;
  Ok (mkTradeabilityOverlayConfig (truthy (get_or raw "enabled" (VBool false))) poor very_poor
        maximum volume).

Definition _parse_profile (name : string) (raw : pyval) : result RankingProfileConfig :=
  match raw with
  | VDict raw =>
      weights ← _required_mapping name raw "weights";
      components ← _required_mapping name raw "technical_components";
      label ← _required_text name raw "label";
      description ← _required_text name raw "description";
      technical ← _required_float name weights "weights.technical" "technical";
      fundamental ← _required_float name weights "weights.fundamental" "fundamental";
      technical_components ← float_items name "technical_components" components;
      policy ← parse_missing_data_policy name (_optional_mapping raw "missing_data_policy");
      thresholds ← parse_thresholds name (_optional_mapping raw "thresholds");
      penalties ← float_items name "penalties" (_optional_mapping raw "penalties");
      overlay ← parse_overlay name (_optional_mapping raw "tradeability_overlay");
      Ok (mkRankingProfileConfig name (truthy (get_or raw "enabled" (VBool true))) label description
            technical fundamental technical_components policy thresholds penalties
            (_optional_mapping raw "gates") overlay)
  | _ => RankingProfileConfigError (name ++ ": profile must be a mapping")
  end.

(** ** [_validate_profile] *)

(** [if cond: raise RankingProfileConfigError(...)]. *)
Definition refuse_if (cond : bool) (msg : string) : result unit :=
  if cond then RankingProfileConfigError msg else Ok tt.

Section Validation.
Context `{Text : PyText}.

Definition _require_approx_sum (profile_name field : string) (values : list float) : result unit :=
  let total := py_round_digits 6 (fsum values) in
  refuse_if (negb (feq total f1))
    (profile_name ++ ": " ++ field ++ " must sum to 1.0, got " ++ py_str (VFloat total)).

Definition unknown_components (profile : RankingProfileConfig) : list string :=
  sort_by String.leb
    (List.filter (fun c => negb (smem c SUPPORTED_TECHNICAL_COMPONENTS))
       (map fst (technical_components profile))).

Fixpoint check_penalties (profile_name : string) (penalties : list (string * float)) : result unit :=
  match penalties with
  | [] => Ok tt
  | (penalty_name, value) :: penalties =>
      _ ← refuse_if (flt value f0)
            (profile_name ++ ": penalties." ++ penalty_name ++ " must be non-negative");
      check_penalties profile_name penalties
  end.

Definition _validate_profile (profile : RankingProfileConfig) : result unit :=
  let name := rp_name profile in
  _ ← _require_approx_sum name "weights" [technical_weight profile; fundamental_weight profile];
  _ ← _require_approx_sum name "technical_components" (map snd (technical_components profile));
  _ ← refuse_if (nonempty (unknown_components profile))
        (name ++ ": unknown technical component(s): " ++ String.concat ", " (unknown_components profile));
  _ ← refuse_if (negb (fge (strong_candidate_min_score (thresholds profile))
                           (candidate_min_score (thresholds profile)) &&
                       fge (candidate_min_score (thresholds profile))
                           (watch_min_score (thresholds profile))))
        (name ++ ": thresholds must be ordered strong >= candidate >= watch");
  _ ← refuse_if (flt (missing_penalty (missing_data_policy profile)) f0)
        (name ++ ": missing_data_policy.penalty must be non-negative");
  _ ← check_penalties name (rp_penalties profile);
  let overlay := tradeability_overlay profile in
  _ ← refuse_if (existsb (fun value => flt value f0)
                   [poor_penalty overlay; very_poor_penalty overlay; maximum_penalty overlay])
        (name ++ ": tradeability overlay penalties must be non-negative");
  _ ← refuse_if (match minimum_dollar_volume overlay with Some v => flt v f0 | None => false end)
        (name ++ ": tradeability_overlay.minimum_dollar_volume must be non-negative");
  refuse_if (fgt (fmax (poor_penalty overlay) (very_poor_penalty overlay)) (maximum_penalty overlay))
    (name ++ ": tradeability penalties must not exceed maximum_penalty").

(** ** [load_ranking_profiles] and [get_ranking_profile] *)

Fixpoint parse_profiles (raw : dict) : result (list RankingProfileConfig) :=
  match raw with
  | [] => Ok []
  | (name, raw_profile) :: raw =>
      profile ← _parse_profile name raw_profile;
      profiles ← parse_profiles raw;
      Ok (profile :: profiles)
  end.

Fixpoint validate_profiles (profiles : list RankingProfileConfig) : result unit :=
  match profiles with
  | [] => Ok tt
  | profile :: profiles => _ ← _validate_profile profile; validate_profiles profiles
  end.

Definition load_ranking_profiles (document : pyval) : result (list RankingProfileConfig) :=
  data ← match py_or document (VDict []) with
         | VDict d => Ok d
         | _ => raise "AttributeError" "object has no attribute 'get'"
         end;
  match dget data "profiles" with
  | VDict raw_profiles =>
      profiles ← parse_profiles raw_profiles;
      _ ← validate_profiles profiles;
      match List.filter rp_enabled profiles with
      | [] => RankingProfileConfigError "No enabled ranking profiles found"
      | enabled_profiles => Ok enabled_profiles
      end
  | _ => RankingProfileConfigError "profiles must be a mapping"
  end.

Definition get_ranking_profile (profile_name : string) (document : pyval)
    : result RankingProfileConfig :=
  let normalized_name := strip profile_name in
  profiles ← load_ranking_profiles document;
  match List.find (fun p => String.eqb (rp_name p) normalized_name) profiles with
  | Some profile => Ok profile
  | None => RankingProfileConfigError (normalized_name ++ ": unknown ranking profile")
  end.

End Validation.

(** * Ranking profiles: technical components ([ranking_profile_components.py])

    The technical row of a company as sixteen scores between 0 and 10, and their weighted
    sum.  [_clamp], which the profile modules repeat, is the one of the combined decision. *)
From Stdlib Require Import ZArith Lia List String Bool.
From stdpp Require Import base list strings.
From S2P Require Import Prelude PyFloat PyValue Canonical PyDecimal PriceBars Signals ScoreWarnings.
From S2P Require Import CombinedDecision.
Local Open Scope string_scope.
Local Open Scope list_scope.
Local Open Scope Z_scope.

(** The further columns of [tables.TechnicalScore] that a profile reads. *)
Record ProfileTechnical := mkProfileTechnical {
  pt_row :> TechnicalScore;
  pt_trend_score : option decimal;
  pt_momentum_score : option decimal;
  pt_setup_score : option decimal;
  pt_market_score : option decimal;
  pt_combined_relative_strength_score : option decimal;
  pt_vcp_score : option decimal;
  pt_box_tightness_score : option decimal;
  pt_breakout_quality_score : option decimal;
  pt_climax_risk_score : option decimal;
  pt_extension_percentile_252 : option decimal;
  pt_pullback_health : option string;
  pt_v4_debug_json : option dict;
}.

Definition PULLBACK_HEALTH_SCORES : list (string * float) :=
  [("healthy", float_of_Z 10); ("mixed", float_ratio 55 10); ("dangerous", f0)].

(** A numeric column, as the value Python sees. *)
Definition column (d : option decimal) : pyval := of_opt (fun d => VDecimal (coef d) (dexp d)) d.

(** ** Helpers *)

(** [text in value]. *)
Definition py_contains (value : pyval) (text : string) : result bool :=
  match value with
  | VList l => Ok (existsb (py_eq (VStr text)) l)
  | VDict d => Ok (has (dict_find text d))
  | VStr s => Ok (contains s text)
  | _ => raise "TypeError" "argument is not iterable"
  end.

Definition _explainability (technical : ProfileTechnical) : dict :=
  match pt_v4_debug_json technical with
  | Some d => d
  | None =>
      match ts_debug_json technical with
      | Some d => as_dict (dget d "explainability")
      | None => []
      end
  end.

(** [None] and the empty string count as absent. *)
Definition is_absent (value : pyval) : bool :=
  match value with VNone => true | VStr s => String.eqb s "" | _ => false end.

Definition _score (value : pyval) (default : float) : float :=
  if is_absent value then default
  else match py_float value with Some x => _clamp x | None => default end.

Definition _first_present (primary fallback : pyval) : pyval :=
  if is_absent primary then fallback else primary.

Definition _bool_score (value : pyval) : float := if truthy value then float_of_Z 10 else f0.

Definition _positive_bool_score (value : pyval) : float :=
  if fgt (_score value f0) f0 then float_of_Z 10 else f0.

Definition _pullback_health_score (label : option string) : float :=
  match label with
  | None | Some "" => float_of_Z 5
  | Some label =>
      match dict_find (casefold (strip label)) PULLBACK_HEALTH_SCORES with
      | Some score => score
      | None => float_of_Z 5
      end
  end.

Definition _distribution_score (technical : ProfileTechnical) (explainability : dict) : result float :=
  let warning_flags := py_or (ts_warning_flags_json technical) (VList []) in
  let stage := as_dict (dget explainability "stage") in
  let stage_tags := as_list (dget stage "stage_tags") in
  if label_is (ts_classification technical) "Distribution risk" then Ok (float_of_Z 10)
  else
    heavy ← py_contains warning_flags "heavy_distribution";
    if heavy || existsb (py_eq (VStr "stage_3_distribution")) stage_tags then Ok (float_of_Z 8)
    else
      risk ← py_contains warning_flags "distribution_risk";
      Ok (if risk : bool then float_of_Z 7 else f0).

Definition _no_distribution_score (technical : ProfileTechnical) (explainability : dict)
    : result float :=
  x ← _distribution_score technical explainability;
  Ok (_clamp (fsub (float_of_Z 10) x)).

Definition _percentile_to_score (value : pyval) : float :=
  match value with
  | VNone => f0
  | value => _clamp (fdiv (_score value f0) (float_of_Z 10))
  end.

Definition _overheated_rsi_score (value : pyval) : float :=
  let rsi := _score value f0 in
  if fge rsi (float_of_Z 80) then float_of_Z 10
  else if fge rsi (float_of_Z 75) then float_of_Z 7
  else f0.

(** ** [extract_technical_components] *)

(** [a * w1 + b * w2 + ...], from left to right. *)
Definition weighted (terms : list (float * float)) : float :=
  match terms with
  | [] => f0
  | (x, w) :: terms =>
      fold_left (fun total t => fadd total (fmul t.1 t.2)) terms (fmul x w)
  end.
Definition hundredths (n : Z) : float := float_ratio n 100.

Definition extract_technical_components (technical : option ProfileTechnical)
    : result (list (string * float)) :=
  match technical with
  | None => Ok []
  | Some technical =>
      let explainability := _explainability technical in
      let derived := as_dict (dget (or_empty_dict (ts_debug_json technical)) "derived") in
      let contraction := as_dict (dget explainability "contraction") in
      let box := as_dict (dget explainability "box") in
      let climax := as_dict (dget explainability "climax") in
      let vcp := _first_present (column (pt_vcp_score technical)) (dget contraction "vcp_score") in
      let breakout := _first_present (column (pt_breakout_quality_score technical))
                        (dget box "breakout_quality_score") in
      let trend_quality := _score (column (pt_trend_score technical)) f0 in
      let setup_quality := fmax (fmax (_score (column (pt_setup_score technical)) f0) (_score vcp f0))
                             (_score breakout f0) in
      let breakout_quality := _score breakout f0 in
      let vcp_quality := _score vcp f0 in
      let box_tightness := _score (_first_present (column (pt_box_tightness_score technical))
                                     (dget box "box_tightness_score")) f0 in
      let relative_strength := _score (column (pt_combined_relative_strength_score technical)) f0 in
      let momentum_strength := _clamp (weighted
        [(_score (column (pt_momentum_score technical)) f0, hundredths 55);
         (relative_strength, hundredths 30);
         (_bool_score (dget derived "rs_new_high"), hundredths 15)]) in
      let climax_risk := _score (_first_present (column (pt_climax_risk_score technical))
                                   (dget climax "climax_risk_score")) f0 in
      let risk_control := _clamp (fsub (float_of_Z 10)
        (fmax (_score (column (ts_risk_score technical)) (float_of_Z 5)) climax_risk)) in
      let pullback_health := _pullback_health_score (pt_pullback_health technical) in
      no_distribution ← _no_distribution_score technical explainability;
      let momentum_health := _clamp (weighted
        [(vcp_quality, hundredths 30); (box_tightness, hundredths 15); (pullback_health, hundredths 20);
         (_score (dget contraction "volume_dry_up_quality") f0, hundredths 15);
         (no_distribution, hundredths 20)]) in
      distribution ← _distribution_score technical explainability;
      let momentum_danger := _clamp
        (fadd (fadd (fadd (fadd (_percentile_to_score (column (pt_extension_percentile_252 technical)))
                                climax_risk)
                          (_bool_score (dget derived "failed_breakout")))
                    distribution)
              (_overheated_rsi_score (dget derived "rsi"))) in
      let relative_strength_acceleration := _clamp (weighted
        [(_positive_bool_score (dget derived "rs_roc_short"), hundredths 40);
         (_positive_bool_score (dget derived "rs_roc_medium"), hundredths 35);
         (_bool_score (dget derived "rs_new_high"), hundredths 25)]) in
      let volume_expansion := _clamp (weighted
        [(_bool_score (dget derived "bullish_volume_bar"), hundredths 35);
         (_bool_score (dget derived "breakout_volume_confirmed"), hundredths 35);
         (_bool_score (dget derived "green_beats_red"), hundredths 30)]) in
      let trend_repair := _clamp (weighted
        [(_bool_score (VBool (label_is (ts_classification technical) "Trend repair")), hundredths 35);
         (trend_quality, hundredths 35); (momentum_strength, hundredths 20);
         (relative_strength, hundredths 10)]) in
      Ok [("momentum_strength", momentum_strength); ("momentum_health", momentum_health);
          ("momentum_danger", momentum_danger); ("trend_quality", trend_quality);
          ("setup_quality", setup_quality); ("breakout_quality", breakout_quality);
          ("vcp_quality", vcp_quality); ("box_tightness", box_tightness);
          ("breakout_or_vcp_quality", fmax breakout_quality vcp_quality);
          ("pullback_health", pullback_health); ("relative_strength", relative_strength);
          ("relative_strength_acceleration", relative_strength_acceleration);
          ("volume_expansion", volume_expansion); ("trend_repair", trend_repair);
          ("risk_control", risk_control);
          ("market_regime_alignment", _score (column (pt_market_score technical)) f0)]
  end.

(** [components.get(component, 0.0)]. *)
Definition component (components : list (string * float)) (name : string) : float :=
  match dict_find name components with Some x => x | None => f0 end.

Definition calculate_technical_profile_score (components component_weights : list (string * float))
    : option float :=
  match components with
  | [] => None
  | _ => Some (_clamp (fsum (map (fun cw => fmul (component components cw.1) cw.2) component_weights)))
  end.

(** ** Bounds *)

Definition bounded (x : float) : Prop := fle f0 x = true /\ fle x (float_of_Z 10) = true.

Lemma clamp_bounded x : bounded (_clamp x).
Proof. by apply fclamp_bounds. Qed.

Lemma score_bounded value default : bounded default -> bounded (_score value default).
Proof.
  intros H. unfold _score. destruct (is_absent value); [done|].
  destruct (py_float value); [apply clamp_bounded|done].
Qed.

Lemma fmax_bounded x y : bounded x -> bounded y -> bounded (fmax x y).
Proof. intros. unfold fmax. by destruct (fgt y x). Qed.

Lemma bounded_0 : bounded f0.
Proof. split; vm_compute; reflexivity. Qed.
Lemma bounded_5 : bounded (float_of_Z 5).
Proof. split; vm_compute; reflexivity. Qed.

Lemma pullback_bounded label : bounded (_pullback_health_score label).
Proof.
  unfold _pullback_health_score. destruct label as [[|c s]|]; [apply bounded_5| |apply bounded_5].
  simpl dict_find. destruct (String.eqb _ "healthy"); [split; vm_compute; reflexivity|].
  destruct (String.eqb _ "mixed"); [split; vm_compute; reflexivity|].
  destruct (String.eqb _ "dangerous"); [apply bounded_0|apply bounded_5].
Qed.

Create HintDb ranking.
#[export] Hint Resolve clamp_bounded score_bounded fmax_bounded bounded_0 bounded_5 pullback_bounded
  : ranking.

(** Every component of an admitted row is a supported one and lies between 0 and 10,
    whatever the columns and the debug documents hold. *)
Theorem components_bounded technical components :
  extract_technical_components (Some technical) = Ok components ->
  map fst components ≡ₚ SUPPORTED_TECHNICAL_COMPONENTS /\ Forall (fun c => bounded c.2) components.
Proof.
  unfold extract_technical_components. cbv zeta. intros E.
  apply result_bind_Ok in E as (nd & _ & E). apply result_bind_Ok in E as (d & _ & E).
  apply Ok_inj in E. subst components. split.
  - apply (bool_decide_unpack _). vm_compute. exact I.
  - repeat (constructor; [simpl; auto 6 with ranking|]). constructor.
Qed.

(** The RSI of a company never counts: [_score] clamps it to 10 before it is compared with
    75 and 80. *)
Theorem rsi_never_overheats value : _overheated_rsi_score value = f0.
Proof.
  destruct (score_bounded value f0 bounded_0) as [_ H]. unfold _overheated_rsi_score, fge.
  assert (L : forall n, flt (float_of_Z 10) (float_of_Z n) = true -> fle (float_of_Z n) (_score value f0) = false).
  { intros n Hn. destruct (fle (float_of_Z n) (_score value f0)) eqn:E; [|done].
    apply flt_not_fle in Hn. pose proof (fle_trans _ _ _ E H). congruence. }
  rewrite !L by (vm_compute; reflexivity). done.
Qed.

(** * Ranking profiles: penalties and gates ([ranking_profile_penalties.py] and
    [ranking_profile_gates.py])

    The penalties a profile configures, collected under their names with a note and a flag
    each; the gates that lower the decision of a company, and the order of decisions they
    respect. *)
From Stdlib Require Import ZArith Lia List String Bool.
From stdpp Require Import base list strings.
From S2P Require Import Prelude PyDate PyFloat PyValue Canonical PyDecimal PriceBars Signals.
From S2P Require Import ScoreWarnings CombinedDecision.
Local Open Scope string_scope.
Local Open Scope list_scope.
Local Open Scope Z_scope.

(** ** Flags of the sources *)

(** [_liquidity_warning] of both modules. *)
Definition _liquidity_warning (technical : ProfileTechnical) : result bool :=
  flagged ← py_contains (py_or (ts_warning_flags_json technical) (VList [])) "liquidity_warning";
  if flagged : bool then Ok true
  else Ok (match dget (or_empty_dict (ts_debug_json technical)) "derived" with
           | VDict derived => truthy (dget derived "liquidity_warning")
           | _ => false
           end).

(** [set(value)]: the elements of an iterable, which have to be hashable. *)
Definition set_of (value : pyval) : result (list pyval) :=
  match value with
  | VList l =>
      if existsb (fun v => match v with VList _ | VDict _ => true | _ => false end) l
      then raise "TypeError" "unhashable type" else Ok l
  | VDict d => Ok (map (fun kv => VStr kv.1) d)
  | VStr s => Ok (map (fun c => VStr (String c "")) (list_ascii_of_string s))
  | _ => raise "TypeError" "object is not iterable"
  end.

(** ** Penalties *)

(** [penalties], [notes] and [warning_flags]. *)
Record ProfilePenalties := mkProfilePenalties {
  pp_penalties : list (string * float);
  pp_notes : list string;
  pp_warning_flags : list string;
}.

Definition no_penalties : ProfilePenalties := mkProfilePenalties [] [] [].

(** [penalties[key] = max(penalties.get(key, 0.0), value)], a note and a flag. *)
Definition record_penalty (key note warning_flag : string) (value : float) (p : ProfilePenalties)
    : ProfilePenalties :=
  mkProfilePenalties
    (dict_set key (fmax (component (pp_penalties p) key) value) (pp_penalties p))
    (pp_notes p ++ [note]) (pp_warning_flags p ++ [warning_flag]).

Definition _add_penalty (profile : RankingProfileConfig) (key note warning_flag : string)
    (fallback_key : option string) (p : ProfilePenalties) : ProfilePenalties :=
  let configured_key := if has (dict_find key (rp_penalties profile)) then Some key else fallback_key in
  match configured_key ≫= (fun k => dict_find k (rp_penalties profile)) with
  | None => p
  | Some value => if fle value f0 then p else record_penalty key note warning_flag value p
  end.

Definition _add_missing_data_penalty (profile : RankingProfileConfig) (note warning_flag : string)
    (p : ProfilePenalties) : ProfilePenalties :=
  let value := missing_penalty (missing_data_policy profile) in
  if fle value f0 then p else record_penalty "missing_data" note warning_flag value p.

Definition _add_technical_penalties (profile : RankingProfileConfig) (technical : ProfileTechnical)
    (component_scores : list (string * float)) (p : ProfilePenalties) : result ProfilePenalties :=
  let classification := ts_classification technical in
  let named name := label_is classification name in
  warning_values ← set_of (py_or (ts_warning_flags_json technical) (VList []));
  let p :=
    if named "Failed breakout" then
      _add_penalty profile "failed_breakout" "failed breakout" "failed_breakout"
        (Some "danger_classification") p
    else if named "Climax reversal risk"
            || fge (component component_scores "momentum_danger") (float_of_Z 7) then
      _add_penalty profile "climax_risk" "climax risk" "climax_risk" (Some "danger_classification") p
    else if named "Late-stage extension" then
      _add_penalty profile "late_stage_extension" "late-stage extension" "late_stage_extension"
        (Some "danger_classification") p
    else if named "Distribution risk" || existsb (py_eq (VStr "heavy_distribution")) warning_values then
      _add_penalty profile "heavy_distribution" "heavy distribution" "distribution_risk"
        (Some "distribution_risk") p
    else if in_labels classification DANGER_CLASSIFICATIONS then
      _add_penalty profile "danger_classification"
        (casefold (match classification with Some c => c | None => "None" end))
        "danger_classification" None p
    else p in
  let p := if named "Overheated momentum" then
             _add_penalty profile "overheated_momentum" "overheated momentum" "overheated_momentum" None p
           else p in
  liquidity ← _liquidity_warning technical;
  Ok (if liquidity : bool then
        _add_penalty profile "liquidity_warning" "liquidity warning" "liquidity_warning" None p
      else p).

Section Penalties.
Context `{Text : PyText}.

Definition _fundamental_flags (fundamental : FundamentalScore) : list string :=
  _trap_flags (fs_trap_flags_json fundamental) ++ _trap_flags (fs_v2_warning_flags_json fundamental).

Definition _add_fundamental_penalties (profile : RankingProfileConfig) (fundamental : FundamentalScore)
    (p : ProfilePenalties) : ProfilePenalties :=
  let named name := label_is (fs_fundamental_label fundamental) name in
  let add (cond : bool) key note flag p := if cond then _add_penalty profile key note flag None p else p in
  let p := add (named "Value trap risk") "value_trap_risk" "value trap" "value_trap" p in
  let p := add (named "Growth trap risk") "growth_trap_risk" "growth trap" "growth_trap" p in
  let p := add (named "Quality risk") "quality_risk" "quality risk" "quality_risk" p in
  let flags := _fundamental_flags fundamental in
  let p := add (smem "share_dilution" flags) "extreme_dilution" "extreme dilution" "extreme_dilution" p in
  add (smem "negative_free_cash_flow" flags) "negative_fcf" "negative free cash flow" "negative_fcf" p.

Definition _add_earnings_penalty (profile : RankingProfileConfig) (earnings_risk : EarningsRiskResult)
    (p : ProfilePenalties) : ProfilePenalties :=
  match dict_find (er_risk_level earnings_risk)
          [("blocked", "earnings_blocked"); ("high", "earnings_high_risk");
           ("medium", "earnings_medium_risk")] with
  | None => p
  | Some penalty_key => _add_penalty profile penalty_key (er_message earnings_risk) penalty_key None p
  end.

Definition missing_data_penalties (profile : RankingProfileConfig) (fundamental : option FundamentalScore)
    (technical : option ProfileTechnical) (p : ProfilePenalties) : ProfilePenalties :=
  let p := if has (fundamental ≫= fs_fundamental_score) then p
           else _add_missing_data_penalty profile "fundamental missing" "missing_fundamental" p in
  if has (technical ≫= (fun t : ProfileTechnical => ts_dual_score t)) then p
  else _add_missing_data_penalty profile "technical missing" "missing_technical" p.

(** The total, and what was collected with the flags each once. *)
Definition calculate_profile_penalties (profile : RankingProfileConfig)
    (fundamental : option FundamentalScore) (technical : option ProfileTechnical)
    (component_scores : list (string * float)) (earnings_risk : EarningsRiskResult)
    : result (float * ProfilePenalties) :=
  let p := missing_data_penalties profile fundamental technical no_penalties in
  p ← match technical with
      | Some technical => _add_technical_penalties profile technical component_scores p
      | None => Ok p
      end;
  let p := match fundamental with
           | Some fundamental => _add_fundamental_penalties profile fundamental p
           | None => p
           end in
  let p := _add_earnings_penalty profile earnings_risk p in
  Ok (py_round_digits 4 (fsum (map snd (pp_penalties p))),
      mkProfilePenalties (pp_penalties p) (pp_notes p) (unique (pp_warning_flags p))).

End Penalties.

(** ** Gates *)

Module Gates.

Definition DECISION_ORDER : list (string * Z) :=
  [("Blocked by earnings gate", 0); ("Avoid", 1); ("Low confidence", 2); ("Speculative watch", 2);
   ("Watch", 3); ("Watchlist", 3); ("Candidate", 4); ("Strong candidate", 5)].
Definition FUNDAMENTAL_RISK_LABEL_CAPS : list (string * string) :=
  [("Value trap risk", "Avoid"); ("Growth trap risk", "Candidate"); ("Quality risk", "Candidate")].
Definition FUNDAMENTAL_RISK_WARNING_FLAGS : list (string * string) :=
  [("Value trap risk", "value_trap_risk"); ("Growth trap risk", "growth_trap_risk");
   ("Quality risk", "quality_risk")].

(** [DECISION_ORDER.get(decision, 0)]. *)
Definition order (decision : string) : Z :=
  match dict_find decision DECISION_ORDER with Some n => n | None => 0 end.

Definition _cap_decision (decision max_decision : string) : string :=
  if order decision <=? order max_decision then decision else max_decision.

Definition _low_data_quality (technical : option ProfileTechnical) : bool :=
  match technical with
  | None => true
  | Some technical =>
      let confidence := casefold (match ts_technical_confidence technical with Some c => c | None => "" end) in
      if smem confidence ["low"; "error"] then true
      else if ts_insufficient_data technical then true
      else truthy (dget (or_empty_dict (ts_missing_data_json technical)) "insufficient_history")
  end.

(** [score_cap] is always [None]; [blocked] is set by the earnings gate alone. *)
Record GateResult := mkGateResult {
  g_decision : string;
  g_blocked : bool;
  g_gates : dict;
  g_notes : list string;
  g_warning_flags : list string;
}.

(** [gate is True] in the configuration of a profile. *)
Definition gate_on (profile : RankingProfileConfig) (name : string) : bool :=
  match dget (rp_gates profile) name with VBool true => true | _ => false end.

(** The decision capped, an entry of [gates], a note and a flag. *)
Definition cap (max_decision gate : string) (value : pyval) (note flag : string) (g : GateResult)
    : GateResult :=
  mkGateResult (_cap_decision (g_decision g) max_decision) (g_blocked g)
    (dict_set gate value (g_gates g)) (g_notes g ++ [note]) (g_warning_flags g ++ [flag]).

Definition pass (gate : string) (value : pyval) (g : GateResult) : GateResult :=
  mkGateResult (g_decision g) (g_blocked g) (dict_set gate value (g_gates g)) (g_notes g)
    (g_warning_flags g).

Definition danger_gate (profile : RankingProfileConfig) (technical : option ProfileTechnical)
    (g : GateResult) : GateResult :=
  match technical with
  | Some technical =>
      if gate_on profile "danger_blocks_candidate" then
        if in_labels (ts_classification technical) DANGER_CLASSIFICATIONS then
          cap "Avoid" "danger_gate" (VBool true) "danger classification gate" "danger_classification" g
        else pass "danger_gate" (VBool false) g
      else g
  | None => g
  end.

Definition _fundamental_score (fundamental : option FundamentalScore) : option float :=
  _float_or_none (fundamental ≫= fs_fundamental_score).

Section Gates.
Context `{Text : PyText}.

Definition floor_gate (profile : RankingProfileConfig) (fundamental : option FundamentalScore)
    (g : GateResult) : result GateResult :=
  match dget (rp_gates profile) "fundamental_floor" with
  | VDict floor =>
      match dget floor "enabled" with
      | VBool true =>
          min_score ← to_float (get_or floor "min_score" (VFloat f0));
          if match _fundamental_score fundamental with Some s => flt s min_score | None => false end then
            let max_decision := py_str (get_or floor "max_decision" (VStr "Watchlist")) in
            Ok (cap max_decision "fundamental_floor"
                  (VDict [("passed", VBool false); ("min_score", VFloat min_score);
                          ("max_decision", VStr max_decision)])
                  "fundamental floor failed" "fundamental_floor_failed" g)
          else Ok (pass "fundamental_floor"
                     (VDict [("passed", VBool true); ("min_score", VFloat min_score)]) g)
      | _ => Ok g
      end
  | _ => Ok g
  end.

Definition label_gate (fundamental : option FundamentalScore) (g : GateResult) : GateResult :=
  match fundamental with
  | None => g
  | Some fundamental =>
      let label := match fs_fundamental_label fundamental with Some l => l | None => "None" end in
      match dict_find label FUNDAMENTAL_RISK_LABEL_CAPS with
      | None => g
      | Some max_decision =>
          cap max_decision "fundamental_risk_label"
            (VDict [("label", opt_str (fs_fundamental_label fundamental));
                    ("max_decision", VStr max_decision)])
            (casefold label ++ " cap")%string
            (match dict_find label FUNDAMENTAL_RISK_WARNING_FLAGS with Some f => f | None => "" end) g
      end
  end.

Definition liquidity_gate (profile : RankingProfileConfig) (technical : option ProfileTechnical)
    (g : GateResult) : result GateResult :=
  if gate_on profile "liquidity_caps_candidate" then
    warned ← match technical with Some t => _liquidity_warning t | None => Ok false end;
    Ok (if warned : bool then
          cap "Watchlist" "liquidity_cap" (VBool true) "liquidity cap" "liquidity_warning" g
        else pass "liquidity_cap" (VBool false) g)
  else Ok g.

Definition quality_gate (fundamental : option FundamentalScore) (technical : option ProfileTechnical)
    (g : GateResult) : GateResult :=
  if negb (has fundamental) || negb (has technical) || _low_data_quality technical then
    cap "Low confidence" "data_quality" (VBool false) "low data quality" "low_data_quality" g
  else pass "data_quality" (VBool true) g.

Definition apply_profile_gates (profile : RankingProfileConfig) (decision : string)
    (fundamental : option FundamentalScore) (technical : option ProfileTechnical)
    (earnings_risk : EarningsRiskResult) : result GateResult :=
  if gate_on profile "earnings_block" && er_decision_blocked earnings_risk then
    Ok (mkGateResult "Blocked by earnings gate" true [("earnings_block", VBool true)]
          ["blocked by earnings gate"] ["earnings_blocked"])
  else
    let g := mkGateResult decision false [("earnings_block", VBool false)] [] [] in
    let g := danger_gate profile technical g in
    g ← floor_gate profile fundamental g;
    let g := label_gate fundamental g in
    g ← liquidity_gate profile technical g;
    let g := quality_gate fundamental technical g in
    Ok (mkGateResult (g_decision g) (g_blocked g) (g_gates g) (g_notes g) (unique (g_warning_flags g))).

End Gates.
End Gates.
