(* ===== verification/RankingEngine.v ===== *)
(** * Ranking profiles: the engine ([ranking_profile_engine.py])

    One decision per company under a profile: the weighted score less the penalties, the
    decision its thresholds give, lowered by the gates and by a research-only admission, the
    flags, the notes, the size hint and the evidence; then the ranking of the companies of a
    run.  The admission of the three sources belongs to the eligibility policies: it is the
    class [RankingAuthority]. *)
From Stdlib Require Import ZArith Lia List String Bool.
From stdpp Require Import base list strings.
From S2P Require Import Prelude PyDate PyFloat PyValue Canonical PyDecimal PriceBars Signals.
From S2P Require Import ScoreWarnings CombinedDecision RankingRules.
Local Open Scope string_scope.
Local Open Scope list_scope.
Local Open Scope Z_scope.

Definition RANKING_ENGINE_VERSION : string := "1.1.0".

Record RankingProfileDecision := mkRankingProfileDecision {
  pd_ticker : string;
  pd_raw_row_id : Z;
  pd_company_name : option string;
  pd_sector : option string;
  pd_ranking_profile : string;
  pd_ranking_label : string;
  pd_profile_rank : Z;
  pd_profile_score : float;
  pd_technical_profile_score : option float;
  pd_fundamental_score : option float;
  pd_base_technical_score : option float;
  pd_technical_classification : option string;
  pd_fundamental_label : option string;
  pd_decision_label : string;
  pd_position_size_hint : string;
  pd_notes : list string;
  pd_warning_flags : list string;
  pd_penalties : list (string * float);
  pd_gates : dict;
  pd_component_scores : list (string * float);
  pd_debug : dict;
  pd_upcoming_earnings_date : option date;
  pd_days_until_earnings : option Z;
  pd_earnings_risk_level : string;
  pd_is_complete : bool;
  pd_has_warning : bool;
  pd_has_fundamental : bool;
  pd_has_technical : bool;
  pd_sort_bucket : Z;
}.

(** [replace(decision, profile_rank=rank)]. *)
Definition set_rank (rank : Z) (d : RankingProfileDecision) : RankingProfileDecision :=
  mkRankingProfileDecision (pd_ticker d) (pd_raw_row_id d) (pd_company_name d) (pd_sector d)
    (pd_ranking_profile d) (pd_ranking_label d) rank (pd_profile_score d)
    (pd_technical_profile_score d) (pd_fundamental_score d) (pd_base_technical_score d)
    (pd_technical_classification d) (pd_fundamental_label d) (pd_decision_label d)
    (pd_position_size_hint d) (pd_notes d) (pd_warning_flags d) (pd_penalties d) (pd_gates d)
    (pd_component_scores d) (pd_debug d) (pd_upcoming_earnings_date d) (pd_days_until_earnings d)
    (pd_earnings_risk_level d) (pd_is_complete d) (pd_has_warning d) (pd_has_fundamental d)
    (pd_has_technical d) (pd_sort_bucket d).

(** The admitted source, if any, and the permission.  A liquidity feature is the mapping of
    its fields. *)
Class RankingAuthority := {
  ranking_technical_input :
    dict -> option ProfileTechnical -> result (option ProfileTechnical * dict);
  ranking_liquidity_input : option dict -> result (option dict * dict);
  ranking_fundamental_input : option FundamentalScore -> result (option FundamentalScore * dict);
}.

(** ** Scores and decisions *)

Definition calculate_profile_score (technical_profile_score fundamental_score : option float)
    (profile : RankingProfileConfig) : float :=
  let '(total, weight) := (f0, f0) in
  let '(total, weight) :=
    match technical_profile_score with
    | Some s => (fadd total (fmul s (technical_weight profile)), fadd weight (technical_weight profile))
    | None => (total, weight)
    end in
  let '(total, weight) :=
    match fundamental_score with
    | Some s => (fadd total (fmul s (fundamental_weight profile)), fadd weight (fundamental_weight profile))
    | None => (total, weight)
    end in
  if feq weight f0 then f0
  else if rescale_available (missing_data_policy profile) then _clamp (fdiv total weight)
  else _clamp total.

Definition decision_from_score (score : float) (profile : RankingProfileConfig) : string :=
  let t := thresholds profile in
  if fge score (strong_candidate_min_score t) then "Strong candidate"
  else if fge score (candidate_min_score t) then "Candidate"
  else if fge score (watch_min_score t) then "Watchlist"
  else "Avoid".

Definition _position_size_hint (decision : string) (technical : option ProfileTechnical) : string :=
  if String.eqb decision "Blocked by earnings gate" then "No new entry"
  else if String.eqb decision "Avoid" then "Avoid"
  else if smem decision ["Low confidence"; "Speculative watch"] then "Small probe"
  else if smem decision ["Watch"; "Watchlist"] then "Small probe"
  else
    let risk_score := _float_or_none (technical ≫= (fun t : ProfileTechnical => ts_risk_score t)) in
    if String.eqb decision "Strong candidate"
       && match technical with
          | Some t => in_labels (ts_classification t) BUYABLE_CLASSIFICATIONS
          | None => false
          end
       && match risk_score with None => true | Some r => fle r (float_ratio 35 10) end
    then "Full starter"
    else if smem decision ["Strong candidate"; "Candidate"] then "Half starter"
    else "Wait".

Definition _sort_bucket (decision : string) (is_complete has_warning : bool) : Z :=
  if smem decision ["Blocked by earnings gate"; "Avoid"] then 3
  else if negb is_complete then 2
  else if has_warning then 1
  else 0.

Definition _feature_field (feature : option dict) (name : string) : pyval :=
  match feature with Some d => dget d name | None => VNone end.

(** [_merge_unique] and [_merge_unique_text]. *)
Definition _merge_unique (groups : list (list string)) : list string := unique (concat groups).

(** ** The key of the ranking *)

Definition ranking_sort_key (d : RankingProfileDecision) : Z * list float * string :=
  let negated o := fopp (match o with Some x => x | None => fopp f1 end) in
  (pd_sort_bucket d,
   [fopp (if truthy (VFloat (pd_profile_score d)) then pd_profile_score d else fopp f1);
    negated (pd_fundamental_score d); negated (pd_technical_profile_score d)],
   pd_ticker d).

(** [a <= b] on keys, as Python compares tuples: the first components that differ decide. *)
Fixpoint floats_leb (xs ys : list float) (rest : bool) : bool :=
  match xs, ys with
  | x :: xs, y :: ys => if feq x y then floats_leb xs ys rest else flt x y
  | _, _ => rest
  end.
Definition ranking_leb (a b : Z * list float * string) : bool :=
  let '(b1, s1, t1) := a in
  let '(b2, s2, t2) := b in
  if negb (b1 =? b2) then b1 <? b2 else floats_leb s1 s2 (String.leb t1 t2).

(** ** One company *)

Section Engine.
Context `{Text : PyText} `{RankingAuthority}.

Definition _tradeability_penalty (profile : RankingProfileConfig) (feature : option dict)
    : result (float * option string * option string) :=
  let overlay := tradeability_overlay profile in
  let text name := upper (py_str (py_or (_feature_field feature name) (VStr ""))) in
  if negb (overlay_enabled overlay) || negb (has feature) then Ok (f0, None, None)
  else if negb (String.eqb (text "coverage_status") "AVAILABLE") then Ok (f0, None, None)
  else
    let grade := text "classification" in
    let components := py_or (py_or (_feature_field feature "components_json")
                                   (_feature_field feature "components")) (VDict []) in
    volume ← get_item components "dollar_volume";
    dollar_volume ← match volume with VNone => Ok None | v => x ← to_float v; Ok (Some x) end;
    let below_profile_floor :=
      match minimum_dollar_volume overlay, dollar_volume with
      | Some minimum, Some x => flt x minimum
      | _, _ => false
      end in
    let charge grade configured :=
      let penalty := py_round_digits 4 (fmin configured (maximum_penalty overlay)) in
      Ok (penalty, Some grade,
          if fgt penalty f0 then Some "IBKR_TRADEABILITY_PENALTY" else None) in
    if String.eqb grade "VERY_POOR" then charge grade (very_poor_penalty overlay)
    else if String.eqb grade "POOR" || below_profile_floor then
      charge (if below_profile_floor then "BELOW_PROFILE_DOLLAR_VOLUME" else grade) (poor_penalty overlay)
    else Ok (f0, if String.eqb grade "" then None else Some grade, None).

Definition floats (l : list (string * float)) : pyval := VDict (map (fun kv => (kv.1, VFloat kv.2)) l).

Definition _debug_payload (profile : RankingProfileConfig)
    (fundamental_score base_technical_score : option float) (technical : option ProfileTechnical)
    (fundamental : option FundamentalScore) (component_scores penalties : list (string * float))
    (gates : dict) (technical_profile_score : option float)
    (weighted_score total_penalty profile_score : float) (liquidity_feature : option dict)
    (tradeability_grade : option string) : dict :=
  let overlay := tradeability_overlay profile in
  [("ranking_engine_version", VStr RANKING_ENGINE_VERSION);
   ("profile", VDict
      [("name", VStr (rp_name profile)); ("label", VStr (rp_label profile));
       ("weights", VDict [("technical", VFloat (technical_weight profile));
                          ("fundamental", VFloat (fundamental_weight profile))]);
       ("technical_components", floats (technical_components profile));
       ("tradeability_overlay", VDict
          [("enabled", VBool (overlay_enabled overlay)); ("poor_penalty", VFloat (poor_penalty overlay));
           ("very_poor_penalty", VFloat (very_poor_penalty overlay));
           ("maximum_penalty", VFloat (maximum_penalty overlay));
           ("minimum_dollar_volume", of_opt VFloat (minimum_dollar_volume overlay))])]);
   ("inputs", VDict
      [("fundamental_score", of_opt VFloat fundamental_score);
       ("base_technical_score", of_opt VFloat base_technical_score);
       ("technical_classification",
        opt_str (technical ≫= (fun t : ProfileTechnical => ts_classification t)));
       ("fundamental_label", opt_str (fundamental ≫= fs_fundamental_label));
       ("ibkr_liquidity_coverage", _feature_field liquidity_feature "coverage_status");
       ("ibkr_liquidity_classification", _feature_field liquidity_feature "classification");
       ("ibkr_tradeability_grade", opt_str tradeability_grade)]);
   ("component_scores", floats component_scores);
   ("penalties", floats penalties);
   ("gates", VDict gates);
   ("calculation", VDict
      [("technical_profile_score", of_opt VFloat technical_profile_score);
       ("weighted_score_before_penalty", VFloat weighted_score);
       ("total_penalty", VFloat total_penalty);
       ("profile_score", VFloat profile_score)])].

(** The gates of a row that is admitted for research only. *)
Definition research_gate (research : bool) (technical : option ProfileTechnical) (g : Gates.GateResult)
    : result Gates.GateResult :=
  if research then
    match technical with
    | None => raise "AttributeError" "'NoneType' object has no attribute 'classification'"
    | Some t =>
        let ceiling := if in_labels (ts_classification t) DANGER_CLASSIFICATIONS
                       then "Avoid" else "Watchlist" in
        Ok (Gates.mkGateResult (Gates._cap_decision (Gates.g_decision g) ceiling) (Gates.g_blocked g)
              (dict_set "technical_research_only" (VBool true) (Gates.g_gates g))
              (Gates.g_notes g) (Gates.g_warning_flags g))
    end
  else Ok g.

Definition rank_single_row (profile : RankingProfileConfig) (row : RawCompanyRow)
    (fundamental : option FundamentalScore) (technical : option ProfileTechnical) (config : dict)
    (today : date) (liquidity_feature : option dict) : result RankingProfileDecision :=
  '(technical, eligibility) ← ranking_technical_input config technical;
  '(liquidity_feature, liquidity_permission) ← ranking_liquidity_input liquidity_feature;
  '(fundamental, fundamental_permission) ← ranking_fundamental_input fundamental;
  let fundamental_score := _float_or_none (fundamental ≫= fs_fundamental_score) in
  let base_technical_score :=
    _float_or_none (technical ≫= (fun t : ProfileTechnical => ts_dual_score t)) in
  component_scores ← extract_technical_components technical;
  let technical_profile_score :=
    calculate_technical_profile_score component_scores (technical_components profile) in
  let weighted_score := calculate_profile_score technical_profile_score fundamental_score profile in
  earnings_risk ← _calculate_row_earnings_risk row config today;
  '(penalty_total, penalty_result) ←
    calculate_profile_penalties profile fundamental technical component_scores earnings_risk;
  '(tradeability_penalty, tradeability_grade, tradeability_warning) ←
    _tradeability_penalty profile liquidity_feature;
  let penalties := if fgt tradeability_penalty f0
                   then dict_set "ibkr_tradeability" tradeability_penalty (pp_penalties penalty_result)
                   else pp_penalties penalty_result in
  let total_penalty := fadd penalty_total tradeability_penalty in
  let profile_score := _clamp (fsub weighted_score total_penalty) in
  let decision := decision_from_score profile_score profile in
  gate_result ← Gates.apply_profile_gates profile decision fundamental technical earnings_risk;
  research ← research_only eligibility;
  gate_result ← research_gate research technical gate_result;
  let decision := Gates.g_decision gate_result in
  let warning_summary := build_combined_warning_flags fundamental (pt_row <$> technical) decision in
  let warning_flags := _merge_unique
    [wf_flags warning_summary; er_warning_flags earnings_risk; pp_warning_flags penalty_result;
     match tradeability_warning with Some w => [w] | None => [] end;
     Gates.g_warning_flags gate_result] in
  let tradeability_notes :=
    if fgt tradeability_penalty f0 then
      [("IBKR tradeability overlay applied (" ++
        match tradeability_grade with Some g => g | None => "None" end ++ ")")%string]
    else [] in
  let notes := match _merge_unique [pp_notes penalty_result; tradeability_notes;
                                    Gates.g_notes gate_result] with
               | [] => ["aligned"]
               | notes => notes
               end in
  let is_complete := has fundamental_score && has technical_profile_score in
  Ok (mkRankingProfileDecision (upper (rc_ticker row)) (rc_id row) (rc_company_name row) (rc_sector row)
        (rp_name profile) (rp_label profile) 0 profile_score technical_profile_score fundamental_score
        base_technical_score
        (technical ≫= (fun t : ProfileTechnical => ts_classification t))
        (fundamental ≫= fs_fundamental_label) decision
        (if has technical && negb research then _position_size_hint decision technical else "No new entry")
        notes warning_flags penalties (Gates.g_gates gate_result) component_scores
        (_debug_payload profile fundamental_score base_technical_score technical fundamental
           component_scores penalties (Gates.g_gates gate_result) technical_profile_score weighted_score
           total_penalty profile_score liquidity_feature tradeability_grade ++
         [("technical_consumer_eligibility", VDict eligibility);
          ("contextual_consumer_eligibility", VDict
             [("ibmi_liquidity", VDict liquidity_permission);
              ("fundamental", VDict fundamental_permission)])])
        (er_upcoming_earnings_date earnings_risk) (er_days_until_earnings earnings_risk)
        (er_risk_level earnings_risk) is_complete (nonempty warning_flags) (has fundamental_score)
        (has technical_profile_score) (_sort_bucket decision is_complete (nonempty warning_flags))).

(** ** A run *)

(** [enumerate(ranked, start)]. *)
Fixpoint number (rank : Z) (ds : list RankingProfileDecision) : list RankingProfileDecision :=
  match ds with
  | [] => []
  | d :: ds => set_rank rank d :: number (rank + 1) ds
  end.

Definition decision_leb (a b : RankingProfileDecision) : bool :=
  ranking_leb (ranking_sort_key a) (ranking_sort_key b).

(** [ticker] is the key of the three dictionaries. *)
Definition rank_row (profile : RankingProfileConfig) (fundamentals : list (string * FundamentalScore))
    (technicals : list (string * ProfileTechnical)) (config : dict) (today : date)
    (liquidity_features : list (string * dict)) (row : RawCompanyRow) : result RankingProfileDecision :=
  let ticker := upper (rc_ticker row) in
  rank_single_row profile row (dict_find ticker fundamentals) (dict_find ticker technicals) config today
    (dict_find ticker liquidity_features).

Definition rank_profile (profile : RankingProfileConfig) (rows : list RawCompanyRow)
    (fundamentals : list (string * FundamentalScore)) (technicals : list (string * ProfileTechnical))
    (config : dict) (today : date) (liquidity_features : list (string * dict))
    : result (list RankingProfileDecision) :=
  decisions ← map_result (rank_row profile fundamentals technicals config today liquidity_features)
                (_unique_rows rows);
  let rankable := List.filter pd_has_technical decisions in
  let unranked := List.filter (fun d => negb (pd_has_technical d)) decisions in
  Ok (number 1 (sort_by decision_leb rankable) ++
      sort_by (fun a b => String.leb (pd_ticker a) (pd_ticker b)) unranked).

End Engine.
