(* ===== verification/RankingFacts.v ===== *)
(** * Ranking profiles: theorems

    Loaded profiles are well formed, and their decisions follow the score; the gates only
    lower a decision; an entry recommendation passes every gate; a company whose technical
    row is not admitted is not ranked; the ranking of a run holds every company once, in the
    order of its key. *)
From Stdlib Require Import ZArith Lia List String Bool Sorted Permutation.
From stdpp Require Import base list strings.
From S2P Require Import Prelude PyDate PyFloat FloatFacts FloatRange PyValue Canonical PyDecimal PriceBars.
From S2P Require Import Signals ScoreWarnings CombinedDecision CombinedFacts CombinedRun.
From S2P Require Import RankingRules RankingEngine.
Local Open Scope string_scope.
Local Open Scope list_scope.
Local Open Scope Z_scope.

(** ** Profiles *)

(** What the validation of a profile establishes. *)
Record well_formed (p : RankingProfileConfig) : Prop := {
  wf_components : forall c, In c (map fst (technical_components p)) -> In c SUPPORTED_TECHNICAL_COMPONENTS;
  wf_strong : fle (candidate_min_score (thresholds p)) (strong_candidate_min_score (thresholds p)) = true;
  wf_candidate : fle (watch_min_score (thresholds p)) (candidate_min_score (thresholds p)) = true;
  wf_missing : flt (missing_penalty (missing_data_policy p)) f0 = false;
  wf_penalties : Forall (fun kv => flt kv.2 f0 = false) (rp_penalties p);
  wf_overlay : fgt (fmax (poor_penalty (tradeability_overlay p)) (very_poor_penalty (tradeability_overlay p)))
                 (maximum_penalty (tradeability_overlay p)) = false;
}.

Lemma refuse_if_Ok cond msg u : refuse_if cond msg = Ok u -> cond = false.
Proof. by destruct cond. Qed.

Section Profiles.
Context `{Text : PyText}.

Lemma check_penalties_Ok name l u : check_penalties name l = Ok u -> Forall (fun kv => flt kv.2 f0 = false) l.
Proof.
  induction l as [|[k v] l IH]; intros E; simpl in E; [constructor|].
  apply result_bind_Ok in E as (u' & E1 & E2). apply refuse_if_Ok in E1. constructor; auto.
Qed.

Lemma validate_profile_Ok p u : _validate_profile p = Ok u -> well_formed p.
Proof.
  unfold _validate_profile. cbv zeta. intros E.
  apply result_bind_Ok in E as (u1 & _ & E). apply result_bind_Ok in E as (u2 & _ & E).
  apply result_bind_Ok in E as (u3 & H3 & E). apply result_bind_Ok in E as (u4 & H4 & E).
  apply result_bind_Ok in E as (u5 & H5 & E). apply result_bind_Ok in E as (u6 & H6 & E).
  apply result_bind_Ok in E as (u7 & _ & E). apply result_bind_Ok in E as (u8 & _ & E).
  apply refuse_if_Ok in H3, H4, H5, E. apply negb_false_iff, andb_true_iff in H4 as [Hs Hc].
  split; try done; [|by eapply check_penalties_Ok].
  intros c Hin. destruct (smem c SUPPORTED_TECHNICAL_COMPONENTS) eqn:Hm; [by apply smem_In|].
  exfalso. assert (Hu : In c (unknown_components p)).
  { apply sort_by_In, List.filter_In. split; [done|]. by rewrite Hm. }
  by destruct (unknown_components p).
Qed.

Lemma validate_profiles_Ok ps u : validate_profiles ps = Ok u -> Forall well_formed ps.
Proof.
  induction ps as [|p ps IH]; intros E; simpl in E; [constructor|].
  apply result_bind_Ok in E as (u' & E1 & E2). constructor; eauto using validate_profile_Ok.
Qed.

Lemma loaded_well_formed document profiles : load_ranking_profiles document = Ok profiles ->
  profiles <> [] /\ Forall (fun p => well_formed p /\ rp_enabled p = true) profiles.
Proof.
  unfold load_ranking_profiles. intros E. apply result_bind_Ok in E as (data & _ & E).
  destruct (dget data "profiles") as [| | | | | | |raw]; try done.
  apply result_bind_Ok in E as (ps & _ & E). apply result_bind_Ok in E as (u & Hv & E).
  apply validate_profiles_Ok in Hv.
  assert (H : Forall (fun p => well_formed p /\ rp_enabled p = true) (List.filter rp_enabled ps)).
  { apply Forall_forall. intros p Hp. apply list_elem_of_In, List.filter_In in Hp as [Hp He].
    rewrite Forall_forall in Hv. split; [|done]. apply Hv. by apply list_elem_of_In. }
  destruct (List.filter rp_enabled ps) as [|p ps']; [done|]. apply Ok_inj in E. subst profiles. done.
Qed.

(** Under a profile that loads, a higher score never gives a lower decision, and every
    decision is one of the four that the score can give. *)
Theorem profile_decisions_monotone document profiles p s s' :
  load_ranking_profiles document = Ok profiles -> In p profiles -> fle s s' = true ->
  Gates.order (decision_from_score s p) <= Gates.order (decision_from_score s' p) /\
  In (decision_from_score s p) ["Avoid"; "Watchlist"; "Candidate"; "Strong candidate"].
Proof.
  intros E Hp Hs. apply loaded_well_formed in E as [_ Hw]. rewrite Forall_forall in Hw.
  destruct (Hw p) as [[_ W1 W2 _ _ _] _]; [by apply list_elem_of_In|].
  unfold decision_from_score, fge. set (t := thresholds p) in *.
  assert (up : forall m, fle m s = true -> fle m s' = true) by eauto using fle_trans.
  destruct (fle (strong_candidate_min_score t) s) eqn:E1.
  { rewrite (up _ E1). simpl. split; [lia|tauto]. }
  destruct (fle (candidate_min_score t) s) eqn:E2.
  { rewrite (up _ E2). split; [|simpl; tauto]. destruct (fle (strong_candidate_min_score t) s'); by apply Z.leb_le. }
  destruct (fle (watch_min_score t) s) eqn:E3.
  { rewrite (up _ E3). split; [|simpl; tauto].
    destruct (fle (strong_candidate_min_score t) s'), (fle (candidate_min_score t) s'); by apply Z.leb_le. }
  split; [|simpl; tauto].
  destruct (fle (strong_candidate_min_score t) s'), (fle (candidate_min_score t) s'),
    (fle (watch_min_score t) s'); by apply Z.leb_le.
Qed.

End Profiles.

(** ** Gates *)

Module GateFacts.
Import Gates.

Lemma cap_decision_order d m : order (_cap_decision d m) <= order d /\ order (_cap_decision d m) <= order m.
Proof. unfold _cap_decision. destruct (Z.leb_spec (order d) (order m)); lia. Qed.

Lemma cap_order m gate value note flag g :
  order (g_decision (cap m gate value note flag g)) <= order (g_decision g) /\
  order (g_decision (cap m gate value note flag g)) <= order m.
Proof. apply cap_decision_order. Qed.

Lemma order_nonneg d : 0 <= order d.
Proof.
  unfold order. simpl. repeat match goal with |- context [String.eqb d ?s] => destruct (String.eqb d s) end; lia.
Qed.

(** The ceiling that a profile and the sources of a company put on its decision. *)
Section Ceiling.
Context `{Text : PyText}.
Variables (profile : RankingProfileConfig) (fundamental : option FundamentalScore)
  (technical : option ProfileTechnical).

Inductive ceiling : Z -> Prop :=
  | ceiling_danger t : technical = Some t -> gate_on profile "danger_blocks_candidate" = true ->
      in_labels (ts_classification t) DANGER_CLASSIFICATIONS = true -> ceiling (order "Avoid")
  | ceiling_floor floor m s : dget (rp_gates profile) "fundamental_floor" = VDict floor ->
      dget floor "enabled" = VBool true -> to_float (get_or floor "min_score" (VFloat f0)) = Ok m ->
      _fundamental_score fundamental = Some s -> flt s m = true ->
      ceiling (order (py_str (get_or floor "max_decision" (VStr "Watchlist"))))
  | ceiling_label f m : fundamental = Some f ->
      dict_find (match fs_fundamental_label f with Some l => l | None => "None" end)
        FUNDAMENTAL_RISK_LABEL_CAPS = Some m -> ceiling (order m)
  | ceiling_liquidity t : technical = Some t -> gate_on profile "liquidity_caps_candidate" = true ->
      _liquidity_warning t = Ok true -> ceiling (order "Watchlist")
  | ceiling_quality : fundamental = None \/ technical = None \/ _low_data_quality technical = true ->
      ceiling (order "Low confidence").

Lemma danger_gate_order g :
  order (g_decision (danger_gate profile technical g)) <= order (g_decision g) /\
  (forall t, technical = Some t -> gate_on profile "danger_blocks_candidate" = true ->
   in_labels (ts_classification t) DANGER_CLASSIFICATIONS = true ->
   order (g_decision (danger_gate profile technical g)) <= order "Avoid").
Proof.
  unfold danger_gate. destruct technical as [t|]; [|split; [lia|done]].
  destruct (gate_on _ _); [|split; [lia|done]].
  destruct (in_labels _ _) eqn:E; [|split; [simpl; lia|intros ? [= ->] _; congruence]].
  split; [apply cap_order|]. intros. apply cap_order.
Qed.

Lemma floor_gate_order g g' : floor_gate profile fundamental g = Ok g' ->
  order (g_decision g') <= order (g_decision g) /\
  (forall floor m s, dget (rp_gates profile) "fundamental_floor" = VDict floor ->
   dget floor "enabled" = VBool true -> to_float (get_or floor "min_score" (VFloat f0)) = Ok m ->
   _fundamental_score fundamental = Some s -> flt s m = true ->
   order (g_decision g') <= order (py_str (get_or floor "max_decision" (VStr "Watchlist")))).
Proof.
  unfold floor_gate. destruct (dget (rp_gates profile) "fundamental_floor") as [| | | | | | |floor];
    try (intros [= <-]; split; [lia|done]).
  destruct (dget floor "enabled") as [|[]| | | | | |] eqn:En;
    try (intros [= <-]; split; [lia|intros fl ? ? Hf; injection Hf as <-; by rewrite En]).
  intros E. apply result_bind_Ok in E as (m & Hm & E).
  destruct (match _fundamental_score fundamental with Some s => _ | None => _ end) eqn:Hc;
    apply Ok_inj in E; subst g'.
  - split; [apply cap_order|]. intros fl m' s [= <-] _ _ _ _. apply cap_order.
  - split; [simpl; lia|]. intros fl m' s [= <-] _ Hm' Hs Hlt. rewrite Hs in Hc.
    rewrite Hm in Hm'. apply Ok_inj in Hm'. congruence.
Qed.

Lemma label_gate_order g :
  order (g_decision (label_gate fundamental g)) <= order (g_decision g) /\
  (forall f m, fundamental = Some f ->
   dict_find (match fs_fundamental_label f with Some l => l | None => "None" end)
     FUNDAMENTAL_RISK_LABEL_CAPS = Some m -> order (g_decision (label_gate fundamental g)) <= order m).
Proof.
  unfold label_gate. destruct fundamental as [f|]; [|split; [lia|done]].
  destruct (dict_find _ FUNDAMENTAL_RISK_LABEL_CAPS) as [m|] eqn:E.
  - split; [apply cap_order|]. intros f' m' [= <-] E'. rewrite E in E'. injection E' as <-. apply cap_order.
  - split; [lia|]. intros f' m' [= <-]. congruence.
Qed.

Lemma liquidity_gate_order g g' : liquidity_gate profile technical g = Ok g' ->
  order (g_decision g') <= order (g_decision g) /\
  (forall t, technical = Some t -> gate_on profile "liquidity_caps_candidate" = true ->
   _liquidity_warning t = Ok true -> order (g_decision g') <= order "Watchlist").
Proof.
  unfold liquidity_gate. destruct (gate_on _ _); [|intros [= <-]; split; [lia|done]].
  intros E. apply result_bind_Ok in E as (w & Hw & E). apply Ok_inj in E. subst g'. destruct w.
  - split; [apply cap_order|]. intros. apply cap_order.
  - split; [simpl; lia|]. intros t -> _ Ht. congruence.
Qed.

Lemma quality_gate_order g :
  order (g_decision (quality_gate fundamental technical g)) <= order (g_decision g) /\
  (fundamental = None \/ technical = None \/ _low_data_quality technical = true ->
   order (g_decision (quality_gate fundamental technical g)) <= order "Low confidence").
Proof.
  unfold quality_gate. destruct (_ || _) eqn:E.
  - split; [apply cap_order|]. intros. apply cap_order.
  - split; [simpl; lia|]. apply orb_false_iff in E as [E1 E3]. apply orb_false_iff in E1 as [E1 E2].
    intros [->|[->|H]]; [done|done|congruence].
Qed.

(** The gates lower a decision, below every ceiling that applies. *)
Lemma gates_spec decision risk g : apply_profile_gates profile decision fundamental technical risk = Ok g ->
  order (g_decision g) <= order decision /\
  (forall n, ceiling n -> order (g_decision g) <= n) /\
  (gate_on profile "earnings_block" && er_decision_blocked risk = true ->
   g_decision g = "Blocked by earnings gate").
Proof.
  unfold apply_profile_gates. destruct (_ && _) eqn:Hb.
  { intros [= <-]. simpl. split_and!; try done; [apply order_nonneg|].
    intros n [ | | | | ]; apply order_nonneg. }
  intros E. set (g0 := mkGateResult decision _ _ _ _) in E.
  destruct (danger_gate_order g0) as [L1 C1]. change (g_decision g0) with decision in L1.
  apply result_bind_Ok in E as (g2 & H2 & E). apply floor_gate_order in H2 as [L2 C2].
  destruct (label_gate_order g2) as [L3 C3].
  apply result_bind_Ok in E as (g4 & H4 & E). apply liquidity_gate_order in H4 as [L4 C4].
  destruct (quality_gate_order g4) as [L5 C5]. apply Ok_inj in E. subst g. cbn [g_decision] in *.
  split_and!; [lia| |done]. intros n [t Ht Hg Hd|fl m s0 Hf He Hm Hs Hlt|f m Hf Hd|t Ht Hg Hw|Hq].
  - specialize (C1 t Ht Hg Hd). lia.
  - specialize (C2 fl m s0 Hf He Hm Hs Hlt). lia.
  - specialize (C3 f m Hf Hd). lia.
  - specialize (C4 t Ht Hg Hw). lia.
  - auto.
Qed.
End Ceiling.
End GateFacts.

(** ** One company *)

Section Company.
Context `{Text : PyText} `{RA : RankingAuthority}.

(** The steps of a decision, by name. *)
Record profiled (profile : RankingProfileConfig) (row : RawCompanyRow) (f : option FundamentalScore)
    (t : option ProfileTechnical) (config : dict) (today : date) (d : RankingProfileDecision)
    (f' : option FundamentalScore) (t' : option ProfileTechnical) (permission : dict)
    (risk : EarningsRiskResult) (g : Gates.GateResult) (research : bool) : Prop := {
  p_technical : ranking_technical_input config t = Ok (t', permission);
  p_fundamental : exists p, ranking_fundamental_input f = Ok (f', p);
  p_risk : _calculate_row_earnings_risk row config today = Ok risk;
  p_components : extract_technical_components t' = Ok (pd_component_scores d);
  p_gates : Gates.apply_profile_gates profile (decision_from_score (pd_profile_score d) profile) f' t' risk = Ok g;
  p_research : research_only permission = Ok research;
  p_decision : exists g', research_gate research t' g = Ok g' /\ pd_decision_label d = Gates.g_decision g';
  p_size : pd_position_size_hint d = if has t' && negb research
             then _position_size_hint (pd_decision_label d) t' else "No new entry";
  p_score : exists x, pd_profile_score d = _clamp x;
  p_fundamental_score : pd_fundamental_score d = _float_or_none (f' ≫= fs_fundamental_score);
  p_technical_score : pd_technical_profile_score d =
    calculate_technical_profile_score (pd_component_scores d) (technical_components profile);
  p_has : pd_has_technical d = has (pd_technical_profile_score d);
  p_ticker : pd_ticker d = upper (rc_ticker row);
  p_rank : pd_profile_rank d = 0;
  p_profile : pd_ranking_profile d = rp_name profile;
}.

Lemma rank_profiled profile row f t config today liquidity d :
  rank_single_row profile row f t config today liquidity = Ok d ->
  exists f' t' permission risk g research,
    profiled profile row f t config today d f' t' permission risk g research.
Proof.
  unfold rank_single_row. intros E.
  apply result_bind_Ok in E as ([t' permission] & Ht & E).
  apply result_bind_Ok in E as ([l' lp] & Hl & E).
  apply result_bind_Ok in E as ([f' fp] & Hf & E). cbv zeta in E.
  apply result_bind_Ok in E as (comps & Hc & E). apply result_bind_Ok in E as (risk & Hr & E).
  apply result_bind_Ok in E as ([total pens] & Hp & E).
  apply result_bind_Ok in E as ([[tp tg] tw] & Htp & E).
  apply result_bind_Ok in E as (g & Hg & E). apply result_bind_Ok in E as (research & Hres & E).
  apply result_bind_Ok in E as (g' & Hg' & E). apply Ok_inj in E. subst d.
  exists f', t', permission, risk, g, research. split; simpl; eauto.
Qed.

(** The research ceiling lowers a decision too, and the row is there. *)
Lemma research_gate_order research t g g' : research_gate research t g = Ok g' ->
  Gates.order (Gates.g_decision g') <= Gates.order (Gates.g_decision g) /\
  (research = true -> Gates.order (Gates.g_decision g') <= Gates.order "Watchlist").
Proof.
  unfold research_gate. destruct research; [|intros [= <-]; split; [lia|done]].
  destruct t as [t|]; [|done]. intros [= <-]. simpl.
  destruct (GateFacts.cap_decision_order (Gates.g_decision g)
              (if in_labels (ts_classification t) DANGER_CLASSIFICATIONS then "Avoid" else "Watchlist")) as [H1 H2].
  split; [done|]. intros _. etrans; [apply H2|]. by destruct (in_labels _ _).
Qed.



(** Without an admitted technical row a company is not ranked: it has no technical score, no
    rank, no new entry and at most a low-confidence decision. *)
Theorem unadmitted_technical_fails_closed profile row f t config today liquidity permission d :
  ranking_technical_input config t = Ok (None, permission) ->
  rank_single_row profile row f t config today liquidity = Ok d ->
  pd_has_technical d = false /\ pd_profile_rank d = 0 /\ pd_position_size_hint d = "No new entry" /\
  pd_component_scores d = [] /\ Gates.order (pd_decision_label d) <= Gates.order "Low confidence".
Proof.
  intros Ht E. apply rank_profiled in E as (f' & t' & perm & risk & g & research & []).
  rewrite Ht in p_technical0. apply Ok_inj in p_technical0. injection p_technical0 as <- <-.
  apply Ok_inj in p_components0. destruct p_decision0 as (g' & Hg' & Hd).
  apply research_gate_order in Hg' as [Hlow _]. apply GateFacts.gates_spec in p_gates0 as (_ & Hceil & _).
  rewrite p_has0, p_technical_score0, <- p_components0. split_and!; try done.
  rewrite Hd. etrans; [done|]. apply Hceil. constructor. auto.
Qed.
End Company.

(** ** The ranking of a run *)

(** A key of numbers. *)
Definition ranking_proper (k : Z * list float * string) : Prop :=
  length k.1.2 = 3%nat /\ Forall (fun x => is_nan x = false) k.1.2.

Lemma floats_leb_total xs : forall ys r r', length xs = length ys ->
  Forall (fun x => is_nan x = false) xs -> Forall (fun x => is_nan x = false) ys ->
  (r = false -> r' = true) -> floats_leb xs ys r = false -> floats_leb ys xs r' = true.
Proof.
  induction xs as [|x xs IH]; intros [|y ys] r r' Hl Hx Hy Hr; simpl in *; try done; auto.
  inversion_clear Hx as [|?? Nx Hxs]. inversion_clear Hy as [|?? Ny Hys].
  rewrite (feq_sym y x) by done. destruct (feq x y) eqn:E; [by eapply IH; auto|].
  destruct (flt_trichotomy x y Nx Ny) as [(?&?&?)|[(?&?&?)|(?&?&?)]]; congruence.
Qed.

Lemma floats_leb_trans xs : forall ys zs r1 r2 r3, length xs = length ys -> length ys = length zs ->
  Forall (fun x => is_nan x = false) xs -> Forall (fun x => is_nan x = false) ys ->
  Forall (fun x => is_nan x = false) zs -> (r1 = true -> r2 = true -> r3 = true) ->
  floats_leb xs ys r1 = true -> floats_leb ys zs r2 = true -> floats_leb xs zs r3 = true.
Proof.
  induction xs as [|x xs IH]; intros [|y ys] [|z zs] r1 r2 r3 L1 L2 Hx Hy Hz Hr; simpl in *; try done; auto.
  inversion_clear Hx as [|?? Nx Hxs]. inversion_clear Hy as [|?? Ny Hys]. inversion_clear Hz as [|?? Nz Hzs].
  destruct (feq x y) eqn:E1.
  - rewrite (feq_trans x y z), (feq_flt_l x y z) by done. destruct (feq x z); [|done]. eapply IH; eauto.
  - intros L. destruct (feq y z) eqn:E2.
    + rewrite (feq_flt_r x y z) in L by done.
      assert (feq x z = false) as ->; [|done].
      rewrite (feq_sym x z), (feq_trans y z x), (feq_sym y x) by done. done.
    + intros L'. pose proof (flt_trans _ _ _ L L') as L''.
      destruct (flt_trichotomy x z Nx Nz) as [(?&?&?)|[(->&?&?)|(?&?&?)]]; congruence.
Qed.

Lemma ranking_leb_total a b : ranking_proper a -> ranking_proper b ->
  ranking_leb a b = false -> ranking_leb b a = true.
Proof.
  destruct a as [[b1 s1] t1], b as [[b2 s2] t2]. intros [L1 N1] [L2 N2]. simpl in *.
  destruct (Z.eqb_spec b1 b2) as [->|Hn]; rewrite ?Z.eqb_refl; cbn [negb].
  - apply floats_leb_total; [congruence|done..|]. apply string_leb_total.
  - destruct (Z.eqb_spec b2 b1); cbn [negb]; lia.
Qed.

Lemma ranking_leb_trans a b c : ranking_proper a -> ranking_proper b -> ranking_proper c ->
  ranking_leb a b = true -> ranking_leb b c = true -> ranking_leb a c = true.
Proof.
  destruct a as [[b1 s1] t1], b as [[b2 s2] t2], c as [[b3 s3] t3].
  intros [L1 N1] [L2 N2] [L3 N3]. simpl in *.
  destruct (Z.eqb_spec b1 b2) as [->|], (Z.eqb_spec b2 b3) as [->|]; rewrite ?Z.eqb_refl; cbn [negb];
    [|done|by destruct (Z.eqb_spec b1 b3); cbn [negb]; [lia|]|destruct (Z.eqb_spec b1 b3); cbn [negb]; lia].
  apply floats_leb_trans; try congruence; try done. apply string_leb_trans.
Qed.

Section Run.
Context `{Text : PyText} `{RA : RankingAuthority}.

Lemma clamp_number x : is_nan (_clamp x) = false.
Proof. eapply fle_nan_r. apply clamp_bounded. Qed.

Lemma decision_key_proper profile row f t config today liquidity d :
  rank_single_row profile row f t config today liquidity = Ok d -> ranking_proper (ranking_sort_key d).
Proof.
  intros E. apply rank_profiled in E as (f' & t' & perm & risk & g & research & []).
  destruct p_score0 as [x Hx]. split; [done|]. simpl. rewrite Hx, p_fundamental_score0, p_technical_score0.
  repeat constructor; rewrite fopp_number.
  - match goal with |- is_nan (if ?b then _ else _) = _ => destruct b end; [apply clamp_number|done].
  - unfold _float_or_none. destruct (f' ≫= fs_fundamental_score); [apply float_of_decimal_number|done].
  - unfold calculate_technical_profile_score. destruct (pd_component_scores d); [done|apply clamp_number].
Qed.

Lemma number_spec ds : forall rank,
  map pd_profile_rank (number rank ds) = seqZ rank (Z.of_nat (length ds)) /\
  Forall2 (fun d d' => exists r, d' = set_rank r d) ds (number rank ds).
Proof.
  induction ds as [|d ds IH]; intros rank; simpl; [done|].
  destruct (IH (rank + 1)) as [-> HF]. rewrite (seqZ_cons rank) by lia.
  replace (Z.pred (Z.of_nat (S (length ds)))) with (Z.of_nat (length ds)) by lia.
  split; [done|]. constructor; eauto.
Qed.

Lemma number_map {B} (f : RankingProfileDecision -> B) ds rank :
  (forall r d, f (set_rank r d) = f d) -> map f (number rank ds) = map f ds.
Proof. intros Hf. revert rank. induction ds as [|d ds IH]; intros rank; simpl; [done|]. by rewrite Hf, IH. Qed.

Lemma Forall2_In_r {A B} (P : A -> B -> Prop) l k y : Forall2 P l k -> In y k -> exists x, In x l /\ P x y.
Proof.
  induction 1 as [|x z l k Hxz _ IH]; [done|]. intros [->|Hy]; [exists x; by split; [left|]|].
  destruct (IH Hy) as (x' & ? & ?). exists x'. split; [by right|done].
Qed.

Lemma partition_Permutation {A} (p : A -> bool) l :
  List.filter p l ++ List.filter (fun x => negb (p x)) l ≡ₚ l.
Proof.
  induction l as [|x l IH]; simpl; [done|]. destruct (p x); simpl; [by rewrite IH|].
  rewrite <- Permutation_middle. by rewrite IH.
Qed.

(** The decisions of the rows of a run. *)
Lemma decisions_of_rows profile rows fundamentals technicals config today liquidity ds :
  Forall2 (fun row d => rank_row profile fundamentals technicals config today liquidity row = Ok d) rows ds ->
  (forall d, In d ds -> ranking_proper (ranking_sort_key d) /\ pd_profile_rank d = 0 /\
     exists row, In row rows /\
       rank_row profile fundamentals technicals config today liquidity row = Ok d) /\
  map pd_ticker ds = map (fun r => upper (rc_ticker r)) rows.
Proof.
  intros Hds. split.
  - intros d Hin. destruct (Forall2_In_r _ _ _ _ Hds Hin) as (row & Hrow & Hok). unfold rank_row in Hok.
    split; [by eapply decision_key_proper|]. split; [|exists row; by split].
    apply rank_profiled in Hok as (? & ? & ? & ? & ? & ? & []). done.
  - induction Hds as [|row d rs ds H _ IH]; simpl; [done|]. rewrite IH. f_equal.
    apply rank_profiled in H as (? & ? & ? & ? & ? & ? & []). done.
Qed.

(** Every ticker of the rows once, under the name of the profile. *)
Lemma rank_profile_tickers profile rows fundamentals technicals config today liquidity result :
  rank_profile profile rows fundamentals technicals config today liquidity = Ok result ->
  map pd_ticker result ≡ₚ map (fun r => upper (rc_ticker r)) (_unique_rows rows) /\
  Forall (fun d => pd_ranking_profile d = rp_name profile) result.
Proof.
  unfold rank_profile. intros E. apply result_bind_Ok in E as (ds & Hds & E). apply Ok_inj in E. subst result.
  apply map_result_Forall2 in Hds. destruct (decisions_of_rows _ _ _ _ _ _ _ _ Hds) as [Hd Ht]. split.
  - rewrite <- Ht, map_app, number_map, <- map_app by done. apply Permutation_map.
    rewrite !sort_by_Permutation. apply partition_Permutation.
  - assert (HF : Forall (fun d => pd_ranking_profile d = rp_name profile) ds).
    { apply Forall_forall. intros d Hin. apply list_elem_of_In, Hd in Hin as (_ & _ & row & _ & Hok).
      apply rank_profiled in Hok as (? & ? & ? & ? & ? & ? & []). done. }
    rewrite Forall_forall in HF. apply Forall_app. split; apply Forall_forall; intros d Hin; apply list_elem_of_In in Hin.
    + destruct (number_spec (sort_by decision_leb (List.filter pd_has_technical ds)) 1) as [_ Hsame].
      destruct (Forall2_In_r _ _ _ _ Hsame Hin) as (d0 & Hd0 & r & ->).
      apply sort_by_In, List.filter_In in Hd0 as [Hd0 _]. apply (HF d0). by apply list_elem_of_In.
    + apply sort_by_In, List.filter_In in Hin as [Hin _]. apply HF. by apply list_elem_of_In.
Qed.

(** C27: The ranking of a run: the companies with an admitted technical row come first, numbered
    1, 2, 3, ... in the order of the key (bucket, descending scores, ticker); the others follow
    unnumbered, by ticker; every ticker of the rows occurs exactly once, with the decision of
    its row. *)
Theorem rank_profile_correct profile rows fundamentals technicals config today liquidity result :
  rank_profile profile rows fundamentals technicals config today liquidity = Ok result ->
  exists ranked unranked, result = ranked ++ unranked /\
    Forall (fun d => pd_has_technical d = true) ranked /\
    Forall (fun d => pd_has_technical d = false /\ pd_profile_rank d = 0) unranked /\
    map pd_profile_rank ranked = seqZ 1 (Z.of_nat (length ranked)) /\
    StronglySorted (fun a b => decision_leb a b = true) ranked /\
    StronglySorted (fun a b => String.leb (pd_ticker a) (pd_ticker b) = true) unranked /\
    NoDup (map pd_ticker result) /\
    (forall ticker, In ticker (map pd_ticker result) <-> In ticker (map (fun r => upper (rc_ticker r)) rows)) /\
    (forall d, In d result -> exists row, In row (_unique_rows rows) /\
       rank_row profile fundamentals technicals config today liquidity row = Ok (set_rank 0 d)).
Proof.
  intros E. pose proof (rank_profile_tickers _ _ _ _ _ _ _ _ E) as [Hp _]. revert E Hp.
  unfold rank_profile. intros E. apply result_bind_Ok in E as (ds & Hds & E). apply Ok_inj in E. subst result.
  apply map_result_Forall2 in Hds. destruct (decisions_of_rows _ _ _ _ _ _ _ _ Hds) as [Hd Ht].
  set (rankable := List.filter pd_has_technical ds). set (unranked := List.filter _ ds). intros Hp.
  destruct (unique_rows_spec rows) as [ND Hin].
  destruct (number_spec (sort_by decision_leb rankable) 1) as [Hrank Hsame].
  exists (number 1 (sort_by decision_leb rankable)),
    (sort_by (fun a b => String.leb (pd_ticker a) (pd_ticker b)) unranked).
  assert (Hl : length (number 1 (sort_by decision_leb rankable)) = length (sort_by decision_leb rankable)).
  { symmetry. by eapply Forall2_length. }
  assert (Hu : forall d, In d (sort_by (fun a b => String.leb (pd_ticker a) (pd_ticker b)) unranked) ->
    pd_has_technical d = false /\ In d ds).
  { intros d Hd'. apply sort_by_In, List.filter_In in Hd' as [? Hn]. by apply negb_true_iff in Hn. }
  split_and!; [done| | |by rewrite Hrank, Hl| | | | |].
  - apply Forall_forall. intros d Hd'. apply list_elem_of_In in Hd'.
    destruct (Forall2_In_r _ _ _ _ Hsame Hd') as (d0 & Hd0 & r & ->).
    by apply sort_by_In, List.filter_In in Hd0 as [_ ?].
  - apply Forall_forall. intros d Hd'. apply list_elem_of_In, Hu in Hd' as [? Hd']. by apply Hd in Hd' as (_ & ? & _).
  - apply (sorted_map_inv ranking_sort_key (fun a b => ranking_leb a b = true)).
    rewrite number_map by done. apply sorted_map.
    apply (sort_by_sorted_on decision_leb (fun d => ranking_proper (ranking_sort_key d)));
      [intros x y; apply ranking_leb_total|intros x y z; apply ranking_leb_trans|].
    apply Forall_forall. intros d Hd'. apply list_elem_of_In, List.filter_In in Hd' as [Hd' _]. by apply Hd.
  - apply (sort_by_sorted (fun a b => String.leb (pd_ticker a) (pd_ticker b)));
      [intros x y; apply string_leb_total|intros x y z; apply string_leb_trans].
  - by rewrite Hp.
  - intros ticker. rewrite <- list_elem_of_In, Hp, list_elem_of_In. apply Hin.
  - intros d Hd'. apply in_app_or in Hd' as [Hd'|Hd'].
    + destruct (Forall2_In_r _ _ _ _ Hsame Hd') as (d0 & Hd0 & r & ->).
      apply sort_by_In, List.filter_In in Hd0 as [Hd0 _].
      destruct (Hd d0 Hd0) as (_ & H0 & row & ? & Hok). exists row. split; [done|]. rewrite Hok. f_equal.
      destruct d0. simpl in H0. by subst.
    + apply Hu in Hd' as [_ Hd']. destruct (Hd d Hd') as (_ & H0 & row & ? & Hok).
      exists row. split; [done|]. rewrite Hok. f_equal. destruct d. simpl in H0. by subst.
Qed.
End Run.
