(* ===== verification/RankingRun.v ===== *)
(** * Ranking profiles: a run ([ranking_profile_service.py])

    The rankings of a run under every enabled profile: the sources of each company are
    validated, the liquidity features of the calculation session are selected, each profile
    ranks the companies, and each profile's rankings are written in one transaction: a new
    row, a replacement of a row without a calculation identity, or new values in the row that
    has one.  The identities of the sources and of the results, the effective configuration
    and the evidence store belong to other components: they are the class
    [RankingServices].  The second part proves what a refresh writes. *)
From Stdlib Require Import ZArith Lia List String Bool.
From stdpp Require Import base gmap list strings.
From S2P Require Import Prelude PyDate PyFloat PyValue Canonical PyDecimal PriceBars Signals.
From S2P Require Import ScoreWarnings CombinedDecision RankingRules.
From S2P Require Import RankingEngine.
Local Open Scope string_scope.
Local Open Scope list_scope.
Local Open Scope Z_scope.
Local Open Scope st_scope.

(** ** Data *)

(** A row of [ranking_results]; [rr_decision] holds the columns that copy a field of the
    decision. *)
Record RankingResult := mkRankingResult {
  rr_run_id : Z;
  rr_ranking_profile : string;
  rr_ticker : string;
  rr_evidence_id : option Z;
  rr_profile_score : decimal;
  rr_technical_profile_score : option decimal;
  rr_fundamental_score : option decimal;
  rr_base_technical_score : option decimal;
  rr_notes : string;
  rr_decision : RankingProfileDecision;
  rr_debug_json : dict;
}.

Definition set_ranking_evidence (e : option Z) (r : RankingResult) : RankingResult :=
  mkRankingResult (rr_run_id r) (rr_ranking_profile r) (rr_ticker r) e (rr_profile_score r)
    (rr_technical_profile_score r) (rr_fundamental_score r) (rr_base_technical_score r) (rr_notes r)
    (rr_decision r) (rr_debug_json r).

(** A row of [ib_intelligence_features]; [lf_fields] are the columns the engine reads. *)
Record LiquidityFeature := mkLiquidityFeature {
  lf_id : Z;
  lf_module : string;
  lf_ticker : string;
  lf_calculated_at : datetime;
  lf_as_of_session : date;
  lf_fields : dict;
}.

Record RankingDb := mkRankingDb {
  run_ids : list Z;
  rk_company_rows : list RawCompanyRow;
  rk_fundamental_scores : list FundamentalScore;
  rk_technical_scores : list ProfileTechnical;
  rk_features : list LiquidityFeature;
  ranking_results : gmap Z RankingResult;
  next_ranking_id : Z;
}.

Definition set_rankings (m : gmap Z RankingResult) (next : Z) (db : RankingDb) : RankingDb :=
  mkRankingDb (run_ids db) (rk_company_rows db) (rk_fundamental_scores db) (rk_technical_scores db)
    (rk_features db) m next.

(** The identity of the technical source of a company: its cutoff and session, when known. *)
Record RankingIdentity := mkRankingIdentity {
  ri_calculation_cutoff : option datetime;
  ri_as_of_session : option date;
  ri_payload : pyval;
}.

Record ValidatedRankingSources := mkValidatedRankingSources {
  vs_row : RawCompanyRow;
  vs_fundamental : FundamentalScore;
  vs_technical : ProfileTechnical;
  vs_identity : RankingIdentity;
}.

Class RankingServices := {
  (** [calculation_identity_from_debug(debug_json) is not None]; a fingerprint that does not
      match its payload raises. *)
  identity_from_debug : dict -> result bool;
  (** The identities of the two sources of a row, its raw source, their compatibility and
      the pipeline context. *)
  validate_ranking_source : Z -> RawCompanyRow -> FundamentalScore -> ProfileTechnical ->
    result RankingIdentity;
  compatible_ranking_context : RankingIdentity -> RankingIdentity -> bool;
  (** [resolve_ranking_configuration]: the effective profile and configuration. *)
  resolve_ranking_configuration : RankingProfileConfig -> dict -> result (RankingProfileConfig * dict);
  (** The evidence of a feature and the identity of its source admit it. *)
  accept_liquidity : LiquidityFeature -> RankingIdentity -> bool;
  (** [build_ranking_result_identity], bound to the configuration, for a company of a cohort. *)
  ranking_result_identity : RankingProfileConfig -> dict -> list ValidatedRankingSources ->
    list LiquidityFeature -> ValidatedRankingSources -> option LiquidityFeature -> result pyval;
  embed_ranking_identity : dict -> pyval -> dict;
  declare_ranking_evidence : RankingResult -> result unit;
  persist_ranking_evidence : Z -> RankingResult -> result Z;
  record_ranking_admission : RankingResult -> result unit;
}.

Section Run.
Context `{Text : PyText} `{BarText} `{RankingAuthority} `{RankingServices}.

(** ** Inputs *)

(** [{key(x): x for x in rows}]. *)
Definition by_ticker {A} (ticker_of : A -> string) (rows : list A) : list (string * A) :=
  fold_left (fun d x => dict_set (upper (ticker_of x)) x d) rows [].

Definition _raw_rows_for_run (db : RankingDb) (run_id : Z) : list RawCompanyRow :=
  sort_by (fun a b => rc_row_number a <=? rc_row_number b)
    (List.filter (fun r => rc_run_id r =? run_id) (rk_company_rows db)).
Definition _fundamentals_for_run (db : RankingDb) (run_id : Z) : list FundamentalScore :=
  List.filter (fun f => fs_run_id f =? run_id) (rk_fundamental_scores db).
Definition _technicals_for_run (db : RankingDb) (run_id : Z) : list ProfileTechnical :=
  List.filter (fun t : ProfileTechnical => ts_run_id t =? run_id) (rk_technical_scores db).

Definition validate_source (run_id : Z) (fundamentals : list (string * FundamentalScore))
    (technicals : list (string * ProfileTechnical)) (row : RawCompanyRow)
    : result (string * ValidatedRankingSources) :=
  let ticker := upper (rc_ticker row) in
  match dict_find ticker fundamentals, dict_find ticker technicals with
  | Some f, Some t =>
      identity ← validate_ranking_source run_id row f t;
      Ok (ticker, mkValidatedRankingSources row f t identity)
  | _, _ => ValueError "CALCULATION_IDENTITY_REJECTED"
  end.

Definition _require_single_ranking_context (validated : list (string * ValidatedRankingSources))
    : result unit :=
  match validated with
  | [] => Ok tt
  | (_, first) :: rest =>
      if forallb (fun v => compatible_ranking_context (vs_identity first) (vs_identity v.2)) rest then Ok tt
      else ValueError "CALCULATION_IDENTITY_REJECTED"
  end.

Definition _validated_ranking_sources (rows : list RawCompanyRow)
    (fundamentals : list (string * FundamentalScore)) (technicals : list (string * ProfileTechnical))
    (run_id : Z) : result (list (string * ValidatedRankingSources)) :=
  validated ← map_result (validate_source run_id fundamentals technicals) (_unique_rows rows);
  _ ← _require_single_ranking_context validated;
  Ok validated.

(** The known values of a dimension, each once; the cohort has to agree on one. *)
Definition single_known (values : list (option Z)) : result Z :=
  match remove_dups (keep_some values) with
  | [value] => Ok value
  | _ => ValueError "CALCULATION_IDENTITY_REJECTED"
  end.

Definition _validated_cutoff (validated : list (string * ValidatedRankingSources)) : result datetime :=
  match validated with
  | [] => ValueError "CALCULATION_IDENTITY_REJECTED"
  | _ => single_known (map (fun v => ri_calculation_cutoff (vs_identity v.2)) validated)
  end.

Definition _validated_session (validated : list (string * ValidatedRankingSources)) : result date :=
  single_known (map (fun v => ri_as_of_session (vs_identity v.2)) validated).

Definition _validated_evaluation_date (validated : list (string * ValidatedRankingSources))
    (today : option date) : result date :=
  session ← _validated_session validated;
  match today with
  | Some today => if today =? session then Ok session else ValueError "CALCULATION_IDENTITY_REJECTED"
  | None => Ok session
  end.

(** ** Liquidity features *)

(** [ORDER BY ticker, as_of_session DESC, calculated_at DESC, id DESC]. *)
Definition feature_leb (a b : LiquidityFeature) : bool :=
  if negb (String.eqb (lf_ticker a) (lf_ticker b)) then String.leb (lf_ticker a) (lf_ticker b)
  else if negb (lf_as_of_session a =? lf_as_of_session b) then lf_as_of_session b <? lf_as_of_session a
  else if negb (lf_calculated_at a =? lf_calculated_at b) then lf_calculated_at b <? lf_calculated_at a
  else lf_id b <=? lf_id a.

Definition _load_liquidity_features (db : RankingDb) (cutoff : datetime)
    : list (string * LiquidityFeature) :=
  let features := sort_by feature_leb (List.filter (fun f =>
    String.eqb (lf_module f) "LIQUIDITY" && (lf_calculated_at f <=? cutoff)
    && (lf_as_of_session f <=? dt_date cutoff)) (rk_features db)) in
  fold_left (fun latest f =>
    let ticker := upper (lf_ticker f) in
    if has (dict_find ticker latest) then latest else dict_set ticker f latest) features [].

Definition _identity_safe_liquidity (features : list (string * LiquidityFeature))
    (validated : list (string * ValidatedRankingSources)) : list (string * LiquidityFeature) :=
  List.filter (fun tf => match dict_find tf.1 validated with
                         | Some source => accept_liquidity tf.2 (vs_identity source)
                         | None => false
                         end) features.

(** ** The rankings of one profile *)

Definition market_regime_consumer_contract : pyval := VDict
  [("status", VStr "NON_AUTHORITATIVE_FOR_RANKING");
   ("policy_version", VStr "ranking-regime-independence-v1");
   ("applied_sources", VList [VStr "fundamental"; VStr "technical"; VStr "optional_ibmi_liquidity"]);
   ("excluded_sources", VList [VStr "ceri"; VStr "market_regime_snapshot"; VStr "same_run_sector"]);
   ("reason", VStr ("Ranking uses its frozen Technical readiness and profile policy; " ++
                    "command-center Regime is a sibling decision artifact."))].

(** [_to_decimal(x) or Decimal(0)]. *)
Definition decimal_or_zero (x : option decimal) : decimal :=
  match x with Some d => if coef d =? 0 then Dec 0 0 else d | None => Dec 0 0 end.

Definition _to_ranking_model (run_id : Z) (decision : RankingProfileDecision) (identity : pyval)
    : RankingResult :=
  mkRankingResult run_id (pd_ranking_profile decision) (pd_ticker decision) None
    (decimal_or_zero (_to_decimal (Some (pd_profile_score decision))))
    (_to_decimal (pd_technical_profile_score decision)) (_to_decimal (pd_fundamental_score decision))
    (_to_decimal (pd_base_technical_score decision)) (String.concat ", " (pd_notes decision)) decision
    (embed_ranking_identity
       (dict_set "market_regime_consumer_contract" market_regime_consumer_contract (pd_debug decision))
       identity).

Definition ranking_models (run_id : Z) (rows : list RawCompanyRow)
    (fundamentals : list (string * FundamentalScore)) (technicals : list (string * ProfileTechnical))
    (validated : list (string * ValidatedRankingSources)) (evaluation_date : date)
    (safe_liquidity : list (string * LiquidityFeature)) (effective : RankingProfileConfig * dict)
    : result (list RankingResult) :=
  let '(profile, config) := effective in
  let liquidity := if overlay_enabled (tradeability_overlay profile) then safe_liquidity else [] in
  decisions ← rank_profile profile rows fundamentals technicals config evaluation_date
                (map (fun tf => (tf.1, lf_fields tf.2)) liquidity);
  map_result (fun decision =>
    match dict_find (pd_ticker decision) validated with
    | None => raise "KeyError" (pd_ticker decision)
    | Some item =>
        identity ← ranking_result_identity profile config (map snd validated) (map snd liquidity) item
                     (dict_find (pd_ticker decision) liquidity);
        Ok (_to_ranking_model run_id decision identity)
    end) decisions.

(** ** Persistence *)

(** The key of a ranking within its run. *)
Definition ranking_key (r : RankingResult) : Z * string * string :=
  (rr_run_id r, rr_ranking_profile r, upper (rr_ticker r)).

(** [existing.get((profile, ticker))]: rows of the run, those written by this batch included. *)
Definition existing_ranking (db : RankingDb) (candidate : RankingResult) : option (Z * RankingResult) :=
  List.find (fun ir => bool_decide (ranking_key ir.2 = ranking_key candidate))
    (map_to_list (ranking_results db)).

(** The columns of [source], under the identity of [target]. *)
Definition _copy_ranking_values (target source : RankingResult) : RankingResult :=
  mkRankingResult (rr_run_id target) (rr_ranking_profile target) (rr_ticker target)
    (rr_evidence_id target) (rr_profile_score source) (rr_technical_profile_score source)
    (rr_fundamental_score source) (rr_base_technical_score source) (rr_notes source)
    (rr_decision source) (rr_debug_json source).

(** [db.add] and flush, with the unique constraint on run, profile and ticker. *)
Definition insert_ranking (r : RankingResult) : ST RankingDb Z := fun db =>
  if bool_decide (map_Forall (fun _ r' => ~ (rr_run_id r' = rr_run_id r /\
                    rr_ranking_profile r' = rr_ranking_profile r /\ rr_ticker r' = rr_ticker r))
                    (ranking_results db))
  then (Ok (next_ranking_id db),
        set_rankings (<[next_ranking_id db := r]> (ranking_results db)) (next_ranking_id db + 1) db)
  else (raise "IntegrityError" "uq_ranking_results_run_profile_ticker", db).

(** The refusal of a candidate without an identity, and of a damaged identity. *)
Definition _preflight_ranking_persistence (db : RankingDb) (candidate : RankingResult) : result unit :=
  identified ← identity_from_debug (rr_debug_json candidate);
  if negb identified then ValueError "CALCULATION_IDENTITY_PERSISTENCE_CONFLICT"
  else match existing_ranking db candidate with
       | None => Ok tt
       | Some (_, current) => _ ← identity_from_debug (rr_debug_json current); Ok tt
       end.

(** One candidate: a new row, a replacement of a row without an identity, or new values. *)
Definition put_ranking (candidate : RankingResult) : ST RankingDb Z :=
  let! db := st_get in
  match existing_ranking db candidate with
  | None => insert_ranking candidate
  | Some (i, current) =>
      let! identified := st_lift (identity_from_debug (rr_debug_json current)) in
      if identified : bool then
        do! st_modify (fun db => set_rankings
              (<[i := _copy_ranking_values current candidate]> (ranking_results db))
              (next_ranking_id db) db) in
        st_ret i
      else
        do! st_modify (fun db => set_rankings (delete i (ranking_results db)) (next_ranking_id db) db) in
        insert_ranking candidate
  end.

Definition attach_ranking_evidence (source_tickers : list string) (i : Z) : ST RankingDb unit :=
  let! db := st_get in
  match ranking_results db !! i with
  | None => st_raise "ObjectDeletedError" "row is gone"
  | Some r =>
      if negb (smem (upper (rr_ticker r)) source_tickers) then
        st_lift (ValueError ("EVIDENCE_UNAVAILABLE: Ranking source rows missing for " ++ rr_ticker r))
      else
        let! e := st_lift (persist_ranking_evidence i r) in
        st_modify (fun db => set_rankings (<[i := set_ranking_evidence (Some e) r]> (ranking_results db))
                               (next_ranking_id db) db)
  end.

Definition ranking_transaction {A} (m : ST RankingDb A) : ST RankingDb A := fun db =>
  match m db with
  | (Ok a, db') => (Ok a, db')
  | (Raise e, _) => (Raise e, db)
  end.

Definition _persist_ranking_profile_batch (desired : list RankingResult) (source_tickers : list string)
    : ST RankingDb (list Z) :=
  ranking_transaction (
    let! db := st_get in
    do! st_for desired (fun c => st_lift (_preflight_ranking_persistence db c)) in
    let! ids := st_fold desired [] (fun ids c => let! i := put_ranking c in st_ret (ids ++ [i])) in
    do! st_for ids (attach_ranking_evidence source_tickers) in
    do! st_for desired (fun c => st_lift (record_ranking_admission c)) in
    st_ret ids).

Definition _persist_rankings (desired : list RankingResult) (source_tickers : list string)
    : ST RankingDb (list Z) :=
  st_fold (unique (map rr_ranking_profile desired)) [] (fun persisted name =>
    let! ids := _persist_ranking_profile_batch
                  (List.filter (fun r => String.eqb (rr_ranking_profile r) name) desired) source_tickers in
    st_ret (persisted ++ ids)).

(** ** [refresh_all_ranking_profiles] with the profiles of the configuration *)

Definition ranking_inputs (db : RankingDb) (run_id : Z) (today : option date)
    (profiles : list RankingProfileConfig) (scoring_config : dict)
    : result (list string * list RankingResult) :=
  let rows := _raw_rows_for_run db run_id in
  let fundamentals := by_ticker fs_ticker (_fundamentals_for_run db run_id) in
  let technicals := by_ticker (fun t : ProfileTechnical => ts_ticker t) (_technicals_for_run db run_id) in
  resolved ← map_result (fun p => e ← resolve_ranking_configuration p scoring_config; Ok (rp_name p, e)) profiles;
  let configurations := dict_update [] resolved in
  validated ← _validated_ranking_sources rows fundamentals technicals run_id;
  cutoff ← _validated_cutoff validated;
  evaluation_date ← _validated_evaluation_date validated today;
  let safe_liquidity := _identity_safe_liquidity (_load_liquidity_features db cutoff) validated in
  models ← map_result (fun p =>
             match dict_find (rp_name p) configurations with
             | Some effective =>
                 ranking_models run_id rows fundamentals technicals validated evaluation_date
                   safe_liquidity effective
             | None => raise "KeyError" (rp_name p)
             end) profiles;
  Ok (map fst validated, concat models).

Definition refresh_all_ranking_profiles (run_id : Z) (today : option date)
    (profiles : list RankingProfileConfig) (scoring_config : dict) : ST RankingDb (list Z) :=
  let! db := st_get in
  if negb (existsb (Z.eqb run_id) (run_ids db)) then
    st_lift (ValueError ("Upload run " ++ str_of_Z run_id ++ " was not found"))
  else
    let! inputs := st_lift (ranking_inputs db run_id today profiles scoring_config) in
    do! st_for inputs.2 (fun r => st_lift (declare_ranking_evidence r)) in
    _persist_rankings inputs.2 inputs.1.

(** ** [execute_ranking_pipeline_step] *)

Record RankingPipelineResult := mkRankingPipelineResult {
  rp_status : string;
  rp_profile_count : Z;
  rp_result_count : Z;
  rp_reason : option string;
  rp_results : list Z;
}.

Definition execute_ranking_pipeline_step (run_id : Z) (document : pyval) (scoring_config : dict)
    : ST RankingDb RankingPipelineResult :=
  let! profiles := st_lift (load_ranking_profiles document) in
  match profiles with
  | [] => st_ret (mkRankingPipelineResult "SKIPPED" 0 0 (Some "no_configured_ranking_profiles") [])
  | _ =>
      let! db := st_get in
      let rows := _raw_rows_for_run db run_id in
      let! results := refresh_all_ranking_profiles run_id None profiles scoring_config in
      if nonempty rows && negb (nonempty results) then
        st_raise "RuntimeError"
          "configured ranking profiles produced zero results for non-empty run inputs"
      else st_ret (mkRankingPipelineResult "COMPLETED" (Z.of_nat (length profiles))
                     (Z.of_nat (length results)) None results)
  end.

End Run.

(** * Ranking profiles: the rankings of a run

    Whatever happens during a refresh, a run keeps at most one ranking per profile and ticker;
    a refresh that returns has written the ranking of every company under every profile, with
    its evidence, and has left every other row as it was. *)
From Stdlib Require Import ZArith Lia List String Bool.
From stdpp Require Import base gmap list strings.
From S2P Require Import Prelude PyDate PyFloat PyValue Canonical PyDecimal PriceBars Signals.
From S2P Require Import ScoreWarnings CombinedDecision CombinedRun RankingRules.
From S2P Require Import RankingRules RankingEngine RankingFacts.
Local Open Scope string_scope.
Local Open Scope list_scope.
Local Open Scope Z_scope.
Local Open Scope st_scope.

(** A ranking under an upper-case ticker. *)
Definition canonical (r : RankingResult) : Prop := upper (rr_ticker r) = rr_ticker r.

(** Identifiers are below the sequence, tickers are canonical, and a run has one ranking per
    profile and ticker. *)
Record rankings_ok (db : RankingDb) : Prop := {
  rk_ids : forall i r, ranking_results db !! i = Some r -> i < next_ranking_id db;
  rk_canonical : forall i r, ranking_results db !! i = Some r -> canonical r;
  rk_unique : forall i j a b, ranking_results db !! i = Some a -> ranking_results db !! j = Some b ->
    ranking_key a = ranking_key b -> i = j;
}.

(** Rows of other keys are the same in both stores. *)
Definition same_elsewhere (keys : list (Z * string * string)) (db db' : RankingDb) : Prop :=
  forall i r, ~ In (ranking_key r) keys ->
    ranking_results db' !! i = Some r <-> ranking_results db !! i = Some r.

(** Row [i] holds the values of [c]. *)
Definition holds (db : RankingDb) (i : Z) (c : RankingResult) : Prop :=
  exists e, ranking_results db !! i = Some (set_ranking_evidence e c).
Definition attached (db : RankingDb) (i : Z) (c : RankingResult) : Prop :=
  exists e, ranking_results db !! i = Some (set_ranking_evidence (Some e) c).

Lemma same_elsewhere_refl keys db : same_elsewhere keys db db.
Proof. done. Qed.

Lemma same_elsewhere_trans keys keys' db db1 db2 :
  same_elsewhere keys db db1 -> same_elsewhere keys' db1 db2 -> same_elsewhere (keys ++ keys') db db2.
Proof.
  intros H1 H2 i r Hr. rewrite in_app_iff in Hr. rewrite (H2 i r), (H1 i r) by tauto. done.
Qed.

Lemma same_elsewhere_incl keys keys' db db' :
  same_elsewhere keys db db' -> incl keys keys' -> same_elsewhere keys' db db'.
Proof. intros H Hi i r Hr. apply H. eauto. Qed.

Lemma set_evidence_key e r : ranking_key (set_ranking_evidence e r) = ranking_key r.
Proof. done. Qed.

Lemma holds_elsewhere keys db db' i c : same_elsewhere keys db db' -> ~ In (ranking_key c) keys ->
  holds db i c -> holds db' i c.
Proof. intros H Hc [e He]. exists e. apply H; [by rewrite set_evidence_key|done]. Qed.

Lemma attached_elsewhere keys db db' i c : same_elsewhere keys db db' -> ~ In (ranking_key c) keys ->
  attached db i c -> attached db' i c.
Proof. intros H Hc [e He]. exists e. apply H; [by rewrite set_evidence_key|done]. Qed.

(** ** Single writes *)

(** Writing a row whose key no other row has keeps the table in order. *)
Lemma write_ok db i r next : rankings_ok db -> canonical r -> i < next -> next_ranking_id db <= next ->
  (forall j r', ranking_results db !! j = Some r' -> ranking_key r' = ranking_key r -> j = i) ->
  rankings_ok (set_rankings (<[i := r]> (ranking_results db)) next db).
Proof.
  intros [I C U] Hc Hi Hn Hk. split; simpl.
  - intros j r' Hj. apply lookup_insert_Some in Hj as [[-> _]|[_ Hj]]; [done|]. apply I in Hj. lia.
  - intros j r' Hj. apply lookup_insert_Some in Hj as [[_ <-]|[_ Hj]]; eauto.
  - intros j k a b Ha Hb E. apply lookup_insert_Some in Ha as [[<- <-]|[? Ha]], Hb as [[<- <-]|[? Hb]];
      [done|symmetry; by eapply Hk|by eapply Hk|by eapply U].
Qed.

Lemma write_elsewhere db i r next :
  (forall r', ranking_results db !! i = Some r' -> ranking_key r' = ranking_key r) ->
  same_elsewhere [ranking_key r] db (set_rankings (<[i := r]> (ranking_results db)) next db).
Proof.
  intros Hi j r' Hr'. simpl in *. rewrite lookup_insert_Some. destruct (decide (i = j)) as [->|Hne].
  - split; [intros [[_ <-]|[? _]]; tauto|]. intros Hj. destruct Hr'. left. symmetry. eauto.
  - split; [intros [[? _]|[_ ?]]; tauto|tauto].
Qed.

Lemma delete_ranking_ok db i next : rankings_ok db -> next = next_ranking_id db ->
  rankings_ok (set_rankings (delete i (ranking_results db)) next db).
Proof.
  intros [I C U] ->. split; simpl.
  - intros j r Hj. apply lookup_delete_Some in Hj as [_ Hj]. eauto.
  - intros j r Hj. apply lookup_delete_Some in Hj as [_ Hj]. eauto.
  - intros j k a b Ha Hb. apply lookup_delete_Some in Ha as [_ Ha], Hb as [_ Hb]. eauto.
Qed.

Lemma existing_Some db c i r : existing_ranking db c = Some (i, r) ->
  ranking_results db !! i = Some r /\ ranking_key r = ranking_key c.
Proof.
  intros E. apply List.find_some in E as [Hin Hk]. simpl in Hk. apply bool_decide_eq_true in Hk.
  apply list_elem_of_In, elem_of_map_to_list in Hin. done.
Qed.

Lemma existing_None db c i r : existing_ranking db c = None ->
  ranking_results db !! i = Some r -> ranking_key r <> ranking_key c.
Proof.
  intros E Hi Hk. apply elem_of_map_to_list, list_elem_of_In in Hi.
  pose proof (List.find_none _ _ E _ Hi) as Hn. simpl in Hn. by apply bool_decide_eq_false in Hn.
Qed.

Lemma insert_ranking_spec c db i db' : rankings_ok db -> canonical c ->
  (forall j r, ranking_results db !! j = Some r -> ranking_key r <> ranking_key c) ->
  insert_ranking c db = (Ok i, db') ->
  rankings_ok db' /\ holds db' i c /\ same_elsewhere [ranking_key c] db db'.
Proof.
  intros Hok Hc Hk. unfold insert_ranking. case_bool_decide; [|done]. intros E. injection E as <- <-.
  assert (Hfresh : ranking_results db !! next_ranking_id db = None).
  { destruct (ranking_results db !! next_ranking_id db) as [r|] eqn:E; [|done].
    apply (rk_ids _ Hok) in E. lia. }
  split_and!.
  - apply write_ok; try done; try lia. intros j r Hj Hkey. by destruct (Hk j r Hj).
  - exists (rr_evidence_id c). simpl. rewrite lookup_insert_eq. by destruct c.
  - apply write_elsewhere. congruence.
Qed.

Lemma copy_is_source target source : ranking_key target = ranking_key source ->
  canonical target -> canonical source ->
  _copy_ranking_values target source = set_ranking_evidence (rr_evidence_id target) source.
Proof.
  unfold ranking_key, canonical, _copy_ranking_values, set_ranking_evidence.
  intros E Ht Hs. injection E as -> -> E3. rewrite <- Ht, E3, Hs. done.
Qed.

Section Writes.
Context `{RS : RankingServices}.

Lemma put_ranking_spec c db i db' : rankings_ok db -> canonical c -> put_ranking c db = (Ok i, db') ->
  rankings_ok db' /\ holds db' i c /\ same_elsewhere [ranking_key c] db db' /\
  (forall j r, ranking_results db !! j = Some r -> ranking_key r = ranking_key c ->
     identity_from_debug (rr_debug_json r) = Ok true -> j = i).
Proof.
  intros Hok Hc. unfold put_ranking. change (st_bind st_get ?f db) with (f db db). cbv beta.
  destruct (existing_ranking db c) as [[k cur]|] eqn:Hex; intros E.
  - apply existing_Some in Hex as [Hk Hkey].
    apply st_bind_Ok in E as (identified & db1 & E1 & E). apply st_lift_Ok in E1 as [Hid ->].
    assert (Huniq : forall j r, ranking_results db !! j = Some r -> ranking_key r = ranking_key c -> j = k).
    { intros j r Hj Hr. eapply (rk_unique _ Hok); eauto. congruence. }
    destruct identified.
    + apply st_bind_Ok in E as ([] & db1 & E1 & E). injection E1 as <-. injection E as <- <-.
      pose proof (rk_canonical _ Hok _ _ Hk) as Hcur. rewrite (copy_is_source cur c) by done.
      split_and!; [|exists (rr_evidence_id cur); simpl; apply lookup_insert_eq| |eauto].
      * apply write_ok; try done; try lia. by eapply (rk_ids _ Hok).
      * apply (write_elsewhere db k (set_ranking_evidence (rr_evidence_id cur) c)).
        intros r Hr. rewrite Hk in Hr. injection Hr as <-. done.
    + apply st_bind_Ok in E as ([] & db1 & E1 & E). injection E1 as <-.
      apply insert_ranking_spec in E as (H1 & H2 & H3); [|by apply delete_ranking_ok|done|].
      * split_and!; [done|done| |].
        -- intros j r Hr. rewrite (H3 j r Hr). simpl. rewrite lookup_delete_Some.
           split; [tauto|]. intros Hj. split; [|done]. intros <-. simpl in Hr.
           rewrite Hk in Hj. injection Hj as <-. destruct Hr. by left.
        -- intros j r Hj Hr Ht. assert (j = k) as -> by eauto. congruence.
      * intros j r Hj Hr. simpl in Hj. apply lookup_delete_Some in Hj as [Hne Hj]. destruct Hne. symmetry. eauto.
  - assert (Hn : forall j r, ranking_results db !! j = Some r -> ranking_key r <> ranking_key c)
      by (intros; eapply existing_None; eauto).
    apply insert_ranking_spec in E as (H1 & H2 & H3); [|done..].
    split_and!; try done. intros j r Hj Hr. by destruct (Hn j r Hj).
Qed.

Lemma attach_ranking_spec tickers i c db db' : rankings_ok db -> holds db i c ->
  attach_ranking_evidence tickers i db = (Ok tt, db') ->
  rankings_ok db' /\ attached db' i c /\ same_elsewhere [ranking_key c] db db'.
Proof.
  intros Hok [e0 Hi]. unfold attach_ranking_evidence. change (st_bind st_get ?f db) with (f db db). cbv beta.
  rewrite Hi. destruct (negb _); [done|]. intros E. apply st_bind_Ok in E as (e & db1 & E1 & E).
  apply st_lift_Ok in E1 as [_ ->]. injection E as <-.
  change (set_ranking_evidence (Some e) (set_ranking_evidence e0 c)) with (set_ranking_evidence (Some e) c).
  split_and!; [|exists e; simpl; apply lookup_insert_eq|].
  - apply write_ok; try done; try lia; [exact (rk_canonical _ Hok _ _ Hi)|by eapply (rk_ids _ Hok)|].
    intros j r Hj Hr. eapply (rk_unique _ Hok); eauto.
  - apply (write_elsewhere db i (set_ranking_evidence (Some e) c)).
    intros r Hr. rewrite Hi in Hr. injection Hr as <-. done.
Qed.
End Writes.

(** ** One profile *)

Section Batch.
Context `{Text : PyText} `{BT : BarText} `{RA : RankingAuthority} `{RS : RankingServices}.

Lemma for_lift_same {S A} (f : A -> result unit) l (s s' : S) :
  st_for l (fun x => st_lift (f x)) s = (Ok tt, s') -> s' = s.
Proof.
  revert s. induction l as [|x l IH]; intros s E; simpl in E; [by injection E|].
  apply st_bind_Ok in E as ([] & s1 & E1 & E). apply st_lift_Ok in E1 as [_ ->]. auto.
Qed.

Definition put_all (ids : list Z) (cs : list RankingResult) : ST RankingDb (list Z) :=
  st_fold cs ids (fun ids c => let! i := put_ranking c in st_ret (ids ++ [i])).

Lemma put_all_ok cs : forall ids db ids' db', rankings_ok db -> Forall canonical cs ->
  put_all ids cs db = (Ok ids', db') -> rankings_ok db'.
Proof.
  induction cs as [|c cs IH]; intros ids db ids' db' Hok HF E; [by injection E as _ <-|].
  apply st_bind_Ok in E as (ids1 & db1 & E1 & E). apply st_bind_Ok in E1 as (i & db0 & E0 & E1).
  injection E1 as <- <-. inversion_clear HF as [|?? Hc HF'].
  apply put_ranking_spec in E0 as (Hok' & _); [|done..]. by eapply IH.
Qed.

Lemma put_all_spec cs : forall ids db ids' db', rankings_ok db -> Forall canonical cs ->
  NoDup (map ranking_key cs) -> put_all ids cs db = (Ok ids', db') ->
  exists new, ids' = ids ++ new /\ Forall2 (holds db') new cs /\
    same_elsewhere (map ranking_key cs) db db'.
Proof.
  induction cs as [|c cs IH]; intros ids db ids' db' Hok HF ND E.
  { injection E as <- <-. exists []. rewrite app_nil_r. split_and!; [done|constructor|done]. }
  apply st_bind_Ok in E as (ids1 & db1 & E1 & E). apply st_bind_Ok in E1 as (i & db0 & E0 & E1).
  injection E1 as <- <-. inversion_clear HF as [|?? Hc HF']. simpl in ND. apply NoDup_cons in ND as [Hn ND].
  apply put_ranking_spec in E0 as (Hok' & Hi & Hs & _); [|done..].
  apply IH in E as (new & -> & Hnew & Hs'); [|done..]. exists (i :: new).
  rewrite <- app_assoc. split_and!; [done| |].
  - constructor; [|done]. eapply holds_elsewhere; [done| |done]. by rewrite <- list_elem_of_In.
  - by eapply (same_elsewhere_trans [_]).
Qed.

Lemma attach_all_ok tickers ids db db' : rankings_ok db ->
  st_for ids (attach_ranking_evidence tickers) db = (Ok tt, db') -> rankings_ok db'.
Proof.
  revert db. induction ids as [|i ids IH]; intros db Hok E; simpl in E; [by injection E as <-|].
  apply st_bind_Ok in E as ([] & db1 & E1 & E). apply (IH db1); [|done].
  destruct (ranking_results db !! i) as [r|] eqn:Hr.
  - apply (attach_ranking_spec tickers i r db db1) in E1 as [? _]; [done|done|].
    exists (rr_evidence_id r). rewrite Hr. by destruct r.
  - revert E1. unfold attach_ranking_evidence. change (st_bind st_get ?f db) with (f db db). cbv beta.
    by rewrite Hr.
Qed.

Lemma attach_all_spec tickers ids cs db db' : rankings_ok db -> Forall2 (holds db) ids cs ->
  NoDup (map ranking_key cs) -> st_for ids (attach_ranking_evidence tickers) db = (Ok tt, db') ->
  Forall2 (attached db') ids cs /\ same_elsewhere (map ranking_key cs) db db'.
Proof.
  intros Hok HF. revert db Hok HF. revert cs.
  induction ids as [|i ids IH]; intros cs db Hok HF ND E; inversion HF as [|? c ? cs' Hi HF']; subst; simpl in E.
  { injection E as <-. split; [constructor|done]. }
  apply st_bind_Ok in E as ([] & db1 & E1 & E). simpl in ND. apply NoDup_cons in ND as [Hn ND].
  apply (attach_ranking_spec _ _ c) in E1 as (Hok' & Hi' & Hs); [|done..].
  apply (IH cs') in E as [HA Hs']; [|done| |done].
  - split; [|by eapply (same_elsewhere_trans [_])]. constructor; [|done].
    eapply attached_elsewhere; [done| |done]. by rewrite <- list_elem_of_In.
  - clear -HF' Hs Hn. induction HF' as [|j d ids cs Hj _ IH]; constructor.
    + eapply holds_elsewhere; [done| |done]. simpl in *. intros [E|[]]. destruct Hn. rewrite E. by left.
    + apply IH. intros Hx. apply Hn. by right.
Qed.

Lemma batch_inv desired tickers db r db' :
  _persist_ranking_profile_batch desired tickers db = (r, db') ->
  (exists e, r = Raise e /\ db' = db) \/ exists ids db1 db2, r = Ok ids /\ put_all [] desired db = (Ok ids, db1) /\
    st_for ids (attach_ranking_evidence tickers) db1 = (Ok tt, db2) /\ db' = db2.
Proof.
  unfold _persist_ranking_profile_batch, ranking_transaction.
  match goal with |- (match ?m db with _ => _ end) = _ -> _ => destruct (m db) as [[ids|?] d] eqn:E end;
    [|intros H; injection H as <- <-; left; eauto].
  intros H. injection H as <- <-. right. change (st_bind st_get ?f db) with (f db db) in E. cbv beta in E.
  apply st_bind_Ok in E as ([] & d1 & E1 & E). apply for_lift_same in E1. subst d1.
  apply st_bind_Ok in E as (ids' & d2 & E2 & E). apply st_bind_Ok in E as ([] & d3 & E3 & E).
  apply st_bind_Ok in E as ([] & d4 & E4 & E). apply for_lift_same in E4. subst d4. injection E as <- <-.
  exists ids', d2, d3. done.
Qed.

Lemma batch_ok desired tickers : Forall canonical desired ->
  preserves rankings_ok (_persist_ranking_profile_batch desired tickers).
Proof.
  intros HF db r db' Hok E. apply batch_inv in E as [(? & _ & ->)|(ids & d1 & d2 & -> & E1 & E2 & ->)]; [done|].
  eapply attach_all_ok; [|done]. by eapply put_all_ok.
Qed.

Lemma batch_spec desired tickers db ids db' : rankings_ok db -> Forall canonical desired ->
  NoDup (map ranking_key desired) ->
  _persist_ranking_profile_batch desired tickers db = (Ok ids, db') ->
  (forall c, In c desired -> exists i, In i ids /\ attached db' i c) /\
  same_elsewhere (map ranking_key desired) db db'.
Proof.
  intros Hok HF ND E.
  apply batch_inv in E as [(? & ? & _)|(ids' & db1 & db2 & Hids & E1 & E2 & ->)]; [done|].
  apply Ok_inj in Hids. subst ids'. pose proof (put_all_ok _ _ _ _ _ Hok HF E1) as Hok1.
  apply put_all_spec in E1 as (new & -> & Hnew & Hs); [|done..]. simpl in *.
  apply (attach_all_spec tickers new desired) in E2 as [HA Hs']; [|done..]. split.
  - intros c Hc. clear -HA Hc. induction HA as [|i d ids cs Hi _ IH]; [done|].
    destruct Hc as [->|Hc]; [exists i; by split; [left|]|].
    destruct (IH Hc) as (j & ? & ?). exists j. split; [by right|done].
  - eapply same_elsewhere_incl; [by eapply same_elsewhere_trans|]. intros k Hk. by apply in_app_or in Hk as [|].
Qed.

(** ** Every profile *)

Lemma keys_by_profile desired name k :
  In k (map ranking_key (List.filter (fun r => String.eqb (rr_ranking_profile r) name) desired)) ->
  In k (map ranking_key desired) /\ k.1.2 = name.
Proof.
  rewrite !in_map_iff. intros (r & <- & Hr). apply List.filter_In in Hr as [Hr Hn].
  apply String.eqb_eq in Hn. split; [by exists r|done].
Qed.

Lemma NoDup_map_list_filter {A B} (f : A -> B) (p : A -> bool) l :
  NoDup (map f l) -> NoDup (map f (List.filter p l)).
Proof.
  induction l as [|x l IH]; simpl; [done|]. intros ND. apply NoDup_cons in ND as [Hx ND].
  destruct (p x); [|auto]. simpl. apply NoDup_cons. split; [|auto].
  rewrite list_elem_of_In, in_map_iff. intros (y & Hy & Hin). apply List.filter_In in Hin as [Hin _].
  apply Hx. rewrite list_elem_of_In, in_map_iff. by exists y.
Qed.

Lemma Forall_list_filter {A} (P : A -> Prop) p l : Forall P l -> Forall P (List.filter p l).
Proof. induction 1 as [|x l Hx _ IH]; simpl; [constructor|]. destruct (p x); [by constructor|done]. Qed.

Definition persist_names (names : list string) (desired : list RankingResult) (tickers : list string)
    (persisted : list Z) : ST RankingDb (list Z) :=
  st_fold names persisted (fun persisted name =>
    let! ids := _persist_ranking_profile_batch
                  (List.filter (fun r => String.eqb (rr_ranking_profile r) name) desired) tickers in
    st_ret (persisted ++ ids)).

Lemma persist_names_ok names desired tickers persisted : Forall canonical desired ->
  preserves rankings_ok (persist_names names desired tickers persisted).
Proof.
  intros HF. apply preserves_fold. intros ids name _. apply preserves_bind; [|intros; apply preserves_ret].
  by apply batch_ok, Forall_list_filter.
Qed.

Lemma persist_names_spec desired tickers names : forall persisted db ids db',
  rankings_ok db -> Forall canonical desired -> NoDup (map ranking_key desired) -> List.NoDup names ->
  persist_names names desired tickers persisted db = (Ok ids, db') ->
  incl persisted ids /\
  (forall c, In c desired -> In (rr_ranking_profile c) names -> exists i, In i ids /\ attached db' i c) /\
  (forall i r, ~ (In (ranking_key r) (map ranking_key desired) /\ In (rr_ranking_profile r) names) ->
     ranking_results db' !! i = Some r <-> ranking_results db !! i = Some r).
Proof.
  induction names as [|name names IH]; intros persisted db ids db' Hok HF ND NN E.
  { injection E as <- <-. split_and!; [apply incl_refl|by intros c _ []|done]. }
  apply st_bind_Ok in E as (p1 & db1 & E1 & E). apply st_bind_Ok in E1 as (ids1 & db0 & E0 & E1).
  injection E1 as <- <-. inversion_clear NN as [|?? Hname NN'].
  pose proof (batch_ok _ _ (Forall_list_filter _ _ _ HF) _ _ _ Hok E0) as Hok1.
  apply batch_spec in E0 as [HA Hs]; [|done|by apply Forall_list_filter|by apply NoDup_map_list_filter].
  apply IH in E as (Hincl & Hnew & Hsame); [|done..]. split_and!.
  - intros i Hi. apply Hincl, in_or_app. by left.
  - intros c Hc [Hn|Hn]; [|by apply Hnew].
    destruct (HA c) as (i & Hi & e & He).
    { apply List.filter_In. split; [done|]. by rewrite <- Hn, String.eqb_refl. }
    exists i. split; [apply Hincl, in_or_app; by right|]. exists e. apply Hsame; [|done].
    intros [_ Hin]. simpl in Hin. congruence.
  - intros i r Hr. rewrite Hsame by (intros [??]; apply Hr; split; [done|by right]).
    apply Hs. intros Hk. apply keys_by_profile in Hk as [Hk Hk']. apply Hr. split; [done|]. left. done.
Qed.
End Batch.

Lemma dict_update_find {V} k (v : V) e : forall d,
  dict_find k (dict_update d e) = Some v -> dict_find k d = Some v \/ In (k, v) e.
Proof.
  induction e as [|[k' v'] e IH]; intros d H; [by left|]. change (dict_update d ((k', v') :: e)) with
    (dict_update (dict_set k' v' d) e) in H. apply IH in H as [H|H]; [|right; by right].
  destruct (decide (k = k')) as [->|Hne].
  - rewrite dict_find_set_eq in H. injection H as ->. right. by left.
  - rewrite dict_find_set_ne in H by done. by left.
Qed.

(** ** A refresh *)

Section Refresh.
Context `{Text : PyText} `{BT : BarText} `{RA : RankingAuthority} `{RS : RankingServices}.

(** The rankings of a profile: canonical rows of the run under its name, one per ticker. *)
Lemma ranking_models_spec run_id rows fundamentals technicals validated today liquidity profile config models :
  ranking_models run_id rows fundamentals technicals validated today liquidity (profile, config) = Ok models ->
  map ranking_key models ≡ₚ
    map (fun row => (run_id, rp_name profile, upper (rc_ticker row))) (_unique_rows rows) /\
  Forall canonical models.
Proof.
  unfold ranking_models. cbv zeta. intros E. apply result_bind_Ok in E as (ds & Hds & E).
  apply rank_profile_tickers in Hds as [Hp HF]. apply map_result_Forall2 in E.
  assert (Hup : Forall (fun d => upper (pd_ticker d) = pd_ticker d) ds).
  { apply Forall_forall. intros d Hd. apply list_elem_of_In, (in_map pd_ticker) in Hd.
    rewrite <- list_elem_of_In, Hp, list_elem_of_In, in_map_iff in Hd.
    destruct Hd as (row & <- & _). apply upper_idem. }
  assert (G : map ranking_key models = map (fun t => (run_id, rp_name profile, t)) (map pd_ticker ds) /\
              Forall canonical models).
  { clear Hp. induction E as [|d c ds models Hc _ IH]; [split; [done|constructor]|].
    inversion_clear HF as [|?? Hn HF']. inversion_clear Hup as [|?? Hu Hup']. destruct (IH HF' Hup') as [E1 E2].
    destruct (dict_find _ validated) as [v|]; [|done]. apply result_bind_Ok in Hc as (identity & _ & Hc).
    apply Ok_inj in Hc. subst c. simpl. rewrite E1. unfold ranking_key at 1. simpl. rewrite Hu, Hn.
    split; [done|]. by constructor. }
  destruct G as [-> HC]. split; [|done]. rewrite Hp, map_map. done.
Qed.

(** The desired rankings of a refresh, profile by profile. *)
Lemma ranking_inputs_spec db run_id today profiles config tickers desired :
  (forall p c p' c', resolve_ranking_configuration p c = Ok (p', c') -> rp_name p' = rp_name p) ->
  ranking_inputs db run_id today profiles config = Ok (tickers, desired) ->
  Forall canonical desired /\
  map ranking_key desired ≡ₚ
    concat (map (fun p => map (fun row => (run_id, rp_name p, upper (rc_ticker row)))
                            (_unique_rows (_raw_rows_for_run db run_id))) profiles).
Proof.
  intros Hres. unfold ranking_inputs. cbv zeta. intros E.
  apply result_bind_Ok in E as (resolved & Hr & E). apply result_bind_Ok in E as (validated & _ & E).
  apply result_bind_Ok in E as (cutoff & _ & E). apply result_bind_Ok in E as (session & _ & E).
  apply result_bind_Ok in E as (models & Hm & E). apply Ok_inj in E. injection E as <- <-.
  apply map_result_Forall2 in Hr, Hm.
  assert (Hconf : forall name p' c', dict_find name (dict_update [] resolved) = Some (p', c') -> rp_name p' = name).
  { intros name p' c' Hf. apply dict_update_find in Hf as [Hf|Hin]; [done|].
    destruct (Forall2_In_r _ _ _ _ Hr Hin) as (p & _ & Hp). apply result_bind_Ok in Hp as ([p1 c1] & Hp & Hn).
    apply Ok_inj in Hn. injection Hn as <- <- <-. by eapply Hres. }
  clear Hr. induction Hm as [|p ms ps models Hms _ IH]; [split; [constructor|done]|].
  destruct IH as [IH1 IH2]. destruct (dict_find (rp_name p) (dict_update [] resolved)) as [[p' c']|] eqn:Hf; [|done].
  apply ranking_models_spec in Hms as [Hk HC]. rewrite (Hconf _ _ _ Hf) in Hk. simpl. split.
  - by apply Forall_app.
  - by rewrite map_app, Hk, IH2.
Qed.

(** One key per profile and ticker. *)
Lemma ranking_keys_NoDup (run_id : Z) (profiles : list RankingProfileConfig) rows : NoDup (map rp_name profiles) ->
  NoDup (concat (map (fun p => map (fun row => (run_id, rp_name p, upper (rc_ticker row)))
                                 (_unique_rows rows)) profiles)).
Proof.
  destruct (unique_rows_spec rows) as [NT _].
  induction profiles as [|p ps IH]; simpl; intros ND; [constructor|]. apply NoDup_cons in ND as [Hp ND].
  apply NoDup_app. split_and!; [| |auto].
  - rewrite <- (map_map (fun row => upper (rc_ticker row)) (fun t => (run_id, rp_name p, t))).
    apply NoDup_fmap_2; [|done]. intros t t' E. by injection E.
  - intros k Hk Hk'. apply list_elem_of_In, in_map_iff in Hk as (row & <- & _).
    apply list_elem_of_In, in_concat in Hk' as (l & Hl & Hk'). apply in_map_iff in Hl as (p' & <- & Hp').
    apply in_map_iff in Hk' as (row' & E & _). injection E as E _. apply Hp.
    rewrite <- E. apply list_elem_of_In. by apply in_map.
Qed.

(** Whatever a refresh returns or raises, a run keeps at most one ranking per profile and
    ticker: a failing profile is rolled back, and the profiles before it are complete. *)
Theorem refresh_keeps_ranking_keys run_id today profiles config db r db' :
  (forall p c p' c', resolve_ranking_configuration p c = Ok (p', c') -> rp_name p' = rp_name p) ->
  rankings_ok db -> refresh_all_ranking_profiles run_id today profiles config db = (r, db') ->
  rankings_ok db'.
Proof.
  intros Hres Hok E. revert E. unfold refresh_all_ranking_profiles.
  change (st_bind st_get ?f db) with (f db db). cbv beta. destruct (negb _); [by intros [= _ <-]|].
  unfold st_bind at 1, st_lift at 1. destruct (ranking_inputs db _ _ _ _) as [[tickers desired]|e] eqn:Hi; [|by intros [= _ <-]].
  apply ranking_inputs_spec in Hi as [HC _]; [|done]. cbn [fst snd].
  intros E. eapply (preserves_bind rankings_ok); [| |done|exact E].
  - apply preserves_for. intros. apply preserves_lift.
  - intros []. by apply persist_names_ok.
Qed.

(** A refresh that returns has written every desired ranking, with its evidence, and nothing
    else: the desired rankings are one per profile and ticker of the rows of the run, a row of
    any other key (another run, a profile that is no longer enabled, a ticker that left the
    run) is as before, and a run still has one ranking per profile and ticker. *)
Theorem refresh_upserts_rankings run_id today profiles config db ids db' :
  (forall p c p' c', resolve_ranking_configuration p c = Ok (p', c') -> rp_name p' = rp_name p) ->
  rankings_ok db -> NoDup (map rp_name profiles) ->
  refresh_all_ranking_profiles run_id today profiles config db = (Ok ids, db') ->
  exists tickers desired, ranking_inputs db run_id today profiles config = Ok (tickers, desired) /\
    rankings_ok db' /\
    (forall c, In c desired -> exists i, In i ids /\ attached db' i c) /\
    same_elsewhere (map ranking_key desired) db db' /\
    (forall k, In k (map ranking_key desired) <-> exists p row, In p profiles /\
       In row (_raw_rows_for_run db run_id) /\ k = (run_id, rp_name p, upper (rc_ticker row))).
Proof.
  intros Hres Hok ND. unfold refresh_all_ranking_profiles.
  change (st_bind st_get ?f db) with (f db db). cbv beta. destruct (negb _); [done|].
  intros E. apply st_bind_Ok in E as ([tickers desired] & db1 & E1 & E). apply st_lift_Ok in E1 as [Hi ->].
  apply st_bind_Ok in E as ([] & db1 & E1 & E). apply for_lift_same in E1. subst db1. cbn [fst snd] in E.
  exists tickers, desired. pose proof Hi as Hi'. apply ranking_inputs_spec in Hi as [HC Hkeys]; [|done].
  assert (NK : NoDup (map ranking_key desired)) by (rewrite Hkeys; by apply ranking_keys_NoDup).
  pose proof (persist_names_ok (unique (map rr_ranking_profile desired)) _ tickers [] HC _ _ _ Hok E) as Hok'.
  apply persist_names_spec in E as (_ & Hnew & Hsame); [|done..|apply dedup_NoDup].
  split_and!; try done.
  - intros c Hc. apply Hnew; [done|]. apply unique_In. by apply in_map.
  - intros i r Hr. apply Hsame. tauto.
  - intros k. rewrite <- list_elem_of_In, Hkeys, list_elem_of_In, in_concat.
    destruct (unique_rows_spec (_raw_rows_for_run db run_id)) as [_ Hin]. split.
    + intros (l & Hl & Hk). apply in_map_iff in Hl as (p & <- & Hp). apply in_map_iff in Hk as (row & <- & Hrow).
      apply (in_map (fun r => upper (rc_ticker r))), Hin, in_map_iff in Hrow as (row' & E & Hrow').
      exists p, row'. by rewrite E.
    + intros (p & row & Hp & Hrow & ->).
      apply (in_map (fun r => upper (rc_ticker r))), Hin, in_map_iff in Hrow as (row' & E & Hrow').
      eexists. split; [apply in_map; exact Hp|]. rewrite <- E.
      by apply (in_map (fun row => (run_id, rp_name p, upper (rc_ticker row)))).
Qed.
End Refresh.
