(* ===== verification/RankingExamples.v ===== *)
(** * Examples of ranking profiles

    The profile [momentum_swing] of [config/ranking_profiles.yaml], an authority that admits
    every row with a confidence, and small runs; the theorems of the ranking files are applied
    to them. *)
From Stdlib Require Import ZArith Lia List String Bool Sorted.
From stdpp Require Import base gmap list strings.
From S2P Require Import Prelude PyDate PyFloat PyValue Canonical PyDecimal PriceBars Signals.
From S2P Require Import ScoreWarnings CombinedDecision RankingRules.
From S2P Require Import RankingEngine RankingFacts RankingRun.
Local Open Scope string_scope.
Local Open Scope list_scope.
Local Open Scope Z_scope.

#[local] Instance bare_text : PyText := {| str_other := fun _ => ""; set_order := fun l => l |}.
#[local] Instance zero_decimals : BarText := {| decimal_of_float := fun _ => Dec 0 0; md5 := fun s => s |}.

Definition permission (reasons : list string) : dict :=
  [("decision", VDict [("reasons", VList (map VStr reasons))])].

(** A technical row without a confidence is not admitted, one whose confidence is "research"
    for research only; everything else is. *)
#[local] Instance open_authority : RankingAuthority := {|
  ranking_technical_input := fun _ t =>
    Ok (match t with
        | Some row => match ts_technical_confidence row with Some _ => t | None => None end
        | None => None
        end,
        permission (if label_is (t ≫= (fun t : ProfileTechnical => ts_technical_confidence t)) "research"
                    then ["CERTIFIED_STRATEGY_RESTRICTION_ONLY"] else []));
  ranking_liquidity_input := fun f => Ok (f, permission []);
  ranking_fundamental_input := fun f => Ok (f, permission []);
|}.

(** Every source is valid on the session of 2026-07-07; a debug document has an identity when
    the key is present. *)
Definition session : date := mk_date 2026 7 7.
#[local] Instance open_services : RankingServices := {|
  identity_from_debug := fun d => Ok (has (dict_find "calculation_identity" d));
  validate_ranking_source := fun _ _ _ _ =>
    Ok (mkRankingIdentity (Some (session * us_per_day)) (Some session) VNone);
  compatible_ranking_context := fun _ _ => true;
  resolve_ranking_configuration := fun p c => Ok (p, c);
  accept_liquidity := fun _ _ => true;
  ranking_result_identity := fun _ _ _ _ _ _ => Ok (VStr "identity");
  embed_ranking_identity := fun d i => dict_set "calculation_identity" i d;
  declare_ranking_evidence := fun _ => Ok tt;
  persist_ranking_evidence := fun i _ => Ok (1000 + i);
  record_ranking_admission := fun _ => Ok tt;
|}.

Definition hundredth (n : Z) : pyval := VFloat (float_ratio n 100).

Definition profiles_document : pyval := VDict [("profiles", VDict [("momentum_swing", VDict
  [("enabled", VBool true); ("label", VStr "Momentum Swing");
   ("description", VStr "Technical-led swing ranking with fundamental confirmation.");
   ("weights", VDict [("technical", hundredth 55); ("fundamental", hundredth 45)]);
   ("technical_components", VDict
      [("momentum_strength", hundredth 30); ("momentum_health", hundredth 25);
       ("trend_quality", hundredth 15); ("setup_quality", hundredth 10);
       ("breakout_or_vcp_quality", hundredth 10); ("risk_control", hundredth 10)]);
   ("missing_data_policy", VDict [("rescale_available", VBool true); ("penalty", hundredth 100)]);
   ("tradeability_overlay", VDict
      [("enabled", VBool true); ("poor_penalty", hundredth 50); ("very_poor_penalty", hundredth 100);
       ("maximum_penalty", hundredth 100); ("minimum_dollar_volume", VInt 5000000)]);
   ("thresholds", VDict [("strong_candidate_min_score", hundredth 800);
      ("candidate_min_score", hundredth 680); ("watch_min_score", hundredth 550)]);
   ("penalties", VDict [("danger_classification", hundredth 300); ("overheated_momentum", hundredth 150);
      ("liquidity_warning", hundredth 100); ("earnings_blocked", hundredth 300);
      ("value_trap_risk", hundredth 150); ("growth_trap_risk", hundredth 150);
      ("quality_risk", hundredth 150)]);
   ("gates", VDict [("earnings_block", VBool true); ("danger_blocks_candidate", VBool true);
      ("fundamental_floor", VDict [("enabled", VBool true); ("min_score", hundredth 300);
         ("max_decision", VStr "Speculative watch")])])])])].

Definition loaded : list RankingProfileConfig :=
  Eval vm_compute in match load_ranking_profiles profiles_document with Ok l => l | Raise _ => [] end.
Definition momentum_swing : RankingProfileConfig :=
  Eval vm_compute in match loaded with p :: _ => p
  | [] => mkRankingProfileConfig "" false "" "" f0 f0 [] (mkMissingDataPolicy false f0)
            (mkRankingThresholds f0 f0 f0) [] [] (mkTradeabilityOverlayConfig false f0 f0 f0 None) end.

Lemma document_loads : load_ranking_profiles profiles_document = Ok loaded.
Proof. vm_compute. reflexivity. Qed.
Lemma momentum_swing_loaded : In momentum_swing loaded.
Proof. by left. Qed.

(** Documents that the loader refuses. *)
Definition with_weights (technical fundamental : Z) : pyval :=
  match profiles_document with
  | VDict [(k, VDict [(n, VDict raw)])] =>
      VDict [(k, VDict [(n, VDict (dict_set "weights"
        (VDict [("technical", hundredth technical); ("fundamental", hundredth fundamental)]) raw))])]
  | v => v
  end.
Example weights_must_sum : is_ok (load_ranking_profiles (with_weights 55 46)) = false
  /\ is_ok (load_ranking_profiles (with_weights 60 40)) = true.
Proof. vm_compute. auto. Qed.
Example unknown_profile :
  get_ranking_profile " momentum_swing " profiles_document = Ok momentum_swing /\
  get_ranking_profile "other" profiles_document =
    RankingProfileConfigError "other: unknown ranking profile".
Proof. vm_compute. auto. Qed.

(** ** Companies *)

Definition company (n : Z) (ticker : string) (earnings : option date) : RawCompanyRow :=
  mkRawCompanyRow n 1 n ticker None None earnings [].
Definition fundamental_of (n : Z) (ticker : string) (score : Z) (label : string) : FundamentalScore :=
  mkFundamentalScore n 1 ticker (Some n) (Some (Dec score (-3))) (Some label) None None.
Definition technical_of (n : Z) (ticker : string) (score : Z) (classification : string)
    (confidence : option string) : ProfileTechnical :=
  let s := Some (Dec score (-3)) in
  mkProfileTechnical
    (mkTechnicalScore n 1 ticker (Some n) s (Some classification) (Some (Dec 1 0)) confidence None false
       (VList []) (Some [("derived", VDict [("rs_new_high", VBool true); ("rsi", VInt 91)])]))
    s s s s s s s s None (Some (Dec 97 0)) (Some "Healthy") None.
Definition far : option date := Some (mk_date 2026 9 1).

Definition rank_example (earnings : option date) (fundamental technical : Z) (classification : string)
    (confidence : option string) (feature : option dict) : result RankingProfileDecision :=
  rank_single_row momentum_swing (company 1 "msft" earnings)
    (Some (fundamental_of 1 "MSFT" fundamental "Clean compounder"))
    (Some (technical_of 1 "MSFT" technical classification confidence)) [] session feature.

Definition brief (r : result RankingProfileDecision) : option (string * string * list string) :=
  match r with
  | Ok d => Some (pd_decision_label d, pd_position_size_hint d, pd_warning_flags d)
  | Raise _ => None
  end.

Definition strong (feature : option dict) : result RankingProfileDecision :=
  rank_example far 9000 9500 "Fresh breakout" (Some "high") feature.
Definition poor_feature : dict :=
  [("coverage_status", VStr "AVAILABLE"); ("classification", VStr "very_poor")].

(** The RSI of 91 and the extension percentile of 97 do not show. *)
Example strong_company : brief (strong None) = Some ("Strong candidate", "Full starter", []).
Proof. vm_compute. reflexivity. Qed.
Example illiquid_company :
  brief (strong (Some poor_feature)) = Some ("Strong candidate", "Full starter", ["IBKR_TRADEABILITY_PENALTY"])
  /\ (pd_penalties <$> match strong (Some poor_feature) with Ok d => Some d | Raise _ => None end)
     = Some [("ibkr_tradeability", f1)].
Proof. vm_compute. auto. Qed.
Example dangerous_company :
  brief (rank_example far 9000 9500 "Failed breakout" (Some "high") None)
  = Some ("Avoid", "Avoid", ["failed_breakout"; "danger_classification"]).
Proof. vm_compute. reflexivity. Qed.
Example research_company :
  brief (rank_example far 9000 9500 "Fresh breakout" (Some "research") None)
  = Some ("Watchlist", "No new entry", []).
Proof. vm_compute. reflexivity. Qed.
Example weak_fundamentals :
  brief (rank_example far 2900 9500 "Fresh breakout" (Some "high") None)
  = Some ("Speculative watch", "Small probe", ["fundamental_floor_failed"]).
Proof. vm_compute. reflexivity. Qed.
Example percentile_saturates : _percentile_to_score (VInt 11) = _percentile_to_score (VInt 97).
Proof. vm_compute. reflexivity. Qed.

(** ** The theorems at these companies *)

Definition decided (r : result RankingProfileDecision) (H : is_ok r = true) : RankingProfileDecision :=
  match r as r return is_ok r = true -> RankingProfileDecision with
  | Ok d => fun _ => d
  | Raise _ => fun H => False_rect _ (diff_false_true H)
  end H.
Lemma decided_Ok r H : r = Ok (decided r H).
Proof. by destruct r. Qed.


Lemma components_bounded_witness :
  exists components, extract_technical_components (Some (technical_of 1 "MSFT" 9500 "Fresh breakout" None)) = Ok components /\
    Forall (fun c => bounded c.2) components.
Proof.
  eexists. split; [vm_compute; reflexivity|].
  eapply (components_bounded (technical_of 1 "MSFT" 9500 "Fresh breakout" None)). vm_compute. reflexivity.
Defined.

Lemma profile_decisions_monotone_witness :
  Gates.order (decision_from_score (float_ratio 67 10) momentum_swing)
  <= Gates.order (decision_from_score (float_ratio 69 10) momentum_swing).
Proof.
  apply (profile_decisions_monotone profiles_document loaded).
  - exact document_loads.
  - exact momentum_swing_loaded.
  - vm_compute. reflexivity.
Defined.


Definition unadmitted : result RankingProfileDecision :=
  rank_example far 9000 9500 "Fresh breakout" None None.
Lemma unadmitted_ok : is_ok unadmitted = true.
Proof. vm_compute. reflexivity. Qed.
Lemma unadmitted_technical_fails_closed_witness :
  pd_position_size_hint (decided unadmitted unadmitted_ok) = "No new entry".
Proof.
  apply (unadmitted_technical_fails_closed momentum_swing (company 1 "msft" far)
    (Some (fundamental_of 1 "MSFT" 9000 "Clean compounder"))
    (Some (technical_of 1 "MSFT" 9500 "Fresh breakout" None)) [] session None (permission [])).
  - reflexivity.
  - exact (decided_Ok unadmitted unadmitted_ok).
Defined.

(** ** Runs *)

Definition three_rows : list RawCompanyRow := [company 1 "msft" far; company 2 "ibm" far; company 3 "MSFT" far].
Definition run_fundamentals : list FundamentalScore :=
  [fundamental_of 1 "MSFT" 8000 "Clean compounder"; fundamental_of 2 "IBM" 9000 "Clean compounder"].
Definition run_technicals : list ProfileTechnical :=
  [technical_of 1 "MSFT" 8000 "Fresh breakout" (Some "high"); technical_of 2 "IBM" 9500 "Fresh breakout" (Some "high")].

Definition ranked_run : result (list RankingProfileDecision) :=
  rank_profile momentum_swing three_rows (by_ticker fs_ticker run_fundamentals)
    (by_ticker (fun t : ProfileTechnical => ts_ticker t) run_technicals) [] session [].

Definition ranked_list : list RankingProfileDecision :=
  match ranked_run with Ok l => l | Raise _ => [] end.

Lemma rank_profile_correct_witness :
  map (fun d => (pd_ticker d, pd_profile_rank d)) ranked_list = [("IBM", 1); ("MSFT", 2)] /\
  NoDup (map pd_ticker ranked_list).
Proof.
  split; [vm_compute; reflexivity|].
  destruct (rank_profile_correct momentum_swing three_rows (by_ticker fs_ticker run_fundamentals)
    (by_ticker (fun t : ProfileTechnical => ts_ticker t) run_technicals) [] session [] ranked_list)
    as (r & u & _ & _ & _ & _ & _ & _ & ND & _).
  - vm_compute. reflexivity.
  - exact ND.
Defined.

Definition run_db (rows : list RawCompanyRow) (rankings : gmap Z RankingResult) (next : Z) : RankingDb :=
  mkRankingDb [1] rows run_fundamentals run_technicals [] rankings next.
Definition fresh_db : RankingDb := run_db three_rows ∅ 1.

Definition refreshed (db : RankingDb) : result (list Z) * RankingDb :=
  refresh_all_ranking_profiles 1 None [momentum_swing] [] db.

Lemma fresh_ok : rankings_ok fresh_db.
Proof. split; intros; set_solver. Qed.

Lemma refresh_upserts_rankings_witness :
  (refreshed fresh_db).1 = Ok [1; 2] /\ rankings_ok (refreshed fresh_db).2.
Proof.
  split; [vm_compute; reflexivity|].
  destruct (refresh_upserts_rankings 1 None [momentum_swing] [] fresh_db [1; 2] (refreshed fresh_db).2)
    as (t & d & _ & Hok & _).
  - intros p c p' c' E. injection E as <- _. reflexivity.
  - exact fresh_ok.
  - apply NoDup_singleton.
  - vm_compute. reflexivity.
  - exact Hok.
Defined.

Lemma refresh_keeps_ranking_keys_witness : rankings_ok (refreshed fresh_db).2.
Proof.
  unfold refreshed.
  apply (refresh_keeps_ranking_keys 1 None [momentum_swing] [] fresh_db
           (refresh_all_ranking_profiles 1 None [momentum_swing] [] fresh_db).1).
  - intros p c p' c' E. injection E as <- _. reflexivity.
  - exact fresh_ok.
  - apply surjective_pairing.
Defined.

(** A company that leaves the run keeps its ranking: after the second refresh two rows of the
    profile have rank 1, one of them of a company that is no longer in the run. *)
Theorem stale_ranking_survives :
  let db := (refreshed fresh_db).2 in
  let shrunk := mkRankingDb (run_ids db) [company 1 "msft" far] (rk_fundamental_scores db)
                  (rk_technical_scores db) (rk_features db) (ranking_results db) (next_ranking_id db) in
  map (fun r => (rr_ticker r, pd_profile_rank (rr_decision r)))
    (map snd (map_to_list (ranking_results (refreshed shrunk).2))) = [("MSFT", 1); ("IBM", 1)].
Proof. vm_compute. reflexivity. Qed.
