(* ===== verification/MarketRegime.v ===== *)
(** * Market regime and its policy: [market_regime.py], [market_regime_policy.py]

    The regime of the market from the features of SPY and QQQ, the configuration of the
    command center with its validation, and the policy a regime prescribes: position size,
    permitted profiles and setups, warnings.  A document is the value [yaml.safe_load]
    returns; the provenance of values is left out, and the resolution of the configuration
    into its effective form is a parameter of the loader.  The second part has the theorems. *)
From Stdlib Require Import ZArith Lia List String Bool.
From stdpp Require Import base list strings.
From S2P Require Import Prelude PyFloat FloatRange PyValue Signals ScoreWarnings RankingRules.
Local Open Scope string_scope.
Local Open Scope list_scope.
Local Open Scope Z_scope.

(** ** [market_regime.py] *)

Module Regime.

Definition REGIME_BULL_TREND : string := "Bull trend".
Definition REGIME_BULL_PULLBACK : string := "Bull pullback".
Definition REGIME_RISK_ON_BREAKOUT : string := "Risk-on breakout".
Definition REGIME_CHOPPY : string := "Choppy".
Definition REGIME_DISTRIBUTION : string := "Distribution".
Definition REGIME_CORRECTION : string := "Correction".
Definition REGIME_BEAR_RALLY : string := "Bear rally".
Definition REGIME_CRASH_RISK : string := "Crash risk".
Definition REGIME_UNKNOWN : string := "Unknown".

Record MarketRegimeResult := mkMarketRegimeResult {
  regime : string;
  score : float;
  risk_off : bool;
  gate_ok : bool;
  confidence : string;
  reasons : list string;
}.

Record MarketSnapshot := mkMarketSnapshot {
  above_sma50 : bool;
  below_sma50 : bool;
  above_sma200 : bool;
  below_sma200 : bool;
  sma50_above_sma200 : bool;
  sma50_slope_pct : float;
  roc21 : float;
  roc63 : float;
  distribution_count : float;
  donchian_20_breakout : bool;
}.

Definition _num (value : pyval) : float :=
  match value with
  | VNone => f0
  | value => match py_float value with Some x => x | None => f0 end
  end.

Definition _snapshot (features : dict) : MarketSnapshot :=
  let close := _num (dget features "close") in
  let sma50 := _num (dget features "sma50") in
  let sma200 := _num (dget features "sma200") in
  mkMarketSnapshot (fgt close sma50) (flt close sma50) (fgt close sma200) (flt close sma200)
    (fgt sma50 sma200) (_num (dget features "sma50_slope_pct")) (_num (dget features "roc21"))
    (_num (dget features "roc63")) (_num (dget features "distribution_count"))
    (truthy (dget features "donchian_20_breakout")).

Definition tenth (n : Z) : float := float_ratio n 10.

(** [score += points if cond else 0.0]. *)
Definition add_if (cond : bool) (points : float) (total : float) : float :=
  fadd total (if cond then points else f0).

Definition _market_score (snapshot : MarketSnapshot) : float :=
  let total := f0 in
  let total := add_if (above_sma200 snapshot) (tenth 25) total in
  let total := add_if (above_sma50 snapshot) (tenth 20) total in
  let total := add_if (sma50_above_sma200 snapshot) (tenth 15) total in
  let total := add_if (fgt (sma50_slope_pct snapshot) f0) (tenth 15) total in
  let total := add_if (fgt (roc21 snapshot) f0) (tenth 10) total in
  let total := add_if (fgt (roc63 snapshot) f0) (tenth 10) total in
  let total := fsub total (if fge (distribution_count snapshot) (float_of_Z 4) then tenth 20 else f0) in
  fclamp f0 (float_of_Z 10) (py_round_digits 4 total).

Definition _regime_from_snapshots (spy : MarketSnapshot) (qqq : option MarketSnapshot) : string :=
  let risk_proxy := match qqq with Some q => q | None => spy end in
  if below_sma200 spy && fle (roc21 spy) (float_of_Z (-8)) && fge (distribution_count spy) (float_of_Z 4)
  then REGIME_CRASH_RISK
  else if fge (distribution_count spy) (float_of_Z 4) || fge (distribution_count risk_proxy) (float_of_Z 4)
  then REGIME_DISTRIBUTION
  else if below_sma50 spy && flt (roc21 spy) f0 && fge (distribution_count spy) (float_of_Z 3)
  then REGIME_CORRECTION
  else if below_sma200 spy && fgt (roc21 spy) f0 then REGIME_BEAR_RALLY
  else if above_sma50 spy && above_sma200 spy && above_sma50 risk_proxy then
    if donchian_20_breakout spy || donchian_20_breakout risk_proxy then REGIME_RISK_ON_BREAKOUT
    else REGIME_BULL_TREND
  else if above_sma200 spy && below_sma50 spy && fgt (roc63 spy) f0 then REGIME_BULL_PULLBACK
  else REGIME_CHOPPY.

(** [not features]: [None] and the empty mapping. *)
Definition present (features : option dict) : option dict :=
  match features with Some [] => None | f => f end.

Definition classify_market_regime (spy_features qqq_features : option dict) (params : dict)
    : MarketRegimeResult :=
  if negb (truthy (get_or params "enabled" (VBool true))) then
    mkMarketRegimeResult REGIME_UNKNOWN (float_of_Z 5) false true "low" ["disabled"]
  else match present spy_features with
  | None =>
      mkMarketRegimeResult REGIME_UNKNOWN f0 true false "low" ["missing_spy_market_data"]
  | Some spy_features =>
      let use_qqq := truthy (get_or params "use_qqq" (VBool true)) in
      let qqq_missing := use_qqq && negb (has (present qqq_features)) in
      let spy := _snapshot spy_features in
      let qqq := _snapshot <$> present qqq_features in
      let score := _market_score spy in
      let score := match qqq with
                   | Some q => py_round_digits 4 (fadd (fmul score (float_ratio 65 100))
                                                       (fmul (_market_score q) (float_ratio 35 100)))
                   | None => score
                   end in
      let reasons :=
        (if qqq_missing then ["missing_qqq_market_data"] else []) ++
        (if fge (distribution_count spy) (float_of_Z 4) then ["spy_distribution"] else []) ++
        match qqq with
        | Some q => if fge (distribution_count q) (float_of_Z 4) then ["qqq_distribution"] else []
        | None => []
        end in
      let regime := _regime_from_snapshots spy qqq in
      let risk_off := smem regime [REGIME_DISTRIBUTION; REGIME_CORRECTION; REGIME_CRASH_RISK] in
      let gate_ok := negb risk_off && negb (String.eqb regime REGIME_UNKNOWN) in
      let confidence := if qqq_missing
                           && truthy (get_or params "allow_unknown_market_low_confidence" (VBool true))
                        then "low" else "normal" in
      mkMarketRegimeResult regime (fclamp f0 (float_of_Z 10) score) risk_off gate_ok confidence reasons
  end.

End Regime.

(** ** [market_regime_policy.py] *)

Module RegimePolicy.
Import Regime.

Definition SUPPORTED_REGIMES : list string :=
  [REGIME_BULL_TREND; REGIME_RISK_ON_BREAKOUT; REGIME_BULL_PULLBACK; REGIME_CHOPPY; REGIME_BEAR_RALLY;
   REGIME_DISTRIBUTION; REGIME_CORRECTION; REGIME_CRASH_RISK; REGIME_UNKNOWN].
(** In the order of [sorted(VALID_RISK_STATES)]. *)
Definition VALID_RISK_STATES : list string := ["Gray"; "Green"; "Orange"; "Red"; "Yellow"].
Definition LIST_FIELDS : list string :=
  ["preferred_profiles"; "allowed_profiles"; "reduced_profiles"; "blocked_profiles";
   "allowed_setups"; "blocked_setups"].

Definition MarketRegimePolicyConfigError {A} (msg : string) : result A :=
  raise "MarketRegimePolicyConfigError" msg.

Record MarketRegimeCommandCenterConfig := mkCommandCenterConfig {
  cc_enabled : bool;
  cc_calculation_version : string;
  cc_config_version : option string;
  cc_symbols : dict;
  cc_freshness : dict;
  cc_risk_state_mapping : list (string * string);
  cc_market_regime_params : dict;
  cc_policies : list (string * dict);
}.

Record MarketDataFreshness := mkMarketDataFreshness {
  stale : bool;
  severely_stale : bool;
  fresh_warnings : list string;
}.

Record MarketRegimePolicyDto := mkMarketRegimePolicyDto {
  mp_regime : string;
  mp_risk_state : string;
  mp_position_size_multiplier : float;
  mp_preferred_profiles : list string;
  mp_allowed_profiles : list string;
  mp_reduced_profiles : list string;
  mp_blocked_profiles : list string;
  mp_allowed_setups : list string;
  mp_blocked_setups : list string;
  mp_minimum_score_adjustment : float;
  mp_summary : string;
  mp_warnings : list string;
}.

Section Policy.
Context `{Text : PyText}.

Definition _list (value : pyval) : list string :=
  match value with VList l => map py_str l | _ => [] end.

Definition _append_unique (values : list string) (value : string) : list string :=
  let cleaned := strip value in
  if negb (String.eqb cleaned "") && negb (smem cleaned values) then values ++ [cleaned] else values.
Definition _unique_list (values : list string) : list string := fold_left _append_unique values [].
(** [if cond: values = _append_unique(values, value)]. *)
Definition append_if (cond : bool) (value : string) (values : list string) : list string :=
  if cond then _append_unique values value else values.

Definition _configured_stale_risk_state (config : MarketRegimeCommandCenterConfig) : string :=
  strip (py_str (py_or (dget (cc_freshness config) "stale_data_risk_state") (VStr "Gray"))).

(** [float(raw.get(key, 0.0))]. *)
Definition _float (raw : dict) (key : string) : result float := to_float (get_or raw key (VFloat f0)).

Definition policy_item {V} (d : list (string * V)) (k : string) : result V :=
  match dict_find k d with Some v => Ok v | None => raise "KeyError" k end.

Definition regime_warnings (raw_policy : dict) (regime_result : MarketRegimeResult) : list string :=
  let warnings := _unique_list (_list (dget raw_policy "warnings")) in
  let warnings := fold_left _append_unique (reasons regime_result) warnings in
  let warnings := append_if (risk_off regime_result) "market_risk_off" warnings in
  append_if (String.eqb (confidence regime_result) "low") "low_market_confidence" warnings.

Definition freshness_warnings (freshness : MarketDataFreshness) (warnings : list string) : list string :=
  let warnings := fold_left _append_unique (fresh_warnings freshness) warnings in
  let warnings := append_if (stale freshness) "stale_market_data" warnings in
  append_if (severely_stale freshness) "severely_stale_market_data" warnings.

Definition is_severe (freshness : option MarketDataFreshness) : bool :=
  match freshness with Some f => severely_stale f | None => false end.

Definition policy_for (regime_result : MarketRegimeResult) (config : MarketRegimeCommandCenterConfig)
    (freshness : option MarketDataFreshness) : result MarketRegimePolicyDto :=
  let name := regime regime_result in
  raw_policy ← match dict_find name (cc_policies config) with
               | Some (x :: p) => Ok (x :: p)
               | _ => policy_item (cc_policies config) REGIME_UNKNOWN
               end;
  unknown_state ← policy_item (cc_risk_state_mapping config) REGIME_UNKNOWN;
  let risk_state := match dict_find name (cc_risk_state_mapping config) with
                    | Some s => s
                    | None => unknown_state
                    end in
  let warnings := regime_warnings raw_policy regime_result in
  let warnings := match freshness with Some f => freshness_warnings f warnings | None => warnings end in
  let severe := is_severe freshness in
  let risk_state := if severe then _configured_stale_risk_state config else risk_state in
  let name := if severe then REGIME_UNKNOWN else name in
  raw_policy ← (if severe then policy_item (cc_policies config) REGIME_UNKNOWN else Ok raw_policy);
  multiplier ← _float raw_policy "position_size_multiplier";
  adjustment ← _float raw_policy "minimum_score_adjustment";
  let field key := _list (dget raw_policy key) in
  Ok (mkMarketRegimePolicyDto (if has (dict_find name (cc_policies config)) then name else REGIME_UNKNOWN)
        risk_state multiplier (field "preferred_profiles") (field "allowed_profiles")
        (field "reduced_profiles") (field "blocked_profiles") (field "allowed_setups")
        (field "blocked_setups") adjustment
        (strip (py_str (py_or (dget raw_policy "summary") (VStr "")))) warnings).

(** ** The configuration *)

Definition _mapping (raw : dict) (field_name : string) : result dict :=
  match dget raw field_name with
  | VDict d => Ok d
  | _ => MarketRegimePolicyConfigError (field_name ++ " must be a mapping")
  end.

(** [key] is the last part of [field_name]. *)
Definition _required_text (raw : dict) (field_name key : string) : result string :=
  match dget raw key with
  | VStr value => if String.eqb (strip value) "" then MarketRegimePolicyConfigError (field_name ++ " is required")
                  else Ok (strip value)
  | _ => MarketRegimePolicyConfigError (field_name ++ " is required")
  end.

Definition _optional_text (value : pyval) : option string :=
  match value with
  | VNone => None
  | value => let text := strip (py_str value) in if String.eqb text "" then None else Some text
  end.

Definition states_text : string := "['Gray', 'Green', 'Orange', 'Red', 'Yellow']".

Definition _risk_state (value regime : string) : result string :=
  let value := strip value in
  if smem value VALID_RISK_STATES then Ok value
  else MarketRegimePolicyConfigError ("risk_state_mapping." ++ regime ++ " must be one of " ++ states_text).

Fixpoint risk_states (mapping : dict) : result (list (string * string)) :=
  match mapping with
  | [] => Ok []
  | (regime, state) :: mapping =>
      s ← _risk_state (py_str state) regime;
      rest ← risk_states mapping;
      Ok ((regime, s) :: rest)
  end.
Definition _risk_state_mapping (data : dict) : result (list (string * string)) :=
  mapping ← _mapping data "risk_state_mapping"; risk_states mapping.

Fixpoint policy_dicts (policies keys : dict) : result (list (string * dict)) :=
  match keys with
  | [] => Ok []
  | (regime, _) :: keys =>
      p ← _mapping policies regime;
      rest ← policy_dicts policies keys;
      Ok ((regime, p) :: rest)
  end.
Definition _policies (data : dict) : result (list (string * dict)) :=
  policies ← _mapping data "policies"; policy_dicts policies policies.

Definition _number (value : pyval) (field_name : string) : result float :=
  match py_float value with
  | Some x => Ok x
  | None => MarketRegimePolicyConfigError (field_name ++ " must be numeric")
  end.

(** [if cond: raise MarketRegimePolicyConfigError(...)]. *)
Definition reject_if (cond : bool) (msg : string) : result unit :=
  if cond then MarketRegimePolicyConfigError msg else Ok tt.

Fixpoint check_states (mapping : list (string * string)) : result unit :=
  match mapping with
  | [] => Ok tt
  | (regime, state) :: mapping =>
      _ ← reject_if (negb (smem state VALID_RISK_STATES))
            ("risk_state_mapping." ++ regime ++ " must be one of " ++ states_text);
      check_states mapping
  end.

Fixpoint check_lists (regime : string) (policy : dict) (names : list string) : result unit :=
  match names with
  | [] => Ok tt
  | name :: names =>
      _ ← reject_if (match get_or policy name (VList []) with VList _ => false | _ => true end)
            ("policies." ++ regime ++ "." ++ name ++ " must be a list");
      check_lists regime policy names
  end.

Definition check_policy (regime : string) (policy : dict) : result unit :=
  let at_field name := ("policies." ++ regime ++ "." ++ name)%string in
  multiplier ← _number (dget policy "position_size_multiplier") (at_field "position_size_multiplier");
  _ ← reject_if (flt multiplier f0 || fgt multiplier f1)
        (at_field "position_size_multiplier" ++ " must be between 0 and 1");
  adjustment ← _number (dget policy "minimum_score_adjustment") (at_field "minimum_score_adjustment");
  _ ← reject_if (flt adjustment f0) (at_field "minimum_score_adjustment" ++ " must be non-negative");
  _ ← reject_if (String.eqb (strip (py_str (py_or (dget policy "summary") (VStr "")))) "")
        (at_field "summary" ++ " is required");
  check_lists regime policy LIST_FIELDS.

Fixpoint check_policies (policies : list (string * dict)) : result unit :=
  match policies with
  | [] => Ok tt
  | (regime, policy) :: policies => _ ← check_policy regime policy; check_policies policies
  end.

Definition missing_regimes {V} (d : list (string * V)) : list string :=
  List.filter (fun regime => negb (has (dict_find regime d))) SUPPORTED_REGIMES.

Definition _validate_config (config : MarketRegimeCommandCenterConfig) : result unit :=
  _ ← _required_text (cc_symbols config) "symbols.primary_market" "primary_market";
  _ ← reject_if (match get_or (cc_symbols config) "use_risk_proxy" (VBool true) with
                 | VBool _ => false | _ => true end) "symbols.use_risk_proxy must be boolean";
  let max_stale := dget (cc_freshness config) "max_stale_trading_days" in
  negative ← (if is_none max_stale then Ok true
              else x ← _number max_stale "freshness.max_stale_trading_days"; Ok (flt x f0));
  _ ← reject_if negative "freshness.max_stale_trading_days must be non-negative";
  _ ← reject_if (negb (smem (_configured_stale_risk_state config) VALID_RISK_STATES))
        ("freshness.stale_data_risk_state must be one of " ++ states_text);
  _ ← reject_if (nonempty (missing_regimes (cc_risk_state_mapping config)))
        ("risk_state_mapping missing regime(s): " ++
         String.concat ", " (missing_regimes (cc_risk_state_mapping config)));
  _ ← reject_if (nonempty (missing_regimes (cc_policies config)))
        ("policies missing regime(s): " ++ String.concat ", " (missing_regimes (cc_policies config)));
  _ ← check_states (cc_risk_state_mapping config);
  check_policies (cc_policies config).

(** What [load_market_regime_command_center_config] parses and validates. *)
Definition parse_command_center (document : pyval) : result MarketRegimeCommandCenterConfig :=
  data ← match py_or document (VDict []) with
         | VDict d => Ok d
         | _ => raise "AttributeError" "object has no attribute 'get'"
         end;
  engine ← _mapping data "engine";
  version ← _required_text engine "engine.version" "version";
  symbols ← _mapping data "symbols";
  freshness ← _mapping data "freshness";
  mapping ← _risk_state_mapping data;
  params ← _mapping data "market_regime_v4";
  policies ← _policies data;
  let config := mkCommandCenterConfig (truthy (get_or engine "enabled" (VBool true))) version
                  (_optional_text (dget engine "config_version")) symbols freshness mapping params policies in
  _ ← _validate_config config;
  Ok config.

Definition load_market_regime_command_center_config
    (resolve_regime_configuration : MarketRegimeCommandCenterConfig -> result MarketRegimeCommandCenterConfig)
    (document : pyval) : result MarketRegimeCommandCenterConfig :=
  config ← parse_command_center document; resolve_regime_configuration config.

End Policy.
End RegimePolicy.

(** * Market regime: theorems

    The gate a classification opens or closes; under a validated configuration the policy is
    total and within bounds, and severely stale data take every permission from the policy of
    the unknown regime. *)
From Stdlib Require Import ZArith Lia List String Bool.
From stdpp Require Import base list strings.
From S2P Require Import Prelude PyFloat FloatFacts FloatRange PyValue Signals ScoreWarnings RankingRules.

Local Open Scope string_scope.
Local Open Scope list_scope.
Local Open Scope Z_scope.
Import Regime RegimePolicy.

(** ** Classification *)

Lemma regime_cases spy qqq :
  In (_regime_from_snapshots spy qqq)
    [REGIME_BULL_TREND; REGIME_RISK_ON_BREAKOUT; REGIME_BULL_PULLBACK; REGIME_CHOPPY; REGIME_BEAR_RALLY;
     REGIME_DISTRIBUTION; REGIME_CORRECTION; REGIME_CRASH_RISK].
Proof.
  unfold _regime_from_snapshots. cbv zeta.
  repeat match goal with |- context [if ?b then _ else _] => destruct b end; simpl; tauto.
Qed.

(** Heavy distribution in either index is a risk-off regime. *)
Lemma distribution_regime spy qqq :
  fge (distribution_count spy) (float_of_Z 4)
  || match qqq with Some q => fge (distribution_count q) (float_of_Z 4) | None => false end = true ->
  _regime_from_snapshots spy qqq = REGIME_CRASH_RISK \/ _regime_from_snapshots spy qqq = REGIME_DISTRIBUTION.
Proof.
  intros H. unfold _regime_from_snapshots. cbv zeta. destruct (_ && _ && _); [by left|]. right.
  destruct (fge (distribution_count spy) (float_of_Z 4)); simpl in *; [done|].
  destruct qqq as [q|]; [|done]. by rewrite H.
Qed.

(** A classification that is enabled: the score is between 0 and 10, the regime is a supported
    one, and the gate is open exactly when the regime is neither unknown nor risk-off; without
    SPY data, or with four distribution days in SPY or QQQ, the gate is closed and risk-off
    is reported. *)
Theorem regime_gate_fails_closed spy qqq params :
  truthy (get_or params "enabled" (VBool true)) = true ->
  let r := classify_market_regime spy qqq params in
  fle f0 (score r) = true /\ fle (score r) (float_of_Z 10) = true /\
  In (regime r) SUPPORTED_REGIMES /\
  gate_ok r = negb (risk_off r) && negb (String.eqb (regime r) REGIME_UNKNOWN) /\
  (present spy = None -> gate_ok r = false /\ risk_off r = true) /\
  (forall f, present spy = Some f ->
     fge (distribution_count (_snapshot f)) (float_of_Z 4)
     || match present qqq with
        | Some q => fge (distribution_count (_snapshot q)) (float_of_Z 4)
        | None => false
        end = true ->
     gate_ok r = false /\ risk_off r = true).
Proof.
  intros He. cbv zeta. unfold classify_market_regime. rewrite He. cbn [negb].
  destruct (present spy) as [f|] eqn:Hs; cbv zeta; cbn [score regime risk_off gate_ok].
  - assert (Hb : fle f0 (float_of_Z 10) = true) by (vm_compute; reflexivity).
    destruct (fclamp_bounds f0 (float_of_Z 10) (match _snapshot <$> present qqq with
      | Some q => py_round_digits 4 (fadd (fmul (_market_score (_snapshot f)) (float_ratio 65 100))
                                          (fmul (_market_score q) (float_ratio 35 100)))
      | None => _market_score (_snapshot f) end) Hb) as [H1 H2].
    split_and!; [done|done| |done|done|].
    + generalize (regime_cases (_snapshot f) (_snapshot <$> present qqq)).
      generalize (_regime_from_snapshots (_snapshot f) (_snapshot <$> present qqq)).
      intros r Hr. unfold SUPPORTED_REGIMES. simpl in *. tauto.
    + intros f' Hf Hd. injection Hf as <-.
      destruct (distribution_regime (_snapshot f) (_snapshot <$> present qqq)) as [->| ->]; [|done|done].
      by destruct (present qqq).
  - split_and!; try done. unfold SUPPORTED_REGIMES. simpl. tauto.
Qed.

(** ** Policies *)

Section Policy.
Context `{Text : PyText}.

Lemma reject_if_Ok cond msg u : reject_if cond msg = Ok u -> cond = false.
Proof. by destruct cond. Qed.

Lemma missing_regimes_nil {V} (d : list (string * V)) r : nonempty (missing_regimes d) = false ->
  In r SUPPORTED_REGIMES -> exists v, dict_find r d = Some v.
Proof.
  intros H Hr. destruct (dict_find r d) as [v|] eqn:E; [by exists v|]. exfalso.
  assert (Hin : In r (missing_regimes d)) by (apply List.filter_In; by rewrite E).
  by destruct (missing_regimes d).
Qed.

(** What the validation establishes of a policy and of the configuration. *)
Record policy_ok (policy : dict) : Prop := {
  po_multiplier : exists x, py_float (dget policy "position_size_multiplier") = Some x /\
    flt x f0 = false /\ flt f1 x = false;
  po_adjustment : exists x, py_float (dget policy "minimum_score_adjustment") = Some x /\ flt x f0 = false;
}.

Record config_ok (config : MarketRegimeCommandCenterConfig) : Prop := {
  co_states : forall r, In r SUPPORTED_REGIMES -> exists s, dict_find r (cc_risk_state_mapping config) = Some s;
  co_policies : forall r, In r SUPPORTED_REGIMES -> exists p, dict_find r (cc_policies config) = Some p;
  co_state : forall r s, dict_find r (cc_risk_state_mapping config) = Some s -> In s VALID_RISK_STATES;
  co_policy : forall r p, dict_find r (cc_policies config) = Some p -> policy_ok p;
  co_stale : In (_configured_stale_risk_state config) VALID_RISK_STATES;
}.

Lemma check_states_Ok mapping u : check_states mapping = Ok u ->
  forall r s, In (r, s) mapping -> In s VALID_RISK_STATES.
Proof.
  induction mapping as [|[r s] m IH]; [done|]. cbn [check_states]. intros E. apply result_bind_Ok in E as (v & E1 & E).
  apply reject_if_Ok, negb_false_iff, smem_In in E1. intros r' s' [H|H]; [|by eapply IH].
  injection H as <- <-. done.
Qed.

Lemma number_Ok value field x : _number value field = Ok x -> py_float value = Some x.
Proof. unfold _number. destruct (py_float value); [intros [= ->]; done|done]. Qed.

Lemma check_policies_Ok policies u : check_policies policies = Ok u ->
  forall r p, In (r, p) policies -> policy_ok p.
Proof.
  induction policies as [|[r p] ps IH]; simpl; [done|]. intros E. apply result_bind_Ok in E as (v & E1 & E).
  intros r' p' [H|H]; [|by eapply IH]. injection H as <- <-. revert E1. unfold check_policy. cbv zeta. intros E1.
  apply result_bind_Ok in E1 as (x & Hx & E1). apply result_bind_Ok in E1 as (v1 & Hb & E1).
  apply result_bind_Ok in E1 as (y & Hy & E1). apply result_bind_Ok in E1 as (v2 & Ha & E1).
  apply number_Ok in Hx, Hy. apply reject_if_Ok in Hb, Ha. apply orb_false_iff in Hb as [? ?].
  split; [by exists x|by exists y].
Qed.

Lemma validated_ok config u : _validate_config config = Ok u -> config_ok config.
Proof.
  unfold _validate_config. cbv zeta. intros E.
  apply result_bind_Ok in E as (v0 & _ & E). apply result_bind_Ok in E as (v1 & _ & E).
  apply result_bind_Ok in E as (v2 & _ & E). apply result_bind_Ok in E as (v3 & _ & E).
  apply result_bind_Ok in E as (v4 & H4 & E). apply result_bind_Ok in E as (v5 & H5 & E).
  apply result_bind_Ok in E as (v6 & H6 & E). apply result_bind_Ok in E as (v7 & H7 & E).
  apply reject_if_Ok in H4, H5, H6. split.
  - intros r Hr. by apply (missing_regimes_nil _ _ H5).
  - intros r Hr. by apply (missing_regimes_nil _ _ H6).
  - intros r s Hs. apply dict_find_In in Hs. by eapply check_states_Ok.
  - intros r p Hp. apply dict_find_In in Hp. by eapply check_policies_Ok.
  - by apply smem_In, negb_false_iff.
Qed.

Lemma parse_ok document config : parse_command_center document = Ok config -> config_ok config.
Proof.
  unfold parse_command_center. intros E. apply result_bind_Ok in E as (d & _ & E).
  do 7 (apply result_bind_Ok in E as (? & _ & E)).
  apply result_bind_Ok in E as (u & Hv & E). apply Ok_inj in E. subst config. by eapply validated_ok.
Qed.

Lemma get_or_dget d k v x : dget d k = v -> v <> VNone -> get_or d k x = v.
Proof. unfold dget, get_or. destruct (dict_find k d); [done|]. intros <-. done. Qed.

Lemma policy_float policy k x : py_float (dget policy k) = Some x -> _float policy k = Ok x.
Proof.
  intros H. unfold _float. erewrite get_or_dget; [|reflexivity|by intros E; rewrite E in H].
  revert H. unfold to_float. destruct (dget policy k); try done; intros H; by rewrite H.
Qed.

(** The policies that a regime may select: its own, or that of the unknown regime. *)
Lemma policy_choice config name : config_ok config ->
  exists p, match dict_find name (cc_policies config) with
            | Some (x :: p) => Ok (x :: p)
            | _ => policy_item (cc_policies config) REGIME_UNKNOWN
            end = Ok p /\ policy_ok p.
Proof.
  intros C. destruct (co_policies _ C REGIME_UNKNOWN) as [u Hu]; [simpl; tauto|].
  assert (HU : policy_item (cc_policies config) REGIME_UNKNOWN = Ok u) by (unfold policy_item; by rewrite Hu).
  destruct (dict_find name (cc_policies config)) as [[|x p]|] eqn:E.
  - exists u. split; [done|]. by eapply co_policy.
  - exists (x :: p). split; [done|]. by eapply co_policy.
  - exists u. split; [done|]. by eapply co_policy.
Qed.

Lemma append_unique_NoDup l v : NoDup l -> NoDup (_append_unique l v).
Proof.
  intros H. unfold _append_unique. destruct (negb _ && negb _) eqn:E; [|done].
  apply andb_true_iff in E as [_ E]. apply negb_true_iff in E. apply NoDup_app. split_and!; [done| |apply NoDup_singleton].
  intros x Hx Hx'. apply list_elem_of_singleton in Hx'. subst x. apply list_elem_of_In, smem_In in Hx. congruence.
Qed.
Lemma append_all_NoDup vs : forall l, NoDup l -> NoDup (fold_left _append_unique vs l).
Proof. induction vs as [|v vs IH]; intros l H; [done|]. apply IH, append_unique_NoDup, H. Qed.
Lemma append_if_NoDup b v l : NoDup l -> NoDup (append_if b v l).
Proof. destruct b; [apply append_unique_NoDup|done]. Qed.

(** Under a configuration that parses, every classification has a policy: its regime is
    configured, the risk state is a valid one, the position size multiplier is between 0 and
    1, the score adjustment is not negative, and no warning is repeated. *)
Theorem policy_total_and_bounded document config regime_result freshness :
  parse_command_center document = Ok config ->
  exists dto, policy_for regime_result config freshness = Ok dto /\
    (exists p, dict_find (mp_regime dto) (cc_policies config) = Some p) /\
    In (mp_risk_state dto) VALID_RISK_STATES /\
    flt (mp_position_size_multiplier dto) f0 = false /\ flt f1 (mp_position_size_multiplier dto) = false /\
    flt (mp_minimum_score_adjustment dto) f0 = false /\ NoDup (mp_warnings dto).
Proof.
  intros E. apply parse_ok in E as C. unfold policy_for. cbv zeta.
  destruct (policy_choice config (regime regime_result) C) as (p & -> & Hp). cbn [mbind result_bind].
  destruct (co_states _ C REGIME_UNKNOWN) as [us Hus]; [simpl; tauto|].
  destruct (co_policies _ C REGIME_UNKNOWN) as [u Hu]; [simpl; tauto|].
  assert (Hi : policy_item (cc_risk_state_mapping config) REGIME_UNKNOWN = Ok us)
    by (unfold policy_item; by rewrite Hus).
  rewrite Hi. cbn [mbind result_bind].
  assert (exists q, (if is_severe freshness then policy_item (cc_policies config) REGIME_UNKNOWN else Ok p) = Ok q
                    /\ policy_ok q) as (q & -> & [(x & Hx & X1 & X2) (y & Hy & Y1)]).
  { destruct (is_severe freshness); [|by exists p]. exists u. unfold policy_item. rewrite Hu.
    split; [done|]. by eapply co_policy. }
  cbn [mbind result_bind]. rewrite (policy_float _ _ _ Hx), (policy_float _ _ _ Hy). cbn [mbind result_bind].
  eexists. split; [reflexivity|]. simpl. split_and!; try done.
  - destruct (dict_find (if is_severe freshness then _ else _) (cc_policies config)) as [p'|] eqn:Ef;
      cbn [has]; [by exists p'|by exists u].
  - destruct (is_severe freshness); [by apply co_stale|].
    destruct (dict_find (regime regime_result) (cc_risk_state_mapping config)) as [s|] eqn:Es; by eapply co_state.
  - assert (Hw : NoDup (regime_warnings p regime_result)).
    { apply append_if_NoDup, append_if_NoDup, append_all_NoDup, append_all_NoDup, NoDup_nil_2. }
    destruct freshness as [f|]; [|done]. by apply append_if_NoDup, append_if_NoDup, append_all_NoDup.
Qed.

(** Severely stale data fail closed: the permissions, the sizing and the risk state do not
    depend on the regime that was classified; they are those of the unknown regime and the
    configured stale state. *)
Theorem stale_data_fails_closed config r1 r2 f1 f2 d1 d2 :
  severely_stale f1 = true -> severely_stale f2 = true ->
  policy_for r1 config (Some f1) = Ok d1 -> policy_for r2 config (Some f2) = Ok d2 ->
  mp_regime d1 = REGIME_UNKNOWN /\ mp_risk_state d1 = _configured_stale_risk_state config /\
  exists w, d2 = mkMarketRegimePolicyDto (mp_regime d1) (mp_risk_state d1) (mp_position_size_multiplier d1)
    (mp_preferred_profiles d1) (mp_allowed_profiles d1) (mp_reduced_profiles d1) (mp_blocked_profiles d1)
    (mp_allowed_setups d1) (mp_blocked_setups d1) (mp_minimum_score_adjustment d1) (mp_summary d1) w.
Proof.
  intros S1 S2. unfold policy_for. cbv zeta. unfold is_severe. rewrite S1, S2. intros E1 E2.
  apply result_bind_Ok in E1 as (p1 & _ & E1). apply result_bind_Ok in E2 as (p2 & _ & E2).
  apply result_bind_Ok in E1 as (u1 & _ & E1). apply result_bind_Ok in E2 as (u2 & _ & E2).
  apply result_bind_Ok in E1 as (q1 & Hq1 & E1). apply result_bind_Ok in E2 as (q2 & Hq2 & E2).
  rewrite Hq1 in Hq2. apply Ok_inj in Hq2. subst q2.
  apply result_bind_Ok in E1 as (m1 & Hm1 & E1). apply result_bind_Ok in E2 as (m2 & Hm2 & E2).
  rewrite Hm1 in Hm2. apply Ok_inj in Hm2. subst m2.
  apply result_bind_Ok in E1 as (a1 & Ha1 & E1). apply result_bind_Ok in E2 as (a2 & Ha2 & E2).
  rewrite Ha1 in Ha2. apply Ok_inj in Ha2. subst a2. apply Ok_inj in E1, E2. subst d1 d2. simpl.
  split_and!; [by destruct (has _)|done|]. eexists. reflexivity.
Qed.
End Policy.
