(* ===== verification/SectorRotation.v ===== *)
(** * Sector rotation: [sector_rotation_config.py] and [sector_taxonomy.py]

    The configuration of sector rotation with its validation, and the mapping of raw sectors to
    canonical ones.  The second part is the rotation decision and the ranking of sectors. *)
From Stdlib Require Import ZArith Lia List String Ascii Bool.
From stdpp Require Import base list strings.
From S2P Require Import Prelude PyFloat PyValue Canonical PyDecimal PriceBars Signals ScoreWarnings.
From S2P Require Import CombinedDecision RankingRules.
Local Open Scope string_scope.
Local Open Scope list_scope.
Local Open Scope Z_scope.

(** ** [sector_rotation_config.py] *)

Module SectorConfig.

Definition REQUIRED_SECTIONS : list string :=
  ["version"; "defaults"; "sector_taxonomy"; "sector_etf_proxies"; "universe_score"; "etf_score";
   "combined_score"; "rotation_states"; "permissions"].
(** In the order of [sorted(VALID_MISSING_ETF_POLICIES)]. *)
Definition VALID_MISSING_ETF_POLICIES : list string := ["null_combined_score"; "use_universe_only"].
Definition REQUIRED_MARKET_BUCKETS : list string := ["supportive"; "choppy"; "risk_off"; "unknown"].
Definition REQUIRED_ROTATION_STATES : list string :=
  ["Leading"; "Improving"; "Neutral"; "Fading"; "Lagging"; "Crowded risk"; "Risk-off"; "Insufficient data"].

Definition SectorRotationConfigError {A} (msg : string) : result A :=
  raise "SectorRotationConfigError" msg.

(** [if cond: raise SectorRotationConfigError(...)]. *)
Definition refuse (cond : bool) (msg : string) : result unit :=
  if cond then SectorRotationConfigError msg else Ok tt.

(** [for x in xs: check(x)]. *)
Fixpoint check_each {A} (check : A -> result unit) (xs : list A) : result unit :=
  match xs with
  | [] => Ok tt
  | x :: xs => _ ← check x; check_each check xs
  end.

Section Config.
Context `{Text : PyText}.

Definition _text (value : pyval) : string :=
  match value with VNone => "" | value => strip (py_str value) end.

Definition _mapping (raw : dict) (field_name : string) : result dict :=
  match dget raw field_name with
  | VDict d => Ok d
  | _ => SectorRotationConfigError (field_name ++ " must be a mapping")
  end.

Definition _required_text (raw : dict) (field_name : string) : result string :=
  let text := _text (dget raw field_name) in
  if String.eqb text "" then SectorRotationConfigError (field_name ++ " is required") else Ok text.

Definition _text_list (value : pyval) (field_name : string) : result (list string) :=
  match value with
  | VList l =>
      let items := map _text l in
      if existsb (fun item => String.eqb item "") items
      then SectorRotationConfigError (field_name ++ " values must be text") else Ok items
  | _ => SectorRotationConfigError (field_name ++ " must be a list")
  end.

Definition _number (value : pyval) (field_name : string) : result float :=
  match py_float value with
  | Some x => Ok x
  | None => SectorRotationConfigError (field_name ++ " must be numeric")
  end.

Definition _validate_defaults (defaults : dict) : result unit :=
  _ ← _required_text defaults "default_ranking_profile";
  _ ← _required_text defaults "unknown_sector_label";
  cutoffs ← match dget defaults "top_candidate_cutoffs" with
            | VList (c :: cs) => Ok (c :: cs)
            | _ => SectorRotationConfigError "defaults.top_candidate_cutoffs must be a non-empty list"
            end;
  _ ← check_each (fun cutoff =>
        x ← _number cutoff "defaults.top_candidate_cutoffs";
        n ← int_of_float x;
        refuse (n <=? 0) "defaults.top_candidate_cutoffs values must be positive") cutoffs;
  normal ← _number (dget defaults "min_tickers_for_normal_confidence")
             "defaults.min_tickers_for_normal_confidence";
  high ← _number (dget defaults "min_tickers_for_high_confidence")
           "defaults.min_tickers_for_high_confidence";
  _ ← refuse (flt normal f0 || flt high f0) "confidence ticker thresholds must be non-negative";
  refuse (flt high normal) "defaults.min_tickers_for_high_confidence must be >= normal threshold".

(** A mapping of texts to canonical sectors. *)
Definition check_targets (name : string) (canonical : list string) (value : pyval) : result unit :=
  match value with
  | VDict d =>
      check_each (fun kv =>
        _ ← refuse (String.eqb (strip kv.1) "") ("sector_taxonomy." ++ name ++ " keys must be text");
        refuse (negb (smem (_text kv.2) canonical))
          ("sector_taxonomy." ++ name ++ "." ++ kv.1 ++ " must resolve to a canonical sector")) d
  | _ => SectorRotationConfigError ("sector_taxonomy." ++ name ++ " must be a mapping")
  end.

Definition _validate_taxonomy (taxonomy : dict) : result unit :=
  canonical ← match dget taxonomy "canonical" with
              | VList (c :: cs) => Ok (map _text (c :: cs))
              | _ => SectorRotationConfigError "sector_taxonomy.canonical must be a non-empty list"
              end;
  _ ← refuse (existsb (fun value => String.eqb value "") canonical)
        "sector_taxonomy.canonical values must be text";
  _ ← refuse (negb (length (unique canonical) =? length canonical)%nat)
        "sector_taxonomy.canonical contains duplicates";
  _ ← refuse (negb (smem "Unknown" canonical)) "sector_taxonomy.canonical must include Unknown";
  _ ← check_targets "aliases" canonical (get_or taxonomy "aliases" (VDict []));
  _ ← check_targets "tradingview_map" canonical (get_or taxonomy "tradingview_map" (VDict []));
  let statuses := get_or taxonomy "mapping_statuses" (VList []) in
  if truthy statuses then
    status_set ← _text_list statuses "sector_taxonomy.mapping_statuses";
    refuse (negb (forallb (fun s => smem s status_set) ["mapped"; "canonical"; "missing"; "unmapped"]))
      "sector_taxonomy.mapping_statuses must include mapped, canonical, missing, and unmapped"
  else Ok tt.

Definition _canonical_sectors (config : dict) : result (list string) :=
  taxonomy ← _mapping config "sector_taxonomy";
  match dget taxonomy "canonical" with
  | VList l => Ok (map py_str l)
  | _ => raise "TypeError" "object is not iterable"
  end.

Definition _validate_etf_proxies (proxies : dict) (canonical_sectors : list string) : result unit :=
  _ ← refuse (negb (nonempty proxies)) "sector_etf_proxies must not be empty";
  check_each (fun kv =>
    _ ← refuse (negb (smem kv.1 canonical_sectors))
          ("sector_etf_proxies." ++ kv.1 ++ " must be a canonical sector");
    refuse (String.eqb (_text kv.2) "") ("sector_etf_proxies." ++ kv.1 ++ " ticker is required")) proxies.

Definition _validate_weights (weights : dict) (field_name : string) : result unit :=
  _ ← refuse (negb (nonempty weights)) (field_name ++ " must not be empty");
  values ← map_result (fun kv =>
    x ← _number kv.2 (field_name ++ "." ++ kv.1);
    _ ← refuse (flt x f0) (field_name ++ "." ++ kv.1 ++ " must be non-negative");
    Ok x) weights;
  let total := py_round_digits 6 (fsum values) in
  refuse (negb (feq total f1)) (field_name ++ " must sum to 1.0, got " ++ py_str (VFloat total)).

Definition _validate_universe_score (universe_score : dict) : result unit :=
  weights ← _mapping universe_score "weights";
  _ ← _validate_weights weights "universe_score.weights";
  setup_labels ← _mapping universe_score "setup_labels";
  _ ← check_each (fun bucket => _ ← _text_list (dget setup_labels bucket)
                                      ("universe_score.setup_labels." ++ bucket); Ok tt)
        ["buyable"; "watch"; "danger"];
  warning_flags ← _mapping universe_score "warning_flags";
  check_each (fun bucket => _ ← _text_list (dget warning_flags bucket)
                                  ("universe_score.warning_flags." ++ bucket); Ok tt)
    ["danger"; "caution"].

Definition _validate_etf_score (etf_score : dict) : result unit :=
  _ ← refuse (match get_or etf_score "enabled" (VBool false) with VBool _ => false | _ => true end)
        "etf_score.enabled must be boolean";
  _ ← _required_text etf_score "benchmark_ticker";
  weights ← _mapping etf_score "weights";
  _validate_weights weights "etf_score.weights".

Definition _validate_combined_score (combined_score : dict) : result unit :=
  weights ← _mapping combined_score "weights";
  _ ← _validate_weights weights "combined_score.weights";
  policy ← _required_text combined_score "missing_etf_policy";
  refuse (negb (smem policy VALID_MISSING_ETF_POLICIES))
    "combined_score.missing_etf_policy must be one of ['null_combined_score', 'use_universe_only']".

Definition _validate_rotation_states (rotation_states : dict) : result unit :=
  let number name := _number (dget rotation_states name) ("rotation_states." ++ name) in
  leading ← number "leading_min_score";
  improving ← number "improving_min_score";
  lagging ← number "lagging_max_score";
  _ ← refuse (negb (fge leading improving && fge improving lagging))
        "rotation state score thresholds must satisfy leading >= improving >= lagging";
  check_each (fun name => _ ← number name; Ok tt)
    ["crowded_top25_share_min"; "danger_share_risk_off_min"; "score_change_improving_min";
     "score_change_fading_min"].

(** [permission not in multipliers]: a key is a text, a list or mapping has no hash. *)
Definition known_permission (multipliers : dict) (permission : pyval) : result bool :=
  match permission with
  | VStr s => Ok (has (dict_find s multipliers))
  | VList _ | VDict _ => raise "TypeError" "unhashable type"
  | _ => Ok false
  end.

Definition check_bucket (multipliers market_buckets : dict) (bucket : string) : result unit :=
  rules ← _mapping market_buckets bucket;
  let missing := List.filter (fun state => negb (has (dict_find state rules))) REQUIRED_ROTATION_STATES in
  _ ← refuse (nonempty missing)
        ("permissions.market_buckets." ++ bucket ++ " missing state(s): " ++ String.concat ", " missing);
  check_each (fun kv =>
    _ ← refuse (negb (smem kv.1 REQUIRED_ROTATION_STATES))
          ("permissions.market_buckets." ++ bucket ++ "." ++ kv.1 ++ " is not a supported state");
    known ← known_permission multipliers kv.2;
    refuse (negb known)
      ("permissions.market_buckets." ++ bucket ++ "." ++ kv.1 ++ " uses unknown permission " ++ py_str kv.2))
    rules.

Definition _validate_permissions (permissions : dict) : result unit :=
  multipliers ← _mapping permissions "position_size_multipliers";
  _ ← check_each (fun kv =>
        value ← _number kv.2 ("permissions.position_size_multipliers." ++ kv.1);
        refuse (flt value f0 || fgt value f1)
          ("permissions.position_size_multipliers." ++ kv.1 ++ " must be between 0 and 1")) multipliers;
  market_buckets ← _mapping permissions "market_buckets";
  let missing := List.filter (fun b => negb (has (dict_find b market_buckets))) REQUIRED_MARKET_BUCKETS in
  _ ← refuse (nonempty missing)
        ("permissions.market_buckets missing bucket(s): " ++ String.concat ", " missing);
  check_each (check_bucket multipliers market_buckets) REQUIRED_MARKET_BUCKETS.

Definition _validate_config (config : dict) : result unit :=
  _ ← check_each (fun name => refuse (negb (has (dict_find name config))) (name ++ " is required"))
        REQUIRED_SECTIONS;
  _ ← _required_text config "version";
  defaults ← _mapping config "defaults";
  _ ← _validate_defaults defaults;
  taxonomy ← _mapping config "sector_taxonomy";
  _ ← _validate_taxonomy taxonomy;
  proxies ← _mapping config "sector_etf_proxies";
  canonical ← _canonical_sectors config;
  _ ← _validate_etf_proxies proxies canonical;
  universe ← _mapping config "universe_score";
  _ ← _validate_universe_score universe;
  etf ← _mapping config "etf_score";
  _ ← _validate_etf_score etf;
  combined ← _mapping config "combined_score";
  _ ← _validate_combined_score combined;
  states ← _mapping config "rotation_states";
  _ ← _validate_rotation_states states;
  permissions ← _mapping config "permissions";
  _validate_permissions permissions.

(** The provenance and the effective configuration that the loader attaches are left out. *)
Definition load_sector_rotation_config (document : pyval) : result dict :=
  match py_or document (VDict []) with
  | VDict config => _ ← _validate_config config; Ok config
  | _ => SectorRotationConfigError "sector rotation config must be a mapping"
  end.

End Config.
End SectorConfig.

(** ** [sector_taxonomy.py] *)

Module SectorTaxonomy.

Record SectorNormalizationResult := mkSectorNormalizationResult {
  sn_raw_sector : option string;
  sn_canonical_sector : string;
  sn_taxonomy : string;
  sn_status : string;
  sn_reason : option string;
}.

(** [s.split()]: the maximal runs of other characters than white space. *)
Fixpoint words_from (word : string) (s : string) : list string :=
  match s with
  | EmptyString => if String.eqb word "" then [] else [word]
  | String c s =>
      if is_space c then (if String.eqb word "" then words_from "" s else word :: words_from "" s)
      else words_from (word ++ String c "")%string s
  end.
Definition _norm_key (value : string) : string :=
  String.concat " " (words_from "" (casefold (strip value))).

Section Taxonomy.
Context `{Text : PyText}.

(** [config.get(section, {}).get(key)], of sections that are mappings. *)
Definition setting (config : dict) (name key : string) : pyval := dget (as_dict (dget config name)) key.

Definition _unknown_sector (config : dict) : string :=
  strip (py_str (py_or (py_or (setting config "sector_taxonomy" "unknown_sector_label")
                              (setting config "defaults" "unknown_sector_label")) (VStr "Unknown"))).

Definition _taxonomy_source (config : dict) : string :=
  strip (py_str (py_or (setting config "sector_taxonomy" "source") (VStr "unknown"))).

(** [{_norm_key(k): str(v).strip() for k, v in ...}]: the last entry of a key counts. *)
Definition by_key (entries : list (string * string)) : list (string * string) :=
  fold_left (fun d kv => dict_set (_norm_key kv.1) kv.2 d) entries [].
Definition targets (value : pyval) : list (string * string) :=
  map (fun kv => (kv.1, strip (py_str kv.2))) (as_dict value).

Definition normalize_sector_result (raw_sector : option string) (config : dict)
    : SectorNormalizationResult :=
  let taxonomy := as_dict (dget config "sector_taxonomy") in
  let unknown := _unknown_sector config in
  let source := _taxonomy_source config in
  let raw_text := strip (match raw_sector with Some s => s | None => "" end) in
  if String.eqb raw_text "" then
    mkSectorNormalizationResult None unknown source "missing" (Some "sector_missing")
  else
    let canonical_by_key :=
      by_key (map (fun s => (py_str s, strip (py_str s))) (as_list (dget taxonomy "canonical"))) in
    let key := _norm_key raw_text in
    match dict_find key canonical_by_key with
    | Some sector => mkSectorNormalizationResult (Some raw_text) sector source "canonical" None
    | None =>
        match dict_find key (by_key (targets (dget taxonomy "tradingview_map"))) with
        | Some sector => mkSectorNormalizationResult (Some raw_text) sector source "mapped" None
        | None =>
            match dict_find key (by_key (targets (dget taxonomy "aliases"))) with
            | Some sector => mkSectorNormalizationResult (Some raw_text) sector source "mapped" None
            | None =>
                mkSectorNormalizationResult (Some raw_text) unknown source "unmapped"
                  (Some "sector_unmapped")
            end
        end
    end.

Definition normalize_sector (raw_sector : option string) (config : dict) : string :=
  sn_canonical_sector (normalize_sector_result raw_sector config).

End Taxonomy.
End SectorTaxonomy.

(** * Sector decisions: [sector_rotation_policy.py] and the ranking of
    [sector_rotation_service.py]

    The decision on one sector: final score, rotation state, permission and position size
    under the bucket of the market regime, with its reasons and warnings; the order and the
    ranks of the decisions.  A source that may be a mapping or an object is the mapping of its
    fields; the counters and sizes of [SectorUniverseMetrics] that the decision does not read
    are left out. *)
From Stdlib Require Import ZArith Lia List String Ascii Bool.
From stdpp Require Import base list strings.
From S2P Require Import Prelude PyFloat PyValue Signals ScoreWarnings RankingRules.
Local Open Scope string_scope.
Local Open Scope list_scope.
Local Open Scope Z_scope.

Module SectorPolicy.

Definition STATE_INSUFFICIENT_DATA : string := "Insufficient data".
Definition STATE_RISK_OFF : string := "Risk-off".
Definition STATE_CROWDED_RISK : string := "Crowded risk".
Definition STATE_IMPROVING : string := "Improving".
Definition STATE_FADING : string := "Fading".
Definition STATE_LEADING : string := "Leading".
Definition STATE_LAGGING : string := "Lagging".
Definition STATE_NEUTRAL : string := "Neutral".

Record SectorUniverseMetrics := mkSectorUniverseMetrics {
  su_sector : string;
  su_sector_slug : string;
  su_ticker_count : Z;
  su_top_counts : list (string * Z);
  su_danger_share : option float;
  su_universe_leadership_score : option float;
  su_confidence : string;
  su_reason_codes : list string;
  su_warnings : list string;
}.

(** [debug] is written out as the last five fields. *)
Record SectorRotationDecision := mkSectorRotationDecision {
  sd_sector : string;
  sd_sector_slug : string;
  sd_final_score : option float;
  sd_universe_score : option float;
  sd_etf_score : option float;
  sd_rotation_state : string;
  sd_permission : string;
  sd_position_size_multiplier : float;
  sd_confidence : string;
  sd_rank : option Z;
  sd_previous_rank : option Z;
  sd_rank_change : option Z;
  sd_score_change : option float;
  sd_reasons : list string;
  sd_warnings : list string;
  sd_score_source : string;
  sd_market_bucket : string;
  sd_previous_score : option float;
  sd_danger_share : option float;
  sd_top_25_share : float;
}.

Section Policy.
Context `{Text : PyText}.

(** ** Helpers *)

(** The first of the keys that the mapping has; a value without fields has none. *)
Fixpoint first_key (source : dict) (keys : list string) : pyval :=
  match keys with
  | [] => VNone
  | key :: keys => match dict_find key source with Some v => v | None => first_key source keys end
  end.
Definition _value (source : pyval) (keys : list string) : pyval :=
  match source with VDict d => first_key d keys | _ => VNone end.

(** [OverflowError] is not caught. *)
Definition _int_or_none (value : pyval) : result (option Z) :=
  match value with
  | VFloat (SpecFloat.S754_infinity s) => n ← int_of_float (SpecFloat.S754_infinity s); Ok (Some n)
  | value => Ok (py_int value)
  end.

Definition _float_or_none (value : pyval) : option float :=
  match value with
  | VNone | VStr "" => None
  | value => py_float value
  end.

Definition _score_value (source : pyval) (keys : list string) : option float :=
  match source with VNone => None | source => _float_or_none (_value source keys) end.

Definition _append_unique (values : list string) (value : string) : list string :=
  if negb (String.eqb value "") && negb (smem value values) then values ++ [value] else values.
Definition append_if (cond : bool) (value : string) (values : list string) : list string :=
  if cond then _append_unique values value else values.

Definition code_char (c : ascii) : ascii :=
  if Ascii.eqb c "-" || Ascii.eqb c " " then "_"%char else c.
Definition _code (value : string) : string := string_map code_char (casefold (strip value)).

Definition _clamp (value : float) : float := fclamp f0 (float_of_Z 10) (py_round_digits 4 value).

Definition _top_25_share (universe : SectorUniverseMetrics) : float :=
  let top_25_count := match dict_find "top_25" (su_top_counts universe) with Some n => n | None => 0 end in
  if su_ticker_count universe <=? 0 then f0
  else py_round_digits 4 (float_ratio top_25_count (Z.to_pos (su_ticker_count universe))).

Definition _score_change (final_score previous_score : option float) : option float :=
  match final_score, previous_score with
  | Some final, Some previous => Some (py_round_digits 4 (fsub final previous))
  | _, _ => None
  end.

(** [config[section][key]]. *)
Definition config_section (config : dict) (name : string) : result dict :=
  v ← dict_item config name;
  match v with VDict d => Ok d | _ => raise "TypeError" "indices must be integers" end.

Definition etf_enabled (config : dict) : bool :=
  truthy (get_or (as_dict (get_or config "etf_score" (VDict []))) "enabled" (VBool false)).

(** ** The decision *)

Definition _final_score (universe_score etf_score : option float) (config : dict)
    : result (option float * string) :=
  match etf_enabled config, universe_score, etf_score with
  | true, Some u, Some e =>
      combined ← config_section config "combined_score";
      weights ← config_section combined "weights";
      wu ← float_item weights "universe";
      we ← float_item weights "etf";
      Ok (Some (_clamp (fadd (fmul u wu) (fmul e we))), "combined")
  | _, Some u, _ => Ok (Some (_clamp u), "universe_only")
  | true, None, Some e => Ok (Some (_clamp e), "etf_only")
  | _, _, _ => Ok (None, "unavailable")
  end.

Definition _rotation_state (universe : SectorUniverseMetrics) (final_score score_change : option float)
    (config : dict) : result string :=
  thresholds ← config_section config "rotation_states";
  match final_score with
  | None => Ok STATE_INSUFFICIENT_DATA
  | Some final =>
      if String.eqb (su_confidence universe) "insufficient" then Ok STATE_INSUFFICIENT_DATA else
      let danger := match su_danger_share universe with Some d => d | None => f0 end in
      danger_min ← float_item thresholds "danger_share_risk_off_min";
      if fge danger danger_min then Ok STATE_RISK_OFF else
      leading_min ← float_item thresholds "leading_min_score";
      crowded ← (if fge final leading_min
                 then m ← float_item thresholds "crowded_top25_share_min";
                      Ok (fge (_top_25_share universe) m)
                 else Ok false);
      if crowded : bool then Ok STATE_CROWDED_RISK else
      improving ← match score_change with
                  | None => Ok false
                  | Some change =>
                      m ← float_item thresholds "score_change_improving_min";
                      if fge change m
                      then s ← float_item thresholds "improving_min_score"; Ok (fge final s)
                      else Ok false
                  end;
      if improving : bool then Ok STATE_IMPROVING else
      fading ← match score_change with
               | None => Ok false
               | Some change => m ← float_item thresholds "score_change_fading_min"; Ok (fle change m)
               end;
      if fading : bool then Ok STATE_FADING else
      if fge final leading_min then Ok STATE_LEADING else
      lagging_max ← float_item thresholds "lagging_max_score";
      Ok (if fle final lagging_max then STATE_LAGGING else STATE_NEUTRAL)
  end.

Definition _permission_for (rotation_state market_bucket : string) (config : dict) : result string :=
  permissions ← config_section config "permissions";
  buckets ← config_section permissions "market_buckets";
  bucket ← match dict_find market_bucket buckets with
           | Some v => if truthy v then Ok v else dict_item buckets "unknown"
           | None => dict_item buckets "unknown"
           end;
  match bucket with
  | VDict rules => v ← dict_item rules rotation_state; Ok (py_str v)
  | _ => raise "TypeError" "indices must be integers"
  end.

Definition _market_bucket (market_regime : pyval) : string :=
  match market_regime with
  | VNone => "unknown"
  | market_regime =>
      let risk_off := truthy (_value market_regime ["risk_off"]) in
      let risk_state := strip (py_str (py_or (_value market_regime ["risk_state"]) (VStr ""))) in
      let regime := strip (py_str (py_or (py_or (_value market_regime ["regime"]) market_regime)
                                         (VStr ""))) in
      if risk_off || String.eqb risk_state "Red" || smem regime ["Correction"; "Crash risk"]
      then "risk_off"
      else if String.eqb risk_state "Green" || smem regime ["Bull trend"; "Risk-on breakout"]
      then "supportive"
      else if smem risk_state ["Yellow"; "Orange"]
              || smem regime ["Bull pullback"; "Choppy"; "Bear rally"; "Distribution"]
      then "choppy"
      else "unknown"
  end.

Definition _decision_reasons (universe : SectorUniverseMetrics)
    (rotation_state permission market_bucket : string) (score_change : option float)
    (score_source : string) : list string :=
  let reasons := su_reason_codes universe in
  let reasons := _append_unique reasons ("state_" ++ _code rotation_state) in
  let reasons := _append_unique reasons ("permission_" ++ permission) in
  let reasons := _append_unique reasons ("market_bucket_" ++ market_bucket) in
  let reasons := _append_unique reasons ("score_source_" ++ score_source) in
  match score_change with
  | None => reasons
  | Some change =>
      if fgt change f0 then _append_unique reasons "score_improved"
      else append_if (flt change f0) "score_declined" reasons
  end.

Definition _decision_warnings (universe : SectorUniverseMetrics) (etf : pyval)
    (rotation_state market_bucket score_source : string) (config : dict) : list string :=
  let warnings := su_warnings universe in
  let warnings := fold_left (fun ws w => _append_unique ws (py_str w))
                    (as_list (_value etf ["warnings"])) warnings in
  let warnings := append_if (String.eqb rotation_state STATE_RISK_OFF) "sector_risk_off" warnings in
  let warnings := append_if (String.eqb rotation_state STATE_CROWDED_RISK) "sector_crowded_risk" warnings in
  let warnings := append_if (String.eqb market_bucket "risk_off") "market_risk_off" warnings in
  append_if (String.eqb score_source "universe_only" && etf_enabled config)
    "missing_etf_confirmation" warnings.

(** [float(config["permissions"]["position_size_multipliers"].get(permission, 0.0))]. *)
Definition size_multiplier (permission : string) (config : dict) : result float :=
  permissions ← config_section config "permissions";
  multipliers ← config_section permissions "position_size_multipliers";
  to_float (get_or multipliers permission (VFloat f0)).

Definition decide_sector_rotation (universe : SectorUniverseMetrics)
    (etf market_regime previous : pyval) (config : dict) : result SectorRotationDecision :=
  let universe_score := su_universe_leadership_score universe in
  let etf_score := _score_value etf ["etf_rotation_score"] in
  scored ← _final_score universe_score etf_score config;
  let final_score := scored.1 in
  let score_source := scored.2 in
  previous_rank ← _int_or_none (_value previous ["current_rank"; "rank"]);
  let previous_score :=
    _float_or_none (_value previous ["sector_final_score"; "final_score"; "universe_leadership_score"]) in
  let score_change := _score_change final_score previous_score in
  rotation_state ← _rotation_state universe final_score score_change config;
  let market_bucket := _market_bucket market_regime in
  permission ← _permission_for rotation_state market_bucket config;
  multiplier ← size_multiplier permission config;
  let warnings := _decision_warnings universe etf rotation_state market_bucket score_source config in
  let reasons := _decision_reasons universe rotation_state permission market_bucket score_change
                   score_source in
  Ok (mkSectorRotationDecision (su_sector universe) (su_sector_slug universe) final_score
        universe_score etf_score rotation_state permission multiplier (su_confidence universe)
        None previous_rank None score_change reasons warnings
        score_source market_bucket previous_score (su_danger_share universe) (_top_25_share universe)).

(** ** [_rank_decisions] of [sector_rotation_service.py] *)

Definition _confidence_sort (confidence : string) : Z :=
  match dict_find confidence [("high", 0); ("normal", 1); ("low", 2); ("insufficient", 3)] with
  | Some n => n
  | None => 4
  end.

Definition sector_sort_key (d : SectorRotationDecision) : float * Z * float * string :=
  (match sd_final_score d with Some s => fopp s | None => f1 end,
   _confidence_sort (sd_confidence d),
   match sd_danger_share d with Some x => x | None => f1 end,
   sd_sector d).

(** Python's order on the keys: the first components that differ decide. *)
Definition sector_leb (a b : float * Z * float * string) : bool :=
  let '(s1, c1, x1, n1) := a in
  let '(s2, c2, x2, n2) := b in
  if negb (feq s1 s2) then flt s1 s2
  else if negb (c1 =? c2) then c1 <? c2
  else if negb (feq x1 x2) then flt x1 x2
  else String.leb n1 n2.

Definition with_rank (rank : Z) (d : SectorRotationDecision) : SectorRotationDecision :=
  mkSectorRotationDecision (sd_sector d) (sd_sector_slug d) (sd_final_score d) (sd_universe_score d)
    (sd_etf_score d) (sd_rotation_state d) (sd_permission d) (sd_position_size_multiplier d)
    (sd_confidence d) (Some rank) (sd_previous_rank d)
    ((fun previous => previous - rank) <$> sd_previous_rank d) (sd_score_change d) (sd_reasons d)
    (sd_warnings d) (sd_score_source d) (sd_market_bucket d) (sd_previous_score d)
    (sd_danger_share d) (sd_top_25_share d).

(** [enumerate(ranked, start=...)]. *)
Fixpoint rank_from (rank : Z) (ds : list SectorRotationDecision) : list SectorRotationDecision :=
  match ds with
  | [] => []
  | d :: ds => with_rank rank d :: rank_from (rank + 1) ds
  end.

Definition _rank_decisions (decisions : list SectorRotationDecision) : list SectorRotationDecision :=
  rank_from 1 (sort_by (fun a b => sector_leb (sector_sort_key a) (sector_sort_key b)) decisions).

End Policy.
End SectorPolicy.
