(* ===== verification/SectorFacts.v ===== *)
(** * Sector rotation: theorems

    A configuration that loads gives every sector a decision within bounds; the bucket of the
    market follows the classification of its regime; sector names settle after one
    normalization; the decisions are ranked by their scores; and what the combined score does
    with a missing ETF score.  Two parts follow: the ranking of sectors
    and the taxonomy of their names. *)
From Stdlib Require Import ZArith Lia List String Ascii Bool.
From stdpp Require Import base list strings sorting.
From S2P Require Import Prelude PyFloat FloatFacts FloatRange PyValue Signals ScoreWarnings.
From S2P Require Import RankingRules MarketRegime SectorRotation.
Local Open Scope string_scope.
Local Open Scope list_scope.
Local Open Scope Z_scope.
Import SectorConfig SectorPolicy.

(** ** What a configuration that loads provides *)

Section Facts.
Context `{Text : PyText}.

Lemma refuse_Ok cond msg u : refuse cond msg = Ok u -> cond = false.
Proof. by destruct cond. Qed.

Lemma check_each_Ok {A} (check : A -> result unit) xs : forall u, check_each check xs = Ok u ->
  forall x, In x xs -> exists v, check x = Ok v.
Proof.
  induction xs as [|y xs IH]; intros u E x Hx; [done|]. cbn [check_each] in E. unbind E as v Hv.
  destruct Hx as [->|Hx]; [by exists v|by eapply IH].
Qed.

Lemma mapping_section d k f : SectorConfig._mapping d k = Ok f -> config_section d k = Ok f.
Proof.
  unfold SectorConfig._mapping, config_section, dict_item, dget. destruct (dict_find k d) as [[]|]; try done.
Qed.

Lemma to_float_number v x : py_float v = Some x -> to_float v = Ok x.
Proof. unfold to_float. destruct v; intros H; try done; by rewrite H. Qed.

Lemma number_value v field x : SectorConfig._number v field = Ok x -> py_float v = Some x.
Proof. unfold SectorConfig._number. destruct (py_float v); [intros [= ->]; done|done]. Qed.

Lemma dget_float_item d k x : py_float (dget d k) = Some x -> float_item d k = Ok x.
Proof.
  unfold dget, float_item, dict_item. destruct (dict_find k d) as [v|]; [|done]. apply to_float_number.
Qed.

Lemma number_item d k field x : SectorConfig._number (dget d k) field = Ok x -> float_item d k = Ok x.
Proof. intros E. by eapply dget_float_item, number_value. Qed.

Lemma missing_nil {V} (names : list string) (d : list (string * V)) k :
  nonempty (List.filter (fun k => negb (has (dict_find k d))) names) = false -> In k names ->
  exists v, dict_find k d = Some v.
Proof.
  intros H Hk. destruct (dict_find k d) as [v|] eqn:E; [by exists v|]. exfalso.
  assert (Hin : In k (List.filter (fun k => negb (has (dict_find k d))) names))
    by (apply List.filter_In; by rewrite E).
  by destruct (List.filter _ names).
Qed.

Definition threshold_names : list string :=
  ["leading_min_score"; "improving_min_score"; "lagging_max_score"; "crowded_top25_share_min";
   "danger_share_risk_off_min"; "score_change_improving_min"; "score_change_fading_min"].

(** The thresholds are numbers. *)
Definition thresholds_ok (config : dict) : Prop :=
  exists th, config_section config "rotation_states" = Ok th /\
    forall name, In name threshold_names -> exists x, float_item th name = Ok x.

(** The multipliers lie between 0 and 1, and each market bucket maps each state to a
    permission that has one. *)
Record permissions_ok (perms mults buckets : dict) : Prop := {
  pm_multipliers : config_section perms "position_size_multipliers" = Ok mults;
  pm_buckets : config_section perms "market_buckets" = Ok buckets;
  pm_bounds : forall k v, dict_find k mults = Some v ->
    exists x, py_float v = Some x /\ flt x f0 = false /\ flt f1 x = false;
  pm_rules : forall b, In b REQUIRED_MARKET_BUCKETS -> exists rules, dict_find b buckets = Some (VDict rules) /\
    forall s, In s REQUIRED_ROTATION_STATES ->
      exists p v, dict_find s rules = Some (VStr p) /\ dict_find p mults = Some v;
}.

Lemma validated_thresholds th u : _validate_rotation_states th = Ok u ->
  forall name, In name threshold_names -> exists x, float_item th name = Ok x.
Proof.
  unfold _validate_rotation_states. cbv zeta. intros E. unbind E as a Ha. unbind E as b Hb. unbind E as c Hc.
  unbind E. intros name Hn.
  assert (Hrest : In name ["crowded_top25_share_min"; "danger_share_risk_off_min"; "score_change_improving_min";
     "score_change_fading_min"] -> exists x, float_item th name = Ok x).
  { intros H. destruct (check_each_Ok _ _ _ E _ H) as [v Hv]. unbind Hv as y Hy. exists y. by eapply number_item. }
  destruct Hn as [<-|[<-|[<-|Hn]]]; [eexists; by eapply number_item..|by apply Hrest].
Qed.

Lemma known_permission_Ok mults v : known_permission mults v = Ok true ->
  exists p w, v = VStr p /\ dict_find p mults = Some w.
Proof.
  destruct v; try done. cbn [known_permission]. intros H. apply Ok_inj in H.
  destruct (dict_find s mults) as [w|] eqn:E; [|done]. by exists s, w.
Qed.

Lemma check_bucket_Ok mults buckets b u : check_bucket mults buckets b = Ok u ->
  exists rules, dict_find b buckets = Some (VDict rules) /\
    forall s, In s REQUIRED_ROTATION_STATES ->
      exists p v, dict_find s rules = Some (VStr p) /\ dict_find p mults = Some v.
Proof.
  unfold check_bucket. cbv zeta. intros E. unbind E as rules Hr. unbind E as v Hm. exists rules. split.
  { revert Hr. unfold SectorConfig._mapping, dget. destruct (dict_find b buckets) as [[]|]; try done.
    intros H. apply Ok_inj in H. by subst. }
  intros s Hs. apply refuse_Ok in Hm. destruct (missing_nil _ _ _ Hm Hs) as [w Hw].
  destruct (check_each_Ok _ _ _ E _ (dict_find_In _ _ _ Hw)) as [u' Hu]. cbn [fst snd] in Hu.
  unbind Hu. unbind Hu as known Hk. apply refuse_Ok, negb_false_iff in Hu. subst known.
  apply known_permission_Ok in Hk as (p & y & -> & Hy). by exists p, y.
Qed.

Lemma validated_permissions perms u : _validate_permissions perms = Ok u ->
  exists mults buckets, permissions_ok perms mults buckets.
Proof.
  unfold _validate_permissions. cbv zeta. intros E. unbind E as mults Hm. unbind E as v1 Hv.
  unbind E as buckets Hb. unbind E. exists mults, buckets. split.
  - by apply mapping_section.
  - by apply mapping_section.
  - intros k v Hk. destruct (check_each_Ok _ _ _ Hv _ (dict_find_In _ _ _ Hk)) as [w Hw]. cbn [fst snd] in Hw.
    unbind Hw as y Hy. apply refuse_Ok, orb_false_iff in Hw as [? ?]. exists y. by apply number_value in Hy.
  - intros b Hin. destruct (check_each_Ok _ _ _ E _ Hin) as [w Hw]. by eapply check_bucket_Ok.
Qed.

(** The sections of a configuration that loads. *)
Lemma loaded_sections document config : load_sector_rotation_config document = Ok config ->
  thresholds_ok config /\
  exists perms mults buckets, config_section config "permissions" = Ok perms /\
    permissions_ok perms mults buckets.
Proof.
  unfold load_sector_rotation_config. intros E. destruct (py_or document (VDict [])); try done.
  unbind E as u Hv. apply Ok_inj in E. subst d. unfold _validate_config in Hv.
  do 15 unbind Hv. unbind Hv as states Hs. unbind Hv as v1 Hs'. unbind Hv as perms Hp.
  apply mapping_section in Hs, Hp. split.
  - exists states. split; [done|]. by eapply validated_thresholds.
  - destruct (validated_permissions _ _ Hv) as (mults & buckets & H). by exists perms, mults, buckets.
Qed.

(** ** The parts of a decision *)

Lemma clamp_bounds x : fle f0 (_clamp x) = true /\ fle (_clamp x) (float_of_Z 10) = true.
Proof. unfold _clamp. apply fclamp_bounds. vm_compute. reflexivity. Qed.

(** A score is absent or lies between 0 and 10. *)
Definition score_ok (score : option float) : Prop :=
  match score with Some s => fle f0 s = true /\ fle s (float_of_Z 10) = true | None => True end.

Lemma final_score_ok u e config r : _final_score u e config = Ok r -> score_ok r.1.
Proof.
  unfold _final_score. intros E. destruct (etf_enabled config), u, e; try (apply Ok_inj in E; subst r; apply clamp_bounds || done).
  unbind E. unbind E. unbind E. unbind E. apply Ok_inj in E. subst r. apply clamp_bounds.
Qed.

Lemma rotation_state_total universe final change config : thresholds_ok config ->
  exists s, _rotation_state universe final change config = Ok s /\ In s REQUIRED_ROTATION_STATES.
Proof.
  intros (th & Hth & Hnum). unfold _rotation_state. rewrite Hth. cbn [mbind result_bind].
  destruct final as [final|]; [|eexists; split; [done|simpl; tauto]].
  destruct (String.eqb _ "insufficient"); [eexists; split; [done|simpl; tauto]|]. cbv zeta.
  assert (N : forall name, In name threshold_names -> exists x, float_item th name = Ok x) by done.
  destruct (N "danger_share_risk_off_min") as [a ->]; [simpl; tauto|].
  destruct (N "leading_min_score") as [b ->]; [simpl; tauto|].
  destruct (N "crowded_top25_share_min") as [c ->]; [simpl; tauto|].
  destruct (N "score_change_improving_min") as [d ->]; [simpl; tauto|].
  destruct (N "improving_min_score") as [e ->]; [simpl; tauto|].
  destruct (N "score_change_fading_min") as [f ->]; [simpl; tauto|].
  destruct (N "lagging_max_score") as [g ->]; [simpl; tauto|]. cbn [mbind result_bind].
  destruct change as [change|]; cbn [mbind result_bind];
  repeat (match goal with |- context [if ?b then _ else _] => destruct b end; cbn [mbind result_bind];
          try (eexists; split; [reflexivity|simpl; tauto])).
Qed.

Lemma bucket_cases market : In (_market_bucket market) REQUIRED_MARKET_BUCKETS.
Proof.
  unfold _market_bucket. destruct market; cbv zeta;
  repeat match goal with |- context [if ?b then _ else _] => destruct b end; simpl; tauto.
Qed.

Lemma permission_total perms mults buckets config state bucket :
  config_section config "permissions" = Ok perms -> permissions_ok perms mults buckets ->
  In state REQUIRED_ROTATION_STATES -> In bucket REQUIRED_MARKET_BUCKETS ->
  exists p x, _permission_for state bucket config = Ok p /\ has (dict_find p mults) = true /\
    size_multiplier p config = Ok x /\ flt x f0 = false /\ flt f1 x = false.
Proof.
  intros Hp [Hm Hb Hbounds Hrules] Hs Hk. destruct (Hrules _ Hk) as (rules & Hr & Hall).
  destruct (Hall _ Hs) as (p & v & Hps & Hv). destruct (Hbounds _ _ Hv) as (x & Hx & X1 & X2).
  exists p, x. unfold _permission_for, size_multiplier. rewrite Hp. cbn [mbind result_bind].
  rewrite Hm, Hb. cbn [mbind result_bind]. rewrite Hr.
  assert (truthy (VDict rules) = true) as -> by (by destruct rules).
  cbn [mbind result_bind]. unfold dict_item, get_or. rewrite Hps, Hv. cbn [mbind result_bind py_str has].
  split_and!; try done. by apply to_float_number.
Qed.

(** The combined score, when it applies, finds both of its weights. *)
Definition weights_ok (config : dict) : Prop :=
  etf_enabled config = true -> exists combined weights,
    config_section config "combined_score" = Ok combined /\
    config_section combined "weights" = Ok weights /\
    (exists x, float_item weights "universe" = Ok x) /\ (exists x, float_item weights "etf" = Ok x).

Lemma final_score_total u e config : weights_ok config -> exists r, _final_score u e config = Ok r.
Proof.
  intros W. unfold _final_score. destruct (etf_enabled config) eqn:Ee, u, e; try by eexists.
  destruct (W Ee) as (c & w & Hc & Hw & [x Hx] & [y Hy]). rewrite Hc. cbn [mbind result_bind]. rewrite Hw.
  cbn [mbind result_bind]. rewrite Hx. cbn [mbind result_bind]. rewrite Hy. by eexists.
Qed.

(** Under a configuration that loads and whose combined weights name the universe and the ETF
    when ETF mode is on, every sector gets a decision, whatever the scores, the market and the
    previous row (of a finite rank): its state is one of the eight, its bucket one of the four,
    its permission has a multiplier, which lies between 0 and 1, and its score is absent or
    between 0 and 10. *)
Theorem sector_decision_total document config universe etf market previous rank :
  load_sector_rotation_config document = Ok config -> weights_ok config ->
  _int_or_none (_value previous ["current_rank"; "rank"]) = Ok rank ->
  exists d, decide_sector_rotation universe etf market previous config = Ok d /\
    In (sd_rotation_state d) REQUIRED_ROTATION_STATES /\
    In (sd_market_bucket d) REQUIRED_MARKET_BUCKETS /\
    _permission_for (sd_rotation_state d) (sd_market_bucket d) config = Ok (sd_permission d) /\
    flt (sd_position_size_multiplier d) f0 = false /\ flt f1 (sd_position_size_multiplier d) = false /\
    score_ok (sd_final_score d) /\
    (sd_final_score d = None -> sd_rotation_state d = STATE_INSUFFICIENT_DATA).
Proof.
  intros L W Hrank. destruct (loaded_sections _ _ L) as (T & perms & mults & buckets & Hp & P).
  unfold decide_sector_rotation. cbv zeta.
  destruct (final_score_total (su_universe_leadership_score universe) (_score_value etf ["etf_rotation_score"])
              config W) as [r Hr]. rewrite Hr, Hrank. cbn [mbind result_bind].
  set (change := _score_change _ _).
  destruct (rotation_state_total universe r.1 change config T) as (s & Hs & Hin). rewrite Hs. cbn [mbind result_bind].
  destruct (permission_total perms mults buckets config s (_market_bucket market) Hp P Hin (bucket_cases market))
    as (p & x & Hperm & _ & Hx & X1 & X2). rewrite Hperm. cbn [mbind result_bind]. rewrite Hx. cbn [mbind result_bind].
  eexists. split; [reflexivity|]. cbn. split_and!; try done; [apply bucket_cases|by eapply final_score_ok|].
  intros Hnone. rewrite Hnone in Hs. destruct T as (th & Hth & _). unfold _rotation_state in Hs. rewrite Hth in Hs.
  cbn [mbind result_bind] in Hs. by apply Ok_inj in Hs.
Qed.

(** ** The bucket of a classified market *)

(** The fields of the stored snapshot that the policy reads. *)
Definition regime_fields (r : Regime.MarketRegimeResult) (risk_state : string) : pyval :=
  VDict [("risk_off", VBool (Regime.risk_off r)); ("risk_state", VStr risk_state);
         ("regime", VStr (Regime.regime r))].

Lemma classified_regime spy qqq params : truthy (get_or params "enabled" (VBool true)) = true ->
  let r := Regime.classify_market_regime spy qqq params in
  (Regime.risk_off r = true /\ Regime.gate_ok r = false) \/
  (Regime.risk_off r = false /\ Regime.gate_ok r = true /\
   In (Regime.regime r) [Regime.REGIME_BULL_TREND; Regime.REGIME_RISK_ON_BREAKOUT; Regime.REGIME_BULL_PULLBACK;
                         Regime.REGIME_CHOPPY; Regime.REGIME_BEAR_RALLY]).
Proof.
  intros He. cbv zeta. unfold Regime.classify_market_regime. rewrite He. cbn [negb].
  destruct (Regime.present spy) as [f|]; cbv zeta; cbn [Regime.regime Regime.risk_off Regime.gate_ok]; [|by left].
  generalize (regime_cases (Regime._snapshot f) (Regime._snapshot <$> Regime.present qqq)).
  generalize (Regime._regime_from_snapshots (Regime._snapshot f) (Regime._snapshot <$> Regime.present qqq)).
  intros r Hr. repeat destruct Hr as [<-|Hr]; try done; (by left) || (right; split_and!; [done..|simpl; tauto]).
Qed.

(** Classification and sector policy compose: for the snapshot of an enabled classification
    with a valid risk state, the bucket is risk-off exactly when risk-off was reported or the
    risk state is red, a closed gate always gives it, and no classified market is unknown. *)
Theorem market_bucket_of_regime spy qqq params risk_state :
  truthy (get_or params "enabled" (VBool true)) = true -> In risk_state RegimePolicy.VALID_RISK_STATES ->
  let r := Regime.classify_market_regime spy qqq params in
  let bucket := _market_bucket (regime_fields r risk_state) in
  (bucket = "risk_off" <-> Regime.risk_off r = true \/ risk_state = "Red") /\
  (Regime.gate_ok r = false -> bucket = "risk_off") /\ bucket <> "unknown".
Proof.
  intros He Hs. generalize (classified_regime spy qqq params He). cbv zeta.
  generalize (Regime.classify_market_regime spy qqq params). intros [name score off gate conf reasons] H.
  unfold regime_fields. cbn [Regime.risk_off Regime.gate_ok Regime.regime] in *.
  destruct H as [[-> ->]|(-> & -> & Hn)].
  - assert (_market_bucket (VDict [("risk_off", VBool true); ("risk_state", VStr risk_state); ("regime", VStr name)])
      = "risk_off") as -> by reflexivity. split_and!; [by split; [left|]|done|done].
  - repeat destruct Hs as [<-|Hs]; try done; repeat destruct Hn as [<-|Hn]; try done;
    (split; [by vm_compute; intuition discriminate|by split]).
Qed.

(** ** The policy for a missing ETF score *)

(** [combined_score.missing_etf_policy] is required, checked against two values, and has no
    effect: two configurations that differ in nothing else decide alike, so that
    null_combined_score, too, falls back to the universe score when the ETF score is missing. *)
Theorem missing_etf_policy_is_ignored universe etf market previous config combined policy :
  config_section config "combined_score" = Ok combined ->
  let changed := dict_set "combined_score" (VDict (dict_set "missing_etf_policy" policy combined)) config in
  decide_sector_rotation universe etf market previous changed =
    decide_sector_rotation universe etf market previous config /\
  forall u, _final_score (Some u) None changed = Ok (Some (_clamp u), "universe_only").
Proof.
  intros Hc. cbv zeta. set (changed := dict_set "combined_score" _ config).
  assert (Hf : forall k, k <> "combined_score" -> dict_find k changed = dict_find k config)
    by (intros k Hk; by apply dict_find_set_ne).
  assert (He : etf_enabled changed = etf_enabled config) by (unfold etf_enabled, get_or; by rewrite Hf).
  assert (Hsec : forall k, k <> "combined_score" -> config_section changed k = config_section config k)
    by (intros k Hk; unfold config_section, dict_item; by rewrite Hf).
  assert (Hcs : config_section changed "combined_score" = Ok (dict_set "missing_etf_policy" policy combined))
    by (unfold config_section, dict_item, changed; by rewrite dict_find_set_eq).
  assert (Hw : config_section (dict_set "missing_etf_policy" policy combined) "weights"
               = config_section combined "weights")
    by (unfold config_section, dict_item; by rewrite dict_find_set_ne).
  assert (Hfs : forall u e, _final_score u e changed = _final_score u e config).
  { intros u e. unfold _final_score. rewrite He. destruct (etf_enabled config), u, e; try done.
    rewrite Hcs, Hc. cbn [mbind result_bind]. by rewrite Hw. }
  split.
  - unfold decide_sector_rotation. cbv zeta. rewrite Hfs. unfold _rotation_state, _permission_for, size_multiplier,
      _decision_warnings. by rewrite !Hsec, He.
  - intros u. rewrite Hfs. unfold _final_score. by destruct (etf_enabled config).
Qed.
End Facts.

(** * The order of sector decisions

    [_rank_decisions] sorts by falling score, with decisions without a score last, and
    numbers the result; its comparison is a total preorder on keys without NaN. *)
From Stdlib Require Import ZArith Lia List String Bool.
From stdpp Require Import base list strings sorting.
From S2P Require Import Prelude PyFloat FloatFacts FloatRange PyValue Signals ScoreWarnings.
From S2P Require Import SectorRotation.
Local Open Scope list_scope.
Local Open Scope Z_scope.
Import SectorPolicy.

Lemma fle_fopp x y : fle (fopp x) (fopp y) = fle y x.
Proof.
  unfold fle, fopp, SpecFloat.SFleb. destruct x as [[]|[]| |[] m e], y as [[]|[]| |[] m' e']; try done; simpl.
  all: rewrite (Z.compare_antisym e e'); destruct (e ?= e')%Z; simpl; try done.
  all: pose proof (Pos.compare_cont_antisym m m' Eq) as H; simpl in H; rewrite <- H; by destruct (Pos.compare_cont Eq m m').
Qed.

Definition key_proper (k : float * Z * float * string) : Prop :=
  is_nan k.1.1.1 = false /\ is_nan k.1.2 = false.

Lemma sector_leb_total a b : key_proper a -> key_proper b -> sector_leb a b = false -> sector_leb b a = true.
Proof.
  destruct a as [[[s1 c1] x1] n1], b as [[[s2 c2] x2] n2]. intros [N1 M1] [N2 M2]. simpl in *.
  rewrite (feq_sym s2 s1), (feq_sym x2 x1), (Z.eqb_sym c2 c1) by done.
  destruct (flt_trichotomy s1 s2 N1 N2) as [(-> & _ & _)|[(-> & -> & _)|(-> & _ & ->)]]; cbn [negb]; try done.
  destruct (Z.eqb_spec c1 c2) as [->|]; cbn [negb]; [|lia].
  destruct (flt_trichotomy x1 x2 M1 M2) as [(-> & _ & _)|[(-> & -> & _)|(-> & _ & ->)]]; cbn [negb]; try done.
  apply string_leb_total.
Qed.

(** One level of a lexicographic comparison of floats. *)
Definition float_lex (x y : float) (rest : bool) : bool := if negb (feq x y) then flt x y else rest.

Lemma float_lex_trans x y z r1 r2 r3 :
  is_nan x = false -> is_nan y = false -> is_nan z = false -> (r1 = true -> r2 = true -> r3 = true) ->
  float_lex x y r1 = true -> float_lex y z r2 = true -> float_lex x z r3 = true.
Proof.
  intros Nx Ny Nz Hr. unfold float_lex. destruct (feq x y) eqn:E1; cbn [negb].
  - intros R1. rewrite (feq_trans x y z), (feq_flt_l x y z) by done. destruct (feq x z); cbn [negb]; auto.
  - intros L. destruct (feq y z) eqn:E2; cbn [negb]; intros L'.
    + rewrite (feq_flt_r x y z) in L by done.
      assert (feq x z = false) as ->; [|done].
      rewrite (feq_sym x z), (feq_trans y z x), (feq_sym y x) by done. done.
    + pose proof (flt_trans _ _ _ L L') as L''.
      destruct (flt_trichotomy x z Nx Nz) as [(?&?&?)|[(->&?&?)|(?&?&?)]]; cbn [negb]; congruence.
Qed.

Lemma sector_leb_trans a b c : key_proper a -> key_proper b -> key_proper c ->
  sector_leb a b = true -> sector_leb b c = true -> sector_leb a c = true.
Proof.
  destruct a as [[[s1 c1] x1] n1], b as [[[s2 c2] x2] n2], c as [[[s3 c3] x3] n3].
  intros [N1 M1] [N2 M2] [N3 M3]. simpl in *. apply float_lex_trans; try done.
  destruct (Z.eqb_spec c1 c2) as [->|], (Z.eqb_spec c2 c3) as [->|]; rewrite ?Z.eqb_refl; cbn [negb];
    [|done|by destruct (Z.eqb_spec c1 c3); cbn [negb]; [lia|]|destruct (Z.eqb_spec c1 c3); cbn [negb]; lia].
  apply float_lex_trans; try done. apply string_leb_trans.
Qed.

Lemma rank_from_length n ds : length (rank_from n ds) = length ds.
Proof. revert n. induction ds as [|d ds IH]; intros n; simpl; [done|]. by rewrite IH. Qed.

Lemma rank_from_lookup ds : forall n i d, rank_from n ds !! i = Some d ->
  exists d0, ds !! i = Some d0 /\ d = with_rank (n + Z.of_nat i) d0.
Proof.
  induction ds as [|d0 ds IH]; intros n i d; [done|]. cbn [rank_from]. destruct i as [|i]; simpl.
  - intros H. injection H as <-. exists d0. split; [done|]. f_equal. lia.
  - intros H. destruct (IH _ _ _ H) as (d1 & H1 & ->). exists d1. split; [done|]. f_equal. lia.
Qed.

(** [b] does not come before [a]: it has no score, or none above that of [a]. *)
Definition not_above (a b : SectorRotationDecision) : Prop :=
  sd_final_score b = None \/
  exists x y, sd_final_score a = Some x /\ sd_final_score b = Some y /\ fle y x = true.

Lemma leb_not_above a b : score_ok (sd_final_score a) -> score_ok (sd_final_score b) ->
  sector_leb (sector_sort_key a) (sector_sort_key b) = true -> not_above a b.
Proof.
  intros Ha Hb L. unfold not_above. destruct (sd_final_score b) as [y|] eqn:Eb; [right|by left].
  assert (L' : fle (sector_sort_key a).1.1.1 (fopp y) = true).
  { revert L. unfold sector_sort_key. rewrite Eb. cbn [sector_leb fst snd].
    set (s := match sd_final_score a with Some s => fopp s | None => f1 end).
    destruct (feq s (fopp y)) eqn:E; cbn [negb]; [intros _|apply flt_fle].
    unfold feq, fle, SpecFloat.SFeqb, SpecFloat.SFleb in *. by destruct (SpecFloat.SFcompare s (fopp y)) as [[]|]. }
  revert L'. unfold sector_sort_key. cbn [fst snd]. destruct (sd_final_score a) as [x|].
  - rewrite fle_fopp. intros L'. by exists x, y.
  - intros L'. exfalso. change f1 with (fopp (fopp f1)) in L'. rewrite fle_fopp in L'. destruct Hb as [Hb _].
    pose proof (fle_trans _ _ _ Hb L') as H. vm_compute in H. discriminate.
Qed.

Lemma sorted_weaken {A} (R S : A -> A -> Prop) (P : A -> Prop) l :
  (forall a b, P a -> P b -> R a b -> S a b) -> Forall P l -> StronglySorted R l -> StronglySorted S l.
Proof.
  intros H. induction l as [|x l IH]; intros HP HR; [constructor|].
  apply Forall_cons in HP as [Hx HP]. apply StronglySorted_inv in HR as [HR Hall]. constructor; [auto|].
  rewrite Forall_forall in *. eauto.
Qed.

Lemma rank_from_sorted R (_ : forall a b n m, R a b -> R (with_rank n a) (with_rank m b)) ds : forall n,
  StronglySorted R ds -> StronglySorted R (rank_from n ds).
Proof.
  induction ds as [|d ds IH]; intros n Hs; [constructor|].
  apply StronglySorted_inv in Hs as [Hs Hall]. cbn [rank_from]. constructor; [auto|].
  apply Forall_lookup_2. intros i x Hx. destruct (rank_from_lookup _ _ _ _ Hx) as (d1 & H1 & ->).
  rewrite Forall_lookup in Hall. eauto.
Qed.

(** The ranking of the decisions of a snapshot: each decision appears once, with its position
    from 1 as its rank and the distance to its previous rank; scores do not rise along the
    ranks, and decisions without a score come last. *)
Theorem sector_ranking_correct decisions :
  (forall d, In d decisions -> score_ok (sd_final_score d) /\
     match sd_danger_share d with Some x => is_nan x = false | None => True end) ->
  exists sorted, sorted ≡ₚ decisions /\
    (forall i d, _rank_decisions decisions !! i = Some d -> exists d0, sorted !! i = Some d0 /\
       d = with_rank (1 + Z.of_nat i) d0 /\ sd_rank d = Some (1 + Z.of_nat i) /\
       sd_rank_change d = (fun previous => previous - (1 + Z.of_nat i)) <$> sd_previous_rank d0) /\
    length (_rank_decisions decisions) = length decisions /\
    StronglySorted not_above (_rank_decisions decisions).
Proof.
  intros Hd. unfold _rank_decisions. set (sorted := sort_by _ decisions). exists sorted.
  assert (Hperm : sorted ≡ₚ decisions) by apply sort_by_Permutation.
  assert (Hok : Forall (fun d => score_ok (sd_final_score d)) sorted).
  { rewrite Hperm. apply List.Forall_forall. intros d H. by apply Hd. }
  split_and!; [done| |by rewrite rank_from_length, Hperm|].
  - intros i d H. destruct (rank_from_lookup _ _ _ _ H) as (d0 & H0 & ->). by exists d0.
  - apply rank_from_sorted; [done|].
    apply (sorted_weaken (fun a b => sector_leb (sector_sort_key a) (sector_sort_key b) = true) _
             (fun d => score_ok (sd_final_score d))); [|done|].
    + intros a b Ha Hb. by apply leb_not_above.
    + apply (sort_by_sorted_on _ (fun d => key_proper (sector_sort_key d)));
        [intros x y; apply sector_leb_total|intros x y z; apply sector_leb_trans|].
      apply List.Forall_forall. intros d H. destruct (Hd d H) as [H1 H2]. unfold key_proper, sector_sort_key.
      cbn [fst snd]. split.
      * destruct (sd_final_score d) as [s|]; [|done]. rewrite fopp_number. eapply fle_nan_r, H1.
      * by destruct (sd_danger_share d).
Qed.

(** * Sector names: theorems on [sector_taxonomy.py]

    Under a configuration that loads, a raw sector is given one of the canonical names or the
    label of the unknown sector, and a canonical name is left as it is. *)
From Stdlib Require Import ZArith Lia List String Ascii Bool.
From stdpp Require Import base list strings.
From S2P Require Import Prelude PyFloat PyValue Signals ScoreWarnings RankingRules MarketRegime.
From S2P Require Import SectorRotation.
Local Open Scope string_scope.
Local Open Scope list_scope.
Local Open Scope Z_scope.
Import SectorConfig SectorTaxonomy.

(** ** White space *)

(** The first character of a text, if any, is no white space. *)
Definition starts_dark (s : string) : Prop :=
  match s with EmptyString => True | String c _ => is_space c = false end.

Lemma lstrip_dark s : starts_dark (lstrip s).
Proof. induction s as [|c s IH]; simpl; [done|]. destruct (is_space c) eqn:E; [done|exact E]. Qed.

Lemma lstrip_id s : starts_dark s -> lstrip s = s.
Proof. destruct s as [|c s]; simpl; [done|]. by intros ->. Qed.

Lemma rstrip_dark s : starts_dark s -> starts_dark (rstrip s).
Proof. destruct s as [|c s]; simpl; [done|]. intros H. destruct (rstrip s); [by rewrite H|done]. Qed.

Lemma rstrip_idem s : rstrip (rstrip s) = rstrip s.
Proof.
  induction s as [|c s IH]; [done|]. cbn [rstrip]. destruct (rstrip s) as [|c' s'] eqn:E.
  - destruct (is_space c) eqn:Ec; [done|]. cbn [rstrip]. by rewrite Ec.
  - change (match rstrip (String c' s') with
            | EmptyString => if is_space c then EmptyString else String c EmptyString
            | s'' => String c s''
            end = String c (String c' s')). by rewrite IH.
Qed.

Lemma strip_idem s : strip (strip s) = strip s.
Proof.
  unfold strip at 1. rewrite lstrip_id; [apply rstrip_idem|]. apply rstrip_dark, lstrip_dark.
Qed.

Lemma norm_key_strip s : _norm_key (strip s) = _norm_key s.
Proof. unfold _norm_key. by rewrite strip_idem. Qed.

(** ** Tables by normalized key *)

Lemma fold_set_find {V} (f : string * V -> string) entries : forall d k v,
  dict_find k (fold_left (fun d kv => dict_set (f kv) kv.2 d) entries d) = Some v ->
  dict_find k d = Some v \/ exists kv, In kv entries /\ f kv = k /\ kv.2 = v.
Proof.
  induction entries as [|kv es IH]; intros d k v; [by left|]. cbn [fold_left]. intros H.
  destruct (IH _ _ _ H) as [H'|(kv' & Hin & ? & ?)]; [|right; exists kv'; split; [by right|done]].
  rewrite dict_find_set in H'. destruct (String.eqb_spec k (f kv)) as [->|]; [|by left].
  injection H' as <-. right. exists kv. split; [by left|done].
Qed.

Lemma fold_set_mono {V} (f : string * V -> string) entries : forall d k,
  (exists v, dict_find k d = Some v) ->
  exists v, dict_find k (fold_left (fun d kv => dict_set (f kv) kv.2 d) entries d) = Some v.
Proof.
  induction entries as [|kv es IH]; intros d k H; [done|]. apply IH. rewrite dict_find_set.
  destruct (String.eqb k (f kv)); [by eexists|done].
Qed.

Lemma by_key_find entries k v : dict_find k (by_key entries) = Some v ->
  exists kv, In kv entries /\ _norm_key kv.1 = k /\ kv.2 = v.
Proof. unfold by_key. intros H. by apply (fold_set_find (fun kv => _norm_key kv.1)) in H as [|]. Qed.

Lemma by_key_covers entries kv : In kv entries -> exists v, dict_find (_norm_key kv.1) (by_key entries) = Some v.
Proof.
  unfold by_key. generalize (@nil (string * string)). induction entries as [|e es IH]; intros d H; [done|].
  destruct H as [->|H]; cbn [fold_left]; [|by apply IH]. apply (fold_set_mono (fun kv => _norm_key kv.1)).
  eexists. apply dict_find_set_eq.
Qed.

Lemma NoDup_map_inj {A B} (f : A -> B) (l : list A) : NoDup (map f l) ->
  forall x y, In x l -> In y l -> f x = f y -> x = y.
Proof.
  induction l as [|a l IH]; intros H x y Hx Hy E; [done|]. apply NoDup_cons in H as [Ha H].
  rewrite list_elem_of_In in Ha. destruct Hx as [->|Hx], Hy as [->|Hy]; [done| | |by apply IH].
  - destruct Ha. rewrite E. by apply in_map.
  - destruct Ha. rewrite <- E. by apply in_map.
Qed.

(** ** Configurations that load *)

Section Facts.
Context `{Text : PyText}.

Definition taxonomy_of (config : dict) : dict := as_dict (dget config "sector_taxonomy").
Definition canonical_names (config : dict) : list string :=
  map (fun s => strip (py_str s)) (as_list (dget (taxonomy_of config) "canonical")).

Record taxonomy_ok (config : dict) : Prop := {
  to_nonempty : forall s, In s (canonical_names config) -> s <> "";
  to_targets : forall name kv, In name ["tradingview_map"; "aliases"] ->
    In kv (targets (dget (taxonomy_of config) name)) -> In kv.2 (canonical_names config);
}.

Lemma texts_strip l : existsb (fun v => String.eqb v "") (map _text l) = false ->
  map _text l = map (fun s => strip (py_str s)) l.
Proof.
  induction l as [|v l IH]; [done|]. cbn [map existsb]. intros H. apply orb_false_iff in H as [Hv H].
  f_equal; [by destruct v|by apply IH].
Qed.

Lemma nonempty_texts (texts : list string) : existsb (fun v => String.eqb v "") texts = false -> forall s, In s texts -> s <> "".
Proof.
  intros H s Hs ->. assert (existsb (fun v => String.eqb v "") texts = true); [|congruence].
  apply existsb_exists. by exists "".
Qed.

Lemma targets_ok name canonical d u : existsb (fun v => String.eqb v "") canonical = false ->
  check_targets name canonical (get_or d name (VDict [])) = Ok u ->
  forall kv, In kv (targets (dget d name)) -> In kv.2 canonical.
Proof.
  intros Hne E kv Hkv. unfold targets in Hkv. apply in_map_iff in Hkv as ([k v] & <- & Hv). cbn [fst snd].
  revert E Hv. unfold check_targets, get_or, dget. destruct (dict_find name d) as [v'|]; [|done].
  destruct v'; try done. cbn [as_dict]. intros E Hv. destruct (check_each_Ok _ _ _ E _ Hv) as [w Hw].
  unbind Hw. apply refuse_Ok, negb_false_iff, smem_In in Hw. cbn [fst snd] in Hw.
  destruct v; try exact Hw. by destruct (nonempty_texts _ Hne _ Hw).
Qed.

Lemma loaded_taxonomy document config : load_sector_rotation_config document = Ok config -> taxonomy_ok config.
Proof.
  unfold load_sector_rotation_config. intros E. destruct (py_or document (VDict [])) as [| | | | | | |d]; try done.
  unbind E as u Hv. apply Ok_inj in E. subst. unfold _validate_config in Hv.
  do 4 unbind Hv. unbind Hv as tax Ht. unbind Hv as v1 Hv1. clear Hv.
  assert (Htax : taxonomy_of config = tax).
  { revert Ht. unfold taxonomy_of, SectorConfig._mapping. destruct (dget config "sector_taxonomy"); try done.
    intros H. by apply Ok_inj in H. }
  revert Hv1. unfold _validate_taxonomy. intros Hv. unbind Hv as canonical Hc. unbind Hv as w1 H1.
  unbind Hv. unbind Hv. unbind Hv as w2 H2. unbind Hv as w3 H3. apply refuse_Ok in H1.
  assert (Hnames : canonical_names config = canonical).
  { unfold canonical_names. rewrite Htax. destruct (dget tax "canonical") as [| | | | | |[|c cs]|]; try done.
    apply Ok_inj in Hc. subst canonical. symmetry. by apply texts_strip. }
  split; rewrite Hnames, ?Htax.
  - by apply nonempty_texts.
  - intros name kv [<-|[<-|[]]]; by eapply targets_ok.
Qed.

(** ** Normalization *)

Lemma canonical_entry config kv :
  In kv (map (fun s => (py_str s, strip (py_str s))) (as_list (dget (taxonomy_of config) "canonical"))) ->
  In kv.2 (canonical_names config) /\ _norm_key kv.1 = _norm_key kv.2.
Proof.
  intros H. apply in_map_iff in H as (v & <- & Hv). cbn [fst snd]. split; [|by rewrite norm_key_strip].
  unfold canonical_names. by apply (in_map (fun s => strip (py_str s))).
Qed.

(** Under a configuration that loads, a raw sector is mapped to a canonical name, or it is
    missing or unmapped and gets the label of the unknown sector; nothing else happens. *)
Theorem normalized_sector_is_canonical document config raw :
  load_sector_rotation_config document = Ok config ->
  let r := normalize_sector_result raw config in
  (In (sn_status r) ["canonical"; "mapped"] /\ sn_reason r = None /\
   In (sn_canonical_sector r) (canonical_names config)) \/
  (sn_canonical_sector r = _unknown_sector config /\
   ((sn_status r = "missing" /\ sn_raw_sector r = None /\ sn_reason r = Some "sector_missing") \/
    (sn_status r = "unmapped" /\ sn_raw_sector r <> None /\ sn_reason r = Some "sector_unmapped"))).
Proof.
  intros L. apply loaded_taxonomy in L as [Hne Ht]. cbv zeta. unfold normalize_sector_result. cbv zeta.
  fold (taxonomy_of config). destruct (String.eqb _ ""); [by right; split; [|left]|].
  destruct (dict_find _ (by_key (map _ _))) as [s|] eqn:E1.
  { left. split_and!; [by left|done|]. apply by_key_find in E1 as (kv & Hkv & _ & <-). by apply canonical_entry. }
  destruct (dict_find _ (by_key (targets (dget _ "tradingview_map")))) as [s|] eqn:E2.
  { left. split_and!; [by right; left|done|]. apply by_key_find in E2 as (kv & Hkv & _ & <-).
    apply (Ht "tradingview_map"); [by left|done]. }
  destruct (dict_find _ (by_key (targets (dget _ "aliases")))) as [s|] eqn:E3.
  { left. split_and!; [by right; left|done|]. apply by_key_find in E3 as (kv & Hkv & _ & <-).
    apply (Ht "aliases"); [by right; left|done]. }
  right. split; [done|]. by right.
Qed.

(** A canonical name is a fixed point of normalization when no two canonical names differ only
    in case and spacing; so normalizing twice is normalizing once for every raw sector that is
    mapped at all. *)
Theorem normalization_settles document config name :
  load_sector_rotation_config document = Ok config ->
  NoDup (map _norm_key (canonical_names config)) -> In name (canonical_names config) ->
  normalize_sector_result (Some name) config
  = mkSectorNormalizationResult (Some name) name (_taxonomy_source config) "canonical" None.
Proof.
  intros L Hd Hin. apply loaded_taxonomy in L as [Hne _]. unfold normalize_sector_result. cbv zeta.
  fold (taxonomy_of config). assert (Hs : strip name = name).
  { unfold canonical_names in Hin. apply in_map_iff in Hin as (v & <- & _). apply strip_idem. }
  rewrite Hs. destruct (String.eqb_spec name "") as [E|_]; [by destruct (Hne _ Hin)|].
  pose proof Hin as Hin'. unfold canonical_names in Hin'. apply in_map_iff in Hin' as (v & Hv & Hvl).
  set (entries := map (fun s => (py_str s, strip (py_str s))) _).
  assert (He : In (py_str v, name) entries) by (apply in_map_iff; exists v; by rewrite Hv).
  destruct (by_key_covers _ _ He) as [w Hw]. cbn [fst] in Hw.
  assert (Hk : _norm_key (py_str v) = _norm_key name) by (rewrite <- Hv; by rewrite norm_key_strip).
  rewrite Hk in Hw. rewrite Hw. apply by_key_find in Hw as (kv & Hkv & Hkey & <-).
  apply canonical_entry in Hkv as [Hc Hc']. f_equal; [].
  apply (NoDup_map_inj _ _ Hd); [done|done|congruence].
Qed.
End Facts.
