(* ===== verification/MarketExamples.v ===== *)
(** * Examples of market regimes and sector rotation

    The configurations [config/market_regime_command_center.yaml] and
    [config/sector_rotation.yaml], and the theorems on regimes, policies and sectors applied to
    them. *)
From Stdlib Require Import ZArith Lia List String Bool Sorted.
From stdpp Require Import base list strings sorting.
From S2P Require Import Prelude PyFloat PyValue Signals ScoreWarnings RankingRules MarketRegime.
From S2P Require Import MarketRegime SectorRotation SectorFacts.
Local Open Scope string_scope.
Local Open Scope list_scope.
Local Open Scope Z_scope.
Import Regime RegimePolicy SectorPolicy.

#[local] Instance market_text : PyText := {| str_other := fun _ => ""; set_order := fun l => l |}.

Definition cents (n : Z) : pyval := VFloat (float_ratio n 100).
Definition names (ws : list string) : pyval := VList (map VStr ws).
Definition texts (kvs : list (string * string)) : pyval := VDict (map (fun kv => (kv.1, VStr kv.2)) kvs).

(** ** The market *)

Definition policy (regime : string) (multiplier adjustment : Z) (summary : string)
    (preferred allowed reduced blocked setups blocked_setups : list string) : string * pyval :=
  (regime, VDict
    [("position_size_multiplier", cents multiplier); ("preferred_profiles", names preferred);
     ("allowed_profiles", names allowed); ("reduced_profiles", names reduced);
     ("blocked_profiles", names blocked); ("allowed_setups", names setups);
     ("blocked_setups", names blocked_setups); ("minimum_score_adjustment", cents adjustment);
     ("summary", VStr summary)]).

Definition market_document : pyval := VDict
 [("engine", VDict [("enabled", VBool true); ("version", VStr "mrcc-1.0.0");
                    ("config_version", VStr "2026-07-28")]);
  ("symbols", VDict [("primary_market", VStr "SPY"); ("risk_proxy", VStr "QQQ");
                     ("use_risk_proxy", VBool true)]);
  ("freshness", VDict [("max_stale_trading_days", VInt 3); ("stale_data_risk_state", VStr "Gray")]);
  ("risk_state_mapping", texts
    [("Bull trend", "Green"); ("Risk-on breakout", "Green"); ("Bull pullback", "Yellow");
     ("Choppy", "Yellow"); ("Bear rally", "Orange"); ("Distribution", "Orange");
     ("Correction", "Red"); ("Crash risk", "Red"); ("Unknown", "Gray")]);
  ("market_regime_v4", VDict [("enabled", VBool true); ("use_spy", VBool true); ("use_qqq", VBool true);
                              ("allow_unknown_market_low_confidence", VBool true)]);
  ("policies", VDict [
   policy "Bull trend" 100 0 "Risk-on. Normal long swing conditions."
     ["momentum_swing"; "quality_momentum"]
     ["momentum_swing"; "quality_momentum"; "early_rocket"; "clean_compounder_pullback";
       "defensive_quality"]
     []
     []
     ["Prime clean pullback"; "Clean bull pullback"; "Fresh breakout"; "Tight base breakout";
       "Volatility contraction setup"; "RS leader pullback"; "Momentum continuation"]
     ["Failed breakout"; "Distribution risk"; "Blowoff top"; "Climax reversal risk"];
   policy "Risk-on breakout" 85 20 "Risk-on breakout. Breakouts allowed, but avoid chase conditions."
     ["momentum_swing"; "early_rocket"; "quality_momentum"]
     ["momentum_swing"; "quality_momentum"; "early_rocket"; "clean_compounder_pullback";
       "defensive_quality"]
     []
     []
     ["Fresh breakout"; "Tight base breakout"; "Volatility contraction setup"; "Clean bull pullback"]
     ["Overheated momentum"; "Late-stage extension"; "Failed breakout"; "Blowoff top";
       "Climax reversal risk"];
   policy "Bull pullback" 75 40 "Market pullback. Prefer high-quality pullbacks and reduce breakout aggression."
     ["quality_momentum"; "clean_compounder_pullback"]
     ["momentum_swing"; "quality_momentum"; "clean_compounder_pullback"; "defensive_quality"]
     ["early_rocket"]
     []
     ["Prime clean pullback"; "Clean bull pullback"; "Volatility contraction setup";
       "RS leader pullback"]
     ["Overheated momentum"; "Failed breakout"; "Distribution risk"; "Blowoff top";
       "Climax reversal risk"];
   policy "Choppy" 50 70 "Choppy market. Tight bases and quality pullbacks only."
     ["defensive_quality"; "clean_compounder_pullback"]
     ["quality_momentum"; "clean_compounder_pullback"; "defensive_quality"]
     ["momentum_swing"]
     ["early_rocket"]
     ["Volatility contraction setup"; "Clean bull pullback"; "Tight base breakout"]
     ["Fresh breakout"; "Extended momentum"; "Overheated momentum"; "Failed breakout";
       "Distribution risk"; "Blowoff top"; "Climax reversal risk"];
   policy "Bear rally" 25 100 "Bear rally. Treat strength suspiciously and use tiny size only."
     ["defensive_quality"]
     ["defensive_quality"; "clean_compounder_pullback"]
     ["quality_momentum"]
     ["momentum_swing"; "early_rocket"]
     ["RS leader pullback"; "Volatility contraction setup"]
     ["Fresh breakout"; "Momentum continuation"; "Extended momentum"; "Overheated momentum";
       "Failed breakout"; "Distribution risk"; "Blowoff top"; "Climax reversal risk"];
   policy "Distribution" 25 150 "Distribution warning. Avoid most new long entries."
     ["defensive_quality"]
     ["defensive_quality"]
     ["clean_compounder_pullback"]
     ["momentum_swing"; "quality_momentum"; "early_rocket"]
     []
     ["Fresh breakout"; "Momentum continuation"; "Extended momentum"; "Overheated momentum";
       "Failed breakout"; "Distribution risk"; "Blowoff top"; "Climax reversal risk"];
   policy "Correction" 10 200 "Correction. New long entries are watch-only or blocked."
     ["defensive_quality"]
     ["defensive_quality"]
     []
     ["momentum_swing"; "quality_momentum"; "early_rocket"; "clean_compounder_pullback"]
     []
     ["Fresh breakout"; "Tight base breakout"; "Momentum continuation"; "Extended momentum";
       "Overheated momentum"; "Failed breakout"; "Distribution risk"; "Blowoff top";
       "Climax reversal risk"];
   policy "Crash risk" 0 9900 "Crash risk. Block new long entries."
     []
     []
     []
     ["momentum_swing"; "quality_momentum"; "early_rocket"; "clean_compounder_pullback";
       "defensive_quality"]
     []
     ["*"];
   policy "Unknown" 25 100 "Market data confidence is low. Reduce risk."
     ["defensive_quality"]
     ["defensive_quality"]
     []
     ["early_rocket"]
     []
     ["Fresh breakout"; "Momentum continuation"]])].

(** ** Sectors *)

Definition sector_document_with (etf : bool) (weights : list (string * pyval)) (policy : string) : pyval := VDict
 [("version", VStr "1.0.0");
  ("defaults", VDict
    [("default_ranking_profile", VStr "momentum_swing");
     ("top_candidate_cutoffs", VList [VInt 10; VInt 25; VInt 50]);
     ("min_tickers_for_normal_confidence", VInt 5); ("min_tickers_for_high_confidence", VInt 10);
     ("unknown_sector_label", VStr "Unknown")]);
  ("sector_taxonomy", VDict
    [("source", VStr "tradingview"); ("unknown_sector_label", VStr "Unknown");
     ("preserve_raw_sector", VBool true);
     ("canonical", names
       ["Technology"; "Communication Services"; "Consumer Cyclical"; "Consumer Defensive";
        "Financial Services"; "Healthcare"; "Industrials"; "Energy"; "Basic Materials"; "Real Estate";
        "Utilities"; "Government / Other"; "Miscellaneous / Other"; "ETF / Fund"; "Unknown"]);
     ("tradingview_map", texts
       [("Energy minerals", "Energy"); ("Non-energy minerals", "Basic Materials");
        ("Process industries", "Basic Materials"); ("Producer manufacturing", "Industrials");
        ("Industrial services", "Industrials"); ("Transportation", "Industrials");
        ("Distribution services", "Industrials"); ("Commercial services", "Industrials");
        ("Technology services", "Technology"); ("Electronic technology", "Technology");
        ("Communications", "Communication Services"); ("Finance", "Financial Services");
        ("Health services", "Healthcare"); ("Health technology", "Healthcare");
        ("Consumer durables", "Consumer Cyclical"); ("Consumer services", "Consumer Cyclical");
        ("Retail trade", "Consumer Cyclical"); ("Consumer non-durables", "Consumer Defensive");
        ("Utilities", "Utilities"); ("Government", "Government / Other");
        ("Miscellaneous", "Miscellaneous / Other")]);
     ("aliases", texts
       [("Information Technology", "Technology"); ("Technology Services", "Technology");
        ("Electronic Technology", "Technology"); ("Health Care", "Healthcare");
        ("Financials", "Financial Services"); ("Consumer Discretionary", "Consumer Cyclical");
        ("Consumer Staples", "Consumer Defensive"); ("Materials", "Basic Materials");
        ("Real Estate Services", "Real Estate")]);
     ("mapping_statuses", names ["mapped"; "canonical"; "missing"; "unmapped"])]);
  ("sector_etf_proxies", texts
    [("Technology", "XLK"); ("Communication Services", "XLC"); ("Consumer Cyclical", "XLY");
     ("Consumer Defensive", "XLP"); ("Financial Services", "XLF"); ("Healthcare", "XLV");
     ("Industrials", "XLI"); ("Energy", "XLE"); ("Basic Materials", "XLB"); ("Real Estate", "XLRE");
     ("Utilities", "XLU")]);
  ("universe_score", VDict
    [("weights", VDict [("average_technical_score", cents 25); ("average_profile_score", cents 20);
        ("top_candidate_share", cents 20); ("setup_density", cents 20); ("risk_control", cents 15)]);
     ("setup_labels", VDict
        [("buyable", names
           ["Prime clean pullback"; "Clean bull pullback"; "Fresh breakout"; "Tight base breakout";
            "RS leader pullback"]);
         ("watch", names ["Volatility contraction setup"; "Momentum continuation"; "Trend repair"]);
         ("danger", names
           ["Distribution risk"; "Failed breakout"; "Blowoff top"; "Climax reversal risk";
            "Late-stage extension"; "No trade"])]);
     ("warning_flags", VDict
        [("danger", names ["failed_breakout"; "distribution_risk"; "blowoff_top"; "box_failure";
                           "climax_reversal_risk"; "stage_4_downtrend"]);
         ("caution", names ["market_risk_off"; "liquidity_warning"; "low_technical_confidence";
                            "stage_3_distribution"])])]);
  ("etf_score", VDict
    [("enabled", VBool etf); ("benchmark_ticker", VStr "SPY");
     ("weights", VDict [("trend", cents 25); ("relative_strength", cents 30); ("momentum", cents 20);
                        ("breakout", cents 10); ("risk_control", cents 15)])]);
  ("combined_score", VDict [("weights", VDict weights); ("missing_etf_policy", VStr policy)]);
  ("rotation_states", VDict
    [("leading_min_score", cents 750); ("improving_min_score", cents 600); ("lagging_max_score", cents 450);
     ("crowded_top25_share_min", cents 35); ("danger_share_risk_off_min", cents 30);
     ("score_change_improving_min", cents 75); ("score_change_fading_min", cents (-75))]);
  ("permissions", VDict
    [("position_size_multipliers", VDict [("full_allowed", cents 100); ("reduced_size", cents 50);
        ("watch_only", cents 25); ("avoid_new_longs", cents 0)]);
     ("market_buckets", VDict [
      ("supportive", texts [("Leading", "full_allowed"); ("Improving", "reduced_size");
         ("Neutral", "watch_only"); ("Fading", "watch_only"); ("Lagging", "avoid_new_longs");
         ("Crowded risk", "reduced_size"); ("Risk-off", "avoid_new_longs");
         ("Insufficient data", "watch_only")]);
      ("choppy", texts [("Leading", "reduced_size"); ("Improving", "watch_only");
         ("Neutral", "watch_only"); ("Fading", "avoid_new_longs"); ("Lagging", "avoid_new_longs");
         ("Crowded risk", "watch_only"); ("Risk-off", "avoid_new_longs");
         ("Insufficient data", "watch_only")]);
      ("risk_off", texts [("Leading", "watch_only"); ("Improving", "watch_only");
         ("Neutral", "avoid_new_longs"); ("Fading", "avoid_new_longs"); ("Lagging", "avoid_new_longs");
         ("Crowded risk", "avoid_new_longs"); ("Risk-off", "avoid_new_longs");
         ("Insufficient data", "avoid_new_longs")]);
      ("unknown", texts [("Leading", "reduced_size"); ("Improving", "watch_only");
         ("Neutral", "watch_only"); ("Fading", "watch_only"); ("Lagging", "avoid_new_longs");
         ("Crowded risk", "watch_only"); ("Risk-off", "avoid_new_longs");
         ("Insufficient data", "watch_only")])])])].

Definition shipped_weights : list (string * pyval) := [("universe", cents 55); ("etf", cents 45)].
Definition sector_document : pyval := sector_document_with false shipped_weights "use_universe_only".
Definition as_config (document : pyval) : dict := as_dict document.
Definition sector_config : dict := as_config sector_document.
Definition etf_config : dict := as_config (sector_document_with true shipped_weights "use_universe_only").

Lemma sector_document_loads : SectorConfig.load_sector_rotation_config sector_document = Ok sector_config.
Proof. vm_compute. reflexivity. Qed.

Definition market_config : MarketRegimeCommandCenterConfig :=
  match parse_command_center market_document with
  | Ok c => c
  | Raise _ => mkCommandCenterConfig false "" None [] [] [] [] []
  end.
Lemma market_document_parses : parse_command_center market_document = Ok market_config.
Proof. vm_compute. reflexivity. Qed.

(** ** Regimes *)

Definition features (close sma50 sma200 roc21 distribution : Z) : dict :=
  [("close", VInt close); ("sma50", VInt sma50); ("sma200", VInt sma200); ("sma50_slope_pct", VFloat f1);
   ("roc21", VInt roc21); ("roc63", VInt 5); ("distribution_count", VInt distribution)].
Definition params : dict := [("enabled", VBool true); ("use_qqq", VBool true)].
Definition bull : MarketRegimeResult :=
  classify_market_regime (Some (features 110 105 100 2 1)) (Some (features 110 105 100 2 1)) params.
Definition distribution : MarketRegimeResult :=
  classify_market_regime (Some (features 110 105 100 2 5)) None params.

Example regimes : (regime bull, gate_ok bull, regime distribution, gate_ok distribution, confidence distribution)
  = ("Bull trend", true, "Distribution", false, "low").
Proof. vm_compute. reflexivity. Qed.

Definition fresh : MarketDataFreshness := mkMarketDataFreshness false false [].
Definition severe : MarketDataFreshness := mkMarketDataFreshness true true ["stale_spy_market_data"].

Definition brief (r : result MarketRegimePolicyDto) : option (string * string * list string) :=
  match r with Ok d => Some (mp_regime d, mp_risk_state d, mp_warnings d) | Raise _ => None end.
Example policies : map (fun f => brief (policy_for bull market_config (Some f))) [fresh; severe]
  = [Some ("Bull trend", "Green", []);
     Some ("Unknown", "Gray", ["stale_spy_market_data"; "stale_market_data"; "severely_stale_market_data"])].
Proof. vm_compute. reflexivity. Qed.

Lemma gate_enabled : truthy (get_or params "enabled" (VBool true)) = true.
Proof. reflexivity. Qed.

Lemma regime_gate_fails_closed_witness : truthy (get_or params "enabled" (VBool true)) = true /\
  gate_ok (classify_market_regime None (Some (features 110 105 100 2 1)) params) = false.
Proof.
  split; [reflexivity|].
  destruct (regime_gate_fails_closed None (Some (features 110 105 100 2 1)) params gate_enabled)
    as (_ & _ & _ & _ & H & _).
  exact (proj1 (H eq_refl)).
Defined.

Lemma policy_total_and_bounded_witness : exists dto, policy_for distribution market_config (Some severe) = Ok dto /\
  flt f1 (mp_position_size_multiplier dto) = false.
Proof.
  destruct (policy_total_and_bounded market_document market_config distribution (Some severe)
              market_document_parses) as (dto & E & _ & _ & _ & H & _).
  exists dto. split; [exact E|exact H].
Defined.

(** The policy of the unknown regime, whatever was classified. *)
Definition severe_policy (r : MarketRegimeResult) : MarketRegimePolicyDto :=
  match policy_for r market_config (Some severe) with
  | Ok d => d
  | Raise _ => mkMarketRegimePolicyDto "" "" f0 [] [] [] [] [] [] f0 "" []
  end.
Lemma severe_bull_ok : policy_for bull market_config (Some severe) = Ok (severe_policy bull).
Proof. vm_compute. reflexivity. Qed.
Lemma severe_distribution_ok :
  policy_for distribution market_config (Some severe) = Ok (severe_policy distribution).
Proof. vm_compute. reflexivity. Qed.

Lemma stale_data_fails_closed_witness : mp_regime (severe_policy bull) = REGIME_UNKNOWN.
Proof.
  exact (proj1 (stale_data_fails_closed market_config bull distribution severe severe (severe_policy bull)
    (severe_policy distribution) eq_refl eq_refl severe_bull_ok severe_distribution_ok)).
Defined.

(** ** Sector decisions *)

Definition technology (score danger : option float) (top25 : Z) (confidence : string) : SectorUniverseMetrics :=
  mkSectorUniverseMetrics "Technology" "technology" 20 [("top_25", top25)] danger score confidence [] [].
Definition eight : option float := Some (float_of_Z 8).
Definition snapshot_of (r : MarketRegimeResult) (state : string) : pyval := regime_fields r state.

Definition summary (r : result SectorRotationDecision) : option (string * string * string * list string) :=
  match r with
  | Ok d => Some (sd_rotation_state d, sd_market_bucket d, sd_permission d, sd_warnings d)
  | Raise _ => None
  end.
Definition decide (u : SectorUniverseMetrics) (market previous : pyval) : result SectorRotationDecision :=
  decide_sector_rotation u VNone market previous sector_config.

Example sector_states :
  map summary
    [decide (technology eight None 2 "normal") (snapshot_of bull "Green") VNone;
     decide (technology eight None 8 "normal") (snapshot_of bull "Green") VNone;
     decide (technology eight (Some f_half) 2 "normal") (snapshot_of distribution "Orange") VNone;
     decide (technology eight None 2 "normal") VNone (VDict [("current_rank", VInt 3); ("final_score", VInt 9)]);
     decide (technology eight None 2 "insufficient") (snapshot_of bull "Green") VNone]
  = [Some ("Leading", "supportive", "full_allowed", []);
     Some ("Crowded risk", "supportive", "reduced_size", ["sector_crowded_risk"]);
     Some ("Risk-off", "risk_off", "avoid_new_longs", ["sector_risk_off"; "market_risk_off"]);
     Some ("Fading", "unknown", "watch_only", []);
     Some ("Insufficient data", "supportive", "watch_only", [])].
Proof. vm_compute. reflexivity. Qed.

(** The previous rank is read as an integer; an infinite one raises. *)
Example infinite_rank : decide (technology eight None 2 "normal") VNone
    (VDict [("current_rank", VFloat (SpecFloat.S754_infinity false))])
  = raise "OverflowError" "cannot convert float infinity to integer".
Proof. vm_compute. reflexivity. Qed.

Lemma shipped_weights_ok : weights_ok sector_config.
Proof. intros H. vm_compute in H. discriminate. Qed.

Lemma sector_decision_total_witness :
  exists d, decide (technology eight None 2 "normal") (snapshot_of bull "Green") VNone = Ok d /\
    In (sd_rotation_state d) SectorConfig.REQUIRED_ROTATION_STATES.
Proof.
  destruct (sector_decision_total sector_document sector_config (technology eight None 2 "normal") VNone
    (snapshot_of bull "Green") VNone None sector_document_loads shipped_weights_ok eq_refl) as (d & E & H & _).
  exists d. split; [exact E|exact H].
Defined.

(** With ETF mode on, combined weights that do not name the universe pass the validation and
    make every scored decision raise. *)
Definition misnamed_document : pyval := sector_document_with true [("a", cents 50); ("b", cents 50)] "use_universe_only".
Example misnamed_weights_load :
  is_ok (SectorConfig.load_sector_rotation_config misnamed_document) = true /\
  decide_sector_rotation (technology eight None 2 "normal") (VDict [("etf_rotation_score", VInt 7)]) VNone VNone
    (as_config misnamed_document) = raise "KeyError" "universe".
Proof. vm_compute. auto. Qed.

Lemma market_bucket_of_regime_witness : gate_ok distribution = false /\
  _market_bucket (regime_fields distribution "Orange") = "risk_off".
Proof.
  split; [vm_compute; reflexivity|].
  apply (market_bucket_of_regime (Some (features 110 105 100 2 5)) None params "Orange");
    [reflexivity|simpl; tauto|vm_compute; reflexivity].
Defined.

Definition shipped_combined : dict := as_dict (dget etf_config "combined_score").
Lemma missing_etf_policy_is_ignored_witness :
  _final_score eight None (dict_set "combined_score"
    (VDict (dict_set "missing_etf_policy" (VStr "null_combined_score") shipped_combined)) etf_config)
  = Ok (Some (_clamp (float_of_Z 8)), "universe_only").
Proof.
  apply (missing_etf_policy_is_ignored (technology eight None 2 "normal") VNone VNone VNone etf_config
    shipped_combined (VStr "null_combined_score")). vm_compute. reflexivity.
Defined.
(** The loader accepts that policy. *)
Example null_policy_loads :
  is_ok (SectorConfig.load_sector_rotation_config (sector_document_with true shipped_weights "null_combined_score")) = true
  /\ is_ok (SectorConfig.load_sector_rotation_config (sector_document_with true shipped_weights "skip")) = false.
Proof. vm_compute. auto. Qed.

(** ** Ranking *)

Definition decided (sector : string) (score : option Z) (previous : option Z) : SectorRotationDecision :=
  mkSectorRotationDecision sector sector (float_of_Z <$> score) None None "Neutral" "watch_only" f0 "normal"
    None previous None None [] [] "universe_only" "unknown" None None f0.
Definition three_sectors : list SectorRotationDecision :=
  [decided "Energy" None (Some 1); decided "Utilities" (Some 6) (Some 3); decided "Healthcare" (Some 8) None].
Example sector_ranks : map (fun d => (sd_sector d, sd_rank d, sd_rank_change d)) (_rank_decisions three_sectors)
  = [("Healthcare", Some 1, None); ("Utilities", Some 2, Some 1); ("Energy", Some 3, Some (-2))].
Proof. vm_compute. reflexivity. Qed.

Lemma three_sectors_ok d : In d three_sectors -> score_ok (sd_final_score d) /\
  match sd_danger_share d with Some x => is_nan x = false | None => True end.
Proof.
  intros H. repeat destruct H as [<-|H]; [..|done]; split; cbn; try done; split; vm_compute; reflexivity.
Qed.
Lemma sector_ranking_correct_witness : StronglySorted not_above (_rank_decisions three_sectors).
Proof. destruct (sector_ranking_correct three_sectors three_sectors_ok) as (s & _ & _ & _ & H). exact H. Defined.

(** ** Sector names *)

Example sector_names :
  map (fun raw => let r := SectorTaxonomy.normalize_sector_result raw sector_config in
                  (SectorTaxonomy.sn_canonical_sector r, SectorTaxonomy.sn_status r))
    [Some " health   SERVICES "; Some "Energy"; Some "Materials"; Some "Cryptids"; Some " "; None]
  = [("Healthcare", "mapped"); ("Energy", "canonical"); ("Basic Materials", "mapped"); ("Unknown", "unmapped");
     ("Unknown", "missing"); ("Unknown", "missing")].
Proof. vm_compute. reflexivity. Qed.

Lemma normalized_sector_is_canonical_witness :
  In (SectorTaxonomy.sn_canonical_sector
        (SectorTaxonomy.normalize_sector_result (Some "Finance") sector_config)) (canonical_names sector_config).
Proof.
  destruct (normalized_sector_is_canonical sector_document sector_config (Some "Finance") sector_document_loads)
    as [(_ & _ & H)|[_ [[H _]|[H _]]]]; [exact H|vm_compute in H; discriminate..].
Defined.

Lemma shipped_names_distinct : NoDup (map SectorTaxonomy._norm_key (canonical_names sector_config)).
Proof. apply (bool_decide_unpack _). vm_compute. exact I. Qed.
Lemma normalization_settles_witness :
  SectorTaxonomy.normalize_sector_result (Some "ETF / Fund") sector_config
  = SectorTaxonomy.mkSectorNormalizationResult (Some "ETF / Fund") "ETF / Fund"
      (SectorTaxonomy._taxonomy_source sector_config) "canonical" None.
Proof.
  apply (normalization_settles sector_document sector_config "ETF / Fund" sector_document_loads shipped_names_distinct).
  apply smem_In. vm_compute. reflexivity.
Defined.
