(* ===== verification/TemporalValidity.v ===== *)
(** * Temporal validity of winner predictions: [temporal_integrity.py],
    [temporal_validation_service.py], [temporal_eligibility.py] and [training_eligibility.py]

    The contract between the decision and the entry of a prediction, the append-only ledger of
    validity decisions with its reviewed quarantine and certification manifests, the two
    versions of the eligibility test (Python and SQL) and the training eligibility of a capture.

    Stored timestamps are UTC instants; [ny_utc] is the instant of a New York wall clock,
    [ny_wall] the wall clock of an instant.  The row locks of the services have no effect within
    one transaction; the mutation authority that wraps them is left out, and messages leave out
    the lists of identifiers.  The second part is the
    training eligibility of a capture. *)
From Stdlib Require Import ZArith Lia List String Bool.
From stdpp Require Import base gmap list strings.
From S2P Require Import Prelude PyDate PyFloat PyValue Calendar Readiness Canonical Signals ScoreWarnings.
Local Open Scope string_scope.
Local Open Scope list_scope.
Local Open Scope Z_scope.
Local Open Scope st_scope.

Module Temporal.

(** ** [temporal_integrity.py] *)

Definition ENTRY_TIMING_VALIDATION_VERSION : string := "winner-temporal-integrity-1.0".

Definition VALID : string := "VALID".
Definition EXECUTION_INVALID : string := "EXECUTION_INVALID".
Definition LOOKAHEAD_INVALID : string := "LOOKAHEAD_INVALID".
Definition TEMPORAL_LINEAGE_UNRESOLVED : string := "TEMPORAL_LINEAGE_UNRESOLVED".
Definition ENTRY_NOT_AFTER_DECISION : string := "ENTRY_NOT_AFTER_DECISION".
Definition SEMANTIC_INPUT_TIME_UNRESOLVED : string := "SEMANTIC_INPUT_TIME_UNRESOLVED".
Definition SOURCE_AFTER_DECISION : string := "SOURCE_AFTER_DECISION".

Record TemporalValidationResult := mkTemporalValidationResult {
  tv_status : string;
  tv_entry_timing_valid : bool;
  tv_source_cutoff_valid : bool;
  tv_semantic_input_time_valid : option bool;
  tv_evidence_eligible : bool;
  tv_reason_codes : list string;
  tv_validation_version : string;
}.

Definition _aware_utc (value : pydatetime) (name : string) : result datetime :=
  match value with
  | Naive _ => ValueError (name ++ " must be timezone-aware")
  | Aware utc => Ok utc
  end.

(** [x is True]. *)
Definition is_true (x : option bool) : bool := match x with Some b => b | None => false end.

Definition validate_next_open_timing (decision_at entry_open_at : pydatetime)
    (source_data_cutoff_at : option pydatetime) (semantic_input_time_valid : option bool)
    : result TemporalValidationResult :=
  decision ← _aware_utc decision_at "decision_at";
  entry_open ← _aware_utc entry_open_at "entry_open_at";
  source_cutoff ← match source_data_cutoff_at with
                  | Some t => u ← _aware_utc t "source_data_cutoff_at"; Ok (Some u)
                  | None => Ok None
                  end;
  let entry_valid := decision <? entry_open in
  let source_valid := match source_cutoff with Some c => c <=? decision | None => true end in
  let semantic := is_true semantic_input_time_valid in
  let reasons :=
    (if entry_valid then [] else [ENTRY_NOT_AFTER_DECISION]) ++
    (if source_valid then [] else [SOURCE_AFTER_DECISION]) ++
    (if semantic then [] else [SEMANTIC_INPUT_TIME_UNRESOLVED]) in
  let status := if negb entry_valid then EXECUTION_INVALID
                else if negb source_valid then LOOKAHEAD_INVALID
                else if negb semantic then TEMPORAL_LINEAGE_UNRESOLVED
                else VALID in
  Ok (mkTemporalValidationResult status entry_valid source_valid semantic_input_time_valid
        (entry_valid && source_valid && semantic) reasons ENTRY_TIMING_VALIDATION_VERSION).

(** ** Tables *)

(** A row of [winner_temporal_validity_decisions]. *)
Record TemporalDecision := mkTemporalDecision {
  td_id : Z;
  td_prediction_id : Z;
  td_validation_sequence : Z;
  td_status : string;
  td_entry_timing_valid : bool;
  td_source_cutoff_valid : bool;
  td_semantic_input_time_valid : option bool;
  td_evidence_eligible : bool;
  td_reason_codes_json : list string;
  td_validation_version : string;
  td_decision_at : datetime;
  td_entry_session : date;
  td_entry_open_at : datetime;
  td_evaluated_at : datetime;
  td_evaluated_by : string;
  td_metadata_json : dict;
}.

(** The columns of a prediction that eligibility reads; [tp_persisted] stands for
    [is_persisted_snapshot or not transient]. *)
Record TemporalPrediction := mkTemporalPrediction {
  tp_id : Z;
  tp_source_data_cutoff_at : datetime;
  tp_decision_at : option datetime;
  tp_captured_at : option datetime;
  tp_planned_entry_session : option date;
  tp_eligibility_status : string;
  tp_reconstruction_method : option string;
  tp_lineage_json : option dict;
  tp_persisted : bool;
}.

(** Decisions are listed in the order of their identifiers. *)
Record TemporalStore := mkTemporalStore {
  ts_predictions : gmap Z TemporalPrediction;
  ts_decisions : list TemporalDecision;
  ts_next_id : Z;
}.

(** The constraints of the table. *)
Definition check_constraints (row : TemporalDecision) : bool :=
  smem (td_status row) [VALID; EXECUTION_INVALID; LOOKAHEAD_INVALID; TEMPORAL_LINEAGE_UNRESOLVED]
  && (negb (td_evidence_eligible row)
      || String.eqb (td_status row) VALID && td_entry_timing_valid row && td_source_cutoff_valid row
         && is_true (td_semantic_input_time_valid row))
  && Bool.eqb (td_entry_timing_valid row) (td_decision_at row <? td_entry_open_at row).
Definition sequence_taken (row : TemporalDecision) (rows : list TemporalDecision) : bool :=
  existsb (fun r => (td_prediction_id r =? td_prediction_id row)
                    && (td_validation_sequence r =? td_validation_sequence row)) rows.

Definition with_id (i : Z) (row : TemporalDecision) : TemporalDecision :=
  mkTemporalDecision i (td_prediction_id row) (td_validation_sequence row) (td_status row)
    (td_entry_timing_valid row) (td_source_cutoff_valid row) (td_semantic_input_time_valid row)
    (td_evidence_eligible row) (td_reason_codes_json row) (td_validation_version row)
    (td_decision_at row) (td_entry_session row) (td_entry_open_at row) (td_evaluated_at row)
    (td_evaluated_by row) (td_metadata_json row).

Definition insert_decision (s : TemporalStore) (row : TemporalDecision) : result TemporalStore :=
  match ts_predictions s !! td_prediction_id row with
  | None => raise "IntegrityError" "foreign key"
  | Some _ =>
      if sequence_taken row (ts_decisions s)
      then raise "IntegrityError" "uq_winner_temporal_validity_prediction_sequence"
      else if negb (check_constraints row) then raise "IntegrityError" "check constraint"
      else Ok (mkTemporalStore (ts_predictions s)
                 (ts_decisions s ++ [with_id (ts_next_id s) row]) (ts_next_id s + 1))
  end.
Fixpoint insert_decisions (s : TemporalStore) (rows : list TemporalDecision) : result TemporalStore :=
  match rows with
  | [] => Ok s
  | row :: rows => s' ← insert_decision s row; insert_decisions s' rows
  end.

(** [db.add_all(rows); db.flush()]: the rows of a flush are written together. *)
Definition flush_decisions (rows : list TemporalDecision) : ST TemporalStore unit := fun s =>
  match insert_decisions s rows with Ok s' => (Ok tt, s') | Raise e => (Raise e, s) end.

(** ** [temporal_validation_service.py] *)

Record TemporalQuarantineItem := mkTemporalQuarantineItem {
  qi_prediction_id : Z;
  qi_decision_at : pydatetime;
  qi_entry_session : date;
  qi_semantic_input_time_valid : option bool;
  qi_incident_reason : string;
  qi_metadata : option dict;
}.
Record TemporalQuarantinePlan := mkTemporalQuarantinePlan {
  qp_manifest_hash : string;
  qp_item_count : Z;
  qp_invalid_count : Z;
  qp_items : list TemporalQuarantineItem;
}.
Record TemporalCertificationItem := mkTemporalCertificationItem {
  ci_prediction_id : Z;
  ci_decision_at : pydatetime;
  ci_entry_session : date;
  ci_semantic_input_time_valid : bool;
  ci_certification_reason : string;
  ci_metadata : option dict;
}.
Record TemporalCertificationPlan := mkTemporalCertificationPlan {
  cp_manifest_hash : string;
  cp_item_count : Z;
  cp_valid_count : Z;
  cp_items : list TemporalCertificationItem;
}.

(** [func.max(validation_sequence)] of a prediction, [or 0]. *)
Definition latest_sequence (pid : Z) (rows : list TemporalDecision) : Z :=
  fold_left (fun acc r => if td_prediction_id r =? pid then Z.max acc (td_validation_sequence r) else acc) rows 0.

Section Service.
Context `{JT : JsonText} (ny_utc : datetime -> datetime).

Definition canonicalize_temporal_metadata (metadata : dict) : result dict :=
  c ← canonicalize None (embed (VDict metadata));
  match c with
  | VDict d => Ok d
  | _ => raise "TypeError" "temporal metadata must canonicalize to an object"
  end.

(** The schedule of an item and its validation against the cutoff of its prediction. *)
Definition validate_entry (missing_session : string) (entry_session : date) (decision_at : pydatetime)
    (cutoff : datetime) (semantic : option bool) : result (datetime * TemporalValidationResult) :=
  schedule ← us_market_session CALENDAR_VERSION entry_session;
  match schedule with
  | None => ValueError missing_session
  | Some s =>
      let open_at := ny_utc (open_at s) in
      r ← validate_next_open_timing decision_at (Aware open_at) (Some (Aware cutoff)) semantic;
      Ok (open_at, r)
  end.

Definition decision_row (pid sequence : Z) (r : TemporalValidationResult) (reasons : list string)
    (decision_at : pydatetime) (entry_session : date) (open_at evaluated_at : datetime)
    (evaluated_by : string) (metadata : dict) : TemporalDecision :=
  mkTemporalDecision 0 pid sequence (tv_status r) (tv_entry_timing_valid r) (tv_source_cutoff_valid r)
    (tv_semantic_input_time_valid r) (tv_evidence_eligible r) reasons (tv_validation_version r)
    (match decision_at with Naive t => t | Aware t => t end) entry_session open_at evaluated_at
    evaluated_by metadata.

Definition record (prediction : TemporalPrediction) (decision_at : pydatetime) (entry_session : date)
    (semantic_input_time_valid : option bool) (evaluated_by : string) (evaluated_at : datetime)
    (metadata : option dict) : ST TemporalStore TemporalDecision :=
  let! schedule := st_lift (us_market_session CALENDAR_VERSION entry_session) in
  match schedule with
  | None => st_raise "ValueError" "entry_session must be a valid US market session"
  | Some session =>
      let! s := st_get in
      let sequence := latest_sequence (tp_id prediction) (ts_decisions s) + 1 in
      let open_at := ny_utc (open_at session) in
      let! r := st_lift (validate_next_open_timing decision_at (Aware open_at)
                           (Some (Aware (tp_source_data_cutoff_at prediction))) semantic_input_time_valid) in
      let! meta := st_lift (canonicalize_temporal_metadata (match metadata with Some d => d | None => [] end)) in
      let row := decision_row (tp_id prediction) sequence r (tv_reason_codes r) decision_at entry_session
                   open_at evaluated_at evaluated_by meta in
      let! _ := flush_decisions [row] in
      st_ret (with_id (ts_next_id s) row)
  end.

(** ** Manifests *)

Definition moment (t : pydatetime) : Canonical.evidence :=
  EDatetime (match t with Aware u => Some u | Naive _ => None end).
Definition manifest_entry (pid : Z) (decision_at : pydatetime) (entry_session : date)
    (semantic : option bool) (reason_key reason : string) (metadata : option dict) : Canonical.evidence :=
  EMapping true
    [("prediction_id", EInt pid); ("decision_at", moment decision_at); ("entry_session", EDate entry_session);
     ("semantic_input_time_valid", match semantic with Some b => EBool b | None => ENone end);
     (reason_key, EStr reason);
     ("metadata", embed (VDict (match metadata with Some d => d | None => [] end)))].

Definition quarantine_entry (i : TemporalQuarantineItem) : Canonical.evidence :=
  manifest_entry (qi_prediction_id i) (qi_decision_at i) (qi_entry_session i)
    (qi_semantic_input_time_valid i) "incident_reason" (qi_incident_reason i) (qi_metadata i).
Definition certification_entry (i : TemporalCertificationItem) : Canonical.evidence :=
  manifest_entry (ci_prediction_id i) (ci_decision_at i) (ci_entry_session i)
    (Some (ci_semantic_input_time_valid i)) "certification_reason" (ci_certification_reason i) (ci_metadata i).
Definition _quarantine_manifest_hash (items : list TemporalQuarantineItem) : result string :=
  fingerprint (EList (map quarantine_entry items)).
Definition _certification_manifest_hash (items : list TemporalCertificationItem) : result string :=
  fingerprint (EList (map certification_entry items)).

Fixpoint nodup_Z (l : list Z) : bool :=
  match l with [] => true | x :: l => negb (existsb (Z.eqb x) l) && nodup_Z l end.

(** [for item in items: x = check(item)], with the results. *)
Fixpoint each {A B} (f : A -> result B) (xs : list A) : result (list B) :=
  match xs with
  | [] => Ok []
  | x :: xs => y ← f x; ys ← each f xs; Ok (y :: ys)
  end.

(** The prediction of an item, which the plan has looked up. *)
Definition prediction_of (s : TemporalStore) (pid : Z) : result TemporalPrediction :=
  match ts_predictions s !! pid with Some p => Ok p | None => raise "KeyError" "prediction" end.

(** The refusals that the two plans share. *)
Definition manifest_subjects (kind : string) (s : TemporalStore) (ids : list Z) : result unit :=
  _ ← (if nodup_Z ids then Ok tt else ValueError (kind ++ " manifest contains duplicate prediction ids"));
  if forallb (fun i => match ts_predictions s !! i with Some _ => true | None => false end) ids then Ok tt
  else ValueError (kind ++ " predictions not found").

Definition validate_quarantine_item (s : TemporalStore) (i : TemporalQuarantineItem)
    : result (datetime * TemporalValidationResult) :=
  p ← prediction_of s (qi_prediction_id i);
  validate_entry "invalid entry session for prediction" (qi_entry_session i) (qi_decision_at i)
    (tp_source_data_cutoff_at p) (qi_semantic_input_time_valid i).

Definition plan_quarantine (s : TemporalStore) (items : list TemporalQuarantineItem)
    : result TemporalQuarantinePlan :=
  let ordered := sort_by (fun a b => qi_prediction_id a <=? qi_prediction_id b) items in
  _ ← manifest_subjects "quarantine" s (map qi_prediction_id ordered);
  results ← each (validate_quarantine_item s) ordered;
  let invalid := length (List.filter (fun r => negb (tv_evidence_eligible r.2)) results) in
  h ← _quarantine_manifest_hash ordered;
  Ok (mkTemporalQuarantinePlan h (Z.of_nat (length ordered)) (Z.of_nat invalid) ordered).

Definition certify_item (refusal : string) (s : TemporalStore) (i : TemporalCertificationItem)
    : result (datetime * TemporalValidationResult) :=
  p ← prediction_of s (ci_prediction_id i);
  r ← validate_entry "invalid entry session for prediction" (ci_entry_session i) (ci_decision_at i)
        (tp_source_data_cutoff_at p) (Some (ci_semantic_input_time_valid i));
  if tv_evidence_eligible r.2 then Ok r else ValueError refusal.

Definition plan_certification (s : TemporalStore) (items : list TemporalCertificationItem)
    : result TemporalCertificationPlan :=
  let ordered := sort_by (fun a b => ci_prediction_id a <=? ci_prediction_id b) items in
  _ ← manifest_subjects "certification" s (map ci_prediction_id ordered);
  _ ← each (certify_item "prediction is not positively valid" s) ordered;
  h ← _certification_manifest_hash ordered;
  Ok (mkTemporalCertificationPlan h (Z.of_nat (length ordered)) (Z.of_nat (length ordered)) ordered).

(** The checks of an application that do not depend on its kind. *)
Definition reviewed (approve_write : bool) (actor request_key plan_hash expected_hash kind : string)
    : result unit :=
  if negb approve_write then raise "PermissionError" "explicit approve_write=True is required"
  else if String.eqb (strip actor) "" || String.eqb (strip request_key) ""
  then ValueError "actor and request_key are required"
  else if negb (String.eqb plan_hash expected_hash)
  then ValueError (kind ++ " manifest hash differs from the reviewed plan")
  else Ok tt.

Definition manifest_metadata (metadata : option dict) (request_key hash : string) : result dict :=
  canonicalize_temporal_metadata
    (dict_set "manifest_hash" (VStr hash)
      (dict_set "request_key" (VStr request_key) (match metadata with Some d => d | None => [] end))).

(** The ids that a [flush] gave to its rows. *)
Definition new_ids (before after : TemporalStore) : list Z :=
  map td_id (skipn (length (ts_decisions before)) (ts_decisions after)).

Definition certification_row (s : TemporalStore) (hash actor request_key : string) (timestamp : datetime)
    (i : TemporalCertificationItem) : result TemporalDecision :=
  r ← certify_item "prediction is no longer positively valid" s i;
  meta ← manifest_metadata (ci_metadata i) request_key hash;
  Ok (decision_row (ci_prediction_id i) 1 r.2 (unique (tv_reason_codes r.2 ++ [ci_certification_reason i]))
        (ci_decision_at i) (ci_entry_session i) r.1 timestamp actor meta).

Definition apply_certification (plan : TemporalCertificationPlan) (expected_manifest_hash actor request_key : string)
    (approve_write : bool) (evaluated_at : datetime) : ST TemporalStore (string * Z * list Z) :=
  let! _ := st_lift (reviewed approve_write actor request_key (cp_manifest_hash plan)
                       expected_manifest_hash "certification") in
  let! s := st_get in
  let! verified := st_lift (plan_certification s (cp_items plan)) in
  if negb (String.eqb (cp_manifest_hash verified) (cp_manifest_hash plan))
  then st_raise "ValueError" "certification plan changed before application"
  else if existsb (fun r => existsb (Z.eqb (td_prediction_id r)) (map ci_prediction_id (cp_items plan)))
            (ts_decisions s)
  then st_raise "ValueError" "positive certification refuses to supersede existing temporal decisions"
  else
    let! rows := st_lift (each (certification_row s (cp_manifest_hash plan) actor request_key evaluated_at)
                            (cp_items plan)) in
    let! _ := flush_decisions rows in
    let! s' := st_get in
    st_ret (cp_manifest_hash plan, Z.of_nat (length rows), new_ids s s').

Definition quarantine_row (s : TemporalStore) (hash actor request_key : string) (timestamp : datetime)
    (i : TemporalQuarantineItem) : result TemporalDecision :=
  r ← validate_quarantine_item s i;
  meta ← manifest_metadata (qi_metadata i) request_key hash;
  Ok (decision_row (qi_prediction_id i) (latest_sequence (qi_prediction_id i) (ts_decisions s) + 1) r.2
        (unique (tv_reason_codes r.2 ++ [qi_incident_reason i]))
        (qi_decision_at i) (qi_entry_session i) r.1 timestamp actor meta).

Definition apply_quarantine (plan : TemporalQuarantinePlan) (expected_manifest_hash actor request_key : string)
    (approve_write : bool) (evaluated_at : datetime) : ST TemporalStore (string * Z * list Z) :=
  let! _ := st_lift (reviewed approve_write actor request_key (qp_manifest_hash plan)
                       expected_manifest_hash "quarantine") in
  let! s := st_get in
  let! verified := st_lift (plan_quarantine s (qp_items plan)) in
  if negb (String.eqb (qp_manifest_hash verified) (qp_manifest_hash plan))
  then st_raise "ValueError" "quarantine plan changed before application"
  else
    let! rows := st_lift (each (quarantine_row s (qp_manifest_hash plan) actor request_key evaluated_at)
                            (qp_items plan)) in
    let! _ := flush_decisions rows in
    let! s' := st_get in
    st_ret (qp_manifest_hash plan, Z.of_nat (length rows), new_ids s s').

End Service.

(** ** [temporal_eligibility.py] *)

(** [load_current_temporal_decisions]: the event with the greatest sequence among those with an
    identifier up to [max_id]. *)
Definition up_to (max_id : option Z) (rows : list TemporalDecision) : list TemporalDecision :=
  match max_id with Some i => List.filter (fun r => td_id r <=? i) rows | None => rows end.
Definition load_current_temporal_decisions (max_id : option Z) (rows : list TemporalDecision) (pid : Z)
    : option TemporalDecision :=
  let bounded := up_to max_id rows in
  if existsb (fun r => td_prediction_id r =? pid) bounded
  then List.find (fun r => (td_prediction_id r =? pid) && (td_validation_sequence r =? latest_sequence pid bounded)) rows
  else None.

Section Eligibility.
Context (ny_utc : datetime -> datetime).

Definition lineage_of (p : TemporalPrediction) : dict :=
  match tp_lineage_json p with Some d => d | None => [] end.
Definition flag_true (v : pyval) : bool := match v with VBool b => b | _ => false end.

(** [prediction_temporally_eligible]. *)
Definition explicit_eligible (d : TemporalDecision) : bool :=
  String.eqb (td_status d) VALID && td_evidence_eligible d && td_entry_timing_valid d
  && td_source_cutoff_valid d && is_true (td_semantic_input_time_valid d)
  && (td_decision_at d <? td_entry_open_at d).

Definition prediction_temporally_eligible (p : TemporalPrediction) (current : option TemporalDecision)
    : result bool :=
  match current with
  | Some d => Ok (explicit_eligible d)
  | None =>
      let reference := match tp_decision_at p with Some t => Some t | None => tp_captured_at p end in
      session ← match tp_planned_entry_session p with
                | Some day => us_market_session CALENDAR_VERSION day
                | None => Ok None
                end;
      let lineage := lineage_of p in
      let validated := flag_true (dget lineage "point_in_time_validated") in
      match reference with
      | None => Ok validated
      | Some reference =>
          semantic ← get_item (py_or (dget lineage "point_in_time_validation") (VDict [])) "semantic_input_time";
          if tp_persisted p
             && (match tp_decision_at p with None => true | Some _ => false end
                 || negb (py_eq semantic (VStr "VALID")))
          then Ok false
          else Ok (match session with
                   | Some s => (reference <? ny_utc (open_at s))
                               && (tp_source_data_cutoff_at p <=? reference) && validated
                   | None => false
                   end)
      end
  end.

(** *** The SQL predicate

    PostgreSQL: [to_timestamp(text, format)] reads a wall clock in the time zone of the database
    session and returns an instant; [timezone(zone, instant)] is the wall clock of that zone,
    without time zone; comparing it with an instant reads it in the session's zone again.
    [session_utc] is the instant of a wall clock of the session's zone. *)
Context (ny_wall session_utc : datetime -> datetime).

Definition to_timestamp (wall : datetime) : datetime := session_utc wall.
Definition timezone_new_york (instant : datetime) : datetime := ny_wall instant.
Definition entry_open (day : date) : datetime := timezone_new_york (to_timestamp (dt_combine day 9 30)).

(** [CAST(... AS BOOLEAN)] of a JSON field: null, or a boolean by the text PostgreSQL accepts. *)
Definition true_texts : list string := ["t"; "tr"; "tru"; "true"; "y"; "ye"; "yes"; "on"; "1"].
Definition false_texts : list string := ["f"; "fa"; "fal"; "fals"; "false"; "n"; "no"; "of"; "off"; "0"].
Definition text_boolean (s : string) : result (option bool) :=
  let s := casefold (strip s) in
  if smem s true_texts then Ok (Some true) else if smem s false_texts then Ok (Some false)
  else raise "DataError" "invalid input syntax for type boolean".
Definition as_boolean (v : pyval) : result (option bool) :=
  match v with
  | VNone => Ok None
  | VBool b => Ok (Some b)
  | VStr s => text_boolean s
  | VInt n => text_boolean (str_of_Z n)
  | _ => raise "DataError" "invalid input syntax for type boolean"
  end.

(** The row with the greatest identifier. *)
Definition latest_by_id (rows : list TemporalDecision) (pid : Z) : option TemporalDecision :=
  last (List.filter (fun r => td_prediction_id r =? pid) rows).

Definition temporal_eligibility_sql (rows : list TemporalDecision) (p : TemporalPrediction) : result bool :=
  match latest_by_id rows (tp_id p) with
  | Some d =>
      Ok (String.eqb (td_status d) VALID && td_evidence_eligible d && td_entry_timing_valid d
          && td_source_cutoff_valid d && is_true (td_semantic_input_time_valid d))
  | None =>
      let lineage := lineage_of p in
      validated ← as_boolean (dget lineage "point_in_time_validated");
      Ok (match tp_decision_at p, tp_planned_entry_session p with
          | Some reference, Some day =>
              (reference <? session_utc (entry_open day))
              && (tp_source_data_cutoff_at p <=? reference) && is_true validated
              && py_eq (dget (as_dict (dget lineage "point_in_time_validation")) "semantic_input_time")
                       (VStr "VALID")
          | _, _ => false
          end)
  end.

End Eligibility.
End Temporal.

(** * Training eligibility: [training_eligibility.py]

    Whether a captured prediction may be used for training, and the record of the decision in
    its lineage.  The rollback of the session of an attached prediction is left out. *)
From Stdlib Require Import ZArith Lia List String Bool.
From stdpp Require Import base list strings.
From S2P Require Import Prelude PyDate PyValue Signals ScoreWarnings RankingRules.
Local Open Scope string_scope.
Local Open Scope list_scope.
Local Open Scope Z_scope.
Import Temporal.

Module Training.

Definition RECONSTRUCTED_HISTORY : string := "RECONSTRUCTED_HISTORY".
Definition POINT_IN_TIME_NOT_VALIDATED : string := "POINT_IN_TIME_NOT_VALIDATED".
Definition PREDICTION_NOT_ELIGIBLE : string := "PREDICTION_NOT_ELIGIBLE".
Definition DEPENDENT_EPISODE : string := "DEPENDENT_EPISODE".
Definition SOURCE_QUALITY_BLOCKED : string := "SOURCE_QUALITY_BLOCKED".
Definition LEGACY_ELIGIBILITY_UNCLASSIFIED : string := "LEGACY_ELIGIBILITY_UNCLASSIFIED".

Definition BLOCKING_SOURCE_QUALITY_FLAGS : list string :=
  ["exclude_from_production_training"; "untrusted_point_in_time_source"; "reconstructed_history";
   "point_in_time_invalid"; "quality_blocking"].

Record TrainingEligibilityDecision := mkTrainingEligibilityDecision {
  te_capture_training_candidate : bool;
  te_evidence_training_eligible : bool;
  te_rejection_reasons : list string;
}.

Section Training.
Context `{Text : PyText}.

Definition when (cond : bool) (reason : string) : list string := if cond then [reason] else [].

Definition evaluate_capture (prediction : TemporalPrediction) (explicit_legacy_override : option bool)
    : TrainingEligibilityDecision :=
  let lineage := lineage_of prediction in
  let source_flags := map py_str (as_list (get_or lineage "source_quality_flags" (VList []))) in
  let reasons :=
    when (has (tp_reconstruction_method prediction)) RECONSTRUCTED_HISTORY ++
    when (negb (flag_true (dget lineage "point_in_time_validated"))) POINT_IN_TIME_NOT_VALIDATED ++
    when (negb (String.eqb (tp_eligibility_status prediction) "ELIGIBLE")) PREDICTION_NOT_ELIGIBLE ++
    when (existsb (fun f => smem f BLOCKING_SOURCE_QUALITY_FLAGS) source_flags) SOURCE_QUALITY_BLOCKED ++
    when (match explicit_legacy_override with Some false => true | _ => false end) SOURCE_QUALITY_BLOCKED in
  let dependent := truthy (dget lineage "dependent_episode") in
  let capture_reasons := unique reasons in
  let evidence_reasons := capture_reasons ++ when dependent DEPENDENT_EPISODE in
  let capture_candidate := negb (nonempty capture_reasons) in
  mkTrainingEligibilityDecision capture_candidate (capture_candidate && negb dependent)
    (unique evidence_reasons).

Definition with_lineage (d : dict) (p : TemporalPrediction) : TemporalPrediction :=
  mkTemporalPrediction (tp_id p) (tp_source_data_cutoff_at p) (tp_decision_at p) (tp_captured_at p)
    (tp_planned_entry_session p) (tp_eligibility_status p) (tp_reconstruction_method p) (Some d)
    (tp_persisted p).

(** The keys that the decision is written to. *)
Definition training_metadata (d : TrainingEligibilityDecision) : dict :=
  [("training_eligibility_policy_version", VStr "owpe-training-eligibility-1.0.0");
   ("capture_training_candidate", VBool (te_capture_training_candidate d));
   ("evidence_training_eligible", VBool (te_evidence_training_eligible d));
   ("production_training_allowed", VBool (te_evidence_training_eligible d));
   ("training_rejection_reasons", VList (map VStr (te_rejection_reasons d)))].

Definition persist_capture_decision (prediction : TemporalPrediction) (transient : bool)
    (explicit_legacy_override : option bool) : result (TrainingEligibilityDecision * TemporalPrediction) :=
  if negb transient then ValueError "MUTATION_WINNER_CAPTURE_TRAINING_METADATA_CREATION_ONLY"
  else
    let decision := evaluate_capture prediction explicit_legacy_override in
    Ok (decision, with_lineage (dict_update (lineage_of prediction) (training_metadata decision)) prediction).

Definition persisted_capture_decision (prediction : TemporalPrediction) : TrainingEligibilityDecision :=
  let lineage := lineage_of prediction in
  if negb (has (dict_find "capture_training_candidate" lineage)) then
    mkTrainingEligibilityDecision false false [LEGACY_ELIGIBILITY_UNCLASSIFIED]
  else
    mkTrainingEligibilityDecision (flag_true (dget lineage "capture_training_candidate"))
      (flag_true (dget lineage "evidence_training_eligible"))
      (map py_str (as_list (get_or lineage "training_rejection_reasons" (VList [])))).

(** ** Theorems *)


(** What the metadata of a decision leaves of a lineage. *)
Lemma metadata_find lineage d k : dict_find k (dict_update lineage (training_metadata d))
  = match dict_find k (rev (training_metadata d)) with Some v => Some v | None => dict_find k lineage end.
Proof.
  unfold dict_update, training_metadata. cbn [fold_left rev app fst snd].
  rewrite !dict_find_set. cbn [dict_find].
  repeat match goal with |- context [String.eqb k ?s] => destruct (String.eqb k s) end; done.
Qed.

Lemma texts_back l : map py_str (map VStr l) = l.
Proof. induction l as [|x l IH]; [done|]. simpl. by rewrite IH. Qed.

(** The decision that a capture persists is the decision that is read back from the stored
    prediction, and evaluating the stored prediction again gives the same decision. *)
Theorem capture_decision_roundtrip p override d p' :
  persist_capture_decision p true override = Ok (d, p') ->
  persisted_capture_decision p' = d /\ evaluate_capture p' override = d.
Proof.
  unfold persist_capture_decision. cbn [negb]. intros E. apply Ok_inj in E.
  pose proof (f_equal fst E) as E1. pose proof (f_equal snd E) as E2. cbn [fst snd] in E1, E2. subst d p'. clear E.
  set (d := evaluate_capture p override). split.
  - unfold persisted_capture_decision. cbn [lineage_of with_lineage tp_lineage_json]. unfold dget, get_or.
    rewrite !metadata_find. cbn [training_metadata rev app dict_find String.eqb Ascii.eqb Bool.eqb has negb
      flag_true as_list]. rewrite texts_back. by destruct d.
  - subst d. unfold evaluate_capture at 1. cbn [lineage_of with_lineage tp_lineage_json tp_reconstruction_method
      tp_eligibility_status]. unfold dget, get_or. rewrite !metadata_find.
    cbn [training_metadata rev app dict_find String.eqb Ascii.eqb Bool.eqb]. done.
Qed.

Lemma unique_nil l : unique l = [] <-> l = [].
Proof.
  split; [|by intros ->]. intros H. destruct l as [|x l]; [done|].
  assert (Hx : In x (unique (x :: l))) by (apply unique_In; by left). by rewrite H in Hx.
Qed.

(** A prediction is eligible as training evidence exactly when it has no rejection reason: it
    is a native, point-in-time validated and eligible capture of an independent episode, from
    sources without a blocking flag, and no override refuses it. *)
Theorem training_evidence_needs_every_gate p override :
  let d := evaluate_capture p override in
  (te_evidence_training_eligible d = true <-> te_rejection_reasons d = []) /\
  (te_evidence_training_eligible d = true ->
     te_capture_training_candidate d = true /\ tp_reconstruction_method p = None /\
     dget (lineage_of p) "point_in_time_validated" = VBool true /\ tp_eligibility_status p = "ELIGIBLE" /\
     truthy (dget (lineage_of p) "dependent_episode") = false /\ override <> Some false /\
     forall f, In f BLOCKING_SOURCE_QUALITY_FLAGS ->
       ~ In (VStr f) (as_list (get_or (lineage_of p) "source_quality_flags" (VList [])))).
Proof.
  cbv zeta. unfold evaluate_capture. cbn [te_evidence_training_eligible te_rejection_reasons te_capture_training_candidate].
  set (reasons := when _ _ ++ _). set (dep := truthy _). rewrite unique_nil.
  assert (Hc : negb (nonempty (unique reasons)) = true <-> reasons = []).
  { rewrite <- (unique_nil reasons). destruct (unique reasons); by split. }
  split.
  - rewrite andb_true_iff, Hc. split.
    + intros [-> H]. destruct dep; [done|]. done.
    + intros H. apply app_eq_nil in H as [H1 H2]. apply (proj1 (unique_nil _)) in H1. split; [done|].
      unfold when in H2. by destruct dep.
  - rewrite andb_true_iff. intros [H1 H2]. split; [done|]. apply Hc in H1. subst reasons.
    apply app_eq_nil in H1 as [G1 H1]. apply app_eq_nil in H1 as [G2 H1]. apply app_eq_nil in H1 as [G3 H1].
    apply app_eq_nil in H1 as [G4 G5]. unfold when in *. split_and!.
    + by destruct (tp_reconstruction_method p).
    + unfold flag_true in G2. by destruct (dget (lineage_of p) "point_in_time_validated") as [|[]| | | | | |].
    + destruct (String.eqb_spec (tp_eligibility_status p) "ELIGIBLE"); done.
    + by destruct dep.
    + intros ->. done.
    + intros f Hf Hin. destruct (existsb _ _) eqn:Ex; [done|]. apply not_true_iff_false in Ex. apply Ex, existsb_exists.
      exists f. split; [|by apply smem_In]. apply in_map_iff. by exists (VStr f).
Qed.
End Training.
End Training.
