(* ===== verification/TemporalFacts.v ===== *)
(** * Temporal validity: theorems

    The ledger of validity decisions only grows, numbers the decisions of a prediction without
    gaps and records what the contract says; an eligible prediction was decided before its entry
    and after its sources; the SQL predicate and the Python one agree when the database session
    runs in New York time. *)
From Stdlib Require Import ZArith Lia List String Bool.
From stdpp Require Import base gmap list strings.
From S2P Require Import Prelude PyDate PyFloat PyValue Calendar CalendarFacts Readiness Canonical Signals.
From S2P Require Import ScoreWarnings TemporalValidity.
Local Open Scope string_scope.
Local Open Scope list_scope.
Local Open Scope Z_scope.
Local Open Scope st_scope.
Import Temporal.
#[local] Arguments us_market_session : simpl never.

(** ** The contract *)

Lemma validate_spec decision open cutoff semantic r :
  validate_next_open_timing decision (Aware open) (Some (Aware cutoff)) semantic = Ok r ->
  exists t, decision = Aware t /\
    tv_entry_timing_valid r = (t <? open) /\ tv_source_cutoff_valid r = (cutoff <=? t) /\
    tv_semantic_input_time_valid r = semantic /\
    tv_evidence_eligible r = (t <? open) && (cutoff <=? t) && is_true semantic /\
    String.eqb (tv_status r) VALID = tv_evidence_eligible r.
Proof.
  unfold validate_next_open_timing. intros E. destruct decision as [w|t]; [done|].
  cbn [_aware_utc mbind result_bind] in E. apply Ok_inj in E. subst r. exists t. cbn.
  split_and!; try done. by destruct (t <? open), (cutoff <=? t), (is_true semantic).
Qed.

(** ** Sequences *)

Lemma find_app {A} (f : A -> bool) l k :
  List.find f (l ++ k) = match List.find f l with Some x => Some x | None => List.find f k end.
Proof. induction l as [|x l IH]; [done|]. simpl. by destruct (f x). Qed.

Definition of_prediction (pid : Z) (r : TemporalDecision) : bool := td_prediction_id r =? pid.
Definition count_of (pid : Z) (rows : list TemporalDecision) : Z :=
  Z.of_nat (length (List.filter (of_prediction pid) rows)).

Lemma count_snoc pid rows r :
  count_of pid (rows ++ [r]) = count_of pid rows + (if td_prediction_id r =? pid then 1 else 0).
Proof.
  unfold count_of. rewrite List.filter_app, length_app. simpl. unfold of_prediction at 2.
  destruct (td_prediction_id r =? pid); simpl; lia.
Qed.

Lemma latest_snoc pid rows r : latest_sequence pid (rows ++ [r])
  = if td_prediction_id r =? pid then Z.max (latest_sequence pid rows) (td_validation_sequence r)
    else latest_sequence pid rows.
Proof. unfold latest_sequence. by rewrite fold_left_app. Qed.

Lemma find_none_iff {A} (f : A -> bool) l : (forall x, In x l -> f x = false) -> List.find f l = None.
Proof.
  induction l as [|x l IH]; intros H; [done|]. simpl. rewrite (H x) by by left. apply IH. intros y Hy. apply H. by right.
Qed.

Section Ledger.
Context `{JT : JsonText} (ny_utc : datetime -> datetime).

(** ** The invariant *)

(** A row says what the contract says about its decision, its session and its prediction. *)
Record consistent (P : gmap Z TemporalPrediction) (r : TemporalDecision) : Prop := {
  rc_open : exists m, us_market_session CALENDAR_VERSION (td_entry_session r) = Ok (Some m) /\
    td_entry_open_at r = ny_utc (open_at m);
  rc_prediction : exists p, P !! td_prediction_id r = Some p /\
    td_source_cutoff_valid r = (tp_source_data_cutoff_at p <=? td_decision_at r);
  rc_timing : td_entry_timing_valid r = (td_decision_at r <? td_entry_open_at r);
  rc_eligible : td_evidence_eligible r
    = td_entry_timing_valid r && td_source_cutoff_valid r && is_true (td_semantic_input_time_valid r);
  rc_status : String.eqb (td_status r) VALID = td_evidence_eligible r;
}.

(** Rows are appended with fresh ids and the next sequence of their prediction. *)
Inductive ledger (P : gmap Z TemporalPrediction) : list TemporalDecision -> Z -> Prop :=
  | ledger_nil next : ledger P [] next
  | ledger_snoc rows next r : ledger P rows next -> td_id r = next -> consistent P r ->
      td_validation_sequence r = count_of (td_prediction_id r) rows + 1 ->
      ledger P (rows ++ [r]) (next + 1).

Definition temporal_ledger (s : TemporalStore) : Prop :=
  ledger (ts_predictions s) (ts_decisions s) (ts_next_id s).

Lemma ledger_latest P rows next pid : ledger P rows next -> latest_sequence pid rows = count_of pid rows.
Proof.
  induction 1 as [|rows next r H IH Hid Hc Hs]; [done|]. rewrite latest_snoc, count_snoc, IH.
  destruct (Z.eqb_spec (td_prediction_id r) pid) as [<-|]; [|lia]. rewrite Hs. unfold count_of. lia.
Qed.

Lemma ledger_rows P rows next r : ledger P rows next -> In r rows -> consistent P r.
Proof.
  induction 1 as [|rows next r' H IH Hid Hc Hs]; [done|]. intros [Hr|[<-|[]]]%in_app_or; [by apply IH|done].
Qed.

Lemma ledger_sequence_le P rows next r : ledger P rows next -> In r rows ->
  1 <= td_validation_sequence r <= count_of (td_prediction_id r) rows.
Proof.
  induction 1 as [|rows next r' H IH Hid Hc Hs]; [done|]. rewrite count_snoc.
  intros [Hr|[<-|[]]]%in_app_or.
  - specialize (IH Hr). destruct (td_prediction_id r' =? td_prediction_id r); lia.
  - rewrite Z.eqb_refl. unfold count_of in *. lia.
Qed.

Lemma current_unbounded rows pid : load_current_temporal_decisions None rows pid =
  List.find (fun r => (td_prediction_id r =? pid) && (td_validation_sequence r =? latest_sequence pid rows)) rows.
Proof.
  unfold load_current_temporal_decisions, up_to. destruct (existsb _ rows) eqn:E; [done|].
  symmetry. apply find_none_iff. intros x Hx. destruct (td_prediction_id x =? pid) eqn:Ex; [|done].
  assert (existsb (fun r => td_prediction_id r =? pid) rows = true); [|congruence]. apply existsb_exists. by exists x.
Qed.

(** The last row of a prediction is the one with its greatest sequence. *)
Lemma current_is_last P rows next pid : ledger P rows next ->
  load_current_temporal_decisions None rows pid = latest_by_id rows pid.
Proof.
  intros L. rewrite current_unbounded. unfold latest_by_id. rewrite (ledger_latest _ _ _ pid L).
  induction L as [|rows next r H IH Hid Hc Hs]; [done|].
  rewrite List.filter_app, count_snoc. simpl. destruct (Z.eqb_spec (td_prediction_id r) pid) as [<-|Hne].
  - rewrite last_snoc. rewrite find_app.
    match goal with |- context [List.find ?f rows] => assert (List.find f rows = None) as -> end.
    { apply find_none_iff. intros x Hx. apply (ledger_sequence_le _ _ _ _ H) in Hx.
      destruct (Z.eqb_spec (td_prediction_id x) (td_prediction_id r)) as [E|]; [|done]. rewrite E in Hx. simpl. lia. }
    simpl. by rewrite Z.eqb_refl, Hs, Z.eqb_refl.
  - rewrite app_nil_r, Z.add_0_r, find_app, IH.
    destruct (last (List.filter _ rows)); [done|]. simpl.
    destruct (Z.eqb_spec (td_prediction_id r) pid); [done|]. done.
Qed.

(** ** Writing rows *)

(** A row that may be appended: the next sequence of its prediction and consistent. *)
Definition fresh_row (s : TemporalStore) (row : TemporalDecision) : Prop :=
  consistent (ts_predictions s) row /\
  td_validation_sequence row = latest_sequence (td_prediction_id row) (ts_decisions s) + 1.

Lemma insert_one s row s' : temporal_ledger s -> fresh_row s row -> insert_decision s row = Ok s' ->
  temporal_ledger s' /\ ts_predictions s' = ts_predictions s /\
  ts_decisions s' = ts_decisions s ++ [with_id (ts_next_id s) row].
Proof.
  intros L [C Hs]. unfold insert_decision. destruct (ts_predictions s !! td_prediction_id row); [|done].
  destruct (sequence_taken _ _); [done|]. destruct (negb _); [done|]. intros E. apply Ok_inj in E. subst s'.
  split_and!; [|done..]. unfold temporal_ledger. cbn. constructor; [done|done| |].
  - destruct C. by split.
  - cbn. rewrite Hs. by rewrite (ledger_latest _ _ _ _ L).
Qed.

Lemma insert_rows rows : forall s s', temporal_ledger s -> Forall (fresh_row s) rows ->
  NoDup (map td_prediction_id rows) -> insert_decisions s rows = Ok s' ->
  temporal_ledger s' /\ ts_predictions s' = ts_predictions s /\
  exists new, ts_decisions s' = ts_decisions s ++ new /\
    Forall2 (fun row r => exists i, r = with_id i row) rows new.
Proof.
  induction rows as [|row rows IH]; intros s s' L HF HD E.
  { apply Ok_inj in E. subst s'. split_and!; [done|done|]. exists []. by rewrite app_nil_r. }
  cbn [insert_decisions] in E. unbind E as s1 H1. apply Forall_cons in HF as [Hrow HF].
  apply NoDup_cons in HD as [Hnew HD]. destruct (insert_one _ _ _ L Hrow H1) as (L1 & P1 & D1).
  destruct (IH s1 s' L1) as (L' & P' & new & D' & F'); [|done|done|].
  { apply List.Forall_forall. intros r Hr. rewrite List.Forall_forall in HF. destruct (HF r Hr) as [C Hs].
    split; [by rewrite P1|]. rewrite Hs, D1, latest_snoc. cbn.
    destruct (Z.eqb_spec (td_prediction_id row) (td_prediction_id r)) as [Eid|]; [|done].
    destruct Hnew. rewrite Eid. apply list_elem_of_In. by apply (in_map td_prediction_id). }
  split_and!; [done|by rewrite P'|]. exists (with_id (ts_next_id s) row :: new). split.
  - by rewrite D', D1, <- app_assoc.
  - constructor; [by eexists|done].
Qed.

Lemma flush_spec rows s r s' : temporal_ledger s -> Forall (fresh_row s) rows ->
  NoDup (map td_prediction_id rows) -> flush_decisions rows s = (r, s') ->
  (r = Ok tt /\ temporal_ledger s' /\ ts_predictions s' = ts_predictions s /\
   exists new, ts_decisions s' = ts_decisions s ++ new /\
     Forall2 (fun row r => exists i, r = with_id i row) rows new) \/
  ((exists e, r = Raise e) /\ s' = s).
Proof.
  intros L HF HD. unfold flush_decisions. destruct (insert_decisions s rows) as [s1|e] eqn:E; intros [= <- <-].
  - left. split; [done|]. by apply insert_rows.
  - right. split; [by eexists|done].
Qed.

(** ** The rows that the services build *)

Lemma each_Forall2 {A B} (f : A -> result B) xs : forall ys, each f xs = Ok ys ->
  Forall2 (fun x y => f x = Ok y) xs ys.
Proof.
  induction xs as [|x xs IH]; intros ys E; cbn [each] in E; [apply Ok_inj in E; subst; constructor|].
  unbind E as y Hy. unbind E as ys' Hys. apply Ok_inj in E. subst ys. constructor; [done|by apply IH].
Qed.

(** A row made from a validated entry is consistent. *)
Lemma validated_row_consistent P missing pid sequence session decision p semantic o r reasons at_ who meta :
  P !! pid = Some p ->
  validate_entry ny_utc missing session decision (tp_source_data_cutoff_at p) semantic = Ok (o, r) ->
  consistent P (decision_row pid sequence r reasons decision session o at_ who meta).
Proof.
  intros Hp. unfold validate_entry. intros E. unbind E as m Hm. destruct m as [m|]; [|done].
  cbv zeta in E. unbind E as v Hv. apply Ok_inj in E. injection E as <- <-.
  destruct (validate_spec _ _ _ _ _ Hv) as (t & -> & H1 & H2 & H3 & H4 & H5).
  split; cbn.
  - by exists m.
  - exists p. split; [done|]. by rewrite H2.
  - by rewrite H1.
  - by rewrite H4, H1, H2, H3.
  - done.
Qed.

Lemma nodup_Z_NoDup l : nodup_Z l = true -> NoDup l.
Proof.
  induction l as [|x l IH]; intros H; [constructor|]. cbn [nodup_Z] in H. apply andb_true_iff in H as [H1 H2].
  constructor; [|by apply IH]. intros Hin. apply negb_true_iff in H1. apply list_elem_of_In in Hin.
  assert (existsb (Z.eqb x) l = true); [|congruence]. apply existsb_exists. exists x. by rewrite Z.eqb_refl.
Qed.

Lemma subjects_distinct {A} kind s (f : A -> Z) (leb : A -> A -> bool) items u :
  manifest_subjects kind s (map f (sort_by leb items)) = Ok u -> NoDup (map f items).
Proof.
  unfold manifest_subjects. intros E. unbind E as v Hv. destruct (nodup_Z _) eqn:En; [|done].
  apply nodup_Z_NoDup in En. by rewrite <- (Permutation_map f (sort_by_Permutation leb items)).
Qed.

Lemma row_pids {A} (f : A -> Z) (g : A -> result TemporalDecision) items rows :
  (forall i row, g i = Ok row -> td_prediction_id row = f i) ->
  Forall2 (fun i row => g i = Ok row) items rows -> map td_prediction_id rows = map f items.
Proof. intros Hg. induction 1 as [|i row items rows H _ IH]; [done|]. simpl. by rewrite IH, (Hg _ _ H). Qed.

Lemma quarantine_row_fresh s hash actor key at_ i row :
  quarantine_row ny_utc s hash actor key at_ i = Ok row ->
  fresh_row s row /\ td_prediction_id row = qi_prediction_id i.
Proof.
  unfold quarantine_row. intros E. unbind E as v Hv. unbind E as m Hm. apply Ok_inj in E. subst row.
  split; [|done]. split; [|done]. revert Hv. unfold validate_quarantine_item. intros Hv. unbind Hv as p Hp.
  destruct v as [o r]. eapply validated_row_consistent; [|exact Hv].
  unfold prediction_of in Hp. destruct (ts_predictions s !! _); [|done]. by apply Ok_inj in Hp; subst.
Qed.

Lemma certify_Ok refusal s i v : certify_item ny_utc refusal s i = Ok v ->
  tv_evidence_eligible v.2 = true /\ exists p missing, ts_predictions s !! ci_prediction_id i = Some p /\
    validate_entry ny_utc missing (ci_entry_session i) (ci_decision_at i) (tp_source_data_cutoff_at p)
      (Some (ci_semantic_input_time_valid i)) = Ok v.
Proof.
  unfold certify_item. intros E. unbind E as p Hp. unbind E as r Hr. destruct (tv_evidence_eligible r.2) eqn:Ee; [|done].
  apply Ok_inj in E. subst v. split; [done|]. exists p. eexists. split; [|exact Hr].
  unfold prediction_of in Hp. destruct (ts_predictions s !! _); [|done]. by apply Ok_inj in Hp; subst.
Qed.

Lemma certify_row_pid s hash actor key at_ i row : certification_row ny_utc s hash actor key at_ i = Ok row ->
  td_prediction_id row = ci_prediction_id i.
Proof. unfold certification_row. intros E. unbind E as v Hv. unbind E as m Hm. apply Ok_inj in E. by subst row. Qed.

Lemma certification_row_fresh s hash actor key at_ i row :
  (forall r, In r (ts_decisions s) -> td_prediction_id r <> ci_prediction_id i) ->
  temporal_ledger s -> certification_row ny_utc s hash actor key at_ i = Ok row ->
  fresh_row s row /\ td_prediction_id row = ci_prediction_id i /\ td_evidence_eligible row = true.
Proof.
  intros Hno L. unfold certification_row. intros E. unbind E as v Hv. unbind E as m Hm. apply Ok_inj in E. subst row.
  apply certify_Ok in Hv as (He & p & missing & Hp & Hv). split_and!; [|done|done]. split.
  - destruct v as [o r]. by eapply validated_row_consistent.
  - cbn. rewrite (ledger_latest _ _ _ _ L). unfold count_of.
    assert (List.filter (of_prediction (ci_prediction_id i)) (ts_decisions s) = []) as ->; [|done].
    destruct (List.filter _ _) as [|x l] eqn:E; [done|]. exfalso.
    assert (Hx : In x (List.filter (of_prediction (ci_prediction_id i)) (ts_decisions s))) by (rewrite E; by left).
    apply List.filter_In in Hx as [Hx Ex]. apply Z.eqb_eq in Ex. by apply (Hno x).
Qed.

(** ** The operations *)

Inductive temporal_op :=
  | OpRecord (pid : Z) (decision_at : pydatetime) (entry_session : date) (semantic : option bool)
      (who : string) (at_ : datetime) (metadata : option dict)
  | OpCertify (plan : TemporalCertificationPlan) (expected actor key : string) (approve : bool) (at_ : datetime)
  | OpQuarantine (plan : TemporalQuarantinePlan) (expected actor key : string) (approve : bool) (at_ : datetime).

Definition run_op (op : temporal_op) : ST TemporalStore unit :=
  match op with
  | OpRecord pid decision session semantic who at_ meta =>
      let! s := st_get in
      match ts_predictions s !! pid with
      | None => st_raise "KeyError" "prediction"
      | Some p => let! _ := record ny_utc p decision session semantic who at_ meta in st_ret tt
      end
  | OpCertify plan expected actor key approve at_ =>
      let! _ := apply_certification ny_utc plan expected actor key approve at_ in st_ret tt
  | OpQuarantine plan expected actor key approve at_ =>
      let! _ := apply_quarantine ny_utc plan expected actor key approve at_ in st_ret tt
  end.

(** What an application of a manifest wrote: one row per item, in its order. *)
Definition applied {A} (g : TemporalStore -> A -> result TemporalDecision) (items : list A)
    (s s' : TemporalStore) : Prop :=
  temporal_ledger s' /\ ts_predictions s' = ts_predictions s /\
  exists rows new, Forall2 (fun i row => g s i = Ok row) items rows /\
    Forall2 (fun row r => exists i, r = with_id i row) rows new /\
    ts_decisions s' = ts_decisions s ++ new.

Lemma certification_outcome plan expected actor key approve at_ s v s' : temporal_ledger s ->
  apply_certification ny_utc plan expected actor key approve at_ s = (v, s') ->
  (is_ok v = true /\ approve = true /\ cp_manifest_hash plan = expected /\
   NoDup (map ci_prediction_id (cp_items plan)) /\
   (forall r i, In r (ts_decisions s) -> In i (cp_items plan) -> td_prediction_id r <> ci_prediction_id i) /\
   applied (fun s => certification_row ny_utc s (cp_manifest_hash plan) actor key at_) (cp_items plan) s s') \/
  (is_ok v = false /\ s' = s).
Proof.
  intros L. unfold apply_certification, st_bind, st_lift, st_get.
  destruct (reviewed _ _ _ _ _ _) as [u|e] eqn:Er; [|intros [= <- <-]; by right].
  destruct (plan_certification ny_utc s (cp_items plan)) as [verified|e] eqn:Ep; [|intros [= <- <-]; by right].
  destruct (negb _); [intros [= <- <-]; by right|].
  destruct (existsb _ (ts_decisions s)) eqn:Ex; [intros [= <- <-]; by right|].
  destruct (each _ (cp_items plan)) as [rows|e] eqn:Ee; [|intros [= <- <-]; by right].
  assert (HD : NoDup (map ci_prediction_id (cp_items plan))).
  { unfold plan_certification in Ep. cbv zeta in Ep. unbind Ep as w Hw. by eapply subjects_distinct. }
  assert (Hno : forall r i, In r (ts_decisions s) -> In i (cp_items plan) -> td_prediction_id r <> ci_prediction_id i).
  { intros r i Hr Hi E. apply not_true_iff_false in Ex. apply Ex, existsb_exists. exists r. split; [done|].
    apply existsb_exists. exists (ci_prediction_id i). split; [by apply in_map|]. by apply Z.eqb_eq. }
  apply each_Forall2 in Ee as HF. intros E.
  assert (Hrows : Forall (fresh_row s) rows /\ map td_prediction_id rows = map ci_prediction_id (cp_items plan)).
  { clear -HF Hno L. induction HF as [|i row items rows H _ IH]; [by split; [constructor|]|].
    destruct IH as [IH1 IH2]; [intros r j Hr Hj; apply Hno; [done|by right]|].
    apply certification_row_fresh in H as (H1 & H2 & _); [|intros r Hr; apply Hno; [done|by left]|done].
    split; [by constructor|]. simpl. by rewrite H2, IH2. }
  destruct Hrows as [Hfresh Hpids].
  destruct (flush_decisions rows s) as [f s1] eqn:Ef.
  destruct (flush_spec rows s f s1 L Hfresh) as [(-> & L' & P' & new & D' & F')|[[e ->] ->]];
    [by rewrite Hpids|done| |]; injection E as <- <-; [left|by right].
  split_and!; [done| | |done|done|].
  - unfold reviewed in Er. by destruct approve.
  - unfold reviewed in Er. destruct (negb approve); [done|]. destruct (_ || _); [done|].
    destruct (String.eqb_spec (cp_manifest_hash plan) expected); done.
  - split_and!; [done|done|]. by exists rows, new.
Qed.

Lemma quarantine_outcome plan expected actor key approve at_ s v s' : temporal_ledger s ->
  apply_quarantine ny_utc plan expected actor key approve at_ s = (v, s') ->
  (is_ok v = true /\ approve = true /\ qp_manifest_hash plan = expected /\
   NoDup (map qi_prediction_id (qp_items plan)) /\
   applied (fun s => quarantine_row ny_utc s (qp_manifest_hash plan) actor key at_) (qp_items plan) s s') \/
  (is_ok v = false /\ s' = s).
Proof.
  intros L. unfold apply_quarantine, st_bind, st_lift, st_get.
  destruct (reviewed _ _ _ _ _ _) as [u|e] eqn:Er; [|intros [= <- <-]; by right].
  destruct (plan_quarantine ny_utc s (qp_items plan)) as [verified|e] eqn:Ep; [|intros [= <- <-]; by right].
  destruct (negb _); [intros [= <- <-]; by right|].
  destruct (each _ (qp_items plan)) as [rows|e] eqn:Ee; [|intros [= <- <-]; by right].
  assert (HD : NoDup (map qi_prediction_id (qp_items plan))).
  { unfold plan_quarantine in Ep. cbv zeta in Ep. unbind Ep as w Hw. by eapply subjects_distinct. }
  apply each_Forall2 in Ee as HF. intros E.
  assert (Hpids : map td_prediction_id rows = map qi_prediction_id (qp_items plan)).
  { eapply row_pids; [|exact HF]. intros i row H. by apply quarantine_row_fresh in H as [_ H]. }
  assert (Hfresh : Forall (fresh_row s) rows).
  { clear -HF. induction HF as [|i row items rows H _ IH]; constructor; [|done].
    by apply quarantine_row_fresh in H as [H _]. }
  destruct (flush_decisions rows s) as [f s1] eqn:Ef.
  destruct (flush_spec rows s f s1 L Hfresh) as [(-> & L' & P' & new & D' & F')|[[e ->] ->]];
    [by rewrite Hpids|done| |]; injection E as <- <-; [left|by right].
  split_and!; [done| | |done|].
  - unfold reviewed in Er. by destruct approve.
  - unfold reviewed in Er. destruct (negb approve); [done|]. destruct (_ || _); [done|].
    destruct (String.eqb_spec (qp_manifest_hash plan) expected); done.
  - split_and!; [done|done|]. by exists rows, new.
Qed.

Lemma record_outcome pid p decision session semantic who at_ meta s v s' : temporal_ledger s ->
  ts_predictions s !! pid = Some p -> tp_id p = pid ->
  record ny_utc p decision session semantic who at_ meta s = (v, s') ->
  (is_ok v = true /\ temporal_ledger s' /\ ts_predictions s' = ts_predictions s /\
   exists new, ts_decisions s' = ts_decisions s ++ new) \/ (is_ok v = false /\ s' = s).
Proof.
  intros L Hp Hid. unfold record, st_bind, st_lift, st_get. destruct (us_market_session _ session) as [[m|]|e] eqn:Em;
    [|intros [= <- <-]; by right|intros [= <- <-]; by right].
  destruct (validate_next_open_timing _ _ _ _) as [r|e] eqn:Er; [|intros [= <- <-]; by right].
  destruct (canonicalize_temporal_metadata _) as [md|e] eqn:Ed; [|intros [= <- <-]; by right]. cbv zeta.
  match goal with |- context [flush_decisions [?row] s] => set (row0 := row) end.
  destruct (flush_decisions [row0] s) as [f s1] eqn:Ef.
  assert (Hfresh : fresh_row s row0).
  { split; [|by cbn; rewrite Hid]. subst row0. rewrite Hid. eapply (validated_row_consistent _ ""); [exact Hp|].
    unfold validate_entry. rewrite Em. cbn [mbind result_bind]. cbv zeta. rewrite Er. reflexivity. }
  destruct (flush_spec [row0] s f s1 L) as [(-> & L' & P' & new & D' & F')|[[e ->] ->]];
    [by constructor|by apply NoDup_singleton|done| |]; intros [= <- <-]; [left|by right].
  split_and!; [done|done|done|]. by exists new.
Qed.

(** Predictions are stored under their identifiers. *)
Definition keyed (s : TemporalStore) : Prop :=
  forall pid p, ts_predictions s !! pid = Some p -> tp_id p = pid.

Lemma temporal_ledger_step op s v s' :
  temporal_ledger s -> keyed s -> run_op op s = (v, s') ->
  temporal_ledger s' /\ keyed s' /\ (exists new, ts_decisions s' = ts_decisions s ++ new) /\
  (is_ok v = false -> s' = s).
Proof.
  intros L K. assert (Hsame : temporal_ledger s /\ keyed s /\ (exists new, ts_decisions s = ts_decisions s ++ new) /\
    (is_ok v = false -> s = s)) by (split_and!; try done; exists []; by rewrite app_nil_r).
  destruct op as [pid decision session semantic who at_ meta|plan expected actor key approve at_
                 |plan expected actor key approve at_]; cbn [run_op]; intros E.
  - unfold st_bind at 1, st_get in E. destruct (ts_predictions s !! pid) as [p|] eqn:Hp; [|by injection E as <- <-].
    unfold st_bind in E. destruct (record _ p _ _ _ _ _ _ s) as [w s1] eqn:Ew.
    destruct (record_outcome pid _ _ _ _ _ _ _ _ _ _ L Hp (K _ _ Hp) Ew) as [(Hw & L' & P' & D')|[Hw ->]].
    + destruct w; [|done]. injection E as <- <-. split_and!; try done. intros q t. rewrite P'. apply K.
    + destruct w; [done|]. by injection E as <- <-.
  - unfold st_bind in E. destruct (apply_certification _ _ _ _ _ _ _ s) as [w s1] eqn:Ew.
    destruct (certification_outcome _ _ _ _ _ _ _ _ _ L Ew) as [(Hw & _ & _ & _ & _ & L' & P' & rows & new & _ & _ & D')|[Hw ->]].
    + destruct w; [|done]. injection E as <- <-. split_and!; try done; [|by exists new]. intros q t. rewrite P'. apply K.
    + destruct w; [done|]. by injection E as <- <-.
  - unfold st_bind in E. destruct (apply_quarantine _ _ _ _ _ _ _ s) as [w s1] eqn:Ew.
    destruct (quarantine_outcome _ _ _ _ _ _ _ _ _ L Ew) as [(Hw & _ & _ & _ & L' & P' & rows & new & _ & _ & D')|[Hw ->]].
    + destruct w; [|done]. injection E as <- <-. split_and!; try done; [|by exists new]. intros q t. rewrite P'. apply K.
    + destruct w; [done|]. by injection E as <- <-.
Qed.

(** The store after a sequence of operations, whatever they returned or raised. *)
Definition run_ops (ops : list temporal_op) (s : TemporalStore) : TemporalStore :=
  fold_left (fun s op => (run_op op s).2) ops s.

(** C21: Every sequence of operations keeps the ledger (fresh identifiers, gapless sequences per prediction, rows
    that say what the contract says), only appends to it, leaves the predictions alone, and
    an operation that raises writes nothing. *)
Theorem temporal_ledger_invariant ops : forall s, temporal_ledger s -> keyed s ->
  temporal_ledger (run_ops ops s) /\ keyed (run_ops ops s) /\
  (exists new, ts_decisions (run_ops ops s) = ts_decisions s ++ new) /\
  (forall op, is_ok (run_op op (run_ops ops s)).1 = false -> (run_op op (run_ops ops s)).2 = run_ops ops s).
Proof.
  induction ops as [|op ops IH]; intros s L K.
  - cbn. split_and!; [done|done|exists []; by rewrite app_nil_r|]. intros op H.
    destruct (run_op op s) as [v s'] eqn:E. by eapply temporal_ledger_step.
  - cbn [run_ops fold_left]. destruct (run_op op s) as [v s1] eqn:E.
    destruct (temporal_ledger_step _ _ _ _ L K E) as (L1 & K1 & [new1 D1] & _).
    destruct (IH s1 L1 K1) as (L2 & K2 & [new2 D2] & H). unfold run_ops in *. cbn [snd].
    split_and!; [done|done| |done]. exists (new1 ++ new2). by rewrite D2, D1, app_assoc.
Qed.

(** ** Who is eligible *)

Lemma filter_single rows r : NoDup (map td_prediction_id rows) -> In r rows ->
  List.filter (of_prediction (td_prediction_id r)) rows = [r].
Proof.
  induction rows as [|x rows IH]; intros HD Hr; [done|]. apply NoDup_cons in HD as [Hx HD]. simpl.
  unfold of_prediction at 1. destruct Hr as [->|Hr].
  - rewrite Z.eqb_refl. f_equal. destruct (List.filter _ rows) as [|y l] eqn:E; [done|]. exfalso.
    assert (Hy : In y (List.filter (of_prediction (td_prediction_id r)) rows)) by (rewrite E; by left).
    apply List.filter_In in Hy as [Hy Ey]. apply Z.eqb_eq in Ey. apply Hx. rewrite <- Ey.
    apply list_elem_of_In. by apply (in_map td_prediction_id).
  - destruct (Z.eqb_spec (td_prediction_id x) (td_prediction_id r)) as [E|]; [|by apply IH].
    destruct Hx. rewrite E. apply list_elem_of_In. by apply (in_map td_prediction_id).
Qed.

(** After an application, the current decision of an item's prediction is its row. *)
Lemma applied_current {A} (f : A -> Z) (g : TemporalStore -> A -> result TemporalDecision) items s s' i :
  (forall i row, g s i = Ok row -> td_prediction_id row = f i) -> NoDup (map f items) ->
  applied g items s s' -> In i items ->
  exists row n, g s i = Ok row /\
    load_current_temporal_decisions None (ts_decisions s') (f i) = Some (with_id n row).
Proof.
  intros Hg HD (L' & _ & rows & new & F1 & F2 & D') Hi.
  assert (Hnew : map td_prediction_id new = map f items).
  { rewrite <- (row_pids f (g s) items rows Hg F1). clear -F2.
    induction F2 as [|row r rows new [n ->] _ IH]; [done|]. simpl. by rewrite IH. }
  apply list_elem_of_In, list_elem_of_lookup in Hi as [k Hk].
  destruct (Forall2_lookup_l _ _ _ _ _ F1 Hk) as (row & Hrow & Erow).
  destruct (Forall2_lookup_l _ _ _ _ _ F2 Hrow) as (r & Hr & n & ->). exists row, n. split; [done|].
  rewrite (current_is_last _ _ _ _ L'), D'. unfold latest_by_id. rewrite List.filter_app.
  assert (Hpid : f i = td_prediction_id (with_id n row)) by (cbn; symmetry; by apply Hg).
  rewrite Hpid. fold (of_prediction (td_prediction_id (with_id n row))).
  rewrite (filter_single new (with_id n row)), last_snoc; [done|by rewrite Hnew|].
  by apply list_elem_of_In, (list_elem_of_lookup_2 _ k).
Qed.

(** A certification that is applied was approved, matches the reviewed manifest, concerns
    predictions without any earlier decision, and leaves each of them with a current decision
    that is eligible. *)
Theorem certification_is_positive_and_first plan expected actor key approve at_ s v s' i :
  temporal_ledger s -> apply_certification ny_utc plan expected actor key approve at_ s = (Ok v, s') ->
  In i (cp_items plan) ->
  approve = true /\ cp_manifest_hash plan = expected /\
  load_current_temporal_decisions None (ts_decisions s) (ci_prediction_id i) = None /\
  exists d, load_current_temporal_decisions None (ts_decisions s') (ci_prediction_id i) = Some d /\
    explicit_eligible d = true.
Proof.
  intros L E Hi. destruct (certification_outcome _ _ _ _ _ _ _ _ _ L E) as [(_ & Ha & Hh & HD & Hno & Happ)|[Hw _]]; [|done].
  assert (Hf : forall j row, In j (cp_items plan) -> certification_row ny_utc s (cp_manifest_hash plan) actor key at_ j = Ok row ->
    fresh_row s row /\ td_prediction_id row = ci_prediction_id j /\ td_evidence_eligible row = true).
  { intros j row Hj. apply certification_row_fresh; [|done]. intros r Hr. by apply Hno. }
  split_and!; [done|done| |].
  - rewrite (current_is_last _ _ _ _ L). unfold latest_by_id.
    destruct (List.filter _ _) as [|x l] eqn:Ex; [done|]. exfalso.
    assert (Hx : In x (List.filter (fun r => td_prediction_id r =? ci_prediction_id i) (ts_decisions s))) by (rewrite Ex; by left).
    apply List.filter_In in Hx as [Hx Exi]. apply Z.eqb_eq in Exi. by apply (Hno x i).
  - destruct (applied_current ci_prediction_id _ _ _ _ i (fun j row H =>
      certify_row_pid _ _ _ _ _ _ _ H) HD Happ Hi) as (row & n & Hrow & Hc).
    exists (with_id n row). split; [done|]. destruct (Hf _ _ Hi Hrow) as ([C _] & _ & He).
    destruct C as [_ _ C1 C2 C3]. unfold explicit_eligible. cbn. rewrite C3, He. rewrite C1 in C2. rewrite C2 in He.
    rewrite C1. apply andb_true_iff in He as [He He3]. apply andb_true_iff in He as [He1 He2]. by rewrite He1, He2, He3.
Qed.

(** A quarantine that is applied decides: the current decision of an item's prediction is the
    verdict of the contract on the item, with the reason of the incident among its reasons, and
    eligibility is exactly that verdict, whatever was recorded before. *)
Theorem quarantine_decides plan expected actor key approve at_ s v s' i :
  temporal_ledger s -> apply_quarantine ny_utc plan expected actor key approve at_ s = (Ok v, s') ->
  In i (qp_items plan) ->
  approve = true /\ qp_manifest_hash plan = expected /\
  exists d o r p, load_current_temporal_decisions None (ts_decisions s') (qi_prediction_id i) = Some d /\
    ts_predictions s !! qi_prediction_id i = Some p /\
    validate_entry ny_utc "invalid entry session for prediction" (qi_entry_session i) (qi_decision_at i)
      (tp_source_data_cutoff_at p) (qi_semantic_input_time_valid i) = Ok (o, r) /\
    In (qi_incident_reason i) (td_reason_codes_json d) /\
    td_status d = tv_status r /\
    prediction_temporally_eligible ny_utc p (Some d) = Ok (tv_evidence_eligible r).
Proof.
  intros L E Hi. destruct (quarantine_outcome _ _ _ _ _ _ _ _ _ L E) as [(_ & Ha & Hh & HD & Happ)|[Hw _]]; [|done].
  split_and!; [done|done|].
  destruct (applied_current qi_prediction_id _ _ _ _ i (fun j row H =>
    proj2 (quarantine_row_fresh _ _ _ _ _ _ _ H)) HD Happ Hi) as (row & n & Hrow & Hc).
  pose proof (quarantine_row_fresh _ _ _ _ _ _ _ Hrow) as [[C _] _].
  unfold quarantine_row in Hrow. unbind Hrow as w Hw. unbind Hrow as m Hm. apply Ok_inj in Hrow.
  destruct w as [o r]. cbn [fst snd] in *. unfold validate_quarantine_item in Hw. unbind Hw as p Hp.
  exists (with_id n row), o, r, p. split_and!; [done| |done| | |].
  - unfold prediction_of in Hp. destruct (ts_predictions s !! _); [|done]. by apply Ok_inj in Hp; subst.
  - subst row. cbn. apply unique_In, in_or_app. right. by left.
  - by subst row.
  - cbn [prediction_temporally_eligible]. f_equal. destruct C as [_ _ C1 C2 C3]. unfold explicit_eligible. cbn [with_id
      td_status td_evidence_eligible td_entry_timing_valid td_source_cutoff_valid td_semantic_input_time_valid
      td_decision_at td_entry_open_at]. rewrite <- C1, C3.
    assert (He : td_evidence_eligible row = tv_evidence_eligible r) by by subst row.
    rewrite <- He, C2. by destruct (td_entry_timing_valid row), (td_source_cutoff_valid row), (is_true _).
Qed.

(** A stored prediction (its capture time is not null) that is eligible was decided before the open of its entry session and
    not before its sources were cut off; its verdict is that of the last decision recorded for
    it, or, when there is none, of its own capture. *)
Theorem eligible_prediction_is_timely s pid p :
  temporal_ledger s -> ts_predictions s !! pid = Some p -> tp_persisted p = true -> tp_captured_at p <> None ->
  prediction_temporally_eligible ny_utc p (load_current_temporal_decisions None (ts_decisions s) pid) = Ok true ->
  exists decided day m, us_market_session CALENDAR_VERSION day = Ok (Some m) /\
    decided < ny_utc (open_at m) /\ tp_source_data_cutoff_at p <= decided /\
    match load_current_temporal_decisions None (ts_decisions s) pid with
    | Some d => td_decision_at d = decided /\ td_entry_session d = day /\ td_status d = VALID /\
        last (List.filter (fun r => td_prediction_id r =? pid) (ts_decisions s)) = Some d
    | None => tp_decision_at p = Some decided /\ tp_planned_entry_session p = Some day
    end.
Proof.
  intros L Hp Hpers Hcap. rewrite (current_is_last _ _ _ _ L). unfold latest_by_id.
  destruct (last (List.filter (fun r => td_prediction_id r =? pid) (ts_decisions s))) as [d|] eqn:El.
  - cbn [prediction_temporally_eligible]. intros E. apply Ok_inj in E. unfold explicit_eligible in E.
    repeat (apply andb_true_iff in E as [E ?]).
    assert (Hd : In d (ts_decisions s) /\ td_prediction_id d = pid).
    { apply last_Some in El as [l' El].
      assert (Hin : In d (List.filter (fun r => td_prediction_id r =? pid) (ts_decisions s)))
        by (rewrite El; apply in_or_app; right; by left).
      apply List.filter_In in Hin as [Hin Ei]. apply Z.eqb_eq in Ei. done. }
    destruct Hd as [Hin <-]. destruct (ledger_rows _ _ _ _ L Hin) as [(m & Hm & Ho) (p' & Hp' & Hc) _ _ _].
    rewrite Hp in Hp'. injection Hp' as <-. exists (td_decision_at d), (td_entry_session d), m.
    rewrite Hc in *. split_and!; try done; [rewrite <- Ho; lia|lia|]. by apply String.eqb_eq.
  - cbn [prediction_temporally_eligible]. rewrite Hpers. destruct (tp_decision_at p) as [t|] eqn:Et.
    2: { intros E. exfalso. unbind E as m Hm. cbv zeta in E. destruct (tp_captured_at p); [|done].
         unbind E as sm Hsm. by apply Ok_inj in E. }
    intros E. unbind E as m Hm. cbv zeta in E. unbind E as sm Hsm. destruct (_ && _); [by apply Ok_inj in E|].
    apply Ok_inj in E. destruct m as [m|]; [|done]. repeat (apply andb_true_iff in E as [E ?]).
    destruct (tp_planned_entry_session p) as [day|] eqn:Eday; [|by apply Ok_inj in Hm].
    exists t, day, m. split_and!; try done; lia.
Qed.

(** ** Python and SQL *)

(** The flag of the lineage is a boolean or absent, as captures write it; the details of the
    validation are a mapping or absent. *)
Definition lineage_well_formed (p : TemporalPrediction) : Prop :=
  (match dget (lineage_of p) "point_in_time_validated" with VNone | VBool _ => True | _ => False end) /\
  (match dget (lineage_of p) "point_in_time_validation" with VNone | VDict _ => True | _ => False end).

(** C24: When the database session runs in New York time, the predicate of the selectors and the
    Python predicate agree on every stored prediction whose planned session is a trading day:
    the greatest identifier is the greatest sequence, and the open compared is 9:30 in New
    York. *)
Theorem sql_matches_python ny_wall s pid p :
  temporal_ledger s -> ts_predictions s !! pid = Some p -> tp_id p = pid -> tp_persisted p = true ->
  tp_captured_at p <> None -> lineage_well_formed p ->
  (forall day, ny_wall (ny_utc (dt_combine day 9 30)) = dt_combine day 9 30) ->
  (forall day, tp_planned_entry_session p = Some day ->
     exists m, us_market_session CALENDAR_VERSION day = Ok (Some m) /\ open_at m = dt_combine day 9 30) ->
  exists b, temporal_eligibility_sql ny_wall ny_utc (ts_decisions s) p = Ok b /\
    prediction_temporally_eligible ny_utc p (load_current_temporal_decisions None (ts_decisions s) pid) = Ok b.
Proof.
  intros L Hp Hid Hpers Hcap [W1 W2] Hny Hday. rewrite (current_is_last _ _ _ _ L).
  unfold temporal_eligibility_sql. rewrite Hid.
  destruct (latest_by_id (ts_decisions s) pid) as [d|] eqn:El.
  - exists (explicit_eligible d). split; [|done]. f_equal. unfold explicit_eligible.
    assert (Hin : In d (ts_decisions s)).
    { unfold latest_by_id in El. apply last_Some in El as [l' El].
      assert (Hin : In d (List.filter (fun r => td_prediction_id r =? pid) (ts_decisions s)))
        by (rewrite El; apply in_or_app; right; by left).
      by apply List.filter_In in Hin as [Hin _]. }
    destruct (ledger_rows _ _ _ _ L Hin) as [_ _ Ht _ _]. rewrite <- Ht.
    by destruct (td_entry_timing_valid d); rewrite ?andb_true_r, ?andb_false_r.
  - cbn [prediction_temporally_eligible]. rewrite Hpers. cbn [andb].
    set (flag := dget (lineage_of p) "point_in_time_validated") in *.
    set (detail := dget (lineage_of p) "point_in_time_validation") in *.
    assert (exists v, as_boolean flag = Ok v /\ is_true v = flag_true flag) as (v & -> & Hv)
      by (destruct flag; try done; by eexists).
    assert (get_item (py_or detail (VDict [])) "semantic_input_time" = Ok (dget (as_dict detail) "semantic_input_time")) as ->.
    { destruct detail as [| | | | | | |[|x l]]; done. }
    cbn [mbind result_bind]. rewrite Hv.
    assert (exists m, (match tp_planned_entry_session p with
                       | Some day => us_market_session CALENDAR_VERSION day
                       | None => Ok None
                       end) = Ok m /\
      match tp_planned_entry_session p, m with
      | Some day, Some m => open_at m = dt_combine day 9 30 | None, None => True | _, _ => False end) as (m & -> & Hm).
    { destruct (tp_planned_entry_session p) as [day|]; [|by exists None].
      destruct (Hday day eq_refl) as (m & E & H). by exists (Some m). }
    cbn [mbind result_bind]. destruct (tp_decision_at p) as [t|].
    + destruct (tp_planned_entry_session p) as [day|], m as [m|]; try done;
        destruct (py_eq _ _); cbn [orb negb]; rewrite ?andb_true_r, ?andb_false_r; try by exists false.
      eexists. split; [reflexivity|]. f_equal. unfold entry_open, timezone_new_york, to_timestamp. by rewrite Hny, Hm.
    + exists false. split; [done|]. destruct (tp_captured_at p); [|done]. cbn [mbind result_bind]. done.
Qed.
End Ledger.
