(* ===== verification/TemporalExamples.v ===== *)
(** * Examples of temporal validity

    Two predictions of July 2026 with a certification and a quarantine, the theorems applied to
    them, and the SQL predicate under three time zones of the database session. *)
From Stdlib Require Import ZArith Lia List String Bool.
From stdpp Require Import base gmap list strings.
From S2P Require Import Prelude PyDate PyFloat PyValue Calendar CalendarFacts Readiness Canonical Signals.
From S2P Require Import ScoreWarnings TemporalValidity TemporalFacts.
Local Open Scope string_scope.
Local Open Scope list_scope.
Local Open Scope Z_scope.
Import Temporal Training.

#[local] Instance plain_json : JsonText := {| float_repr := fun _ => "0.0"; sha256 := fun s => s |}.
#[local] Instance bare_strings : PyText := {| str_other := fun _ => ""; set_order := fun l => l |}.

Definition hours (n : Z) : Z := n * 3600 * us_per_second.
(** New York in summer; a session in UTC; a session in Los Angeles. *)
Definition summer_utc (wall : datetime) : datetime := wall + hours 4.
Definition summer_wall (instant : datetime) : datetime := instant - hours 4.
Definition same_clock (wall : datetime) : datetime := wall.
Definition pacific_utc (wall : datetime) : datetime := wall + hours 7.

Definition july (d h : Z) : datetime := dt_combine (mk_date 2026 7 d) h 0.
Definition entry_day : date := mk_date 2026 7 7.

Definition captured_lineage : dict :=
  [("point_in_time_validated", VBool true);
   ("point_in_time_validation", VDict [("semantic_input_time", VStr "VALID")])].
Definition prediction (id : Z) (decision : datetime) : TemporalPrediction :=
  mkTemporalPrediction id (july 6 21) (Some decision) (Some decision) (Some entry_day) "ELIGIBLE" None
    (Some captured_lineage) true.
(** The first is decided ninety minutes before the open, the second ninety minutes after it. *)
Definition early : TemporalPrediction := prediction 1 (july 7 12).
Definition late : TemporalPrediction := prediction 2 (july 7 15).
Definition empty_ledger : TemporalStore := mkTemporalStore {[1 := early; 2 := late]} [] 1.

(** ** Python and SQL *)

Definition by_python (p : TemporalPrediction) : result bool :=
  prediction_temporally_eligible summer_utc p None.
Definition by_sql (session_utc : datetime -> datetime) (p : TemporalPrediction) : result bool :=
  temporal_eligibility_sql summer_wall session_utc [] p.

(** The predicate of the selectors reads 9:30 in the time zone of the session before it converts
    to New York.  In a session in UTC it refuses a prediction decided before the open, in one in
    Los Angeles it accepts a prediction decided after the open. *)
Theorem sql_depends_on_session_zone :
  map by_python [early; late] = [Ok true; Ok false] /\
  map (by_sql summer_utc) [early; late] = [Ok true; Ok false] /\
  map (by_sql same_clock) [early; late] = [Ok false; Ok false] /\
  map (by_sql pacific_utc) [early; late] = [Ok true; Ok true].
Proof. vm_compute. auto. Qed.

Lemma empty_ledger_ok : temporal_ledger summer_utc empty_ledger.
Proof. unfold temporal_ledger. cbn. constructor. Qed.
Lemma empty_ledger_keyed : keyed empty_ledger.
Proof.
  intros pid p. cbn [ts_predictions empty_ledger]. rewrite lookup_insert_Some, lookup_singleton_Some.
  by intros [[<- <-]|[_ [<- <-]]].
Qed.

Lemma entry_day_trades : us_market_session CALENDAR_VERSION entry_day
  = Ok (Some (mkUSMarketSession entry_day (dt_combine entry_day 9 30) (dt_combine entry_day 16 0))).
Proof. vm_compute. reflexivity. Qed.
Lemma entry_day_opens day : tp_planned_entry_session early = Some day ->
  exists m, us_market_session CALENDAR_VERSION day = Ok (Some m) /\ open_at m = dt_combine day 9 30.
Proof. intros H. injection H as <-. eexists. split; [apply entry_day_trades|reflexivity]. Qed.
Lemma summer_inverse day : summer_wall (summer_utc (dt_combine day 9 30)) = dt_combine day 9 30.
Proof. unfold summer_wall, summer_utc. lia. Qed.

Lemma sql_matches_python_witness : exists b,
  temporal_eligibility_sql summer_wall summer_utc (ts_decisions empty_ledger) early = Ok b.
Proof.
  destruct (sql_matches_python summer_utc summer_wall empty_ledger 1 early empty_ledger_ok eq_refl eq_refl
    eq_refl ltac:(discriminate) (conj I I) summer_inverse entry_day_opens) as (b & H & _).
  exists b. exact H.
Defined.

(** ** Manifests *)

Definition certify_early : TemporalCertificationItem :=
  mkTemporalCertificationItem 1 (Aware (july 7 12)) entry_day true "reviewed capture" None.
Definition quarantine_early : TemporalQuarantineItem :=
  mkTemporalQuarantineItem 1 (Aware (july 7 14)) entry_day (Some true) "late decision" None.

Definition certification : TemporalCertificationPlan :=
  match plan_certification summer_utc empty_ledger [certify_early] with
  | Ok plan => plan
  | Raise _ => mkTemporalCertificationPlan "" 0 0 []
  end.
Definition certified : TemporalStore :=
  (apply_certification summer_utc certification (cp_manifest_hash certification) "ops" "key-1" true (july 8 9)
     empty_ledger).2.
Definition quarantine : TemporalQuarantinePlan :=
  match plan_quarantine summer_utc certified [quarantine_early] with
  | Ok plan => plan
  | Raise _ => mkTemporalQuarantinePlan "" 0 0 []
  end.
Definition quarantined : TemporalStore :=
  (apply_quarantine summer_utc quarantine (qp_manifest_hash quarantine) "ops" "key-2" true (july 9 9) certified).2.

Definition verdicts (s : TemporalStore) : list (Z * Z * Z * string * bool) :=
  map (fun d => (td_id d, td_prediction_id d, td_validation_sequence d, td_status d, td_evidence_eligible d))
    (ts_decisions s).
Example certified_then_quarantined :
  verdicts quarantined = [(1, 1, 1, "VALID", true); (2, 1, 2, "EXECUTION_INVALID", false)].
Proof. vm_compute. reflexivity. Qed.
(** A late prediction can not be certified, and a second certification is refused. *)
Example refusals :
  plan_certification summer_utc empty_ledger
    [mkTemporalCertificationItem 2 (Aware (july 7 15)) entry_day true "reviewed" None]
  = ValueError "prediction is not positively valid" /\
  (apply_certification summer_utc certification (cp_manifest_hash certification) "ops" "key-3" true (july 8 9)
     certified).1 = ValueError "positive certification refuses to supersede existing temporal decisions" /\
  (apply_certification summer_utc certification "other" "ops" "key-3" true (july 8 9) empty_ledger).1
  = ValueError "certification manifest hash differs from the reviewed plan".
Proof. vm_compute. auto. Qed.

Definition certify_op : temporal_op :=
  OpCertify certification (cp_manifest_hash certification) "ops" "key-1" true (july 8 9).
Lemma certify_runs : run_op summer_utc certify_op empty_ledger = (Ok tt, certified).
Proof. vm_compute. reflexivity. Qed.
Lemma temporal_ledger_invariant_witness :
  temporal_ledger summer_utc (run_ops summer_utc [certify_op; certify_op] empty_ledger).
Proof.
  exact (proj1 (temporal_ledger_invariant summer_utc [certify_op; certify_op] empty_ledger empty_ledger_ok
    empty_ledger_keyed)).
Defined.

Lemma certified_ok : temporal_ledger summer_utc certified.
Proof.
  apply (temporal_ledger_step summer_utc certify_op empty_ledger (Ok tt) certified);
    [apply empty_ledger_ok|apply empty_ledger_keyed|apply certify_runs].
Qed.

Definition certification_result : string * Z * list Z := (cp_manifest_hash certification, 1, [1]).
Lemma certification_applies :
  apply_certification summer_utc certification (cp_manifest_hash certification) "ops" "key-1" true (july 8 9)
    empty_ledger = (Ok certification_result, certified).
Proof. vm_compute. reflexivity. Qed.
Lemma certify_early_planned : In certify_early (cp_items certification).
Proof. vm_compute. left. reflexivity. Qed.
Lemma certification_is_positive_and_first_witness :
  exists d, load_current_temporal_decisions None (ts_decisions certified) 1 = Some d /\ explicit_eligible d = true.
Proof.
  destruct (certification_is_positive_and_first summer_utc certification (cp_manifest_hash certification) "ops"
    "key-1" true (july 8 9) empty_ledger certification_result certified certify_early empty_ledger_ok
    certification_applies certify_early_planned) as (_ & _ & _ & H). exact H.
Defined.

Definition quarantine_result : string * Z * list Z := (qp_manifest_hash quarantine, 1, [2]).
Lemma quarantine_applies :
  apply_quarantine summer_utc quarantine (qp_manifest_hash quarantine) "ops" "key-2" true (july 9 9) certified
  = (Ok quarantine_result, quarantined).
Proof. vm_compute. reflexivity. Qed.
Lemma quarantine_early_planned : In quarantine_early (qp_items quarantine).
Proof. vm_compute. left. reflexivity. Qed.
Lemma quarantine_decides_witness : exists d,
  load_current_temporal_decisions None (ts_decisions quarantined) 1 = Some d /\
  In "late decision" (td_reason_codes_json d).
Proof.
  destruct (quarantine_decides summer_utc quarantine (qp_manifest_hash quarantine) "ops" "key-2" true (july 9 9)
    certified quarantine_result quarantined quarantine_early certified_ok quarantine_applies
    quarantine_early_planned) as (_ & _ & d & o & r & p & H & _ & _ & Hr & _).
  exists d. split; [exact H|exact Hr].
Defined.

Lemma early_certified : ts_predictions certified !! 1 = Some early.
Proof. vm_compute. reflexivity. Qed.
Lemma early_eligible : prediction_temporally_eligible summer_utc early
  (load_current_temporal_decisions None (ts_decisions certified) 1) = Ok true.
Proof. vm_compute. reflexivity. Qed.
Lemma eligible_prediction_is_timely_witness : exists decided m,
  decided < summer_utc (open_at m) /\ tp_source_data_cutoff_at early <= decided.
Proof.
  destruct (eligible_prediction_is_timely summer_utc certified 1 early certified_ok early_certified eq_refl
    ltac:(discriminate) early_eligible) as (decided & day & m & _ & H1 & H2 & _).
  exists decided, m. exact (conj H1 H2).
Defined.

(** ** Training *)

Definition stored_decision : TrainingEligibilityDecision * TemporalPrediction :=
  match persist_capture_decision early true None with
  | Ok r => r
  | Raise _ => (mkTrainingEligibilityDecision false false [], early)
  end.
Lemma early_persists : persist_capture_decision early true None
  = Ok (stored_decision.1, stored_decision.2).
Proof. vm_compute. reflexivity. Qed.
Example early_trains : stored_decision.1 = mkTrainingEligibilityDecision true true [] /\
  persisted_capture_decision early = mkTrainingEligibilityDecision false false [LEGACY_ELIGIBILITY_UNCLASSIFIED].
Proof. vm_compute. auto. Qed.
Lemma capture_decision_roundtrip_witness :
  persisted_capture_decision stored_decision.2 = stored_decision.1.
Proof.
  exact (proj1 (capture_decision_roundtrip early None stored_decision.1 stored_decision.2 early_persists)).
Defined.
