(* ===== verification/CsvImport.v ===== *)
(** * CSV import: [csv_loader.py], [column_mapper.py] and [validation_service.py]

    The strict comma reader of Python's [csv] module as its state machine, the checks of
    the loader, the mapping of columns to canonical names and the validation of the mapped
    rows.  Characters are bytes, as everywhere in the development.  The contents of the
    uploaded file under an encoding are an argument: [None] when it does not decode. *)
From Stdlib Require Import ZArith Lia List String Ascii Bool.
From stdpp Require Import base list strings.
From S2P Require Import Prelude PyFloat PyValue Canonical Signals.
Local Open Scope string_scope.
Local Open Scope list_scope.
Local Open Scope Z_scope.

(** ** [csv.reader(handle, delimiter=",", strict=True)] *)

Definition LF : ascii := "010"%char.
Definition CR : ascii := "013"%char.
Definition QUOTE : ascii := "034"%char.
Definition COMMA : ascii := ","%char.

Definition is_newline (c : ascii) : bool := Ascii.eqb c LF || Ascii.eqb c CR.

Inductive ReaderState := START_RECORD | START_FIELD | IN_FIELD | IN_QUOTED_FIELD
  | QUOTE_IN_QUOTED_FIELD | EAT_CRNL.

#[export] Instance reader_state_eq_dec : EqDecision ReaderState.
Proof. solve_decision. Defined.

(** The reader: its state, the characters of the current field (last first) and their
    number, the fields of the current record (last first). *)
Record Reader := mkReader {
  rd_state : ReaderState;
  rd_field : list ascii;
  rd_length : Z;
  rd_fields : list string;
}.

Definition reader_start : Reader := mkReader START_RECORD [] 0 [].

Definition FIELD_SIZE_LIMIT : Z := 131072.
Definition QUOTE_EXPECTED : string := ("',' expected after '" ++ String QUOTE "'")%string.
Definition csv_error {A} (msg : string) : result A := raise "csv.Error" msg.

Definition add_char (c : ascii) (st : ReaderState) (r : Reader) : result Reader :=
  if FIELD_SIZE_LIMIT <=? rd_length r then csv_error "field larger than field limit (131072)"
  else Ok (mkReader st (c :: rd_field r) (rd_length r + 1) (rd_fields r)).

Definition save_field (st : ReaderState) (r : Reader) : Reader :=
  mkReader st [] 0 (string_of_list_ascii (rev (rd_field r)) :: rd_fields r).

Definition to_state (st : ReaderState) (r : Reader) : Reader :=
  mkReader st (rd_field r) (rd_length r) (rd_fields r).

(** One character; [None] is the end of a line. *)
Definition process_char (c : option ascii) (r : Reader) : result Reader :=
  let newline := match c with Some c => is_newline c | None => true end in
  let after_line := match c with None => START_RECORD | Some _ => EAT_CRNL end in
  let char_is x := match c with Some c => Ascii.eqb c x | None => false end in
  let start_field :=
    if newline then Ok (save_field after_line r)
    else if char_is QUOTE then Ok (to_state IN_QUOTED_FIELD r)
    else if char_is COMMA then Ok (save_field START_FIELD r)
    else match c with Some c => add_char c IN_FIELD r | None => Ok r end in
  match rd_state r with
  | START_RECORD =>
      match c with
      | None => Ok r
      | Some x => if is_newline x then Ok (to_state EAT_CRNL r) else start_field
      end
  | START_FIELD => start_field
  | IN_FIELD =>
      if newline then Ok (save_field after_line r)
      else if char_is COMMA then Ok (save_field START_FIELD r)
      else match c with Some c => add_char c IN_FIELD r | None => Ok r end
  | IN_QUOTED_FIELD =>
      match c with
      | None => Ok r
      | Some x => if Ascii.eqb x QUOTE then Ok (to_state QUOTE_IN_QUOTED_FIELD r)
                  else add_char x IN_QUOTED_FIELD r
      end
  | QUOTE_IN_QUOTED_FIELD =>
      if char_is QUOTE then add_char QUOTE IN_QUOTED_FIELD r
      else if char_is COMMA then Ok (save_field START_FIELD r)
      else if newline then Ok (save_field after_line r)
      else csv_error QUOTE_EXPECTED
  | EAT_CRNL =>
      match c with
      | None => Ok (to_state START_RECORD r)
      | Some x => if is_newline x then Ok r
                  else csv_error "new-line character seen in unquoted field"
      end
  end.

(** Does the character end a line of a file opened with [newline=""]? *)
Definition ends_line (c : ascii) (rest : list ascii) : bool :=
  Ascii.eqb c LF
  || (Ascii.eqb c CR && negb (match rest with x :: _ => Ascii.eqb x LF | [] => false end)).

(** A record is complete when a line ends in [START_RECORD]. *)
Definition emit (r : Reader) : option (list string) * Reader :=
  if bool_decide (rd_state r = START_RECORD) then (Some (rev (rd_fields r)), reader_start)
  else (None, r).

Definition emit_cons (record : option (list string)) (rest : list (list string) * option exn)
    : list (list string) * option exn :=
  match record with Some fields => (fields :: rest.1, rest.2) | None => rest end.

(** The end of the input: pending data is an error of the strict reader. *)
Definition end_of_input (r : Reader) : list (list string) * option exn :=
  if (0 <? rd_length r) || bool_decide (rd_state r = IN_QUOTED_FIELD)
  then ([], Some (Exn "csv.Error" "unexpected end of data"))
  else ([], None).

(** The records of a text and the error that ends the iteration, if any; [mid] tells that
    the current line has characters already. *)
Fixpoint csv_records (r : Reader) (mid : bool) (text : list ascii)
    : list (list string) * option exn :=
  match text with
  | [] =>
      if mid then
        match process_char None r with
        | Raise e => ([], Some e)
        | Ok r => let '(record, r) := emit r in emit_cons record (end_of_input r)
        end
      else end_of_input r
  | c :: rest =>
      match process_char (Some c) r with
      | Raise e => ([], Some e)
      | Ok r =>
          if ends_line c rest then
            match process_char None r with
            | Raise e => ([], Some e)
            | Ok r => let '(record, r) := emit r in emit_cons record (csv_records r false rest)
            end
          else csv_records r true rest
      end
  end.

Definition csv_reader (text : string) : list (list string) * option exn :=
  csv_records reader_start false (list_ascii_of_string text).

(** Texts with quotes, written with ['] for the quote character. *)
Definition quoted_text (s : string) : string :=
  string_map (fun c => if Ascii.eqb c "'" then QUOTE else if Ascii.eqb c "|" then LF else c) s.

Example csv_quotes :
  csv_reader (quoted_text "a,'b, ''c''|d',|x,,''|") =
  ([["a"; quoted_text "b, 'c'|d"; ""]; ["x"; ""; ""]], None).
Proof. reflexivity. Qed.
Example csv_errors :
  (csv_reader (quoted_text "'a'b"), csv_reader (quoted_text "a|'b")) =
  (([], Some (Exn "csv.Error" QUOTE_EXPECTED)),
   ([["a"]], Some (Exn "csv.Error" "unexpected end of data"))).
Proof. reflexivity. Qed.

(** ** [csv_loader.py] *)

Definition CsvLoadError {A} (msg : string) : result A := raise "CsvLoadError" msg.

Definition blank (s : string) : bool := String.eqb (strip s) "".
(** [s.lower()] is [casefold] on ASCII. *)
Definition normalize_name (s : string) : string := casefold (strip s).

Fixpoint check_names (seen : list string) (header : list string) : result unit :=
  match header with
  | [] => Ok tt
  | field :: header =>
      let normalized := normalize_name field in
      if String.eqb normalized "" then CsvLoadError "CSV header contains an empty column name."
      else if smem normalized seen then
        CsvLoadError ("CSV header contains duplicate column '" ++ strip field ++
                      "'. Duplicate columns are not supported.")
      else check_names (normalized :: seen) header
  end.

Definition _validate_header (header : list string) : result unit :=
  if forallb blank header then CsvLoadError "CSV file is empty or has no header row."
  else if match header with
          | [field] => contains field ";" || contains field (String "009" "")
          | _ => false
          end
  then CsvLoadError "Only comma-delimited CSV files are supported."
  else check_names [] header.

(** [resource_limits.enforce_row_limit] and [enforce_column_limit]. *)
Definition enforce_limit (observed limit : Z) (unit_name : string) : result unit :=
  if limit <? observed then
    raise "ResourceLimitExceeded" ("CSV file has " ++ str_of_Z observed ++ " " ++ unit_name ++
                                   "; the configured limit is " ++ str_of_Z limit ++ ".")
  else Ok tt.

Definition within (observed : Z) (limit : option Z) (unit_name : string) : result unit :=
  match limit with Some l => enforce_limit observed l unit_name | None => Ok tt end.

(** [dict(zip(header, values, strict=True))] for lists of one length. *)
Definition row_dict (header values : list string) : dict :=
  dict_update [] (combine header (map VStr values)).

(** The loop over the data records; [error] ends the iteration after them. *)
Fixpoint load_rows (header : list string) (max_rows : option Z) (row_number : Z) (loaded : Z)
    (records : list (list string)) (error : option exn) : result (list dict) :=
  match records with
  | [] => match error with Some e => Raise e | None => Ok [] end
  | values :: records =>
      _ ← (match max_rows with
           | Some m => if m <=? loaded then enforce_limit (row_number - 1) m "rows" else Ok tt
           | None => Ok tt
           end);
      if forallb blank values then
        CsvLoadError ("CSV row " ++ str_of_Z row_number ++ " is blank. Remove blank rows and try again.")
      else if negb (Z.of_nat (length values) =? Z.of_nat (length header)) then
        CsvLoadError ("CSV row " ++ str_of_Z row_number ++ " has " ++
                      str_of_Z (Z.of_nat (length values)) ++ " fields; expected " ++
                      str_of_Z (Z.of_nat (length header)) ++ ".")
      else
        rows ← load_rows header max_rows (row_number + 1) (loaded + 1) records error;
        Ok (row_dict header values :: rows)
  end.

Definition _load_comma_csv (text : string) (max_rows max_columns : option Z) : result (list dict) :=
  match csv_reader text with
  | ([], Some e) => Raise e
  | ([], None) => CsvLoadError "CSV file is empty or has no header row."
  | (header :: records, error) =>
      _ ← _validate_header header;
      _ ← within (Z.of_nat (length header)) max_columns "columns";
      load_rows header max_rows 2 0 records error
  end.

(** The handlers of [load_csv_rows] around the loader. *)
Definition wrap_load_error {A} (r : result A) : result A :=
  match r with
  | Raise (Exn cls msg) =>
      if String.eqb cls "csv.Error" then CsvLoadError ("CSV is malformed: " ++ msg)
      else if String.eqb cls "ResourceLimitExceeded" then CsvLoadError msg
      else r
  | _ => r
  end.

Fixpoint load_with (file : string -> option string) (encodings : list string)
    (max_rows max_columns : option Z) : result (list dict) :=
  match encodings with
  | [] => CsvLoadError "CSV encoding is not supported."
  | encoding :: encodings =>
      match file encoding with
      | None => load_with file encodings max_rows max_columns
      | Some text => wrap_load_error (_load_comma_csv text max_rows max_columns)
      end
  end.

Definition load_csv_rows (file : string -> option string) (max_rows max_columns : option Z)
    : result (list dict) :=
  load_with file ["utf-8-sig"; "utf-8"; "cp1252"] max_rows max_columns.

(** ** [column_mapper.py] *)

Record MappedCsvRow := mkMappedCsvRow {
  mr_row_number : Z;
  mr_ticker : string;
  mr_company_name : option string;
  mr_sector : option string;
  mr_canonical : list (string * string);
  mr_raw : dict;
}.

Section Mapper.
Context `{Text : PyText}.

(** [fieldnames] are the elements of a set in its iteration order. *)
Definition find_column (fieldnames aliases : list string) : option string :=
  let normalized := fold_left (fun d field => dict_set (normalize_name field) field d) fieldnames [] in
  (fix go (aliases : list string) : option string :=
     match aliases with
     | [] => None
     | alias :: aliases =>
         match dict_find (normalize_name alias) normalized with
         | Some found => if String.eqb found "" then go aliases else Some found
         | None => go aliases
         end
     end) aliases.

Definition _clean_value (value : pyval) : option string :=
  match value with
  | VNone => None
  | v => let cleaned := strip (py_str v) in if String.eqb cleaned "" then None else Some cleaned
  end.

Fixpoint _canonicalize_row (row : dict) (column_by_canonical : list (string * option string))
    : list (string * string) :=
  match column_by_canonical with
  | [] => []
  | (canonical_name, source) :: columns =>
      match source with
      | None => _canonicalize_row row columns
      | Some column =>
          match _clean_value (dget row column) with
          | Some value => (canonical_name, value) :: _canonicalize_row row columns
          | None => _canonicalize_row row columns
          end
      end
  end.

(** [column_by_canonical.get(name)]. *)
Definition column_for (columns : list (string * option string)) (name : string) : option string :=
  match dict_find name columns with Some c => c | None => None end.

(** [ticker.upper()], where [ticker] may be [None]. *)
Definition row_ticker (column : option string) (row : dict) : result string :=
  match column with
  | None => Ok ""
  | Some column =>
      match _clean_value (dget row column) with
      | Some ticker => Ok (upper ticker)
      | None => raise "AttributeError" "'NoneType' object has no attribute 'upper'"
      end
  end.

Definition cell (column : option string) (row : dict) : option string :=
  match column with Some c => _clean_value (dget row c) | None => None end.

Fixpoint map_rows (columns : list (string * option string)) (index : Z) (rows : list dict)
    : result (list MappedCsvRow) :=
  match rows with
  | [] => Ok []
  | row :: rows =>
      ticker ← row_ticker (column_for columns "ticker") row;
      rest ← map_rows columns (index + 1) rows;
      Ok (mkMappedCsvRow index ticker (cell (column_for columns "company_name") row)
            (cell (column_for columns "sector") row) (_canonicalize_row row columns) row :: rest)
  end.

(** The names of the rows, as a set; [aliases] is a mapping, so its keys are distinct. *)
Definition fieldnames_of (rows : list dict) : list string :=
  set_order (unique (concat (map (map fst) rows))).

Definition columns_of (rows : list dict) (aliases : list (string * list string))
    : list (string * option string) :=
  map (fun ca => (ca.1, find_column (fieldnames_of rows) ca.2)) aliases.

Definition map_csv_rows (rows : list dict) (aliases : list (string * list string))
    : result (list MappedCsvRow) :=
  map_rows (columns_of rows aliases) 1 rows.

End Mapper.

(** ** [validation_service.py] *)

Definition CsvValidationError {A} (msg : string) : result A := raise "CsvValidationError" msg.

Fixpoint check_tickers (seen : list (string * Z)) (rows : list MappedCsvRow) : result unit :=
  match rows with
  | [] => Ok tt
  | row :: rows =>
      match dict_find (mr_ticker row) seen with
      | Some first =>
          CsvValidationError ("CSV contains duplicate ticker '" ++ mr_ticker row ++ "' in rows " ++
            str_of_Z first ++ " and " ++ str_of_Z (mr_row_number row) ++
            ". Duplicate tickers are not supported.")
      | None => check_tickers (dict_set (mr_ticker row) (mr_row_number row) seen) rows
      end
  end.

Definition has_ticker (row : MappedCsvRow) : bool := negb (String.eqb (mr_ticker row) "").

Definition validate_mapped_rows (rows : list MappedCsvRow) : result unit :=
  match rows with
  | [] => CsvValidationError "CSV file has no data rows."
  | _ =>
      match List.filter has_ticker rows with
      | [] => CsvValidationError "CSV must contain a ticker column with at least one ticker value."
      | rows_with_tickers => check_tickers [] rows_with_tickers
      end
  end.
