(* ===== verification/CsvFacts.v ===== *)
(** * CSV import: theorems

    The round trip through the strict reader, the shape of the loaded rows, the
    independence of the column mapping from the order of a set, and the behaviour on rows
    without a ticker. *)
From Stdlib Require Import ZArith Lia List String Ascii Bool Permutation.
From stdpp Require Import base list strings.
From S2P Require Import Prelude PyFloat PyValue Canonical Signals CsvImport.
Local Open Scope string_scope.
Local Open Scope list_scope.
Local Open Scope Z_scope.

(** ** Writing *)

(** A field between quotes, with its quotes doubled; a record ends with CR LF, as
    [csv.writer] writes it with [QUOTE_ALL]. *)
Fixpoint escape (s : list ascii) : list ascii :=
  match s with
  | [] => []
  | c :: s => if Ascii.eqb c QUOTE then QUOTE :: QUOTE :: escape s else c :: escape s
  end.
Definition write_field (s : string) : list ascii :=
  QUOTE :: escape (list_ascii_of_string s) ++ [QUOTE].
Fixpoint write_row (fields : list string) : list ascii :=
  match fields with
  | [] => [CR; LF]
  | [field] => write_field field ++ [CR; LF]
  | field :: fields => write_field field ++ COMMA :: write_row fields
  end.
Definition write_rows (rows : list (list string)) : string :=
  string_of_list_ascii (concat (map write_row rows)).

Definition fits (field : string) : Prop :=
  Z.of_nat (length (list_ascii_of_string field)) <= FIELD_SIZE_LIMIT.

(** ** The reader on quoted fields *)

Lemma read_quoted s : forall f n fs mid rest,
  n + Z.of_nat (length s) <= FIELD_SIZE_LIMIT ->
  exists mid', csv_records (mkReader IN_QUOTED_FIELD f n fs) mid (escape s ++ QUOTE :: rest) =
    csv_records (mkReader IN_QUOTED_FIELD (rev s ++ f) (n + Z.of_nat (length s)) fs) mid'
      (QUOTE :: rest).
Proof.
  induction s as [|c s IH]; intros f n fs mid rest Hn; simpl in Hn.
  { exists mid. simpl. by rewrite Z.add_0_r. }
  assert (Hadd : add_char c IN_QUOTED_FIELD (mkReader IN_QUOTED_FIELD f n fs) =
                 Ok (mkReader IN_QUOTED_FIELD (c :: f) (n + 1) fs)).
  { unfold add_char. simpl. destruct (Z.leb_spec FIELD_SIZE_LIMIT n); [lia|done]. }
  destruct (IH (c :: f) (n + 1) fs true rest) as [mid' E]; [lia|].
  destruct (IH (c :: f) (n + 1) fs false rest) as [mid'' E']; [lia|].
  change (rev (c :: s) ++ f) with ((rev s ++ [c]) ++ f). rewrite <- app_assoc.
  change ([c] ++ f) with (c :: f). change (length (c :: s)) with (S (length s)).
  replace (n + Z.of_nat (S (length s))) with (n + 1 + Z.of_nat (length s)) by lia.
  simpl escape. destruct (Ascii.eqb_spec c QUOTE) as [->|Hc].
  - exists mid'. rewrite <- E. cbn -[Z.add FIELD_SIZE_LIMIT Z.leb escape].
    unfold add_char in *. cbn -[Z.add FIELD_SIZE_LIMIT Z.leb escape] in *. by rewrite Hadd.
  - apply Ascii.eqb_neq in Hc.
    assert (Hstep : forall mid text, csv_records (mkReader IN_QUOTED_FIELD f n fs) mid (c :: text) =
      if ends_line c text then csv_records (mkReader IN_QUOTED_FIELD (c :: f) (n + 1) fs) false text
      else csv_records (mkReader IN_QUOTED_FIELD (c :: f) (n + 1) fs) true text).
    { intros. cbn -[ends_line add_char Z.add]. rewrite Hc, Hadd. by destruct (ends_line c text). }
    change ((c :: escape s) ++ QUOTE :: rest) with (c :: escape s ++ QUOTE :: rest).
    rewrite Hstep. destruct (ends_line c _); eauto.
Qed.

Definition at_field (st : ReaderState) : Prop := st = START_RECORD \/ st = START_FIELD.

Lemma read_field st fs mid field rest : at_field st -> fits field ->
  exists mid' n, csv_records (mkReader st [] 0 fs) mid (write_field field ++ rest) =
    csv_records (mkReader QUOTE_IN_QUOTED_FIELD (rev (list_ascii_of_string field)) n fs) mid' rest.
Proof.
  intros Hst Hf. unfold write_field. simpl app. rewrite <- app_assoc. simpl app.
  destruct (read_quoted (list_ascii_of_string field) [] 0 fs true rest) as [mid' E]; [exact Hf|].
  exists true, (0 + Z.of_nat (length (list_ascii_of_string field))).
  rewrite app_nil_r in E. transitivity (csv_records (mkReader IN_QUOTED_FIELD [] 0 fs) true
    (escape (list_ascii_of_string field) ++ QUOTE :: rest)).
  - by destruct Hst as [-> | ->].
  - rewrite E. reflexivity.
Qed.

Lemma field_text field : string_of_list_ascii (rev (rev (list_ascii_of_string field))) = field.
Proof. by rewrite rev_involutive, string_of_list_ascii_of_string. Qed.

Lemma read_row fields : forall st fs mid rest, at_field st -> fields <> [] -> Forall fits fields ->
  csv_records (mkReader st [] 0 fs) mid (write_row fields ++ rest) =
  emit_cons (Some (rev fs ++ fields)) (csv_records reader_start false rest).
Proof.
  induction fields as [|field fields IH]; intros st fs mid rest Hst Hne HF; [done|].
  apply Forall_cons in HF as [Hf HF]. destruct fields as [|field' fields].
  - change (write_row [field]) with (write_field field ++ [CR; LF]). rewrite <- app_assoc.
    destruct (read_field st fs mid field ([CR; LF] ++ rest) Hst Hf) as (mid' & n & ->).
    pose proof (field_text field) as Hw. revert Hw. generalize (rev (list_ascii_of_string field)).
    intros w Hw. cbn -[reader_start rev string_of_list_ascii csv_records].
    cbn -[reader_start rev string_of_list_ascii]. unfold emit, to_state, save_field. simpl rd_fields.
    rewrite Hw. reflexivity.
  - change (write_row (field :: field' :: fields)) with
      (write_field field ++ COMMA :: write_row (field' :: fields)).
    rewrite <- app_assoc.
    destruct (read_field st fs mid field ((COMMA :: write_row (field' :: fields)) ++ rest) Hst Hf)
      as (mid' & n & ->).
    change ((COMMA :: write_row (field' :: fields)) ++ rest) with
      (COMMA :: write_row (field' :: fields) ++ rest).
    pose proof (field_text field) as Hw. revert Hw. generalize (rev (list_ascii_of_string field)).
    intros w Hw. cbn -[write_row rev string_of_list_ascii].
    unfold save_field. simpl rd_fields. simpl rd_field. rewrite Hw.
    etransitivity; [apply (IH START_FIELD (field :: fs) true rest); [by right|done|done]|].
    simpl rev. by rewrite <- app_assoc.
Qed.

(** Reading what was written gives the records back, whatever characters the fields
    contain: quotes, commas and line ends included. *)
Lemma csv_roundtrip rows :
  Forall (fun row => row <> [] /\ Forall fits row) rows ->
  csv_reader (write_rows rows) = (rows, None).
Proof.
  intros HF. unfold csv_reader, write_rows. rewrite list_ascii_of_string_of_list_ascii.
  induction HF as [|row rows [Hne Hrow] _ IH]; simpl; [done|].
  change reader_start with (mkReader START_RECORD [] 0 []).
  rewrite (read_row row START_RECORD []) by (by (try left)). simpl rev. by rewrite IH.
Qed.

(** ** The loader *)

Lemma records_error text : forall r mid rows e, csv_records r mid text = (rows, Some e) ->
  exists msg, e = Exn "csv.Error" msg.
Proof.
  assert (Hp : forall c r e, process_char c r = Raise e -> exists msg, e = Exn "csv.Error" msg).
  { intros c r e. unfold process_char, add_char, csv_error, raise.
    repeat case_match; intros Hx; simplify_eq; eauto. }
  assert (Hend : forall r rows e, end_of_input r = (rows, Some e) -> exists msg, e = Exn "csv.Error" msg).
  { intros r rows e. unfold end_of_input. case_match; intros Hx; simplify_eq; eauto. }
  assert (Hem : forall o p rows e, emit_cons o p = (rows, Some e) -> exists rows', p = (rows', Some e)).
  { intros [fields|] [ps pe] rows e; simpl; intros Hx; simplify_eq; eauto. }
  induction text as [|c text IH]; intros r mid rows e; simpl.
  - destruct mid; [|apply Hend]. destruct (process_char None r) as [r'|e'] eqn:E.
    + destruct (emit r') as [o r2]. intros Hx. apply Hem in Hx as [rows' Hx]. eauto.
    + intros Hx. simplify_eq. eauto.
  - destruct (process_char (Some c) r) as [r'|e'] eqn:E; [|intros Hx; simplify_eq; eauto].
    destruct (ends_line c text); [|apply IH].
    destruct (process_char None r') as [r2|e'] eqn:E'; [|intros Hx; simplify_eq; eauto].
    destruct (emit r2) as [o r3]. intros Hx. apply Hem in Hx as [rows' Hx]. eauto.
Qed.

(** The classes of the exceptions inside the loader. *)
Definition load_class (e : exn) : Prop :=
  exists cls msg, e = Exn cls msg /\ In cls ["csv.Error"; "ResourceLimitExceeded"; "CsvLoadError"].

Lemma load_class_intro cls msg : In cls ["csv.Error"; "ResourceLimitExceeded"; "CsvLoadError"] ->
  load_class (Exn cls msg).
Proof. intros. by exists cls, msg. Qed.

Ltac load_class :=
  unfold CsvLoadError, raise in *; simplify_eq; solve [apply load_class_intro; simpl; auto].

Lemma bind_raise {A B} (m : result A) (f : A -> result B) e : (m ≫= f) = Raise e ->
  m = Raise e \/ exists a, m = Ok a /\ f a = Raise e.
Proof. destruct m; simpl; intros; simplify_eq; eauto. Qed.

Lemma check_names_class header : forall seen e, check_names seen header = Raise e -> load_class e.
Proof.
  induction header as [|f header IH]; intros seen e; simpl; [done|].
  repeat case_match; [intros Hx; load_class..|apply IH].
Qed.

Lemma enforce_class observed limit name e : enforce_limit observed limit name = Raise e -> load_class e.
Proof. unfold enforce_limit. case_match; intros Hx; [load_class|done]. Qed.

Lemma load_rows_class header max_rows error records : forall n loaded e,
  (forall e, error = Some e -> load_class e) ->
  load_rows header max_rows n loaded records error = Raise e -> load_class e.
Proof.
  induction records as [|values records IH]; intros n loaded e He; simpl.
  { destruct error; intros Hx; simplify_eq. auto. }
  intros Hx. apply bind_raise in Hx as [Hx|([] & _ & Hx)].
  { destruct max_rows; [|done]. case_match; [by eapply enforce_class|done]. }
  destruct (forallb blank values); [load_class|].
  destruct (negb _); [load_class|].
  apply bind_raise in Hx as [Hx|(rows & _ & Hx)]; [by eapply IH|done].
Qed.

Lemma load_comma_class text max_rows max_columns e :
  _load_comma_csv text max_rows max_columns = Raise e -> load_class e.
Proof.
  unfold _load_comma_csv. destruct (csv_reader text) as [[|header records] error] eqn:E.
  - destruct error as [e'|]; intros Hx; [|load_class]. injection Hx as ->.
    apply records_error in E as [msg ->]. load_class.
  - intros Hx. apply bind_raise in Hx as [Hx|([] & _ & Hx)].
    { unfold _validate_header in Hx. repeat case_match; try load_class;
        by eapply check_names_class. }
    apply bind_raise in Hx as [Hx|([] & _ & Hx)].
    { unfold within in Hx. destruct max_columns; [by eapply enforce_class|done]. }
    eapply load_rows_class; [|exact Hx]. intros e' ->. apply records_error in E as [msg ->]. load_class.
Qed.

(** Every failure of the loader is a [CsvLoadError], which the upload reports to the user:
    no decoding error, no reader error and no limit escapes. *)
Theorem load_failures_are_reported file max_rows max_columns e :
  load_csv_rows file max_rows max_columns = Raise e -> exists msg, e = Exn "CsvLoadError" msg.
Proof.
  unfold load_csv_rows. generalize ["utf-8-sig"; "utf-8"; "cp1252"]. intros encodings.
  induction encodings as [|enc encodings IH]; simpl; [intros Hx; injection Hx as <-; eauto|].
  destruct (file enc) as [text|]; [|done].
  destruct (_load_comma_csv text max_rows max_columns) as [rows|e'] eqn:E; [done|].
  apply load_comma_class in E as (cls & msg & -> & Hin). simpl in Hin.
  destruct Hin as [<-|[<-|[<-|[]]]]; simpl; intros Hx; injection Hx as <-; eauto.
Qed.

(** ** The shape of the loaded rows *)

Lemma check_names_spec header : forall seen, check_names seen header = Ok tt ->
  NoDup (map normalize_name header) /\ Forall (fun f => normalize_name f <> "") header /\
  (forall n, In n seen -> ~ In n (map normalize_name header)).
Proof.
  induction header as [|f header IH]; intros seen E; simpl in *; [repeat split; auto; constructor|].
  destruct (String.eqb_spec (normalize_name f) "") as [|Hne]; [done|].
  destruct (smem (normalize_name f) seen) eqn:Hs; [done|].
  destruct (IH _ E) as (ND & HF & Hd). split_and!.
  - constructor; [|done]. rewrite list_elem_of_In. apply Hd. by left.
  - by constructor.
  - intros n Hn [<-|Hin].
    + apply smem_In in Hn. congruence.
    + eapply Hd; [right; exact Hn|done].
Qed.

Lemma dict_set_new {V} k (v : V) d : ~ In k (map fst d) -> dict_set k v d = d ++ [(k, v)].
Proof.
  induction d as [|[k' v'] d IH]; simpl; intros H; [done|].
  destruct (String.eqb_spec k k') as [->|]; [tauto|]. rewrite IH; tauto.
Qed.

Lemma dict_update_fresh {V} (e : list (string * V)) : forall d,
  NoDup (map fst e) -> (forall k, In k (map fst d) -> ~ In k (map fst e)) -> dict_update d e = d ++ e.
Proof.
  induction e as [|[k v] e IH]; intros d ND Hd; simpl; [by rewrite app_nil_r|].
  simpl in ND. apply NoDup_cons in ND as [Hk ND]. unfold dict_update. simpl.
  rewrite dict_set_new by (intros Hin; apply (Hd k Hin); by left). fold (dict_update (d ++ [(k, v)]) e).
  rewrite IH; [by rewrite <- app_assoc|done|].
  intros k' Hk' Hin. rewrite map_app, in_app_iff in Hk'. destruct Hk' as [Hk'|[<-|[]]].
  - apply (Hd k' Hk'). by right.
  - apply Hk. by apply list_elem_of_In.
Qed.

Lemma row_dict_zip header values : NoDup header -> length values = length header ->
  row_dict header values = combine header (map VStr values).
Proof.
  intros ND Hlen. unfold row_dict. rewrite dict_update_fresh; [done| |done].
  replace (map fst (combine header (map VStr values))) with header; [done|].
  symmetry. apply fst_zip. rewrite length_map. lia.
Qed.

Lemma NoDup_names header : NoDup (map normalize_name header) -> NoDup header.
Proof. apply NoDup_fmap_1. Qed.

Lemma load_rows_spec header max_rows error records : forall n rows,
  load_rows header max_rows (n + 2) n records error = Ok rows ->
  error = None /\ rows = map (row_dict header) records /\
  Forall (fun values => length values = length header /\ forallb blank values = false) records /\
  (forall m, max_rows = Some m -> n <= m -> n + Z.of_nat (length records) <= m).
Proof.
  induction records as [|values records IH]; intros n rows E; simpl in E.
  { destruct error; [done|]. apply Ok_inj in E. subst. split_and!; try done. simpl. intros. lia. }
  apply result_bind_Ok in E as ([] & Hm & E).
  destruct (forallb blank values) eqn:Hb; [done|].
  destruct (Z.eqb_spec (Z.of_nat (length values)) (Z.of_nat (length header))) as [Hl|]; [|done].
  simpl in E. apply result_bind_Ok in E as (rest & E & Hr). apply Ok_inj in Hr. subst rows.
  replace (n + 2 + 1) with ((n + 1) + 2) in E by lia. apply IH in E as (He & -> & HF & Hmax).
  split_and!; try done.
  - constructor; [|done]. split; [lia|done].
  - intros m -> Hn. destruct (Z.leb_spec m n) as [Hle|Hlt].
    + unfold enforce_limit in Hm. destruct (Z.ltb_spec m (n + 2 - 1)); [done|lia].
    + simpl length. specialize (Hmax m eq_refl ltac:(lia)). lia.
Qed.

Lemma load_comma_spec text max_rows max_columns rows :
  _load_comma_csv text max_rows max_columns = Ok rows ->
  exists header records, csv_reader text = (header :: records, None) /\
    rows = map (row_dict header) records /\ _validate_header header = Ok tt /\
    NoDup (map normalize_name header) /\ Forall (fun f => normalize_name f <> "") header /\
    Forall (fun values => length values = length header /\ forallb blank values = false) records /\
    (forall m, max_rows = Some m -> 0 <= m -> Z.of_nat (length records) <= m) /\
    (forall m, max_columns = Some m -> Z.of_nat (length header) <= m).
Proof.
  unfold _load_comma_csv. intros E. destruct (csv_reader text) as [[|header records] error] eqn:Er.
  { by destruct error. }
  apply result_bind_Ok in E as ([] & Hv & E). apply result_bind_Ok in E as ([] & Hc & E).
  apply (load_rows_spec header max_rows error records 0) in E as (-> & -> & HF & Hm).
  exists header, records. unfold _validate_header in Hv |- *.
  destruct (forallb blank header) eqn:Hb; [done|]. destruct (match header with [_] => _ | _ => _ end) eqn:Hd; [done|].
  destruct (check_names_spec _ _ Hv) as (ND & Hne & _). split_and!; try done.
  intros m ->. unfold within, enforce_limit in Hc. destruct (Z.ltb_spec m (Z.of_nat (length header))); [done|lia].
Qed.

Lemma load_csv_rows_spec file max_rows max_columns rows :
  load_csv_rows file max_rows max_columns = Ok rows ->
  exists encoding text, file encoding = Some text /\ _load_comma_csv text max_rows max_columns = Ok rows.
Proof.
  unfold load_csv_rows. generalize ["utf-8-sig"; "utf-8"; "cp1252"]. intros encodings.
  induction encodings as [|enc encodings IH]; simpl; [done|]. intros E.
  destruct (file enc) as [text|] eqn:Ef; [|auto]. exists enc, text. split; [done|].
  destruct (_load_comma_csv text max_rows max_columns) as [rows'|[cls msg|]]; simpl in E; try done.
  by destruct (String.eqb cls "csv.Error"), (String.eqb cls "ResourceLimitExceeded").
Qed.

(** The loaded rows are rectangular: they have the columns of the header, in its order, the
    normalized names of the header are distinct and not empty, no row is blank, and the
    limits on rows and columns hold. *)
Theorem loaded_rows_shape file max_rows max_columns rows :
  load_csv_rows file max_rows max_columns = Ok rows ->
  exists header, NoDup (map normalize_name header) /\ Forall (fun f => normalize_name f <> "") header /\
    Forall (fun row => map fst row = header /\
      exists name value, In (name, VStr value) row /\ blank value = false) rows /\
    (forall m, max_rows = Some m -> 0 <= m -> Z.of_nat (length rows) <= m) /\
    (forall m, max_columns = Some m -> Z.of_nat (length header) <= m).
Proof.
  intros E. apply load_csv_rows_spec in E as (enc & text & _ & E).
  apply load_comma_spec in E as (header & records & _ & -> & _ & ND & Hne & HF & Hr & Hc).
  exists header. split_and!; try done.
  - rewrite Forall_fmap. eapply Forall_impl; [exact HF|]. intros values [Hl Hb]. simpl.
    rewrite row_dict_zip by (try done; by apply NoDup_names). split.
    { apply fst_zip. rewrite length_map. lia. }
    assert (exists v, In v values /\ blank v = false) as (v & Hv & Hbv).
    { clear -Hb. induction values as [|v values IH]; simpl in Hb; [done|].
      destruct (blank v) eqn:E; [|exists v; split; [by left|done]].
      destruct (IH Hb) as (w & ? & ?). exists w. split; [by right|done]. }
    apply list_elem_of_In, list_elem_of_lookup in Hv as [k Hk].
    destruct (lookup_lt_is_Some_2 header k) as [name Hname].
    { rewrite <- Hl. by eapply lookup_lt_Some. }
    exists name, v. split; [|done]. apply list_elem_of_In, list_elem_of_lookup. exists k.
    apply lookup_zip_with_Some. exists name, (VStr v). split_and!; try done.
    by rewrite list_lookup_fmap, Hk.
  - intros m Hm H0. rewrite length_map. by apply Hr.
Qed.

(** C35: A table that passes the checks of the loader comes back from the file it is written to,
    whatever characters its cells contain. *)
Theorem load_roundtrip file header records :
  file "utf-8-sig" = Some (write_rows (header :: records)) ->
  _validate_header header = Ok tt -> Forall fits header ->
  Forall (fun values => length values = length header /\ forallb blank values = false /\
    Forall fits values) records ->
  load_csv_rows file None None = Ok (map (fun values => combine header (map VStr values)) records).
Proof.
  intros Hf Hv Hh HF. unfold load_csv_rows. simpl. rewrite Hf. unfold _load_comma_csv.
  assert (Hne : header <> []) by (by intros ->).
  rewrite csv_roundtrip.
  2:{ constructor; [done|]. eapply Forall_impl; [exact HF|]. intros values (Hl & _ & Hfit).
      split; [|done]. intros ->. by destruct header. }
  rewrite Hv. simpl. unfold _validate_header in Hv.
  destruct (forallb blank header); [done|]. destruct (match header with [_] => _ | _ => _ end); [done|].
  destruct (check_names_spec _ _ Hv) as (ND & _ & _). apply NoDup_names in ND.
  assert (G : forall n, load_rows header None (n + 2) n records None =
    Ok (map (fun values => combine header (map VStr values)) records)).
  { clear Hf. induction HF as [|values records (Hl & Hb & _) _ IH]; intros n; simpl; [done|].
    rewrite Hb, Hl, Z.eqb_refl. simpl. replace (n + 2 + 1) with (n + 1 + 2) by lia. rewrite IH. simpl.
    by rewrite row_dict_zip. }
  by rewrite (G 0 : load_rows header None 2 0 records None = _).
Qed.

(** ** The column mapping *)

Lemma name_index fields : forall d, NoDup (map normalize_name fields) ->
  (forall k, In k (map fst d) -> ~ In k (map normalize_name fields)) ->
  forall k, dict_find k (fold_left (fun d field => dict_set (normalize_name field) field d) fields d) =
    match List.find (fun f => String.eqb k (normalize_name f)) fields with
    | Some f => Some f
    | None => dict_find k d
    end.
Proof.
  induction fields as [|f fields IH]; intros d ND Hd k; simpl; [done|].
  simpl in ND. apply NoDup_cons in ND as [Hf ND]. rewrite IH; [|done|].
  - destruct (String.eqb_spec k (normalize_name f)) as [->|Hk].
    + rewrite dict_find_set_eq. destruct (List.find _ fields) as [g|] eqn:Hg; [|done].
      apply find_some in Hg as [Hin Hg]. apply String.eqb_eq in Hg.
      destruct Hf. rewrite Hg, list_elem_of_In. by apply in_map.
    + rewrite dict_find_set_ne by done. done.
  - intros k' Hk' Hin. rewrite dict_set_new in Hk'.
    + rewrite map_app, in_app_iff in Hk'. destruct Hk' as [Hk'|[<-|[]]].
      * apply (Hd k' Hk'). by right.
      * apply Hf. by apply list_elem_of_In.
    + intros Hx. apply (Hd _ Hx). by left.
Qed.

Lemma find_by_name fields k f : NoDup (map normalize_name fields) ->
  (List.find (fun f => String.eqb k (normalize_name f)) fields = Some f <->
   In f fields /\ normalize_name f = k).
Proof.
  intros ND. split.
  - intros Hf. apply find_some in Hf as [? Hf]. apply String.eqb_eq in Hf. done.
  - intros [Hin <-]. induction fields as [|g fields IH]; [done|]. simpl in *.
    apply NoDup_cons in ND as [Hg ND]. destruct Hin as [->|Hin]; [by rewrite String.eqb_refl|].
    destruct (String.eqb_spec (normalize_name f) (normalize_name g)) as [E|]; [|auto].
    destruct Hg. rewrite <- E, list_elem_of_In. by apply in_map.
Qed.

Lemma find_column_permutation fields fields' aliases : NoDup (map normalize_name fields) ->
  fields ≡ₚ fields' -> find_column fields aliases = find_column fields' aliases.
Proof.
  intros ND P. assert (ND' : NoDup (map normalize_name fields')) by (by rewrite <- P).
  unfold find_column. induction aliases as [|alias aliases IH]; [done|].
  rewrite !name_index by (try done; intros ? []). simpl dict_find.
  assert (E : List.find (fun f => String.eqb (normalize_name alias) (normalize_name f)) fields =
              List.find (fun f => String.eqb (normalize_name alias) (normalize_name f)) fields').
  { apply option_eq. intros f. rewrite !find_by_name by done.
    rewrite <- !list_elem_of_In. by rewrite P. }
  rewrite E. by rewrite IH.
Qed.

Lemma unique_of_rows rows header : Forall (fun row : dict => map fst row = header) rows ->
  NoDup header -> rows <> [] -> unique (concat (map (map fst) rows)) ≡ₚ header.
Proof.
  intros HF ND Hne. apply NoDup_Permutation; [|done|].
  - apply NoDup_ListNoDup, dedup_NoDup.
  - intros x. rewrite !list_elem_of_In, unique_In, in_concat. split.
    + intros (l & Hl & Hx). apply in_map_iff in Hl as (row & <- & Hrow).
      rewrite List.Forall_forall in HF. by rewrite <- (HF row Hrow).
    + intros Hx. destruct rows as [|row rows]; [done|]. apply Forall_cons in HF as [<- _].
      exists (map fst row). split; [by left|done].
Qed.

(** The mapping of columns does not depend on the order in which Python iterates over the
    set of column names, for rows that come from the loader. *)
Theorem mapping_ignores_set_order file max_rows max_columns rows aliases other order order' :
  load_csv_rows file max_rows max_columns = Ok rows ->
  (forall l, order l ≡ₚ l) -> (forall l, order' l ≡ₚ l) ->
  map_csv_rows (Text := {| str_other := other; set_order := order |}) rows aliases =
  map_csv_rows (Text := {| str_other := other; set_order := order' |}) rows aliases.
Proof.
  intros E P P'. apply load_csv_rows_spec in E as (enc & text & _ & E).
  apply load_comma_spec in E as (header & records & _ & -> & _ & ND & _ & HF & _ & _).
  destruct records as [|values records]; [done|]. set (rows := map _ (values :: records)).
  assert (HU : unique (concat (map (map fst) rows)) ≡ₚ header).
  { apply unique_of_rows; [|by apply NoDup_names|done]. unfold rows. rewrite Forall_fmap.
    eapply Forall_impl; [exact HF|]. intros v [Hl _]. simpl.
    rewrite row_dict_zip by (try done; by apply NoDup_names).
    apply fst_zip. rewrite length_map. lia. }
  unfold map_csv_rows, columns_of, fieldnames_of. cbn [set_order]. f_equal.
  apply map_ext. intros [name names]. f_equal. apply find_column_permutation.
  - by rewrite (P _), HU.
  - by rewrite (P _), (P' _).
Qed.

(** ** Rows without a ticker *)

Lemma map_rows_raise columns rows `{Text : PyText} : forall index e,
  map_rows columns index rows = Raise e ->
  e = Exn "AttributeError" "'NoneType' object has no attribute 'upper'".
Proof.
  induction rows as [|row rows IH]; intros index e; simpl; [done|]. intros Hx.
  apply bind_raise in Hx as [Hx|(t & _ & Hx)].
  - unfold row_ticker, raise in Hx. repeat case_match; simplify_eq. done.
  - apply bind_raise in Hx as [Hx|(rest & _ & Hx)]; [by eapply IH|done].
Qed.

(** One row with an empty cell in the ticker column makes the mapping raise. *)
Lemma blank_ticker_raises `{Text : PyText} rows aliases column row :
  column_for (columns_of rows aliases) "ticker" = Some column ->
  In row rows -> _clean_value (dget row column) = None ->
  map_csv_rows rows aliases =
    raise "AttributeError" "'NoneType' object has no attribute 'upper'".
Proof.
  intros Hc Hin Hb. unfold map_csv_rows.
  destruct (map_rows (columns_of rows aliases) 1 rows) as [mapped|e] eqn:E;
    [|by apply map_rows_raise in E as ->].
  exfalso. revert E Hin. revert Hc. generalize (columns_of rows aliases). intros columns Hcol.
  generalize 1. revert mapped. induction rows as [|row' rows IH]; intros mapped index E Hin; [done|].
  simpl in E. apply result_bind_Ok in E as (t & Ht & E). apply result_bind_Ok in E as (rest & Hr & E).
  destruct Hin as [->|Hin]; [|by eapply IH].
  unfold row_ticker in Ht. rewrite Hcol, Hb in Ht. done.
Qed.

(** ** Validation *)

Lemma check_tickers_spec rows : forall seen, check_tickers seen rows = Ok tt <->
  NoDup (map mr_ticker rows) /\ (forall t, In t (map fst seen) -> ~ In t (map mr_ticker rows)).
Proof.
  assert (Hfind : forall t (seen : list (string * Z)), dict_find t seen = None <-> ~ In t (map fst seen)).
  { intros t seen. induction seen as [|[k v] seen IH]; simpl; [tauto|].
    destruct (String.eqb_spec t k) as [->|Hne]; [split; [done|tauto]|]. rewrite IH.
    split; [intros H [?|?]; [congruence|tauto]|tauto]. }
  induction rows as [|row rows IH]; intros seen; simpl; [split; [split; [constructor|tauto]|done]|].
  destruct (dict_find (mr_ticker row) seen) as [first|] eqn:E.
  - split; [done|]. intros [_ Hd]. destruct (Hd (mr_ticker row)); [|by left].
    destruct (in_dec string_dec (mr_ticker row) (map fst seen)) as [|Hn]; [done|].
    apply Hfind in Hn. congruence.
  - rewrite IH. apply Hfind in E. rewrite dict_set_new, map_app by done. simpl.
    rewrite NoDup_cons, list_elem_of_In. setoid_rewrite in_app_iff. simpl. split.
    + intros [ND Hd]. split_and!; [by apply Hd; right; left|done|].
      intros t Ht [<-|Hin]; [done|]. apply (Hd t); auto.
    + intros [[Hn ND] Hd]. split; [done|]. intros t [Ht|[<-|[]]]; [|done].
      intros Hin. apply (Hd t Ht). by right.
Qed.

(** Validation accepts the mapped rows exactly when some row has a ticker and no two rows
    with a ticker have the same one. *)
Lemma validated rows :
  validate_mapped_rows rows = Ok tt <->
  (exists row, In row rows /\ has_ticker row = true) /\
  NoDup (map mr_ticker (List.filter has_ticker rows)).
Proof.
  unfold validate_mapped_rows. destruct rows as [|r rows].
  { split; [done|]. intros [(row & [] & _) _]. }
  set (all := r :: rows). destruct (List.filter has_ticker all) as [|x kept] eqn:E.
  - split; [done|]. intros [(row & Hin & Ht) _].
    assert (In row (List.filter has_ticker all)) by (by apply filter_In). by rewrite E in *.
  - rewrite check_tickers_spec. simpl map at 2. split.
    + intros [ND _]. split; [|done]. exists x. apply filter_In. rewrite E. by left.
    + intros [_ ND]. split; [done|]. intros t [].
Qed.
