(* ===== verification/UploadRun.v ===== *)
(** * Uploads: [upload_service.create_upload_run] and [numeric_parser.py]

    The processing of an uploaded file: the checks before it is saved, the run, the three
    stages of the import, the rows and scores, and the rollback.  The scoring of the rows,
    the sector taxonomy, the parsing of earnings dates and the redaction of messages belong
    to other components: they are the class [UploadServices]. *)
From Stdlib Require Import ZArith Lia List String Ascii Bool Floats.SpecFloat.
From stdpp Require Import base gmap list strings.
From S2P Require Import Prelude PyDate PyFloat PyValue Canonical Signals CsvImport CsvFacts.
Local Open Scope string_scope.
Local Open Scope list_scope.
Local Open Scope Z_scope.
Local Open Scope st_scope.

(** ** [numeric_parser.py] *)

Definition MISSING_TOKENS : list string := [""; "-"; "--"; "N/A"; "NA"; "NONE"; "NAN"; "NULL"].
Definition SUFFIX_MULTIPLIERS : list (string * Z) :=
  [("K", 1000); ("M", 1000000); ("B", 1000000000); ("T", 1000000000000)].
Definition CURRENCY_SYMBOLS : list string :=
  ["$"; "€"; "£"; "¥"; "₹"; "₩"; "₽"; "₺"; "₪"; "₫"; "₴"; "₦"; "₱"; "฿"].
Definition CURRENCY_CODES : list string :=
  ["AUD"; "CAD"; "CHF"; "CNY"; "EUR"; "GBP"; "HKD"; "INR"; "JPY"; "KRW"; "MXN"; "NOK"; "SEK";
   "SGD"; "USD"].

Record NumericParseResult := mkNumericParseResult {
  np_value : option float;
  np_raw : pyval;
  np_normalized : option string;
  np_parsed : bool;
  np_reason : option string;
}.

Definition rejected (raw : pyval) (normalized : option string) (reason : string)
    : NumericParseResult :=
  mkNumericParseResult None raw normalized false (Some reason).
Definition accepted (value : float) (raw : pyval) (normalized : string) : NumericParseResult :=
  mkNumericParseResult (Some value) raw (Some normalized) true None.

(** The rest of [s] after the prefix [p], if it has it. *)
Fixpoint after_prefix (p s : string) : option string :=
  match p, s with
  | EmptyString, s => Some s
  | String a p, String b s => if Ascii.eqb a b then after_prefix p s else None
  | String _ _, EmptyString => None
  end.

(** [text.translate] with a table that deletes the symbols, which may take several bytes;
    the fuel is the length of the text. *)
Fixpoint delete_symbols (fuel : nat) (symbols : list string) (s : string) : string :=
  match fuel, s with
  | S fuel, String c rest =>
      match keep_some (map (fun p => after_prefix p s) symbols) with
      | rest :: _ => delete_symbols fuel symbols rest
      | [] => String c (delete_symbols fuel symbols rest)
      end
  | _, _ => s
  end.

(** [s.split()]. *)
Fixpoint split_words (word : string) (s : string) : list string :=
  let flush := if String.eqb word "" then [] else [word] in
  match s with
  | EmptyString => flush
  | String c s => if is_space c then flush ++ split_words "" s
                  else split_words (word ++ String c "") s
  end.

Definition string_filter (p : ascii -> bool) : string -> string :=
  fix go s := match s with
              | EmptyString => EmptyString
              | String c s => if p c then String c (go s) else go s
              end.
Definition remove_char (x : ascii) : string -> string := string_filter (fun c => negb (Ascii.eqb c x)).

(** [s.rstrip(".")]. *)
Fixpoint rstrip_dots (s : string) : string :=
  match s with
  | EmptyString => EmptyString
  | String c s => match rstrip_dots s with
                  | EmptyString => if Ascii.eqb c "." then EmptyString else String c EmptyString
                  | s => String c s
                  end
  end.

Definition is_currency_code (word : string) : bool := smem (rstrip_dots (upper word)) CURRENCY_CODES.

Definition _remove_currency (text : string) : string :=
  let parts := split_words "" (delete_symbols (String.length text) CURRENCY_SYMBOLS text) in
  let parts := match parts with
               | first :: rest => if is_currency_code first then rest else parts
               | [] => parts
               end in
  let parts := match rev parts with
               | last :: rest => if is_currency_code last then rev rest else parts
               | [] => parts
               end in
  String.concat " " parts.

Definition is_digit (c : ascii) : bool := match digit_value c with Some _ => true | None => false end.

Fixpoint all_digits (s : string) : bool :=
  match s with EmptyString => true | String c s => is_digit c && all_digits s end.

(** [NUMBER_PATTERN]: an optional sign; digits with an optional fraction, or a point and
    digits. *)
Fixpoint digits_then_fraction (seen : bool) (s : string) : bool :=
  match s with
  | EmptyString => seen
  | String c s =>
      if Ascii.eqb c "." then all_digits s && (seen || negb (String.eqb s ""))
      else is_digit c && digits_then_fraction true s
  end.
Definition matches_number (s : string) : bool :=
  match s with
  | String c rest => if Ascii.eqb c "+" || Ascii.eqb c "-" then digits_then_fraction false rest
                     else digits_then_fraction false s
  | EmptyString => false
  end.

(** The first and last characters of a text. *)
Definition unparenthesize (text : string) : option string :=
  match list_ascii_of_string text with
  | c :: rest =>
      match rev rest with
      | d :: inner => if Ascii.eqb c "(" && Ascii.eqb d ")"
                      then Some (strip (string_of_list_ascii (rev inner))) else None
      | [] => None
      end
  | [] => None
  end.

Definition last_char (s : string) : option (string * ascii) :=
  match rev (list_ascii_of_string s) with
  | c :: front => Some (string_of_list_ascii (rev front), c)
  | [] => None
  end.

Section Numbers.
Context `{Text : PyText}.

Definition _result_from_real (value : float) (raw : pyval) : NumericParseResult :=
  match value with
  | S754_nan => rejected raw (Some (py_str raw)) "missing"
  | S754_infinity _ => rejected raw (Some (py_str raw)) "infinite value"
  | x => accepted x raw (py_str raw)
  end.

Definition parse_text (value : pyval) : NumericParseResult :=
  let text := strip (py_str value) in
  if smem (upper text) MISSING_TOKENS then rejected value (Some text) "missing"
  else
    let '(negative, text) := match unparenthesize text with
                             | Some inner => (true, inner)
                             | None => (false, text)
                             end in
    let normalized := remove_char "," (remove_char "%" (_remove_currency text)) in
    let normalized := string_filter (fun c => negb (is_space c)) normalized in
    let '(normalized, multiplier) :=
      match last_char normalized with
      | Some (front, c) =>
          match dict_find (upper (String c "")) SUFFIX_MULTIPLIERS with
          | Some m => (front, Some m)
          | None => (normalized, None)
          end
      | None => (normalized, None)
      end in
    if smem (upper normalized) MISSING_TOKENS then rejected value (Some normalized) "missing"
    else if negb (matches_number normalized) then
      rejected value (if String.eqb normalized "" then None else Some normalized)
        "invalid numeric format"
    else match parse_float normalized with
    | None => rejected value None "unreachable"
    | Some x =>
        let x := if negative then fopp x else x in
        let x := match multiplier with Some m => fmul x (float_of_Z m) | None => x end in
        accepted x value normalized
    end.

Definition parse_financial_number (value : pyval) : NumericParseResult :=
  match value with
  | VNone => rejected value None "missing"
  | VBool b => rejected value (Some (py_str value)) "boolean is not numeric"
  | VDecimal _ _ | VInt _ | VFloat _ =>
      match py_float value with
      | Some x => _result_from_real x value
      | None => rejected value None "unreachable"
      end
  | _ => parse_text value
  end.

End Numbers.

(** ** [upload_service.py] *)

(** An upload as it arrives: its name and size, whether and where it could be saved, its
    text under an encoding, the outcome of the write fence, and whether the saved file is
    still the same when the rows have been built. *)
Record Upload := mkUpload {
  up_filename : option string;
  up_size : Z;
  up_saved : bool;
  up_path : string;
  up_text : string -> option string;
  up_fence : result unit;
  up_unchanged : bool;
}.

Record UploadRow := mkUploadRow {
  ur_filename : string;
  ur_file_path : string;
  ur_status : string;
  ur_row_count : option Z;
  ur_error_message : option string;
}.

(** A raw company row: the mapped row, its sector, its earnings date and its JSON. *)
Record StoredRow := mkStoredRow {
  sr_run_id : Z;
  sr_row_number : Z;
  sr_ticker : string;
  sr_company_name : option string;
  sr_sector : pyval;
  sr_upcoming_earnings_date : option date;
  sr_raw_json : dict;
}.

Record StoredScore := mkStoredScore {
  sc_run_id : Z;
  sc_ticker : string;
  sc_evidence_id : option Z;
  sc_values : pyval;
}.

Record UploadDb := mkUploadDb {
  upload_runs : gmap Z UploadRow;
  raw_rows : list StoredRow;
  scores : list StoredScore;
  upload_files : gset string;
  next_run_id : Z;
}.

Class UploadServices := {
  max_upload_size_mb : Z;
  max_csv_rows : option Z;
  max_csv_columns : option Z;
  column_aliases : list (string * list string);
  normalize_sector_result : option string -> pyval;
  parse_earnings_date : option string -> option date;
  (** [score_rows_v2], as ticker and values. *)
  score_rows_v2 : list MappedCsvRow -> result (list (string * pyval));
  redact_text : string -> string;
}.

Definition UploadProcessingError {A} (msg : string) : result A := raise "UploadProcessingError" msg.

(** [s[:n]] and [s.endswith(t)]. *)
Definition prefix_of (n : nat) (s : string) : string := String.substring 0 n s.
Definition endswith (s t : string) : bool :=
  String.eqb (String.substring (String.length s - String.length t) (String.length t) s) t.

Definition set_files (f : gset string) (db : UploadDb) : UploadDb :=
  mkUploadDb (upload_runs db) (raw_rows db) (scores db) f (next_run_id db).
Definition put_run (i : Z) (row : UploadRow) (db : UploadDb) : UploadDb :=
  mkUploadDb (<[i := row]> (upload_runs db)) (raw_rows db) (scores db) (upload_files db)
    (next_run_id db).

Section Uploads.
Context `{Text : PyText} `{UploadServices}.

Definition _raw_company_row_from_mapped (run_id : Z) (row : MappedCsvRow) : StoredRow :=
  let raw_earnings_value := dict_find "upcoming_earnings_date" (mr_canonical row) in
  let raw_json := match raw_earnings_value with
                  | Some v => dict_set "upcoming_earnings_date" (VStr v) (mr_raw row)
                  | None => mr_raw row
                  end in
  mkStoredRow run_id (mr_row_number row) (mr_ticker row) (mr_company_name row)
    (normalize_sector_result (mr_sector row)) (parse_earnings_date raw_earnings_value) raw_json.

(** Loading, mapping and validation. *)
Definition import_rows (file : string -> option string) : result (list MappedCsvRow) :=
  rows ← load_csv_rows file max_csv_rows max_csv_columns;
  mapped ← map_csv_rows rows column_aliases;
  _ ← validate_mapped_rows mapped;
  Ok mapped.

Definition reported_class (cls : string) : bool := smem cls ["CsvLoadError"; "CsvValidationError"].

Definition failed_run (filename path msg : string) : UploadRow :=
  mkUploadRow filename path "FAILED" (Some 0)
    (Some (prefix_of 500 (string_map (fun c => if Ascii.eqb c LF then " "%char else c)
                            (redact_text msg)))).

(** The part of [create_upload_run] inside its [try]; the result is the id of the run. *)
Definition process_upload (filename : string) (u : Upload) : ST UploadDb Z :=
  do! st_lift (up_fence u) in
  let! db := st_get in
  let run := next_run_id db in
  do! st_modify (fun db => mkUploadDb
        (<[run := mkUploadRow filename (up_path u) "VALIDATING" None None]> (upload_runs db))
        (raw_rows db) (scores db) (upload_files db) (run + 1)) in
  match import_rows (up_text u) with
  | Raise (Exn cls msg) =>
      if reported_class cls then
        do! st_modify (put_run run (failed_run filename (up_path u) msg)) in st_ret run
      else st_raise cls msg
  | Raise e => st_lift (Raise e)
  | Ok mapped =>
      let rows := map (_raw_company_row_from_mapped run) (List.filter has_ticker mapped) in
      let! scored := st_lift (score_rows_v2 mapped) in
      let scored := map (fun tv => mkStoredScore run tv.1 None tv.2) scored in
      if negb (up_unchanged u) then
        st_raise "UploadProcessingError" "UPLOAD_SOURCE_CHANGED_DURING_ACQUISITION"
      else
        do! st_modify (fun db => mkUploadDb
              (<[run := mkUploadRow filename (up_path u) "COMPLETED"
                          (Some (Z.of_nat (length rows))) None]> (upload_runs db))
              (raw_rows db ++ rows) (scores db ++ scored) (upload_files db) (next_run_id db)) in
        st_ret run
  end.

(** The handler: an exception after the file is saved rolls the database back and removes
    the file. *)
Definition create_upload_run (u : Upload) : ST UploadDb Z := fun db =>
  let filename := match up_filename u with
                  | Some f => if String.eqb f "" then "upload.csv" else f
                  | None => "upload.csv"
                  end in
  if negb (endswith (casefold filename) ".csv") then
    (UploadProcessingError "Please upload a .csv file.", db)
  else if max_upload_size_mb * 1024 * 1024 <? up_size u then
    (UploadProcessingError "Upload is too large.", db)
  else if negb (up_saved u) then (UploadProcessingError "Upload file could not be saved.", db)
  else
    match process_upload filename u (set_files (upload_files db ∪ {[up_path u]}) db) with
    | (Ok run, db') => (Ok run, db')
    | (Raise e, _) => (Raise e, set_files (upload_files db ∖ {[up_path u]}) db)
    end.

End Uploads.
