(* ===== verification/UploadFacts.v ===== *)
(** * Uploads: theorems

    The number pattern admits only texts that [float] accepts, an upload is stored whole or
    not at all, and what a row without a ticker does to it. *)
From Stdlib Require Import ZArith Lia List String Ascii Bool.
From stdpp Require Import base gmap list strings.
From S2P Require Import Prelude PyDate PyFloat PyValue Canonical Signals CsvImport CsvFacts UploadRun.
Local Open Scope string_scope.
Local Open Scope list_scope.
Local Open Scope Z_scope.
Local Open Scope st_scope.

(** ** Numbers *)

Lemma digit_not_space c : is_digit c = true -> is_space c = false.
Proof. destruct c as [[] [] [] [] [] [] [] []]; vm_compute; done. Qed.

Definition no_space (s : string) : Prop := forall c, In c (list_ascii_of_string s) -> is_space c = false.

Lemma strip_no_space s : no_space s -> strip s = s.
Proof.
  intros H. unfold strip. assert (lstrip s = s) as ->.
  { destruct s as [|c s]; [done|]. simpl. by rewrite (H c) by (by left). }
  induction s as [|c s IH]; [done|]. simpl. rewrite IH by (intros d Hd; apply H; by right).
  destruct s; [by rewrite (H c) by (by left)|done].
Qed.

Lemma all_digits_scan s : all_digits s = true -> forall acc k, exists acc',
  scan_digits acc k s = (acc', k + Z.of_nat (String.length s), "").
Proof.
  induction s as [|c s IH]; intros Hs acc k; simpl in *; [exists acc; do 2 f_equal; lia|].
  apply andb_true_iff in Hs as [Hc Hs]. unfold is_digit in Hc. destruct (digit_value c) as [d|]; [|done].
  destruct (IH Hs (10 * acc + d) (k + 1)) as [acc' ->]. exists acc'. do 2 f_equal. lia.
Qed.

Lemma fraction_scan s : forall seen acc k, digits_then_fraction seen s = true ->
  (seen = true -> 0 < k) -> 0 <= k ->
  exists acc' k' rest, scan_digits acc k s = (acc', k', rest) /\ 0 <= k' /\
    (rest = "" /\ 0 < k' \/
     exists frac, rest = String "." frac /\ all_digits frac = true /\
       (0 < k' \/ frac <> "")).
Proof.
  induction s as [|c s IH]; intros seen acc k Hs Hk H0; simpl in *.
  { exists acc, k, "". split_and!; auto. }
  destruct (Ascii.eqb_spec c ".") as [->|Hc].
  - apply andb_true_iff in Hs as [Hs Hne]. exists acc, k, (String "." s). split_and!; [done|done|].
    right. exists s. split_and!; [done|done|]. destruct seen; [left; auto|right].
    intros ->. discriminate.
  - apply andb_true_iff in Hs as [Hd Hs]. unfold is_digit in Hd. destruct (digit_value c) as [d|]; [|done].
    apply (IH true); [done|lia|lia].
Qed.

Lemma pattern_unsigned s : digits_then_fraction false s = true ->
  exists x, parse_unsigned_float s = Some x.
Proof.
  intros Hs. unfold parse_unsigned_float.
  assert (Hw : forall w, In w ["inf"; "infinity"; "nan"] -> String.eqb (casefold s) w = false).
  { intros w Hw. destruct s as [|c s]; [done|]. cbn [casefold string_map] in *.
    change (casefold (String c s)) with (String (lower_ascii c) (string_map lower_ascii s)).
    assert (Hc : c = "."%char \/ is_digit c = true).
    { simpl in Hs. destruct (Ascii.eqb_spec c "."); [by left|right].
      by apply andb_true_iff in Hs as [? _]. }
    assert (Hl : lower_ascii c <> "i"%char /\ lower_ascii c <> "n"%char).
    { destruct Hc as [->|Hc]; [done|]. clear -Hc.
      destruct c as [[] [] [] [] [] [] [] []]; vm_compute in Hc |- *; try done; split; done. }
    apply String.eqb_neq. simpl in Hw. destruct Hw as [<-|[<-|[<-|[]]]]; intros E; injection E; tauto. }
  unfold smem. simpl existsb. rewrite !Hw by (simpl; auto). cbn [orb].
  destruct (fraction_scan s false 0 0 Hs) as (acc & k & rest & -> & Hk & Hr); [done|lia|].
  destruct Hr as [[-> Hp]|(frac & -> & Hd & Hp)].
  - rewrite Z.add_0_r. destruct (Z.ltb_spec 0 k); [|lia]. simpl. eauto.
  - destruct (all_digits_scan frac Hd acc 0) as [acc' ->].
    assert (0 < k + (0 + Z.of_nat (String.length frac))).
    { destruct Hp as [|Hne]; [lia|]. destruct frac; [done|]. simpl. lia. }
    destruct (Z.ltb_spec 0 (k + (0 + Z.of_nat (String.length frac)))); [|lia]. simpl. eauto.
Qed.

Lemma pattern_no_space s : forall seen, digits_then_fraction seen s = true -> no_space s.
Proof.
  induction s as [|c s IH]; intros seen Hs d Hd; [done|]. simpl in Hs, Hd.
  destruct (Ascii.eqb_spec c ".") as [->|Hc].
  - destruct Hd as [<-|Hd]; [done|]. apply andb_true_iff in Hs as [Hs _]. clear -Hs Hd.
    induction s as [|c s IH]; [done|]. simpl in *. apply andb_true_iff in Hs as [Hc Hs].
    destruct Hd as [<-|Hd]; [by apply digit_not_space|auto].
  - apply andb_true_iff in Hs as [Hc' Hs]. destruct Hd as [<-|Hd]; [by apply digit_not_space|].
    by eapply IH.
Qed.

(** [float] accepts every text that matches the pattern. *)
Lemma pattern_parses s : matches_number s = true -> exists x, parse_float s = Some x.
Proof.
  intros Hs. unfold parse_float. destruct s as [|c s]; [done|]. unfold matches_number in Hs.
  assert (Hns : no_space (String c s)).
  { destruct (Ascii.eqb_spec c "+") as [->|H1].
    { intros d [<-|Hd]; [done|]. exact (pattern_no_space s false Hs d Hd). }
    destruct (Ascii.eqb_spec c "-") as [->|H2].
    { intros d [<-|Hd]; [done|]. exact (pattern_no_space s false Hs d Hd). }
    exact (pattern_no_space (String c s) false Hs). }
  rewrite strip_no_space by done.
  destruct (Ascii.eqb_spec c "+") as [->|H1]; [by apply pattern_unsigned|].
  destruct (Ascii.eqb_spec c "-") as [->|H2].
  - simpl in Hs. destruct (pattern_unsigned s Hs) as [x ->]. simpl. eauto.
  - destruct (pattern_unsigned (String c s) Hs) as [x Hx]. exists x. rewrite <- Hx.
    destruct c as [[] [] [] [] [] [] [] []]; try done; congruence.
Qed.

(** A parse result has a value exactly when it is marked parsed, and otherwise a reason;
    [float] never raises on a text that passed the pattern. *)
Theorem parsed_iff_value `{Text : PyText} value :
  let r := parse_financial_number value in
  (np_parsed r = true <-> is_Some (np_value r)) /\ (np_parsed r = false <-> is_Some (np_reason r)) /\
  np_reason r <> Some "unreachable".
Proof.
  assert (Hr : forall raw n reason, reason <> "unreachable" -> let r := rejected raw n reason in
    (np_parsed r = true <-> is_Some (np_value r)) /\ (np_parsed r = false <-> is_Some (np_reason r)) /\
    np_reason r <> Some "unreachable").
  { intros raw n reason Hne. simpl. split_and!; [split; [done|by intros []]|split; [eauto|done]|].
    congruence. }
  assert (Ha : forall x raw n, let r := accepted x raw n in
    (np_parsed r = true <-> is_Some (np_value r)) /\ (np_parsed r = false <-> is_Some (np_reason r)) /\
    np_reason r <> Some "unreachable").
  { intros x raw n. simpl. split_and!; [split; [eauto|done]|split; [done|by intros []]|done]. }
  assert (Hf : forall x raw, let r := _result_from_real x raw in
    (np_parsed r = true <-> is_Some (np_value r)) /\ (np_parsed r = false <-> is_Some (np_reason r)) /\
    np_reason r <> Some "unreachable").
  { intros [] raw; unfold _result_from_real; first [by apply Hr|apply Ha]. }
  cbv zeta. destruct value; try (by apply Hr); try apply Hf.
  all: unfold parse_financial_number, parse_text; cbv zeta.
  all: destruct (smem _ MISSING_TOKENS); [by apply Hr|].
  all: destruct (match unparenthesize _ with Some _ => _ | None => _ end) as [negative text].
  all: destruct (match last_char _ with Some _ => _ | None => _ end) as [normalized multiplier].
  all: destruct (smem _ MISSING_TOKENS); [by apply Hr|].
  all: destruct (matches_number normalized) eqn:Hm; [|by apply Hr].
  all: destruct (pattern_parses normalized Hm) as [x ->]; apply Ha.
Qed.

(** ** Uploads *)

Section Uploads.
Context `{Text : PyText} `{US : UploadServices}.

Lemma import_rows_spec file mapped : import_rows file = Ok mapped ->
  validate_mapped_rows mapped = Ok tt.
Proof.
  unfold import_rows. intros E. apply result_bind_Ok in E as (rows & _ & E).
  apply result_bind_Ok in E as (m & _ & E). apply result_bind_Ok in E as ([] & Hv & E).
  apply Ok_inj in E. by subst.
Qed.

(** What the processing of an upload leaves behind when it returns. *)
Definition upload_failed (u : Upload) (run : Z) (db db' : UploadDb) : Prop :=
  exists row, upload_runs db' = <[run := row]> (upload_runs db) /\ ur_status row = "FAILED" /\
    ur_row_count row = Some 0 /\ raw_rows db' = raw_rows db /\ scores db' = scores db.
Definition upload_completed (u : Upload) (run : Z) (db db' : UploadDb) : Prop :=
  exists row mapped added scored, import_rows (up_text u) = Ok mapped /\
    upload_runs db' = <[run := row]> (upload_runs db) /\ ur_status row = "COMPLETED" /\
    added = map (_raw_company_row_from_mapped run) (List.filter has_ticker mapped) /\
    ur_row_count row = Some (Z.of_nat (length added)) /\
    raw_rows db' = raw_rows db ++ added /\ scores db' = scores db ++ scored /\
    added <> [] /\ NoDup (map sr_ticker added) /\
    Forall (fun s => sc_run_id s = run /\ sc_evidence_id s = None) scored.

Lemma process_upload_spec filename u db run db' :
  process_upload filename u db = (Ok run, db') ->
  run = next_run_id db /\ upload_files db' = upload_files db /\
  (upload_failed u run db db' \/ upload_completed u run db db').
Proof.
  unfold process_upload. intros E. apply st_bind_Ok in E as ([] & d1 & E1 & E).
  apply st_lift_Ok in E1 as [_ ->]. change (st_bind st_get ?f db) with (f db db) in E. cbv beta zeta in E.
  apply st_bind_Ok in E as ([] & d1 & E1 & E). injection E1 as <-.
  destruct (import_rows (up_text u)) as [mapped|[cls msg|]] eqn:Hi; [| |done].
  - apply st_bind_Ok in E as (scored & d2 & E2 & E). apply st_lift_Ok in E2 as [_ ->].
    destruct (up_unchanged u); [|done]. simpl in E. apply st_bind_Ok in E as ([] & d2 & E2 & E).
    injection E2 as <-. injection E as <- <-. split; [done|]. split; [done|]. right.
    pose proof (import_rows_spec _ _ Hi) as Hv. apply validated in Hv as [(row & Hin & Ht) ND].
    set (added := map _ _). eexists _, mapped, added, _. split; [done|].
    split; [simpl; by rewrite insert_insert_eq|]. split_and!; try done.
    + intros Ha. assert (Hf : In row (List.filter has_ticker mapped)) by (by apply filter_In).
      unfold added in Ha. apply map_eq_nil in Ha. by rewrite Ha in Hf.
    + unfold added. rewrite map_map. exact ND.
    + rewrite Forall_fmap. apply Forall_true. done.
  - destruct (reported_class cls); [|done]. apply st_bind_Ok in E as ([] & d2 & E2 & E).
    injection E2 as <-. injection E as <- <-. split; [done|]. split; [done|]. left.
    exists (failed_run filename (up_path u) msg). simpl. by rewrite insert_insert_eq.
Qed.

(** C15: An upload is stored whole or not at all.  When the handler raises, the database and
    the upload directory are as before; when it returns, the file is kept and the new run
    is either FAILED without rows, or COMPLETED with one row per mapped row that has a
    ticker, all tickers distinct, and scores that claim no evidence. *)
Theorem upload_all_or_nothing u db r db' :
  up_path u ∉ upload_files db ->
  create_upload_run u db = (r, db') ->
  match r with
  | Raise _ => db' = db
  | Ok run => run = next_run_id db /\ upload_files db' = upload_files db ∪ {[up_path u]} /\
      (upload_failed u run db db' \/ upload_completed u run db db')
  end.
Proof.
  intros Hfresh E. unfold create_upload_run in E. cbv zeta in E.
  destruct (negb _); [injection E as <- <-; done|].
  destruct (_ <? up_size u); [injection E as <- <-; done|].
  destruct (negb (up_saved u)); [injection E as <- <-; done|].
  destruct (process_upload _ u _) as [[run|e] d] eqn:Ep; injection E as <- <-.
  - apply process_upload_spec in Ep as (-> & Hfiles & Hcases). done.
  - unfold set_files. destruct db. simpl in *. f_equal. set_solver.
Qed.

(** C36: A file that loads and has one row with an empty ticker cell aborts the upload with an
    [AttributeError]: the run is not recorded as FAILED with a message, although the
    validation and the filter that follow expect rows without a ticker. *)
Theorem blank_ticker_aborts_upload u db rows column row :
  up_path u ∉ upload_files db ->
  (forall f, up_filename u = Some f -> endswith (casefold f) ".csv" = true /\ f <> "") ->
  up_size u <= max_upload_size_mb * 1024 * 1024 -> up_saved u = true -> up_fence u = Ok tt ->
  load_csv_rows (up_text u) max_csv_rows max_csv_columns = Ok rows ->
  column_for (columns_of rows column_aliases) "ticker" = Some column ->
  In row rows -> _clean_value (dget row column) = None ->
  create_upload_run u db =
    (raise "AttributeError" "'NoneType' object has no attribute 'upper'", db).
Proof.
  intros Hfresh Hname Hsize Hsaved Hfence Hload Hcol Hin Hblank. unfold create_upload_run. cbv zeta.
  assert (Hf : endswith (casefold (match up_filename u with
    | Some f => if String.eqb f "" then "upload.csv" else f | None => "upload.csv" end)) ".csv" = true).
  { destruct (up_filename u) as [f|]; [|reflexivity]. destruct (Hname f eq_refl) as [He Hne].
    apply String.eqb_neq in Hne. by rewrite Hne. }
  rewrite Hf. simpl negb. cbv iota. destruct (Z.ltb_spec (max_upload_size_mb * 1024 * 1024) (up_size u)); [lia|].
  rewrite Hsaved. simpl negb. cbv iota. unfold process_upload. rewrite Hfence.
  assert (Hi : import_rows (up_text u) =
    raise "AttributeError" "'NoneType' object has no attribute 'upper'").
  { unfold import_rows. rewrite Hload. simpl. by rewrite (blank_ticker_raises rows column_aliases column row). }
  unfold st_bind, st_lift, st_get, st_modify. rewrite Hi. simpl. f_equal.
  unfold set_files. destruct db. simpl in *. f_equal. set_solver.
Qed.

End Uploads.
