(* ===== verification/UploadExamples.v ===== *)
(** * Examples of uploads

    A small table as a file, a table with an empty ticker cell, and the theorems of
    [CsvFacts] and [UploadFacts] applied to them. *)
From Stdlib Require Import ZArith Lia List String Ascii Bool.
From stdpp Require Import base gmap list strings.
From S2P Require Import Prelude PyDate PyFloat PyValue Signals CsvImport CsvFacts UploadRun UploadFacts.
Local Open Scope string_scope.
Local Open Scope list_scope.
Local Open Scope Z_scope.

#[local] Instance plain_text : PyText := {| str_other := fun _ => ""; set_order := fun l => l |}.

#[local] Instance services : UploadServices := {|
  max_upload_size_mb := 10;
  max_csv_rows := Some 100;
  max_csv_columns := Some 10;
  column_aliases := [("ticker", ["Symbol"; "Ticker"]); ("company_name", ["Description"])];
  normalize_sector_result := fun s => of_opt VStr s;
  parse_earnings_date := fun _ => None;
  score_rows_v2 := fun rows => Ok (map (fun r => (mr_ticker r, VNone)) rows);
  redact_text := fun s => s;
|}.

Definition header : list string := ["Symbol"; "Description"].
Definition records : list (list string) := [["msft"; quoted_text "Micro, 'soft'|"]; ["AAPL"; "Apple"]].
Definition file (records : list (list string)) (encoding : string) : option string :=
  if String.eqb encoding "utf-8-sig" then Some (write_rows (header :: records)) else None.

Definition upload (records : list (list string)) : Upload :=
  mkUpload (Some "stocks.CSV") 100 true "uploads/1" (file records) (Ok tt) true.
Definition empty_db : UploadDb := mkUploadDb ∅ [] [] ∅ 1.

Lemma load_roundtrip_witness :
  load_csv_rows (file records) None None =
  Ok (map (fun values => combine header (map VStr values)) records).
Proof.
  apply load_roundtrip; [reflexivity|reflexivity|repeat constructor; vm_compute; discriminate|].
  repeat constructor; vm_compute; discriminate.
Defined.

Lemma loaded_rows_shape_witness :
  match load_csv_rows (file records) (Some 100) (Some 10) with
  | Ok rows => exists h, NoDup (map normalize_name h) /\
      Forall (fun row => map fst row = h /\
        exists name value, In (name, VStr value) row /\ blank value = false) rows
  | Raise _ => False
  end.
Proof.
  destruct (load_csv_rows (file records) (Some 100) (Some 10)) as [rows|e] eqn:E.
  - destruct (loaded_rows_shape _ _ _ _ E) as (h & A & _ & B & _). exists h. exact (conj A B).
  - vm_compute in E. discriminate.
Defined.

Lemma load_failures_are_reported_witness :
  exists msg, load_csv_rows (file [["msft"]]) None None = Raise (Exn "CsvLoadError" msg).
Proof.
  destruct (load_csv_rows (file [["msft"]]) None None) as [rows|e] eqn:E.
  - vm_compute in E. discriminate.
  - destruct (load_failures_are_reported _ _ _ _ E) as [msg ->]. exists msg. reflexivity.
Defined.

Lemma mapping_ignores_set_order_witness :
  match load_csv_rows (file records) None None with
  | Ok rows =>
      map_csv_rows (Text := {| str_other := fun _ => ""; set_order := fun l => l |}) rows column_aliases =
      map_csv_rows (Text := {| str_other := fun _ => ""; set_order := @rev string |}) rows column_aliases
  | Raise _ => False
  end.
Proof.
  destruct (load_csv_rows (file records) None None) as [rows|e] eqn:E.
  - apply (mapping_ignores_set_order _ _ _ _ _ _ _ _ E); intros l; [reflexivity|].
    symmetry. apply Permutation.Permutation_rev.
  - vm_compute in E. discriminate.
Defined.

Example upload_completes :
  match create_upload_run (upload records) empty_db with
  | (Ok run, db) => (run, map sr_ticker (raw_rows db), ur_status <$> upload_runs db !! run) =
      (1, ["MSFT"; "AAPL"], Some "COMPLETED")
  | _ => False
  end.
Proof. vm_compute. reflexivity. Qed.

Lemma upload_all_or_nothing_witness :
  match create_upload_run (upload records) empty_db with
  | (Ok run, db') => run = 1 /\
      (upload_failed (upload records) run empty_db db' \/ upload_completed (upload records) run empty_db db')
  | _ => False
  end.
Proof.
  destruct (create_upload_run (upload records) empty_db) as [r db'] eqn:E.
  assert (Hfresh : up_path (upload records) ∉ upload_files empty_db) by apply not_elem_of_empty.
  pose proof (upload_all_or_nothing (upload records) empty_db r db' Hfresh E) as H.
  destruct r as [run|e]; [|vm_compute in E; discriminate].
  destruct H as (A & _ & B). exact (conj A B).
Defined.

(** The second row has a description and no ticker. *)
Definition blank_records : list (list string) := [["msft"; "Microsoft"]; [" "; "Nameless"]].

Lemma blank_ticker_aborts_upload_witness :
  create_upload_run (upload blank_records) empty_db =
    (raise "AttributeError" "'NoneType' object has no attribute 'upper'", empty_db).
Proof.
  apply (blank_ticker_aborts_upload (upload blank_records) empty_db
           (map (fun values => combine header (map VStr values)) blank_records) "Symbol"
           [("Symbol", VStr " "); ("Description", VStr "Nameless")]).
  - apply not_elem_of_empty.
  - intros f E. injection E as <-. split; [reflexivity|discriminate].
  - vm_compute. discriminate.
  - reflexivity.
  - reflexivity.
  - vm_compute. reflexivity.
  - vm_compute. reflexivity.
  - simpl. auto.
  - reflexivity.
Defined.
