(* ===== verification/Fundamentals.v ===== *)
(** * Fundamental components: [fundamental_components_v2.py]

    The ten component scores of the fundamentals of a company.  The values are the canonical
    cells of a row as they were loaded, read through [parse_financial_number]; the thresholds
    are a mapping of the configuration.  Two parts follow: the configuration with its validation, and the score of a row. *)
From Stdlib Require Import ZArith Lia List String Bool.
From stdpp Require Import base list strings.
From S2P Require Import Prelude PyFloat PyValue Signals ScoreWarnings UploadRun.
Local Open Scope string_scope.
Local Open Scope list_scope.
Local Open Scope Z_scope.

Module Components.

Definition COMPONENT_SCORE_KEYS : list string :=
  ["growth_quality_score"; "profitability_quality_score"; "fcf_quality_score";
   "earnings_quality_score"; "capital_efficiency_score"; "balance_sheet_quality_score";
   "valuation_quality_score"; "forward_quality_score"; "shareholder_quality_score";
   "liquidity_risk_score"].

Definition COMPONENT_FORMULA_FIELDS : list (string * list string) :=
  [("growth_quality_score",
     ["revenue_growth_quarterly_yoy"; "revenue_growth_ttm_yoy"; "revenue_growth_5y_cagr";
      "eps_growth_quarterly_yoy"; "eps_growth_ttm_yoy"; "ebitda_growth_ttm_yoy";
      "fcf_growth_ttm_yoy"; "gross_profit_growth_ttm_yoy"; "net_income_growth_ttm_yoy";
      "total_revenue_ttm"]);
   ("profitability_quality_score",
     ["gross_margin_ttm"; "gross_margin_annual"; "ebitda_margin_ttm"; "operating_margin_ttm";
      "operating_margin_annual"; "net_margin_ttm"; "net_margin_annual"; "roe_ttm"; "roa_ttm";
      "roa_annual"; "roic_ttm"; "roce_ttm"; "return_on_total_capital_ttm"]);
   ("fcf_quality_score",
     ["fcf_ttm"; "fcf_margin_ttm"; "fcf_growth_ttm_yoy"; "pfcf"; "ev_fcf";
      "operating_cash_flow_per_share_ttm"; "capex_ttm"; "capex_growth_ttm_yoy"]);
   ("earnings_quality_score",
     ["sloan_ratio_ttm"; "net_income_ttm"; "fcf_ttm"; "operating_cash_flow_per_share_ttm"]);
   ("capital_efficiency_score",
     ["roic_ttm"; "roic_annual"; "return_on_total_capital_ttm"; "roa_ttm"; "roa_annual";
      "asset_turnover_ttm"; "asset_turnover_annual"; "total_assets_growth_annual_yoy"]);
   ("balance_sheet_quality_score",
     ["total_assets_annual"; "total_liabilities_annual"; "working_capital_per_share_annual";
      "working_capital_per_share_quarterly"; "quick_ratio_quarterly"; "quick_ratio_annual";
      "cash_short_term_investments_annual"; "current_ratio"; "net_debt_to_ebitda";
      "debt_to_ebitda_annual"; "debt_to_equity"; "debt_to_assets"; "total_debt_to_capital_annual";
      "ebitda_interest_coverage_ttm"]);
   ("valuation_quality_score",
     ["pe_ratio"; "forward_pe"; "earnings_yield_ttm"; "ps_ratio"; "ev_revenue"; "ev_ebitda"; "pfcf";
      "ev_fcf"; "peg_ratio"]);
   ("forward_quality_score",
     ["eps_estimate_annual"; "eps_estimate_quarterly"; "revenue_estimate_annual";
      "net_income_estimate_ntm"; "ebit_estimate_ntm"; "cash_short_term_investments_estimate_annual";
      "capex_estimate_ntm"; "analyst_rating"]);
   ("shareholder_quality_score",
     ["buyback_yield"; "dividend_yield_ttm"; "dividend_payout_ratio_ttm";
      "total_common_shares_outstanding"]);
   ("liquidity_risk_score",
     ["dollar_volume_10d"; "dollar_volume_30d"; "dollar_volume_60d"; "free_float";
      "relative_volume_1d"; "volume_change_1d_pct"; "price_change_1d_pct"; "beta_1y"; "beta_3y";
      "tradingview_atr_pct_14d"])].

(** Literals: whole numbers and hundredths. *)
Definition int (n : Z) : float := float_of_Z n.
Definition cent (n : Z) : float := float_ratio n 100.

Definition _clamp_to (value lower upper : float) : float :=
  py_round_digits 4 (fmax lower (fmin upper value)).
Definition _clamp (value : float) : float := _clamp_to value f0 (int 10).

Section Components.
Context `{Text : PyText}.

(** ** Readings *)

Definition _number (value : pyval) : option float := np_value (parse_financial_number value).
Definition number_of (values : dict) (field : string) : option float := _number (dget values field).

Definition _higher_better_value (value : option float) (poor excellent : float) : option float :=
  (fun v => if feq excellent poor then int 5
            else _clamp (fmul (fdiv (fsub v poor) (fsub excellent poor)) (int 10))) <$> value.
Definition _lower_better_value (value : option float) (poor excellent : float) : option float :=
  (fun v => if feq poor excellent then int 5
            else _clamp (fmul (fdiv (fsub poor v) (fsub poor excellent)) (int 10))) <$> value.
Definition _higher_better (values : dict) (field : string) (poor excellent : float) : option float :=
  _higher_better_value (number_of values field) poor excellent.
Definition _lower_better (values : dict) (field : string) (poor excellent : float) : option float :=
  _lower_better_value (number_of values field) poor excellent.
Definition _ratio_score (value : option float) (poor excellent : float) : option float :=
  _higher_better_value value poor excellent.
Definition _inverse_ratio_score (value : option float) (poor excellent : float) : option float :=
  _lower_better_value value poor excellent.

Definition _positive_amount (values : dict) (field : string) : option float :=
  (fun v => if fgt v f0 then int 10 else f0) <$> number_of values field.

Definition _range_score (values : dict) (field : string) (low_bad ideal_low ideal_high high_bad : float)
    : option float :=
  (fun v => if fle ideal_low v && fle v ideal_high then int 10
            else if flt v ideal_low
            then _clamp (fmul (fdiv (fsub v low_bad) (fsub ideal_low low_bad)) (int 10))
            else _clamp (fmul (fdiv (fsub high_bad v) (fsub high_bad ideal_high)) (int 10)))
  <$> number_of values field.

(** The scores that are present, with their weights. *)
Definition present_scores (scores : list (option float * float)) : list (float * float) :=
  omap (fun sw => (fun s => (s, sw.2)) <$> sw.1) scores.
Definition _weighted_average_present (scores : list (option float * float)) : float :=
  match present_scores scores with
  | [] => int 5
  | present =>
      let total_weight := fsum (map snd present) in
      _clamp (fdiv (fsum (map (fun sw => fmul sw.1 sw.2) present)) total_weight)
  end.

Definition _trend_bonus (values : dict) (current_field baseline_field : string) : float :=
  match number_of values current_field, number_of values baseline_field with
  | Some current, Some baseline =>
      if fge current baseline then cent 30
      else if flt current (fsub baseline (int 2)) then cent (-40) else f0
  | _, _ => f0
  end.

Definition _declined (current baseline : option float) : bool :=
  match current, baseline with Some c, Some b => flt c b | _, _ => false end.
Definition _is_negative (value : option float) : bool :=
  match value with Some v => flt v f0 | None => false end.
(** [value is not None and value > limit], and the like. *)
Definition above (value : option float) (limit : float) : bool :=
  match value with Some v => fgt v limit | None => false end.
Definition below (value : option float) (limit : float) : bool :=
  match value with Some v => flt v limit | None => false end.
Definition at_most (value : option float) (limit : float) : bool :=
  match value with Some v => fle v limit | None => false end.
Definition at_least (value : option float) (limit : float) : bool :=
  match value with Some v => fge v limit | None => false end.

Definition _capex_burden_score (values : dict) : option float :=
  (fun capex =>
     if fge capex f0 then int 8
     else match number_of values "fcf_ttm" with
          | None => int 3
          | Some fcf =>
              if fle fcf f0 then int 3
              else _clamp (fsub (int 10) (fmin (int 7) (fmul (fdiv (fabs capex) fcf) (int 3))))
          end) <$> number_of values "capex_ttm".
Definition _capex_estimate_score (values : dict) : option float :=
  (fun v => if flt v f0 then int 7 else int 5) <$> number_of values "capex_estimate_ntm".
Definition _buyback_score (values : dict) : option float :=
  (fun v => _clamp (fadd (int 5) v)) <$> number_of values "buyback_yield".
Definition _dividend_yield_score (values : dict) : option float :=
  (fun v => if fle v f0 then int 5
            else if fle v (int 6) then _clamp (fadd (int 5) (fmul v (cent 60)))
            else int 6) <$> number_of values "dividend_yield_ttm".
Definition _difference_score (values : dict) (current_field baseline_field : string) : option float :=
  match number_of values current_field, number_of values baseline_field with
  | Some current, Some baseline => Some (if fge current baseline then int 8 else int 4)
  | _, _ => None
  end.
Definition _liabilities_to_assets (values : dict) : option float :=
  match number_of values "total_liabilities_annual", number_of values "total_assets_annual" with
  | Some liabilities, Some assets => if fle assets f0 then None else Some (fdiv liabilities assets)
  | _, _ => None
  end.

Definition _analyst_rating_bonus (value : pyval) : float :=
  match value with
  | VNone => f0
  | value =>
      match _number value with
      | Some numeric => _clamp_to (fmul (fsub (int 3) numeric) (cent 20)) (cent (-30)) (cent 30)
      | None =>
          let text := casefold (strip (py_str value)) in
          if existsb (contains text) ["strong buy"; "buy"; "outperform"] then cent 30
          else if existsb (contains text) ["sell"; "underperform"] then cent (-30)
          else f0
      end
  end.

(** ** The ten scores *)

(** A weighted entry of a component. *)
Definition higher values field poor excellent weight : option float * float :=
  (_higher_better values field (int poor) (int excellent), cent weight).
Definition lower values field poor excellent weight : option float * float :=
  (_lower_better values field (int poor) (int excellent), cent weight).
Definition positive values field weight : option float * float := (_positive_amount values field, cent weight).

Definition growth_quality_score (values : dict) : float :=
  let base := _weighted_average_present
    [higher values "revenue_growth_quarterly_yoy" (-10) 25 80;
     higher values "revenue_growth_ttm_yoy" (-10) 25 140;
     higher values "revenue_growth_5y_cagr" 0 20 100;
     higher values "eps_growth_quarterly_yoy" (-10) 25 70;
     higher values "eps_growth_ttm_yoy" (-10) 25 110;
     higher values "ebitda_growth_ttm_yoy" (-10) 25 80;
     higher values "fcf_growth_ttm_yoy" (-20) 30 110;
     higher values "gross_profit_growth_ttm_yoy" (-10) 25 80;
     higher values "net_income_growth_ttm_yoy" (-10) 25 120;
     positive values "total_revenue_ttm" 40] in
  let penalty := f0 in
  let penalty := if above (number_of values "revenue_growth_ttm_yoy") (int 15)
                    && _is_negative (number_of values "net_income_growth_ttm_yoy")
                 then fadd penalty f1 else penalty in
  let penalty := if above (number_of values "eps_growth_ttm_yoy") (int 15)
                    && _is_negative (number_of values "fcf_growth_ttm_yoy")
                 then fadd penalty f1 else penalty in
  _clamp (fsub base penalty).

Definition profitability_quality_score (values : dict) : float :=
  let base := _weighted_average_present
    [higher values "gross_margin_ttm" 10 60 80;
     higher values "gross_margin_annual" 10 60 50;
     higher values "ebitda_margin_ttm" 5 35 80;
     higher values "operating_margin_ttm" 0 25 120;
     higher values "operating_margin_annual" 0 25 70;
     higher values "net_margin_ttm" 0 20 110;
     higher values "net_margin_annual" 0 20 70;
     higher values "roe_ttm" 0 25 70;
     higher values "roa_ttm" 0 15 110;
     higher values "roa_annual" 0 15 70;
     higher values "roic_ttm" 0 20 110;
     higher values "roce_ttm" 0 20 60;
     higher values "return_on_total_capital_ttm" 0 20 80] in
  _clamp (fadd base (_trend_bonus values "operating_margin_ttm" "operating_margin_annual")).

Definition fcf_quality_score (values thresholds : dict) : result float :=
  let base := _weighted_average_present
    [positive values "fcf_ttm" 150;
     higher values "fcf_margin_ttm" 0 20 130;
     higher values "fcf_growth_ttm_yoy" (-20) 30 100;
     lower values "pfcf" 35 8 70;
     lower values "ev_fcf" 35 8 70;
     positive values "operating_cash_flow_per_share_ttm" 90;
     (_capex_burden_score values, cent 70)] in
  let fcf_growth := number_of values "fcf_growth_ttm_yoy" in
  high ← match number_of values "capex_growth_ttm_yoy" with
         | None => Ok false
         | Some growth => limit ← float_item thresholds "capex_growth_high"; Ok (fgt growth limit)
         end;
  let unfunded := match fcf_growth with None => true | Some g => fle g f0 end in
  Ok (_clamp (if high && unfunded then fsub base f1 else base)).

Definition conversion_score (values : dict) : option float :=
  match number_of values "net_income_ttm", number_of values "fcf_ttm" with
  | Some net_income, Some fcf =>
      if fgt net_income f0 then _ratio_score (Some (fdiv fcf net_income)) (int 0) (int 1)
      else if fle net_income f0 && fgt fcf f0 then Some (int 7)
      else Some f0
  | _, _ => None
  end.
Definition earnings_quality_score (values thresholds : dict) : result float :=
  danger ← float_item thresholds "sloan_ratio_danger_min";
  Ok (_weighted_average_present
        [(_lower_better values "sloan_ratio_ttm" danger (int 0), cent 45);
         (conversion_score values, cent 35);
         positive values "operating_cash_flow_per_share_ttm" 20]).

Definition capital_efficiency_score (values thresholds : dict) : result float :=
  roic ← float_item thresholds "roic_excellent";
  roa ← float_item thresholds "roa_excellent";
  let base := _weighted_average_present
    [(_higher_better values "roic_ttm" (int 0) roic, cent 130);
     (_higher_better values "roic_annual" (int 0) roic, cent 90);
     (_higher_better values "return_on_total_capital_ttm" (int 0) roic, cent 90);
     (_higher_better values "roa_ttm" (int 0) roa, cent 110);
     (_higher_better values "roa_annual" (int 0) roa, cent 70);
     (_higher_better values "asset_turnover_ttm" (cent 10) (cent 150), cent 90);
     (_higher_better values "asset_turnover_annual" (cent 10) (cent 150), cent 60)] in
  let base := fadd base (_trend_bonus values "roic_ttm" "roic_annual") in
  let base := fadd base (_trend_bonus values "roa_ttm" "roa_annual") in
  let base := fadd base (_trend_bonus values "asset_turnover_ttm" "asset_turnover_annual") in
  high ← match number_of values "total_assets_growth_annual_yoy" with
         | None => Ok false
         | Some growth => limit ← float_item thresholds "total_assets_growth_high"; Ok (fgt growth limit)
         end;
  let declining := _declined (number_of values "roa_ttm") (number_of values "roa_annual")
                   || _declined (number_of values "asset_turnover_ttm")
                                (number_of values "asset_turnover_annual") in
  Ok (_clamp (if high && declining then fsub base (cent 120) else base)).

Definition balance_sheet_quality_score (values thresholds : dict) : result float :=
  poor ← float_item thresholds "liabilities_to_assets_warning_min";
  excellent ← float_item thresholds "liabilities_to_assets_good_max";
  Ok (_weighted_average_present
        [(_inverse_ratio_score (_liabilities_to_assets values) poor excellent, cent 120);
         positive values "working_capital_per_share_annual" 70;
         positive values "working_capital_per_share_quarterly" 80;
         (_difference_score values "working_capital_per_share_quarterly" "working_capital_per_share_annual",
          cent 40);
         (_higher_better values "quick_ratio_quarterly" (cent 50) (cent 150), cent 90);
         (_higher_better values "quick_ratio_annual" (cent 50) (cent 150), cent 40);
         positive values "cash_short_term_investments_annual" 50;
         (_range_score values "current_ratio" (cent 80) (cent 120) (int 3) (int 6), cent 80);
         lower values "net_debt_to_ebitda" 5 0 90;
         lower values "debt_to_ebitda_annual" 5 0 70;
         lower values "debt_to_equity" 250 30 50;
         lower values "debt_to_assets" 70 20 60;
         lower values "total_debt_to_capital_annual" 80 25 50;
         higher values "ebitda_interest_coverage_ttm" 1 10 60]).

Definition valuation_quality_score (values : dict) : float :=
  _weighted_average_present
    [lower values "pe_ratio" 60 12 100;
     lower values "forward_pe" 45 10 100;
     higher values "earnings_yield_ttm" 0 8 110;
     lower values "ps_ratio" 12 2 80;
     lower values "ev_revenue" 12 2 80;
     lower values "ev_ebitda" 30 8 90;
     lower values "pfcf" 35 8 90;
     lower values "ev_fcf" 35 8 90;
     (_lower_better values "peg_ratio" (int 3) (cent 80), cent 70)].

Definition forward_quality_score (values : dict) : float :=
  let base := _weighted_average_present
    [positive values "eps_estimate_annual" 100;
     positive values "eps_estimate_quarterly" 70;
     positive values "revenue_estimate_annual" 80;
     positive values "net_income_estimate_ntm" 100;
     positive values "ebit_estimate_ntm" 100;
     positive values "cash_short_term_investments_estimate_annual" 40;
     (_capex_estimate_score values, cent 30)] in
  _clamp (fadd base (_analyst_rating_bonus (dget values "analyst_rating"))).

Definition shareholder_quality_score (values thresholds : dict) : result float :=
  payout_score ← match number_of values "dividend_payout_ratio_ttm" with
                 | None => Ok None
                 | Some payout =>
                     poor ← float_item thresholds "dividend_payout_warning_min";
                     excellent ← float_item thresholds "dividend_payout_safe_max";
                     Ok (_lower_better_value (Some payout) poor excellent)
                 end;
  Ok (_weighted_average_present
        [(_buyback_score values, cent 100);
         (_dividend_yield_score values, cent 50);
         (payout_score, cent 100);
         positive values "total_common_shares_outstanding" 20]).

Definition liquidity_risk_score (values thresholds : dict) : result float :=
  weak ← float_item thresholds "dollar_volume_weak";
  good ← float_item thresholds "dollar_volume_good";
  beta ← float_item thresholds "beta_high";
  atr ← float_item thresholds "atr_pct_high";
  Ok (_weighted_average_present
        [(_higher_better values "dollar_volume_10d" weak good, cent 90);
         (_higher_better values "dollar_volume_30d" weak good, cent 100);
         (_higher_better values "dollar_volume_60d" weak good, cent 100);
         positive values "free_float" 60;
         (_range_score values "relative_volume_1d" (cent 20) (cent 80) (cent 250) (int 6), cent 40);
         (_range_score values "volume_change_1d_pct" (int (-80)) (int (-20)) (int 80) (int 300), cent 30);
         (_range_score values "price_change_1d_pct" (int (-15)) (int (-5)) (int 5) (int 20), cent 30);
         (_lower_better values "beta_1y" beta (cent 80), cent 80);
         (_lower_better values "beta_3y" beta (cent 80), cent 70);
         (_lower_better values "tradingview_atr_pct_14d" atr (int 2), cent 90)]).

Definition score_components_v2 (values thresholds : dict) : result (list (string * float)) :=
  fcf ← fcf_quality_score values thresholds;
  earnings ← earnings_quality_score values thresholds;
  capital ← capital_efficiency_score values thresholds;
  balance ← balance_sheet_quality_score values thresholds;
  shareholder ← shareholder_quality_score values thresholds;
  liquidity ← liquidity_risk_score values thresholds;
  Ok [("growth_quality_score", growth_quality_score values);
      ("profitability_quality_score", profitability_quality_score values);
      ("fcf_quality_score", fcf);
      ("earnings_quality_score", earnings);
      ("capital_efficiency_score", capital);
      ("balance_sheet_quality_score", balance);
      ("valuation_quality_score", valuation_quality_score values);
      ("forward_quality_score", forward_quality_score values);
      ("shareholder_quality_score", shareholder);
      ("liquidity_risk_score", liquidity)].

End Components.
End Components.

(** * Fundamental scoring configuration: the validation of [fundamental_ranker_v2.py]

    The document of [config/fundamentals_v2.yaml] and its validation: the keys of every
    section, weights that sum to one, penalties and thresholds in their ranges, and fields that
    the formulas use.  [json_digest] is the SHA-256 of the JSON text of the document. *)
From Stdlib Require Import ZArith Lia List String Bool.
From stdpp Require Import base list strings.
From S2P Require Import Prelude PyFloat PyValue Signals ScoreWarnings CombinedDecision RankingRules.

Local Open Scope string_scope.
Local Open Scope list_scope.
Local Open Scope Z_scope.

Module FundConfig.

Definition FUNDAMENTALS_V2_CONFIG_KEYS : list string :=
  ["model_version"; "weights"; "missing_data"; "thresholds"; "field_priorities";
   "coverage_only_fields"; "components"].
Definition MISSING_DATA_KEYS : list string :=
  ["critical_field_penalty"; "high_field_penalty"; "medium_field_penalty"; "low_field_penalty";
   "max_penalty"; "sparse_data_coverage_threshold"].
Definition FIELD_PRIORITY_KEYS : list string := ["critical"; "high"; "medium"; "low"].
Definition THRESHOLD_KEYS : list string :=
  ["sloan_ratio_good_max"; "sloan_ratio_warning_min"; "sloan_ratio_danger_min"; "roa_good";
   "roa_excellent"; "roic_good"; "roic_excellent"; "liabilities_to_assets_good_max";
   "liabilities_to_assets_warning_min"; "quick_ratio_good"; "quick_ratio_weak";
   "current_ratio_weak"; "dividend_payout_safe_max"; "dividend_payout_warning_min";
   "total_assets_growth_high"; "capex_growth_high"; "fcf_to_net_income_good";
   "debt_to_ebitda_warning"; "net_debt_to_ebitda_warning"; "dollar_volume_weak";
   "dollar_volume_good"; "atr_pct_high"; "beta_high"].

Definition FundamentalsConfigError {A} (msg : string) : result A := raise "FundamentalsConfigError" msg.
Definition refuse (cond : bool) (msg : string) : result unit :=
  if cond then FundamentalsConfigError msg else Ok tt.

Record FundamentalsV2Config := mkFundamentalsV2Config { cfg_data : dict; cfg_hash : string }.

Definition sorted_texts (l : list string) : list string := sort_by String.leb l.
Definition listed (l : list string) : string := String.concat ", " l.
(** [sorted(a - b)], sets of texts. *)
Definition difference (a b : list string) : list string :=
  sorted_texts (List.filter (fun x => negb (smem x b)) (unique a)).

(** A loop over the entries of a mapping whose body can raise. *)
Fixpoint check_entries (check : string -> pyval -> result unit) (d : dict) : result unit :=
  match d with
  | [] => Ok tt
  | (k, v) :: d => _ ← check k v; check_entries check d
  end.

Definition _require_keys (value : dict) (required : list string) (path : string) : result unit :=
  let missing := difference required (map fst value) in
  refuse (nonempty missing) (path ++ " is missing required keys: " ++ listed missing).
Definition _reject_unknown_keys (value : dict) (allowed : list string) (path : string) : result unit :=
  let unknown := difference (map fst value) allowed in
  refuse (nonempty unknown) (path ++ " has unknown keys: " ++ listed unknown).
(** A section of the document: a mapping with exactly the keys named. *)
Definition exact_section (value : pyval) (keys : list string) (path : string) : result dict :=
  match value with
  | VDict d => _ ← _require_keys d keys path; _ ← _reject_unknown_keys d keys path; Ok d
  | _ => FundamentalsConfigError (path ++ " must be a mapping")
  end.

Definition is_text (value : pyval) : bool := match value with VStr _ => true | _ => false end.
Definition text_of (value : pyval) : string := match value with VStr s => s | _ => "" end.
Definition _validate_string_list (value : pyval) (path : string) : result (list string) :=
  match value with
  | VList l =>
      if forallb is_text l then
        let items := map text_of l in
        let duplicates := sorted_texts (unique (List.filter
          (fun item => (1 <? length (List.filter (String.eqb item) items))%nat) items)) in
        _ ← refuse (nonempty duplicates) (path ++ " has duplicate fields: " ++ listed duplicates);
        Ok items
      else FundamentalsConfigError (path ++ " must be a list of strings")
  | _ => FundamentalsConfigError (path ++ " must be a list of strings")
  end.

(** [lower] and [upper] are whole numbers. *)
Definition _number_between (value : pyval) (path : string) (lower : Z) (upper : option Z) : result float :=
  match py_float value with
  | None => FundamentalsConfigError (path ++ " must be numeric")
  | Some number =>
      _ ← refuse (flt number (float_of_Z lower)) (path ++ " must be >= " ++ str_of_Z lower);
      _ ← match upper with
          | Some upper => refuse (fgt number (float_of_Z upper)) (path ++ " must be <= " ++ str_of_Z upper)
          | None => Ok tt
          end;
      Ok number
  end.
Definition _positive_number (value : pyval) (path : string) : result float := _number_between value path 0 None.

(** [values == sorted(values)] for the short lists in question: no entry is below the one
    before it; and no two entries are equal. *)
Fixpoint ascending (values : list float) : bool :=
  match values with
  | x :: (y :: _) as rest => negb (flt y x) && ascending rest
  | _ => true
  end.
Fixpoint all_distinct (values : list float) : bool :=
  match values with
  | [] => true
  | x :: rest => negb (existsb (feq x) rest) && all_distinct rest
  end.
Definition _require_increasing (thresholds : dict) (keys : list string) : result unit :=
  values ← map_result (float_item thresholds) keys;
  refuse (negb (ascending values && all_distinct values))
    ("thresholds must be strictly increasing: " ++ listed keys).

(** The running total of the weights. *)
Fixpoint total_weight (total : float) (weights : dict) : result float :=
  match weights with
  | [] => Ok total
  | (key, value) :: weights =>
      number ← _positive_number value ("fundamentals_v2.weights." ++ key);
      total_weight (fadd total number) weights
  end.
Definition _validate_weights (weights : pyval) : result unit :=
  d ← exact_section weights Components.COMPONENT_SCORE_KEYS "fundamentals_v2.weights";
  total ← total_weight f0 d;
  refuse (negb (feq (py_round_digits 6 total) f1)) "fundamentals_v2.weights must sum to 1.0".

Definition _validate_missing_data (config : pyval) : result unit :=
  d ← exact_section config MISSING_DATA_KEYS "fundamentals_v2.missing_data";
  _ ← check_entries (fun key value =>
        _ ← _number_between value ("fundamentals_v2.missing_data." ++ key) 0 (Some 10); Ok tt) d;
  threshold ← float_item d "sparse_data_coverage_threshold";
  refuse (negb (flt f0 threshold && fle threshold f1))
    "fundamentals_v2.missing_data.sparse_data_coverage_threshold must be in (0, 1]".

Definition _validate_thresholds (thresholds : pyval) : result unit :=
  d ← exact_section thresholds THRESHOLD_KEYS "fundamentals_v2.thresholds";
  _ ← check_entries (fun key value =>
        _ ← _number_between value ("fundamentals_v2.thresholds." ++ key) 0 None; Ok tt) d;
  _ ← _require_increasing d ["sloan_ratio_good_max"; "sloan_ratio_warning_min"; "sloan_ratio_danger_min"];
  _ ← _require_increasing d ["roa_good"; "roa_excellent"];
  _ ← _require_increasing d ["roic_good"; "roic_excellent"];
  _ ← _require_increasing d ["liabilities_to_assets_good_max"; "liabilities_to_assets_warning_min"];
  _ ← _require_increasing d ["dollar_volume_weak"; "dollar_volume_good"];
  safe ← float_item d "dividend_payout_safe_max";
  warning ← float_item d "dividend_payout_warning_min";
  refuse (fge safe warning) "dividend_payout_safe_max must be lower than dividend_payout_warning_min".

Definition _validate_field_priorities (priorities : pyval) : result unit :=
  d ← exact_section priorities FIELD_PRIORITY_KEYS "fundamentals_v2.field_priorities";
  check_entries (fun priority fields =>
    _ ← _validate_string_list fields ("fundamentals_v2.field_priorities." ++ priority); Ok tt) d.

Definition formula_fields (component : string) : list string :=
  match dict_find component Components.COMPONENT_FORMULA_FIELDS with Some l => l | None => [] end.
Definition check_component (component : string) (component_config : pyval) : result unit :=
  let path := ("fundamentals_v2.components." ++ component)%string in
  c ← exact_section component_config ["fields"] path;
  fields ← _validate_string_list (dget c "fields") (path ++ ".fields");
  let unsupported := difference fields (formula_fields component) in
  refuse (nonempty unsupported) (path ++ ".fields contains non-formula fields: " ++ listed unsupported).
Definition _validate_components (components : pyval) : result unit :=
  d ← exact_section components Components.COMPONENT_SCORE_KEYS "fundamentals_v2.components";
  check_entries check_component d.

(** The fields of every component and of every priority; both sections were validated. *)
Definition strings_of (value : pyval) : list string := map text_of (as_list value).
Definition all_component_fields (config : dict) : list string :=
  concat (map (fun kv => strings_of (dget (as_dict kv.2) "fields")) (as_dict (dget config "components"))).
Definition all_priority_fields (config : dict) : list string :=
  concat (map (fun kv => strings_of kv.2) (as_dict (dget config "field_priorities"))).
Definition _validate_coverage_only (config : dict) : result unit :=
  coverage_only ← _validate_string_list (get_or config "coverage_only_fields" (VList []))
                    "fundamentals_v2.coverage_only_fields";
  let component_fields := all_component_fields config in
  let priority_fields := all_priority_fields config in
  let overlap := sorted_texts (List.filter (fun f => smem f component_fields) (unique coverage_only)) in
  _ ← refuse (nonempty overlap) ("coverage_only_fields overlap component formula fields: " ++ listed overlap);
  let unclassified := difference priority_fields (component_fields ++ coverage_only)%list in
  refuse (nonempty unclassified)
    ("field_priorities includes fields that are neither formula fields nor coverage-only: "
     ++ listed unclassified).

Section Config.
Context `{Text : PyText}.
Variable json_digest : pyval -> string.

Definition _validate_config (config : dict) : result unit :=
  _ ← _require_keys config FUNDAMENTALS_V2_CONFIG_KEYS "fundamentals_v2";
  _ ← _reject_unknown_keys config FUNDAMENTALS_V2_CONFIG_KEYS "fundamentals_v2";
  _ ← refuse (String.eqb (strip (py_str (dget config "model_version"))) "")
        "fundamentals_v2.model_version is required";
  _ ← _validate_weights (dget config "weights");
  _ ← _validate_missing_data (dget config "missing_data");
  _ ← _validate_thresholds (dget config "thresholds");
  _ ← _validate_field_priorities (dget config "field_priorities");
  _ ← _validate_components (dget config "components");
  _validate_coverage_only config.

Definition fundamentals_v2_config_hash (data : dict) : string := json_digest (VDict data).
Definition _plain_dict (value : pyval) : result dict :=
  match value with
  | VDict d => Ok d
  | _ => FundamentalsConfigError "fundamentals_v2 config must be a mapping"
  end.
Definition parse_fundamentals_v2_config (raw : pyval) : result FundamentalsV2Config :=
  data ← _plain_dict raw;
  _ ← _validate_config data;
  Ok (mkFundamentalsV2Config data (fundamentals_v2_config_hash data)).

(** From the document that [yaml.safe_load] reads, outside a configuration delivery. *)
Definition load_fundamentals_v2_config (document : pyval) : result FundamentalsV2Config :=
  parse_fundamentals_v2_config (py_or document (VDict [])).

End Config.
End FundConfig.

(** * Fundamental scores: [fundamental_ranker_v2.py], [fundamental_coverage_service.py] and
    [fundamental_warning_service.py]

    The coverage of the fields of a row, its warning flags, the weighted score with its label
    and explanation, under a configuration that was validated. *)
From Stdlib Require Import ZArith Lia List String Ascii Bool Floats.SpecFloat.
From stdpp Require Import base list strings.
From S2P Require Import Prelude PyFloat PyValue Signals ScoreWarnings CombinedDecision RankingRules.
From S2P Require Import CsvImport UploadRun.
Local Open Scope string_scope.
Local Open Scope list_scope.
Local Open Scope Z_scope.
Import Components FundConfig.

Module Fundamental.

Section Fundamental.
Context `{Text : PyText}.

(** [d[k]], a mapping. *)
Definition sub (d : dict) (k : string) : result dict :=
  v ← dict_item d k;
  match v with VDict d => Ok d | _ => raise "TypeError" "indices must be integers" end.
Definition texts (v : pyval) : list string := map py_str (as_list v).

(** ** [fundamental_coverage_service.py] *)

Definition TEXT_FIELDS : list string := ["analyst_rating"].

Record FundamentalCoverageResult := mkFundamentalCoverageResult {
  fc_available_scoring_fields : Z;
  fc_total_scoring_fields : Z;
  fc_coverage_ratio : float;
  fc_data_coverage_score : float;
  fc_component_coverage : list (string * float);
  fc_missing_fields_by_priority : list (string * list string);
  fc_missing_data_penalty : float;
  fc_parse_diagnostics : dict;
}.
Definition missing_of (c : FundamentalCoverageResult) (priority : string) : list string :=
  match dict_find priority (fc_missing_fields_by_priority c) with Some l => l | None => [] end.
Definition missing_core_fields c := missing_of c "critical".
Definition missing_high_fields c := missing_of c "high".

Definition _field_available (values : dict) (field : string) : bool :=
  match dget values field with
  | VNone => false
  | v => if smem field TEXT_FIELDS then negb (String.eqb (strip (py_str v)) "")
         else has (np_value (parse_financial_number v))
  end.

Definition _coverage_ratio (fields available_fields : list string) : float :=
  match fields with
  | [] => f1
  | _ => py_round_digits 4
           (float_ratio (Z.of_nat (length (List.filter (fun f => smem f available_fields) fields)))
                        (Pos.of_nat (length fields)))
  end.

Definition _missing_by_priority (values priorities : dict) : list (string * list string) :=
  map (fun kv => (kv.1, sorted_texts (List.filter (fun f => negb (_field_available values f)) (texts kv.2))))
    priorities.

(** [len(missing.get(priority, [])) * float(config[key])]. *)
Definition priority_penalty (missing : list (string * list string)) (config : dict) (priority key : string)
    : result float :=
  rate ← float_item config key;
  let count := match dict_find priority missing with Some l => length l | None => 0%nat end in
  Ok (fmul (float_of_Z (Z.of_nat count)) rate).
Definition _missing_data_penalty (missing : list (string * list string)) (config : dict) : result float :=
  critical ← priority_penalty missing config "critical" "critical_field_penalty";
  high ← priority_penalty missing config "high" "high_field_penalty";
  medium ← priority_penalty missing config "medium" "medium_field_penalty";
  low ← priority_penalty missing config "low" "low_field_penalty";
  let penalty := fadd (fadd (fadd critical high) medium) low in
  limit ← float_item config "max_penalty";
  Ok (py_round_digits 4 (fmin limit penalty)).

(** The diagnostics of one field: none, or the failed parse. *)
Definition failed_field (values : dict) (field : string) : option pyval :=
  match dict_find field values with
  | None => None
  | Some v =>
      let r := parse_financial_number v in
      if smem field TEXT_FIELDS then None
      else if negb (np_parsed r) && negb (match np_reason r with
                                          | Some reason => String.eqb reason "missing" | None => false end)
      then Some (VDict [("field", VStr field); ("raw", v);
                        ("normalized", of_opt VStr (np_normalized r));
                        ("reason", of_opt VStr (np_reason r))])
      else None
  end.
Definition _parse_diagnostics (values : dict) (scoring_fields : list string) : dict :=
  let failed := omap (failed_field values) scoring_fields in
  [("failed_fields", VList failed); ("failed_field_count", VInt (Z.of_nat (length failed)))].

Definition component_fields (components : dict) : result (list (string * list string)) :=
  map_result (fun kv => match kv.2 with
                        | VDict c => fields ← dict_item c "fields"; Ok (kv.1, texts fields)
                        | _ => raise "TypeError" "indices must be integers"
                        end) components.

Definition calculate_coverage_v2 (values config : dict) : result FundamentalCoverageResult :=
  components ← sub config "components";
  fields ← component_fields components;
  let scoring_fields := sorted_texts (unique (concat (map snd fields))) in
  let available_fields := List.filter (_field_available values) scoring_fields in
  let component_coverage := map (fun kv => (kv.1, _coverage_ratio kv.2 available_fields)) fields in
  priorities ← sub config "field_priorities";
  let missing := _missing_by_priority values priorities in
  missing_data ← sub config "missing_data";
  penalty ← _missing_data_penalty missing missing_data;
  let coverage_ratio := _coverage_ratio scoring_fields available_fields in
  Ok (mkFundamentalCoverageResult (Z.of_nat (length available_fields)) (Z.of_nat (length scoring_fields))
        coverage_ratio (py_round_digits 4 (fmul coverage_ratio (int 10))) component_coverage missing
        penalty (_parse_diagnostics values scoring_fields)).

(** ** [fundamental_warning_service.py] *)

Definition EARNINGS_QUALITY_RISK : string := "earnings_quality_risk".
Definition POOR_CASH_CONVERSION : string := "poor_cash_conversion".
Definition HIGH_ACCRUAL_RISK : string := "high_accrual_risk".
Definition CAPITAL_EFFICIENCY_DETERIORATION : string := "capital_efficiency_deterioration".
Definition ASSET_GROWTH_WITHOUT_RETURNS : string := "asset_growth_without_returns".
Definition BALANCE_SHEET_STRESS : string := "balance_sheet_stress".
Definition LIQUIDITY_BUFFER_WEAK : string := "liquidity_buffer_weak".
Definition FORWARD_QUALITY_WEAK : string := "forward_quality_weak".
Definition DIVIDEND_PAYOUT_RISK : string := "dividend_payout_risk".
Definition SPARSE_FUNDAMENTAL_DATA : string := "sparse_fundamental_data".

(** [value is not None and compare(value, float(thresholds[key]))]. *)
Definition against (value : option float) (compare : float -> float -> bool) (thresholds : dict) (key : string)
    : result bool :=
  match value with
  | None => Ok false
  | Some v => limit ← float_item thresholds key; Ok (compare v limit)
  end.
Definition flag_if (cond : bool) (flags : list string) : list string := if cond then flags else [].

(** The conversion of a positive net income into cash. *)
Definition cash_flags (net_income fcf : option float) (thresholds : dict) : result (list string) :=
  match net_income, fcf with
  | Some n, Some f =>
      if fgt n f0 then
        if fle f f0 then Ok [POOR_CASH_CONVERSION; EARNINGS_QUALITY_RISK]
        else good ← float_item thresholds "fcf_to_net_income_good";
             Ok (flag_if (flt (fdiv f n) good) [POOR_CASH_CONVERSION])
      else Ok []
  | _, _ => Ok []
  end.

Definition _add_earnings_quality_flags (values thresholds : dict) : result (list string) :=
  let sloan := number_of values "sloan_ratio_ttm" in
  let net_income := number_of values "net_income_ttm" in
  let fcf := number_of values "fcf_ttm" in
  danger ← against sloan fge thresholds "sloan_ratio_danger_min";
  accrual ← (if danger : bool then Ok [HIGH_ACCRUAL_RISK; EARNINGS_QUALITY_RISK]
             else warning ← against sloan fge thresholds "sloan_ratio_warning_min";
                  Ok (flag_if warning [EARNINGS_QUALITY_RISK]));
  cash ← cash_flags net_income fcf thresholds;
  let growing := above (number_of values "net_income_growth_ttm_yoy") (int 10) && at_most fcf f0 in
  Ok (accrual ++ cash ++ flag_if growing [POOR_CASH_CONVERSION; EARNINGS_QUALITY_RISK]).

Definition _add_capital_efficiency_flags (values thresholds : dict) : result (list string) :=
  let roa_ttm := number_of values "roa_ttm" in
  grown ← against (number_of values "total_assets_growth_annual_yoy") fgt thresholds "total_assets_growth_high";
  weak ← (if grown : bool then
            if _declined roa_ttm (number_of values "roa_annual")
               || _declined (number_of values "asset_turnover_ttm") (number_of values "asset_turnover_annual")
            then Ok true
            else against roa_ttm flt thresholds "roa_good"
          else Ok false);
  Ok (flag_if weak [ASSET_GROWTH_WITHOUT_RETURNS; CAPITAL_EFFICIENCY_DETERIORATION]).

Definition _add_balance_sheet_flags (values thresholds : dict) : result (list string) :=
  liabilities ← against (_liabilities_to_assets values) fgt thresholds "liabilities_to_assets_warning_min";
  net_debt ← against (number_of values "net_debt_to_ebitda") fgt thresholds "net_debt_to_ebitda_warning";
  debt ← against (number_of values "debt_to_ebitda_annual") fgt thresholds "debt_to_ebitda_warning";
  quick ← against (number_of values "quick_ratio_quarterly") flt thresholds "quick_ratio_weak";
  buffer ← (if quick : bool then
              match number_of values "current_ratio" with
              | None => Ok true
              | current => against current flt thresholds "current_ratio_weak"
              end
            else Ok false);
  Ok (flag_if liabilities [BALANCE_SHEET_STRESS] ++ flag_if net_debt [BALANCE_SHEET_STRESS]
      ++ flag_if debt [BALANCE_SHEET_STRESS] ++ flag_if buffer [LIQUIDITY_BUFFER_WEAK]).

(** A score of a component, [component_scores[key]]. *)
Definition component_score (scores : list (string * float)) (key : string) : result float :=
  match dict_find key scores with Some s => Ok s | None => raise "KeyError" key end.

Definition _add_forward_flags (values : dict) (component_scores : list (string * float)) : result (list string) :=
  forward ← component_score component_scores "forward_quality_score";
  let losses := at_most (number_of values "eps_estimate_annual") f0
                || at_most (number_of values "net_income_estimate_ntm") f0
                || at_most (number_of values "ebit_estimate_ntm") f0 in
  Ok (flag_if (flt forward (int 4)) [FORWARD_QUALITY_WEAK] ++ flag_if losses [FORWARD_QUALITY_WEAK]).

Definition _add_shareholder_flags (values thresholds : dict) : result (list string) :=
  risky ← against (number_of values "dividend_payout_ratio_ttm") fgt thresholds "dividend_payout_warning_min";
  Ok (flag_if risky [DIVIDEND_PAYOUT_RISK]).

Definition build_warning_flags_v2 (values : dict) (component_scores : list (string * float))
    (coverage : FundamentalCoverageResult) (thresholds : dict) (sparse_data_coverage_threshold : float)
    : result (list string) :=
  earnings ← _add_earnings_quality_flags values thresholds;
  capital ← _add_capital_efficiency_flags values thresholds;
  balance ← _add_balance_sheet_flags values thresholds;
  forward ← _add_forward_flags values component_scores;
  shareholder ← _add_shareholder_flags values thresholds;
  Ok (unique (earnings ++ capital ++ balance ++ forward ++ shareholder ++
              flag_if (flt (fc_coverage_ratio coverage) sparse_data_coverage_threshold)
                [SPARSE_FUNDAMENTAL_DATA])).

(** ** [fundamental_ranker_v2.py]: the score *)

Definition QUALITY_RISK_LABEL : string := "Quality risk".

Record FundamentalScoreV2Result := mkFundamentalScoreV2Result {
  fr_ticker : string;
  fr_component_scores : list (string * float);
  fr_data_coverage_score : float;
  fr_missing_data_penalty : float;
  fr_fundamental_score : float;
  fr_fundamental_label : string;
  fr_warning_flags : list string;
  fr_explanation : string;
  fr_debug : dict;
}.

Definition _weighted_score (component_scores : list (string * float)) (weights : dict) : result float :=
  terms ← map_result (fun kv => s ← component_score component_scores kv.1; w ← to_float kv.2; Ok (fmul s w))
            weights;
  Ok (py_round_digits 4 (fsum terms)).

Definition _label_for_score (score : float) (components : list (string * float)) (warning_flags : list string)
    : result string :=
  if smem BALANCE_SHEET_STRESS warning_flags || smem POOR_CASH_CONVERSION warning_flags
  then Ok "Value trap risk"
  else if smem EARNINGS_QUALITY_RISK warning_flags || smem FORWARD_QUALITY_WEAK warning_flags
  then Ok QUALITY_RISK_LABEL
  else
    clean ← (if fge score (cent 760) then
               profitability ← component_score components "profitability_quality_score";
               if fge profitability (int 7) then
                 fcf ← component_score components "fcf_quality_score";
                 if fge fcf (cent 650) then
                   earnings ← component_score components "earnings_quality_score";
                   Ok (fge earnings (cent 650))
                 else Ok false
               else Ok false
             else Ok false);
    if clean : bool then Ok "Clean compounder"
    else if fge score (cent 670) then Ok "High-quality quant"
    else if fge score (int 5) then Ok "Mixed but interesting"
    else Ok "Low priority".

(** [max(d, key=d.get)] and [min(d, key=d.get)]: the first key with the extreme value. *)
Definition extreme (beats : float -> float -> bool) (components : list (string * float)) : string :=
  match components with
  | [] => ""
  | c :: cs => (fold_left (fun best c => if beats c.2 best.2 then c else best) cs c).1
  end.

(** [s.replace(old, new)]. *)
Fixpoint replace_all (fuel : nat) (old new s : string) : string :=
  match fuel, s with
  | S fuel, String c rest =>
      match after_prefix old s with
      | Some rest' => (new ++ replace_all fuel old new rest')%string
      | None => String c (replace_all fuel old new rest)
      end
  | _, s => s
  end.
Definition _display_component (component : string) : string :=
  let n := String.length component in
  replace_all n "_" " " (replace_all n "_score" "" component).

(** [f.1f] of a number from 0 on. *)
Definition one_decimal (x : float) : string :=
  match x with
  | S754_finite false m e =>
      let '(num, den) := scaled_fraction m e 10 in
      let n := round_half_even num den in
      (str_of_Z (n / 10) ++ "." ++ str_of_Z (n mod 10))%string
  | _ => "0.0"
  end.

Definition _explain (label : string) (components : list (string * float)) (warning_flags : list string)
    (data_coverage_score : float) : string :=
  let strongest := extreme fgt components in
  let weakest := extreme flt components in
  let parts :=
    [(label ++ ": strongest area is " ++ _display_component strongest)%string;
     ("weakest area is " ++ _display_component weakest)%string;
     ("data coverage " ++ one_decimal data_coverage_score ++ "/10")%string] ++
    flag_if (nonempty warning_flags) [("warnings: " ++ String.concat ", " (take 3 warning_flags))%string] in
  (String.concat "; " parts ++ ".")%string.

Definition floats_dict (l : list (string * float)) : pyval := VDict (map (fun kv => (kv.1, VFloat kv.2)) l).
Definition text_list (l : list string) : pyval := VList (map VStr l).

Definition score_debug (config : FundamentalsV2Config) (model_version : pyval) (values : dict)
    (component_scores : list (string * float)) (coverage : FundamentalCoverageResult)
    (warning_flags : list string) : dict :=
  [("model_version", model_version);
   ("config_hash", VStr (cfg_hash config));
   ("component_scores", floats_dict component_scores);
   ("component_coverage", floats_dict (fc_component_coverage coverage));
   ("coverage", VDict
      [("available_scoring_fields", VInt (fc_available_scoring_fields coverage));
       ("total_scoring_fields", VInt (fc_total_scoring_fields coverage));
       ("coverage_ratio", VFloat (fc_coverage_ratio coverage));
       ("data_coverage_score", VFloat (fc_data_coverage_score coverage));
       ("missing_core_fields", text_list (missing_core_fields coverage));
       ("missing_high_fields", text_list (missing_high_fields coverage));
       ("missing_fields_by_priority",
        VDict (map (fun kv => (kv.1, text_list kv.2)) (fc_missing_fields_by_priority coverage)))]);
   ("warnings", text_list warning_flags);
   ("parse_diagnostics", VDict (fc_parse_diagnostics coverage));
   ("canonical_fields_present", text_list (sorted_texts (map fst values)))].

Definition score_row_v2 (row : MappedCsvRow) (config : FundamentalsV2Config) : result FundamentalScoreV2Result :=
  let data := cfg_data config in
  let values := map (fun kv => (kv.1, VStr kv.2)) (mr_canonical row) in
  thresholds ← sub data "thresholds";
  component_scores ← score_components_v2 values thresholds;
  coverage ← calculate_coverage_v2 values data;
  missing_data ← sub data "missing_data";
  sparse ← float_item missing_data "sparse_data_coverage_threshold";
  warning_flags ← build_warning_flags_v2 values component_scores coverage thresholds sparse;
  weights ← sub data "weights";
  weighted ← _weighted_score component_scores weights;
  let score := Components._clamp (fsub weighted (fc_missing_data_penalty coverage)) in
  label ← _label_for_score score component_scores warning_flags;
  let explanation := _explain label component_scores warning_flags (fc_data_coverage_score coverage) in
  model_version ← dict_item data "model_version";
  Ok (mkFundamentalScoreV2Result (mr_ticker row) component_scores (fc_data_coverage_score coverage)
        (fc_missing_data_penalty coverage) score label warning_flags explanation
        (score_debug config model_version values component_scores coverage warning_flags)).

Definition score_rows_v2 (rows : list MappedCsvRow) (config : FundamentalsV2Config)
    : result (list FundamentalScoreV2Result) :=
  map_result (fun row => score_row_v2 row config)
    (List.filter (fun row => negb (String.eqb (mr_ticker row) "")) rows).

End Fundamental.
End Fundamental.
