(* ===== verification/FundamentalFacts.v ===== *)
(** * Fundamental scoring: theorems

    Every component score and the final score are between zero and ten; under a validated
    configuration every row is scored; a row with a risk flag never gets a label that
    recommends it.  The second part is the scoring of an upload. *)
From Stdlib Require Import ZArith Lia List String Bool.
From Stdlib Require Import Floats.SpecFloat.
From stdpp Require Import base list strings.
From S2P Require Import Prelude PyFloat FloatFacts FloatRange PyValue Signals ScoreWarnings.
From S2P Require Import CombinedDecision RankingRules CsvImport UploadRun.
From S2P Require Import Fundamentals.
Local Open Scope string_scope.
Local Open Scope list_scope.
Local Open Scope Z_scope.
Import Components FundConfig Fundamental.

(** ** Scores between zero and ten *)

Definition in_scale (x : float) : Prop := fle f0 x = true /\ fle x (float_of_Z 10) = true.
Definition scaled (x : float) : Prop := in_scale x /\ slim x.

Lemma clamp_scaled x : slim x -> scaled (Components._clamp x).
Proof. intros H. split; [by apply score_clamp_bounds|apply round_digits_slim]. Qed.

Lemma five_scaled : scaled (int 5).
Proof. by vm_compute. Qed.

Lemma cent_slim n : slim (cent n).
Proof. exact (float_ratio_slim n 100). Qed.
#[local] Hint Resolve cent_slim : slim.

Section Facts.
Context `{Text : PyText}.

Lemma average_scaled scores : scaled (_weighted_average_present scores).
Proof.
  unfold _weighted_average_present. destruct (present_scores scores); [apply five_scaled|].
  apply clamp_scaled, fdiv_slim.
Qed.

Lemma trend_slim values a b : slim (_trend_bonus values a b).
Proof.
  unfold _trend_bonus. destruct (number_of values a), (number_of values b); try done.
  destruct (fge _ _); [apply float_ratio_slim|]. destruct (flt _ _); [apply float_ratio_slim|done].
Qed.

Lemma rating_slim v : slim (_analyst_rating_bonus v).
Proof.
  unfold _analyst_rating_bonus. destruct v; try done; destruct (_number _); try apply round_digits_slim;
    repeat case_match; done || apply float_ratio_slim.
Qed.

Lemma scaled_slim x : scaled x -> slim x.
Proof. by intros [_ ?]. Qed.

#[local] Hint Resolve clamp_scaled average_scaled scaled_slim trend_slim rating_slim : slim.

Lemma growth_scaled values : scaled (growth_quality_score values).
Proof.
  unfold growth_quality_score. cbv zeta. apply clamp_scaled, fsub_slim; [auto with slim|].
  repeat case_match; done.
Qed.
Lemma profitability_scaled values : scaled (profitability_quality_score values).
Proof. apply clamp_scaled, fadd_slim; auto with slim. Qed.
Lemma fcf_scaled values thresholds x : fcf_quality_score values thresholds = Ok x -> scaled x.
Proof.
  unfold fcf_quality_score. cbv zeta. intros E. unbind E as high H. injection E as <-. apply clamp_scaled.
  destruct (_ && _); [apply fsub_slim; [auto with slim|done]|auto with slim].
Qed.
Lemma earnings_scaled values thresholds x : earnings_quality_score values thresholds = Ok x -> scaled x.
Proof. unfold earnings_quality_score. intros E. unbind E. injection E as <-. apply average_scaled. Qed.
Lemma capital_scaled values thresholds x : capital_efficiency_score values thresholds = Ok x -> scaled x.
Proof.
  unfold capital_efficiency_score. cbv zeta. intros E. unbind E. unbind E. unbind E as high H. apply Ok_inj in E as <-.
  apply clamp_scaled. destruct (_ && _); auto 12 with slim.
Qed.
Lemma balance_scaled values thresholds x : balance_sheet_quality_score values thresholds = Ok x -> scaled x.
Proof. unfold balance_sheet_quality_score. intros E. unbind E. unbind E. injection E as <-. apply average_scaled. Qed.
Lemma forward_scaled values : scaled (forward_quality_score values).
Proof. apply clamp_scaled, fadd_slim; auto with slim. Qed.
Lemma shareholder_scaled values thresholds x : shareholder_quality_score values thresholds = Ok x -> scaled x.
Proof. unfold shareholder_quality_score. intros E. unbind E. injection E as <-. apply average_scaled. Qed.
Lemma liquidity_scaled values thresholds x : liquidity_risk_score values thresholds = Ok x -> scaled x.
Proof.
  unfold liquidity_risk_score. intros E. unbind E. unbind E. unbind E. unbind E. injection E as <-. apply average_scaled.
Qed.

(** The ten components, in the order of their keys. *)
Lemma components_spec values thresholds scores : score_components_v2 values thresholds = Ok scores ->
  map fst scores = COMPONENT_SCORE_KEYS /\ Forall (fun kv => in_scale kv.2) scores.
Proof.
  unfold score_components_v2. intros E. unbind E as x1 H1. unbind E as x2 H2. unbind E as x3 H3. unbind E as x4 H4.
  unbind E as x5 H5. unbind E as x6 H6. injection E as <-. split; [done|].
  apply fcf_scaled in H1 as [? _]. apply earnings_scaled in H2 as [? _]. apply capital_scaled in H3 as [? _].
  apply balance_scaled in H4 as [? _]. apply shareholder_scaled in H5 as [? _]. apply liquidity_scaled in H6 as [? _].
  pose proof (proj1 (growth_scaled values)). pose proof (proj1 (profitability_scaled values)).
  pose proof (proj1 (forward_scaled values)).
  assert (in_scale (valuation_quality_score values)) by apply average_scaled.
  repeat (apply List.Forall_cons; [assumption|]). apply List.Forall_nil.
Qed.

End Facts.

(** ** What the validation establishes *)

(** A result that is a value. *)
Definition ok {A} (m : result A) : Prop := exists x, m = Ok x.

Lemma ok_Ok {A} (x : A) : ok (Ok x).
Proof. by exists x. Qed.
Lemma ok_bind {A B} (m : result A) (f : A -> result B) :
  ok m -> (forall x, m = Ok x -> ok (f x)) -> ok (x ← m; f x).
Proof. intros [x Hx] H. rewrite Hx. cbn. by apply H. Qed.
Lemma ok_at {A B} (m : result A) (f : A -> result B) x : m = Ok x -> ok (f x) -> ok (x ← m; f x).
Proof. by intros ->. Qed.
Lemma ok_map_result {A B} (f : A -> result B) l : (forall x, In x l -> ok (f x)) -> ok (map_result f l).
Proof.
  induction l as [|x l IH]; intros H; cbn [map_result]; [apply ok_Ok|].
  apply ok_bind; [apply H; by left|]. intros y _. apply ok_bind; [|intros; apply ok_Ok].
  apply IH. intros z Hz. apply H. by right.
Qed.

Create HintDb okdb.
#[local] Hint Resolve ok_Ok : okdb.
(** Binds, tests and cases, down to the parts that need a reason. *)
Ltac ok_step :=
  first [ apply ok_Ok | assumption | solve [eauto 3 with okdb]
        | apply ok_bind; [|intros ? _] | case_match ].
Ltac totally := cbv zeta; repeat ok_step.

Lemma refuse_ok cond msg u : FundConfig.refuse cond msg = Ok u -> cond = false.
Proof. by destruct cond. Qed.

Lemma difference_nil a b : nonempty (difference a b) = false -> forall x, In x a -> In x b.
Proof.
  unfold difference, sorted_texts. intros H x Hx. destruct (smem x b) eqn:E; [by apply smem_In|]. exfalso.
  assert (Hin : In x (sort_by String.leb (List.filter (fun x => negb (smem x b)) (unique a)))).
  { apply sort_by_In, List.filter_In. by rewrite unique_In, E. }
  by destruct (sort_by _ _).
Qed.

Lemma in_keys_find {V} k (d : list (string * V)) : In k (map fst d) -> exists v, dict_find k d = Some v.
Proof.
  induction d as [|[k' v] d IH]; cbn [map In dict_find fst]; [done|]. destruct (String.eqb_spec k k') as [->|N].
  - by exists v.
  - intros [->|H]; [done|by apply IH].
Qed.

Lemma require_keys_ok d keys path u : _require_keys d keys path = Ok u ->
  forall k, In k keys -> exists v, dict_find k d = Some v.
Proof.
  unfold _require_keys. cbv zeta. intros E k Hk. apply refuse_ok in E.
  by apply in_keys_find, (difference_nil _ _ E).
Qed.
Lemma exact_section_ok v keys path d : exact_section v keys path = Ok d ->
  v = VDict d /\ (forall k, In k keys -> exists v, dict_find k d = Some v) /\
  (forall k v, In (k, v) d -> In k keys).
Proof.
  unfold exact_section. destruct v; try done. intros E. unbind E as u H1. unbind E as u2 H2. injection E as ->.
  split_and!; [done|by eapply require_keys_ok|].
  intros k v Hk. unfold _reject_unknown_keys in H2. apply refuse_ok in H2.
  apply (difference_nil _ _ H2). by apply (in_map fst _ (k, v)).
Qed.

Lemma check_entries_ok check d u : check_entries check d = Ok u -> forall k v, In (k, v) d -> ok (check k v).
Proof.
  induction d as [|[k v] d IH]; cbn [check_entries]; [done|]. intros E. unbind E as x H.
  intros k' v' [[= <- <-]|Hin]; [by exists x|by eapply IH].
Qed.

Lemma float_to_float v x : py_float v = Some x -> to_float v = Ok x.
Proof. intros H. destruct v; try done; cbn [to_float]; by rewrite H. Qed.
Lemma number_between_ok v path lo hi : ok (_number_between v path lo hi) -> ok (to_float v).
Proof.
  intros [x E]. unfold _number_between in E. destruct (py_float v) as [y|] eqn:Hy; [|done].
  exists y. by apply float_to_float.
Qed.

(** Entries that were checked to be numbers can be read. *)
Lemma float_entry d k v check u : check_entries check d = Ok u ->
  (forall k v, ok (check k v) -> ok (to_float v)) -> dict_find k d = Some v -> ok (float_item d k).
Proof.
  intros E H Hk. unfold float_item, dict_item. rewrite Hk. cbn. apply (H k).
  eapply check_entries_ok; [done|by apply dict_find_In].
Qed.

Record scored_by (data : dict) := {
  sb_thresholds : exists d, sub data "thresholds" = Ok d /\ forall k, In k THRESHOLD_KEYS -> ok (float_item d k);
  sb_missing : exists d, sub data "missing_data" = Ok d /\ forall k, In k MISSING_DATA_KEYS -> ok (float_item d k);
  sb_weights : exists d, sub data "weights" = Ok d /\
    forall k v, In (k, v) d -> In k COMPONENT_SCORE_KEYS /\ ok (to_float v);
  sb_priorities : ok (sub data "field_priorities");
  sb_components : exists d, sub data "components" = Ok d /\
    forall k v, In (k, v) d -> exists c fields, v = VDict c /\ dict_item c "fields" = Ok fields;
  sb_version : ok (dict_item data "model_version");
}.

Lemma sub_find data k v d : dict_find k data = Some v -> v = VDict d -> sub data k = Ok d.
Proof. intros H ->. unfold sub, dict_item. by rewrite H. Qed.
Lemma dget_find {d : dict} {k v} : dict_find k d = Some v -> dget d k = v.
Proof. intros H. unfold dget. by rewrite H. Qed.

Lemma total_weight_ok d : forall t x, total_weight t d = Ok x -> forall k v, In (k, v) d -> ok (to_float v).
Proof.
  induction d as [|[k v] d IH]; cbn [total_weight]; [done|]. intros t x E. unbind E as y H.
  intros k' v' [[= <- <-]|Hin]; [|by eapply IH]. eapply number_between_ok. by exists y.
Qed.

Section Valid.
Context `{Text : PyText}.

Lemma validated_scored_by data u : _validate_config data = Ok u -> scored_by data.
Proof.
  unfold _validate_config. intros E. unbind E as u1 K. unbind E as u2 K2. unbind E as u3 K3.
  unbind E as u4 W. unbind E as u5 M. unbind E as u6 T. unbind E as u7 P. unbind E as u8 C. clear E K2 K3.
  pose proof (fun k => require_keys_ok _ _ _ _ K k) as Hk. clear K.
  unfold _validate_weights in W. unbind W as w W1. unbind W as tw W2. clear W. apply exact_section_ok in W1 as (W1 & _ & W3).
  unfold _validate_missing_data in M. unbind M as m M1. unbind M as mu M2. clear M. apply exact_section_ok in M1 as (M1 & M3 & _).
  unfold _validate_thresholds in T. unbind T as t T1. unbind T as tu T2. clear T. apply exact_section_ok in T1 as (T1 & T3 & _).
  unfold _validate_field_priorities in P. unbind P as p P1. clear P. apply exact_section_ok in P1 as (P1 & _ & _).
  unfold _validate_components in C. unbind C as c C1. apply exact_section_ok in C1 as (C1 & _ & _).
  assert (Hsub : forall k d, In k FUNDAMENTALS_V2_CONFIG_KEYS -> dget data k = VDict d -> sub data k = Ok d).
  { intros k d Hin Hd. destruct (Hk k Hin) as [v Hv]. eapply sub_find; [done|]. by rewrite <- (dget_find Hv). }
  split.
  - exists t. split; [apply Hsub; [simpl; tauto|done]|]. intros k Hin. destruct (T3 k Hin) as [v Hv].
    eapply float_entry; [exact T2| |done]. intros k' v' [y H]. unbind H as z Hz. eapply number_between_ok. by exists z.
  - exists m. split; [apply Hsub; [simpl; tauto|done]|]. intros k Hin. destruct (M3 k Hin) as [v Hv].
    eapply float_entry; [exact M2| |done]. intros k' v' [y H]. unbind H as z Hz. eapply number_between_ok. by exists z.
  - exists w. split; [apply Hsub; [simpl; tauto|done]|]. intros k v Hin. split; [by eapply W3|by eapply total_weight_ok].
  - exists p. apply Hsub; [simpl; tauto|done].
  - exists c. split; [apply Hsub; [simpl; tauto|done]|]. intros k v Hin. destruct (check_entries_ok _ _ _ C k v Hin) as [x Hx].
    unfold check_component in Hx. unbind Hx as d D. apply exact_section_ok in D as (-> & D & _).
    destruct (D "fields") as [f Hf]; [by left|]. exists d, f. split; [done|]. unfold dict_item. by rewrite Hf.
  - destruct (Hk "model_version") as [v Hv]; [by left|]. exists v. unfold dict_item. by rewrite Hv.
Qed.

(** ** Totality *)

Lemma against_ok value cmp d k : ok (float_item d k) -> ok (against value cmp d k).
Proof. intros H. unfold against. totally. Qed.

Lemma components_ok values d : (forall k, In k THRESHOLD_KEYS -> ok (float_item d k)) -> ok (score_components_v2 values d).
Proof.
  intros H. unfold score_components_v2, fcf_quality_score, earnings_quality_score, capital_efficiency_score,
    balance_sheet_quality_score, shareholder_quality_score, liquidity_risk_score.
  assert (Hf : forall k, smem k THRESHOLD_KEYS = true -> ok (float_item d k)) by (intros k Hk; by apply H, smem_In).
  cbv zeta. repeat first [ apply ok_Ok | apply Hf; reflexivity | apply ok_bind; [|intros ? _] | case_match ].
Qed.


Lemma penalty_ok missing d : (forall k, In k MISSING_DATA_KEYS -> ok (float_item d k)) -> ok (_missing_data_penalty missing d).
Proof.
  intros H. unfold _missing_data_penalty, priority_penalty.
  assert (Hf : forall k, smem k MISSING_DATA_KEYS = true -> ok (float_item d k)) by (intros k Hk; by apply H, smem_In).
  cbv zeta. repeat first [ apply ok_Ok | apply Hf; reflexivity | apply ok_bind; [|intros ? _] ].
Qed.

Lemma coverage_ok values data : scored_by data -> ok (calculate_coverage_v2 values data).
Proof.
  intros [_ (m & Hm & HM) _ [p Hp] (c & Hc & HC) _]. unfold calculate_coverage_v2.
  apply (ok_at _ _ _ Hc), ok_bind; [|intros fields _].
  - apply ok_map_result. intros [k v] Hin. destruct (HC k v Hin) as (d & f & -> & Hf).
    apply (ok_at _ _ _ Hf), ok_Ok.
  - apply (ok_at _ _ _ Hp), (ok_at _ _ _ Hm), ok_bind; [by apply penalty_ok|intros; apply ok_Ok].
Qed.

Lemma component_score_ok scores k : map fst scores = COMPONENT_SCORE_KEYS -> smem k COMPONENT_SCORE_KEYS = true ->
  ok (component_score scores k).
Proof.
  intros H Hk. apply smem_In in Hk. rewrite <- H in Hk. destruct (in_keys_find _ _ Hk) as [v Hv].
  unfold component_score. rewrite Hv. apply ok_Ok.
Qed.

Lemma warnings_ok values scores coverage d sparse : map fst scores = COMPONENT_SCORE_KEYS ->
  (forall k, In k THRESHOLD_KEYS -> ok (float_item d k)) -> ok (build_warning_flags_v2 values scores coverage d sparse).
Proof.
  intros Hs H. unfold build_warning_flags_v2, _add_earnings_quality_flags, _add_capital_efficiency_flags,
    _add_balance_sheet_flags, _add_forward_flags, _add_shareholder_flags, cash_flags, against.
  assert (Hf : forall k, smem k THRESHOLD_KEYS = true -> ok (float_item d k)) by (intros k Hk; by apply H, smem_In).
  cbv zeta. repeat first [ apply ok_Ok | apply Hf; reflexivity | apply component_score_ok; [done|reflexivity]
                         | apply ok_bind; [|intros ? _] | case_match ].
Qed.

Lemma weighted_ok scores d : map fst scores = COMPONENT_SCORE_KEYS ->
  (forall k v, In (k, v) d -> In k COMPONENT_SCORE_KEYS /\ ok (to_float v)) -> ok (_weighted_score scores d).
Proof.
  intros Hs H. apply ok_bind; [|intros; apply ok_Ok]. apply ok_map_result. intros [k v] Hin.
  destruct (H k v Hin) as [Hk Hv]. cbn [fst snd]. apply ok_bind; [apply component_score_ok; [done|by apply smem_In]|].
  intros s _. apply ok_bind; [done|intros; apply ok_Ok].
Qed.

Definition LABELS : list string :=
  ["Value trap risk"; "Quality risk"; "Clean compounder"; "High-quality quant"; "Mixed but interesting"; "Low priority"].

Lemma label_ok score scores flags : map fst scores = COMPONENT_SCORE_KEYS -> ok (_label_for_score score scores flags).
Proof.
  intros Hs. unfold _label_for_score.
  repeat first [ apply ok_Ok | apply component_score_ok; [done|reflexivity] | apply ok_bind; [|intros ? _] | case_match ].
Qed.

Lemma row_ok row config : scored_by (cfg_data config) -> ok (score_row_v2 row config).
Proof.
  intros H. pose proof H as [(t & Ht & HT) (m & Hm & HM) (w & Hw & HW) _ _ Hv]. unfold score_row_v2. cbv zeta.
  apply (ok_at _ _ _ Ht), ok_bind; [by apply components_ok|]. intros scores Hs.
  apply components_spec in Hs as [Hs _].
  apply ok_bind; [by apply coverage_ok|]. intros coverage _. apply (ok_at _ _ _ Hm).
  apply ok_bind; [apply HM, smem_In; reflexivity|]. intros sparse _.
  apply ok_bind; [by apply warnings_ok|]. intros flags _. apply (ok_at _ _ _ Hw).
  apply ok_bind; [by apply weighted_ok|]. intros weighted _.
  apply ok_bind; [by apply label_ok|]. intros label _.
  apply ok_bind; [done|]. intros version _. apply ok_Ok.
Qed.

(** ** Labels *)

Lemma component_score_find scores k s : component_score scores k = Ok s -> dict_find k scores = Some s.
Proof. unfold component_score. destruct (dict_find k scores); [congruence|done]. Qed.

(** What a label says of the flags and the scores that it was chosen by. *)
Lemma label_spec score scores flags label : _label_for_score score scores flags = Ok label ->
  In label LABELS /\
  (smem BALANCE_SHEET_STRESS flags || smem POOR_CASH_CONVERSION flags = true -> label = "Value trap risk") /\
  (In label ["Clean compounder"; "High-quality quant"; "Mixed but interesting"; "Low priority"] ->
     forall flag, In flag [BALANCE_SHEET_STRESS; POOR_CASH_CONVERSION; EARNINGS_QUALITY_RISK; FORWARD_QUALITY_WEAK] ->
       ~ In flag flags) /\
  (label = "Clean compounder" -> fle (cent 760) score = true /\
     forall key low, In (key, low) [("profitability_quality_score", int 7); ("fcf_quality_score", cent 650);
                                    ("earnings_quality_score", cent 650)] ->
       exists s, dict_find key scores = Some s /\ fle low s = true).
Proof.
  unfold _label_for_score.
  destruct (smem BALANCE_SHEET_STRESS flags || smem POOR_CASH_CONVERSION flags) eqn:F1.
  { intros [= <-]. split_and!; [simpl; tauto|done| |done]. simpl. intros H. exfalso. naive_solver. }
  destruct (smem EARNINGS_QUALITY_RISK flags || smem FORWARD_QUALITY_WEAK flags) eqn:F2.
  { intros [= <-]. split_and!; [simpl; tauto|done| |done]. simpl. intros H. exfalso. naive_solver. }
  apply orb_false_iff in F1 as [A1 A2]. apply orb_false_iff in F2 as [A3 A4].
  assert (HF : forall flag, In flag [BALANCE_SHEET_STRESS; POOR_CASH_CONVERSION; EARNINGS_QUALITY_RISK; FORWARD_QUALITY_WEAK] ->
     ~ In flag flags).
  { intros flag H Hin. apply smem_In in Hin. simpl in H. destruct H as [<-|[<-|[<-|[<-|[]]]]]; congruence. }
  intros E. unbind E as clean C. destruct clean.
  - injection E as <-. split_and!; [simpl; tauto|done|done|]. intros _.
    destruct (fge score (cent 760)) eqn:S1; [|by apply Ok_inj in C]. split; [exact S1|].
    unbind C as p P. destruct (fge p (int 7)) eqn:P1; [|by apply Ok_inj in C].
    unbind C as f P2. destruct (fge f (cent 650)) eqn:P3; [|by apply Ok_inj in C].
    unbind C as e P4. apply component_score_find in P, P2, P4.
    apply Ok_inj in C. intros key low H. unfold fge in *. simpl in H. destruct H as [[= <- <-]|[[= <- <-]|[[= <- <-]|[]]]]; eauto.
  - destruct (fge score (cent 670)); [|destruct (fge score (int 5))]; injection E as <-;
      (split_and!; [simpl; tauto|done|done|done]).
Qed.

Lemma row_spec row config r : score_row_v2 row config = Ok r ->
  map fst (fr_component_scores r) = COMPONENT_SCORE_KEYS /\
  Forall (fun kv => in_scale kv.2) (fr_component_scores r) /\ in_scale (fr_fundamental_score r) /\
  _label_for_score (fr_fundamental_score r) (fr_component_scores r) (fr_warning_flags r) = Ok (fr_fundamental_label r).
Proof.
  unfold score_row_v2. cbv zeta. intros E. unbind E as t Ht. unbind E as scores Hs. unbind E as coverage Hc.
  unbind E as m Hm. unbind E as sparse Hp. unbind E as flags Hf. unbind E as w Hw. unbind E as weighted Hx.
  unbind E as label Hl. unbind E as version Hv. apply Ok_inj in E as <-. cbn [fr_component_scores fr_fundamental_score
    fr_warning_flags fr_fundamental_label]. destruct (components_spec _ _ _ Hs) as [H1 H2]. split_and!; [done|done| |done].
  apply clamp_scaled, fsub_slim.
  - unfold _weighted_score in Hx. unbind Hx as terms Ht2. apply Ok_inj in Hx as <-. apply round_digits_slim.
  - unfold calculate_coverage_v2 in Hc. unbind Hc as cs Hc1. unbind Hc as fields Hc2. cbv zeta in Hc.
    unbind Hc as ps Hc3. unbind Hc as md Hc4. unbind Hc as penalty Hc5. apply Ok_inj in Hc as <-.
    cbn [fc_missing_data_penalty]. unfold _missing_data_penalty in Hc5. do 4 (unbind Hc5). cbv zeta in Hc5. unbind Hc5.
    apply Ok_inj in Hc5 as <-. apply round_digits_slim.
Qed.

(** C22: Under a configuration that loads, every row is scored: the ten component scores and the
    fundamental score are between 0 and 10, whatever the cells hold, and the label is one of six. *)
Theorem fundamental_scores_total_and_bounded json_digest document config row :
  load_fundamentals_v2_config json_digest document = Ok config ->
  exists r, score_row_v2 row config = Ok r /\
    map fst (fr_component_scores r) = COMPONENT_SCORE_KEYS /\
    Forall (fun kv => in_scale kv.2) (fr_component_scores r) /\
    in_scale (fr_fundamental_score r) /\ In (fr_fundamental_label r) LABELS.
Proof.
  unfold load_fundamentals_v2_config, parse_fundamentals_v2_config. intros E. unbind E as data D. unbind E as u V.
  apply Ok_inj in E as <-. apply validated_scored_by in V.
  destruct (row_ok row (mkFundamentalsV2Config data (fundamentals_v2_config_hash json_digest data)) V) as [r Hr].
  exists r. destruct (row_spec _ _ _ Hr) as (H1 & H2 & H3 & H4). apply label_spec in H4 as [H4 _]. auto 6.
Qed.

(** The values of a row as the scores read them. *)
Definition row_values (row : MappedCsvRow) : dict := map (fun kv => (kv.1, VStr kv.2)) (mr_canonical row).

Lemma burning_flag values scores coverage thresholds sparse flags n f :
  number_of values "net_income_ttm" = Some n -> fgt n f0 = true ->
  number_of values "fcf_ttm" = Some f -> fle f f0 = true ->
  build_warning_flags_v2 values scores coverage thresholds sparse = Ok flags -> In POOR_CASH_CONVERSION flags.
Proof.
  intros Hn Hn0 Hf Hf0 E. unfold build_warning_flags_v2 in E. unbind E as earnings He. do 4 (unbind E).
  apply Ok_inj in E as <-. apply unique_In, in_or_app. left.
  unfold _add_earnings_quality_flags in He. cbv zeta in He. rewrite Hn, Hf in He.
  unbind He. unbind He as accrual Ha. unbind He as cash Hc. apply Ok_inj in He as <-.
  unfold cash_flags in Hc. rewrite Hn0, Hf0 in Hc. apply Ok_inj in Hc as <-.
  apply in_or_app. right. apply in_or_app. left. by left.
Qed.

(** C23: Risk decides before quality: with a balance sheet under stress or poor cash conversion, and
    so for every profitable company that burns cash, the label is a value trap whatever the
    score; no other label but the two risks is given next to a risk flag; and a clean compounder
    scores at least 7.6 with its profitability, cash flow and earnings at their floors. *)
Theorem fundamental_label_respects_risk row config r :
  score_row_v2 row config = Ok r ->
  (smem BALANCE_SHEET_STRESS (fr_warning_flags r) || smem POOR_CASH_CONVERSION (fr_warning_flags r) = true ->
     fr_fundamental_label r = "Value trap risk") /\
  (forall n f, number_of (row_values row) "net_income_ttm" = Some n -> fgt n f0 = true ->
     number_of (row_values row) "fcf_ttm" = Some f -> fle f f0 = true ->
     fr_fundamental_label r = "Value trap risk") /\
  (In (fr_fundamental_label r) ["Clean compounder"; "High-quality quant"; "Mixed but interesting"; "Low priority"] ->
     forall flag, In flag [BALANCE_SHEET_STRESS; POOR_CASH_CONVERSION; EARNINGS_QUALITY_RISK; FORWARD_QUALITY_WEAK] ->
       ~ In flag (fr_warning_flags r)) /\
  (fr_fundamental_label r = "Clean compounder" -> fle (cent 760) (fr_fundamental_score r) = true /\
     forall key low, In (key, low) [("profitability_quality_score", int 7); ("fcf_quality_score", cent 650);
                                    ("earnings_quality_score", cent 650)] ->
       exists s, dict_find key (fr_component_scores r) = Some s /\ fle low s = true).
Proof.
  intros E. destruct (row_spec _ _ _ E) as (_ & _ & _ & L). apply label_spec in L as (_ & L1 & L2 & L3).
  split_and!; [exact L1| |exact L2|exact L3]. intros n f Hn Hn0 Hf Hf0. apply L1, orb_true_iff. right. apply smem_In.
  unfold score_row_v2 in E. cbv zeta in E. unbind E as t Ht. unbind E as scores Hs. unbind E as coverage Hc.
  unbind E as m Hm. unbind E as sparse Hp. unbind E as flags Hflags. do 4 (unbind E). apply Ok_inj in E as <-.
  cbn [fr_warning_flags]. by eapply burning_flag.
Qed.

End Valid.

(** * Fundamental scores of an upload: [_fundamental_score_from_v2] of [upload_service.py]

    The stored columns of a score, and the scoring service that UploadRun asks for, built from
    the scores of Fundamentals: under a validated configuration it never fails and returns
    one score for each row with a ticker, in order, so an upload that gets as far as scoring
    completes unless its file changed. *)
From Stdlib Require Import ZArith Lia List String Bool.
From Stdlib Require Import Floats.SpecFloat.
From stdpp Require Import base gmap list strings.
From S2P Require Import Prelude PyFloat PyValue Signals ScoreWarnings CombinedDecision CsvImport UploadRun.
From S2P Require Import Fundamentals.
Local Open Scope string_scope.
Local Open Scope list_scope.
Local Open Scope Z_scope.
Import Components FundConfig Fundamental.

(** Trailing zeros of a decimal, down to one digit after the point. *)
Fixpoint short_decimal (fuel : nat) (coef exp : Z) : pyval :=
  match fuel with
  | S fuel => if coef mod 10 =? 0 then short_decimal fuel (coef / 10) (exp + 1) else VDecimal coef exp
  | O => VDecimal coef exp
  end.
(** [Decimal(str(round(value, 4)))], for values that [str] writes without an exponent; one that
    is not finite is kept as a float. *)
Definition to_decimal (value : float) : pyval :=
  match value with
  | S754_zero _ => VDecimal 0 (-1)
  | S754_finite s m e =>
      let '(num, den) := scaled_fraction m e (10 ^ 4) in
      let n := round_half_even num den in
      short_decimal 3 (if s then - n else n) (-4)
  | x => VFloat x
  end.

Section Upload.
Context `{Text : PyText}.

Definition component_of (score : FundamentalScoreV2Result) (key : string) : pyval :=
  match dict_find key (fr_component_scores score) with Some x => to_decimal x | None => VNone end.

(** The columns, next to the run and the ticker. *)
Definition _fundamental_score_from_v2 (score : FundamentalScoreV2Result) : pyval :=
  let flags := VDict [("flags", text_list (fr_warning_flags score))] in
  VDict
    ([("growth_score", component_of score "growth_quality_score");
      ("profitability_score", component_of score "profitability_quality_score");
      ("fcf_score", component_of score "fcf_quality_score");
      ("balance_sheet_score", component_of score "balance_sheet_quality_score");
      ("valuation_score", component_of score "valuation_quality_score");
      ("momentum_score", VNone);
      ("dilution_score", component_of score "shareholder_quality_score");
      ("risk_score", component_of score "liquidity_risk_score")] ++
     map (fun key => (key, component_of score key)) COMPONENT_SCORE_KEYS ++
     [("data_coverage_score", to_decimal (fr_data_coverage_score score));
      ("scoring_model_version", dget (fr_debug score) "model_version");
      ("v2_warning_flags_json", flags);
      ("missing_data_penalty", to_decimal (fr_missing_data_penalty score));
      ("fundamental_score", to_decimal (fr_fundamental_score score));
      ("fundamental_label", VStr (fr_fundamental_label score));
      ("trap_flags_json", flags);
      ("explanation", VStr (fr_explanation score));
      ("debug_json", VDict (fr_debug score))]).

(** The scoring of an upload: ticker and columns of every score. *)
Definition upload_scores (config : FundamentalsV2Config) (rows : list MappedCsvRow) : result (list (string * pyval)) :=
  scored ← Fundamental.score_rows_v2 rows config;
  Ok (map (fun r => (fr_ticker r, _fundamental_score_from_v2 r)) scored).

(** An upload's services with the scoring of a configuration. *)
Definition with_scoring (config : FundamentalsV2Config) (S : UploadServices) : UploadServices := {|
  max_upload_size_mb := @max_upload_size_mb S;
  max_csv_rows := @max_csv_rows S;
  max_csv_columns := @max_csv_columns S;
  column_aliases := @column_aliases S;
  normalize_sector_result := @normalize_sector_result S;
  parse_earnings_date := @parse_earnings_date S;
  UploadRun.score_rows_v2 := upload_scores config;
  redact_text := @redact_text S;
|}.

Lemma score_row_ticker row config r : score_row_v2 row config = Ok r -> fr_ticker r = mr_ticker row.
Proof.
  unfold score_row_v2. cbv zeta. intros E. do 10 (unbind E). by apply Ok_inj in E as <-.
Qed.

Lemma upload_scores_spec json_digest document config rows :
  load_fundamentals_v2_config json_digest document = Ok config ->
  exists scored, upload_scores config rows = Ok scored /\
    map fst scored = map mr_ticker (List.filter has_ticker rows).
Proof.
  unfold load_fundamentals_v2_config, parse_fundamentals_v2_config. intros E. unbind E as data D. unbind E as u V.
  apply Ok_inj in E as <-. apply validated_scored_by in V. unfold upload_scores, Fundamental.score_rows_v2.
  change (fun row => negb (String.eqb (mr_ticker row) "")) with has_ticker.
  induction (List.filter has_ticker rows) as [|row rs IH]; [by exists []|].
  destruct (row_ok row (mkFundamentalsV2Config data (fundamentals_v2_config_hash json_digest data)) V) as [r Hr].
  destruct IH as (scored & E & Ht). unbind E as results Hm. apply Ok_inj in E as <-.
  exists ((fr_ticker r, _fundamental_score_from_v2 r) :: map (fun r => (fr_ticker r, _fundamental_score_from_v2 r)) results).
  split; [cbn [map_result]; by rewrite Hr; cbn; rewrite Hm|]. cbn [map fst]. by rewrite Ht, (score_row_ticker _ _ _ Hr).
Qed.

(** C25: An upload that passes its fence, whose rows are accepted and whose file did not change
    completes: scoring cannot fail under a configuration that loads, and the run gets one score
    for each of its stored rows, in their order, without evidence. *)
Theorem accepted_upload_is_scored (S : UploadServices) json_digest document config filename u db mapped :
  load_fundamentals_v2_config json_digest document = Ok config ->
  up_fence u = Ok tt -> up_unchanged u = true -> @import_rows Text S (up_text u) = Ok mapped ->
  exists db' rows scored,
    @process_upload Text (with_scoring config S) filename u db = (Ok (next_run_id db), db') /\
    raw_rows db' = raw_rows db ++ rows /\ scores db' = scores db ++ scored /\
    map sr_ticker rows = map mr_ticker (List.filter has_ticker mapped) /\
    map sc_ticker scored = map sr_ticker rows /\
    Forall (fun s => sc_run_id s = next_run_id db /\ sc_evidence_id s = None) scored.
Proof.
  intros Hc Hf Hu Hi. destruct (upload_scores_spec _ _ _ mapped Hc) as (scored & Hs & Ht).
  set (run := next_run_id db).
  exists (mkUploadDb (<[run := mkUploadRow filename (up_path u) "COMPLETED"
            (Some (Z.of_nat (length (map (@_raw_company_row_from_mapped S run) (List.filter has_ticker mapped))))) None]>
            (<[run := mkUploadRow filename (up_path u) "VALIDATING" None None]> (upload_runs db)))
          (raw_rows db ++ map (@_raw_company_row_from_mapped S run) (List.filter has_ticker mapped))
          (scores db ++ map (fun tv => mkStoredScore run tv.1 None tv.2) scored) (upload_files db) (run + 1)).
  eexists _, _. split_and!; [|reflexivity|reflexivity|by rewrite map_map| |].
  - unfold process_upload. rewrite Hf. change (@import_rows Text (with_scoring config S)) with (@import_rows Text S).
    rewrite Hi. cbv beta iota zeta.
    change (@UploadRun.score_rows_v2 (with_scoring config S) mapped) with (upload_scores config mapped).
    rewrite Hs, Hu. reflexivity.
  - rewrite !map_map. cbn [sc_ticker sr_ticker]. exact Ht.
  - apply List.Forall_forall. intros s Hin. by apply in_map_iff in Hin as (tv & <- & _).
Qed.

End Upload.
