(* ===== verification/FundamentalExamples.v ===== *)
(** * Examples of fundamental scoring

    The configuration [config/fundamentals_v2.yaml], a strong company, one that burns cash and
    one with losses, and the theorems on fundamental scores applied to them. *)
From Stdlib Require Import ZArith Lia List String Bool.
From stdpp Require Import base gmap list strings.
From S2P Require Import Prelude PyFloat FloatRange PyValue Signals ScoreWarnings CsvImport CsvFacts UploadRun.
From S2P Require Import Fundamentals FundamentalFacts.
Local Open Scope string_scope.
Local Open Scope list_scope.
Local Open Scope Z_scope.
Import Components FundConfig Fundamental.

#[local] Instance fundamental_text : PyText := {| str_other := fun _ => ""; set_order := fun l => l |}.

Definition cents (n : Z) : pyval := VFloat (cent n).
Definition names (ws : list string) : pyval := VList (map VStr ws).

Definition document : pyval := VDict
  [("model_version", VStr "fundamentals_v2.1");
   ("weights", VDict
     [("growth_quality_score", cents 13); ("profitability_quality_score", cents 13);
      ("fcf_quality_score", cents 12); ("earnings_quality_score", cents 12);
      ("capital_efficiency_score", cents 12); ("balance_sheet_quality_score", cents 12);
      ("valuation_quality_score", cents 10); ("forward_quality_score", cents 8);
      ("shareholder_quality_score", cents 5); ("liquidity_risk_score", cents 3)]);
   ("missing_data", VDict
     [("critical_field_penalty", cents 35); ("high_field_penalty", cents 20);
      ("medium_field_penalty", cents 10); ("low_field_penalty", cents 5); ("max_penalty", cents 250);
      ("sparse_data_coverage_threshold", cents 65)]);
   ("thresholds", VDict
     [("sloan_ratio_good_max", VInt 5); ("sloan_ratio_warning_min", VInt 10);
      ("sloan_ratio_danger_min", VInt 20); ("roa_good", VInt 8); ("roa_excellent", VInt 15);
      ("roic_good", VInt 10); ("roic_excellent", VInt 20); ("liabilities_to_assets_good_max", cents 45);
      ("liabilities_to_assets_warning_min", cents 70); ("quick_ratio_good", cents 100);
      ("quick_ratio_weak", cents 80); ("current_ratio_weak", cents 100);
      ("dividend_payout_safe_max", VInt 65); ("dividend_payout_warning_min", VInt 90);
      ("total_assets_growth_high", VInt 25); ("capex_growth_high", VInt 40);
      ("fcf_to_net_income_good", cents 70); ("debt_to_ebitda_warning", cents 400);
      ("net_debt_to_ebitda_warning", cents 400); ("dollar_volume_weak", VInt 2000000);
      ("dollar_volume_good", VInt 25000000); ("atr_pct_high", VInt 12); ("beta_high", cents 220)]);
   ("field_priorities", VDict
      [("critical", names
         ["market_cap"; "fcf_ttm"; "net_income_ttm"; "sloan_ratio_ttm"; "roic_ttm"; "roa_ttm";
          "total_assets_annual"; "total_liabilities_annual"; "revenue_growth_ttm_yoy";
          "operating_margin_ttm"]);
       ("high", names
         ["eps_estimate_annual"; "revenue_estimate_annual"; "return_on_total_capital_ttm";
          "roic_annual"; "roa_annual"; "operating_margin_annual"; "net_margin_annual";
          "asset_turnover_ttm"; "asset_turnover_annual"; "capex_ttm"; "capex_growth_ttm_yoy";
          "net_income_estimate_ntm"; "net_income_growth_ttm_yoy"; "total_assets_growth_annual_yoy";
          "working_capital_per_share_annual"; "working_capital_per_share_quarterly";
          "earnings_yield_ttm"; "ebit_estimate_ntm"; "total_revenue_ttm"; "fcf_margin_ttm";
          "current_ratio"; "quick_ratio_quarterly"; "pe_ratio"; "net_debt_to_ebitda"]);
       ("medium", names
         ["gross_profit_growth_ttm_yoy"; "debt_to_ebitda_annual"; "total_common_shares_outstanding";
          "dollar_volume_10d"; "dollar_volume_60d"; "free_float"; "gross_margin_annual";
          "capex_per_share_ttm"; "capex_growth_quarterly_yoy"; "total_assets_estimate_annual";
          "ebit_per_share_ttm"; "cash_short_term_investments_annual";
          "cash_short_term_investments_estimate_annual"; "dividend_yield_ttm";
          "dividend_payout_ratio_ttm"; "eps_estimate_quarterly"]);
       ("low", names
         ["capex_estimate_ntm"; "quick_ratio_annual"; "number_of_shareholders_annual"; "analyst_rating"])]);
   ("coverage_only_fields", names
     ["market_cap"; "capex_per_share_ttm"; "capex_growth_quarterly_yoy"; "total_assets_estimate_annual";
      "ebit_per_share_ttm"; "number_of_shareholders_annual"]);
   ("components", VDict (map (fun kv => (kv.1, VDict [("fields", names kv.2)])) COMPONENT_FORMULA_FIELDS))].

Definition digest (v : pyval) : string := "digest".
Definition config : FundamentalsV2Config := mkFundamentalsV2Config (as_dict document) "digest".
Lemma config_loads : load_fundamentals_v2_config digest document = Ok config.
Proof. vm_compute. reflexivity. Qed.

Definition row (ticker : string) (cells : list (string * string)) : MappedCsvRow :=
  mkMappedCsvRow 1 ticker None None cells [].

(** A profitable company with growth, and the same company with its cash burnt. *)
Definition strong_cells : list (string * string) :=
  [("market_cap", "12B"); ("fcf_ttm", "900M"); ("net_income_ttm", "800M"); ("sloan_ratio_ttm", "1"); ("roic_ttm", "24");
   ("roa_ttm", "18"); ("total_assets_annual", "9B"); ("total_liabilities_annual", "3B");
   ("revenue_growth_ttm_yoy", "28"); ("operating_margin_ttm", "30"); ("gross_margin_ttm", "65");
   ("net_margin_ttm", "22"); ("fcf_margin_ttm", "25"); ("pe_ratio", "14"); ("current_ratio", "2");
   ("eps_estimate_annual", "5"); ("dollar_volume_30d", "80M")].
Definition strong : MappedCsvRow := row "GOOD" strong_cells.
Definition burning : MappedCsvRow := row "BURN" (dict_set "fcf_ttm" "-100M" strong_cells).

Definition label_of (r : MappedCsvRow) : string :=
  match score_row_v2 r config with Ok s => fr_fundamental_label s | Raise _ => "" end.
Definition explanation_of (r : MappedCsvRow) : string :=
  match score_row_v2 r config with Ok s => fr_explanation s | Raise _ => "" end.
Definition component_of_row (r : MappedCsvRow) (key : string) : option float :=
  match score_row_v2 r config with Ok s => dict_find key (fr_component_scores s) | Raise _ => None end.

Lemma strong_labels : (label_of strong, label_of burning) = ("High-quality quant", "Value trap risk").
Proof. vm_compute. reflexivity. Qed.
Example burning_explained :
  explanation_of burning =
  ("Value trap risk: strongest area is growth quality; weakest area is fcf quality; data coverage 2.0/10; "
   ++ "warnings: poor_cash_conversion, earnings_quality_risk, sparse_fundamental_data.")%string.
Proof. vm_compute. reflexivity. Qed.

(** A loss gives a negative price-earnings ratio, which scores like the cheapest multiple. *)
Example negative_multiple_is_best :
  map (fun pe => component_of_row (row "X" [("pe_ratio", pe)]) "valuation_quality_score") ["-5"; "12"; "60"]
  = [Some (int 10); Some (int 10); Some f0].
Proof. vm_compute. reflexivity. Qed.

(** The checks of a configuration. *)
Definition with_weights (weights : pyval) : pyval := VDict (dict_set "weights" weights (as_dict document)).
Example weights_must_sum_to_one :
  load_fundamentals_v2_config digest (with_weights (VDict (map (fun k => (k, cents 11)) COMPONENT_SCORE_KEYS)))
  = FundamentalsConfigError "fundamentals_v2.weights must sum to 1.0".
Proof. vm_compute. reflexivity. Qed.
Example weights_must_be_complete :
  load_fundamentals_v2_config digest (with_weights (VDict [("growth_quality_score", VInt 1)]))
  = FundamentalsConfigError (String.append "fundamentals_v2.weights is missing required keys: "
      (String.concat ", "
         ["balance_sheet_quality_score"; "capital_efficiency_score"; "earnings_quality_score"; "fcf_quality_score";
          "forward_quality_score"; "liquidity_risk_score"; "profitability_quality_score"; "shareholder_quality_score";
          "valuation_quality_score"])).
Proof. vm_compute. reflexivity. Qed.

Lemma fundamental_scores_total_and_bounded_witness :
  exists r, score_row_v2 burning config = Ok r /\
    map fst (fr_component_scores r) = COMPONENT_SCORE_KEYS /\
    Forall (fun kv => in_scale kv.2) (fr_component_scores r) /\
    in_scale (fr_fundamental_score r) /\ In (fr_fundamental_label r) LABELS.
Proof. exact (fundamental_scores_total_and_bounded digest document config burning config_loads). Defined.

Lemma burning_scored : exists r, score_row_v2 burning config = Ok r.
Proof.
  destruct (score_row_v2 burning config) as [r|e] eqn:E; [by exists r|].
  apply (f_equal (fun m => match m with Ok _ => true | Raise _ => false end)) in E. vm_compute in E. discriminate.
Qed.
Lemma burning_cells :
  exists n f, number_of (row_values burning) "net_income_ttm" = Some n /\ fgt n f0 = true /\
    number_of (row_values burning) "fcf_ttm" = Some f /\ fle f f0 = true.
Proof. eexists _, _. split_and!; vm_compute; reflexivity. Qed.

Lemma fundamental_label_respects_risk_witness :
  exists r, score_row_v2 burning config = Ok r /\ fr_fundamental_label r = "Value trap risk".
Proof.
  destruct burning_scored as [r E]. destruct burning_cells as (n & f & Hn & Hn0 & Hf & Hf0). exists r. split; [exact E|].
  destruct (fundamental_label_respects_risk burning config r E) as (_ & H & _). exact (H n f Hn Hn0 Hf Hf0).
Defined.

(** ** An upload *)

#[local] Instance services : UploadServices := {|
  max_upload_size_mb := 10;
  max_csv_rows := Some 100;
  max_csv_columns := Some 10;
  column_aliases := [("ticker", ["Symbol"]); ("net_income_ttm", ["Net income"]); ("fcf_ttm", ["Free cash flow"])];
  normalize_sector_result := fun s => of_opt VStr s;
  parse_earnings_date := fun _ => None;
  UploadRun.score_rows_v2 := upload_scores config;
  redact_text := fun s => s;
|}.
Definition file (encoding : string) : option string :=
  if String.eqb encoding "utf-8-sig"
  then Some (write_rows [["Symbol"; "Net income"; "Free cash flow"]; ["GOOD"; "800M"; "900M"]; ["BURN"; "800M"; "-100M"]])
  else None.
Definition upload : Upload := mkUpload (Some "stocks.csv") 100 true "uploads/1" file (Ok tt) true.
Definition empty_db : UploadDb := mkUploadDb ∅ [] [] ∅ 1.
Definition accepted_rows : list MappedCsvRow := match import_rows file with Ok rows => rows | Raise _ => [] end.
Lemma upload_accepted : import_rows (up_text upload) = Ok accepted_rows.
Proof. vm_compute. reflexivity. Qed.
Lemma accepted_tickers : map mr_ticker (List.filter has_ticker accepted_rows) = ["GOOD"; "BURN"].
Proof. vm_compute. reflexivity. Qed.

Lemma accepted_upload_is_scored_witness :
  exists db', process_upload (H := with_scoring config services) "stocks.csv" upload empty_db = (Ok 1, db') /\
    map sc_ticker (scores db') = ["GOOD"; "BURN"].
Proof.
  destruct (accepted_upload_is_scored services digest document config "stocks.csv" upload empty_db accepted_rows
              config_loads eq_refl eq_refl upload_accepted) as (db' & rows & scored & E & _ & Hs & Hr & Ht & _).
  exists db'. split; [exact E|]. rewrite Hs. cbn. rewrite Ht, Hr. exact accepted_tickers.
Defined.
