(* ===== verification/PipelineOutcome.v ===== *)
(** * Pipeline outcome: [app/services/pipeline_outcome.py]

    The terminal summary of a pipeline (execution, coverage, integrity) and the decision
    whether its downstream rows have to be contained.  The summary is fingerprinted
    by the canonical serializer; results are the JSON columns of the pipeline row. *)
From Stdlib Require Import ZArith Lia List String Ascii Bool.
From stdpp Require Import base list strings.
From S2P Require Import Prelude PyDate PyFloat PyValue Canonical CanonicalFacts Signals.
Local Open Scope string_scope.
Local Open Scope list_scope.
Local Open Scope Z_scope.

Definition PIPELINE_OUTCOME_CONTRACT_VERSION : string := "pipeline-outcome-v1".
Definition NO_INTEGRITY_HAZARD : string := "NO_INTEGRITY_HAZARD".
Definition INTEGRITY_HAZARD_DETECTED : string := "INTEGRITY_HAZARD_DETECTED".
Definition INTEGRITY_NOT_CERTIFIED : string := "NOT_CERTIFIED".

Definition _EXECUTION_BY_STATUS : list (string * string) :=
  [("COMPLETED", "SUCCEEDED"); ("PARTIAL", "SUCCEEDED_WITH_GAPS"); ("FAILED", "FAILED");
   ("CANCELLED", "CANCELLED"); ("BLOCKED", "BLOCKED")].
Definition _HARD_CONTAINMENT_STATUSES : list string := ["FAILED"; "CANCELLED"; "BLOCKED"].
Definition _EXPLICIT_INTEGRITY_FLAGS : list string :=
  ["contamination_detected"; "evidence_integrity_failure"; "identity_mismatch_detected";
   "quarantine_required"; "temporal_integrity_failure"].
Definition _GAP_COUNTS : list string :=
  ["incomplete_rows"; "ib_failure_count"; "technical_error_count"; "ceri_failed";
   "setup_lifecycle_failed"; "winner_prediction_failed"].

Section Outcome.
Context `{JT : JsonText} `{Text : PyText}.

Definition is_true (v : pyval) : bool := match v with VBool true => true | _ => false end.
Definition nonempty (s : string) : bool := negb (String.eqb s "").

(** [sorted(set)]; the set is the list of its distinct members. *)
Definition sorted_set (l : list string) : list string := sort_by String.leb (unique l).

Definition _integrity_hazards (result : dict) : list string :=
  let flagged := List.filter (fun name => is_true (dget result name)) _EXPLICIT_INTEGRITY_FLAGS in
  let raw := dget result "integrity_failures" in
  let reported :=
    if truthy raw
    then match raw with
         | VList l => List.filter nonempty (map (fun v => strip (py_str v)) l)
         | v => [strip (py_str v)]
         end
    else [] in
  sorted_set (flagged ++ reported).

(** [int(result.get(key) or 0)]. *)
Definition int_count (result : dict) (key : string) : Prelude.result Z :=
  match py_int (py_or (dget result key) (VInt 0)) with
  | Some n => mret n
  | None => ValueError "invalid count"
  end.

Fixpoint gap_counts (result : dict) (keys : list string) : Prelude.result dict :=
  match keys with
  | [] => mret []
  | key :: keys =>
      n ← int_count result key; rest ← gap_counts result keys;
      mret (if n >? 0 then (key, VInt n) :: rest else rest)
  end.

Definition integrity_status (status : string) (hazards : list string) : string :=
  match hazards with
  | [] => if smem status ["COMPLETED"; "PARTIAL"] then NO_INTEGRITY_HAZARD else INTEGRITY_NOT_CERTIFIED
  | _ => INTEGRITY_HAZARD_DETECTED
  end.

Definition outcome_body (status : string) (result : dict) : Prelude.result dict :=
  let execution := match dict_find status _EXECUTION_BY_STATUS with Some e => e | None => "UNKNOWN" end in
  let hazards := _integrity_hazards result in
  gaps ← gap_counts result _GAP_COUNTS;
  expected ← int_count result "uploaded_rows";
  combined ← int_count result "combined_results";
  warnings ← int_count result "warning_rows";
  mret [("contract_version", VStr PIPELINE_OUTCOME_CONTRACT_VERSION);
        ("pipeline_status", VStr status);
        ("execution_outcome", VStr execution);
        ("coverage", VDict [("expected_rows", VInt expected); ("combined_rows", VInt combined);
                            ("warning_rows", VInt warnings); ("gaps", VDict gaps)]);
        ("integrity", VDict [("status", VStr (integrity_status status hazards));
                             ("hazards", VList (map VStr hazards))])].

Definition derive_pipeline_outcome (status : string) (result : dict) : Prelude.result dict :=
  body ← outcome_body (upper status) result;
  print ← fingerprint (embed (VDict body));
  mret (body ++ [("summary_fingerprint", VStr print)]).

(** [x.get(key)] of a value that has to be a dictionary. *)
Definition get_attr (v : pyval) (key : string) : Prelude.result pyval :=
  match v with
  | VDict d => mret (dget d key)
  | _ => raise "AttributeError" "object has no attribute 'get'"
  end.

Definition pipeline_requires_ceri_containment (status : string) (result_json : option dict)
  : Prelude.result bool :=
  let status := upper status in
  if smem status _HARD_CONTAINMENT_STATUSES then mret true
  else if negb (String.eqb status "PARTIAL") then mret false
  else match dget (match result_json with Some d => d | None => [] end) "pipeline_outcome_summary" with
       | VDict summary =>
           if negb (py_eq (dget summary "contract_version") (VStr PIPELINE_OUTCOME_CONTRACT_VERSION))
           then mret true
           else integrity ← get_attr (py_or (dget summary "integrity") (VDict [])) "status";
                mret (negb (py_eq integrity (VStr NO_INTEGRITY_HAZARD)))
       | _ => mret true
       end.

(** ** Facts *)

Lemma gap_counts_keys result keys gaps : gap_counts result keys = Ok gaps -> gaps.*1 `sublist_of` keys.
Proof.
  revert gaps. induction keys as [|key keys IH]; intros gaps E; cbn [gap_counts] in E.
  - apply Ok_inj in E as <-. constructor.
  - apply result_bind_Ok in E as (n & En & E). apply result_bind_Ok in E as (rest & Er & E).
    apply Ok_inj in E as <-. apply IH in Er. destruct (n >? 0); cbn; by constructor.
Qed.

Lemma gap_counts_find result keys gaps key :
  NoDup keys -> gap_counts result keys = Ok gaps -> key ∈ keys ->
  exists n, int_count result key = Ok n
    /\ dict_find key gaps = (if n >? 0 then Some (VInt n) else None).
Proof.
  intros Hnd. revert gaps. induction Hnd as [|k keys Hk Hnd IH]; intros gaps E Hin; [by apply not_elem_of_nil in Hin|].
  cbn [gap_counts] in E. apply result_bind_Ok in E as (n & En & E). apply result_bind_Ok in E as (rest & Er & E).
  apply Ok_inj in E as <-. apply elem_of_cons in Hin as [->|Hin].
  - exists n. split; [done|]. destruct (n >? 0); cbn; [by rewrite String.eqb_refl|].
    destruct (dict_find k rest) eqn:Ef; [|done]. exfalso. apply Hk.
    apply gap_counts_keys in Er. apply (elem_of_sublist rest.*1); [|done].
    clear -Ef. induction rest as [|[k' v'] rest IH]; cbn in *; [done|].
    destruct (String.eqb_spec k k') as [->|]; [by left|right; auto].
  - destruct (IH rest Er Hin) as (m & Em & Ef). exists m. split; [done|].
    destruct (n >? 0); [|done]. cbn. destruct (String.eqb_spec key k) as [->|]; [done|done].
Qed.

Lemma hazards_In result h :
  In h (_integrity_hazards result)
  <-> (In h _EXPLICIT_INTEGRITY_FLAGS /\ dget result h = VBool true)
      \/ (truthy (dget result "integrity_failures") = true
          /\ match dget result "integrity_failures" with
             | VList l => h <> "" /\ exists v, In v l /\ h = strip (py_str v)
             | v => h = strip (py_str v)
             end).
Proof.
  unfold _integrity_hazards, sorted_set. cbv zeta. rewrite sort_by_In, unique_In, in_app_iff, filter_In.
  assert (Hflag : is_true (dget result h) = true <-> dget result h = VBool true)
    by (destruct (dget result h) as [|[]| | | | | |]; cbn; split; congruence).
  rewrite Hflag. destruct (truthy (dget result "integrity_failures")) eqn:Et; [|cbn; naive_solver].
  assert (Hr : forall P Q : Prop, (P <-> Q) ->
    ((In h _EXPLICIT_INTEGRITY_FLAGS /\ dget result h = VBool true) \/ P
     <-> (In h _EXPLICIT_INTEGRITY_FLAGS /\ dget result h = VBool true) \/ (true = true /\ Q))) by naive_solver.
  apply Hr. destruct (dget result "integrity_failures") as [|[]| | | |s|l|d]; cbn [In];
    try (split; [intros [<-|[]]; done|intros ->; by left]).
  rewrite filter_In, in_map_iff. unfold nonempty. rewrite negb_true_iff, String.eqb_neq. naive_solver.
Qed.

Lemma integrity_status_clear status hazards :
  status = "PARTIAL" ->
  String.eqb (integrity_status status hazards) NO_INTEGRITY_HAZARD = match hazards with [] => true | _ => false end.
Proof. intros ->. by destruct hazards. Qed.

Lemma outcome_body_fields status result body :
  outcome_body status result = Ok body ->
  dget body "contract_version" = VStr PIPELINE_OUTCOME_CONTRACT_VERSION
  /\ dget body "integrity"
     = VDict [("status", VStr (integrity_status status (_integrity_hazards result)));
              ("hazards", VList (map VStr (_integrity_hazards result)))]
  /\ forall extra, dget (body ++ extra) "contract_version" = dget body "contract_version"
                   /\ dget (body ++ extra) "integrity" = dget body "integrity".
Proof.
  intros E. unfold outcome_body in E. cbv zeta in E.
  apply result_bind_Ok in E as (gaps & _ & E). apply result_bind_Ok in E as (n1 & _ & E).
  apply result_bind_Ok in E as (n2 & _ & E). apply result_bind_Ok in E as (n3 & _ & E).
  apply Ok_inj in E as <-. done.
Qed.

(** The body of a summary is plain JSON, so that its fingerprint never fails. *)
Lemma outcome_body_fingerprint status result body :
  outcome_body status result = Ok body -> exists h, fingerprint (embed (VDict body)) = Ok h.
Proof.
  intros E. unfold outcome_body in E. cbv zeta in E.
  apply result_bind_Ok in E as (gaps & Eg & E). apply result_bind_Ok in E as (n1 & _ & E).
  apply result_bind_Ok in E as (n2 & _ & E). apply result_bind_Ok in E as (n3 & _ & E).
  apply Ok_inj in E as <-. generalize (_integrity_hazards result) as hazards. intros hazards.
  assert (Hh : forallb (_already_canonical_json None) (map embed (map VStr hazards)) = true).
  { induction hazards; cbn; done. }
  assert (Hg : forallb (fun kv => _already_canonical_json (Some kv.1) kv.2)
                 (map (fun kv => (kv.1, embed kv.2)) gaps) = true).
  { clear -Eg. revert gaps Eg. generalize _GAP_COUNTS as keys.
    induction keys as [|k keys IH]; intros gaps E; cbn [gap_counts] in E; [by apply Ok_inj in E as <-|].
    apply result_bind_Ok in E as (n & _ & E). apply result_bind_Ok in E as (rest & Er & E).
    apply Ok_inj in E as <-. apply IH in Er. destruct (n >? 0); done. }
  unfold fingerprint, dumps.
  assert (Ha : forall a b c, _already_canonical_json None (embed (VDict
     [("contract_version", VStr PIPELINE_OUTCOME_CONTRACT_VERSION); ("pipeline_status", VStr a);
      ("execution_outcome", VStr b);
      ("coverage", VDict [("expected_rows", VInt n1); ("combined_rows", VInt n2);
                          ("warning_rows", VInt n3); ("gaps", VDict gaps)]);
      ("integrity", VDict [("status", VStr c); ("hazards", VList (map VStr hazards))])])) = true).
  { intros a b c. cbn -[_is_unordered_field]. rewrite Hh, Hg. done. }
  rewrite Ha. cbn [mbind result_bind mret result_ret]. eauto.
Qed.

(** Containment follows the integrity of the run: with the summary that
    [derive_pipeline_outcome] stored, the downstream rows of a FAILED, CANCELLED or BLOCKED
    pipeline are always contained, those of a PARTIAL one exactly when a hazard
    was flagged or reported, and those of any other status never. *)
Theorem containment_follows_hazards status result summary stored :
  derive_pipeline_outcome status result = Ok summary ->
  dget stored "pipeline_outcome_summary" = VDict summary ->
  pipeline_requires_ceri_containment status (Some stored)
  = Ok (smem (upper status) _HARD_CONTAINMENT_STATUSES
        || (String.eqb (upper status) "PARTIAL"
            && match _integrity_hazards result with [] => false | _ => true end)).
Proof.
  intros E Hs. unfold derive_pipeline_outcome in E. apply result_bind_Ok in E as (body & Eb & E).
  apply result_bind_Ok in E as (h & _ & E). apply Ok_inj in E as <-.
  unfold pipeline_requires_ceri_containment. cbv zeta.
  destruct (smem (upper status) _HARD_CONTAINMENT_STATUSES); [done|].
  destruct (String.eqb_spec (upper status) "PARTIAL") as [Hp|]; [|done]. cbn [negb orb andb]. rewrite Hs.
  destruct (outcome_body_fields _ _ _ Eb) as (H1 & H2 & H3).
  destruct (H3 [("summary_fingerprint", VStr h)]) as [-> ->]. rewrite H1, H2.
  cbn [py_or truthy get_attr mbind result_bind mret result_ret].
  change (py_eq (VStr PIPELINE_OUTCOME_CONTRACT_VERSION) (VStr PIPELINE_OUTCOME_CONTRACT_VERSION)) with true.
  cbn [negb]. f_equal.
  change (negb (String.eqb (integrity_status (upper status) (_integrity_hazards result)) NO_INTEGRITY_HAZARD)
    = match _integrity_hazards result with [] => false | _ => true end).
  rewrite integrity_status_clear by done. by destruct (_integrity_hazards result).
Qed.

(** The summary is derived whenever the counts are numbers. *)
Lemma derive_total status result :
  (forall key, is_Some (py_int (py_or (dget result key) (VInt 0)))) ->
  exists summary, derive_pipeline_outcome status result = Ok summary.
Proof.
  intros Hint. assert (Hc : forall key, exists n, int_count result key = Ok n).
  { intros key. unfold int_count. destruct (Hint key) as [n ->]. by exists n. }
  assert (Hg : forall keys, exists gaps, gap_counts result keys = Ok gaps).
  { induction keys as [|k keys [gaps IH]]; [by exists []|]. cbn [gap_counts]. destruct (Hc k) as [n ->].
    rewrite IH. cbn. eauto. }
  assert (Hb : exists body, outcome_body (upper status) result = Ok body).
  { unfold outcome_body. destruct (Hg _GAP_COUNTS) as [gaps ->], (Hc "uploaded_rows") as [n1 ->],
      (Hc "combined_results") as [n2 ->], (Hc "warning_rows") as [n3 ->]. cbn. eauto. }
  destruct Hb as [body Eb]. destruct (outcome_body_fingerprint _ _ _ Eb) as [h Eh].
  unfold derive_pipeline_outcome. rewrite Eb. cbn [mbind result_bind]. rewrite Eh. cbn. eauto.
Qed.

End Outcome.

(** ** Witness *)

#[local] Instance outcome_text : JsonText := { float_repr := fun _ => "0.5"; sha256 := fun s => s }.
#[local] Instance outcome_str : PyText := { str_other := fun _ => "?"; set_order := fun l => l }.

Definition partial_result : dict :=
  [("uploaded_rows", VInt 10); ("ib_failure_count", VInt 2); ("quarantine_required", VBool true);
   ("integrity_failures", VList [VStr " late bar "; VStr ""])].
Definition partial_summary : dict :=
  match derive_pipeline_outcome "partial" partial_result with Ok d => d | Raise _ => [] end.

Example partial_hazards : _integrity_hazards partial_result = ["late bar"; "quarantine_required"].
Proof. vm_compute. reflexivity. Qed.

Lemma containment_follows_hazards_witness :
  pipeline_requires_ceri_containment "partial" (Some [("pipeline_outcome_summary", VDict partial_summary)])
  = Ok true.
Proof.
  pose proof (containment_follows_hazards "partial" partial_result partial_summary
    [("pipeline_outcome_summary", VDict partial_summary)]) as H.
  rewrite H; [vm_compute; reflexivity|vm_compute; reflexivity|reflexivity].
Defined.
