(* ===== verification/Eligibility.v ===== *)
(** * Setup lifecycle: the recorded permissions of a snapshot

    [setup_technical_blocked] of [technical_consumer_eligibility.py] and
    [setup_with_contextual_permission] of [contextual_consumer_eligibility.py]: both
    read the decisions that were frozen into the lineage of a snapshot, check that
    each one is bound to its producer's readiness, and never evaluate a policy
    again. *)
From Stdlib Require Import ZArith Lia List String Ascii Bool.
From stdpp Require Import base list strings.
From S2P Require Import Prelude PyDate PyFloat PyValue Readiness Signals.
Local Open Scope string_scope.
Local Open Scope list_scope.
Local Open Scope Z_scope.

Definition TECHNICAL_ELIGIBILITY_KEY : string := "technical_consumer_eligibility".
Definition CONTEXTUAL_ELIGIBILITY_KEY : string := "contextual_consumer_eligibility".

(** [v.get(...)] and [v["..."]] need a dictionary. *)
Definition get_mapping (v : pyval) : result dict :=
  match v with VDict d => Ok d | _ => raise "AttributeError" "object has no attribute 'get'" end.

(** [getattr(snapshot, "source_ids", {}) or lineage.get("source_ids", {})]. *)
Definition snapshot_source_ids (s : NormalizedSnapshot) : pyval :=
  match source_ids s with
  | [] => match dict_find "source_ids" (source_lineage s) with Some v => v | None => VDict [] end
  | ids => VDict (map (fun kv => (kv.1, of_opt VInt kv.2)) ids)
  end.

(** The decision rebuilt from its recorded form. *)
Definition decode_decision (dto : dict) : result Readiness.ConsumerEligibilityDecision :=
  consumer ← Readiness.item dto "consumer";
  status ← Readiness.item dto "status" ≫= Readiness.enum_of Readiness.eligibility_members;
  reasons ← Readiness.item dto "reasons"
              ≫= Readiness.enum_tuple Readiness.eligibility_reason_members;
  version ← Readiness.item dto "policy_version";
  fingerprint ← Readiness.item dto "producer_readiness_fingerprint";
  evidence ← Readiness.item dto "producer_evidence_id";
  mret (Readiness.make_decision consumer status reasons version fingerprint evidence []).

Definition eligible (d : Readiness.ConsumerEligibilityDecision) : bool :=
  bool_decide (Readiness.decision_status d = Readiness.ELIGIBLE).

Section Eligibility.
Context `{Evidence : Readiness.CanonicalEvidence}.

Definition setup_technical_blocked (snapshot : NormalizedSnapshot) : result bool :=
  let lineage := source_lineage snapshot in
  match dget lineage TECHNICAL_ELIGIBILITY_KEY with
  | VNone =>
      if truthy (dget lineage "calculation_identity") then mret true
      else ids ← get_mapping (snapshot_source_ids snapshot);
           mret (truthy (dget ids "technical_score_id"))
  | frozen =>
      frozen ← Readiness.as_mapping frozen;
      decision ← Readiness.item frozen "decision";
      readiness ← Readiness.item frozen "producer_readiness" ≫= Readiness.from_payload;
      decision ← Readiness.as_mapping decision;
      fingerprint ← Readiness.item decision "producer_readiness_fingerprint";
      if negb (Readiness.is_str fingerprint (Readiness.fingerprint readiness))
      then ValueError "Setup Technical eligibility/readiness fingerprint mismatch"
      else
        consumer ← Readiness.item decision "consumer";
        if negb (Readiness.is_str consumer "SETUP")
        then ValueError "Setup Technical eligibility consumer mismatch"
        else
          decoded ← decode_decision decision;
          if negb (py_eq (Readiness.producer_evidence_id decoded) (Readiness.evidence_id readiness))
          then ValueError "Setup Technical eligibility evidence mismatch"
          else mret (negb (eligible decoded))
  end.

(** The edges of the setup consumer: name, producer, and the signals they carry. *)
Definition contextual_edges : list (string * string * list string) :=
  [("regime", "REGIME", ["market_regime"; "market_gate"]);
   ("sector", "SECTOR", ["sector_rank"; "sector_confidence"]);
   ("fundamental", "FUNDAMENTAL", ["liquidity"]);
   ("combined", "COMBINED", ["earnings_risk"])].

(** One iteration of the loop: the keys it omits. *)
Definition omitted_by_edge (frozen : dict) (edge : string * string * list string)
  : result (list string) :=
  let '(name, producer, keys) := edge in
  match dget frozen name with
  | VNone => mret keys
  | permission =>
      permission ← Readiness.as_mapping permission;
      dto ← Readiness.item permission "decision";
      readiness ← Readiness.item permission "producer_readiness" ≫= Readiness.from_payload;
      dto ← Readiness.as_mapping dto;
      decoded ← decode_decision dto;
      if negb (Readiness.is_str (Readiness.consumer decoded) "SETUP")
         || negb (Readiness.is_str (Readiness.producer readiness) producer)
         || negb (Readiness.is_str (Readiness.producer_readiness_fingerprint decoded)
                    (Readiness.fingerprint readiness))
         || negb (py_eq (Readiness.producer_evidence_id decoded) (Readiness.evidence_id readiness))
      then ValueError "Setup contextual eligibility/readiness binding mismatch"
      else mret (if eligible decoded then [] else keys)
  end.

Fixpoint omitted_by (frozen : dict) (edges : list (string * string * list string))
  : result (list string) :=
  match edges with
  | [] => mret []
  | e :: edges => keys ← omitted_by_edge frozen e; rest ← omitted_by frozen edges;
                  mret (keys ++ rest)
  end.

(** The recorded decisions; [None] for a snapshot that has no contextual edge. *)
Definition recorded_permissions (snapshot : NormalizedSnapshot) : result (option dict) :=
  match dget (source_lineage snapshot) CONTEXTUAL_ELIGIBILITY_KEY with
  | VNone =>
      ids ← get_mapping (snapshot_source_ids snapshot);
      if negb (existsb (fun k => truthy (dget ids k))
                 ["market_regime_snapshot_id"; "sector_rotation_snapshot_id"])
         && negb (truthy (dget (source_lineage snapshot) "calculation_identity"))
      then mret None
      else mret (Some [])
  | frozen => d ← get_mapping frozen; mret (Some d)
  end.

Definition clear_signals (omitted : list string) (signals : list (string * SignalValue))
  : list (string * SignalValue) :=
  map (fun kv => if smem kv.1 omitted then (kv.1, mkSignal VNone VNone) else kv) signals.

Definition clear_lineage (omitted : list string) (lineage : dict) : dict :=
  let lineage := if smem "market_regime" omitted
                 then dict_set "market_regime_as_of" VNone lineage else lineage in
  if smem "sector_rank" omitted then dict_set "sector_rotation_as_of" VNone lineage else lineage.

(** [replace(snapshot, signals=signals, source_lineage=lineage)]. *)
Definition with_signals (s : NormalizedSnapshot) (sigs : list (string * SignalValue))
    (lineage : dict) : NormalizedSnapshot :=
  mkSnapshot (ticker s) (timeframe s) (data_as_of_date s) sigs (data_quality_label s)
    (required_feature_coverage s) (freshness_status s) (warning_flags s) (source_ids s) lineage
    (engine_version s) (config_version s) (schema_version s) (config_hash s) (source_data_hash s).

Definition setup_with_contextual_permission (snapshot : NormalizedSnapshot)
  : result NormalizedSnapshot :=
  frozen ← recorded_permissions snapshot;
  match frozen with
  | None => mret snapshot
  | Some frozen =>
      omitted ← omitted_by frozen contextual_edges;
      match omitted with
      | [] => mret snapshot
      | _ => mret (with_signals snapshot (clear_signals omitted (signals snapshot))
                     (clear_lineage omitted (source_lineage snapshot)))
      end
  end.

(** ** Facts *)

Lemma decode_decision_dto d :
  Readiness.normalize_reasons Readiness.eligibility_reason_members (Readiness.reasons d)
    = Readiness.reasons d ->
  Readiness.justification d = [] ->
  decode_decision (Readiness.decision_dto d) = Ok d.
Proof.
  intros Hn Hj. unfold decode_decision, Readiness.item, Readiness.decision_dto. rewrite Hj.
  cbn -[Readiness.enum_value Readiness.enum_of Readiness.enum_tuple].
  rewrite (Readiness.enum_roundtrip _ _ Readiness.eligibility_distinct
             (Readiness.eligibility_complete _)).
  cbn -[Readiness.enum_value Readiness.normalize_reasons].
  rewrite (Readiness.enum_list_roundtrip _ _ Readiness.eligibility_reason_distinct
             Readiness.eligibility_reason_complete).
  cbn -[Readiness.normalize_reasons]. unfold Readiness.make_decision. rewrite Hn, <- Hj.
  by destruct d.
Qed.

(** Either branch of a check that raises. *)
Lemma unless_Ok {A} (b : bool) (m : result A) cls msg a :
  (if b then raise cls msg else m) = Ok a <-> b = false /\ m = Ok a.
Proof. destruct b; naive_solver. Qed.

(** A permission as the producers of a snapshot record it. *)
Definition permission_record (d : Readiness.ConsumerEligibilityDecision)
    (e : Readiness.ProducerReadinessEnvelope) : pyval :=
  VDict [("decision", VDict (Readiness.decision_dto d)); ("producer_readiness", VDict (Readiness.to_dto e))].

(** The permission [(d, e)] is well formed: [d] was issued for the readiness [e]. *)
Definition bound_permission (d : Readiness.ConsumerEligibilityDecision)
    (e : Readiness.ProducerReadinessEnvelope) : Prop :=
  Readiness.from_payload (VDict (Readiness.to_dto e)) = Ok e
  /\ decode_decision (Readiness.decision_dto d) = Ok d
  /\ Readiness.consumer d = VStr "SETUP"
  /\ Readiness.producer_readiness_fingerprint d = VStr (Readiness.fingerprint e)
  /\ Readiness.producer_evidence_id d = Readiness.evidence_id e
  /\ py_eq (Readiness.evidence_id e) (Readiness.evidence_id e) = true.

Lemma technical_blocked_record s d e :
  bound_permission d e ->
  dget (source_lineage s) TECHNICAL_ELIGIBILITY_KEY = permission_record d e ->
  setup_technical_blocked s = Ok (negb (eligible d)).
Proof.
  intros (He & Hd & Hc & Hf & Hv & Hr) H. unfold setup_technical_blocked. rewrite H.
  unfold permission_record. cbn -[Readiness.decision_dto Readiness.to_dto Readiness.from_payload decode_decision].
  rewrite He. cbn -[Readiness.decision_dto decode_decision].
  assert (Readiness.item (Readiness.decision_dto d) "producer_readiness_fingerprint"
          = Ok (VStr (Readiness.fingerprint e))) as -> by (rewrite <- Hf; done).
  cbn -[Readiness.decision_dto decode_decision]. rewrite String.eqb_refl.
  assert (Readiness.item (Readiness.decision_dto d) "consumer" = Ok (VStr "SETUP")) as ->
    by (rewrite <- Hc; done).
  cbn -[Readiness.decision_dto decode_decision]. rewrite Hd. cbn. by rewrite Hv, Hr.
Qed.

Lemma clear_signals_find omitted sigs k :
  dict_find k (clear_signals omitted sigs)
  = (if smem k omitted then (fun _ => mkSignal VNone VNone) <$> dict_find k sigs
     else dict_find k sigs).
Proof.
  induction sigs as [|[k' v] sigs IH]; simpl; [by destruct (smem k omitted)|].
  destruct (smem k' omitted) eqn:E'; simpl; destruct (String.eqb_spec k k') as [->|];
    rewrite ?E'; simpl; try done; exact IH.
Qed.

Lemma clear_signals_idempotent omitted sigs :
  clear_signals omitted (clear_signals omitted sigs) = clear_signals omitted sigs.
Proof.
  unfold clear_signals. rewrite map_map. apply map_ext. intros [k v]. simpl.
  by destruct (smem k omitted) eqn:E; simpl; rewrite E.
Qed.

Lemma clear_lineage_find omitted lineage k :
  k <> "market_regime_as_of" -> k <> "sector_rotation_as_of" ->
  dict_find k (clear_lineage omitted lineage) = dict_find k lineage.
Proof.
  intros H1 H2. unfold clear_lineage. do 2 case_match; rewrite ?dict_find_set_ne by done; done.
Qed.

Lemma clear_lineage_idempotent omitted lineage :
  clear_lineage omitted (clear_lineage omitted lineage) = clear_lineage omitted lineage.
Proof.
  unfold clear_lineage. destruct (smem "market_regime" omitted), (smem "sector_rank" omitted); [| | |done].
  - rewrite (dict_set_id "market_regime_as_of" _ (dict_set "sector_rotation_as_of" _ _)).
    + apply dict_set_id, dict_find_set_eq.
    + rewrite dict_find_set_ne by done. apply dict_find_set_eq.
  - apply dict_set_id, dict_find_set_eq.
  - apply dict_set_id, dict_find_set_eq.
Qed.

Lemma recorded_permissions_cleared s omitted sigs :
  recorded_permissions (with_signals s sigs (clear_lineage omitted (source_lineage s)))
  = recorded_permissions s.
Proof.
  unfold recorded_permissions, snapshot_source_ids, dget. cbn [source_lineage source_ids with_signals].
  by rewrite !clear_lineage_find.
Qed.

Lemma contextual_permission_cases s s' :
  setup_with_contextual_permission s = Ok s' ->
  (recorded_permissions s = Ok None /\ s' = s)
  \/ exists frozen omitted,
       recorded_permissions s = Ok (Some frozen) /\ omitted_by frozen contextual_edges = Ok omitted
       /\ ((omitted = [] /\ s' = s)
           \/ s' = with_signals s (clear_signals omitted (signals s))
                     (clear_lineage omitted (source_lineage s))).
Proof.
  unfold setup_with_contextual_permission. intros H.
  apply result_bind_Ok in H as ([frozen|] & Hr & H); [|apply Ok_inj in H; auto].
  apply result_bind_Ok in H as (omitted & Ho & H). right. exists frozen, omitted.
  split_and!; [done..|]. destruct omitted; apply Ok_inj in H; auto.
Qed.

(** Applying the recorded contextual permissions is idempotent.  The engine, the
    adapters, the confidence service and the actionability policy each apply them
    again to a snapshot they were given; none of them changes it further. *)
Theorem contextual_permission_idempotent s s' :
  setup_with_contextual_permission s = Ok s' -> setup_with_contextual_permission s' = Ok s'.
Proof.
  intros H. destruct (contextual_permission_cases s s' H) as [[_ ->]|(frozen&omitted&Hr&Ho&[[_ ->]| ->])];
    [done..|].
  unfold setup_with_contextual_permission. rewrite recorded_permissions_cleared, Hr.
  cbn [mbind result_bind]. rewrite Ho. cbn [mbind result_bind].
  destruct omitted as [|k omitted]; [done|]. unfold with_signals. simpl signals. simpl source_lineage.
  by rewrite clear_signals_idempotent, clear_lineage_idempotent.
Qed.

(** The technical gate, end to end.  When the version 1 policy of the setup
    consumer was evaluated on a valid envelope and its decision was recorded in the
    lineage of a snapshot beside that envelope, the gate reads the record back without
    error and blocks the snapshot unless the producer was READY. *)
Theorem technical_gate_end_to_end args e version config d s :
  Readiness.canonical_idempotent -> Readiness.make_envelope args = Ok e ->
  Readiness.frozen_metrics e -> py_eq (Readiness.evidence_id e) (Readiness.evidence_id e) = true ->
  Readiness.endswith version "-v1" = true ->
  Readiness.technical_evaluate "SETUP" version e None config = Ok d ->
  dget (source_lineage s) TECHNICAL_ELIGIBILITY_KEY = permission_record d e ->
  setup_technical_blocked s = Ok (negb (bool_decide (Readiness.status e = Readiness.READY))).
Proof.
  intros Hc He Hm Hr Hv Hd Hl.
  destruct (Readiness.technical_policy_fail_closed _ _ _ _ _ _ _ He Hv Hd)
    as (Hst & _ & _ & _ & Hf & Hev & Hown & Hj & Hn).
  rewrite (technical_blocked_record s d e).
  - unfold eligible. do 2 f_equal. by apply bool_decide_ext.
  - split_and!; [|by apply decode_decision_dto|done..].
    apply Readiness.from_payload_to_dto; eauto using Readiness.make_envelope_normal.
  - done.
Qed.

(** Without a recorded decision, a snapshot that is bound to a calculation or to a
    technical score is blocked; a recorded decision lets it pass only when it decodes
    to ELIGIBLE, is addressed to the setup consumer and carries the fingerprint of the
    readiness recorded beside it. *)
Theorem technical_gate_fail_closed s :
  setup_technical_blocked s = Ok false ->
  (dget (source_lineage s) TECHNICAL_ELIGIBILITY_KEY = VNone
   /\ truthy (dget (source_lineage s) "calculation_identity") = false
   /\ exists ids, snapshot_source_ids s = VDict ids /\ truthy (dget ids "technical_score_id") = false)
  \/ exists frozen dto payload readiness decoded,
       dget (source_lineage s) TECHNICAL_ELIGIBILITY_KEY = VDict frozen
       /\ dict_find "decision" frozen = Some (VDict dto)
       /\ dict_find "producer_readiness" frozen = Some payload
       /\ Readiness.from_payload payload = Ok readiness
       /\ decode_decision dto = Ok decoded
       /\ Readiness.decision_status decoded = Readiness.ELIGIBLE
       /\ dict_find "consumer" dto = Some (VStr "SETUP")
       /\ dict_find "producer_readiness_fingerprint" dto
          = Some (VStr (Readiness.fingerprint readiness)).
Proof.
  unfold setup_technical_blocked. destruct (dget _ TECHNICAL_ELIGIBILITY_KEY) eqn:E; intros H;
    try done.
  - left. destruct (truthy (dget _ "calculation_identity")); [done|]. split_and!; [done..|].
    apply result_bind_Ok in H as (ids & Hi & H). apply Ok_inj in H. exists ids. split; [|done].
    destruct (snapshot_source_ids s); try done. by apply Ok_inj in Hi as ->.
  - right. cbn [Readiness.as_mapping mbind result_bind] in H. unfold Readiness.item in H.
    destruct (dict_find "decision" d) as [dto|] eqn:Ed; [|done]. cbn [mbind result_bind] in H.
    destruct (dict_find "producer_readiness" d) as [payload|] eqn:Ep; [|done].
    cbn [mbind result_bind] in H. apply result_bind_Ok in H as (readiness & Hp & H).
    destruct dto as [| | | | | | |dto]; try done. cbn [Readiness.as_mapping mbind result_bind] in H.
    destruct (dict_find "producer_readiness_fingerprint" dto) as [fp|] eqn:Ef; [|done].
    cbn [mbind result_bind] in H. apply unless_Ok in H as [Hfp H].
    destruct (dict_find "consumer" dto) as [c|] eqn:Ec; [|done].
    cbn [mbind result_bind] in H. apply unless_Ok in H as [Hc H].
    apply result_bind_Ok in H as (decoded & Hd & H). apply unless_Ok in H as [_ H].
    apply Ok_inj, negb_false_iff, bool_decide_eq_true in H.
    apply negb_false_iff in Hfp, Hc. destruct fp, c; try done. simpl in Hfp, Hc.
    apply String.eqb_eq in Hfp, Hc. subst.
    exists d, dto, payload, readiness, decoded. split_and!; done.
Qed.

Lemma omitted_by_In frozen edges omitted k :
  omitted_by frozen edges = Ok omitted ->
  (In k omitted <-> exists e ks, In e edges /\ omitted_by_edge frozen e = Ok ks /\ In k ks).
Proof.
  revert omitted. induction edges as [|e edges IH]; intros omitted H; simpl in H.
  - apply Ok_inj in H. subst. simpl. naive_solver.
  - apply result_bind_Ok in H as (ks & He & H). apply result_bind_Ok in H as (rest & Hr & H).
    apply Ok_inj in H. subst. rewrite in_app_iff, (IH _ Hr). simpl. split.
    + intros [Hk|(e' & ks' & ? & ? & ?)]; eauto 10.
    + intros (e' & ks' & [<-|?] & Hks & ?); [left|right; eauto 10].
      rewrite He in Hks. apply Ok_inj in Hks. by subst.
Qed.

Lemma omitted_by_edge_Ok frozen edges omitted e :
  omitted_by frozen edges = Ok omitted -> In e edges -> exists ks, omitted_by_edge frozen e = Ok ks.
Proof.
  revert omitted. induction edges as [|e' edges IH]; intros omitted H He; [done|]. simpl in H.
  apply result_bind_Ok in H as (ks & He' & H). apply result_bind_Ok in H as (rest & Hr & _).
  destruct He as [->|He]; eauto.
Qed.

(** An edge omits all of its signals, or none, and none only on a bound permission. *)
Lemma omitted_by_edge_cases frozen name producer keys ks :
  omitted_by_edge frozen (name, producer, keys) = Ok ks ->
  ks = keys
  \/ (ks = [] /\ exists permission dto payload readiness decoded,
        dget frozen name = VDict permission
        /\ dict_find "decision" permission = Some (VDict dto)
        /\ dict_find "producer_readiness" permission = Some payload
        /\ Readiness.from_payload payload = Ok readiness /\ decode_decision dto = Ok decoded
        /\ Readiness.decision_status decoded = Readiness.ELIGIBLE
        /\ Readiness.is_str (Readiness.producer readiness) producer = true
        /\ Readiness.is_str (Readiness.producer_readiness_fingerprint decoded)
             (Readiness.fingerprint readiness) = true).
Proof.
  unfold omitted_by_edge. destruct (dget frozen name); intros H; try done.
  { apply Ok_inj in H. auto. }
  cbn [Readiness.as_mapping mbind result_bind] in H. unfold Readiness.item in H.
  destruct (dict_find "decision" d) as [dto|] eqn:Ed; [|done]. cbn [mbind result_bind] in H.
  destruct (dict_find "producer_readiness" d) as [payload|] eqn:Ep; [|done].
  cbn [mbind result_bind] in H. apply result_bind_Ok in H as (readiness & Hp & H).
  destruct dto as [| | | | | | |dto]; try done. cbn [Readiness.as_mapping mbind result_bind] in H.
  apply result_bind_Ok in H as (decoded & Hd & H). apply unless_Ok in H as [Hb H].
  apply Ok_inj in H. destruct (eligible decoded) eqn:E; subst; [|by left]. right. split; [done|].
  rewrite !orb_false_iff, !negb_false_iff in Hb. destruct Hb as [[[_ Hprod] Hfp] _].
  apply bool_decide_eq_true in E. exists d, dto, payload, readiness, decoded. split_and!; done.
Qed.

(** The keys of the edges are disjoint: an omitted key belongs to its edge. *)
Lemma edge_of_key e e' k :
  In e contextual_edges -> In e' contextual_edges -> In k e.2 -> In k e'.2 -> e = e'.
Proof.
  intros He He'. simpl in He, He'.
  repeat destruct He as [<-|He]; try done; repeat destruct He' as [<-|He']; try done;
    try reflexivity; simpl; intros Hk Hk'; exfalso;
    repeat destruct Hk as [<-|Hk]; try done; repeat destruct Hk' as [Hk'|Hk']; done.
Qed.

(** The recorded contextual permissions decide per edge, and only on the edge's own
    signals.  When the call returns, for each of the regime, sector, fundamental and
    combined edges either the record holds a decision that decodes to ELIGIBLE, bound
    to a readiness of that producer, and the edge's signals are unchanged; or the
    edge's signals are present with no value.  Every other signal, the data date and
    the quality label are unchanged. *)
Theorem contextual_permission_scope s s' frozen :
  recorded_permissions s = Ok (Some frozen) -> setup_with_contextual_permission s = Ok s' ->
  (forall name producer keys, In (name, producer, keys) contextual_edges ->
     ((exists permission dto payload readiness decoded,
         dget frozen name = VDict permission
         /\ dict_find "decision" permission = Some (VDict dto)
         /\ dict_find "producer_readiness" permission = Some payload
         /\ Readiness.from_payload payload = Ok readiness /\ decode_decision dto = Ok decoded
         /\ Readiness.decision_status decoded = Readiness.ELIGIBLE
         /\ Readiness.is_str (Readiness.producer readiness) producer = true
         /\ Readiness.is_str (Readiness.producer_readiness_fingerprint decoded)
              (Readiness.fingerprint readiness) = true)
      /\ forall k, In k keys -> dict_find k (signals s') = dict_find k (signals s))
     \/ forall k, In k keys ->
          dict_find k (signals s') = (fun _ => mkSignal VNone VNone) <$> dict_find k (signals s))
  /\ (forall k, (forall e, In e contextual_edges -> ~ In k e.2) ->
        dict_find k (signals s') = dict_find k (signals s))
  /\ data_as_of_date s' = data_as_of_date s /\ data_quality_label s' = data_quality_label s.
Proof.
  intros Hr H.
  destruct (contextual_permission_cases s s' H) as [[Hn _]|(fr & omitted & Hr' & Ho & Hs)];
    [congruence|].
  assert (fr = frozen) as -> by congruence. clear Hr' H.
  assert (forall k, dict_find k (signals s')
    = if smem k omitted then (fun _ => mkSignal VNone VNone) <$> dict_find k (signals s)
      else dict_find k (signals s)) as Hfind.
  { intros k. destruct Hs as [[-> ->]| ->]; [done|]. apply clear_signals_find. }
  assert (forall e k, In e contextual_edges -> In k e.2 -> smem k omitted = true <->
            exists ks, omitted_by_edge frozen e = Ok ks /\ In k ks) as Hkey.
  { intros e k He Hk. rewrite smem_In, (omitted_by_In _ _ _ _ Ho).
    split; [|intros (ks & ? & ?); eauto 10]. intros (e' & ks & He' & Hks & Hin).
    assert (In k e'.2) as Hk'.
    { destruct e' as [[n p] keys].
      destruct (omitted_by_edge_cases _ _ _ _ _ Hks) as [-> |[-> _]]; done. }
    rewrite (edge_of_key e e' k) by done. eauto. }
  split_and!.
  - intros name producer keys He.
    destruct (omitted_by_edge_Ok _ _ _ _ Ho He) as (ks & Hks).
    destruct (omitted_by_edge_cases _ _ _ _ _ Hks) as [->|[-> Hp]].
    + right. intros k Hk. rewrite Hfind. by rewrite (proj2 (Hkey (name, producer, keys) k He Hk)) by eauto.
    + left. split; [exact Hp|]. intros k Hk. rewrite Hfind. destruct (smem k omitted) eqn:E; [|done].
      apply (Hkey (name, producer, keys) k He Hk) in E as (ks & Hks' & Hin).
      rewrite Hks in Hks'. apply Ok_inj in Hks'. by subst.
  - intros k Hk. rewrite Hfind. destruct (smem k omitted) eqn:E; [|done]. exfalso.
    apply smem_In, (omitted_by_In _ _ _ _ Ho) in E as ([[n p] keys] & ks & He & Hks & Hin).
    apply (Hk _ He). destruct (omitted_by_edge_cases _ _ _ _ _ Hks) as [-> |[-> _]]; done.
  - by destruct Hs as [[_ ->]| ->].
  - by destruct Hs as [[_ ->]| ->].
Qed.

End Eligibility.
