(* ===== verification/Adapters.v ===== *)
(** * Setup lifecycle: the family adapters

    [app/services/setup_lifecycle/breakout_adapter.py], [pullback_adapter.py],
    [vcp_adapter.py], [continuation_adapter.py], [generic_adapter.py], and the
    ranking of the candidates in [family_adapters.py]. *)
From Stdlib Require Import ZArith Lia List String Ascii Bool.
From stdpp Require Import base list strings.
From S2P Require Import Prelude PyDate PyFloat PyValue Readiness Signals Eligibility.
Local Open Scope string_scope.
Local Open Scope list_scope.
Local Open Scope Z_scope.

(** [if c1: ... elif c2: ...]: the phase and the reason of the first condition
    that holds. *)
Fixpoint first_phase (branches : list (bool * (string * list string)))
    (otherwise : string * list string) : string * list string :=
  match branches with
  | [] => otherwise
  | (true, out) :: _ => out
  | (false, _) :: rest => first_phase rest otherwise
  end.

Section Adapters.
Context `{Text : PyText} `{Evidence : Readiness.CanonicalEvidence} (config : SetupLifecycleConfig).
Implicit Types (snapshot : NormalizedSnapshot) (history : list NormalizedSnapshot).

Definition fl (n : Z) : float := float_of_Z n.
Definition or_reasons (reasons : list string) (weak : string) : list string :=
  match reasons with [] => [weak] | r => r end.
Definition missing_reason (distance : option float) (reason : string) : pyval :=
  match distance with Some _ => VNone | None => VStr reason end.
Definition over_limit (atr : option float) (limit : float) : bool :=
  match atr with Some a => fge a limit | None => false end.

(** ** Breakout *)

Definition breakout_contraction snapshot : bool :=
  signal_bool snapshot "range_contraction"
  || fge (signal_number snapshot "tightness_score" f0) (fl 6)
  || classification_contains snapshot ["contraction"; "tight"].

Definition breakout_evaluate snapshot history (state_age_sessions : Z) : result FamilyEvidence :=
  let policy := policies config BREAKOUT in
  let setup_score := signal_number snapshot "setup_score" f0 in
  let distance := signal_optional_number snapshot "distance_to_pivot_pct" in
  let close_cross := signal_bool snapshot "close_trigger_cross" in
  let follow_through := consecutive_true_sessions snapshot history "close_trigger_cross" in
  let volume_percentile := signal_optional_number snapshot "volume_percentile_252" in
  let dry_up := signal_bool snapshot "volume_dry_up" || classification_contains snapshot ["dry"; "vdu"]
    || match volume_percentile with Some v => fle v (fl 35) | None => false end
    || numeric_history_is_improving snapshot history "volume_percentile_252" true in
  let contraction_sessions :=
    consecutive_family_condition_sessions snapshot history breakout_contraction in
  contraction_min_sessions ← policy_int config BREAKOUT "contraction_sessions_min" (VInt 2);
  let contraction := (contraction_min_sessions <=? contraction_sessions)
    || numeric_history_is_improving snapshot history "range_percentile_252" true in
  let breakout_like := classification_contains snapshot ["breakout"; "base"; "pivot"; "cup"]
    || signal_bool snapshot "fresh_breakout" || signal_bool snapshot "failed_breakout"
    || signal_bool snapshot "box_failure" in
  let failed := signal_bool snapshot "failed_breakout" || signal_bool snapshot "box_failure"
    || classification_contains snapshot ["failed breakout"; "breakout failure"] in
  let extended_atr := derived_atr_from_trigger snapshot in
  let expired := max_age_sessions policy <=? state_age_sessions in
  ready_distance ← policy_float config BREAKOUT "ready_pivot_distance_enter_pct" (VInt 2);
  confirmed_sessions ← policy_int config BREAKOUT "confirmed_hold_sessions" (VInt 2);
  extended_limit ← policy_float config BREAKOUT "extended_atr_from_trigger" (VFloat (float_ratio 5 2));
  let ready := fge setup_score (ready_score_min policy)
    && match distance with Some d => fle d ready_distance | None => false end in
  let triggered := ready && close_cross in
  let confirmed := triggered && (confirmed_sessions <=? follow_through) in
  let extended := triggered && over_limit extended_atr extended_limit in
  let tracked := fge setup_score (tracking_score_min policy) in
  let '(phase, reasons) := first_phase
    [ (failed, ("BREAKOUT_FAILED", ["FAILED_BREAKOUT"]));
      (expired, ("EXPIRED", ["MAX_AGE_EXCEEDED"]));
      (extended, ("FOLLOW_THROUGH", ["EXTENDED_FROM_TRIGGER"]));
      (confirmed, ("FOLLOW_THROUGH", ["FOLLOW_THROUGH_CONFIRMED"]));
      (triggered, ("BREAKOUT", ["CLOSE_TRIGGER_CROSSED"]));
      (ready, ("PIVOT_READY", ["PIVOT_DISTANCE_READY"]));
      (dry_up, ("VOLUME_DRY_UP", ["VOLUME_DRY_UP"]));
      (contraction, ("RANGE_CONTRACTION", ["RANGE_CONTRACTION"]));
      (breakout_like && tracked, ("BASE_FORMING", ["BREAKOUT_TRACKABLE"])) ] ("BASE_FORMING", []) in
  confidence ← confidence_of_ten setup_score;
  mret {|
    setup_family := BREAKOUT;
    phase_code := phase;
    evidence_score := setup_score;
    confidence_score := confidence;
    trackable := breakout_like && negb (bool_decide (reasons = [])) && tracked;
    ready := ready; triggered := triggered; confirmed := confirmed; extended := extended;
    hard_failure := failed;
    reason_codes := or_reasons reasons "WEAK_BREAKOUT_EVIDENCE";
    evidence :=
      [("setup_score", VFloat setup_score); ("distance_to_pivot_pct", opt_float distance);
       ("trigger_distance_missing_reason", missing_reason distance "PIVOT_UNAVAILABLE");
       ("close_trigger_cross", VBool close_cross); ("follow_through_sessions", VInt follow_through);
       ("extended_atr_from_trigger", opt_float extended_atr);
       ("contraction_sessions", VInt contraction_sessions);
       ("volume_percentile_252", opt_float volume_percentile);
       ("state_age_sessions", VInt state_age_sessions); ("breakout_like", VBool breakout_like)];
    agreement_components :=
      [("trend", trend_agreement snapshot); ("contraction", if contraction || dry_up then f1 else f0);
       ("relative_strength", relative_strength_agreement snapshot);
       ("classification", classification_agreement snapshot ["breakout"; "base"; "pivot"; "cup"])];
  |}.

(** ** Pullback *)

Definition pullback_prior_uptrend snapshot history : bool :=
  let policy := policies config PULLBACK in
  existsb (fun item =>
      fge (signal_number item "trend_score" (signal_number item "technical_score" f0))
        (tracking_score_min policy)
      || classification_contains item ["uptrend"; "stage 2"; "pullback"]) history
  || (feq (trend_agreement snapshot) f1
      && classification_contains snapshot ["uptrend"; "pullback"; "stage 2"]).

Definition pullback_evaluate snapshot history (state_age_sessions : Z) : result FamilyEvidence :=
  let policy := policies config PULLBACK in
  let setup_score := signal_number snapshot "setup_score" f0 in
  let trend_score := signal_number snapshot "technical_score" f0 in
  let declining_volume := signal_bool snapshot "red_volume_declining"
    || numeric_history_is_improving snapshot history "volume_percentile_252" true in
  let shrinking_ranges := numeric_history_is_improving snapshot history "range_percentile_252" true in
  let support_held := signal_bool snapshot "held_near_support"
    || classification_contains snapshot ["support test"; "support hold"] in
  let reversal_trigger := signal_bool snapshot "close_trigger_cross" in
  let follow_through := consecutive_true_sessions snapshot history "close_trigger_cross" in
  let support_break := signal_bool snapshot "heavy_mid_ma_break" || signal_bool snapshot "failed_breakout"
    || classification_contains snapshot ["distribution risk"; "failed pullback"] in
  let extended_atr := derived_atr_from_trigger snapshot in
  confirmed_sessions ← policy_int config PULLBACK "confirmed_hold_sessions" (VInt 2);
  extended_limit ← policy_float config BREAKOUT "extended_atr_from_trigger" (VFloat (float_ratio 5 2));
  let pullback_like := classification_contains snapshot ["uptrend"; "pullback"; "support"]
    || declining_volume || support_held || support_break in
  let prior_uptrend := pullback_prior_uptrend snapshot history in
  let support_approach := support_held
    || classification_contains snapshot ["support approach"; "support test"] in
  let ready := fge setup_score (ready_score_min policy) && support_approach && support_held in
  let triggered := ready && reversal_trigger in
  let confirmed := triggered && (confirmed_sessions <=? follow_through)
    && (fge (relative_strength_agreement snapshot) f_half
        || fge (signal_number snapshot "volume_ratio" f0) f1) in
  let extended := triggered && over_limit extended_atr extended_limit in
  let expired := max_age_sessions policy <=? state_age_sessions in
  let tracked := fge setup_score (tracking_score_min policy) in
  let '(phase, reasons) := first_phase
    [ (support_break, ("SUPPORT_BREAK", ["SUPPORT_BREAK"]));
      (expired, ("EXPIRED", ["MAX_AGE_EXCEEDED"]));
      (extended, ("FOLLOW_THROUGH", ["EXTENDED_FROM_TRIGGER"]));
      (confirmed, ("FOLLOW_THROUGH", ["FOLLOW_THROUGH_CONFIRMED"]));
      (triggered, ("REVERSAL_TRIGGER", ["REVERSAL_TRIGGER"]));
      (ready, ("REVERSAL_READY", ["REVERSAL_READY"]));
      (support_approach, ("SUPPORT_TEST", ["SUPPORT_TEST"]));
      (declining_volume && shrinking_ranges,
         ("SELLING_PRESSURE_DECLINING", ["SELLING_PRESSURE_DECLINING"]));
      (prior_uptrend && tracked, ("PULLBACK_STARTED", ["PRIOR_UPTREND_PULLBACK"])) ]
    ("PULLBACK_STARTED", []) in
  let score := fmax setup_score trend_score in
  let distance := signal_optional_number snapshot "distance_to_pivot_pct" in
  confidence ← confidence_of_ten score;
  mret {|
    setup_family := PULLBACK;
    phase_code := phase;
    evidence_score := score;
    confidence_score := confidence;
    trackable := pullback_like && prior_uptrend && tracked;
    ready := ready; triggered := triggered; confirmed := confirmed; extended := extended;
    hard_failure := support_break;
    reason_codes := or_reasons reasons "WEAK_PULLBACK_EVIDENCE";
    evidence :=
      [("setup_score", VFloat setup_score); ("trend_score", VFloat trend_score);
       ("support_held", VBool support_held); ("declining_volume", VBool declining_volume);
       ("shrinking_ranges", VBool shrinking_ranges); ("prior_uptrend", VBool prior_uptrend);
       ("pullback_depth_pct", opt_float (signal_optional_number snapshot "pullback_depth_pct"));
       ("reversal_trigger", VBool reversal_trigger);
       ("trigger_price", opt_float (signal_optional_number snapshot "trigger_price"));
       ("trigger_distance_pct", opt_float distance);
       ("trigger_distance_missing_reason", missing_reason distance "TRIGGER_UNAVAILABLE");
       ("follow_through_sessions", VInt follow_through);
       ("extended_atr_from_trigger", opt_float extended_atr);
       ("state_age_sessions", VInt state_age_sessions); ("pullback_like", VBool pullback_like)];
    agreement_components :=
      [("trend", trend_agreement snapshot);
       ("contraction", if declining_volume && shrinking_ranges then f1
                       else if declining_volume || shrinking_ranges then f_half else f0);
       ("relative_strength", relative_strength_agreement snapshot);
       ("classification", classification_agreement snapshot ["pullback"; "support"; "uptrend"])];
  |}.

(** ** Volatility contraction *)

Definition vcp_contraction snapshot : bool :=
  signal_bool snapshot "range_contraction"
  || fge (signal_number snapshot "vcp_score" f0) (tracking_score_min (policies config VCP))
  || classification_contains snapshot ["vcp"; "contraction"].

Definition vcp_evaluate snapshot history (state_age_sessions : Z) : result FamilyEvidence :=
  let policy := policies config VCP in
  let setup_score := signal_number snapshot "setup_score" f0 in
  let contraction_count := consecutive_family_condition_sessions snapshot history vcp_contraction in
  let dry_up_percentile := signal_number snapshot "volume_percentile_252" (fl 100) in
  let close_cross := signal_bool snapshot "close_trigger_cross" in
  let failed := signal_bool snapshot "failed_breakout" || signal_bool snapshot "box_failure"
    || classification_contains snapshot ["failed breakout"; "vcp failure"] in
  let expired := max_age_sessions policy <=? state_age_sessions in
  contraction_min ← policy_int config VCP "contraction_count_min" (VInt 2);
  dry_up_max ← policy_float config VCP "dry_up_percentile_max" (VInt 35);
  let trackable := fge setup_score (tracking_score_min policy)
    && (classification_contains snapshot ["vcp"] || (1 <=? contraction_count)) in
  let ready := fge setup_score (ready_score_min policy) && (contraction_min <=? contraction_count)
    && fle dry_up_percentile dry_up_max in
  let triggered := ready && close_cross in
  let follow_through := consecutive_true_sessions snapshot history "close_trigger_cross" in
  let confirmed := triggered && (2 <=? follow_through) in
  let extended_atr := derived_atr_from_trigger snapshot in
  extended_limit ← policy_float config BREAKOUT "extended_atr_from_trigger" (VFloat (float_ratio 5 2));
  let extended := triggered && over_limit extended_atr extended_limit in
  let '(phase, reasons) := first_phase
    [ (failed, ("FAILED", ["VCP_FAILED"]));
      (expired, ("EXPIRED", ["MAX_AGE_EXCEEDED"]));
      (extended, ("BREAKOUT", ["EXTENDED_FROM_TRIGGER"]));
      (confirmed, ("BREAKOUT", ["FOLLOW_THROUGH_CONFIRMED"]));
      (triggered, ("BREAKOUT", ["VCP_BREAKOUT"]));
      (ready, ("PIVOT_READY", ["VCP_PIVOT_READY"]));
      (fle dry_up_percentile dry_up_max, ("VOLUME_DRY_UP", ["VOLUME_DRY_UP"]));
      (3 <=? contraction_count, ("CONTRACTION_3", ["THIRD_CONTRACTION"]));
      (2 <=? contraction_count, ("CONTRACTION_2", ["SECOND_CONTRACTION"])) ]
    ("CONTRACTION_1", if trackable then ["VCP_TRACKABLE"] else []) in
  let distance := signal_optional_number snapshot "distance_to_pivot_pct" in
  confidence ← confidence_of_ten setup_score;
  mret {|
    setup_family := VCP;
    phase_code := phase;
    evidence_score := setup_score;
    confidence_score := confidence;
    trackable := trackable;
    ready := ready; triggered := triggered; confirmed := confirmed; extended := extended;
    hard_failure := failed;
    reason_codes := or_reasons reasons "WEAK_VCP_EVIDENCE";
    evidence :=
      [("setup_score", VFloat setup_score); ("contraction_count", VInt contraction_count);
       ("volume_percentile_252", VFloat dry_up_percentile); ("close_trigger_cross", VBool close_cross);
       ("trigger_price", opt_float (signal_optional_number snapshot "trigger_price"));
       ("trigger_distance_pct", opt_float distance);
       ("trigger_distance_missing_reason", missing_reason distance "PIVOT_UNAVAILABLE");
       ("follow_through_sessions", VInt follow_through);
       ("extended_atr_from_trigger", opt_float extended_atr);
       ("state_age_sessions", VInt state_age_sessions)];
    agreement_components :=
      [("trend", trend_agreement snapshot);
       ("contraction", if contraction_min <=? contraction_count then f1 else f0);
       ("relative_strength", relative_strength_agreement snapshot);
       ("classification", classification_agreement snapshot ["vcp"; "contraction"])];
  |}.

(** ** Continuation *)

Definition continuation_evaluate snapshot history (state_age_sessions : Z) : result FamilyEvidence :=
  let policy := policies config CONTINUATION in
  let setup_score := signal_number snapshot "setup_score" f0 in
  let tight_range := signal_number snapshot "range_percentile_252" (fl 100) in
  let close_cross := signal_bool snapshot "close_trigger_cross" in
  let extended_atr := derived_atr_from_trigger snapshot in
  let failed := signal_bool snapshot "failed_breakout" || signal_bool snapshot "box_failure"
    || signal_bool snapshot "heavy_mid_ma_break"
    || classification_contains snapshot ["distribution risk"; "failed continuation"] in
  let expired := max_age_sessions policy <=? state_age_sessions in
  tight_max ← policy_float config CONTINUATION "tight_range_percentile_max" (VInt 40);
  extended_limit ← policy_float config CONTINUATION "extended_atr_from_trigger" (VFloat (float_ratio 5 2));
  tight_sessions_min ← policy_int config CONTINUATION "tight_range_sessions_min" (VInt 2);
  let tight_sessions := consecutive_family_condition_sessions snapshot history
    (fun item => fle (signal_number item "range_percentile_252" (fl 100)) tight_max) in
  let trackable := fge setup_score (tracking_score_min policy)
    && classification_contains snapshot ["continuation"; "flag"; "pause"] in
  let ready := fge setup_score (ready_score_min policy) && fle tight_range tight_max
    && (tight_sessions_min <=? tight_sessions) in
  let triggered := ready && close_cross in
  let follow_through := consecutive_true_sessions snapshot history "close_trigger_cross" in
  let confirmed := triggered && (2 <=? follow_through) in
  let extended := triggered && over_limit extended_atr extended_limit in
  let '(phase, reasons) := first_phase
    [ (failed, ("FAILED", ["CONTINUATION_FAILED"]));
      (expired, ("EXPIRED", ["MAX_AGE_EXCEEDED"]));
      (extended, ("CONTINUATION_TRIGGER", ["EXTENDED_FROM_TRIGGER"]));
      (confirmed, ("CONTINUATION_TRIGGER", ["FOLLOW_THROUGH_CONFIRMED"]));
      (triggered, ("CONTINUATION_TRIGGER", ["CONTINUATION_TRIGGER"]));
      (ready, ("CONTINUATION_READY", ["TIGHT_RANGE_READY"]));
      (fle tight_range tight_max, ("TIGHT_RANGE", ["TIGHT_RANGE"]));
      (classification_contains snapshot ["flag"], ("FLAG_FORMING", ["FLAG_FORMING"])) ]
    ("PAUSE", if trackable then ["CONTINUATION_TRACKABLE"] else []) in
  let distance := signal_optional_number snapshot "distance_to_pivot_pct" in
  confidence ← confidence_of_ten setup_score;
  mret {|
    setup_family := CONTINUATION;
    phase_code := phase;
    evidence_score := setup_score;
    confidence_score := confidence;
    trackable := trackable;
    ready := ready; triggered := triggered; confirmed := confirmed; extended := extended;
    hard_failure := failed;
    reason_codes := or_reasons reasons "WEAK_CONTINUATION_EVIDENCE";
    evidence :=
      [("setup_score", VFloat setup_score); ("range_percentile_252", VFloat tight_range);
       ("tight_range_sessions", VInt tight_sessions); ("close_trigger_cross", VBool close_cross);
       ("trigger_price", opt_float (signal_optional_number snapshot "trigger_price"));
       ("trigger_distance_pct", opt_float distance);
       ("trigger_distance_missing_reason", missing_reason distance "TRIGGER_UNAVAILABLE");
       ("follow_through_sessions", VInt follow_through);
       ("extended_atr_from_trigger", opt_float extended_atr);
       ("state_age_sessions", VInt state_age_sessions)];
    agreement_components :=
      [("trend", trend_agreement snapshot);
       ("contraction", if tight_sessions_min <=? tight_sessions then f1 else f0);
       ("relative_strength", relative_strength_agreement snapshot);
       ("classification", classification_agreement snapshot ["continuation"; "flag"; "pause"])];
  |}.

(** ** Generic fallback *)

(** [a or b or 0.0] of optional numbers: zero counts as absent. *)
Definition nonzero (o : option float) : option float :=
  match o with Some x => if feq x f0 then None else Some x | None => None end.

Definition generic_evaluate snapshot history (state_age_sessions : Z) : result FamilyEvidence :=
  let policy := policies config GENERIC in
  let score := match nonzero (_number (signal_value snapshot "technical_score" VNone)) with
               | Some x => x
               | None => match nonzero (_number (signal_value snapshot "setup_score" VNone)) with
                         | Some x => x
                         | None => f0
                         end
               end in
  let trackable := enabled policy && fge score (tracking_score_min policy) in
  let ready := trackable && fge score (ready_score_min policy) in
  let triggered := ready && signal_bool snapshot "close_trigger_cross" in
  let expired := max_age_sessions policy <=? state_age_sessions in
  let improving := numeric_history_is_improving snapshot history "technical_score" false in
  let '(phase, reasons) := first_phase
    [ (expired, ("EXPIRED", ["MAX_AGE_EXCEEDED"]));
      (triggered, ("TRIGGERED", ["GENERIC_TRIGGERED"]));
      (ready, ("READY", ["GENERIC_READY"]));
      (trackable && improving, ("IMPROVING", ["GENERIC_SCORE_IMPROVING"]));
      (trackable, ("CANDIDATE", ["GENERIC_FALLBACK"])) ]
    ("CANDIDATE", ["WEAK_GENERIC_EVIDENCE"]) in
  confidence ← _confidence_from_score score;
  mret {|
    setup_family := GENERIC;
    phase_code := phase;
    evidence_score := score;
    confidence_score := confidence;
    trackable := trackable;
    ready := ready; triggered := triggered; confirmed := false; extended := false;
    hard_failure := false;
    reason_codes := reasons;
    evidence :=
      [("technical_score", VFloat score); ("score_improving", VBool improving);
       ("state_age_sessions", VInt state_age_sessions)];
    agreement_components :=
      [("trend", trend_agreement snapshot); ("contraction", f_half);
       ("relative_strength", relative_strength_agreement snapshot);
       ("classification", if String.eqb (signal_text snapshot "classification") "" then f_half else f1)];
  |}.

(** ** Candidates *)

Definition evaluate_adapter (family : SetupFamily) : NormalizedSnapshot -> list NormalizedSnapshot ->
    Z -> result FamilyEvidence :=
  match family with
  | BREAKOUT => breakout_evaluate
  | PULLBACK => pullback_evaluate
  | VCP => vcp_evaluate
  | CONTINUATION => continuation_evaluate
  | GENERIC => generic_evaluate
  end.

Fixpoint result_map {A B} (f : A -> result B) (l : list A) : result (list B) :=
  match l with
  | [] => mret []
  | x :: l => y ← f x; ys ← result_map f l; mret (y :: ys)
  end.

Fixpoint index_of (family : SetupFamily) (l : list SetupFamily) : option Z :=
  match l with
  | [] => None
  | f :: l => if bool_decide (f = family) then Some 0 else (fun n => 1 + n) <$> index_of family l
  end.

(** Later entries of the dictionary comprehension win; the configured precedence
    lists each family once. *)
Definition precedence_rank (family : SetupFamily) : result Z :=
  match index_of family (precedence config) with
  | Some i => Ok (Z.of_nat (length (precedence config)) - i)
  | None => raise "KeyError" "setup family"
  end.

(** Classification agreement, confidence, evidence score, precedence. *)
Definition sort_key : Type := float * Z * float * Z.
Definition _family_sort_key (e : FamilyEvidence) : result sort_key :=
  rank ← precedence_rank (setup_family e);
  let agreement := match dict_find "classification" (agreement_components e) with
                   | Some x => x | None => f0 end in
  mret (agreement, confidence_score e, evidence_score e, rank).

(** Tuple comparison: the first pair that differs decides. *)
Definition key_lt (a b : sort_key) : bool :=
  let '(a1, a2, a3, a4) := a in
  let '(b1, b2, b3, b4) := b in
  if negb (feq a1 b1) then flt a1 b1
  else if negb (a2 =? b2) then a2 <? b2
  else if negb (feq a3 b3) then flt a3 b3
  else a4 <? b4.

Definition keyed (e : FamilyEvidence) : result (sort_key * FamilyEvidence) :=
  k ← _family_sort_key e; mret (k, e).

Definition evaluate_family_candidates snapshot history (state_age_sessions : Z)
  : result (list FamilyEvidence) :=
  snapshot ← setup_with_contextual_permission snapshot;
  history ← result_map setup_with_contextual_permission history;
  blocked ← setup_technical_blocked snapshot;
  if (blocked : bool) then mret []
  else
    flags ← result_map setup_technical_blocked history;
    let history := map fst (List.filter (fun p => negb (snd p)) (combine history flags)) in
    evidences ← result_map (fun family => evaluate_adapter family snapshot history state_age_sessions)
      (List.filter (fun family => enabled (policies config family))
         [BREAKOUT; PULLBACK; VCP; CONTINUATION]);
    let candidates := List.filter (fun e => trackable e
      && fge (evidence_score e) (tracking_score_min (policies config (setup_family e)))) evidences in
    match candidates with
    | [] =>
        generic ← generic_evaluate snapshot history state_age_sessions;
        mret (if trackable generic then [generic] else [])
    | _ =>
        keys ← result_map keyed candidates;
        mret (map snd (sort_by (fun a b => negb (key_lt (fst a) (fst b))) keys))
    end.

(** [max(evidences, key=...)]: the first of the largest. *)
Fixpoint first_max (best : sort_key * FamilyEvidence) (l : list (sort_key * FamilyEvidence))
  : sort_key * FamilyEvidence :=
  match l with
  | [] => best
  | x :: l => first_max (if key_lt (fst best) (fst x) then x else best) l
  end.

Definition select_primary_family (evidences : list FamilyEvidence) : result (option FamilyEvidence) :=
  match evidences with
  | [] => mret None
  | _ =>
      keys ← result_map keyed evidences;
      mret (match keys with [] => None | k :: ks => Some (snd (first_max k ks)) end)
  end.

End Adapters.
