(* ===== verification/AdapterFacts.v ===== *)
(** * Setup lifecycle: what the family adapters promise

    The evidence of every adapter is consistent, and the candidates come ranked:
    the primary family is the first of them. *)
From Stdlib Require Import ZArith Lia List String Ascii Bool.
From Stdlib Require Import Floats.SpecFloat.
From stdpp Require Import base list sorting strings.
From S2P Require Import Prelude PyDate PyFloat PyValue Readiness Signals Eligibility Adapters.
Local Open Scope string_scope.
Local Open Scope list_scope.
Local Open Scope Z_scope.

(** ** Scores *)

Lemma clamp100_bounds n : 0 <= clamp100 n <= 100.
Proof. unfold clamp100. lia. Qed.

Lemma confidence_of_ten_Ok score n :
  confidence_of_ten score = Ok n -> 0 <= n <= 100 /\ is_nan score = false.
Proof.
  unfold confidence_of_ten. intros H. apply result_bind_Ok in H as (m & Hm & H).
  apply Ok_inj in H. subst. split; [apply clamp100_bounds|]. by destruct score.
Qed.

Lemma confidence_from_score_Ok score n :
  _confidence_from_score score = Ok n -> 0 <= n <= 100 /\ is_nan score = false.
Proof.
  unfold _confidence_from_score. destruct (fle _ _); [apply confidence_of_ten_Ok|].
  intros H. apply result_bind_Ok in H as (m & Hm & H).
  apply Ok_inj in H. subst. split; [apply clamp100_bounds|]. by destruct score.
Qed.

(** An agreement component: absent, half or full. *)
Definition is_grade (x : float) : Prop := x = f0 \/ x = f_half \/ x = f1.

Lemma agreement_of_score_grade x : is_grade (agreement_of_score x).
Proof. unfold agreement_of_score, is_grade. repeat case_match; auto. Qed.

Lemma is_grade_nan x : is_grade x -> is_nan x = false.
Proof. by intros [->|[->| ->]]. Qed.

Lemma grade_if (b : bool) x y : is_grade x -> is_grade y -> is_grade (if b then x else y).
Proof. by destruct b. Qed.
Lemma grade_0 : is_grade f0.
Proof. by left. Qed.
Lemma grade_half : is_grade f_half.
Proof. by right; left. Qed.
Lemma grade_1 : is_grade f1.
Proof. by right; right. Qed.

Create HintDb grade.
#[export] Hint Resolve agreement_of_score_grade grade_if grade_0 grade_half grade_1 : grade.

Section Facts.
Context `{Text : PyText} `{Evidence : Readiness.CanonicalEvidence} (config : SetupLifecycleConfig).

Lemma trend_agreement_grade s : is_grade (trend_agreement s).
Proof. unfold trend_agreement. repeat case_match; auto with grade. Qed.
Lemma relative_strength_agreement_grade s : is_grade (relative_strength_agreement s).
Proof. unfold relative_strength_agreement. case_match; auto with grade. Qed.
Lemma classification_agreement_grade s tokens : is_grade (classification_agreement s tokens).
Proof. unfold classification_agreement. auto with grade. Qed.
Hint Resolve trend_agreement_grade relative_strength_agreement_grade classification_agreement_grade
  : grade.

Lemma fmax_ge_l a b : is_nan a = false -> fle a (fmax a b) = true.
Proof. intros H. unfold fmax, fgt. destruct (flt a b) eqn:E; auto using flt_fle, fle_refl. Qed.

(** The shape shared by the evidence of all families. *)
Record evidence_ok (family : SetupFamily) (e : FamilyEvidence) : Prop := {
  ok_family : setup_family e = family;
  ok_confidence : 0 <= confidence_score e <= 100;
  ok_score : is_nan (evidence_score e) = false;
  ok_triggered : triggered e = true -> ready e = true;
  ok_confirmed : confirmed e = true -> triggered e = true;
  ok_extended : extended e = true -> triggered e = true;
  ok_tracked : trackable e = true ->
    fge (evidence_score e) (tracking_score_min (policies config family)) = true;
  ok_reasons : reason_codes e <> [];
  ok_agreement : Forall (fun kv => is_grade kv.2) (agreement_components e);
  ok_keys : map fst (agreement_components e)
    = ["trend"; "contraction"; "relative_strength"; "classification"];
  ok_generic : family = GENERIC -> confirmed e = false /\ extended e = false /\ hard_failure e = false;
}.

Lemma or_reasons_nonempty r w : or_reasons r w <> [].
Proof. by destruct r. Qed.

(** Splits the record into its fields and closes those that follow by boolean
    case analysis. *)
Ltac evidence :=
  constructor; cbn [setup_family confidence_score evidence_score triggered ready confirmed extended
    trackable reason_codes agreement_components hard_failure map fst];
  rewrite ?andb_true_iff; try tauto; try done; auto using or_reasons_nonempty;
  try (repeat (apply Forall_cons; split; [cbn [snd]; auto with grade|]); by apply Forall_nil).

Lemma breakout_ok s h age e : breakout_evaluate config s h age = Ok e -> evidence_ok BREAKOUT e.
Proof.
  unfold breakout_evaluate. intros H.
  apply result_bind_Ok in H as (? & _ & H). apply result_bind_Ok in H as (? & _ & H).
  apply result_bind_Ok in H as (? & _ & H). apply result_bind_Ok in H as (? & _ & H).
  destruct (first_phase _ _) as [phase reasons]. apply result_bind_Ok in H as (c & Hc & H).
  apply confidence_of_ten_Ok in Hc as [Hc Hn]. apply Ok_inj in H. subst e.
  evidence.
Qed.

Lemma pullback_ok s h age e : pullback_evaluate config s h age = Ok e -> evidence_ok PULLBACK e.
Proof.
  unfold pullback_evaluate. intros H.
  apply result_bind_Ok in H as (? & _ & H). apply result_bind_Ok in H as (? & _ & H).
  destruct (first_phase _ _) as [phase reasons]. apply result_bind_Ok in H as (c & Hc & H).
  apply confidence_of_ten_Ok in Hc as [Hc Hn]. apply Ok_inj in H. subst e.
  evidence.
  intros [_ Ht]. unfold fge in *.
  eapply fle_trans; [exact Ht|]. apply fmax_ge_l. by eapply fle_nan_r.
Qed.

Lemma vcp_ok s h age e : vcp_evaluate config s h age = Ok e -> evidence_ok VCP e.
Proof.
  unfold vcp_evaluate. intros H.
  apply result_bind_Ok in H as (? & _ & H). apply result_bind_Ok in H as (? & _ & H).
  apply result_bind_Ok in H as (? & _ & H).
  destruct (first_phase _ _) as [phase reasons]. apply result_bind_Ok in H as (c & Hc & H).
  apply confidence_of_ten_Ok in Hc as [Hc Hn]. apply Ok_inj in H. subst e.
  evidence.
Qed.

Lemma continuation_ok s h age e :
  continuation_evaluate config s h age = Ok e -> evidence_ok CONTINUATION e.
Proof.
  unfold continuation_evaluate. intros H.
  apply result_bind_Ok in H as (? & _ & H). apply result_bind_Ok in H as (? & _ & H).
  apply result_bind_Ok in H as (? & _ & H).
  destruct (first_phase _ _) as [phase reasons]. apply result_bind_Ok in H as (c & Hc & H).
  apply confidence_of_ten_Ok in Hc as [Hc Hn]. apply Ok_inj in H. subst e.
  evidence.
Qed.

Lemma generic_ok s h age e : generic_evaluate config s h age = Ok e -> evidence_ok GENERIC e.
Proof.
  unfold generic_evaluate. intros H.
  assert (forall branches other, Forall (fun b : bool * (string * list string) => b.2.2 <> []) branches ->
    other.2 <> [] -> (first_phase branches other).2 <> []) as Hne.
  { intros branches other Hb Ho. induction Hb as [|[[] [p r]] l Hr _ IH]; simpl; auto. }
  destruct (first_phase _ _) as [phase reasons] eqn:E. apply (f_equal snd) in E. cbn [snd] in E.
  apply result_bind_Ok in H as (c & Hc & H).
  apply confidence_from_score_Ok in Hc as [Hc Hn]. apply Ok_inj in H. subst e.
  evidence.
  rewrite <- E. apply Hne; [repeat constructor|]; done.
Qed.

Lemma adapter_ok family s h age e : evaluate_adapter config family s h age = Ok e -> evidence_ok family e.
Proof.
  destruct family; simpl; eauto using breakout_ok, pullback_ok, vcp_ok, continuation_ok, generic_ok.
Qed.

(** The evidence of each of the five adapters is consistent, whatever the snapshot
    and the history: it names the adapter's family; the confidence is an integer
    between 0 and 100; a confirmed or extended setup is triggered and a triggered one
    is ready; a trackable one reaches the configured tracking score; there is at least
    one reason; the four agreement components are each 0, 0.5 or 1; and the generic
    fallback never confirms, extends or fails a setup. *)
Theorem adapter_evidence_consistent family s h age e :
  evaluate_adapter config family s h age = Ok e ->
  setup_family e = family /\ 0 <= confidence_score e <= 100
  /\ (triggered e = true -> ready e = true)
  /\ (confirmed e = true -> triggered e = true) /\ (extended e = true -> triggered e = true)
  /\ (trackable e = true ->
        fge (evidence_score e) (tracking_score_min (policies config family)) = true)
  /\ reason_codes e <> [] /\ length (agreement_components e) = 4%nat
  /\ Forall (fun kv => is_grade kv.2) (agreement_components e)
  /\ (family = GENERIC -> confirmed e = false /\ extended e = false /\ hard_failure e = false).
Proof.
  intros H. destruct (adapter_ok _ _ _ _ _ H) as [Hf Hc _ H1 H2 H3 Ht Hr Ha Hk Hg].
  split_and!; try done; try lia. by rewrite <- (length_map fst), Hk.
Qed.

(** ** Ranking *)

Definition key_ok (k : sort_key) : Prop :=
  is_nan k.1.1.1 = false /\ is_nan k.1.2 = false.

Lemma feq_key x y : is_nan x = false -> is_nan y = false ->
  feq x y = true <-> fkey x = fkey y.
Proof.
  intros Hx Hy. pose proof (SFcompare_key x y) as H. unfold feq, SFeqb.
  destruct (fkey x) as [[[a1 a2] a3]|] eqn:Ex; [|apply fkey_nan in Ex; congruence].
  destruct (fkey y) as [[[b1 b2] b3]|] eqn:Ey; [|apply fkey_nan in Ey; congruence].
  destruct (SFcompare x y) as [[]|]; simpl in H; try done.
  - rewrite H. done.
  - split; [done|]. intros [= -> -> ->]. lia.
  - split; [done|]. intros [= -> -> ->]. lia.
Qed.

(** The comparison of sort keys, on the order triples of the floats. *)
Definition fk (x : float) : Z * Z * Z := match fkey x with Some t => t | None => (0, 0, 0) end.

Lemma triple_cases a b : PyFloat.key_lt a b \/ a = b \/ PyFloat.key_lt b a.
Proof.
  destruct a as [[a1 a2] a3], b as [[b1 b2] b3]. simpl.
  destruct (Z.lt_trichotomy a1 b1) as [?|[->|?]]; [lia| |lia].
  destruct (Z.lt_trichotomy a2 b2) as [?|[->|?]]; [lia| |lia].
  destruct (Z.lt_trichotomy a3 b3) as [?|[->|?]]; [lia|by right; left|lia].
Qed.
Lemma triple_trans a b c : PyFloat.key_lt a b -> PyFloat.key_lt b c -> PyFloat.key_lt a c.
Proof. destruct a as [[??]?], b as [[??]?], c as [[??]?]. simpl. lia. Qed.
Lemma triple_irrefl a : ~ PyFloat.key_lt a a.
Proof. destruct a as [[??]?]. simpl. lia. Qed.

Definition klt (a b : sort_key) : Prop :=
  PyFloat.key_lt (fk a.1.1.1) (fk b.1.1.1)
  \/ (fk a.1.1.1 = fk b.1.1.1 /\ (a.1.1.2 < b.1.1.2
  \/ (a.1.1.2 = b.1.1.2 /\ (PyFloat.key_lt (fk a.1.2) (fk b.1.2)
  \/ (fk a.1.2 = fk b.1.2 /\ a.2 < b.2))))).
Definition keq (a b : sort_key) : Prop :=
  fk a.1.1.1 = fk b.1.1.1 /\ a.1.1.2 = b.1.1.2 /\ fk a.1.2 = fk b.1.2 /\ a.2 = b.2.

Lemma flt_fk x y : is_nan x = false -> is_nan y = false ->
  flt x y = true <-> PyFloat.key_lt (fk x) (fk y).
Proof.
  intros Hx Hy. rewrite flt_key. unfold fk.
  destruct (fkey x) eqn:Ex; [|apply fkey_nan in Ex; congruence].
  destruct (fkey y) eqn:Ey; [|apply fkey_nan in Ey; congruence]. naive_solver.
Qed.
Lemma feq_fk x y : is_nan x = false -> is_nan y = false -> feq x y = true <-> fk x = fk y.
Proof.
  intros Hx Hy. rewrite feq_key by done. unfold fk.
  destruct (fkey x) eqn:Ex; [|apply fkey_nan in Ex; congruence].
  destruct (fkey y) eqn:Ey; [|apply fkey_nan in Ey; congruence]. naive_solver.
Qed.

Lemma key_lt_klt a b : key_ok a -> key_ok b -> key_lt a b = true <-> klt a b.
Proof.
  destruct a as [[[a1 a2] a3] a4], b as [[[b1 b2] b3] b4]. intros [Ha1 Ha3] [Hb1 Hb3].
  unfold key_lt, klt. simpl in *.
  pose proof (flt_fk a1 b1 Ha1 Hb1). pose proof (flt_fk a3 b3 Ha3 Hb3).
  pose proof (feq_fk a1 b1 Ha1 Hb1) as He1. pose proof (feq_fk a3 b3 Ha3 Hb3) as He3.
  pose proof (triple_irrefl (fk b1)). pose proof (triple_irrefl (fk b3)).
  destruct (feq a1 b1); simpl.
  - assert (fk a1 = fk b1) as E by tauto. rewrite E in *.
    destruct (Z.eqb_spec a2 b2) as [->|]; simpl; [|rewrite Z.ltb_lt; intuition lia].
    destruct (feq a3 b3); simpl.
    + assert (fk a3 = fk b3) as E3 by tauto. rewrite E3 in *. rewrite Z.ltb_lt. intuition lia.
    + assert (fk a3 <> fk b3) by (intros E3; apply He3 in E3; done). intuition lia.
  - assert (fk a1 <> fk b1) by (intros E; apply He1 in E; done). intuition done.
Qed.

Lemma klt_cases a b : klt a b \/ keq a b \/ klt b a.
Proof.
  unfold klt, keq. destruct (triple_cases (fk a.1.1.1) (fk b.1.1.1)) as [?|[->|?]]; [tauto| |tauto].
  destruct (Z.lt_trichotomy a.1.1.2 b.1.1.2) as [?|[->|?]]; [tauto| |tauto].
  destruct (triple_cases (fk a.1.2) (fk b.1.2)) as [?|[->|?]]; [tauto| |tauto].
  destruct (Z.lt_trichotomy a.2 b.2) as [?|[->|?]]; tauto.
Qed.

Lemma klt_trans a b c : klt a b -> klt b c -> klt a c.
Proof.
  unfold klt.
  intros [H1|(-> & [H1|(-> & [H1|(-> & H1)])])] [H2|(E & [H2|(E2 & [H2|(E3 & H2)])])];
    rewrite <- ?E, <- ?E2, <- ?E3 in *; eauto using triple_trans; right; (split; [congruence|]);
    first [left; lia | right; split; [congruence|]];
    first [left; by eauto using triple_trans | right; split; [congruence|lia]].
Qed.

Lemma klt_irrefl a : ~ klt a a.
Proof. unfold klt. pose proof triple_irrefl. intuition (eauto; lia). Qed.

Lemma keq_klt a b c : keq a b -> klt b c <-> klt a c.
Proof. unfold keq, klt. intros (-> & -> & -> & ->). done. Qed.

Lemma keq_sym a b : keq a b -> keq b a.
Proof. unfold keq. naive_solver. Qed.

Definition keyed_ok (p : sort_key * FamilyEvidence) : Prop :=
  key_ok p.1 /\ _family_sort_key config p.2 = Ok p.1.

Abbreviation rank_leb := (fun a b : sort_key * FamilyEvidence => negb (key_lt (fst a) (fst b))).

Lemma rank_leb_iff x y : keyed_ok x -> keyed_ok y -> rank_leb x y = true <-> ~ klt x.1 y.1.
Proof. intros [Hx _] [Hy _]. rewrite <- key_lt_klt by done. by destruct (key_lt _ _). Qed.

Lemma rank_total x y : keyed_ok x -> keyed_ok y -> rank_leb x y = false -> rank_leb y x = true.
Proof.
  intros Hx Hy H. apply rank_leb_iff; [done..|]. intros Hlt.
  apply negb_false_iff, key_lt_klt in H; [|apply Hx|apply Hy].
  by apply (klt_irrefl x.1), (klt_trans _ y.1).
Qed.

Lemma rank_trans x y z : keyed_ok x -> keyed_ok y -> keyed_ok z ->
  rank_leb x y = true -> rank_leb y z = true -> rank_leb x z = true.
Proof.
  intros Hx Hy Hz. rewrite !rank_leb_iff by done. intros H1 H2 H.
  destruct (klt_cases x.1 y.1) as [?|[E|H']]; [done| |].
  - apply H2. by apply (keq_klt x.1 y.1).
  - apply H2. by apply (klt_trans _ x.1).
Qed.

Lemma result_map_Forall2 {A B} (f : A -> result B) l ys :
  result_map f l = Ok ys <-> Forall2 (fun x y => f x = Ok y) l ys.
Proof.
  revert ys. induction l as [|x l IH]; intros ys; simpl.
  - split; [intros H; apply Ok_inj in H; subst; constructor|]. inversion 1. done.
  - rewrite result_bind_Ok. split.
    + intros (y & Hy & H). apply result_bind_Ok in H as (zs & Hz & H). apply Ok_inj in H. subst.
      constructor; [done|]. by apply IH.
    + inversion 1; subst. eexists. split; [eassumption|]. rewrite (proj2 (IH _)) by eassumption. done.
Qed.

Lemma keyed_Ok e p : keyed config e = Ok p -> p.2 = e /\ _family_sort_key config e = Ok p.1.
Proof.
  unfold keyed. intros H. apply result_bind_Ok in H as (k & Hk & H). apply Ok_inj in H. by subst.
Qed.

Lemma keyed_of p : _family_sort_key config p.2 = Ok p.1 -> keyed config p.2 = Ok p.
Proof. unfold keyed. intros ->. by destruct p. Qed.

Lemma family_key_ok family e k :
  evidence_ok family e -> _family_sort_key config e = Ok k -> key_ok k.
Proof.
  intros He H. unfold _family_sort_key in H. apply result_bind_Ok in H as (r & _ & H).
  apply Ok_inj in H. subst k. split; simpl; [|by eapply ok_score].
  apply is_grade_nan. destruct (dict_find "classification" _) as [v|] eqn:E; [|apply grade_0].
  pose proof (ok_agreement _ _ He) as Hg. rewrite Forall_forall in Hg.
  apply dict_find_In, list_elem_of_In, Hg in E. done.
Qed.

(** The head of a ranked list stays the best. *)
Lemma first_max_head p l : Forall (fun q => rank_leb p q = true) l -> first_max p l = p.
Proof.
  induction 1 as [|q l Hq _ IH]; simpl; [done|]. apply negb_true_iff in Hq. by rewrite Hq.
Qed.

Lemma sort_keys ks :
  Forall keyed_ok ks ->
  select_primary_family config (map snd (sort_by rank_leb ks)) = Ok (head (map snd (sort_by rank_leb ks))).
Proof.
  intros Hk. pose proof (sort_by_sorted_on rank_leb keyed_ok rank_total rank_trans ks Hk) as Hs.
  assert (Forall keyed_ok (sort_by rank_leb ks)) as Hk' by by rewrite sort_by_Permutation.
  destruct (sort_by rank_leb ks) as [|p l]; [done|]. unfold select_primary_family. cbn [map head].
  assert (result_map (keyed config) (snd p :: map snd l) = Ok (p :: l)) as ->.
  { apply result_map_Forall2. change (snd p :: map snd l) with (map snd (p :: l)).
    rewrite Forall2_fmap_l. apply Forall_Forall2_diag. eapply Forall_impl; [exact Hk'|].
    intros q [_ Hq]. by apply keyed_of. }
  cbn. rewrite first_max_head; [done|]. by apply StronglySorted_inv in Hs as [_ Hs].
Qed.

(** The evidences of the enabled families, one each. *)
Lemma evidences_families fs s h age es :
  Forall2 (fun family e => evaluate_adapter config family s h age = Ok e) fs es ->
  map setup_family es = fs /\ Forall (fun e => evidence_ok (setup_family e) e) es.
Proof.
  induction 1 as [|f e fs es H _ [IH1 IH2]]; [done|]. apply adapter_ok in H.
  pose proof (ok_family _ _ H) as <-. simpl. rewrite IH1. auto.
Qed.

Lemma map_filter_sublist {A B} (f : A -> B) (p : A -> bool) l :
  map f (List.filter p l) `sublist_of` map f l.
Proof. induction l as [|x l IH]; simpl; [done|]. destruct (p x); by constructor. Qed.

Lemma precedence_rank_Ok family : family ∈ precedence config -> exists r, precedence_rank config family = Ok r.
Proof.
  intros H. unfold precedence_rank.
  assert (exists i, index_of family (precedence config) = Some i) as [i ->]; [|eauto].
  induction (precedence config) as [|f l IH]; [by apply not_elem_of_nil in H|]. simpl.
  destruct (bool_decide_reflect (f = family)) as [|Hne]; [eauto|].
  apply elem_of_cons in H as [->|H]; [done|]. destruct (IH H) as [i ->]. simpl. eauto.
Qed.

Definition candidate_ok (e : FamilyEvidence) : Prop :=
  trackable e = true /\ enabled (policies config (setup_family e)) = true
  /\ fge (evidence_score e) (tracking_score_min (policies config (setup_family e))) = true.

Lemma generic_candidate s h age g :
  generic_evaluate config s h age = Ok g -> trackable g = true -> candidate_ok g.
Proof.
  intros Hg Et. pose proof (generic_ok _ _ _ _ Hg) as Hgo.
  unfold generic_evaluate in Hg. destruct (first_phase _ _).
  apply result_bind_Ok in Hg as (? & _ & Hg). apply Ok_inj in Hg.
  split_and!; [done| |by rewrite (ok_family _ _ Hgo); apply (ok_tracked _ _ Hgo)].
  rewrite <- Hg in Et |- *. simpl in Et |- *. by apply andb_true_iff in Et as [Et _].
Qed.

Lemma keyed_pairs es ks :
  Forall2 (fun e p => keyed config e = Ok p) es ks ->
  map snd ks = es /\ forall p, p ∈ ks -> _family_sort_key config p.2 = Ok p.1.
Proof.
  induction 1 as [|e p es ks Hp _ [IH1 IH2]]; [split; [done|by intros p ?%not_elem_of_nil]|].
  apply keyed_Ok in Hp as [<- Hk]. simpl. rewrite IH1. split; [done|].
  intros q [->|Hq]%elem_of_cons; auto.
Qed.

Lemma candidates_list s h age l :
  evaluate_family_candidates config s h age = Ok l ->
  (l = [] \/ (exists e, l = [e] /\ evidence_ok GENERIC e /\ candidate_ok e)
   \/ exists ks, l = map snd (sort_by rank_leb ks) /\ Forall keyed_ok ks
        /\ Forall (fun p => candidate_ok p.2 /\ evidence_ok (setup_family p.2) p.2) ks
        /\ NoDup (map (fun p => setup_family p.2) ks)
        /\ Forall (fun p => setup_family p.2 <> GENERIC) ks).
Proof.
  unfold evaluate_family_candidates. intros H.
  apply result_bind_Ok in H as (s1 & _ & H). apply result_bind_Ok in H as (h1 & _ & H).
  apply result_bind_Ok in H as (blocked & _ & H).
  destruct blocked; [apply Ok_inj in H; auto|].
  apply result_bind_Ok in H as (flags & _ & H). cbv zeta in H.
  apply result_bind_Ok in H as (es & Hes & H).
  apply result_map_Forall2, evidences_families in Hes as [Hfam Hok].
  set (en := fun family => enabled (policies config family)) in *.
  set (fs := List.filter en [BREAKOUT; PULLBACK; VCP; CONTINUATION]) in *.
  assert (forall e, In e es -> In (setup_family e) fs) as Hin
    by (intros e He; rewrite <- Hfam; by apply in_map).
  match type of H with context [List.filter ?p es] => set (cand := p) in * end.
  destruct (List.filter cand es) as [|c cs] eqn:Ec.
  - apply result_bind_Ok in H as (g & Hg & H). apply Ok_inj in H. subst l.
    destruct (trackable g) eqn:Et; [|by left]. right. left. exists g.
    split_and!; [done|by eapply generic_ok|by eapply generic_candidate].
  - rewrite <- Ec in H. clear Ec c cs. apply result_bind_Ok in H as (ks & Hk & H).
    apply Ok_inj in H. subst l. right. right. exists ks.
    apply result_map_Forall2, keyed_pairs in Hk as [Hsnd Hkeys].
    assert (forall p, p ∈ ks -> _family_sort_key config p.2 = Ok p.1 /\ In p.2 es /\ cand p.2 = true) as Hp.
    { intros p Hp. pose proof Hp as Hp'. apply list_elem_of_In, (in_map snd) in Hp'.
      rewrite Hsnd, filter_In in Hp'. destruct Hp'. split_and!; auto. }
    rewrite Forall_forall in Hok.
    split_and!; [done|..|]; try (apply Forall_forall; intros p Hpk; destruct (Hp p Hpk) as (H1 & H2 & H3)).
    + split; [|done]. eapply family_key_ok; [apply Hok; by apply list_elem_of_In|done].
    + apply andb_true_iff in H3 as [H3 H4]. split; [|apply Hok; by apply list_elem_of_In].
      split_and!; [done| |done]. apply Hin in H2. unfold fs in H2. by apply filter_In in H2 as [_ H2].
    + rewrite <- (map_map snd setup_family), Hsnd.
      eapply sublist_NoDup; [|apply map_filter_sublist]. rewrite Hfam. unfold fs.
      rewrite <- (map_id (List.filter _ _)). eapply sublist_NoDup; [|apply map_filter_sublist].
      rewrite map_id. apply (bool_decide_unpack _). by vm_compute.
    + intros E. apply Hin in H2. unfold fs in H2. rewrite E in H2. apply filter_In in H2 as [H2 _].
      simpl in H2. naive_solver.
Qed.

(** The candidates of a snapshot are ranked.  When the configured precedence lists
    every family, as its validation requires, the primary family is defined and is the
    first of the candidates; every candidate is trackable, enabled and at its tracking
    score; no family occurs twice; and the generic fallback occurs only alone. *)
Theorem primary_family_ranked s h age l :
  (forall family, family ∈ precedence config) ->
  evaluate_family_candidates config s h age = Ok l ->
  select_primary_family config l = Ok (head l)
  /\ Forall candidate_ok l /\ NoDup (map setup_family l)
  /\ (GENERIC ∈ map setup_family l -> length l = 1%nat).
Proof.
  intros Hp H. destruct (candidates_list _ _ _ _ H) as [->|[(e & -> & He & Hc)|(ks & -> & Hk & Hc & Hn & Hg)]].
  - simpl. split_and!; [done|constructor|constructor|]. by intros ?%not_elem_of_nil.
  - split_and!; [|by apply Forall_singleton|simpl; apply NoDup_singleton|done].
    destruct (precedence_rank_Ok (setup_family e) (Hp _)) as [r Hr].
    unfold select_primary_family, keyed, _family_sort_key. cbn [result_map]. by rewrite Hr.
  - split_and!.
    + by apply sort_keys.
    + apply Forall_fmap. rewrite sort_by_Permutation. eapply Forall_impl; [exact Hc|]. by intros p [? _].
    + rewrite map_map. by rewrite (sort_by_Permutation rank_leb ks).
    + rewrite map_map, (sort_by_Permutation rank_leb ks). intros Hin. exfalso.
      apply list_elem_of_In, in_map_iff in Hin as (p & E & Hin).
      rewrite Forall_forall in Hg. apply (Hg p); [by apply list_elem_of_In|done].
Qed.

End Facts.
