(* ===== verification/Confidence.v ===== *)
(** * Setup lifecycle: the confidence score

    [app/services/setup_lifecycle/confidence_service.py]: five components between 0
    and 1, their weighted sum as a percentage, and its label. *)
From Stdlib Require Import ZArith Lia List String Ascii Bool.
From stdpp Require Import base list strings.
From S2P Require Import Prelude PyDate PyFloat PyValue Readiness Signals Eligibility.
Local Open Scope string_scope.
Local Open Scope list_scope.
Local Open Scope Z_scope.

Record ConfidenceBreakdown := mkBreakdown {
  breakdown_score : Z;
  breakdown_label : ConfidenceLabel;
  components : list (string * float);
  breakdown_reasons : list string;
  component_details : dict;
}.

(** [float(b)] and [weights[key]]. *)
Definition float_of_bool (b : bool) : float := if b then f1 else f0.
Definition weight_of (weights : list (string * float)) (key : string) : result float :=
  match dict_find key weights with Some w => Ok w | None => raise "KeyError" key end.

Section Confidence.
Context `{Text : PyText} `{Evidence : Readiness.CanonicalEvidence} (config : SetupLifecycleConfig).

Definition _coverage (snapshot : NormalizedSnapshot) : float :=
  match required_feature_coverage snapshot with
  | Some x => fclamp f0 f1 x
  | None =>
      match signals snapshot with
      | [] => f0
      | sigs =>
          let present := length (List.filter (fun kv => negb (is_none (raw_value kv.2))) sigs) in
          float_ratio (Z.of_nat present) (Pos.of_nat (length sigs))
      end
  end.

Definition agreement_keys : list string := ["trend"; "contraction"; "relative_strength"; "classification"].

Definition agreement_of (e : FamilyEvidence) (key : string) : float :=
  fclamp f0 f1 (match dict_find key (agreement_components e) with Some x => x | None => f0 end).

Fixpoint weighted_terms (value : string -> float) (weights : list (string * float)) (keys : list string)
  : result (list float) :=
  match keys with
  | [] => mret []
  | k :: keys => w ← weight_of weights k; rest ← weighted_terms value weights keys;
                 mret (fmul (value k) w :: rest)
  end.

Definition _agreement (e : FamilyEvidence) (weights : list (string * float))
  : result (float * list (string * float)) :=
  let parts := map (fun key => (key, agreement_of e key)) agreement_keys in
  if hard_failure e then mret (f0, parts)
  else terms ← weighted_terms (agreement_of e) weights agreement_keys;
       mret (fclamp f0 f1 (fsum terms), parts).

(** The values of the dictionary [detail]. *)
Record FreshnessDetail := mkFreshness {
  freshness : float;
  source_run_success : float;
  lineage_integrity : float;
  detail_status : string;
  source_run_status : string;
  hashes_present : bool;
  source_ids_consistent : bool;
}.

(** [bool(value)] of an optional string, and [text or None]. *)
Definition text_present (o : option string) : bool :=
  match o with Some s => negb (String.eqb s "") | None => false end.
Definition text_or_none (s : string) : pyval := if String.eqb s "" then VNone else VStr s.

Definition freshness_detail_dict (d : FreshnessDetail) : dict :=
  [("freshness", VFloat (freshness d)); ("source_run_success", VFloat (source_run_success d));
   ("lineage_integrity", VFloat (lineage_integrity d));
   ("freshness_status", text_or_none (detail_status d));
   ("source_run_status", text_or_none (source_run_status d));
   ("hashes_present", VBool (hashes_present d));
   ("source_ids_consistent", VBool (source_ids_consistent d))].

(** [isinstance(lineage_ids, dict) and all(...)]. *)
Definition ids_consistent (snapshot : NormalizedSnapshot) : bool :=
  match dget (source_lineage snapshot) "source_ids" with
  | VDict lineage_ids =>
      forallb (fun kv =>
          match kv.2 with
          | Some v => smem kv.1 ["snapshot_id"; "run_id"] || py_eq (dget lineage_ids kv.1) (VInt v)
          | None => true
          end) (source_ids snapshot)
  | _ => false
  end.

Definition freshness_detail (snapshot : NormalizedSnapshot) : FreshnessDetail :=
  let status := upper (match freshness_status snapshot with Some s => s | None => "" end) in
  let lineage := source_lineage snapshot in
  let run_status := upper (py_str (py_or (dget lineage "source_run_status") (VStr ""))) in
  let hashes := forallb text_present
    [engine_version snapshot; config_version snapshot; schema_version snapshot; config_hash snapshot;
     source_data_hash snapshot] in
  let is_true v := match v with VBool true => true | _ => false end in
  {| freshness := if String.eqb status "FRESH" then f1
                  else if String.eqb status "NEAR_STALE" then f_half else f0;
     source_run_success := float_of_bool (is_true (dget lineage "source_run_successful")
                                          || String.eqb run_status "COMPLETED");
     lineage_integrity := float_of_bool (is_true (dget lineage "lineage_integrity") && hashes
                                         && ids_consistent snapshot);
     detail_status := status; source_run_status := run_status; hashes_present := hashes;
     source_ids_consistent := ids_consistent snapshot |}.

Definition _freshness_and_lineage (snapshot : NormalizedSnapshot) (weights : list (string * float))
  : result (float * FreshnessDetail) :=
  let d := freshness_detail snapshot in
  w1 ← weight_of weights "freshness";
  w2 ← weight_of weights "source_run_success";
  w3 ← weight_of weights "lineage_integrity";
  let score := fadd (fadd (fmul (freshness d) w1) (fmul (source_run_success d) w2))
                 (fmul (lineage_integrity d) w3) in
  mret (fclamp f0 f1 score, d).

Definition _context (snapshot : NormalizedSnapshot) : float :=
  let lineage := source_lineage snapshot in
  let has_market := negb (is_none (dget lineage "market_regime_as_of")) in
  let has_sector := negb (is_none (dget lineage "sector_rotation_as_of")) in
  fdiv (fadd (float_of_bool has_market) (float_of_bool has_sector)) (float_of_Z 2).

Definition weighted_confidence_score (components weights : list (string * float)) : result Z :=
  let weighted := fsum (map (fun kv =>
    fmul kv.2 (match dict_find kv.1 weights with Some w => w | None => f0 end)) components) in
  n ← py_round (fmul weighted (float_of_Z 100)); mret (clamp100 n).

Definition label_for_score (score : Z) : ConfidenceLabel :=
  if high_min config <=? score then CONF_HIGH
  else if normal_min config <=? score then CONF_NORMAL
  else if low_min config <=? score then CONF_LOW
  else CONF_INSUFFICIENT.

(** [min(1.0, max(0.0, sessions / 3))]. *)
Definition persistence_component (sessions : Z) : float := fmin f1 (fmax f0 (float_ratio sessions 3)).

Definition reason_if (b : bool) (r : string) : list string := if b then [r] else [].

Definition score (snapshot : NormalizedSnapshot) (e : FamilyEvidence) (persistence_sessions : Z)
    (context_complete : option bool) : result ConfidenceBreakdown :=
  snapshot ← setup_with_contextual_permission snapshot;
  let coverage := _coverage snapshot in
  '(agreement, agreement_detail) ← _agreement e (agreement_weights config);
  let persistence := persistence_component persistence_sessions in
  '(fresh, detail) ← _freshness_and_lineage snapshot (freshness_and_lineage_weights config);
  let context :=
    match context_complete with
    | Some b => if is_none (dget (source_lineage snapshot) CONTEXTUAL_ELIGIBILITY_KEY)
                then float_of_bool b else _context snapshot
    | None => _context snapshot
    end in
  let components :=
    [("required_feature_coverage", coverage); ("signal_agreement", agreement);
     ("persistence", persistence); ("freshness_and_lineage", fresh);
     ("context_completeness", context)] in
  total ← weighted_confidence_score components (weights config);
  mret {|
    breakdown_score := total;
    breakdown_label := label_for_score total;
    components := components;
    breakdown_reasons :=
      reason_if (flt coverage f_half) "LOW_REQUIRED_FEATURE_COVERAGE"
      ++ (if flt fresh f1 then
            reason_if (flt (freshness detail) f1) "STALE_SOURCE_EVIDENCE"
            ++ reason_if (flt (source_run_success detail) f1) "SOURCE_RUN_NOT_SUCCESSFUL"
            ++ reason_if (flt (lineage_integrity detail) f1) "MISSING_OR_INCONSISTENT_LINEAGE"
          else [])
      ++ reason_if (flt agreement f1) "SIGNAL_DISAGREEMENT"
      ++ reason_if (flt context f1) "MISSING_CONTEXT"
      ++ reason_if (negb (trackable e)) "NOT_TRACKABLE";
    component_details :=
      [("signal_agreement", VDict (map (fun kv => (kv.1, VFloat kv.2)) agreement_detail));
       ("freshness_and_lineage", VDict (freshness_detail_dict detail))];
  |}.

(** ** Facts *)

Definition in_unit (x : float) : Prop := fle f0 x = true /\ fle x f1 = true.

Lemma clamp_unit x : in_unit (fclamp f0 f1 x).
Proof. by apply fclamp_bounds. Qed.

Lemma persistence_unit n : in_unit (persistence_component n).
Proof.
  unfold persistence_component, fmin, fmax, fgt, in_unit.
  destruct (flt f0 (float_ratio n 3)) eqn:E1; destruct (flt _ f1) eqn:E2; split;
    auto using flt_fle; done.
Qed.

Lemma context_unit s : in_unit (_context s).
Proof. unfold _context, in_unit. repeat destruct (is_none _); by vm_compute. Qed.

Lemma bool_unit b : in_unit (float_of_bool b).
Proof. by destruct b. Qed.

(** A ladder of labels. *)
Definition label_rank (l : ConfidenceLabel) : Z :=
  match l with CONF_INSUFFICIENT => 0 | CONF_LOW => 1 | CONF_NORMAL => 2 | CONF_HIGH => 3 end.

Lemma label_monotone a b : a <= b -> label_rank (label_for_score a) <= label_rank (label_for_score b).
Proof.
  intros H. unfold label_for_score.
  repeat match goal with |- context [?x <=? ?y] => destruct (Z.leb_spec x y) end; simpl; lia.
Qed.

Lemma score_bounds s e n c b : score s e n c = Ok b ->
  0 <= breakdown_score b <= 100 /\ breakdown_label b = label_for_score (breakdown_score b).
Proof.
  unfold score. intros H. apply result_bind_Ok in H as (s' & _ & H).
  apply result_bind_Ok in H as ([a ad] & _ & H). cbv beta iota zeta in H.
  apply result_bind_Ok in H as ([f fd] & _ & H). cbv beta iota zeta in H.
  apply result_bind_Ok in H as (total & Ht & H). apply Ok_inj in H. subst b. cbn. split; [|done].
  unfold weighted_confidence_score in Ht. apply result_bind_Ok in Ht as (m & _ & Ht).
  apply Ok_inj in Ht. subst. unfold clamp100. lia.
Qed.

(** The confidence of a setup is explainable.  The score is between 0 and 100 and
    its label is the one of the thresholds; the agreement, persistence, freshness and
    context components are between 0 and 1, and so is the coverage when the snapshot
    records one; a hard failure has no agreement at all and always reports signal
    disagreement; missing context and an untrackable setup are always reported. *)
Theorem confidence_explained s e n c b :
  score s e n c = Ok b ->
  0 <= breakdown_score b <= 100
  /\ breakdown_label b = label_for_score (breakdown_score b)
  /\ (exists coverage agreement fresh context,
        components b = [("required_feature_coverage", coverage); ("signal_agreement", agreement);
          ("persistence", persistence_component n); ("freshness_and_lineage", fresh);
          ("context_completeness", context)]
        /\ Forall in_unit [agreement; persistence_component n; fresh; context]
        /\ (is_Some (required_feature_coverage s) -> in_unit coverage)
        /\ (hard_failure e = true -> agreement = f0 /\ In "SIGNAL_DISAGREEMENT" (breakdown_reasons b))
        /\ (flt context f1 = true -> In "MISSING_CONTEXT" (breakdown_reasons b)))
  /\ (trackable e = false -> In "NOT_TRACKABLE" (breakdown_reasons b)).
Proof.
  intros H. destruct (score_bounds _ _ _ _ _ H) as [Hb Hl]. split_and!; try done; try lia;
    unfold score in H; apply result_bind_Ok in H as (s' & Hs & H);
    apply result_bind_Ok in H as ([agreement ad] & Ha & H); cbv beta iota zeta in H;
    apply result_bind_Ok in H as ([fresh fd] & Hf & H); cbv beta iota zeta in H;
    apply result_bind_Ok in H as (total & Ht & H); apply Ok_inj in H; subst b;
    cbn [components breakdown_reasons].
  - eexists _, agreement, fresh, _. split; [reflexivity|].
    assert (in_unit agreement /\ (hard_failure e = true -> agreement = f0)) as [Hau Hah].
    { unfold _agreement in Ha. destruct (hard_failure e).
      - apply Ok_inj in Ha. simplify_eq. split; [by vm_compute|done].
      - apply result_bind_Ok in Ha as (terms & _ & Ha). apply Ok_inj in Ha. simplify_eq.
        split; [apply clamp_unit|done]. }
    assert (in_unit fresh) as Hfu.
    { unfold _freshness_and_lineage in Hf. apply result_bind_Ok in Hf as (w1 & _ & Hf).
      apply result_bind_Ok in Hf as (w2 & _ & Hf). apply result_bind_Ok in Hf as (w3 & _ & Hf).
      apply Ok_inj in Hf. simplify_eq. apply clamp_unit. }
    split_and!.
    + repeat apply Forall_cons_2; auto using persistence_unit, Forall_nil_2.
      destruct c; [|apply context_unit]. destruct (is_none _); auto using bool_unit, context_unit.
    + intros Hc. assert (required_feature_coverage s' = required_feature_coverage s) as E.
      { destruct (contextual_permission_cases s s' Hs) as [[_ ->]|(?&?&_&_&[[_ ->]| ->])]; done. }
      unfold _coverage. rewrite E. destruct Hc as [x ->]. apply clamp_unit.
    + intros Hh. rewrite (Hah Hh). split; [done|]. rewrite !in_app_iff. do 2 right. left.
      by left.
    + intros Hc. rewrite !in_app_iff. do 3 right. left. rewrite Hc. by left.
  - intros ->. rewrite !in_app_iff. do 4 right. by left.
Qed.

End Confidence.
