(* ===== verification/Lifecycle.v ===== *)
(** * Setup lifecycle: the engine and the actionability policy

    [app/services/setup_lifecycle/lifecycle_engine.py] and
    [actionability_policy.py].  The resolution of the effective configuration and
    the anchoring decorator of the two [evaluate] methods are not modelled: the
    configuration is an argument. *)
From Stdlib Require Import ZArith Lia List String Ascii Bool.
From stdpp Require Import base list strings.
From S2P Require Import Prelude PyDate PyFloat PyValue Readiness Signals Eligibility Adapters Confidence.
Local Open Scope string_scope.
Local Open Scope list_scope.
Local Open Scope Z_scope.

Definition STATE_FROM_EVIDENCE_PRECEDENCE : list LifecycleState :=
  [FAILED; EXTENDED; CONFIRMED; TRIGGERED; READY; TIGHTENING; DEVELOPING; DISCOVERED; EXPIRED].
Definition NON_TERMINAL_STATES : list LifecycleState :=
  [DISCOVERED; DEVELOPING; TIGHTENING; READY; TRIGGERED; CONFIRMED; EXTENDED].
Definition terminal (s : LifecycleState) : bool := bool_decide (s ∈ [FAILED; EXPIRED]).

Record LifecycleEvaluationInput := mkInput {
  snapshot : NormalizedSnapshot;
  previous_snapshots : list NormalizedSnapshot;
  previous_state : option LifecycleState;
  previous_phase : option string;
  previous_confidence_score : option Z;
  state_age_sessions : Z;
  persistence_sessions : Z;
  missing_observation_sessions : Z;
}.

Module Decision.
Record LifecycleDecision := mk {
  setup_family : SetupFamily;
  phase_code : string;
  previous_state : option LifecycleState;
  proposed_state : LifecycleState;
  actionability_candidate : Actionability;
  confidence_score : Z;
  confidence_label : ConfidenceLabel;
  reason_codes : list string;
  evidence : dict;
  immediate_transition : bool;
  terminal_reason : option string;
}.
End Decision.

(** [priority[state]] of [_stronger_than]. *)
Fixpoint state_index (s : LifecycleState) (l : list LifecycleState) : Z :=
  match l with
  | [] => 0
  | x :: l => if bool_decide (x = s) then 0 else 1 + state_index s l
  end.
Definition state_priority (s : LifecycleState) : Z :=
  Z.of_nat (length STATE_FROM_EVIDENCE_PRECEDENCE) - state_index s STATE_FROM_EVIDENCE_PRECEDENCE.

Definition _stronger_than (candidate : LifecycleState) (current : option LifecycleState) : bool :=
  match current with
  | None => true
  | Some c => state_priority c <? state_priority candidate
  end.

Definition _transition_reason (previous : option LifecycleState) (proposed : LifecycleState) : string :=
  match previous with
  | None => ("OPENED_" ++ state_value proposed)%string
  | Some p => if bool_decide (p = proposed) then "NO_STATE_CHANGE"
              else (state_value p ++ "_TO_" ++ state_value proposed)%string
  end.

Definition TIGHTENING_PHASES : list string :=
  ["RANGE_CONTRACTION"; "VOLUME_DRY_UP"; "SELLING_PRESSURE_DECLINING"; "SUPPORT_TEST";
   "CONTRACTION_2"; "CONTRACTION_3"; "TIGHT_RANGE"].

(** [o or default] of an optional string. *)
Definition text_or (o : option string) (default : string) : string :=
  match o with Some s => if String.eqb s "" then default else s | None => default end.

Section Engine.
Context `{Text : PyText} `{Evidence : Readiness.CanonicalEvidence} (config : SetupLifecycleConfig).
Implicit Types (request : LifecycleEvaluationInput).

Definition _validate_history request : result unit :=
  let history := previous_snapshots request in
  let dates := map data_as_of_date history in
  if history_window_sessions config <? Z.of_nat (length history)
  then ValueError "prior canonical snapshot history exceeds configured window"
  else if negb (bool_decide (dates = sort_by Z.leb dates))
          || negb (length dates =? length (remove_dups dates))%nat
  then ValueError "prior canonical snapshot history must be trading-date ordered"
  else if existsb (fun item => negb (String.eqb (ticker item) (ticker (snapshot request)))
                    || negb (String.eqb (timeframe item) (timeframe (snapshot request)))) history
  then ValueError "prior canonical snapshot history must match ticker/timeframe"
  else if existsb (fun item => data_as_of_date (snapshot request) <=? data_as_of_date item) history
  then ValueError "prior canonical snapshot history must not include current/future data"
  else mret tt.

Definition _state_from_evidence (e : FamilyEvidence) request : LifecycleState :=
  if hard_failure e then FAILED
  else if observation_gap_sessions config <? missing_observation_sessions request then EXPIRED
  else if max_age_sessions (policies config (setup_family e)) <=? state_age_sessions request
  then EXPIRED
  else if extended e then EXTENDED
  else if confirmed e then CONFIRMED
  else if triggered e then TRIGGERED
  else if ready e then READY
  else if smem (phase_code e) TIGHTENING_PHASES then TIGHTENING
  else if trackable e then DEVELOPING
  else DISCOVERED.

Definition _apply_hysteresis (proposed : LifecycleState) (e : FamilyEvidence) request
  : LifecycleState :=
  match previous_state request with
  | None => proposed
  | Some previous =>
      if bool_decide (proposed ∈ [FAILED; EXPIRED]) then proposed
      else
        let margin := confidence_score e - normal_min config in
        if _stronger_than previous (Some proposed) && bool_decide (previous ∈ NON_TERMINAL_STATES)
           && (bool_decide (previous ∈ [READY; TRIGGERED]) && (-5 <=? margin))
        then previous
        else if bool_decide (proposed = CONFIRMED) && negb (bool_decide (previous = CONFIRMED))
                && (persistence_sessions request <? 2)
        then TRIGGERED
        else proposed
  end.

Definition _terminal_decision request : Decision.LifecycleDecision :=
  let state := match previous_state request with Some s => s | None => EXPIRED end in
  let confidence := clamp100 (match previous_confidence_score request with Some n => n | None => 0 end) in
  {| Decision.setup_family := GENERIC;
     Decision.phase_code := text_or (previous_phase request) (state_value state);
     Decision.previous_state := previous_state request;
     Decision.proposed_state := state;
     Decision.actionability_candidate := if bool_decide (state = FAILED) then BLOCKED else WATCH_ONLY;
     Decision.confidence_score := confidence;
     Decision.confidence_label := label_for_score config confidence;
     Decision.reason_codes := ["TERMINAL_STATE_LOCKED"];
     Decision.evidence :=
       [("previous_state", VStr (state_value state)); ("terminal_locked", VBool true);
        ("confidence_preserved",
         VBool (match previous_confidence_score request with Some _ => true | None => false end))];
     Decision.immediate_transition := false;
     Decision.terminal_reason := Some (state_value state) |}.

Definition _no_evidence_decision request : Decision.LifecycleDecision :=
  {| Decision.setup_family := GENERIC;
     Decision.phase_code := text_or (previous_phase request) "CANDIDATE";
     Decision.previous_state := previous_state request;
     Decision.proposed_state := match previous_state request with Some s => s | None => DISCOVERED end;
     Decision.actionability_candidate := LOW_CONFIDENCE;
     Decision.confidence_score := 0;
     Decision.confidence_label := label_for_score config 0;
     Decision.reason_codes := ["INSUFFICIENT_FAMILY_EVIDENCE"];
     Decision.evidence :=
       [("available_signals",
         VList (map VStr (sort_by String.leb (map fst (signals (snapshot request))))))];
     Decision.immediate_transition := false;
     Decision.terminal_reason := None |}.

(** The decision of a technically blocked snapshot. *)
Definition blocked_decision request : Decision.LifecycleDecision :=
  let d := _no_evidence_decision request in
  {| Decision.setup_family := Decision.setup_family d;
     Decision.phase_code := Decision.phase_code d;
     Decision.previous_state := Decision.previous_state d;
     Decision.proposed_state := Decision.proposed_state d;
     Decision.actionability_candidate := BLOCKED;
     Decision.confidence_score := Decision.confidence_score d;
     Decision.confidence_label := Decision.confidence_label d;
     Decision.reason_codes := ["TECHNICAL_CONSUMER_INELIGIBLE"];
     Decision.evidence :=
       [(TECHNICAL_ELIGIBILITY_KEY, dget (source_lineage (snapshot request)) TECHNICAL_ELIGIBILITY_KEY);
        ("prior_state_preserved",
         VBool (match previous_state request with Some _ => true | None => false end))];
     Decision.immediate_transition := Decision.immediate_transition d;
     Decision.terminal_reason := Decision.terminal_reason d |}.

Definition _actionability (state : LifecycleState) (confidence : Z) : Actionability :=
  if bool_decide (state = FAILED) then BLOCKED
  else if confidence <? low_min config then LOW_CONFIDENCE
  else if bool_decide (state ∈ [READY; TRIGGERED; CONFIRMED]) then ACTIONABLE
  else WATCH_ONLY.

(** The decision on the primary evidence. *)
Definition evidence_decision (e : FamilyEvidence) request : result Decision.LifecycleDecision :=
  let proposed := _apply_hysteresis (_state_from_evidence e request) e request in
  confidence ← score config (snapshot request) e (persistence_sessions request) None;
  let reasons := unique (reason_codes e ++ breakdown_reasons confidence
                         ++ [_transition_reason (previous_state request) proposed]) in
  mret
  {| Decision.setup_family := setup_family e;
     Decision.phase_code := phase_code e;
     Decision.previous_state := previous_state request;
     Decision.proposed_state := proposed;
     Decision.actionability_candidate := _actionability proposed (breakdown_score confidence);
     Decision.confidence_score := breakdown_score confidence;
     Decision.confidence_label := breakdown_label confidence;
     Decision.reason_codes := match reasons with [] => ["NO_STATE_CHANGE"] | r => r end;
     Decision.evidence := dict_update (evidence e)
       [("confidence", VDict (map (fun kv => (kv.1, VFloat kv.2)) (components confidence)));
        ("confidence_component_details", VDict (component_details confidence));
        ("candidate_reason_codes", VList (map VStr (reason_codes e)));
        ("prior_snapshot_count", VInt (Z.of_nat (length (previous_snapshots request))));
        ("prior_snapshot_dates",
         VList (map (fun s => VStr (date_isoformat (data_as_of_date s))) (previous_snapshots request)))];
     Decision.immediate_transition :=
       hard_failure e || _stronger_than proposed (previous_state request);
     Decision.terminal_reason := if bool_decide (proposed = FAILED) then Some "HARD_FAILURE" else None |}.

(** [replace(request, snapshot=..., previous_snapshots=...)]. *)
Definition with_snapshots request (s : NormalizedSnapshot) (history : list NormalizedSnapshot)
  : LifecycleEvaluationInput :=
  mkInput s history (previous_state request) (previous_phase request)
    (previous_confidence_score request) (state_age_sessions request) (persistence_sessions request)
    (missing_observation_sessions request).

(** [SetupLifecycleEngine.evaluate]. *)
Definition evaluate request : result Decision.LifecycleDecision :=
  s ← setup_with_contextual_permission (snapshot request);
  history ← result_map setup_with_contextual_permission (previous_snapshots request);
  let request := with_snapshots request s history in
  _ ← _validate_history request;
  if match previous_state request with Some p => terminal p | None => false end
  then mret (_terminal_decision request)
  else
    blocked ← setup_technical_blocked (snapshot request);
    if (blocked : bool) then mret (blocked_decision request)
    else
      candidates ← evaluate_family_candidates config (snapshot request) (previous_snapshots request)
                     (state_age_sessions request);
      primary ← select_primary_family config candidates;
      match primary with
      | None => mret (_no_evidence_decision request)
      | Some e => evidence_decision e request
      end.

(** ** The actionability policy *)

Record ActionabilityDecision := mkActionability {
  actionability : Actionability;
  action_reasons : list string;
  blockers : list string;
  metadata : dict;
}.

Definition _has_stale_warning (s : NormalizedSnapshot) : bool :=
  existsb (fun w => contains (casefold w) "stale" || contains (casefold w) "near_stale")
    (warning_flags s).

Definition _has_hard_required_absence (s : NormalizedSnapshot) : bool :=
  existsb (fun w => smem (casefold w)
    ["missing_required_technical_score"; "missing_required_setup_score";
     "missing_required_classification"; "missing_required_close_price"; "hard_required_absent"])
    (warning_flags s).

Definition market_blocked (s : NormalizedSnapshot) : bool :=
  match signal_value s "market_gate" VNone with
  | VBool b => negb b
  | VNone => smem (casefold (signal_text s "market_regime")) ["blocked"; "risk_off"; "red"; "bearish"]
  | _ => false
  end.

(** The blockers in the order the policy appends them. *)
Definition policy_blockers (s : NormalizedSnapshot) (technical : bool) : list string :=
  reason_if (_has_hard_required_absence s) "HARD_REQUIRED_DATA_ABSENT"
  ++ reason_if technical "TECHNICAL_CONSUMER_INELIGIBLE"
  ++ reason_if (bool_decide (data_quality_label s = DQ_INSUFFICIENT)) "INSUFFICIENT_DATA_QUALITY"
  ++ reason_if (signal_bool s "liquidity") "LIQUIDITY_RISK"
  ++ reason_if (smem (casefold (signal_text s "earnings_risk"))
                  ["imminent"; "high"; "blocked"; "within_window"]) "IMMINENT_EARNINGS"
  ++ reason_if (market_blocked s) "MARKET_POLICY_BLOCK".

Definition confidence_reasons (lifecycle : Decision.LifecycleDecision) (s : NormalizedSnapshot) : list string :=
  reason_if (bool_decide (data_quality_label s = DQ_LOW) || _has_stale_warning s) "LOW_CONFIDENCE_SOURCE"
  ++ reason_if (Decision.confidence_score lifecycle <? minimum_actionable_confidence config)
       "CONFIDENCE_BELOW_ACTIONABLE_MIN".

Definition reduced_market (s : NormalizedSnapshot) : bool :=
  smem (casefold (signal_text s "market_regime")) ["caution"; "yellow"; "neutral"; "mixed"].

(** [SetupLifecycleActionabilityPolicy.evaluate]. *)
Definition policy_evaluate (lifecycle : Decision.LifecycleDecision) (snapshot : NormalizedSnapshot)
  : result ActionabilityDecision :=
  s ← setup_with_contextual_permission snapshot;
  let state := Decision.proposed_state lifecycle in
  let watch := (state_value state ++ "_WATCH_ONLY")%string in
  match state with
  | FAILED => mret (mkActionability BLOCKED ["FAILED_STATE_BLOCKED"] ["FAILED"] [])
  | EXPIRED => mret (mkActionability WATCH_ONLY [watch] [] [("precedence", VStr "TERMINAL_STATE")])
  | _ =>
      technical ← setup_technical_blocked s;
      let found := policy_blockers s technical in
      let reasons := confidence_reasons lifecycle s in
      if negb (bool_decide (found = [])) then
        mret (mkActionability BLOCKED (unique ["GATE_BLOCKED"]) (unique found)
                [("precedence", VStr "HARD_BLOCKER")])
      else if negb (bool_decide (reasons = [])) then
        mret (mkActionability LOW_CONFIDENCE (unique reasons) []
                [("precedence", VStr "EVIDENCE_CONFIDENCE")])
      else if reduced_market s then
        mret (mkActionability WATCH_ONLY ["MARKET_POLICY_REDUCED"] []
                [("market_posture", VStr "REDUCED"); ("precedence", VStr "REDUCED_MARKET_POSTURE")])
      else if negb (bool_decide (state ∈ [READY; TRIGGERED; CONFIRMED])) then
        mret (mkActionability WATCH_ONLY [watch] [] [("precedence", VStr "LIFECYCLE_POSTURE")])
      else
        mret (mkActionability ACTIONABLE ["ACTIONABILITY_GATES_PASS"] []
                [("precedence", VStr "ACTIONABLE_GATES_PASS")])
  end.

End Engine.
