(* ===== verification/LifecycleFacts.v ===== *)
(** * Setup lifecycle: what the engine and the policy guarantee *)
From Stdlib Require Import ZArith Lia List String Ascii Bool.
From stdpp Require Import base list sorting strings sets.
From S2P Require Import Prelude PyDate PyFloat PyValue Readiness Signals Eligibility Adapters.
From S2P Require Import AdapterFacts Confidence Lifecycle.
Local Open Scope string_scope.
Local Open Scope list_scope.
Local Open Scope Z_scope.

Section Facts.
Context `{Text : PyText} `{Evidence : Readiness.CanonicalEvidence} (config : SetupLifecycleConfig).
Implicit Types (request : LifecycleEvaluationInput) (d : Decision.LifecycleDecision).

(** ** The branches of an evaluation *)

(** What each branch of [evaluate] decides, for the request with its permissions
    applied. *)
Inductive outcome request : Decision.LifecycleDecision -> Prop :=
  | outcome_terminal p :
      previous_state request = Some p -> terminal p = true ->
      outcome request (_terminal_decision config request)
  | outcome_blocked :
      (forall p, previous_state request = Some p -> terminal p = false) ->
      setup_technical_blocked (snapshot request) = Ok true ->
      outcome request (blocked_decision config request)
  | outcome_no_evidence :
      (forall p, previous_state request = Some p -> terminal p = false) ->
      setup_technical_blocked (snapshot request) = Ok false ->
      outcome request (_no_evidence_decision config request)
  | outcome_evidence candidates e d :
      (forall p, previous_state request = Some p -> terminal p = false) ->
      setup_technical_blocked (snapshot request) = Ok false ->
      evaluate_family_candidates config (snapshot request) (previous_snapshots request)
        (state_age_sessions request) = Ok candidates ->
      select_primary_family config candidates = Ok (Some e) ->
      evidence_decision config e request = Ok d ->
      outcome request d.

(** The request that the engine evaluates, and the conditions it has checked. *)
Lemma evaluate_outcome request d :
  evaluate config request = Ok d ->
  exists s history,
    setup_with_contextual_permission (snapshot request) = Ok s
    /\ result_map setup_with_contextual_permission (previous_snapshots request) = Ok history
    /\ _validate_history config (with_snapshots request s history) = Ok tt
    /\ outcome (with_snapshots request s history) d.
Proof.
  unfold evaluate. intros H. apply result_bind_Ok in H as (s & Hs & H).
  apply result_bind_Ok in H as (history & Hh & H). cbv zeta in H.
  apply result_bind_Ok in H as ([] & Hv & H). exists s, history. split_and!; [done..|].
  set (r := with_snapshots request s history) in *.
  destruct (match previous_state r with Some p => terminal p | None => false end) eqn:Et.
  { apply Ok_inj in H. subst. destruct (previous_state r) as [p|] eqn:Ep; [|done].
    by eapply outcome_terminal. }
  assert (forall p, previous_state r = Some p -> terminal p = false) as Hp
    by (intros p Hp; by rewrite Hp in Et).
  apply result_bind_Ok in H as (blocked & Hb & H). destruct blocked.
  { apply Ok_inj in H. subst. by constructor. }
  apply result_bind_Ok in H as (candidates & Hc & H).
  apply result_bind_Ok in H as (primary & Hpr & H). destruct primary as [e|].
  - by eapply outcome_evidence.
  - apply Ok_inj in H. subst. by constructor.
Qed.

(** The fields of a decision taken on evidence. *)
Lemma evidence_decision_Ok e request d :
  evidence_decision config e request = Ok d ->
  Decision.proposed_state d = _apply_hysteresis config (_state_from_evidence config e request) e request
  /\ Decision.previous_state d = previous_state request
  /\ Decision.reason_codes d <> []
  /\ 0 <= Decision.confidence_score d <= 100
  /\ Decision.confidence_label d = label_for_score config (Decision.confidence_score d)
  /\ Decision.actionability_candidate d
     = _actionability config (Decision.proposed_state d) (Decision.confidence_score d).
Proof.
  unfold evidence_decision. intros H. cbv zeta in H. apply result_bind_Ok in H as (c & Hc & H).
  apply score_bounds in Hc as [Hb Hl]. apply Ok_inj in H. subst d. simpl.
  split_and!; try done; try lia. by destruct (unique _).
Qed.

Lemma primary_candidate candidates e s h age :
  (forall family, family ∈ precedence config) ->
  evaluate_family_candidates config s h age = Ok candidates ->
  select_primary_family config candidates = Ok (Some e) ->
  candidate_ok config e /\ evidence_ok config (setup_family e) e.
Proof.
  intros Hp H Hs.
  destruct (candidates_list config _ _ _ _ H) as [->|[(g & -> & Hg & Hc)|(ks & -> & Hk & Hc & _ & _)]].
  - done.
  - unfold select_primary_family, keyed, _family_sort_key in Hs. cbn [result_map] in Hs.
    destruct (precedence_rank_Ok config (setup_family g) (Hp _)) as [r Hr]. rewrite Hr in Hs.
    apply Ok_inj in Hs. cbn in Hs. assert (g = e) as -> by congruence.
    split; [done|]. by rewrite (ok_family _ _ _ Hg).
  - rewrite (sort_keys config ks Hk) in Hs. apply Ok_inj in Hs.
    rewrite <- (sort_by_Permutation (fun a b => negb (key_lt (fst a) (fst b))) ks) in Hc.
    destruct (sort_by _ ks) as [|p l]; simplify_eq/=. by apply Forall_cons in Hc as [Hc _].
Qed.

(** The evidence of the primary family, the one an evaluation of the request decides on. *)
Definition primary_evidence request (e : FamilyEvidence) : Prop :=
  exists s history candidates,
    setup_with_contextual_permission (snapshot request) = Ok s
    /\ result_map setup_with_contextual_permission (previous_snapshots request) = Ok history
    /\ evaluate_family_candidates config s history (state_age_sessions request) = Ok candidates
    /\ select_primary_family config candidates = Ok (Some e).

(** ** Histories *)

Lemma sorted_dates_strict l :
  l = sort_by Z.leb l -> NoDup l -> StronglySorted Z.lt l.
Proof.
  intros Hs Hn. assert (StronglySorted (fun a b => Z.leb a b = true) l) as H.
  { rewrite Hs. apply sort_by_sorted; intros; lia. }
  clear Hs. induction H as [|x l Hl IH Hx]; [constructor|]. apply NoDup_cons in Hn as [Hnx Hn].
  constructor; [auto|]. rewrite Forall_forall in *. intros y Hy. specialize (Hx y Hy).
  assert (x <> y) by (intros ->; done). lia.
Qed.

Lemma remove_dups_length_NoDup (l : list Z) : length l = length (remove_dups l) -> NoDup l.
Proof.
  assert (forall l : list Z, (length (remove_dups l) <= length l)%nat) as Hle.
  { clear. intros l. induction l as [|x l IH]; simpl; [lia|]. destruct (decide_rel _ x l); simpl; lia. }
  induction l as [|x l IH]; simpl; [constructor|]. destruct (decide_rel _ x l) as [Hin|Hin]; simpl.
  - intros H. specialize (Hle l). lia.
  - intros H. constructor; [done|]. apply IH. lia.
Qed.

Lemma validate_history_Ok request :
  _validate_history config request = Ok tt ->
  Z.of_nat (length (previous_snapshots request)) <= history_window_sessions config
  /\ StronglySorted Z.lt (map data_as_of_date (previous_snapshots request))
  /\ Forall (fun item => ticker item = ticker (snapshot request)
        /\ timeframe item = timeframe (snapshot request)
        /\ data_as_of_date item < data_as_of_date (snapshot request)) (previous_snapshots request).
Proof.
  unfold _validate_history. cbv zeta. intros H.
  apply unless_Ok in H as [H1 H]. apply unless_Ok in H as [H2 H].
  apply unless_Ok in H as [H3 H]. apply unless_Ok in H as [H4 _].
  apply orb_false_iff in H2 as [H2 H2']. apply negb_false_iff, bool_decide_eq_true in H2.
  apply negb_false_iff, Nat.eqb_eq in H2'. split_and!; [lia| |].
  - apply sorted_dates_strict; [done|]. by apply remove_dups_length_NoDup.
  - apply Forall_forall. intros item Hin%list_elem_of_In.
    assert (forall f : NormalizedSnapshot -> bool, existsb f (previous_snapshots request) = false ->
              f item = false) as Hex.
    { intros f Hf. destruct (f item) eqn:E; [|done].
      rewrite (proj2 (existsb_exists f _)) in Hf by eauto. done. }
    apply Hex in H3, H4. apply orb_false_iff in H3 as [Ht Hf].
    apply negb_false_iff, String.eqb_eq in Ht, Hf. split_and!; [done..|lia].
Qed.

(** Permissions keep the identity of a snapshot. *)
Lemma permission_identity s s' :
  setup_with_contextual_permission s = Ok s' ->
  ticker s' = ticker s /\ timeframe s' = timeframe s /\ data_as_of_date s' = data_as_of_date s.
Proof.
  intros H. destruct (contextual_permission_cases s s' H) as [[_ ->]|(?&?&_&_&[[_ ->]| ->])]; done.
Qed.

(** No look-ahead.  An evaluation that returns has used a history that fits the
    configured window, whose trading dates strictly increase, which belongs to the
    ticker and timeframe of the snapshot and lies strictly before its date. *)
Theorem evaluation_has_no_lookahead request d :
  evaluate config request = Ok d ->
  Z.of_nat (length (previous_snapshots request)) <= history_window_sessions config
  /\ StronglySorted Z.lt (map data_as_of_date (previous_snapshots request))
  /\ Forall (fun item => ticker item = ticker (snapshot request)
        /\ timeframe item = timeframe (snapshot request)
        /\ data_as_of_date item < data_as_of_date (snapshot request)) (previous_snapshots request).
Proof.
  intros H. apply evaluate_outcome in H as (s & history & Hs & Hh & Hv & _).
  apply validate_history_Ok in Hv as (Hlen & Hsort & Hall). simpl in *.
  apply permission_identity in Hs as (Et & Ef & Ed). apply result_map_Forall2 in Hh.
  assert (map data_as_of_date history = map data_as_of_date (previous_snapshots request)) as Hdates.
  { clear -Hh. induction Hh as [|x y l l' Hxy _ IH]; [done|]. simpl.
    apply permission_identity in Hxy as (_ & _ & ->). by rewrite IH. }
  rewrite Hdates in Hsort. rewrite (Forall2_length _ _ _ Hh). split_and!; [done..|].
  clear -Hh Hall Et Ef Ed. rewrite Et, Ef, Ed in Hall.
  induction Hh as [|x y l l' Hxy _ IH]; [constructor|]. apply Forall_cons in Hall as [Hy Hall].
  apply permission_identity in Hxy as (E1 & E2 & E3).
  constructor; [by rewrite <- E1, <- E2, <- E3|auto].
Qed.

(** ** States *)

(** The evidence that supports a state. *)
Definition supports (e : FamilyEvidence) request (s : LifecycleState) : Prop :=
  match s with
  | FAILED => hard_failure e = true
  | EXPIRED => observation_gap_sessions config < missing_observation_sessions request
               \/ max_age_sessions (policies config (setup_family e)) <= state_age_sessions request
  | EXTENDED => extended e = true
  | CONFIRMED => confirmed e = true
  | TRIGGERED => triggered e = true
  | READY => ready e = true
  | TIGHTENING => In (phase_code e) TIGHTENING_PHASES
  | DEVELOPING => trackable e = true
  | DISCOVERED => False
  end.

Lemma state_from_evidence_supported e request :
  trackable e = true -> supports e request (_state_from_evidence config e request).
Proof.
  intros Ht. unfold _state_from_evidence. rewrite Ht.
  repeat match goal with |- context [if ?b then _ else _] => destruct b eqn:? end; cbn [supports]; try done.
  - left. lia.
  - right. lia.
  - by apply smem_In.
Qed.

Lemma hysteresis_cases proposed e request :
  let r := _apply_hysteresis config proposed e request in
  r = proposed
  \/ (exists p, previous_state request = Some p /\ r = p /\ (p = READY \/ p = TRIGGERED)
        /\ state_priority proposed < state_priority p /\ normal_min config - 5 <= confidence_score e)
  \/ (exists p, previous_state request = Some p /\ p <> CONFIRMED /\ r = TRIGGERED
        /\ proposed = CONFIRMED /\ persistence_sessions request < 2).
Proof.
  unfold _apply_hysteresis. destruct (previous_state request) as [p|]; [|by left].
  destruct (bool_decide (proposed ∈ _)); [by left|].
  match goal with |- context [if ?b then p else _] => destruct b eqn:E1 end.
  - right. left. exists p. rewrite !andb_true_iff, !bool_decide_eq_true in E1.
    destruct E1 as [[Hs _] [Hp Hm]]. unfold _stronger_than in Hs.
    split_and!; [done|done| |lia|lia]. set_solver.
  - match goal with |- context [if ?b then TRIGGERED else _] => destruct b eqn:E2 end; [|by left].
    right. right. exists p. rewrite !andb_true_iff, negb_true_iff, bool_decide_eq_true, bool_decide_eq_false in E2.
    destruct E2 as [[? ?] ?]. split_and!; try done. lia.
Qed.

Lemma hysteresis_confirmed proposed e request p :
  previous_state request = Some p -> p <> CONFIRMED ->
  _apply_hysteresis config proposed e request = CONFIRMED -> 2 <= persistence_sessions request.
Proof.
  intros Hp Hne H. unfold _apply_hysteresis in H. rewrite Hp in H.
  destruct (bool_decide_reflect (proposed ∈ [FAILED; EXPIRED])) as [Hin|_]; [set_solver|].
  match type of H with context [if ?b then p else _] => destruct b eqn:E1 end; [done|].
  match type of H with context [if ?b then TRIGGERED else _] => destruct b eqn:E2 end; [done|].
  subst. rewrite (bool_decide_eq_true_2 (CONFIRMED = CONFIRMED)) in E2 by done.
  rewrite bool_decide_eq_false_2 in E2 by done. simpl in E2. lia.
Qed.

Lemma hysteresis_terminal proposed e request :
  terminal proposed = true -> _apply_hysteresis config proposed e request = proposed.
Proof.
  intros Ht. unfold _apply_hysteresis, terminal in *. destruct (previous_state request); [|done].
  by rewrite Ht.
Qed.

(** C10: every change of state is justified by evidence.  When an evaluation returns a
    state that differs from the previous one (or, for a new setup, from DISCOVERED),
    its primary evidence is trackable, enabled and supports the new state: FAILED needs
    a hard failure, EXPIRED an observation gap or an exceeded age, CONFIRMED, EXTENDED,
    TRIGGERED and READY the corresponding evidence; and DISCOVERED is never entered
    from another state. *)
Theorem state_change_is_justified request d :
  (forall family, family ∈ precedence config) ->
  evaluate config request = Ok d ->
  Decision.proposed_state d
    <> match previous_state request with Some p => p | None => DISCOVERED end ->
  exists e, primary_evidence request e /\ candidate_ok config e
    /\ supports e request (Decision.proposed_state d).
Proof.
  intros Hprec H Hne. apply evaluate_outcome in H as (s & history & Hps & Hph & _ & H).
  destruct H as [p Hp _|_ _|_ _|candidates e d Hp Hb Hc Hs Hd].
  - exfalso. simpl in *. rewrite Hp in Hne. done.
  - exfalso. by simpl in *.
  - exfalso. by simpl in *.
  - apply evidence_decision_Ok in Hd as (Hst & _). rewrite Hst in Hne |- *.
    destruct (primary_candidate _ _ _ _ _ Hprec Hc Hs) as [Hok Heok]. exists e.
    split; [by exists s, history, candidates|]. split; [done|].
    set (r := with_snapshots request s history) in *.
    change (supports e request) with (supports e r).
    pose proof (state_from_evidence_supported e r (proj1 Hok)) as Hsup.
    destruct (hysteresis_cases (_state_from_evidence config e r) e r)
      as [E|[(p & Hpr & E & _)|(p & Hpr & _ & E & Hpro & _)]]; rewrite E in Hne |- *.
    + done.
    + cbn [previous_state with_snapshots r] in Hpr. by rewrite Hpr in Hne.
    + rewrite Hpro in Hsup. simpl in *. by apply (ok_confirmed _ _ _ Heok).
Qed.

(** Confirmation needs persistence.  A setup that already has a state other than
    CONFIRMED is confirmed only after at least two persistent sessions; before that
    the engine proposes at most TRIGGERED. *)
Theorem confirmation_needs_persistence request d p :
  evaluate config request = Ok d -> previous_state request = Some p -> p <> CONFIRMED ->
  Decision.proposed_state d = CONFIRMED -> 2 <= persistence_sessions request.
Proof.
  intros H Hp Hne Hc. apply evaluate_outcome in H as (s & history & _ & _ & _ & H).
  destruct H as [p' Hp' _|_ _|_ _|candidates e d _ _ _ _ Hd]; simpl in *; try (by rewrite Hp in Hc).
  apply evidence_decision_Ok in Hd as (Hst & _). rewrite Hst in Hc.
  by eapply (hysteresis_confirmed _ _ (with_snapshots request s history)).
Qed.

(** Hysteresis.  A READY or TRIGGERED setup that the evaluation moves to a weaker
    state, without failing or expiring, had evidence whose confidence is more than
    five points below the normal threshold; otherwise its state is kept. *)
Theorem ready_setups_are_sticky request d p :
  evaluate config request = Ok d -> previous_state request = Some p -> p = READY \/ p = TRIGGERED ->
  state_priority (Decision.proposed_state d) < state_priority p ->
  terminal (Decision.proposed_state d) = false ->
  exists e, primary_evidence request e /\ confidence_score e < normal_min config - 5.
Proof.
  intros H Hp Hrt Hlt Ht. apply evaluate_outcome in H as (s & history & Hps & Hph & _ & H).
  destruct H as [p' Hp' _|_ _|_ _|candidates e d _ _ Hc Hs Hd];
    [simpl in Hlt; rewrite Hp in Hlt; lia..|].
  apply evidence_decision_Ok in Hd as (Hst & _). rewrite Hst in Hlt, Ht. exists e.
  split; [by exists s, history, candidates|]. set (proposed := _state_from_evidence config e _) in *.
  unfold _apply_hysteresis in Hlt, Ht. cbn [previous_state with_snapshots] in Hlt, Ht.
  rewrite Hp in Hlt, Ht.
  destruct (bool_decide (proposed ∈ [FAILED; EXPIRED])) eqn:E; [unfold terminal in Ht; congruence|].
  destruct (Z.lt_ge_cases (confidence_score e) (normal_min config - 5)) as [|Hge]; [done|exfalso].
  match type of Hlt with context [if ?b then p else _] => destruct b eqn:E1 end; [lia|].
  assert (bool_decide (p ∈ NON_TERMINAL_STATES) = true /\ bool_decide (p ∈ [READY; TRIGGERED]) = true)
    as [Hn Hr] by (destruct Hrt as [-> | ->]; split; by vm_compute).
  rewrite Hn, Hr in E1. assert ((-5 <=? confidence_score e - normal_min config) = true) as Hm by lia.
  rewrite Hm in E1. cbn [andb] in E1. rewrite !andb_true_r in E1. unfold _stronger_than in E1.
  match type of Hlt with context [if ?b then TRIGGERED else _] => destruct b eqn:E2 end; [|lia].
  rewrite !andb_true_iff, bool_decide_eq_true in E2. destruct E2 as [[E2 _] _]. rewrite E2 in E1.
  destruct Hrt as [-> | ->]; vm_compute in E1, Hlt; congruence.
Qed.

(** ** Traces *)

(** The states a setup goes through: each evaluation starts from the state the one
    before it proposed. *)
Inductive lifecycle_trace : option LifecycleState -> list LifecycleState -> Prop :=
  | trace_nil p : lifecycle_trace p []
  | trace_step request d l :
      evaluate config request = Ok d ->
      lifecycle_trace (Some (Decision.proposed_state d)) l ->
      lifecycle_trace (previous_state request) (Decision.proposed_state d :: l).

Lemma terminal_step request d p :
  evaluate config request = Ok d -> previous_state request = Some p -> terminal p = true ->
  d = _terminal_decision config (with_snapshots request (snapshot request) (previous_snapshots request)).
Proof.
  intros H Hp Ht. apply evaluate_outcome in H as (s & history & _ & _ & _ & H).
  destruct H as [p' _ _|Hn _|Hn _|candidates e d Hn _ _ _ _];
    [done|exfalso; specialize (Hn p Hp); congruence..].
Qed.

(** C9: terminal states are locked.  Along every sequence of evaluations, in which each
    one starts from the state proposed by the one before it, once a setup is FAILED or
    EXPIRED every later state is that same state. *)
Theorem terminal_states_absorb p l1 s l2 :
  lifecycle_trace p (l1 ++ s :: l2) -> terminal s = true -> Forall (eq s) l2.
Proof.
  assert (forall o l, lifecycle_trace o l -> forall s, o = Some s -> terminal s = true -> Forall (eq s) l)
    as Hlock.
  { intros o l H. induction H as [|request d l He _ IH]; intros s' Hs Ht; [constructor|].
    rewrite (terminal_step _ _ _ He Hs Ht) in *. simpl in *. rewrite Hs in *.
    constructor; [done|]. by apply IH. }
  remember (l1 ++ s :: l2) as l eqn:E. intros H. revert l1 E.
  induction H as [|request d l He Hl IH]; intros l1 E Ht.
  - by destruct l1.
  - destruct l1 as [|x l1]; simplify_eq/=; [|by eapply IH]. by eapply Hlock.
Qed.

(** The decision of every evaluation is well formed: it repeats the previous state,
    its confidence is between 0 and 100 and carries the label of the thresholds, it
    gives a reason, a FAILED setup is BLOCKED, and it is ACTIONABLE only in READY,
    TRIGGERED or CONFIRMED and with at least low confidence. *)
Theorem decision_well_formed request d :
  evaluate config request = Ok d ->
  Decision.previous_state d = previous_state request
  /\ 0 <= Decision.confidence_score d <= 100
  /\ Decision.confidence_label d = label_for_score config (Decision.confidence_score d)
  /\ Decision.reason_codes d <> []
  /\ (Decision.actionability_candidate d = ACTIONABLE ->
        Decision.proposed_state d ∈ [READY; TRIGGERED; CONFIRMED]
        /\ low_min config <= Decision.confidence_score d)
  /\ (Decision.proposed_state d = FAILED -> Decision.actionability_candidate d = BLOCKED).
Proof.
  intros H. apply evaluate_outcome in H as (s & history & _ & _ & _ & H).
  destruct H as [p Hp _|Hn _|Hn _|candidates e d Hn _ _ _ Hd]; simpl.
  - simpl in Hp. rewrite Hp.
    split_and!; try done; try (unfold clamp100; lia); intros; by destruct p.
  - split_and!; try done; lia.
  - split_and!; try done; try lia. intros Hf. exfalso. simpl in Hn.
    destruct (previous_state request) as [p|]; [|done]. specialize (Hn p eq_refl). by subst.
  - apply evidence_decision_Ok in Hd as (_ & Hpr & Hr & Hb & Hl & Ha). rewrite Hpr.
    split_and!; try done; try lia; rewrite Ha; unfold _actionability.
    + repeat case_bool_decide; try done; destruct (Z.ltb_spec (Decision.confidence_score d) (low_min config)); done.
    + intros ->. done.
Qed.

(** ** Actionability *)

Lemma reason_if_nil b r : reason_if b r = [] <-> b = false.
Proof. by destruct b. Qed.

(** The gates of the policy on a snapshot with its permissions applied. *)
Definition gates_pass (l : Decision.LifecycleDecision) (s : NormalizedSnapshot) : Prop :=
  _has_hard_required_absence s = false
  /\ setup_technical_blocked s = Ok false
  /\ data_quality_label s <> DQ_INSUFFICIENT /\ data_quality_label s <> DQ_LOW
  /\ _has_stale_warning s = false
  /\ signal_bool s "liquidity" = false
  /\ ~ In (casefold (signal_text s "earnings_risk")) ["imminent"; "high"; "blocked"; "within_window"]
  /\ market_blocked s = false
  /\ ~ In (casefold (signal_text s "market_regime")) ["caution"; "yellow"; "neutral"; "mixed"]
  /\ minimum_actionable_confidence config <= Decision.confidence_score l.

Lemma smem_false x l : smem x l = false <-> ~ In x l.
Proof. rewrite <- smem_In. by destruct (smem x l). Qed.

Lemma gates_pass_iff l s technical :
  setup_technical_blocked s = Ok technical ->
  gates_pass l s <-> policy_blockers s technical = [] /\ confidence_reasons config l s = []
                     /\ reduced_market s = false.
Proof.
  intros Ht. unfold gates_pass, policy_blockers, confidence_reasons, reduced_market. rewrite Ht.
  assert (forall a b : list string, a ++ b = [] <-> a = [] /\ b = []) as Happ
    by (intros [] []; naive_solver).
  rewrite !Happ, !reason_if_nil, !smem_false, orb_false_iff, !bool_decide_eq_false, Z.ltb_ge.
  split.
  - intros (? & [= ->] & ?). tauto.
  - intros ((? & -> & ?) & ?). tauto.
Qed.

(** The policy returns for every snapshot whose recorded permissions decode, and its
    answer is ACTIONABLE exactly when the setup is READY, TRIGGERED or CONFIRMED and
    every gate passes: required data present, technical consumer eligible, data
    quality neither low nor insufficient, no stale source, no liquidity flag, no
    imminent earnings, market gate open and market posture not reduced, confidence at
    the actionable minimum.  It names blockers exactly when it answers BLOCKED. *)
Theorem actionable_iff_gates_pass l s0 s technical :
  setup_with_contextual_permission s0 = Ok s -> setup_technical_blocked s = Ok technical ->
  exists a, policy_evaluate config l s0 = Ok a
    /\ (actionability a = ACTIONABLE <->
          Decision.proposed_state l ∈ [READY; TRIGGERED; CONFIRMED] /\ gates_pass l s)
    /\ (actionability a = BLOCKED <-> blockers a <> []).
Proof.
  intros Hs Ht. unfold policy_evaluate. rewrite Hs. cbn [mbind result_bind].
  pose proof (gates_pass_iff l s technical Ht) as Hg.
  assert (forall x : LifecycleState, x ∉ [READY; TRIGGERED; CONFIRMED] -> forall A B : Prop,
            ~ A -> (A <-> x ∈ [READY; TRIGGERED; CONFIRMED] /\ B)) as Hno by tauto.
  assert (forall x l, unique (x :: l) <> []) as Hu by done.
  destruct (Decision.proposed_state l) eqn:Est;
    try (eexists; split; [reflexivity|]; split; [apply Hno; [set_solver|done]|done]);
    rewrite Ht; cbn [mbind result_bind];
    (destruct (bool_decide_reflect (policy_blockers s technical = [])) as [Hb|Hb]; cbn [negb];
     [destruct (bool_decide_reflect (confidence_reasons config l s = [])) as [Hr|Hr]; cbn [negb];
      [destruct (reduced_market s) eqn:Em|]|]);
    cbn -[state_value unique policy_blockers confidence_reasons];
    (eexists; split; [reflexivity|]; cbn [actionability blockers]; split;
     [rewrite Hg; set_solver|destruct (policy_blockers s technical); done]).
Qed.

(** A technical block is final.  When the recorded technical permission blocks the
    snapshot and the setup is not terminal, the engine keeps the previous state, gives
    no confidence and answers BLOCKED; and the actionability policy, which reads the
    permission again, answers BLOCKED too. *)
Theorem technical_block_is_final request d s :
  setup_with_contextual_permission (snapshot request) = Ok s ->
  setup_technical_blocked s = Ok true ->
  (forall p, previous_state request = Some p -> terminal p = false) ->
  evaluate config request = Ok d ->
  Decision.proposed_state d = match previous_state request with Some p => p | None => DISCOVERED end
  /\ Decision.actionability_candidate d = BLOCKED /\ Decision.confidence_score d = 0
  /\ exists a, policy_evaluate config d (snapshot request) = Ok a /\ actionability a = BLOCKED.
Proof.
  intros Hs Hb Hp H. apply evaluate_outcome in H as (s' & history & Hs' & _ & _ & H).
  assert (s' = s) as -> by congruence.
  assert (d = blocked_decision config (with_snapshots request s history)) as ->.
  { destruct H as [p Hpp Ht|Hn _|Hn Hf|candidates e d Hn Hf _ _ _]; try done; exfalso.
    - simpl in Hpp. specialize (Hp p Hpp). congruence.
    - simpl in Hf. congruence.
    - simpl in Hf. congruence. }
  split_and!; [done..|]. unfold policy_evaluate. rewrite Hs. cbn [mbind result_bind].
  cbn [Decision.proposed_state blocked_decision _no_evidence_decision previous_state with_snapshots].
  assert (policy_blockers s true <> []) as Hne.
  { unfold policy_blockers. by destruct (reason_if (_has_hard_required_absence s) _). }
  destruct (match previous_state request with Some p => p | None => DISCOVERED end) eqn:E;
    try (destruct (previous_state request) as [p|]; [|done]; specialize (Hp p eq_refl); by subst);
    rewrite Hb; cbn [mbind result_bind]; rewrite bool_decide_eq_false_2 by done; cbn; eauto.
Qed.

End Facts.
