(* ===== verification/LifecycleExamples.v ===== *)
(** * Setup lifecycle: concrete evaluations

    The shipped configuration ([config/setup_lifecycle.yaml]), a breakout that goes
    from discovery to a locked failure, and the theorems of the lifecycle applied to
    it.  The parameters are instantiated by concrete functions. *)
From Stdlib Require Import ZArith Lia List String Ascii Bool.
From stdpp Require Import base list sorting strings sets.
From S2P Require Import Prelude PyDate PyFloat PyValue Readiness Signals Eligibility Adapters.
From S2P Require Import AdapterFacts Confidence Lifecycle LifecycleFacts.
Local Open Scope string_scope.
Local Open Scope list_scope.
Local Open Scope Z_scope.

(** Insertion order, and its reverse, as the iteration order of a set. *)
Definition in_order : PyText := {| str_other := fun _ => ""; set_order := fun l => l |}.
Definition reversed : PyText := {| str_other := fun _ => ""; set_order := @List.rev string |}.

(** Values that are canonical already, and a constant fingerprint. *)
#[export] Instance plain_evidence : Readiness.CanonicalEvidence :=
  {| Readiness.canonical := fun v => Ok v;
     Readiness.fingerprint_of := fun _ => "sha256";
     Readiness.validate_delivered_readiness_policy := fun _ _ => Ok tt;
     Readiness.evaluate_research := fun _ _ _ _ => ValueError "no research policy" |}.
#[export] Existing Instance in_order.

Definition f (num : Z) (den : positive) : float := float_ratio num den.

Definition shipped_policy (family : SetupFamily) : FamilyPolicyConfig :=
  match family with
  | BREAKOUT => mkPolicy true (f 11 2) (f 15 2) 40
      [("ready_pivot_distance_enter_pct", VFloat (f 2 1)); ("contraction_sessions_min", VInt 2);
       ("confirmed_hold_sessions", VInt 2); ("extended_atr_from_trigger", VFloat (f 5 2))]
  | PULLBACK => mkPolicy true (f 11 2) (f 15 2) 30 [("confirmed_hold_sessions", VInt 2)]
  | VCP => mkPolicy true (f 11 2) (f 15 2) 45
      [("contraction_count_min", VInt 2); ("dry_up_percentile_max", VInt 35)]
  | CONTINUATION => mkPolicy true (f 11 2) (f 15 2) 20
      [("tight_range_percentile_max", VInt 40); ("tight_range_sessions_min", VInt 2);
       ("extended_atr_from_trigger", VFloat (f 5 2))]
  | GENERIC => mkPolicy true (f 5 1) (f 7 1) 20 []
  end.

Definition shipped : SetupLifecycleConfig := {|
  policies := shipped_policy;
  precedence := [BREAKOUT; PULLBACK; VCP; CONTINUATION; GENERIC];
  history_window_sessions := 10;
  observation_gap_sessions := 3;
  high_min := 85; normal_min := 70; low_min := 50;
  weights := [("required_feature_coverage", f 3 10); ("signal_agreement", f 1 4);
              ("persistence", f 1 5); ("freshness_and_lineage", f 3 20);
              ("context_completeness", f 1 10)];
  agreement_weights := [("trend", f 1 4); ("contraction", f 1 4); ("relative_strength", f 1 4);
                        ("classification", f 1 4)];
  freshness_and_lineage_weights := [("freshness", f 333333 1000000);
    ("source_run_success", f 333333 1000000); ("lineage_integrity", f 333334 1000000)];
  minimum_actionable_confidence := 70;
|}.

Definition sig (v : pyval) : SignalValue := mkSignal v VNone.

(** A daily snapshot of a breakout setup with further signals in front. *)
Definition day (d : date) (extra : list (string * SignalValue)) (lineage : dict) : NormalizedSnapshot := {|
  ticker := "ACME"; timeframe := "1d"; data_as_of_date := d;
  signals := extra ++
    [("setup_score", sig (VFloat (f 8 1))); ("technical_score", sig (VFloat (f 8 1)));
     ("relative_strength", sig (VInt 7)); ("classification", sig (VStr "Breakout base"));
     ("range_contraction", sig (VBool true)); ("distance_to_pivot_pct", sig (VFloat (f 1 1)));
     ("market_regime", sig (VStr "green")); ("liquidity", sig (VBool false))];
  data_quality_label := DQ_HIGH; required_feature_coverage := Some f1;
  freshness_status := Some "FRESH"; warning_flags := []; source_ids := [];
  source_lineage := [("source_run_successful", VBool true); ("lineage_integrity", VBool true);
    ("source_ids", VDict []); ("market_regime_as_of", VStr "2025-01-09");
    ("sector_rotation_as_of", VStr "2025-01-09")] ++ lineage;
  engine_version := Some "slse-1.3.0"; config_version := Some "c"; schema_version := Some "s";
  config_hash := Some "h"; source_data_hash := Some "d";
|}.

Definition crossed : list (string * SignalValue) := [("close_trigger_cross", sig (VBool true))].
Definition broken : list (string * SignalValue) := [("failed_breakout", sig (VBool true))].

Definition request (s : NormalizedSnapshot) (history : list NormalizedSnapshot)
    (previous : option LifecycleState) (persistence : Z) : LifecycleEvaluationInput :=
  mkInput s history previous None None 1 persistence 0.

Definition r_new := request (day 20000 [] []) [] None 0.
Definition r_trigger := request (day 20001 crossed []) [day 20000 [] []] (Some READY) 1.
Definition r_confirm :=
  request (day 20002 crossed []) [day 20000 [] []; day 20001 crossed []] (Some TRIGGERED) 2.
Definition r_fail := request (day 20003 broken []) [day 20002 crossed []] (Some CONFIRMED) 3.
Definition r_locked := request (day 20004 [] []) [day 20003 broken []] (Some FAILED) 0.

Definition state_and_action (r : LifecycleEvaluationInput) : result (LifecycleState * Actionability * Z) :=
  d ← evaluate shipped r;
  mret (Decision.proposed_state d, Decision.actionability_candidate d, Decision.confidence_score d).

(** A breakout becomes ready, triggers, is confirmed, fails and stays failed. *)
Example breakout_life :
  map state_and_action [r_new; r_trigger; r_confirm; r_fail; r_locked]
  = [Ok (READY, ACTIONABLE, 74); Ok (TRIGGERED, ACTIONABLE, 87); Ok (CONFIRMED, ACTIONABLE, 93);
     Ok (FAILED, BLOCKED, 75); Ok (FAILED, BLOCKED, 0)].
Proof. vm_compute. reflexivity. Qed.

(** The value of an evaluation that is known to succeed. *)
Definition the {A} (r : result A) : is_ok r = true -> A :=
  match r with Ok a => fun _ => a | Raise _ => fun H => match diff_false_true H with end end.
Definition decided (r : LifecycleEvaluationInput) (H : is_ok (evaluate shipped r) = true) : Decision.LifecycleDecision :=
  the (evaluate shipped r) H.

Lemma the_Ok {A} (r : result A) H : r = Ok (the r H).
Proof. destruct r; [done|discriminate H]. Defined.

Lemma ok_new : is_ok (evaluate shipped r_new) = true.
Proof. vm_compute. reflexivity. Defined.
Lemma ok_trigger : is_ok (evaluate shipped r_trigger) = true.
Proof. vm_compute. reflexivity. Defined.
Lemma ok_confirm : is_ok (evaluate shipped r_confirm) = true.
Proof. vm_compute. reflexivity. Defined.
Lemma ok_fail : is_ok (evaluate shipped r_fail) = true.
Proof. vm_compute. reflexivity. Defined.
Lemma ok_locked : is_ok (evaluate shipped r_locked) = true.
Proof. vm_compute. reflexivity. Defined.

Lemma shipped_precedence family : family ∈ precedence shipped.
Proof. destruct family; apply (bool_decide_unpack _); vm_compute; exact I. Defined.

(** A READY technical envelope, the decision of the policy on it, and the record. *)
Definition technical_args : Readiness.ProducerReadinessEnvelope :=
  Readiness.mkEnvelope (VStr "TECHNICAL") Readiness.READY (VStr "identity") []
    [Readiness.PRODUCER_WARNING; Readiness.LOW_NATIVE_CONFIDENCE; Readiness.PRODUCER_WARNING]
    [("score", VInt 8)] [] [] [] [] VNone VNone (VStr "producer-readiness-v1") (VInt 7).
Definition technical_envelope : Readiness.ProducerReadinessEnvelope :=
  the (Readiness.make_envelope technical_args) ltac:(vm_compute; reflexivity).
Definition technical_decision : Readiness.ConsumerEligibilityDecision :=
  the (Readiness.technical_evaluate (Evidence:=plain_evidence) "SETUP" "technical-to-setup-v1" technical_envelope None None)
    ltac:(vm_compute; reflexivity).
Definition permitted : NormalizedSnapshot :=
  day 20000 [] [(TECHNICAL_ELIGIBILITY_KEY, permission_record technical_decision technical_envelope)].

Lemma plain_idempotent : Readiness.canonical_idempotent.
Proof. intros v c H. exact eq_refl. Defined.

Lemma technical_frozen : Readiness.frozen_metrics technical_envelope.
Proof.
  repeat (apply Forall_cons; split; [eexists (VDict _); vm_compute; reflexivity|]). apply Forall_nil.
  exact I.
Defined.

(** The readiness round trip on the technical envelope. *)
Lemma readiness_roundtrip_witness :
  Readiness.from_payload (VDict (Readiness.to_dto technical_envelope)) = Ok technical_envelope.
Proof.
  apply (Readiness.readiness_roundtrip technical_args technical_envelope plain_idempotent).
  - vm_compute. reflexivity.
  - exact technical_frozen.
Defined.

(** The technical gate lets the READY producer pass. *)
Lemma technical_gate_end_to_end_witness : setup_technical_blocked permitted = Ok false.
Proof.
  apply (technical_gate_end_to_end technical_args technical_envelope "technical-to-setup-v1" None
           technical_decision permitted plain_idempotent).
  - vm_compute. reflexivity.
  - exact technical_frozen.
  - vm_compute. reflexivity.
  - vm_compute. reflexivity.
  - vm_compute. reflexivity.
  - vm_compute. reflexivity.
Defined.

(** The recorded decision behind a snapshot that passes the gate. *)
Lemma technical_gate_fail_closed_witness :
  exists decoded, decode_decision (Readiness.decision_dto technical_decision) = Ok decoded
    /\ exists other, Readiness.decision_status other = Readiness.ELIGIBLE.
Proof.
  destruct (technical_gate_fail_closed permitted) as [[H _]|(fr & dto & p & r & dec & _ & _ & _ & _ & _ & H & _)];
    [vm_compute; reflexivity|vm_compute in H; discriminate H|].
  exists technical_decision. split; [vm_compute; reflexivity|]. exists dec. exact H.
Defined.

(** A snapshot whose contextual record is empty loses its contextual signals. *)
Definition unpermitted : NormalizedSnapshot := day 20000 [] [(CONTEXTUAL_ELIGIBILITY_KEY, VDict [])].
Definition cleared : NormalizedSnapshot :=
  the (setup_with_contextual_permission (Evidence:=plain_evidence) unpermitted) ltac:(vm_compute; reflexivity).

Lemma contextual_permission_idempotent_witness :
  setup_with_contextual_permission cleared = Ok cleared.
Proof. apply (contextual_permission_idempotent unpermitted cleared). vm_compute. reflexivity. Defined.

Lemma contextual_permission_scope_witness :
  dict_find "setup_score" (signals cleared) = dict_find "setup_score" (signals unpermitted)
  /\ dict_find "market_regime" (signals cleared) = Some (mkSignal VNone VNone).
Proof.
  split; [|vm_compute; reflexivity].
  destruct (contextual_permission_scope unpermitted cleared []) as (_ & H & _);
    [vm_compute; reflexivity|vm_compute; reflexivity|].
  apply H. intros e He Hin. simpl in He.
  repeat destruct He as [<-|He]; simpl in Hin; repeat destruct Hin as [Hin|Hin]; try discriminate Hin;
    try contradiction.
Defined.

Definition breakout_evidence : FamilyEvidence :=
  the (evaluate_adapter (Text:=in_order) shipped BREAKOUT (day 20001 crossed []) [day 20000 [] []] 1)
    ltac:(vm_compute; reflexivity).

Lemma adapter_evidence_consistent_witness :
  triggered breakout_evidence = true /\ ready breakout_evidence = true.
Proof.
  split; [vm_compute; reflexivity|].
  destruct (adapter_evidence_consistent shipped BREAKOUT (day 20001 crossed []) [day 20000 [] []] 1
              breakout_evidence) as (_ & _ & H & _); [vm_compute; reflexivity|apply H; vm_compute; reflexivity].
Defined.

Definition candidates_of : list FamilyEvidence :=
  the (evaluate_family_candidates (Text:=in_order) (Evidence:=plain_evidence) shipped (day 20001 crossed []) [day 20000 [] []] 1)
    ltac:(vm_compute; reflexivity).

Lemma primary_family_ranked_witness :
  map setup_family candidates_of = [BREAKOUT; VCP]
  /\ select_primary_family shipped candidates_of = Ok (head candidates_of).
Proof.
  split; [vm_compute; reflexivity|].
  destruct (primary_family_ranked shipped (day 20001 crossed []) [day 20000 [] []] 1 candidates_of
              shipped_precedence) as [H _]; [vm_compute; reflexivity|exact H].
Defined.

Definition breakdown : ConfidenceBreakdown :=
  the (score (Text:=in_order) (Evidence:=plain_evidence) shipped (day 20001 crossed []) breakout_evidence 1 None) ltac:(vm_compute; reflexivity).

Lemma confidence_explained_witness : 0 <= breakdown_score breakdown <= 100 /\ breakdown_score breakdown = 87.
Proof.
  split; [|vm_compute; reflexivity].
  destruct (confidence_explained shipped (day 20001 crossed []) breakout_evidence 1 None breakdown)
    as [H _]; [vm_compute; reflexivity|exact H].
Defined.

Lemma evaluation_has_no_lookahead_witness :
  StronglySorted Z.lt (map data_as_of_date (previous_snapshots r_confirm)).
Proof.
  destruct (evaluation_has_no_lookahead shipped r_confirm (decided r_confirm ok_confirm)
              (the_Ok _ ok_confirm)) as (_ & H & _). exact H.
Defined.

Lemma state_change_is_justified_witness :
  exists e, primary_evidence shipped r_fail e /\ hard_failure e = true.
Proof.
  destruct (state_change_is_justified shipped r_fail (decided r_fail ok_fail) shipped_precedence)
    as (e & He & _ & Hs); [exact (the_Ok _ ok_fail)|vm_compute; discriminate|].
  exists e. split; [exact He|].
  assert (Decision.proposed_state (decided r_fail ok_fail) = FAILED) as E by (vm_compute; reflexivity).
  rewrite E in Hs. exact Hs.
Defined.

Lemma confirmation_needs_persistence_witness : 2 <= persistence_sessions r_confirm.
Proof.
  apply (confirmation_needs_persistence shipped r_confirm (decided r_confirm ok_confirm) TRIGGERED).
  - exact (the_Ok _ ok_confirm).
  - reflexivity.
  - discriminate.
  - vm_compute. reflexivity.
Defined.

(** A ready setup whose score collapses is moved back. *)
Definition weak : list (string * SignalValue) := [("setup_score", sig (VInt 6))].
Definition r_weak := request (day 20001 weak []) [day 20000 [] []] (Some READY) 1.
Lemma ok_weak : is_ok (evaluate shipped r_weak) = true.
Proof. vm_compute. reflexivity. Defined.

Lemma ready_setups_are_sticky_witness :
  Decision.proposed_state (decided r_weak ok_weak) = TIGHTENING
  /\ exists e, primary_evidence shipped r_weak e /\ confidence_score e < 65.
Proof.
  split; [vm_compute; reflexivity|].
  apply (ready_setups_are_sticky shipped r_weak (decided r_weak ok_weak) READY).
  - exact (the_Ok _ ok_weak).
  - reflexivity.
  - left. reflexivity.
  - vm_compute. reflexivity.
  - vm_compute. reflexivity.
Defined.

Lemma terminal_states_absorb_witness : Forall (eq FAILED) [FAILED].
Proof.
  apply (terminal_states_absorb shipped (Some CONFIRMED) [] FAILED [FAILED]).
  - apply (trace_step shipped r_fail (decided r_fail ok_fail) [FAILED]); [exact (the_Ok _ ok_fail)|].
    change (Some (Decision.proposed_state (decided r_fail ok_fail))) with (previous_state r_locked).
    apply (trace_step shipped r_locked (decided r_locked ok_locked) []); [exact (the_Ok _ ok_locked)|apply trace_nil].
  - reflexivity.
Defined.

Lemma decision_well_formed_witness :
  Decision.actionability_candidate (decided r_trigger ok_trigger) = ACTIONABLE
  /\ 0 <= Decision.confidence_score (decided r_trigger ok_trigger) <= 100.
Proof.
  split; [vm_compute; reflexivity|].
  destruct (decision_well_formed shipped r_trigger (decided r_trigger ok_trigger)
              (the_Ok _ ok_trigger)) as (_ & H & _). exact H.
Defined.

Lemma actionable_iff_gates_pass_witness :
  exists a, policy_evaluate shipped (decided r_trigger ok_trigger) (snapshot r_trigger) = Ok a
    /\ (actionability a = ACTIONABLE <->
          Decision.proposed_state (decided r_trigger ok_trigger) ∈ [READY; TRIGGERED; CONFIRMED]
          /\ gates_pass shipped (decided r_trigger ok_trigger) (snapshot r_trigger))
    /\ (actionability a = BLOCKED <-> blockers a <> []).
Proof.
  apply (actionable_iff_gates_pass shipped (decided r_trigger ok_trigger) (snapshot r_trigger)
           (snapshot r_trigger) false); vm_compute; reflexivity.
Defined.

(** A snapshot bound to a technical score that records no permission. *)
Definition unrecorded : NormalizedSnapshot := day 20001 [] [("calculation_identity", VStr "id")].
Definition r_unrecorded := request unrecorded [] (Some READY) 1.
Lemma ok_unrecorded : is_ok (evaluate shipped r_unrecorded) = true.
Proof. vm_compute. reflexivity. Defined.

Lemma technical_block_is_final_witness :
  Decision.proposed_state (decided r_unrecorded ok_unrecorded) = READY.
Proof.
  apply (technical_block_is_final shipped r_unrecorded (decided r_unrecorded ok_unrecorded)
           (the (setup_with_contextual_permission (Evidence:=plain_evidence) unrecorded) ltac:(vm_compute; reflexivity))).
  - apply the_Ok.
  - vm_compute. reflexivity.
  - intros p H. vm_compute in H. injection H as <-. reflexivity.
  - apply the_Ok.
Defined.

(** ** Iteration order *)

(** Two flags of one snapshot. *)
Definition flagged : NormalizedSnapshot :=
  day 20000 [("feature_flags", sig (VList [VStr "failed"; VStr "breakout"]))] [].

(** The outcome of an evaluation can depend on the iteration order of a Python set.
    The text that is searched for multi-word tokens such as "failed breakout" joins the
    set of feature flags in iteration order, which hash randomization changes between
    processes.  For one and the same request, a snapshot with the two flags "failed"
    and "breakout" is READY in one order and, in the other, FAILED, which is terminal. *)
Theorem outcome_depends_on_set_order :
  (fun d => Decision.proposed_state d) <$> evaluate (Text:=in_order) shipped (request flagged [] None 0)
    = Ok FAILED
  /\ (fun d => Decision.proposed_state d) <$> evaluate (Text:=reversed) shipped (request flagged [] None 0)
    = Ok READY.
Proof. split; vm_compute; reflexivity. Qed.
