(* ===== verification/Tables.v ===== *)
(** * Rows of the database: [app/models/tables.py]

    The columns of the tables that the durable runtime reads and writes, one
    record per table with a setter per column.  JSON columns are dictionaries of
    dynamic values; timestamps are UTC microseconds.  [Db] is the committed
    store: each table maps its primary key to the row, and [containments] lists
    the calls into the CERI containment service, which owns other tables. *)
From Stdlib Require Import ZArith List String.
From stdpp Require Import base gmap list strings.
From S2P Require Import Prelude PyDate PyFloat PyValue.
Local Open Scope string_scope.
Local Open Scope list_scope.
Local Open Scope Z_scope.

(** [background_job_service.JobStatus]. *)
Inductive JobStatus :=
  | QUEUED | RUNNING | COMPLETED | PARTIAL | FAILED | BLOCKED | CANCELLED | STALE | STALLED
  | RECOVERING.

#[export] Instance JobStatus_eq_dec : EqDecision JobStatus.
Proof. solve_decision. Defined.

Definition status_value (s : JobStatus) : string :=
  match s with
  | QUEUED => "QUEUED" | RUNNING => "RUNNING" | COMPLETED => "COMPLETED" | PARTIAL => "PARTIAL"
  | FAILED => "FAILED" | BLOCKED => "BLOCKED" | CANCELLED => "CANCELLED" | STALE => "STALE"
  | STALLED => "STALLED" | RECOVERING => "RECOVERING"
  end.

(** A row of [background_jobs]. *)
Module Job.

Record BackgroundJob := mk {
  id : Z;
  job_type : string;
  related_run_id : option Z;
  request_key : option string;
  workflow_key : option string;
  pipeline_dependency_id : option Z;
  root_job_id : option Z;
  parent_job_id : option Z;
  triggered_by_job_id : option Z;
  status : JobStatus;
  priority : Z;
  payload_json : dict;
  result_json : option dict;
  error_message : option string;
  retry_count : Z;
  max_retries : Z;
  requested_cancel : bool;
  worker_id : option string;
  worker_instance_id : option string;
  lease_owner : option string;
  execution_token : option string;
  locked_at : option datetime;
  heartbeat_at : option datetime;
  lease_expires_at : option datetime;
  run_after : datetime;
  created_at : datetime;
  started_at : option datetime;
  completed_at : option datetime;
  last_progress_at : option datetime;
  progress_sequence : Z;
  progress_stage : option string;
  progress_current_item : option string;
  progress_last_completed_item : option string;
  progress_processed : Z;
  progress_total : option Z;
  checkpoint_version : option string;
  stall_detected_at : option datetime;
  recovery_count : Z;
  operational_metadata_json : dict;
  scope_id : option string;
  refresh_cycle_id : option string;
  acquisition_plan_id : option string;
  required_for_parent_completion : bool;
}.

Definition set_id (v : Z) (r : BackgroundJob) : BackgroundJob :=
    let 'mk _ x1 x2 x3 x4 x5 x6 x7 x8 x9 x10 x11 x12 x13 x14 x15 x16 x17 x18 x19 x20 x21 x22
    x23 x24 x25 x26 x27 x28 x29 x30 x31 x32 x33 x34 x35 x36 x37 x38 x39 x40 x41 x42 := r in
    mk v x1 x2 x3 x4 x5 x6 x7 x8 x9 x10 x11 x12 x13 x14 x15 x16 x17 x18 x19 x20 x21 x22 x23 x24
    x25 x26 x27 x28 x29 x30 x31 x32 x33 x34 x35 x36 x37 x38 x39 x40 x41 x42.
Definition set_job_type (v : string) (r : BackgroundJob) : BackgroundJob :=
    let 'mk x0 _ x2 x3 x4 x5 x6 x7 x8 x9 x10 x11 x12 x13 x14 x15 x16 x17 x18 x19 x20 x21 x22
    x23 x24 x25 x26 x27 x28 x29 x30 x31 x32 x33 x34 x35 x36 x37 x38 x39 x40 x41 x42 := r in
    mk x0 v x2 x3 x4 x5 x6 x7 x8 x9 x10 x11 x12 x13 x14 x15 x16 x17 x18 x19 x20 x21 x22 x23 x24
    x25 x26 x27 x28 x29 x30 x31 x32 x33 x34 x35 x36 x37 x38 x39 x40 x41 x42.
Definition set_related_run_id (v : option Z) (r : BackgroundJob) : BackgroundJob :=
    let 'mk x0 x1 _ x3 x4 x5 x6 x7 x8 x9 x10 x11 x12 x13 x14 x15 x16 x17 x18 x19 x20 x21 x22
    x23 x24 x25 x26 x27 x28 x29 x30 x31 x32 x33 x34 x35 x36 x37 x38 x39 x40 x41 x42 := r in
    mk x0 x1 v x3 x4 x5 x6 x7 x8 x9 x10 x11 x12 x13 x14 x15 x16 x17 x18 x19 x20 x21 x22 x23 x24
    x25 x26 x27 x28 x29 x30 x31 x32 x33 x34 x35 x36 x37 x38 x39 x40 x41 x42.
Definition set_request_key (v : option string) (r : BackgroundJob) : BackgroundJob :=
    let 'mk x0 x1 x2 _ x4 x5 x6 x7 x8 x9 x10 x11 x12 x13 x14 x15 x16 x17 x18 x19 x20 x21 x22
    x23 x24 x25 x26 x27 x28 x29 x30 x31 x32 x33 x34 x35 x36 x37 x38 x39 x40 x41 x42 := r in
    mk x0 x1 x2 v x4 x5 x6 x7 x8 x9 x10 x11 x12 x13 x14 x15 x16 x17 x18 x19 x20 x21 x22 x23 x24
    x25 x26 x27 x28 x29 x30 x31 x32 x33 x34 x35 x36 x37 x38 x39 x40 x41 x42.
Definition set_workflow_key (v : option string) (r : BackgroundJob) : BackgroundJob :=
    let 'mk x0 x1 x2 x3 _ x5 x6 x7 x8 x9 x10 x11 x12 x13 x14 x15 x16 x17 x18 x19 x20 x21 x22
    x23 x24 x25 x26 x27 x28 x29 x30 x31 x32 x33 x34 x35 x36 x37 x38 x39 x40 x41 x42 := r in
    mk x0 x1 x2 x3 v x5 x6 x7 x8 x9 x10 x11 x12 x13 x14 x15 x16 x17 x18 x19 x20 x21 x22 x23 x24
    x25 x26 x27 x28 x29 x30 x31 x32 x33 x34 x35 x36 x37 x38 x39 x40 x41 x42.
Definition set_pipeline_dependency_id (v : option Z) (r : BackgroundJob) : BackgroundJob :=
    let 'mk x0 x1 x2 x3 x4 _ x6 x7 x8 x9 x10 x11 x12 x13 x14 x15 x16 x17 x18 x19 x20 x21 x22
    x23 x24 x25 x26 x27 x28 x29 x30 x31 x32 x33 x34 x35 x36 x37 x38 x39 x40 x41 x42 := r in
    mk x0 x1 x2 x3 x4 v x6 x7 x8 x9 x10 x11 x12 x13 x14 x15 x16 x17 x18 x19 x20 x21 x22 x23 x24
    x25 x26 x27 x28 x29 x30 x31 x32 x33 x34 x35 x36 x37 x38 x39 x40 x41 x42.
Definition set_root_job_id (v : option Z) (r : BackgroundJob) : BackgroundJob :=
    let 'mk x0 x1 x2 x3 x4 x5 _ x7 x8 x9 x10 x11 x12 x13 x14 x15 x16 x17 x18 x19 x20 x21 x22
    x23 x24 x25 x26 x27 x28 x29 x30 x31 x32 x33 x34 x35 x36 x37 x38 x39 x40 x41 x42 := r in
    mk x0 x1 x2 x3 x4 x5 v x7 x8 x9 x10 x11 x12 x13 x14 x15 x16 x17 x18 x19 x20 x21 x22 x23 x24
    x25 x26 x27 x28 x29 x30 x31 x32 x33 x34 x35 x36 x37 x38 x39 x40 x41 x42.
Definition set_parent_job_id (v : option Z) (r : BackgroundJob) : BackgroundJob :=
    let 'mk x0 x1 x2 x3 x4 x5 x6 _ x8 x9 x10 x11 x12 x13 x14 x15 x16 x17 x18 x19 x20 x21 x22
    x23 x24 x25 x26 x27 x28 x29 x30 x31 x32 x33 x34 x35 x36 x37 x38 x39 x40 x41 x42 := r in
    mk x0 x1 x2 x3 x4 x5 x6 v x8 x9 x10 x11 x12 x13 x14 x15 x16 x17 x18 x19 x20 x21 x22 x23 x24
    x25 x26 x27 x28 x29 x30 x31 x32 x33 x34 x35 x36 x37 x38 x39 x40 x41 x42.
Definition set_triggered_by_job_id (v : option Z) (r : BackgroundJob) : BackgroundJob :=
    let 'mk x0 x1 x2 x3 x4 x5 x6 x7 _ x9 x10 x11 x12 x13 x14 x15 x16 x17 x18 x19 x20 x21 x22
    x23 x24 x25 x26 x27 x28 x29 x30 x31 x32 x33 x34 x35 x36 x37 x38 x39 x40 x41 x42 := r in
    mk x0 x1 x2 x3 x4 x5 x6 x7 v x9 x10 x11 x12 x13 x14 x15 x16 x17 x18 x19 x20 x21 x22 x23 x24
    x25 x26 x27 x28 x29 x30 x31 x32 x33 x34 x35 x36 x37 x38 x39 x40 x41 x42.
Definition set_status (v : JobStatus) (r : BackgroundJob) : BackgroundJob :=
    let 'mk x0 x1 x2 x3 x4 x5 x6 x7 x8 _ x10 x11 x12 x13 x14 x15 x16 x17 x18 x19 x20 x21 x22
    x23 x24 x25 x26 x27 x28 x29 x30 x31 x32 x33 x34 x35 x36 x37 x38 x39 x40 x41 x42 := r in
    mk x0 x1 x2 x3 x4 x5 x6 x7 x8 v x10 x11 x12 x13 x14 x15 x16 x17 x18 x19 x20 x21 x22 x23 x24
    x25 x26 x27 x28 x29 x30 x31 x32 x33 x34 x35 x36 x37 x38 x39 x40 x41 x42.
Definition set_priority (v : Z) (r : BackgroundJob) : BackgroundJob :=
    let 'mk x0 x1 x2 x3 x4 x5 x6 x7 x8 x9 _ x11 x12 x13 x14 x15 x16 x17 x18 x19 x20 x21 x22 x23
    x24 x25 x26 x27 x28 x29 x30 x31 x32 x33 x34 x35 x36 x37 x38 x39 x40 x41 x42 := r in
    mk x0 x1 x2 x3 x4 x5 x6 x7 x8 x9 v x11 x12 x13 x14 x15 x16 x17 x18 x19 x20 x21 x22 x23 x24
    x25 x26 x27 x28 x29 x30 x31 x32 x33 x34 x35 x36 x37 x38 x39 x40 x41 x42.
Definition set_payload_json (v : dict) (r : BackgroundJob) : BackgroundJob :=
    let 'mk x0 x1 x2 x3 x4 x5 x6 x7 x8 x9 x10 _ x12 x13 x14 x15 x16 x17 x18 x19 x20 x21 x22 x23
    x24 x25 x26 x27 x28 x29 x30 x31 x32 x33 x34 x35 x36 x37 x38 x39 x40 x41 x42 := r in
    mk x0 x1 x2 x3 x4 x5 x6 x7 x8 x9 x10 v x12 x13 x14 x15 x16 x17 x18 x19 x20 x21 x22 x23 x24
    x25 x26 x27 x28 x29 x30 x31 x32 x33 x34 x35 x36 x37 x38 x39 x40 x41 x42.
Definition set_result_json (v : option dict) (r : BackgroundJob) : BackgroundJob :=
    let 'mk x0 x1 x2 x3 x4 x5 x6 x7 x8 x9 x10 x11 _ x13 x14 x15 x16 x17 x18 x19 x20 x21 x22 x23
    x24 x25 x26 x27 x28 x29 x30 x31 x32 x33 x34 x35 x36 x37 x38 x39 x40 x41 x42 := r in
    mk x0 x1 x2 x3 x4 x5 x6 x7 x8 x9 x10 x11 v x13 x14 x15 x16 x17 x18 x19 x20 x21 x22 x23 x24
    x25 x26 x27 x28 x29 x30 x31 x32 x33 x34 x35 x36 x37 x38 x39 x40 x41 x42.
Definition set_error_message (v : option string) (r : BackgroundJob) : BackgroundJob :=
    let 'mk x0 x1 x2 x3 x4 x5 x6 x7 x8 x9 x10 x11 x12 _ x14 x15 x16 x17 x18 x19 x20 x21 x22 x23
    x24 x25 x26 x27 x28 x29 x30 x31 x32 x33 x34 x35 x36 x37 x38 x39 x40 x41 x42 := r in
    mk x0 x1 x2 x3 x4 x5 x6 x7 x8 x9 x10 x11 x12 v x14 x15 x16 x17 x18 x19 x20 x21 x22 x23 x24
    x25 x26 x27 x28 x29 x30 x31 x32 x33 x34 x35 x36 x37 x38 x39 x40 x41 x42.
Definition set_retry_count (v : Z) (r : BackgroundJob) : BackgroundJob :=
    let 'mk x0 x1 x2 x3 x4 x5 x6 x7 x8 x9 x10 x11 x12 x13 _ x15 x16 x17 x18 x19 x20 x21 x22 x23
    x24 x25 x26 x27 x28 x29 x30 x31 x32 x33 x34 x35 x36 x37 x38 x39 x40 x41 x42 := r in
    mk x0 x1 x2 x3 x4 x5 x6 x7 x8 x9 x10 x11 x12 x13 v x15 x16 x17 x18 x19 x20 x21 x22 x23 x24
    x25 x26 x27 x28 x29 x30 x31 x32 x33 x34 x35 x36 x37 x38 x39 x40 x41 x42.
Definition set_max_retries (v : Z) (r : BackgroundJob) : BackgroundJob :=
    let 'mk x0 x1 x2 x3 x4 x5 x6 x7 x8 x9 x10 x11 x12 x13 x14 _ x16 x17 x18 x19 x20 x21 x22 x23
    x24 x25 x26 x27 x28 x29 x30 x31 x32 x33 x34 x35 x36 x37 x38 x39 x40 x41 x42 := r in
    mk x0 x1 x2 x3 x4 x5 x6 x7 x8 x9 x10 x11 x12 x13 x14 v x16 x17 x18 x19 x20 x21 x22 x23 x24
    x25 x26 x27 x28 x29 x30 x31 x32 x33 x34 x35 x36 x37 x38 x39 x40 x41 x42.
Definition set_requested_cancel (v : bool) (r : BackgroundJob) : BackgroundJob :=
    let 'mk x0 x1 x2 x3 x4 x5 x6 x7 x8 x9 x10 x11 x12 x13 x14 x15 _ x17 x18 x19 x20 x21 x22 x23
    x24 x25 x26 x27 x28 x29 x30 x31 x32 x33 x34 x35 x36 x37 x38 x39 x40 x41 x42 := r in
    mk x0 x1 x2 x3 x4 x5 x6 x7 x8 x9 x10 x11 x12 x13 x14 x15 v x17 x18 x19 x20 x21 x22 x23 x24
    x25 x26 x27 x28 x29 x30 x31 x32 x33 x34 x35 x36 x37 x38 x39 x40 x41 x42.
Definition set_worker_id (v : option string) (r : BackgroundJob) : BackgroundJob :=
    let 'mk x0 x1 x2 x3 x4 x5 x6 x7 x8 x9 x10 x11 x12 x13 x14 x15 x16 _ x18 x19 x20 x21 x22 x23
    x24 x25 x26 x27 x28 x29 x30 x31 x32 x33 x34 x35 x36 x37 x38 x39 x40 x41 x42 := r in
    mk x0 x1 x2 x3 x4 x5 x6 x7 x8 x9 x10 x11 x12 x13 x14 x15 x16 v x18 x19 x20 x21 x22 x23 x24
    x25 x26 x27 x28 x29 x30 x31 x32 x33 x34 x35 x36 x37 x38 x39 x40 x41 x42.
Definition set_worker_instance_id (v : option string) (r : BackgroundJob) : BackgroundJob :=
    let 'mk x0 x1 x2 x3 x4 x5 x6 x7 x8 x9 x10 x11 x12 x13 x14 x15 x16 x17 _ x19 x20 x21 x22 x23
    x24 x25 x26 x27 x28 x29 x30 x31 x32 x33 x34 x35 x36 x37 x38 x39 x40 x41 x42 := r in
    mk x0 x1 x2 x3 x4 x5 x6 x7 x8 x9 x10 x11 x12 x13 x14 x15 x16 x17 v x19 x20 x21 x22 x23 x24
    x25 x26 x27 x28 x29 x30 x31 x32 x33 x34 x35 x36 x37 x38 x39 x40 x41 x42.
Definition set_lease_owner (v : option string) (r : BackgroundJob) : BackgroundJob :=
    let 'mk x0 x1 x2 x3 x4 x5 x6 x7 x8 x9 x10 x11 x12 x13 x14 x15 x16 x17 x18 _ x20 x21 x22 x23
    x24 x25 x26 x27 x28 x29 x30 x31 x32 x33 x34 x35 x36 x37 x38 x39 x40 x41 x42 := r in
    mk x0 x1 x2 x3 x4 x5 x6 x7 x8 x9 x10 x11 x12 x13 x14 x15 x16 x17 x18 v x20 x21 x22 x23 x24
    x25 x26 x27 x28 x29 x30 x31 x32 x33 x34 x35 x36 x37 x38 x39 x40 x41 x42.
Definition set_execution_token (v : option string) (r : BackgroundJob) : BackgroundJob :=
    let 'mk x0 x1 x2 x3 x4 x5 x6 x7 x8 x9 x10 x11 x12 x13 x14 x15 x16 x17 x18 x19 _ x21 x22 x23
    x24 x25 x26 x27 x28 x29 x30 x31 x32 x33 x34 x35 x36 x37 x38 x39 x40 x41 x42 := r in
    mk x0 x1 x2 x3 x4 x5 x6 x7 x8 x9 x10 x11 x12 x13 x14 x15 x16 x17 x18 x19 v x21 x22 x23 x24
    x25 x26 x27 x28 x29 x30 x31 x32 x33 x34 x35 x36 x37 x38 x39 x40 x41 x42.
Definition set_locked_at (v : option datetime) (r : BackgroundJob) : BackgroundJob :=
    let 'mk x0 x1 x2 x3 x4 x5 x6 x7 x8 x9 x10 x11 x12 x13 x14 x15 x16 x17 x18 x19 x20 _ x22 x23
    x24 x25 x26 x27 x28 x29 x30 x31 x32 x33 x34 x35 x36 x37 x38 x39 x40 x41 x42 := r in
    mk x0 x1 x2 x3 x4 x5 x6 x7 x8 x9 x10 x11 x12 x13 x14 x15 x16 x17 x18 x19 x20 v x22 x23 x24
    x25 x26 x27 x28 x29 x30 x31 x32 x33 x34 x35 x36 x37 x38 x39 x40 x41 x42.
Definition set_heartbeat_at (v : option datetime) (r : BackgroundJob) : BackgroundJob :=
    let 'mk x0 x1 x2 x3 x4 x5 x6 x7 x8 x9 x10 x11 x12 x13 x14 x15 x16 x17 x18 x19 x20 x21 _ x23
    x24 x25 x26 x27 x28 x29 x30 x31 x32 x33 x34 x35 x36 x37 x38 x39 x40 x41 x42 := r in
    mk x0 x1 x2 x3 x4 x5 x6 x7 x8 x9 x10 x11 x12 x13 x14 x15 x16 x17 x18 x19 x20 x21 v x23 x24
    x25 x26 x27 x28 x29 x30 x31 x32 x33 x34 x35 x36 x37 x38 x39 x40 x41 x42.
Definition set_lease_expires_at (v : option datetime) (r : BackgroundJob) : BackgroundJob :=
    let 'mk x0 x1 x2 x3 x4 x5 x6 x7 x8 x9 x10 x11 x12 x13 x14 x15 x16 x17 x18 x19 x20 x21 x22 _
    x24 x25 x26 x27 x28 x29 x30 x31 x32 x33 x34 x35 x36 x37 x38 x39 x40 x41 x42 := r in
    mk x0 x1 x2 x3 x4 x5 x6 x7 x8 x9 x10 x11 x12 x13 x14 x15 x16 x17 x18 x19 x20 x21 x22 v x24
    x25 x26 x27 x28 x29 x30 x31 x32 x33 x34 x35 x36 x37 x38 x39 x40 x41 x42.
Definition set_run_after (v : datetime) (r : BackgroundJob) : BackgroundJob :=
    let 'mk x0 x1 x2 x3 x4 x5 x6 x7 x8 x9 x10 x11 x12 x13 x14 x15 x16 x17 x18 x19 x20 x21 x22
    x23 _ x25 x26 x27 x28 x29 x30 x31 x32 x33 x34 x35 x36 x37 x38 x39 x40 x41 x42 := r in
    mk x0 x1 x2 x3 x4 x5 x6 x7 x8 x9 x10 x11 x12 x13 x14 x15 x16 x17 x18 x19 x20 x21 x22 x23 v
    x25 x26 x27 x28 x29 x30 x31 x32 x33 x34 x35 x36 x37 x38 x39 x40 x41 x42.
Definition set_created_at (v : datetime) (r : BackgroundJob) : BackgroundJob :=
    let 'mk x0 x1 x2 x3 x4 x5 x6 x7 x8 x9 x10 x11 x12 x13 x14 x15 x16 x17 x18 x19 x20 x21 x22
    x23 x24 _ x26 x27 x28 x29 x30 x31 x32 x33 x34 x35 x36 x37 x38 x39 x40 x41 x42 := r in
    mk x0 x1 x2 x3 x4 x5 x6 x7 x8 x9 x10 x11 x12 x13 x14 x15 x16 x17 x18 x19 x20 x21 x22 x23
    x24 v x26 x27 x28 x29 x30 x31 x32 x33 x34 x35 x36 x37 x38 x39 x40 x41 x42.
Definition set_started_at (v : option datetime) (r : BackgroundJob) : BackgroundJob :=
    let 'mk x0 x1 x2 x3 x4 x5 x6 x7 x8 x9 x10 x11 x12 x13 x14 x15 x16 x17 x18 x19 x20 x21 x22
    x23 x24 x25 _ x27 x28 x29 x30 x31 x32 x33 x34 x35 x36 x37 x38 x39 x40 x41 x42 := r in
    mk x0 x1 x2 x3 x4 x5 x6 x7 x8 x9 x10 x11 x12 x13 x14 x15 x16 x17 x18 x19 x20 x21 x22 x23
    x24 x25 v x27 x28 x29 x30 x31 x32 x33 x34 x35 x36 x37 x38 x39 x40 x41 x42.
Definition set_completed_at (v : option datetime) (r : BackgroundJob) : BackgroundJob :=
    let 'mk x0 x1 x2 x3 x4 x5 x6 x7 x8 x9 x10 x11 x12 x13 x14 x15 x16 x17 x18 x19 x20 x21 x22
    x23 x24 x25 x26 _ x28 x29 x30 x31 x32 x33 x34 x35 x36 x37 x38 x39 x40 x41 x42 := r in
    mk x0 x1 x2 x3 x4 x5 x6 x7 x8 x9 x10 x11 x12 x13 x14 x15 x16 x17 x18 x19 x20 x21 x22 x23
    x24 x25 x26 v x28 x29 x30 x31 x32 x33 x34 x35 x36 x37 x38 x39 x40 x41 x42.
Definition set_last_progress_at (v : option datetime) (r : BackgroundJob) : BackgroundJob :=
    let 'mk x0 x1 x2 x3 x4 x5 x6 x7 x8 x9 x10 x11 x12 x13 x14 x15 x16 x17 x18 x19 x20 x21 x22
    x23 x24 x25 x26 x27 _ x29 x30 x31 x32 x33 x34 x35 x36 x37 x38 x39 x40 x41 x42 := r in
    mk x0 x1 x2 x3 x4 x5 x6 x7 x8 x9 x10 x11 x12 x13 x14 x15 x16 x17 x18 x19 x20 x21 x22 x23
    x24 x25 x26 x27 v x29 x30 x31 x32 x33 x34 x35 x36 x37 x38 x39 x40 x41 x42.
Definition set_progress_sequence (v : Z) (r : BackgroundJob) : BackgroundJob :=
    let 'mk x0 x1 x2 x3 x4 x5 x6 x7 x8 x9 x10 x11 x12 x13 x14 x15 x16 x17 x18 x19 x20 x21 x22
    x23 x24 x25 x26 x27 x28 _ x30 x31 x32 x33 x34 x35 x36 x37 x38 x39 x40 x41 x42 := r in
    mk x0 x1 x2 x3 x4 x5 x6 x7 x8 x9 x10 x11 x12 x13 x14 x15 x16 x17 x18 x19 x20 x21 x22 x23
    x24 x25 x26 x27 x28 v x30 x31 x32 x33 x34 x35 x36 x37 x38 x39 x40 x41 x42.
Definition set_progress_stage (v : option string) (r : BackgroundJob) : BackgroundJob :=
    let 'mk x0 x1 x2 x3 x4 x5 x6 x7 x8 x9 x10 x11 x12 x13 x14 x15 x16 x17 x18 x19 x20 x21 x22
    x23 x24 x25 x26 x27 x28 x29 _ x31 x32 x33 x34 x35 x36 x37 x38 x39 x40 x41 x42 := r in
    mk x0 x1 x2 x3 x4 x5 x6 x7 x8 x9 x10 x11 x12 x13 x14 x15 x16 x17 x18 x19 x20 x21 x22 x23
    x24 x25 x26 x27 x28 x29 v x31 x32 x33 x34 x35 x36 x37 x38 x39 x40 x41 x42.
Definition set_progress_current_item (v : option string) (r : BackgroundJob) : BackgroundJob :=
    let 'mk x0 x1 x2 x3 x4 x5 x6 x7 x8 x9 x10 x11 x12 x13 x14 x15 x16 x17 x18 x19 x20 x21 x22
    x23 x24 x25 x26 x27 x28 x29 x30 _ x32 x33 x34 x35 x36 x37 x38 x39 x40 x41 x42 := r in
    mk x0 x1 x2 x3 x4 x5 x6 x7 x8 x9 x10 x11 x12 x13 x14 x15 x16 x17 x18 x19 x20 x21 x22 x23
    x24 x25 x26 x27 x28 x29 x30 v x32 x33 x34 x35 x36 x37 x38 x39 x40 x41 x42.
Definition set_progress_last_completed_item (v : option string) (r : BackgroundJob) : BackgroundJob :=
    let 'mk x0 x1 x2 x3 x4 x5 x6 x7 x8 x9 x10 x11 x12 x13 x14 x15 x16 x17 x18 x19 x20 x21 x22
    x23 x24 x25 x26 x27 x28 x29 x30 x31 _ x33 x34 x35 x36 x37 x38 x39 x40 x41 x42 := r in
    mk x0 x1 x2 x3 x4 x5 x6 x7 x8 x9 x10 x11 x12 x13 x14 x15 x16 x17 x18 x19 x20 x21 x22 x23
    x24 x25 x26 x27 x28 x29 x30 x31 v x33 x34 x35 x36 x37 x38 x39 x40 x41 x42.
Definition set_progress_processed (v : Z) (r : BackgroundJob) : BackgroundJob :=
    let 'mk x0 x1 x2 x3 x4 x5 x6 x7 x8 x9 x10 x11 x12 x13 x14 x15 x16 x17 x18 x19 x20 x21 x22
    x23 x24 x25 x26 x27 x28 x29 x30 x31 x32 _ x34 x35 x36 x37 x38 x39 x40 x41 x42 := r in
    mk x0 x1 x2 x3 x4 x5 x6 x7 x8 x9 x10 x11 x12 x13 x14 x15 x16 x17 x18 x19 x20 x21 x22 x23
    x24 x25 x26 x27 x28 x29 x30 x31 x32 v x34 x35 x36 x37 x38 x39 x40 x41 x42.
Definition set_progress_total (v : option Z) (r : BackgroundJob) : BackgroundJob :=
    let 'mk x0 x1 x2 x3 x4 x5 x6 x7 x8 x9 x10 x11 x12 x13 x14 x15 x16 x17 x18 x19 x20 x21 x22
    x23 x24 x25 x26 x27 x28 x29 x30 x31 x32 x33 _ x35 x36 x37 x38 x39 x40 x41 x42 := r in
    mk x0 x1 x2 x3 x4 x5 x6 x7 x8 x9 x10 x11 x12 x13 x14 x15 x16 x17 x18 x19 x20 x21 x22 x23
    x24 x25 x26 x27 x28 x29 x30 x31 x32 x33 v x35 x36 x37 x38 x39 x40 x41 x42.
Definition set_checkpoint_version (v : option string) (r : BackgroundJob) : BackgroundJob :=
    let 'mk x0 x1 x2 x3 x4 x5 x6 x7 x8 x9 x10 x11 x12 x13 x14 x15 x16 x17 x18 x19 x20 x21 x22
    x23 x24 x25 x26 x27 x28 x29 x30 x31 x32 x33 x34 _ x36 x37 x38 x39 x40 x41 x42 := r in
    mk x0 x1 x2 x3 x4 x5 x6 x7 x8 x9 x10 x11 x12 x13 x14 x15 x16 x17 x18 x19 x20 x21 x22 x23
    x24 x25 x26 x27 x28 x29 x30 x31 x32 x33 x34 v x36 x37 x38 x39 x40 x41 x42.
Definition set_stall_detected_at (v : option datetime) (r : BackgroundJob) : BackgroundJob :=
    let 'mk x0 x1 x2 x3 x4 x5 x6 x7 x8 x9 x10 x11 x12 x13 x14 x15 x16 x17 x18 x19 x20 x21 x22
    x23 x24 x25 x26 x27 x28 x29 x30 x31 x32 x33 x34 x35 _ x37 x38 x39 x40 x41 x42 := r in
    mk x0 x1 x2 x3 x4 x5 x6 x7 x8 x9 x10 x11 x12 x13 x14 x15 x16 x17 x18 x19 x20 x21 x22 x23
    x24 x25 x26 x27 x28 x29 x30 x31 x32 x33 x34 x35 v x37 x38 x39 x40 x41 x42.
Definition set_recovery_count (v : Z) (r : BackgroundJob) : BackgroundJob :=
    let 'mk x0 x1 x2 x3 x4 x5 x6 x7 x8 x9 x10 x11 x12 x13 x14 x15 x16 x17 x18 x19 x20 x21 x22
    x23 x24 x25 x26 x27 x28 x29 x30 x31 x32 x33 x34 x35 x36 _ x38 x39 x40 x41 x42 := r in
    mk x0 x1 x2 x3 x4 x5 x6 x7 x8 x9 x10 x11 x12 x13 x14 x15 x16 x17 x18 x19 x20 x21 x22 x23
    x24 x25 x26 x27 x28 x29 x30 x31 x32 x33 x34 x35 x36 v x38 x39 x40 x41 x42.
Definition set_operational_metadata_json (v : dict) (r : BackgroundJob) : BackgroundJob :=
    let 'mk x0 x1 x2 x3 x4 x5 x6 x7 x8 x9 x10 x11 x12 x13 x14 x15 x16 x17 x18 x19 x20 x21 x22
    x23 x24 x25 x26 x27 x28 x29 x30 x31 x32 x33 x34 x35 x36 x37 _ x39 x40 x41 x42 := r in
    mk x0 x1 x2 x3 x4 x5 x6 x7 x8 x9 x10 x11 x12 x13 x14 x15 x16 x17 x18 x19 x20 x21 x22 x23
    x24 x25 x26 x27 x28 x29 x30 x31 x32 x33 x34 x35 x36 x37 v x39 x40 x41 x42.
Definition set_scope_id (v : option string) (r : BackgroundJob) : BackgroundJob :=
    let 'mk x0 x1 x2 x3 x4 x5 x6 x7 x8 x9 x10 x11 x12 x13 x14 x15 x16 x17 x18 x19 x20 x21 x22
    x23 x24 x25 x26 x27 x28 x29 x30 x31 x32 x33 x34 x35 x36 x37 x38 _ x40 x41 x42 := r in
    mk x0 x1 x2 x3 x4 x5 x6 x7 x8 x9 x10 x11 x12 x13 x14 x15 x16 x17 x18 x19 x20 x21 x22 x23
    x24 x25 x26 x27 x28 x29 x30 x31 x32 x33 x34 x35 x36 x37 x38 v x40 x41 x42.
Definition set_refresh_cycle_id (v : option string) (r : BackgroundJob) : BackgroundJob :=
    let 'mk x0 x1 x2 x3 x4 x5 x6 x7 x8 x9 x10 x11 x12 x13 x14 x15 x16 x17 x18 x19 x20 x21 x22
    x23 x24 x25 x26 x27 x28 x29 x30 x31 x32 x33 x34 x35 x36 x37 x38 x39 _ x41 x42 := r in
    mk x0 x1 x2 x3 x4 x5 x6 x7 x8 x9 x10 x11 x12 x13 x14 x15 x16 x17 x18 x19 x20 x21 x22 x23
    x24 x25 x26 x27 x28 x29 x30 x31 x32 x33 x34 x35 x36 x37 x38 x39 v x41 x42.
Definition set_acquisition_plan_id (v : option string) (r : BackgroundJob) : BackgroundJob :=
    let 'mk x0 x1 x2 x3 x4 x5 x6 x7 x8 x9 x10 x11 x12 x13 x14 x15 x16 x17 x18 x19 x20 x21 x22
    x23 x24 x25 x26 x27 x28 x29 x30 x31 x32 x33 x34 x35 x36 x37 x38 x39 x40 _ x42 := r in
    mk x0 x1 x2 x3 x4 x5 x6 x7 x8 x9 x10 x11 x12 x13 x14 x15 x16 x17 x18 x19 x20 x21 x22 x23
    x24 x25 x26 x27 x28 x29 x30 x31 x32 x33 x34 x35 x36 x37 x38 x39 x40 v x42.
Definition set_required_for_parent_completion (v : bool) (r : BackgroundJob) : BackgroundJob :=
    let 'mk x0 x1 x2 x3 x4 x5 x6 x7 x8 x9 x10 x11 x12 x13 x14 x15 x16 x17 x18 x19 x20 x21 x22
    x23 x24 x25 x26 x27 x28 x29 x30 x31 x32 x33 x34 x35 x36 x37 x38 x39 x40 x41 _ := r in
    mk x0 x1 x2 x3 x4 x5 x6 x7 x8 x9 x10 x11 x12 x13 x14 x15 x16 x17 x18 x19 x20 x21 x22 x23
    x24 x25 x26 x27 x28 x29 x30 x31 x32 x33 x34 x35 x36 x37 x38 x39 x40 x41 v.

End Job.
Abbreviation BackgroundJob := Job.BackgroundJob.

(** A row of [background_workers]. *)
Module Worker.

Record BackgroundWorker := mk {
  worker_id : string;
  instance_id : option string;
  process_id : option Z;
  heartbeat_at : datetime;
  stopping_at : option datetime;
  quiesce_requested_at : option datetime;
}.

Definition set_worker_id (v : string) (r : BackgroundWorker) : BackgroundWorker :=
    let 'mk _ x1 x2 x3 x4 x5 := r in
    mk v x1 x2 x3 x4 x5.
Definition set_instance_id (v : option string) (r : BackgroundWorker) : BackgroundWorker :=
    let 'mk x0 _ x2 x3 x4 x5 := r in
    mk x0 v x2 x3 x4 x5.
Definition set_process_id (v : option Z) (r : BackgroundWorker) : BackgroundWorker :=
    let 'mk x0 x1 _ x3 x4 x5 := r in
    mk x0 x1 v x3 x4 x5.
Definition set_heartbeat_at (v : datetime) (r : BackgroundWorker) : BackgroundWorker :=
    let 'mk x0 x1 x2 _ x4 x5 := r in
    mk x0 x1 x2 v x4 x5.
Definition set_stopping_at (v : option datetime) (r : BackgroundWorker) : BackgroundWorker :=
    let 'mk x0 x1 x2 x3 _ x5 := r in
    mk x0 x1 x2 x3 v x5.
Definition set_quiesce_requested_at (v : option datetime) (r : BackgroundWorker) : BackgroundWorker :=
    let 'mk x0 x1 x2 x3 x4 _ := r in
    mk x0 x1 x2 x3 x4 v.

End Worker.
Abbreviation BackgroundWorker := Worker.BackgroundWorker.

(** A row of [pipeline_runs]. *)
Module Pipeline.

Record PipelineRun := mk {
  id : Z;
  upload_run_id : Z;
  status : string;
  execution_authority_state : option string;
  execution_authority_reason : option string;
  execution_authority_changed_at : option datetime;
  current_step : option string;
  started_at : option datetime;
  completed_at : option datetime;
  message : option string;
  error_message : option string;
  result_json : option dict;
  scope_id : option string;
  refresh_cycle_id : option string;
  acquisition_plan_id : option string;
}.

Definition set_id (v : Z) (r : PipelineRun) : PipelineRun :=
    let 'mk _ x1 x2 x3 x4 x5 x6 x7 x8 x9 x10 x11 x12 x13 x14 := r in
    mk v x1 x2 x3 x4 x5 x6 x7 x8 x9 x10 x11 x12 x13 x14.
Definition set_upload_run_id (v : Z) (r : PipelineRun) : PipelineRun :=
    let 'mk x0 _ x2 x3 x4 x5 x6 x7 x8 x9 x10 x11 x12 x13 x14 := r in
    mk x0 v x2 x3 x4 x5 x6 x7 x8 x9 x10 x11 x12 x13 x14.
Definition set_status (v : string) (r : PipelineRun) : PipelineRun :=
    let 'mk x0 x1 _ x3 x4 x5 x6 x7 x8 x9 x10 x11 x12 x13 x14 := r in
    mk x0 x1 v x3 x4 x5 x6 x7 x8 x9 x10 x11 x12 x13 x14.
Definition set_execution_authority_state (v : option string) (r : PipelineRun) : PipelineRun :=
    let 'mk x0 x1 x2 _ x4 x5 x6 x7 x8 x9 x10 x11 x12 x13 x14 := r in
    mk x0 x1 x2 v x4 x5 x6 x7 x8 x9 x10 x11 x12 x13 x14.
Definition set_execution_authority_reason (v : option string) (r : PipelineRun) : PipelineRun :=
    let 'mk x0 x1 x2 x3 _ x5 x6 x7 x8 x9 x10 x11 x12 x13 x14 := r in
    mk x0 x1 x2 x3 v x5 x6 x7 x8 x9 x10 x11 x12 x13 x14.
Definition set_execution_authority_changed_at (v : option datetime) (r : PipelineRun) : PipelineRun :=
    let 'mk x0 x1 x2 x3 x4 _ x6 x7 x8 x9 x10 x11 x12 x13 x14 := r in
    mk x0 x1 x2 x3 x4 v x6 x7 x8 x9 x10 x11 x12 x13 x14.
Definition set_current_step (v : option string) (r : PipelineRun) : PipelineRun :=
    let 'mk x0 x1 x2 x3 x4 x5 _ x7 x8 x9 x10 x11 x12 x13 x14 := r in
    mk x0 x1 x2 x3 x4 x5 v x7 x8 x9 x10 x11 x12 x13 x14.
Definition set_started_at (v : option datetime) (r : PipelineRun) : PipelineRun :=
    let 'mk x0 x1 x2 x3 x4 x5 x6 _ x8 x9 x10 x11 x12 x13 x14 := r in
    mk x0 x1 x2 x3 x4 x5 x6 v x8 x9 x10 x11 x12 x13 x14.
Definition set_completed_at (v : option datetime) (r : PipelineRun) : PipelineRun :=
    let 'mk x0 x1 x2 x3 x4 x5 x6 x7 _ x9 x10 x11 x12 x13 x14 := r in
    mk x0 x1 x2 x3 x4 x5 x6 x7 v x9 x10 x11 x12 x13 x14.
Definition set_message (v : option string) (r : PipelineRun) : PipelineRun :=
    let 'mk x0 x1 x2 x3 x4 x5 x6 x7 x8 _ x10 x11 x12 x13 x14 := r in
    mk x0 x1 x2 x3 x4 x5 x6 x7 x8 v x10 x11 x12 x13 x14.
Definition set_error_message (v : option string) (r : PipelineRun) : PipelineRun :=
    let 'mk x0 x1 x2 x3 x4 x5 x6 x7 x8 x9 _ x11 x12 x13 x14 := r in
    mk x0 x1 x2 x3 x4 x5 x6 x7 x8 x9 v x11 x12 x13 x14.
Definition set_result_json (v : option dict) (r : PipelineRun) : PipelineRun :=
    let 'mk x0 x1 x2 x3 x4 x5 x6 x7 x8 x9 x10 _ x12 x13 x14 := r in
    mk x0 x1 x2 x3 x4 x5 x6 x7 x8 x9 x10 v x12 x13 x14.
Definition set_scope_id (v : option string) (r : PipelineRun) : PipelineRun :=
    let 'mk x0 x1 x2 x3 x4 x5 x6 x7 x8 x9 x10 x11 _ x13 x14 := r in
    mk x0 x1 x2 x3 x4 x5 x6 x7 x8 x9 x10 x11 v x13 x14.
Definition set_refresh_cycle_id (v : option string) (r : PipelineRun) : PipelineRun :=
    let 'mk x0 x1 x2 x3 x4 x5 x6 x7 x8 x9 x10 x11 x12 _ x14 := r in
    mk x0 x1 x2 x3 x4 x5 x6 x7 x8 x9 x10 x11 x12 v x14.
Definition set_acquisition_plan_id (v : option string) (r : PipelineRun) : PipelineRun :=
    let 'mk x0 x1 x2 x3 x4 x5 x6 x7 x8 x9 x10 x11 x12 x13 _ := r in
    mk x0 x1 x2 x3 x4 x5 x6 x7 x8 x9 x10 x11 x12 x13 v.

End Pipeline.
Abbreviation PipelineRun := Pipeline.PipelineRun.

(** A row of [pipeline_steps]. *)
Module Step.

Record PipelineStep := mk {
  id : Z;
  pipeline_run_id : Z;
  step_name : string;
  step_order : Z;
  status : string;
  started_at : option datetime;
  completed_at : option datetime;
  message : option string;
  error_message : option string;
  retry_count : Z;
  result_json : option dict;
}.

Definition set_id (v : Z) (r : PipelineStep) : PipelineStep :=
    let 'mk _ x1 x2 x3 x4 x5 x6 x7 x8 x9 x10 := r in
    mk v x1 x2 x3 x4 x5 x6 x7 x8 x9 x10.
Definition set_pipeline_run_id (v : Z) (r : PipelineStep) : PipelineStep :=
    let 'mk x0 _ x2 x3 x4 x5 x6 x7 x8 x9 x10 := r in
    mk x0 v x2 x3 x4 x5 x6 x7 x8 x9 x10.
Definition set_step_name (v : string) (r : PipelineStep) : PipelineStep :=
    let 'mk x0 x1 _ x3 x4 x5 x6 x7 x8 x9 x10 := r in
    mk x0 x1 v x3 x4 x5 x6 x7 x8 x9 x10.
Definition set_step_order (v : Z) (r : PipelineStep) : PipelineStep :=
    let 'mk x0 x1 x2 _ x4 x5 x6 x7 x8 x9 x10 := r in
    mk x0 x1 x2 v x4 x5 x6 x7 x8 x9 x10.
Definition set_status (v : string) (r : PipelineStep) : PipelineStep :=
    let 'mk x0 x1 x2 x3 _ x5 x6 x7 x8 x9 x10 := r in
    mk x0 x1 x2 x3 v x5 x6 x7 x8 x9 x10.
Definition set_started_at (v : option datetime) (r : PipelineStep) : PipelineStep :=
    let 'mk x0 x1 x2 x3 x4 _ x6 x7 x8 x9 x10 := r in
    mk x0 x1 x2 x3 x4 v x6 x7 x8 x9 x10.
Definition set_completed_at (v : option datetime) (r : PipelineStep) : PipelineStep :=
    let 'mk x0 x1 x2 x3 x4 x5 _ x7 x8 x9 x10 := r in
    mk x0 x1 x2 x3 x4 x5 v x7 x8 x9 x10.
Definition set_message (v : option string) (r : PipelineStep) : PipelineStep :=
    let 'mk x0 x1 x2 x3 x4 x5 x6 _ x8 x9 x10 := r in
    mk x0 x1 x2 x3 x4 x5 x6 v x8 x9 x10.
Definition set_error_message (v : option string) (r : PipelineStep) : PipelineStep :=
    let 'mk x0 x1 x2 x3 x4 x5 x6 x7 _ x9 x10 := r in
    mk x0 x1 x2 x3 x4 x5 x6 x7 v x9 x10.
Definition set_retry_count (v : Z) (r : PipelineStep) : PipelineStep :=
    let 'mk x0 x1 x2 x3 x4 x5 x6 x7 x8 _ x10 := r in
    mk x0 x1 x2 x3 x4 x5 x6 x7 x8 v x10.
Definition set_result_json (v : option dict) (r : PipelineStep) : PipelineStep :=
    let 'mk x0 x1 x2 x3 x4 x5 x6 x7 x8 x9 _ := r in
    mk x0 x1 x2 x3 x4 x5 x6 x7 x8 x9 v.

End Step.
Abbreviation PipelineStep := Step.PipelineStep.

(** A row of [pipeline_dependencies]. *)
Module Dependency.

Record PipelineDependency := mk {
  id : Z;
  pipeline_run_id : Z;
  dependency_type : string;
  dependency_key : string;
  state : string;
  required_subjects_json : list string;
  continuation_step : string;
  continuation_identity : string;
  root_job_id : Z;
  child_job_id : option Z;
  continuation_job_id : option Z;
  root_worker_instance_id : option string;
  result_json : option dict;
  error_message : option string;
  created_at : datetime;
  updated_at : datetime;
  completed_at : option datetime;
}.

Definition set_id (v : Z) (r : PipelineDependency) : PipelineDependency :=
    let 'mk _ x1 x2 x3 x4 x5 x6 x7 x8 x9 x10 x11 x12 x13 x14 x15 x16 := r in
    mk v x1 x2 x3 x4 x5 x6 x7 x8 x9 x10 x11 x12 x13 x14 x15 x16.
Definition set_pipeline_run_id (v : Z) (r : PipelineDependency) : PipelineDependency :=
    let 'mk x0 _ x2 x3 x4 x5 x6 x7 x8 x9 x10 x11 x12 x13 x14 x15 x16 := r in
    mk x0 v x2 x3 x4 x5 x6 x7 x8 x9 x10 x11 x12 x13 x14 x15 x16.
Definition set_dependency_type (v : string) (r : PipelineDependency) : PipelineDependency :=
    let 'mk x0 x1 _ x3 x4 x5 x6 x7 x8 x9 x10 x11 x12 x13 x14 x15 x16 := r in
    mk x0 x1 v x3 x4 x5 x6 x7 x8 x9 x10 x11 x12 x13 x14 x15 x16.
Definition set_dependency_key (v : string) (r : PipelineDependency) : PipelineDependency :=
    let 'mk x0 x1 x2 _ x4 x5 x6 x7 x8 x9 x10 x11 x12 x13 x14 x15 x16 := r in
    mk x0 x1 x2 v x4 x5 x6 x7 x8 x9 x10 x11 x12 x13 x14 x15 x16.
Definition set_state (v : string) (r : PipelineDependency) : PipelineDependency :=
    let 'mk x0 x1 x2 x3 _ x5 x6 x7 x8 x9 x10 x11 x12 x13 x14 x15 x16 := r in
    mk x0 x1 x2 x3 v x5 x6 x7 x8 x9 x10 x11 x12 x13 x14 x15 x16.
Definition set_required_subjects_json (v : list string) (r : PipelineDependency) : PipelineDependency :=
    let 'mk x0 x1 x2 x3 x4 _ x6 x7 x8 x9 x10 x11 x12 x13 x14 x15 x16 := r in
    mk x0 x1 x2 x3 x4 v x6 x7 x8 x9 x10 x11 x12 x13 x14 x15 x16.
Definition set_continuation_step (v : string) (r : PipelineDependency) : PipelineDependency :=
    let 'mk x0 x1 x2 x3 x4 x5 _ x7 x8 x9 x10 x11 x12 x13 x14 x15 x16 := r in
    mk x0 x1 x2 x3 x4 x5 v x7 x8 x9 x10 x11 x12 x13 x14 x15 x16.
Definition set_continuation_identity (v : string) (r : PipelineDependency) : PipelineDependency :=
    let 'mk x0 x1 x2 x3 x4 x5 x6 _ x8 x9 x10 x11 x12 x13 x14 x15 x16 := r in
    mk x0 x1 x2 x3 x4 x5 x6 v x8 x9 x10 x11 x12 x13 x14 x15 x16.
Definition set_root_job_id (v : Z) (r : PipelineDependency) : PipelineDependency :=
    let 'mk x0 x1 x2 x3 x4 x5 x6 x7 _ x9 x10 x11 x12 x13 x14 x15 x16 := r in
    mk x0 x1 x2 x3 x4 x5 x6 x7 v x9 x10 x11 x12 x13 x14 x15 x16.
Definition set_child_job_id (v : option Z) (r : PipelineDependency) : PipelineDependency :=
    let 'mk x0 x1 x2 x3 x4 x5 x6 x7 x8 _ x10 x11 x12 x13 x14 x15 x16 := r in
    mk x0 x1 x2 x3 x4 x5 x6 x7 x8 v x10 x11 x12 x13 x14 x15 x16.
Definition set_continuation_job_id (v : option Z) (r : PipelineDependency) : PipelineDependency :=
    let 'mk x0 x1 x2 x3 x4 x5 x6 x7 x8 x9 _ x11 x12 x13 x14 x15 x16 := r in
    mk x0 x1 x2 x3 x4 x5 x6 x7 x8 x9 v x11 x12 x13 x14 x15 x16.
Definition set_root_worker_instance_id (v : option string) (r : PipelineDependency) : PipelineDependency :=
    let 'mk x0 x1 x2 x3 x4 x5 x6 x7 x8 x9 x10 _ x12 x13 x14 x15 x16 := r in
    mk x0 x1 x2 x3 x4 x5 x6 x7 x8 x9 x10 v x12 x13 x14 x15 x16.
Definition set_result_json (v : option dict) (r : PipelineDependency) : PipelineDependency :=
    let 'mk x0 x1 x2 x3 x4 x5 x6 x7 x8 x9 x10 x11 _ x13 x14 x15 x16 := r in
    mk x0 x1 x2 x3 x4 x5 x6 x7 x8 x9 x10 x11 v x13 x14 x15 x16.
Definition set_error_message (v : option string) (r : PipelineDependency) : PipelineDependency :=
    let 'mk x0 x1 x2 x3 x4 x5 x6 x7 x8 x9 x10 x11 x12 _ x14 x15 x16 := r in
    mk x0 x1 x2 x3 x4 x5 x6 x7 x8 x9 x10 x11 x12 v x14 x15 x16.
Definition set_created_at (v : datetime) (r : PipelineDependency) : PipelineDependency :=
    let 'mk x0 x1 x2 x3 x4 x5 x6 x7 x8 x9 x10 x11 x12 x13 _ x15 x16 := r in
    mk x0 x1 x2 x3 x4 x5 x6 x7 x8 x9 x10 x11 x12 x13 v x15 x16.
Definition set_updated_at (v : datetime) (r : PipelineDependency) : PipelineDependency :=
    let 'mk x0 x1 x2 x3 x4 x5 x6 x7 x8 x9 x10 x11 x12 x13 x14 _ x16 := r in
    mk x0 x1 x2 x3 x4 x5 x6 x7 x8 x9 x10 x11 x12 x13 x14 v x16.
Definition set_completed_at (v : option datetime) (r : PipelineDependency) : PipelineDependency :=
    let 'mk x0 x1 x2 x3 x4 x5 x6 x7 x8 x9 x10 x11 x12 x13 x14 x15 _ := r in
    mk x0 x1 x2 x3 x4 x5 x6 x7 x8 x9 x10 x11 x12 x13 x14 x15 v.

End Dependency.
Abbreviation PipelineDependency := Dependency.PipelineDependency.

(** A row of [winner_processing_runs]. *)
Module WinnerRun.

Record WinnerProcessingRun := mk {
  id : Z;
  background_job_id : option Z;
  status : string;
  completed_at : option datetime;
  terminal_reason_code : option string;
  error_message : option string;
}.

Definition set_id (v : Z) (r : WinnerProcessingRun) : WinnerProcessingRun :=
    let 'mk _ x1 x2 x3 x4 x5 := r in
    mk v x1 x2 x3 x4 x5.
Definition set_background_job_id (v : option Z) (r : WinnerProcessingRun) : WinnerProcessingRun :=
    let 'mk x0 _ x2 x3 x4 x5 := r in
    mk x0 v x2 x3 x4 x5.
Definition set_status (v : string) (r : WinnerProcessingRun) : WinnerProcessingRun :=
    let 'mk x0 x1 _ x3 x4 x5 := r in
    mk x0 x1 v x3 x4 x5.
Definition set_completed_at (v : option datetime) (r : WinnerProcessingRun) : WinnerProcessingRun :=
    let 'mk x0 x1 x2 _ x4 x5 := r in
    mk x0 x1 x2 v x4 x5.
Definition set_terminal_reason_code (v : option string) (r : WinnerProcessingRun) : WinnerProcessingRun :=
    let 'mk x0 x1 x2 x3 _ x5 := r in
    mk x0 x1 x2 x3 v x5.
Definition set_error_message (v : option string) (r : WinnerProcessingRun) : WinnerProcessingRun :=
    let 'mk x0 x1 x2 x3 x4 _ := r in
    mk x0 x1 x2 x3 x4 v.

End WinnerRun.
Abbreviation WinnerProcessingRun := WinnerRun.WinnerProcessingRun.

(** The committed store. *)
Module Db.

Record Db := mk {
  jobs : gmap Z BackgroundJob;
  workers : gmap string BackgroundWorker;
  pipelines : gmap Z PipelineRun;
  steps : list PipelineStep;
  dependencies : gmap Z PipelineDependency;
  winner_runs : list WinnerProcessingRun;
  containments : list (Z * string);
}.

Definition set_jobs (v : gmap Z BackgroundJob) (r : Db) : Db :=
    let 'mk _ x1 x2 x3 x4 x5 x6 := r in
    mk v x1 x2 x3 x4 x5 x6.
Definition set_workers (v : gmap string BackgroundWorker) (r : Db) : Db :=
    let 'mk x0 _ x2 x3 x4 x5 x6 := r in
    mk x0 v x2 x3 x4 x5 x6.
Definition set_pipelines (v : gmap Z PipelineRun) (r : Db) : Db :=
    let 'mk x0 x1 _ x3 x4 x5 x6 := r in
    mk x0 x1 v x3 x4 x5 x6.
Definition set_steps (v : list PipelineStep) (r : Db) : Db :=
    let 'mk x0 x1 x2 _ x4 x5 x6 := r in
    mk x0 x1 x2 v x4 x5 x6.
Definition set_dependencies (v : gmap Z PipelineDependency) (r : Db) : Db :=
    let 'mk x0 x1 x2 x3 _ x5 x6 := r in
    mk x0 x1 x2 x3 v x5 x6.
Definition set_winner_runs (v : list WinnerProcessingRun) (r : Db) : Db :=
    let 'mk x0 x1 x2 x3 x4 _ x6 := r in
    mk x0 x1 x2 x3 x4 v x6.
Definition set_containments (v : list (Z * string)) (r : Db) : Db :=
    let 'mk x0 x1 x2 x3 x4 x5 _ := r in
    mk x0 x1 x2 x3 x4 x5 v.

End Db.
Abbreviation Db := Db.Db.
