(* ===== verification/Queues.v ===== *)
(** * Queue policy: [app/services/background_queue.py]

    Which queue a job belongs to, and in which order a worker tries its queues.  The second part is the registry
    of pipeline stages with their execution authority. *)
From Stdlib Require Import ZArith Lia List String Ascii Bool.
From stdpp Require Import base gmap list strings.
From S2P Require Import Prelude PyDate PyFloat PyValue Tables.
Local Open Scope string_scope.
Local Open Scope list_scope.
Local Open Scope Z_scope.

Module Queue.

Definition INTERACTIVE : string := "interactive".
Definition BROKER : string := "broker".
Definition BACKGROUND : string := "background".
Definition VALID_WORKER_QUEUES : list string := [INTERACTIVE; BROKER; BACKGROUND].
Definition INTERACTIVE_JOB_TYPES : list string := ["FULL_PIPELINE"; "CERI_FEATURE_CERTIFICATION"].
Definition BROKER_JOB_TYPES : list string := ["MARKET_DATA_PREWARM"].

Record QueueClaimGroup := mkGroup { queues : list string; created_before : option datetime }.

Record WorkerClaimState := mkClaimState { consecutive_interactive_claims : Z }.

Definition job_queue_class (job_type : string) : string :=
  if smem job_type INTERACTIVE_JOB_TYPES then INTERACTIVE
  else if smem job_type BROKER_JOB_TYPES || startswith job_type "IB_" then BROKER
  else BACKGROUND.

(** [WorkerClaimState.record]. *)
Definition record (job_type : string) (st : WorkerClaimState) : WorkerClaimState :=
  if String.eqb (job_queue_class job_type) INTERACTIVE
  then mkClaimState (consecutive_interactive_claims st + 1)
  else mkClaimState 0.

(** [s.split(",")]. *)
Fixpoint split_comma (s : string) : list string :=
  match s with
  | EmptyString => [""]
  | String c s =>
      if Ascii.eqb c "," then "" :: split_comma s
      else match split_comma s with
           | [] => [String c ""]
           | w :: ws => String c w :: ws
           end
  end.

(** [sorted(set)] of strings and [", ".join]. *)
Definition sorted (l : list string) : list string := sort_by String.leb l.
Definition join_comma (l : list string) : string := String.concat ", " l.

(** The argument of [normalize_worker_queues]: nothing, a string, an iterable. *)
Inductive queue_arg := QNone | QStr (s : string) | QIter (l : list string).

Definition normalize_worker_queues (arg : queue_arg) : result (list string) :=
  match arg with
  | QNone => Ok VALID_WORKER_QUEUES
  | QStr _ | QIter _ =>
      let values := match arg with QStr s => split_comma s | QIter l => l | QNone => [] end in
      let requested := unique (map (fun v => casefold (strip v))
                         (List.filter (fun v => negb (String.eqb (strip v) "")) values)) in
      let normalized := List.filter (fun q => smem q requested) VALID_WORKER_QUEUES in
      let unknown := List.filter (fun q => negb (smem q VALID_WORKER_QUEUES)) requested in
      if negb (bool_decide (unknown = [])) then
        ValueError ("unknown worker queues: " ++ join_comma (sorted unknown))
      else if bool_decide (normalized = []) then ValueError "at least one worker queue is required"
      else Ok normalized
  end.

Definition build_worker_claim_groups (queues : queue_arg) (fairness_enabled : bool)
    (claim_state : WorkerClaimState) (max_consecutive_interactive age_promotion_seconds : Z)
    (now : datetime) : result (list QueueClaimGroup) :=
  allowed ← normalize_worker_queues queues;
  if negb fairness_enabled then mret [mkGroup allowed None]
  else
    let interactive := if smem INTERACTIVE allowed then [INTERACTIVE] else [] in
    let noninteractive := List.filter (fun q => smem q allowed) [BROKER; BACKGROUND] in
    let has_interactive := negb (bool_decide (interactive = [])) in
    let has_noninteractive := negb (bool_decide (noninteractive = [])) in
    let force_noninteractive :=
      has_noninteractive &&
      (Z.max 1 max_consecutive_interactive <=? consecutive_interactive_claims claim_state) in
    mret
      ((if has_interactive && negb force_noninteractive then [mkGroup interactive None] else [])
       ++ (if has_noninteractive && (0 <? age_promotion_seconds)
           then [mkGroup noninteractive (Some (now - seconds age_promotion_seconds))] else [])
       ++ map (fun q => mkGroup [q] None) noninteractive
       ++ (if has_interactive && force_noninteractive then [mkGroup interactive None] else [])).

(** [worker_queue_filter]: [None] when no filter applies; the SQL clauses over
    the job type otherwise. *)
Definition worker_queue_filter (queues : queue_arg) : result (option (string -> bool)) :=
  normalized ← normalize_worker_queues queues;
  if forallb (fun q => smem q normalized) VALID_WORKER_QUEUES then mret None
  else
    let interactive job_type := smem job_type INTERACTIVE_JOB_TYPES in
    let broker job_type := smem job_type BROKER_JOB_TYPES || startswith job_type "IB_" in
    mret (Some (fun job_type =>
      (smem INTERACTIVE normalized && interactive job_type)
      || (smem BROKER normalized && broker job_type)
      || (smem BACKGROUND normalized && (negb (interactive job_type) && negb (broker job_type))))).

(** ** Properties *)

Lemma normalize_spec arg qs :
  normalize_worker_queues arg = Ok qs ->
  qs <> [] /\ (forall q, In q qs -> In q VALID_WORKER_QUEUES).
Proof.
  unfold normalize_worker_queues. intros H. destruct arg as [|s|l]; cbv zeta in H.
  1: { injection H as <-. split; [done|auto]. }
  all: case_bool_decide; cbn [negb] in H; [|done]; case_bool_decide; [done|];
    apply Ok_inj in H; subst qs; split; [done|]; intros q [Hq _]%filter_In; done.
Qed.

(** The SQL filter of a worker selects exactly the jobs whose queue class is
    one of the worker's queues. *)
Theorem worker_queue_filter_correct arg f qs job_type :
  worker_queue_filter arg = Ok f -> normalize_worker_queues arg = Ok qs ->
  match f with Some f => f job_type | None => true end = smem (job_queue_class job_type) qs.
Proof.
  intros Hf Hn. unfold worker_queue_filter in Hf. rewrite Hn in Hf. cbn [mbind result_bind] in Hf.
  destruct (normalize_spec _ _ Hn) as [_ Hvalid].
  destruct (forallb _ VALID_WORKER_QUEUES) eqn:Hall; apply Ok_inj in Hf; subst f; cbv beta iota.
  - symmetry. apply smem_In. rewrite forallb_forall in Hall.
    assert (In (job_queue_class job_type) VALID_WORKER_QUEUES) as Hc.
    { unfold job_queue_class. repeat case_match; simpl; tauto. }
    apply smem_In. by apply Hall.
  - unfold job_queue_class.
    destruct (smem job_type INTERACTIVE_JOB_TYPES) eqn:E1.
    + assert ((smem job_type BROKER_JOB_TYPES || startswith job_type "IB_") = false) as ->.
      { apply smem_In in E1. simpl in E1. destruct E1 as [<-|[<-|[]]]; reflexivity. }
      cbn [negb]. by rewrite !andb_true_r, !andb_false_r, !orb_false_r.
    + destruct (smem job_type BROKER_JOB_TYPES || startswith job_type "IB_"); cbn [negb];
        by rewrite ?andb_true_r, ?andb_false_r, ?orb_false_r, ?andb_true_r.
Qed.

Lemma worker_queue_filter_correct_witness :
  exists f, worker_queue_filter (QStr " Broker,interactive") = Ok f /\
    match f with Some f => f "IB_HISTORY" | None => true end
    = smem (job_queue_class "IB_HISTORY") [INTERACTIVE; BROKER].
Proof.
  eexists. split; [vm_compute; reflexivity|].
  apply (worker_queue_filter_correct (QStr " Broker,interactive")); vm_compute; reflexivity.
Defined.

(** C40: whatever the fairness settings, the claim groups of a worker cover
    exactly its allowed queues; and once the number of consecutive interactive
    claims reaches the limit, every queue of the other kinds is tried before the
    interactive one, so that interactive work cannot starve the rest. *)
Theorem claim_groups_fair arg fairness st limit age now allowed groups :
  normalize_worker_queues arg = Ok allowed ->
  build_worker_claim_groups arg fairness st limit age now = Ok groups ->
  (forall q, In q allowed <-> exists g, In g groups /\ In q (queues g)) /\
  (fairness = true -> Z.max 1 limit <= consecutive_interactive_claims st ->
   forall q, In q allowed -> q <> INTERACTIVE ->
   exists before after g, groups = before ++ g :: after /\ In q (queues g) /\
     forall g', In g' before -> ~ In INTERACTIVE (queues g')).
Proof.
  intros Hn Hg. unfold build_worker_claim_groups in Hg. rewrite Hn in Hg.
  cbn [mbind result_bind] in Hg.
  destruct (normalize_spec _ _ Hn) as [Hne Hvalid].
  assert (forall q, In q allowed <->
    (q = INTERACTIVE /\ smem INTERACTIVE allowed = true) \/
    (q = BROKER /\ smem BROKER allowed = true) \/
    (q = BACKGROUND /\ smem BACKGROUND allowed = true)) as Hin.
  { intros q. rewrite !smem_In. split; [|naive_solver].
    intros Hq. pose proof (Hvalid q Hq) as Hv. simpl in Hv.
    destruct Hv as [<-|[<-|[<-|[]]]]; tauto. }
  clear Hvalid Hn Hne. destruct fairness; simpl in Hg.
  2: { injection Hg as <-. split; [|done]. intros q. split.
       - intros Hq. eexists. split; [by left|done].
       - intros (g & [<-|[]] & Hq). done. }
  destruct (smem INTERACTIVE allowed), (smem BROKER allowed), (smem BACKGROUND allowed);
    cbn [bool_decide negb andb app map List.filter] in Hg;
    repeat (rewrite bool_decide_true in Hg by done);
    repeat (rewrite bool_decide_false in Hg by done);
    cbn [negb andb] in Hg;
    destruct (Z.leb_spec (Z.max 1 limit) (consecutive_interactive_claims st));
    destruct (0 <? age); cbn [negb andb app] in Hg; injection Hg as <-;
    (split;
     [intros q; rewrite Hin; split;
      [intros Hq; destruct_or? Hq; destruct_and?; simplify_eq;
       apply List.Exists_exists;
       repeat first [apply Exists_cons_hd; cbn [In queues]; tauto | apply Exists_cons_tl]
      |intros (g & Hgin & Hq); cbn [In] in Hgin; destruct_or? Hgin; subst; cbn [In queues] in Hq;
       destruct_or? Hq; subst; tauto]
     |intros _ Hle q Hq Hni; apply Hin in Hq; destruct_or? Hq; destruct_and?; simplify_eq; try lia]).
  all: try congruence.
  all: try (match goal with |- exists _ _ _, ?g1 :: _ = _ /\ _ =>
              exists []; eexists; exists g1; split; [reflexivity|]; split; [cbn [In queues]; tauto|done] end).
  all: match goal with |- exists _ _ _, ?g1 :: ?g2 :: _ = _ /\ _ =>
         exists [g1]; eexists; exists g2; split; [reflexivity|]; split; [cbn [In queues]; tauto|];
         intros g' [<-|[]]; cbn [In queues]; intuition discriminate end.
Qed.

Lemma claim_groups_fair_witness :
  exists groups,
  build_worker_claim_groups QNone true (mkClaimState 3) 3 60 1000 = Ok groups /\
  (forall q, In q VALID_WORKER_QUEUES <-> exists g, In g groups /\ In q (queues g)) /\
  (true = true -> Z.max 1 3 <= 3 ->
   forall q, In q VALID_WORKER_QUEUES -> q <> INTERACTIVE ->
   exists before after g, groups = before ++ g :: after /\ In q (queues g) /\
     forall g', In g' before -> ~ In INTERACTIVE (queues g')).
Proof.
  eexists. split; [vm_compute; reflexivity|].
  apply (claim_groups_fair QNone true (mkClaimState 3) 3 60 1000); vm_compute; reflexivity.
Defined.

End Queue.

(** * Stage registry and execution authority

    [app/services/pipeline_stage_registry.py] (module [Stage]): the operational
    classification of the pipeline stages, from which the watchdog takes its
    progress timeout; [app/services/pipeline_execution_authority.py] (module
    [Authority]): which pipelines and which jobs may execute at all.  The SQL
    predicate over a job row is a boolean function of the row and the store. *)
From Stdlib Require Import ZArith Lia List String Ascii Bool.
From stdpp Require Import base gmap list strings.
From S2P Require Import Prelude PyDate PyFloat PyValue Tables.
Local Open Scope string_scope.
Local Open Scope list_scope.
Local Open Scope Z_scope.
Local Open Scope st_scope.

Module Stage.

Inductive StageExecutionClass := BOUNDED | MARKET_DATA | LONG_RUNNING.
Inductive StageCheckpointSemantics := STAGE_BOUNDARY | ITEM_PROGRESS | DURABLE_BATCH.

Definition CERI_PIPELINE_CAPTURE_STEP : string := "CERI_CAPTURE_SNAPSHOT".
Definition CERI_PIPELINE_PROVIDER_INGEST_STEP : string := "CERI_PROVIDER_INGEST".
Definition CERI_PIPELINE_STEPS : list string := [CERI_PIPELINE_CAPTURE_STEP].
Definition SLSE_PIPELINE_CAPTURE_STEP : string := "CAPTURING_SETUP_SIGNALS".
Definition SLSE_PIPELINE_EVALUATION_STEP : string := "EVALUATING_SETUP_LIFECYCLES".
Definition SLSE_PIPELINE_STEPS : list string :=
  [SLSE_PIPELINE_CAPTURE_STEP; SLSE_PIPELINE_EVALUATION_STEP].
Definition DECISION_HANDOFF_PIPELINE_STEP : string := "FREEZING_DECISION_HANDOFF_MANIFEST".
Definition SECTOR_ROTATION_PIPELINE_STEP : string := "SECTOR_ROTATION_SNAPSHOT".
Definition WINNER_CAPTURE_PIPELINE_STEP : string := "CAPTURING_WINNER_PREDICTIONS".

Definition CANONICAL_BASE_PIPELINE_STAGES : list string :=
  [ "VALIDATING_RUN"; "SCORING_FUNDAMENTALS"; "FETCHING_MARKET_DATA"; "SCORING_TECHNICALS";
    "MARKET_REGIME_SNAPSHOT"; "COMBINING_RESULTS"; "RANKING_PROFILES";
    SECTOR_ROTATION_PIPELINE_STEP ].
Definition CANONICAL_PIPELINE_STAGES : list string :=
  CANONICAL_BASE_PIPELINE_STAGES ++ [CERI_PIPELINE_PROVIDER_INGEST_STEP] ++ CERI_PIPELINE_STEPS
  ++ [DECISION_HANDOFF_PIPELINE_STEP] ++ SLSE_PIPELINE_STEPS ++ [WINNER_CAPTURE_PIPELINE_STEP].

Record PipelineStageMetadata := mkStage {
  identity : string;
  execution_class : StageExecutionClass;
  heartbeat_expected : bool;
  recoverable : bool;
  checkpoint_semantics : StageCheckpointSemantics;
}.

Definition _stage (identity : string) (c : StageExecutionClass) (k : StageCheckpointSemantics)
  : PipelineStageMetadata := mkStage identity c true true k.

Definition _PIPELINE_STAGE_METADATA_ENTRIES : list PipelineStageMetadata :=
  [ _stage "VALIDATING_RUN" BOUNDED STAGE_BOUNDARY;
    _stage "SCORING_FUNDAMENTALS" BOUNDED STAGE_BOUNDARY;
    _stage "FETCHING_MARKET_DATA" MARKET_DATA STAGE_BOUNDARY;
    _stage "SCORING_TECHNICALS" LONG_RUNNING STAGE_BOUNDARY;
    _stage "MARKET_REGIME_SNAPSHOT" BOUNDED STAGE_BOUNDARY;
    _stage "COMBINING_RESULTS" BOUNDED STAGE_BOUNDARY;
    _stage "RANKING_PROFILES" BOUNDED STAGE_BOUNDARY;
    _stage SECTOR_ROTATION_PIPELINE_STEP LONG_RUNNING DURABLE_BATCH;
    _stage CERI_PIPELINE_PROVIDER_INGEST_STEP LONG_RUNNING DURABLE_BATCH;
    _stage "CERI_NORMALIZE" LONG_RUNNING DURABLE_BATCH;
    _stage "CERI_FEATURE_REBUILD" LONG_RUNNING DURABLE_BATCH;
    _stage "CERI_FEATURE_PREPARE" LONG_RUNNING DURABLE_BATCH;
    _stage "CERI_CAPTURE_RUN" LONG_RUNNING ITEM_PROGRESS;
    _stage "CERI_CHANGE_DETECTION" LONG_RUNNING ITEM_PROGRESS;
    _stage CERI_PIPELINE_CAPTURE_STEP LONG_RUNNING ITEM_PROGRESS;
    _stage SLSE_PIPELINE_CAPTURE_STEP LONG_RUNNING ITEM_PROGRESS;
    _stage SLSE_PIPELINE_EVALUATION_STEP LONG_RUNNING ITEM_PROGRESS;
    _stage DECISION_HANDOFF_PIPELINE_STEP LONG_RUNNING ITEM_PROGRESS;
    _stage WINNER_CAPTURE_PIPELINE_STEP LONG_RUNNING ITEM_PROGRESS;
    _stage "RESOLVING_IDENTIFIERS" LONG_RUNNING STAGE_BOUNDARY;
    _stage "PREPARING_SEC_EVIDENCE" LONG_RUNNING DURABLE_BATCH;
    _stage "RECHECKING_READINESS" LONG_RUNNING STAGE_BOUNDARY;
    _stage "RETRYING_TRANSIENT_FAILURES" LONG_RUNNING STAGE_BOUNDARY ].

(** The dictionary keyed by identity: a later entry replaces an earlier one. *)
Definition PIPELINE_STAGE_METADATA : list (string * PipelineStageMetadata) :=
  foldl (fun d m => dict_set (identity m) m d) [] _PIPELINE_STAGE_METADATA_ENTRIES.

(** [repr] of a list of plain strings. *)
Definition repr_list (l : list string) : string :=
  ("[" ++ String.concat ", " (map (fun s => "'" ++ s ++ "'")%string l) ++ "]")%string.

Definition validate_canonical_stage_registry : result unit :=
  let identities := map identity _PIPELINE_STAGE_METADATA_ENTRIES in
  let duplicates := Queue.sorted (unique
    (List.filter (fun i => (1 <? length (List.filter (String.eqb i) identities))%nat) identities)) in
  let missing := Queue.sorted
    (List.filter (fun s => negb (bool_decide (is_Some (dict_find s PIPELINE_STAGE_METADATA))))
       (unique CANONICAL_PIPELINE_STAGES)) in
  if negb (bool_decide (duplicates = [])) || negb (bool_decide (missing = [])) then
    raise "RuntimeError" ("PIPELINE_STAGE_REGISTRY_INCOMPLETE: missing=" ++ repr_list missing
                          ++ " duplicates=" ++ repr_list duplicates)
  else Ok tt.

Definition stage_metadata (stage : option string) : result PipelineStageMetadata :=
  match stage with
  | None => Ok (_stage "UNSPECIFIED" BOUNDED STAGE_BOUNDARY)
  | Some stage =>
      match dict_find stage PIPELINE_STAGE_METADATA with
      | None =>
          if smem stage CANONICAL_PIPELINE_STAGES
          then raise "RuntimeError" ("PIPELINE_STAGE_REGISTRY_MISSING:" ++ stage)
          else Ok (_stage stage BOUNDED STAGE_BOUNDARY)
      | Some m => Ok m
      end
  end.

Definition progress_timeout_seconds (stage : option string)
    (default_timeout_seconds market_data_timeout_seconds long_stage_timeout_seconds : Z) : result Z :=
  m ← stage_metadata stage;
  mret match execution_class m with
       | MARKET_DATA => market_data_timeout_seconds
       | LONG_RUNNING => long_stage_timeout_seconds
       | BOUNDED => default_timeout_seconds
       end.

(** Every canonical stage is registered, once. *)
Lemma registry_valid : validate_canonical_stage_registry = Ok tt.
Proof. vm_compute. reflexivity. Qed.

Lemma canonical_registered s :
  In s CANONICAL_PIPELINE_STAGES -> is_Some (dict_find s PIPELINE_STAGE_METADATA).
Proof. intros H. cbn in H. destruct_or? H; subst; try done; eexists; vm_compute; reflexivity. Qed.

(** The registry is complete: its start-up validation passes, the metadata
    of any stage name is found without an exception, and the timeout of a stage
    is one of the three configured ones, the default one for every stage that is
    not registered (in particular when no stage is known). *)
Theorem stage_timeout_total stage d m l :
  validate_canonical_stage_registry = Ok tt /\
  exists t, progress_timeout_seconds stage d m l = Ok t /\ In t [d; m; l] /\
    match stage with
    | Some s => dict_find s PIPELINE_STAGE_METADATA = None -> t = d
    | None => t = d
    end.
Proof.
  split; [apply registry_valid|].
  unfold progress_timeout_seconds, stage_metadata. destruct stage as [s|].
  - destruct (dict_find s _) as [md|] eqn:E.
    + eexists. split; [reflexivity|]. split; [|done].
      destruct (execution_class md); cbn [In]; tauto.
    + destruct (smem s CANONICAL_PIPELINE_STAGES) eqn:Ec.
      * apply smem_In in Ec. apply canonical_registered in Ec as [? Ec]. congruence.
      * eexists. split; [reflexivity|]. cbn [In execution_class _stage]. tauto.
  - eexists. split; [reflexivity|]. cbn [In execution_class _stage]. tauto.
Qed.

End Stage.

Module Authority.

Definition ACTIVE_EXECUTION_AUTHORITY : string := "ACTIVE".
Definition NON_EXECUTABLE_PIPELINE_STATUSES : list string :=
  [ "CANCEL_REQUESTED"; "COMPLETED"; "PARTIAL"; "FAILED"; "BLOCKED"; "CANCELLED";
    "FEATURE_CERTIFIED" ].

Section Authority.

(** [settings.pipeline_activation_min_id] and [settings.job_activation_min_id];
    zero when the boundary is not configured. *)
Context (pipeline_activation_min_id job_activation_min_id : Z).

Definition pipeline_activation_predicate (p : PipelineRun) : bool :=
  if pipeline_activation_min_id =? 0 then true
  else pipeline_activation_min_id <=? Pipeline.id p.

Definition pipeline_is_in_activation_scope (pipeline : option PipelineRun) : bool :=
  match pipeline with
  | None => false
  | Some p => (pipeline_activation_min_id =? 0) || (pipeline_activation_min_id <=? Pipeline.id p)
  end.

Definition pipeline_execution_is_authorized (pipeline : option PipelineRun) : bool :=
  pipeline_is_in_activation_scope pipeline
  && match pipeline with
     | None => false
     | Some p =>
         bool_decide (Pipeline.execution_authority_state p = Some ACTIVE_EXECUTION_AUTHORITY)
         && negb (smem (Pipeline.status p) NON_EXECUTABLE_PIPELINE_STATUSES)
     end.

Definition str_opt (s : option string) : string := match s with Some s => s | None => "None" end.

Definition require_pipeline_execution_authority (pipeline : option PipelineRun)
  : result PipelineRun :=
  match pipeline with
  | Some p =>
      if pipeline_execution_is_authorized pipeline then Ok p
      else raise "RuntimeError"
        ("PIPELINE_EXECUTION_AUTHORITY_REQUIRED: pipeline=" ++ str_of_Z (Pipeline.id p) ++ ";state="
         ++ str_opt (Pipeline.execution_authority_state p) ++ ";status=" ++ Pipeline.status p)
  | None => raise "RuntimeError"
      "PIPELINE_EXECUTION_AUTHORITY_REQUIRED: pipeline=None;state=None;status=None"
  end.

Definition revoke_pipeline_execution_authority (now : datetime) (pipeline : PipelineRun)
    (reason state : string) : result PipelineRun :=
  if negb (smem state ["REVOKED"; "QUARANTINED"; "RETIRED"]) then
    ValueError "pipeline execution authority can only be revoked"
  else Ok (Pipeline.set_execution_authority_changed_at (Some now)
            (Pipeline.set_execution_authority_reason (Some reason)
              (Pipeline.set_execution_authority_state (Some state) pipeline))).

(** [CAST(payload ->> 'pipeline_run_id' AS BIGINT)] on the values the program
    stores under that key: an integer, its decimal text, or JSON null.  A value
    of another shape has no such cast and selects no pipeline. *)
Definition cast_bigint (v : pyval) : option Z :=
  match v with
  | VInt n => Some n
  | VStr s => parse_int s
  | _ => None
  end.

(** The row conditions shared by the two subqueries. *)
Definition pipeline_row_authorized (p : PipelineRun) : bool :=
  bool_decide (Pipeline.execution_authority_state p = Some ACTIVE_EXECUTION_AUTHORITY)
  && negb (smem (Pipeline.status p) NON_EXECUTABLE_PIPELINE_STATUSES)
  && pipeline_activation_predicate p.

Definition payload_has_pipeline (job : BackgroundJob) : bool :=
  bool_decide (is_Some (dict_find "pipeline_run_id" (Job.payload_json job))).

Definition payload_authorized (db : Db.Db) (job : BackgroundJob) : bool :=
  match cast_bigint (dget (Job.payload_json job) "pipeline_run_id") with
  | Some i => match Db.pipelines db !! i with
              | Some p => pipeline_row_authorized p
              | None => false
              end
  | None => false
  end.

Definition dependency_authorized (db : Db.Db) (job : BackgroundJob) : bool :=
  match Job.pipeline_dependency_id job with
  | Some d =>
      match Db.dependencies db !! d with
      | Some dep => match Db.pipelines db !! Dependency.pipeline_run_id dep with
                    | Some p => pipeline_row_authorized p
                    | None => false
                    end
      | None => false
      end
  | None => false
  end.

Definition job_execution_authority_predicate (db : Db.Db) (job : BackgroundJob) : bool :=
  let payload_has := payload_has_pipeline job in
  let payload_ok := payload_authorized db job in
  let dependency_ok := dependency_authorized db job in
  let has_dependency := bool_decide (is_Some (Job.pipeline_dependency_id job)) in
  let pipeline_owned := payload_has || has_dependency in
  let pipeline_authority :=
    negb pipeline_owned
    || ((payload_ok || dependency_ok) && (negb payload_has || payload_ok)
        && (negb has_dependency || dependency_ok)) in
  if job_activation_min_id =? 0 then pipeline_authority
  else pipeline_authority && (job_activation_min_id <=? Job.id job)
       && forallb (fun column => match column with
                                 | None => true
                                 | Some i => job_activation_min_id <=? i
                                 end)
            [Job.root_job_id job; Job.parent_job_id job; Job.triggered_by_job_id job].

(** [claimable_pipeline_job_ids]: ids in ascending order. *)
Definition jobs_by_id (db : Db.Db) : list BackgroundJob :=
  sort_by (fun a b => Job.id a <=? Job.id b) (map snd (map_to_list (Db.jobs db))).

Definition claimable_pipeline_job_ids (db : Db.Db) (upload_run_id : Z) : list Z :=
  map Job.id (List.filter (fun j =>
    bool_decide (Job.related_run_id j = Some upload_run_id)
    && bool_decide (Job.status j ∈ [QUEUED; RUNNING; RECOVERING; STALLED])
    && job_execution_authority_predicate db j) (jobs_by_id db)).

(** ** Properties *)

Lemma row_authorized_spec p :
  pipeline_row_authorized p = pipeline_execution_is_authorized (Some p).
Proof.
  unfold pipeline_row_authorized, pipeline_execution_is_authorized, pipeline_activation_predicate.
  cbn [pipeline_is_in_activation_scope].
  destruct (pipeline_activation_min_id =? 0); cbn [orb andb]; [by rewrite andb_true_r|].
  by rewrite andb_comm.
Qed.

(** The pipelines a job names: by its payload and by its dependency. *)
Definition names_pipeline (db : Db.Db) (job : BackgroundJob) (p : option PipelineRun) : Prop :=
  (payload_has_pipeline job = true /\
     p = cast_bigint (dget (Job.payload_json job) "pipeline_run_id") ≫= (Db.pipelines db !!.))
  \/ (exists d, Job.pipeline_dependency_id job = Some d /\
        p = Db.dependencies db !! d ≫= fun dep => Db.pipelines db !! Dependency.pipeline_run_id dep).

Lemma payload_authorized_spec db job :
  payload_authorized db job = pipeline_execution_is_authorized
    (cast_bigint (dget (Job.payload_json job) "pipeline_run_id") ≫= (Db.pipelines db !!.)).
Proof.
  unfold payload_authorized. destruct (cast_bigint _) as [i|]; cbn [mbind option_bind]; [|done].
  destruct (Db.pipelines db !! i); [apply row_authorized_spec|done].
Qed.

Lemma dependency_authorized_spec db job d :
  Job.pipeline_dependency_id job = Some d ->
  dependency_authorized db job = pipeline_execution_is_authorized
    (Db.dependencies db !! d ≫= fun dep => Db.pipelines db !! Dependency.pipeline_run_id dep).
Proof.
  intros H. unfold dependency_authorized. rewrite H.
  destruct (Db.dependencies db !! d) as [dep|]; cbn [mbind option_bind]; [|done].
  destruct (Db.pipelines db !! _); [apply row_authorized_spec|done].
Qed.

(** The queue predicate is fail-closed and agrees with the in-process check:
    a job is executable exactly when every pipeline it names, through its
    payload or through its dependency, exists and passes
    [pipeline_execution_is_authorized], and, where an activation boundary is
    configured, the job and its root, parent and trigger lie at or above it. *)
Theorem job_authority_fail_closed db job :
  job_execution_authority_predicate db job = true <->
  (forall p, names_pipeline db job p -> pipeline_execution_is_authorized p = true) /\
  (job_activation_min_id <> 0 ->
     job_activation_min_id <= Job.id job /\
     forall i, Some i ∈ [Job.root_job_id job; Job.parent_job_id job; Job.triggered_by_job_id job] ->
       job_activation_min_id <= i).
Proof.
  unfold job_execution_authority_predicate.
  set (A := negb _ || _).
  assert (A = true <->
    forall p, names_pipeline db job p -> pipeline_execution_is_authorized p = true) as HA.
  { subst A. unfold names_pipeline.
    destruct (payload_has_pipeline job) eqn:Hp;
      destruct (Job.pipeline_dependency_id job) as [d|] eqn:Hd; cbn.
    1: rewrite (dependency_authorized_spec _ _ _ Hd), payload_authorized_spec.
    3: rewrite (dependency_authorized_spec _ _ _ Hd).
    2: rewrite payload_authorized_spec; unfold dependency_authorized; rewrite Hd.
    all: rewrite ?andb_true_iff, ?orb_true_iff; naive_solver. }
  destruct (Z.eqb_spec job_activation_min_id 0) as [->|Hm].
  - rewrite HA. naive_solver.
  - rewrite !andb_true_iff, HA, Z.leb_le, forallb_forall.
    assert ((forall x, In x [Job.root_job_id job; Job.parent_job_id job; Job.triggered_by_job_id job] ->
        match x with None => true | Some i => job_activation_min_id <=? i end = true) <->
      (forall i, Some i ∈ [Job.root_job_id job; Job.parent_job_id job; Job.triggered_by_job_id job] ->
        job_activation_min_id <= i)) as ->.
    { split.
      - intros H i Hi%list_elem_of_In. specialize (H _ Hi). by apply Z.leb_le.
      - intros H [i|] Hi; [|done]. apply Z.leb_le, H. by apply list_elem_of_In. }
    naive_solver.
Qed.

End Authority.
End Authority.
