(* ===== verification/Redaction.v ===== *)
(** * Redaction of sensitive values: [app/services/redaction.py]

    The structural walk over mappings, lists and strings.  [redact_text], a chain
    of regular-expression substitutions on one string, is a parameter. *)
From Stdlib Require Import ZArith Lia List String Ascii Bool.
From stdpp Require Import base list strings.
From S2P Require Import Prelude PyDate PyFloat PyValue.
Local Open Scope string_scope.
Local Open Scope list_scope.
Local Open Scope Z_scope.

Definition _SENSITIVE_FIELD_FRAGMENTS : list string :=
  [ "access_key"; "access_token"; "api_key"; "apikey"; "api-key"; "auth"; "authorization"; "bearer";
    "confirmation_token"; "credential"; "execution_token"; "password"; "passwd"; "pwd";
    "provider_secret"; "refresh_token"; "raw_payload"; "secret"; "source_url"; "token" ].

Definition normalize_field (field : string) : string := casefold (strip field).

Definition is_sensitive_field (field : string) : bool :=
  existsb (contains field) _SENSITIVE_FIELD_FRAGMENTS.

(** [RESTRICTED_VALUE_TEMPLATE.format(field=key)]. *)
Definition restricted (field : string) : pyval := VStr ("<restricted:" ++ field ++ ">").

(** [nested in (None, "")]. *)
Definition none_or_empty (v : pyval) : bool :=
  match v with VNone => true | VStr s => String.eqb s "" | _ => false end.

Section Redact.
Context (redact_text : string -> string).

Fixpoint redact_sensitive (value : pyval) : pyval :=
  match value with
  | VDict d =>
      VDict ((fix items (d : list (string * pyval)) : list (string * pyval) :=
                match d with
                | [] => []
                | (key, nested) :: d =>
                    (key, if is_sensitive_field (normalize_field key)
                          then (if none_or_empty nested then VNone else restricted key)
                          else redact_sensitive nested) :: items d
                end) d)
  | VList l =>
      VList ((fix elements (l : list pyval) : list pyval :=
                match l with [] => [] | v :: l => redact_sensitive v :: elements l end) l)
  | VStr s => VStr (redact_text s)
  | v => v
  end.

(** A value in which every sensitive field, at any depth, holds nothing but its
    placeholder, and every other string came out of [redact_text]. *)
Inductive redacted : pyval -> Prop :=
  | redacted_none : redacted VNone
  | redacted_bool b : redacted (VBool b)
  | redacted_int n : redacted (VInt n)
  | redacted_float x : redacted (VFloat x)
  | redacted_decimal c e : redacted (VDecimal c e)
  | redacted_str s : redacted (VStr (redact_text s))
  | redacted_list l : Forall redacted l -> redacted (VList l)
  | redacted_dict d :
      Forall (fun kv =>
        (is_sensitive_field (normalize_field kv.1) = true /\ (kv.2 = VNone \/ kv.2 = restricted kv.1))
        \/ (is_sensitive_field (normalize_field kv.1) = false /\ redacted kv.2)) d ->
      redacted (VDict d).

(** Whatever the nesting of the input, [redact_sensitive] returns a value in
    which no sensitive field keeps its content: under such a key there is only
    [None] or the placeholder, at every depth; and it keeps the keys and their
    order. *)
Theorem redact_sensitive_total (value : pyval) :
  redacted (redact_sensitive value) /\
  map fst (as_dict (redact_sensitive value)) = map fst (as_dict value).
Proof.
  revert value. fix IH 1. intros [| | | | | s | l | d]; cbn [redact_sensitive];
    try (split; [by constructor|reflexivity]).
  - split; [|reflexivity]. constructor. induction l as [|v l IHl]; constructor; [apply IH|exact IHl].
  - cbn [as_dict]. split.
    + constructor. induction d as [|[k v] d IHd]; constructor; [|exact IHd].
      cbn [fst snd]. destruct (is_sensitive_field (normalize_field k)) eqn:E.
      * left. split; [done|]. destruct (none_or_empty v); tauto.
      * right. split; [done|]. apply IH.
    + induction d as [|[k v] d IHd]; [reflexivity|]. cbn [map fst]. by f_equal.
Qed.

End Redact.

(** ** Token fingerprints *)
Section Token.
(** [hashlib.sha256(s).hexdigest()]. *)
Context (sha256 : string -> string).

Definition token_fingerprint (token : option string) : pyval * pyval :=
  match token with
  | Some t => if String.eqb t "" then (VNone, VNone)
              else (VStr (String.substring 0 16 (sha256 t)), VNone)
  | None => (VNone, VNone)
  end.

Definition redacted_token_metadata (token : option string) : list (string * pyval) :=
  let '(h, suffix) := token_fingerprint token in
  [("execution_token_hash", h); ("execution_token_suffix", suffix)].
End Token.
