(* ===== verification/PipelineStates.v ===== *)
(** * The pipeline state machine: [app/services/pipeline_state_machine.py]

    The transition table of a pipeline run, the authoritative update of its row
    and the update of a step row.  Statuses are strings, as in the program. *)
From Stdlib Require Import ZArith Lia List String Bool.
From stdpp Require Import base gmap list strings.
From S2P Require Import Prelude PyDate PyFloat PyValue Tables.
Local Open Scope string_scope.
Local Open Scope list_scope.
Local Open Scope Z_scope.
Local Open Scope st_scope.

Definition QUEUED_PIPELINE_STATES : list string := ["PENDING"; "QUEUED"].
Definition WAITING_PIPELINE_STATES : list string :=
  ["WAITING_DEPENDENCY"; "WAITING_FOR_CERI_COMPLETION"; "PREPARING"].
Definition CANCELLING_PIPELINE_STATES : list string := ["CANCEL_REQUESTED"].
Definition TERMINAL_PIPELINE_STATES : list string :=
  ["COMPLETED"; "PARTIAL"; "FAILED"; "BLOCKED"; "CANCELLED"; "FEATURE_CERTIFIED"].
Definition ACTIVE_PIPELINE_STATES : list string :=
  [ "RUNNING"; "WAITING_FOR_MARKET_DATA"; "SCORING_FUNDAMENTALS"; "FETCHING_MARKET_DATA";
    "SCORING_TECHNICALS"; "MARKET_REGIME_SNAPSHOT"; "COMBINING_RESULTS"; "RANKING_PROFILES";
    "SECTOR_ROTATION_SNAPSHOT"; "FREEZING_DECISION_HANDOFF_MANIFEST"; "CERI_PROVIDER_INGEST";
    "CERI_FEATURE_CERTIFYING"; "CERI_CAPTURE_SNAPSHOT"; "CAPTURING_SETUP_SIGNALS";
    "EVALUATING_SETUP_LIFECYCLES"; "CAPTURING_WINNER_PREDICTIONS" ].

Definition _transition_allowed (source target actor : string) (operator_resume : bool) : bool :=
  if String.eqb source target then true
  else if smem source TERMINAL_PIPELINE_STATES then
    if String.eqb actor "job_retry" && String.eqb source "FAILED"
       && smem target QUEUED_PIPELINE_STATES then true
    else operator_resume && String.eqb actor "operator"
         && smem source ["FAILED"; "BLOCKED"; "PARTIAL"] && smem target QUEUED_PIPELINE_STATES
  else if smem source CANCELLING_PIPELINE_STATES then smem target ["CANCELLED"; "FAILED"]
  else if smem source WAITING_PIPELINE_STATES then
    if String.eqb actor "dependency" then
      smem target (QUEUED_PIPELINE_STATES ++ ["RUNNING"] ++ TERMINAL_PIPELINE_STATES)
    else smem target (CANCELLING_PIPELINE_STATES ++ TERMINAL_PIPELINE_STATES)
  else if smem source QUEUED_PIPELINE_STATES then
    smem target (ACTIVE_PIPELINE_STATES ++ WAITING_PIPELINE_STATES
                 ++ CANCELLING_PIPELINE_STATES ++ TERMINAL_PIPELINE_STATES)
  else if smem source ACTIVE_PIPELINE_STATES then
    if String.eqb actor "recovery" && smem target QUEUED_PIPELINE_STATES then true
    else smem target (ACTIVE_PIPELINE_STATES ++ WAITING_PIPELINE_STATES
                      ++ CANCELLING_PIPELINE_STATES ++ TERMINAL_PIPELINE_STATES)
  else false.

Definition _has_unresolved_dependency (db : Db.Db) (pipeline_id : Z) : bool :=
  existsb (fun dep => (Dependency.pipeline_run_id dep =? pipeline_id)
                      && smem (Dependency.state dep) ["PENDING_ENQUEUE"; "QUEUED"; "RUNNING"])
    (map snd (map_to_list (Db.dependencies db))).

Definition put_pipeline (p : PipelineRun) (db : Db.Db) : Db.Db :=
  Db.set_pipelines (<[Pipeline.id p := p]> (Db.pipelines db)) db.

(** The optional arguments of [transition_pipeline]. *)
Record TransitionArgs := mkTransitionArgs {
  arg_current_step : option string;
  arg_message : option string;
  arg_error_message : option string;
  arg_completed_at : option datetime;
  arg_operator_resume : bool;
  arg_clear_current_step : bool;
}.
Definition no_args : TransitionArgs := mkTransitionArgs None None None None false false.

(** The row after an accepted transition. *)
Definition transitioned (pipeline : PipelineRun) (target : string) (args : TransitionArgs)
    (now : datetime) : PipelineRun :=
  let p := Pipeline.set_status target pipeline in
  let p := if arg_clear_current_step args then Pipeline.set_current_step None p
           else match arg_current_step args with
                | Some s => Pipeline.set_current_step (Some s) p
                | None => p
                end in
  let p := match arg_message args with
           | Some m => Pipeline.set_message (Some m) p
           | None => p
           end in
  let p := Pipeline.set_error_message (arg_error_message args) p in
  if smem target TERMINAL_PIPELINE_STATES then
    Pipeline.set_completed_at
      (Some (match arg_completed_at args with Some t => t | None => now end)) p
  else Pipeline.set_completed_at None p.

Definition transition_pipeline (now : datetime) (pipeline : PipelineRun) (target actor : string)
    (args : TransitionArgs) : ST Db.Db PipelineRun :=
  let source := Pipeline.status pipeline in
  let! db := st_get in
  if String.eqb target "COMPLETED" && _has_unresolved_dependency db (Pipeline.id pipeline) then
    st_raise "PipelineTransitionError"
      ("PIPELINE_COMPLETION_BLOCKED_BY_DEPENDENCY:pipeline=" ++ str_of_Z (Pipeline.id pipeline))
  else if negb (_transition_allowed source target actor (arg_operator_resume args)) then
    st_raise "PipelineTransitionError"
      ("PIPELINE_TRANSITION_FORBIDDEN:" ++ source ++ "->" ++ target ++ ":actor=" ++ actor)
  else
    let p := transitioned pipeline target args now in
    do! st_modify (put_pipeline p) in
    do! (if smem target ["FAILED"; "CANCELLED"; "BLOCKED"; "PARTIAL"] then
           st_modify (fun db =>
             Db.set_containments (Db.containments db ++ [(Pipeline.id p, Pipeline.status p)]) db)
         else st_ret tt) in
    st_ret p.

Definition TERMINAL_STEP_STATES : list string :=
  ["COMPLETED"; "FAILED"; "BLOCKED"; "CANCELLED"; "INTERRUPTED"; "SKIPPED"].

Definition put_step (s : PipelineStep) (db : Db.Db) : Db.Db :=
  Db.set_steps (map (fun s' => if Step.id s' =? Step.id s then s else s') (Db.steps db)) db.

Definition transition_pipeline_step (step : PipelineStep) (target : string)
    (message error_message : option string) (completed_at : option datetime)
    : ST Db.Db PipelineStep :=
  if smem (Step.status step) TERMINAL_STEP_STATES && smem target ["PENDING"; "RUNNING"]
     && bool_decide (completed_at <> None) then
    st_raise "PipelineTransitionError"
      ("PIPELINE_STEP_TRANSITION_FORBIDDEN:" ++ Step.status step ++ "->" ++ target)
  else
    let s := Step.set_status target step in
    let s := Step.set_message message s in
    let s := Step.set_error_message error_message s in
    let s := Step.set_completed_at
               (if smem target TERMINAL_STEP_STATES then completed_at else None) s in
    do! st_modify (put_step s) in
    st_ret s.

(** ** Properties *)

Lemma put_pipeline_lookup p db i :
  Db.pipelines (put_pipeline p db) !! i
  = if decide (Pipeline.id p = i) then Some p else Db.pipelines db !! i.
Proof. destruct db. simpl. by rewrite lookup_insert. Qed.

Lemma transitioned_id p t a now : Pipeline.id (transitioned p t a now) = Pipeline.id p.
Proof. unfold transitioned. repeat case_match; by destruct p. Qed.
Lemma transitioned_status p t a now : Pipeline.status (transitioned p t a now) = t.
Proof. unfold transitioned. repeat case_match; by destruct p. Qed.
Lemma transitioned_completed_at p t a now :
  Pipeline.completed_at (transitioned p t a now) =
  if smem t TERMINAL_PIPELINE_STATES
  then Some (match arg_completed_at a with Some t => t | None => now end) else None.
Proof. unfold transitioned. repeat case_match; by destruct p. Qed.

(** One call of the state machine on the stored row of a pipeline. *)
Inductive pipeline_step : Db.Db -> Db.Db -> Prop :=
  | Step now p target actor args db p' db' :
      Db.pipelines db !! Pipeline.id p = Some p ->
      transition_pipeline now p target actor args db = (Ok p', db') ->
      pipeline_step db db'.

(** What an accepted call does. *)
Lemma transition_pipeline_inv now p target actor args db r db' :
  transition_pipeline now p target actor args db = (r, db') ->
  match r with
  | Raise (Exn cls _) => cls = "PipelineTransitionError" /\ db' = db
  | Raise OutOfFuel => False
  | Ok p' =>
      _transition_allowed (Pipeline.status p) target actor (arg_operator_resume args) = true /\
      (target = "COMPLETED" -> _has_unresolved_dependency db (Pipeline.id p) = false) /\
      p' = transitioned p target args now /\
      Db.pipelines db' = <[Pipeline.id p := p']> (Db.pipelines db) /\
      Db.dependencies db' = Db.dependencies db /\ Db.jobs db' = Db.jobs db /\
      Db.steps db' = Db.steps db /\ Db.workers db' = Db.workers db /\
      Db.containments db' = Db.containments db ++
        (if smem target ["FAILED"; "CANCELLED"; "BLOCKED"; "PARTIAL"]
         then [(Pipeline.id p, target)] else [])
  end.
Proof.
  unfold transition_pipeline, st_bind, st_get, st_raise, st_modify, st_ret, raise.
  assert (String.eqb target "COMPLETED" && _has_unresolved_dependency db (Pipeline.id p) = false ->
          target = "COMPLETED" -> _has_unresolved_dependency db (Pipeline.id p) = false) as Hdep.
  { by intros Hd ->. }
  destruct (String.eqb target "COMPLETED" && _has_unresolved_dependency db (Pipeline.id p));
    [intros; simplify_eq; by split|]. specialize (Hdep eq_refl).
  destruct (_transition_allowed _ _ _ _); cbn [negb]; [|intros; simplify_eq; by split].
  destruct (smem target _); intros H; simplify_eq; destruct db; simpl;
    rewrite ?transitioned_id, ?transitioned_status, ?app_nil_r; by split_and!.
Qed.

(** A call of [transition_pipeline] that is not permitted by the table, or
    that would complete a pipeline with an unresolved dependency, raises
    [PipelineTransitionError] and leaves the store unchanged; every other call
    is accepted, updates exactly the row of the pipeline as specified, and hands
    an unsuccessful pipeline to CERI containment. *)
Theorem transition_pipeline_correct now p target actor args db :
  let allowed := _transition_allowed (Pipeline.status p) target actor (arg_operator_resume args) in
  let blocked := String.eqb target "COMPLETED" && _has_unresolved_dependency db (Pipeline.id p) in
  let '(r, db') := transition_pipeline now p target actor args db in
  if allowed && negb blocked then
    r = Ok (transitioned p target args now) /\
    Db.pipelines db' = <[Pipeline.id p := transitioned p target args now]> (Db.pipelines db) /\
    Db.dependencies db' = Db.dependencies db /\ Db.jobs db' = Db.jobs db /\
    Db.steps db' = Db.steps db /\
    Db.containments db' = Db.containments db ++
      (if smem target ["FAILED"; "CANCELLED"; "BLOCKED"; "PARTIAL"]
       then [(Pipeline.id p, target)] else [])
  else (exists msg, r = raise "PipelineTransitionError" msg) /\ db' = db.
Proof.
  cbv zeta. destruct (transition_pipeline now p target actor args db) as [r db'] eqn:E.
  pose proof (transition_pipeline_inv _ _ _ _ _ _ _ _ E) as Hinv.
  destruct (_transition_allowed _ _ _ _) eqn:Ha; simpl.
  2: { unfold transition_pipeline, st_bind, st_get, st_raise in E. rewrite Ha in E. cbn [negb] in E.
       destruct (String.eqb target "COMPLETED" && _); simplify_eq; eauto. }
  destruct (String.eqb target "COMPLETED" && _) eqn:Hb; simpl.
  { unfold transition_pipeline, st_bind, st_get, st_raise in E. rewrite Hb in E.
    simplify_eq. eauto. }
  destruct r as [p'|[cls msg|]].
  - naive_solver.
  - exfalso. unfold transition_pipeline, st_bind, st_get, st_raise in E.
    rewrite Hb, Ha in E. cbn [negb] in E. unfold st_modify, st_ret in E.
    destruct (smem target _); simplify_eq.
  - done.
Qed.

Definition row_consistent (p : PipelineRun) : Prop :=
  smem (Pipeline.status p) TERMINAL_PIPELINE_STATES = bool_decide (Pipeline.completed_at p <> None).

Lemma pipeline_step_rows db db' i q' :
  pipeline_step db db' -> Db.pipelines db' !! i = Some q' ->
  Db.pipelines db !! i = Some q' \/
  exists now q target actor args,
    Db.pipelines db !! i = Some q /\ q' = transitioned q target args now /\
    _transition_allowed (Pipeline.status q) target actor (arg_operator_resume args) = true /\
    (target = "COMPLETED" -> _has_unresolved_dependency db (Pipeline.id q) = false).
Proof.
  intros [now p target actor args ? p' ? Hp Ht] Hq.
  apply transition_pipeline_inv in Ht as (Ha & Hb & -> & Hrows & _).
  rewrite Hrows, lookup_insert in Hq. case_decide as Hi; [|by left].
  right. simplify_eq. eauto 10.
Qed.

(** In every state that the state machine can reach, a pipeline has a
    completion time exactly when its status is terminal. *)
Theorem pipeline_completed_at_invariant db db' :
  (forall i p, Db.pipelines db !! i = Some p -> row_consistent p) ->
  rtc pipeline_step db db' ->
  forall i p, Db.pipelines db' !! i = Some p -> row_consistent p.
Proof.
  intros H0 Hr. induction Hr as [|x y z Hxy _ IH]; [done|]. apply IH. intros i p Hp.
  destruct (pipeline_step_rows _ _ _ _ Hxy Hp) as [?|(now&q&t&a&args&Hq&->&_)]; [by eapply H0|].
  unfold row_consistent. rewrite transitioned_status, transitioned_completed_at.
  by destruct (smem t _).
Qed.

(** States from which no actor can move a pipeline. *)
Definition ABSORBING : list string := ["COMPLETED"; "CANCELLED"; "FEATURE_CERTIFIED"].

Lemma absorbing_allowed s t actor resume :
  smem s ABSORBING = true -> _transition_allowed s t actor resume = true -> t = s.
Proof.
  intros Hs%smem_In Ha. simpl in Hs. unfold _transition_allowed in Ha.
  destruct (String.eqb_spec s t) as [|Hne]; [done|].
  destruct_or? Hs; subst; simpl in Ha; rewrite ?andb_false_r, ?andb_false_l in Ha;
    simpl in Ha; try done; destruct resume, (String.eqb actor "operator"); done.
Qed.

(** A pipeline that has reached COMPLETED, CANCELLED or FEATURE_CERTIFIED
    keeps that status in every later state, whatever the actors request. *)
Theorem pipeline_success_is_final db db' i p :
  rtc pipeline_step db db' ->
  Db.pipelines db !! i = Some p -> smem (Pipeline.status p) ABSORBING = true ->
  exists p', Db.pipelines db' !! i = Some p' /\ Pipeline.status p' = Pipeline.status p.
Proof.
  intros Hr. revert p. induction Hr as [x|x y z Hxy _ IH]; intros p Hp Hs; [eauto|].
  assert (exists q, Db.pipelines y !! i = Some q) as [q Hq].
  { destruct Hxy as [now p0 t a args x p' y Hp0 Ht].
    apply transition_pipeline_inv in Ht as (_ & _ & -> & Hrows & _).
    rewrite Hrows, lookup_insert. case_decide; eauto. }
  assert (Pipeline.status q = Pipeline.status p) as Hst.
  { destruct (pipeline_step_rows _ _ _ _ Hxy Hq) as [?|(now&p0&t&a&args&Hp0&->&Ha&_)]; [congruence|].
    simplify_eq. rewrite transitioned_status. by eapply absorbing_allowed. }
  destruct (IH q Hq) as (p' & Hp' & Hs'); [by rewrite Hst|]. exists p'. by rewrite Hs', Hst.
Qed.

Definition a_pipeline (status : string) (completed : option datetime) : PipelineRun :=
  Pipeline.mk 7 3 status (Some "ACTIVE") None None None None completed None None None None None None.
Definition a_db (p : PipelineRun) : Db.Db :=
  Db.mk ∅ ∅ {[Pipeline.id p := p]} [] ∅ [] [].

Lemma pipeline_completed_at_invariant_witness :
  exists db', rtc pipeline_step (a_db (a_pipeline "RUNNING" None)) db' /\
    (forall i p, Db.pipelines db' !! i = Some p -> row_consistent p).
Proof.
  eexists. split.
  - eapply rtc_l; [|apply rtc_refl].
    eapply (Step 100 (a_pipeline "RUNNING" None) "COMPLETED" "executor" no_args);
      vm_compute; reflexivity.
  - eapply (pipeline_completed_at_invariant (a_db (a_pipeline "RUNNING" None))).
    + intros i p Hp. unfold a_db in Hp. simpl in Hp.
      apply lookup_singleton_Some in Hp as [_ <-]. reflexivity.
    + eapply rtc_l; [|apply rtc_refl].
      eapply (Step 100 (a_pipeline "RUNNING" None) "COMPLETED" "executor" no_args);
        vm_compute; reflexivity.
Defined.

Lemma pipeline_success_is_final_witness :
  exists p', Db.pipelines (a_db (a_pipeline "COMPLETED" (Some 5))) !! 7 = Some p' /\
    Pipeline.status p' = "COMPLETED".
Proof.
  apply (pipeline_success_is_final (a_db (a_pipeline "COMPLETED" (Some 5)))
           (a_db (a_pipeline "COMPLETED" (Some 5))) 7 (a_pipeline "COMPLETED" (Some 5))).
  - apply rtc_refl.
  - reflexivity.
  - reflexivity.
Defined.
