(* ===== verification/JobRows.v ===== *)
(** * Background jobs: rows, unique indexes, attempt metadata and failures

    The parts of [app/services/background_job_service.py] that compute on one row:
    lease events, attempt records, error texts, the classification of a failure;
    and the write of a row under the unique indexes of [background_jobs]
    ([app/models/tables.py]).

    The functions of other modules that the service calls (redaction by regular
    expressions, hashing, certification scopes, configuration anchoring and the
    pipeline roll-ups) are the operations of the class [Collaborators]. *)
From Stdlib Require Import ZArith Lia List String Ascii Bool.
From stdpp Require Import base gmap list strings.
From S2P Require Import Prelude PyDate PyFloat PyValue Tables Queues Redaction.
Local Open Scope string_scope.
Local Open Scope list_scope.
Local Open Scope Z_scope.
Local Open Scope st_scope.

(** A session of one worker: the store and the worker's own copy of its job,
    which goes stale when another process changes the row. *)
Record Session := mkSession { sdb : Db.Db; sjob : BackgroundJob }.

Class Collaborators := {
  redact_text : string -> string;
  sha256 : string -> string;
  (** [sha256(json.dumps(v, sort_keys=True))]. *)
  json_sha256 : pyval -> string;
  pipeline_activation_min_id : Z;
  job_activation_min_id : Z;
  job_max_identical_progress_recoveries : Z;
  certification_claim_filter : Db.Db -> string -> BackgroundJob -> bool;
  certification_recovery_filter : Db.Db -> string -> BackgroundJob -> bool;
  require_enqueue_authorized : Db.Db -> string -> dict -> result dict;
  anchor_enqueue_payload : Db.Db -> string -> dict -> option Z -> result dict;
  bind_job_configuration : Db.Db -> BackgroundJob -> result unit;
  acquisition_retry_manifest : Db.Db -> BackgroundJob -> option dict;
  mark_pipeline_job_failure : dict -> ST Session unit;
  mark_pipeline_job_retry : dict -> ST Session unit;
  mark_sec_repair_failure : dict -> ST Session unit;
  roll_up_ceri_pipeline_job_failure : ST Session unit;
}.

Definition ERROR_MESSAGE_MAX_LENGTH : nat := 500.
Definition RETRY_DELAYS_SECONDS : list Z := [60; 180; 600].
Definition TERMINAL_JOB_STATUSES : list JobStatus :=
  [COMPLETED; PARTIAL; FAILED; BLOCKED; CANCELLED; STALE].
Definition LEASE_EVENT_MAX_COUNT : nat := 50.
Definition ACTIVE_JOB_STATUSES : list JobStatus := [QUEUED; RECOVERING; RUNNING].

Definition status_in (s : JobStatus) (l : list JobStatus) : bool := bool_decide (s ∈ l).

(** ** Rows and unique indexes *)

Definition put_job (job : BackgroundJob) (db : Db.Db) : Db.Db :=
  Db.set_jobs (<[Job.id job := job]> (Db.jobs db)) db.

Definition job_rows (db : Db.Db) : list BackgroundJob := Authority.jobs_by_id db.

Definition opt_eqb (a b : option string) : bool :=
  match a, b with Some x, Some y => String.eqb x y | _, _ => false end.

(** The three partial unique indexes; SQL nulls are never equal. *)
Definition same_workflow_stage (a b : BackgroundJob) : bool :=
  opt_eqb (Job.workflow_key a) (Job.workflow_key b)
  && String.eqb (Job.job_type a) (Job.job_type b)
  && opt_eqb (Job.request_key a) (Job.request_key b).
Definition same_active_request (a b : BackgroundJob) : bool :=
  String.eqb (Job.job_type a) (Job.job_type b)
  && opt_eqb (Job.request_key a) (Job.request_key b)
  && status_in (Job.status a) ACTIVE_JOB_STATUSES && status_in (Job.status b) ACTIVE_JOB_STATUSES.
Definition same_active_maturation (a b : BackgroundJob) : bool :=
  String.eqb (Job.job_type a) "WINNER_OUTCOME_MATURATION"
  && String.eqb (Job.job_type b) "WINNER_OUTCOME_MATURATION"
  && opt_eqb (Job.workflow_key a) (Job.workflow_key b)
  && status_in (Job.status a) ACTIVE_JOB_STATUSES && status_in (Job.status b) ACTIVE_JOB_STATUSES.

Definition conflicts (a b : BackgroundJob) : bool :=
  same_workflow_stage a b || same_active_request a b || same_active_maturation a b.

Definition unique_ok (db : Db.Db) (job : BackgroundJob) : bool :=
  forallb (fun r => (Job.id r =? Job.id job) || negb (conflicts r job)) (job_rows db).

(** The write of one row: the database refuses it when a unique index is
    violated. *)
Definition flush_job (job : BackgroundJob) : ST Db.Db unit := fun db =>
  if unique_ok db job then (Ok tt, put_job job db)
  else (raise "IntegrityError" "duplicate key value violates unique constraint", db).

(** ** Attempt and lease metadata *)

Definition last_n {A} (n : nat) (l : list A) : list A := drop (length l - n) l.

(** [s.replace("Z", "+00:00")]. *)
Fixpoint replace_Z (s : string) : string :=
  match s with
  | EmptyString => ""
  | String c s => if Ascii.eqb c "Z" then ("+00:00" ++ replace_Z s)%string else String c (replace_Z s)
  end.

Definition _parse_datetime (value : pyval) : option datetime :=
  match value with
  | VStr s => if String.eqb s "" then None else fromisoformat (replace_Z s)
  | _ => None
  end.

(** [(completed - started).total_seconds() * 1000], at least zero, rounded to
    three digits. *)
Definition _duration_ms (started_at completed_at : option datetime) : pyval :=
  match started_at, completed_at with
  | Some s, Some c =>
      VFloat (py_round_digits 3 (fmax f0
        (fmul (float_ratio (c - s) 1000000) (float_of_Z 1000))))
  | _, _ => VNone
  end.

Definition _lease_expiry (now : datetime) (lease_seconds : Z) : datetime :=
  now + seconds lease_seconds.

(** Whole seconds, truncated. *)
Definition _age_seconds (observed_at : datetime) (value : option datetime) : option Z :=
  (fun v => Z.max 0 (Z.quot (observed_at - v) us_per_second)) <$> value.

Definition default_retry_delay (retry_count : Z) : Z :=
  let index := Z.max 0 (Z.min (retry_count - 1) (Z.of_nat (length RETRY_DELAYS_SECONDS) - 1)) in
  seconds (nth (Z.to_nat index) RETRY_DELAYS_SECONDS 0).

Definition opt_str (o : option string) : pyval := of_opt VStr o.

Section Rows.
Context `{Collaborators}.

(** [.replace("\n", " ")]. *)
Definition newline_to_space (s : string) : string :=
  string_map (fun c => if Ascii.eqb c "010" then " "%char else c) s.

Definition _safe_error (error : string) : string :=
  String.substring 0 ERROR_MESSAGE_MAX_LENGTH (strip (newline_to_space (redact_text error))).

Definition _with_lease_event (metadata : dict) (event_type : string) (occurred_at : datetime)
    (worker_id execution_token : option string) : dict :=
  let event := [("event_type", VStr event_type); ("occurred_at", VStr (dt_isoformat occurred_at));
                ("worker_id", opt_str worker_id)]
               ++ redacted_token_metadata sha256 execution_token in
  let events := as_list (dget metadata "lease_events") ++ [VDict event] in
  dict_set "lease_events" (VList (last_n LEASE_EVENT_MAX_COUNT events)) metadata.

Definition _with_attempt_started (metadata : dict) (job : BackgroundJob) (started_at : datetime)
  : dict :=
  let attempt_count := int_or_0 (dget metadata "attempt_count") + 1 in
  dict_set "current_attempt"
    (VDict [("attempt_number", VInt attempt_count);
            ("started_at", VStr (dt_isoformat started_at));
            ("queue_delay_ms", _duration_ms (Some (Job.run_after job)) (Some started_at));
            ("original_queue_delay_ms", _duration_ms (Some (Job.created_at job)) (Some started_at));
            ("retry_count_at_start", VInt (Job.retry_count job))])
    (dict_set "attempt_count" (VInt attempt_count) metadata).

Definition _with_attempt_finished (metadata : dict) (finished_at : datetime) (status : string)
  : dict :=
  let attempt := as_dict (dget metadata "current_attempt") in
  let started_at := _parse_datetime (dget attempt "started_at") in
  let attempt := dict_update attempt
    [("finished_at", VStr (dt_isoformat finished_at));
     ("execution_duration_ms", _duration_ms started_at (Some finished_at));
     ("status", VStr status)] in
  dict_set "last_attempt" (VDict attempt) (dict_remove "current_attempt" metadata).

(** The resume boundary of a job before its first item checkpoint. *)
Definition str_value (v : pyval) : option string := match v with VStr s => Some s | _ => None end.
Definition nonempty (s : option string) : option string :=
  match s with Some s => if String.eqb s "" then None else Some s | None => None end.
Definition _effective_progress_stage (job : BackgroundJob) : option string :=
  match nonempty (Job.progress_stage job) with
  | Some s => Some s
  | None => nonempty (str_value (dget (Job.payload_json job) "resume_from_step"))
  end.

(** The seven ownership columns, cleared together wherever a lease ends. *)
Definition release_ownership (job : BackgroundJob) : BackgroundJob :=
  Job.set_execution_token None (Job.set_lease_owner None (Job.set_worker_instance_id None
    (Job.set_worker_id None (Job.set_lease_expires_at None (Job.set_heartbeat_at None
      (Job.set_locked_at None job)))))).

(** ** Failures *)

(** What the classifier reads of an exception: the name of its class and of the
    classes it is an instance of, its text, its [code] and [diagnostics]
    attributes, the class and constraint of the driver exception, the texts of
    the driver exception and of its causes, and the number of bound parameters.
    A plain string error has class [str]. *)
Record PyError := mkError {
  err_class : string;
  err_instance_of : list string;
  err_text : string;
  err_code : option string;
  err_diagnostics : option dict;
  err_orig_class : option string;
  err_constraint : option string;
  err_chain : list string;
  err_params : option Z;
}.

Definition isinstance (e : PyError) (cls : string) : bool :=
  smem cls (err_class e :: err_instance_of e).

Definition NON_RETRYABLE_PROVENANCE_CODES : list string :=
  [ "DECISION_MANIFEST_MISMATCH"; "DECISION_LINEAGE_MISMATCH"; "IMMUTABLE_EVIDENCE_MISMATCH";
    "MALFORMED_DECISION_MANIFEST"; "MISSING_CONFIGURATION_ANCHOR_BINDING";
    "CONFIGURATION_ANCHOR_BINDING_MISMATCH"; "CONFIGURATION_ANCHOR_PARENT_MISMATCH";
    "CONFIGURATION_EXECUTION_LINEAGE_MISMATCH"; "MISSING_CONFIGURATION_ANCHOR";
    "MISSING_CONFIGURATION_ANCHOR_PARENT"; "MISSING_CONFIGURATION_ANCHOR_FOR_RESUME";
    "MISSING_OR_MISMATCHED_CONFIGURATION_ANCHOR"; "CONFIGURATION_ANCHOR_INTEGRITY_MISMATCH";
    "CONFIGURATION_ANCHOR_RECORD_MISMATCH"; "MISSING_FROZEN_CONFIGURATION_RECORD";
    "MISSING_FROZEN_CONFIGURATION"; "SEC_REPAIR_PROCESSOR_SIGNATURE_MISMATCH";
    "MUTATION_WINNER_CERTIFIED_CAPTURE_REQUIRED";
    "MUTATION_WINNER_CERTIFIED_OBLIGATION_SCOPE_REQUIRED";
    "MUTATION_LIFECYCLE_PRIMARY_EXECUTION_SCOPE_MISMATCH";
    "MUTATION_LIFECYCLE_RECONCILIATION_DUPLICATE_ACTIVE_FAMILY";
    "ACQUISITION_PLAN_REQUEST_SCOPE_MISMATCH"; "ACQUISITION_PLAN_RESOLUTION_SCOPE_REQUIRED";
    "ACQUISITION_PLAN_CONTRACT_IDENTITY_MISMATCH"; "CERI_CONTEXT_AUTHORITY_REQUIRED";
    "CERI_CONTEXT_COMPETING_AUTHORITY"; "CERI_CONTEXT_DANGLING"; "CERI_CONTEXT_IDENTITY_MISMATCH";
    "CERI_CONTEXT_OWNER_MISMATCH"; "CERI_CONTEXT_SCOPE_MISMATCH"; "SETUP_CAPTURE_HANDOFF_INVALID" ].

(** The text before the first colon. *)
Fixpoint before_colon (s : string) : string :=
  match s with
  | EmptyString => ""
  | String c s => if Ascii.eqb c ":" then "" else String c (before_colon s)
  end.

(** [_DB_PARAMETER_LIMIT_PATTERN.search]: the pattern
    [number of parameters must be between\s+\d+\s+and\s+(?P<maximum>\d+)],
    matched without regard to case. *)
Fixpoint eat_literal (lit s : string) : option string :=
  match lit, s with
  | EmptyString, _ => Some s
  | String a lit, String b s =>
      if Ascii.eqb (lower_ascii a) (lower_ascii b) then eat_literal lit s else None
  | _, _ => None
  end.
Definition eat_spaces (s : string) : option string :=
  match s with String c s' => if is_space c then Some (lstrip s') else None | EmptyString => None end.
Fixpoint eat_digits (acc : Z) (s : string) : Z * string :=
  match s with
  | String c s' => match digit_value c with
                   | Some d => eat_digits (10 * acc + d) s'
                   | None => (acc, s)
                   end
  | EmptyString => (acc, s)
  end.
Definition eat_number (s : string) : option (Z * string) :=
  match s with
  | String c _ => if bool_decide (is_Some (digit_value c)) then Some (eat_digits 0 s) else None
  | EmptyString => None
  end.
Definition parameter_limit_here (s : string) : option Z :=
  s ← eat_literal "number of parameters must be between" s; s ← eat_spaces s;
  '(_, s) ← eat_number s; s ← eat_spaces s; s ← eat_literal "and" s; s ← eat_spaces s;
  fst <$> eat_number s.
Fixpoint parameter_limit_search (s : string) : option Z :=
  match parameter_limit_here s with
  | Some n => Some n
  | None => match s with EmptyString => None | String _ s => parameter_limit_search s end
  end.

Fixpoint first_some {A B} (f : A -> option B) (l : list A) : option B :=
  match l with
  | [] => None
  | x :: l => match f x with Some b => Some b | None => first_some f l end
  end.

Definition failure_dict (kind : string) (retryable : bool) (code : string) : dict :=
  [("kind", VStr kind); ("retryable", VBool retryable); ("code", VStr code)].

Definition _database_parameter_limit_failure (error : PyError) : option dict :=
  if negb (String.eqb (err_class error) "OperationalError") then None
  else match first_some parameter_limit_search (err_chain error) with
       | None => None
       | Some maximum =>
           let diagnostics := [("supported_maximum", VInt maximum)]
             ++ match err_params error with
                | Some n => [("actual_parameter_count", VInt n)] | None => [] end in
           Some (failure_dict "DETERMINISTIC" false "DB_PARAMETER_LIMIT_EXCEEDED"
                 ++ [("diagnostics", VDict diagnostics)])
       end.

Definition classify_job_failure (error : PyError) : dict :=
  if isinstance error "ControlPlaneLockTimeout" then
    failure_dict "TRANSIENT" true "CONTROL_PLANE_LOCK_TIMEOUT"
  else match _database_parameter_limit_failure error with
  | Some failure => failure
  | None =>
      let code := match err_code error with
                  | Some c => Some c
                  | None =>
                      let prefix := strip (before_colon (strip (err_text error))) in
                      if smem prefix NON_RETRYABLE_PROVENANCE_CODES then Some prefix else None
                  end in
      let provenance := match code with
                        | Some c => smem c NON_RETRYABLE_PROVENANCE_CODES
                        | None => false
                        end in
      let code_or d := match code with Some c => c | None => d end in
      if provenance then
        failure_dict "DETERMINISTIC" false (code_or "")
        ++ match err_diagnostics error with
           | Some d => [("diagnostics", redact_sensitive redact_text (VDict d))]
           | None => []
           end
      else if isinstance error "IntegrityError" then
        failure_dict "DETERMINISTIC" false "DATABASE_INTEGRITY_VIOLATION"
        ++ [("diagnostics", VDict
              [("error_type", VStr (match err_orig_class error with
                                    | Some c => c | None => err_class error end));
               ("constraint", opt_str (nonempty (err_constraint error)))])]
      else if isinstance error "ValueError" then
        failure_dict "DETERMINISTIC" false (code_or "ValueError")
      else
        let transient := isinstance error "TimeoutError" || isinstance error "ConnectionError"
          || smem (err_class error)
               ["OperationalError"; "InterfaceError"; "DisconnectionError"; "ConnectionError";
                "TimeoutError"] in
        failure_dict (if transient then "TRANSIENT" else "UNCLASSIFIED_RETRYABLE") true
          (code_or (err_class error))
  end.

Definition retryable (failure : dict) : bool := truthy (dget failure "retryable").
Definition failure_code (failure : dict) : string :=
  match dget failure "code" with VStr s => s | _ => "" end.

End Rows.
