(* ===== verification/JobLease.v ===== *)
(** * Background jobs: the lease holder's operations

    The operations of [app/services/background_job_service.py] a worker performs
    on the job it holds.  A [Session] pairs the store with the worker's own copy
    of the job: every update is guarded by the execution token on the durable
    row, so that a worker whose lease was taken over finds out.  An operation
    reads the clock once ([now]). *)
From Stdlib Require Import ZArith Lia List String Ascii Bool.
From stdpp Require Import base gmap list strings.
From S2P Require Import Prelude PyDate PyFloat PyValue Tables Queues Redaction.
From S2P Require Import JobRows.
Local Open Scope string_scope.
Local Open Scope list_scope.
Local Open Scope Z_scope.
Local Open Scope st_scope.

(** Runs an operation of the store inside a session. *)
Definition on_db {A} (m : ST Db.Db A) : ST Session A := fun s =>
  let '(r, db) := m (sdb s) in (r, mkSession db (sjob s)).
Definition set_local (job : BackgroundJob) : ST Session unit :=
  st_modify (fun s => mkSession (sdb s) job).

Section Lease.
Context `{Collaborators} (now : datetime).

Definition JobLeaseLost {A} (job : BackgroundJob) (what : string) : ST Session A :=
  st_raise "JobLeaseLost"
    ("Background job " ++ str_of_Z (Job.id job) ++ " lease is no longer " ++ what ++ ".").

(** Records the loss on the worker's own copy. *)
Definition _record_local_lease_loss (execution_token : option string) : ST Session unit :=
  st_modify (fun s =>
    let job := sjob s in
    mkSession (sdb s) (Job.set_operational_metadata_json
      (_with_lease_event (Job.operational_metadata_json job) "LEASE_LOST" now
         (Job.worker_id job) execution_token) job)).

Definition _expected_execution_token (job : BackgroundJob) (execution_token : option string)
  : option string :=
  match execution_token with Some t => Some t | None => Job.execution_token job end.

(** [values] assigns the columns; the guarded UPDATE applies it to the durable
    row and the assignments that follow apply it to the worker's copy.  Without
    a token there is no guard and the flush writes the assigned columns. *)
Definition _apply_running_job_update (execution_token : option string)
    (values : BackgroundJob -> BackgroundJob) (allowed : list JobStatus) : ST Session unit :=
  let! s := st_get in
  let job := sjob s in
  if bool_decide (is_Some execution_token) && negb (bool_decide (Job.execution_token job = execution_token))
  then do! _record_local_lease_loss execution_token in JobLeaseLost job "held"
  else if negb (status_in (Job.status job) allowed)
  then do! _record_local_lease_loss execution_token in JobLeaseLost job "active"
  else
    match Db.jobs (sdb s) !! Job.id job with
    | Some row =>
        if bool_decide (execution_token = None)
           || (status_in (Job.status row) allowed
               && bool_decide (Job.execution_token row = execution_token)) then
          do! on_db (flush_job (values row)) in
          set_local (values job)
        else do! _record_local_lease_loss execution_token in JobLeaseLost job "held"
    | None =>
        if bool_decide (execution_token = None) then
          st_raise "StaleDataError" "UPDATE statement on table 'background_jobs' matched no row"
        else do! _record_local_lease_loss execution_token in JobLeaseLost job "held"
    end.

(** ** Terminal updates *)

Definition finish_values (job : BackgroundJob) (status : JobStatus) (result : option dict)
    (row : BackgroundJob) : BackgroundJob :=
  let row := Job.set_status status row in
  let row := Job.set_result_json
    ((fun r => as_dict (redact_sensitive redact_text (VDict r))) <$> result) row in
  let row := Job.set_error_message None row in
  let row := release_ownership row in
  let row := Job.set_completed_at (Some now) row in
  let row := Job.set_operational_metadata_json
    (_with_attempt_finished (Job.operational_metadata_json job) now (status_value status)) row in
  if bool_decide (status = CANCELLED) then Job.set_requested_cancel true row else row.

Definition _finish_job (status : JobStatus) (result : option dict) (execution_token : option string)
  : ST Session unit :=
  let! s := st_get in
  let expected_token := _expected_execution_token (sjob s) execution_token in
  _apply_running_job_update expected_token (finish_values (sjob s) status result) [RUNNING; PARTIAL].

Definition mark_job_completed (result : option dict) (token : option string) : ST Session unit :=
  _finish_job COMPLETED result token.
Definition mark_job_partial (result : option dict) (token : option string) : ST Session unit :=
  _finish_job PARTIAL result token.
Definition mark_job_cancelled (result : option dict) (token : option string) : ST Session unit :=
  do! _finish_job CANCELLED result token in
  let! s := st_get in
  do! set_local (Job.set_requested_cancel true (sjob s)) in
  match Db.jobs (sdb s) !! Job.id (sjob s) with
  | Some row => on_db (flush_job (Job.set_requested_cancel true row))
  | None => st_ret tt
  end.

Definition is_ceri_workflow (job : BackgroundJob) : bool :=
  let key := match Job.workflow_key job with Some k => k | None => "" end in
  startswith key "ceri:pipeline:" || startswith key "ceri:feature-certification:".

Definition blocked_values (job : BackgroundJob) (error : string) (reason_code : string)
    (diagnostics : dict) (row : BackgroundJob) : BackgroundJob :=
  let result := [("status", VStr "BLOCKED"); ("reason_code", VStr reason_code);
                 ("diagnostics", VDict diagnostics)] in
  let metadata := dict_set "blocked"
    (VDict [("reason_code", VStr reason_code);
            ("diagnostics", redact_sensitive redact_text (VDict diagnostics));
            ("blocked_at", VStr (dt_isoformat now))])
    (_with_attempt_finished (Job.operational_metadata_json job) now "BLOCKED") in
  let row := Job.set_status BLOCKED row in
  let row := Job.set_result_json
    (Some (as_dict (redact_sensitive redact_text (VDict result)))) row in
  let row := Job.set_error_message (Some (_safe_error error)) row in
  let row := release_ownership row in
  let row := Job.set_completed_at (Some now) row in
  Job.set_operational_metadata_json metadata row.

Definition mark_job_blocked (error : string) (reason_code : string) (diagnostics : dict)
    (execution_token : option string) : ST Session unit :=
  let! s := st_get in
  let expected_token := _expected_execution_token (sjob s) execution_token in
  do! _apply_running_job_update expected_token
        (blocked_values (sjob s) error reason_code diagnostics) [RUNNING] in
  if is_ceri_workflow (sjob s) then roll_up_ceri_pipeline_job_failure else st_ret tt.

(** ** Failure and retry *)

(** [a.get(key) == b.get(key)] on the scalar values of a manifest. *)
Definition scalar_eqb (a b : pyval) : bool :=
  match a, b with
  | VNone, VNone => true
  | VInt m, VInt n => m =? n
  | VStr s, VStr t => String.eqb s t
  | VBool x, VBool y => Bool.eqb x y
  | _, _ => false
  end.

Definition GUARD : string := "ACQUISITION_NO_PROGRESS_RETRY_GUARD".

(** The failure after the acquisition guard: a retry that would repeat the same
    acquisition with the same outcome is refused. *)
Definition guarded_failure (db : Db.Db) (job : BackgroundJob) (error : PyError) : dict :=
  let failure := classify_job_failure error in
  let previous := dget (Job.operational_metadata_json job) "acquisition_retry_manifest" in
  match acquisition_retry_manifest db job with
  | None => failure
  | Some manifest =>
      if retryable failure && negb (is_none previous)
         && forallb (fun key => scalar_eqb (dget manifest key) (dget (as_dict previous) key))
              ["plan_id"; "success_fingerprint"; "failure_fingerprint"]
         && scalar_eqb (VStr (failure_code failure)) (dget (as_dict previous) "job_failure_code")
      then failure_dict "DETERMINISTIC" false GUARD ++ [("diagnostics", VDict manifest)]
      else dict_set "diagnostics" (VDict manifest) failure
  end.

Definition failed_metadata (db : Db.Db) (job : BackgroundJob) (failure : dict) (retry : bool) : dict :=
  let metadata := _with_attempt_finished (Job.operational_metadata_json job) now
                    (if retry then "RETRYING" else "FAILED") in
  let metadata := dict_set "failure_classification" (VDict failure) metadata in
  match acquisition_retry_manifest db job with
  | None => metadata
  | Some manifest =>
      let previous := dget (Job.operational_metadata_json job) "acquisition_retry_manifest" in
      dict_set "acquisition_retry_manifest"
        (VDict (dict_set "job_failure_code"
           (if String.eqb (failure_code failure) GUARD
            then dget (as_dict previous) "job_failure_code"
            else VStr (failure_code failure)) manifest)) metadata
  end.

Definition failed_values (db : Db.Db) (job : BackgroundJob) (error : PyError) (failure : dict)
    (retry_delay : Z -> Z) (row : BackgroundJob) : BackgroundJob :=
  let retry_count := Job.retry_count job + 1 in
  let retry := retryable failure && (retry_count <=? Job.max_retries job) in
  let row := Job.set_retry_count retry_count row in
  let row := Job.set_error_message (Some (_safe_error (err_text error))) row in
  let row := release_ownership row in
  let row := Job.set_operational_metadata_json (failed_metadata db job failure retry) row in
  if retry then Job.set_run_after (now + retry_delay retry_count) (Job.set_status QUEUED row)
  else
    let result := match Job.result_json job with Some r => r | None => [] end in
    Job.set_result_json (Some (dict_set "failure_classification" (VDict failure) result))
      (Job.set_completed_at (Some now) (Job.set_status FAILED row)).

Definition mark_job_failed_or_retry (error : PyError) (retry_delay : option (Z -> Z))
    (execution_token : option string) : ST Session unit :=
  let! s := st_get in
  let job := sjob s in
  let expected_token := _expected_execution_token job execution_token in
  let failure := guarded_failure (sdb s) job error in
  let retry := retryable failure && (Job.retry_count job + 1 <=? Job.max_retries job) in
  let delay := match retry_delay with Some d => d | None => default_retry_delay end in
  do! _apply_running_job_update expected_token
        (failed_values (sdb s) job error failure delay) [RUNNING] in
  let full_pipeline := String.eqb (Job.job_type job) "FULL_PIPELINE" in
  let lock_timeout := String.eqb (failure_code failure) "CONTROL_PLANE_LOCK_TIMEOUT" in
  let no_dependency := bool_decide (Job.pipeline_dependency_id job = None) in
  do! (if full_pipeline && lock_timeout then mark_pipeline_job_failure failure
       else if retry && full_pipeline then mark_pipeline_job_retry failure
       else st_ret tt) in
  do! (if negb retry && String.eqb (Job.job_type job) "SEC_READINESS_REPAIR" && no_dependency
       then mark_sec_repair_failure failure else st_ret tt) in
  do! (if negb retry && full_pipeline && no_dependency && negb lock_timeout
       then mark_pipeline_job_failure failure else st_ret tt) in
  if negb retry && is_ceri_workflow job then roll_up_ceri_pipeline_job_failure else st_ret tt.

Definition deferred_values (job : BackgroundJob) (delay : Z) (reason : string) (row : BackgroundJob)
  : BackgroundJob :=
  let row := Job.set_status QUEUED row in
  let row := Job.set_run_after (now + delay) row in
  let row := Job.set_error_message (Some (_safe_error reason)) row in
  let row := release_ownership row in
  Job.set_operational_metadata_json
    (_with_attempt_finished (Job.operational_metadata_json job) now "DEFERRED") row.

Definition mark_job_deferred (delay : Z) (reason : string) (execution_token : option string)
  : ST Session unit :=
  let! s := st_get in
  _apply_running_job_update (_expected_execution_token (sjob s) execution_token)
    (deferred_values (sjob s) delay reason) [RUNNING].

(** ** Heartbeat and fence *)

Definition heartbeat_values (lease_seconds : Z) (row : BackgroundJob) : BackgroundJob :=
  Job.set_lease_expires_at (Some (_lease_expiry now lease_seconds))
    (Job.set_heartbeat_at (Some now) row).

Definition heartbeat_job (lease_seconds : Z) (execution_token : option string) : ST Session unit :=
  let! s := st_get in
  _apply_running_job_update (_expected_execution_token (sjob s) execution_token)
    (heartbeat_values lease_seconds) [RUNNING].

(** [expected] is the token remembered at claim time ([job._execution_token]),
    or the one of the worker's copy. *)
Definition fence_job_execution (remembered : option (option string)) : ST Session unit :=
  let! s := st_get in
  let job := sjob s in
  let expected := match remembered with Some t => t | None => Job.execution_token job end in
  match Db.jobs (sdb s) !! Job.id job with
  | None => JobLeaseLost job "held"
  | Some row =>
      if negb (bool_decide (Job.execution_token row = expected))
         || (bool_decide (is_Some expected)
             && (negb (bool_decide (Job.status row = RUNNING))
                 || match Job.lease_expires_at row with
                    | None => true
                    | Some t => t <=? now
                    end))
      then JobLeaseLost job "held"
      else st_ret tt
  end.

(** ** Results reported by a handler *)

(** The transient attributes a handler sets on its job object. *)
Record HandlerResult := mkResult {
  result_status : option JobStatus;
  result_reason_code : option string;
  result_diagnostics : option dict;
  post_terminalization_actions : list (BackgroundJob -> ST Db.Db unit);
}.

Definition set_job_result_status (job : BackgroundJob) (res : HandlerResult) (status : JobStatus)
    (reason_code : option string) (diagnostics : option dict)
    (after_terminalization : option (BackgroundJob -> ST Db.Db unit)) : result HandlerResult :=
  if negb (status_in status [COMPLETED; PARTIAL; BLOCKED]) then
    ValueError ("Unsupported successful job result status: " ++ status_value status)
  else if bool_decide (status = BLOCKED) && bool_decide (nonempty reason_code = None) then
    ValueError "A blocked job result requires a reason code."
  else if negb (bool_decide (Job.status job = RUNNING)) then
    ValueError "A job result may only be recorded while durable status remains RUNNING."
  else match result_status res with
       | Some current =>
           if negb (bool_decide (current = status)) then
             ValueError ("Conflicting job result statuses: " ++ status_value current ++ " and "
                         ++ status_value status)
           else mret (mkResult (Some status)
                  (match reason_code with Some c => Some c | None => result_reason_code res end)
                  (match diagnostics with Some d => Some d | None => result_diagnostics res end)
                  (post_terminalization_actions res
                   ++ match after_terminalization with Some a => [a] | None => [] end))
       | None => mret (mkResult (Some status)
                  (match reason_code with Some c => Some c | None => result_reason_code res end)
                  (match diagnostics with Some d => Some d | None => result_diagnostics res end)
                  (post_terminalization_actions res
                   ++ match after_terminalization with Some a => [a] | None => [] end))
       end.

Definition run_post_terminalization_actions (job : BackgroundJob) (res : HandlerResult)
  : ST Db.Db HandlerResult :=
  match post_terminalization_actions res with
  | [] => st_ret res
  | actions =>
      if negb (status_in (Job.status job) TERMINAL_JOB_STATUSES) then
        st_raise "ValueError" "Post-terminalization actions require a terminal durable job."
      else if bool_decide (is_Some (Job.execution_token job))
              || bool_decide (is_Some (Job.worker_id job))
              || bool_decide (is_Some (Job.lease_owner job)) then
        st_raise "ValueError" "Post-terminalization actions require released durable ownership."
      else
        do! st_for actions (fun action => action job) in
        st_ret (mkResult (result_status res) (result_reason_code res) (result_diagnostics res) [])
  end.

End Lease.
