(* ===== verification/JobQueue.v ===== *)
(** * Background jobs: enqueue, claim, progress and cancellation

    The operations of [app/services/background_job_service.py] on the durable
    queue itself: idempotent enqueue, the claim of the next ready job by a
    registered worker, progress checkpoints and cancellation requests.  [locked]
    tells which rows another transaction holds ([FOR UPDATE SKIP LOCKED]);
    [ORDER BY] ties are broken by id. *)
From Stdlib Require Import ZArith Lia List String Ascii Bool.
From stdpp Require Import base gmap list strings.
From S2P Require Import Prelude PyDate PyFloat PyValue Tables Queues Redaction.
From S2P Require Import JobRows JobLease.
Local Open Scope string_scope.
Local Open Scope list_scope.
Local Open Scope Z_scope.
Local Open Scope st_scope.

(** [ORDER BY created_at ASC, id ASC LIMIT 1]. *)
Definition created_leb (a b : BackgroundJob) : bool :=
  (Job.created_at a <? Job.created_at b)
  || ((Job.created_at a =? Job.created_at b) && (Job.id a <=? Job.id b)).
Definition first_created (p : BackgroundJob -> bool) (db : Db.Db) : option BackgroundJob :=
  head (sort_by created_leb (List.filter p (job_rows db))).

Definition active_job_for_request_key (db : Db.Db) (job_type : string) (request_key : option string)
  : option BackgroundJob :=
  match nonempty request_key with
  | None => None
  | Some _ => first_created (fun j => String.eqb (Job.job_type j) job_type
                && opt_eqb (Job.request_key j) request_key
                && status_in (Job.status j) ACTIVE_JOB_STATUSES) db
  end.

Definition active_job_for_workflow_key (db : Db.Db) (job_type : string)
    (workflow_key : option string) : option BackgroundJob :=
  match nonempty workflow_key with
  | None => None
  | Some _ => first_created (fun j => String.eqb (Job.job_type j) job_type
                && opt_eqb (Job.workflow_key j) workflow_key
                && status_in (Job.status j) ACTIVE_JOB_STATUSES) db
  end.

Definition active_job_for_type (db : Db.Db) (job_type : string) : option BackgroundJob :=
  first_created (fun j => String.eqb (Job.job_type j) job_type
    && status_in (Job.status j) ACTIVE_JOB_STATUSES) db.

Definition workflow_stage_job (db : Db.Db) (workflow_key : option string) (job_type : string)
    (request_key : option string) : option BackgroundJob :=
  match nonempty workflow_key, nonempty request_key with
  | Some _, Some _ => first_created (fun j => opt_eqb (Job.workflow_key j) workflow_key
                        && String.eqb (Job.job_type j) job_type
                        && opt_eqb (Job.request_key j) request_key) db
  | _, _ => None
  end.

Section Queue.
Context `{Collaborators}.

(** The arguments of [enqueue_job]; [causal_parent] and [causal_trigger] are the
    lineage of the causality context. *)
Record EnqueueArgs := mkEnqueue {
  e_job_type : string;
  e_payload : dict;
  e_related_run_id : option Z;
  e_priority : Z;
  e_max_retries : Z;
  e_run_after : option datetime;
  e_request_key : option string;
  e_workflow_key : option string;
  e_coalesce : bool;
  e_single_flight_workflow : bool;
  e_root_job_id : option Z;
  e_pipeline_dependency_id : option Z;
  e_causal_parent : option Z;
  e_causal_trigger : option Z;
}.

(** The row of a new job, with the defaults of the table. *)
Definition new_job (id now : Z) (a : EnqueueArgs) (payload : dict) : BackgroundJob :=
  Job.mk id (e_job_type a) (e_related_run_id a) (e_request_key a) (e_workflow_key a)
    (e_pipeline_dependency_id a) (e_root_job_id a) (e_causal_parent a) (e_causal_trigger a)
    QUEUED (e_priority a) payload None None 0 (e_max_retries a) false
    None None None None None None None
    (match e_run_after a with Some t => t | None => now end) now None None
    None 0 None None None 0 None None None 0 [] None None None false.

(** The primary key the sequence hands out. *)
Definition next_id (db : Db.Db) : Z :=
  1 + foldr Z.max 0 (map Job.id (job_rows db)).

Definition opt_or {A} (a b : option A) : option A := match a with Some _ => a | None => b end.

(** An existing job the request coalesces into. *)
Definition coalesce_target (db : Db.Db) (a : EnqueueArgs) : option BackgroundJob :=
  if negb (e_coalesce a) then None
  else
    opt_or
      (match nonempty (e_workflow_key a) with
       | Some _ =>
           if e_single_flight_workflow a then
             opt_or (active_job_for_workflow_key db (e_job_type a) (e_workflow_key a))
                    (active_job_for_type db (e_job_type a))
           else None
       | None => None
       end)
      (opt_or (workflow_stage_job db (e_workflow_key a) (e_job_type a) (e_request_key a))
              (active_job_for_request_key db (e_job_type a) (e_request_key a))).

(** What the insertion does when a unique index refuses it. *)
Definition existing_after_conflict (db : Db.Db) (a : EnqueueArgs) : option BackgroundJob :=
  opt_or (match nonempty (e_workflow_key a) with
          | Some _ => if e_single_flight_workflow a
                      then active_job_for_workflow_key db (e_job_type a) (e_workflow_key a)
                      else None
          | None => None
          end)
    (opt_or (workflow_stage_job db (e_workflow_key a) (e_job_type a) (e_request_key a))
            (active_job_for_request_key db (e_job_type a) (e_request_key a))).

(** The job and whether it was coalesced.  [seen] is the store as the look-ups
    read it: another transaction can insert between them and the insertion, which
    then fails on the unique index inside its savepoint, and the job that won is
    returned. *)
Definition enqueue_from (seen : Db.Db) (now : datetime) (a : EnqueueArgs)
  : ST Db.Db (BackgroundJob * bool) :=
  let! payload := st_lift (require_enqueue_authorized seen (e_job_type a) (e_payload a)) in
  match coalesce_target seen a with
  | Some existing => st_ret (existing, true)
  | None =>
      let! payload := st_lift (anchor_enqueue_payload seen (e_job_type a) payload (e_causal_parent a)) in
      let! db := st_get in
      let job := new_job (next_id db) now a payload in
      if unique_ok db job then
        do! st_modify (put_job job) in
        do! st_lift (bind_job_configuration db job) in
        st_ret (job, false)
      else if negb (e_coalesce a) then
        st_raise "IntegrityError" "duplicate key value violates unique constraint"
      else match existing_after_conflict db a with
           | Some existing => st_ret (existing, true)
           | None => st_raise "IntegrityError" "duplicate key value violates unique constraint"
           end
  end.

Definition enqueue_job (now : datetime) (a : EnqueueArgs) : ST Db.Db (BackgroundJob * bool) :=
  let! db := st_get in enqueue_from db now a.

(** ** Claim *)

Record ClaimOptions := mkClaim {
  c_certification_session : option string;
  c_excluded_job_types : list string;
  c_included_job_types : list string;
}.

Definition priority_leb (a b : BackgroundJob) : bool :=
  (Job.priority a <? Job.priority b)
  || ((Job.priority a =? Job.priority b) && created_leb a b).
Definition aged_leb (a b : BackgroundJob) : bool :=
  (Job.created_at a <? Job.created_at b)
  || ((Job.created_at a =? Job.created_at b)
      && ((Job.priority a <? Job.priority b)
          || ((Job.priority a =? Job.priority b) && (Job.id a <=? Job.id b)))).

Definition claimable (db : Db.Db) (now : datetime) (opts : ClaimOptions)
    (group : Queue.QueueClaimGroup) (filter : option (string -> bool)) (job : BackgroundJob) : bool :=
  status_in (Job.status job) [QUEUED; RECOVERING]
  && (Job.run_after job <=? now)
  && Authority.job_execution_authority_predicate pipeline_activation_min_id job_activation_min_id db job
  && match c_certification_session opts with
     | Some session => certification_claim_filter db session job
     | None => true
     end
  && (let excluded := List.filter (fun t => negb (String.eqb t "")) (c_excluded_job_types opts) in
      negb (smem (Job.job_type job) excluded))
  && (let included := List.filter (fun t => negb (String.eqb t "")) (c_included_job_types opts) in
      match included with [] => true | _ => smem (Job.job_type job) included end)
  && match filter with Some f => f (Job.job_type job) | None => true end
  && match Queue.created_before group with
     | Some t => Job.created_at job <=? t
     | None => true
     end.

Definition _claim_ready_job_id (db : Db.Db) (locked : Z -> bool) (now : datetime)
    (opts : ClaimOptions) (group : Queue.QueueClaimGroup) : result (option Z) :=
  queue_filter ← match Queue.queues group with
                 | [] => mret None
                 | queues => Queue.worker_queue_filter (Queue.QIter queues)
                 end;
  let candidates := List.filter (fun j => claimable db now opts group queue_filter j
                                          && negb (locked (Job.id j))) (job_rows db) in
  let leb := match Queue.created_before group with Some _ => aged_leb | None => priority_leb end in
  mret (Job.id <$> head (sort_by leb candidates)).

Fixpoint claim_from_groups (db : Db.Db) (locked : Z -> bool) (now : datetime) (opts : ClaimOptions)
    (groups : list Queue.QueueClaimGroup) : result (option Z) :=
  match groups with
  | [] => mret None
  | group :: groups =>
      job_id ← _claim_ready_job_id db locked now opts group;
      match job_id with
      | Some i => mret (Some i)
      | None => claim_from_groups db locked now opts groups
      end
  end.

(** Whether the worker may claim at all. *)
Definition worker_may_claim (db : Db.Db) (worker_id : string) (instance : option string) : bool :=
  match Db.workers db !! worker_id with
  | None => false
  | Some w => bool_decide (Worker.stopping_at w = None)
              && bool_decide (Worker.quiesce_requested_at w = None)
              && (bool_decide (instance = None) || bool_decide (Worker.instance_id w = instance))
  end.

(** The row after the claim. *)
Definition claimed (now : datetime) (worker_id : string) (instance : option string) (token : string)
    (lease_seconds : Z) (job : BackgroundJob) : BackgroundJob :=
  let j := Job.set_status RUNNING job in
  let j := Job.set_worker_id (Some worker_id) j in
  let j := Job.set_worker_instance_id instance j in
  let j := Job.set_lease_owner (Some worker_id) j in
  let j := Job.set_execution_token (Some token) j in
  let j := Job.set_locked_at (Some now) j in
  let j := Job.set_heartbeat_at (Some now) j in
  let j := Job.set_lease_expires_at (Some (_lease_expiry now lease_seconds)) j in
  let j := Job.set_started_at (opt_or (Job.started_at job) (Some now)) j in
  let j := Job.set_error_message None j in
  let j := Job.set_last_progress_at (Some now) j in
  let j := Job.set_progress_sequence (Job.progress_sequence job + 1) j in
  let j := Job.set_stall_detected_at None j in
  let metadata := _with_attempt_started
    (_with_lease_event (Job.operational_metadata_json job) "CLAIMED" now (Some worker_id) (Some token))
    j now in
  let metadata := dict_set "progress_watchdog"
    (VDict [("progress_sequence", VInt (Job.progress_sequence job + 1));
            ("unchanged_since", VStr (dt_isoformat now));
            ("observed_at", VStr (dt_isoformat now))]) metadata in
  Job.set_operational_metadata_json metadata j.

(** [token] is the fresh [uuid4().hex]; [query_now] and [now] are the two clock
    readings.  The groups come from the caller; without groups there is one,
    over the given queues. *)
Definition claim_next_job (locked : Z -> bool) (query_now now : datetime) (token : string)
    (worker_id : string) (instance : option string) (lease_seconds : Z)
    (groups : list Queue.QueueClaimGroup) (opts : ClaimOptions)
  : ST Db.Db (option BackgroundJob) :=
  let! db := st_get in
  if negb (worker_may_claim db worker_id instance) then st_ret None
  else
    let! job_id := st_lift (claim_from_groups db locked query_now opts groups) in
    match job_id ≫= (Db.jobs db !!.) with
    | None => st_ret None
    | Some job =>
        let job := claimed now worker_id instance token lease_seconds job in
        do! flush_job job in
        st_ret (Some job)
    end.

(** ** Progress *)

Record Progress := mkProgress {
  p_stage : string;
  p_current_item : option string;
  p_last_completed_item : option string;
  p_processed : option Z;
  p_total : option Z;
  p_checkpoint_version : string;
  p_only_if_advanced : bool;
  p_metadata_patch : dict;
  p_payload : option dict;
}.

Definition stage_changed (p : Progress) (row : BackgroundJob) : bool :=
  negb (opt_eqb (Job.progress_stage row) (Some (p_stage p))).

Definition progressed (now : datetime) (p : Progress) (row : BackgroundJob) : BackgroundJob :=
  let changed := stage_changed p row in
  let j := Job.set_last_progress_at (Some now) row in
  let j := Job.set_progress_sequence (Job.progress_sequence row + 1) j in
  let j := Job.set_progress_stage (Some (p_stage p)) j in
  let j := Job.set_progress_current_item (p_current_item p) j in
  let j := Job.set_checkpoint_version (Some (p_checkpoint_version p)) j in
  let j := match p_metadata_patch p with
           | [] => j
           | patch => Job.set_operational_metadata_json
                        (dict_update (Job.operational_metadata_json row) patch) j
           end in
  let j := match p_payload p with Some d => Job.set_payload_json d j | None => j end in
  let j := Job.set_progress_last_completed_item
    (if changed then p_last_completed_item p
     else match p_last_completed_item p with
          | Some i => Some i | None => Job.progress_last_completed_item row end) j in
  let j := Job.set_progress_processed
    (match p_processed p with
     | Some n => if changed then n else if Job.progress_processed row <? n then n
                 else Job.progress_processed row
     | None => if changed then 0 else Job.progress_processed row
     end) j in
  Job.set_progress_total
    (match p_total p with
     | Some n => if changed then Some n
                 else match Job.progress_total row with
                      | None => Some n
                      | Some m => if m <? n then Some n else Some m
                      end
     | None => if changed then None else Job.progress_total row
     end) j.

Definition lease_lost {A} (job_id : Z) (what : string) : ST Db.Db A :=
  st_raise "JobLeaseLost" ("Background job " ++ str_of_Z job_id ++ what).

Definition holds (row : BackgroundJob) (execution_token : string) : bool :=
  bool_decide (Job.status row = RUNNING)
  && bool_decide (Job.execution_token row = Some execution_token).

Definition record_job_progress (now : datetime) (job_id : Z) (execution_token : string)
    (p : Progress) : ST Db.Db unit :=
  let! db := st_get in
  let row := Db.jobs db !! job_id in
  let held := match row with Some r => holds r execution_token | None => false end in
  if negb (bool_decide (p_metadata_patch p = [])) && negb held
  then lease_lost job_id " lease is no longer held."
  else if match p_payload p with
          | Some d => negb (none_or_empty (dget d "calculation_context_id"))
          | None => false
          end
  then st_raise "ValueError" "CERI_AUTHORITY_REFERENCE_REQUIRES_BUSINESS_TRANSACTION"
  else if match p_total p, p_processed p with Some t, Some n => t <? n | _, _ => false end
  then st_raise "ValueError" "progress total cannot be less than processed work"
  else match row with
       | Some r =>
           let advanced := match p_processed p with
                           | Some n => negb (p_only_if_advanced p) || stage_changed p r
                                       || (Job.progress_processed r <? n)
                           | None => true
                           end in
           if held && advanced then flush_job (progressed now p r)
           else if p_only_if_advanced p && held
                   && (match p_processed p with Some n => n | None => 0 end
                       <=? Job.progress_processed r) then st_ret tt
           else lease_lost job_id " progress owner was fenced."
       | None => lease_lost job_id " progress owner was fenced."
       end.

(** ** Cancellation *)

(** Finishes a requested cancellation of a job without a lease holder. *)
Definition cancelled_row (now : datetime) (job : BackgroundJob) : BackgroundJob :=
  let j := Job.set_status CANCELLED job in
  let j := Job.set_requested_cancel true j in
  let j := Job.set_error_message None j in
  let j := release_ownership j in
  let j := Job.set_completed_at (Some now) j in
  Job.set_operational_metadata_json
    (_with_attempt_finished (Job.operational_metadata_json job) now "CANCELLED") j.

(** Runs a lease holder's operation on a row loaded from the store. *)
Definition as_holder (job : BackgroundJob) (m : ST Session unit) : ST Db.Db unit := fun db =>
  let '(r, s) := m (mkSession db job) in (r, sdb s).

Definition _finalize_recovery_cancellation (now : datetime) (job : BackgroundJob)
  : ST Db.Db unit :=
  if bool_decide (Job.status job = RUNNING) then
    as_holder job (mark_job_cancelled now None (Job.execution_token job))
  else flush_job (cancelled_row now job).

Definition request_job_cancel (now : datetime) (job_id : Z) : ST Db.Db BackgroundJob :=
  let! db := st_get in
  match Db.jobs db !! job_id with
  | None => st_raise "ValueError" ("Background job " ++ str_of_Z job_id ++ " was not found.")
  | Some job =>
      let job := Job.set_requested_cancel true job in
      let! _u := (if bool_decide (Job.status job = QUEUED) then
         flush_job (release_ownership (Job.set_completed_at (Some now) (Job.set_status CANCELLED job)))
       else if status_in (Job.status job) [STALLED; RECOVERING] then
         _finalize_recovery_cancellation now job
       else flush_job job) in
      let! db := st_get in
      match Db.jobs db !! job_id with
      | Some job => st_ret job
      | None => st_raise "ObjectDeletedError" "the row is gone"
      end
  end.

Definition is_cancel_requested (db : Db.Db) (job_id : Z) : bool :=
  match Db.jobs db !! job_id with Some job => Job.requested_cancel job | None => false end.

End Queue.
