(* ===== verification/SemanticAuthority.v ===== *)
(** * Semantic authority of durable work: [app/services/scope_refresh_adoption.py]

    A job, a pipeline, a fetch run, a cohort generation carry the identities of the
    scope, the refresh cycle and the acquisition plan they work for.  The module takes
    any object with these attributes: here the class [SemanticOwner], with the jobs
    and the pipelines of the store as instances.  An operation that assigns attributes
    runs against its owner, so what it has assigned before it raises stays assigned. *)
From Stdlib Require Import ZArith Lia List String Ascii Bool.
From stdpp Require Import base gmap list strings.
From S2P Require Import Prelude PyDate PyFloat PyValue Canonical WorkScope.
From S2P Require Import Tables Queues JobRows JobLease.
Local Open Scope string_scope.
Local Open Scope list_scope.
Local Open Scope Z_scope.
Local Open Scope st_scope.

Record SemanticWorkAuthority := mkAuthority {
  a_scope_id : string;
  a_refresh_cycle_id : string;
  a_acquisition_plan_id : string;
}.
#[export] Instance authority_eq_dec : EqDecision SemanticWorkAuthority.
Proof. solve_decision. Defined.

Inductive authority_field := Scope_id | Refresh_cycle_id | Acquisition_plan_id.
Definition field_name (f : authority_field) : string :=
  match f with
  | Scope_id => "scope_id" | Refresh_cycle_id => "refresh_cycle_id"
  | Acquisition_plan_id => "acquisition_plan_id"
  end.
Definition authority_fields (a : SemanticWorkAuthority) : list (authority_field * string) :=
  [(Scope_id, a_scope_id a); (Refresh_cycle_id, a_refresh_cycle_id a);
   (Acquisition_plan_id, a_acquisition_plan_id a)].
Definition authority_dict (a : SemanticWorkAuthority) : dict :=
  map (fun fv => (field_name fv.1, VStr fv.2)) (authority_fields a).

(** An object with the three attributes; [owner_required] and [owner_payload] are
    [None] for an object without the attribute. *)
Class SemanticOwner (A : Type) := {
  owner_get : authority_field -> A -> option string;
  owner_set : authority_field -> string -> A -> A;
  owner_required : A -> option bool;
  owner_set_required : bool -> A -> A;
  owner_payload : A -> option dict;
  owner_set_payload : dict -> A -> A;
}.

#[export] Instance job_owner : SemanticOwner BackgroundJob := {
  owner_get f j := match f with
                   | Scope_id => Job.scope_id j
                   | Refresh_cycle_id => Job.refresh_cycle_id j
                   | Acquisition_plan_id => Job.acquisition_plan_id j
                   end;
  owner_set f v j := match f with
                     | Scope_id => Job.set_scope_id (Some v) j
                     | Refresh_cycle_id => Job.set_refresh_cycle_id (Some v) j
                     | Acquisition_plan_id => Job.set_acquisition_plan_id (Some v) j
                     end;
  owner_required j := Some (Job.required_for_parent_completion j);
  owner_set_required b j := Job.set_required_for_parent_completion b j;
  owner_payload j := Some (Job.payload_json j);
  owner_set_payload d j := Job.set_payload_json d j;
}.

#[export] Instance pipeline_owner : SemanticOwner PipelineRun := {
  owner_get f p := match f with
                   | Scope_id => Pipeline.scope_id p
                   | Refresh_cycle_id => Pipeline.refresh_cycle_id p
                   | Acquisition_plan_id => Pipeline.acquisition_plan_id p
                   end;
  owner_set f v p := match f with
                     | Scope_id => Pipeline.set_scope_id (Some v) p
                     | Refresh_cycle_id => Pipeline.set_refresh_cycle_id (Some v) p
                     | Acquisition_plan_id => Pipeline.set_acquisition_plan_id (Some v) p
                     end;
  owner_required _ := None;
  owner_set_required _ p := p;
  owner_payload _ := None;
  owner_set_payload _ p := p;
}.

Section Owners.
Context {A : Type} `{Owner : SemanticOwner A}.

(** [current not in {None, expected}]. *)
Definition bind_field (fv : authority_field * string) : ST A unit :=
  let! owner := st_get in
  let refused := match owner_get fv.1 owner with
                 | None => false
                 | Some current => negb (String.eqb current fv.2)
                 end in
  if refused
  then st_raise "SemanticAuthorityError"
         ("SEMANTIC_AUTHORITY_REBIND_FORBIDDEN:" ++ field_name fv.1)%string
  else st_modify (owner_set fv.1 fv.2).

Definition bind_required (required : option bool) : ST A unit :=
  let! owner := st_get in
  match required, owner_required owner with
  | Some r, Some current =>
      if current && negb r
      then st_raise "SemanticAuthorityError" "REQUIRED_CHILD_CANNOT_BECOME_OPTIONAL"
      else st_modify (owner_set_required r)
  | _, _ => st_ret tt
  end.

Definition bind_semantic_authority (authority : SemanticWorkAuthority) (required : option bool)
  : ST A unit :=
  do! st_for (authority_fields authority) bind_field in
  do! bind_required required in
  let! owner := st_get in
  match owner_payload owner with
  | Some payload => st_modify (owner_set_payload (dict_update payload (authority_dict authority)))
  | None => st_ret tt
  end.

(** The truth of an attribute. *)
Definition present (o : option string) : option string :=
  match o with Some s => if String.eqb s "" then None else Some s | None => None end.

Definition require_semantic_authority (owner : A) : result SemanticWorkAuthority :=
  match present (owner_get Scope_id owner), present (owner_get Refresh_cycle_id owner),
        present (owner_get Acquisition_plan_id owner) with
  | Some s, Some r, Some p => mret (mkAuthority s r p)
  | _, _, _ => raise "LegacySemanticAuthorityError" "LEGACY_UNKNOWN_SEMANTIC_AUTHORITY"
  end.
End Owners.

(** Any object with the attributes. *)
Record SomeOwner := mkOwner { owner_type : Type; owner_class : SemanticOwner owner_type; owner_value : owner_type }.
Definition owner_authority (o : SomeOwner) : result SemanticWorkAuthority :=
  require_semantic_authority (Owner := owner_class o) (owner_value o).

Fixpoint owner_authorities (owners : list SomeOwner) : result (list SemanticWorkAuthority) :=
  match owners with
  | [] => mret []
  | o :: owners => a ← owner_authority o; rest ← owner_authorities owners; mret (a :: rest)
  end.

Definition validate_same_authority (owners : list SomeOwner) : result SemanticWorkAuthority :=
  authorities ← owner_authorities owners;
  match authorities with
  | [] => raise "IndexError" "list index out of range"
  | first :: rest =>
      if existsb (fun a => bool_decide (a <> first)) rest
      then raise "SemanticAuthorityError" "SEMANTIC_AUTHORITY_OWNER_MISMATCH"
      else mret first
  end.

(** ** Admission *)

(** [_as_datetime]. *)
Definition _as_datetime (m : moment) : result datetime :=
  match m with
  | Instant (Some t) => mret t
  | Instant None => ValueError "semantic cutoff datetime must be timezone-aware"
  | Day d => mret (dt_combine d 0 0)
  end.

(** [date.fromisoformat] on a date of the form [YYYY-MM-DD]. *)
Definition date_fromisoformat (s : string) : option date :=
  '(y, s) ← read_digits 4 0 s; s ← expect "-" s;
  '(m, s) ← read_digits 2 0 s; s ← expect "-" s;
  '(d, s) ← read_digits 2 0 s;
  if String.eqb s "" && ((1 <=? y) && (1 <=? m) && (m <=? 12) && (1 <=? d) && (d <=? days_in_month y m))
  then Some (mk_date y m d) else None.

(** [value.replace("Z", "+00:00")]. *)
Fixpoint replace_z (s : string) : string :=
  match s with
  | EmptyString => EmptyString
  | String c s => if Ascii.eqb c "Z" then ("+00:00" ++ replace_z s)%string else String c (replace_z s)
  end.

(** An ISO string is a date, a datetime in UTC, or a naive datetime. *)
Definition _optional_date (value : evidence) : result (option moment) :=
  match value with
  | ENone => mret None
  | EDate d => mret (Some (Day d))
  | EDatetime t => mret (Some (Instant t))
  | EStr s =>
      match date_fromisoformat s with
      | Some d => mret (Some (Day d))
      | None => match fromisoformat (replace_z s) with
                | Some t => mret (Some (Instant (Some t)))
                | None => match fromisoformat (replace_z s ++ "+00:00")%string with
                          | Some _ => mret (Some (Instant None))
                          | None => ValueError "Invalid isoformat string"
                          end
                end
      end
  | _ => raise "TypeError" "acquisition window values must be dates, datetimes, ISO strings, or null"
  end.

Record Admission := mkAdmission {
  operation_kind : string;
  admitted_subject_kind : string;
  admitted_members : list ScopeMember;
  cycle_key : string;
  admitted_cutoff : moment;
  admitted_source_class : string;
  admitted_request_type : string;
  admitted_requirements : list AcquisitionRequirement;
  admitted_policy : string;
  admitted_definition : list (string * evidence);
  admitted_parent : option string;
  admitted_configuration : option string;
  admitted_previous_plan : option string;
  admitted_reason : option AcquisitionPlanRevisionReason;
  admitted_prior_refresh : option string;
  admitted_refresh_reason : string;
}.

Definition definition_value (d : list (string * evidence)) (key : string) : evidence :=
  match dict_find key d with Some v => v | None => ENone end.

Section Admission.
Context `{Text : JsonText} `{Unicode : UnicodeText}.

Definition admission_plan (a : Admission) : result AcquisitionPlanSnapshot :=
  first ← _optional_date (definition_value (admitted_definition a) "window_start");
  last ← _optional_date (definition_value (admitted_definition a) "window_end");
  plan_new (mkPlan (operation_kind a ++ "-acquisition")%string "t15b-v1" (cycle_key a)
    (admitted_members a) (admitted_source_class a) (admitted_request_type a) (admitted_cutoff a)
    first last (admitted_configuration a) (admitted_policy a) (admitted_requirements a)
    (admitted_previous_plan a) (admitted_reason a)).

Definition admission_scope (a : Admission) (plan_id : string) : result WorkScopeSnapshot :=
  selected ← _as_datetime (admitted_cutoff a);
  scope_new (mkScope (operation_kind a) (admitted_subject_kind a) "t15b-v1"
    (EMapping true (admitted_definition a)) (admitted_policy a) FROZEN (admitted_members a)
    (Some selected) (Some (admitted_cutoff a)) None (admitted_configuration a) (admitted_parent a)
    (Some plan_id) None).

Definition admission_refresh (a : Admission) (scope_id : string) : result RefreshCycleIdentity :=
  refresh_new (mkRefresh (operation_kind a) scope_id (cycle_key a) (admitted_cutoff a)
    (admitted_refresh_reason a) (admitted_configuration a) None None (admitted_prior_refresh a)).

Definition admit_frozen_operation (a : Admission) : ST ScopeStore SemanticWorkAuthority :=
  let! plan := st_lift (admission_plan a) in
  let! plan_id := persist_acquisition_plan plan in
  let! scope := st_lift (admission_scope a plan_id) in
  let! scope_id := persist_scope scope in
  let! refresh := st_lift (admission_refresh a scope_id) in
  let! refresh_id := persist_refresh_cycle refresh in
  st_ret (mkAuthority scope_id refresh_id plan_id).

(** ** Continuations *)

Definition _scope_for_continuation (authority : SemanticWorkAuthority) (ms : list ScopeMember)
  : result WorkScopeSnapshot :=
  scope_new (mkScope "retained-continuation" "retained-member" "t15b-v1"
    (EMapping true [("retained_scope_id", EStr (a_scope_id authority))]) "t15b-retained-scope"
    FROZEN ms (Some (dt_combine (mk_date 1970 1 1) 0 0)) None None None None
    (Some (a_acquisition_plan_id authority)) None).

Definition continuation_remainder (st : ScopeStore) (authority : SemanticWorkAuthority)
    (completed : list ScopeMember) (processed_this_attempt : Z)
  : result (list ScopeMember * ContinuationDecision) :=
  ms ← retained_scope_members st (a_scope_id authority);
  scope ← _scope_for_continuation authority ms;
  state ← continuation_new scope completed;
  d ← decision state processed_this_attempt None;
  mret (remaining_members state, d).
End Admission.

(** The job object of a handler and its transient result. *)
Definition record_zero_progress (remaining : list ScopeMember) (reason : string)
  : ST (BackgroundJob * HandlerResult) unit :=
  match remaining with
  | [] => st_raise "SemanticAuthorityError" "ZERO_PROGRESS_REQUIRES_REMAINING_WORK"
  | _ =>
      let! s := st_get in
      let! authority := st_lift (require_semantic_authority s.1) in
      let zero_progress :=
        [("reason", VStr reason);
         ("remaining", VList (map (fun m => VDict [("subject_type", VStr (subject_type m));
                                                   ("subject_id", VStr (subject_id m))]) remaining));
         ("remaining_count", VInt (Z.of_nat (length remaining)));
         ("scope_id", VStr (a_scope_id authority))] in
      let job := Job.set_operational_metadata_json
        (dict_set "semantic_zero_progress" (VDict zero_progress) (Job.operational_metadata_json s.1)) s.1 in
      do! st_modify (fun s => (job, s.2)) in
      let! res := st_lift (set_job_result_status job s.2 BLOCKED (Some reason) (Some zero_progress) None) in
      st_modify (fun s => (s.1, res))
  end.

(** ** Children *)

Record RequiredCounts := mkRequired {
  r_planned : Z; r_completed : Z; r_failed : Z; r_cancelled : Z; r_remaining : Z;
}.

Definition required_children (db : Db.Db) (scope_id : string) : list BackgroundJob :=
  List.filter (fun j => bool_decide (Job.scope_id j = Some scope_id)
                        && Job.required_for_parent_completion j) (job_rows db).

Definition required_child_counts (db : Db.Db) (scope_id : string) : RequiredCounts :=
  let rows := required_children db scope_id in
  mkRequired (Z.of_nat (length rows))
    (count_if (fun j => status_in (Job.status j) [COMPLETED; PARTIAL]) rows)
    (count_if (fun j => status_in (Job.status j) [FAILED; BLOCKED]) rows)
    (count_if (fun j => bool_decide (Job.status j = CANCELLED)) rows)
    (count_if (fun j => negb (status_in (Job.status j) [COMPLETED; PARTIAL; FAILED; CANCELLED; BLOCKED])) rows).

Definition require_children_terminal (db : Db.Db) (scope_id : string) : result RequiredCounts :=
  let counts := required_child_counts db scope_id in
  if r_remaining counts =? 0 then mret counts
  else raise "SemanticAuthorityError" "REQUIRED_SEMANTIC_CHILDREN_INCOMPLETE".

(** [cutoff_date] is the cutoff, or its [date()] when it is a datetime. *)
Definition ceri_cycle_key (provider dataset ticker : string) (cutoff_date : date)
    (explicit_cycle_key : option string) : string :=
  match present explicit_cycle_key with
  | Some key => key
  | None =>
      ("ceri:" ++ provider ++ ":" ++ dataset ++ ":" ++ upper ticker ++ ":session:"
       ++ date_isoformat cutoff_date)%string
  end.

(** The owner after an operation that returned. *)
Definition on_owner {A} (m : ST A unit) (owner : A) : result A :=
  match m owner with
  | (Ok _, owner) => Ok owner
  | (Raise e, _) => Raise e
  end.
