(* ===== verification/SemanticFacts.v ===== *)
(** * What the semantic authority of durable work guarantees

    An owner is bound once; admission can be replayed, only adds records and does not
    depend on the order of its arguments; the counts of required children add up. *)
From Stdlib Require Import ZArith Lia List String Ascii Bool.
From stdpp Require Import base gmap list sorting strings.
From S2P Require Import Prelude PyDate PyFloat PyValue Canonical CanonicalFacts WorkScope.
From S2P Require Import Tables Queues JobRows JobLease SemanticAuthority.
Local Open Scope string_scope.
Local Open Scope list_scope.
Local Open Scope Z_scope.
Local Open Scope st_scope.

#[export] Instance authority_field_eq_dec : EqDecision authority_field.
Proof. solve_decision. Defined.

(** ** Attributes *)

(** The attributes of an object are independent, and assignment sets them. *)
Class OwnerLaws (A : Type) `{Owner : SemanticOwner A} : Prop := {
  get_set f v o g : owner_get g (owner_set f v o) = if decide (f = g) then Some v else owner_get g o;
  get_set_required b o g : owner_get g (owner_set_required b o) = owner_get g o;
  get_set_payload d o g : owner_get g (owner_set_payload d o) = owner_get g o;
  required_set_payload d o : owner_required (owner_set_payload d o) = owner_required o;
  required_set b o : is_Some (owner_required o) -> owner_required (owner_set_required b o) = Some b;
  payload_set d o : is_Some (owner_payload o) -> owner_payload (owner_set_payload d o) = Some d;
  set_same f v o : owner_get f o = Some v -> owner_set f v o = o;
  set_required_same b o : owner_required o = Some b -> owner_set_required b o = o;
  set_payload_same d o : owner_payload o = Some d -> owner_set_payload d o = o;
}.

#[export] Instance job_owner_laws : OwnerLaws BackgroundJob.
Proof.
  split.
  - intros [] v [] []; reflexivity.
  - intros b [] []; reflexivity.
  - intros d [] []; reflexivity.
  - intros d []; reflexivity.
  - intros b [] _; reflexivity.
  - intros d [] _; reflexivity.
  - intros [] v [] Hg; cbn in Hg; simplify_eq; reflexivity.
  - intros b [] Hg; cbn in Hg; simplify_eq; reflexivity.
  - intros d [] Hg; cbn in Hg; simplify_eq; reflexivity.
Qed.

#[export] Instance pipeline_owner_laws : OwnerLaws PipelineRun.
Proof.
  split; try done.
  - intros [] v [] []; reflexivity.
  - intros b o []; done.
  - intros d o []; done.
  - intros [] v [] Hg; cbn in Hg; simplify_eq; reflexivity.
Qed.

Section Binding.
Context {A : Type} `{Owner : SemanticOwner A} `{Laws : !OwnerLaws A}.

Definition bound (a : SemanticWorkAuthority) (o : A) : Prop :=
  forall f v, (f, v) ∈ authority_fields a -> owner_get f o = Some v.

Lemma bind_field_Ok f v (o : A) u o' :
  bind_field (f, v) o = (Ok u, o') -> o' = owner_set f v o.
Proof.
  unfold bind_field. change (st_bind st_get ?k o) with (k o o). cbv beta zeta. cbn [fst snd].
  destruct (match owner_get f o with Some _ => _ | None => _ end); [done|].
  unfold st_modify. by intros; simplify_eq.
Qed.

Lemma bind_field_same f v (o : A) : owner_get f o = Some v -> bind_field (f, v) o = (Ok tt, o).
Proof.
  intros Hg. unfold bind_field. change (st_bind st_get ?k o) with (k o o). cbv beta zeta. cbn [fst snd].
  rewrite Hg, String.eqb_refl. cbn [negb]. unfold st_modify. by rewrite set_same.
Qed.

Lemma bind_field_other f v w (o : A) :
  owner_get f o = Some w -> v <> w ->
  exists msg, bind_field (f, v) o = (raise "SemanticAuthorityError" msg, o).
Proof.
  intros Hg Hne. unfold bind_field. change (st_bind st_get ?k o) with (k o o). cbv beta zeta. cbn [fst snd].
  rewrite Hg. destruct (String.eqb_spec w v); [congruence|]. by eexists.
Qed.

Lemma bind_required_get r (o : A) u o' :
  bind_required r o = (Ok u, o') ->
  (forall g, owner_get g o' = owner_get g o) /\
  (forall b, r = Some b -> owner_required o' = Some b \/ owner_required o' = None).
Proof.
  unfold bind_required. change (st_bind st_get ?k o) with (k o o). cbv beta.
  destruct r as [r|], (owner_required o) as [c|] eqn:Hr; try (unfold st_ret; intros; simplify_eq; split; naive_solver).
  destruct (c && negb r); [done|]. unfold st_modify. intros; simplify_eq.
  split; [intros; by rewrite get_set_required|]. intros b [= <-]. left. by apply required_set.
Qed.

(** What a binding leaves behind: its authority in the attributes and in the payload. *)
Definition settled (a : SemanticWorkAuthority) (r : option bool) (o : A) : Prop :=
  bound a o /\
  (forall b, r = Some b -> owner_required o = Some b \/ owner_required o = None) /\
  (forall p, owner_payload o = Some p -> dict_update p (authority_dict a) = p).

Lemma update_authority_twice a p :
  dict_update (dict_update p (authority_dict a)) (authority_dict a) = dict_update p (authority_dict a).
Proof.
  unfold authority_dict, authority_fields, dict_update. cbn [map fold_left fst snd field_name].
  set (d := dict_set "acquisition_plan_id" _ (dict_set "refresh_cycle_id" _ (dict_set "scope_id" _ p))).
  assert (dict_find "scope_id" d = Some (VStr (a_scope_id a))) as H1.
  { unfold d. rewrite 2!dict_find_set_ne by done. apply dict_find_set_eq. }
  assert (dict_find "refresh_cycle_id" d = Some (VStr (a_refresh_cycle_id a))) as H2.
  { unfold d. rewrite dict_find_set_ne by done. apply dict_find_set_eq. }
  assert (dict_find "acquisition_plan_id" d = Some (VStr (a_acquisition_plan_id a))) as H3.
  { unfold d. by rewrite dict_find_set_eq. }
  by rewrite (dict_set_id _ _ _ H1), (dict_set_id _ _ _ H2), (dict_set_id _ _ _ H3).
Qed.

Lemma bind_settles a r (o : A) u o' : bind_semantic_authority a r o = (Ok u, o') -> settled a r o'.
Proof.
  unfold bind_semantic_authority. intros H. apply st_bind_Ok in H as (u1 & o1 & Hf & H).
  apply st_bind_Ok in H as (u2 & o2 & Hr & H).
  assert (bound a o1) as Hb1.
  { unfold authority_fields in Hf. cbn [st_for] in Hf.
    repeat (apply st_bind_Ok in Hf as (? & ? & ?%bind_field_Ok & Hf)). unfold st_ret in Hf. simplify_eq.
    intros f v Hin. apply list_elem_of_In in Hin.
    destruct Hin as [[= <- <-]|[[= <- <-]|[[= <- <-]|[]]]]; by rewrite !get_set. }
  apply bind_required_get in Hr as [Hg Hreq].
  change (st_bind st_get ?k o2) with (k o2 o2) in H. cbv beta in H.
  destruct (owner_payload o2) as [p|] eqn:Hp; unfold st_modify, st_ret in H; simplify_eq.
  - split_and!.
    + intros f v Hin. rewrite get_set_payload, Hg. by apply Hb1.
    + intros b Hb. rewrite required_set_payload. by apply Hreq.
    + intros q. rewrite payload_set by done. intros [= <-]. apply update_authority_twice.
  - split_and!; [|done|congruence]. intros f v Hin. rewrite Hg. by apply Hb1.
Qed.

Lemma settled_bind a r (o : A) : settled a r o -> bind_semantic_authority a r o = (Ok tt, o).
Proof.
  intros (Hb & Hr & Hp). unfold bind_semantic_authority.
  assert (st_for (authority_fields a) bind_field o = (Ok tt, o)) as Hf.
  { unfold bound in Hb. induction (authority_fields a) as [|[f v] l IH]; cbn [st_for]; [done|].
    unfold st_bind. rewrite bind_field_same by (apply Hb; left). apply IH. intros; apply Hb. by right. }
  unfold st_bind at 1. rewrite Hf. unfold st_bind at 1.
  assert (bind_required r o = (Ok tt, o)) as ->.
  { unfold bind_required. change (st_bind st_get ?k o) with (k o o). cbv beta.
    destruct r as [b|]; [|done]. destruct (Hr b eq_refl) as [E|E]; rewrite E; [|done].
    rewrite andb_negb_r. unfold st_modify. by rewrite set_required_same. }
  change (st_bind st_get ?k o) with (k o o). cbv beta. destruct (owner_payload o) as [p|] eqn:E; [|done].
  unfold st_modify. by rewrite (Hp p eq_refl), set_payload_same.
Qed.

Lemma bound_rebind a b r (o : A) :
  bound a o -> b <> a ->
  exists msg, bind_semantic_authority b r o = (raise "SemanticAuthorityError" msg, o).
Proof.
  intros Hb Hne.
  enough (exists msg, st_for (authority_fields b) bind_field o = (raise "SemanticAuthorityError" msg, o)) as [msg Hf].
  { exists msg. unfold bind_semantic_authority, st_bind at 1. by rewrite Hf. }
  pose proof (Hb Scope_id _ ltac:(left)) as H1. pose proof (Hb Refresh_cycle_id _ ltac:(right; left)) as H2.
  pose proof (Hb Acquisition_plan_id _ ltac:(right; right; left)) as H3.
  unfold authority_fields. cbn [st_for].
  destruct a as [s1 r1 p1], b as [s2 r2 p2]. cbn [a_scope_id a_refresh_cycle_id a_acquisition_plan_id] in *.
  destruct (decide (s2 = s1)) as [->|Hs].
  2: { destruct (bind_field_other Scope_id s2 s1 o H1 Hs) as [msg E]. exists msg. unfold st_bind at 1. by rewrite E. }
  unfold st_bind at 1. rewrite (bind_field_same _ _ _ H1).
  destruct (decide (r2 = r1)) as [->|Hr].
  2: { destruct (bind_field_other Refresh_cycle_id r2 r1 o H2 Hr) as [msg E]. exists msg. unfold st_bind at 1. by rewrite E. }
  unfold st_bind at 1. rewrite (bind_field_same _ _ _ H2).
  destruct (bind_field_other Acquisition_plan_id p2 p1 o H3) as [msg E]; [congruence|].
  exists msg. unfold st_bind at 1. by rewrite E.
Qed.

(** Identities are not empty. *)
Definition proper (a : SemanticWorkAuthority) : bool :=
  forallb (fun fv => negb (String.eqb fv.2 "")) (authority_fields a).

(** An owner is bound once.  After a binding succeeded the owner has exactly the
    authority it was bound to; binding it to the same authority again changes nothing;
    and binding it to any other is refused and leaves the owner as it is. *)
Theorem bind_once a r (o : A) u o' :
  proper a = true -> bind_semantic_authority a r o = (Ok u, o') ->
  require_semantic_authority o' = Ok a /\
  bind_semantic_authority a r o' = (Ok tt, o') /\
  forall b r', b <> a ->
    exists msg, bind_semantic_authority b r' o' = (raise "SemanticAuthorityError" msg, o').
Proof.
  intros Hp Hbind. pose proof (bind_settles _ _ _ _ _ Hbind) as Hs. destruct Hs as (Hb & Hrest).
  split_and!; [|by apply settled_bind|intros; by apply (bound_rebind a)].
  pose proof (Hb Scope_id _ ltac:(left)) as H1. pose proof (Hb Refresh_cycle_id _ ltac:(right; left)) as H2.
  pose proof (Hb Acquisition_plan_id _ ltac:(right; right; left)) as H3.
  unfold require_semantic_authority. rewrite H1, H2, H3. unfold proper in Hp. simpl in Hp.
  apply andb_prop in Hp as [E1 Hp]. apply andb_prop in Hp as [E2 Hp]. apply andb_prop in Hp as [E3 _].
  apply negb_true_iff in E1, E2, E3. unfold present. rewrite E1, E2, E3. by destruct a.
Qed.
End Binding.

Section Admissions.
Context `{Text : JsonText} `{Unicode : UnicodeText}.

(** The store keeps what it has: records are never changed or removed, member rows are
    only appended. *)
Definition extends (st st' : ScopeStore) : Prop :=
  plan_records st ⊆ plan_records st' /\ scope_records st ⊆ scope_records st' /\
  refresh_records st ⊆ refresh_records st' /\ member_rows st `prefix_of` member_rows st'.

(** Admission can be replayed.  An admission that succeeded only added records and
    member rows to the store; repeating it returns the same scope, refresh cycle and
    acquisition plan and writes nothing; and the scope it names has exactly the members
    that were admitted, in canonical order. *)
Theorem admission_replays a st authority st' :
  admit_frozen_operation a st = (Ok authority, st') ->
  extends st st' /\
  admit_frozen_operation a st' = (Ok authority, st') /\
  retained_scope_members st' (a_scope_id authority) = Ok (sort_by member_leb (admitted_members a)).
Proof.
  unfold admit_frozen_operation at 1. intros H.
  apply st_bind_Ok in H as (plan & s0 & Hplan & H). unfold st_lift in Hplan. injection Hplan as Hplan <-.
  apply st_bind_Ok in H as (plan_id & s1 & Hp & H).
  apply st_bind_Ok in H as (scope & s1' & Hscope & H). unfold st_lift in Hscope. injection Hscope as Hscope <-.
  apply st_bind_Ok in H as (scope_id & s2 & Hs & H).
  apply st_bind_Ok in H as (refresh & s2' & Href & H). unfold st_lift in Href. injection Href as Href <-.
  apply st_bind_Ok in H as (refresh_id & s3 & Hr & H). unfold st_ret in H. injection H as <- <-.
  apply persist_plan_replay in Hp as (P1 & P2 & P3 & P4 & Pagain).
  apply persist_scope_replay in Hs as (S1 & S2 & S3 & S4 & Smem & Sagain).
  apply persist_refresh_replay in Hr as (R1 & R2 & R3 & R4 & Ragain).
  split; [|split].
  - unfold extends. rewrite R4, S4, R2, R3, <- P2, <- P3, <- P4, <- S3. done.
  - unfold admit_frozen_operation. unfold st_bind at 1. unfold st_lift at 1. rewrite Hplan.
    unfold st_bind at 1. rewrite Pagain by (by rewrite R4, S4).
    unfold st_bind at 1. unfold st_lift at 1. rewrite Hscope.
    unfold st_bind at 1. rewrite Sagain by (rewrite ?R2; done).
    unfold st_bind at 1. unfold st_lift at 1. rewrite Href.
    unfold st_bind at 1. by rewrite Ragain by done.
  - unfold retained_scope_members in *. cbn [a_scope_id]. rewrite R3, Smem. f_equal.
    unfold admission_scope in Hscope. apply result_bind_Ok in Hscope as (t & _ & Hscope).
    by apply scope_new_members in Hscope as [-> _].
Qed.

(** C29: Admission does not depend on the order in which the members and the requirements
    are listed: two admissions that differ in it behave alike on every store, errors
    included. *)
Theorem admission_ignores_order a members' requirements' st :
  admitted_members a ≡ₚ members' -> admitted_requirements a ≡ₚ requirements' ->
  admit_frozen_operation a st =
  admit_frozen_operation
    (mkAdmission (operation_kind a) (admitted_subject_kind a) members' (cycle_key a) (admitted_cutoff a)
       (admitted_source_class a) (admitted_request_type a) requirements' (admitted_policy a)
       (admitted_definition a) (admitted_parent a) (admitted_configuration a)
       (admitted_previous_plan a) (admitted_reason a) (admitted_prior_refresh a)
       (admitted_refresh_reason a)) st.
Proof.
  intros Hm Hr. destruct a as [ok sk ms ck cut src req rs pol def par conf prev rea prior rr].
  cbn [admitted_members admitted_requirements] in Hm, Hr.
  assert (forall b, admission_plan (mkAdmission ok sk ms ck cut src req rs pol def par conf prev rea prior rr)
    = admission_plan b -> (forall i, admission_scope (mkAdmission ok sk ms ck cut src req rs pol def par conf
        prev rea prior rr) i = admission_scope b i) ->
      (forall i, admission_refresh (mkAdmission ok sk ms ck cut src req rs pol def par conf prev rea prior rr) i
        = admission_refresh b i) ->
      admit_frozen_operation (mkAdmission ok sk ms ck cut src req rs pol def par conf prev rea prior rr) st
      = admit_frozen_operation b st) as Hcong.
  { intros b E1 E2 E3. unfold admit_frozen_operation. rewrite E1.
    unfold st_bind at 1 7. destruct (st_lift (admission_plan b) st) as [[p|e] s0]; [|done].
    unfold st_bind at 1 6. destruct (persist_acquisition_plan p s0) as [[i|e] s1]; [|done].
    rewrite E2. unfold st_bind at 1 5. destruct (st_lift (admission_scope b i) s1) as [[sc|e] s1']; [|done].
    unfold st_bind at 1 4. destruct (persist_scope sc s1') as [[j|e] s2]; [|done]. by rewrite E3. }
  apply Hcong.
  - unfold admission_plan. cbn [admitted_definition].
    destruct (_optional_date (definition_value def "window_start")); [|done].
    destruct (_optional_date (definition_value def "window_end")); [|done].
    cbn. by apply plan_new_order.
  - intros i. unfold admission_scope. cbn [admitted_cutoff]. destruct (_as_datetime cut); [|done].
    cbn. by apply scope_new_order.
  - done.
Qed.
End Admissions.

(** ** Required children *)

(** The counts of the required children of a scope add up to their number, and
    [require_children_terminal] returns them exactly when every required child of the scope
    has reached a terminal status; otherwise it raises. *)
Theorem children_terminal_correct db scope_id :
  let c := required_child_counts db scope_id in
  r_planned c = r_completed c + r_failed c + r_cancelled c + r_remaining c /\
  (require_children_terminal db scope_id = Ok c \/
   require_children_terminal db scope_id
     = raise "SemanticAuthorityError" "REQUIRED_SEMANTIC_CHILDREN_INCOMPLETE") /\
  (require_children_terminal db scope_id = Ok c <->
   forall i j, Db.jobs db !! i = Some j -> Job.scope_id j = Some scope_id ->
     Job.required_for_parent_completion j = true ->
     Job.status j ∈ [COMPLETED; PARTIAL; FAILED; CANCELLED; BLOCKED]).
Proof.
  cbv zeta. split; [|split].
  - unfold required_child_counts. cbn [r_planned r_completed r_failed r_cancelled r_remaining].
    induction (required_children db scope_id) as [|j l IH]; [done|].
    rewrite !count_if_cons. simpl length. rewrite Nat2Z.inj_succ, IH. destruct (Job.status j); simpl; lia.
  - unfold require_children_terminal. destruct (_ =? 0); auto.
  - unfold require_children_terminal.
    assert (forall b : bool, (if b then mret (required_child_counts db scope_id)
      else raise "SemanticAuthorityError" "REQUIRED_SEMANTIC_CHILDREN_INCOMPLETE")
      = Ok (required_child_counts db scope_id) <-> b = true) as -> by (intros []; split; done).
    rewrite Z.eqb_eq. unfold required_child_counts. cbn [r_remaining]. rewrite count_if_zero.
    setoid_rewrite negb_false_iff. unfold status_in. setoid_rewrite bool_decide_eq_true.
    unfold required_children. setoid_rewrite filter_In. setoid_rewrite andb_true_iff.
    setoid_rewrite bool_decide_eq_true. unfold job_rows, Authority.jobs_by_id. setoid_rewrite sort_by_In.
    setoid_rewrite in_map_iff. setoid_rewrite <- list_elem_of_In. split.
    + intros H i j Hj Hs Hr. apply H. split; [|done]. exists (i, j). split; [done|]. by apply elem_of_map_to_list.
    + intros H j [([i j'] & <- & Hj) [Hs Hr]]. apply elem_of_map_to_list in Hj. by eapply H.
Qed.

(** ** Concrete runs *)

(** A stand-in for SHA-256 with outputs of its form. *)
Fixpoint weigh (acc : Z) (s : string) : Z :=
  match s with
  | EmptyString => acc
  | String c s => weigh ((acc * 257 + byte c + 1) mod 2305843009213693951) s
  end.
Definition toy_digest (s : string) : string := pad 64 (weigh 7 s).
#[local] Instance toy_text : JsonText := { float_repr := fun _ => "0.0"; sha256 := toy_digest }.
#[local] Instance ascii_text : UnicodeText := { nfkc := fun s => s }.

Definition ticker_member (s : string) : ScopeMember := mkMember "TICKER" s.
Definition an_admission (ms : list ScopeMember) (rs : list AcquisitionRequirement) : Admission :=
  mkAdmission "pipeline" "ticker" ms "cycle-1" (Day 738000) "IB" "bars" rs "policy"
    [("window_start", EStr "2020-01-01"); ("window_end", EDatetime (Some (738000 * us_per_day)))]
    None None None None None "SCHEDULED".
Definition two_tickers : Admission :=
  an_admission [ticker_member "MSFT"; ticker_member "AAPL"] [mkRequirement "bars" true; mkRequirement "dividends" false].
Definition empty_store : ScopeStore := mkStore ∅ ∅ [] ∅.
Definition admitted_store : ScopeStore := (admit_frozen_operation two_tickers empty_store).2.
Definition admitted_authority : SemanticWorkAuthority :=
  match (admit_frozen_operation two_tickers empty_store).1 with Ok a => a | Raise _ => mkAuthority "" "" "" end.

Lemma admission_replays_witness :
  admit_frozen_operation two_tickers empty_store = (Ok admitted_authority, admitted_store) /\
  admit_frozen_operation two_tickers admitted_store = (Ok admitted_authority, admitted_store) /\
  retained_scope_members admitted_store (a_scope_id admitted_authority)
    = Ok [ticker_member "AAPL"; ticker_member "MSFT"].
Proof.
  assert (H : admit_frozen_operation two_tickers empty_store = (Ok admitted_authority, admitted_store))
    by (vm_compute; reflexivity).
  destruct (admission_replays two_tickers empty_store admitted_authority admitted_store H) as (_ & H2 & H3).
  split; [exact H|]. split; [exact H2|]. rewrite H3. vm_compute. reflexivity.
Defined.

Lemma admission_ignores_order_witness :
  admit_frozen_operation two_tickers empty_store =
  admit_frozen_operation
    (an_admission [ticker_member "AAPL"; ticker_member "MSFT"]
       [mkRequirement "dividends" false; mkRequirement "bars" true]) empty_store.
Proof.
  apply (admission_ignores_order two_tickers [ticker_member "AAPL"; ticker_member "MSFT"]
    [mkRequirement "dividends" false; mkRequirement "bars" true] empty_store); apply perm_swap.
Defined.

Definition a_scope : WorkScopeSnapshot :=
  mkScope "pipeline" "ticker" "v1" (EMapping true []) "policy" FROZEN
    [ticker_member "MSFT"; ticker_member "AAPL"] (Some 0) None None None None None None.
Definition the_scope : WorkScopeSnapshot := match scope_new a_scope with Ok s => s | Raise _ => a_scope end.
Definition state_after (completed : list ScopeMember) : ScopeContinuationState :=
  match continuation_new the_scope completed with Ok c => c | Raise _ => mkContinuation the_scope [] end.

Definition halfway : ScopeContinuationState := state_after [ticker_member "AAPL"].
Definition finished : ScopeContinuationState := state_after [ticker_member "AAPL"; ticker_member "MSFT"].

Lemma continuations_are_bounded_witness :
  decision finished 1 None = Ok COMPLETE /\ (length (remaining_members finished) <= 0)%nat.
Proof.
  assert (H0 : scope_new a_scope = Ok the_scope) by (vm_compute; reflexivity).
  assert (H1 : membership_policy the_scope = FROZEN) by (vm_compute; reflexivity).
  assert (H2 : continuation_new the_scope [ticker_member "AAPL"] = Ok halfway) by (vm_compute; reflexivity).
  assert (H3 : continued halfway 1 finished).
  { apply (continued_next halfway [ticker_member "MSFT"] finished 0 finished);
      [discriminate|vm_compute; reflexivity|apply continued_done]. }
  assert (H4 : 0 < 1) by reflexivity.
  destruct (continuations_are_bounded a_scope the_scope [ticker_member "AAPL"] halfway 1 finished 1 H0 H1 H2 H3 H4)
    as (Hb & _ & Hd).
  split; [rewrite Hd; vm_compute; reflexivity|].
  assert (E : length (remaining_members halfway) = 1%nat) by (vm_compute; reflexivity).
  rewrite E in Hb. exact (le_S_n _ _ Hb).
Defined.

Definition an_owner : PipelineRun :=
  Pipeline.mk 7 3 "QUEUED" (Some "ACTIVE") None None None None None None None None None None None.
Definition some_authority : SemanticWorkAuthority := mkAuthority "s" "r" "p".

Lemma bind_once_witness :
  exists owner, bind_semantic_authority some_authority (Some true) an_owner = (Ok tt, owner) /\
    require_semantic_authority owner = Ok some_authority /\
    exists msg, bind_semantic_authority (mkAuthority "s" "x" "p") None owner
                = (raise "SemanticAuthorityError" msg, owner).
Proof.
  eexists. split; [vm_compute; reflexivity|].
  destruct (bind_once some_authority (Some true) an_owner tt
    ((bind_semantic_authority some_authority (Some true) an_owner).2)
    ltac:(reflexivity) ltac:(vm_compute; reflexivity)) as (H1 & _ & H3).
  split; [exact H1|]. apply (H3 (mkAuthority "s" "x" "p") None). discriminate.
Defined.
