(* ===== verification/PipelineDependencies.v ===== *)
(** * Pipeline dependencies: [app/services/pipeline_dependency_service.py]

    A pipeline that needs SEC preparation or a CERI workflow hands over to a durable
    dependency: the wait is recorded in one transaction, the child job enqueued in a
    second, and the outcome of the child decides about the continuation.  The
    service works on the pipelines, steps, dependencies and jobs of the store and
    calls the state machine and the job queue.

    The market context of a pipeline and the causality of a job belong to other
    modules and are the operations of the class [DependencyCollaborators].  A JSON sub-object is a
    dictionary when it is present; one reading of the clock serves a transaction;
    metrics and logging are left out. *)
From Stdlib Require Import ZArith Lia List String Ascii Bool.
From stdpp Require Import base gmap list strings relations.
From S2P Require Import Prelude PyDate PyFloat PyValue Tables Queues Redaction.
From S2P Require Import PipelineStates JobRows JobLease JobQueue Canonical WorkScope SemanticAuthority.
Local Open Scope string_scope.
Local Open Scope list_scope.
Local Open Scope Z_scope.
Local Open Scope st_scope.

Class DependencyCollaborators := {
  pipeline_context_payload : Db.Db -> PipelineRun -> result dict;
  (** The parent and the triggering job of an enqueue, for its explicit parent. *)
  enqueue_causality : Db.Db -> option Z -> option Z * option Z;
}.

Definition SEC_READINESS_DEPENDENCY : string := "SEC_READINESS".
Definition CERI_WORKFLOW_DEPENDENCY : string := "CERI_WORKFLOW".
Definition DEPENDENCY_ACTIVE_STATES : list string := ["PENDING_ENQUEUE"; "QUEUED"; "RUNNING"].
Definition DEPENDENCY_TERMINAL_STATES : list string := ["COMPLETED"; "FAILED"; "CANCELLED"].
Definition PIPELINE_JOB_PRIORITY : Z := 100.
Definition PIPELINE_JOB_MAX_RETRIES : Z := 3.

(** ** Rows and unique indexes *)

Definition dependencies_by_id (db : Db.Db) : list PipelineDependency :=
  sort_by (fun a b => Dependency.id a <=? Dependency.id b) (map snd (map_to_list (Db.dependencies db))).

Definition put_dependency (d : PipelineDependency) (db : Db.Db) : Db.Db :=
  Db.set_dependencies (<[Dependency.id d := d]> (Db.dependencies db)) db.

Definition opt_id_eqb (a b : option Z) : bool :=
  match a, b with Some x, Some y => x =? y | _, _ => false end.

Definition dependency_conflicts (a b : PipelineDependency) : bool :=
  String.eqb (Dependency.dependency_key a) (Dependency.dependency_key b)
  || String.eqb (Dependency.continuation_identity a) (Dependency.continuation_identity b)
  || opt_id_eqb (Dependency.child_job_id a) (Dependency.child_job_id b)
  || opt_id_eqb (Dependency.continuation_job_id a) (Dependency.continuation_job_id b)
  || ((Dependency.pipeline_run_id a =? Dependency.pipeline_run_id b)
      && String.eqb (Dependency.dependency_type a) (Dependency.dependency_type b)
      && smem (Dependency.state a) DEPENDENCY_ACTIVE_STATES
      && smem (Dependency.state b) DEPENDENCY_ACTIVE_STATES).

Definition flush_dependency (d : PipelineDependency) : ST Db.Db unit := fun db =>
  if forallb (fun r => (Dependency.id r =? Dependency.id d) || negb (dependency_conflicts r d))
       (dependencies_by_id db)
  then (Ok tt, put_dependency d db)
  else (raise "IntegrityError" "duplicate key value violates unique constraint", db).

Definition next_dependency_id (db : Db.Db) : Z :=
  1 + foldr Z.max 0 (map Dependency.id (dependencies_by_id db)).

(** [db.scalar(select(...).order_by(id.desc()).limit(1))]. *)
Definition latest_dependency (p : PipelineDependency -> bool) (db : Db.Db) : option PipelineDependency :=
  list.last (List.filter p (dependencies_by_id db)).

Definition or_empty (d : option dict) : dict := match d with Some d => d | None => [] end.
Definition result_of (p : PipelineRun) : dict := or_empty (Pipeline.result_json p).

(** [int(value or 0)]. *)
Definition int_or_zero (v : pyval) : result Z :=
  match py_int (py_or v (VInt 0)) with
  | Some n => mret n
  | None => ValueError "invalid literal for int() with base 10"
  end.

Definition get_job (db : Db.Db) (id : Z) : option BackgroundJob :=
  if id =? 0 then None else Db.jobs db !! id.

Definition _pipeline_step (db : Db.Db) (pipeline_id : Z) (step_name : string) : option PipelineStep :=
  List.find (fun s => (Step.pipeline_run_id s =? pipeline_id) && String.eqb (Step.step_name s) step_name)
    (Db.steps db).

Definition touch (state : string) (now : datetime) (d : PipelineDependency) : PipelineDependency :=
  Dependency.set_updated_at now (Dependency.set_state state d).
Definition close (state : string) (now : datetime) (d : PipelineDependency) : PipelineDependency :=
  Dependency.set_completed_at (Some now) (touch state now d).

Section Dependencies.
Context `{Coll : Collaborators} `{DC : DependencyCollaborators} (now : datetime).

Definition _cancel_incomplete_steps (pipeline_id : Z) : ST Db.Db unit :=
  let! db := st_get in
  st_for (List.filter (fun s => (Step.pipeline_run_id s =? pipeline_id)
                                && smem (Step.status s) ["PENDING"; "RUNNING"]) (Db.steps db))
    (fun step => do! transition_pipeline_step step "CANCELLED" (Some "Pipeline cancelled.") None (Some now) in
                 st_ret tt).

(** The root job of a pipeline: the one that holds the write ownership, or the one the
    pipeline names. *)
Definition root_job (ownership : option Z) (pipeline : PipelineRun) : ST Db.Db BackgroundJob :=
  let! id := st_lift (match ownership with
                      | Some i => mret i
                      | None =>
                          a ← int_or_zero (dget (result_of pipeline) "pipeline_root_job_id");
                          if a =? 0 then int_or_zero (dget (result_of pipeline) "background_job_id")
                          else mret a
                      end) in
  let! db := st_get in
  match get_job db id with
  | Some job => if String.eqb (Job.job_type job) "FULL_PIPELINE" then st_ret job
                else st_raise "ValueError" "PIPELINE_DEPENDENCY_ROOT_JOB_REQUIRED"
  | None => st_raise "ValueError" "PIPELINE_DEPENDENCY_ROOT_JOB_REQUIRED"
  end.

Definition by_key (key : string) (db : Db.Db) : option PipelineDependency :=
  List.find (fun d => String.eqb (Dependency.dependency_key d) key) (dependencies_by_id db).

(** ** The CERI workflow *)

Definition prepare_ceri_workflow_dependency (ownership : option Z) (pipeline : PipelineRun)
    (workflow_key resume_from_step : string) : ST Db.Db PipelineDependency :=
  let! _authority := st_lift (require_semantic_authority pipeline) in
  let! root := root_job ownership pipeline in
  let identity := json_sha256 (VDict
    [("pipeline_run_id", VInt (Pipeline.id pipeline)); ("dependency_type", VStr CERI_WORKFLOW_DEPENDENCY);
     ("workflow_key", VStr workflow_key); ("continuation_step", VStr resume_from_step)]) in
  let key := ("pipeline:" ++ str_of_Z (Pipeline.id pipeline) ++ ":ceri-workflow:" ++ identity)%string in
  let! db := st_get in
  match by_key key db with
  | Some existing => st_ret existing
  | None =>
      let dependency := Dependency.mk (next_dependency_id db) (Pipeline.id pipeline)
        CERI_WORKFLOW_DEPENDENCY key "RUNNING" [] resume_from_step identity (Job.id root) None None
        (Job.worker_instance_id root) (Some [("workflow_key", VStr workflow_key)]) None now now None in
      do! flush_dependency dependency in
      do! st_modify (put_pipeline (Pipeline.set_result_json
            (Some (dict_update (result_of pipeline)
               [("pipeline_root_job_id", VInt (Job.id root));
                ("pipeline_dependency_id", VInt (Dependency.id dependency));
                ("dependency_type", VStr CERI_WORKFLOW_DEPENDENCY);
                ("dependency_state", VStr (Dependency.state dependency));
                ("continuation_identity", VStr identity)])) pipeline)) in
      st_ret dependency
  end.

Definition ceri_of (pipeline : PipelineRun) (d : PipelineDependency) : bool :=
  (Dependency.pipeline_run_id d =? Pipeline.id pipeline)
  && String.eqb (Dependency.dependency_type d) CERI_WORKFLOW_DEPENDENCY.

Definition same_workflow (d : PipelineDependency) (workflow_key : string) : bool :=
  py_eq (dget (or_empty (Dependency.result_json d)) "workflow_key") (VStr workflow_key).

Definition complete_ceri_workflow_dependency (pipeline : PipelineRun) (workflow_key : string)
    (trigger_job continuation : BackgroundJob) (certified_count : Z)
  : ST Db.Db (option PipelineDependency) :=
  let! db := st_get in
  match latest_dependency (ceri_of pipeline) db with
  | None => st_ret None
  | Some d =>
      if negb (same_workflow d workflow_key)
      then st_raise "ValueError" "CERI_PIPELINE_DEPENDENCY_IDENTITY_MISMATCH"
      else
        let d' := close "COMPLETED" now d in
        let d' := Dependency.set_child_job_id (Some (Job.id trigger_job)) d' in
        let d' := Dependency.set_continuation_job_id (Some (Job.id continuation)) d' in
        let d' := Dependency.set_result_json
          (Some (dict_update (or_empty (Dependency.result_json d))
             [("certified_count", VInt certified_count); ("trigger_job_id", VInt (Job.id trigger_job))])) d' in
        do! flush_dependency d' in
        do! flush_job (Job.set_pipeline_dependency_id (Some (Dependency.id d)) trigger_job) in
        do! flush_job (Job.set_root_job_id (Some (Dependency.root_job_id d))
              (Job.set_pipeline_dependency_id (Some (Dependency.id d)) continuation)) in
        st_ret (Some d')
  end.

Definition fail_ceri_workflow_dependency (pipeline : PipelineRun) (workflow_key error_message : string)
  : ST Db.Db (option PipelineDependency) :=
  let! db := st_get in
  match latest_dependency (fun d => ceri_of pipeline d && smem (Dependency.state d) DEPENDENCY_ACTIVE_STATES) db with
  | None => st_ret None
  | Some d =>
      if negb (same_workflow d workflow_key)
      then st_raise "ValueError" "CERI_PIPELINE_DEPENDENCY_IDENTITY_MISMATCH"
      else let d' := Dependency.set_error_message (Some error_message) (close "FAILED" now d) in
           do! flush_dependency d' in
           st_ret (Some d')
  end.

(** ** SEC preparation *)

(** [sorted({...})] of the required tickers. *)
Definition sorted_set (l : list string) : list string := sort_by String.leb (unique l).
Definition str_value (v : pyval) : string := match v with VStr s => s | VInt n => str_of_Z n | _ => "" end.
Definition ticker (v : pyval) : list string :=
  let s := strip (str_value v) in if String.eqb s "" then [] else [upper s].

Definition _required_subjects (readiness : dict) : list string :=
  match as_list (dget readiness "blocking_tickers") with
  | [] =>
      sorted_set (flat_map (fun item =>
        if truthy (dget (as_dict item) "accepted") then []
        else ticker (py_or (dget (as_dict item) "ticker") (VStr "")))
        (as_list (dget readiness "tickers")))
  | direct => sorted_set (flat_map ticker direct)
  end.

Definition processor_signature (readiness processor : dict) : string :=
  str_value (py_or (dget readiness "processor_signature")
    (py_or (dget processor "active_signature")
      (py_or (dget processor "deployed_signature") (VStr "unknown")))).

Definition prepare_sec_readiness_dependency (ownership : option Z) (pipeline : PipelineRun)
    (diagnostics : dict) (resume_from_step : string) : ST Db.Db PipelineDependency :=
  let! _authority := st_lift (require_semantic_authority pipeline) in
  let! root := root_job ownership pipeline in
  let readiness := as_dict (dget diagnostics "readiness") in
  let processor := as_dict (dget diagnostics "processor") in
  let signature := processor_signature readiness processor in
  let subjects := _required_subjects readiness in
  let identity := json_sha256 (VDict
    [("pipeline_run_id", VInt (Pipeline.id pipeline)); ("dependency_type", VStr SEC_READINESS_DEPENDENCY);
     ("processor_signature", VStr signature); ("continuation_step", VStr resume_from_step);
     ("subjects", VList (map VStr subjects))]) in
  let key := ("pipeline:" ++ str_of_Z (Pipeline.id pipeline) ++ ":sec-readiness:" ++ identity)%string in
  let! db := st_get in
  match by_key key db with
  | Some existing => st_ret existing
  | None =>
      let dependency := Dependency.mk (next_dependency_id db) (Pipeline.id pipeline)
        SEC_READINESS_DEPENDENCY key "PENDING_ENQUEUE" subjects resume_from_step identity (Job.id root)
        None None (Job.worker_instance_id root)
        (Some [("processor_signature", VStr signature); ("readiness", VDict readiness);
               ("diagnostics", VDict diagnostics)]) None now now None in
      do! flush_dependency dependency in
      let! pipeline := transition_pipeline now pipeline "WAITING_DEPENDENCY" "pipeline_orchestrator"
        (mkTransitionArgs (Some resume_from_step) (Some "Waiting for automatic SEC preparation.")
           None None false false) in
      let! db := st_get in
      do! (match _pipeline_step db (Pipeline.id pipeline) resume_from_step with
           | Some step => do! transition_pipeline_step step "PENDING"
                                (Some "Waiting for automatic SEC preparation.") None None in st_ret tt
           | None => st_ret tt
           end) in
      do! st_modify (put_pipeline (Pipeline.set_result_json
            (Some (dict_update (result_of pipeline)
               [("pipeline_root_job_id", VInt (Job.id root));
                ("pipeline_dependency_id", VInt (Dependency.id dependency));
                ("dependency_type", VStr SEC_READINESS_DEPENDENCY);
                ("dependency_state", VStr (Dependency.state dependency));
                ("continuation_identity", VStr identity);
                ("repair_job_id", VNone); ("blocked_reason", VNone); ("blocked_diagnostics", VNone)]))
            pipeline)) in
      st_ret dependency
  end.

Definition authorized_pipeline (p : PipelineRun) : bool :=
  Authority.pipeline_execution_is_authorized pipeline_activation_min_id (Some p).

Definition sec_enqueue_args (db : Db.Db) (pipeline : PipelineRun) (d : PipelineDependency)
    (signature : string) : EnqueueArgs :=
  let '(parent, trigger) := enqueue_causality db (Some (Dependency.root_job_id d)) in
  mkEnqueue "SEC_READINESS_REPAIR"
    [("pipeline_run_id", VInt (Pipeline.id pipeline)); ("pipeline_dependency_id", VInt (Dependency.id d));
     ("processor_signature", VStr signature); ("resume_from_step", VStr (Dependency.continuation_step d))]
    (Some (Pipeline.upload_run_id pipeline)) 70 3 None
    (Some ("sec-readiness-repair:dependency:" ++ Dependency.continuation_identity d)%string)
    (Some ("pipeline:" ++ str_of_Z (Pipeline.id pipeline) ++ ":sec-readiness")%string)
    true false (Some (Dependency.root_job_id d)) (Some (Dependency.id d)) parent trigger.

Definition initial_progress (pipeline : PipelineRun) (child : BackgroundJob) (signature : string)
    (readiness : dict) (initial_ready total : Z) : dict :=
  [("pipeline_id", VInt (Pipeline.id pipeline)); ("run_id", VInt (Pipeline.upload_run_id pipeline));
   ("repair_job_id", VInt (Job.id child)); ("repair_stage", VStr "QUEUED");
   ("total_tickers", VInt total); ("ready_tickers", VInt initial_ready);
   ("initial_ready_tickers", VInt initial_ready);
   ("repairable_tickers", VInt (Z.max 0 (total - initial_ready)));
   ("repaired_tickers", VInt 0); ("unresolved_tickers", VList []);
   ("current_processor_signature", VStr signature); ("started_at", VNone);
   ("updated_at", VStr (dt_isoformat now)); ("last_error_code", VNone); ("last_error_detail", VNone);
   ("counts", py_or (dget readiness "counts") (VDict [])); ("telemetry", VDict [])].

Definition enqueue_sec_readiness_dependency (dependency_id : Z) : ST Db.Db (option BackgroundJob) :=
  let! db := st_get in
  match Db.dependencies db !! dependency_id with
  | None => st_raise "ValueError" ("Pipeline dependency " ++ str_of_Z dependency_id ++ " was not found.")%string
  | Some d =>
  match Db.pipelines db !! Dependency.pipeline_run_id d with
  | None => st_raise "ValueError"
      ("Pipeline run " ++ str_of_Z (Dependency.pipeline_run_id d) ++ " was not found.")%string
  | Some pipeline =>
      if negb (authorized_pipeline pipeline) then st_ret None
      else if smem (Pipeline.status pipeline) TERMINAL_PIPELINE_STATES
              || String.eqb (Pipeline.status pipeline) "CANCEL_REQUESTED" then
        do! flush_dependency (close "CANCELLED" now d) in
        do! (if String.eqb (Pipeline.status pipeline) "CANCEL_REQUESTED" then
               do! transition_pipeline now pipeline "CANCELLED" "dependency"
                     (mkTransitionArgs None
                        (Some "Pipeline cancellation completed before SEC child enqueue.") None None false false) in
               _cancel_incomplete_steps (Pipeline.id pipeline)
             else st_ret tt) in
        st_ret None
      else match Dependency.child_job_id d with
      | Some child_id =>
          match Db.jobs db !! child_id with
          | Some child => st_ret (Some child)
          | None => st_raise "ValueError" "PIPELINE_DEPENDENCY_CHILD_MISSING"
          end
      | None =>
          let retained := or_empty (Dependency.result_json d) in
          let signature := str_value (py_or (dget retained "processor_signature") (VStr "unknown")) in
          let! enqueued := enqueue_job now (sec_enqueue_args db pipeline d signature) in
          let child := enqueued.1 in
          let readiness := as_dict (dget retained "readiness") in
          let! initial_ready := st_lift (int_or_zero (dget readiness "ready_tickers")) in
          let! total := st_lift (int_or_zero (dget readiness "requested_tickers")) in
          let progress := initial_progress pipeline child signature readiness initial_ready total in
          let child := Job.set_operational_metadata_json
            (dict_update (Job.operational_metadata_json child) [("sec_repair", VDict progress)]) child in
          let! authority := st_lift (require_semantic_authority pipeline) in
          let! child := st_lift (on_owner (bind_semantic_authority authority (Some true)) child) in
          do! flush_job child in
          do! flush_dependency (touch "QUEUED" now (Dependency.set_child_job_id (Some (Job.id child)) d)) in
          do! st_modify (put_pipeline (Pipeline.set_result_json
                (Some (dict_update (result_of pipeline)
                   [("pipeline_dependency_id", VInt (Dependency.id d)); ("dependency_state", VStr "QUEUED");
                    ("repair_job_id", VInt (Job.id child)); ("sec_repair", VDict progress)])) pipeline)) in
          st_ret (Some child)
      end
  end
  end.

Definition mark_dependency_job_running (job_id : Z) : ST Db.Db unit :=
  let! db := st_get in
  match Db.jobs db !! job_id with
  | None => st_ret tt
  | Some job =>
      match Job.pipeline_dependency_id job ≫= (Db.dependencies db !!.) with
      | None => st_ret tt
      | Some d =>
          if bool_decide (Job.status job = RUNNING)
             && opt_id_eqb (Dependency.child_job_id d) (Some (Job.id job))
             && smem (Dependency.state d) ["QUEUED"; "RUNNING"]
          then flush_dependency (touch "RUNNING" now d)
          else st_ret tt
      end
  end.

(** ** Continuation *)

Definition continuation_args (db : Db.Db) (pipeline : PipelineRun) (d : PipelineDependency)
    (child : BackgroundJob) (context : dict) : EnqueueArgs :=
  let '(parent, trigger) := enqueue_causality db (Some (Job.id child)) in
  mkEnqueue "FULL_PIPELINE"
    (dict_update [("pipeline_run_id", VInt (Pipeline.id pipeline));
                  ("pipeline_dependency_id", VInt (Dependency.id d));
                  ("resume_from_step", VStr (Dependency.continuation_step d))] context)
    (Some (Pipeline.upload_run_id pipeline)) PIPELINE_JOB_PRIORITY PIPELINE_JOB_MAX_RETRIES None
    (Some ("resume-pipeline:dependency:" ++ Dependency.continuation_identity d)%string)
    (Some ("pipeline:" ++ str_of_Z (Pipeline.id pipeline) ++ ":dependency-continuation")%string)
    true false (Some (Dependency.root_job_id d)) (Some (Dependency.id d)) parent trigger.

Definition _enqueue_dependency_continuation (pipeline : PipelineRun) (d : PipelineDependency)
    (child : BackgroundJob) : ST Db.Db BackgroundJob :=
  let! db := st_get in
  match Dependency.continuation_job_id d with
  | Some id =>
      match Db.jobs db !! id with
      | Some existing => st_ret existing
      | None => st_raise "ValueError" "PIPELINE_DEPENDENCY_CONTINUATION_MISSING"
      end
  | None =>
      let! context := st_lift (pipeline_context_payload db pipeline) in
      let! enqueued := enqueue_job now (continuation_args db pipeline d child context) in
      let! authority := st_lift (require_semantic_authority pipeline) in
      let! continuation := st_lift (on_owner (bind_semantic_authority authority None) enqueued.1) in
      do! flush_job continuation in
      let d' := Dependency.set_updated_at now
                  (Dependency.set_continuation_job_id (Some (Job.id continuation)) d) in
      do! flush_dependency d' in
      let! pipeline := transition_pipeline now pipeline "QUEUED" "dependency"
        (mkTransitionArgs (Some (Dependency.continuation_step d))
           (Some "SEC preparation completed; pipeline continuation queued.") None None false false) in
      let! db := st_get in
      do! (match _pipeline_step db (Pipeline.id pipeline) (Dependency.continuation_step d) with
           | Some step => do! transition_pipeline_step step "PENDING"
                                (Some "SEC preparation completed; continuing pipeline.") None None in st_ret tt
           | None => st_ret tt
           end) in
      do! st_modify (put_pipeline (Pipeline.set_result_json
            (Some (dict_update (result_of pipeline)
               [("background_job_id", VInt (Job.id continuation));
                ("dependency_state", VStr (Dependency.state d'));
                ("continuation_job_id", VInt (Job.id continuation));
                ("resume_from_step", VStr (Dependency.continuation_step d'));
                ("blocked_reason", VNone); ("blocked_diagnostics", VNone)])) pipeline)) in
      st_ret continuation
  end.

(** The result of the pipeline with the repair progress of its completed child. *)
Definition projected_result (pipeline : PipelineRun) (job : BackgroundJob) : PipelineRun :=
  let child_result := or_empty (Job.result_json job) in
  let child_repair := as_dict (dget (Job.operational_metadata_json job) "sec_repair") in
  let readiness := as_dict (dget child_result "readiness") in
  let telemetry := as_dict (dget child_result "telemetry") in
  match child_repair, readiness, telemetry with
  | [], [], [] => pipeline
  | _, _, _ =>
      let projected := dict_update (dict_update (dict_update
        (as_dict (dget (result_of pipeline) "sec_repair")) child_repair) readiness)
        [("repair_stage", VStr "COMPLETED"); ("last_error_code", VNone); ("last_error_detail", VNone);
         ("updated_at", VStr (dt_isoformat now))] in
      let projected := match telemetry with [] => projected
                       | _ => dict_set "telemetry" (VDict telemetry) projected end in
      Pipeline.set_result_json (Some (dict_set "sec_repair" (VDict projected) (result_of pipeline))) pipeline
  end.

Definition in_scope (p : PipelineRun) : bool :=
  Authority.pipeline_is_in_activation_scope pipeline_activation_min_id (Some p).

(** The outcome of the child of a dependency. *)
Definition child_completed (pipeline : PipelineRun) (d : PipelineDependency) (job : BackgroundJob)
  : ST Db.Db unit :=
  let d' := Dependency.set_result_json
    (Some (dict_set "child_result" (VDict (or_empty (Job.result_json job)))
             (or_empty (Dependency.result_json d)))) (close "COMPLETED" now d) in
  let pipeline := projected_result pipeline job in
  do! flush_dependency d' in
  do! st_modify (put_pipeline pipeline) in
  if smem (Pipeline.status pipeline) TERMINAL_PIPELINE_STATES then st_ret tt
  else if String.eqb (Pipeline.status pipeline) "CANCEL_REQUESTED" then
    do! transition_pipeline now pipeline "CANCELLED" "dependency"
          (mkTransitionArgs None
             (Some "Pipeline cancellation completed after SEC preparation stopped.") None None false false) in
    _cancel_incomplete_steps (Pipeline.id pipeline)
  else do! _enqueue_dependency_continuation pipeline d' job in st_ret tt.

Definition child_failed (pipeline : PipelineRun) (d : PipelineDependency) (job : BackgroundJob)
    (target : string) : ST Db.Db unit :=
  do! flush_dependency (Dependency.set_error_message (Job.error_message job) (close "FAILED" now d)) in
  if smem (Pipeline.status pipeline) TERMINAL_PIPELINE_STATES then st_ret tt
  else
    let! db := st_get in
    do! (match _pipeline_step db (Pipeline.id pipeline) (Dependency.continuation_step d) with
         | Some step => do! transition_pipeline_step step target
                              (Some "Automatic SEC preparation failed.") (Job.error_message job) (Some now) in
                        st_ret tt
         | None => st_ret tt
         end) in
    do! transition_pipeline now pipeline target "dependency"
          (mkTransitionArgs None (Some "Automatic SEC preparation failed.") (Job.error_message job)
             None false false) in
    st_ret tt.

Definition child_cancelled (pipeline : PipelineRun) (d : PipelineDependency) : ST Db.Db unit :=
  do! flush_dependency (close "CANCELLED" now d) in
  if smem (Pipeline.status pipeline) TERMINAL_PIPELINE_STATES then st_ret tt
  else
    do! transition_pipeline now pipeline "CANCELLED" "dependency"
          (mkTransitionArgs None (Some "Pipeline cancelled while waiting for SEC preparation.")
             None None false false) in
    _cancel_incomplete_steps (Pipeline.id pipeline).

Definition _reconcile_dependency_job (job : BackgroundJob) : ST Db.Db unit :=
  let! db := st_get in
  match Job.pipeline_dependency_id job ≫= (Db.dependencies db !!.) with
  | None => st_ret tt
  | Some d =>
      match Db.pipelines db !! Dependency.pipeline_run_id d with
      | None => st_ret tt
      | Some pipeline =>
          if negb (in_scope pipeline) then st_ret tt
          else if negb (opt_id_eqb (Some (Job.id job)) (Dependency.child_job_id d)) then st_ret tt
          else match Job.status job with
               | RUNNING => flush_dependency (touch "RUNNING" now d)
               | QUEUED => flush_dependency (touch "QUEUED" now d)
               | COMPLETED => child_completed pipeline d job
               | FAILED => child_failed pipeline d job "FAILED"
               | BLOCKED => child_failed pipeline d job "BLOCKED"
               | CANCELLED => child_cancelled pipeline d
               | PARTIAL | STALE | STALLED | RECOVERING => st_ret tt
               end
      end
  end.

(** ** The root job *)

Definition _root_has_active_dependency_handoff (db : Db.Db) (pipeline : PipelineRun)
    (root : BackgroundJob) : bool :=
  let expected := if String.eqb (Pipeline.status pipeline) "WAITING_DEPENDENCY"
                  then Some SEC_READINESS_DEPENDENCY
                  else if String.eqb (Pipeline.status pipeline) "WAITING_FOR_CERI_COMPLETION"
                  then Some CERI_WORKFLOW_DEPENDENCY else None in
  match expected with
  | None => false
  | Some t =>
      let active := List.filter (fun d =>
        (Dependency.pipeline_run_id d =? Pipeline.id pipeline)
        && (Dependency.root_job_id d =? Job.id root)
        && String.eqb (Dependency.dependency_type d) t
        && smem (Dependency.state d) DEPENDENCY_ACTIVE_STATES) (dependencies_by_id db) in
      Z.of_nat (length active) =? 1
  end.

Definition _reconcile_pipeline_root_job (job : BackgroundJob) : ST Db.Db unit :=
  let! pipeline_id := st_lift (int_or_zero (dget (Job.payload_json job) "pipeline_run_id")) in
  if pipeline_id =? 0 then st_ret tt
  else
    let! db := st_get in
    match Db.pipelines db !! pipeline_id with
    | None => st_ret tt
    | Some pipeline =>
        if negb (in_scope pipeline) || smem (Pipeline.status pipeline) TERMINAL_PIPELINE_STATES then st_ret tt
        else if String.eqb (Pipeline.status pipeline) "CANCEL_REQUESTED" then st_ret tt
        else match Job.status job with
             | CANCELLED =>
                 do! transition_pipeline now pipeline "CANCELLED" "pipeline_orchestrator"
                       (mkTransitionArgs None (Some "Pipeline cancellation completed.") None None false false) in
                 _cancel_incomplete_steps (Pipeline.id pipeline)
             | FAILED =>
                 do! transition_pipeline now pipeline "FAILED" "pipeline_orchestrator"
                       (mkTransitionArgs None (Some "Pipeline execution failed.") (Job.error_message job)
                          None false false) in st_ret tt
             | BLOCKED =>
                 do! transition_pipeline now pipeline "BLOCKED" "pipeline_orchestrator"
                       (mkTransitionArgs None (Some "Pipeline execution failed.") (Job.error_message job)
                          None false false) in st_ret tt
             | COMPLETED =>
                 if _root_has_active_dependency_handoff db pipeline job then st_ret tt
                 else
                   do! transition_pipeline now pipeline "FAILED" "pipeline_orchestrator"
                         (mkTransitionArgs None
                            (Some "Pipeline root completed without a terminal pipeline transition.")
                            (Some "PIPELINE_ROOT_TERMINAL_WITH_ACTIVE_PIPELINE") None false false) in
                   st_ret tt
             | _ => st_ret tt
             end
    end.

Definition job_authorized (db : Db.Db) (job : BackgroundJob) : bool :=
  Authority.job_execution_authority_predicate pipeline_activation_min_id job_activation_min_id db job.

Definition reconcile_pipeline_job (job_id : Z) : ST Db.Db unit :=
  let! db := st_get in
  match Db.jobs db !! job_id with
  | None => st_ret tt
  | Some job =>
      if negb (job_authorized db job) then st_ret tt
      else
        do! (if bool_decide (is_Some (Job.pipeline_dependency_id job))
             then _reconcile_dependency_job job else st_ret tt) in
        if String.eqb (Job.job_type job) "FULL_PIPELINE" then _reconcile_pipeline_root_job job else st_ret tt
  end.

(** ** Crash gaps *)

(** The rows of a query on dependencies and their pipelines. *)
Definition open_pipeline (ids : option (list Z)) (p : PipelineRun) : bool :=
  Authority.pipeline_activation_predicate pipeline_activation_min_id p
  && match ids with Some l => bool_decide (Pipeline.id p ∈ l) | None => true end
  && bool_decide (Pipeline.execution_authority_state p = Some "ACTIVE")
  && negb (smem (Pipeline.status p) TERMINAL_PIPELINE_STATES
           || String.eqb (Pipeline.status p) "CANCEL_REQUESTED").

Definition selected_dependencies (db : Db.Db) (locked : Z -> bool) (ids : option (list Z))
    (p : PipelineDependency -> bool) : list PipelineDependency :=
  List.filter (fun d => p d && negb (locked (Dependency.id d))
                        && match Db.pipelines db !! Dependency.pipeline_run_id d with
                           | Some pipeline => open_pipeline ids pipeline
                           | None => false
                           end) (dependencies_by_id db).

Definition reconcile_pending_dependency_enqueues (locked : Z -> bool) (ids : option (list Z))
  : ST Db.Db (list Z) :=
  let! db := st_get in
  st_fold (selected_dependencies db locked ids
             (fun d => String.eqb (Dependency.state d) "PENDING_ENQUEUE")) []
    (fun created d =>
       let! child := enqueue_sec_readiness_dependency (Dependency.id d) in
       st_ret (created ++ match child with Some c => [Job.id c] | None => [] end)).

(** [_active_pipeline_control_job_ids] of [pipeline_service.py]; the ids of the result
    column are integers. *)
Definition control_candidates (db : Db.Db) (pipeline : PipelineRun) : list Z :=
  let named := flat_map (fun key => match py_int (dget (result_of pipeline) key) with
                                    | Some n => [n] | None => [] end)
                 ["background_job_id"; "repair_job_id"; "continuation_job_id"] in
  let linked := map Job.id (List.filter (fun j =>
    match Job.pipeline_dependency_id j ≫= (Db.dependencies db !!.) with
    | Some d => Dependency.pipeline_run_id d =? Pipeline.id pipeline
    | None => false
    end) (job_rows db)) in
  remove_dups (named ++ linked).

Definition _active_pipeline_control_job_ids (db : Db.Db) (pipeline_id : Z) : list Z :=
  match Db.pipelines db !! pipeline_id with
  | None => []
  | Some pipeline =>
      List.filter (fun i => match Db.jobs db !! i with
                            | Some j => status_in (Job.status j) [QUEUED; RUNNING]
                            | None => false
                            end) (sort_by Z.leb (control_candidates db pipeline))
  end.

Definition cancel_active_dependencies (pipeline_id : Z) : ST Db.Db unit :=
  let! db := st_get in
  st_for (List.filter (fun d => (Dependency.pipeline_run_id d =? pipeline_id)
                                && smem (Dependency.state d) DEPENDENCY_ACTIVE_STATES) (dependencies_by_id db))
    (fun d => flush_dependency (close "CANCELLED" now d)).

Definition finish_cancellation (pipeline : PipelineRun) : ST Db.Db unit :=
  do! transition_pipeline now pipeline "CANCELLED" "pipeline_orchestrator"
        (mkTransitionArgs None
           (Some "Pipeline cancellation completed by deterministic reconciliation.") None None false false) in
  do! _cancel_incomplete_steps (Pipeline.id pipeline) in
  cancel_active_dependencies (Pipeline.id pipeline).

Definition pipelines_by_id (db : Db.Db) : list PipelineRun :=
  sort_by (fun a b => Pipeline.id a <=? Pipeline.id b) (map snd (map_to_list (Db.pipelines db))).

Definition reconcile_safe_pipeline_invariants (locked : Z -> bool) (ids : option (list Z))
  : ST Db.Db (list Z * list Z * list Z) :=
  if bool_decide (ids = Some []) then st_ret ([], [], [])
  else
    let! children := reconcile_pending_dependency_enqueues locked ids in
    let! db := st_get in
    let! continuations := st_fold
      (selected_dependencies db locked ids (fun d =>
         smem (Dependency.state d) (DEPENDENCY_ACTIVE_STATES ++ ["COMPLETED"])
         && bool_decide (is_Some (Dependency.child_job_id d))
         && bool_decide (Dependency.continuation_job_id d = None))) []
      (fun acc d =>
         let! db := st_get in
         match Dependency.child_job_id d ≫= (Db.jobs db !!.) with
         | None => st_ret acc
         | Some child =>
             if bool_decide (Job.status child = COMPLETED) then
               do! _reconcile_dependency_job child in
               let! db := st_get in
               st_ret (acc ++ match Db.dependencies db !! Dependency.id d ≫= Dependency.continuation_job_id with
                              | Some c => [c] | None => [] end)
             else st_ret acc
         end) in
    let! db := st_get in
    let! cancelled := st_fold
      (List.filter (fun p => String.eqb (Pipeline.status p) "CANCEL_REQUESTED"
         && Authority.pipeline_activation_predicate pipeline_activation_min_id p
         && match ids with Some l => bool_decide (Pipeline.id p ∈ l) | None => true end
         && negb (locked (Pipeline.id p))) (pipelines_by_id db)) []
      (fun acc p =>
         let! db := st_get in
         match _active_pipeline_control_job_ids db (Pipeline.id p) with
         | [] => do! finish_cancellation p in st_ret (acc ++ [Pipeline.id p])
         | _ => st_ret acc
         end) in
    st_ret (children, continuations, cancelled).

(** ** Cancellation by the user: [pipeline_service.cancel_pipeline] *)

Definition _cancel_pending_steps (pipeline_run_id : Z) (db : Db.Db) : Db.Db :=
  Db.set_steps (map (fun step =>
    if (Step.pipeline_run_id step =? pipeline_run_id) && String.eqb (Step.status step) "PENDING"
    then Step.set_completed_at (Some now) (Step.set_status "CANCELLED" step) else step) (Db.steps db)) db.

(** [contended None] is a lock timeout on the row of the pipeline, [contended (Some i)] one
    on the row of job [i].  Every step before it has been committed. *)
Definition cancel_pipeline (contended : option Z -> bool) (pipeline_run_id : Z) : ST Db.Db PipelineRun :=
  let missing := st_raise "ValueError"
    ("Pipeline run " ++ str_of_Z pipeline_run_id ++ " was not found.")%string in
  let busy {A} : ST Db.Db A := st_raise "PipelineCancellationContended" "lock timeout" in
  if contended None then busy
  else
    let! db := st_get in
    match Db.pipelines db !! pipeline_run_id with
    | None => missing
    | Some pipeline =>
        if smem (Pipeline.status pipeline) TERMINAL_PIPELINE_STATES then st_ret pipeline
        else
          do! transition_pipeline now pipeline "CANCEL_REQUESTED" "user_control"
                (mkTransitionArgs None (Some "Pipeline cancellation requested.") None None false false) in
          let! db := st_get in
          do! st_for (_active_pipeline_control_job_ids db pipeline_run_id) (fun job_id =>
                if contended (Some job_id) then busy
                else do! request_job_cancel now job_id in st_ret tt) in
          let! db := st_get in
          match Db.pipelines db !! pipeline_run_id with
          | None => missing
          | Some pipeline =>
              if smem (Pipeline.status pipeline) TERMINAL_PIPELINE_STATES then st_ret pipeline
              else match _active_pipeline_control_job_ids db pipeline_run_id with
                   | [] =>
                       let! pipeline := transition_pipeline now pipeline "CANCELLED" "pipeline_orchestrator"
                         (mkTransitionArgs None (Some "Pipeline cancellation completed.") None None false false) in
                       do! st_modify (_cancel_pending_steps pipeline_run_id) in
                       do! cancel_active_dependencies pipeline_run_id in
                       st_ret pipeline
                   | _ => st_ret pipeline
                   end
          end
    end.

End Dependencies.
