(* ===== verification/DependencyFacts.v ===== *)
(** * What the pipeline dependencies guarantee

    Over every sequence of the operations of [pipeline_dependency_service] and of
    [cancel_pipeline]: the rows keep their identity, a SEC dependency keeps the child and
    the continuation it was given, no two rows share a child or a continuation, and at
    most one row per pipeline and type is active. *)
From Stdlib Require Import ZArith Lia List String Ascii Bool.
From stdpp Require Import base gmap list strings relations.
From S2P Require Import Prelude PyDate PyFloat PyValue Tables Queues Redaction.
From S2P Require Import PipelineStates JobRows JobLease JobQueue SemanticAuthority PipelineDependencies.
Local Open Scope string_scope.
Local Open Scope list_scope.
Local Open Scope Z_scope.
Local Open Scope st_scope.

(** ** The invariant of the table *)

Definition is_sec (d : PipelineDependency) : bool :=
  String.eqb (Dependency.dependency_type d) SEC_READINESS_DEPENDENCY.

(** A SEC dependency has a child exactly when it was enqueued, and a continuation only
    after a child. *)
Record dep_ok (d : PipelineDependency) : Prop := mk_dep_ok {
  dep_waits : is_sec d = true -> Dependency.child_job_id d = None ->
    In (Dependency.state d) ["PENDING_ENQUEUE"; "CANCELLED"];
  dep_enqueued : is_sec d = true -> is_Some (Dependency.child_job_id d) ->
    Dependency.state d <> "PENDING_ENQUEUE";
  dep_continues : is_sec d = true -> is_Some (Dependency.continuation_job_id d) ->
    is_Some (Dependency.child_job_id d);
}.

Record deps_ok (D : gmap Z PipelineDependency) : Prop := mk_deps_ok {
  deps_keyed i d : D !! i = Some d -> Dependency.id d = i;
  deps_rows i d : D !! i = Some d -> dep_ok d;
  deps_unique i j d e : D !! i = Some d -> D !! j = Some e -> i <> j -> dependency_conflicts d e = false;
}.

(** What no operation changes: the identity of a row, and the links of a SEC dependency. *)
Record forward (d e : PipelineDependency) : Prop := mk_forward {
  fwd_id : Dependency.id e = Dependency.id d;
  fwd_pipeline : Dependency.pipeline_run_id e = Dependency.pipeline_run_id d;
  fwd_type : Dependency.dependency_type e = Dependency.dependency_type d;
  fwd_key : Dependency.dependency_key e = Dependency.dependency_key d;
  fwd_subjects : Dependency.required_subjects_json e = Dependency.required_subjects_json d;
  fwd_step : Dependency.continuation_step e = Dependency.continuation_step d;
  fwd_identity : Dependency.continuation_identity e = Dependency.continuation_identity d;
  fwd_root : Dependency.root_job_id e = Dependency.root_job_id d;
  fwd_created : Dependency.created_at e = Dependency.created_at d;
  fwd_child : is_sec d = true -> is_Some (Dependency.child_job_id d) ->
    Dependency.child_job_id e = Dependency.child_job_id d;
  fwd_continuation : is_sec d = true -> is_Some (Dependency.continuation_job_id d) ->
    Dependency.continuation_job_id e = Dependency.continuation_job_id d;
}.

#[export] Instance forward_refl : Reflexive forward.
Proof. intros d. by split. Qed.
#[export] Instance forward_trans : Transitive forward.
Proof.
  intros a b c [] []. split; try congruence.
  - intros Hs Hc. assert (is_sec b = true) by (unfold is_sec in *; congruence).
    rewrite <- fwd_child0 by done. apply fwd_child1; [done|]. by rewrite fwd_child0.
  - intros Hs Hc. assert (is_sec b = true) by (unfold is_sec in *; congruence).
    rewrite <- fwd_continuation0 by done. apply fwd_continuation1; [done|]. by rewrite fwd_continuation0.
Qed.

Definition grows (D E : gmap Z PipelineDependency) : Prop :=
  forall i d, D !! i = Some d -> exists e, E !! i = Some e /\ forward d e.
#[export] Instance grows_refl : Reflexive grows.
Proof. intros D i d H. exists d. split; [done|reflexivity]. Qed.
#[export] Instance grows_trans : Transitive grows.
Proof.
  intros D E F H1 H2 i d Hd. destruct (H1 i d Hd) as (e & He & Hde). destruct (H2 i e He) as (f & Hf & Hef).
  exists f. split; [done|]. by etransitivity.
Qed.

(** ** Operations that leave the table alone *)

Definition stays {A} (m : ST Db.Db A) : Prop :=
  forall D, preserves (fun db => Db.dependencies db = D) m.

Create HintDb stays.

Ltac stay := unfold stays; intros ?; preserve; eauto with stays.

Lemma stays_modify f : (forall db, Db.dependencies (f db) = Db.dependencies db) -> stays (st_modify f).
Proof. intros Hf D. apply preserves_modify. intros db <-. apply Hf. Qed.
Lemma stays_elim {A} (m : ST Db.Db A) D : stays m -> preserves (fun db => Db.dependencies db = D) m.
Proof. auto. Qed.
#[export] Hint Resolve stays_elim : stays.

Lemma put_pipeline_deps p db : Db.dependencies (put_pipeline p db) = Db.dependencies db.
Proof. by destruct db. Qed.
Lemma stays_put_pipeline p : stays (st_modify (put_pipeline p)).
Proof. apply stays_modify, put_pipeline_deps. Qed.
Lemma stays_flush_job j : stays (flush_job j).
Proof.
  intros D db r db' Hd. unfold flush_job, st_raise. destruct (unique_ok _ _); intros [= <- <-]; [|done].
  by destruct db.
Qed.
#[export] Hint Resolve stays_put_pipeline stays_flush_job : stays.

Lemma stays_transition now p t a args : stays (transition_pipeline now p t a args).
Proof.
  intros D db r db' Hd H. apply transition_pipeline_inv in H. destruct r as [?|[]]; [|naive_solver..].
  destruct H as (_ & _ & _ & _ & Hdeps & _). congruence.
Qed.
Lemma stays_step s t m e c : stays (transition_pipeline_step s t m e c).
Proof.
  unfold transition_pipeline_step. stay. apply stays_elim, stays_modify. intros []. done.
Qed.
#[export] Hint Resolve stays_transition stays_step : stays.

Lemma stays_for {A} (xs : list A) body : (forall x, In x xs -> stays (body x)) -> stays (st_for xs body).
Proof.
  intros Hb D. induction xs as [|x xs IH]; cbn [st_for]; [apply preserves_ret|].
  apply preserves_bind; [by apply Hb; left|]. intros _. apply IH. intros; apply Hb. by right.
Qed.

Section Table.
Context `{Coll : Collaborators} `{DC : DependencyCollaborators} (now : datetime).

Lemma stays_enqueue a : stays (enqueue_job now a).
Proof.
  unfold enqueue_job, enqueue_from. stay. apply stays_elim, stays_modify. intros []. done.
Qed.

Lemma stays_cancel_steps i : stays (_cancel_incomplete_steps now i).
Proof.
  unfold _cancel_incomplete_steps. unfold stays. intros D. apply preserves_get. intros db _.
  apply stays_for. intros s _. stay.
Qed.

(** The lease holder's part of a cancellation. *)
Definition session_stays {A} (m : ST Session A) : Prop :=
  forall D, preserves (fun s => Db.dependencies (sdb s) = D) m.

Lemma session_on_db {A} (m : ST Db.Db A) : stays m -> session_stays (on_db m).
Proof.
  intros Hm D s r s' Hs H. unfold on_db in H. destruct (m (sdb s)) as [r1 db] eqn:E. simplify_eq.
  cbn. by eapply Hm.
Qed.
Lemma session_set_local j : session_stays (set_local j).
Proof. intros D. apply preserves_modify. done. Qed.
Lemma session_elim {A} (m : ST Session A) D :
  session_stays m -> preserves (fun s => Db.dependencies (sdb s) = D) m.
Proof. auto. Qed.
Hint Resolve session_on_db session_set_local session_elim stays_flush_job : stays.

Lemma session_lease_loss t : session_stays (_record_local_lease_loss now t).
Proof. intros D. by apply preserves_modify. Qed.
Hint Resolve session_lease_loss : stays.

Lemma session_cancelled r t : session_stays (mark_job_cancelled now r t).
Proof.
  unfold mark_job_cancelled, _finish_job, _apply_running_job_update, JobLeaseLost, session_stays.
  intros D. preserve; eauto 6 with stays.
Qed.

Lemma stays_cancel i : stays (request_job_cancel now i).
Proof.
  unfold request_job_cancel, _finalize_recovery_cancellation. stay.
  unfold as_holder. intros db0 r db' Hd Hrun.
  destruct (mark_job_cancelled _ _ _ _) as [r1 s1] eqn:Hm. injection Hrun as <- <-.
  by eapply (session_cancelled _ _ _ (mkSession db0 _)).
Qed.
Hint Resolve stays_enqueue stays_cancel_steps stays_cancel : stays.

(** ** Operations that write the table *)

(** [moves D m]: from the table [D], in order, [m] leaves a table in order that
    continues [D]. *)
Definition moves {A} (D : gmap Z PipelineDependency) (m : ST Db.Db A) : Prop :=
  deps_ok D -> forall db r db', Db.dependencies db = D -> m db = (r, db') ->
  deps_ok (Db.dependencies db') /\ grows D (Db.dependencies db').

Lemma moves_stays {A} D (m : ST Db.Db A) : stays m -> moves D m.
Proof. intros Hm Hok db r db' Hd H. rewrite (Hm D db r db' Hd H). split; [done|reflexivity]. Qed.

Lemma moves_bind_stays {A B} D (m : ST Db.Db A) (f : A -> ST Db.Db B) :
  stays m -> (forall a, moves D (f a)) -> moves D (st_bind m f).
Proof.
  intros Hm Hf Hok db r db' Hd H. unfold st_bind in H. destruct (m db) as [[a|e] db1] eqn:E.
  - eapply Hf; [done| |exact H]. by eapply Hm.
  - simplify_eq. rewrite (Hm _ _ _ _ eq_refl E). split; [done|reflexivity].
Qed.

Lemma moves_bind {A B} D (m : ST Db.Db A) (f : A -> ST Db.Db B) :
  moves D m -> (forall a E, moves E (f a)) -> moves D (st_bind m f).
Proof.
  intros Hm Hf Hok db r db' Hd H. unfold st_bind in H. destruct (m db) as [[a|e] db1] eqn:E.
  - destruct (Hm Hok _ _ _ Hd E) as [Hok1 Hg1]. destruct (Hf a _ Hok1 _ _ _ eq_refl H) as [Hok2 Hg2].
    split; [done|]. by etransitivity.
  - simplify_eq. by apply (Hm Hok _ _ _ eq_refl E).
Qed.

Lemma moves_get {B} D (f : Db.Db -> ST Db.Db B) :
  (forall db, Db.dependencies db = D -> moves D (f db)) -> moves D (st_bind st_get f).
Proof. intros Hf Hok db r db' Hd H. unfold st_bind, st_get in H. by eapply Hf. Qed.

Lemma moves_assume {A} D (m : ST Db.Db A) : (deps_ok D -> moves D m) -> moves D m.
Proof. intros Hm Hok. by apply Hm. Qed.

Lemma moves_fold {A B} (xs : list A) (body : B -> A -> ST Db.Db B) :
  (forall D acc x, In x xs -> moves D (body acc x)) -> forall D acc, moves D (st_fold xs acc body).
Proof.
  induction xs as [|x xs IH]; intros Hb D acc; cbn [st_fold].
  - apply moves_stays. intros ?. apply preserves_ret.
  - apply moves_bind; [apply Hb; by left|]. intros a E. apply IH. intros; apply Hb. by right.
Qed.

(** The rows of the table. *)
Lemma dependencies_by_id_In db d :
  In d (dependencies_by_id db) <-> exists i, Db.dependencies db !! i = Some d.
Proof.
  unfold dependencies_by_id. rewrite sort_by_In, in_map_iff. split.
  - intros ([i e] & <- & Hin). apply list_elem_of_In, elem_of_map_to_list in Hin. eauto.
  - intros [i Hi]. exists (i, d). split; [done|]. apply list_elem_of_In, elem_of_map_to_list, Hi.
Qed.

Lemma conflicts_sym d e : dependency_conflicts d e = dependency_conflicts e d.
Proof.
  unfold dependency_conflicts.
  rewrite (String.eqb_sym (Dependency.dependency_key d)), (String.eqb_sym (Dependency.continuation_identity d)),
    (String.eqb_sym (Dependency.dependency_type d)), (Z.eqb_sym (Dependency.pipeline_run_id d)).
  assert (forall a b, opt_id_eqb a b = opt_id_eqb b a) as Ho.
  { intros [] []; simpl; try done. apply Z.eqb_sym. }
  rewrite (Ho (Dependency.child_job_id d)), (Ho (Dependency.continuation_job_id d)).
  f_equal. rewrite <- !andb_assoc. do 2 f_equal. apply andb_comm.
Qed.

(** A row may replace the one it continues, or be new. *)
Definition replaces (D : gmap Z PipelineDependency) (e : PipelineDependency) : Prop :=
  dep_ok e /\ (D !! Dependency.id e = None \/ exists d, D !! Dependency.id e = Some d /\ forward d e).

Lemma flush_moves D e :
  replaces D e ->
  forall db r db', deps_ok D -> Db.dependencies db = D -> flush_dependency e db = (r, db') ->
  (db' = db /\ exists x, r = Raise x) \/
  (r = Ok tt /\ Db.dependencies db' = <[Dependency.id e := e]> D /\
   deps_ok (<[Dependency.id e := e]> D) /\ grows D (<[Dependency.id e := e]> D)).
Proof.
  intros [He Hrep] db r db' Hok Hd. unfold flush_dependency, raise.
  destruct (forallb _ _) eqn:Hall; intros [= <- <-]; [right|left; eauto].
  rewrite forallb_forall in Hall.
  assert (forall i d, D !! i = Some d -> i <> Dependency.id e -> dependency_conflicts d e = false) as Hc.
  { intros i d Hi Hne. specialize (Hall d). rewrite dependencies_by_id_In, Hd in Hall.
    specialize (Hall ltac:(eauto)). rewrite (deps_keyed _ Hok _ _ Hi) in Hall.
    destruct (Z.eqb_spec i (Dependency.id e)); [done|]. simpl in Hall. by apply negb_true_iff. }
  assert (Db.dependencies (put_dependency e db) = <[Dependency.id e := e]> D) as ->.
  { destruct db. simpl in *. congruence. }
  split_and!; try done.
  - split.
    + intros i d. rewrite lookup_insert_Some. intros [[<- <-]|[_ Hi]]; [done|]. by apply (deps_keyed _ Hok).
    + intros i d. rewrite lookup_insert_Some. intros [[_ <-]|[_ Hi]]; [done|]. by eapply (deps_rows _ Hok).
    + intros i j d d'. rewrite !lookup_insert_Some.
      intros [[<- <-]|[Hi1 Hi]] [[<- <-]|[Hj1 Hj]] Hne; [done| | |by eapply (deps_unique _ Hok)].
      * rewrite conflicts_sym. by eapply Hc.
      * by eapply Hc.
  - intros i d Hi. destruct (decide (i = Dependency.id e)) as [->|Hne].
    + rewrite lookup_insert_eq. exists e. split; [done|].
      destruct Hrep as [Hn|(d0 & Hd0 & Hf)]; congruence.
    + rewrite lookup_insert_ne by done. exists d. split; [done|reflexivity].
Qed.

Lemma moves_flush D e : replaces D e -> moves D (flush_dependency e).
Proof.
  intros Hr Hok db r db' Hd H.
  destruct (flush_moves D e Hr db r db' Hok Hd H) as [[-> _]|(_ & -> & Hok' & Hg)]; [|done].
  rewrite Hd. split; [done|reflexivity].
Qed.

Lemma moves_flush_bind {A} D e (f : unit -> ST Db.Db A) :
  replaces D e -> moves (<[Dependency.id e := e]> D) (f tt) -> moves D (st_bind (flush_dependency e) f).
Proof.
  intros Hr Hf Hok db r db' Hd H. unfold st_bind in H.
  destruct (flush_dependency e db) as [r1 db1] eqn:E.
  destruct (flush_moves D e Hr db r1 db1 Hok Hd E) as [[-> [x ->]]|(-> & Hd1 & Hok' & Hg)].
  - simplify_eq. split; [done|reflexivity].
  - destruct (Hf Hok' _ _ _ Hd1 H) as [Hok2 Hg2]. split; [done|]. by etransitivity.
Qed.

(** ** Rows that may be written *)

Lemma row_at D i d : deps_ok D -> D !! i = Some d -> D !! Dependency.id d = Some d.
Proof. intros Hok Hi. by rewrite (deps_keyed _ Hok _ _ Hi). Qed.

Lemma no_child_no_continuation D i d :
  deps_ok D -> D !! i = Some d -> is_sec d = true -> Dependency.child_job_id d = None ->
  Dependency.continuation_job_id d = None.
Proof.
  intros Hok Hi Hs Hc. destruct (Dependency.continuation_job_id d) eqn:E; [|done].
  destruct (dep_continues d (deps_rows _ Hok _ _ Hi) Hs) as [x Hx]; [by rewrite E|congruence].
Qed.

(** The new state of a row that is no longer waiting for its child. *)
Lemma replaces_row D d e :
  D !! Dependency.id d = Some d -> forward d e -> Dependency.state e <> "PENDING_ENQUEUE" ->
  (is_sec e = true -> is_Some (Dependency.child_job_id e) \/
     (Dependency.state e = "CANCELLED" /\ Dependency.continuation_job_id e = None)) ->
  replaces D e.
Proof.
  intros Hd Hf Hst Hc. split; [|right; exists d; split; [|done]].
  - split; intros Hs; destruct (Hc Hs) as [Hch|[Hcan Hco]]; try done.
    + intros E. rewrite E in Hch. by destruct Hch.
    + intros _. rewrite Hcan. simpl. tauto.
    + rewrite Hco. by intros [].
  - by rewrite (fwd_id _ _ Hf).
Qed.

Lemma touch_forward st d : forward d (touch st now d).
Proof. destruct d. by split. Qed.
Lemma close_forward st d : forward d (close st now d).
Proof. destruct d. by split. Qed.
Lemma set_result_forward r d : forward d (Dependency.set_result_json r d).
Proof. destruct d. by split. Qed.
Lemma set_error_forward r d : forward d (Dependency.set_error_message r d).
Proof. destruct d. by split. Qed.

Lemma touch_replaces D d st :
  D !! Dependency.id d = Some d -> is_Some (Dependency.child_job_id d) -> st <> "PENDING_ENQUEUE" ->
  replaces D (touch st now d).
Proof.
  intros Hd Hc Hst. apply (replaces_row _ d); [done|apply touch_forward|by destruct d|].
  left. by destruct d.
Qed.

Lemma close_replaces D d e st :
  D !! Dependency.id d = Some d -> is_Some (Dependency.child_job_id d) -> st <> "PENDING_ENQUEUE" ->
  forward (close st now d) e -> Dependency.state e = st ->
  Dependency.child_job_id e = Dependency.child_job_id d -> replaces D e.
Proof.
  intros Hd Hc Hst Hf He Hch. apply (replaces_row _ d); [done| |by rewrite He|left; by rewrite Hch].
  etransitivity; [apply (close_forward st)|done].
Qed.

Lemma cancel_replaces D d :
  deps_ok D -> D !! Dependency.id d = Some d -> replaces D (close "CANCELLED" now d).
Proof.
  intros Hok Hd. apply (replaces_row _ d); [done|apply close_forward|by destruct d|].
  intros Hs. destruct (Dependency.child_job_id d) as [c|] eqn:E.
  - left. exists c. by destruct d.
  - right. assert (Dependency.continuation_job_id d = None) as Hn; [|by destruct d].
    eapply (no_child_no_continuation D); [done|done| |done]. by destruct d.
Qed.

(** ** The operations *)

Lemma moves_ret {A} D (a : A) : moves D (st_ret a).
Proof. apply moves_stays. intros ?. apply preserves_ret. Qed.
Lemma moves_raise {A} D c m : moves D (st_raise (A:=A) c m).
Proof. apply moves_stays. intros ?. apply preserves_raise. Qed.
Lemma stays_ret {A} (a : A) : stays (st_ret a).
Proof. intros ?. apply preserves_ret. Qed.
Lemma stays_lift {A} (x : result A) : stays (st_lift x).
Proof. intros ?. apply preserves_lift. Qed.
Lemma stays_get_bind {A} (f : Db.Db -> ST Db.Db A) : (forall db, stays (f db)) -> stays (st_bind st_get f).
Proof. intros Hf D. apply preserves_get. intros db _. apply Hf. Qed.
Lemma stays_bind {A B} (m : ST Db.Db A) (f : A -> ST Db.Db B) :
  stays m -> (forall a, stays (f a)) -> stays (st_bind m f).
Proof. intros Hm Hf D. apply preserves_bind; [apply Hm|]. intros a. apply Hf. Qed.

Lemma close_all_moves D ds :
  Forall (fun d => D !! Dependency.id d = Some d) ds -> NoDup (map Dependency.id ds) ->
  moves D (st_for ds (fun d => flush_dependency (close "CANCELLED" now d))).
Proof.
  revert D. induction ds as [|d ds IH]; intros D Hall Hnd; cbn [st_for]; [apply moves_ret|].
  apply Forall_cons in Hall as [Hd Hall]. simpl in Hnd. apply NoDup_cons in Hnd as [Hnot Hnd].
  apply moves_assume. intros Hok. apply moves_flush_bind; [by apply cancel_replaces|].
  apply IH; [|done]. rewrite Forall_forall in *. intros e He.
  assert (Dependency.id (close "CANCELLED" now d) = Dependency.id d) as -> by by destruct d.
  rewrite lookup_insert_ne; [by apply Hall|]. intros E. apply Hnot. rewrite E.
  by apply list_elem_of_In, in_map, list_elem_of_In.
Qed.

Lemma NoDup_map_filter {A B} (f : A -> B) p l :
  NoDup (map f l) -> NoDup (map f (List.filter p l)).
Proof.
  induction l as [|x l IH]; simpl; [done|]. intros [Hx Hl]%NoDup_cons. destruct (p x); simpl; auto.
  apply NoDup_cons. split; [|auto]. rewrite list_elem_of_In, in_map_iff. intros (y & Hy & Hin).
  apply filter_In in Hin as [Hin _]. apply Hx. rewrite <- Hy. by apply list_elem_of_In, in_map.
Qed.

Lemma dependencies_by_id_NoDup db :
  deps_ok (Db.dependencies db) -> NoDup (map Dependency.id (dependencies_by_id db)).
Proof.
  intros Hok. unfold dependencies_by_id.
  rewrite (Permutation_map Dependency.id (sort_by_Permutation _ _)), map_map.
  rewrite (map_ext_in (fun x => Dependency.id x.2) fst).
  - apply NoDup_fst_map_to_list.
  - intros [i d] Hin. simpl. apply list_elem_of_In, elem_of_map_to_list in Hin. by apply (deps_keyed _ Hok).
Qed.

Lemma cancel_dependencies_moves D i : moves D (cancel_active_dependencies now i).
Proof.
  unfold cancel_active_dependencies. apply moves_get. intros db Hd. apply moves_assume. intros Hok.
  apply close_all_moves.
  - rewrite Forall_forall. intros d Hin. apply list_elem_of_In, filter_In in Hin as [Hin _].
    apply dependencies_by_id_In in Hin as [j Hj]. rewrite Hd in Hj. by eapply row_at.
  - apply NoDup_map_filter, dependencies_by_id_NoDup. by rewrite Hd.
Qed.

Hint Resolve stays_ret stays_lift : stays.

(** Walks through an operation; what is left are the rows it writes. *)
Ltac move_step :=
  match goal with
  | |- moves _ (st_ret _) => apply moves_ret
  | |- moves _ (st_raise _ _) => apply moves_raise
  | |- moves _ (st_bind st_get _) => apply moves_get; intros ? ?
  | |- moves _ (st_bind (flush_dependency _) _) => apply moves_flush_bind
  | |- moves _ (flush_dependency _) => apply moves_flush
  | |- moves _ (st_bind _ _) => apply moves_bind_stays; [solve [stay]|intros ?]
  | |- moves _ (if ?b then _ else _) => destruct b eqn:?
  | |- moves _ (match ?x with _ => _ end) => destruct x eqn:?
  | |- moves _ _ => apply moves_stays; solve [stay]
  end.
Ltac follow := repeat (cbv beta zeta; move_step).

Lemma next_dependency_fresh db :
  deps_ok (Db.dependencies db) -> Db.dependencies db !! next_dependency_id db = None.
Proof.
  intros Hok. apply eq_None_not_Some. intros [d Hd].
  assert (In d (dependencies_by_id db)) as Hin by (apply dependencies_by_id_In; eauto).
  apply (in_map Dependency.id) in Hin. rewrite (deps_keyed _ Hok _ _ Hd) in Hin.
  enough (next_dependency_id db <= foldr Z.max 0 (map Dependency.id (dependencies_by_id db)))
    by (unfold next_dependency_id in *; lia).
  revert Hin. generalize (next_dependency_id db) as x. induction (map _ _) as [|y l IH]; simpl; [done|].
  intros x [->|Hx]; [lia|]. specialize (IH x Hx). lia.
Qed.

Lemma new_row_replaces D db e :
  deps_ok D -> Db.dependencies db = D -> Dependency.id e = next_dependency_id db -> dep_ok e -> replaces D e.
Proof.
  intros Hok <- He Hd. split; [done|]. left. rewrite He. by apply next_dependency_fresh.
Qed.

Lemma stays_root_job o p : stays (root_job o p).
Proof. unfold root_job. stay. Qed.
Hint Resolve stays_root_job : stays.

Lemma prepare_ceri_moves D o p w r : moves D (prepare_ceri_workflow_dependency now o p w r).
Proof.
  unfold prepare_ceri_workflow_dependency. apply moves_assume. intros Hok. follow.
  eapply new_row_replaces; [done|done|done|]. by split.
Qed.

Lemma prepare_sec_moves D o p g r : moves D (prepare_sec_readiness_dependency now o p g r).
Proof.
  unfold prepare_sec_readiness_dependency. apply moves_assume. intros Hok. follow.
  eapply new_row_replaces; [done|done|done|]. split; cbn; [tauto| |]; by intros _ [].
Qed.

Lemma latest_dependency_row p db d :
  deps_ok (Db.dependencies db) -> latest_dependency p db = Some d ->
  Db.dependencies db !! Dependency.id d = Some d /\ p d = true.
Proof.
  intros Hok H. unfold latest_dependency in H. apply last_Some in H as [l Hl].
  assert (In d (List.filter p (dependencies_by_id db))) as Hin by (rewrite Hl; apply in_or_app; right; by left).
  apply filter_In in Hin as [Hin Hp]. split; [|done]. apply dependencies_by_id_In in Hin as [i Hi].
  by eapply row_at.
Qed.

Lemma ceri_not_sec p d : ceri_of p d = true -> is_sec d = false.
Proof.
  unfold ceri_of, is_sec. intros [_ H]%andb_prop. apply String.eqb_eq in H as ->. done.
Qed.

Lemma ceri_replaces D d e st :
  D !! Dependency.id d = Some d -> is_sec d = false -> Dependency.state e = st -> st <> "PENDING_ENQUEUE" ->
  forward d e -> replaces D e.
Proof.
  intros Hd Hs <- Hst Hf. apply (replaces_row _ d); try done.
  intros He. unfold is_sec in *. rewrite (fwd_type _ _ Hf) in He. congruence.
Qed.

Lemma complete_ceri_moves D p w t c n : moves D (complete_ceri_workflow_dependency now p w t c n).
Proof.
  unfold complete_ceri_workflow_dependency. apply moves_assume. intros Hok. follow.
  subst. match goal with E : latest_dependency _ _ = Some ?x |- _ => rename x into d;
    destruct (latest_dependency_row _ _ _ Hok E) as [Hd Hc] end.
  apply ceri_not_sec in Hc. eapply (ceri_replaces _ d); try done; [by destruct d|].
  destruct d. split; try done; cbn in *; congruence.
Qed.

Lemma fail_ceri_moves D p w m : moves D (fail_ceri_workflow_dependency now p w m).
Proof.
  unfold fail_ceri_workflow_dependency. apply moves_assume. intros Hok. follow.
  subst. match goal with E : latest_dependency _ _ = Some ?x |- _ => rename x into d;
    destruct (latest_dependency_row _ _ _ Hok E) as [Hd Hc] end.
  apply andb_prop in Hc as [Hc _]. apply ceri_not_sec in Hc.
  eapply (ceri_replaces _ d); try done; [by destruct d|]. destruct d. by split.
Qed.

Hint Resolve stays_put_pipeline stays_flush_job stays_transition stays_step stays_enqueue stays_cancel_steps
  stays_cancel : stays.

Lemma enqueue_sec_moves D i : moves D (enqueue_sec_readiness_dependency now i).
Proof.
  unfold enqueue_sec_readiness_dependency. apply moves_assume. intros Hok. follow; subst.
  - apply cancel_replaces; [done|]. by eapply row_at.
  - match goal with E : Db.dependencies _ !! i = Some ?x |- _ => rename x into d; rename E into Hi end.
    match goal with E : Dependency.child_job_id d = None |- _ => rename E into Hc end.
    apply (replaces_row _ d).
    + by eapply row_at.
    + destruct d. split; try done; cbn in *; intros; try (by rewrite Hc in *); subst; by destruct H0.
    + by destruct d.
    + intros _. left. by destruct d.
Qed.

Lemma bound_row {D : gmap Z PipelineDependency} (o : option Z) d :
  deps_ok D -> o ≫= (D !!.) = Some d -> D !! Dependency.id d = Some d.
Proof. intros Hok. destruct o as [i|]; simpl; [|done]. by apply row_at. Qed.

Lemma opt_id_eqb_true a b : opt_id_eqb a b = true -> a = b /\ is_Some a /\ is_Some b.
Proof. destruct a, b; simpl; try done. intros ->%Z.eqb_eq. eauto. Qed.

Lemma mark_running_moves D i : moves D (mark_dependency_job_running now i).
Proof.
  unfold mark_dependency_job_running. apply moves_assume. intros Hok. follow; subst.
  match goal with E : _ && _ && _ = true |- _ => apply andb_prop in E as [E _]; apply andb_prop in E as [_ E];
    apply opt_id_eqb_true in E as (_ & Hc & _) end.
  apply touch_replaces; [|done|done]. by eapply bound_row.
Qed.

Lemma continuation_moves D p d c :
  D !! Dependency.id d = Some d -> is_Some (Dependency.child_job_id d) ->
  Dependency.state d <> "PENDING_ENQUEUE" -> moves D (_enqueue_dependency_continuation now p d c).
Proof.
  intros Hd Hc Hst. unfold _enqueue_dependency_continuation. apply moves_assume. intros Hok. follow.
  apply (replaces_row _ d); [done| |by destruct d|intros _; left; by destruct d].
  destruct d. split; try done; cbn in *. intros _ [? ?]. congruence.
Qed.

Lemma reconcile_dependency_moves D j : moves D (_reconcile_dependency_job now j).
Proof.
  unfold _reconcile_dependency_job. apply moves_assume. intros Hok. apply moves_get. intros db <-.
  destruct (_ ≫= _) as [d|] eqn:Hrow; [|apply moves_ret]. apply bound_row in Hrow; [|done].
  destruct (Db.pipelines db !! _) as [p|]; [|apply moves_ret].
  destruct (negb (in_scope p)); [apply moves_ret|].
  destruct (negb (opt_id_eqb _ _)) eqn:Hc; [apply moves_ret|].
  apply negb_false_iff, opt_id_eqb_true in Hc as (_ & _ & Hc).
  destruct (Job.status j); try apply moves_ret; try (apply moves_flush; by apply touch_replaces).
  - unfold child_completed. cbv zeta.
    assert (replaces (Db.dependencies db) (Dependency.set_result_json
      (Some (dict_set "child_result" (VDict (or_empty (Job.result_json j))) (or_empty (Dependency.result_json d))))
      (close "COMPLETED" now d))) as Hr.
    { eapply (close_replaces _ d _ "COMPLETED"); try done; [apply set_result_forward|by destruct d|by destruct d]. }
    apply moves_flush_bind; [done|].
    apply moves_bind_stays; [stay|intros _]. destruct (smem _ _); [apply moves_ret|].
    destruct (String.eqb _ _); [follow|]. apply moves_bind; [|intros; apply moves_ret].
    apply continuation_moves; [by rewrite lookup_insert_eq|by destruct d|by destruct d].
  - unfold child_failed. apply moves_flush_bind; [|follow].
    eapply (close_replaces _ d _ "FAILED"); try done; [apply set_error_forward|by destruct d|by destruct d].
  - unfold child_failed. apply moves_flush_bind; [|follow].
    eapply (close_replaces _ d _ "FAILED"); try done; [apply set_error_forward|by destruct d|by destruct d].
  - unfold child_cancelled. apply moves_flush_bind; [by apply cancel_replaces|follow].
Qed.

Lemma reconcile_root_moves D j : moves D (_reconcile_pipeline_root_job now j).
Proof. apply moves_stays. unfold _reconcile_pipeline_root_job. stay. Qed.

Lemma reconcile_job_moves D i : moves D (reconcile_pipeline_job now i).
Proof.
  unfold reconcile_pipeline_job. apply moves_get. intros db _. destruct (Db.jobs db !! i) as [j|]; [|apply moves_ret].
  destruct (negb _); [apply moves_ret|]. apply moves_bind.
  - destruct (bool_decide _); [apply reconcile_dependency_moves|apply moves_ret].
  - intros _ E. destruct (String.eqb _ _); [apply reconcile_root_moves|apply moves_ret].
Qed.

Lemma pending_moves D locked ids : moves D (reconcile_pending_dependency_enqueues now locked ids).
Proof.
  unfold reconcile_pending_dependency_enqueues. apply moves_get. intros db _. apply moves_fold.
  intros E acc d _. apply moves_bind; [apply enqueue_sec_moves|]. intros c F. apply moves_ret.
Qed.

Lemma finish_cancellation_moves D p : moves D (finish_cancellation now p).
Proof.
  unfold finish_cancellation. apply moves_bind_stays; [stay|intros _].
  apply moves_bind_stays; [stay|intros _]. apply cancel_dependencies_moves.
Qed.

Lemma reconcile_safe_moves D locked ids : moves D (reconcile_safe_pipeline_invariants now locked ids).
Proof.
  unfold reconcile_safe_pipeline_invariants. destruct (bool_decide _); [apply moves_ret|].
  apply moves_bind; [apply pending_moves|]. intros children E. apply moves_get. intros db _.
  apply moves_bind; [apply moves_fold|].
  - intros F acc d _. apply moves_get. intros db1 _. destruct (_ ≫= _) as [c|]; [|apply moves_ret].
    destruct (bool_decide _); [|apply moves_ret].
    apply moves_bind; [apply reconcile_dependency_moves|]. intros _ G. apply moves_get. intros db2 _. apply moves_ret.
  - intros conts F. apply moves_get. intros db1 _. apply moves_bind; [apply moves_fold|intros; apply moves_ret].
    intros G acc p _. apply moves_get. intros db2 _. destruct (_active_pipeline_control_job_ids _ _); [|apply moves_ret].
    apply moves_bind; [apply finish_cancellation_moves|intros; apply moves_ret].
Qed.

Lemma cancel_pipeline_moves D contended i : moves D (cancel_pipeline now contended i).
Proof.
  unfold cancel_pipeline. cbv zeta. destruct (contended None); [apply moves_raise|]. apply moves_get. intros db _.
  destruct (Db.pipelines db !! i) as [p|]; [|apply moves_raise].
  destruct (smem _ _); [apply moves_ret|]. apply moves_bind_stays; [stay|intros _].
  apply moves_get. intros db1 _. apply moves_bind_stays.
  { apply stays_for. intros k _. destruct (contended _); stay. }
  intros _. apply moves_get. intros db2 _. destruct (Db.pipelines db2 !! i) as [q|]; [|apply moves_raise].
  destruct (smem _ _); [apply moves_ret|]. destruct (_active_pipeline_control_job_ids _ _); [|apply moves_ret].
  apply moves_bind_stays; [stay|intros q']. apply moves_bind_stays.
  { apply stays_modify. intros []. done. }
  intros _. apply moves_bind; [apply cancel_dependencies_moves|intros; apply moves_ret].
Qed.
End Table.

(** ** Every sequence of operations *)

Section Sequences.
Context `{Coll : Collaborators} `{DC : DependencyCollaborators}.

(** One call of an operation, whether it returns or raises, or a transaction of another
    part of the program, none of which writes the table. *)
Inductive dependency_step : Db.Db -> Db.Db -> Prop :=
  | Prepare_ceri now owner p key step x db db' :
      prepare_ceri_workflow_dependency now owner p key step db = (x, db') -> dependency_step db db'
  | Complete_ceri now p key trigger continuation n x db db' :
      complete_ceri_workflow_dependency now p key trigger continuation n db = (x, db') -> dependency_step db db'
  | Fail_ceri now p key message x db db' :
      fail_ceri_workflow_dependency now p key message db = (x, db') -> dependency_step db db'
  | Prepare_sec now owner p diagnostics step x db db' :
      prepare_sec_readiness_dependency now owner p diagnostics step db = (x, db') -> dependency_step db db'
  | Enqueue_sec now i x db db' :
      enqueue_sec_readiness_dependency now i db = (x, db') -> dependency_step db db'
  | Mark_running now i x db db' :
      mark_dependency_job_running now i db = (x, db') -> dependency_step db db'
  | Reconcile_job now i x db db' :
      reconcile_pipeline_job now i db = (x, db') -> dependency_step db db'
  | Reconcile_pending now locked ids x db db' :
      reconcile_pending_dependency_enqueues now locked ids db = (x, db') -> dependency_step db db'
  | Reconcile_safe now locked ids x db db' :
      reconcile_safe_pipeline_invariants now locked ids db = (x, db') -> dependency_step db db'
  | Cancel_pipeline now contended i x db db' :
      cancel_pipeline now contended i db = (x, db') -> dependency_step db db'
  | Elsewhere db db' : Db.dependencies db' = Db.dependencies db -> dependency_step db db'.

Lemma dependency_step_moves db db' :
  dependency_step db db' -> deps_ok (Db.dependencies db) ->
  deps_ok (Db.dependencies db') /\ grows (Db.dependencies db) (Db.dependencies db').
Proof.
  intros Hs Hok. destruct Hs as [? ? ? ? ? ? ? ? H|? ? ? ? ? ? ? ? ? H|? ? ? ? ? ? ? H|? ? ? ? ? ? ? ? H
    |? ? ? ? ? H|? ? ? ? ? H|? ? ? ? ? H|? ? ? ? ? ? H|? ? ? ? ? ? H|? ? ? ? ? ? H|? ? ->].
  - by eapply prepare_ceri_moves.
  - by eapply complete_ceri_moves.
  - by eapply fail_ceri_moves.
  - by eapply prepare_sec_moves.
  - by eapply enqueue_sec_moves.
  - by eapply mark_running_moves.
  - by eapply reconcile_job_moves.
  - by eapply pending_moves.
  - by eapply reconcile_safe_moves.
  - by eapply cancel_pipeline_moves.
  - split; [done|reflexivity].
Qed.

Lemma dependency_run_moves db db' :
  rtc dependency_step db db' -> deps_ok (Db.dependencies db) ->
  deps_ok (Db.dependencies db') /\ grows (Db.dependencies db) (Db.dependencies db').
Proof.
  induction 1 as [db|db db1 db2 H _ IH]; intros Hok; [split; [done|reflexivity]|].
  destruct (dependency_step_moves _ _ H Hok) as [Hok1 Hg1]. destruct (IH Hok1) as [Hok2 Hg2].
  split; [done|]. by etransitivity.
Qed.


(** Dependencies are durable and their links are written once: over every sequence of
    operations a row is never removed, keeps the columns that identify it, and, for a SEC
    dependency, keeps the child job and the continuation job it once had. *)
Theorem dependency_links_write_once db db' i d :
  deps_ok (Db.dependencies db) -> rtc dependency_step db db' -> Db.dependencies db !! i = Some d ->
  exists e, Db.dependencies db' !! i = Some e /\ forward d e.
Proof. intros Hok Hr Hd. by apply (dependency_run_moves _ _ Hr Hok). Qed.

(** ** One child per dependency *)

Lemma bind_keeps_id a r (j j' : BackgroundJob) :
  on_owner (bind_semantic_authority a r) j = Ok j' -> Job.id j' = Job.id j.
Proof.
  unfold on_owner. destruct (bind_semantic_authority a r j) as [[u|e] j1] eqn:E; [|done]. intros [= <-].
  assert (preserves (fun x : BackgroundJob => Job.id x = Job.id j) (bind_semantic_authority a r)) as Hp;
    [|by apply (Hp j (Ok u) j1)].
  clear E. unfold bind_semantic_authority, authority_fields, bind_field, bind_required. cbn [st_for].
  preserve; apply preserves_modify; intros [] Hx; done.
Qed.

Lemma authorized_result p d :
  authorized_pipeline (Pipeline.set_result_json d p) = authorized_pipeline p.
Proof. by destruct p. Qed.

Lemma flush_job_run j db u db' : flush_job j db = (Ok u, db') -> db' = put_job j db.
Proof. unfold flush_job. destruct (unique_ok db j); [|done]. by intros [= _ <-]. Qed.
Lemma flush_dependency_run d db u db' : flush_dependency d db = (Ok u, db') -> db' = put_dependency d db.
Proof. unfold flush_dependency. destruct (forallb _ _); [|done]. by intros [= _ <-]. Qed.

(** A dependency that has its child: a further call finds it and writes nothing. *)
Lemma enqueue_sec_again now db i d p c child :
  Db.dependencies db !! i = Some d -> Db.pipelines db !! Dependency.pipeline_run_id d = Some p ->
  authorized_pipeline p = true ->
  smem (Pipeline.status p) TERMINAL_PIPELINE_STATES || String.eqb (Pipeline.status p) "CANCEL_REQUESTED" = false ->
  Dependency.child_job_id d = Some c -> Db.jobs db !! c = Some child ->
  enqueue_sec_readiness_dependency now i db = (Ok (Some child), db).
Proof.
  intros Hd Hp Ha Ht Hc Hj. unfold enqueue_sec_readiness_dependency.
  change (st_bind st_get ?f db) with (f db db). cbv beta. rewrite Hd, Hp, Ha, Ht, Hc, Hj. done.
Qed.

Lemma put_job_deps j db : Db.dependencies (put_job j db) = Db.dependencies db.
Proof. by destruct db. Qed.
Lemma put_job_pipelines j db : Db.pipelines (put_job j db) = Db.pipelines db.
Proof. by destruct db. Qed.
Lemma put_job_jobs j db : Db.jobs (put_job j db) = <[Job.id j := j]> (Db.jobs db).
Proof. by destruct db. Qed.
Lemma put_dependency_deps d db : Db.dependencies (put_dependency d db) = <[Dependency.id d := d]> (Db.dependencies db).
Proof. by destruct db. Qed.
Lemma put_dependency_jobs d db : Db.jobs (put_dependency d db) = Db.jobs db.
Proof. by destruct db. Qed.
Lemma put_pipeline_jobs p db : Db.jobs (put_pipeline p db) = Db.jobs db.
Proof. by destruct db. Qed.

(** The child of a dependency is enqueued once.  When a call of
    [enqueue_sec_readiness_dependency] returned a job, every later call on the resulting store
    returns a job with the same id and leaves the store as it is. *)
Theorem child_enqueued_once now later db i c db' :
  (forall k d, Db.dependencies db !! k = Some d -> Dependency.id d = k) ->
  (forall k p, Db.pipelines db !! k = Some p -> Pipeline.id p = k) ->
  enqueue_sec_readiness_dependency now i db = (Ok (Some c), db') ->
  exists c', enqueue_sec_readiness_dependency later i db' = (Ok (Some c'), db') /\ Job.id c' = Job.id c.
Proof.
  intros Hkd Hkp. unfold enqueue_sec_readiness_dependency at 1.
  change (st_bind st_get ?f db) with (f db db). cbv beta.
  destruct (Db.dependencies db !! i) as [d|] eqn:Hd; [|done].
  destruct (Db.pipelines db !! Dependency.pipeline_run_id d) as [p|] eqn:Hp; [|done].
  destruct (authorized_pipeline p) eqn:Ha; cbn [negb]; [|done].
  destruct (_ || _) eqn:Ht.
  { intros H. apply st_bind_Ok in H as (? & ? & _ & H). apply st_bind_Ok in H as (? & ? & _ & H). done. }
  destruct (Dependency.child_job_id d) as [k|] eqn:Hc.
  { destruct (Db.jobs db !! k) as [child|] eqn:Hj; [|done]. intros [= <- <-].
    exists child. split; [|done]. by eapply enqueue_sec_again. }
  intros H. cbv zeta in H. apply st_bind_Ok in H as (en & db1 & _ & H).
  apply st_bind_Ok in H as (n1 & s1 & E1 & H). apply st_bind_Ok in H as (n2 & s2 & E2 & H).
  apply st_bind_Ok in H as (a & s3 & E3 & H). apply st_bind_Ok in H as (child & s4 & E4 & H).
  apply st_bind_Ok in H as (u1 & s5 & E5 & H). apply st_bind_Ok in H as (u2 & s6 & E6 & H).
  apply st_bind_Ok in H as (u3 & s7 & E7 & H). unfold st_ret in H. injection H as <- <-.
  apply flush_job_run in E5 as ->. apply flush_dependency_run in E6 as ->.
  unfold st_modify in E7. injection E7 as _ <-.
  exists child. split; [|done]. set (p' := Pipeline.set_result_json _ p). set (d' := touch _ _ _).
  assert (Dependency.id d' = i) as Hid. { rewrite <- (Hkd _ _ Hd). by destruct d. }
  eapply (enqueue_sec_again _ _ _ d' p' (Job.id child)).
  - rewrite put_pipeline_deps, put_dependency_deps, Hid. apply lookup_insert_eq.
  - assert (Dependency.pipeline_run_id d' = Dependency.pipeline_run_id d) as -> by by destruct d.
    rewrite put_pipeline_lookup. rewrite decide_True; [done|]. rewrite <- (Hkp _ _ Hp). by destruct p.
  - unfold p'. by rewrite authorized_result.
  - assert (Pipeline.status p' = Pipeline.status p) as -> by by destruct p. done.
  - by destruct d.
  - rewrite put_pipeline_jobs, put_dependency_jobs, put_job_jobs. apply lookup_insert_eq.
Qed.

(** A cancelled pipeline is not a reason to close its dependency: for a pipeline that is
    terminal or whose cancellation was requested, [enqueue_sec_readiness_dependency] returns
    [None] and writes nothing, since the check of the execution authority comes first; the
    branch that would cancel the dependency and finish the cancellation is never taken. *)
Theorem cancelled_pipeline_keeps_dependency now db i d p :
  Db.dependencies db !! i = Some d -> Db.pipelines db !! Dependency.pipeline_run_id d = Some p ->
  smem (Pipeline.status p) TERMINAL_PIPELINE_STATES = true \/ Pipeline.status p = "CANCEL_REQUESTED" ->
  enqueue_sec_readiness_dependency now i db = (Ok None, db).
Proof.
  intros Hd Hp Hst. unfold enqueue_sec_readiness_dependency.
  change (st_bind st_get ?f db) with (f db db). cbv beta. rewrite Hd, Hp.
  assert (authorized_pipeline p = false) as ->; [|done].
  unfold authorized_pipeline, Authority.pipeline_execution_is_authorized.
  assert (smem (Pipeline.status p) Authority.NON_EXECUTABLE_PIPELINE_STATUSES = true) as ->.
  { destruct Hst as [Hst| ->]; [|done]. apply smem_In in Hst. apply smem_In. simpl in *. tauto. }
  by rewrite !andb_false_r.
Qed.

(** ** The root job *)

Definition OPEN_PIPELINE_STATES : list string :=
  QUEUED_PIPELINE_STATES ++ WAITING_PIPELINE_STATES ++ ACTIVE_PIPELINE_STATES.

Lemma open_states_may_fail s actor :
  smem s OPEN_PIPELINE_STATES = true -> _transition_allowed s "FAILED" actor false = true.
Proof.
  intros H. apply smem_In in H. unfold _transition_allowed. simpl in H.
  destruct_or! H; subst s; simpl; destruct (String.eqb actor "dependency"), (String.eqb actor "recovery"); done.
Qed.

Lemma open_pipeline_fails now p actor args db :
  smem (Pipeline.status p) OPEN_PIPELINE_STATES = true -> arg_operator_resume args = false ->
  exists q db', transition_pipeline now p "FAILED" actor args db = (Ok q, db').
Proof.
  intros Hopen Hr. unfold transition_pipeline. change (st_bind st_get ?f db) with (f db db). cbv beta.
  rewrite Hr, (open_states_may_fail _ _ Hopen). cbn. unfold st_bind, st_modify, st_ret. eauto.
Qed.

(** A root job that completes while its pipeline is still open fails the pipeline, and
    hands it to containment, unless the pipeline is waiting and exactly one active
    dependency of the type it waits for names this root job; then nothing is changed. *)
Theorem root_completion_fails_closed now job db k p :
  int_or_zero (dget (Job.payload_json job) "pipeline_run_id") = Ok k -> k <> 0 ->
  Db.pipelines db !! k = Some p -> Pipeline.id p = k -> in_scope p = true ->
  smem (Pipeline.status p) OPEN_PIPELINE_STATES = true -> Job.status job = COMPLETED ->
  exists db', _reconcile_pipeline_root_job now job db = (Ok tt, db') /\
    ((db' = db /\ exists d, Dependency.root_job_id d = Job.id job /\
        List.filter (fun e => (Dependency.pipeline_run_id e =? k)
          && (Dependency.root_job_id e =? Job.id job)
          && String.eqb (Dependency.dependency_type e)
               (if String.eqb (Pipeline.status p) "WAITING_DEPENDENCY"
                then SEC_READINESS_DEPENDENCY else CERI_WORKFLOW_DEPENDENCY)
          && smem (Dependency.state e) DEPENDENCY_ACTIVE_STATES) (dependencies_by_id db) = [d] /\
        In (Pipeline.status p) ["WAITING_DEPENDENCY"; "WAITING_FOR_CERI_COMPLETION"]) \/
     exists q, Db.pipelines db' = <[k := q]> (Db.pipelines db) /\ Pipeline.status q = "FAILED" /\
       Db.containments db' = Db.containments db ++ [(k, "FAILED")] /\
       Db.jobs db' = Db.jobs db /\ Db.dependencies db' = Db.dependencies db).
Proof.
  intros Hid Hk Hp Hpk Hsc Hopen Hst. unfold _reconcile_pipeline_root_job. rewrite Hid.
  unfold st_bind at 1, st_lift. destruct (Z.eqb_spec k 0) as [|_]; [done|].
  change (st_bind st_get ?f db) with (f db db). cbv beta. rewrite Hp, Hsc, Hst. cbn [negb orb].
  assert (smem (Pipeline.status p) TERMINAL_PIPELINE_STATES = false /\
          String.eqb (Pipeline.status p) "CANCEL_REQUESTED" = false) as [-> ->].
  { pose proof Hopen as H. apply smem_In in H. simpl in H. by destruct_or! H; rewrite <- H. }
  destruct (_root_has_active_dependency_handoff db p job) eqn:Hh.
  - exists db. split; [done|]. left. split; [done|]. unfold _root_has_active_dependency_handoff in Hh.
    rewrite Hpk in Hh. revert Hh.
    destruct (String.eqb_spec (Pipeline.status p) "WAITING_DEPENDENCY") as [Ew|Ew];
      [|destruct (String.eqb_spec (Pipeline.status p) "WAITING_FOR_CERI_COMPLETION") as [Ec|Ec]; [|done]].
    all: intros Hh; cbv zeta in Hh; match type of Hh with (Z.of_nat (length ?l) =? 1) = true => remember l as rows eqn:Hrows end.
    all: apply Z.eqb_eq in Hh; destruct rows as [|d [|? ?]]; cbn [length] in Hh; [lia| |lia]; exists d.
    all: assert (In d [d]) as Hin by (by left); rewrite Hrows in Hin; apply filter_In in Hin as [_ Hin].
    all: apply andb_prop in Hin as [Hin _]; apply andb_prop in Hin as [Hin _];
         apply andb_prop in Hin as [_ Hin]; apply Z.eqb_eq in Hin; split_and!; [done|done|].
    { rewrite Ew. by left. } { rewrite Ec. right. by left. }
  - unfold st_bind at 1. edestruct (open_pipeline_fails now p "pipeline_orchestrator") as (q & db' & Et);
      [exact Hopen| |rewrite Et]; [reflexivity|].
    pose proof (transition_pipeline_inv _ _ _ _ _ _ _ _ Et) as Hinv.
    exists db'. split; [done|]. right. destruct Hinv as (_ & _ & -> & Hrows & Hdeps & Hjobs & _ & _ & Hcont).
    eexists. split_and!; [rewrite <- Hpk; exact Hrows|apply transitioned_status|by rewrite Hcont, Hpk|done|done].
Qed.
End Sequences.
