(* ===== verification/PipelineAudit.v ===== *)
(** * The consistency audit: [app/services/pipeline_invariant_service.py]

    A read-only pass over the pipelines, jobs, dependencies and steps of the store that
    reports what is inconsistent, how it may be repaired, and whether it is about work
    that can still run.  The startup preflight and the readiness report count its
    findings.  The second part proves what the audit reports. *)
From Stdlib Require Import ZArith Lia List String Ascii Bool.
From stdpp Require Import base gmap list strings.
From S2P Require Import Prelude PyDate PyFloat PyValue Tables Queues.
From S2P Require Import PipelineStates JobRows PipelineDependencies.
Local Open Scope string_scope.
Local Open Scope list_scope.
Local Open Scope Z_scope.

Inductive InvariantDisposition := SAFE_AUTO_RECONCILE | REQUIRES_OPERATOR_REVIEW | FATAL_STARTUP_INVARIANT.
Inductive InvariantScope := OPERATIONAL_ACTIONABLE | HISTORICAL_FORENSIC.
#[export] Instance disposition_eq_dec : EqDecision InvariantDisposition.
Proof. solve_decision. Defined.
#[export] Instance scope_eq_dec : EqDecision InvariantScope.
Proof. solve_decision. Defined.

Definition disposition_value (d : InvariantDisposition) : string :=
  match d with
  | SAFE_AUTO_RECONCILE => "SAFE_AUTO_RECONCILE"
  | REQUIRES_OPERATOR_REVIEW => "REQUIRES_OPERATOR_REVIEW"
  | FATAL_STARTUP_INVARIANT => "FATAL_STARTUP_INVARIANT"
  end.
Definition scope_value (s : InvariantScope) : string :=
  match s with OPERATIONAL_ACTIONABLE => "OPERATIONAL_ACTIONABLE" | HISTORICAL_FORENSIC => "HISTORICAL_FORENSIC" end.

Record PipelineInvariantFinding := mkFinding {
  f_code : string;
  f_disposition : InvariantDisposition;
  f_pipeline_id : option Z;
  f_job_id : option Z;
  f_dependency_id : option Z;
  f_detail : string;
  f_scope : InvariantScope;
}.

Definition operational_actionable (f : PipelineInvariantFinding) : bool :=
  bool_decide (f_scope f = OPERATIONAL_ACTIONABLE).

Definition finding_as_dict (f : PipelineInvariantFinding) : dict :=
  [("code", VStr (f_code f)); ("disposition", VStr (disposition_value (f_disposition f)));
   ("pipeline_id", of_opt VInt (f_pipeline_id f)); ("job_id", of_opt VInt (f_job_id f));
   ("dependency_id", of_opt VInt (f_dependency_id f)); ("detail", VStr (f_detail f));
   ("scope", VStr (scope_value (f_scope f)));
   ("operational_actionable", VBool (operational_actionable f))].

(** A finding as it is reported, before its scope is known. *)
Definition finding (code : string) (d : InvariantDisposition) (pipeline job dependency : option Z)
    (detail : string) : PipelineInvariantFinding :=
  mkFinding code d pipeline job dependency detail OPERATIONAL_ACTIONABLE.

(** [",".join(str(job.id) for job in jobs)]. *)
Definition job_ids (jobs : list BackgroundJob) : string :=
  String.concat "," (map (fun j => str_of_Z (Job.id j)) jobs).

Definition _job_pipeline_id (job : BackgroundJob) : option Z :=
  match dget (Job.payload_json job) "pipeline_run_id" with
  | VNone => None
  | v => py_int v
  end.

Definition active_job (j : BackgroundJob) : bool := status_in (Job.status j) ACTIVE_JOB_STATUSES.
Definition is_full (j : BackgroundJob) : bool := String.eqb (Job.job_type j) "FULL_PIPELINE".
Definition known_pipeline (db : Db.Db) (id : option Z) : bool :=
  match id with Some i => bool_decide (is_Some (Db.pipelines db !! i)) | None => false end.
Definition when {A} (b : bool) (x : A) : list A := if b then [x] else [].

Section Audit.
Context `{Coll : Collaborators}.

(** ** Jobs *)

Definition orphan_root (db : Db.Db) (j : BackgroundJob) : list PipelineInvariantFinding :=
  when (is_full j && active_job j && negb (known_pipeline db (_job_pipeline_id j)))
    (finding "ACTIVE_ROOT_WITHOUT_VALID_PIPELINE" REQUIRES_OPERATOR_REVIEW
       (_job_pipeline_id j) (Some (Job.id j)) None "").

Definition invalid_child (db : Db.Db) (j : BackgroundJob) : list PipelineInvariantFinding :=
  match Job.pipeline_dependency_id j with
  | None => []
  | Some i =>
      let valid := match Db.dependencies db !! i with
                   | Some d => bool_decide (Some (Dependency.pipeline_run_id d) = _job_pipeline_id j)
                   | None => false
                   end in
      when (negb valid)
        (finding "CHILD_WITHOUT_VALID_PIPELINE_DEPENDENCY" FATAL_STARTUP_INVARIANT
           (_job_pipeline_id j) (Some (Job.id j)) (Some i) "")
  end.

Definition expired_lease (now : datetime) (j : BackgroundJob) : list PipelineInvariantFinding :=
  when (bool_decide (Job.status j = RUNNING)
        && match Job.lease_expires_at j with Some t => t <=? now | None => false end)
    (finding "EXPIRED_WORKER_LEASE" SAFE_AUTO_RECONCILE (_job_pipeline_id j) (Some (Job.id j)) None "").

(** The worker is gone, or both generations are known and differ. *)
Definition stale_generation (db : Db.Db) (j : BackgroundJob) : list PipelineInvariantFinding :=
  match nonempty (Job.worker_id j) with
  | None => []
  | Some w =>
      let stale := match Db.workers db !! w with
                   | None => true
                   | Some worker =>
                       match nonempty (Job.worker_instance_id j), nonempty (Worker.instance_id worker) with
                       | Some a, Some b => negb (String.eqb a b)
                       | _, _ => false
                       end
                   end in
      when (bool_decide (Job.status j = RUNNING) && stale)
        (finding "STALE_GENERATION_WITH_APPARENT_AUTHORITY" REQUIRES_OPERATOR_REVIEW
           (_job_pipeline_id j) (Some (Job.id j)) None "")
  end.

Definition audit_job (now : datetime) (db : Db.Db) (j : BackgroundJob) : list PipelineInvariantFinding :=
  orphan_root db j ++ invalid_child db j ++ expired_lease now j ++ stale_generation db j.

(** [active_full_by_pipeline.setdefault(pipeline_id, []).append(job)], in order of insertion. *)
Fixpoint group_add (k : Z) (j : BackgroundJob) (groups : list (Z * list BackgroundJob))
  : list (Z * list BackgroundJob) :=
  match groups with
  | [] => [(k, [j])]
  | (k', js) :: groups => if k =? k' then (k', js ++ [j]) :: groups else (k', js) :: group_add k j groups
  end.

Definition is_root_job (db : Db.Db) (j : BackgroundJob) : bool :=
  is_full j && active_job j && known_pipeline db (_job_pipeline_id j)
  && bool_decide (Job.pipeline_dependency_id j = None).

Definition active_full_by_pipeline (db : Db.Db) : list (Z * list BackgroundJob) :=
  fold_left (fun groups j => match _job_pipeline_id j with
                             | Some k => if is_root_job db j then group_add k j groups else groups
                             | None => groups
                             end) (job_rows db) [].

Definition duplicate_roots (db : Db.Db) : list PipelineInvariantFinding :=
  flat_map (fun g => when (1 <? Z.of_nat (length g.2))
    (finding "DUPLICATE_ACTIVE_ROOT_JOBS" FATAL_STARTUP_INVARIANT (Some g.1) None None (job_ids g.2)))
    (active_full_by_pipeline db).

(** ** Dependencies *)

Definition linked_job (db : Db.Db) (id : option Z) : option BackgroundJob :=
  match id with Some i => get_job db i | None => None end.

Definition active_continuations (db : Db.Db) (d : PipelineDependency) : list BackgroundJob :=
  List.filter (fun j => opt_id_eqb (Job.pipeline_dependency_id j) (Some (Dependency.id d))
                        && is_full j && active_job j) (job_rows db).

Definition audit_dependency (db : Db.Db) (d : PipelineDependency) : list PipelineInvariantFinding :=
  when (String.eqb (Dependency.state d) "PENDING_ENQUEUE"
        && bool_decide (linked_job db (Dependency.child_job_id d) = None))
    (finding "WAITING_DEPENDENCY_REQUIRES_CHILD_ENQUEUE" SAFE_AUTO_RECONCILE
       (Some (Dependency.pipeline_run_id d)) None (Some (Dependency.id d)) "")
  ++ when (String.eqb (Dependency.state d) "COMPLETED"
           && bool_decide (linked_job db (Dependency.continuation_job_id d) = None))
    (finding "COMPLETED_DEPENDENCY_REQUIRES_CONTINUATION" SAFE_AUTO_RECONCILE
       (Some (Dependency.pipeline_run_id d)) None (Some (Dependency.id d)) "")
  ++ when (1 <? Z.of_nat (length (active_continuations db d)))
    (finding "MULTIPLE_ACTIVE_DEPENDENCY_CONTINUATIONS" FATAL_STARTUP_INVARIANT
       (Some (Dependency.pipeline_run_id d)) None (Some (Dependency.id d))
       (job_ids (active_continuations db d))).

(** ** Pipelines *)

(** [jobs_by_id.get(int(root_id)) if root_id is not None else None]. *)
Definition retained_root (db : Db.Db) (p : PipelineRun) : result (option BackgroundJob) :=
  let root_id := py_or (dget (result_of p) "pipeline_root_job_id") (dget (result_of p) "background_job_id") in
  match root_id with
  | VNone => mret None
  | v => match py_int v with
         | Some i => mret (Db.jobs db !! i)
         | None => ValueError "invalid literal for int() with base 10"
         end
  end.

Definition active_dependencies (db : Db.Db) (p : PipelineRun) : list PipelineDependency :=
  List.filter (fun d => (Dependency.pipeline_run_id d =? Pipeline.id p)
                        && smem (Dependency.state d) ["PENDING_ENQUEUE"; "QUEUED"; "RUNNING"])
    (dependencies_by_id db).

Definition expected_dependency_type (p : PipelineRun) : option string :=
  if String.eqb (Pipeline.status p) "WAITING_DEPENDENCY" then Some "SEC_READINESS"
  else if String.eqb (Pipeline.status p) "WAITING_FOR_CERI_COMPLETION" then Some "CERI_WORKFLOW" else None.

Definition valid_terminal_root_handoff (db : Db.Db) (p : PipelineRun) (root : option BackgroundJob) : bool :=
  match expected_dependency_type p, active_dependencies db p, root with
  | Some t, [d], Some r => String.eqb (Dependency.dependency_type d) t && (Dependency.root_job_id d =? Job.id r)
  | _, _, _ => false
  end.

Definition live_jobs (db : Db.Db) (p : PipelineRun) : list BackgroundJob :=
  List.filter (fun j => opt_id_eqb (_job_pipeline_id j) (Some (Pipeline.id p)) && active_job j) (job_rows db).

Definition live_continuations (db : Db.Db) (p : PipelineRun) : list BackgroundJob :=
  List.filter (fun j => opt_id_eqb (_job_pipeline_id j) (Some (Pipeline.id p)) && is_full j
                        && bool_decide (is_Some (Job.pipeline_dependency_id j)) && active_job j) (job_rows db).

Definition step_states (db : Db.Db) (p : PipelineRun) : list string :=
  map Step.status (List.filter (fun s => Step.pipeline_run_id s =? Pipeline.id p) (Db.steps db)).

Definition terminal_root (db : Db.Db) (p : PipelineRun) (root : option BackgroundJob)
  : list PipelineInvariantFinding :=
  match root with
  | Some r =>
      when (negb (smem (Pipeline.status p) TERMINAL_PIPELINE_STATES)
            && negb (String.eqb (Pipeline.status p) "CANCEL_REQUESTED")
            && status_in (Job.status r) TERMINAL_JOB_STATUSES
            && negb (valid_terminal_root_handoff db p root))
        (finding "ACTIVE_PIPELINE_WITH_TERMINAL_ROOT_JOB" REQUIRES_OPERATOR_REVIEW
           (Some (Pipeline.id p)) (Some (Job.id r)) None
           ("pipeline=" ++ Pipeline.status p ++ ";root=" ++ status_value (Job.status r))%string)
  | None => []
  end.

Definition waiting_cardinality (db : Db.Db) (p : PipelineRun) (root : option BackgroundJob)
  : list PipelineInvariantFinding :=
  when (smem (Pipeline.status p) ["WAITING_DEPENDENCY"; "WAITING_FOR_CERI_COMPLETION"]
        && negb (valid_terminal_root_handoff db p root))
    (finding "WAITING_PIPELINE_DEPENDENCY_CARDINALITY_INVALID" REQUIRES_OPERATOR_REVIEW
       (Some (Pipeline.id p)) None None
       ("active_dependencies=" ++ str_of_Z (Z.of_nat (length (active_dependencies db p))))%string).

Definition audit_finished (db : Db.Db) (p : PipelineRun) : list PipelineInvariantFinding :=
  when (smem (Pipeline.status p) TERMINAL_PIPELINE_STATES
        && match live_continuations db p with [] => false | _ => true end)
    (finding "TERMINAL_PIPELINE_WITH_LIVE_CONTINUATION" FATAL_STARTUP_INVARIANT
       (Some (Pipeline.id p)) None None (job_ids (live_continuations db p)))
  ++ when (String.eqb (Pipeline.status p) "CANCEL_REQUESTED"
           && match live_jobs db p with [] => true | _ => false end)
    (finding "CANCEL_REQUESTED_WITHOUT_RECONCILIATION_PATH" SAFE_AUTO_RECONCILE
       (Some (Pipeline.id p)) None None "")
  ++ when (String.eqb (Pipeline.status p) "COMPLETED"
           && existsb (fun s => negb (smem s ["COMPLETED"; "SKIPPED"])) (step_states db p))
    (finding "PIPELINE_STEP_STATE_INCOMPATIBLE" REQUIRES_OPERATOR_REVIEW
       (Some (Pipeline.id p)) None None "completed pipeline has unfinished step")
  ++ when (String.eqb (Pipeline.status p) "CANCELLED"
           && existsb (fun s => smem s ["PENDING"; "RUNNING"]) (step_states db p))
    (finding "PIPELINE_STEP_STATE_INCOMPATIBLE" REQUIRES_OPERATOR_REVIEW
       (Some (Pipeline.id p)) None None "cancelled pipeline has active step").

Definition audit_pipeline (db : Db.Db) (p : PipelineRun) : result (list PipelineInvariantFinding) :=
  root ← retained_root db p;
  mret (terminal_root db p root ++ waiting_cardinality db p root ++ audit_finished db p).

Fixpoint audit_pipelines (db : Db.Db) (ps : list PipelineRun) : result (list PipelineInvariantFinding) :=
  match ps with
  | [] => mret []
  | p :: ps => fs ← audit_pipeline db p; rest ← audit_pipelines db ps; mret (fs ++ rest)
  end.

(** ** Scope *)

Definition authorized (p : option PipelineRun) : bool :=
  Authority.pipeline_execution_is_authorized pipeline_activation_min_id p.

Definition executable (db : Db.Db) (job_id : Z) : bool :=
  existsb (fun j => (Job.id j =? job_id)
                    && Authority.job_execution_authority_predicate pipeline_activation_min_id
                         job_activation_min_id db j) (job_rows db).

Definition _finding_scope (db : Db.Db) (f : PipelineInvariantFinding) : InvariantScope :=
  let actionable :=
    match f_job_id f, f_pipeline_id f, f_dependency_id f with
    | Some j, _, _ => executable db j
    | None, Some p, _ => authorized (Db.pipelines db !! p)
    | None, None, Some d =>
        match Db.dependencies db !! d with
        | Some dep => authorized (Db.pipelines db !! Dependency.pipeline_run_id dep)
        | None => false
        end
    | None, None, None => true
    end in
  if actionable then OPERATIONAL_ACTIONABLE else HISTORICAL_FORENSIC.

Definition with_scope (db : Db.Db) (f : PipelineInvariantFinding) : PipelineInvariantFinding :=
  mkFinding (f_code f) (f_disposition f) (f_pipeline_id f) (f_job_id f) (f_dependency_id f) (f_detail f)
    (_finding_scope db f).

Definition inspect_pipeline_invariants (now : datetime) (db : Db.Db)
  : result (list PipelineInvariantFinding) :=
  let jobs := flat_map (audit_job now db) (job_rows db) in
  let dependencies := flat_map (audit_dependency db) (dependencies_by_id db) in
  pipelines ← audit_pipelines db (pipelines_by_id db);
  mret (map (with_scope db) (jobs ++ duplicate_roots db ++ dependencies ++ pipelines)).

Definition invariant_counts (findings : list PipelineInvariantFinding) : list (string * Z) :=
  map (fun d => (disposition_value d,
                 Z.of_nat (length (List.filter (fun f => bool_decide (f_disposition f = d)
                                                         && operational_actionable f) findings))))
    [SAFE_AUTO_RECONCILE; REQUIRES_OPERATOR_REVIEW; FATAL_STARTUP_INVARIANT].

End Audit.

(** * What the consistency audit reports

    Duplicate roots are reported exactly when there are some; a hand-over the audit accepts
    is one the reconciliation accepts; findings about finished pipelines never count as
    actionable; and a cancellation leaves jobs in recovery behind. *)
From Stdlib Require Import ZArith Lia List String Ascii Bool.
From stdpp Require Import base gmap list strings.
From S2P Require Import Prelude PyDate PyFloat PyValue Tables Queues.
From S2P Require Import PipelineStates JobRows JobLease JobQueue PipelineDependencies DependencyFacts.
Local Open Scope string_scope.
Local Open Scope list_scope.
Local Open Scope Z_scope.
Local Open Scope st_scope.

Lemma In_when {A} (b : bool) (x y : A) : In y (when b x) <-> b = true /\ y = x.
Proof. destruct b; simpl; naive_solver. Qed.

(** ** Groups of root jobs *)

(** The members of a group, and no group is empty or listed twice. *)
Fixpoint group (k : Z) (groups : list (Z * list BackgroundJob)) : list BackgroundJob :=
  match groups with
  | [] => []
  | (k', js) :: groups => if k =? k' then js else group k groups
  end.

Lemma group_add_keys k j groups x :
  In x (map fst (group_add k j groups)) <-> x = k \/ In x (map fst groups).
Proof.
  induction groups as [|[k' js] gs IH]; simpl; [naive_solver|].
  destruct (Z.eqb_spec k k') as [->|]; simpl; [naive_solver|]. rewrite IH. tauto.
Qed.

Lemma group_add_NoDup k j groups :
  List.NoDup (map fst groups) -> List.NoDup (map fst (group_add k j groups)).
Proof.
  induction groups as [|[k' js] gs IH]; simpl; intros Hnd; [constructor; [by intros []|constructor]|]. inversion Hnd; subst.
  destruct (Z.eqb_spec k k') as [->|Hne]; simpl; [done|]. constructor; [|auto].
  rewrite group_add_keys. naive_solver.
Qed.

Lemma group_add_group k j groups x :
  group x (group_add k j groups) = if x =? k then group k groups ++ [j] else group x groups.
Proof.
  induction groups as [|[k' js] gs IH]; simpl; [by destruct (Z.eqb_spec x k)|].
  destruct (Z.eqb_spec k k') as [->|Hne]; simpl.
  - by destruct (Z.eqb_spec x k').
  - destruct (Z.eqb_spec x k') as [->|]; [|done]. by destruct (Z.eqb_spec k' k); [congruence|].
Qed.

Lemma group_In k js groups :
  List.NoDup (map fst groups) -> In (k, js) groups -> group k groups = js.
Proof.
  induction groups as [|[k' js'] gs IH]; simpl; [done|]. intros Hnd Hin. inversion Hnd; subst.
  destruct Hin as [[= -> ->]|Hin]; [by rewrite Z.eqb_refl|].
  destruct (Z.eqb_spec k k') as [->|]; [|auto]. destruct H1. by apply (in_map fst) in Hin.
Qed.

Lemma group_present k groups : group k groups <> [] -> In (k, group k groups) groups.
Proof.
  induction groups as [|[k' js'] gs IH]; simpl; [done|].
  destruct (Z.eqb_spec k k') as [->|]; [by left|]. intros H. right. auto.
Qed.

Section Facts.
Context `{Coll : Collaborators}.

(** The active root jobs of a pipeline. *)
Definition roots_of (db : Db.Db) (k : Z) : list BackgroundJob :=
  List.filter (fun j => opt_id_eqb (_job_pipeline_id j) (Some k) && is_root_job db j) (job_rows db).

Lemma grouped db :
  List.NoDup (map fst (active_full_by_pipeline db)) /\
  forall k, group k (active_full_by_pipeline db) = roots_of db k.
Proof.
  unfold active_full_by_pipeline, roots_of.
  assert (forall jobs groups, List.NoDup (map fst groups) ->
    let groups' := fold_left (fun groups j => match _job_pipeline_id j with
                             | Some k => if is_root_job db j then group_add k j groups else groups
                             | None => groups
                             end) jobs groups in
    List.NoDup (map fst groups') /\
    forall k, group k groups' = group k groups ++
      List.filter (fun j => opt_id_eqb (_job_pipeline_id j) (Some k) && is_root_job db j) jobs) as H;
    [|apply (H (job_rows db) []); constructor].
  induction jobs as [|j jobs IH]; intros groups Hnd; simpl; [split; [done|]; intros; by rewrite app_nil_r|].
  destruct (_job_pipeline_id j) as [k|] eqn:Hk; simpl; [|by apply IH].
  destruct (is_root_job db j) eqn:Hr.
  - destruct (IH (group_add k j groups)) as [Hnd' Hg]; [by apply group_add_NoDup|]. split; [done|].
    intros x. rewrite Hg, group_add_group, Z.eqb_sym. rewrite andb_true_r.
    destruct (Z.eqb_spec k x) as [->|]; [|done]. by rewrite <- app_assoc.
  - destruct (IH groups Hnd) as [Hnd' Hg]. split; [done|]. intros x. by rewrite Hg, andb_false_r.
Qed.

Lemma duplicate_roots_spec db f :
  In f (duplicate_roots db) <->
  exists k, (2 <= length (roots_of db k))%nat /\
    f = finding "DUPLICATE_ACTIVE_ROOT_JOBS" FATAL_STARTUP_INVARIANT (Some k) None None (job_ids (roots_of db k)).
Proof.
  destruct (grouped db) as [Hnd Hg]. unfold duplicate_roots. rewrite in_flat_map. split.
  - intros ([k js] & Hin & Hf). apply In_when in Hf as [Hlen ->]. cbn [fst snd] in *.
    rewrite <- (group_In _ _ _ Hnd Hin), Hg in *. exists k. split; [|done]. apply Z.ltb_lt in Hlen. lia.
  - intros (k & Hlen & ->). exists (k, roots_of db k). split.
    + rewrite <- Hg. apply group_present. rewrite Hg. intros E. rewrite E in Hlen. simpl in Hlen. lia.
    + apply In_when. split; [|done]. apply Z.ltb_lt. cbn [snd]. lia.
Qed.

(** ** The findings of an audit *)

Lemma audit_pipelines_In db ps fs :
  audit_pipelines db ps = Ok fs ->
  forall f, In f fs <-> exists p gs, In p ps /\ audit_pipeline db p = Ok gs /\ In f gs.
Proof.
  revert fs. induction ps as [|p ps IH]; intros fs H; cbn [audit_pipelines] in H.
  - apply Ok_inj in H as <-. intros f. split; [done|]. by intros (? & ? & [] & _).
  - apply result_bind_Ok in H as (gs & Hg & H). apply result_bind_Ok in H as (rest & Hr & H).
    apply Ok_inj in H as <-. intros f. rewrite in_app_iff, (IH _ Hr). split.
    + intros [Hf|(q & hs & Hq & Hh & Hf)]; [by exists p, gs; split; [left|]|exists q, hs; split; [by right|done]].
    + intros (q & hs & [->|Hq] & Hh & Hf); [left; congruence|right; eauto].
Qed.

Lemma inspect_In now db fs :
  inspect_pipeline_invariants now db = Ok fs ->
  forall f, In f fs <-> exists g, f = with_scope db g /\
    ((exists j, In j (job_rows db) /\ In g (audit_job now db j)) \/ In g (duplicate_roots db) \/
     (exists d, In d (dependencies_by_id db) /\ In g (audit_dependency db d)) \/
     (exists p gs, In p (pipelines_by_id db) /\ audit_pipeline db p = Ok gs /\ In g gs)).
Proof.
  unfold inspect_pipeline_invariants. intros H f. apply result_bind_Ok in H as (ps & Hps & H).
  apply Ok_inj in H as <-. rewrite in_map_iff.
  split; intros (g & H1 & H2); exists g; (split; [congruence|]);
    rewrite !in_app_iff, !in_flat_map, (audit_pipelines_In _ _ _ Hps) in *; done.
Qed.

(** The codes of the other findings. *)
Lemma job_codes now db j f :
  In f (audit_job now db j) -> In (f_code f)
    ["ACTIVE_ROOT_WITHOUT_VALID_PIPELINE"; "CHILD_WITHOUT_VALID_PIPELINE_DEPENDENCY"; "EXPIRED_WORKER_LEASE";
     "STALE_GENERATION_WITH_APPARENT_AUTHORITY"].
Proof.
  unfold audit_job, orphan_root, invalid_child, expired_lease, stale_generation.
  rewrite !in_app_iff. intros [H|[H|[H|H]]]; repeat case_match; try done; apply In_when in H as [_ ->]; simpl; tauto.
Qed.
Lemma dependency_codes db d f :
  In f (audit_dependency db d) -> In (f_code f)
    ["WAITING_DEPENDENCY_REQUIRES_CHILD_ENQUEUE"; "COMPLETED_DEPENDENCY_REQUIRES_CONTINUATION";
     "MULTIPLE_ACTIVE_DEPENDENCY_CONTINUATIONS"].
Proof.
  unfold audit_dependency. rewrite !in_app_iff.
  intros [H|[H|H]]; apply In_when in H as [_ ->]; simpl; tauto.
Qed.

(** Two active root jobs of one pipeline are always reported, and nothing else is
    reported as such: an audit that returns contains a [DUPLICATE_ACTIVE_ROOT_JOBS] finding for a
    pipeline exactly when at least two active full-pipeline jobs without a dependency name that
    pipeline, and the finding lists their ids. *)
Theorem duplicate_roots_reported now db fs k :
  inspect_pipeline_invariants now db = Ok fs ->
  ((exists f, In f fs /\ f_code f = "DUPLICATE_ACTIVE_ROOT_JOBS" /\ f_pipeline_id f = Some k) <->
   (2 <= length (roots_of db k))%nat) /\
  (forall f, In f fs -> f_code f = "DUPLICATE_ACTIVE_ROOT_JOBS" -> f_pipeline_id f = Some k ->
     f_disposition f = FATAL_STARTUP_INVARIANT /\ f_detail f = job_ids (roots_of db k)).
Proof.
  intros H. assert (forall f, In f fs -> f_code f = "DUPLICATE_ACTIVE_ROOT_JOBS" -> f_pipeline_id f = Some k ->
    (2 <= length (roots_of db k))%nat /\ f_disposition f = FATAL_STARTUP_INVARIANT /\
    f_detail f = job_ids (roots_of db k)) as Honly.
  { intros f Hf Hc Hk. apply (inspect_In _ _ _ H) in Hf as (g & -> & Hg). cbn in Hc, Hk |- *.
    destruct Hg as [(j & _ & Hg)|[Hg|[(d & _ & Hg)|(p & gs & _ & Hp & Hg)]]].
    - apply job_codes in Hg. rewrite Hc in Hg. simpl in Hg. naive_solver.
    - apply duplicate_roots_spec in Hg as (k' & Hlen & ->). cbn in Hk. by simplify_eq.
    - apply dependency_codes in Hg. rewrite Hc in Hg. simpl in Hg. naive_solver.
    - apply result_bind_Ok in Hp as (root & _ & Hp). apply Ok_inj in Hp as <-.
      exfalso. revert Hg. unfold terminal_root, waiting_cardinality, audit_finished. rewrite !in_app_iff.
      intros Hg. destruct_or! Hg; repeat case_match; try done; apply In_when in Hg as [_ ->]; done. }
  split; [|intros f Hf Hc Hk; by apply (Honly f)]. split; [intros (f & Hf & Hc & Hk); by apply (Honly f)|].
  intros Hlen. eexists (with_scope db _). split; [apply (inspect_In _ _ _ H)|].
  - eexists. split; [reflexivity|]. right. left. apply duplicate_roots_spec. eauto.
  - by split.
Qed.

(** What the audit says about finished pipelines is never actionable: a finding that a
    terminal pipeline has a live continuation, that a requested cancellation has no way to
    finish, or that the steps of a finished pipeline are not finished, always has the
    historical scope, so that no count includes it, the count of fatal startup invariants
    among them. *)
Theorem finished_findings_are_historical now db fs f :
  (forall k p, Db.pipelines db !! k = Some p -> Pipeline.id p = k) ->
  inspect_pipeline_invariants now db = Ok fs -> In f fs ->
  In (f_code f) ["TERMINAL_PIPELINE_WITH_LIVE_CONTINUATION"; "CANCEL_REQUESTED_WITHOUT_RECONCILIATION_PATH";
                 "PIPELINE_STEP_STATE_INCOMPATIBLE"] ->
  f_scope f = HISTORICAL_FORENSIC /\ operational_actionable f = false.
Proof.
  intros Hkey H Hf Hc. apply (inspect_In _ _ _ H) in Hf as (g & -> & Hg). cbn in Hc.
  enough (_finding_scope db g = HISTORICAL_FORENSIC) as E.
  { unfold operational_actionable, with_scope. cbn [f_scope]. by rewrite E. }
  destruct Hg as [(j & _ & Hg)|[Hg|[(d & _ & Hg)|(p & gs & Hin & Hp & Hg)]]].
  - exfalso. apply job_codes in Hg. simpl in Hg. destruct_or! Hg; rewrite <- Hg in Hc; naive_solver.
  - exfalso. apply duplicate_roots_spec in Hg as (k' & Hlen & ->). cbn in Hc. naive_solver.
  - exfalso. apply dependency_codes in Hg. simpl in Hg. destruct_or! Hg; rewrite <- Hg in Hc; naive_solver.
  - apply result_bind_Ok in Hp as (root & _ & Hp). apply Ok_inj in Hp as <-.
    assert (Db.pipelines db !! Pipeline.id p = Some p) as Hrow.
    { unfold pipelines_by_id in Hin. apply sort_by_In, in_map_iff in Hin as ([k q] & Hq & Hin).
      cbn in Hq. subst q. apply list_elem_of_In, elem_of_map_to_list in Hin. by rewrite (Hkey _ _ Hin). }
    assert (g ∈ audit_finished db p -> _finding_scope db g = HISTORICAL_FORENSIC) as Hfin.
    { intros Hg'. apply list_elem_of_In in Hg'. unfold audit_finished in Hg'. rewrite !in_app_iff in Hg'.
      assert (smem (Pipeline.status p) Authority.NON_EXECUTABLE_PIPELINE_STATUSES = true /\
              f_job_id g = None /\ f_pipeline_id g = Some (Pipeline.id p)) as (Hst & Hj & Hk).
      { destruct_or! Hg'; apply In_when in Hg' as [Hb ->]; apply andb_prop in Hb as [Hb _];
          (split; [|done]); apply smem_In;
          [apply smem_In in Hb; simpl in *; tauto|..]; apply String.eqb_eq in Hb; rewrite Hb; simpl; tauto. }
      unfold _finding_scope. rewrite Hj, Hk, Hrow. unfold authorized, Authority.pipeline_execution_is_authorized.
      rewrite Hst. by rewrite !andb_false_r. }
    rewrite !in_app_iff in Hg. destruct Hg as [Hg|[Hg|Hg]].
    + exfalso. unfold terminal_root in Hg. case_match; [|done]. apply In_when in Hg as [_ ->]. cbn in Hc. naive_solver.
    + exfalso. apply In_when in Hg as [_ ->]. cbn in Hc. naive_solver.
    + apply Hfin. by apply list_elem_of_In.
Qed.

(** The audit accepts a hand-over only when the reconciliation of the root does. *)
Lemma handoff_agrees db p r :
  valid_terminal_root_handoff db p (Some r) = true -> _root_has_active_dependency_handoff db p r = true.
Proof.
  unfold valid_terminal_root_handoff, _root_has_active_dependency_handoff, expected_dependency_type.
  assert (forall t, match active_dependencies db p with
    | [d] => String.eqb (Dependency.dependency_type d) t && (Dependency.root_job_id d =? Job.id r)
    | _ => false end = true ->
    (Z.of_nat (length (List.filter (fun d => (Dependency.pipeline_run_id d =? Pipeline.id p)
        && (Dependency.root_job_id d =? Job.id r) && String.eqb (Dependency.dependency_type d) t
        && smem (Dependency.state d) DEPENDENCY_ACTIVE_STATES) (dependencies_by_id db))) =? 1) = true) as H.
  { intros t. unfold active_dependencies. intros H.
    rewrite (filter_ext _ (fun d => (String.eqb (Dependency.dependency_type d) t
        && (Dependency.root_job_id d =? Job.id r)) && ((Dependency.pipeline_run_id d =? Pipeline.id p)
        && smem (Dependency.state d) ["PENDING_ENQUEUE"; "QUEUED"; "RUNNING"]))).
    2: { intros d. unfold DEPENDENCY_ACTIVE_STATES.
         destruct (Dependency.pipeline_run_id d =? _), (Dependency.root_job_id d =? _),
           (String.eqb (Dependency.dependency_type d) t); simpl; done. }
    set (q := fun d => (Dependency.pipeline_run_id d =? Pipeline.id p)
        && smem (Dependency.state d) ["PENDING_ENQUEUE"; "QUEUED"; "RUNNING"]) in *.
    assert (forall l, List.filter (fun d => (String.eqb (Dependency.dependency_type d) t
        && (Dependency.root_job_id d =? Job.id r)) && q d) l
      = List.filter (fun d => String.eqb (Dependency.dependency_type d) t
        && (Dependency.root_job_id d =? Job.id r)) (List.filter q l)) as ->.
    { intros l. induction l as [|d l IH]; simpl; [done|]. destruct (q d); simpl;
        rewrite ?andb_true_r, ?andb_false_r; [|done]. by rewrite IH. }
    destruct (List.filter q _) as [|d [|]]; try done. simpl. by rewrite H. }
  destruct (String.eqb (Pipeline.status p) "WAITING_DEPENDENCY"); [apply H|].
  destruct (String.eqb (Pipeline.status p) "WAITING_FOR_CERI_COMPLETION"); [apply H|done].
Qed.

(** ** Cancellation *)

(** Closing a row of a table in order never violates a unique index. *)
Lemma close_conflicts now d e :
  dependency_conflicts e d = false -> dependency_conflicts e (close "CANCELLED" now d) = false.
Proof.
  unfold dependency_conflicts. rewrite !orb_false_iff. intros [[[[H1 H2] H3] H4] _]. destruct d.
  split_and!; try done. cbn. by rewrite andb_false_r.
Qed.

Lemma close_flush now d db :
  deps_ok (Db.dependencies db) -> Db.dependencies db !! Dependency.id d = Some d ->
  flush_dependency (close "CANCELLED" now d) db = (Ok tt, put_dependency (close "CANCELLED" now d) db).
Proof.
  intros Hok Hd. unfold flush_dependency. assert (forallb _ _ = true) as ->; [|done].
  apply forallb_forall. intros e He. apply dependencies_by_id_In in He as [i Hi].
  assert (Dependency.id (close "CANCELLED" now d) = Dependency.id d) as -> by by destruct d.
  destruct (Z.eqb_spec (Dependency.id e) (Dependency.id d)) as [|Hne]; [done|]. simpl.
  apply negb_true_iff, close_conflicts. eapply (deps_unique _ Hok); [exact Hi|exact Hd|].
  rewrite <- (deps_keyed _ Hok _ _ Hi). done.
Qed.

(** What cancelling dependencies leaves alone. *)
Definition same_rest (db db' : Db.Db) : Prop :=
  Db.jobs db' = Db.jobs db /\ Db.pipelines db' = Db.pipelines db /\ Db.steps db' = Db.steps db.

Lemma close_all_runs now ds : forall db,
  deps_ok (Db.dependencies db) -> Forall (fun d => Db.dependencies db !! Dependency.id d = Some d) ds ->
  NoDup (map Dependency.id ds) ->
  exists db', st_for ds (fun d => flush_dependency (close "CANCELLED" now d)) db = (Ok tt, db') /\ same_rest db db'.
Proof.
  induction ds as [|d ds IH]; intros db Hok Hall Hnd; cbn [st_for]; [by exists db|].
  apply Forall_cons in Hall as [Hd Hall]. simpl in Hnd. apply NoDup_cons in Hnd as [Hnot Hnd].
  unfold st_bind. rewrite (close_flush _ _ _ Hok Hd).
  destruct (IH (put_dependency (close "CANCELLED" now d) db)) as (db' & Hrun & H1 & H2 & H3).
  - pose proof (close_flush now _ _ Hok Hd) as Hf.
    by apply (moves_flush _ _ (cancel_replaces now _ _ Hok Hd) Hok _ _ _ eq_refl Hf).
  - rewrite Forall_forall in *. intros e He. rewrite put_dependency_deps.
    assert (Dependency.id (close "CANCELLED" now d) = Dependency.id d) as -> by by destruct d.
    rewrite lookup_insert_ne; [by apply Hall|]. intros E. apply Hnot. rewrite E.
    by apply list_elem_of_In, in_map, list_elem_of_In.
  - done.
  - exists db'. split; [exact Hrun|]. unfold same_rest. rewrite H1, H2, H3. by destruct db.
Qed.

Lemma cancel_dependencies_run now i db :
  deps_ok (Db.dependencies db) ->
  exists db', cancel_active_dependencies now i db = (Ok tt, db') /\ same_rest db db'.
Proof.
  intros Hok. unfold cancel_active_dependencies. change (st_bind st_get ?f db) with (f db db). cbv beta.
  apply close_all_runs; [done| |by apply NoDup_map_filter, dependencies_by_id_NoDup].
  rewrite Forall_forall. intros d Hin. apply list_elem_of_In, filter_In in Hin as [Hin _].
  apply dependencies_by_id_In in Hin as [j Hj]. by eapply row_at.
Qed.

Lemma open_may_be_cancelled s :
  smem s OPEN_PIPELINE_STATES = true ->
  _transition_allowed s "CANCEL_REQUESTED" "user_control" false = true /\
  smem s TERMINAL_PIPELINE_STATES = false.
Proof. intros H. apply smem_In in H. simpl in H. by destruct_or! H; subst s. Qed.

Lemma transition_runs now p t actor args db :
  t <> "COMPLETED" -> _transition_allowed (Pipeline.status p) t actor (arg_operator_resume args) = true ->
  exists db', transition_pipeline now p t actor args db = (Ok (transitioned p t args now), db').
Proof.
  intros Ht Ha. unfold transition_pipeline. change (st_bind st_get ?f db) with (f db db). cbv beta.
  apply String.eqb_neq in Ht. rewrite Ht, Ha. cbn [negb andb]. unfold st_bind, st_modify, st_ret.
  destruct (smem t ["FAILED"; "CANCELLED"; "BLOCKED"; "PARTIAL"]); eauto.
Qed.

Lemma transitioned_result p t args now :
  result_of (transitioned p t args now) = result_of p.
Proof. unfold transitioned. by repeat case_match; destruct p. Qed.

(** Cancelling an open pipeline without a queued or running control job completes at once
    and leaves every job as it is: a control job that is RECOVERING or STALLED is neither
    counted nor cancelled, and a step that is RUNNING stays so, although the pipeline is
    CANCELLED afterwards. *)
Theorem cancellation_overlooks_recovery now db i p :
  deps_ok (Db.dependencies db) -> Db.pipelines db !! i = Some p -> Pipeline.id p = i ->
  smem (Pipeline.status p) OPEN_PIPELINE_STATES = true ->
  _active_pipeline_control_job_ids db i = [] ->
  exists q db', cancel_pipeline now (fun _ => false) i db = (Ok q, db') /\
    Db.pipelines db' !! i = Some q /\ Pipeline.status q = "CANCELLED" /\
    Db.jobs db' = Db.jobs db /\
    (forall s, In s (Db.steps db) -> Step.status s = "RUNNING" -> In s (Db.steps db')).
Proof.
  intros Hok Hp Hid Hopen Hnone. destruct (open_may_be_cancelled _ Hopen) as [Hallow Hterm].
  unfold cancel_pipeline. cbv zeta. change (st_bind st_get ?f db) with (f db db). cbv beta. rewrite Hp, Hterm.
  set (args := mkTransitionArgs _ _ _ _ _ _).
  destruct (transition_runs now p "CANCEL_REQUESTED" "user_control" args db) as [db1 H1]; [done|exact Hallow|].
  unfold st_bind at 1. rewrite H1. set (p1 := transitioned p _ args now) in *.
  pose proof (transition_pipeline_inv _ _ _ _ _ _ _ _ H1) as (_ & _ & _ & P1 & D1 & J1 & S1 & _).
  assert (_active_pipeline_control_job_ids db1 i = []) as Hnone1.
  { unfold _active_pipeline_control_job_ids in *. rewrite P1, Hid, lookup_insert_eq, J1. rewrite Hp in Hnone.
    unfold control_candidates in *. rewrite D1. unfold p1 at 1. rewrite transitioned_result.
    unfold job_rows, Authority.jobs_by_id in *. rewrite J1.
    assert (Pipeline.id p1 = Pipeline.id p) as -> by apply transitioned_id. done. }
  change (st_bind st_get ?f db1) with (f db1 db1). cbv beta. rewrite Hnone1. cbn [st_for].
  unfold st_bind at 1, st_ret at 1. change (st_bind st_get ?f db1) with (f db1 db1). cbv beta.
  assert (Db.pipelines db1 !! i = Some p1) as Hp1 by (rewrite P1, Hid; apply lookup_insert_eq).
  rewrite Hp1, Hnone1. unfold p1 at 1. rewrite transitioned_status.
  change (smem "CANCEL_REQUESTED" TERMINAL_PIPELINE_STATES) with false. cbv iota.
  set (args2 := mkTransitionArgs _ _ _ _ _ _).
  destruct (transition_runs now p1 "CANCELLED" "pipeline_orchestrator" args2 db1) as [db2 H2]; [done| |].
  { unfold p1. rewrite transitioned_status. done. }
  unfold st_bind at 1. rewrite H2. set (q := transitioned p1 _ args2 now) in *.
  pose proof (transition_pipeline_inv _ _ _ _ _ _ _ _ H2) as (_ & _ & _ & P2 & D2 & J2 & S2 & _).
  unfold st_bind at 1, st_modify. set (db3 := _cancel_pending_steps now i db2).
  assert (deps_ok (Db.dependencies db3)) as Hok3.
  { assert (Db.dependencies db3 = Db.dependencies db2) as -> by (by subst db3; destruct db2). by rewrite D2, D1. }
  destruct (cancel_dependencies_run now i db3 Hok3) as (db4 & H4 & J4 & P4 & S4).
  unfold st_bind. rewrite H4. exists q, db4. split; [done|]. rewrite P4, J4, S4.
  assert (Db.jobs db3 = Db.jobs db2 /\ Db.pipelines db3 = Db.pipelines db2) as [-> ->]
    by (by subst db3; destruct db2).
  split_and!.
  - rewrite P2. assert (Pipeline.id p1 = i) as -> by (by unfold p1; rewrite transitioned_id). apply lookup_insert_eq.
  - unfold q. apply transitioned_status.
  - by rewrite J2, J1.
  - intros s Hs Hrun. assert (Db.steps db3 = map (fun step =>
      if (Step.pipeline_run_id step =? i) && String.eqb (Step.status step) "PENDING"
      then Step.set_completed_at (Some now) (Step.set_status "CANCELLED" step) else step) (Db.steps db2)) as ->
      by (by subst db3; destruct db2).
    rewrite S2, S1. apply in_map_iff. exists s. split; [|done]. rewrite Hrun. by rewrite andb_false_r.
Qed.
End Facts.
