(* ===== verification/JobRecovery.v ===== *)
(** * Background jobs: watchdog and recovery

    The operations of [app/services/background_job_service.py] that act on jobs
    whose holder is gone or makes no progress: fencing of stalled jobs, fencing
    after the loss of a worker, requeueing of stalled jobs, and the recovery of
    expired leases.  Queries without an order are read by ascending id. *)
From Stdlib Require Import ZArith Lia List String Ascii Bool.
From stdpp Require Import base gmap list strings.
From S2P Require Import Prelude PyDate PyFloat PyValue Tables Queues Redaction.
From S2P Require Import PipelineStates JobRows JobLease JobQueue.
Local Open Scope string_scope.
Local Open Scope list_scope.
Local Open Scope Z_scope.
Local Open Scope st_scope.

(** [runtime_mutation_authority.RecoveryAuthority]: normal recovery, or recovery
    in the scope of a certification session. *)
Inductive RecoveryAuthority := Normal | Certification (session_id : string).

Definition is_certification (a : RecoveryAuthority) : bool :=
  match a with Normal => false | Certification _ => true end.

Definition require_normal_worker_recovery {S} (a : RecoveryAuthority) : ST S unit :=
  if is_certification a then
    st_raise "RuntimeMutationAuthorityError" "CERTIFICATION_WORKER_RECOVERY_FORBIDDEN"
  else st_ret tt.

Section Recovery.
Context `{Collaborators}.

Definition authorized (db : Db.Db) (job : BackgroundJob) : bool :=
  Authority.job_execution_authority_predicate pipeline_activation_min_id job_activation_min_id db job.

Definition in_claim_scope (db : Db.Db) (a : RecoveryAuthority) (job : BackgroundJob) : bool :=
  match a with Normal => true | Certification s => certification_claim_filter db s job end.
Definition in_recovery_scope (db : Db.Db) (a : RecoveryAuthority) (job : BackgroundJob) : bool :=
  match a with Normal => true | Certification s => certification_recovery_filter db s job end.

Definition opt_int (o : option Z) : pyval := of_opt VInt o.
Definition opt_iso (o : option datetime) : pyval := of_opt (fun t => VStr (dt_isoformat t)) o.

(** ** Recovery records *)

Definition _record_progress_recovery (job : BackgroundJob) (identity : dict) (observed_at : datetime)
    (failure_reason : option string) : BackgroundJob :=
  let metadata := Job.operational_metadata_json job in
  let signature := json_sha256 (VDict identity) in
  let prior := as_dict (dget metadata "progress_recovery") in
  let same := match dget prior "signature" with VStr s => String.eqb s signature | _ => false end in
  let record :=
    [("signature", VStr signature);
     ("identical_count", VInt (if same then int_or_0 (dget prior "identical_count") + 1 else 1));
     ("stall_identity", VDict identity);
     ("last_stalled_at", VStr (dt_isoformat observed_at))]
    ++ match nonempty failure_reason with
       | Some r => [("failure_reason", VStr (_safe_error r))] | None => [] end in
  Job.set_operational_metadata_json (dict_set "progress_recovery" (VDict record) metadata) job.

Definition step_leb (a b : PipelineStep) : bool := Step.step_order a <=? Step.step_order b.

Definition _memory_recovery_identity (db : Db.Db) (job : BackgroundJob) : dict :=
  let identity := [("decision", VStr "WORKER_MEMORY_CRITICAL"); ("job_type", VStr (Job.job_type job))] in
  let pipeline_id := dget (Job.payload_json job) "pipeline_run_id" in
  if String.eqb (Job.job_type job) "FULL_PIPELINE" && negb (is_none pipeline_id) then
    let completed := sort_by step_leb (List.filter (fun s =>
      bool_decide (Some (Step.pipeline_run_id s) = py_int pipeline_id)
      && String.eqb (Step.status s) "COMPLETED") (Db.steps db)) in
    identity ++ [("completed_steps", VList (map (fun s => VInt (Step.id s)) completed))]
  else identity ++ [("checkpoint_fingerprint", VStr (json_sha256 (VDict (Job.payload_json job))))].

(** ** Interruption of the pipeline steps of a fenced job *)

Definition interrupted_step (job : BackgroundJob) (observed_at : datetime) (step : PipelineStep)
  : PipelineStep :=
  let payload := match Step.result_json step with Some d => d | None => [] end in
  let history := as_list (dget payload "attempt_history") ++
    [VDict [("attempt", VInt (Step.retry_count step + 1));
            ("status", VStr "INTERRUPTED");
            ("started_at", opt_iso (Step.started_at step));
            ("finished_at", VStr (dt_isoformat observed_at));
            ("reason", VStr "JOB_PROGRESS_STALLED_FENCED");
            ("background_job_id", VInt (Job.id job))]] in
  let s := Step.set_result_json (Some (dict_set "attempt_history" (VList history) payload)) step in
  let s := Step.set_status "INTERRUPTED" s in
  let s := Step.set_completed_at (Some observed_at) s in
  let s := Step.set_error_message
    (Some "Useful progress stopped and the execution token was fenced.") s in
  Step.set_message (Some ("Attempt " ++ str_of_Z (Step.retry_count step + 1)
    ++ " was interrupted; automatic replay pending.")%string) s.

Definition interrupt_running_steps (job : BackgroundJob) (observed_at : datetime) (pipeline_id : Z)
    (steps : list PipelineStep) : list PipelineStep :=
  map (fun s => if (Step.pipeline_run_id s =? pipeline_id) && String.eqb (Step.status s) "RUNNING"
                then interrupted_step job observed_at s else s) steps.

(** Whether the sector rotation snapshot can be the resume boundary: every step
    before it is completed or skipped. *)
Definition resumable_sector_rotation (pipeline_id : Z) (steps : list PipelineStep) : bool :=
  let all_steps := sort_by step_leb
    (List.filter (fun s => Step.pipeline_run_id s =? pipeline_id) steps) in
  match List.find (fun s => String.eqb (Step.step_name s) "SECTOR_ROTATION_SNAPSHOT") all_steps with
  | None => false
  | Some target =>
      forallb (fun s => negb (Step.step_order s <? Step.step_order target)
                        || smem (Step.status s) ["COMPLETED"; "SKIPPED"]) all_steps
  end.

Definition set_resume (d : dict) : dict :=
  dict_set "resume_from_step" (VStr "SECTOR_ROTATION_SNAPSHOT") d.

(** Returns the job with its payload, updated when a resume boundary was set. *)
Definition _interrupt_fenced_pipeline_steps (now : datetime) (job : BackgroundJob)
    (observed_at : datetime) : ST Db.Db BackgroundJob :=
  if negb (String.eqb (Job.job_type job) "FULL_PIPELINE") then st_ret job
  else match py_int (dget (Job.payload_json job) "pipeline_run_id") with
  | None => st_ret job
  | Some pipeline_id =>
      let! db := st_get in
      match Db.pipelines db !! pipeline_id with
      | None => st_ret job
      | Some pipeline =>
          do! st_modify (fun db => Db.set_steps
                (interrupt_running_steps job observed_at pipeline_id (Db.steps db)) db) in
          let! db := st_get in
          let effective_stage := _effective_progress_stage job in
          let resume := bool_decide (effective_stage = Some "SECTOR_ROTATION_SNAPSHOT")
                        && resumable_sector_rotation pipeline_id (Db.steps db) in
          let job := if resume then Job.set_payload_json (set_resume (Job.payload_json job)) job
                     else job in
          let pipeline := if resume then Pipeline.set_result_json
              (Some (set_resume (match Pipeline.result_json pipeline with
                                 | Some d => d | None => [] end))) pipeline
            else pipeline in
          do! transition_pipeline now pipeline "QUEUED" "recovery"
                (mkTransitionArgs (opt_or effective_stage (Pipeline.current_step pipeline))
                   (Some "Pipeline execution was interrupted; automatic replay is pending.")
                   None None false false) in
          st_ret job
      end
  end.

(** ** The progress watchdog *)

Record Timeouts := mkTimeouts {
  default_timeout_seconds : Z;
  market_data_timeout_seconds : Z;
  long_stage_timeout_seconds : Z;
}.

Definition job_timeout (ts : Timeouts) (job : BackgroundJob) : result Z :=
  Stage.progress_timeout_seconds (_effective_progress_stage job) (default_timeout_seconds ts)
    (market_data_timeout_seconds ts) (long_stage_timeout_seconds ts).

(** What the watchdog saw of an overdue job. *)
Record Observation := mkObservation {
  obs_job_id : Z;
  obs_token : option string;
  obs_sequence : Z;
  obs_progress_at : datetime;
  obs_stage : option string;
  obs_deadline : datetime;
}.

(** [candidate_query]: running jobs with a progress stamp, authorized, of the
    worker (instance) when one is given. *)
Definition watchdog_candidate (db : Db.Db) (authority : RecoveryAuthority)
    (worker_id instance : option string) (job : BackgroundJob) : bool :=
  bool_decide (Job.status job = RUNNING)
  && bool_decide (is_Some (Job.last_progress_at job))
  && authorized db job
  && (bool_decide (worker_id = None) || opt_eqb (Job.worker_id job) worker_id)
  && (bool_decide (instance = None) || opt_eqb (Job.worker_instance_id job) instance)
  && in_claim_scope db authority job.

Definition observe (ts : Timeouts) (observed_at : datetime) (job : BackgroundJob)
  : result (option Observation) :=
  timeout ← job_timeout ts job;
  match Job.last_progress_at job with
  | None => mret None
  | Some progress_at =>
      let deadline := observed_at - seconds timeout in
      mret (if Job.requested_cancel job || (progress_at <? deadline)
            then Some (mkObservation (Job.id job) (Job.execution_token job)
                   (Job.progress_sequence job) progress_at (Job.progress_stage job) deadline)
            else None)
  end.

Fixpoint collect {A B} (f : A -> result (option B)) (l : list A) : result (list B) :=
  match l with
  | [] => mret []
  | x :: l =>
      o ← f x;
      rest ← collect f l;
      mret (match o with Some b => b :: rest | None => rest end)
  end.

Definition overdue_jobs (db : Db.Db) (authority : RecoveryAuthority) (ts : Timeouts)
    (observed_at : datetime) (worker_id instance : option string) : result (list Observation) :=
  collect (observe ts observed_at)
    (List.filter (watchdog_candidate db authority worker_id instance) (job_rows db)).

(** The re-read under the row lock: nothing of the observation has changed. *)
Definition still_overdue (db : Db.Db) (authority : RecoveryAuthority)
    (worker_id instance : option string) (o : Observation) (job : BackgroundJob) : bool :=
  watchdog_candidate db authority worker_id instance job
  && (Job.id job =? obs_job_id o)
  && bool_decide (Job.execution_token job = obs_token o)
  && (Job.progress_sequence job =? obs_sequence o)
  && bool_decide (Job.last_progress_at job = Some (obs_progress_at o))
  && bool_decide (Job.progress_stage job = obs_stage o)
  && (Job.requested_cancel job
      || match Job.last_progress_at job with Some t => t <? obs_deadline o | None => false end).

Definition str_of_opt_int (o : option Z) : string :=
  match o with Some n => str_of_Z n | None => "None" end.

Definition stalled (observed_at : datetime) (timeout : Z) (worker_id : option string)
    (job : BackgroundJob) : BackgroundJob :=
  let effective_stage := _effective_progress_stage job in
  let old_token := Job.execution_token job in
  let lease_age := _age_seconds observed_at (Job.heartbeat_at job) in
  let j := Job.set_status STALLED job in
  let j := Job.set_stall_detected_at (Some observed_at) j in
  let j := Job.set_error_message (Some
    ("Useful progress sequence " ++ str_of_Z (Job.progress_sequence job) ++ " remained frozen for "
     ++ str_of_Z timeout ++ "s at "
     ++ match effective_stage with Some s => s | None => "UNSPECIFIED" end
     ++ "; lease heartbeat age=" ++ str_of_opt_int lease_age ++ "s")%string) j in
  let j := release_ownership j in
  let identity :=
    [("stage", opt_str effective_stage);
     ("current_item", opt_str (Job.progress_current_item job));
     ("processed", VInt (Job.progress_processed job));
     ("total", opt_int (Job.progress_total job));
     ("checkpoint_version", opt_str (Job.checkpoint_version job));
     ("decision", VStr "STALL_PROGRESS_SEQUENCE_FROZEN")] in
  let j := _record_progress_recovery j identity observed_at None in
  Job.set_operational_metadata_json
    (_with_lease_event (Job.operational_metadata_json j) "PROGRESS_STALLED_FENCED" observed_at
       worker_id old_token) j.

(** Handles one observation; the id is returned when the job was fenced. *)
Definition fence_observed (locked : Z -> bool) (authority : RecoveryAuthority) (ts : Timeouts)
    (observed_at : datetime) (worker_id instance : option string) (o : Observation)
  : ST Db.Db (option Z) :=
  let! db := st_get in
  match Db.jobs db !! obs_job_id o with
  | None => st_ret None
  | Some job =>
      if still_overdue db authority worker_id instance o job && negb (locked (Job.id job)) then
        if Job.requested_cancel job then
          do! _finalize_recovery_cancellation observed_at job in st_ret None
        else
          let! timeout := st_lift (job_timeout ts job) in
          let! job := _interrupt_fenced_pipeline_steps observed_at job observed_at in
          do! flush_job (stalled observed_at timeout worker_id job) in
          st_ret (Some (Job.id job))
      else st_ret None
  end.

Definition fence_all (locked : Z -> bool) (authority : RecoveryAuthority) (ts : Timeouts)
    (observed_at : datetime) (worker_id instance : option string) (overdue : list Observation)
  : ST Db.Db (list Z) :=
  st_fold overdue [] (fun fenced o =>
    let! id := fence_observed locked authority ts observed_at worker_id instance o in
    st_ret (fenced ++ match id with Some i => [i] | None => [] end)).

Definition fence_stalled_jobs (locked : Z -> bool) (authority : RecoveryAuthority) (ts : Timeouts)
    (observed_at : datetime) (worker_id instance : option string) : ST Db.Db (list Z) :=
  let! db := st_get in
  let! overdue := st_lift (overdue_jobs db authority ts observed_at worker_id instance) in
  fence_all locked authority ts observed_at worker_id instance overdue.

(** ** Requeueing of stalled jobs *)

Definition recovery_record (job : BackgroundJob) : dict :=
  as_dict (dget (Job.operational_metadata_json job) "progress_recovery").

Definition memory_failure (job : BackgroundJob) : bool :=
  match dget (as_dict (dget (recovery_record job) "stall_identity")) "decision" with
  | VStr s => String.eqb s "WORKER_MEMORY_CRITICAL"
  | _ => false
  end.

Definition str_of_value (v : pyval) : string :=
  match v with VStr s => s | VInt n => str_of_Z n | _ => "None" end.

Definition reason_code (job : BackgroundJob) : string :=
  if memory_failure job then "REPEATED_MEMORY_CRITICAL_LIMIT_REACHED"
  else "IDENTICAL_PROGRESS_STALL_LIMIT_REACHED".
Definition failure_label (job : BackgroundJob) : string :=
  if memory_failure job then "memory-critical failures without durable progress"
  else "progress stalls".

Definition recovery_blocked (observed_at : datetime) (job : BackgroundJob) : BackgroundJob :=
  let recovery := recovery_record job in
  let metadata := dict_set "blocked"
    (VDict [("reason_code", VStr (reason_code job)); ("blocked_at", VStr (dt_isoformat observed_at));
            ("diagnostics", VDict recovery)]) (Job.operational_metadata_json job) in
  let j := Job.set_operational_metadata_json metadata job in
  let j := Job.set_status BLOCKED j in
  let j := Job.set_completed_at (Some observed_at) j in
  Job.set_error_message (Some
    ("Automatic recovery stopped after " ++ str_of_value (dget recovery "identical_count")
     ++ " equivalent " ++ failure_label job ++ "."
     ++ (if memory_failure job
         then " Last failure: " ++ str_of_value (dget recovery "failure_reason") else ""))%string) j.

Definition blocked_step_row (observed_at : datetime) (job blocked : BackgroundJob)
    (step : PipelineStep) : PipelineStep :=
  let s := Step.set_status "BLOCKED" step in
  let s := Step.set_completed_at (Some observed_at) s in
  let s := Step.set_message (Some ("Blocked after repeated " ++ failure_label job ++ ".")%string) s in
  let s := Step.set_error_message
    (if memory_failure job then Job.error_message blocked
     else Some "Useful progress remained frozen and automatic recovery was exhausted.") s in
  Step.set_result_json (Some (dict_set "terminal_reason_code" (VStr (reason_code job))
    (match Step.result_json step with Some d => d | None => [] end))) s.

(** The pipeline of a job whose recovery is exhausted. *)
Definition block_pipeline (observed_at : datetime) (job blocked : BackgroundJob) : ST Db.Db unit :=
  if negb (String.eqb (Job.job_type job) "FULL_PIPELINE") then st_ret tt
  else
    let! db := st_get in
    match py_int (dget (Job.payload_json job) "pipeline_run_id") ≫= (Db.pipelines db !!.) with
    | None => st_ret tt
    | Some pipeline =>
        let effective_stage := _effective_progress_stage job in
        let! pipeline := transition_pipeline observed_at pipeline "BLOCKED" "recovery"
          (mkTransitionArgs (opt_or effective_stage (Pipeline.current_step pipeline))
             (Some ("Automatic recovery stopped after equivalent " ++ failure_label job ++ ".")%string)
             None None false false) in
        let! db := st_get in
        match List.find (fun s => (Step.pipeline_run_id s =? Pipeline.id pipeline)
                && opt_eqb (Some (Step.step_name s))
                     (opt_or effective_stage (Pipeline.current_step pipeline))) (Db.steps db) with
        | None => st_ret tt
        | Some step => st_modify (put_step (blocked_step_row observed_at job blocked step))
        end
    end.

Definition requeued (observed_at : datetime) (job : BackgroundJob) : BackgroundJob :=
  let j := Job.set_status RECOVERING job in
  let j := Job.set_recovery_count (Job.recovery_count job + 1) j in
  let j := Job.set_operational_metadata_json
    (_with_lease_event (Job.operational_metadata_json job) "PROGRESS_RECOVERY_QUEUED" observed_at
       None None) j in
  Job.set_run_after observed_at j.

Definition requeue_one (observed_at : datetime) (limit : Z) (recovered : Z) (job : BackgroundJob)
  : ST Db.Db Z :=
  if Job.requested_cancel job then
    do! _finalize_recovery_cancellation observed_at job in st_ret recovered
  else if limit <=? int_or_0 (dget (recovery_record job) "identical_count") then
    let blocked := recovery_blocked observed_at job in
    do! flush_job blocked in
    do! block_pipeline observed_at job blocked in
    st_ret recovered
  else
    do! flush_job (requeued observed_at job) in
    st_ret (recovered + 1).

Definition requeue_stalled_jobs (locked : Z -> bool) (authority : RecoveryAuthority)
    (job_ids : option (list Z)) (observed_at : datetime) (max_identical_recoveries : option Z)
  : ST Db.Db Z :=
  let limit := match max_identical_recoveries with
               | Some n => n | None => job_max_identical_progress_recoveries end in
  let! db := st_get in
  let selected := List.filter (fun j =>
    bool_decide (Job.status j = STALLED) && authorized db j
    && match job_ids with Some ids => bool_decide (Job.id j ∈ ids) | None => true end
    && in_recovery_scope db authority j && negb (locked (Job.id j))) (job_rows db) in
  st_fold selected 0 (requeue_one observed_at limit).

(** ** Loss of a worker *)

Record WorkerJobReconciliation := mkReconciliation {
  fenced_job_ids : list Z;
  cancelled_job_ids : list Z;
  untouched_job_ids : list Z;
}.

Definition fenced_for_loss (db : Db.Db) (observed_at : datetime) (worker_id reason : string)
    (failure_code : option string) (job : BackgroundJob) : BackgroundJob :=
  let old_token := Job.execution_token job in
  let j := if bool_decide (failure_code = Some "WORKER_MEMORY_CRITICAL")
           then _record_progress_recovery job (_memory_recovery_identity db job) observed_at
                  (Some reason)
           else job in
  let j := Job.set_status STALLED j in
  let j := Job.set_stall_detected_at (Some observed_at) j in
  let j := Job.set_error_message (Some (_safe_error reason)) j in
  let j := release_ownership j in
  Job.set_operational_metadata_json
    (_with_lease_event (Job.operational_metadata_json j) "WORKER_PROCESS_FENCED" observed_at
       (Some worker_id) old_token) j.

Definition owned_by (worker_id : string) (instance : option string) (job : BackgroundJob) : bool :=
  bool_decide (Job.status job = RUNNING) && opt_eqb (Job.worker_id job) (Some worker_id)
  && (bool_decide (instance = None) || opt_eqb (Job.worker_instance_id job) instance).

Definition reconcile_one (observed_at : datetime) (worker_id reason : string)
    (failure_code : option string) (acc : list Z * list Z) (job : BackgroundJob)
  : ST Db.Db (list Z * list Z) :=
  let '(fenced, cancelled) := acc in
  if Job.requested_cancel job then
    do! _finalize_recovery_cancellation observed_at job in
    st_ret (fenced, cancelled ++ [Job.id job])
  else
    let! db := st_get in
    do! flush_job (fenced_for_loss db observed_at worker_id reason failure_code job) in
    st_ret (fenced ++ [Job.id job], cancelled).

Definition reconcile_jobs_for_worker_loss (locked : Z -> bool) (authority : RecoveryAuthority)
    (worker_id reason : string) (instance : option string) (observed_at : datetime)
    (failure_code : option string) : ST Db.Db WorkerJobReconciliation :=
  let! db := st_get in
  let owned := List.filter (owned_by worker_id instance) (job_rows db) in
  let jobs := List.filter (fun j => authorized db j && in_claim_scope db authority j
                                    && negb (locked (Job.id j))) owned in
  let! acc := st_fold jobs ([], []) (reconcile_one observed_at worker_id reason failure_code) in
  st_ret (mkReconciliation acc.1 acc.2
    (List.filter (fun i => negb (bool_decide (i ∈ map Job.id jobs))) (map Job.id owned))).

Definition fence_jobs_for_worker (locked : Z -> bool) (authority : RecoveryAuthority)
    (worker_id reason : string) (instance : option string) (observed_at : datetime)
  : ST Db.Db (list Z) :=
  let! r := reconcile_jobs_for_worker_loss locked authority worker_id reason instance observed_at None in
  st_ret (fenced_job_ids r).

(** ** Expired leases *)

Definition recovered_row (now : datetime) (job : BackgroundJob) : BackgroundJob :=
  let j := release_ownership job in
  let j := Job.set_error_message (Some "Recovered after stale worker lock.") j in
  let j := if Job.retry_count job <? Job.max_retries job
           then Job.set_run_after now (Job.set_status QUEUED j)
           else Job.set_completed_at (Some now) (Job.set_status STALE j) in
  Job.set_operational_metadata_json
    (_with_attempt_finished
       (_with_lease_event (Job.operational_metadata_json job) "RECOVERED" now (Job.worker_id job)
          (Job.execution_token job)) now "STALE_RECOVERED") j.

Definition lose_winner_run (now : datetime) (job_id : Z) (r : WinnerProcessingRun)
  : WinnerProcessingRun :=
  if bool_decide (WinnerRun.background_job_id r = Some job_id)
     && String.eqb (WinnerRun.status r) "RUNNING"
  then WinnerRun.set_error_message
         (Some "Background job lease expired; execution was superseded.")
         (WinnerRun.set_terminal_reason_code (Some "LEASE_EXPIRED_SUPERSEDED")
           (WinnerRun.set_completed_at (Some now) (WinnerRun.set_status "LOST" r)))
  else r.

Definition recover_one (now : datetime) (recovered : Z) (job : BackgroundJob) : ST Db.Db Z :=
  if Job.requested_cancel job then
    do! _finalize_recovery_cancellation now job in st_ret recovered
  else
    do! flush_job (recovered_row now job) in
    do! st_modify (fun db =>
          Db.set_winner_runs (map (lose_winner_run now (Job.id job)) (Db.winner_runs db)) db) in
    st_ret (recovered + 1).

Definition _recover_jobs (now : datetime) (jobs : list BackgroundJob) : ST Db.Db Z :=
  st_fold jobs 0 (recover_one now).

Definition lease_expired (now : datetime) (job : BackgroundJob) : bool :=
  bool_decide (Job.status job = RUNNING)
  && match Job.lease_expires_at job with Some t => t <? now | None => false end.

Definition recover_stale_jobs (authority : RecoveryAuthority) (now : datetime) : ST Db.Db Z :=
  do! require_normal_worker_recovery authority in
  let! db := st_get in
  _recover_jobs now (List.filter (fun j => lease_expired now j && authorized db j) (job_rows db)).

Definition recover_abandoned_jobs_for_worker (authority : RecoveryAuthority) (worker_id : string)
    (heartbeat_timeout_seconds : Z) (now : datetime) : ST Db.Db Z :=
  do! require_normal_worker_recovery authority in
  let cutoff := now - seconds heartbeat_timeout_seconds in
  let! db := st_get in
  _recover_jobs now (List.filter (fun j =>
    bool_decide (Job.status j = RUNNING) && opt_eqb (Job.worker_id j) (Some worker_id)
    && match Job.heartbeat_at j with Some t => t <? cutoff | None => false end
    && authorized db j) (job_rows db)).

End Recovery.
