(* ===== verification/JobInvariant.v ===== *)
(** * Background jobs: the queue invariant

    Row consistency (a job is owned exactly while it is RUNNING and carries a
    completion time exactly when its status is terminal), the unique indexes, and
    their preservation by every operation of the service. *)
From Stdlib Require Import ZArith Lia List String Ascii Bool.
From stdpp Require Import base gmap list strings.
From S2P Require Import Prelude PyDate PyFloat PyValue Tables Queues Redaction.
From S2P Require Import PipelineStates JobRows JobLease JobQueue JobRecovery.
Local Open Scope string_scope.
Local Open Scope list_scope.
Local Open Scope Z_scope.
Local Open Scope st_scope.

(** ** Rows *)

Definition owned (j : BackgroundJob) : Prop :=
  is_Some (Job.execution_token j) /\ is_Some (Job.worker_id j) /\ is_Some (Job.lease_owner j) /\
  is_Some (Job.locked_at j) /\ is_Some (Job.heartbeat_at j) /\ is_Some (Job.lease_expires_at j) /\
  is_Some (Job.last_progress_at j).
Definition unowned (j : BackgroundJob) : Prop :=
  Job.execution_token j = None /\ Job.worker_id j = None /\ Job.worker_instance_id j = None /\
  Job.lease_owner j = None /\ Job.locked_at j = None /\ Job.heartbeat_at j = None /\
  Job.lease_expires_at j = None.

Definition terminal (s : JobStatus) : bool := status_in s TERMINAL_JOB_STATUSES.

(** The consistency of one row, retry accounting included. *)
Record row_ok (j : BackgroundJob) : Prop := mk_row_ok {
  ok_owned : Job.status j = RUNNING -> owned j;
  ok_unowned : Job.status j <> RUNNING -> unowned j;
  ok_completed : terminal (Job.status j) = true <-> is_Some (Job.completed_at j);
  ok_retries : 0 <= Job.retry_count j <= Job.max_retries j + 1;
  ok_active_retries : terminal (Job.status j) = false -> Job.retry_count j <= Job.max_retries j;
}.

(** The columns that identify a job never change. *)
Definition same_identity (a b : BackgroundJob) : Prop :=
  Job.id a = Job.id b /\ Job.job_type a = Job.job_type b /\
  Job.request_key a = Job.request_key b /\ Job.workflow_key a = Job.workflow_key b /\
  Job.max_retries a = Job.max_retries b.

Record inv (db : Db.Db) : Prop := mk_inv {
  inv_keys : forall i j, Db.jobs db !! i = Some j -> Job.id j = i;
  inv_unique : forall i k a b, Db.jobs db !! i = Some a -> Db.jobs db !! k = Some b ->
    i <> k -> conflicts a b = false;
  inv_rows : forall i j, Db.jobs db !! i = Some j -> row_ok j;
}.

(** What the pipeline roll-ups may do to job rows: nothing, or move an unclaimed
    job to a terminal status, releasing it. *)
Definition hook_change (a b : BackgroundJob) : Prop :=
  same_identity a b /\ Job.retry_count b = Job.retry_count a /\
  Job.run_after b = Job.run_after a /\
  ((Job.status b = Job.status a /\ Job.completed_at b = Job.completed_at a /\
    Job.execution_token b = Job.execution_token a /\ Job.worker_id b = Job.worker_id a /\
    Job.worker_instance_id b = Job.worker_instance_id a /\
    Job.lease_owner b = Job.lease_owner a /\ Job.locked_at b = Job.locked_at a /\
    Job.heartbeat_at b = Job.heartbeat_at a /\ Job.lease_expires_at b = Job.lease_expires_at a /\
    Job.last_progress_at b = Job.last_progress_at a)
   \/ (Job.status a ∈ [QUEUED; STALLED; RECOVERING] /\ Job.status b ∈ [CANCELLED; BLOCKED; FAILED] /\
       is_Some (Job.completed_at b) /\ unowned b)).

Definition hook_ok (hook : ST Session unit) : Prop :=
  forall s r s', hook s = (r, s') -> forall i,
    option_Forall2 hook_change (Db.jobs (sdb s) !! i) (Db.jobs (sdb s') !! i).

(** What the job service relies on of the pipeline services it calls. *)
Class PipelineRollups `{Collaborators} : Prop := {
  rollup_failure : forall f, hook_ok (mark_pipeline_job_failure f);
  rollup_retry : forall f, hook_ok (mark_pipeline_job_retry f);
  rollup_sec : forall f, hook_ok (mark_sec_repair_failure f);
  rollup_ceri : hook_ok roll_up_ceri_pipeline_job_failure;
}.

(** ** The store *)

Lemma job_rows_In db j : In j (job_rows db) <-> exists i, Db.jobs db !! i = Some j.
Proof.
  unfold job_rows, Authority.jobs_by_id. rewrite sort_by_In, in_map_iff. split.
  - intros ([i j'] & <- & Hin). exists i.
    by apply elem_of_map_to_list, list_elem_of_In.
  - intros [i Hi]. exists (i, j). split; [done|].
    by apply list_elem_of_In, elem_of_map_to_list.
Qed.

Lemma put_job_lookup job db i :
  Db.jobs (put_job job db) !! i = if decide (Job.id job = i) then Some job else Db.jobs db !! i.
Proof. destruct db. cbn. by rewrite lookup_insert. Qed.

Lemma unique_ok_spec db job :
  unique_ok db job = true <->
  forall i r, Db.jobs db !! i = Some r -> Job.id r <> Job.id job -> conflicts r job = false.
Proof.
  unfold unique_ok. rewrite forallb_forall. split.
  - intros H i r Hi Hne. specialize (H r). rewrite job_rows_In in H.
    specialize (H (ex_intro _ i Hi)). apply orb_true_iff in H as [H|H].
    + by apply Z.eqb_eq in H.
    + by apply negb_true_iff.
  - intros H r [i Hi]%job_rows_In. destruct (Z.eqb_spec (Job.id r) (Job.id job)) as [E|E]; [done|].
    simpl. by rewrite (H i r).
Qed.

Lemma opt_eqb_comm a b : opt_eqb a b = opt_eqb b a.
Proof. destruct a, b; simpl; auto using String.eqb_sym. Qed.
Lemma conflicts_comm a b : conflicts a b = conflicts b a.
Proof.
  unfold conflicts, same_workflow_stage, same_active_request, same_active_maturation.
  rewrite (opt_eqb_comm (Job.workflow_key a)), (opt_eqb_comm (Job.request_key a)),
    (String.eqb_sym (Job.job_type a) (Job.job_type b)).
  f_equal; [f_equal|].
  - rewrite <- !andb_assoc. f_equal. f_equal. apply andb_comm.
  - rewrite (andb_comm (String.eqb (Job.job_type a) _)). rewrite <- !andb_assoc.
    f_equal. f_equal. f_equal. apply andb_comm.
Qed.

Lemma put_job_inv db job : inv db -> row_ok job -> unique_ok db job = true -> inv (put_job job db).
Proof.
  intros [Hk Hu Hr] Hj Hok. rewrite unique_ok_spec in Hok. constructor.
  - intros i j. rewrite put_job_lookup. case_decide; [by intros [= <-]|apply Hk].
  - intros i k a b. rewrite !put_job_lookup.
    repeat case_decide; intros Ha Hb Hne; simplify_eq; [| |by apply (Hu i k)].
    + rewrite conflicts_comm. apply (Hok k b); [done|]. by rewrite (Hk _ _ Hb).
    + apply (Hok i a); [done|]. by rewrite (Hk _ _ Ha).
  - intros i j. rewrite put_job_lookup. case_decide; [by intros [= <-]|apply Hr].
Qed.

(** [inv] only speaks about the job table. *)
Lemma inv_jobs db db' : Db.jobs db' = Db.jobs db -> inv db -> inv db'.
Proof. intros E [Hk Hu Hr]. constructor; rewrite E; done. Qed.

Lemma flush_job_preserves job : row_ok job -> preserves inv (flush_job job).
Proof.
  intros Hj db r db' Hdb H. unfold flush_job in H. destruct (unique_ok db job) eqn:E; simplify_eq.
  - by apply put_job_inv.
  - done.
Qed.

Lemma modify_jobs_preserves f :
  (forall db, Db.jobs (f db) = Db.jobs db) -> preserves inv (st_modify f).
Proof. intros Hf. apply preserves_modify. intros db Hdb. by apply (inv_jobs db). Qed.

Lemma transition_preserves now p target actor args :
  preserves inv (transition_pipeline now p target actor args).
Proof.
  intros db r db' Hdb E. apply transition_pipeline_inv in E. destruct r as [p'|[cls msg|]].
  - destruct E as (_ & _ & _ & _ & _ & Ej & _). by apply (inv_jobs db).
  - by destruct E as [_ ->].
  - done.
Qed.

(** ** Rows written by the operations *)

(** Setters and getters of a row: opens the record. *)
Ltac open_row j := destruct j; cbn in *.

Lemma release_unowned j : unowned (release_ownership j).
Proof. open_row j. by split_and!. Qed.

Lemma terminal_not_running s : terminal s = true -> s <> RUNNING.
Proof. by intros H ->. Qed.

Lemma row_terminal j :
  terminal (Job.status j) = true -> is_Some (Job.completed_at j) -> unowned j ->
  0 <= Job.retry_count j <= Job.max_retries j + 1 -> row_ok j.
Proof.
  intros Ht Hc Hu Hr. constructor; try done.
  - intros Hs. by rewrite Hs in Ht.
  - intros Hf. congruence.
Qed.

Lemma row_waiting j :
  Job.status j ∈ [QUEUED; STALLED; RECOVERING] -> Job.completed_at j = None -> unowned j ->
  0 <= Job.retry_count j <= Job.max_retries j -> row_ok j.
Proof.
  intros Hs Hc Hu Hr.
  assert (terminal (Job.status j) = false /\ Job.status j <> RUNNING) as [Ht Hn].
  { set_unfold in Hs. destruct_or? Hs; rewrite Hs; done. }
  constructor; try done; try lia.
  rewrite Ht, Hc. split; [done|]. by intros [? ?].
Qed.

Lemma not_terminal_completed j : row_ok j -> terminal (Job.status j) = false -> Job.completed_at j = None.
Proof.
  intros H Ht. destruct (Job.completed_at j) eqn:E; [|done].
  assert (terminal (Job.status j) = true) by (apply (ok_completed _ H); rewrite E; eauto). congruence.
Qed.

(** Evaluates the columns of an updated row; texts and metadata stay folded. *)
Ltac row_cbn :=
  cbn -[_with_attempt_finished _with_attempt_started _with_lease_event _record_progress_recovery
        _safe_error redact_sensitive dict_set dict_update dget str_of_Z append terminal
        _effective_progress_stage _memory_recovery_identity failed_metadata recovery_record
        reason_code failure_label memory_failure stage_changed dt_isoformat _lease_expiry
        _age_seconds us_per_second Z.add seconds] in *.

Ltac terminal_row := apply row_terminal; row_cbn; [done|eauto|by split_and!|lia].
Ltac waiting_row := apply row_waiting; row_cbn; [set_solver|done|by split_and!|lia].

Section Written.
Context `{Coll : Collaborators}.

Lemma finish_values_ok now job status result row :
  row_ok row -> terminal status = true -> row_ok (finish_values now job status result row).
Proof.
  intros [_ _ _ Hr _] Ht. unfold finish_values.
  case_bool_decide; destruct row; apply row_terminal; row_cbn; eauto; by split_and!.
Qed.

Lemma blocked_values_ok now job error code diags row :
  row_ok row -> row_ok (blocked_values now job error code diags row).
Proof. intros [_ _ _ Hr _]. unfold blocked_values. destruct row; terminal_row. Qed.

Lemma running_bounds row :
  row_ok row -> Job.status row = RUNNING ->
  Job.completed_at row = None /\ 0 <= Job.retry_count row <= Job.max_retries row /\
  is_Some (Job.last_progress_at row).
Proof.
  intros Hr Hs. split_and!.
  - apply not_terminal_completed; [done|]. by rewrite Hs.
  - apply Hr.
  - apply (ok_active_retries _ Hr). by rewrite Hs.
  - by destruct (ok_owned _ Hr Hs) as (?&?&?&?&?&?&?).
Qed.

Lemma failed_values_ok now db job error failure delay row :
  row_ok row -> Job.status row = RUNNING ->
  Job.retry_count job = Job.retry_count row -> Job.max_retries job = Job.max_retries row ->
  row_ok (failed_values now db job error failure delay row).
Proof.
  intros Hr Hs E1 E2. destruct (running_bounds _ Hr Hs) as (Hc & Hb & _). clear Hr.
  unfold failed_values. cbv zeta.
  destruct (retryable failure && (Job.retry_count job + 1 <=? Job.max_retries job)) eqn:E;
    rewrite E1, E2 in *; destruct row; cbn in Hs, Hc, Hb, E; subst.
  - apply andb_true_iff in E as [_ E%Z.leb_le]. waiting_row.
  - terminal_row.
Qed.

Lemma deferred_values_ok now job delay reason row :
  row_ok row -> Job.status row = RUNNING -> row_ok (deferred_values now job delay reason row).
Proof.
  intros Hr Hs. destruct (running_bounds _ Hr Hs) as (Hc & Hb & _).
  unfold deferred_values. destruct row; waiting_row.
Qed.

Lemma heartbeat_values_ok now lease row :
  row_ok row -> Job.status row = RUNNING -> row_ok (heartbeat_values now lease row).
Proof.
  intros [Ho Hu Hc Hr Ha] Hs. specialize (Ho Hs). destruct Ho as (?&?&?&?&?&?&?).
  unfold heartbeat_values. destruct row. row_cbn. constructor; row_cbn; try done.
  all: intros _; split_and!; row_cbn; eauto.
Qed.

Lemma set_cancel_ok row : row_ok row -> row_ok (Job.set_requested_cancel true row).
Proof. intros [Ho Hu Hc Hr Ha]. destruct row. by constructor. Qed.

Lemma new_job_ok id now a payload : 0 <= e_max_retries a -> row_ok (new_job id now a payload).
Proof. intros Hm. unfold new_job. apply row_waiting; cbn; [set_solver|done|by split_and!|lia]. Qed.

Lemma waiting_bounds row (l : list JobStatus) :
  row_ok row -> Job.status row ∈ l -> (forall s, s ∈ l -> terminal s = false) ->
  Job.completed_at row = None /\ 0 <= Job.retry_count row <= Job.max_retries row.
Proof.
  intros Hr Hs Hl. specialize (Hl _ Hs). split; [by apply not_terminal_completed|].
  split; [apply Hr|by apply (ok_active_retries _ Hr)].
Qed.

Lemma claimed_ok now worker instance token lease row :
  row_ok row -> Job.status row ∈ [QUEUED; RECOVERING] ->
  row_ok (claimed now worker instance token lease row).
Proof.
  intros Hr Hs.
  destruct (waiting_bounds row _ Hr Hs) as [Hc Hb].
  { intros s Hin. set_unfold in Hin. by destruct_or? Hin; subst. }
  unfold claimed. destruct row; row_cbn. constructor; row_cbn; try done; try lia.
  rewrite Hc. split; [done|by intros [? ?]].
Qed.

Lemma progressed_ok now p row :
  row_ok row -> Job.status row = RUNNING -> row_ok (progressed now p row).
Proof.
  intros [Ho Hu Hc Hr Ha] Hs. specialize (Ho Hs). destruct Ho as (?&?&?&?&?&?&?).
  unfold progressed. destruct (p_metadata_patch p), (p_payload p); destruct row; row_cbn;
    (constructor; row_cbn; try done; intros _; split_and!; row_cbn; eauto).
Qed.

Lemma cancelled_row_ok now row : row_ok row -> row_ok (cancelled_row now row).
Proof. intros [_ _ _ Hr _]. unfold cancelled_row. destruct row; terminal_row. Qed.

Lemma cancelled_queued_ok now row :
  row_ok row -> row_ok (release_ownership (Job.set_completed_at (Some now) (Job.set_status CANCELLED row))).
Proof. intros [_ _ _ Hr _]. destruct row; terminal_row. Qed.

Lemma payload_ok d row : row_ok row -> row_ok (Job.set_payload_json d row).
Proof. intros [Ho Hu Hc Hr Ha]. destruct row. by constructor. Qed.

Lemma metadata_ok d row : row_ok row -> row_ok (Job.set_operational_metadata_json d row).
Proof. intros [Ho Hu Hc Hr Ha]. destruct row. by constructor. Qed.

Lemma stalled_ok observed timeout worker row :
  row_ok row -> Job.status row = RUNNING -> row_ok (stalled observed timeout worker row).
Proof.
  intros Hr Hs. destruct (running_bounds _ Hr Hs) as (Hc & Hb & _).
  unfold stalled, _record_progress_recovery. cbv zeta. do 2 apply metadata_ok.
  destruct row; waiting_row.
Qed.

Lemma requeued_ok observed row :
  row_ok row -> Job.status row = STALLED -> row_ok (requeued observed row).
Proof.
  intros Hr Hs. pose proof (ok_unowned _ Hr ltac:(by rewrite Hs)) as Hu.
  destruct (waiting_bounds row [STALLED] Hr) as [Hc Hb].
  { rewrite Hs. set_solver. } { intros s Hin. set_unfold in Hin. by destruct_or? Hin; subst. }
  unfold requeued. destruct Hu as (?&?&?&?&?&?&?). destruct row; waiting_row.
Qed.

Lemma recovery_blocked_ok observed row :
  row_ok row -> Job.status row = STALLED -> row_ok (recovery_blocked observed row).
Proof.
  intros Hr Hs. pose proof (ok_unowned _ Hr ltac:(by rewrite Hs)) as Hu.
  pose proof (ok_retries _ Hr) as Hb. unfold recovery_blocked.
  destruct Hu as (?&?&?&?&?&?&?). destruct row; terminal_row.
Qed.

Lemma fenced_for_loss_ok db observed worker reason code row :
  row_ok row -> Job.status row = RUNNING ->
  row_ok (fenced_for_loss db observed worker reason code row).
Proof.
  intros Hr Hs. destruct (running_bounds _ Hr Hs) as (Hc & Hb & _).
  unfold fenced_for_loss, _record_progress_recovery. cbv zeta. apply metadata_ok.
  case_bool_decide; destruct row; waiting_row.
Qed.

Lemma recovered_row_ok now row :
  row_ok row -> Job.status row = RUNNING -> row_ok (recovered_row now row).
Proof.
  intros Hr Hs. destruct (running_bounds _ Hr Hs) as (Hc & Hb & _).
  unfold recovered_row. cbv zeta.
  destruct (Z.ltb_spec (Job.retry_count row) (Job.max_retries row)); destruct row;
    [waiting_row|terminal_row].
Qed.
End Written.

Create HintDb rows.
#[export] Hint Resolve finish_values_ok blocked_values_ok failed_values_ok deferred_values_ok
  heartbeat_values_ok set_cancel_ok new_job_ok claimed_ok progressed_ok cancelled_row_ok
  cancelled_queued_ok payload_ok stalled_ok requeued_ok recovery_blocked_ok fenced_for_loss_ok
  recovered_row_ok : rows.

(** ** The lease holder's operations *)

Definition sinv (s : Session) : Prop := inv (sdb s).

Lemma on_db_preserves {A} (m : ST Db.Db A) : preserves inv m -> preserves sinv (on_db m).
Proof.
  intros Hm s r s' Hs H. unfold on_db in H. destruct (m (sdb s)) as [r1 db] eqn:E. simplify_eq.
  unfold sinv in *. cbn. by eapply Hm.
Qed.

Lemma local_preserves f : (forall s, sdb (f s) = sdb s) -> preserves sinv (st_modify f).
Proof. intros Hf. apply preserves_modify. intros s Hs. unfold sinv in *. by rewrite Hf. Qed.

Lemma hook_preserves hook : hook_ok hook -> preserves sinv hook.
Proof.
  intros Hh s r s' Hs H. specialize (Hh s r s' H). unfold sinv in *.
  assert (forall i b, Db.jobs (sdb s') !! i = Some b ->
    exists a, Db.jobs (sdb s) !! i = Some a /\ hook_change a b) as Hc.
  { intros i b Hb. specialize (Hh i). rewrite Hb in Hh. inversion Hh; subst. eauto. }
  constructor.
  - intros i b (a & Ha & (Hid & _) & _)%Hc. rewrite <- (inv_keys _ Hs _ _ Ha). by symmetry.
  - intros i k x y (a & Ha & Hxa)%Hc (b & Hb & Hyb)%Hc Hne.
    pose proof (inv_unique _ Hs _ _ _ _ Ha Hb Hne) as Hu.
    assert (forall a x, hook_change a x -> status_in (Job.status x) ACTIVE_JOB_STATUSES = true ->
      status_in (Job.status a) ACTIVE_JOB_STATUSES = true) as Hact.
    { intros a' x' (_ & _ & _ & [(-> & _)|(_ & Hx & _)]); [done|].
      set_unfold in Hx. by destruct_or? Hx; rewrite Hx. }
    pose proof (Hact _ _ Hxa) as Hx. pose proof (Hact _ _ Hyb) as Hy.
    destruct Hxa as ((_ & Et & Er & Ew & _) & _), Hyb as ((_ & Et' & Er' & Ew' & _) & _).
    unfold conflicts, same_workflow_stage, same_active_request, same_active_maturation in *.
    rewrite <- Et, <- Er, <- Ew, <- Et', <- Er', <- Ew'.
    rewrite !orb_false_iff in *. destruct Hu as [[H1 H2] H3].
    destruct (status_in (Job.status x) _), (status_in (Job.status y) _);
      rewrite ?andb_false_r; rewrite ?(Hx eq_refl), ?(Hy eq_refl) in *; by split_and!.
  - intros i b (a & Ha & (_ & _ & _ & _ & Hm) & Hrc & _ & Hch)%Hc.
    destruct (inv_rows _ Hs _ _ Ha) as [Ho Hu Hcm Hr Hact]. destruct Hch as [Hsame|(_ & Hb & Hcb & Hub)].
    + destruct Hsame as (Es & Ec & E1 & E2 & E3 & E4 & E5 & E6 & E7 & E8).
      constructor; unfold owned, unowned in *; rewrite ?Es, ?Ec, ?E1, ?E2, ?E3, ?E4, ?E5, ?E6, ?E7, ?E8,
        ?Hrc, <- ?Hm; done.
    + apply row_terminal; [set_unfold in Hb; by destruct_or? Hb; rewrite Hb|done|done|].
      rewrite Hrc, <- Hm. done.
Qed.

(** The worker's copy is an earlier state of its row: consistent, and equal to
    the row in the retry accounting while they carry the same token. *)
Record holder_ok (s : Session) : Prop := mk_holder_ok {
  holder_inv : sinv s;
  holder_row : row_ok (sjob s);
  holder_coherent : forall row, Db.jobs (sdb s) !! Job.id (sjob s) = Some row ->
    is_Some (Job.execution_token row) -> Job.execution_token row = Job.execution_token (sjob s) ->
    Job.retry_count row = Job.retry_count (sjob s) /\ Job.max_retries row = Job.max_retries (sjob s);
}.

(** [m] keeps the store consistent when the holder's copy is. *)
Definition holder_safe {A} (m : ST Session A) : Prop :=
  forall s r s', holder_ok s -> m s = (r, s') -> sinv s'.

Lemma status_in_spec s l : status_in s l = true <-> s ∈ l.
Proof. apply bool_decide_eq_true. Qed.

Section Holder.
Context `{Coll : Collaborators} (now : datetime).

Lemma lease_loss_preserves {A} token job what :
  preserves sinv (st_bind (_record_local_lease_loss now token)
                          (fun _ => JobLeaseLost (A:=A) job what)).
Proof. preserve; [by apply local_preserves|apply preserves_raise]. Qed.

(** One guarded update. *)
Lemma apply_update_safe token values allowed s r s' :
  sinv s ->
  (forall row, Db.jobs (sdb s) !! Job.id (sjob s) = Some row -> row_ok row ->
     status_in (Job.status (sjob s)) allowed = true ->
     (is_Some token -> Job.execution_token (sjob s) = token /\
        status_in (Job.status row) allowed = true /\ Job.execution_token row = token) ->
     row_ok (values row)) ->
  _apply_running_job_update now token values allowed s = (r, s') -> sinv s'.
Proof.
  intros Hs Hv H. unfold _apply_running_job_update in H.
  change (st_bind st_get ?f s) with (f s s) in H. cbv beta zeta in H.
  destruct (bool_decide (is_Some token) && _) eqn:E1.
  { by eapply lease_loss_preserves. }
  destruct (negb (status_in _ _)) eqn:E2.
  { by eapply lease_loss_preserves. }
  apply negb_false_iff in E2.
  destruct (Db.jobs (sdb s) !! Job.id (sjob s)) as [row|] eqn:Erow.
  2: { case_bool_decide; [by eapply preserves_raise|by eapply lease_loss_preserves]. }
  destruct (bool_decide (token = None) || _) eqn:E3.
  2: { by eapply lease_loss_preserves. }
  assert (row_ok (values row)) as Hrow.
  { apply Hv; [done|by eapply inv_rows|done|]. intros [t ->].
    apply orb_true_iff in E3 as [E3|E3]; [by apply bool_decide_eq_true in E3|].
    apply andb_true_iff in E3 as [E3 E4]. apply bool_decide_eq_true in E4.
    rewrite bool_decide_true in E1 by eauto. cbn [andb] in E1.
    apply negb_false_iff, bool_decide_eq_true in E1. done. }
  use_preserves sinv Hs H. apply preserves_bind; [|intros ?].
  - by apply on_db_preserves, flush_job_preserves.
  - by apply local_preserves.
Qed.

(** A running copy carries a token, so that the update is guarded. *)
Lemma running_token s token :
  holder_ok s -> Job.status (sjob s) = RUNNING ->
  is_Some (_expected_execution_token (sjob s) token).
Proof.
  intros [_ Hr _] Hs. destruct (ok_owned _ Hr Hs) as [Ht _].
  destruct token; cbn; eauto.
Qed.

Lemma guarded_running s token row :
  holder_ok s -> status_in (Job.status (sjob s)) [RUNNING] = true ->
  Db.jobs (sdb s) !! Job.id (sjob s) = Some row ->
  (is_Some (_expected_execution_token (sjob s) token) ->
     Job.execution_token (sjob s) = _expected_execution_token (sjob s) token /\
     status_in (Job.status row) [RUNNING] = true /\
     Job.execution_token row = _expected_execution_token (sjob s) token) ->
  Job.status row = RUNNING /\
  Job.retry_count row = Job.retry_count (sjob s) /\ Job.max_retries row = Job.max_retries (sjob s).
Proof.
  intros Hs Hst%status_in_spec%list_elem_of_singleton Hrow Hg.
  pose proof (running_token s token Hs Hst) as Ht. destruct (Hg Ht) as (E1 & E2 & E3).
  apply status_in_spec, list_elem_of_singleton in E2. split; [done|].
  apply (holder_coherent _ Hs row); [done| |congruence]. by rewrite E3.
Qed.

Lemma finish_preserves status result token :
  terminal status = true -> preserves sinv (_finish_job now status result token).
Proof.
  intros Ht s r s' Hs H. eapply apply_update_safe; [exact Hs| |exact H].
  intros. by apply finish_values_ok.
Qed.

Lemma cancelled_preserves result token : preserves sinv (mark_job_cancelled now result token).
Proof.
  unfold mark_job_cancelled. preserve.
  - by apply finish_preserves.
  - by apply local_preserves.
  - apply on_db_preserves, flush_job_preserves, set_cancel_ok. by eapply inv_rows.
Qed.

Lemma preserves_holder_safe {A} (m : ST Session A) : preserves sinv m -> holder_safe m.
Proof. intros Hm s r s' Hs. apply Hm, Hs. Qed.

Lemma heartbeat_safe lease token : holder_safe (heartbeat_job now lease token).
Proof.
  intros s r s' Hs H. eapply apply_update_safe; [exact (holder_inv _ Hs)| |exact H].
  intros row Hrow Hok Hst Hg. apply heartbeat_values_ok; [done|].
  by eapply guarded_running.
Qed.

Lemma deferred_safe delay reason token : holder_safe (mark_job_deferred now delay reason token).
Proof.
  intros s r s' Hs H. eapply apply_update_safe; [exact (holder_inv _ Hs)| |exact H].
  intros row Hrow Hok Hst Hg. apply deferred_values_ok; [done|]. by eapply guarded_running.
Qed.

Lemma blocked_safe `{Roll : !PipelineRollups} error code diags token :
  holder_safe (mark_job_blocked now error code diags token).
Proof.
  intros s r s' Hs H. unfold mark_job_blocked in H.
  change (st_bind st_get ?f s) with (f s s) in H. cbv beta zeta in H. unfold st_bind at 1 in H.
  destruct (_apply_running_job_update _ _ _ _ s) as [r1 s1] eqn:E.
  apply apply_update_safe in E; [|exact (holder_inv _ Hs)|by eauto with rows].
  destruct r1; [|by simplify_eq]. use_preserves sinv E H. preserve. apply hook_preserves, rollup_ceri.
Qed.

Lemma failed_safe `{Roll : !PipelineRollups} error delay token :
  holder_safe (mark_job_failed_or_retry now error delay token).
Proof.
  intros s r s' Hs H. unfold mark_job_failed_or_retry in H.
  change (st_bind st_get ?f s) with (f s s) in H. cbv beta zeta in H. unfold st_bind at 1 in H.
  destruct (_apply_running_job_update _ _ _ _ s) as [r1 s1] eqn:E.
  apply apply_update_safe in E; [|exact (holder_inv _ Hs)|].
  2: { intros row Hrow Hok Hst Hg. destruct (guarded_running _ _ _ Hs Hst Hrow Hg) as (?&?&?).
       by apply failed_values_ok. }
  destruct r1; [|by simplify_eq]. use_preserves sinv E H. preserve;
    apply hook_preserves; auto using rollup_failure, rollup_retry, rollup_sec, rollup_ceri.
Qed.
End Holder.

(** ** Operations of the queue *)

Section Store.
Context `{Coll : Collaborators}.

(** The candidates of one claim group. *)
Definition ready (db : Db.Db) (locked : Z -> bool) (now : datetime) (opts : ClaimOptions)
    (group : Queue.QueueClaimGroup) (j : BackgroundJob) : Prop :=
  (exists i, Db.jobs db !! i = Some j) /\ locked (Job.id j) = false /\
  exists f, match Queue.queues group with
            | [] => f = None
            | queues => Queue.worker_queue_filter (Queue.QIter queues) = Ok f
            end /\ claimable db now opts group f j = true.

Definition claim_leb (group : Queue.QueueClaimGroup) : BackgroundJob -> BackgroundJob -> bool :=
  match Queue.created_before group with Some _ => aged_leb | None => priority_leb end.

Lemma claim_leb_total group a b : claim_leb group a b = false -> claim_leb group b a = true.
Proof.
  unfold claim_leb, aged_leb, priority_leb, created_leb. intros E.
  destruct (Queue.created_before group); rewrite ?orb_true_iff, ?andb_true_iff, ?orb_true_iff,
    ?andb_true_iff, ?Z.ltb_lt, ?Z.eqb_eq, ?Z.leb_le in *; lia.
Qed.
Lemma claim_leb_trans group a b c :
  claim_leb group a b = true -> claim_leb group b c = true -> claim_leb group a c = true.
Proof. unfold claim_leb, aged_leb, priority_leb, created_leb. destruct (Queue.created_before group); lia. Qed.

Lemma claim_ready_spec db locked now opts group o :
  _claim_ready_job_id db locked now opts group = Ok o ->
  match o with
  | None => forall j, ~ ready db locked now opts group j
  | Some i => exists j, Job.id j = i /\ ready db locked now opts group j /\
      forall k, ready db locked now opts group k -> claim_leb group j k = true \/ j = k
  end.
Proof.
  unfold _claim_ready_job_id. intros E. apply result_bind_Ok in E as (f & Ef & E).
  apply Ok_inj in E. subst o.
  assert (forall j, ready db locked now opts group j <->
    In j (List.filter (fun j => claimable db now opts group f j && negb (locked (Job.id j)))
      (job_rows db))) as Hr.
  { intros j. unfold ready. rewrite filter_In, job_rows_In, andb_true_iff, negb_true_iff.
    destruct (Queue.queues group) as [|q qs].
    - apply Ok_inj in Ef. naive_solver.
    - rewrite Ef. naive_solver. }
  change (match Queue.created_before group with Some _ => aged_leb | None => priority_leb end)
    with (claim_leb group).
  destruct (sort_by (claim_leb group) _) as [|j rest] eqn:Es; cbn [head fmap option_fmap option_map].
  - intros j Hj%Hr. apply (sort_by_In (claim_leb group)) in Hj. by rewrite Es in Hj.
  - apply sort_by_head in Es as [Hin Hmin]; [|apply claim_leb_total|apply claim_leb_trans].
    exists j. split; [done|]. split; [by apply Hr|]. intros k Hk%Hr. auto.
Qed.

Lemma claim_groups_spec db locked now opts groups o :
  claim_from_groups db locked now opts groups = Ok o ->
  match o with
  | None => forall g j, In g groups -> ~ ready db locked now opts g j
  | Some i => exists before g after j, groups = before ++ g :: after /\
      (forall g' k, In g' before -> ~ ready db locked now opts g' k) /\
      Job.id j = i /\ ready db locked now opts g j /\
      forall k, ready db locked now opts g k -> claim_leb g j k = true \/ j = k
  end.
Proof.
  induction groups as [|g groups IH]; cbn [claim_from_groups]; intros E.
  - apply Ok_inj in E. subst. by intros ? ? [].
  - apply result_bind_Ok in E as (o1 & E1 & E). apply claim_ready_spec in E1.
    destruct o1 as [i|].
    + apply Ok_inj in E. subst. destruct E1 as (j & Hid & Hj & Hmin).
      exists [], g, groups, j. split_and!; try done.
    + specialize (IH E). destruct o as [i|].
      * destruct IH as (before & g' & after & j & -> & Hb & Hj).
        exists (g :: before), g', after, j. split; [done|]. split; [|done].
        intros g'' k [<-|Hin]; eauto.
      * intros g' j [<-|Hin]; eauto.
Qed.

Lemma claimable_status db now opts group f j :
  claimable db now opts group f j = true -> Job.status j ∈ [QUEUED; RECOVERING].
Proof. unfold claimable. rewrite !andb_true_iff. intros [[[[[[[E _] _] _] _] _] _] _]. by apply status_in_spec. Qed.

Lemma claimed_job_found db locked now opts groups i job :
  inv db -> claim_from_groups db locked now opts groups = Ok (Some i) ->
  Db.jobs db !! i = Some job -> Job.status job ∈ [QUEUED; RECOVERING].
Proof.
  intros Hi E Hl. apply claim_groups_spec in E as (? & g & ? & j & _ & _ & Hid & Hr & _).
  destruct Hr as ([k Hk] & _ & f & _ & Hc). rewrite (inv_keys _ Hi _ _ Hk) in Hid. subst k.
  rewrite Hk in Hl. simplify_eq. by eapply claimable_status.
Qed.

Lemma claim_preserves locked qnow now token worker instance lease groups opts :
  preserves inv (claim_next_job locked qnow now token worker instance lease groups opts).
Proof.
  unfold claim_next_job. apply preserves_get. intros db Hdb. preserve_step; [preserve|].
  intros db1 r db' Hdb1 E. unfold st_bind at 1, st_lift in E.
  destruct (claim_from_groups db locked qnow opts groups) as [[i|]|e] eqn:Ec; [| |by simplify_eq].
  - use_preserves inv Hdb1 E. cbn [mbind option_bind]. preserve.
    apply flush_job_preserves, claimed_ok; [by eapply inv_rows|by eapply claimed_job_found].
  - use_preserves inv Hdb1 E. cbn [mbind option_bind]. preserve.
Qed.

Lemma progress_preserves now id token p : preserves inv (record_job_progress now id token p).
Proof.
  unfold record_job_progress. apply preserves_get. intros db Hdb. cbv zeta.
  repeat (first [apply preserves_raise | preserve_step]);
    try (apply preserves_raise).
  apply flush_job_preserves, progressed_ok; [by eapply inv_rows|].
  match goal with E : holds _ _ && _ = true |- _ => apply andb_true_iff in E as [E _];
    apply andb_true_iff in E as [E _]; by apply bool_decide_eq_true in E end.
Qed.

Lemma enqueue_preserves seen now a :
  0 <= e_max_retries a -> preserves inv (enqueue_from seen now a).
Proof.
  intros Hm. unfold enqueue_from. preserve_step; [apply preserves_lift|].
  destruct (coalesce_target seen a); [apply preserves_ret|].
  preserve_step; [apply preserves_lift|].
  intros db r db' Hdb E. change (st_bind st_get ?f db) with (f db db) in E. cbv beta zeta in E.
  destruct (unique_ok db _) eqn:Hu.
  - unfold st_bind, st_modify, st_lift, st_ret in E.
    destruct (bind_job_configuration _ _); simplify_eq; by eauto using put_job_inv, new_job_ok.
  - use_preserves inv Hdb E. preserve.
Qed.

Lemma finalize_preserves now job : row_ok job -> preserves inv (_finalize_recovery_cancellation now job).
Proof.
  intros Hj. unfold _finalize_recovery_cancellation. preserve_step.
  - intros db r db' Hdb E. unfold as_holder in E.
    destruct (mark_job_cancelled _ _ _ _) as [r1 s1] eqn:E1. simplify_eq.
    by apply cancelled_preserves in E1.
  - by apply flush_job_preserves, cancelled_row_ok.
Qed.

Lemma cancel_preserves now id : preserves inv (request_job_cancel now id).
Proof.
  unfold request_job_cancel. preserve.
  - eauto using flush_job_preserves, cancelled_queued_ok, set_cancel_ok, inv_rows.
  - eauto using finalize_preserves, set_cancel_ok, inv_rows.
  - eauto using flush_job_preserves, set_cancel_ok, inv_rows.
Qed.

Lemma interrupt_preserves now job observed :
  preserves inv (_interrupt_fenced_pipeline_steps now job observed).
Proof.
  unfold _interrupt_fenced_pipeline_steps. preserve.
  - apply modify_jobs_preserves. by intros [].
  - apply transition_preserves.
Qed.

(** The interruption of the steps changes nothing but the payload of the job. *)
Lemma interrupt_result now job observed db j db' :
  _interrupt_fenced_pipeline_steps now job observed db = (Ok j, db') ->
  Db.jobs db' = Db.jobs db /\ exists d, j = Job.set_payload_json d job.
Proof.
  assert (job = Job.set_payload_json (Job.payload_json job) job) as Hself by by destruct job.
  unfold _interrupt_fenced_pipeline_steps. intros E.
  destruct (negb _); [unfold st_ret in E; simplify_eq; eauto|].
  destruct (py_int _) as [pid|]; [|unfold st_ret in E; simplify_eq; eauto].
  change (st_bind st_get ?f db) with (f db db) in E. cbv beta in E.
  destruct (Db.pipelines db !! pid) as [pipeline|]; [|unfold st_ret in E; simplify_eq; eauto].
  apply st_bind_Ok in E as (u & db1 & E1 & E). unfold st_modify in E1. simplify_eq.
  change (st_bind st_get ?f ?db) with (f db db) in E. cbv beta zeta in E.
  apply st_bind_Ok in E as (p' & db2 & Et & E). unfold st_ret in E. simplify_eq.
  apply transition_pipeline_inv in Et as (_ & _ & _ & _ & _ & Ej & _).
  rewrite Ej. split; [by destruct db|]. case_match; eauto.
Qed.

Lemma still_overdue_running db authority worker instance o job :
  still_overdue db authority worker instance o job = true -> Job.status job = RUNNING.
Proof.
  unfold still_overdue, watchdog_candidate. rewrite !andb_true_iff.
  intros [[[[[[[[[[[E _] _] _] _] _] _] _] _] _] _] _]. by apply bool_decide_eq_true in E.
Qed.

Lemma fence_preserves locked authority ts observed worker instance o :
  preserves inv (fence_observed locked authority ts observed worker instance o).
Proof.
  unfold fence_observed. apply preserves_get. intros db Hdb.
  destruct (Db.jobs db !! obs_job_id o) as [job|] eqn:Ej; [|apply preserves_ret].
  pose proof (inv_rows _ Hdb _ _ Ej) as Hok.
  destruct (still_overdue _ _ _ _ _ _ && _) eqn:E; [|apply preserves_ret].
  apply andb_true_iff in E as [E%still_overdue_running _].
  preserve_step; [preserve; by apply finalize_preserves|].
  preserve_step; [apply preserves_lift|].
  intros db1 r db' Hdb1 H. unfold st_bind at 1 in H.
  destruct (_interrupt_fenced_pipeline_steps observed job observed db1) as [r1 db2] eqn:Ei.
  pose proof (interrupt_preserves _ _ _ _ _ _ Hdb1 Ei) as Hdb2.
  destruct r1 as [j|e]; [|by simplify_eq].
  apply interrupt_result in Ei as [_ [d ->]]. use_preserves inv Hdb2 H.
  preserve. apply flush_job_preserves, stalled_ok; [by apply payload_ok|by destruct job].
Qed.

Lemma fence_stalled_preserves locked authority ts observed worker instance :
  preserves inv (fence_stalled_jobs locked authority ts observed worker instance).
Proof. unfold fence_stalled_jobs, fence_all. preserve. apply fence_preserves. Qed.

Lemma selected_ok db p job : inv db -> In job (List.filter p (job_rows db)) -> row_ok job /\ p job = true.
Proof. intros Hdb [[i Hi]%job_rows_In Hp]%filter_In. eauto using inv_rows. Qed.

Lemma block_pipeline_preserves observed job blocked : preserves inv (block_pipeline observed job blocked).
Proof.
  unfold block_pipeline. preserve.
  - apply transition_preserves.
  - apply modify_jobs_preserves. by intros [].
Qed.

Lemma requeue_preserves locked authority ids observed limit :
  preserves inv (requeue_stalled_jobs locked authority ids observed limit).
Proof.
  unfold requeue_stalled_jobs. cbv zeta. apply preserves_get. intros db Hdb.
  apply preserves_fold. intros n job Hin.
  apply selected_ok in Hin as [Hok Hp]; [|done].
  rewrite !andb_true_iff in Hp. destruct Hp as [[[[Hs%bool_decide_eq_true _] _] _] _].
  unfold requeue_one. preserve.
  - by apply finalize_preserves.
  - by apply flush_job_preserves, recovery_blocked_ok.
  - apply block_pipeline_preserves.
  - by apply flush_job_preserves, requeued_ok.
Qed.

Lemma reconcile_preserves locked authority worker reason instance observed code :
  preserves inv (reconcile_jobs_for_worker_loss locked authority worker reason instance observed code).
Proof.
  unfold reconcile_jobs_for_worker_loss. cbv zeta. apply preserves_get. intros db Hdb.
  apply preserves_bind; [|intros ?; apply preserves_ret].
  apply preserves_fold. intros acc job [Hin _]%filter_In.
  apply selected_ok in Hin as [Hok Hp]; [|done]. unfold owned_by in Hp.
  rewrite !andb_true_iff in Hp. destruct Hp as [[Hs%bool_decide_eq_true _] _].
  unfold reconcile_one. preserve.
  - by apply finalize_preserves.
  - by apply flush_job_preserves, fenced_for_loss_ok.
Qed.

Lemma recover_preserves now jobs :
  (forall j, In j jobs -> row_ok j /\ Job.status j = RUNNING) -> preserves inv (_recover_jobs now jobs).
Proof.
  intros Hj. apply preserves_fold. intros n job [Hok Hs]%Hj. unfold recover_one. preserve.
  - by apply finalize_preserves.
  - by apply flush_job_preserves, recovered_row_ok.
  - apply modify_jobs_preserves. by intros [].
Qed.

Lemma recover_stale_preserves authority now : preserves inv (recover_stale_jobs authority now).
Proof.
  unfold recover_stale_jobs, require_normal_worker_recovery. preserve.
  apply recover_preserves. intros j Hj. apply selected_ok in Hj as [Hok Hp]; [|done].
  unfold lease_expired in Hp. rewrite !andb_true_iff in Hp.
  destruct Hp as [[Hs%bool_decide_eq_true _] _]. done.
Qed.

Lemma recover_abandoned_preserves authority worker timeout now :
  preserves inv (recover_abandoned_jobs_for_worker authority worker timeout now).
Proof.
  unfold recover_abandoned_jobs_for_worker, require_normal_worker_recovery. preserve.
  apply recover_preserves. intros j Hj. apply selected_ok in Hj as [Hok Hp]; [|done].
  rewrite !andb_true_iff in Hp. destruct Hp as [[[Hs%bool_decide_eq_true _] _] _]. done.
Qed.
End Store.
