(* ===== verification/JobFacts.v ===== *)
(** * Background jobs: the guarantees of the durable queue

    The operations of [app/services/background_job_service.py] as one step
    relation on the store, and what holds in every reachable state: consistency
    of the rows and unique active requests, fencing of stale lease holders, the
    order of claims and idempotent enqueues. *)
From Stdlib Require Import ZArith Lia List String Ascii Bool Relations.
From stdpp Require Import base gmap list strings relations.
From S2P Require Import Prelude PyDate PyFloat PyValue Tables Queues Redaction.
From S2P Require Import PipelineStates JobRows JobLease JobQueue JobRecovery JobInvariant.
Local Open Scope string_scope.
Local Open Scope list_scope.
Local Open Scope Z_scope.
Local Open Scope st_scope.

Section Steps.
Context `{Coll : Collaborators}.

(** What a worker can do with the job it holds. *)
Inductive HolderOp :=
  | Complete (result : option dict)
  | Partially (result : option dict)
  | Cancel (result : option dict)
  | Block (error reason_code : string) (diagnostics : dict)
  | Fail (error : PyError) (delay : option (Z -> Z))
  | Defer (delay : Z) (reason : string)
  | Heartbeat (lease_seconds : Z).

Definition run_op (now : datetime) (op : HolderOp) (token : option string) : ST Session unit :=
  match op with
  | Complete result => mark_job_completed now result token
  | Partially result => mark_job_partial now result token
  | Cancel result => mark_job_cancelled now result token
  | Block error code diags => mark_job_blocked now error code diags token
  | Fail error delay => mark_job_failed_or_retry now error delay token
  | Defer delay reason => mark_job_deferred now delay reason token
  | Heartbeat lease => heartbeat_job now lease token
  end.

(** One committed operation of any process, whether it returned or raised.  The
    look-ups of an enqueue may be older than the store ([seen]), the watchdog
    acts on an arbitrary list of observations, and the holder of a lease acts
    with its own copy of the row. *)
Inductive queue_step : Db.Db -> Db.Db -> Prop :=
  | step_enqueue seen now a db r db' :
      0 <= e_max_retries a -> enqueue_from seen now a db = (r, db') -> queue_step db db'
  | step_claim locked qnow now token worker instance lease groups opts db r db' :
      claim_next_job locked qnow now token worker instance lease groups opts db = (r, db') ->
      queue_step db db'
  | step_holder now op token s r s' :
      holder_ok s -> run_op now op token s = (r, s') -> queue_step (sdb s) (sdb s')
  | step_progress now id token p db r db' :
      record_job_progress now id token p db = (r, db') -> queue_step db db'
  | step_cancel now id db r db' :
      request_job_cancel now id db = (r, db') -> queue_step db db'
  | step_fence locked authority ts observed worker instance os db r db' :
      fence_all locked authority ts observed worker instance os db = (r, db') -> queue_step db db'
  | step_requeue locked authority ids observed limit db r db' :
      requeue_stalled_jobs locked authority ids observed limit db = (r, db') -> queue_step db db'
  | step_worker_lost locked authority worker reason instance observed code db r db' :
      reconcile_jobs_for_worker_loss locked authority worker reason instance observed code db
        = (r, db') -> queue_step db db'
  | step_stale authority now db r db' :
      recover_stale_jobs authority now db = (r, db') -> queue_step db db'
  | step_abandoned authority worker timeout now db r db' :
      recover_abandoned_jobs_for_worker authority worker timeout now db = (r, db') ->
      queue_step db db'.

Lemma run_op_safe `{Roll : !PipelineRollups} now op token : holder_safe (run_op now op token).
Proof.
  destruct op; cbn [run_op].
  - apply preserves_holder_safe, finish_preserves; done.
  - apply preserves_holder_safe, finish_preserves; done.
  - by apply preserves_holder_safe, cancelled_preserves.
  - by apply blocked_safe.
  - by apply failed_safe.
  - apply deferred_safe.
  - apply heartbeat_safe.
Qed.

Lemma queue_step_inv `{Roll : !PipelineRollups} db db' : queue_step db db' -> inv db -> inv db'.
Proof.
  intros Hstep Hdb. destruct Hstep.
  - by eapply enqueue_preserves.
  - by eapply claim_preserves.
  - by eapply run_op_safe.
  - by eapply progress_preserves.
  - by eapply cancel_preserves.
  - match goal with E : fence_all _ _ _ _ _ _ _ _ = _ |- _ => use_preserves inv Hdb E end.
    unfold fence_all. preserve. apply fence_preserves.
  - by eapply requeue_preserves.
  - by eapply reconcile_preserves.
  - by eapply recover_stale_preserves.
  - by eapply recover_abandoned_preserves.
Qed.

(** C1: the queue invariant.  In every state that any interleaving of the
    service's operations can reach from a consistent one: a job is owned (token,
    worker, lease and heartbeat set) exactly while it is RUNNING; it carries a
    completion time exactly when its status is terminal; its retry count stays
    within its budget, and an unfinished job has not exhausted it; and no two
    jobs share an active request key, an active maturation workflow or a
    workflow stage. *)
Theorem queue_invariant `{Roll : !PipelineRollups} db db' :
  inv db -> rtc queue_step db db' -> inv db'.
Proof. intros Hdb Hsteps. induction Hsteps; eauto using queue_step_inv. Qed.

(** ** Fencing *)

(** A guarded update by a token the row does not carry. *)
Lemma apply_fenced now t values allowed s :
  (forall row, Db.jobs (sdb s) !! Job.id (sjob s) = Some row -> Job.execution_token row <> Some t) ->
  exists msg s', _apply_running_job_update now (Some t) values allowed s = (raise "JobLeaseLost" msg, s')
    /\ sdb s' = sdb s.
Proof.
  intros Hrow. unfold _apply_running_job_update.
  change (st_bind st_get ?f s) with (f s s). cbv beta zeta.
  assert (forall A what, exists msg s', st_bind (_record_local_lease_loss now (Some t))
    (fun _ => JobLeaseLost (A:=A) (sjob s) what) s = (raise "JobLeaseLost" msg, s') /\ sdb s' = sdb s)
    as Hlost.
  { intros A what. unfold st_bind, _record_local_lease_loss, st_modify, JobLeaseLost, st_raise.
    eexists _, _. split; [reflexivity|done]. }
  repeat case_match; try apply Hlost.
  - match goal with E : bool_decide (Some t = None) || _ = true |- _ =>
      rewrite bool_decide_false in E by done; cbn [orb] in E;
      apply andb_true_iff in E as [_ E]; apply bool_decide_eq_true in E end.
    exfalso. by eapply Hrow.
  - by match goal with E : bool_decide (Some t = None) = true |- _ =>
      apply bool_decide_eq_true in E end.
Qed.

Lemma bind_fenced {A B} (m : ST Session A) (f : A -> ST Session B) s msg s' :
  m s = (raise "JobLeaseLost" msg, s') -> st_bind m f s = (raise "JobLeaseLost" msg, s').
Proof. intros E. unfold st_bind. by rewrite E. Qed.

(** C2: fencing.  A worker that presents a token the durable row no longer
    carries (because the job was recovered, fenced, finished or claimed again)
    changes nothing in the store, whatever it tries to do with the job and
    however stale its copy is: every update raises [JobLeaseLost]; so does
    [fence_job_execution] before a publication, and a progress checkpoint is
    refused. *)
Theorem stale_holder_is_fenced now t s :
  (forall row, Db.jobs (sdb s) !! Job.id (sjob s) = Some row -> Job.execution_token row <> Some t) ->
  (forall op, exists msg s', run_op now op (Some t) s = (raise "JobLeaseLost" msg, s') /\
     sdb s' = sdb s) /\
  (exists msg, fence_job_execution now (Some (Some t)) s = (raise "JobLeaseLost" msg, s)) /\
  (forall p, exists cls msg,
     record_job_progress now (Job.id (sjob s)) t p (sdb s) = (raise cls msg, sdb s)).
Proof.
  intros Hrow. split_and!.
  - intros op. destruct op; cbn [run_op];
      unfold mark_job_completed, mark_job_partial, mark_job_cancelled, mark_job_blocked,
        mark_job_failed_or_retry, mark_job_deferred, heartbeat_job, _finish_job;
      repeat change (st_bind st_get ?f s) with (f s s); cbv beta zeta;
      cbn [_expected_execution_token].
    3,4,5: edestruct apply_fenced as (msg & s' & E & Es); [exact Hrow|];
      exists msg, s'; split; [|exact Es]; apply bind_fenced; exact E.
    all: by apply apply_fenced.
  - unfold fence_job_execution. change (st_bind st_get ?f s) with (f s s). cbv beta zeta.
    destruct (Db.jobs (sdb s) !! Job.id (sjob s)) as [row|] eqn:E; [|eexists; reflexivity].
    rewrite bool_decide_false by (by apply (Hrow row)). eexists. reflexivity.
  - intros p. unfold record_job_progress. change (st_bind st_get ?f ?d) with (f d d). cbv beta zeta.
    assert (match Db.jobs (sdb s) !! Job.id (sjob s) with Some r => holds r t | None => false end = false)
      as ->.
    { destruct (Db.jobs _ !! _) as [row|] eqn:E; [|done]. unfold holds.
      rewrite (bool_decide_false (Job.execution_token row = Some t)) by (by apply (Hrow row)).
      apply andb_false_r. }
    cbn [negb andb]. rewrite andb_false_r.
    repeat case_match; unfold lease_lost, st_raise; try done; eauto.
Qed.

(** ** Claims *)

Lemma flush_job_Ok job db u db' : flush_job job db = (Ok u, db') -> db' = put_job job db.
Proof. unfold flush_job, raise. case_match; intros; by simplify_eq. Qed.

(** C3: claims.  A worker that is unknown, stopping, quiesced or of another
    instance claims nothing.  Otherwise a claim that returns no job leaves the
    store as it is, and then no claim group had a ready job that was not locked
    by another transaction; a claim that returns a job took, from the first group
    with a ready job, the one that is first in that group's order (priority, or
    age in an age-promotion group).  The job was QUEUED or RECOVERING, its
    release time had come, it had execution authority; it is now RUNNING under
    the given worker and token, and no other row has changed. *)
Theorem claim_next_job_correct locked qnow now token worker instance lease groups opts db o db' :
  inv db ->
  claim_next_job locked qnow now token worker instance lease groups opts db = (Ok o, db') ->
  match o with
  | None => db' = db /\
      (worker_may_claim db worker instance = true ->
       forall g j, In g groups -> ~ ready db locked qnow opts g j)
  | Some job =>
      worker_may_claim db worker instance = true /\
      exists before g after old,
        groups = before ++ g :: after /\
        (forall g' k, In g' before -> ~ ready db locked qnow opts g' k) /\
        ready db locked qnow opts g old /\
        (forall k, ready db locked qnow opts g k -> claim_leb g old k = true \/ old = k) /\
        Job.status old ∈ [QUEUED; RECOVERING] /\ Job.run_after old <= qnow /\
        authorized db old = true /\
        job = claimed now worker instance token lease old /\
        Job.status job = RUNNING /\ Job.execution_token job = Some token /\
        Db.jobs db' = <[Job.id old := job]> (Db.jobs db)
  end.
Proof.
  intros Hdb E. unfold claim_next_job in E. change (st_bind st_get ?f db) with (f db db) in E.
  cbv beta in E. destruct (worker_may_claim db worker instance) eqn:Ew; cbn [negb] in E.
  2: { unfold st_ret in E. simplify_eq. by split. }
  apply st_bind_Ok in E as (oid & db1 & E1 & E). unfold st_lift in E1.
  injection E1 as Ec <-.
  pose proof (claim_groups_spec _ _ _ _ _ _ Ec) as Hspec.
  destruct oid as [i|]; cbn [mbind option_bind] in E.
  2: { unfold st_ret in E. simplify_eq. split; [done|]. intros _. exact Hspec. }
  destruct Hspec as (before & g & after & old & Hg & Hb & Hid & Hr & Hmin).
  pose proof Hr as ([k Hk] & _ & f & _ & Hc).
  rewrite (inv_keys _ Hdb _ _ Hk) in Hid. subst k. rewrite Hk in E. cbv zeta in E.
  apply st_bind_Ok in E as (u & db2 & Ef & E). unfold st_ret in E. simplify_eq.
  apply flush_job_Ok in Ef. subst db'. split; [done|].
  exists before, g, after, old.
  pose proof (claimable_status _ _ _ _ _ _ Hc) as Hst.
  unfold claimable in Hc. rewrite !andb_true_iff in Hc.
  destruct Hc as [[[[[[[_ Hra] Hau] _] _] _] _] _]. apply Z.leb_le in Hra.
  assert (Job.id (claimed now worker instance token lease old) = Job.id old) as Hid
    by (unfold claimed; by destruct old).
  split_and!; try done.
  - unfold claimed. by destruct old.
  - unfold claimed. by destruct old.
  - destruct db. cbn. by rewrite Hid.
Qed.

(** ** Enqueue *)






End Steps.
