(* ===== verification/JobRefinement.v ===== *)
(** * Background jobs: the lease protocol behind the queue

    An abstract specification of the durable queue: each job is waiting, held under a
    token, parked after a stall, or done, and a step moves one job along one of six
    edges.  Every operation of the service, with all of its row updates, roll-ups,
    races and error paths, refines a sequence of such steps; so what holds of the
    protocol holds of the service. *)
From Stdlib Require Import ZArith Lia List String Ascii Bool.
From stdpp Require Import base gmap list strings relations.
From S2P Require Import Prelude PyDate PyFloat PyValue Tables Queues Redaction.
From S2P Require Import PipelineStates JobRows JobLease JobQueue JobRecovery JobInvariant JobFacts.
Local Open Scope string_scope.
Local Open Scope list_scope.
Local Open Scope Z_scope.
Local Open Scope st_scope.

(** ** The specification *)

Inductive phase :=
  | Waiting
  | Held (token : option string)
  | Parked
  | Done.

(** The edges of the protocol; [None] is a job that does not exist yet. *)
Inductive edge : option phase -> phase -> Prop :=
  | edge_enqueue : edge None Waiting
  | edge_claim t : edge (Some Waiting) (Held (Some t))
  | edge_release t : edge (Some (Held t)) Waiting
  | edge_park t : edge (Some (Held t)) Parked
  | edge_requeue : edge (Some Parked) Waiting
  | edge_finish p : edge (Some p) Done.

Definition protocol_step (m m' : gmap Z phase) : Prop :=
  exists i p, edge (m !! i) p /\ m' = <[i := p]> m.

(** The protocol state of a row and of a store. *)
Definition phase_of (j : BackgroundJob) : phase :=
  match Job.status j with
  | QUEUED | RECOVERING => Waiting
  | RUNNING => Held (Job.execution_token j)
  | STALLED => Parked
  | COMPLETED | PARTIAL | FAILED | BLOCKED | CANCELLED | STALE => Done
  end.
Definition abs (db : Db.Db) : gmap Z phase := phase_of <$> Db.jobs db.

Definition moves (db db' : Db.Db) : Prop := rtc protocol_step (abs db) (abs db').

(** ** Moving one row, or many *)

Definition may_become (o : option phase) (p : phase) : Prop := o = Some p \/ edge o p.

Lemma insert_moves (m : gmap Z phase) i p : may_become (m !! i) p -> rtc protocol_step m (<[i := p]> m).
Proof.
  intros [H|H]; [by rewrite insert_id|]. apply rtc_once. by exists i, p.
Qed.

Lemma abs_jobs db db' : Db.jobs db' = Db.jobs db -> abs db' = abs db.
Proof. intros E. unfold abs. by rewrite E. Qed.
Lemma moves_jobs db db' : Db.jobs db' = Db.jobs db -> moves db db'.
Proof. intros E. unfold moves. rewrite (abs_jobs _ _ E). apply rtc_refl. Qed.
Lemma moves_trans db1 db2 db3 : moves db1 db2 -> moves db2 db3 -> moves db1 db3.
Proof. unfold moves. intros; by etrans. Qed.

(** A change of the row [i] alone. *)
Definition local_move (i : Z) (db db' : Db.Db) : Prop :=
  moves db db' /\ forall k, k <> i -> Db.jobs db' !! k = Db.jobs db !! k.

Lemma local_refl i db db' : Db.jobs db' = Db.jobs db -> local_move i db db'.
Proof. intros E. split; [by apply moves_jobs|]. intros k _. by rewrite E. Qed.
Lemma local_trans i db1 db2 db3 : local_move i db1 db2 -> local_move i db2 db3 -> local_move i db1 db3.
Proof.
  intros [M1 L1] [M2 L2]. split; [by eapply moves_trans|]. intros k Hk. rewrite (L2 k Hk). auto.
Qed.

Lemma flush_local job db r db' :
  may_become (phase_of <$> Db.jobs db !! Job.id job) (phase_of job) ->
  flush_job job db = (r, db') -> local_move (Job.id job) db db'.
Proof.
  intros Hm E. unfold flush_job in E. destruct (unique_ok db job); simplify_eq; [|by apply local_refl].
  split.
  - unfold moves, abs, put_job. destruct db as [jobs]. cbn. rewrite fmap_insert. apply insert_moves.
    by rewrite lookup_fmap.
  - intros k Hk. rewrite put_job_lookup. by rewrite decide_False.
Qed.

(** Rows that change together, each along an edge. *)
Lemma pointwise_moves (m m' : gmap Z phase) :
  (forall i, option_Forall2 (fun p q => may_become (Some p) q) (m !! i) (m' !! i)) ->
  rtc protocol_step m m'.
Proof.
  intros Hpt.
  assert (Hks : forall ks : list Z, exists n, rtc protocol_step m n /\
            forall i, n !! i = if decide (i ∈ ks) then m' !! i else m !! i).
  { induction ks as [|k ks (n & Hn & Hl)].
    - exists m. split; [apply rtc_refl|]. intros i. rewrite decide_False; [done|]. apply not_elem_of_nil.
    - destruct (decide (k ∈ ks)) as [Hin|Hnot].
      { exists n. split; [done|]. intros i. rewrite Hl.
        destruct (decide (i ∈ ks)), (decide (i ∈ k :: ks)); set_solver. }
      pose proof (Hpt k) as Hk. pose proof (Hl k) as Hlk. rewrite decide_False in Hlk by done.
      destruct (m' !! k) as [q|] eqn:Eq.
      + exists (<[k := q]> n). split.
        * etrans; [exact Hn|]. apply insert_moves. rewrite Hlk.
          inversion Hk; subst. done.
        * intros i. rewrite lookup_insert. case_decide as Ei; [subst; rewrite decide_True; [done|by left]|].
          rewrite Hl. destruct (decide (i ∈ ks)), (decide (i ∈ k :: ks)); set_solver.
      + exists n. split; [done|]. intros i. rewrite Hl.
        destruct (decide (i = k)) as [->|Hne].
        * rewrite decide_False by done. rewrite decide_True by (by left). rewrite Eq. by inversion Hk.
        * destruct (decide (i ∈ ks)), (decide (i ∈ k :: ks)); set_solver. }
  destruct (Hks ((map_to_list m').*1)) as (n & Hn & Hl).
  replace m' with n; [done|]. apply map_eq. intros i. rewrite Hl. case_decide as Hi; [done|].
  assert (E : m' !! i = None).
  { destruct (m' !! i) as [q|] eqn:Eq; [|done]. destruct Hi.
    apply list_elem_of_fmap. exists (i, q). split; [done|]. by apply elem_of_map_to_list. }
  specialize (Hpt i). rewrite E in *. by inversion Hpt.
Qed.

(** ** The rows that the operations write *)

(** The new row is the same job, and its phase is one the protocol allows. *)
Definition becomes (old new : BackgroundJob) : Prop :=
  Job.id new = Job.id old /\ may_become (Some (phase_of old)) (phase_of new).

Lemma becomes_done old new :
  Job.id new = Job.id old -> terminal (Job.status new) = true -> becomes old new.
Proof.
  intros Hi Ht. split; [done|]. right. unfold phase_of at 2. destruct (Job.status new); done || constructor.
Qed.
Lemma becomes_released old new :
  Job.status old = RUNNING -> Job.id new = Job.id old -> Job.status new ∈ [QUEUED; STALLED] ->
  becomes old new.
Proof.
  intros Hs Hi Hn. split; [done|]. right. unfold phase_of. rewrite Hs.
  set_unfold in Hn. destruct_or? Hn; rewrite Hn; constructor.
Qed.
Lemma becomes_same old new :
  Job.id new = Job.id old -> Job.status new = Job.status old ->
  Job.execution_token new = Job.execution_token old -> becomes old new.
Proof. intros Hi Hs Ht. split; [done|]. left. unfold phase_of. by rewrite Hs, Ht. Qed.

Section Written.
Context `{Coll : Collaborators}.

Lemma finish_becomes now job status result row :
  terminal status = true -> becomes row (finish_values now job status result row).
Proof. intros Ht. unfold finish_values. case_bool_decide; destruct row; by apply becomes_done. Qed.
Lemma blocked_becomes now job error code diags row :
  becomes row (blocked_values now job error code diags row).
Proof. unfold blocked_values. destruct row. by apply becomes_done. Qed.
Lemma failed_becomes now db job error failure delay row :
  Job.status row = RUNNING -> becomes row (failed_values now db job error failure delay row).
Proof.
  intros Hs. unfold failed_values. cbv zeta. destruct (retryable failure && _); destruct row; cbn in Hs; subst.
  - apply becomes_released; row_cbn; [done|done|set_solver].
  - by apply becomes_done.
Qed.
Lemma deferred_becomes now job delay reason row :
  Job.status row = RUNNING -> becomes row (deferred_values now job delay reason row).
Proof. intros Hs. unfold deferred_values. destruct row. apply becomes_released; row_cbn; [done|done|set_solver]. Qed.
Lemma heartbeat_becomes now lease row : becomes row (heartbeat_values now lease row).
Proof. unfold heartbeat_values. destruct row. by apply becomes_same. Qed.
Lemma cancel_flag_becomes row : becomes row (Job.set_requested_cancel true row).
Proof. destruct row. by apply becomes_same. Qed.
Lemma progressed_becomes now p row : becomes row (progressed now p row).
Proof.
  unfold progressed. destruct (p_metadata_patch p), (p_payload p); destruct row; by apply becomes_same.
Qed.
Lemma cancelled_becomes now row : becomes row (cancelled_row now row).
Proof. unfold cancelled_row. destruct row. by apply becomes_done. Qed.
Lemma claimed_becomes now worker instance token lease row :
  Job.status row ∈ [QUEUED; RECOVERING] -> becomes row (claimed now worker instance token lease row).
Proof.
  intros Hs. split; [by destruct row|]. right.
  replace (phase_of (claimed now worker instance token lease row)) with (Held (Some token)) by (by destruct row).
  unfold phase_of. set_unfold in Hs. destruct_or? Hs; rewrite Hs; constructor.
Qed.
Lemma stalled_becomes observed timeout worker row :
  Job.status row = RUNNING -> becomes row (stalled observed timeout worker row).
Proof.
  intros Hs. unfold stalled, _record_progress_recovery. cbv zeta. destruct row.
  apply becomes_released; row_cbn; [done|done|set_solver].
Qed.
Lemma fenced_becomes db observed worker reason code row :
  Job.status row = RUNNING -> becomes row (fenced_for_loss db observed worker reason code row).
Proof.
  intros Hs. unfold fenced_for_loss, _record_progress_recovery. cbv zeta.
  case_bool_decide; destruct row; (apply becomes_released; row_cbn; [done|done|set_solver]).
Qed.
Lemma requeued_becomes observed row :
  Job.status row = STALLED -> becomes row (requeued observed row).
Proof.
  intros Hs. split; [by destruct row|]. right.
  replace (phase_of (requeued observed row)) with Waiting by (by destruct row).
  unfold phase_of. rewrite Hs. constructor.
Qed.
Lemma recovery_blocked_becomes observed row : becomes row (recovery_blocked observed row).
Proof. unfold recovery_blocked. destruct row. by apply becomes_done. Qed.
Lemma recovered_becomes now row :
  Job.status row = RUNNING -> becomes row (recovered_row now row).
Proof.
  intros Hs. unfold recovered_row. cbv zeta. destruct (_ <? _); destruct row.
  - apply becomes_released; row_cbn; [done|done|set_solver].
  - by apply becomes_done.
Qed.
Lemma payload_becomes d row new :
  becomes (Job.set_payload_json d row) new -> becomes row new.
Proof. by destruct row. Qed.
End Written.

Lemma flush_becomes old new db r db' :
  becomes old new -> Db.jobs db !! Job.id old = Some old ->
  flush_job new db = (r, db') -> local_move (Job.id old) db db'.
Proof.
  intros [Hi Hm] Hl E. rewrite <- Hi. eapply flush_local; [|exact E]. by rewrite Hi, Hl.
Qed.

(** ** The holder's operations *)

Section Holders.
Context `{Coll : Collaborators} `{Roll : !PipelineRollups}.

Lemma hook_moves hook s r s' : hook_ok hook -> hook s = (r, s') -> moves (sdb s) (sdb s').
Proof.
  intros Hh E. apply pointwise_moves. intros i. unfold abs. rewrite !lookup_fmap.
  specialize (Hh s r s' E i). destruct Hh as [a b Hc|]; constructor.
  destruct Hc as (_ & _ & _ & [(Hs & _ & Ht & _)|(_ & Hb & _)]).
  - left. f_equal. unfold phase_of. by rewrite Hs, Ht.
  - right. unfold phase_of at 2. set_unfold in Hb. destruct_or? Hb; rewrite Hb; constructor.
Qed.

Lemma apply_update_local now token values allowed s r s' :
  inv (sdb s) ->
  (forall row, Db.jobs (sdb s) !! Job.id (sjob s) = Some row ->
     status_in (Job.status (sjob s)) allowed = true ->
     (is_Some token -> Job.execution_token (sjob s) = token /\
        status_in (Job.status row) allowed = true /\ Job.execution_token row = token) ->
     becomes row (values row)) ->
  _apply_running_job_update now token values allowed s = (r, s') ->
  local_move (Job.id (sjob s)) (sdb s) (sdb s').
Proof.
  intros Hs Hv H. unfold _apply_running_job_update in H.
  change (st_bind st_get ?f s) with (f s s) in H. cbv beta zeta in H.
  assert (Hlost : forall A what r s', st_bind (_record_local_lease_loss now token)
            (fun _ => JobLeaseLost (A:=A) (sjob s) what) s = (r, s') ->
            local_move (Job.id (sjob s)) (sdb s) (sdb s')).
  { intros A what r1 s1 E. unfold st_bind, _record_local_lease_loss, st_modify, JobLeaseLost, st_raise in E.
    simplify_eq. by apply local_refl. }
  destruct (bool_decide (is_Some token) && _) eqn:E1; [by eapply Hlost|].
  destruct (negb (status_in _ _)) eqn:E2; [by eapply Hlost|]. apply negb_false_iff in E2.
  destruct (Db.jobs (sdb s) !! Job.id (sjob s)) as [row|] eqn:Erow.
  2: { case_bool_decide; [unfold st_raise in H; simplify_eq; by apply local_refl|by eapply Hlost]. }
  destruct (bool_decide (token = None) || _) eqn:E3; [|by eapply Hlost].
  assert (Hb : becomes row (values row)).
  { apply Hv; [done|done|]. intros [t ->].
    apply orb_true_iff in E3 as [E3|E3]; [by apply bool_decide_eq_true in E3|].
    apply andb_true_iff in E3 as [E3 E4]. apply bool_decide_eq_true in E4.
    rewrite bool_decide_true in E1 by eauto. cbn [andb] in E1.
    apply negb_false_iff, bool_decide_eq_true in E1. done. }
  unfold st_bind, on_db, set_local, st_modify in H.
  destruct (flush_job (values row) (sdb s)) as [r1 db1] eqn:Ef.
  pose proof (inv_keys _ Hs _ _ Erow) as Hid. rewrite <- Hid in Erow |- *.
  pose proof (flush_becomes _ _ _ _ _ Hb Erow Ef) as Hm. destruct r1; simplify_eq; exact Hm.
Qed.

Lemma finish_local now status result token s r s' :
  terminal status = true -> inv (sdb s) ->
  _finish_job now status result token s = (r, s') -> local_move (Job.id (sjob s)) (sdb s) (sdb s').
Proof.
  intros Ht Hs E. eapply apply_update_local; [done| |exact E]. intros. by apply finish_becomes.
Qed.

(** The holder's copy keeps its id. *)
Lemma apply_update_copy now token values allowed s r s' :
  (forall j, Job.id (values j) = Job.id j) ->
  _apply_running_job_update now token values allowed s = (r, s') -> Job.id (sjob s') = Job.id (sjob s).
Proof.
  intros Hv H. unfold _apply_running_job_update in H.
  change (st_bind st_get ?f s) with (f s s) in H. cbv beta zeta in H.
  unfold st_bind, on_db, set_local, _record_local_lease_loss, JobLeaseLost, st_raise, st_modify in H.
  repeat case_match; simplify_eq; cbn; try done; try apply Hv; by destruct (sjob s).
Qed.

Lemma cancelled_local now result token s r s' :
  inv (sdb s) -> mark_job_cancelled now result token s = (r, s') ->
  local_move (Job.id (sjob s)) (sdb s) (sdb s').
Proof.
  intros Hs E. unfold mark_job_cancelled in E. unfold st_bind at 1 in E.
  destruct (_finish_job now CANCELLED result token s) as [r1 s1] eqn:Ef.
  assert (Hid : Job.id (sjob s1) = Job.id (sjob s)).
  { eapply apply_update_copy; [|exact Ef]. intros j. unfold finish_values. by destruct j. }
  pose proof (finish_preserves now CANCELLED result token eq_refl s r1 s1 Hs Ef) as Hs1.
  apply finish_local in Ef; [|done|done]. destruct r1; [|by simplify_eq].
  change (st_bind st_get ?f s1) with (f s1 s1) in E. cbv beta in E.
  unfold st_bind at 1, set_local, st_modify in E.
  destruct (Db.jobs (sdb s1) !! Job.id (sjob s1)) as [row|] eqn:Erow.
  - unfold on_db in E. cbn [sdb] in E. destruct (flush_job _ (sdb s1)) as [r2 db2] eqn:Efl. simplify_eq. cbn [sdb].
    eapply local_trans; [exact Ef|]. pose proof (inv_keys _ Hs1 _ _ Erow) as Hk.
    rewrite <- Hid, <- Hk. rewrite <- Hk in Erow. eapply flush_becomes; [apply cancel_flag_becomes|done|done].
  - unfold st_ret in E. simplify_eq. exact Ef.
Qed.

(** Operations that move jobs along the protocol from every state. *)
Definition always_moves {A} (m : ST Session A) : Prop :=
  forall s r s', m s = (r, s') -> moves (sdb s) (sdb s').
Lemma always_bind {A B} (m : ST Session A) (f : A -> ST Session B) :
  always_moves m -> (forall a, always_moves (f a)) -> always_moves (st_bind m f).
Proof.
  intros Hm Hf s r s' E. unfold st_bind in E. destruct (m s) as [[a|e] s1] eqn:Em.
  - eapply moves_trans; [by eapply Hm|by eapply Hf].
  - simplify_eq. by eapply Hm.
Qed.
Lemma always_ret : always_moves (st_ret tt).
Proof. intros s r s' E. unfold st_ret in E. simplify_eq. by apply moves_jobs. Qed.
Lemma always_hook hook : hook_ok hook -> always_moves hook.
Proof. intros Hh s r s' E. by eapply hook_moves. Qed.

Lemma run_op_moves now op token s r s' :
  holder_ok s -> run_op now op token s = (r, s') -> moves (sdb s) (sdb s').
Proof.
  intros Hs E. pose proof (holder_inv _ Hs) as Hi.
  destruct op as [res|res|res|err code diags|err delay|delay reason|lease]; cbn [run_op] in E.
  - eapply finish_local; [| |exact E]; done.
  - eapply finish_local; [| |exact E]; done.
  - by eapply cancelled_local.
  - unfold mark_job_blocked in E. change (st_bind st_get ?f s) with (f s s) in E. cbv beta zeta in E.
    unfold st_bind at 1 in E. destruct (_apply_running_job_update _ _ _ _ s) as [r1 s1] eqn:Ea.
    apply apply_update_local in Ea as [Ma _]; [|done|intros; apply blocked_becomes].
    destruct r1; [|by simplify_eq]. eapply moves_trans; [exact Ma|]. revert E.
    destruct (is_ceri_workflow _); [apply always_hook, rollup_ceri|apply always_ret].
  - unfold mark_job_failed_or_retry in E. change (st_bind st_get ?f s) with (f s s) in E. cbv beta zeta in E.
    unfold st_bind at 1 in E. destruct (_apply_running_job_update _ _ _ _ s) as [r1 s1] eqn:Ea.
    apply apply_update_local in Ea as [Ma _]; [|done|].
    2: { intros row Hrow Hst Hg. destruct (guarded_running _ _ _ Hs Hst Hrow Hg) as (?&?&?).
         by apply failed_becomes. }
    destruct r1; [|by simplify_eq]. eapply moves_trans; [exact Ma|]. revert E.
    repeat (apply always_bind; [|intros _]); repeat case_match;
      auto using always_ret, always_hook, rollup_failure, rollup_retry, rollup_sec, rollup_ceri.
  - eapply apply_update_local; [done| |exact E]. intros row Hrow Hst Hg.
    destruct (guarded_running _ _ _ Hs Hst Hrow Hg) as (?&?&?). by apply deferred_becomes.
  - eapply apply_update_local; [done| |exact E]. intros. apply heartbeat_becomes.
Qed.
End Holders.

(** ** The operations on the store *)

Section Stores.
Context `{Coll : Collaborators} `{Roll : !PipelineRollups}.

Lemma next_id_fresh db : inv db -> Db.jobs db !! next_id db = None.
Proof.
  intros Hi. destruct (Db.jobs db !! next_id db) as [j|] eqn:E; [|done]. exfalso.
  pose proof (inv_keys _ Hi _ _ E) as Hid.
  assert (Hin : In j (job_rows db)) by (apply job_rows_In; eauto).
  assert (Hle : forall l, In j l -> Job.id j <= foldr Z.max 0 (map Job.id l)).
  { clear. induction l as [|x l IH]; [done|]. intros [->|H]; cbn; [lia|]. specialize (IH H). lia. }
  specialize (Hle _ Hin). unfold next_id in Hid. lia.
Qed.

Lemma enqueue_moves seen now a db r db' :
  inv db -> enqueue_from seen now a db = (r, db') -> moves db db'.
Proof.
  intros Hi E. unfold enqueue_from in E. unfold st_bind at 1, st_lift in E.
  destruct (require_enqueue_authorized _ _ _) as [payload|]; [|simplify_eq; by apply moves_jobs].
  destruct (coalesce_target seen a); [unfold st_ret in E; simplify_eq; by apply moves_jobs|].
  unfold st_bind at 1 in E. destruct (anchor_enqueue_payload _ _ _ _) as [payload'|]; [|simplify_eq; by apply moves_jobs].
  change (st_bind st_get ?f db) with (f db db) in E. cbv beta zeta in E.
  set (job := new_job (next_id db) now a payload') in *.
  destruct (unique_ok db job) eqn:Hu.
  - unfold st_bind at 1, st_modify in E. unfold st_bind in E.
    assert (Hm : moves db (put_job job db)).
    { apply (flush_local job db (Ok tt)); [|unfold flush_job; by rewrite Hu].
      right. replace (Db.jobs db !! Job.id job) with (None : option BackgroundJob); [constructor|].
      symmetry. by apply next_id_fresh. }
    destruct (bind_job_configuration db job); unfold st_ret in E; by simplify_eq.
  - destruct (negb _); [unfold st_raise in E; simplify_eq; by apply moves_jobs|].
    destruct (existing_after_conflict db a); unfold st_ret, st_raise in E; simplify_eq; by apply moves_jobs.
Qed.

Lemma claim_moves locked qnow now token worker instance lease groups opts db r db' :
  inv db -> claim_next_job locked qnow now token worker instance lease groups opts db = (r, db') ->
  moves db db'.
Proof.
  intros Hi E. unfold claim_next_job in E. change (st_bind st_get ?f db) with (f db db) in E. cbv beta in E.
  destruct (negb _); [unfold st_ret in E; simplify_eq; by apply moves_jobs|].
  unfold st_bind at 1, st_lift in E. destruct (claim_from_groups db locked qnow opts groups) as [o|] eqn:Ec;
    [|simplify_eq; by apply moves_jobs].
  destruct (o ≫= (Db.jobs db !!.)) as [job|] eqn:Ej; [|unfold st_ret in E; simplify_eq; by apply moves_jobs].
  destruct o as [i|]; [|done]. cbn in Ej. pose proof (claimed_job_found _ _ _ _ _ _ _ Hi Ec Ej) as Hst.
  unfold st_bind in E. destruct (flush_job _ db) as [r1 db1] eqn:Ef.
  pose proof (inv_keys _ Hi _ _ Ej) as Hk. rewrite <- Hk in Ej.
  apply (flush_becomes job) in Ef; [|by apply claimed_becomes|done].
  destruct Ef as [Hm _]. destruct r1; unfold st_ret in E; by simplify_eq.
Qed.

Lemma flush_row_moves i row new db r db' :
  inv db -> Db.jobs db !! i = Some row -> becomes row new -> flush_job new db = (r, db') ->
  local_move i db db'.
Proof.
  intros Hi Hl Hb E. pose proof (inv_keys _ Hi _ _ Hl) as Hk. rewrite <- Hk in Hl |- *.
  by eapply flush_becomes.
Qed.

Lemma progress_moves now id token p db r db' :
  inv db -> record_job_progress now id token p db = (r, db') -> moves db db'.
Proof.
  intros Hi E. unfold record_job_progress in E. change (st_bind st_get ?f db) with (f db db) in E.
  cbv beta zeta in E. unfold lease_lost, st_raise, st_ret in E.
  repeat case_match; simplify_eq; try (by apply moves_jobs).
  all: eapply flush_row_moves; [done|done|apply progressed_becomes|done].
Qed.

(** Finishing a cancellation on a row that is current. *)
Lemma finalize_local now job old db r db' :
  inv db -> Db.jobs db !! Job.id job = Some old -> becomes old job ->
  (Job.status job = RUNNING -> Job.execution_token old = Job.execution_token job /\ Job.status old = RUNNING) ->
  _finalize_recovery_cancellation now job db = (r, db') -> local_move (Job.id job) db db'.
Proof.
  intros Hi Hl [Hid Hb] Hrun E. unfold _finalize_recovery_cancellation in E. case_bool_decide as Hs.
  - unfold as_holder in E. destruct (mark_job_cancelled _ _ _ _) as [r1 s1] eqn:Ec. simplify_eq.
    by apply cancelled_local in Ec.
  - eapply flush_row_moves; [done|exact Hl| |exact E]. split; [by destruct job|].
    right. replace (phase_of (cancelled_row now job)) with Done by (by destruct job). constructor.
Qed.

Lemma cancel_moves now id db r db' :
  inv db -> request_job_cancel now id db = (r, db') -> moves db db'.
Proof.
  intros Hi E. unfold request_job_cancel in E. change (st_bind st_get ?f db) with (f db db) in E. cbv beta in E.
  destruct (Db.jobs db !! id) as [job|] eqn:Ej; [|unfold st_raise in E; simplify_eq; by apply moves_jobs].
  cbv zeta in E. unfold st_bind at 1 in E.
  pose proof (inv_keys _ Hi _ _ Ej) as Hk.
  match type of E with context [match ?m db with (_, _) => _ end] => destruct (m db) as [r1 db1] eqn:E1 end.
  assert (Hm : moves db db1).
  { case_bool_decide as Hq.
    - eapply flush_row_moves; [done|exact Ej| |exact E1]. destruct job. by apply becomes_done.
    - destruct (status_in (Job.status (Job.set_requested_cancel true job)) [STALLED; RECOVERING]) eqn:Es.
      + eapply finalize_local; [done| |apply cancel_flag_becomes| |exact E1].
        * replace (Job.id (Job.set_requested_cancel true job)) with id by (by destruct job). exact Ej.
        * intros Hr. apply status_in_spec in Es. rewrite Hr in Es. set_solver.
      + eapply flush_row_moves; [done|exact Ej|apply cancel_flag_becomes|exact E1]. }
  destruct r1; [|by simplify_eq]. change (st_bind st_get ?f db1) with (f db1 db1) in E. cbv beta in E.
  destruct (Db.jobs db1 !! id); unfold st_ret, st_raise in E; by simplify_eq.
Qed.

(** The pipeline side of a fence does not touch the jobs. *)
Lemma transition_keeps_jobs J now p target actor args :
  preserves (fun db => Db.jobs db = J) (transition_pipeline now p target actor args).
Proof.
  intros db r db' Hj E. apply transition_pipeline_inv in E. destruct r as [p'|[cls msg|]].
  - destruct E as (_ & _ & _ & _ & _ & Ej & _). by rewrite Ej.
  - by destruct E as [_ ->].
  - done.
Qed.
Lemma interrupt_jobs J now job observed :
  preserves (fun db => Db.jobs db = J) (_interrupt_fenced_pipeline_steps now job observed).
Proof.
  unfold _interrupt_fenced_pipeline_steps. preserve.
  - apply preserves_modify. by intros [].
  - apply transition_keeps_jobs.
Qed.
Lemma block_pipeline_jobs J observed job blocked :
  preserves (fun db => Db.jobs db = J) (block_pipeline observed job blocked).
Proof.
  unfold block_pipeline. preserve; [apply transition_keeps_jobs|]. apply preserves_modify. by intros [].
Qed.

Lemma fence_moves locked authority ts observed worker instance o db r db' :
  inv db -> fence_observed locked authority ts observed worker instance o db = (r, db') -> moves db db'.
Proof.
  intros Hi E. unfold fence_observed in E. change (st_bind st_get ?f db) with (f db db) in E. cbv beta in E.
  destruct (Db.jobs db !! obs_job_id o) as [job|] eqn:Ej; [|unfold st_ret in E; simplify_eq; by apply moves_jobs].
  destruct (still_overdue _ _ _ _ _ _ && _) eqn:Eo; [|unfold st_ret in E; simplify_eq; by apply moves_jobs].
  apply andb_true_iff in Eo as [Eo%still_overdue_running _]. pose proof (inv_keys _ Hi _ _ Ej) as Hk.
  destruct (Job.requested_cancel job).
  - unfold st_bind in E. destruct (_finalize_recovery_cancellation observed job db) as [r1 db1] eqn:Ef.
    eapply finalize_local in Ef as [Hm _]; [destruct r1; unfold st_ret in E; by simplify_eq|done|by rewrite Hk| |done].
    by apply becomes_same.
  - unfold st_bind at 1, st_lift in E. destruct (job_timeout ts job) as [timeout|]; [|simplify_eq; by apply moves_jobs].
    unfold st_bind at 1 in E.
    destruct (_interrupt_fenced_pipeline_steps observed job observed db) as [r1 db1] eqn:Ei.
    pose proof (interrupt_jobs (Db.jobs db) _ _ _ _ _ _ eq_refl Ei) as Hj.
    pose proof (interrupt_preserves _ _ _ _ _ _ Hi Ei) as Hi1.
    destruct r1 as [j|e]; [|simplify_eq; by apply moves_jobs].
    apply interrupt_result in Ei as [_ [d ->]].
    unfold st_bind in E. destruct (flush_job _ db1) as [r2 db2] eqn:Ef.
    eapply (flush_row_moves (obs_job_id o) job) in Ef as [Hm _]; [|done|by rewrite Hj|].
    + apply (moves_trans db db1); [by apply moves_jobs|]. destruct r2; unfold st_ret in E; simplify_eq; exact Hm.
    + apply (payload_becomes d), stalled_becomes. by destruct job.
Qed.

(** ** Passes over several jobs *)

Lemma job_rows_distinct db p : inv db -> NoDup (map Job.id (List.filter p (job_rows db))).
Proof.
  intros Hi.
  assert (Hf : forall l, NoDup (map Job.id l) -> NoDup (map Job.id (List.filter p l))).
  { induction l as [|x l IH]; [done|]. cbn. intros [Hx Hl]%NoDup_cons.
    destruct (p x); [|by apply IH]. cbn. apply NoDup_cons. split; [|by apply IH].
    intros Hin. apply Hx. apply list_elem_of_In, in_map_iff in Hin as (y & <- & [Hy _]%filter_In).
    by apply list_elem_of_In, in_map. }
  apply Hf. unfold job_rows, Authority.jobs_by_id.
  assert (E : map Job.id (map snd (map_to_list (Db.jobs db))) = (map_to_list (Db.jobs db)).*1).
  { rewrite map_map. apply map_ext_in. intros [i j] Hin. cbn.
    apply (inv_keys _ Hi). by apply elem_of_map_to_list, list_elem_of_In. }
  assert (Hp : map Job.id (sort_by (fun a b => Job.id a <=? Job.id b) (map snd (map_to_list (Db.jobs db))))
               ≡ₚ (map_to_list (Db.jobs db)).*1).
  { rewrite <- E. apply Permutation_map, sort_by_Permutation. }
  rewrite Hp. apply NoDup_fst_map_to_list.
Qed.

Lemma fold_moves {B} (body : B -> BackgroundJob -> ST Db.Db B) (xs : list BackgroundJob) :
  (forall acc j db r db', In j xs -> inv db -> Db.jobs db !! Job.id j = Some j ->
     body acc j db = (r, db') -> local_move (Job.id j) db db' /\ inv db') ->
  NoDup (map Job.id xs) -> forall acc db r db', inv db ->
  (forall j, In j xs -> Db.jobs db !! Job.id j = Some j) ->
  st_fold xs acc body db = (r, db') -> moves db db'.
Proof.
  intros Hb Hnd. induction xs as [|x xs IH]; intros acc db r db' Hi Hcur E; cbn [st_fold] in E.
  { unfold st_ret in E. simplify_eq. by apply moves_jobs. }
  cbn in Hnd. apply NoDup_cons in Hnd as [Hx Hnd].
  unfold st_bind in E. destruct (body acc x db) as [r1 db1] eqn:E1.
  destruct (Hb acc x db r1 db1 (or_introl eq_refl) Hi (Hcur x (or_introl eq_refl)) E1) as [[Hm Hother] Hi1].
  destruct r1 as [acc'|e]; [|by simplify_eq]. eapply moves_trans; [exact Hm|].
  eapply IH; [intros; eapply Hb; eauto; by right|done|exact Hi1| |exact E].
  intros j Hj. rewrite Hother; [apply Hcur; by right|].
  intros Hid. apply Hx. rewrite <- Hid. by apply list_elem_of_In, in_map.
Qed.

Lemma selected_current db p j :
  inv db -> In j (List.filter p (job_rows db)) -> Db.jobs db !! Job.id j = Some j /\ p j = true.
Proof.
  intros Hi [[i Hl]%job_rows_In Hp]%filter_In. split; [|done]. by rewrite (inv_keys _ Hi _ _ Hl).
Qed.

Lemma finalize_current now job db r db' :
  inv db -> Db.jobs db !! Job.id job = Some job ->
  _finalize_recovery_cancellation now job db = (r, db') -> local_move (Job.id job) db db'.
Proof. intros Hi Hl. eapply finalize_local; [done|done|by apply becomes_same|done]. Qed.

Lemma flush_current job new db r db' :
  Db.jobs db !! Job.id job = Some job -> becomes job new ->
  flush_job new db = (r, db') -> local_move (Job.id job) db db'.
Proof. intros Hl Hb E. by eapply flush_becomes. Qed.

Lemma requeue_one_local observed limit n job db r db' :
  inv db -> Db.jobs db !! Job.id job = Some job -> Job.status job = STALLED ->
  requeue_one observed limit n job db = (r, db') -> local_move (Job.id job) db db'.
Proof.
  intros Hi Hl Hs E. unfold requeue_one in E. destruct (Job.requested_cancel job).
  - unfold st_bind in E. destruct (_finalize_recovery_cancellation observed job db) as [r1 db1] eqn:Ef.
    apply finalize_current in Ef; [|done|done]. destruct r1; unfold st_ret in E; by simplify_eq.
  - destruct (limit <=? _).
    + cbv zeta in E. unfold st_bind at 1 in E. destruct (flush_job _ db) as [r1 db1] eqn:Ef.
      apply (flush_current job) in Ef; [|done|apply recovery_blocked_becomes].
      destruct r1; [|by simplify_eq]. unfold st_bind in E.
      destruct (block_pipeline _ _ _ db1) as [r2 db2] eqn:Ebl.
      pose proof (block_pipeline_jobs (Db.jobs db1) _ _ _ _ _ _ eq_refl Ebl) as Hj.
      apply (local_trans _ _ db1); [done|]. apply local_refl.
      destruct r2; unfold st_ret in E; by simplify_eq.
    + unfold st_bind in E. destruct (flush_job _ db) as [r1 db1] eqn:Ef.
      apply (flush_current job) in Ef; [|done|by apply requeued_becomes].
      destruct r1; unfold st_ret in E; by simplify_eq.
Qed.

Lemma reconcile_one_local observed worker reason code acc job db r db' :
  inv db -> Db.jobs db !! Job.id job = Some job -> Job.status job = RUNNING ->
  reconcile_one observed worker reason code acc job db = (r, db') -> local_move (Job.id job) db db'.
Proof.
  intros Hi Hl Hs E. unfold reconcile_one in E. destruct acc as [fenced cancelled].
  destruct (Job.requested_cancel job).
  - unfold st_bind in E. destruct (_finalize_recovery_cancellation observed job db) as [r1 db1] eqn:Ef.
    apply finalize_current in Ef; [|done|done]. destruct r1; unfold st_ret in E; by simplify_eq.
  - change (st_bind st_get ?f db) with (f db db) in E. cbv beta in E. unfold st_bind in E.
    destruct (flush_job _ db) as [r1 db1] eqn:Ef.
    apply (flush_current job) in Ef; [|done|by apply fenced_becomes].
    destruct r1; unfold st_ret in E; by simplify_eq.
Qed.

Lemma recover_one_local now n job db r db' :
  inv db -> Db.jobs db !! Job.id job = Some job -> Job.status job = RUNNING ->
  recover_one now n job db = (r, db') -> local_move (Job.id job) db db'.
Proof.
  intros Hi Hl Hs E. unfold recover_one in E. destruct (Job.requested_cancel job).
  - unfold st_bind in E. destruct (_finalize_recovery_cancellation now job db) as [r1 db1] eqn:Ef.
    apply finalize_current in Ef; [|done|done]. destruct r1; unfold st_ret in E; by simplify_eq.
  - unfold st_bind at 1 in E. destruct (flush_job _ db) as [r1 db1] eqn:Ef.
    apply (flush_current job) in Ef; [|done|by apply recovered_becomes].
    destruct r1; [|by simplify_eq]. unfold st_bind, st_modify, st_ret in E. simplify_eq.
    apply (local_trans _ _ db1); [done|]. apply local_refl. by destruct db1.
Qed.

Lemma fence_all_moves locked authority ts observed worker instance os : forall acc db r db',
  inv db ->
  st_fold os acc (fun fenced o =>
    let! id := fence_observed locked authority ts observed worker instance o in
    st_ret (fenced ++ match id with Some i => [i] | None => [] end)) db = (r, db') -> moves db db'.
Proof.
  induction os as [|o os IH]; intros acc db r db' Hi E; cbn [st_fold] in E.
  { unfold st_ret in E. simplify_eq. by apply moves_jobs. }
  unfold st_bind at 1 in E. unfold st_bind at 1 in E.
  destruct (fence_observed locked authority ts observed worker instance o db) as [r1 db1] eqn:E1.
  pose proof (fence_preserves _ _ _ _ _ _ _ _ _ _ Hi E1) as Hi1.
  apply fence_moves in E1; [|done]. destruct r1 as [id|e]; [|by simplify_eq].
  unfold st_ret at 1 in E. eapply moves_trans; [exact E1|]. by eapply IH.
Qed.

Lemma requeue_moves locked authority ids observed limit db r db' :
  inv db -> requeue_stalled_jobs locked authority ids observed limit db = (r, db') -> moves db db'.
Proof.
  intros Hi E. unfold requeue_stalled_jobs in E. cbv zeta in E.
  change (st_bind st_get ?f db) with (f db db) in E. cbv beta in E.
  eapply fold_moves; [|by apply job_rows_distinct|exact Hi|intros j Hj; by eapply selected_current|exact E].
  intros n j db1 r1 db1' Hj Hi1 Hl E1. apply selected_ok in Hj as [Hok Hp]; [|done].
  rewrite !andb_true_iff in Hp. destruct Hp as [[[[Hs%bool_decide_eq_true _] _] _] _].
  split; [by eapply requeue_one_local|].
  revert E1. revert Hi1. unfold requeue_one. intros Hi1 E1. use_preserves inv Hi1 E1. preserve.
  - by apply finalize_preserves.
  - by apply flush_job_preserves, recovery_blocked_ok.
  - apply block_pipeline_preserves.
  - by apply flush_job_preserves, requeued_ok.
Qed.

Lemma reconcile_moves locked authority worker reason instance observed code db r db' :
  inv db ->
  reconcile_jobs_for_worker_loss locked authority worker reason instance observed code db = (r, db') ->
  moves db db'.
Proof.
  intros Hi E. unfold reconcile_jobs_for_worker_loss in E. cbv zeta in E.
  change (st_bind st_get ?f db) with (f db db) in E. cbv beta in E.
  set (p := fun j => authorized db j && in_claim_scope db authority j && negb (locked (Job.id j))) in E.
  unfold st_bind in E.
  destruct (st_fold _ _ _ db) as [r1 db1] eqn:Ef.
  assert (Hm : moves db db1); [|destruct r1; unfold st_ret in E; by simplify_eq].
  assert (Hin : forall j, In j (List.filter p (List.filter (owned_by worker instance) (job_rows db))) ->
            Db.jobs db !! Job.id j = Some j /\ Job.status j = RUNNING /\ row_ok j).
  { intros j [Hj _]%filter_In. pose proof (selected_ok _ _ _ Hi Hj) as [Hok _].
    apply selected_current in Hj as [Hl Hp]; [|done]. unfold owned_by in Hp.
    rewrite !andb_true_iff in Hp. by destruct Hp as [[Hs%bool_decide_eq_true _] _]. }
  eapply fold_moves; [| |exact Hi|intros j Hj; by apply Hin|exact Ef].
  - intros acc j db2 r2 db2' Hj Hi2 Hl E2. destruct (Hin _ Hj) as (_ & Hs & Hok).
    split; [by eapply reconcile_one_local|]. unfold reconcile_one in E2.
    use_preserves inv Hi2 E2. preserve.
    + by apply finalize_preserves.
    + by apply flush_job_preserves, fenced_for_loss_ok.
  - pose proof (job_rows_distinct db (owned_by worker instance) Hi) as Hnd.
    clear -Hnd. induction (List.filter (owned_by worker instance) (job_rows db)) as [|x l IH]; [done|].
    cbn in *. apply NoDup_cons in Hnd as [Hx Hl]. destruct (p x); [|by apply IH]. cbn.
    apply NoDup_cons. split; [|by apply IH].
    intros Hin. apply Hx. apply list_elem_of_In, in_map_iff in Hin as (y & <- & [Hy _]%filter_In).
    by apply list_elem_of_In, in_map.
Qed.

Lemma recover_moves now db p r db' :
  inv db -> (forall j, p j = true -> Job.status j = RUNNING) ->
  _recover_jobs now (List.filter p (job_rows db)) db = (r, db') -> moves db db'.
Proof.
  intros Hi Hp E. eapply fold_moves; [|by apply job_rows_distinct|exact Hi|intros j Hj; by eapply selected_current|exact E].
  intros n j db1 r1 db1' Hj Hi1 Hl E1. apply selected_ok in Hj as [Hok Hs%Hp]; [|done].
  split; [by eapply recover_one_local|]. unfold recover_one in E1. use_preserves inv Hi1 E1. preserve.
  - by apply finalize_preserves.
  - by apply flush_job_preserves, recovered_row_ok.
  - apply modify_jobs_preserves. by intros [].
Qed.

Lemma recover_stale_moves authority now db r db' :
  inv db -> recover_stale_jobs authority now db = (r, db') -> moves db db'.
Proof.
  intros Hi E. unfold recover_stale_jobs, require_normal_worker_recovery in E.
  destruct (is_certification authority); [unfold st_bind, st_raise, raise in E; cbn in E; simplify_eq; by apply moves_jobs|].
  unfold st_bind, st_ret, st_get in E. eapply recover_moves; [done| |exact E].
  intros j Hp. unfold lease_expired in Hp. rewrite !andb_true_iff in Hp.
  by destruct Hp as [[Hs%bool_decide_eq_true _] _].
Qed.
Lemma recover_abandoned_moves authority worker timeout now db r db' :
  inv db -> recover_abandoned_jobs_for_worker authority worker timeout now db = (r, db') -> moves db db'.
Proof.
  intros Hi E. unfold recover_abandoned_jobs_for_worker, require_normal_worker_recovery in E.
  destruct (is_certification authority); [unfold st_bind, st_raise, raise in E; cbn in E; simplify_eq; by apply moves_jobs|].
  unfold st_bind, st_ret, st_get in E. cbv zeta in E. eapply recover_moves; [done| |exact E].
  intros j Hp. rewrite !andb_true_iff in Hp. by destruct Hp as [[[Hs%bool_decide_eq_true _] _] _].
Qed.

(** ** Refinement *)

Lemma queue_step_moves db db' : queue_step db db' -> inv db -> moves db db'.
Proof.
  intros Hstep Hi. destruct Hstep.
  - by eapply enqueue_moves.
  - by eapply claim_moves.
  - by eapply run_op_moves.
  - by eapply progress_moves.
  - by eapply cancel_moves.
  - match goal with E : fence_all _ _ _ _ _ _ _ _ = _ |- _ => exact (fence_all_moves _ _ _ _ _ _ _ _ _ _ _ Hi E) end.
  - by eapply requeue_moves.
  - by eapply reconcile_moves.
  - by eapply recover_stale_moves.
  - by eapply recover_abandoned_moves.
Qed.

Lemma queue_moves db db' : inv db -> rtc queue_step db db' -> moves db db'.
Proof.
  intros Hi Hs. induction Hs as [db|db1 db2 db3 H12 _ IH]; [by apply moves_jobs|].
  eapply moves_trans; [by apply queue_step_moves|]. apply IH. by eapply queue_step_inv.
Qed.


End Stores.

(** ** What the protocol guarantees *)

Lemma protocol_done (m m' : gmap Z phase) i :
  rtc protocol_step m m' -> m !! i = Some Done -> m' !! i = Some Done.
Proof.
  intros Hs. induction Hs as [|m1 m2 m3 (k & p & He & ->) _ IH]; [done|]. intros Hi. apply IH.
  rewrite lookup_insert. case_decide; [|done]. subst. rewrite Hi in He. by inversion He.
Qed.

Lemma step_at (m : gmap Z phase) i q p :
  m !! i = Some q -> edge (Some q) p -> protocol_step m (<[i := p]> m).
Proof. intros E He. exists i, p. by rewrite E. Qed.

(** A job that changes hands has been waiting in between. *)
Lemma protocol_handover (m m' : gmap Z phase) i t t' :
  rtc protocol_step m m' -> m !! i = Some (Held t) -> m' !! i = Some (Held t') -> t <> t' ->
  exists mid, rtc protocol_step m mid /\ rtc protocol_step mid m' /\ mid !! i = Some Waiting.
Proof.
  intros Hs. induction Hs as [|m1 m2 m3 Hstep Hs IH]; intros Hi Hi' Hne; [congruence|].
  destruct Hstep as (k & p & He & ->).
  destruct (decide (k = i)) as [->|Hk].
  - rewrite Hi in He. inversion He; subst.
    + exists (<[i := Waiting]> m1). split_and!; [by eapply rtc_once, step_at; [|constructor]|done|].
      by rewrite lookup_insert_eq.
    + (* parked: the requeue comes later *)
      assert (Hp : <[i := Parked]> m1 !! i = Some Parked) by by rewrite lookup_insert_eq.
      assert (Hgen : forall n n', rtc protocol_step n n' -> n !! i = Some Parked -> n' !! i = Some (Held t') ->
                exists mid, rtc protocol_step n mid /\ rtc protocol_step mid n' /\ mid !! i = Some Waiting).
      { intros n n' Hn. induction Hn as [|n1 n2 n3 (k & p & He' & ->) Hn' IHn]; intros Hp1 Hp2; [congruence|].
        destruct (decide (k = i)) as [->|Hk'].
        - rewrite Hp1 in He'. inversion He'; subst.
          + exists (<[i := Waiting]> n1). split_and!; [by eapply rtc_once, step_at; [|constructor]|done|].
            by rewrite lookup_insert_eq.
          + exfalso. assert (E : n3 !! i = Some Done); [|congruence].
            eapply protocol_done; [exact Hn'|]. by rewrite lookup_insert_eq.
        - destruct IHn as (mid & R1 & R2 & R3); [by rewrite lookup_insert_ne|done|].
          exists mid. split_and!; [|done|done]. eapply rtc_l; [|exact R1]. by exists k, p. }
      destruct (Hgen _ _ Hs Hp Hi') as (mid & R1 & R2 & R3).
      exists mid. split_and!; [|done|done]. eapply rtc_l; [|exact R1]. by eapply step_at; [|constructor].
    + exfalso. assert (E : m3 !! i = Some Done); [|congruence].
      eapply protocol_done; [exact Hs|]. by rewrite lookup_insert_eq.
  - destruct IH as (mid & R1 & R2 & R3); [by rewrite lookup_insert_ne|done|done|].
    exists mid. split_and!; [|done|done]. eapply rtc_l; [|exact R1]. by exists k, p.
Qed.

Section Consequences.
Context `{Coll : Collaborators} `{Roll : !PipelineRollups}.

(** A finished job stays finished: once a job has a terminal status, no interleaving
    of operations, retries, recoveries and late workers ever makes it runnable again. *)
Theorem finished_jobs_stay_finished db db' i j :
  inv db -> rtc queue_step db db' -> Db.jobs db !! i = Some j -> terminal (Job.status j) = true ->
  exists j', Db.jobs db' !! i = Some j' /\ terminal (Job.status j') = true.
Proof.
  intros Hi Hs Hj Ht. pose proof (queue_moves _ _ Hi Hs) as Hm.
  assert (Hd : abs db !! i = Some Done).
  { unfold abs. rewrite lookup_fmap, Hj. cbn. f_equal. unfold phase_of. by destruct (Job.status j). }
  pose proof (protocol_done _ _ _ Hm Hd) as Hd'. unfold abs in Hd'. rewrite lookup_fmap in Hd'.
  destruct (Db.jobs db' !! i) as [j'|]; [|done]. exists j'. split; [done|]. cbn in Hd'. injection Hd' as Hd'.
  unfold phase_of in Hd'. by destruct (Job.status j').
Qed.

End Consequences.
