(* ===== verification/JobGuarantees.v ===== *)
(** * Background jobs: retries, watchdog races and cancellation

    Further guarantees of [app/services/background_job_service.py]: the accounting
    of failures, what the watchdog may and may not touch, and that a cancelled
    job is never made runnable again by a recovery. *)
From Stdlib Require Import ZArith Lia List String Ascii Bool.
From stdpp Require Import base gmap list strings relations.
From S2P Require Import Prelude PyDate PyFloat PyValue Tables Queues Redaction.
From S2P Require Import PipelineStates JobRows JobLease JobQueue JobRecovery JobInvariant.
Local Open Scope string_scope.
Local Open Scope list_scope.
Local Open Scope Z_scope.
Local Open Scope st_scope.

(** ** Writes that the unique indexes accept *)


Section Guarantees.
Context `{Coll : Collaborators}.





(** ** What an operation leaves alone *)

(** The row of job [i] is still [x]. *)
Definition keeps (i : Z) (x : option BackgroundJob) (db : Db.Db) : Prop :=
  inv db /\ Db.jobs db !! i = x.

Lemma keeps_flush i x job : row_ok job -> Job.id job <> i -> preserves (keeps i x) (flush_job job).
Proof.
  intros Hok Hne db r db' [Hdb Hx] E. split; [by eapply flush_job_preserves|].
  unfold flush_job in E. case_match; simplify_eq; [|done]. by rewrite put_job_lookup, decide_False.
Qed.

Lemma keeps_jobs {A} i x (m : ST Db.Db A) :
  preserves inv m -> (forall db r db', m db = (r, db') -> Db.jobs db' = Db.jobs db) ->
  preserves (keeps i x) m.
Proof. intros Hp Hm db r db' [Hdb Hx] E. split; [by eapply Hp|]. by rewrite (Hm _ _ _ E). Qed.

Lemma transition_jobs now p target actor args db r db' :
  transition_pipeline now p target actor args db = (r, db') -> Db.jobs db' = Db.jobs db.
Proof.
  intros E. apply transition_pipeline_inv in E. destruct r as [p'|[cls msg|]]; [|naive_solver|done].
  by destruct E as (_ & _ & _ & _ & _ & Ej & _).
Qed.

(** The same for a session whose holder has another job. *)
Definition skeeps (i : Z) (x : option BackgroundJob) (s : Session) : Prop :=
  keeps i x (sdb s) /\ Job.id (sjob s) <> i.

Lemma skeeps_flush i x job : row_ok job -> Job.id job <> i -> preserves (skeeps i x) (on_db (flush_job job)).
Proof.
  intros Hok Hne s r s' [Hk Hs] E. unfold on_db in E.
  destruct (flush_job job (sdb s)) as [r1 db1] eqn:E1. simplify_eq.
  split; [by eapply keeps_flush|done].
Qed.

Lemma skeeps_local i x f :
  (forall s, skeeps i x s -> sdb (f s) = sdb s /\ Job.id (sjob (f s)) <> i) ->
  preserves (skeeps i x) (st_modify f).
Proof.
  intros Hf. apply preserves_modify. intros s Hs. destruct (Hf s Hs) as [E Hne].
  split; [|done]. rewrite E. apply Hs.
Qed.

Lemma skeeps_row i x s row :
  skeeps i x s -> Db.jobs (sdb s) !! Job.id (sjob s) = Some row -> row_ok row /\ Job.id row <> i.
Proof.
  intros [[Hdb _] Hne] Hrow. split; [by eapply inv_rows|]. by rewrite (inv_keys _ Hdb _ _ Hrow).
Qed.

Lemma skeeps_loss {A} i x now token job what :
  preserves (skeeps i x)
    (st_bind (_record_local_lease_loss now token) (fun _ => JobLeaseLost (A:=A) job what)).
Proof.
  preserve; [|apply preserves_raise]. apply skeeps_local. intros s [_ Hne]. split; [done|].
  cbn [sjob]. by destruct (sjob s).
Qed.

Lemma skeeps_apply i x now token values allowed :
  (forall row, Job.id (values row) = Job.id row) -> (forall row, row_ok row -> row_ok (values row)) ->
  preserves (skeeps i x) (_apply_running_job_update now token values allowed).
Proof.
  intros Hid Hok. unfold _apply_running_job_update. apply preserves_get. intros s Hs. cbv zeta.
  repeat (first [apply skeeps_loss | preserve_step]).
  - destruct (skeeps_row _ _ _ _ Hs Heqo) as [Hr Hne]. apply skeeps_flush; [auto|by rewrite Hid].
  - apply skeeps_local. intros s0 _. split; [done|]. cbn [sjob]. rewrite Hid. apply Hs.
Qed.

Lemma skeeps_cancelled i x now result token :
  preserves (skeeps i x) (mark_job_cancelled now result token).
Proof.
  unfold mark_job_cancelled, _finish_job. preserve.
  - apply skeeps_apply; [|intros; by apply finish_values_ok].
    intros row. unfold finish_values. case_bool_decide; by destruct row.
  - apply skeeps_local. intros s0 _. split; [done|]. cbn [sjob].
    match goal with H : skeeps i x ?s |- _ => destruct H as [_ Hne]; by destruct (sjob s) end.
  - match goal with H : skeeps i x ?s, Hrow : _ = Some ?row |- _ =>
      destruct (skeeps_row _ _ _ _ H Hrow) as [Hr Hne] end.
    apply skeeps_flush; [by apply set_cancel_ok|by destruct b].
Qed.

Lemma keeps_finalize i x now job :
  row_ok job -> Job.id job <> i -> preserves (keeps i x) (_finalize_recovery_cancellation now job).
Proof.
  intros Hok Hne. unfold _finalize_recovery_cancellation. preserve_step.
  - intros db r db' Hdb E. unfold as_holder in E.
    destruct (mark_job_cancelled _ _ _ _) as [r1 s1] eqn:E1. simplify_eq.
    by apply (skeeps_cancelled i x) in E1 as [? _].
  - apply keeps_flush; [by apply cancelled_row_ok|by destruct job].
Qed.

Lemma keeps_interrupt i x now job observed :
  preserves (keeps i x) (_interrupt_fenced_pipeline_steps now job observed).
Proof.
  unfold _interrupt_fenced_pipeline_steps. preserve.
  - apply keeps_jobs; [apply modify_jobs_preserves; by intros []|].
    intros db r db' E. unfold st_modify in E. simplify_eq. by destruct db.
  - apply keeps_jobs; [apply transition_preserves|apply transition_jobs].
Qed.

Lemma keeps_fence i x locked authority ts observed worker instance o :
  obs_job_id o <> i ->
  preserves (keeps i x) (fence_observed locked authority ts observed worker instance o).
Proof.
  intros Hne. unfold fence_observed. apply preserves_get. intros db [Hdb _].
  destruct (Db.jobs db !! obs_job_id o) as [job|] eqn:Ej; [|apply preserves_ret].
  pose proof (inv_rows _ Hdb _ _ Ej) as Hok. pose proof (inv_keys _ Hdb _ _ Ej) as Hid.
  destruct (still_overdue _ _ _ _ _ _ && _) eqn:E; [|apply preserves_ret].
  apply andb_true_iff in E as [E%still_overdue_running _].
  preserve_step; [preserve; apply keeps_finalize; congruence|].
  preserve_step; [apply preserves_lift|].
  intros db1 r db' Hdb1 H. unfold st_bind at 1 in H.
  destruct (_interrupt_fenced_pipeline_steps observed job observed db1) as [r1 db2] eqn:Ei.
  pose proof (keeps_interrupt _ _ _ _ _ _ _ _ Hdb1 Ei) as Hdb2.
  destruct r1 as [j|e]; [|by simplify_eq].
  apply interrupt_result in Ei as [_ [d ->]]. use_preserves (keeps i x) Hdb2 H.
  preserve. apply keeps_flush; [apply stalled_ok; [by apply payload_ok|by destruct job]|].
  unfold stalled, _record_progress_recovery. destruct job; row_cbn. congruence.
Qed.

(** ** The watchdog *)

Lemma collect_In {A B} (f : A -> result (option B)) l bs b :
  collect f l = Ok bs -> In b bs -> exists x, In x l /\ f x = Ok (Some b).
Proof.
  revert bs. induction l as [|x l IH]; cbn [collect]; intros bs E Hin.
  - apply Ok_inj in E. by subst.
  - apply result_bind_Ok in E as (o & Eo & E). apply result_bind_Ok in E as (rest & Er & E).
    apply Ok_inj in E. subst bs. destruct o as [b'|].
    + destruct Hin as [->|Hin]; [exists x; split; [by left|done]|].
      destruct (IH _ Er Hin) as (y & Hy & Ey). exists y. split; [by right|done].
    + destruct (IH _ Er Hin) as (y & Hy & Ey). exists y. split; [by right|done].
Qed.

(** C7: the watchdog leaves healthy work alone.  A job whose cancellation was not
    requested and whose last progress is not older than the timeout of its stage
    keeps its row, whatever else the watchdog fences in the same pass. *)
Theorem watchdog_keeps_healthy locked authority ts observed worker instance db i j progress_at timeout r db' :
  inv db -> Db.jobs db !! i = Some j -> Job.requested_cancel j = false ->
  Job.last_progress_at j = Some progress_at -> job_timeout ts j = Ok timeout ->
  observed - seconds timeout <= progress_at ->
  fence_stalled_jobs locked authority ts observed worker instance db = (r, db') ->
  Db.jobs db' !! i = Some j.
Proof.
  intros Hdb Hj Hc Hp Ht Hle E. unfold fence_stalled_jobs in E.
  change (st_bind st_get ?f db) with (f db db) in E. cbv beta in E. unfold st_bind, st_lift in E.
  destruct (overdue_jobs _ _ _ _ _ _) as [os|e] eqn:Eo; [|by simplify_eq].
  assert (keeps i (Some j) db) as Hk by by split.
  cut (keeps i (Some j) db'); [by intros []|]. use_preserves (keeps i (Some j)) Hk E.
  unfold fence_all. apply preserves_fold. intros acc o Ho. preserve. apply keeps_fence.
  intros Hid. unfold overdue_jobs in Eo. destruct (collect_In _ _ _ _ Eo Ho) as (j' & Hin & Ej').
  apply filter_In in Hin as [[k Hk']%job_rows_In _]. unfold observe in Ej'.
  apply result_bind_Ok in Ej' as (t' & Et' & Ej'). destruct (Job.last_progress_at j') as [p'|] eqn:Ep; [|done].
  apply Ok_inj in Ej'. destruct (Job.requested_cancel j' || _) eqn:Eb; [|done].
  injection Ej' as <-. cbn [obs_job_id] in Hid. rewrite (inv_keys _ Hdb _ _ Hk') in Hid. subst k.
  assert (j' = j) as -> by congruence. assert (t' = timeout) as -> by congruence.
  assert (p' = progress_at) as -> by congruence. rewrite Hc in Eb. cbn [orb] in Eb. apply Z.ltb_lt in Eb. lia.
Qed.

(** C8: the watchdog loses races.  When a job has made progress, changed stage,
    changed owner or left RUNNING between the observation and the lock, or when
    its row is locked, fencing the observation changes nothing. *)
Theorem watchdog_race_safe locked authority ts observed worker instance o db :
  (forall job, Db.jobs db !! obs_job_id o = Some job ->
     Job.status job <> RUNNING \/ Job.execution_token job <> obs_token o \/
     Job.progress_sequence job <> obs_sequence o \/
     Job.last_progress_at job <> Some (obs_progress_at o) \/ Job.progress_stage job <> obs_stage o \/
     locked (Job.id job) = true) ->
  fence_observed locked authority ts observed worker instance o db = (Ok None, db).
Proof.
  intros Hchanged. unfold fence_observed. change (st_bind st_get ?f db) with (f db db). cbv beta.
  destruct (Db.jobs db !! obs_job_id o) as [job|] eqn:Ej; [|done].
  specialize (Hchanged job eq_refl).
  destruct (still_overdue db authority worker instance o job && negb (locked (Job.id job))) eqn:E; [|done].
  exfalso. apply andb_true_iff in E as [E El].
  pose proof (still_overdue_running _ _ _ _ _ _ E) as Hs. unfold still_overdue in E.
  rewrite !andb_true_iff in E. destruct E as [[[[[[_ _] E1] E2] E3] E4] _].
  apply bool_decide_eq_true in E1, E3, E4. apply Z.eqb_eq in E2. apply negb_true_iff in El.
  destruct_or! Hchanged; congruence.
Qed.

(** ** Cancellation *)

(** The automatic recoveries. *)
Inductive recovery_step : Db.Db -> Db.Db -> Prop :=
  | recover_fence locked authority ts observed worker instance os db r db' :
      fence_all locked authority ts observed worker instance os db = (r, db') -> recovery_step db db'
  | recover_requeue locked authority ids observed limit db r db' :
      requeue_stalled_jobs locked authority ids observed limit db = (r, db') -> recovery_step db db'
  | recover_lost locked authority worker reason instance observed code db r db' :
      reconcile_jobs_for_worker_loss locked authority worker reason instance observed code db
        = (r, db') -> recovery_step db db'
  | recover_expired authority now db r db' :
      recover_stale_jobs authority now db = (r, db') -> recovery_step db db'
  | recover_abandoned authority worker timeout now db r db' :
      recover_abandoned_jobs_for_worker authority worker timeout now db = (r, db') ->
      recovery_step db db'.

Section Cancelled.
Context (i : Z) (j : BackgroundJob) (Hcancel : Job.requested_cancel j = true).

(** The row is untouched or cancelled. *)
Definition cancelling (db : Db.Db) : Prop :=
  inv db /\ (Db.jobs db !! i = Some j \/
             exists j', Db.jobs db !! i = Some j' /\ Job.status j' = CANCELLED).

Lemma cancelling_row db k job :
  cancelling db -> Db.jobs db !! k = Some job -> Job.status job <> CANCELLED ->
  row_ok job /\ (Job.id job <> i \/ job = j).
Proof.
  intros [Hdb Hi] Hk Hs. split; [by eapply inv_rows|].
  rewrite (inv_keys _ Hdb _ _ Hk). destruct (decide (k = i)) as [->|Hne]; [|by left].
  right. destruct Hi as [Hi|(j' & Hi & Hs')]; congruence.
Qed.

Lemma cancelling_flush job :
  row_ok job -> (Job.id job <> i \/ Job.status job = CANCELLED \/ job = j) ->
  preserves cancelling (flush_job job).
Proof.
  intros Hok Hc db r db' [Hdb Hi] E. split; [by eapply flush_job_preserves|].
  unfold flush_job in E. case_match; simplify_eq; [|done]. rewrite !put_job_lookup.
  case_decide as Hid; [|done]. destruct_or! Hc; [done| |subst; by left]. right. eauto.
Qed.

Lemma cancelling_jobs {A} (m : ST Db.Db A) :
  preserves inv m -> (forall db r db', m db = (r, db') -> Db.jobs db' = Db.jobs db) ->
  preserves cancelling m.
Proof. intros Hp Hm db r db' [Hdb Hx] E. split; [by eapply Hp|]. by rewrite (Hm _ _ _ E). Qed.

Lemma cancelling_finish now token :
  preserves (fun s => cancelling (sdb s)) (mark_job_cancelled now None token).
Proof.
  assert (forall job, row_ok job -> (Job.id job <> i \/ Job.status job = CANCELLED \/ job = j) ->
    preserves (fun s => cancelling (sdb s)) (on_db (flush_job job))) as Hflush.
  { intros job Hok Hc s r s' Hs E. unfold on_db in E.
    destruct (flush_job job (sdb s)) as [r1 db1] eqn:E1. simplify_eq. by eapply cancelling_flush. }
  assert (forall f, (forall s, sdb (f s) = sdb s) ->
    preserves (fun s => cancelling (sdb s)) (st_modify f)) as Hlocal.
  { intros f Hf. apply preserves_modify. intros s Hs. by rewrite Hf. }
  unfold mark_job_cancelled, _finish_job, _apply_running_job_update. preserve;
    try (apply Hlocal; done); try apply preserves_raise.
  - match goal with Hs : cancelling ?db, Hrow : Db.jobs ?db !! _ = Some ?row |- _ =>
      pose proof (inv_rows _ (proj1 Hs) _ _ Hrow) as Hok end.
    apply Hflush; [by apply finish_values_ok|].
    right. left. unfold finish_values. rewrite bool_decide_true by done. by destruct b.
  - match goal with Hs : cancelling ?db, Hrow : Db.jobs ?db !! _ = Some ?row |- _ =>
      pose proof (inv_rows _ (proj1 Hs) _ _ Hrow) as Hok;
      destruct (decide (Job.status row = CANCELLED)) as [Hst|Hst];
      [apply Hflush; [by apply set_cancel_ok|right; left; by destruct row]|];
      destruct (cancelling_row _ _ _ Hs Hrow Hst) as [_ [Hne| ->]] end.
    + apply Hflush; [by apply set_cancel_ok|left; by destruct b].
    + apply Hflush; [by apply set_cancel_ok|]. right. right. destruct j; cbn in *. by subst.
Qed.

Lemma cancelling_finalize now job :
  row_ok job -> preserves cancelling (_finalize_recovery_cancellation now job).
Proof.
  intros Hok. unfold _finalize_recovery_cancellation. preserve_step.
  - intros db r db' Hdb E. unfold as_holder in E.
    destruct (mark_job_cancelled _ _ _ _) as [r1 s1] eqn:E1. simplify_eq.
    by apply cancelling_finish in E1.
  - apply cancelling_flush; [by apply cancelled_row_ok|]. right. left. by destruct job.
Qed.

(** A recovery of a row other than that of [j]: the row keeps its id. *)
Lemma cancelling_other job (f : BackgroundJob -> BackgroundJob) :
  (Job.id job <> i \/ job = j) -> Job.requested_cancel job = false ->
  row_ok (f job) -> Job.id (f job) = Job.id job -> preserves cancelling (flush_job (f job)).
Proof.
  intros [Hne| ->] Hc Hok Hid; [|congruence]. apply cancelling_flush; [done|]. left. by rewrite Hid.
Qed.

Lemma cancelling_transition now p target actor args :
  preserves cancelling (transition_pipeline now p target actor args).
Proof. apply cancelling_jobs; [apply transition_preserves|apply transition_jobs]. Qed.

Lemma cancelling_modify f :
  (forall db, Db.jobs (f db) = Db.jobs db) -> preserves cancelling (st_modify f).
Proof.
  intros Hf. apply cancelling_jobs; [by apply modify_jobs_preserves|].
  intros db r db' E. unfold st_modify in E. by simplify_eq.
Qed.

Lemma cancelling_fence locked authority ts observed worker instance o :
  preserves cancelling (fence_observed locked authority ts observed worker instance o).
Proof.
  unfold fence_observed. apply preserves_get. intros db Hdb.
  destruct (Db.jobs db !! obs_job_id o) as [job|] eqn:Ej; [|apply preserves_ret].
  destruct (still_overdue _ _ _ _ _ _ && _) eqn:E; [|apply preserves_ret].
  apply andb_true_iff in E as [E%still_overdue_running _].
  destruct (cancelling_row _ _ _ Hdb Ej ltac:(by rewrite E)) as [Hok Hne].
  preserve_step; [preserve; by apply cancelling_finalize|].
  preserve_step; [apply preserves_lift|].
  intros db1 r db' Hdb1 H. unfold st_bind at 1 in H.
  destruct (_interrupt_fenced_pipeline_steps observed job observed db1) as [r1 db2] eqn:Ei.
  assert (cancelling db2) as Hdb2.
  { use_preserves cancelling Hdb1 Ei. unfold _interrupt_fenced_pipeline_steps. preserve.
    - apply cancelling_modify. by intros [].
    - apply cancelling_transition. }
  destruct r1 as [j1|e]; [|by simplify_eq].
  apply interrupt_result in Ei as [_ [d ->]]. use_preserves cancelling Hdb2 H. preserve.
  apply (cancelling_other job (fun x => stalled observed a worker (Job.set_payload_json d x))); try done.
  - apply stalled_ok; [by apply payload_ok|by destruct job].
  - unfold stalled, _record_progress_recovery. by destruct job.
Qed.

Lemma cancelling_selected db p job :
  cancelling db -> In job (List.filter p (job_rows db)) -> (p job = true -> Job.status job <> CANCELLED) ->
  row_ok job /\ (Job.id job <> i \/ job = j) /\ p job = true.
Proof.
  intros Hdb [[k Hk]%job_rows_In Hp]%filter_In Hs.
  destruct (cancelling_row _ _ _ Hdb Hk (Hs Hp)). by split_and!.
Qed.

Lemma cancelling_recover now db jobs :
  cancelling db ->
  (forall job, In job jobs -> (exists k, Db.jobs db !! k = Some job) /\ Job.status job = RUNNING) ->
  preserves cancelling (_recover_jobs now jobs).
Proof.
  intros Hdb Hj. apply preserves_fold. intros n job [[k Hk] Hs]%Hj.
  destruct (cancelling_row _ _ _ Hdb Hk ltac:(by rewrite Hs)) as [Hok Hne].
  unfold recover_one. preserve.
  - by apply cancelling_finalize.
  - apply (cancelling_other job (recovered_row now)); [done|done|by apply recovered_row_ok|].
    unfold recovered_row. case_match; by destruct job.
  - apply cancelling_modify. by intros [].
Qed.

Lemma recovery_step_cancelling db db' : recovery_step db db' -> cancelling db -> cancelling db'.
Proof.
  intros Hstep Hdb. destruct Hstep;
    match goal with E : _ = (_, _) |- _ => use_preserves cancelling Hdb E end.
  - unfold fence_all. preserve. apply cancelling_fence.
  - unfold requeue_stalled_jobs. cbv zeta. apply preserves_get. intros db1 Hdb1.
    apply preserves_fold. intros n job Hin. apply (cancelling_selected db1) in Hin as (Hok & Hne & Hp); [|done|].
    2: { rewrite !andb_true_iff. intros [[[[Hs%bool_decide_eq_true _] _] _] _]. by rewrite Hs. }
    rewrite !andb_true_iff in Hp. destruct Hp as [[[[Hs%bool_decide_eq_true _] _] _] _].
    unfold requeue_one. preserve.
    + by apply cancelling_finalize.
    + apply (cancelling_other job (recovery_blocked observed)); [done|done|by apply recovery_blocked_ok|].
      unfold recovery_blocked. by destruct job.
    + unfold block_pipeline. preserve; [apply cancelling_transition|].
      apply cancelling_modify. by intros [].
    + apply (cancelling_other job (requeued observed)); [done|done|by apply requeued_ok|].
      unfold requeued. by destruct job.
  - unfold reconcile_jobs_for_worker_loss. cbv zeta. apply preserves_get. intros db1 Hdb1.
    apply preserves_bind; [|intros ?; apply preserves_ret].
    apply preserves_fold. intros acc job [Hin _]%filter_In.
    apply (cancelling_selected db1) in Hin as (Hok & Hne & Hp); [|done|].
    2: { unfold owned_by. rewrite !andb_true_iff. intros [[Hs%bool_decide_eq_true _] _]. by rewrite Hs. }
    unfold owned_by in Hp. rewrite !andb_true_iff in Hp. destruct Hp as [[Hs%bool_decide_eq_true _] _].
    unfold reconcile_one. preserve.
    + by apply cancelling_finalize.
    + eapply (cancelling_other job (fenced_for_loss _ observed worker reason code)); [done|done|by apply fenced_for_loss_ok|].
      unfold fenced_for_loss, _record_progress_recovery. case_bool_decide; by destruct job.
  - unfold recover_stale_jobs, require_normal_worker_recovery. preserve.
    eapply cancelling_recover; [exact H|]. intros job [Hk%job_rows_In Hp]%filter_In. split; [done|].
    unfold lease_expired in Hp. rewrite !andb_true_iff in Hp.
    by destruct Hp as [[Hs%bool_decide_eq_true _] _].
  - unfold recover_abandoned_jobs_for_worker, require_normal_worker_recovery. preserve.
    eapply cancelling_recover; [exact H|]. intros job [Hk%job_rows_In Hp]%filter_In. split; [done|].
    rewrite !andb_true_iff in Hp. by destruct Hp as [[[Hs%bool_decide_eq_true _] _] _].
Qed.

(** C4: no recovery revives a cancelled job.  Once the cancellation of a job has
    been requested, the watchdog, the requeueing of stalled jobs, the
    reconciliation after a lost worker and the recovery of expired leases leave
    its row untouched or finish it as CANCELLED; none of them makes it runnable
    again. *)
Theorem recovery_never_revives_cancelled db db' :
  inv db -> Db.jobs db !! i = Some j -> rtc recovery_step db db' ->
  Db.jobs db' !! i = Some j \/
  exists j', Db.jobs db' !! i = Some j' /\ Job.status j' = CANCELLED.
Proof.
  intros Hdb Hj Hsteps. assert (cancelling db) as Hc by (split; [done|by left]). clear Hdb Hj.
  cut (cancelling db'); [by intros []|].
  induction Hsteps as [|db1 db2 db3 Hs _ IH]; [done|]. apply IH. by eapply recovery_step_cancelling.
Qed.
End Cancelled.
End Guarantees.
