(* ===== verification/JobExamples.v ===== *)
(** * Background jobs: attempts, progress and concrete runs

    The record of an attempt, the monotonicity of progress checkpoints, runs of
    the queue on concrete stores, and the conflict between a stalled job and a
    new job with the same request key. *)
From Stdlib Require Import ZArith Lia List String Ascii Bool.
From stdpp Require Import base gmap list strings relations.
From S2P Require Import Prelude PyDate PyFloat PyValue Tables Queues Redaction.
From S2P Require Import PipelineStates JobRows JobLease JobQueue JobRecovery JobInvariant JobFacts.
From S2P Require Import JobRefinement JobGuarantees.
Local Open Scope string_scope.
Local Open Scope list_scope.
Local Open Scope Z_scope.
Local Open Scope st_scope.

(** ** Attempts *)

Fixpoint no_Z (s : string) : bool :=
  match s with EmptyString => true | String c s => negb (Ascii.eqb c "Z") && no_Z s end.

Lemma replace_Z_id s : no_Z s = true -> replace_Z s = s.
Proof.
  induction s as [|c s IH]; cbn; [done|]. intros [Hc Hs]%andb_true_iff.
  apply negb_true_iff in Hc. rewrite Hc. by rewrite IH.
Qed.

Lemma no_Z_app s t : no_Z (s ++ t)%string = no_Z s && no_Z t.
Proof.
  induction s as [|c s IH]; [by rewrite append_nil|]. rewrite append_cons. cbn. rewrite IH.
  by rewrite andb_assoc.
Qed.

Lemma no_Z_digit d : 0 <= d < 10 -> Ascii.eqb (digit d) "Z" = false.
Proof.
  intros H. assert (In d [0;1;2;3;4;5;6;7;8;9]) as Hin by (cbn; lia).
  cbn in Hin. by destruct_or? Hin; subst.
Qed.

Lemma no_Z_pad w n : no_Z (pad w n) = true.
Proof.
  revert n. induction w as [|w IH]; intros n; [done|]. cbn [pad].
  rewrite no_Z_app. cbn [no_Z]. rewrite IH, no_Z_digit; [done|]. apply Z.mod_pos_bound. lia.
Qed.

Lemma no_Z_iso t : no_Z (dt_isoformat t) = true.
Proof.
  unfold dt_isoformat. destruct (ord2ymd _) as [[y m] d].
  destruct (_ =? 0); rewrite no_Z_app, no_Z_pad; cbn [andb];
    repeat (cbn [no_Z andb Ascii.eqb Bool.eqb negb]; rewrite ?no_Z_app, ?no_Z_pad); done.
Qed.

Lemma parse_iso t : date_in_range (dt_date t) -> _parse_datetime (VStr (dt_isoformat t)) = Some t.
Proof.
  intros Hr. unfold _parse_datetime. rewrite replace_Z_id by apply no_Z_iso.
  rewrite fromisoformat_isoformat by done.
  destruct (String.eqb_spec (dt_isoformat t) "") as [E|]; [|done].
  pose proof (fromisoformat_isoformat t Hr) as H. by rewrite E in H.
Qed.

(** The record of an attempt.  Starting an attempt and finishing it leaves no
    current attempt and a last attempt with the next attempt number, the final
    status and the duration between the two clock readings: the start time
    survives its round trip through the ISO text of the JSON column. *)
Theorem attempt_roundtrip metadata job started finished status :
  date_in_range (dt_date started) ->
  let m := _with_attempt_finished (_with_attempt_started metadata job started) finished status in
  let last := as_dict (dget m "last_attempt") in
  dget m "current_attempt" = VNone /\
  dget m "attempt_count" = VInt (int_or_0 (dget metadata "attempt_count") + 1) /\
  dget last "attempt_number" = dget m "attempt_count" /\
  dget last "status" = VStr status /\
  dget last "execution_duration_ms" = _duration_ms (Some started) (Some finished).
Proof.
  intros Hr. cbv zeta. unfold _with_attempt_finished, _with_attempt_started. cbv zeta.
  set (attempt := [("attempt_number", _); _; _; _; _]).
  rewrite (dget_set_eq "current_attempt"). cbn [as_dict].
  assert (dget attempt "started_at" = VStr (dt_isoformat started)) as -> by done.
  rewrite parse_iso by done. dict_simpl.
  split_and!; done.
Qed.

Section Progress.
Context `{Coll : Collaborators}.

(** Progress checkpoints.  A checkpoint that is accepted was made by the
    holder of the lease.  Either it did not advance and was asked to be ignored
    in that case, and the store is unchanged; or it stamps the row: the sequence
    number grows by one, the stall clock restarts, ownership and status stay, no
    other row changes, and within a stage the processed count and the total never
    decrease. *)
Theorem progress_checkpoint now id token p db db' :
  inv db -> record_job_progress now id token p db = (Ok tt, db') ->
  exists row, Db.jobs db !! id = Some row /\ holds row token = true /\
    ((db' = db /\ p_only_if_advanced p = true /\ stage_changed p row = false) \/
     exists row', Db.jobs db' = <[id := row']> (Db.jobs db) /\
       Job.status row' = RUNNING /\ Job.execution_token row' = Some token /\
       Job.progress_sequence row' = Job.progress_sequence row + 1 /\
       Job.last_progress_at row' = Some now /\ Job.progress_stage row' = Some (p_stage p) /\
       (stage_changed p row = false ->
          Job.progress_processed row <= Job.progress_processed row' /\
          forall m, Job.progress_total row = Some m ->
            exists m', Job.progress_total row' = Some m' /\ m <= m')).
Proof.
  intros Hdb E. unfold record_job_progress in E. change (st_bind st_get ?f db) with (f db db) in E.
  cbv beta zeta in E.
  destruct (Db.jobs db !! id) as [row|] eqn:Erow.
  2: { repeat case_match; unfold lease_lost, st_raise in E; simplify_eq. }
  destruct (negb (bool_decide _) && _); [unfold lease_lost, st_raise in E; simplify_eq|].
  destruct (match p_payload p with Some _ => _ | None => _ end); [done|].
  destruct (match p_total p with Some _ => _ | None => _ end); [done|].
  exists row. split; [done|].
  destruct (holds row token) eqn:Eh; cbn [andb] in E.
  2: { rewrite andb_false_r in E. done. }
  split; [done|].
  pose proof (inv_keys _ Hdb _ _ Erow) as Hid.
  apply andb_true_iff in Eh as [Es Et]. apply bool_decide_eq_true in Es, Et.
  destruct (match p_processed p with Some _ => _ | None => _ end) eqn:Ea.
  - apply flush_job_Ok in E. subst db'. right. exists (progressed now p row). split.
    { destruct db. cbn. f_equal. unfold progressed. rewrite <- Hid.
      destruct (p_metadata_patch p), (p_payload p); by destruct row. }
    unfold progressed. cbv zeta. clear Ea.
    destruct (p_metadata_patch p), (p_payload p); destruct row; row_cbn; subst;
      (split_and!; try done; intros Ec; rewrite Ec; split;
        [destruct (p_processed p) as [n|]; [destruct (Z.ltb_spec progress_processed n); lia|lia]
        |intros m ->; destruct (p_total p) as [n|]; eauto with lia;
         destruct (Z.ltb_spec m n); eauto with lia]).
  - left. destruct (p_only_if_advanced p && true && _) eqn:Eo.
    + unfold st_ret in E. simplify_eq. apply andb_true_iff in Eo as [Eo _].
      apply andb_true_iff in Eo as [Eo _]. split_and!; [done|done|].
      destruct (p_processed p); [|done]. by apply orb_false_iff in Ea as [[_ ?]%orb_false_iff _].
    + done.
Qed.

(** Fencing by the watchdog.  When the watchdog reports a job as fenced, the
    job was RUNNING with the observed token and without requested cancellation,
    its last progress was older than the deadline of the observation, and its
    row is now STALLED without an owner: no token is left that its former holder
    could present. *)
Theorem watchdog_fences locked authority ts observed worker instance o db i db' :
  inv db -> fence_observed locked authority ts observed worker instance o db = (Ok (Some i), db') ->
  exists job row, i = obs_job_id o /\ Db.jobs db !! i = Some job /\ Job.status job = RUNNING /\
    Job.execution_token job = obs_token o /\ Job.requested_cancel job = false /\
    (exists t, Job.last_progress_at job = Some t /\ t < obs_deadline o) /\
    Db.jobs db' = <[i := row]> (Db.jobs db) /\ Job.status row = STALLED /\ unowned row /\
    Job.retry_count row = Job.retry_count job /\ Job.stall_detected_at row = Some observed.
Proof.
  intros Hdb E. unfold fence_observed in E. change (st_bind st_get ?f db) with (f db db) in E.
  cbv beta in E. destruct (Db.jobs db !! obs_job_id o) as [job|] eqn:Ej; [|done].
  destruct (still_overdue _ _ _ _ _ _ && _) eqn:Eo; [|done].
  pose proof (inv_keys _ Hdb _ _ Ej) as Hid. apply andb_true_iff in Eo as [Eo _].
  pose proof (still_overdue_running _ _ _ _ _ _ Eo) as Hs. unfold still_overdue in Eo.
  rewrite !andb_true_iff in Eo. destruct Eo as [[[[[[_ _] E1] _] _] _] E5].
  apply bool_decide_eq_true in E1.
  destruct (Job.requested_cancel job) eqn:Ec.
  { apply st_bind_Ok in E as (? & ? & _ & E). done. }
  apply st_bind_Ok in E as (timeout & db1 & E0 & E). injection E0 as _ <-.
  apply st_bind_Ok in E as (j & db2 & Ei & E). apply interrupt_result in Ei as [Hjobs [d ->]].
  apply st_bind_Ok in E as (u & db3 & Ef & E). apply flush_job_Ok in Ef. subst db3.
  unfold st_ret in E.
  assert (i = Job.id (Job.set_payload_json d job) /\
    db' = put_job (stalled observed timeout worker (Job.set_payload_json d job)) db2) as [Hi ->]
    by (by simplify_eq). clear E.
  assert (Job.id (Job.set_payload_json d job) = Job.id job) as Hid' by by destruct job.
  set (row := stalled observed timeout worker (Job.set_payload_json d job)).
  assert (Job.id row = Job.id job) as Hrid.
  { subst row. unfold stalled, _record_progress_recovery. by destruct job. }
  exists job, row. rewrite Hi, Hid', Hid. split_and!; try done.
  - cbn [orb] in E5. destruct (Job.last_progress_at job) as [t|]; [|done].
    exists t. split; [done|]. by apply Z.ltb_lt.
  - rewrite <- Hjobs, <- Hid, <- Hrid. by destruct db2.
  - subst row. unfold stalled, _record_progress_recovery. by destruct job.
  - subst row. unfold stalled, _record_progress_recovery. by destruct job.
  - subst row. unfold stalled, _record_progress_recovery. by destruct job.
  - subst row. unfold stalled, _record_progress_recovery. by destruct job.
Qed.

(** Bounded automatic recovery.  Handling one stalled job whose cancellation
    was not requested either blocks it for good (exactly when the number of
    equivalent stalls has reached the limit) or puts it back as RECOVERING, ready
    at once and counted as one more recovery; it never leaves it as it was. *)
Theorem requeue_is_bounded observed limit n job db n' db' :
  inv db -> Db.jobs db !! Job.id job = Some job -> Job.status job = STALLED ->
  Job.requested_cancel job = false ->
  requeue_one observed limit n job db = (Ok n', db') ->
  exists row, Db.jobs db' = <[Job.id job := row]> (Db.jobs db) /\
    if limit <=? int_or_0 (dget (recovery_record job) "identical_count") then
      Job.status row = BLOCKED /\ Job.completed_at row = Some observed /\ n' = n
    else
      Job.status row = RECOVERING /\ Job.run_after row = observed /\ n' = n + 1 /\
      Job.recovery_count row = Job.recovery_count job + 1.
Proof.
  intros Hdb Hj Hs Hc E. unfold requeue_one in E. rewrite Hc in E.
  destruct (limit <=? _).
  - cbv zeta in E. apply st_bind_Ok in E as (u & db1 & Ef & E). apply flush_job_Ok in Ef.
    apply st_bind_Ok in E as (u' & db2 & Eb & E). unfold st_ret in E. simplify_eq.
    assert (Db.jobs db' = Db.jobs (put_job (recovery_blocked observed job) db)) as ->.
    { assert (forall x, preserves (fun d => Db.jobs d = x)
        (block_pipeline observed job (recovery_blocked observed job))) as Hp.
      { intros x. unfold block_pipeline. preserve.
        - intros d r d' Hd Et. apply transition_jobs in Et. by rewrite Et.
        - apply preserves_modify. by intros [] ?. }
      by apply (Hp _ _ _ _ eq_refl Eb). }
    exists (recovery_blocked observed job).
    assert (Job.id (recovery_blocked observed job) = Job.id job) as Hid by (unfold recovery_blocked; by destruct job).
    split_and!; try done; [destruct db; cbn; by rewrite Hid| |]; unfold recovery_blocked; by destruct job.
  - apply st_bind_Ok in E as (u & db1 & Ef & E). apply flush_job_Ok in Ef.
    unfold st_ret in E. simplify_eq. exists (requeued observed job).
    assert (Job.id (requeued observed job) = Job.id job) as Hid by (unfold requeued; by destruct job).
    split_and!; [destruct db; cbn; by rewrite Hid| | |done|]; unfold requeued; by destruct job.
Qed.
End Progress.

(** ** Concrete runs *)

(** Collaborators that authorize everything and roll nothing up. *)
Definition plain : Collaborators := {|
  redact_text := fun s => s;
  sha256 := fun s => s;
  json_sha256 := fun _ => "h";
  pipeline_activation_min_id := 0;
  job_activation_min_id := 0;
  job_max_identical_progress_recoveries := 3;
  certification_claim_filter := fun _ _ _ => true;
  certification_recovery_filter := fun _ _ _ => true;
  require_enqueue_authorized := fun _ _ payload => Ok payload;
  anchor_enqueue_payload := fun _ _ payload _ => Ok payload;
  bind_job_configuration := fun _ _ => Ok tt;
  acquisition_retry_manifest := fun _ _ => None;
  mark_pipeline_job_failure := fun _ => st_ret tt;
  mark_pipeline_job_retry := fun _ => st_ret tt;
  mark_sec_repair_failure := fun _ => st_ret tt;
  roll_up_ceri_pipeline_job_failure := st_ret tt;
|}.

Lemma same_row_change j : hook_change j j.
Proof. unfold hook_change, same_identity. split_and!; try done. left. by split_and!. Qed.

Lemma no_hook_ok : hook_ok (st_ret tt).
Proof.
  intros s r s' E i. unfold st_ret in E. simplify_eq.
  destruct (Db.jobs _ !! i); constructor. apply same_row_change.
Qed.

Lemma plain_rollups : PipelineRollups (H:=plain).
Proof. constructor; intros; apply no_hook_ok. Qed.

Lemma inv_single db j : Db.jobs db = {[Job.id j := j]} -> row_ok j -> inv db.
Proof.
  intros E Hj. constructor; rewrite ?E.
  - by intros i k [<- <-]%lookup_singleton_Some.
  - by intros i k a b [<- <-]%lookup_singleton_Some [<- <-]%lookup_singleton_Some.
  - by intros i k [<- <-]%lookup_singleton_Some.
Qed.

Definition a_store (jobs : gmap Z BackgroundJob) : Db.Db :=
  Db.mk jobs {["w1" := Worker.mk "w1" None None 0 None None]} ∅ [] ∅ [] [].
Definition one_job (j : BackgroundJob) : Db.Db := a_store {[1 := j]}.
Definition an_enqueue : EnqueueArgs :=
  mkEnqueue "IB_REFRESH" [] None 100 3 None (Some "k1") None true false None None None None.
Definition a_queued : BackgroundJob := new_job 1 0 an_enqueue [].
Definition a_running : BackgroundJob := @claimed plain 1000 "w1" None "t1" 900 a_queued.
Definition a_timeouts : Timeouts := mkTimeouts 300 360 1800.
Definition late : datetime := 1000 + seconds 301.
Definition an_observation : Observation :=
  mkObservation 1 (Some "t1") 1 1000 None (late - seconds 300).
Definition a_stalled : BackgroundJob := @stalled plain late 300 None a_running.
Definition no_options : ClaimOptions := mkClaim None [] [].
Definition any_queue : list Queue.QueueClaimGroup := [Queue.mkGroup [] None].

Lemma a_queued_ok : row_ok a_queued.
Proof. apply new_job_ok. vm_compute. discriminate. Qed.
Lemma a_running_ok : row_ok a_running.
Proof. apply claimed_ok; [apply a_queued_ok|]. cbn. set_solver. Qed.
Lemma a_stalled_ok : row_ok a_stalled.
Proof. apply stalled_ok; [apply a_running_ok|done]. Qed.
Lemma a_queued_inv : inv (one_job a_queued).
Proof. apply (inv_single _ a_queued); [done|apply a_queued_ok]. Qed.
Lemma a_running_inv : inv (one_job a_running).
Proof. apply (inv_single _ a_running); [done|apply a_running_ok]. Qed.
Lemma a_stalled_inv : inv (one_job a_stalled).
Proof. apply (inv_single _ a_stalled); [done|apply a_stalled_ok]. Qed.

Lemma queue_invariant_witness :
  rtc (queue_step (Coll:=plain)) (one_job a_queued) (one_job a_running) /\
  inv (one_job a_running).
Proof.
  assert (rtc (queue_step (Coll:=plain)) (one_job a_queued) (one_job a_running)) as H.
  { apply rtc_once.
    apply (step_claim (fun _ => false) 1000 1000 "t1" "w1" None 900 any_queue no_options
             _ (Ok (Some a_running))). vm_compute. reflexivity. }
  split; [exact H|].
  exact (queue_invariant (Coll:=plain) (Roll:=plain_rollups) _ _ a_queued_inv H).
Defined.


Definition a_finished : BackgroundJob := @finish_values plain 2000 a_running COMPLETED None a_running.
Lemma a_finished_inv : inv (one_job a_finished).
Proof. apply (inv_single _ a_finished); [done|]. apply finish_values_ok; [apply a_running_ok|done]. Qed.
Definition a_cancelled_late : BackgroundJob := Job.set_requested_cancel true a_finished.

(** A cancellation that arrives after the completion changes nothing but the flag. *)
Lemma finished_jobs_stay_finished_witness :
  exists j', Db.jobs (one_job a_cancelled_late) !! 1 = Some j' /\ terminal (Job.status j') = true.
Proof.
  apply (finished_jobs_stay_finished (Coll:=plain) (Roll:=plain_rollups)
           (one_job a_finished) (one_job a_cancelled_late) 1 a_finished a_finished_inv).
  - apply rtc_once. apply (step_cancel 3000 1 _ (Ok a_cancelled_late)). vm_compute. reflexivity.
  - vm_compute. reflexivity.
  - vm_compute. reflexivity.
Defined.

Lemma stale_holder_is_fenced_witness :
  exists msg s', run_op (Coll:=plain) 2000 (Complete None) (Some "t0")
    (mkSession (one_job a_running) (Job.set_execution_token (Some "t0") a_running))
    = (raise "JobLeaseLost" msg, s') /\ sdb s' = one_job a_running.
Proof.
  apply (stale_holder_is_fenced (Coll:=plain) 2000 "t0"
    (mkSession (one_job a_running) (Job.set_execution_token (Some "t0") a_running))).
  intros row E. vm_compute in E. injection E as <-. vm_compute. discriminate.
Defined.

Lemma claim_next_job_correct_witness :
  exists before g after old,
    any_queue = before ++ g :: after /\
    Job.status old ∈ [QUEUED; RECOVERING] /\
    a_running = @claimed plain 1000 "w1" None "t1" 900 old.
Proof.
  destruct (claim_next_job_correct (Coll:=plain) (fun _ => false) 1000 1000 "t1" "w1" None 900
    any_queue no_options (one_job a_queued) (Some a_running) (one_job a_running)
    a_queued_inv ltac:(vm_compute; reflexivity))
    as (_ & before & g & after & old & Hg & _ & _ & _ & Hst & _ & _ & Hj & _).
  exists before, g, after, old. exact (conj Hg (conj Hst Hj)).
Defined.




Lemma watchdog_keeps_healthy_witness :
  exists r db', fence_stalled_jobs (H:=plain) (fun _ => false) Normal a_timeouts 2000 None None
      (one_job a_running) = (r, db') /\ Db.jobs db' !! 1 = Some a_running.
Proof.
  destruct (fence_stalled_jobs (H:=plain) (fun _ => false) Normal a_timeouts 2000 None None
      (one_job a_running)) as [r db'] eqn:E.
  exists r, db'. split; [reflexivity|].
  apply (watchdog_keeps_healthy (Coll:=plain) (fun _ => false) Normal a_timeouts 2000 None None
    (one_job a_running) 1 a_running 1000 300 r db' a_running_inv); try reflexivity; [|exact E].
  vm_compute. discriminate.
Defined.

Lemma watchdog_race_safe_witness :
  fence_observed (H:=plain) (fun _ => false) Normal a_timeouts late None None
    (mkObservation 1 (Some "t0") 1 1000 None late) (one_job a_running)
  = (Ok None, one_job a_running).
Proof.
  apply (watchdog_race_safe (Coll:=plain)). intros job E. vm_compute in E. injection E as <-.
  right. left. vm_compute. discriminate.
Defined.

Lemma recovery_never_revives_cancelled_witness :
  exists db', requeue_stalled_jobs (H:=plain) (fun _ => false) Normal None late None
      (one_job (Job.set_requested_cancel true a_stalled)) = (Ok 0, db') /\
    (Db.jobs db' !! 1 = Some (Job.set_requested_cancel true a_stalled) \/
     exists j', Db.jobs db' !! 1 = Some j' /\ Job.status j' = CANCELLED).
Proof.
  destruct (requeue_stalled_jobs (H:=plain) (fun _ => false) Normal None late None
      (one_job (Job.set_requested_cancel true a_stalled))) as [r db'] eqn:E.
  exists db'. split; [f_equal; vm_compute in E; congruence|].
  apply (recovery_never_revives_cancelled (Coll:=plain) 1 (Job.set_requested_cancel true a_stalled)
    eq_refl (one_job (Job.set_requested_cancel true a_stalled)) db');
    [|reflexivity|apply rtc_once; apply (recover_requeue _ _ _ _ _ _ _ _ E)].
  apply (inv_single _ (Job.set_requested_cancel true a_stalled)); [reflexivity|].
  apply set_cancel_ok, a_stalled_ok.
Defined.

Definition a_start : datetime := mk_date 2025 1 9 * us_per_day.

Lemma attempt_roundtrip_witness :
  dget (_with_attempt_finished (_with_attempt_started [] a_queued a_start) (a_start + 1500) "COMPLETED")
    "current_attempt" = VNone.
Proof.
  exact (proj1 (attempt_roundtrip [] a_queued a_start (a_start + 1500) "COMPLETED"
    ltac:(vm_compute; split; discriminate))).
Defined.

Definition a_checkpoint : Progress :=
  mkProgress "SCORING_TECHNICALS" None None (Some 3) (Some 10) "job-progress-v1" false [] None.

Lemma progress_checkpoint_witness :
  exists db' row, record_job_progress 3000 1 "t1" a_checkpoint (one_job a_running)
      = (Ok tt, db') /\
    Db.jobs (one_job a_running) !! 1 = Some row /\ holds row "t1" = true.
Proof.
  destruct (record_job_progress 3000 1 "t1" a_checkpoint (one_job a_running))
    as [r db'] eqn:E.
  assert (r = Ok tt) as -> by (vm_compute in E; congruence).
  destruct (progress_checkpoint 3000 1 "t1" a_checkpoint (one_job a_running) db'
    a_running_inv E) as (row & Hrow & Hh & _).
  exists db', row. exact (conj eq_refl (conj Hrow Hh)).
Defined.

Lemma watchdog_fences_witness :
  exists db' job row, fence_observed (H:=plain) (fun _ => false) Normal a_timeouts late None None
      an_observation (one_job a_running) = (Ok (Some 1), db') /\
    Db.jobs (one_job a_running) !! 1 = Some job /\ Job.status job = RUNNING /\
    Job.status row = STALLED /\ unowned row.
Proof.
  destruct (fence_observed (H:=plain) (fun _ => false) Normal a_timeouts late None None
      an_observation (one_job a_running)) as [r db'] eqn:E.
  assert (r = Ok (Some 1)) as -> by (vm_compute in E; congruence).
  destruct (watchdog_fences (Coll:=plain) (fun _ => false) Normal a_timeouts late None None
    an_observation (one_job a_running) 1 db' a_running_inv E)
    as (job & row & _ & Hj & Hs & _ & _ & _ & _ & Hs' & Hu & _).
  exists db', job, row. exact (conj eq_refl (conj Hj (conj Hs (conj Hs' Hu)))).
Defined.

Lemma requeue_is_bounded_witness :
  exists db' row, requeue_one (H:=plain) late 3 0 a_stalled (one_job a_stalled) = (Ok 1, db') /\
    Db.jobs db' = <[1 := row]> (Db.jobs (one_job a_stalled)) /\ Job.status row = RECOVERING.
Proof.
  destruct (requeue_one (H:=plain) late 3 0 a_stalled (one_job a_stalled)) as [r db'] eqn:E.
  assert (r = Ok 1) as -> by (vm_compute in E; congruence).
  destruct (requeue_is_bounded (Coll:=plain) late 3 0 a_stalled (one_job a_stalled) 1 db'
    a_stalled_inv eq_refl eq_refl eq_refl E) as (row & Hrow & H).
  exists db', row. vm_compute in H. exact (conj eq_refl (conj Hrow (proj1 H))).
Defined.

(** ** A stalled job and a new job with the same request key

    STALLED is not one of the active statuses, neither in the look-ups of an
    enqueue nor in the unique index. *)

(** While a job waits as STALLED for its recovery, an enqueue of the same
    request creates a second job instead of coalescing; the recovery of the
    stalled job then fails on the unique index of active request keys, and the
    job stays STALLED. *)
Theorem stalled_request_is_duplicated :
  exists second db1 db2 msg,
    enqueue_job (H:=plain) late an_enqueue (one_job a_stalled) = (Ok (second, false), db1) /\
    Job.id second <> Job.id a_stalled /\ Job.request_key second = Job.request_key a_stalled /\
    requeue_stalled_jobs (H:=plain) (fun _ => false) Normal None late None db1
      = (raise "IntegrityError" msg, db2) /\
    Db.jobs db2 !! 1 = Some a_stalled.
Proof.
  eexists _, _, _, _. split; [vm_compute; reflexivity|].
  split; [vm_compute; discriminate|]. split; [vm_compute; reflexivity|].
  split; vm_compute; reflexivity.
Qed.
