(* ===== verification/DependencyExamples.v ===== *)
(** * A dependency from its preparation to the continuation, and stores that need an audit

    Concrete runs of the theorems on pipeline dependencies, the audit and cancellation. *)
From Stdlib Require Import ZArith Lia List String Ascii Bool.
From stdpp Require Import base gmap list strings relations.
From S2P Require Import Prelude PyDate PyFloat PyValue Tables Queues.
From S2P Require Import PipelineStates JobRows JobLease JobQueue PipelineDependencies DependencyFacts.
From S2P Require Import PipelineAudit JobExamples.
Local Open Scope string_scope.
Local Open Scope list_scope.
Local Open Scope Z_scope.

#[local] Existing Instance plain.
#[local] Instance plain_dependencies : DependencyCollaborators := {
  pipeline_context_payload := fun _ _ => Ok [];
  enqueue_causality := fun _ parent => (parent, parent);
}.

Definition bound_pipeline (status : string) : PipelineRun :=
  Pipeline.mk 7 3 status (Some "ACTIVE") None None None None None None None
    (Some [("pipeline_root_job_id", VInt 1)]) (Some "s") (Some "r") (Some "p").
Definition pipeline_job (id : Z) (dependency : option Z) (status : JobStatus) : BackgroundJob :=
  Job.set_status status
    (new_job id 0 (mkEnqueue "FULL_PIPELINE" [] None 100 3 None (Some (str_of_Z id)) None true false
       None dependency None None) [("pipeline_run_id", VInt 7)]).
Definition a_step (status : string) : PipelineStep :=
  Step.mk 1 7 "sec" 1 status None None None None 0 None.
Definition a_dependency (state : string) (child : option Z) : PipelineDependency :=
  Dependency.mk 1 7 "SEC_READINESS" "key" state ["AAPL"] "sec" "identity" 1 child None None None None 0 0 None.
Definition pipeline_store (jobs : list BackgroundJob) (p : PipelineRun) (steps : list PipelineStep)
    (deps : list PipelineDependency) : Db.Db :=
  Db.mk (list_to_map (map (fun j => (Job.id j, j)) jobs)) ∅ {[7 := p]} steps
    (list_to_map (map (fun d => (Dependency.id d, d)) deps)) [] [].

(** The run: the wait is recorded, the child enqueued and completed, the continuation queued. *)
Definition store0 : Db.Db :=
  pipeline_store [pipeline_job 1 None RUNNING] (bound_pipeline "RUNNING") [a_step "RUNNING"] [].
Definition diagnostics : dict :=
  [("readiness", VDict [("blocking_tickers", VList [VStr " aapl"]); ("requested_tickers", VInt 4)])].
Definition store1 : Db.Db :=
  (prepare_sec_readiness_dependency 10 (Some 1) (bound_pipeline "RUNNING") diagnostics "sec" store0).2.
Definition store2 : Db.Db := (enqueue_sec_readiness_dependency 20 1 store1).2.
Definition store3 : Db.Db :=
  match Db.jobs store2 !! 2 with
  | Some child => Db.set_jobs (<[2 := Job.set_status COMPLETED child]> (Db.jobs store2)) store2
  | None => store2
  end.
Definition store4 : Db.Db := (reconcile_pipeline_job 30 2 store3).2.

Lemma deps_ok_empty : deps_ok (Db.dependencies store0).
Proof. split; intros; done. Qed.


Example story_ends :
  (prepare_sec_readiness_dependency 10 (Some 1) (bound_pipeline "RUNNING") diagnostics "sec" store0).1
    = Ok (match Db.dependencies store1 !! 1 with Some d => d | None => a_dependency "" None end) /\
  (fun d => (Dependency.state d, Dependency.child_job_id d, Dependency.continuation_job_id d))
     <$> Db.dependencies store4 !! 1 = Some ("COMPLETED", Some 2, Some 3) /\
  Pipeline.status <$> Db.pipelines store4 !! 7 = Some "QUEUED" /\
  Job.status <$> Db.jobs store4 !! 3 = Some QUEUED.
Proof. vm_compute. done. Qed.


(** The dependency as the enqueue left it. *)
Definition enqueued_dependency : PipelineDependency :=
  match Db.dependencies store2 !! 1 with Some d => d | None => a_dependency "" None end.

Lemma store2_ok : deps_ok (Db.dependencies store2).
Proof.
  assert (rtc dependency_step store0 store2) as H.
  { eapply rtc_l; [apply (Prepare_sec 10 (Some 1) (bound_pipeline "RUNNING") diagnostics "sec"
      (prepare_sec_readiness_dependency 10 (Some 1) (bound_pipeline "RUNNING") diagnostics "sec" store0).1
      store0 store1); by apply surjective_pairing|].
    apply rtc_once, (Enqueue_sec 20 1 (enqueue_sec_readiness_dependency 20 1 store1).1 store1 store2).
    by apply surjective_pairing. }
  apply (dependency_run_moves _ _ H deps_ok_empty).
Qed.

Lemma dependency_links_write_once_witness :
  exists e, Db.dependencies store4 !! 1 = Some e /\ Dependency.child_job_id e = Some 2.
Proof.
  assert (H : rtc dependency_step store2 store4).
  { eapply rtc_l; [apply (Elsewhere store2 store3); vm_compute; reflexivity|].
    apply rtc_once. apply (Reconcile_job 30 2 (reconcile_pipeline_job 30 2 store3).1 store3 store4).
    apply surjective_pairing. }
  assert (Hd : Db.dependencies store2 !! 1 = Some enqueued_dependency) by (vm_compute; reflexivity).
  destruct (dependency_links_write_once store2 store4 1 enqueued_dependency store2_ok H Hd) as (e & He & Hf).
  exists e. split; [exact He|].
  rewrite (fwd_child _ _ Hf ltac:(vm_compute; reflexivity) ltac:(vm_compute; eexists; reflexivity)).
  vm_compute. reflexivity.
Defined.

Lemma one_pipeline_keyed jobs p steps deps :
  Pipeline.id p = 7 -> forall k q, Db.pipelines (pipeline_store jobs p steps deps) !! k = Some q -> Pipeline.id q = k.
Proof. intros Hp k q. simpl. by intros [<- <-]%lookup_singleton_Some. Qed.

Definition the_child : BackgroundJob :=
  match (enqueue_sec_readiness_dependency 20 1 store1).1 with Ok (Some c) => c | _ => pipeline_job 0 None QUEUED end.

Lemma store1_pipelines k q : Db.pipelines store1 !! k = Some q -> Pipeline.id q = k.
Proof.
  assert (Db.pipelines store1 = {[7 := match Db.pipelines store1 !! 7 with Some p => p | None => bound_pipeline "" end]})
    as -> by (vm_compute; reflexivity).
  intros [<- <-]%lookup_singleton_Some. vm_compute. reflexivity.
Qed.
Lemma store1_dependencies k d : Db.dependencies store1 !! k = Some d -> Dependency.id d = k.
Proof.
  assert (Db.dependencies store1 = {[1 := match Db.dependencies store1 !! 1 with Some d => d | None => a_dependency "" None end]})
    as -> by (vm_compute; reflexivity).
  intros [<- <-]%lookup_singleton_Some. vm_compute. reflexivity.
Qed.

Lemma child_enqueued_once_witness :
  enqueue_sec_readiness_dependency 20 1 store1 = (Ok (Some the_child), store2) /\
  exists c, enqueue_sec_readiness_dependency 99 1 store2 = (Ok (Some c), store2) /\ Job.id c = Job.id the_child.
Proof.
  assert (H : enqueue_sec_readiness_dependency 20 1 store1 = (Ok (Some the_child), store2)) by (vm_compute; reflexivity).
  split; [exact H|].
  exact (child_enqueued_once 20 99 store1 1 the_child store2 store1_dependencies store1_pipelines H).
Defined.

(** A pipeline whose cancellation was requested before the child was enqueued. *)
Definition cancelling_store : Db.Db :=
  pipeline_store [] (bound_pipeline "CANCEL_REQUESTED") [] [a_dependency "PENDING_ENQUEUE" None].

Lemma cancelled_pipeline_keeps_dependency_witness :
  enqueue_sec_readiness_dependency 20 1 cancelling_store = (Ok None, cancelling_store) /\
  Dependency.state <$> Db.dependencies cancelling_store !! 1 = Some "PENDING_ENQUEUE".
Proof.
  split; [|vm_compute; reflexivity].
  apply (cancelled_pipeline_keeps_dependency 20 cancelling_store 1 (a_dependency "PENDING_ENQUEUE" None)
           (bound_pipeline "CANCEL_REQUESTED")); [vm_compute; reflexivity|vm_compute; reflexivity|].
  right. reflexivity.
Defined.

(** A root that completed while its pipeline was still running. *)
Definition lost_root : BackgroundJob := pipeline_job 1 None COMPLETED.
Definition lost_store : Db.Db := pipeline_store [lost_root] (bound_pipeline "RUNNING") [] [].

Lemma root_completion_fails_closed_witness :
  exists db', _reconcile_pipeline_root_job 40 lost_root lost_store = (Ok tt, db') /\
    Pipeline.status <$> Db.pipelines db' !! 7 = Some "FAILED".
Proof.
  assert (Hid : int_or_zero (dget (Job.payload_json lost_root) "pipeline_run_id") = Ok 7) by (vm_compute; reflexivity).
  assert (Hp : Db.pipelines lost_store !! 7 = Some (bound_pipeline "RUNNING")) by (vm_compute; reflexivity).
  assert (Hsc : in_scope (bound_pipeline "RUNNING") = true) by (vm_compute; reflexivity).
  destruct (root_completion_fails_closed 40 lost_root lost_store 7 (bound_pipeline "RUNNING") Hid
    ltac:(discriminate) Hp eq_refl Hsc eq_refl eq_refl) as (db' & Hrun & _).
  exists db'. split; [exact Hrun|].
  assert (E : db' = (_reconcile_pipeline_root_job 40 lost_root lost_store).2) by (rewrite Hrun; reflexivity).
  rewrite E. vm_compute. reflexivity.
Defined.

(** Two active roots. *)
Definition twin_store : Db.Db :=
  pipeline_store [pipeline_job 1 None QUEUED; pipeline_job 2 None RUNNING] (bound_pipeline "RUNNING") [] [].
Definition twin_findings : list PipelineInvariantFinding :=
  match inspect_pipeline_invariants 50 twin_store with Ok fs => fs | Raise _ => [] end.

Lemma duplicate_roots_reported_witness :
  exists f, In f twin_findings /\ f_disposition f = FATAL_STARTUP_INVARIANT /\ f_detail f = "1,2".
Proof.
  assert (H : inspect_pipeline_invariants 50 twin_store = Ok twin_findings) by (vm_compute; reflexivity).
  destruct (duplicate_roots_reported 50 twin_store twin_findings 7 H) as [[_ H2] H3].
  assert (Hlen : (2 <= length (roots_of twin_store 7))%nat) by (vm_compute; reflexivity).
  destruct (H2 Hlen) as (f & Hf & Hc & Hk). destruct (H3 f Hf Hc Hk) as [Hd Ht].
  exists f. split; [exact Hf|]. split; [exact Hd|]. rewrite Ht. vm_compute. reflexivity.
Defined.

(** A pipeline cancelled while its continuation was in recovery and a step was running. *)
Definition recovering_store : Db.Db :=
  pipeline_store [pipeline_job 1 None COMPLETED; pipeline_job 2 (Some 1) RECOVERING] (bound_pipeline "QUEUED")
    [a_step "RUNNING"] [a_dependency "COMPLETED" (Some 9)].

Lemma recovering_deps_ok : deps_ok (Db.dependencies recovering_store).
Proof.
  assert (Db.dependencies recovering_store = {[1 := a_dependency "COMPLETED" (Some 9)]}) as -> by (vm_compute; reflexivity).
  split.
  - by intros i d [<- <-]%lookup_singleton_Some.
  - intros i d [<- <-]%lookup_singleton_Some. split; cbn; [done|done|]. by intros _ [].
  - by intros i j d e [<- <-]%lookup_singleton_Some [<- <-]%lookup_singleton_Some.
Qed.

Lemma cancellation_overlooks_recovery_witness :
  exists q db', cancel_pipeline 60 (fun _ => false) 7 recovering_store = (Ok q, db') /\
    Pipeline.status q = "CANCELLED" /\ Job.status <$> Db.jobs db' !! 2 = Some RECOVERING /\
    In (a_step "RUNNING") (Db.steps db').
Proof.
  assert (Hp : Db.pipelines recovering_store !! 7 = Some (bound_pipeline "QUEUED")) by (vm_compute; reflexivity).
  assert (Hn : _active_pipeline_control_job_ids recovering_store 7 = []) by (vm_compute; reflexivity).
  destruct (cancellation_overlooks_recovery 60 recovering_store 7 (bound_pipeline "QUEUED") recovering_deps_ok
    Hp eq_refl eq_refl Hn) as (q & db' & Hrun & _ & Hst & Hjobs & Hsteps).
  exists q, db'. split; [exact Hrun|]. split; [exact Hst|]. split; [rewrite Hjobs; vm_compute; reflexivity|].
  apply Hsteps; [vm_compute; left; reflexivity|reflexivity].
Defined.

(** The audit of the cancelled store: fatal, and not counted. *)
Definition cancelled_store : Db.Db := (cancel_pipeline 60 (fun _ => false) 7 recovering_store).2.
Definition cancelled_findings : list PipelineInvariantFinding :=
  match inspect_pipeline_invariants 70 cancelled_store with Ok fs => fs | Raise _ => [] end.

Example cancelled_counts :
  map f_code cancelled_findings =
    ["COMPLETED_DEPENDENCY_REQUIRES_CONTINUATION"; "TERMINAL_PIPELINE_WITH_LIVE_CONTINUATION";
     "PIPELINE_STEP_STATE_INCOMPATIBLE"] /\
  map snd (invariant_counts cancelled_findings) = [0; 0; 0].
Proof. vm_compute. done. Qed.

Lemma cancelled_keyed k p : Db.pipelines cancelled_store !! k = Some p -> Pipeline.id p = k.
Proof.
  assert (Db.pipelines cancelled_store = {[7 := match Db.pipelines cancelled_store !! 7 with Some p => p | None => bound_pipeline "" end]})
    as -> by (vm_compute; reflexivity).
  intros [<- <-]%lookup_singleton_Some. vm_compute. reflexivity.
Qed.

Lemma finished_findings_are_historical_witness :
  exists f, In f cancelled_findings /\ f_code f = "TERMINAL_PIPELINE_WITH_LIVE_CONTINUATION" /\
    f_disposition f = FATAL_STARTUP_INVARIANT /\ operational_actionable f = false.
Proof.
  assert (H : inspect_pipeline_invariants 70 cancelled_store = Ok cancelled_findings) by (vm_compute; reflexivity).
  set (f := nth 1 cancelled_findings (finding "" SAFE_AUTO_RECONCILE None None None "")).
  assert (Hf : In f cancelled_findings) by (vm_compute; right; left; reflexivity).
  assert (Hc : f_code f = "TERMINAL_PIPELINE_WITH_LIVE_CONTINUATION") by (vm_compute; reflexivity).
  exists f. split; [exact Hf|]. split; [exact Hc|]. split; [vm_compute; reflexivity|].
  apply (finished_findings_are_historical 70 cancelled_store cancelled_findings f cancelled_keyed H Hf).
  rewrite Hc. left. reflexivity.
Defined.
