(* ===== verification/SignalChanges.v ===== *)
(** * Signal changes: [setup_lifecycle/signal_registry.py] and
    [setup_lifecycle/change_detector.py]

    The registry of signal definitions with its parser, and the detector that compares two
    snapshots of a ticker: which signals changed, by how much, whether that is material and how
    severe.  The columns of a snapshot that are no signals are looked up by name.  The texts of
    numbers are the class [ChangeText]; the texts NaN and Infinity, which [Decimal] also
    accepts, are no numbers here.

    [detect_and_persist] runs against the snapshots, the canonical selection and the ledger of
    change events.  A writer recomputes the event natively before it stores it, and a retry of
    an event that is in the ledger has to repeat its body.  The proofs that pin an event to the
    retained source evidence, progress callbacks and cancellation are not modelled. *)
From Stdlib Require Import ZArith Lia List String Ascii Bool QArith Qabs Qround.
From stdpp Require Import base list strings.
From S2P Require Import Prelude PyDate PyFloat PyValue Calendar Canonical PyDecimal PriceBars Signals.
From S2P Require Import ScoreWarnings CombinedDecision RankingRules SemanticAuthority.
Local Open Scope string_scope.
Local Open Scope list_scope.
Local Open Scope Z_scope.

Class ChangeText := {
  (** [str(d)] and [format(x, 'g')]. *)
  decimal_str : decimal -> string;
  general_text : float -> string;
}.

Module Changes.

(** ** Decimals from texts *)

Fixpoint without_underscores (s : string) : string :=
  match s with
  | EmptyString => EmptyString
  | String c s => if Ascii.eqb c "_" then without_underscores s else String c (without_underscores s)
  end.
Definition unsigned_decimal (s : string) : option decimal :=
  let '(whole, k1, rest) := scan_digits 0 0 s in
  let '(c, k2, rest) := match rest with
                        | String "." rest => scan_digits whole 0 rest
                        | _ => (whole, 0, rest)
                        end in
  if 0 <? k1 + k2 then (fun e => Dec c (e - k2)) <$> parse_exponent rest else None.
Definition dneg (d : decimal) : decimal := Dec (- coef d) (dexp d).
(** [Decimal(s)]. *)
Definition decimal_of_text (s : string) : option decimal :=
  match without_underscores (strip s) with
  | String "-" s => dneg <$> unsigned_decimal s
  | String "+" s => unsigned_decimal s
  | s => unsigned_decimal s
  end.
Definition dabs (d : decimal) : decimal := context_round (Qabs (dval d)).
Definition dzero : decimal := Dec 0 0.

(** ** [enums.py] *)

Inductive SignalValueType := FLOAT | PERCENTAGE | INTEGER_RANK | BOOLEAN | ENUM | SET | DATE | NULLABILITY.
Inductive SignalCategory := SETUP | SCORE | TREND | VOLATILITY_VOLUME | LEADERSHIP | MARKET | RISK | DATA_QUALITY.
Inductive EventSeverity := SEVERITY_INFO | SEVERITY_NOTABLE | SEVERITY_ACTIONABLE | SEVERITY_RISK.
#[export] Instance value_type_dec : EqDecision SignalValueType.
Proof. solve_decision. Defined.
#[export] Instance category_dec : EqDecision SignalCategory.
Proof. solve_decision. Defined.
#[export] Instance severity_dec : EqDecision EventSeverity.
Proof. solve_decision. Defined.

Definition value_types : list (string * SignalValueType) :=
  [("float", FLOAT); ("percentage", PERCENTAGE); ("integer_rank", INTEGER_RANK); ("boolean", BOOLEAN);
   ("enum", ENUM); ("set", SET); ("date", DATE); ("nullability", NULLABILITY)].
Definition value_type_name (t : SignalValueType) : string :=
  match t with
  | FLOAT => "FLOAT" | PERCENTAGE => "PERCENTAGE" | INTEGER_RANK => "INTEGER_RANK" | BOOLEAN => "BOOLEAN"
  | ENUM => "ENUM" | SET => "SET" | DATE => "DATE" | NULLABILITY => "NULLABILITY"
  end.
Definition categories : list (string * SignalCategory) :=
  [("SETUP", SETUP); ("SCORE", SCORE); ("TREND", TREND); ("VOLATILITY_VOLUME", VOLATILITY_VOLUME);
   ("LEADERSHIP", LEADERSHIP); ("MARKET", MARKET); ("RISK", RISK); ("DATA_QUALITY", DATA_QUALITY)].

(** ** [signal_registry.py] *)

Definition SUPPORTED_SIGNAL_DIRECTIONS : list string :=
  ["higher_is_better"; "lower_is_better"; "lower_is_better_until_trigger"; "lower_rank_is_better";
   "true_is_better"; "false_is_better"; "classification_order"; "quality_order"; "risk_increase";
   "risk_decrease"; "neutral"].
Definition SUPPORTED_MISSING_VALUE_POLICIES : list string := ["ignore"; "warn"; "block"; "insufficient"].

Definition SignalRegistryError {A} (msg : string) : result A := raise "SignalRegistryError" msg.
Definition refuse (cond : bool) (msg : string) : result unit := if cond then SignalRegistryError msg else Ok tt.

Record SignalDefinition := mkSignalDefinition {
  key : string;
  source : string;
  value_type : SignalValueType;
  category : SignalCategory;
  direction : string;
  unit_text : option string;
  absolute_change : option float;
  percentage_change : option float;
  percentile_change : option float;
  rank_change : option float;
  crossings : list float;
  velocity_windows : list Z;
  material_on_change : bool;
  missing_value_policy : string;
  trigger_authority : option string;
  diagnostic_only : bool;
}.

Definition is_authority (d : SignalDefinition) (authority : string) : bool :=
  match trigger_authority d with Some a => String.eqb a authority | None => false end.
Definition is_close_authoritative_trigger (d : SignalDefinition) : bool :=
  is_authority d "close" && negb (diagnostic_only d).
Definition is_diagnostic_high_cross (d : SignalDefinition) : bool :=
  is_authority d "diagnostic_high" && diagnostic_only d.

(** The value of a signal as [_coerce_value] leaves it; the members of a set are in order. *)
Inductive signal :=
  | SNone
  | SDec (d : decimal)
  | SInt (n : Z)
  | SBool (b : bool)
  | SSet (members : list string)
  | SDate (d : date)
  | SText (s : string).
Definition is_missing (v : signal) : bool := match v with SNone => true | _ => false end.

(** [delta] or [-delta]. *)
Definition oriented (direction : string) (delta : float) : float :=
  if smem direction ["lower_is_better"; "lower_is_better_until_trigger"; "risk_decrease"] then fopp delta else delta.
Definition bool_number (b : bool) : float := if b then f1 else f0.
Definition _boolean_delta (old_value new_value : signal) (direction : string) : option float :=
  match old_value, new_value with
  | SBool o, SBool n =>
      let delta := fsub (bool_number n) (bool_number o) in
      Some (if String.eqb direction "false_is_better" then fopp delta else delta)
  | _, _ => None
  end.
Definition float_of (d : decimal) : float := float_of_decimal (coef d) (dexp d).
Definition normalized_delta (d : SignalDefinition) (old_value new_value : signal) : option float :=
  match value_type d with
  | INTEGER_RANK =>
      match old_value, new_value with
      | SInt o, SInt n => Some (fsub (float_of_Z o) (float_of_Z n))
      | _, _ => None
      end
  | FLOAT | PERCENTAGE =>
      match old_value, new_value with
      | SDec o, SDec n => Some (oriented (direction d) (float_of (dsub n o)))
      | _, _ => None
      end
  | BOOLEAN => _boolean_delta old_value new_value (direction d)
  | DATE =>
      match old_value, new_value with
      | SDate o, SDate n => Some (float_of_Z (n - o))
      | _, _ => None
      end
  | _ => None
  end.

Section Registry.
Context `{Text : PyText}.

Definition _enum_value {A} (value : pyval) (members : list (string * A)) (field_name : string) : result A :=
  match dict_find (py_str value) members with
  | Some x => Ok x
  | None => SignalRegistryError (field_name ++ " is not supported")
  end.
Definition _required_text (raw : dict) (key field_name : string) : result string :=
  match dget raw key with
  | VStr s => if String.eqb (strip s) "" then SignalRegistryError (field_name ++ " is required") else Ok (strip s)
  | _ => SignalRegistryError (field_name ++ " is required")
  end.
Definition _optional_text (value : pyval) : option string :=
  match value with
  | VNone => None
  | value => let text := strip (py_str value) in if String.eqb text "" then None else Some text
  end.
Definition _number (value : pyval) (field_name : string) : result float :=
  match py_float value with
  | Some x => Ok x
  | None => SignalRegistryError (field_name ++ " must be numeric")
  end.
Definition _optional_number (value : pyval) (field_name : string) : result (option float) :=
  match value with VNone => Ok None | value => x ← _number value field_name; Ok (Some x) end.

(** [for value in v]. *)
Fixpoint characters (s : string) : list pyval :=
  match s with EmptyString => [] | String c s => VStr (String c EmptyString) :: characters s end.
Definition iterate (v : pyval) : result (list pyval) :=
  match v with
  | VList l => Ok l
  | VStr s => Ok (characters s)
  | VDict d => Ok (map (fun kv => VStr kv.1) d)
  | _ => raise "TypeError" "object is not iterable"
  end.

Definition trigger_of (value : pyval) (path : string) : result (option string) :=
  match value with
  | VNone => Ok None
  | VStr s => if smem s ["close"; "diagnostic_high"] then Ok (Some s)
              else SignalRegistryError (path ++ ".trigger_authority is not supported")
  | VList _ | VDict _ => raise "TypeError" "unhashable type"
  | _ => SignalRegistryError (path ++ ".trigger_authority is not supported")
  end.
Definition boolean_of (value : pyval) (field_name : string) : result bool :=
  match value with VBool b => Ok b | _ => SignalRegistryError (field_name ++ " must be boolean") end.
(** [tuple(sorted(set(xs))) == xs]. *)
Fixpoint increasing (xs : list Z) : bool :=
  match xs with
  | x :: (y :: _) as rest => (x <? y) && increasing rest
  | _ => true
  end.
Definition window_of (value : pyval) (field_name : string) : result Z :=
  x ← _number value field_name; int_of_float x.

Definition _parse_signal_definition (key : string) (raw : pyval) : result SignalDefinition :=
  let path := ("signals." ++ key)%string in
  match raw with
  | VDict raw =>
      source ← _required_text raw "source" (path ++ ".source");
      value_type ← _enum_value (dget raw "type") value_types (path ++ ".type");
      category ← _enum_value (dget raw "category") categories (path ++ ".category");
      direction ← _required_text raw "direction" (path ++ ".direction");
      _ ← refuse (negb (smem direction SUPPORTED_SIGNAL_DIRECTIONS)) (path ++ ".direction is not supported");
      let missing_policy := strip (py_str (get_or raw "missing_value_policy" (VStr "ignore"))) in
      _ ← refuse (negb (smem missing_policy SUPPORTED_MISSING_VALUE_POLICIES))
            (path ++ ".missing_value_policy is not supported");
      trigger_authority ← trigger_of (dget raw "trigger_authority") path;
      diagnostic_only ← boolean_of (get_or raw "diagnostic_only" (VBool false)) (path ++ ".diagnostic_only");
      windows ← iterate (get_or raw "velocity_windows" (VList []));
      velocity_windows ← map_result (fun v => window_of v (path ++ ".velocity_windows")) windows;
      _ ← refuse (existsb (fun w => w <=? 0) velocity_windows) (path ++ ".velocity_windows values must be positive");
      _ ← refuse (negb (increasing velocity_windows)) (path ++ ".velocity_windows must be unique and ascending");
      raw_crossings ← iterate (get_or raw "crossings" (VList []));
      crossings ← map_result (fun v => _number v (path ++ ".crossings")) raw_crossings;
      material_on_change ← boolean_of (get_or raw "material_on_change" (VBool false)) (path ++ ".material_on_change");
      absolute_change ← _optional_number (dget raw "absolute_change") (path ++ ".absolute_change");
      percentage_change ← _optional_number (dget raw "percentage_change") (path ++ ".percentage_change");
      percentile_change ← _optional_number (dget raw "percentile_change") (path ++ ".percentile_change");
      rank_change ← _optional_number (dget raw "rank_change") (path ++ ".rank_change");
      Ok (mkSignalDefinition key source value_type category direction (_optional_text (dget raw "unit"))
            absolute_change percentage_change percentile_change rank_change crossings velocity_windows
            material_on_change missing_policy trigger_authority diagnostic_only)
  | _ => SignalRegistryError (path ++ " must be a mapping")
  end.

Definition _validate_trigger_separation (definitions : list SignalDefinition) : result unit :=
  let high_diagnostics := List.filter is_diagnostic_high_cross definitions in
  _ ← refuse (negb (existsb is_close_authoritative_trigger definitions))
        "at least one close-authoritative trigger signal is required";
  _ ← refuse (negb (nonempty high_diagnostics)) "at least one diagnostic high-cross signal is required";
  refuse (negb (forallb diagnostic_only high_diagnostics)) "diagnostic_high triggers must be diagnostic-only".

(** The definitions of a registry, in the order of their keys. *)
Definition from_config (raw : pyval) : result (list SignalDefinition) :=
  match raw with
  | VDict (entry :: entries) =>
      definitions ← map_result (fun kv => _parse_signal_definition kv.1 kv.2)
                      (sort_by (fun a b => String.leb a.1 b.1) (entry :: entries));
      _ ← _validate_trigger_separation definitions;
      Ok definitions
  | _ => SignalRegistryError "signals must be a non-empty mapping"
  end.

End Registry.

(** ** [change_detector.py] *)

Definition QUALITY_ORDER : list (string * Z) := [("INSUFFICIENT", 0); ("LOW", 1); ("NORMAL", 2); ("HIGH", 3)].
Definition FRESHNESS_ORDER : list (string * Z) := [("STALE", 0); ("NEAR_STALE", 1); ("FRESH", 2)].

(** A column of a snapshot: a dynamic value or a date. *)
Inductive column := Value (v : pyval) | DateColumn (d : date).

Record SetupSignalSnapshot := mkSetupSignalSnapshot {
  ss_id : option Z;
  ss_ticker : string;
  ss_timeframe : string;
  ss_data_as_of_date : date;
  ss_signals_json : option dict;
  ss_config_hash : string;
  ss_calculation_context_id : option Z;
  ss_columns : list (string * column);
}.

Record DetectedSignalChange := mkDetectedSignalChange {
  dc_signal_key : string;
  dc_category : SignalCategory;
  dc_value_type : SignalValueType;
  dc_old_value : signal;
  dc_new_value : signal;
  dc_delta_numeric : option decimal;
  dc_percentage_delta : option decimal;
  dc_rank_delta : option Z;
  dc_normalized_delta : option decimal;
  dc_direction : string;
  dc_threshold_name : option string;
  dc_threshold_direction : option string;
  dc_severity : EventSeverity;
  dc_reason_codes : list string;
  dc_evidence : dict;
}.

Section Detector.
Context `{Text : PyText} `{BT : BarText} `{CT : ChangeText}.

Definition attribute (s : SetupSignalSnapshot) (name : string) : column :=
  match dict_find name (ss_columns s) with Some c => c | None => Value VNone end.
Definition signals (s : SetupSignalSnapshot) : dict := match ss_signals_json s with Some d => d | None => [] end.

(** [_decimal_or_none] of a dynamic value, and of a coerced one. *)
Definition decimal_of_value (v : pyval) : option decimal :=
  match v with
  | VDecimal c e => Some (Dec c e)
  | VInt n => Some (of_int n)
  | VFloat x => Some (decimal_of_float x)
  | VStr s => decimal_of_text s
  | _ => None
  end.
Definition _decimal_or_none (v : signal) : option decimal :=
  match v with
  | SDec d => Some d
  | SInt n => Some (of_int n)
  | SText s => decimal_of_text s
  | _ => None
  end.

Definition rank_of (v : pyval) : option Z := match to_int v with Ok n => Some n | Raise _ => None end.
Definition boolean_value (v : pyval) : signal :=
  match v with
  | VBool b => SBool b
  | VStr s =>
      let lowered := casefold (strip s) in
      if smem lowered ["true"; "1"; "yes"] then SBool true
      else if smem lowered ["false"; "0"; "no"] then SBool false else SNone
  | _ => SNone
  end.
(** [s.split(",")]. *)
Fixpoint split_commas (word s : string) : list string :=
  match s with
  | EmptyString => [word]
  | String c s => if Ascii.eqb c "," then word :: split_commas "" s else split_commas (word ++ String c EmptyString) s
  end.
Definition set_of (members : list string) : signal := SSet (sort_by String.leb (unique members)).
Definition set_value (v : pyval) : signal :=
  match v with
  | VStr s => set_of (List.filter (fun item => negb (String.eqb item "")) (map strip (split_commas "" s)))
  | VList l => set_of (map py_str l)
  | VDict d => set_of (map fst d)
  | v => set_of [py_str v]
  end.

Definition _coerce_value (c : column) (t : SignalValueType) : signal :=
  match c with
  | Value VNone => SNone
  | Value v =>
      match t with
      | FLOAT | PERCENTAGE => match decimal_of_value v with Some d => SDec d | None => SNone end
      | INTEGER_RANK => match rank_of v with Some n => SInt n | None => SNone end
      | BOOLEAN => boolean_value v
      | SET => set_value v
      | DATE => match v with
                | VStr s => match date_fromisoformat s with Some d => SDate d | None => SNone end
                | v => SText (py_str v)
                end
      | NULLABILITY => SBool true
      | ENUM => SText (py_str v)
      end
  | DateColumn d =>
      match t with
      | FLOAT | PERCENTAGE | INTEGER_RANK | BOOLEAN => SNone
      | SET => set_of [date_isoformat d]
      | DATE => SDate d
      | NULLABILITY => SBool true
      | ENUM => SText (date_isoformat d)
      end
  end.

Definition _signal_value (s : SetupSignalSnapshot) (d : SignalDefinition) : signal :=
  match dget (signals s) (key d) with
  | VDict raw => match dict_find "value" raw with
                 | Some v => _coerce_value (Value v) (value_type d)
                 | None => _coerce_value (attribute s (source d)) (value_type d)
                 end
  | _ => _coerce_value (attribute s (source d)) (value_type d)
  end.

(** [old == new], for values of one type. *)
Definition value_eq (a b : signal) : bool :=
  match a, b with
  | SNone, SNone => true
  | SDec x, SDec y => deq x y
  | SInt x, SInt y => x =? y
  | SBool x, SBool y => Bool.eqb x y
  | SSet x, SSet y => bool_decide (x = y)
  | SDate x, SDate y => x =? y
  | SText x, SText y => String.eqb x y
  | _, _ => false
  end.
Definition members_of (v : signal) : list string := match v with SSet l => l | _ => [] end.
Definition _same_value (old_value new_value : signal) (t : SignalValueType) : bool :=
  match t with
  | SET => bool_decide (members_of old_value = members_of new_value)
  | _ => value_eq old_value new_value
  end.

Definition _numeric_delta (old_value new_value : signal) (d : SignalDefinition) : option decimal :=
  match value_type d with
  | DATE => match old_value, new_value with SDate o, SDate n => Some (of_int (n - o)) | _, _ => None end
  | _ => match _decimal_or_none old_value, _decimal_or_none new_value with
         | Some o, Some n => Some (dsub n o)
         | _, _ => None
         end
  end.
Definition _percentage_delta (old_value new_value : signal) : result (option decimal) :=
  match _decimal_or_none old_value, _decimal_or_none new_value with
  | Some o, Some n => if deq o dzero then Ok None else q ← ddiv (dsub n o) (dabs o); Ok (Some q)
  | _, _ => Ok None
  end.
Definition _rank_delta (old_value new_value : signal) (d : SignalDefinition) : option Z :=
  match value_type d, old_value, new_value with
  | INTEGER_RANK, SInt o, SInt n => Some (o - n)
  | _, _, _ => None
  end.

Definition crossing_name (crossing : float) : string := ("crossing_" ++ general_text crossing)%string.
Fixpoint crossing_of (crossings : list float) (old_number new_number : decimal) : option string * option string :=
  match crossings with
  | [] => (None, None)
  | crossing :: crossings =>
      let threshold := decimal_of_float crossing in
      if dlt old_number threshold && dle threshold new_number
      then (Some (crossing_name crossing), Some "ENTER")
      else if dle threshold old_number && dlt new_number threshold
      then (Some (crossing_name crossing), Some "EXIT")
      else crossing_of crossings old_number new_number
  end.
Definition _threshold_crossing (d : SignalDefinition) (old_value new_value : signal) : option string * option string :=
  match _decimal_or_none old_value, _decimal_or_none new_value with
  | Some o, Some n => crossing_of (crossings d) o n
  | _, _ => (None, None)
  end.

Definition _data_quality_changed (d : SignalDefinition) (old_value new_value : signal) : bool :=
  smem (key d) ["data_quality"; "required_feature_coverage"; "freshness_status"] && negb (value_eq old_value new_value).
(** [order.get(str(value).upper(), -1)]; only a text can be one of the labels. *)
Definition quality_rank (order : list (string * Z)) (v : signal) : Z :=
  match v with
  | SText s => match dict_find (upper s) order with Some n => n | None => -1 end
  | _ => -1
  end.
Definition _data_quality_reason (d : SignalDefinition) (old_value new_value : signal) : string :=
  if String.eqb (key d) "required_feature_coverage" then
    match normalized_delta d old_value new_value with
    | None => "DATA_QUALITY_CHANGED"
    | Some delta => if flt delta f0 then "DATA_QUALITY_DEGRADED" else "STALE_TO_FRESH_DATA_QUALITY"
    end
  else
    let order := if String.eqb (key d) "freshness_status" then FRESHNESS_ORDER else QUALITY_ORDER in
    let old_rank := quality_rank order old_value in
    let new_rank := quality_rank order new_value in
    if old_rank <? new_rank then "STALE_TO_FRESH_DATA_QUALITY"
    else if new_rank <? old_rank then "DATA_QUALITY_DEGRADED" else "DATA_QUALITY_CHANGED".

(** [x or y] of optional numbers. *)
Definition float_or (x y : option float) : option float :=
  match x with Some a => if feq a f0 then y else x | None => y end.
Definition reaches (delta : option decimal) (limit : option float) : bool :=
  match delta, limit with Some v, Some x => dle (decimal_of_float x) (dabs v) | _, _ => false end.
(** A change of rank is compared as a float, which is exact below 2 ^ 53. *)
Definition _is_material (d : SignalDefinition) (old_value new_value : signal)
    (delta_numeric percentage_delta : option decimal) (rank_delta : option Z) (threshold_name : option string)
    (reason_codes : list string) : bool :=
  if has threshold_name then true
  else match value_type d with
  | NULLABILITY => is_missing old_value || is_missing new_value
  | t =>
      if smem "MISSING_TO_PRESENT" reason_codes || smem "PRESENT_TO_MISSING" reason_codes
      then negb (String.eqb (missing_value_policy d) "ignore")
      else if smem "STALE_TO_FRESH_DATA_QUALITY" reason_codes then true
      else match t with
      | BOOLEAN | ENUM | SET => material_on_change d
      | DATE => material_on_change d || reaches delta_numeric (float_or (absolute_change d) (Some f1))
      | INTEGER_RANK =>
          match float_or (rank_change d) (absolute_change d), rank_delta with
          | Some limit, Some delta => fge (float_of_Z (Z.abs delta)) limit
          | _, _ => false
          end
      | _ => reaches delta_numeric (absolute_change d) || reaches percentage_delta (percentage_change d)
      end
  end.

Definition _severity (d : SignalDefinition) (old_value new_value : signal) (normalized : option decimal)
    (reason_codes : list string) : EventSeverity :=
  if smem "DATA_QUALITY_DEGRADED" reason_codes then SEVERITY_RISK
  else if bool_decide (category d = RISK)
          && match normalized with None => true | Some x => dlt x dzero end then SEVERITY_RISK
  else if is_close_authoritative_trigger d
          && match old_value, new_value with SBool false, SBool true => true | _, _ => false end
  then SEVERITY_ACTIONABLE
  else if smem "THRESHOLD_CROSSED" reason_codes then SEVERITY_NOTABLE
  else if smem "MISSING_TO_PRESENT" reason_codes || smem "PRESENT_TO_MISSING" reason_codes then SEVERITY_INFO
  else SEVERITY_NOTABLE.

Definition _json_value (v : signal) : pyval :=
  match v with
  | SNone => VNone
  | SDec d => VStr (decimal_str d)
  | SInt n => VInt n
  | SBool b => VBool b
  | SSet l => VList (map VStr l)
  | SDate d => VStr (date_isoformat d)
  | SText s => VStr s
  end.
Definition column_value (c : column) : pyval :=
  match c with Value v => v | DateColumn d => VStr (date_isoformat d) end.
Definition column_json (c : column) : pyval :=
  match c with
  | Value (VDecimal c e) => VStr (decimal_str (Dec c e))
  | c => column_value c
  end.

(** [{s.data_as_of_date: s for s in sorted(history, key=...)}.get(day)]. *)
Definition snapshot_leb (a b : SetupSignalSnapshot) : bool :=
  let i s := match ss_id s with Some i => i | None => 0 end in
  (ss_data_as_of_date a <? ss_data_as_of_date b)
  || (ss_data_as_of_date a =? ss_data_as_of_date b) && (i a <=? i b).
Definition snapshot_on (day : date) (history : list SetupSignalSnapshot) : option SetupSignalSnapshot :=
  last (List.filter (fun s => ss_data_as_of_date s =? day) (sort_by snapshot_leb history)).

Definition velocity_at (d : SignalDefinition) (current : SetupSignalSnapshot) (history : list SetupSignalSnapshot)
    (window : Z) : result (string * pyval) :=
  let current_value := _signal_value current d in
  target_date ← subtract_us_trading_sessions CALENDAR_VERSION (ss_data_as_of_date current) window;
  Ok (str_of_Z window,
      VDict match snapshot_on target_date history with
      | None =>
          [("target_date", VStr (date_isoformat target_date)); ("prior_snapshot_id", VNone); ("prior_date", VNone);
           ("old_value", VNone); ("new_value", _json_value current_value); ("normalized_delta", VNone);
           ("missing_reason", VStr "EXACT_TARGET_SESSION_SNAPSHOT_UNAVAILABLE")]
      | Some prior =>
          let old_value := _signal_value prior d in
          [("target_date", VStr (date_isoformat target_date)); ("prior_snapshot_id", of_opt VInt (ss_id prior));
           ("prior_date", VStr (date_isoformat (ss_data_as_of_date prior)));
           ("old_value", _json_value old_value); ("new_value", _json_value current_value);
           ("normalized_delta", of_opt (fun x => VStr (decimal_str (decimal_of_float x)))
                                  (normalized_delta d old_value current_value));
           ("missing_reason", if is_missing old_value || is_missing current_value
                              then VStr "TARGET_SESSION_SIGNAL_UNAVAILABLE" else VNone)]
      end).
Definition velocity_by_window (d : SignalDefinition) (current : SetupSignalSnapshot)
    (history : list SetupSignalSnapshot) : result dict :=
  entries ← map_result (velocity_at d current history) (velocity_windows d);
  Ok (dict_update [] entries).

Definition _snapshot_signal_value (s : SetupSignalSnapshot) (name : string) : pyval :=
  match dget (signals s) name with
  | VDict raw => match dict_find "value" raw with Some v => v | None => VDict raw end
  | v => v
  end.
Definition change_evidence (d : SignalDefinition) (current : SetupSignalSnapshot) (velocity : dict) : dict :=
  let column_of name := column_value (attribute current name) in
  [("velocity", VDict velocity);
   ("missing_policy", VStr (missing_value_policy d));
   ("material_on_change", VBool (material_on_change d));
   ("confidence_score", column_of "confidence_score");
   ("confidence_label", column_of "confidence_label");
   ("required_feature_coverage", column_json (attribute current "required_feature_coverage"));
   ("freshness_status", column_of "freshness_status");
   ("data_quality_label", column_of "data_quality_label");
   ("current_snapshot_id", of_opt VInt (ss_id current));
   ("origin_type", column_of "origin_type");
   ("sector_confidence", _snapshot_signal_value current "sector_confidence");
   ("market_regime", _snapshot_signal_value current "market_regime");
   ("setup_family", column_of "primary_setup_family")].

Definition reason_if (cond : bool) (reason : string) : list string := if cond then [reason] else [].
Definition presence_reasons (d : SignalDefinition) (old_value new_value : signal) : list string :=
  if is_missing old_value && negb (is_missing new_value) then ["MISSING_TO_PRESENT"]
  else if negb (is_missing old_value) && is_missing new_value then ["PRESENT_TO_MISSING"]
  else reason_if (bool_decide (value_type d = NULLABILITY)) "NULLABILITY_CHANGED".
Definition has_velocity (velocity : dict) : bool :=
  existsb (fun kv => negb (is_none (dget (as_dict kv.2) "normalized_delta"))) velocity.

(** The reasons that are known before the materiality test. *)
Definition first_reasons (d : SignalDefinition) (old_value new_value : signal) (threshold_name : option string)
    : list string :=
  presence_reasons d old_value new_value
  ++ reason_if (has threshold_name) "THRESHOLD_CROSSED"
  ++ (if _data_quality_changed d old_value new_value then [_data_quality_reason d old_value new_value] else []).

Definition _detect_one (d : SignalDefinition) (old_value new_value : signal) (current : SetupSignalSnapshot)
    (history : list SetupSignalSnapshot) : result (option DetectedSignalChange) :=
  if _same_value old_value new_value (value_type d) then Ok None
  else
    let delta_numeric := _numeric_delta old_value new_value d in
    percentage_delta ← _percentage_delta old_value new_value;
    let rank_delta := _rank_delta old_value new_value d in
    let normalized := decimal_of_float <$> normalized_delta d old_value new_value in
    let '(threshold_name, threshold_direction) := _threshold_crossing d old_value new_value in
    let reasons := first_reasons d old_value new_value threshold_name in
    if negb (_is_material d old_value new_value delta_numeric percentage_delta rank_delta threshold_name reasons)
    then Ok None
    else
      velocity ← velocity_by_window d current history;
      let reasons := reasons ++ [(value_type_name (value_type d) ++ "_CHANGE")%string]
                     ++ reason_if (has_velocity velocity) "VELOCITY_COMPUTED" in
      Ok (Some (mkDetectedSignalChange (key d) (category d) (value_type d) old_value new_value delta_numeric
                  percentage_delta rank_delta normalized (direction d) threshold_name threshold_direction
                  (_severity d old_value new_value normalized reasons) (unique reasons)
                  (change_evidence d current velocity))).

Fixpoint present {A} (l : list (option A)) : list A :=
  match l with
  | [] => []
  | Some x :: l => x :: present l
  | None :: l => present l
  end.
Definition detect_changes (registry : list SignalDefinition) (previous : option SetupSignalSnapshot)
    (current : SetupSignalSnapshot) (history : list SetupSignalSnapshot) : result (list DetectedSignalChange) :=
  match previous with
  | None => Ok []
  | Some previous =>
      found ← map_result (fun d => _detect_one d (_signal_value previous d) (_signal_value current d) current history)
                registry;
      Ok (present found)
  end.

End Detector.

(** ** The ledger of change events *)

(** [q] rounded to an integer, halves away from zero. *)
Definition half_up (q : Q) : Z :=
  let n := Qfloor (Qabs q + (1 # 2)) in if Qle_bool 0 q then n else - n.
Definition hundred_millionths (d : decimal) : Z := half_up (dval d * ten ^ 8).
(** [Decimal(str(v)).quantize(Decimal("0.00000001"), rounding=ROUND_HALF_UP)]. *)
Definition quantize8 (d : decimal) : result decimal :=
  let c := hundred_millionths d in
  if 10 ^ 28 <=? Z.abs c then raise "InvalidOperation" "" else Ok (Dec c (-8)).
(** The value a column [Numeric(18, 8)] keeps. *)
Definition numeric_18_8 (d : decimal) : result decimal :=
  let c := hundred_millionths d in
  if 10 ^ 18 <=? Z.abs c then raise "DataError" "numeric field overflow" else Ok (Dec c (-8)).
Definition opt_result {A B} (f : A -> result B) (o : option A) : result (option B) :=
  match o with None => Ok None | Some a => b ← f a; Ok (Some b) end.

(** [tables.SignalChangeEvent]. *)
Record SignalChangeEvent := mkSignalChangeEvent {
  e_id : option Z;
  e_evaluation_run_id : option Z;
  e_episode_id : option Z;
  e_previous_snapshot_id : option Z;
  e_current_snapshot_id : option Z;
  e_ticker : string;
  e_timeframe : string;
  e_effective_date : date;
  e_category : string;
  e_signal_key : string;
  e_value_type : string;
  e_old_value_json : dict;
  e_new_value_json : dict;
  e_delta_numeric : option decimal;
  e_percentage_delta : option decimal;
  e_percentile_delta : option decimal;
  e_rank_delta : option Z;
  e_normalized_delta : option decimal;
  e_direction : string;
  e_threshold_name : option string;
  e_threshold_direction : option string;
  e_severity : string;
  e_signal_definition_version : string;
  e_source_event_key : string;
  e_config_hash : string;
  e_reason_codes_json : list string;
  e_evidence_json : dict;
}.

Definition category_value (c : SignalCategory) : string :=
  match c with
  | SETUP => "SETUP" | SCORE => "SCORE" | TREND => "TREND" | VOLATILITY_VOLUME => "VOLATILITY_VOLUME"
  | LEADERSHIP => "LEADERSHIP" | MARKET => "MARKET" | RISK => "RISK" | DATA_QUALITY => "DATA_QUALITY"
  end.
Definition value_type_value (t : SignalValueType) : string :=
  match t with
  | FLOAT => "float" | PERCENTAGE => "percentage" | INTEGER_RANK => "integer_rank" | BOOLEAN => "boolean"
  | ENUM => "enum" | SET => "set" | DATE => "date" | NULLABILITY => "nullability"
  end.
Definition severity_value (s : EventSeverity) : string :=
  match s with
  | SEVERITY_INFO => "INFO" | SEVERITY_NOTABLE => "NOTABLE"
  | SEVERITY_ACTIONABLE => "ACTIONABLE" | SEVERITY_RISK => "RISK"
  end.

(** [ticker.strip().upper()]. *)
Definition normalize_ticker (ticker : string) : string := upper (strip ticker).

Record ChangeStore := mkChangeStore {
  cs_snapshots : list SetupSignalSnapshot;
  (** The ids of the snapshots the current selection names, with their evidence. *)
  cs_selected : list Z;
  cs_events : list SignalChangeEvent;
  cs_next_id : Z;
}.
Record SignalChangeDetectionResult := mkDetectionResult {
  created_events : Z;
  suppressed : Z;
  skipped : Z;
  changes : list DetectedSignalChange;
  event_ids : list (option Z);
}.

Section Ledger.
Context `{Text : PyText} `{BT : BarText} `{CT : ChangeText} `{JT : JsonText}.
Context (registry : list SignalDefinition) (config_version : string).

Definition opt_decimal (d : option decimal) : Canonical.evidence :=
  match d with Some d => EDecimal (Some (coef d, dexp d)) | None => ENone end.
Definition opt_int (n : option Z) : Canonical.evidence := match n with Some n => EInt n | None => ENone end.
Definition opt_str (s : option string) : Canonical.evidence := match s with Some s => EStr s | None => ENone end.

(** [signal_change_body]: the columns but the id and the time of creation, without the proof
    of the evidence; decimals at the scale of their columns. *)
Definition change_columns (e : SignalChangeEvent) : result (list (string * Canonical.evidence)) :=
  delta ← opt_result quantize8 (e_delta_numeric e);
  percentage ← opt_result quantize8 (e_percentage_delta e);
  percentile ← opt_result quantize8 (e_percentile_delta e);
  normalized ← opt_result quantize8 (e_normalized_delta e);
  Ok
    [("episode_id", opt_int (e_episode_id e));
     ("previous_snapshot_id", opt_int (e_previous_snapshot_id e));
     ("current_snapshot_id", opt_int (e_current_snapshot_id e));
     ("ticker", EStr (e_ticker e));
     ("timeframe", EStr (e_timeframe e));
     ("effective_date", EDate (e_effective_date e));
     ("category", EStr (e_category e));
     ("signal_key", EStr (e_signal_key e));
     ("value_type", EStr (e_value_type e));
     ("old_value_json", embed (VDict (e_old_value_json e)));
     ("new_value_json", embed (VDict (e_new_value_json e)));
     ("delta_numeric", opt_decimal delta);
     ("percentage_delta", opt_decimal percentage);
     ("percentile_delta", opt_decimal percentile);
     ("rank_delta", opt_int (e_rank_delta e));
     ("normalized_delta", opt_decimal normalized);
     ("direction", EStr (e_direction e));
     ("threshold_name", opt_str (e_threshold_name e));
     ("threshold_direction", opt_str (e_threshold_direction e));
     ("severity", EStr (e_severity e));
     ("signal_definition_version", EStr (e_signal_definition_version e));
     ("source_event_key", EStr (e_source_event_key e));
     ("config_hash", EStr (e_config_hash e));
     ("reason_codes_json", EList (map EStr (e_reason_codes_json e)));
     ("evidence_json", embed (VDict (dict_remove "native_change_proof" (e_evidence_json e))))].
Definition signal_change_body (e : SignalChangeEvent) : result pyval :=
  columns ← change_columns e;
  Canonical.canonicalize None (EMapping true (("evaluation_run_id", opt_int (e_evaluation_run_id e)) :: columns)).

(** [repository.signal_change_key]. *)
Definition signal_change_key (ticker timeframe signal_key : string) (effective_date : date)
    (old_value new_value : pyval) (config_hash : string) (calculation_context_id : option Z) : result string :=
  Canonical.fingerprint (EMapping true
    [("ticker", EStr (normalize_ticker ticker)); ("timeframe", EStr timeframe); ("signal_key", EStr signal_key);
     ("effective_date", EStr (date_isoformat effective_date)); ("old", embed old_value); ("new", embed new_value);
     ("config_hash", EStr config_hash); ("calculation_context_id", opt_int calculation_context_id)]).

Definition _to_event (change : DetectedSignalChange) (previous current : SetupSignalSnapshot)
    (evaluation_run_id : option Z) : result SignalChangeEvent :=
  source_event_key ← signal_change_key (ss_ticker current) (ss_timeframe current) (dc_signal_key change)
                       (ss_data_as_of_date current) (_json_value (dc_old_value change))
                       (_json_value (dc_new_value change)) (ss_config_hash current)
                       (ss_calculation_context_id current);
  Ok (mkSignalChangeEvent None evaluation_run_id None (ss_id previous) (ss_id current) (ss_ticker current)
        (ss_timeframe current) (ss_data_as_of_date current) (category_value (dc_category change))
        (dc_signal_key change) (value_type_value (dc_value_type change))
        [("value", _json_value (dc_old_value change))] [("value", _json_value (dc_new_value change))]
        (dc_delta_numeric change) (dc_percentage_delta change) None (dc_rank_delta change)
        (dc_normalized_delta change) (dc_direction change) (dc_threshold_name change)
        (dc_threshold_direction change) (severity_value (dc_severity change)) config_version source_event_key
        (ss_config_hash current) (dc_reason_codes change) (dc_evidence change)).

Definition same_subject (a b : SetupSignalSnapshot) : bool :=
  String.eqb (ss_ticker a) (ss_ticker b) && String.eqb (ss_timeframe a) (ss_timeframe b).
Definition refused (cond : bool) (msg : string) : result unit := if cond then ValueError msg else Ok tt.

(** The part of [validate_signal_change] that recomputes the event from its snapshots. *)
Definition validate_signal_change (event : SignalChangeEvent) (previous current : SetupSignalSnapshot)
    (history : list SetupSignalSnapshot) : result pyval :=
  _ ← refused
        ((ss_data_as_of_date current <=? ss_data_as_of_date previous)
         || negb (String.eqb (ss_ticker current) (e_ticker event))
         || negb (String.eqb (ss_timeframe current) (e_timeframe event))
         || negb (ss_data_as_of_date current =? e_effective_date event)
         || existsb (fun row => negb (same_subject row current)
                                || (ss_data_as_of_date current <=? ss_data_as_of_date row)) (previous :: history))
        "MUTATION_CHANGE_SETUP_SCOPE_OR_TIME_MISMATCH";
  native ← detect_changes registry (Some previous) current history;
  match List.find (fun row => String.eqb (dc_signal_key row) (e_signal_key event)) native with
  | None => ValueError "MUTATION_CHANGE_NATIVE_CONDITION_MISMATCH"
  | Some change =>
      expected ← _to_event change previous current (e_evaluation_run_id event);
      expected_body ← signal_change_body expected;
      body ← signal_change_body event;
      _ ← refused (negb (py_eq expected_body body)) "MUTATION_CHANGE_NATIVE_OUTPUT_MISMATCH";
      Ok body
  end.

Definition get_signal_change_event (events : list SignalChangeEvent) (source_event_key : string)
    : option SignalChangeEvent :=
  List.find (fun e => String.eqb (e_source_event_key e) source_event_key) events.

(** The row as the database keeps it. *)
Definition stored_event (id : Z) (e : SignalChangeEvent) : result SignalChangeEvent :=
  delta ← opt_result numeric_18_8 (e_delta_numeric e);
  percentage ← opt_result numeric_18_8 (e_percentage_delta e);
  percentile ← opt_result numeric_18_8 (e_percentile_delta e);
  normalized ← opt_result numeric_18_8 (e_normalized_delta e);
  Ok (mkSignalChangeEvent (Some id) (e_evaluation_run_id e) (e_episode_id e) (e_previous_snapshot_id e)
        (e_current_snapshot_id e) (e_ticker e) (e_timeframe e) (e_effective_date e) (e_category e) (e_signal_key e)
        (e_value_type e) (e_old_value_json e) (e_new_value_json e) delta percentage percentile (e_rank_delta e)
        normalized (e_direction e) (e_threshold_name e) (e_threshold_direction e) (e_severity e)
        (e_signal_definition_version e) (e_source_event_key e) (e_config_hash e) (e_reason_codes_json e)
        (e_evidence_json e)).

Definition without_run (body : pyval) : pyval := VDict (dict_remove "evaluation_run_id" (as_dict body)).

(** [add_signal_change_event]: the row of the ledger, and whether it is new. *)
Definition add_signal_change_event (event : SignalChangeEvent) (previous current : SetupSignalSnapshot)
    (history : list SetupSignalSnapshot) (store : ChangeStore)
    : result (SignalChangeEvent * bool * ChangeStore) :=
  body ← validate_signal_change event previous current history;
  match get_signal_change_event (cs_events store) (e_source_event_key event) with
  | Some existing =>
      old_body ← signal_change_body existing;
      _ ← refused (negb (py_eq (without_run old_body) (without_run body))) "MUTATION_CHANGE_ALTERED_RETRY";
      Ok (existing, false, store)
  | None =>
      row ← stored_event (cs_next_id store) event;
      Ok (row, true, mkChangeStore (cs_snapshots store) (cs_selected store) (cs_events store ++ [row])
                       (cs_next_id store + 1))
  end.

(** ** Snapshots to compare *)

Definition subject_leb (a b : SetupSignalSnapshot) : bool :=
  if negb (String.eqb (ss_ticker a) (ss_ticker b)) then String.leb (ss_ticker a) (ss_ticker b)
  else if negb (String.eqb (ss_timeframe a) (ss_timeframe b)) then String.leb (ss_timeframe a) (ss_timeframe b)
  else snapshot_leb a b.
Definition has_id (ids : list Z) (s : SetupSignalSnapshot) : bool :=
  match ss_id s with Some i => existsb (Z.eqb i) ids | None => false end.
Definition get_snapshots_by_ids (store : ChangeStore) (snapshot_ids : list Z) : list SetupSignalSnapshot :=
  sort_by subject_leb (List.filter (has_id snapshot_ids) (cs_snapshots store)).

Definition subject : Type := (string * string)%type.
Definition subject_eqb (a b : subject) : bool := String.eqb a.1 b.1 && String.eqb a.2 b.2.
Fixpoint find_cutoff (k : subject) (cutoffs : list (subject * date)) : option date :=
  match cutoffs with
  | [] => None
  | (k', cutoff) :: cutoffs => if subject_eqb k k' then Some cutoff else find_cutoff k cutoffs
  end.
(** [{(s.ticker, s.timeframe): s.data_as_of_date for s in current_snapshots}]: the last
    snapshot of a subject decides. *)
Definition cutoffs_of (current_snapshots : list SetupSignalSnapshot) : list (subject * date) :=
  rev (map (fun s => ((ss_ticker s, ss_timeframe s), ss_data_as_of_date s)) current_snapshots).
Definition normalized_cutoffs (cutoffs : list (subject * date)) : list (subject * date) :=
  map (fun kc => ((normalize_ticker kc.1.1, kc.1.2), kc.2)) cutoffs.

(** [canonical_snapshot_histories_before]: the last [limit] selected snapshots of a subject
    before its cutoff, in the order of their dates; [None] for a subject without a key. *)
Definition canonical_snapshot_history (store : ChangeStore) (cutoffs : list (subject * date)) (limit : Z)
    (k : subject) : list SetupSignalSnapshot :=
  match find_cutoff k (normalized_cutoffs cutoffs) with
  | None => []
  | Some cutoff =>
      let rows := sort_by snapshot_leb
                    (List.filter (fun s => has_id (cs_selected store) s && subject_eqb (ss_ticker s, ss_timeframe s) k
                                           && (ss_data_as_of_date s <? cutoff)) (cs_snapshots store)) in
      rev (take (Z.to_nat (Z.max 1 (Z.min limit 50))) (rev rows))
  end.

(** ** Detection and persistence *)

Definition record_change (previous current : SetupSignalSnapshot) (history : list SetupSignalSnapshot)
    (evaluation_run_id : option Z) (acc : ChangeStore * SignalChangeDetectionResult) (change : DetectedSignalChange)
    : result (ChangeStore * SignalChangeDetectionResult) :=
  let '(store, r) := acc in
  event ← _to_event change previous current evaluation_run_id;
  added ← add_signal_change_event event previous current history store;
  let '(row, is_new, store) := (added : SignalChangeEvent * bool * ChangeStore) in
  Ok (store, mkDetectionResult (created_events r + (if is_new then 1 else 0)) (suppressed r) (skipped r)
               (changes r ++ (if is_new then [change] else [])) (event_ids r ++ [e_id row])).

Fixpoint fold_result {A B} (f : B -> A -> result B) (acc : B) (l : list A) : result B :=
  match l with
  | [] => Ok acc
  | x :: l => acc ← f acc x; fold_result f acc l
  end.

Definition detect_for (history_of : subject -> list SetupSignalSnapshot) (evaluation_run_id : option Z)
    (acc : ChangeStore * SignalChangeDetectionResult) (current : SetupSignalSnapshot)
    : result (ChangeStore * SignalChangeDetectionResult) :=
  let ascending := history_of (ss_ticker current, ss_timeframe current) in
  match last ascending with
  | None => let '(store, r) := acc in
            Ok (store, mkDetectionResult (created_events r) (suppressed r) (skipped r + 1) (changes r) (event_ids r))
  | Some previous =>
      let history := rev ascending in
      found ← detect_changes registry (Some previous) current history;
      fold_result (record_change previous current history evaluation_run_id) acc found
  end.

Definition detect_and_persist (evaluation_run_id : option Z) (snapshot_ids : list Z) (store : ChangeStore)
    : result (ChangeStore * SignalChangeDetectionResult) :=
  let current_snapshots := get_snapshots_by_ids store snapshot_ids in
  let history_of := canonical_snapshot_history store (cutoffs_of current_snapshots) 10 in
  fold_result (detect_for history_of evaluation_run_id) (store, mkDetectionResult 0 0 0 [] []) current_snapshots.

End Ledger.
End Changes.
