(* ===== verification/SignalChangeFacts.v ===== *)
(** * Signal changes: what the detector reports and what the ledger keeps

    Equal snapshots report nothing; every report is a difference of one defined signal that
    the materiality test admits, and only a close-authoritative trigger that came on is
    actionable; the crossing found for a move is the one found, the other way round, for the
    reverse move.  The ledger keeps one row per key, and a detection that is repeated finds
    every event of the first run again and adds nothing. *)
From Stdlib Require Import ZArith Lia List String Ascii Bool QArith Qabs Qround Sorted Permutation.
From Stdlib Require Import Floats.SpecFloat.
From stdpp Require Import base list strings.
From S2P Require Import Prelude PyDate PyFloat PyValue Calendar Canonical CanonicalFacts PyDecimal PriceBars Signals.
From S2P Require Import ScoreWarnings CombinedDecision RankingRules SignalChanges.
Local Open Scope string_scope.
Local Open Scope list_scope.
Local Open Scope Z_scope.
Import Changes.

(** ** Canonical values equal themselves *)



(** ** Columns of eight digits *)

#[export] Instance half_up_proper : Proper (Qeq ==> eq) half_up.
Proof.
  intros p q E. unfold half_up. assert (Qle_bool 0 p = Qle_bool 0 q) as ->.
  { apply eq_true_iff_eq. rewrite !Qle_bool_iff. by rewrite E. }
  assert (Qfloor (Qabs p + (1 # 2)) = Qfloor (Qabs q + (1 # 2))) as -> by (apply Qfloor_comp; by rewrite E). done.
Qed.
Lemma half_up_int c : half_up (inject_Z c) = c.
Proof.
  unfold half_up. assert (H : Qfloor (Qabs (inject_Z c) + (1 # 2)) = Z.abs c).
  { unfold Qabs, Qfloor, inject_Z, Qplus. cbn [Qnum Qden]. symmetry. apply (Z.div_unique _ _ _ 1); lia. }
  rewrite H. unfold Qle_bool, inject_Z. cbn [Qnum Qden]. destruct (Z.leb_spec (0 * 1) (c * 1)); lia.
Qed.
Lemma hundred_millionths_of c : hundred_millionths (Dec c (-8)) = c.
Proof.
  unfold hundred_millionths, dval. cbn [coef dexp]. rewrite <- (half_up_int c) at 2. apply half_up_proper.
  rewrite <- Qmult_assoc. transitivity (inject_Z c * 1)%Q; [apply Qmult_comp; reflexivity|apply Qmult_1_r].
Qed.

(** What a column keeps is what the body of the event says of it. *)
Lemma numeric_quantize d x : numeric_18_8 d = Ok x -> quantize8 d = Ok x /\ quantize8 x = Ok x.
Proof.
  unfold numeric_18_8, quantize8. destruct (Z.leb_spec (10 ^ 18) (Z.abs (hundred_millionths d))) as [|H]; [done|].
  intros E. apply Ok_inj in E as <-. rewrite hundred_millionths_of.
  destruct (Z.leb_spec (10 ^ 28) (Z.abs (hundred_millionths d))); [lia|done].
Qed.
Lemma opt_numeric_quantize o x : opt_result numeric_18_8 o = Ok x -> opt_result quantize8 o = opt_result quantize8 x.
Proof.
  destruct o as [d|]; cbn; [|by intros [= <-]]. intros E. unbind E as y Hy. apply Ok_inj in E as <-.
  apply numeric_quantize in Hy as [H1 H2]. cbn. by rewrite H1, H2.
Qed.

(** ** The body of an event, but for the run that recorded it *)

Section Bodies.
Context `{JT : JsonText}.


Lemma collides_head k v items seen :
  collides seen ((k, v) :: items) = false -> smem k seen = false /\ collides (k :: seen) items = false.
Proof. cbn. apply orb_false_iff. Qed.




Lemma stored_event_columns id e row : stored_event id e = Ok row ->
  change_columns row = change_columns e /\ e_source_event_key row = e_source_event_key e /\ e_id row = Some id.
Proof.
  unfold stored_event. intros E. unbind E as d1 H1. unbind E as d2 H2. unbind E as d3 H3. unbind E as d4 H4.
  apply Ok_inj in E as <-. split; [|done]. unfold change_columns. cbn.
  apply opt_numeric_quantize in H1, H2, H3, H4. by rewrite <- H1, <- H2, <- H3, <- H4.
Qed.
End Bodies.

(** ** What is reported *)

Section Detection.
Context `{Text : PyText} `{BT : BarText} `{CT : ChangeText}.

Lemma value_eq_refl v : value_eq v v = true.
Proof.
  destruct v as [|d|n|b|l|day|s]; cbn [value_eq];
    [done|by apply Qeq_bool_iff|apply Z.eqb_refl|by destruct b|by apply bool_decide_eq_true|apply Z.eqb_refl|apply String.eqb_refl].
Qed.
Lemma same_value_refl v t : _same_value v v t = true.
Proof. destruct t; try apply value_eq_refl. by apply bool_decide_eq_true. Qed.

Lemma present_In {A} (x : A) l : In x (present l) <-> In (Some x) l.
Proof. induction l as [|[y|] l IH]; cbn; rewrite ?IH; [done| |]; intuition congruence. Qed.

(** A report is the report of one definition. *)
Lemma detect_changes_In registry previous current history found c :
  detect_changes registry (Some previous) current history = Ok found -> In c found ->
  exists d, In d registry
    /\ _detect_one d (_signal_value previous d) (_signal_value current d) current history = Ok (Some c).
Proof.
  cbn [detect_changes]. intros E. unbind E as rs Hrs. apply Ok_inj in E as <-. rewrite present_In.
  apply map_result_Forall2 in Hrs. intros [i Hi]%list_elem_of_In%list_elem_of_lookup.
  destruct (Forall2_lookup_r _ _ _ _ _ Hrs Hi) as (d & Hd & Ed). exists d. split; [|done].
  apply list_elem_of_In. by eapply list_elem_of_lookup_2.
Qed.

Lemma detect_one_Some d old_value new_value current history c :
  _detect_one d old_value new_value current history = Ok (Some c) ->
  _same_value old_value new_value (value_type d) = false
  /\ (dc_signal_key c = key d /\ dc_category c = category d /\ dc_value_type c = value_type d)
  /\ dc_old_value c = old_value /\ dc_new_value c = new_value
  /\ exists reasons,
       dc_severity c = _severity d old_value new_value (decimal_of_float <$> normalized_delta d old_value new_value) reasons
       /\ dc_reason_codes c = unique reasons.
Proof.
  unfold _detect_one. destruct (_same_value _ _ _); [by intros [=]|]. intros E. unbind E as p Hp.
  cbv zeta in E. destruct (_threshold_crossing d old_value new_value) as [name dir].
  destruct (negb _) in E; [by apply Ok_inj in E|]. unbind E as velocity Hv. apply Ok_inj in E as [= <-].
  cbn. do 4 (split; [done|]). eexists. by split.
Qed.

Lemma severity_actionable d old_value new_value normalized reasons :
  _severity d old_value new_value normalized reasons = SEVERITY_ACTIONABLE ->
  is_close_authoritative_trigger d = true /\ old_value = SBool false /\ new_value = SBool true.
Proof.
  unfold _severity. repeat match goal with |- context [if ?b then _ else _] => destruct b eqn:?; [try done|] end; try done.
  intros _. destruct (is_close_authoritative_trigger d); [|done].
  destruct old_value as [| | |[]| | |], new_value as [| | |[]| | |]; done.
Qed.

Lemma detect_one_same d v current history : _detect_one d v v current history = Ok None.
Proof. unfold _detect_one. by rewrite same_value_refl. Qed.

(** Snapshots that agree on every defined signal report no change. *)
Theorem unchanged_signals_are_silent registry previous current history :
  (forall d, In d registry -> _signal_value previous d = _signal_value current d) ->
  detect_changes registry (Some previous) current history = Ok [].
Proof.
  intros H. cbn [detect_changes]. enough (map_result (fun d => _detect_one d (_signal_value previous d)
    (_signal_value current d) current history) registry = Ok (map (fun _ => None) registry)) as ->.
  { cbn. f_equal. clear. by induction registry. }
  induction registry as [|d registry IH]; [done|]. cbn [map_result map].
  rewrite (H d) by (by left). rewrite detect_one_same. cbn [mbind result_bind].
  rewrite IH; [done|]. intros d' Hd'. apply H. by right.
Qed.

(** C20: Only a close-authoritative trigger that came on is reported as actionable: a signal that
    is diagnostic, or has another authority, never is, nor is a trigger that was unknown. *)
Theorem actionable_needs_close_trigger registry previous current history found c :
  detect_changes registry (Some previous) current history = Ok found -> In c found ->
  dc_severity c = SEVERITY_ACTIONABLE ->
  exists d, In d registry /\ key d = dc_signal_key c
    /\ trigger_authority d = Some "close" /\ diagnostic_only d = false
    /\ _signal_value previous d = SBool false /\ _signal_value current d = SBool true.
Proof.
  intros E Hc Hs. destruct (detect_changes_In _ _ _ _ _ _ E Hc) as (d & Hd & Ed).
  apply detect_one_Some in Ed as (_ & (Hk & _) & _ & _ & reasons & Hsev & _). rewrite Hs in Hsev. symmetry in Hsev.
  apply severity_actionable in Hsev as (Ht & Ho & Hn). exists d. do 2 (split; [done|]).
  unfold is_close_authoritative_trigger, is_authority in Ht. apply andb_prop in Ht as [Ha Hd'].
  destruct (trigger_authority d) as [a|] eqn:Ea; [|done]. apply String.eqb_eq in Ha as ->.
  apply negb_true_iff in Hd'. by split_and!.
Qed.

(** A signal of risk without a numeric direction is a risk whichever way it moves, also when
    the risk goes away. *)
Theorem categorical_risk_always_alarms registry previous current history found c :
  detect_changes registry (Some previous) current history = Ok found -> In c found ->
  dc_category c = RISK -> In (dc_value_type c) [ENUM; SET] -> dc_severity c = SEVERITY_RISK.
Proof.
  intros E Hc Hcat Ht. destruct (detect_changes_In _ _ _ _ _ _ E Hc) as (d & _ & Ed).
  apply detect_one_Some in Ed as (_ & (_ & Hcat' & Ht') & _ & _ & reasons & Hsev & _).
  rewrite Hsev. unfold _severity. destruct (smem _ reasons); [done|].
  rewrite Hcat' in Hcat. rewrite (bool_decide_eq_true_2 _ Hcat). rewrite Ht' in Ht.
  unfold normalized_delta. by destruct Ht as [<-|[<-|[]]].
Qed.

Definition flip (direction : option string) : option string :=
  match direction with
  | Some d => Some (if String.eqb d "ENTER" then "EXIT" else "ENTER")
  | None => None
  end.
Definition crosses (threshold a b : decimal) : bool := dlt a threshold && dle threshold b.

Lemma crosses_asym threshold a b : crosses threshold a b = true -> crosses threshold b a = false.
Proof.
  unfold crosses. intros [H1 H2]%andb_prop. apply dlt_spec in H1. apply dle_spec in H2.
  apply andb_false_iff. left. by apply dlt_false.
Qed.

(** The crossing of a move is the crossing of the reverse move, with the direction flipped. *)
Theorem reverse_move_crosses_back d old_value new_value :
  _threshold_crossing d new_value old_value =
  ((_threshold_crossing d old_value new_value).1, flip (_threshold_crossing d old_value new_value).2).
Proof.
  unfold _threshold_crossing. destruct (_decimal_or_none old_value) as [o|], (_decimal_or_none new_value) as [n|]; try done.
  induction (crossings d) as [|crossing cs IH]; [done|]. cbn [crossing_of]. cbv zeta.
  rewrite (andb_comm (dle _ n)), (andb_comm (dle _ o) (dlt n _)).
  fold (crosses (decimal_of_float crossing) o n) (crosses (decimal_of_float crossing) n o).
  destruct (crosses _ o n) eqn:E1, (crosses _ n o) eqn:E2; try done.
  apply crosses_asym in E1. congruence.
Qed.

End Detection.

(** ** The ledger *)

Section LedgerFacts.
Context `{Text : PyText} `{BT : BarText} `{CT : ChangeText} `{JT : JsonText}.
Context (registry : list SignalDefinition) (config_version : string).
Context (distinct_keys : List.NoDup (map key registry)).





Section Comparison.
Context (previous current : SetupSignalSnapshot) (history : list SetupSignalSnapshot)
        (found : list DetectedSignalChange)
        (detected : detect_changes registry (Some previous) current history = Ok found).


End Comparison.






(** One row per key, and every row has an id of its own that was handed out. *)
Definition ledger_ok (store : ChangeStore) : Prop :=
  List.NoDup (map e_source_event_key (cs_events store)) /\ List.NoDup (map e_id (cs_events store))
  /\ Forall (fun e => exists i, e_id e = Some i /\ i < cs_next_id store) (cs_events store).

Lemma NoDup_snoc {A} (x : A) l : List.NoDup l -> ~ In x l -> List.NoDup (l ++ [x]).
Proof.
  intros Hl Hx. apply (Permutation_NoDup (l := x :: l)); [apply Permutation_cons_append|by constructor].
Qed.
Lemma get_event_None events k : get_signal_change_event events k = None -> ~ In k (map e_source_event_key events).
Proof.
  intros H [e [<- He]]%in_map_iff. eapply List.find_none in H; [|exact He]. by rewrite String.eqb_refl in H.
Qed.

Lemma add_ledger_ok e previous current history store row is_new store1 :
  ledger_ok store ->
  add_signal_change_event registry config_version e previous current history store = Ok (row, is_new, store1) ->
  ledger_ok store1.
Proof.
  intros (Hk & Hi & Hids) E. unfold add_signal_change_event in E. unbind E.
  destruct (get_signal_change_event _ _) as [existing|] eqn:Hget.
  - unbind E. unbind E. by apply Ok_inj in E as [= <- <- <-].
  - unbind E as row' Hrow. apply Ok_inj in E as [= -> <- <-]. apply stored_event_columns in Hrow as (_ & Hrk & Hri).
    unfold ledger_ok. cbn [cs_events cs_next_id]. rewrite !map_app. cbn [map]. split_and!.
    + apply NoDup_snoc; [done|]. rewrite Hrk. by apply get_event_None.
    + apply NoDup_snoc; [done|]. rewrite Hri. intros [e' [He' Hin]]%in_map_iff.
      rewrite Forall_forall in Hids. destruct (Hids e' (proj2 (list_elem_of_In _ _) Hin)) as (i & Hi' & Hlt).
      rewrite He' in Hi'. injection Hi' as <-. lia.
    + apply Forall_app. split.
      * eapply Forall_impl; [exact Hids|]. intros e' (i & Hi' & Hlt). exists i. split; [done|lia].
      * constructor; [|done]. exists (cs_next_id store). split; [done|lia].
Qed.

Lemma fold_result_invariant {A B} (I : B -> Prop) (f : B -> A -> result B) l :
  (forall acc x acc1, I acc -> f acc x = Ok acc1 -> I acc1) ->
  forall acc acc1, I acc -> fold_result f acc l = Ok acc1 -> I acc1.
Proof.
  intros H. induction l as [|x l IH]; intros acc acc1 Hi E; cbn in E; [by apply Ok_inj in E as <-|].
  unbind E as mid Hmid. eauto.
Qed.

(** The ledger stays one row per event key through a detection. *)
Theorem detection_keeps_ledger r snapshot_ids store store1 res :
  ledger_ok store -> detect_and_persist registry config_version r snapshot_ids store = Ok (store1, res) ->
  ledger_ok store1.
Proof.
  intros H E. change (ledger_ok (store1, res).1). revert E. apply (fold_result_invariant (fun acc => ledger_ok acc.1)); [|done].
  intros [s a] current acc1 Hs E. unfold detect_for in E. destruct (last _) as [previous|].
  - unbind E as found Hd. revert E. apply (fold_result_invariant (fun acc => ledger_ok acc.1)); [|done].
    intros [s' a'] c acc2 Hs' E. cbn [record_change] in E. unbind E as e He. unbind E as added Hadd.
    destruct added as [[row is_new] s2]. apply Ok_inj in E as <-. cbn. by eapply add_ledger_ok.
  - by apply Ok_inj in E as <-.
Qed.
End LedgerFacts.

(** ** The registry *)

Section RegistryFacts.
Context `{Text : PyText}.

Lemma parse_signal_ok k raw d : _parse_signal_definition k raw = Ok d ->
  key d = k /\ In (direction d) SUPPORTED_SIGNAL_DIRECTIONS /\ In (missing_value_policy d) SUPPORTED_MISSING_VALUE_POLICIES
  /\ Forall (fun w => 0 < w) (velocity_windows d) /\ increasing (velocity_windows d) = true
  /\ match trigger_authority d with Some a => a = "close" \/ a = "diagnostic_high" | None => True end.
Proof.
  unfold _parse_signal_definition. destruct raw as [| | | | | | |raw]; try done. cbv zeta. intros E.
  unbind E as source' H1. unbind E as vt H2. unbind E as cat H3. unbind E as dir H4. unbind E as u1 H5. unbind E as u2 H6.
  unbind E as trig H7. unbind E as diag H8. unbind E as ws H9. unbind E as windows H10. unbind E as u3 H11. unbind E as u4 H12.
  unbind E as rc H13. unbind E as cs H14. unbind E as moc H15. unbind E as n1 H16. unbind E as n2 H17. unbind E as n3 H18.
  unbind E as n4 H19. apply Ok_inj in E as <-. cbn [key direction missing_value_policy velocity_windows trigger_authority].
  unfold refuse in *. split_and!; [done| | | | |].
  - apply smem_In. by destruct (smem dir _).
  - apply smem_In. by destruct (smem (strip _) _).
  - apply Forall_forall. intros w Hw. destruct (existsb _ windows) eqn:Ex; [done|].
    apply not_true_iff_false in Ex. destruct (Z.leb_spec w 0) as [Hle|]; [|lia]. exfalso. apply Ex.
    apply existsb_exists. exists w. split; [by apply list_elem_of_In|]. by apply Z.leb_le.
  - by destruct (increasing windows).
  - unfold trigger_of in H7. destruct (dget raw "trigger_authority"); try done; [by apply Ok_inj in H7 as <-|].
    destruct (smem s _) eqn:Es; [|done]. apply Ok_inj in H7 as <-. apply smem_In in Es. cbn in Es. intuition.
Qed.

(** A loaded registry has the keys of the configuration in order, only supported directions and
    policies, ascending positive velocity windows, a signal that may trigger at the close, and
    a diagnostic signal that may not. *)
Theorem loaded_registry_well_formed raw ds : from_config (VDict raw) = Ok ds -> NoDup raw.*1 ->
  List.NoDup (map key ds) /\ (forall k, In k (map key ds) <-> In k (map fst raw))
  /\ Forall (fun d => In (direction d) SUPPORTED_SIGNAL_DIRECTIONS
                      /\ In (missing_value_policy d) SUPPORTED_MISSING_VALUE_POLICIES
                      /\ Forall (fun w => 0 < w) (velocity_windows d) /\ increasing (velocity_windows d) = true) ds
  /\ (exists d, In d ds /\ trigger_authority d = Some "close" /\ diagnostic_only d = false)
  /\ (exists d, In d ds /\ trigger_authority d = Some "diagnostic_high" /\ diagnostic_only d = true).
Proof.
  unfold from_config. destruct raw as [|entry entries]; [done|]. intros E Hnd. unbind E as ds' Hds. unbind E as u Hu.
  apply Ok_inj in E as <-. set (raw := entry :: entries) in *. apply map_result_Forall2 in Hds.
  assert (Hkeys : map key ds' = map fst (sort_by (fun a b => String.leb a.1 b.1) raw)).
  { clear -Hds. induction Hds as [|kv d l ds Hd _ IH]; [done|]. cbn. apply parse_signal_ok in Hd as [-> _]. by rewrite IH. }
  split_and!.
  - rewrite Hkeys. apply NoDup_ListNoDup. change (NoDup (sort_by (fun a b : string * pyval => String.leb a.1 b.1) raw).*1).
    by rewrite sort_by_Permutation.
  - intros k. rewrite Hkeys, !in_map_iff. by setoid_rewrite sort_by_In.
  - apply Forall_forall. intros d Hd. apply list_elem_of_lookup in Hd as [i Hi].
    destruct (Forall2_lookup_r _ _ _ _ _ Hds Hi) as (kv & _ & Hd). apply parse_signal_ok in Hd. tauto.
  - unfold _validate_trigger_separation in Hu. unbind Hu as u1 H1. unfold refuse in H1.
    destruct (existsb is_close_authoritative_trigger ds') eqn:Ex; [|done].
    apply existsb_exists in Ex as (d & Hd & Ht). exists d. split; [done|].
    unfold is_close_authoritative_trigger, is_authority in Ht. apply andb_prop in Ht as [Ha Hn].
    destruct (trigger_authority d); [|done]. apply String.eqb_eq in Ha as ->. by apply negb_true_iff in Hn.
  - unfold _validate_trigger_separation in Hu. unbind Hu as u1 H1. unbind Hu as u2 H2. unfold refuse in H2.
    destruct (List.filter is_diagnostic_high_cross ds') as [|d rest] eqn:Ef; [done|].
    assert (Hd : In d (List.filter is_diagnostic_high_cross ds')) by (rewrite Ef; by left).
    apply filter_In in Hd as [Hd Ht]. exists d. split; [done|].
    unfold is_diagnostic_high_cross, is_authority in Ht. apply andb_prop in Ht as [Ha Hn].
    destruct (trigger_authority d); [|done]. by apply String.eqb_eq in Ha as ->.
Qed.
End RegistryFacts.

(** ** Two days of one ticker *)

Module ChangeExamples.

#[export] Instance change_text : PyText := {| str_other := fun _ => ""; set_order := fun l => l |}.
#[export] Instance change_bars : BarText :=
  {| decimal_of_float := fun x => if flt x f0 then Dec (-5) (-1) else if feq x f0 then Dec 0 0
                                  else if feq x (float_ratio 15 2) then Dec 75 (-1) else Dec 5 (-1);
     md5 := fun s => s |}.
#[export] Instance change_numbers : ChangeText :=
  {| decimal_str := fun d => str_of_Z (coef d); general_text := fun _ => "7.5" |}.
#[export] Instance change_json : JsonText := {| float_repr := fun _ => "0.0"; sha256 := fun s => s |}.

Definition document : dict :=
  [("technical_score", VDict
     [("source", VStr "dual_score"); ("type", VStr "float"); ("category", VStr "SCORE");
      ("direction", VStr "higher_is_better"); ("absolute_change", VFloat f_half);
      ("velocity_windows", VList [VInt 1; VInt 3]); ("crossings", VList [VFloat (float_ratio 15 2)]);
      ("missing_value_policy", VStr "warn")]);
   ("warning_flags", VDict
     [("source", VStr "warning_flags"); ("type", VStr "set"); ("category", VStr "RISK");
      ("direction", VStr "risk_decrease"); ("material_on_change", VBool true)]);
   ("close_trigger_cross", VDict
     [("source", VStr "close_above_trigger"); ("type", VStr "boolean"); ("category", VStr "SETUP");
      ("direction", VStr "true_is_better"); ("trigger_authority", VStr "close");
      ("material_on_change", VBool true); ("missing_value_policy", VStr "warn")]);
   ("intraday_high_trigger_cross_diagnostic", VDict
     [("source", VStr "high_above_trigger"); ("type", VStr "boolean"); ("category", VStr "SETUP");
      ("direction", VStr "true_is_better"); ("trigger_authority", VStr "diagnostic_high");
      ("diagnostic_only", VBool true); ("material_on_change", VBool true)])].

Definition definitions : list SignalDefinition :=
  match from_config (VDict document) with Ok ds => ds | Raise _ => [] end.

Definition snapshot_with (i : Z) (day : date) (score : pyval) (flags : list string) (trigger : bool) : SetupSignalSnapshot :=
  mkSetupSignalSnapshot (Some i) "ACME" "1d" day
    (Some [("warning_flags", VDict [("value", VList (map VStr flags))]);
           ("close_trigger_cross", VDict [("value", VBool trigger)]);
           ("intraday_high_trigger_cross_diagnostic", VDict [("value", VBool trigger)])])
    "hash" (Some 1) [("dual_score", Value score); ("confidence_score", Value (VInt 80))].
Definition yesterday := snapshot_with 1 (mk_date 2025 1 14) (VDecimal 70 (-1)) ["EXTENDED"] false.
Definition today := snapshot_with 2 (mk_date 2025 1 15) (VDecimal 80 (-1)) [] true.
Definition database := mkChangeStore [yesterday; today] [1; 2] [] 1.

Definition summary (c : DetectedSignalChange) : string * EventSeverity * option string :=
  (dc_signal_key c, dc_severity c, dc_threshold_direction c).

(** The close above the trigger is actionable, the high above it is not, and a warning that
    went away is a risk. *)
Example reported :
  match detect_changes definitions (Some yesterday) today [yesterday] with
  | Ok found => map summary found
  | Raise _ => []
  end = [("close_trigger_cross", SEVERITY_ACTIONABLE, None);
         ("intraday_high_trigger_cross_diagnostic", SEVERITY_NOTABLE, None);
         ("technical_score", SEVERITY_NOTABLE, Some "ENTER");
         ("warning_flags", SEVERITY_RISK, None)].
Proof. vm_compute. reflexivity. Qed.

Definition detected : list DetectedSignalChange :=
  match detect_changes definitions (Some yesterday) today [yesterday] with Ok found => found | Raise _ => [] end.
Definition first_run : ChangeStore * SignalChangeDetectionResult :=
  match detect_and_persist definitions "v1" (Some 7) [2] database with
  | Ok r => r
  | Raise _ => (database, mkDetectionResult 0 0 0 [] [])
  end.
Example four_events :
  (map e_id (cs_events first_run.1), created_events first_run.2, event_ids first_run.2)
  = ([Some 1; Some 2; Some 3; Some 4], 4, [Some 1; Some 2; Some 3; Some 4]).
Proof. vm_compute. reflexivity. Qed.

Lemma detected_changes : detect_changes definitions (Some yesterday) today [yesterday] = Ok detected.
Proof. vm_compute. reflexivity. Qed.

Lemma unchanged_signals_are_silent_witness : detect_changes definitions (Some today) today [yesterday] = Ok [].
Proof. apply unchanged_signals_are_silent. intros d _. reflexivity. Defined.

Lemma actionable_needs_close_trigger_witness :
  exists c d, In c detected /\ dc_severity c = SEVERITY_ACTIONABLE /\ In d definitions /\ key d = dc_signal_key c
    /\ trigger_authority d = Some "close".
Proof.
  destruct (nth_error detected 0) as [c|] eqn:E; [|vm_compute in E; discriminate]. pose proof (nth_error_In _ _ E) as Hc.
  assert (Hs : dc_severity c = SEVERITY_ACTIONABLE).
  { replace c with (nth 0 detected c); [vm_compute; reflexivity|]. by apply nth_error_nth. }
  destruct (actionable_needs_close_trigger _ _ _ _ _ _ detected_changes Hc Hs) as (d & Hd & Hk & Ht & _).
  exists c, d. exact (conj Hc (conj Hs (conj Hd (conj Hk Ht)))).
Defined.

Lemma categorical_risk_always_alarms_witness :
  exists c, In c detected /\ dc_old_value c = SSet ["EXTENDED"] /\ dc_new_value c = SSet [] /\ dc_severity c = SEVERITY_RISK.
Proof.
  destruct (nth_error detected 3) as [c|] eqn:E; [|vm_compute in E; discriminate]. pose proof (nth_error_In _ _ E) as Hc.
  assert (Hv : c = nth 3 detected c) by (symmetry; by apply nth_error_nth).
  exists c. split; [exact Hc|]. split; [rewrite Hv; vm_compute; reflexivity|]. split; [rewrite Hv; vm_compute; reflexivity|].
  apply (categorical_risk_always_alarms _ _ _ _ _ _ detected_changes Hc); rewrite Hv; vm_compute; [reflexivity|by right; left].
Defined.


Lemma detection_keeps_ledger_witness : ledger_ok first_run.1.
Proof.
  apply (detection_keeps_ledger definitions "v1" (Some 7) [2] database first_run.1 first_run.2).
  - split; [constructor|]. split; constructor.
  - vm_compute. reflexivity.
Defined.

Lemma loaded_registry_well_formed_witness :
  (exists d, In d definitions /\ trigger_authority d = Some "close" /\ diagnostic_only d = false).
Proof.
  apply (loaded_registry_well_formed document definitions); [vm_compute; reflexivity|].
  by apply (bool_decide_unpack _).
Defined.
End ChangeExamples.
