(* ===== verification/Alerts.v ===== *)
(** * Alerts: [setup_lifecycle/alert_service.py]

    The rules that match lifecycle transitions, actionability changes and signal changes, and
    the decision of one match: the permission of the rule, the suppression of a repeated event
    and of an alert in its cooldown, and the immutable decision evidence with the alert row
    that points to it ([decision_evidence.persist_alert_decision_evidence] with the native
    checks of [decision_mutation_authority._alert_decision_authority], and the repository's
    [add_alert_event]).

    The service runs on a database session, so every decision needs certified source evidence;
    the evidence ids are looked up in the rows of [AlertSources].  What binds a decision to the
    retained source artifacts, with its calculation identity, is the class [AlertAuthority].
    The rules are the frozen rules of the operation; the seeding of the built-in rules, the
    notification status of an alert and the export of alerts are not modelled. *)
From Stdlib Require Import ZArith Lia List String Ascii Bool QArith.
From stdpp Require Import base list strings.
From S2P Require Import Prelude PyDate PyFloat PyValue Calendar Canonical PyDecimal PriceBars Signals.
From S2P Require Import ScoreWarnings CombinedDecision RankingRules SignalChanges.
Local Open Scope string_scope.
Local Open Scope list_scope.
Local Open Scope Z_scope.

Module Alerts.
Import Changes.

(** ** Rows *)

(** [tables.SignalAlertRule]. *)
Record SignalAlertRule := mkSignalAlertRule {
  ru_id : option Z;
  ru_rule_id : string;
  ru_enabled : bool;
  ru_severity : string;
  ru_scope : string;
  ru_setup_family : option string;
  ru_cooldown_sessions : Z;
  ru_minimum_confidence : Z;
  ru_config_version : string;
  ru_condition_json : option dict;
  ru_market_restrictions_json : option dict;
  ru_metadata_json : dict;
}.

(** [tables.SetupLifecycleEvent]. *)
Record SetupLifecycleEvent := mkSetupLifecycleEvent {
  le_id : option Z;
  le_evaluation_run_id : option Z;
  le_episode_id : option Z;
  le_snapshot_id : option Z;
  le_ticker : string;
  le_timeframe : string;
  le_effective_date : date;
  le_event_type : string;
  le_setup_family : string;
  le_from_state : option string;
  le_to_state : option string;
  le_to_phase : option string;
  le_actionability_before : option string;
  le_actionability_after : option string;
  le_confidence_score : Z;
  le_source_event_key : string;
  le_evidence_json : option dict;
}.

(** What [_became_blocked] and the gate alert read of an evaluation result. *)
Record BlockedEpisode := mkBlockedEpisode {
  be_episode_id : option Z;
  be_ticker : string;
  be_timeframe : string;
  be_current_as_of_date : date;
  be_setup_family : string;
  be_market_regime : pyval;
}.
Record EpisodeEvaluationResult := mkEpisodeEvaluationResult {
  er_lifecycle_event : option SetupLifecycleEvent;
  er_episode : option BlockedEpisode;
  er_actionability : string;
  er_actionability_before : option string;
  er_reason_codes : list string;
  er_blockers : list string;
  er_confidence_score : Z;
}.

(** [tables.SignalAlertRuleEvidence]. *)
Record SignalAlertRuleEvidence := mkRuleEvidence {
  re_id : Z;
  re_rule_id : string;
  re_rule_row_id : option Z;
  re_evidence_key : string;
}.

(** [tables.SignalAlertDecisionEvidence]; the foreign key of the rule evidence is its row. *)
Record SignalAlertDecisionEvidence := mkDecisionEvidence {
  de_id : Z;
  de_rule : SignalAlertRuleEvidence;
  de_setup_evidence_id : option Z;
  de_lifecycle_evaluation_evidence_id : option Z;
  de_lifecycle_transition_evidence_id : option Z;
  de_cooldown_predecessor : option Z;
  de_dedup_predecessor : option Z;
  de_ticker : string;
  de_timeframe : string;
  de_effective_session : date;
  de_source_event_key : string;
  de_semantic_key : string;
  de_decision : string;
  de_reasons : list string;
  de_evidence_key : string;
}.

(** [tables.SignalAlertEvent]. *)
Record SignalAlertEvent := mkSignalAlertEvent {
  al_id : Z;
  al_alert_rule_id : option Z;
  al_lifecycle_event_id : option Z;
  al_signal_change_event_id : option Z;
  al_evaluation_run_id : option Z;
  al_decision_evidence_id : option Z;
  al_ticker : string;
  al_timeframe : string;
  al_effective_date : date;
  al_event_key : string;
  al_source_event_key : string;
  al_status : string;
  al_severity : string;
  al_reason_codes_json : list string;
  al_evidence_json : dict;
}.

Record AlertStore := mkAlertStore {
  as_rule_evidence : list SignalAlertRuleEvidence;
  as_decisions : list SignalAlertDecisionEvidence;
  as_alerts : list SignalAlertEvent;
}.

Record AlertServiceResult := mkAlertResult {
  ar_created : Z;
  ar_suppressed : Z;
  ar_event_ids : list (option Z);
  ar_warning_codes : list string;
}.
Definition no_alerts : AlertServiceResult := mkAlertResult 0 0 [] [].
Definition add_results (a b : AlertServiceResult) : AlertServiceResult :=
  mkAlertResult (ar_created a + ar_created b) (ar_suppressed a + ar_suppressed b)
    (ar_event_ids a ++ ar_event_ids b) (ar_warning_codes a ++ ar_warning_codes b).
Definition unique_warnings (a : AlertServiceResult) : AlertServiceResult :=
  mkAlertResult (ar_created a) (ar_suppressed a) (ar_event_ids a) (unique (ar_warning_codes a)).

(** One match of a rule: the arguments of [_persist_alert]. *)
Record AlertRequest := mkAlertRequest {
  rq_rule : SignalAlertRule;
  rq_ticker : string;
  rq_timeframe : string;
  rq_effective_date : date;
  rq_source_event_key : string;
  rq_evaluation_run_id : option Z;
  rq_source_confidence : Z;
  rq_semantic_key : string;
  rq_reason_codes : list string;
  rq_evidence : dict;
  rq_lifecycle_event_id : option Z;
  rq_signal_change_event_id : option Z;
  rq_episode_id : option Z;
}.

(** The rows the evidence ids are read from: [None] for a row that is missing. *)
Record AlertSources := mkAlertSources {
  src_event_transition : Z -> option (option Z);
  src_transition : Z -> option (option Z * option Z);
  src_change_snapshot : Z -> option (option Z);
  src_snapshot_evidence : Z -> option (option Z);
  src_episode_evaluation : Z -> option (option Z);
  src_evaluation_setup : Z -> option (option Z);
}.

(** Setup, lifecycle evaluation and lifecycle transition evidence. *)
Definition source_ids : Type := (option Z * option Z * option Z)%type.

Class AlertAuthority := {
  (** [validate_alert_condition] and the validation of the retained artifacts: the cutoff, the
      calendar and the identity that the decision evidence records. *)
  bind_alert_source : AlertRequest -> source_ids -> string -> result (list (string * Canonical.evidence));
  (** The market regime of the snapshot of a lifecycle event, under its contextual permission. *)
  snapshot_market_regime : Z -> result pyval;
}.

(** ** Matching *)

Definition or_empty_dict (d : option dict) : dict := match d with Some d => d | None => [] end.
Definition opt_eqb (a b : option string) : bool := bool_decide (a = b).
Definition text_is (v : pyval) (s : option string) : bool :=
  match v, s with
  | VStr v, Some s => String.eqb v s
  | VNone, None => true
  | _, _ => false
  end.

Definition _lifecycle_rule_matches (rule : SignalAlertRule) (event : SetupLifecycleEvent) : bool :=
  let condition := or_empty_dict (ru_condition_json rule) in
  if match ru_setup_family rule with Some f => negb (String.eqb f (le_setup_family event)) | None => false end then false
  else if String.eqb (ru_scope rule) "lifecycle_transition" then
    String.eqb (le_event_type event) "STATE_TRANSITION"
    && negb (opt_eqb (le_from_state event) (le_to_state event))
    && text_is (dget condition "to_state") (le_to_state event)
    && negb (String.eqb (ru_rule_id rule) "NEW_READY" && opt_eqb (le_actionability_after event) (Some "BLOCKED"))
    && negb (String.eqb (ru_rule_id rule) "NEW_EXTENSION"
             && negb (match le_from_state event with
                      | Some s => smem s ["READY"; "TRIGGERED"; "CONFIRMED"]
                      | None => false
                      end))
  else if String.eqb (ru_scope rule) "actionability_change" then
    String.eqb (le_event_type event) "ACTIONABILITY_CHANGE"
    && text_is (dget condition "to_actionability") (le_actionability_after event)
    && negb (opt_eqb (le_actionability_before event) (le_actionability_after event))
  else false.

Section Matching.
Context `{Text : PyText} `{BT : BarText} `{CT : ChangeText}.

(** [v or {}], of which keys are read. *)
Definition or_mapping (v : pyval) : result dict :=
  match v with
  | VDict d => Ok d
  | v => if truthy v then raise "AttributeError" "object has no attribute 'get'" else Ok []
  end.
(** [set(v or ())]. *)
Definition is_container (v : pyval) : bool := match v with VList _ | VDict _ => true | _ => false end.
Definition set_or_empty (v : pyval) : result (list pyval) :=
  members ← iterate (py_or v (VList []));
  if existsb is_container members then raise "TypeError" "unhashable type" else Ok members.

Definition reason (event : SignalChangeEvent) (code : string) : bool := smem code (e_reason_codes_json event).
Definition direction_is (event : SignalChangeEvent) (direction : string) : bool :=
  opt_eqb (e_threshold_direction event) (Some direction).

Definition _is_favorable_acceleration (event : SignalChangeEvent) : bool :=
  if direction_is event "EXIT" then false
  else match e_normalized_delta event with
       | Some normalized => dlt dzero normalized
       | None => direction_is event "ENTER" || reason event "VELOCITY_COMPUTED"
       end.
Definition _score_acceleration_matches (condition : dict) (event : SignalChangeEvent) : result bool :=
  if negb (_is_favorable_acceleration event) then Ok false
  else
    let window := py_str (get_or condition "velocity_window" (VInt 3)) in
    velocities ← or_mapping (dget (e_evidence_json event) "velocity");
    velocity ← or_mapping (dget velocities window);
    match decimal_of_value (dget velocity "normalized_delta"), decimal_of_value (dget condition "minimum_normalized_delta") with
    | Some improvement, Some minimum =>
        if dlt improvement minimum then Ok false
        else
          thresholds ← or_mapping (dget condition "tracking_thresholds");
          match decimal_of_value (dget thresholds (e_signal_key event)), decimal_of_value (dget velocity "old_value"),
                decimal_of_value (dget velocity "new_value") with
          | Some threshold, Some old_value, Some new_value => Ok (dlt old_value threshold && dle threshold new_value)
          | _, _, _ => Ok false
          end
    | _, _ => Ok false
    end.

Definition confidence_order : list (string * Z) := [("LOW", 0); ("NORMAL", 1); ("HIGH", 2)].
Definition confidence_rank (label : string) (default : Z) : Z :=
  match dict_find label confidence_order with Some n => n | None => default end.
Definition _sector_acceleration_matches (condition : dict) (event : SignalChangeEvent) : bool :=
  match e_normalized_delta event, decimal_of_value (dget condition "minimum_rank_improvement") with
  | Some improvement, Some minimum =>
      if dlt improvement minimum then false
      else
        let actual := upper (py_str (py_or (dget (e_evidence_json event) "sector_confidence") (VStr ""))) in
        let required := upper (py_str (py_or (dget condition "minimum_sector_confidence") (VStr "NORMAL"))) in
        confidence_rank required 1 <=? confidence_rank actual (-1)
  | _, _ => false
  end.

Definition _signal_rule_matches (rule : SignalAlertRule) (event : SignalChangeEvent) : result bool :=
  let condition := or_empty_dict (ru_condition_json rule) in
  if negb (String.eqb (ru_scope rule) "signal_change") then Ok false
  else
    signal_keys ← set_or_empty (dget condition "signal_keys");
    if nonempty signal_keys && negb (existsb (py_eq (VStr (e_signal_key event))) signal_keys) then Ok false
    else if negb (nonempty signal_keys) && negb (text_is (dget condition "signal_key") (Some (e_signal_key event)))
    then Ok false
    else if String.eqb (ru_rule_id rule) "DATA_DEGRADED" then Ok (reason event "DATA_QUALITY_DEGRADED")
    else if String.eqb (ru_rule_id rule) "SCORE_ACCELERATION" then _score_acceleration_matches condition event
    else if String.eqb (ru_rule_id rule) "SECTOR_ACCELERATION" then Ok (_sector_acceleration_matches condition event)
    else Ok true.

Definition optional_text (s : option string) : string := match s with Some s => s | None => "None" end.
(** [str(n or "")]. *)
Definition text_or_blank (n : option Z) : string :=
  match n with Some n => if n =? 0 then "" else str_of_Z n | None => "" end.
Definition _lifecycle_semantic_key (rule : SignalAlertRule) (event : SetupLifecycleEvent) : string :=
  String.concat ":" [ru_rule_id rule; text_or_blank (le_episode_id event); optional_text (le_to_state event);
                     optional_text (le_actionability_after event)].
Definition _signed_direction (value : option decimal) : string :=
  match value with
  | None => "UNKNOWN"
  | Some number => if dlt dzero number then "UP" else if dlt number dzero then "DOWN" else "FLAT"
  end.
Definition _signal_semantic_key (rule : SignalAlertRule) (event : SignalChangeEvent) : string :=
  let direction := match e_threshold_direction event with
                   | Some d => if String.eqb d "" then _signed_direction (e_normalized_delta event) else d
                   | None => _signed_direction (e_normalized_delta event)
                   end in
  String.concat ":" [ru_rule_id rule; e_signal_key event; direction].

Definition _source_confidence (event : SignalChangeEvent) : Z :=
  let evidence := e_evidence_json event in
  match rank_of (get_or evidence "confidence_score" (dget evidence "current_confidence_score")) with
  | Some n => Z.max 0 (Z.min 100 n)
  | None => 0
  end.
Definition _reconstructed_source (evidence : dict) : bool :=
  let origin := py_or (py_or (dget evidence "origin_type") (dget evidence "snapshot_origin")) (VStr "") in
  String.eqb (upper (py_str origin)) "RECONSTRUCTED".
Definition regimes (v : pyval) : result (list string) :=
  members ← iterate v; Ok (map (fun v => upper (strip (py_str v))) members).
Definition _market_restrictions_match (rule : SignalAlertRule) (evidence : dict) : result bool :=
  match or_empty_dict (ru_market_restrictions_json rule) with
  | [] => Ok true
  | restrictions =>
      let market := upper (strip (py_str (py_or (dget evidence "market_regime") (VStr "")))) in
      allowed ← regimes (get_or restrictions "allowed_regimes" (get_or restrictions "include" (VList [])));
      blocked ← regimes (get_or restrictions "blocked_regimes" (get_or restrictions "exclude" (VList [])));
      Ok (if String.eqb market "" then false
          else if nonempty allowed && negb (smem market allowed) then false
          else negb (smem market blocked))
  end.
Definition _became_blocked (result : EpisodeEvaluationResult) : bool :=
  String.eqb (er_actionability result) "BLOCKED"
  && match er_actionability_before result with Some s => smem s ["ACTIONABLE"; "WATCH_ONLY"] | None => false end
  && smem "GATE_BLOCKED" (er_reason_codes result).

(** [_trading_sessions_between] has the body of [us_trading_sessions_between]. *)
Definition _trading_sessions_between (start_exclusive end_inclusive : date) : result Z :=
  if end_inclusive <=? start_exclusive then Ok 0
  else count_sessions (Z.to_nat (end_inclusive - start_exclusive + 1)) CALENDAR_VERSION end_inclusive start_exclusive 0.

End Matching.

(** ** The evidence of a decision *)

Section Decisions.
Context `{Text : PyText} `{BT : BarText} `{CT : ChangeText} `{JT : JsonText} `{AA : AlertAuthority}.

(** [_source_evidence_ids]. *)
Definition flatten {A} (o : option (option A)) : option A := match o with Some a => a | None => None end.
Definition opt_or {A} (a b : option A) : option A := match a with Some _ => a | None => b end.
Definition id_or (a b : option Z) : option Z := match a with Some 0 | None => b | _ => a end.
Definition _source_evidence_ids (src : AlertSources) (rq : AlertRequest) : source_ids :=
  let '(setup_id, evaluation_id, transition_id) :=
    match rq_lifecycle_event_id rq with
    | None => (None, None, None)
    | Some event =>
        let transition_id := flatten (src_event_transition src event) in
        match transition_id ≫= src_transition src with
        | Some (setup, evaluation) => (setup, evaluation, transition_id)
        | None => (None, None, transition_id)
        end
    end in
  let setup_id :=
    match rq_signal_change_event_id rq with
    | None => setup_id
    | Some change => id_or setup_id (flatten (flatten (src_change_snapshot src change) ≫= src_snapshot_evidence src))
    end in
  match rq_episode_id rq, evaluation_id with
  | Some episode, None =>
      let evaluation_id := flatten (src_episode_evaluation src episode) in
      match evaluation_id with
      | Some evaluation => (id_or setup_id (flatten (src_evaluation_setup src evaluation)), evaluation_id, transition_id)
      | None => (setup_id, None, transition_id)
      end
  | _, _ => (setup_id, evaluation_id, transition_id)
  end.
Definition certified_source (ids : source_ids) : bool := has ids.1.1 || has ids.1.2 || has ids.2.

Definition next_id {A} (rows : list A) : Z := Z.of_nat (length rows) + 1.

(** [persist_alert_rule_evidence]. *)
Definition rule_payload (rule : SignalAlertRule) : Canonical.evidence :=
  EMapping true
    [("rule_id", EStr (ru_rule_id rule)); ("enabled", EBool (ru_enabled rule)); ("severity", EStr (ru_severity rule));
     ("scope", EStr (ru_scope rule)); ("setup_family", opt_str (ru_setup_family rule));
     ("cooldown_sessions", EInt (ru_cooldown_sessions rule)); ("minimum_confidence", EInt (ru_minimum_confidence rule));
     ("config_version", EStr (ru_config_version rule));
     ("condition", match ru_condition_json rule with Some d => embed (VDict d) | None => ENone end);
     ("market_restrictions", match ru_market_restrictions_json rule with Some d => embed (VDict d) | None => ENone end);
     ("metadata", embed (VDict (ru_metadata_json rule)))].
Definition contract_key (contract : string) (payload : Canonical.evidence) : result string :=
  fp ← Canonical.fingerprint payload;
  Canonical.fingerprint (EMapping true [("contract", EStr contract); ("payload", EStr fp)]).
Definition persist_alert_rule_evidence (rule : SignalAlertRule) (store : AlertStore)
    : result (AlertStore * SignalAlertRuleEvidence) :=
  key ← contract_key "signal-alert-rule-evidence-v1" (rule_payload rule);
  match List.find (fun e => String.eqb (re_evidence_key e) key) (as_rule_evidence store) with
  | Some existing => Ok (store, existing)
  | None =>
      let row := mkRuleEvidence (next_id (as_rule_evidence store)) (ru_rule_id rule) (ru_id rule) key in
      Ok (mkAlertStore (as_rule_evidence store ++ [row]) (as_decisions store) (as_alerts store), row)
  end.

(** Generated decisions of a subject at or before a session, the latest first. *)
Definition subject_decision (rule_id ticker timeframe semantic_key : string) (effective_session : date)
    (e : SignalAlertDecisionEvidence) : bool :=
  String.eqb (re_rule_id (de_rule e)) rule_id && String.eqb (de_ticker e) (normalize_ticker ticker)
  && String.eqb (de_timeframe e) timeframe && String.eqb (de_semantic_key e) semantic_key
  && String.eqb (de_decision e) "GENERATED" && (de_effective_session e <=? effective_session).
Definition later_first (a b : SignalAlertDecisionEvidence) : bool :=
  (de_effective_session b <? de_effective_session a)
  || (de_effective_session a =? de_effective_session b) && (de_id b <=? de_id a).
Definition prior_generated_alert_decision (store : AlertStore) (rule_id ticker timeframe semantic_key : string)
    (effective_session : date) : option SignalAlertDecisionEvidence :=
  head (sort_by later_first
          (List.filter (subject_decision rule_id ticker timeframe semantic_key effective_session) (as_decisions store))).
Definition prior_of (store : AlertStore) (rq : AlertRequest) : option SignalAlertDecisionEvidence :=
  prior_generated_alert_decision store (ru_rule_id (rq_rule rq)) (rq_ticker rq) (rq_timeframe rq) (rq_semantic_key rq)
    (rq_effective_date rq).

(** [_cooldown_predecessor] of a certified request. *)
Definition _cooldown_predecessor (store : AlertStore) (rq : AlertRequest) : result (option SignalAlertDecisionEvidence) :=
  if ru_cooldown_sessions (rq_rule rq) <=? 0 then Ok None
  else match prior_of store rq with
       | None => Ok None
       | Some predecessor =>
           n ← _trading_sessions_between (de_effective_session predecessor) (rq_effective_date rq);
           Ok (if n <=? ru_cooldown_sessions (rq_rule rq) then Some predecessor else None)
       end.

Definition event_key_of (rq : AlertRequest) : string :=
  sha256 (String.concat "|" ["alert"; ru_rule_id (rq_rule rq); rq_source_event_key rq; normalize_ticker (rq_ticker rq);
                             text_or_blank (rq_episode_id rq); date_isoformat (rq_effective_date rq);
                             text_or_blank (rq_evaluation_run_id rq)]).
Definition alert_with_key (store : AlertStore) (event_key : string) : option SignalAlertEvent :=
  List.find (fun a => String.eqb (al_event_key a) event_key) (as_alerts store).
Definition alert_event_by_key (store : AlertStore) (event_key : string) (through_date : date) : option SignalAlertEvent :=
  List.find (fun a => String.eqb (al_event_key a) event_key && (al_effective_date a <=? through_date)) (as_alerts store).

Definition same_reasons (reasons expected : list string) : bool :=
  bool_decide (sort_by String.leb (unique reasons) = sort_by String.leb (unique expected)).

(** The native checks of [_alert_decision_authority]. *)
Definition native_permission (store : AlertStore) (rq : AlertRequest) (decision : string) (reasons : list string)
    (cooldown_predecessor dedup_predecessor : option Z) : result unit :=
  let rule := rq_rule rq in
  let confident := ru_minimum_confidence rule <=? rq_source_confidence rq in
  market ← _market_restrictions_match rule (rq_evidence rq);
  let reconstructed := _reconstructed_source (rq_evidence rq) in
  let eligible := ru_enabled rule && confident && market && negb reconstructed in
  _ ← refused (negb (String.eqb decision "INELIGIBLE") && negb eligible) "MUTATION_ALERT_NATIVE_PERMISSION_REJECTED";
  expected ←
    (if String.eqb decision "GENERATED" then Ok [(ru_rule_id rule ++ "_ALERT")%string]
     else if String.eqb decision "SUPPRESSED_DEDUP" then Ok ["DUPLICATE_EVENT_KEY"]
     else if String.eqb decision "SUPPRESSED_COOLDOWN" then Ok ["COOLDOWN_ACTIVE"]
     else if reconstructed then Ok ["RECONSTRUCTED_SUPPRESSED"]
     else if negb market then Ok ["MARKET_RESTRICTION"]
     else if negb (ru_enabled rule) then Ok ["RULE_DISABLED"]
     else if negb confident then Ok ["MINIMUM_CONFIDENCE"]
     else match List.find (fun a => String.eqb (al_event_key a) (event_key_of rq)
                                    && negb (has (al_decision_evidence_id a))) (as_alerts store) with
          | Some _ => Ok ["LEGACY_DEDUP_PREDECESSOR_UNKNOWN"]
          | None => ValueError "MUTATION_ALERT_NATIVE_INELIGIBILITY_REQUIRED"
          end);
  _ ← refused (negb (same_reasons reasons expected)) "MUTATION_ALERT_NATIVE_REASONS_MISMATCH";
  let prior := prior_of store rq in
  active ← match prior with
           | Some p => if 0 <? ru_cooldown_sessions rule
                       then n ← _trading_sessions_between (de_effective_session p) (rq_effective_date rq);
                            Ok (n <=? ru_cooldown_sessions rule)
                       else Ok false
           | None => Ok false
           end;
  _ ← refused (has cooldown_predecessor && (negb active || negb (bool_decide (de_id <$> prior = cooldown_predecessor))))
        "MUTATION_ALERT_COOLDOWN_PREDECESSOR_MISMATCH";
  _ ← refused (String.eqb decision "SUPPRESSED_COOLDOWN" && negb (has cooldown_predecessor))
        "MUTATION_ALERT_COOLDOWN_PREDECESSOR_REQUIRED";
  _ ← refused (String.eqb decision "GENERATED" && active
               && negb (bool_decide (de_source_event_key <$> prior = Some (rq_source_event_key rq))))
        "MUTATION_ALERT_COOLDOWN_ACTIVE";
  _ ← match dedup_predecessor with
      | None => Ok tt
      | Some i =>
          match List.find (fun e => de_id e =? i) (as_decisions store) with
          | None => ValueError "EVIDENCE_UNAVAILABLE"
          | Some duplicate =>
              refused (negb (String.eqb (re_rule_id (de_rule duplicate)) (ru_rule_id rule))
                       || negb (String.eqb (de_decision duplicate) "GENERATED")
                       || negb (String.eqb (de_ticker duplicate) (upper (rq_ticker rq)))
                       || negb (String.eqb (de_timeframe duplicate) (rq_timeframe rq))
                       || negb (String.eqb (de_source_event_key duplicate) (rq_source_event_key rq))
                       || (rq_effective_date rq <? de_effective_session duplicate))
                "MUTATION_ALERT_DEDUP_PREDECESSOR_MISMATCH"
          end
      end;
  refused (String.eqb decision "SUPPRESSED_DEDUP" && negb (has dedup_predecessor))
    "MUTATION_ALERT_DEDUP_PREDECESSOR_REQUIRED".

Definition decision_payload (rq : AlertRequest) : dict :=
  dict_update (rq_evidence rq)
    [("source_confidence", VInt (rq_source_confidence rq));
     ("evaluation_run_id", of_opt VInt (rq_evaluation_run_id rq));
     ("lifecycle_event_id", of_opt VInt (rq_lifecycle_event_id rq));
     ("signal_change_event_id", of_opt VInt (rq_signal_change_event_id rq));
     ("episode_id", of_opt VInt (rq_episode_id rq))].

Definition already_generated (rq : AlertRequest) (e : SignalAlertDecisionEvidence) : bool :=
  String.eqb (re_rule_id (de_rule e)) (ru_rule_id (rq_rule rq)) && String.eqb (de_ticker e) (normalize_ticker (rq_ticker rq))
  && String.eqb (de_timeframe e) (rq_timeframe rq) && String.eqb (de_source_event_key e) (rq_source_event_key rq)
  && String.eqb (de_decision e) "GENERATED" && (de_effective_session e <=? rq_effective_date rq).

Definition persist_alert_decision_evidence (src : AlertSources) (rq : AlertRequest) (ids : source_ids) (decision : string)
    (reasons : list string) (cooldown_predecessor dedup_predecessor : option Z) (store : AlertStore)
    : result (AlertStore * SignalAlertDecisionEvidence) :=
  let '(setup_id, evaluation_id, transition_id) := ids in
  authority ← bind_alert_source rq ids decision;
  _ ← native_permission store rq decision reasons cooldown_predecessor dedup_predecessor;
  ruled ← persist_alert_rule_evidence (rq_rule rq) store;
  let '(store, rule_evidence) := (ruled : AlertStore * SignalAlertRuleEvidence) in
  let setup_id := match evaluation_id with
                  | Some evaluation => id_or setup_id (flatten (src_evaluation_setup src evaluation))
                  | None => setup_id
                  end in
  key ← contract_key "signal-alert-decision-evidence-v1"
          (EMapping true
             ([("rule_evidence_id", EInt (re_id rule_evidence)); ("setup_evidence_id", opt_int setup_id);
               ("lifecycle_evaluation_evidence_id", opt_int evaluation_id);
               ("lifecycle_transition_evidence_id", opt_int transition_id);
               ("cooldown_predecessor_evidence_id", opt_int cooldown_predecessor);
               ("dedup_predecessor_evidence_id", opt_int dedup_predecessor);
               ("ticker", EStr (normalize_ticker (rq_ticker rq))); ("timeframe", EStr (rq_timeframe rq));
               ("effective_session", EDate (rq_effective_date rq)); ("source_event_key", EStr (rq_source_event_key rq));
               ("semantic_key", EStr (rq_semantic_key rq)); ("decision", EStr decision);
               ("reasons", EList (map EStr reasons)); ("decision_payload", embed (VDict (decision_payload rq)))]
              ++ authority));
  match List.find (fun e => String.eqb (de_evidence_key e) key) (as_decisions store) with
  | Some existing => Ok (store, existing)
  | None =>
      _ ← refused (String.eqb decision "GENERATED" && existsb (already_generated rq) (as_decisions store))
            "MUTATION_ALERT_DEDUP_ALREADY_GENERATED";
      let row := mkDecisionEvidence (next_id (as_decisions store)) rule_evidence setup_id evaluation_id transition_id
                   cooldown_predecessor dedup_predecessor (normalize_ticker (rq_ticker rq)) (rq_timeframe rq)
                   (rq_effective_date rq) (rq_source_event_key rq) (rq_semantic_key rq) decision
                   (sort_by String.leb (unique reasons)) key in
      Ok (mkAlertStore (as_rule_evidence store) (as_decisions store ++ [row]) (as_alerts store), row)
  end.

(** ** One match *)

(** [add_alert_event]: the row, and whether it is new. *)
Definition add_alert_event (alert : SignalAlertEvent) (store : AlertStore) : SignalAlertEvent * bool * AlertStore :=
  match alert_with_key store (al_event_key alert) with
  | Some existing => (existing, false, store)
  | None => (alert, true, mkAlertStore (as_rule_evidence store) (as_decisions store) (as_alerts store ++ [alert]))
  end.

Definition suppressed_alert (event_ids : list (option Z)) (warnings : list string) : AlertServiceResult :=
  mkAlertResult 0 1 event_ids warnings.
Definition suppress (src : AlertSources) (rq : AlertRequest) (ids : source_ids) (decision : string) (reason : string)
    (cooldown_predecessor dedup_predecessor : option Z) (answer : AlertServiceResult) (store : AlertStore)
    : result (AlertStore * AlertServiceResult) :=
  persisted ← persist_alert_decision_evidence src rq ids decision [reason] cooldown_predecessor dedup_predecessor store;
  Ok ((persisted : AlertStore * SignalAlertDecisionEvidence).1, answer).

Definition _persist_alert (src : AlertSources) (rq : AlertRequest) (store : AlertStore)
    : result (AlertStore * AlertServiceResult) :=
  let rule := rq_rule rq in
  let ids := _source_evidence_ids src rq in
  _ ← refused (negb (certified_source ids)) "MUTATION_ALERT_CERTIFIED_SOURCE_REQUIRED";
  if _reconstructed_source (rq_evidence rq) then
    suppress src rq ids "INELIGIBLE" "RECONSTRUCTED_SUPPRESSED" None None
      (suppressed_alert [] ["RECONSTRUCTED_SUPPRESSED"]) store
  else
  market ← _market_restrictions_match rule (rq_evidence rq);
  if negb market then
    suppress src rq ids "INELIGIBLE" "MARKET_RESTRICTION" None None (suppressed_alert [] ["MARKET_RESTRICTION"]) store
  else if negb (ru_enabled rule) || (rq_source_confidence rq <? ru_minimum_confidence rule) then
    suppress src rq ids "INELIGIBLE" (if negb (ru_enabled rule) then "RULE_DISABLED" else "MINIMUM_CONFIDENCE") None None
      (suppressed_alert [] []) store
  else
  let event_key := event_key_of rq in
  match alert_event_by_key store event_key (rq_effective_date rq) with
  | Some existing =>
      match al_decision_evidence_id existing with
      | Some predecessor =>
          suppress src rq ids "SUPPRESSED_DEDUP" "DUPLICATE_EVENT_KEY" None (Some predecessor)
            (suppressed_alert [Some (al_id existing)] []) store
      | None =>
          suppress src rq ids "INELIGIBLE" "LEGACY_DEDUP_PREDECESSOR_UNKNOWN" None None
            (suppressed_alert [Some (al_id existing)] ["LEGACY_DEDUP_PREDECESSOR_UNKNOWN"]) store
      end
  | None =>
      cooldown ← _cooldown_predecessor store rq;
      match cooldown with
      | Some predecessor =>
          suppress src rq ids "SUPPRESSED_COOLDOWN" "COOLDOWN_ACTIVE" (Some (de_id predecessor)) None
            (suppressed_alert [] []) store
      | None =>
          persisted ← persist_alert_decision_evidence src rq ids "GENERATED" (rq_reason_codes rq) None None store;
          let '(store, decision) := (persisted : AlertStore * SignalAlertDecisionEvidence) in
          let alert :=
            mkSignalAlertEvent (next_id (as_alerts store)) (ru_id rule) (rq_lifecycle_event_id rq)
              (rq_signal_change_event_id rq) (rq_evaluation_run_id rq) (Some (de_id decision))
              (normalize_ticker (rq_ticker rq)) (rq_timeframe rq) (rq_effective_date rq) event_key
              (rq_source_event_key rq) "UNREAD" (ru_severity rule) (rq_reason_codes rq)
              (dict_update (rq_evidence rq)
                 [("rule_id", VStr (ru_rule_id rule)); ("semantic_key", VStr (rq_semantic_key rq));
                  ("source_confidence", VInt (rq_source_confidence rq))]) in
          let '(row, is_new, store) := add_alert_event alert store in
          Ok (store, if is_new then mkAlertResult 1 0 [Some (al_id row)] []
                     else mkAlertResult 0 1 [Some (al_id row)] [])
      end
  end.

(** ** The sources of alerts *)

Definition alert_reason (rule : SignalAlertRule) : string := (ru_rule_id rule ++ "_ALERT")%string.
Definition opt_value (s : option string) : pyval := of_opt VStr s.

Definition signal_request (rule : SignalAlertRule) (event : SignalChangeEvent) : AlertRequest :=
  let semantic_key := _signal_semantic_key rule event in
  let evidence := e_evidence_json event in
  mkAlertRequest rule (e_ticker event) (e_timeframe event) (e_effective_date event) (e_source_event_key event)
    (e_evaluation_run_id event) (_source_confidence event) semantic_key [alert_reason rule]
    [("source", VStr "signal_change_event"); ("signal_key", VStr (e_signal_key event));
     ("threshold_direction", opt_value (e_threshold_direction event)); ("direction", VStr (e_direction event));
     ("market_regime", dget evidence "market_regime"); ("setup_family", dget evidence "setup_family");
     ("old_value", VDict (e_old_value_json event)); ("new_value", VDict (e_new_value_json event));
     ("normalized_delta", of_opt (fun d => VStr (decimal_str d)) (e_normalized_delta event));
     ("source_evidence", VDict evidence); ("semantic_key", VStr semantic_key)]
    None (e_id event) (e_episode_id event).

Definition _event_market_regime (event : SetupLifecycleEvent) : result pyval :=
  match dget (or_empty_dict (le_evidence_json event)) "market_regime" with
  | VNone =>
      match le_snapshot_id event with
      | Some snapshot =>
          if snapshot =? 0 then Ok VNone
          else raw ← snapshot_market_regime snapshot;
               Ok (if is_none raw then VNone else VStr (py_str raw))
      | None => Ok VNone
      end
  | v => Ok (VStr (py_str v))
  end.
Definition lifecycle_request (market_regime : pyval) (rule : SignalAlertRule) (event : SetupLifecycleEvent) : AlertRequest :=
  let semantic_key := _lifecycle_semantic_key rule event in
  mkAlertRequest rule (le_ticker event) (le_timeframe event) (le_effective_date event) (le_source_event_key event)
    (le_evaluation_run_id event) (le_confidence_score event) semantic_key [alert_reason rule]
    [("source", VStr "lifecycle_event"); ("to_state", opt_value (le_to_state event));
     ("to_phase", opt_value (le_to_phase event)); ("actionability_after", opt_value (le_actionability_after event));
     ("market_regime", market_regime); ("setup_family", VStr (le_setup_family event));
     ("source_evidence", VDict (or_empty_dict (le_evidence_json event))); ("semantic_key", VStr semantic_key)]
    (le_id event) None (le_episode_id event).
Definition gate_request (rule : SignalAlertRule) (result : EpisodeEvaluationResult) (episode : BlockedEpisode)
    (evaluation_run_id : option Z) : AlertRequest :=
  let semantic_key := ("GATE_BLOCKED:" ++ match be_episode_id episode with Some i => str_of_Z i | None => "None" end)%string in
  mkAlertRequest rule (be_ticker episode) (be_timeframe episode) (be_current_as_of_date episode)
    (sha256 (String.concat "|" ["gate_blocked"; text_or_blank evaluation_run_id; text_or_blank (be_episode_id episode);
                                be_ticker episode; be_timeframe episode; date_isoformat (be_current_as_of_date episode);
                                String.concat "," (er_blockers result)]))
    evaluation_run_id (er_confidence_score result) semantic_key ["GATE_BLOCKED_ALERT"]
    [("source", VStr "actionability_change"); ("semantic_key", VStr semantic_key);
     ("actionability_after", VStr (er_actionability result)); ("blockers", VList (map VStr (er_blockers result)));
     ("market_regime", be_market_regime episode); ("setup_family", VStr (be_setup_family episode))]
    None None (be_episode_id episode).

(** Matches a request per rule, in order, and adds up their results. *)
Definition alert_step (src : AlertSources) (matches : SignalAlertRule -> result bool)
    (request : SignalAlertRule -> AlertRequest) (acc : AlertStore * AlertServiceResult) (rule : SignalAlertRule)
    : result (AlertStore * AlertServiceResult) :=
  matched ← matches rule;
  if negb matched then Ok acc
  else outcome ← _persist_alert src (request rule) acc.1;
       Ok ((outcome : AlertStore * AlertServiceResult).1, add_results acc.2 outcome.2).

Definition evaluate_lifecycle_event (src : AlertSources) (rules : list SignalAlertRule) (event : SetupLifecycleEvent)
    (store : AlertStore) : result (AlertStore * AlertServiceResult) :=
  market_regime ← _event_market_regime event;
  total ← fold_result (alert_step src (fun rule => Ok (_lifecycle_rule_matches rule event))
                         (fun rule => lifecycle_request market_regime rule event)) (store, no_alerts) rules;
  Ok ((total : AlertStore * AlertServiceResult).1, unique_warnings total.2).

Definition evaluate_signal_change_events (src : AlertSources) (rules : list SignalAlertRule)
    (events : list SignalChangeEvent) (store : AlertStore) : result (AlertStore * AlertServiceResult) :=
  total ← fold_result (fun acc event =>
            fold_result (alert_step src (fun rule => _signal_rule_matches rule event)
                           (fun rule => signal_request rule event)) acc rules) (store, no_alerts) events;
  Ok ((total : AlertStore * AlertServiceResult).1, unique_warnings total.2).

Definition _create_gate_blocked_alert (src : AlertSources) (rules : list SignalAlertRule)
    (result : EpisodeEvaluationResult) (evaluation_run_id : option Z) (store : AlertStore)
    : Prelude.result (AlertStore * AlertServiceResult) :=
  match er_episode result, List.find (fun rule => String.eqb (ru_rule_id rule) "GATE_BLOCKED") rules with
  | Some episode, Some rule => _persist_alert src (gate_request rule result episode evaluation_run_id) store
  | _, _ => Ok (store, no_alerts)
  end.

Definition evaluate_episode_result (src : AlertSources) (rules : list SignalAlertRule)
    (result : EpisodeEvaluationResult) (evaluation_run_id : option Z) (store : AlertStore)
    : Prelude.result (AlertStore * AlertServiceResult) :=
  lifecycle ← match er_lifecycle_event result with
              | Some event => evaluate_lifecycle_event src rules event store
              | None => Ok (store, no_alerts)
              end;
  let '(store, total) := (lifecycle : AlertStore * AlertServiceResult) in
  if _became_blocked result then
    gate ← _create_gate_blocked_alert src rules result evaluation_run_id store;
    Ok ((gate : AlertStore * AlertServiceResult).1, unique_warnings (add_results total gate.2))
  else Ok (store, unique_warnings total).

End Decisions.
End Alerts.
