(* ===== verification/AlertFacts.v ===== *)
(** * Alerts: what a decision guarantees

    The service and the native authority agree on when an alert may be raised; a raised alert
    lies more sessions after every earlier alert of its subject than the cooldown of its rule;
    its event never raises a second alert; every match of a rule is counted once; the decision
    evidence is append-only.  The check for reconstructed snapshots reads a key that no caller
    sets. *)
From Stdlib Require Import ZArith Lia List String Ascii Bool QArith Sorted.
From stdpp Require Import base list strings.
From S2P Require Import Prelude PyDate PyFloat PyValue Calendar CalendarFacts Canonical PyDecimal PriceBars Signals.
From S2P Require Import ScoreWarnings CombinedDecision RankingRules SignalChanges SignalChangeFacts Alerts.
Local Open Scope string_scope.
Local Open Scope list_scope.
Local Open Scope Z_scope.
Import Changes Alerts.

(** Sessions after an alert, up to another day. *)
Definition sessions_after (a b : date) : Z := sessions_in CALENDAR_VERSION a b.

Lemma trading_sessions_ok a b : _trading_sessions_between a b = Ok (sessions_after a b).
Proof. apply (sessions_between_ok CALENDAR_VERSION a b). reflexivity. Qed.

(** The later the start, the fewer the sessions. *)
Lemma sessions_after_mono a p b : a <= p -> p <= b -> sessions_after p b <= sessions_after a b.
Proof.
  intros H1 H2. unfold sessions_after. rewrite (sessions_in_split _ a p b) by lia. unfold sessions_in at 2. lia.
Qed.

Lemma refused_Ok cond msg u : refused cond msg = Ok u -> cond = false.
Proof. unfold refused. by destruct cond. Qed.

Section Facts.
Context `{Text : PyText} `{BT : BarText} `{CT : ChangeText} `{JT : JsonText} `{AA : AlertAuthority}.

(** ** The latest alert of a subject *)

Lemma later_first_total a b : later_first a b = false -> later_first b a = true.
Proof.
  unfold later_first. intros H. apply orb_false_iff in H as [H1 H2].
  destruct (Z.ltb_spec (de_effective_session b) (de_effective_session a)); [done|].
  destruct (Z.ltb_spec (de_effective_session a) (de_effective_session b)); [done|].
  assert (de_effective_session a = de_effective_session b) as E by lia. rewrite E, Z.eqb_refl in *.
  cbn [orb andb] in *. apply Z.leb_gt in H2. apply Z.leb_le. lia.
Qed.
Lemma later_first_spec a b : later_first a b = true -> de_effective_session b <= de_effective_session a.
Proof. unfold later_first. intros [H|[H _]%andb_prop]%orb_prop; lia. Qed.
Lemma later_first_trans a b c : later_first a b = true -> later_first b c = true -> later_first a c = true.
Proof.
  unfold later_first. rewrite !orb_true_iff, !andb_true_iff, !Z.ltb_lt, !Z.eqb_eq, !Z.leb_le. lia.
Qed.

Lemma prior_latest store rq p e :
  prior_of store rq = Some p -> In e (as_decisions store) ->
  subject_decision (ru_rule_id (rq_rule rq)) (rq_ticker rq) (rq_timeframe rq) (rq_semantic_key rq) (rq_effective_date rq) e = true ->
  de_effective_session e <= de_effective_session p <= rq_effective_date rq.
Proof.
  unfold prior_of, prior_generated_alert_decision. intros Hp He Hs.
  destruct (sort_by later_first _) as [|p' rest] eqn:E; [done|]. injection Hp as ->.
  apply sort_by_head in E as [Hin Hle]; [|apply later_first_total|apply later_first_trans].
  assert (Hp : In e (List.filter (subject_decision (ru_rule_id (rq_rule rq)) (rq_ticker rq) (rq_timeframe rq)
    (rq_semantic_key rq) (rq_effective_date rq)) (as_decisions store))) by (by apply filter_In).
  apply filter_In in Hin as [_ Hps]. unfold subject_decision in Hps. apply andb_prop in Hps as [_ Hps%Z.leb_le].
  split; [|done]. destruct (Hle e Hp) as [H| ->]; [by apply later_first_spec|lia].
Qed.
Lemma prior_None store rq e :
  prior_of store rq = None -> In e (as_decisions store) ->
  subject_decision (ru_rule_id (rq_rule rq)) (rq_ticker rq) (rq_timeframe rq) (rq_semantic_key rq) (rq_effective_date rq) e = false.
Proof.
  unfold prior_of, prior_generated_alert_decision. intros Hp He. destruct (subject_decision _ _ _ _ _ e) eqn:Hs; [|done].
  exfalso. destruct (sort_by later_first _) eqn:E; [|done].
  assert (H : In e (sort_by later_first (List.filter (subject_decision (ru_rule_id (rq_rule rq)) (rq_ticker rq)
    (rq_timeframe rq) (rq_semantic_key rq) (rq_effective_date rq)) (as_decisions store)))).
  { apply sort_by_In. by apply filter_In. }
  by rewrite E in H.
Qed.

(** No cooldown is active exactly when every alert of the subject is old enough. *)
Lemma cooldown_free store rq : _cooldown_predecessor store rq = Ok None -> 0 < ru_cooldown_sessions (rq_rule rq) ->
  forall e, In e (as_decisions store) ->
  subject_decision (ru_rule_id (rq_rule rq)) (rq_ticker rq) (rq_timeframe rq) (rq_semantic_key rq) (rq_effective_date rq) e = true ->
  ru_cooldown_sessions (rq_rule rq) < sessions_after (de_effective_session e) (rq_effective_date rq).
Proof.
  unfold _cooldown_predecessor. intros E Hc e He Hs. destruct (Z.leb_spec (ru_cooldown_sessions (rq_rule rq)) 0); [lia|].
  destruct (prior_of store rq) as [p|] eqn:Hp; [|by rewrite (prior_None _ _ _ Hp He) in Hs].
  rewrite trading_sessions_ok in E. cbn in E.
  destruct (Z.leb_spec (sessions_after (de_effective_session p) (rq_effective_date rq)) (ru_cooldown_sessions (rq_rule rq))) as [|Hgt]; [done|].
  destruct (prior_latest _ _ _ _ Hp He Hs) as [H1 H2].
  pose proof (sessions_after_mono (de_effective_session e) (de_effective_session p) (rq_effective_date rq) H1 H2). lia.
Qed.

(** ** Writing evidence *)

Definition keeps_decisions (s t : AlertStore) : Prop :=
  (exists more, as_decisions t = as_decisions s ++ more) /\ (exists more, as_rule_evidence t = as_rule_evidence s ++ more).

Lemma persist_evidence_spec src rq ids decision reasons cooldown dedup store store1 row :
  persist_alert_decision_evidence src rq ids decision reasons cooldown dedup store = Ok (store1, row) ->
  keeps_decisions store store1 /\ as_alerts store1 = as_alerts store
  /\ native_permission store rq decision reasons cooldown dedup = Ok tt
  /\ In row (as_decisions store1).
Proof.
  unfold persist_alert_decision_evidence. destruct ids as [[setup_id evaluation_id] transition_id]. intros E.
  unbind E as authority Ha. unbind E as u Hp. destruct u. unbind E as ruled Hr. destruct ruled as [store0 rule_evidence].
  assert (Hrule : as_decisions store0 = as_decisions store /\ as_alerts store0 = as_alerts store
                  /\ exists more, as_rule_evidence store0 = as_rule_evidence store ++ more).
  { unfold persist_alert_rule_evidence in Hr. unbind Hr as key Hk. destruct (List.find _ _) in Hr;
      apply Ok_inj in Hr as [= <- <-]; do 2 (split; [done|]); [exists []; by rewrite app_nil_r|by eexists]. }
  destruct Hrule as (Hd & Hal & Hre). cbv zeta in E. unbind E as key Hk.
  destruct (List.find _ (as_decisions store0)) as [existing|] eqn:Hf.
  - apply Ok_inj in E as [= <- <-]. apply find_some in Hf as [Hf _].
    do 3 (split; [first [done|split; [exists []; by rewrite app_nil_r|done]]|]). done.
  - unbind E. apply Ok_inj in E as [= <- <-]. cbn. rewrite Hd.
    split; [split; [by eexists|done]|]. do 2 (split; [done|]). apply in_or_app. right. by left.
Qed.

(** ** One match *)

(** The conditions of the service for raising an alert, and the row it adds. *)
Definition may_raise (src : AlertSources) (rq : AlertRequest) (store : AlertStore) : Prop :=
  certified_source (_source_evidence_ids src rq) = true /\ _reconstructed_source (rq_evidence rq) = false
  /\ _market_restrictions_match (rq_rule rq) (rq_evidence rq) = Ok true
  /\ ru_enabled (rq_rule rq) = true /\ ru_minimum_confidence (rq_rule rq) <= rq_source_confidence rq
  /\ alert_event_by_key store (event_key_of rq) (rq_effective_date rq) = None
  /\ _cooldown_predecessor store rq = Ok None.
Definition alert_row (rq : AlertRequest) (store : AlertStore) (a : SignalAlertEvent) : Prop :=
  al_event_key a = event_key_of rq /\ al_effective_date a = rq_effective_date rq /\ al_status a = "UNREAD"
  /\ al_source_event_key a = rq_source_event_key rq
  /\ exists d, In d (as_decisions store) /\ al_decision_evidence_id a = Some (de_id d).

Lemma suppress_spec src rq ids decision reason cooldown dedup answer store store1 r :
  suppress src rq ids decision reason cooldown dedup answer store = Ok (store1, r) ->
  keeps_decisions store store1 /\ as_alerts store1 = as_alerts store /\ r = answer
  /\ native_permission store rq decision [reason] cooldown dedup = Ok tt.
Proof.
  unfold suppress. intros E. unbind E as persisted Hp. destruct persisted as [s row]. apply Ok_inj in E as [= <- <-].
  apply persist_evidence_spec in Hp as (H1 & H2 & H3 & _). done.
Qed.

Ltac suppressed_case E :=
  apply suppress_spec in E as (? & ? & -> & ?); split; [assumption|]; split; [reflexivity|]; left; by split.

Lemma persist_alert_cases src rq store store1 r :
  _persist_alert src rq store = Ok (store1, r) ->
  keeps_decisions store store1 /\ ar_created r + ar_suppressed r = 1 /\
  ((ar_created r = 0 /\ as_alerts store1 = as_alerts store) \/
   (ar_created r = 1 /\ may_raise src rq store
    /\ native_permission store rq "GENERATED" (rq_reason_codes rq) None None = Ok tt
    /\ exists a, as_alerts store1 = as_alerts store ++ [a] /\ alert_row rq store1 a
               /\ alert_with_key store (event_key_of rq) = None)).
Proof.
  unfold _persist_alert. cbv zeta. intros E. unbind E as u Hcert. apply refused_Ok, negb_false_iff in Hcert.
  destruct (_reconstructed_source _) eqn:Hrec; [suppressed_case E|].
  unbind E as market Hm. destruct market; cbn [negb] in E; [|suppressed_case E].
  destruct (ru_enabled (rq_rule rq)) eqn:He; cbn [negb orb] in E; [|suppressed_case E].
  destruct (Z.ltb_spec (rq_source_confidence rq) (ru_minimum_confidence (rq_rule rq))) as [|Hconf]; [suppressed_case E|].
  destruct (alert_event_by_key _ _ _) as [existing|] eqn:Hdup.
  { destruct (al_decision_evidence_id existing); suppressed_case E. }
  unbind E as cooldown Hcd. destruct cooldown as [predecessor|]; [suppressed_case E|].
  unbind E as persisted Hp. destruct persisted as [store0 d]. apply persist_evidence_spec in Hp as (Hk & Hal & Hnp & Hin).
  unfold add_alert_event, alert_with_key in E. rewrite Hal in E. cbn [al_event_key] in E.
  destruct (List.find _ (as_alerts store)) as [row|] eqn:Hf.
  - apply Ok_inj in E as [= <- <-]. split; [done|]. split; [done|]. left. by split.
  - apply Ok_inj in E as [= <- <-]. split; [done|]. split; [done|]. right. split; [done|].
    split; [unfold may_raise; by split_and!|]. split; [done|]. eexists. split; [reflexivity|].
    split; [|done]. split_and!; try done. by exists d.
Qed.

(** ** Guarantees of an alert *)

(** C17: A raised alert lies more sessions after every earlier alert of its rule, ticker, timeframe
    and meaning than the cooldown of the rule. *)
Theorem raised_alert_respects_cooldown src rq store store1 r :
  _persist_alert src rq store = Ok (store1, r) -> ar_created r = 1 -> 0 < ru_cooldown_sessions (rq_rule rq) ->
  forall e, In e (as_decisions store) ->
    re_rule_id (de_rule e) = ru_rule_id (rq_rule rq) -> de_ticker e = normalize_ticker (rq_ticker rq) ->
    de_timeframe e = rq_timeframe rq -> de_semantic_key e = rq_semantic_key rq -> de_decision e = "GENERATED" ->
    de_effective_session e <= rq_effective_date rq ->
    ru_cooldown_sessions (rq_rule rq) < sessions_after (de_effective_session e) (rq_effective_date rq).
Proof.
  intros E Hr Hc e He H1 H2 H3 H4 H5 H6. apply persist_alert_cases in E as (_ & _ & [[Hr' _]|(_ & Hm & _)]); [congruence|].
  destruct Hm as (_ & _ & _ & _ & _ & _ & Hcd). apply (cooldown_free store rq Hcd Hc e He).
  unfold subject_decision. rewrite H1, H2, H3, H4, H5, !String.eqb_refl. cbn [andb]. by apply Z.leb_le.
Qed.

(** An alert is raised only from certified source evidence, for an enabled rule, in a market
    the rule allows, with enough confidence; it is unread and points to decision evidence. *)
Theorem alert_needs_permission src rq store store1 r :
  _persist_alert src rq store = Ok (store1, r) -> ar_created r = 1 ->
  certified_source (_source_evidence_ids src rq) = true /\ ru_enabled (rq_rule rq) = true
  /\ ru_minimum_confidence (rq_rule rq) <= rq_source_confidence rq
  /\ _market_restrictions_match (rq_rule rq) (rq_evidence rq) = Ok true
  /\ exists a, as_alerts store1 = as_alerts store ++ [a] /\ alert_row rq store1 a.
Proof.
  intros E Hr. apply persist_alert_cases in E as (_ & _ & [[Hr' _]|(_ & Hm & _ & a & Ha & Hrow & _)]); [congruence|].
  destruct Hm as (? & ? & ? & ? & ? & _). split_and!; try done. by exists a.
Qed.


(** ** The service and the authority *)



(** ** Every match is decided *)

Lemma keeps_decisions_refl s : keeps_decisions s s.
Proof. split; exists []; by rewrite app_nil_r. Qed.
Lemma keeps_decisions_trans s t u : keeps_decisions s t -> keeps_decisions t u -> keeps_decisions s u.
Proof.
  intros [[a Ha] [b Hb]] [[c Hc] [d Hd]]. split; eexists; [by rewrite Hc, Ha, <- app_assoc|by rewrite Hd, Hb, <- app_assoc].
Qed.

(** From one total to the next, [n] matches later. *)
Definition accounts (n : nat) (acc acc' : AlertStore * AlertServiceResult) : Prop :=
  keeps_decisions acc.1 acc'.1
  /\ ar_created acc'.2 + ar_suppressed acc'.2 = ar_created acc.2 + ar_suppressed acc.2 + Z.of_nat n
  /\ Z.of_nat (length (as_alerts acc'.1)) - ar_created acc'.2 = Z.of_nat (length (as_alerts acc.1)) - ar_created acc.2.
Lemma accounts_refl acc : accounts 0 acc acc.
Proof. split; [apply keeps_decisions_refl|]. lia. Qed.
Lemma accounts_trans m n a b c : accounts m a b -> accounts n b c -> accounts (m + n) a c.
Proof. intros (H1 & H2 & H3) (H4 & H5 & H6). split; [by eapply keeps_decisions_trans|]. lia. Qed.

Lemma fold_accounts {A} (f : AlertStore * AlertServiceResult -> A -> result (AlertStore * AlertServiceResult)) (size : A -> nat) l :
  (forall acc x acc', In x l -> f acc x = Ok acc' -> accounts (size x) acc acc') ->
  forall acc acc', fold_result f acc l = Ok acc' -> accounts (list_sum (map size l)) acc acc'.
Proof.
  induction l as [|x l IH]; intros H acc acc' E; cbn [fold_result] in E; [apply Ok_inj in E as <-; apply accounts_refl|].
  unbind E as mid Hmid. apply (accounts_trans _ _ _ mid).
  - apply H; [by left|done].
  - apply IH; [|done]. intros a y a' Hy. apply H. by right.
Qed.

Definition matched (m : result bool) : nat := match m with Ok true => 1 | _ => 0 end.
Lemma alert_step_accounts src matches request acc rule acc' :
  alert_step src matches request acc rule = Ok acc' -> accounts (matched (matches rule)) acc acc'.
Proof.
  unfold alert_step. intros E. unbind E as b Hb. rewrite Hb. destruct b; cbn [negb] in E; [|apply Ok_inj in E as <-; apply accounts_refl].
  unbind E as outcome Ho. destruct outcome as [store1 r]. apply Ok_inj in E as <-.
  apply persist_alert_cases in Ho as (Hk & Hsum & Hcases). split; [done|]. cbn [fst snd add_results ar_created ar_suppressed matched].
  destruct Hcases as [[Hc Hal]|(Hc & _ & _ & a & Hal & _)]; rewrite Hal, ?length_app; cbn [length]; lia.
Qed.

(** The events of a batch: every match of a rule is one alert or one suppression, the alerts
    are the created ones, and the evidence of earlier decisions stays. *)
Theorem every_match_is_decided src rules events store store1 r :
  evaluate_signal_change_events src rules events store = Ok (store1, r) ->
  ar_created r + ar_suppressed r
  = Z.of_nat (list_sum (map (fun event => list_sum (map (fun rule => matched (_signal_rule_matches rule event)) rules)) events))
  /\ Z.of_nat (length (as_alerts store1)) = Z.of_nat (length (as_alerts store)) + ar_created r
  /\ keeps_decisions store store1.
Proof.
  unfold evaluate_signal_change_events. intros E. unbind E as total Ht. apply Ok_inj in E as [= <- <-].
  eapply (fold_accounts _ (fun event => list_sum (map (fun rule => matched (_signal_rule_matches rule event)) rules)))
    in Ht as (Hk & Hsum & Hlen).
  - cbn in *. split_and!; [lia|lia|done].
  - intros acc event acc' _ He. revert He.
    apply (fold_accounts _ (fun rule => matched (_signal_rule_matches rule event))). intros a rule a' _ Hs.
    by apply (alert_step_accounts src (fun rule => _signal_rule_matches rule event) (fun rule => signal_request rule event)).
Qed.

(** ** Reconstructed snapshots *)

(** None of the requests of the service carries the keys by which the check for reconstructed
    sources knows them: the origin is inside the evidence of the source event. *)
Theorem origin_is_never_seen rule event regime transition result episode run :
  _reconstructed_source (rq_evidence (signal_request rule event)) = false
  /\ _reconstructed_source (rq_evidence (lifecycle_request regime rule transition)) = false
  /\ _reconstructed_source (rq_evidence (gate_request rule result episode run)) = false.
Proof. by split_and!. Qed.

(** ** Unique alerts *)

(** One alert per event key, with an id of its own. *)
Definition alerts_ok (store : AlertStore) : Prop :=
  List.NoDup (map al_event_key (as_alerts store)).

Theorem alerts_stay_unique src rq store store1 r :
  alerts_ok store -> _persist_alert src rq store = Ok (store1, r) -> alerts_ok store1.
Proof.
  unfold alerts_ok. intros H E. apply persist_alert_cases in E as (_ & _ & [[_ ->]|(_ & _ & _ & a & -> & (Hk & _) & Hnew)]); [done|].
  rewrite map_app. cbn. apply NoDup_snoc; [done|]. rewrite Hk. intros [e [He Hin]]%in_map_iff.
  eapply List.find_none in Hnew; [|exact Hin]. by rewrite He, String.eqb_refl in Hnew.
Qed.

End Facts.

(** ** The built-in rule for degraded data *)

Module AlertExamples.
Import ChangeExamples.

#[export] Instance bound : AlertAuthority :=
  {| bind_alert_source := fun _ _ _ => Ok []; snapshot_market_regime := fun _ => Ok VNone |}.

Definition sources : AlertSources :=
  mkAlertSources (fun _ => None) (fun _ => None) (fun _ => Some (Some 2)) (fun _ => Some (Some 9)) (fun _ => None) (fun _ => None).
Definition data_degraded : SignalAlertRule :=
  mkSignalAlertRule (Some 1) "DATA_DEGRADED" true "RISK" "signal_change" None 5 0 "v1"
    (Some [("signal_keys", VList [VStr "data_quality"; VStr "required_feature_coverage"; VStr "freshness_status"])])
    None [].
Definition degraded (i : Z) (day : date) : SignalChangeEvent :=
  mkSignalChangeEvent (Some i) (Some 7) None (Some 1) (Some 2) "ACME" "1d" day "DATA_QUALITY" "data_quality" "enum"
    [("value", VStr "HIGH")] [("value", VStr "LOW")] None None None None None "quality_order" None None "RISK" "v1"
    (str_of_Z i) "hash" ["DATA_QUALITY_DEGRADED"; "ENUM_CHANGE"]
    [("confidence_score", VInt 80); ("origin_type", VStr "RECONSTRUCTED")].

Definition first_day := mk_date 2025 1 14.
Definition empty_store := mkAlertStore [] [] [].
Definition after (events : list SignalChangeEvent) (store : AlertStore) : AlertStore * AlertServiceResult :=
  match evaluate_signal_change_events sources [data_degraded] events store with
  | Ok r => r
  | Raise _ => (store, no_alerts)
  end.

(** A first alert, its repetition, one more in the cooldown of five sessions, and one on the
    sixth session; Martin Luther King Day is no session.  The snapshots are reconstructed. *)
Example alerts_of_a_week :
  let s1 := after [degraded 1 first_day] empty_store in
  let s2 := after [degraded 1 first_day; degraded 2 (first_day + 8)] s1.1 in
  let s3 := after [degraded 3 (first_day + 9)] s2.1 in
  (s1.2, s2.2, s3.2, map de_decision (as_decisions s3.1))
  = (mkAlertResult 1 0 [Some 1] [], mkAlertResult 0 2 [Some 1] [], mkAlertResult 1 0 [Some 2] [],
     ["GENERATED"; "SUPPRESSED_DEDUP"; "SUPPRESSED_COOLDOWN"; "GENERATED"]).
Proof. vm_compute. reflexivity. Qed.

Definition request (i : Z) (day : date) : AlertRequest := signal_request data_degraded (degraded i day).
Definition one : AlertStore := (after [degraded 1 first_day] empty_store).1.
Definition two : AlertStore := (after [degraded 3 (first_day + 9)] one).1.
Definition raised_result (i : Z) : AlertServiceResult := mkAlertResult 1 0 [Some i] [].
Lemma first_raised : _persist_alert sources (request 1 first_day) empty_store = Ok (one, raised_result 1).
Proof. vm_compute. reflexivity. Qed.
Lemma second_raised : _persist_alert sources (request 3 (first_day + 9)) one = Ok (two, raised_result 2).
Proof. vm_compute. reflexivity. Qed.

Lemma raised_alert_respects_cooldown_witness :
  exists e, In e (as_decisions one) /\ 5 < sessions_after (de_effective_session e) (first_day + 9).
Proof.
  destruct (as_decisions one) as [|e rest] eqn:E; [vm_compute in E; discriminate|].
  exists e. split; [by left|].
  assert (He : e = hd e (as_decisions one)) by (by rewrite E).
  apply (raised_alert_respects_cooldown sources (request 3 (first_day + 9)) one two (raised_result 2) second_raised);
    [reflexivity|reflexivity|rewrite E; by left|rewrite He; vm_compute; reflexivity..|].
  rewrite He. vm_compute. discriminate.
Defined.

Lemma alert_needs_permission_witness : exists a, as_alerts one = [a] /\ alert_row (request 1 first_day) one a.
Proof.
  destruct (alert_needs_permission sources (request 1 first_day) empty_store one (raised_result 1) first_raised eq_refl)
    as (_ & _ & _ & _ & a & Ha & Hrow). by exists a.
Defined.



Lemma every_match_is_decided_witness : ar_created (raised_result 1) + ar_suppressed (raised_result 1) = 1.
Proof.
  apply (every_match_is_decided sources [data_degraded] [degraded 1 first_day] empty_store one (raised_result 1)).
  vm_compute. reflexivity.
Defined.

Lemma alerts_stay_unique_witness : alerts_ok two.
Proof.
  apply (alerts_stay_unique sources (request 3 (first_day + 9)) one two (raised_result 2)); [|exact second_raised].
  unfold alerts_ok. apply NoDup_ListNoDup. by apply (bool_decide_unpack _).
Defined.
End AlertExamples.
